(* ===== verification/_CoqProject ===== *)
-Q . S2P
Prelude.v
Config.v
State.v
Sched.v
DelayList.v
Hal.v
Clock.v
Kernel.v
Event.v
Sample.v
CoreExamples.v
Semaphore.v
Mutex.v
Mbox.v
Ring.v
Queue.v
DQueue.v
DQueueSpec.v
DQueueExamples.v
Blocking.v
Tasks.v
System.v
Time.v
Text.v
Info.v
InfoSpec.v
Watermark.v
Load.v
Tickless.v
SysArch.v
SysArchSpec.v
SysMbox.v
SysThread.v
SysArchExamples.v
TimerHeap.v
Timer.v
TimerSpec.v
TimerTask.v
TimerExamples.v
Terminal.v
TermCmds.v
TermLine.v
TermProcess.v
TermExamples.v
Chain.v
Heap.v
HeapSpec.v
HeapAlloc.v
HeapUse.v
HeapInfo.v
HeapExamples.v
Device.v
DeviceSpec.v
DeviceExamples.v
Touch.v
TouchExamples.v
Gui.v
GuiSpec.v
GuiExamples.v
Graph.v
