(* ===== verification/Prelude.v ===== *)
(** * BRTOS: a verification library for the BRTOS real-time kernel

    BRTOS (src/brtos) is a preemptive fixed-priority kernel for small
    processors.  Each installed task owns one priority; the kernel keeps the set
    of ready priorities in one machine word, always runs the highest one that is
    ready and not blocked, and lets tasks sleep until a tick and wait for
    semaphores, mutexes, mailboxes and queues.  This library translates the
    kernel and its Cortex-M4 port (src/hal/GCC_CORTEX-M4) into executable Rocq
    functions and proves what the services promise.

    ** How the program is modelled

    The variables of the kernel are one record [OS] (State.v): the ready and
    blocked words, the priority vector, the task control blocks, the head and
    tail of the delay list, the tick counter, the event tables, the queue heap,
    the interrupt mask, the stack pointers and the stack memory.  Control blocks
    are referred to by their index, so that two pointers to one block are the
    same index and a write through one is seen through the other; a pointer that
    may be null is an [option].  Unsigned C objects are integers [Z] truncated
    at every store ([uint8], [uint16], [uint32], [uint ostick_bits]).

    A service is a [prog A], a function from the state to a result: [Done a s]
    returns [a]; [Yield s k] gives up the processor in the state [s] in which the
    next task already runs, and [k] is the rest of the service, run on the state
    of the moment at which the caller is dispatched again; [Fault] is undefined
    behaviour of C (an index outside an array, a null pointer, a loop that does
    not end within its fuel).  A theorem that a service returns is therefore also
    a theorem that it does not fault and that its loops end.

    The configuration macros are a class [Config] (Config.v): number of
    priorities (hence the width of the ready word), number of tasks, width of the
    tick, ERROR_CHECK, table sizes.  The theorems hold for all of its instances;
    [ExampleConfig] is src/ConfigExample/BRTOSConfig.h.  The allocator behind
    BRTOS_ALLOC and BRTOS_DEALLOC is a field of the class; a theorem that needs
    a successful allocation says so.  Builds are with VERBOSE, OSTRACE and the
    hooks off and COMPUTES_CPU_LOAD on, as in the example configuration.

    ** The files

    - Prelude: machine integers, arrays, bit sets, their lemmas and tactics.
    - Config, State: configuration, constants, data of BRTOS.h, the state, the
      program monad, critical sections (HAL.c, OS_CPU_SR_Save and Restore).
    - Sched: SAScheduler (BRTOS.c) in its three widths, the leading-zero
      scheduler of HAL.h, OSSchedule, updates of the ready and blocked words.
    - DelayList: the macros IncludeTaskIntoDelayList and RemoveFromDelayList of
      BRTOS.h, on the doubly linked list threaded through the control blocks.
    - Hal: ChangeContext, SwitchContext, OS_INT_EXIT, the first switch, and the
      stack frames of CreateDVirtualStack and CreateVirtualStack.
    - Clock: tick counter, OSDelayTask, OSDelayTaskHMSM, OS_TICK_HANDLER,
      TickTimer, getters, the CPU load.
    - Kernel: the invariant [wf] and what a switch, a tick and a delay do to it.
    - Event: the code the four event services share, for a class [Event] of
      control blocks with a wait list: joining it with a deadline, leaving it,
      releasing the highest waiter, searching a free block.
    - Sample, CoreExamples: boolean checkers of the invariants, a small system,
      and the theorems of the files above evaluated on it.
    - Semaphore, Mutex, Mbox: semaphore.c, mutex.c, mbox.c.
    - Ring, Queue: the static queues of queue.c; the ring buffer is specified
      once for elements of any number of bytes.
    - DQueue, DQueueSpec, DQueueExamples: the dynamic queues of queue.c, in
      blocks of an allocator given by its contract (class [Allocator]); their
      specification as a finite map of bounded sequences; a small allocator and
      the theorems on it.
    - Blocking, Tasks: blocking of tasks; installation, removal, start-up
      (BRTOS.c).
    - Time: the clocks and the calendar of OSTime.c.
    - Text, Info, InfoSpec: buffers of characters and decimal numbers; the
      reports of OSInfo.c; what they write.
    - Watermark: the builds with WATERMARK: the pattern in new stacks (HAL.c) and the
      search for the depth a stack reached (OSTaskList).
    - Load: the builds with COMPUTES_TASK_LOAD: the time each task ran, kept at the
      switches (BRTOS.c, BRTOS.h), and OSRuntimeStats.
    - Tickless: the builds with TICKLESS (HAL.c): the timer, the wait of the idle task
      until the next deadline, and what the interrupts that end it do.
    - SysArch: the port of the lwIP network stack (modules/LwIP, sys_arch.c): its
      semaphores, mailboxes and threads on the kernel's semaphores, dynamic queues
      and tasks.
    - SysArchSpec, SysMbox, SysThread, SysArchExamples: histories of a service that is
      dispatched several times, the time waited, waiting for a semaphore; the
      mailboxes as sequences of pointers; the list of threads; a small system.
    - TimerHeap, Timer: the binary heaps of stimer.c, the timer task and the
      services on software timers.
    - TimerSpec, TimerTask: the invariant of the timers and what the services
      do; what a pass of the timer task fires.
    - TimerExamples: the timer theorems on a small system, and the runs that
      show the defects.
    - Terminal, TermCmds, TermLine, TermProcess, TermExamples: the command line of
      modules/terminal; the search and the list of commands; the line editor;
      running a line; a small terminal.
    - Chain, Heap: neighbours in lists; the allocator umm_malloc.c on its array of
      blocks, with both search strategies.
    - HeapSpec, HeapAlloc: the layouts of a heap, what joining, splitting, freeing and
      allocating do to them.
    - HeapUse, HeapInfo, HeapExamples: what a program that allocates, frees and writes
      may rely on; clearing and measuring; two small heaps, and the instance of
      [Allocator] by which the dynamic queues run on this heap.
    - Device, DeviceSpec, DeviceExamples: the device layer (device.c); the table as a
      registry of names; a small system of devices.
    - Touch, TouchExamples: the touch screen of modules/TouchScreen: samples, their
      median, the position.
    - Gui, GuiSpec, GuiExamples: the graphical objects of modules/GLCD (GUI_objects.c);
      the list of objects as a sequence, the bar of a slider; a small screen.
    - Graph: the graphs of GUI_objects.c, which sweep over their area.
    - System: several tasks, the tick and semaphores together: a step relation,
      its invariant and the balance of units over every run.

    ** What is proved

    - Scheduling: the search returns the highest member of any nonempty ready
      word, and the leading-zero scheduler agrees with it.
    - Time: the delay list implements a sequence without repetition; a tick
      wakes exactly the tasks whose time is up, and a delay of [w] ticks lasts
      exactly [w] ticks, also over a wrap of the counter (ticks of 16 or 32
      bits, waits up to a full turn).
    - Kernel: initialisation establishes the table invariants, BRTOSStart the
      kernel invariant [wf]; context switches, ticks, delays, installation,
      removal, blocking and every event service preserve it, and the processor
      always goes to the highest priority that can run.
    - Semaphores refine an abstract counting semaphore; posts and pends balance
      over every run of a system, no wake-up is lost and nothing faults.
    - Mutexes: ownership, the immediate priority ceiling, release as the inverse
      of acquire, handing over to the highest waiter.
    - Mailboxes and queues: a message is delivered; queues are bounded FIFOs
      whose regions do not overlap; waiters are released by priority.
    - Dynamic queues: creating one adds an empty queue in blocks of its own or
      gives every block back, deleting one leaks nothing, and posting and taking
      act on one queue and leave the others as they were.
    - Stacks: a new task starts in its own function with its own parameter,
      inside its own stack.
    - Time: the calendar follows the Gregorian calendar second by second; the
      uptime counts seconds modulo 256 days.
    - Software timers: the two lists are priority queues ordered by expiry tick;
      setting, starting, stopping and reading a timer act on the list of the
      right turn of the counter.  The callbacks are arbitrary: the class [Callbacks]
      asks of them only that they return a period, within a bound on the ticks they
      take, and leave the timers alone that they may not touch.  A pass of the timer
      task ends and fires exactly the timers that are due, in order; a timer set for
      [w] ticks fires on the [w]-th tick; a pass that comes late, after the counter
      has wrapped, fires the timers of the old turn and then, by a defect of the code,
      some of them once more.
    - Reports: a decimal number printed is the number; the task list never leaves
      its buffer and counts the unused words of the stacks; a watermark finds the
      deepest word a task wrote.
    - Load: over every run of switches and intervals each task is charged the time
      between the switches to it and from it, and the sum is the time that passed.
    - Sleeping without ticks: the sleep chosen ends at the next deadline, and a sleep
      followed by the interrupt that ends it leaves the system as that many ticks of
      the ordinary timer would, up to the interrupt mask and the load counters.
    - Terminal: the search is a linear search; byte by byte the line editor does what
      an abstract editor does; a session with commands that return and write at most into
      the line stays inside the buffers up to a line of more than six words; a line run
      can be recalled when no command changes it.
    - Heap: the blocks and the free blocks are doubly linked lists over one memory;
      whatever a program allocates, frees and writes inside its blocks, every further
      request ends, the blocks given do not overlap and keep their bytes, no two free
      blocks are neighbours, and best fit is best.
    - Devices: a name has one slot and one handle, for as long as the strings it was
      opened with are not written, and opening calls exactly the drivers of its type,
      once.
    - Screen: the filter takes the median of the samples; positions are on the screen
      and turn with it; a touch finds the first object that contains it; a slider's bar
      shows its value whatever values it went through.  A sweep of a graph
      clears every column of its area once, over its whole height, draws exactly the
      marks of the samples inside the limits, and never leaves the array of traces.
    - Network port: a wait without a limit goes on over any number of time-outs and
      ends when a post released it; it returns the ticks that passed, but 65532 for none and, with
      ticks wider than 16 bits, four too few across a wrap of the lower 16; a mailbox delivers every message once, in order, through the
      caller's pointer; a new thread is a new task of the kernel, but one that gets no
      argument, and every thread finds its own timeouts.
    - Defects of the code, as theorems about it: nested mutexes released in
      the order of acquisition corrupt the priority vector; releasing a mutex
      does not reschedule; deleting one leaks its ceiling; a released waiter of
      a queue or mailbox reads without checking, so that the entries counter can
      underflow and a message can be delivered twice; a queue size near 65535
      wraps to zero; a binary semaphore created with 1 is empty; queue services
      read a null pointer before they test it; stopping the first software
      timer makes the others fire early, and timers of the next turn can be
      lost; a dynamic queue of 64 KiB or more gets a buffer that is too small, and
      one created in a build with ERROR_CHECK is not marked allocated; the network
      port reports a wait of no time as the longest there is, loses messages posted
      to a full mailbox and stores a handle where the argument of a thread points, and keeps a thread that could not be started in its list;
      the sleep without ticks misses deadlines behind the end of the counter; the
      report of the run times divides by zero in its first ticks; the pattern of a
      watermark is written below a stack of the least size.

    ** Bounds and fuel

    The loop over the delay list has fuel NUMBER_OF_TASKS + 1: the list has no
    repetition and its members are control blocks ([delay_list_length]).  The
    loops over the tables have as fuel their number of iterations in the source.
    The sifting loops of the timer heaps have fuel 8: their 8-bit index halves or
    doubles.  A pass of the timer task has fuel BRTOS_MAX_TIMER for each of its
    loops: a timer that fires leaves the list or moves beyond the current tick.
    The search through the free list and the loop of [umm_info] have as fuel the
    number of blocks: the lists have no repetition.  The loops of the network port
    that wait for ever have as fuel one more than the number of their time-outs, which
    is any number; its searches through the threads have one more than the number of
    control blocks.  The filling and the search of a stack have as fuel its number of
    words.  A heap is allowed all sizes its
    15-bit block numbers can address; requests are bounded by 524276 bytes, beyond
    which the number of blocks wraps.

    ** What is not modelled, and why

    The kernel sees the memory of the allocator through the objects stored in it,
    each kind by its address: that blocks do not overlap is the allocator's contract,
    and writing outside a block is not confused with another object.  The allocator
    itself sees that memory as the array of its blocks, and [heap_client_safe] lets
    the program write anything into the blocks it was given.  Register contents saved
    by the switch are reduced to the movement of the stack pointer, by the 36 bytes of
    R4-R11 and R14; the registers of the FPU, which the port also saves for a task that
    used it, are not modelled.  [OSSchedule] is translated with the portable search,
    although the port selects the leading-zero one: [Optimezed_Scheduler_SAScheduler]
    proves that they agree on every nonempty word, and idle keeps the word nonempty.  The drivers of
    the device layer and OSDevConfig.h are not in the repository.  The builds with
    TICKLESS, WATERMARK and COMPUTES_TASK_LOAD are modelled where they differ, not
    combined with each other: the run times and the variables and registers of the
    tickless timer are kept beside the state, the value of a timer read is an argument,
    and the other services are those of the build of the example configuration, which
    turns all three off.  The control register of the timer is not a value of the
    model.  [WaitTickless_if] also has the half of its loop that the preprocessor never
    compiles, under a condition on two type names (HAL.c:410), so that the theorem says
    what was meant; [WaitTickless] is the loop as it is compiled.  The busy waits on the
    flags of the serial bus in SPI_WriteByte (touch_7846.c) are left out: the bus is
    assumed to answer.  The other ports have the same
    structure in other assembly languages.  The network stack, the file system and the
    graphics library under src/modules are vendored; what this program adds to them,
    the port and the graphical objects, is modelled.  The calibration of the touch
    screen and the scaling of its samples are floating-point arithmetic: the scaling is
    a parameter.  [GUI_ObjetcsInit] only fills tables of functions, and the endless loop
    around a round of the handler of touches is left to the services it calls. *)

From Stdlib Require Import ZArith Lia.
From stdpp Require Import base gmap numbers list.

#[local] Open Scope Z_scope.

(** ** Machine integers

    An unsigned [w]-bit C object is a [Z] in [0, 2^w); a store into it
    truncates. *)

Definition uint (w x : Z) : Z := x mod 2 ^ w.
Definition uint8 (x : Z) : Z := uint 8 x.
Definition uint16 (x : Z) : Z := uint 16 x.
Definition uint32 (x : Z) : Z := uint 32 x.

(** A store into a signed 8-bit object (two's complement). *)
Definition int8 (x : Z) : Z := (x + 128) mod 256 - 128.

(** C's truth value of an integer expression. *)
Definition truthy (x : Z) : bool := negb (x =? 0).

(** [a / b] on unsigned objects. *)
Definition udiv (a b : Z) : option Z := if b =? 0 then None else Some (a / b).

(** [a & ~m] on an unsigned object. *)
Definition andnot (a m : Z) : Z := Z.land a (Z.lnot m).

(** ** Functions with a state

    [None] is undefined behaviour. *)

Definition stm (S A : Type) : Type := S -> option (A * S).
Definition tret {S A} (a : A) : stm S A := fun t => Some (a, t).
Definition tbind {S A B} (p : stm S A) (f : A -> stm S B) : stm S B :=
  fun t => match p t with Some (a, t') => f a t' | None => None end.
Definition tget {S A} (f : S -> A) : stm S A := fun t => Some (f t, t).
Definition tset {S} (f : S -> S) : stm S unit := fun t => Some (tt, f t).
Definition tlift {S A} (o : option A) : stm S A :=
  fun t => match o with Some a => Some (a, t) | None => None end.

Declare Scope stm_scope.
Delimit Scope stm_scope with stm.
Notation "x <- p ;; q" := (tbind p (fun x => q))
  (at level 100, p at next level, right associativity) : stm_scope.
Notation "p ;;; q" := (tbind p (fun _ => q))
  (at level 100, right associativity) : stm_scope.

Section stm.
Context {S A B D : Type}.
Implicit Types (t : S).

Lemma bind_get (f : S -> A) (k : A -> stm S B) t : tbind (tget f) k t = k (f t) t.
Proof. reflexivity. Qed.
Lemma bind_set f (k : unit -> stm S B) t : tbind (tset f) k t = k tt (f t).
Proof. reflexivity. Qed.
Lemma bind_ret a (k : A -> stm S B) t : tbind (tret a) k t = k a t.
Proof. reflexivity. Qed.
Lemma bind_lift o a (k : A -> stm S B) t : o = Some a -> tbind (tlift o) k t = k a t.
Proof. by intros ->. Qed.
Lemma bind_Some (p : stm S A) (k : A -> stm S B) t a t' : p t = Some (a, t') -> tbind p k t = k a t'.
Proof. intros H. unfold tbind. by rewrite H. Qed.
Lemma bind_assoc (p : stm S A) (f : A -> stm S B) (k : B -> stm S D) t :
  tbind (tbind p f) k t = tbind p (fun a => tbind (f a) k) t.
Proof. unfold tbind. by destruct (p t) as [[a t']|]. Qed.
End stm.

(** ** Arrays

    C arrays are lists; an index is a [Z], and an access outside the array is
    [None] (undefined behaviour in the source). *)

Definition aget {A} (l : list A) (i : Z) : option A :=
  if 0 <=? i then l !! Z.to_nat i else None.

Definition aset {A} (l : list A) (i : Z) (x : A) : list A :=
  if 0 <=? i then <[Z.to_nat i := x]> l else l.

Arguments uint : simpl never.
Arguments uint8 : simpl never.
Arguments uint16 : simpl never.
Arguments uint32 : simpl never.
Arguments int8 : simpl never.
Arguments truthy : simpl never.
Arguments andnot : simpl never.
Arguments aget : simpl never.
Arguments aset : simpl never.
Arguments Z.land : simpl never.
Arguments Z.lor : simpl never.
Arguments Z.lnot : simpl never.
Arguments Z.testbit : simpl never.
Arguments Z.shiftl : simpl never.
Arguments Z.shiftr : simpl never.
Arguments Z.add : simpl never.
Arguments Z.sub : simpl never.
Arguments Z.mul : simpl never.
Arguments Z.pow : simpl never.
Arguments Z.div : simpl never.
Arguments Z.modulo : simpl never.
Arguments Z.eqb : simpl never.
Arguments Z.leb : simpl never.
Arguments Z.ltb : simpl never.
Arguments Z.gtb : simpl never.
Arguments Z.geb : simpl never.
Arguments Z.of_nat : simpl never.
Arguments Z.to_nat : simpl never.

(** ** Hint databases and tactics of the development *)

Create HintDb brtos.
Create Rewrite HintDb brtos_rw.

(** [set_field e p v] is the eta-expanded record [e] with the projection [p]
    replaced by [v]. *)
Ltac set_field e p v :=
  let e' := eval red in e in
  let g := eval pattern p in e' in
  match g with
  | ?f _ => let r := eval cbv beta in (f v) in exact r
  end.

(** Turns boolean comparisons in the context and in the goal into
    propositions. *)
Ltac to_prop :=
  repeat match goal with
  | H : (_ =? _) = true |- _ => apply Z.eqb_eq in H
  | H : (_ =? _) = false |- _ => apply Z.eqb_neq in H
  | H : (_ <=? _) = true |- _ => apply Z.leb_le in H
  | H : (_ <=? _) = false |- _ => apply Z.leb_gt in H
  | H : (_ <? _) = true |- _ => apply Z.ltb_lt in H
  | H : (_ <? _) = false |- _ => apply Z.ltb_ge in H
  | H : (_ >? _) = true |- _ => rewrite Z.gtb_ltb in H; apply Z.ltb_lt in H
  | H : (_ >? _) = false |- _ => rewrite Z.gtb_ltb in H; apply Z.ltb_ge in H
  | H : (_ >=? _) = true |- _ => rewrite Z.geb_leb in H; apply Z.leb_le in H
  | H : (_ >=? _) = false |- _ => rewrite Z.geb_leb in H; apply Z.leb_gt in H
  | H : truthy _ = true |- _ => apply negb_true_iff in H
  | H : truthy _ = false |- _ => apply negb_false_iff in H
  | H : (_ && _)%bool = true |- _ => apply andb_true_iff in H as [? ?]
  | H : (_ || _)%bool = false |- _ => apply orb_false_iff in H as [? ?]
  | H : negb _ = true |- _ => apply negb_true_iff in H
  | H : negb _ = false |- _ => apply negb_false_iff in H
  end.

(** Splits on the next [if] or [match] of the goal and keeps the equation. *)
Ltac split_match :=
  match goal with
  | |- context [if ?b then _ else _] => destruct b eqn:?
  | |- context [match ?x with _ => _ end] => destruct x eqn:?
  end.

(** ** Lemmas on machine integers *)

Lemma uint_range w x : 0 <= w -> 0 <= uint w x < 2 ^ w.
Proof. intros. unfold uint. apply Z.mod_pos_bound. lia. Qed.

Lemma uint_small w x : 0 <= x < 2 ^ w -> uint w x = x.
Proof. intros. unfold uint. by apply Z.mod_small. Qed.

Lemma uint_uint w v x : 0 <= w <= v -> uint w (uint v x) = uint w x.
Proof.
  intros. unfold uint. apply Z.mod_mod_divide.
  exists (2 ^ (v - w)). rewrite <- Z.pow_add_r by lia. f_equal; lia.
Qed.

Lemma uint8_small x : 0 <= x < 256 -> uint8 x = x.
Proof. apply (uint_small 8). Qed.

Lemma uint16_small x : 0 <= x < 65536 -> uint16 x = x.
Proof. apply (uint_small 16). Qed.

Lemma uint32_small x : 0 <= x < 4294967296 -> uint32 x = x.
Proof. apply (uint_small 32). Qed.

Lemma int8_small x : -128 <= x < 128 -> int8 x = x.
Proof. intros. unfold int8. rewrite Z.mod_small by lia. lia. Qed.

Lemma int8_uint8 x : -128 <= x < 128 -> int8 (uint8 x) = x.
Proof. intros Hx. unfold uint8, uint, int8. rewrite Zplus_mod_idemp_l, Z.mod_small by lia. lia. Qed.

Lemma truthy_0 : truthy 0 = false.
Proof. reflexivity. Qed.

Lemma truthy_nz x : x <> 0 -> truthy x = true.
Proof. intros. unfold truthy. by rewrite (proj2 (Z.eqb_neq x 0)). Qed.

#[export] Hint Resolve uint_range : brtos.

(** ** Lemmas on arrays *)

Section arrays.
Context {A : Type}.
Implicit Types (l : list A) (i j : Z) (x : A).

Lemma aget_nat l (k : nat) : aget l (Z.of_nat k) = l !! k.
Proof. unfold aget. by rewrite (proj2 (Z.leb_le _ _)), Nat2Z.id by lia. Qed.
Lemma aset_nat l (k : nat) x : aset l (Z.of_nat k) x = <[k := x]> l.
Proof. unfold aset. by rewrite (proj2 (Z.leb_le _ _)), Nat2Z.id by lia. Qed.

Lemma aget_lt l i x : aget l i = Some x -> 0 <= i < Z.of_nat (length l).
Proof.
  unfold aget. case_eq (0 <=? i); intros; to_prop; [|done].
  apply lookup_lt_Some in H0. lia.
Qed.

Lemma aget_is_Some l i :
  0 <= i < Z.of_nat (length l) -> exists x, aget l i = Some x.
Proof.
  intros. unfold aget. rewrite (proj2 (Z.leb_le _ _)) by lia.
  apply lookup_lt_is_Some_2. lia.
Qed.

Lemma aget_None l i : Z.of_nat (length l) <= i -> aget l i = None.
Proof.
  intros. unfold aget. case_match; [|done].
  apply lookup_ge_None_2. to_prop. lia.
Qed.

Lemma length_aset l i x : length (aset l i x) = length l.
Proof. unfold aset. case_match; [apply length_insert|done]. Qed.

Lemma aget_aset_eq l i x y :
  aget l i = Some y -> aget (aset l i x) i = Some x.
Proof.
  intros H. pose proof (aget_lt _ _ _ H). unfold aget, aset.
  rewrite (proj2 (Z.leb_le _ _)) by lia.
  apply list_lookup_insert_eq. lia.
Qed.

Lemma aget_aset_ne l i j x : i <> j -> aget (aset l i x) j = aget l j.
Proof.
  intros. unfold aget, aset.
  destruct (0 <=? i) eqn:?, (0 <=? j) eqn:?; try done. to_prop.
  apply list_lookup_insert_ne. lia.
Qed.

Lemma aget_aset l i j x :
  aget (aset l i x) j =
  if decide (i = j /\ 0 <= i < Z.of_nat (length l)) then Some x else aget l j.
Proof.
  case_decide as Hd.
  - destruct Hd as [<- Hi]. destruct (aget_is_Some l i Hi).
    by eapply aget_aset_eq.
  - destruct (decide (i = j)) as [->|]; [|by apply aget_aset_ne].
    destruct (aget l j) eqn:E; [exfalso; apply Hd; eauto using aget_lt|].
    destruct (aget (aset l j x) j) eqn:E'; [|done].
    apply aget_lt in E'. rewrite length_aset in E'. exfalso. auto.
Qed.

Lemma aset_aset l i x y : aset (aset l i x) i y = aset l i y.
Proof.
  unfold aset. case_match; [|done].
  rewrite list_insert_insert. by rewrite decide_True.
Qed.

Lemma aset_id l i x : aget l i = Some x -> aset l i x = l.
Proof.
  unfold aget, aset. case_match; [|done]. intros. by apply list_insert_id.
Qed.

Lemma aget_inj_ext l l' :
  length l = length l' -> (forall i, aget l i = aget l' i) -> l = l'.
Proof.
  intros _ H. apply list_eq. intros i. specialize (H (Z.of_nat i)).
  unfold aget in H. rewrite (proj2 (Z.leb_le _ _)) in H by lia.
  by rewrite Nat2Z.id in H.
Qed.

Lemma Forall_aget (P : A -> Prop) l i x : Forall P l -> aget l i = Some x -> P x.
Proof. intros H Hi. unfold aget in Hi. case_match; [|done]. by eapply Forall_lookup_1. Qed.
Lemma Forall_aset (P : A -> Prop) l i x : Forall P l -> P x -> Forall P (aset l i x).
Proof. intros H Hx. unfold aset. case_match; [by apply Forall_insert|done]. Qed.
End arrays.

#[export] Hint Rewrite @length_aset @aset_aset : brtos_rw.
#[export] Hint Resolve aget_lt aget_is_Some : brtos.

(** ** Lemmas on bit sets

    [PriorityType] words are sets of priorities: [Z.testbit x p] is membership,
    [Z.lor x (2^p)] insertion and [andnot x (2^p)] removal. *)

Lemma testbit_pow2 p q : 0 <= p -> Z.testbit (2 ^ p) q = bool_decide (p = q).
Proof.
  intros. case_bool_decide; [subst; by apply Z.pow2_bits_true|].
  by apply Z.pow2_bits_false.
Qed.

Lemma testbit_andnot x m q :
  0 <= q -> Z.testbit (andnot x m) q = (Z.testbit x q && negb (Z.testbit m q))%bool.
Proof. intros. unfold andnot. by rewrite Z.land_spec, Z.lnot_spec. Qed.

Lemma testbit_set x p q :
  0 <= p -> Z.testbit (Z.lor x (2 ^ p)) q = (Z.testbit x q || bool_decide (p = q))%bool.
Proof. intros. by rewrite Z.lor_spec, testbit_pow2. Qed.

Lemma testbit_clear x p q :
  0 <= p ->
  Z.testbit (andnot x (2 ^ p)) q = (Z.testbit x q && negb (bool_decide (p = q)))%bool.
Proof.
  intros. destruct (decide (0 <= q)).
  - by rewrite testbit_andnot, testbit_pow2.
  - rewrite !(Z.testbit_neg_r _ q) by lia. done.
Qed.

Lemma testbit_high x w q : 0 <= x < 2 ^ w -> w <= q -> Z.testbit x q = false.
Proof.
  intros. destruct (decide (x = 0)) as [->|]; [apply Z.testbit_0_l|].
  assert (0 <= w). { destruct (decide (0 <= w)); [done|]. rewrite Z.pow_neg_r in H; lia. }
  apply Z.bits_above_log2; [lia|]. apply Z.log2_lt_pow2; [lia|].
  assert (2 ^ w <= 2 ^ q) by (apply Z.pow_le_mono_r; lia). lia.
Qed.

Lemma bitset_range x w :
  0 <= w -> 0 <= x -> (forall q, w <= q -> Z.testbit x q = false) -> 0 <= x < 2 ^ w.
Proof.
  intros Hw Hx H. split; [done|].
  destruct (decide (x = 0)) as [->|]; [lia|].
  apply Z.log2_lt_pow2; [lia|].
  destruct (decide (Z.log2 x < w)); [done|].
  specialize (H (Z.log2 x)). rewrite Z.bit_log2 in H by lia.
  discriminate H. lia.
Qed.

Lemma land_pow2 x p :
  0 <= p -> Z.land x (2 ^ p) = if Z.testbit x p then 2 ^ p else 0.
Proof.
  intros. apply Z.bits_inj'. intros q Hq.
  rewrite Z.land_spec, testbit_pow2 by done.
  destruct (Z.testbit x p) eqn:E; rewrite ?Z.testbit_0_l, ?testbit_pow2 by done;
    case_bool_decide; subst; rewrite ?E, ?andb_false_r; done.
Qed.

Lemma lor_pow2_range x p w :
  0 <= p < w -> 0 <= x < 2 ^ w -> 0 <= Z.lor x (2 ^ p) < 2 ^ w.
Proof.
  intros. apply bitset_range; [lia|rewrite Z.lor_nonneg; lia|].
  intros q Hq. rewrite testbit_set by lia.
  rewrite (testbit_high x w q), bool_decide_false by lia. done.
Qed.

Lemma andnot_range x m w : 0 <= w -> 0 <= x < 2 ^ w -> 0 <= andnot x m < 2 ^ w.
Proof.
  intros. apply bitset_range; [done|unfold andnot; rewrite Z.land_nonneg; lia|].
  intros q Hq. rewrite testbit_andnot by lia. by rewrite (testbit_high x w q).
Qed.

Lemma land_range x y w : 0 <= w -> 0 <= x < 2 ^ w -> 0 <= Z.land x y < 2 ^ w.
Proof.
  intros. apply bitset_range; [done|rewrite Z.land_nonneg; lia|].
  intros q Hq. rewrite Z.land_spec. by rewrite (testbit_high x w q).
Qed.

(** [a & m == m] for a one-bit mask is membership. *)
Lemma land_pow2_eqb x p : 0 <= p -> (Z.land x (2 ^ p) =? 2 ^ p) = Z.testbit x p.
Proof.
  intros. rewrite land_pow2 by done. destruct (Z.testbit x p).
  - apply Z.eqb_refl.
  - apply Z.eqb_neq. pose proof (Z.pow_pos_nonneg 2 p). lia.
Qed.

Lemma truthy_land_pow2 x p : 0 <= p -> truthy (Z.land x (2 ^ p)) = Z.testbit x p.
Proof.
  intros. rewrite land_pow2 by done. destruct (Z.testbit x p); [|done].
  apply truthy_nz. pose proof (Z.pow_pos_nonneg 2 p). lia.
Qed.

#[export] Hint Resolve lor_pow2_range andnot_range land_range : brtos.

(** The number of members of a bit set below [n]. *)
Fixpoint popcount (n : nat) (x : Z) : Z :=
  match n with
  | O => 0
  | S n' => Z.b2z (Z.testbit x (Z.of_nat n')) + popcount n' x
  end.

Lemma popcount_bound n x : 0 <= popcount n x <= Z.of_nat n.
Proof. induction n; cbn -[Z.of_nat]; [lia|]. destruct (Z.testbit _ _); cbn; lia. Qed.

Lemma popcount_0 n : popcount n 0 = 0.
Proof. induction n; cbn; [done|]. rewrite Z.testbit_0_l, IHn. done. Qed.

Lemma popcount_ext n x y :
  (forall q, 0 <= q < Z.of_nat n -> Z.testbit x q = Z.testbit y q) ->
  popcount n x = popcount n y.
Proof.
  induction n; intros H; cbn; [done|].
  rewrite H by lia. f_equal. apply IHn. intros. apply H. lia.
Qed.

Lemma popcount_set n x p :
  0 <= p < Z.of_nat n -> Z.testbit x p = false ->
  popcount n (Z.lor x (2 ^ p)) = popcount n x + 1.
Proof.
  intros Hp Hx. induction n; [lia|]. cbn.
  rewrite testbit_set by lia. case_bool_decide as Hd.
  - rewrite (popcount_ext n _ x).
    + rewrite <- Hd, Hx. cbn. lia.
    + intros q Hq. rewrite testbit_set by lia.
      rewrite bool_decide_false by lia. apply orb_false_r.
  - rewrite orb_false_r, IHn by lia. lia.
Qed.

Lemma popcount_clear n x p :
  0 <= p < Z.of_nat n -> Z.testbit x p = true ->
  popcount n (andnot x (2 ^ p)) = popcount n x - 1.
Proof.
  intros Hp Hx. induction n; [lia|]. cbn.
  rewrite testbit_clear by lia. case_bool_decide as Hd.
  - rewrite (popcount_ext n _ x).
    + rewrite <- Hd, Hx. cbn. lia.
    + intros q Hq. rewrite testbit_clear by lia.
      rewrite bool_decide_false by lia. apply andb_true_r.
  - rewrite andb_true_r, IHn by lia. lia.
Qed.

Lemma popcount_zero n x w :
  w = Z.of_nat n -> 0 <= x < 2 ^ w -> popcount n x = 0 -> x = 0.
Proof.
  intros -> Hx H. apply Z.bits_inj'. intros q Hq. rewrite Z.testbit_0_l.
  destruct (decide (q < Z.of_nat n)) as [Hlt|]; [|apply (testbit_high x (Z.of_nat n)); lia].
  clear Hx. induction n; [lia|]. cbn in H.
  pose proof (popcount_bound n x).
  destruct (Z.testbit x (Z.of_nat n)) eqn:E; cbn in H; [lia|].
  destruct (decide (q = Z.of_nat n)) as [->|]; [done|]. apply IHn; lia.
Qed.
