(* ===== verification/Config.v ===== *)
(** * Build configuration and the constants of BRTOS.h

    The values a project sets in BRTOSConfig.h are the fields of the class
    [Config]; every definition of the library is generic in it.  The constants
    of brtos/includes/BRTOS.h follow, computed from the configuration as the
    preprocessor computes them. *)

From Stdlib Require Import ZArith Lia.
From stdpp Require Import base numbers list.
From S2P Require Import Prelude.
#[local] Open Scope Z_scope.

(** ** BRTOSConfig.h

    [Idle] is the address of the idle task's function, [STACK_ADDR] the address
    of the static stack heap [STACK], and [BRTOS_ALLOC]/[BRTOS_DEALLOC] are the
    macros that name the memory allocator, over an allocator state [heap_t]. *)
Class Config := {
  NUMBER_OF_PRIORITIES : Z;
  NUMBER_OF_TASKS : Z;
  ostick_bits : Z;
  osdtick_bits : Z;
  ERROR_CHECK : bool;
  configTICK_RATE_HZ : Z;
  BRTOS_MAX_SEM : Z;
  BRTOS_MAX_MUTEX : Z;
  BRTOS_MAX_MBOX : Z;
  BRTOS_MAX_QUEUE : Z;
  BRTOS_MAX_TIMER : Z;
  IDLE_STACK_SIZE : Z;
  HEAP_SIZE : Z;
  QUEUE_HEAP_SIZE : Z;
  Idle_addr : Z;
  STACK_ADDR : Z;
  heap_t : Type;
  BRTOS_ALLOC : Z -> heap_t -> Z * heap_t;
  BRTOS_DEALLOC : Z -> heap_t -> heap_t;
  NUMBER_OF_PRIORITIES_ok : 0 < NUMBER_OF_PRIORITIES <= 32;
  NUMBER_OF_TASKS_ok : 0 < NUMBER_OF_TASKS <= 32;
  tick_bits_ok :
    (ostick_bits, osdtick_bits) = (16, 32) \/
    (ostick_bits, osdtick_bits) = (32, 64) \/
    (ostick_bits, osdtick_bits) = (64, 64);
}.

(** Return codes and kernel constants of BRTOS.h. *)
Definition FALSE : Z := 0.
Definition TRUE : Z := 1.

Definition MUTEX_PRIO : Z := 254.
Definition EMPTY_PRIO : Z := 255.

Definition OK : Z := 0.
Definition NO_MEMORY : Z := 1.
Definition STACK_SIZE_TOO_SMALL : Z := 2.
Definition END_OF_AVAILABLE_PRIORITIES : Z := 3.
Definition BUSY_PRIORITY : Z := 4.
Definition INVALID_TIME : Z := 5.
Definition TIMEOUT : Z := 6.
Definition CANNOT_ASSIGN_IDLE_TASK_PRIO : Z := 7.
Definition NOT_VALID_TASK : Z := 8.
Definition NO_TASK_DELAY : Z := 9.
Definition END_OF_AVAILABLE_TCB : Z := 10.
Definition EXIT_BY_NO_ENTRY_AVAILABLE : Z := 11.
Definition TASK_WAITING_EVENT : Z := 12.
Definition CANNOT_UNINSTALL_IDLE_TASK : Z := 13.
Definition EXIT_BY_NO_RESOURCE_AVAILABLE : Z := 14.

Definition ALLOC_EVENT_OK : Z := 0.
Definition NO_AVAILABLE_EVENT : Z := 1.
Definition NO_AVAILABLE_MEMORY : Z := 2.
Definition INVALID_PARAMETERS : Z := 3.
Definition IRQ_PEND_ERR : Z := 4.
Definition ERR_SEM_OVF : Z := 5.
Definition ERR_EVENT_NO_CREATED : Z := 7.
Definition NULL_EVENT_POINTER : Z := 8.
Definition ERR_EVENT_OWNER : Z := 9.
Definition DELETE_EVENT_OK : Z := 10.
Definition AVAILABLE_RESOURCE : Z := 11.
Definition BUSY_RESOURCE : Z := 12.
Definition AVAILABLE_MESSAGE : Z := 13.
Definition NO_MESSAGE : Z := 14.

Definition READ_BUFFER_OK : Z := 0.
Definition WRITE_BUFFER_OK : Z := 0.
Definition BUFFER_UNDERRUN : Z := 1.
Definition CLEAN_BUFFER_OK : Z := 2.
Definition NO_ENTRY_AVAILABLE : Z := 3.

(** hal/GCC_CORTEX-M4/HAL.h: [OS_CPU_TYPE] is a 32-bit word, and an interrupt
    frame with the FPU's extra word takes 68 bytes. *)
Definition sizeof_OS_CPU_TYPE : Z := 4.
Definition NUMBER_MIN_OF_STACKED_BYTES : Z := 68.

Section config.
Context `{C : Config}.

(** ** Priorities: the [#if] ladder that chooses [PriorityType]. *)
Definition PriorityType_bits : Z :=
  if NUMBER_OF_PRIORITIES >? 16 then 32
  else if NUMBER_OF_PRIORITIES >? 8 then 16 else 8.

Definition configMAX_TASK_INSTALL : Z :=
  if NUMBER_OF_PRIORITIES >? 16 then 32
  else if NUMBER_OF_PRIORITIES >? 8 then 16 else 8.

Definition configMAX_TASK_PRIORITY : Z :=
  if NUMBER_OF_PRIORITIES >? 16 then 31
  else if NUMBER_OF_PRIORITIES >? 8 then 15 else 7.

(** ** Tick constants

    [#if (ostick_t == uint64_t)] compares two identifiers the preprocessor
    replaces by 0, so the first branch is always taken: [MAX_TIMER] is the
    64-bit maximum, and the casts to [ostick_t] make the derived constants
    those of the tick's own width. *)
Definition MAX_TIMER : Z := 18446744073709551615.
Definition NO_TIMEOUT : Z := uint ostick_bits (MAX_TIMER - 1).
Definition EXIT_BY_TIMEOUT : Z := uint ostick_bits (MAX_TIMER - 2).
Definition TICK_COUNT_OVERFLOW : Z := uint ostick_bits (MAX_TIMER - 3).
Definition sizeof_ostick_t : Z := ostick_bits / 8.

(** ** Facts *)

Lemma PriorityType_bits_range : 8 <= PriorityType_bits <= 32.
Proof. unfold PriorityType_bits. repeat case_match; lia. Qed.

Lemma configMAX_TASK_INSTALL_eq : configMAX_TASK_INSTALL = PriorityType_bits.
Proof. reflexivity. Qed.

Lemma configMAX_TASK_PRIORITY_eq :
  configMAX_TASK_PRIORITY = PriorityType_bits - 1.
Proof. unfold PriorityType_bits, configMAX_TASK_PRIORITY. by repeat case_match. Qed.

Lemma ostick_bits_cases : ostick_bits = 16 \/ ostick_bits = 32 \/ ostick_bits = 64.
Proof. destruct tick_bits_ok as [[=]|[[=]|[=]]]; auto. Qed.

Lemma NO_TIMEOUT_eq : NO_TIMEOUT = 2 ^ ostick_bits - 2.
Proof. unfold NO_TIMEOUT. by destruct ostick_bits_cases as [->|[->| ->]]. Qed.

Lemma EXIT_BY_TIMEOUT_eq : EXIT_BY_TIMEOUT = 2 ^ ostick_bits - 3.
Proof. unfold EXIT_BY_TIMEOUT. by destruct ostick_bits_cases as [->|[->| ->]]. Qed.

Lemma TICK_COUNT_OVERFLOW_eq : TICK_COUNT_OVERFLOW = 2 ^ ostick_bits - 4.
Proof. unfold TICK_COUNT_OVERFLOW. by destruct ostick_bits_cases as [->|[->| ->]]. Qed.

Lemma TICK_COUNT_OVERFLOW_big : 65532 <= TICK_COUNT_OVERFLOW.
Proof. rewrite TICK_COUNT_OVERFLOW_eq. destruct ostick_bits_cases as [->|[->| ->]]; lia. Qed.
End config.

#[export] Hint Resolve PriorityType_bits_range : brtos.

(** ** ConfigExample/BRTOSConfig.h

    The example project's configuration, over any allocator. *)
Definition ExampleConfig (H : Type) (alloc : Z -> H -> Z * H) (dealloc : Z -> H -> H)
    : Config.
Proof.
  refine {| NUMBER_OF_PRIORITIES := 32; NUMBER_OF_TASKS := 10;
            ostick_bits := 16; osdtick_bits := 32; ERROR_CHECK := false;
            configTICK_RATE_HZ := 1000;
            BRTOS_MAX_SEM := 20; BRTOS_MAX_MUTEX := 4; BRTOS_MAX_MBOX := 5;
            BRTOS_MAX_QUEUE := 20; BRTOS_MAX_TIMER := 8; IDLE_STACK_SIZE := 512;
            HEAP_SIZE := 96 * 128; QUEUE_HEAP_SIZE := 8 * 128;
            Idle_addr := 0x08000100; STACK_ADDR := 0x20000000;
            heap_t := H; BRTOS_ALLOC := alloc; BRTOS_DEALLOC := dealloc |};
    [lia|lia|by left].
Defined.
