(* ===== verification/State.v ===== *)
(** * The kernel's data and the state-and-fault monad of its functions

    The control blocks of brtos/includes/BRTOS.h, the global variables of
    brtos/BRTOS.c as one record [OS], and [prog], the type of a kernel function:
    a computation on [OS] that may give up the processor. *)

From Stdlib Require Import ZArith Lia.
From stdpp Require Import base gmap numbers list.
From S2P Require Import Prelude Config.
#[local] Open Scope Z_scope.

(** BRTOS.h, [struct Context]: the task control block.  Pointers to control
    blocks are indices of [ContextTask]; [None] is NULL.  The [VERBOSE] and
    task-load fields are those of builds that are not modelled. *)
Record ContextType := mkContext {
  TaskName : Z;
  StackPoint : Z;
  StackInit : Z;
  StackSize : Z;
  TimeToWait : Z;
  Priority : Z;
  Next : option Z;
  Previous : option Z;
}.

Definition eta_ContextType (t : ContextType) : ContextType :=
  mkContext (TaskName t) (StackPoint t) (StackInit t) (StackSize t) (TimeToWait t) (Priority t) (Next t) (Previous t).

Definition set_TaskName (v : Z) (t : ContextType) : ContextType :=
  ltac:(set_field (eta_ContextType t) (TaskName t) v).
Definition set_StackPoint (v : Z) (t : ContextType) : ContextType :=
  ltac:(set_field (eta_ContextType t) (StackPoint t) v).
Definition set_StackInit (v : Z) (t : ContextType) : ContextType :=
  ltac:(set_field (eta_ContextType t) (StackInit t) v).
Definition set_StackSize (v : Z) (t : ContextType) : ContextType :=
  ltac:(set_field (eta_ContextType t) (StackSize t) v).
Definition set_TimeToWait (v : Z) (t : ContextType) : ContextType :=
  ltac:(set_field (eta_ContextType t) (TimeToWait t) v).
Definition set_Priority (v : Z) (t : ContextType) : ContextType :=
  ltac:(set_field (eta_ContextType t) (Priority t) v).
Definition set_Next (v : option Z) (t : ContextType) : ContextType :=
  ltac:(set_field (eta_ContextType t) (Next t) v).
Definition set_Previous (v : option Z) (t : ContextType) : ContextType :=
  ltac:(set_field (eta_ContextType t) (Previous t) v).

(** BRTOS.h: semaphore control block. *)
Record BRTOS_Sem := mkSem {
  sem_OSEventAllocated : Z;
  sem_OSEventCount : Z;
  sem_OSEventWait : Z;
  sem_Binary : Z;
  sem_OSEventWaitList : Z;
}.

Definition eta_BRTOS_Sem (e : BRTOS_Sem) : BRTOS_Sem :=
  mkSem (sem_OSEventAllocated e) (sem_OSEventCount e) (sem_OSEventWait e) (sem_Binary e) (sem_OSEventWaitList e).

Definition set_sem_OSEventAllocated (v : Z) (e : BRTOS_Sem) : BRTOS_Sem :=
  ltac:(set_field (eta_BRTOS_Sem e) (sem_OSEventAllocated e) v).
Definition set_sem_OSEventCount (v : Z) (e : BRTOS_Sem) : BRTOS_Sem :=
  ltac:(set_field (eta_BRTOS_Sem e) (sem_OSEventCount e) v).
Definition set_sem_OSEventWait (v : Z) (e : BRTOS_Sem) : BRTOS_Sem :=
  ltac:(set_field (eta_BRTOS_Sem e) (sem_OSEventWait e) v).
Definition set_sem_Binary (v : Z) (e : BRTOS_Sem) : BRTOS_Sem :=
  ltac:(set_field (eta_BRTOS_Sem e) (sem_Binary e) v).
Definition set_sem_OSEventWaitList (v : Z) (e : BRTOS_Sem) : BRTOS_Sem :=
  ltac:(set_field (eta_BRTOS_Sem e) (sem_OSEventWaitList e) v).

(** BRTOS.h: mutex control block. *)
Record BRTOS_Mutex := mkMutex {
  mtx_OSEventAllocated : Z;
  mtx_OSEventState : Z;
  mtx_OSEventOwner : Z;
  mtx_OSMaxPriority : Z;
  mtx_OSOriginalPriority : Z;
  mtx_OSEventWait : Z;
  mtx_OSEventWaitList : Z;
}.

Definition eta_BRTOS_Mutex (e : BRTOS_Mutex) : BRTOS_Mutex :=
  mkMutex (mtx_OSEventAllocated e) (mtx_OSEventState e) (mtx_OSEventOwner e) (mtx_OSMaxPriority e) (mtx_OSOriginalPriority e) (mtx_OSEventWait e) (mtx_OSEventWaitList e).

Definition set_mtx_OSEventAllocated (v : Z) (e : BRTOS_Mutex) : BRTOS_Mutex :=
  ltac:(set_field (eta_BRTOS_Mutex e) (mtx_OSEventAllocated e) v).
Definition set_mtx_OSEventState (v : Z) (e : BRTOS_Mutex) : BRTOS_Mutex :=
  ltac:(set_field (eta_BRTOS_Mutex e) (mtx_OSEventState e) v).
Definition set_mtx_OSEventOwner (v : Z) (e : BRTOS_Mutex) : BRTOS_Mutex :=
  ltac:(set_field (eta_BRTOS_Mutex e) (mtx_OSEventOwner e) v).
Definition set_mtx_OSMaxPriority (v : Z) (e : BRTOS_Mutex) : BRTOS_Mutex :=
  ltac:(set_field (eta_BRTOS_Mutex e) (mtx_OSMaxPriority e) v).
Definition set_mtx_OSOriginalPriority (v : Z) (e : BRTOS_Mutex) : BRTOS_Mutex :=
  ltac:(set_field (eta_BRTOS_Mutex e) (mtx_OSOriginalPriority e) v).
Definition set_mtx_OSEventWait (v : Z) (e : BRTOS_Mutex) : BRTOS_Mutex :=
  ltac:(set_field (eta_BRTOS_Mutex e) (mtx_OSEventWait e) v).
Definition set_mtx_OSEventWaitList (v : Z) (e : BRTOS_Mutex) : BRTOS_Mutex :=
  ltac:(set_field (eta_BRTOS_Mutex e) (mtx_OSEventWaitList e) v).

(** BRTOS.h: mailbox control block; the message is a pointer, 0 is NULL. *)
Record BRTOS_Mbox := mkMbox {
  mbx_OSEventAllocated : Z;
  mbx_OSEventWait : Z;
  mbx_OSEventState : Z;
  mbx_OSEventWaitList : Z;
  mbx_OSEventPointer : Z;
}.

Definition eta_BRTOS_Mbox (e : BRTOS_Mbox) : BRTOS_Mbox :=
  mkMbox (mbx_OSEventAllocated e) (mbx_OSEventWait e) (mbx_OSEventState e) (mbx_OSEventWaitList e) (mbx_OSEventPointer e).

Definition set_mbx_OSEventAllocated (v : Z) (e : BRTOS_Mbox) : BRTOS_Mbox :=
  ltac:(set_field (eta_BRTOS_Mbox e) (mbx_OSEventAllocated e) v).
Definition set_mbx_OSEventWait (v : Z) (e : BRTOS_Mbox) : BRTOS_Mbox :=
  ltac:(set_field (eta_BRTOS_Mbox e) (mbx_OSEventWait e) v).
Definition set_mbx_OSEventState (v : Z) (e : BRTOS_Mbox) : BRTOS_Mbox :=
  ltac:(set_field (eta_BRTOS_Mbox e) (mbx_OSEventState e) v).
Definition set_mbx_OSEventWaitList (v : Z) (e : BRTOS_Mbox) : BRTOS_Mbox :=
  ltac:(set_field (eta_BRTOS_Mbox e) (mbx_OSEventWaitList e) v).
Definition set_mbx_OSEventPointer (v : Z) (e : BRTOS_Mbox) : BRTOS_Mbox :=
  ltac:(set_field (eta_BRTOS_Mbox e) (mbx_OSEventPointer e) v).

(** BRTOS.h: queue control block; [q_OSEventPointer] indexes
    [BRTOS_OS_QUEUE_Table]. *)
Record BRTOS_Queue := mkQueue {
  q_OSEventAllocated : Z;
  q_OSEventCount : Z;
  q_OSEventWait : Z;
  q_OSEventPointer : option Z;
  q_OSEventWaitList : Z;
}.

Definition eta_BRTOS_Queue (e : BRTOS_Queue) : BRTOS_Queue :=
  mkQueue (q_OSEventAllocated e) (q_OSEventCount e) (q_OSEventWait e) (q_OSEventPointer e) (q_OSEventWaitList e).

Definition set_q_OSEventAllocated (v : Z) (e : BRTOS_Queue) : BRTOS_Queue :=
  ltac:(set_field (eta_BRTOS_Queue e) (q_OSEventAllocated e) v).
Definition set_q_OSEventCount (v : Z) (e : BRTOS_Queue) : BRTOS_Queue :=
  ltac:(set_field (eta_BRTOS_Queue e) (q_OSEventCount e) v).
Definition set_q_OSEventWait (v : Z) (e : BRTOS_Queue) : BRTOS_Queue :=
  ltac:(set_field (eta_BRTOS_Queue e) (q_OSEventWait e) v).
Definition set_q_OSEventPointer (v : option Z) (e : BRTOS_Queue) : BRTOS_Queue :=
  ltac:(set_field (eta_BRTOS_Queue e) (q_OSEventPointer e) v).
Definition set_q_OSEventWaitList (v : Z) (e : BRTOS_Queue) : BRTOS_Queue :=
  ltac:(set_field (eta_BRTOS_Queue e) (q_OSEventWaitList e) v).

(** BRTOS.h: the ring buffer of a queue; its pointers are byte offsets into
    the queue heap [QUEUE_STACK]. *)
Record OS_QUEUE := mkOS_QUEUE {
  OSQStart : Z;
  OSQEnd : Z;
  OSQIn : Z;
  OSQOut : Z;
  OSQSize : Z;
  OSQEntries : Z;
}.

Definition eta_OS_QUEUE (q : OS_QUEUE) : OS_QUEUE :=
  mkOS_QUEUE (OSQStart q) (OSQEnd q) (OSQIn q) (OSQOut q) (OSQSize q) (OSQEntries q).

Definition set_OSQStart (v : Z) (q : OS_QUEUE) : OS_QUEUE :=
  ltac:(set_field (eta_OS_QUEUE q) (OSQStart q) v).
Definition set_OSQEnd (v : Z) (q : OS_QUEUE) : OS_QUEUE :=
  ltac:(set_field (eta_OS_QUEUE q) (OSQEnd q) v).
Definition set_OSQIn (v : Z) (q : OS_QUEUE) : OS_QUEUE :=
  ltac:(set_field (eta_OS_QUEUE q) (OSQIn q) v).
Definition set_OSQOut (v : Z) (q : OS_QUEUE) : OS_QUEUE :=
  ltac:(set_field (eta_OS_QUEUE q) (OSQOut q) v).
Definition set_OSQSize (v : Z) (q : OS_QUEUE) : OS_QUEUE :=
  ltac:(set_field (eta_OS_QUEUE q) (OSQSize q) v).
Definition set_OSQEntries (v : Z) (q : OS_QUEUE) : OS_QUEUE :=
  ltac:(set_field (eta_OS_QUEUE q) (OSQEntries q) v).

(** BRTOS.h: the ring buffer of a dynamic queue (fields [OSQStart] to
    [OSQEntries] of [OS_DQUEUE]); its pointers are addresses of the heap. *)
Record OS_DQUEUE := mkOS_DQUEUE {
  DQStart : Z;
  DQEnd : Z;
  DQIn : Z;
  DQOut : Z;
  DQTSize : Z;
  DQLength : Z;
  DQEntries : Z;
}.

Definition eta_OS_DQUEUE (q : OS_DQUEUE) : OS_DQUEUE :=
  mkOS_DQUEUE (DQStart q) (DQEnd q) (DQIn q) (DQOut q) (DQTSize q) (DQLength q) (DQEntries q).

Definition set_DQStart (v : Z) (q : OS_DQUEUE) : OS_DQUEUE :=
  ltac:(set_field (eta_OS_DQUEUE q) (DQStart q) v).
Definition set_DQEnd (v : Z) (q : OS_DQUEUE) : OS_DQUEUE :=
  ltac:(set_field (eta_OS_DQUEUE q) (DQEnd q) v).
Definition set_DQIn (v : Z) (q : OS_DQUEUE) : OS_DQUEUE :=
  ltac:(set_field (eta_OS_DQUEUE q) (DQIn q) v).
Definition set_DQOut (v : Z) (q : OS_DQUEUE) : OS_DQUEUE :=
  ltac:(set_field (eta_OS_DQUEUE q) (DQOut q) v).
Definition set_DQTSize (v : Z) (q : OS_DQUEUE) : OS_DQUEUE :=
  ltac:(set_field (eta_OS_DQUEUE q) (DQTSize q) v).
Definition set_DQLength (v : Z) (q : OS_DQUEUE) : OS_DQUEUE :=
  ltac:(set_field (eta_OS_DQUEUE q) (DQLength q) v).
Definition set_DQEntries (v : Z) (q : OS_DQUEUE) : OS_DQUEUE :=
  ltac:(set_field (eta_OS_DQUEUE q) (DQEntries q) v).

(** stimer.h: a software timer; the callback is a function address, [None] is
    NULL. *)
Record BRTOS_TIMER_T := mkTimer {
  tmr_func_cb : option Z;
  tmr_timeout : Z;
  tmr_state : Z;
}.

Definition eta_BRTOS_TIMER_T (r : BRTOS_TIMER_T) : BRTOS_TIMER_T :=
  mkTimer (tmr_func_cb r) (tmr_timeout r) (tmr_state r).

Definition set_tmr_func_cb (v : option Z) (r : BRTOS_TIMER_T) : BRTOS_TIMER_T :=
  ltac:(set_field (eta_BRTOS_TIMER_T r) (tmr_func_cb r) v).
Definition set_tmr_timeout (v : Z) (r : BRTOS_TIMER_T) : BRTOS_TIMER_T :=
  ltac:(set_field (eta_BRTOS_TIMER_T r) (tmr_timeout r) v).
Definition set_tmr_state (v : Z) (r : BRTOS_TIMER_T) : BRTOS_TIMER_T :=
  ltac:(set_field (eta_BRTOS_TIMER_T r) (tmr_state r) v).

(** stimer.h: a list of timers, a binary heap of pointers into the array of
    timers; its slots are used from 1 on. *)
Record BRTOS_TMR_T := mkTmrList {
  tl_timers : list (option Z);
  tl_count : Z;
}.

Definition eta_BRTOS_TMR_T (r : BRTOS_TMR_T) : BRTOS_TMR_T :=
  mkTmrList (tl_timers r) (tl_count r).

Definition set_tl_timers (v : list (option Z)) (r : BRTOS_TMR_T) : BRTOS_TMR_T :=
  ltac:(set_field (eta_BRTOS_TMR_T r) (tl_timers r) v).
Definition set_tl_count (v : Z) (r : BRTOS_TMR_T) : BRTOS_TMR_T :=
  ltac:(set_field (eta_BRTOS_TMR_T r) (tl_count r) v).

(** stimer.c: the variable [BRTOS_TIMER_VECTOR]; [tv_current] and [tv_future]
    point to one of the two lists [BRTOS_TMR_PING] (0) and [BRTOS_TMR_PONG] (1). *)
Record timer_vector := mkTimerVector {
  tv_mem : list BRTOS_TIMER_T;
  tv_current : option Z;
  tv_future : option Z;
  tv_handling_task : Z;
}.

Definition eta_timer_vector (r : timer_vector) : timer_vector :=
  mkTimerVector (tv_mem r) (tv_current r) (tv_future r) (tv_handling_task r).

Definition set_tv_mem (v : list BRTOS_TIMER_T) (r : timer_vector) : timer_vector :=
  ltac:(set_field (eta_timer_vector r) (tv_mem r) v).
Definition set_tv_current (v : option Z) (r : timer_vector) : timer_vector :=
  ltac:(set_field (eta_timer_vector r) (tv_current r) v).
Definition set_tv_future (v : option Z) (r : timer_vector) : timer_vector :=
  ltac:(set_field (eta_timer_vector r) (tv_future r) v).
Definition set_tv_handling_task (v : Z) (r : timer_vector) : timer_vector :=
  ltac:(set_field (eta_timer_vector r) (tv_handling_task r) v).

Section state.
Context `{C : Config}.

(** The global variables of BRTOS.c (with the tables of the event services,
    the queue heap, and the HAL's [SPvalue]), and what the HAL keeps in the
    processor: the process stack pointer [PSP], the interrupt mask [PRIMASK]
    and the words [mem] of the task stacks.  [heap] is the allocator's state.
    The allocator's memory is seen through the objects that are stored in it:
    [HEAP_Queue], [HEAP_DQUEUE] and [HEAP_MEM] are, by address, the event control
    blocks, the ring control blocks and the bytes it contains.  [BRTOS_TMR] are
    the timer lists [BRTOS_TMR_PING] and [BRTOS_TMR_PONG]. *)
Record OS := mkOS {
  PriorityVector : list Z;
  iStackAddress : Z;
  iQueueAddress : Z;
  StackAddress : Z;
  NumberOfInstalledTasks : Z;
  currentTask : Z;
  SelectedTask : Z;
  OSReadyList : Z;
  OSBlockedList : Z;
  OSTickCounter : Z;
  OSDuty : Z;
  OSDutyTmp : Z;
  LastOSDuty : Z;
  DutyCnt : Z;
  TaskAlloc : Z;
  iNesting : Z;
  Tail : option Z;
  Head : option Z;
  ContextTask : list ContextType;
  BRTOS_Sem_Table : list BRTOS_Sem;
  BRTOS_Mutex_Table : list BRTOS_Mutex;
  BRTOS_Mbox_Table : list BRTOS_Mbox;
  BRTOS_Queue_Table : list BRTOS_Queue;
  BRTOS_OS_QUEUE_Table : list OS_QUEUE;
  QUEUE_STACK : list Z;
  HEAP_Queue : list BRTOS_Queue;
  HEAP_DQUEUE : list OS_DQUEUE;
  HEAP_MEM : list Z;
  BRTOS_TIMER_VECTOR : timer_vector;
  BRTOS_TMR : list BRTOS_TMR_T;
  SPvalue : Z;
  PSP : Z;
  PRIMASK : bool;
  mem : gmap Z Z;
  heap : heap_t;
}.

Definition eta_OS (s : OS) : OS :=
  mkOS (PriorityVector s) (iStackAddress s) (iQueueAddress s) (StackAddress s) (NumberOfInstalledTasks s) (currentTask s) (SelectedTask s) (OSReadyList s) (OSBlockedList s) (OSTickCounter s) (OSDuty s) (OSDutyTmp s) (LastOSDuty s) (DutyCnt s) (TaskAlloc s) (iNesting s) (Tail s) (Head s) (ContextTask s) (BRTOS_Sem_Table s) (BRTOS_Mutex_Table s) (BRTOS_Mbox_Table s) (BRTOS_Queue_Table s) (BRTOS_OS_QUEUE_Table s) (QUEUE_STACK s) (HEAP_Queue s) (HEAP_DQUEUE s) (HEAP_MEM s) (BRTOS_TIMER_VECTOR s) (BRTOS_TMR s) (SPvalue s) (PSP s) (PRIMASK s) (mem s) (heap s).

Definition set_PriorityVector (v : list Z) (s : OS) : OS :=
  ltac:(set_field (eta_OS s) (PriorityVector s) v).
Definition set_iStackAddress (v : Z) (s : OS) : OS :=
  ltac:(set_field (eta_OS s) (iStackAddress s) v).
Definition set_iQueueAddress (v : Z) (s : OS) : OS :=
  ltac:(set_field (eta_OS s) (iQueueAddress s) v).
Definition set_StackAddress (v : Z) (s : OS) : OS :=
  ltac:(set_field (eta_OS s) (StackAddress s) v).
Definition set_NumberOfInstalledTasks (v : Z) (s : OS) : OS :=
  ltac:(set_field (eta_OS s) (NumberOfInstalledTasks s) v).
Definition set_currentTask (v : Z) (s : OS) : OS :=
  ltac:(set_field (eta_OS s) (currentTask s) v).
Definition set_SelectedTask (v : Z) (s : OS) : OS :=
  ltac:(set_field (eta_OS s) (SelectedTask s) v).
Definition set_OSReadyList (v : Z) (s : OS) : OS :=
  ltac:(set_field (eta_OS s) (OSReadyList s) v).
Definition set_OSBlockedList (v : Z) (s : OS) : OS :=
  ltac:(set_field (eta_OS s) (OSBlockedList s) v).
Definition set_OSTickCounter (v : Z) (s : OS) : OS :=
  ltac:(set_field (eta_OS s) (OSTickCounter s) v).
Definition set_OSDuty (v : Z) (s : OS) : OS :=
  ltac:(set_field (eta_OS s) (OSDuty s) v).
Definition set_OSDutyTmp (v : Z) (s : OS) : OS :=
  ltac:(set_field (eta_OS s) (OSDutyTmp s) v).
Definition set_LastOSDuty (v : Z) (s : OS) : OS :=
  ltac:(set_field (eta_OS s) (LastOSDuty s) v).
Definition set_DutyCnt (v : Z) (s : OS) : OS :=
  ltac:(set_field (eta_OS s) (DutyCnt s) v).
Definition set_TaskAlloc (v : Z) (s : OS) : OS :=
  ltac:(set_field (eta_OS s) (TaskAlloc s) v).
Definition set_iNesting (v : Z) (s : OS) : OS :=
  ltac:(set_field (eta_OS s) (iNesting s) v).
Definition set_Tail (v : option Z) (s : OS) : OS :=
  ltac:(set_field (eta_OS s) (Tail s) v).
Definition set_Head (v : option Z) (s : OS) : OS :=
  ltac:(set_field (eta_OS s) (Head s) v).
Definition set_ContextTask (v : list ContextType) (s : OS) : OS :=
  ltac:(set_field (eta_OS s) (ContextTask s) v).
Definition set_BRTOS_Sem_Table (v : list BRTOS_Sem) (s : OS) : OS :=
  ltac:(set_field (eta_OS s) (BRTOS_Sem_Table s) v).
Definition set_BRTOS_Mutex_Table (v : list BRTOS_Mutex) (s : OS) : OS :=
  ltac:(set_field (eta_OS s) (BRTOS_Mutex_Table s) v).
Definition set_BRTOS_Mbox_Table (v : list BRTOS_Mbox) (s : OS) : OS :=
  ltac:(set_field (eta_OS s) (BRTOS_Mbox_Table s) v).
Definition set_BRTOS_Queue_Table (v : list BRTOS_Queue) (s : OS) : OS :=
  ltac:(set_field (eta_OS s) (BRTOS_Queue_Table s) v).
Definition set_BRTOS_OS_QUEUE_Table (v : list OS_QUEUE) (s : OS) : OS :=
  ltac:(set_field (eta_OS s) (BRTOS_OS_QUEUE_Table s) v).
Definition set_QUEUE_STACK (v : list Z) (s : OS) : OS :=
  ltac:(set_field (eta_OS s) (QUEUE_STACK s) v).
Definition set_HEAP_Queue (v : list BRTOS_Queue) (s : OS) : OS :=
  ltac:(set_field (eta_OS s) (HEAP_Queue s) v).
Definition set_HEAP_DQUEUE (v : list OS_DQUEUE) (s : OS) : OS :=
  ltac:(set_field (eta_OS s) (HEAP_DQUEUE s) v).
Definition set_HEAP_MEM (v : list Z) (s : OS) : OS :=
  ltac:(set_field (eta_OS s) (HEAP_MEM s) v).
Definition set_BRTOS_TIMER_VECTOR (v : timer_vector) (s : OS) : OS :=
  ltac:(set_field (eta_OS s) (BRTOS_TIMER_VECTOR s) v).
Definition set_BRTOS_TMR (v : list BRTOS_TMR_T) (s : OS) : OS :=
  ltac:(set_field (eta_OS s) (BRTOS_TMR s) v).
Definition set_SPvalue (v : Z) (s : OS) : OS :=
  ltac:(set_field (eta_OS s) (SPvalue s) v).
Definition set_PSP (v : Z) (s : OS) : OS :=
  ltac:(set_field (eta_OS s) (PSP s) v).
Definition set_PRIMASK (v : bool) (s : OS) : OS :=
  ltac:(set_field (eta_OS s) (PRIMASK s) v).
Definition set_mem (v : gmap Z Z) (s : OS) : OS :=
  ltac:(set_field (eta_OS s) (mem s) v).
Definition set_heap (v : heap_t) (s : OS) : OS :=
  ltac:(set_field (eta_OS s) (heap s) v).
End state.

(** ** The monad of kernel functions

    A kernel function runs atomically (interrupts are masked, or the function
    is an interrupt handler) until it returns or executes [ChangeContext].
    [Done a s]: it returned [a].  [Yield s k]: it switched the processor away
    in state [s]; [k] is the rest of the function, run when the scheduler
    dispatches the task again.  [Fault]: it dereferenced NULL or indexed outside
    an array, or a loop ran out of the fuel its model was given. *)
Section monad.
Context `{C : Config}.

Inductive res (A : Type) : Type :=
| Done (a : A) (s : OS)
| Yield (s : OS) (k : OS -> res A)
| Fault.

#[global] Arguments Done {A} a s.
#[global] Arguments Yield {A} s k.
#[global] Arguments Fault {A}.

Definition prog (A : Type) : Type := OS -> res A.

Definition ret {A} (a : A) : prog A := fun s => Done a s.
Definition fault {A} : prog A := fun _ => Fault.
Definition gets {A} (f : OS -> A) : prog A := fun s => Done (f s) s.
Definition modify (f : OS -> OS) : prog unit := fun s => Done tt (f s).

Fixpoint rbind {A B} (r : res A) (f : A -> prog B) : res B :=
  match r with
  | Done a s => f a s
  | Yield s k => Yield s (fun s' => rbind (k s') f)
  | Fault => Fault
  end.

Definition bind {A B} (p : prog A) (f : A -> prog B) : prog B :=
  fun s => rbind (p s) f.

(** [if (b) p] *)
Definition when (b : bool) (p : prog unit) : prog unit :=
  fun s => if b then p s else Done tt s.

(** The value of an expression whose evaluation may be undefined. *)
Definition lift {A} (o : option A) : prog A :=
  fun s => match o with Some a => Done a s | None => Fault end.

(** [p->...] on a pointer into a table. *)
Definition deref (p : option Z) : prog Z := lift p.

(** [l[i]] for a global array [l]. *)
Definition read {A} (l : OS -> list A) (i : Z) : prog A :=
  fun s => lift (aget (l s) i) s.

(** [l[i] = x] *)
Definition write {A} (l : OS -> list A) (set : list A -> OS -> OS) (i : Z) (x : A)
    : prog unit :=
  fun s => match aget (l s) i with
           | Some _ => Done tt (set (aset (l s) i x) s)
           | None => Fault
           end.

(** [ContextTask[t]] and assignments to its fields. *)
Definition Task (t : Z) : prog ContextType := read ContextTask t.
Definition upd_Task (t : Z) (f : ContextType -> ContextType) : prog unit :=
  fun s => match aget (ContextTask s) t with
           | Some c => Done tt (set_ContextTask (aset (ContextTask s) t (f c)) s)
           | None => Fault
           end.

(** hal/GCC_CORTEX-M4: [OSEnterCritical] saves [PRIMASK] in the caller's
    [CPU_SR] and masks interrupts; [OSExitCritical] restores it. *)
Definition OS_CPU_SR_Save : prog bool :=
  fun s => Done (PRIMASK s) (set_PRIMASK true s).
Definition OS_CPU_SR_Restore (SR : bool) : prog unit :=
  modify (set_PRIMASK SR).

Definition OSEnterCritical : prog bool := OS_CPU_SR_Save.
Definition OSExitCritical (CPU_SR : bool) : prog unit := OS_CPU_SR_Restore CPU_SR.
End monad.

Declare Scope prog_scope.
Delimit Scope prog_scope with prog.
Bind Scope prog_scope with prog.
Notation "x <- p ;; q" := (bind p (fun x => q))
  (at level 100, p at next level, right associativity) : prog_scope.
Notation "p ;;; q" := (bind p (fun _ => q))
  (at level 100, right associativity) : prog_scope.

Arguments bind {C A B} p f s /.
Arguments ret {C A} a s /.
Arguments fault {C A} s /.
Arguments gets {C A} f s /.
Arguments modify {C} f s /.
Arguments when {C} b p s /.
Arguments read {C A} l i s /.
Arguments write {C A} l set i x s /.
Arguments Task {C} t s /.
Arguments upd_Task {C} t f s /.
Arguments deref {C} p s /.
Arguments lift {C A} o s /.
Arguments OS_CPU_SR_Save {C} s /.
Arguments OS_CPU_SR_Restore {C} SR s /.
Arguments OSEnterCritical {C} s /.
Arguments OSExitCritical {C} CPU_SR s /.

(** Symbolic execution: computes a program as far as the hypotheses on array
    contents and flags allow. *)
Ltac run_step :=
  match goal with
  | H : aget ?l ?i = Some _ |- context [aget ?l ?i] => rewrite H
  | |- context [truthy 0] => rewrite truthy_0
  | |- context [0 >? 0] => change (0 >? 0) with false
  | H : ?x = true |- context [if ?x then _ else _] => rewrite H
  | H : ?x = false |- context [if ?x then _ else _] => rewrite H
  | |- context [aset (aset ?l ?i ?x) ?i ?y] => rewrite (aset_aset l i x y)
  | H : aget ?l ?i = Some _ |- context [aget (aset ?l ?i ?x) ?i] =>
      rewrite (aget_aset_eq l i x _ H)
  | H : ?i <> ?j |- context [aget (aset ?l ?i ?x) ?j] => rewrite (aget_aset_ne l i j x H)
  | H : ?j <> ?i |- context [aget (aset ?l ?i ?x) ?j] =>
      rewrite (aget_aset_ne l i j x (not_eq_sym H))
  end.
Ltac run := cbn; repeat (run_step; cbn).

(** ** Observing a run *)
Section run.
Context `{C : Config}.

(** The code and state of a program that did not yield. *)
Definition done {A} (r : res A) : option (A * OS) :=
  match r with Done a s => Some (a, s) | _ => None end.

(** The state in which a program gave up the processor. *)
Definition yielded {A} (r : res A) : option OS :=
  match r with Yield s _ => Some s | _ => None end.

(** What a yielding program does when it is dispatched again in [s]. *)
Definition resume {A} (r : res A) (s : OS) : res A :=
  match r with Yield _ k => k s | r => r end.

(** The last state a run reached, whether it returned or yielded. *)
Definition final {A} (r : res A) : option OS :=
  match r with Done _ s | Yield s _ => Some s | Fault => None end.

Lemma rbind_Done {A B} (a : A) s (f : A -> prog B) : rbind (Done a s) f = f a s.
Proof. reflexivity. Qed.

Lemma bind_Done {A B} (p : prog A) (f : A -> prog B) s a s' :
  p s = Done a s' -> bind p f s = f a s'.
Proof. intros H. unfold bind. by rewrite H. Qed.

Lemma rbind_Fault {A B} (f : A -> prog B) : rbind (@Fault _ A) f = Fault.
Proof. reflexivity. Qed.

Lemma read_Some {A} (l : OS -> list A) i x s :
  aget (l s) i = Some x -> read l i s = Done x s.
Proof. intros H. cbn. by rewrite H. Qed.
End run.
