(* ===== verification/Sched.v ===== *)
(** * The priority-preemptive scheduler

    brtos/BRTOS.c: the priority masks, the successive-approximation search
    [SAScheduler] and [OSSchedule]; hal/GCC_CORTEX-M4/HAL.h: the scheduler that
    counts leading zeros.  The theorems say that both searches return the most
    significant member of the ready set and that [OSSchedule] returns the task
    that owns it. *)

From Stdlib Require Import ZArith Lia.
From stdpp Require Import base gmap numbers list.
From S2P Require Import Prelude Config State.
#[local] Open Scope Z_scope.

Section sched.
Context `{C : Config}.

(** BRTOS.c, the constant table [PriorityMask]. *)
Definition PriorityMask : list Z :=
  if NUMBER_OF_PRIORITIES >? 16 then
    [0x01; 0x02; 0x04; 0x08; 0x10; 0x20; 0x40; 0x80; 0x0100; 0x0200; 0x0400; 0x0800;
     0x1000; 0x2000; 0x4000; 0x8000;
     0x010000; 0x020000; 0x040000; 0x080000; 0x100000; 0x200000; 0x400000; 0x800000;
     0x01000000; 0x02000000; 0x04000000; 0x08000000; 0x10000000; 0x20000000;
     0x40000000; 0x80000000]
  else if NUMBER_OF_PRIORITIES >? 8 then
    [0x01; 0x02; 0x04; 0x08; 0x10; 0x20; 0x40; 0x80; 0x0100; 0x0200; 0x0400; 0x0800;
     0x1000; 0x2000; 0x4000; 0x8000]
  else [0x01; 0x02; 0x04; 0x08; 0x10; 0x20; 0x40; 0x80].

(** [SAScheduler], the comparisons for a ready list above 0xFFFF. *)
Definition SAScheduler_16_31 (ReadyList : Z) : Z :=
  if ReadyList >? 0xFFFFFF then
    if ReadyList >? 0xFFFFFFF then
      if ReadyList >? 0x3FFFFFFF then
        if ReadyList >? 0x7FFFFFFF then 31 else 30
      else if ReadyList >? 0x1FFFFFFF then 29 else 28
    else
      if ReadyList >? 0x3FFFFFF then
        if ReadyList >? 0x7FFFFFF then 27 else 26
      else if ReadyList >? 0x1FFFFFF then 25 else 24
  else
    if ReadyList >? 0xFFFFF then
      if ReadyList >? 0x3FFFFF then
        if ReadyList >? 0x7FFFFF then 23 else 22
      else if ReadyList >? 0x1FFFFF then 21 else 20
    else
      if ReadyList >? 0x3FFFF then
        if ReadyList >? 0x7FFFF then 19 else 18
      else if ReadyList >? 0x1FFFF then 17 else 16.

(** [SAScheduler], the comparisons for a ready list above 0xFF. *)
Definition SAScheduler_8_15 (ReadyList : Z) : Z :=
  if ReadyList >? 0xFFF then
    if ReadyList >? 0x3FFF then
      if ReadyList >? 0x7FFF then 15 else 14
    else if ReadyList >? 0x1FFF then 13 else 12
  else
    if ReadyList >? 0x3FF then
      if ReadyList >? 0x7FF then 11 else 10
    else if ReadyList >? 0x1FF then 9 else 8.

(** [SAScheduler], the comparisons for a ready list of at most 0xFF. *)
Definition SAScheduler_0_7 (ReadyList : Z) : Z :=
  if ReadyList >? 0x0F then
    if ReadyList >? 0x3F then
      if ReadyList >? 0x7F then 7 else 6
    else if ReadyList >? 0x1F then 5 else 4
  else
    if ReadyList >? 0x03 then
      if ReadyList >? 0x07 then 3 else 2
    else if ReadyList >? 0x1 then 1 else 0.

(** BRTOS.c, [SAScheduler] of a build without [OPTIMIZED_SCHEDULER]. *)
Definition SAScheduler (ReadyList : Z) : Z :=
  let low :=
    if NUMBER_OF_PRIORITIES >? 8 then
      if ReadyList >? 0xFF then SAScheduler_8_15 ReadyList
      else SAScheduler_0_7 ReadyList
    else SAScheduler_0_7 ReadyList in
  if NUMBER_OF_PRIORITIES >? 16 then
    if ReadyList >? 0xFFFF then SAScheduler_16_31 ReadyList else low
  else low.

(** The Cortex-M4 [Optimezed_Scheduler]: [CLZ] (which gives 32 on 0), then
    [RSB] from 0x1F, stored in an 8-bit variable. *)
Definition CLZ (x : Z) : Z := if x =? 0 then 32 else 31 - Z.log2 x.
Definition Optimezed_Scheduler (ReadyList : Z) : Z :=
  uint8 (uint32 (0x1F - CLZ ReadyList)).

(** BRTOS.c, [OSSchedule], with the portable search: the Cortex-M4 port defines
    OPTIMIZED_SCHEDULER, which makes [Optimezed_Scheduler] the body of [SAScheduler].
    The two agree on every ready word that is not empty
    ([Optimezed_Scheduler_SAScheduler]), and idle is always ready. *)
Definition OSSchedule : prog Z :=
  (ReadyList <- gets OSReadyList ;;
   BlockedList <- gets OSBlockedList ;;
   let Priority := SAScheduler (Z.land ReadyList BlockedList) in
   read PriorityVector Priority)%prog.

(** [OSReadyList = OSReadyList | PriorityMask[p]] and
    [OSReadyList = OSReadyList & ~PriorityMask[p]]: undefined when [p] is not
    an index of the table. *)
Definition ready_insert (p : Z) : prog unit :=
  (m <- lift (aget PriorityMask p) ;;
   modify (fun s => set_OSReadyList (Z.lor (OSReadyList s) m) s))%prog.
Definition ready_remove (p : Z) : prog unit :=
  (m <- lift (aget PriorityMask p) ;;
   modify (fun s => set_OSReadyList (andnot (OSReadyList s) m) s))%prog.

(** The same on [OSBlockedList], where a clear bit is a blocked priority. *)
Definition blocked_insert (p : Z) : prog unit :=
  (m <- lift (aget PriorityMask p) ;;
   modify (fun s => set_OSBlockedList (Z.lor (OSBlockedList s) m) s))%prog.
Definition blocked_remove (p : Z) : prog unit :=
  (m <- lift (aget PriorityMask p) ;;
   modify (fun s => set_OSBlockedList (andnot (OSBlockedList s) m) s))%prog.

(** ** The ready set *)

(** The priorities that may run: ready and not blocked. *)
Definition runnable (s : OS) (p : Z) : Prop :=
  Z.testbit (OSReadyList s) p = true /\ Z.testbit (OSBlockedList s) p = true.

(** [p] is the highest member of the bit set [x]. *)
Definition highest (x p : Z) : Prop :=
  0 <= p /\ Z.testbit x p = true /\ forall q, p < q -> Z.testbit x q = false.

(** ** Lemmas *)

Lemma PriorityMask_pow2 p :
  0 <= p < PriorityType_bits -> aget PriorityMask p = Some (2 ^ p).
Proof.
  set (ok l := forallb (fun p => bool_decide (aget l p = Some (2 ^ p)))).
  enough (ok PriorityMask (seqZ 0 PriorityType_bits) = true) as Hok.
  { intros. unfold ok in Hok. rewrite forallb_forall in Hok.
    specialize (Hok p). rewrite bool_decide_eq_true in Hok.
    apply Hok, list_elem_of_In, elem_of_seqZ. lia. }
  unfold PriorityType_bits, PriorityMask. repeat case_match; vm_compute; reflexivity.
Qed.

Lemma PriorityMask_None p : PriorityType_bits <= p -> aget PriorityMask p = None.
Proof.
  intros H. apply aget_None. revert H.
  unfold PriorityType_bits, PriorityMask. repeat case_match; done.
Qed.

Lemma ready_insert_eq p s :
  0 <= p < PriorityType_bits ->
  ready_insert p s = Done tt (set_OSReadyList (Z.lor (OSReadyList s) (2 ^ p)) s).
Proof. intros H. unfold ready_insert. cbn. by rewrite PriorityMask_pow2. Qed.

Lemma ready_remove_eq p s :
  0 <= p < PriorityType_bits ->
  ready_remove p s = Done tt (set_OSReadyList (andnot (OSReadyList s) (2 ^ p)) s).
Proof. intros H. unfold ready_remove. cbn. by rewrite PriorityMask_pow2. Qed.

Lemma blocked_insert_eq p s :
  0 <= p < PriorityType_bits ->
  blocked_insert p s = Done tt (set_OSBlockedList (Z.lor (OSBlockedList s) (2 ^ p)) s).
Proof. intros H. unfold blocked_insert. cbn. by rewrite PriorityMask_pow2. Qed.

Lemma blocked_remove_eq p s :
  0 <= p < PriorityType_bits ->
  blocked_remove p s = Done tt (set_OSBlockedList (andnot (OSBlockedList s) (2 ^ p)) s).
Proof. intros H. unfold blocked_remove. cbn. by rewrite PriorityMask_pow2. Qed.

Lemma highest_log2 x : 0 < x -> highest x (Z.log2 x).
Proof.
  intros. split_and!; [apply Z.log2_nonneg|by apply Z.bit_log2|].
  intros. apply Z.bits_above_log2; lia.
Qed.

Lemma highest_unique x p q : highest x p -> highest x q -> p = q.
Proof.
  intros (? & Hp & Hp') (? & Hq & Hq').
  destruct (Z.lt_total p q) as [Hlt|[->|Hlt]]; [|done|];
    [rewrite (Hp' _ Hlt) in Hq|rewrite (Hq' _ Hlt) in Hp]; done.
Qed.

Lemma highest_member x w : 0 < x < 2 ^ w -> 0 <= Z.log2 x < w.
Proof.
  intros. split; [apply Z.log2_nonneg|]. apply Z.log2_lt_pow2; lia.
Qed.

(** The decision tree gives [p] exactly on the interval [2^p, 2^(p+1)). *)
Lemma log2_interval x p : 0 <= p -> 2 ^ p <= x < 2 ^ (p + 1) -> p = Z.log2 x.
Proof. intros. symmetry. apply Z.log2_unique; [done|]. by rewrite <- Z.add_1_r. Qed.

Ltac sa_leaf := repeat case_match; to_prop; apply log2_interval; lia.

Lemma SAScheduler_log2 x :
  0 < x < 2 ^ PriorityType_bits -> SAScheduler x = Z.log2 x.
Proof.
  unfold SAScheduler, PriorityType_bits.
  unfold SAScheduler_16_31, SAScheduler_8_15, SAScheduler_0_7.
  intros H. destruct (NUMBER_OF_PRIORITIES >? 16) eqn:E16; [sa_leaf|].
  destruct (NUMBER_OF_PRIORITIES >? 8) eqn:E8; sa_leaf.
Qed.

Lemma SAScheduler_0 : SAScheduler 0 = 0.
Proof. unfold SAScheduler. repeat case_match; first [reflexivity|discriminate]. Qed.

Lemma SAScheduler_range x :
  0 <= x < 2 ^ PriorityType_bits -> 0 <= SAScheduler x < PriorityType_bits.
Proof.
  intros. pose proof PriorityType_bits_range.
  destruct (decide (x = 0)) as [->|]; [rewrite SAScheduler_0; lia|].
  rewrite SAScheduler_log2 by lia. apply highest_member. lia.
Qed.

Lemma SAScheduler_testbit x :
  0 < x < 2 ^ PriorityType_bits -> Z.testbit x (SAScheduler x) = true.
Proof. intros. rewrite SAScheduler_log2 by done. apply Z.bit_log2. lia. Qed.

Lemma SAScheduler_highest_lemma x :
  0 < x < 2 ^ PriorityType_bits -> highest x (SAScheduler x).
Proof. intros. rewrite SAScheduler_log2 by done. apply highest_log2. lia. Qed.

Lemma runnable_land s p :
  runnable s p <-> Z.testbit (Z.land (OSReadyList s) (OSBlockedList s)) p = true.
Proof. unfold runnable. by rewrite Z.land_spec, andb_true_iff. Qed.

(** [OSSchedule] from the highest runnable priority. *)
Lemma OSSchedule_eq s p t :
  0 <= OSReadyList s < 2 ^ PriorityType_bits ->
  runnable s p -> (forall q, p < q -> ~ runnable s q) ->
  aget (PriorityVector s) p = Some t ->
  OSSchedule s = Done t s.
Proof.
  intros Hr Hp Hmax Ht. pose proof PriorityType_bits_range.
  assert (0 <= p) as Hp0.
  { destruct (decide (0 <= p)); [done|]. destruct Hp as [Hp _].
    rewrite Z.testbit_neg_r in Hp by lia. done. }
  assert (0 <= Z.land (OSReadyList s) (OSBlockedList s) < 2 ^ PriorityType_bits)
    as Hl by (apply land_range; [lia|done]).
  apply runnable_land in Hp.
  assert (0 < Z.land (OSReadyList s) (OSBlockedList s)) as Hpos.
  { destruct (decide (Z.land (OSReadyList s) (OSBlockedList s) = 0)) as [E|]; [|lia].
    rewrite E, Z.testbit_0_l in Hp. done. }
  replace p with (SAScheduler (Z.land (OSReadyList s) (OSBlockedList s))) in Ht.
  - cbn. by rewrite Ht.
  - eapply highest_unique; [apply SAScheduler_highest_lemma; lia|].
    split_and!; [done|done|]. intros q Hq.
    apply not_true_is_false. rewrite <- runnable_land. by apply Hmax.
Qed.

(** ** Theorems *)

(** C17: the successive-approximation search returns the highest priority of a
    nonempty ready set, whatever the build's number of priorities. *)
Theorem SAScheduler_highest x :
  0 < x < 2 ^ PriorityType_bits -> highest x (SAScheduler x).
Proof. apply SAScheduler_highest_lemma. Qed.

(** C18: on every nonempty 32-bit ready set the leading-zero scheduler of the
    Cortex-M4 port agrees with the portable search. *)
Theorem Optimezed_Scheduler_SAScheduler x :
  0 < x < 2 ^ PriorityType_bits -> Optimezed_Scheduler x = SAScheduler x.
Proof.
  intros H. rewrite SAScheduler_log2 by done.
  pose proof (highest_member _ _ H). pose proof PriorityType_bits_range.
  unfold Optimezed_Scheduler, CLZ. rewrite (proj2 (Z.eqb_neq x 0)) by lia.
  replace (0x1F - (31 - Z.log2 x)) with (Z.log2 x) by lia.
  rewrite uint32_small, uint8_small; lia.
Qed.

(** On the empty set they differ: 0 against 255, an index outside
    [PriorityVector]. *)
Lemma Optimezed_Scheduler_empty : Optimezed_Scheduler 0 = 255 /\ SAScheduler 0 = 0.
Proof. split; [reflexivity|apply SAScheduler_0]. Qed.
End sched.

Arguments OSSchedule {C} s /.
Arguments ready_insert : simpl never.
Arguments ready_remove : simpl never.
Arguments blocked_insert : simpl never.
Arguments blocked_remove : simpl never.
Arguments SAScheduler : simpl never.
