(* ===== verification/DelayList.v ===== *)
(** * The delay list

    brtos/includes/BRTOS.h: the macros [IncludeTaskIntoDelayList] and
    [RemoveFromDelayList], which keep the tasks that wait for a tick in a doubly
    linked list threaded through the task control blocks.  The theorems relate
    the linked list to the sequence of task numbers it represents. *)

From Stdlib Require Import ZArith Lia.
From stdpp Require Import base gmap numbers list.
From S2P Require Import Prelude Config State.
#[local] Open Scope Z_scope.
#[local] Open Scope prog_scope.

Section delay_list.
Context `{C : Config}.
Implicit Types (s : OS) (l : list Z) (t : Z) (ct : list ContextType).

(** BRTOS.h, [IncludeTaskIntoDelayList], for the local pointer [Task]. *)
Definition IncludeTaskIntoDelayList (T : Z) : prog unit :=
  tail <- gets Tail ;;
  match tail with
  | Some tl =>
      (* Insert task into list *)
      upd_Task tl (set_Next (Some T)) ;;;
      upd_Task T (set_Previous (Some tl)) ;;;
      modify (set_Tail (Some T)) ;;;
      upd_Task T (set_Next None)
  | None =>
      (* Init delay list *)
      modify (set_Tail (Some T)) ;;;
      modify (set_Head (Some T)) ;;;
      upd_Task T (set_Next None) ;;;
      upd_Task T (set_Previous None)
  end.

(** BRTOS.h, [RemoveFromDelayList]. *)
Definition RemoveFromDelayList (T : Z) : prog unit :=
  head <- gets Head ;;
  tail <- gets Tail ;;
  if bool_decide (Some T = head) then
    if bool_decide (Some T = tail) then
      modify (set_Tail None) ;;;
      modify (set_Head None)
    else
      c <- Task T ;;
      modify (set_Head (Next c)) ;;;
      h <- deref (Next c) ;;
      upd_Task h (set_Previous None)
  else
    if bool_decide (Some T = tail) then
      c <- Task T ;;
      modify (set_Tail (Previous c)) ;;;
      p <- deref (Previous c) ;;
      upd_Task p (set_Next None)
    else
      c <- Task T ;;
      n <- deref (Next c) ;;
      upd_Task n (set_Previous (Previous c)) ;;;
      c' <- Task T ;;
      p <- deref (Previous c') ;;
      upd_Task p (set_Next (Next c')).

(** ** The abstract list

    [dseg ct prev l]: the control blocks [l] are linked in this order, the
    first one's predecessor being [prev]. *)
Fixpoint dseg (ct : list ContextType) (prev : option Z) (l : list Z) (nxt : option Z)
    : Prop :=
  match l with
  | [] => True
  | t :: l' =>
      (exists c, aget ct t = Some c /\ Previous c = prev /\
                 Next c = match l' with [] => nxt | u :: _ => Some u end) /\
      dseg ct (Some t) l' nxt
  end.

(** The delay list of a state is the sequence [l] of task numbers. *)
Definition delay_list (s : OS) (l : list Z) : Prop :=
  NoDup l /\ Head s = head l /\ Tail s = last l /\ dseg (ContextTask s) None l None.

(** A control block without its list links, and states that differ only in
    the links of their control blocks and in the list's ends. *)
Definition unlinked (c : ContextType) : ContextType := set_Next None (set_Previous None c).

Definition links_only (s s' : OS) : Prop :=
  s' = set_ContextTask (ContextTask s') (set_Head (Head s') (set_Tail (Tail s') s)) /\
  map unlinked (ContextTask s') = map unlinked (ContextTask s).

(** ** Lemmas on segments *)

Lemma dseg_app ct prev l1 l2 nxt :
  dseg ct prev (l1 ++ l2) nxt <->
  dseg ct prev l1 (match l2 with [] => nxt | u :: _ => Some u end) /\
  dseg ct (match last l1 with Some t => Some t | None => prev end) l2 nxt.
Proof.
  revert prev. induction l1 as [|t l1 IH]; intros prev; [cbn; tauto|].
  rewrite <- app_comm_cons. cbn [dseg]. rewrite IH.
  replace (match last (t :: l1) with Some u => Some u | None => prev end)
    with (match last l1 with Some u => Some u | None => Some t end)
    by (rewrite last_cons; destruct (last l1); reflexivity).
  destruct l1, l2; cbn; tauto.
Qed.

Lemma dseg_frame ct ct' prev l nxt :
  (forall t, t ∈ l -> aget ct' t = aget ct t) -> dseg ct prev l nxt -> dseg ct' prev l nxt.
Proof.
  revert prev. induction l as [|t l IH]; intros prev H; [done|].
  cbn. intros [(c & Hc & Hcl) Hl]. split.
  - exists c. rewrite H by set_solver. done.
  - apply IH; [|done]. intros. apply H. set_solver.
Qed.

Lemma dseg_frame_aset ct t x prev l nxt :
  t ∉ l -> dseg ct prev l nxt -> dseg (aset ct t x) prev l nxt.
Proof.
  intros Ht. apply dseg_frame. intros u Hu. apply aget_aset_ne. set_solver.
Qed.

Lemma dseg_valid ct prev l nxt t :
  dseg ct prev l nxt -> t ∈ l -> exists c, aget ct t = Some c.
Proof.
  revert prev. induction l as [|u l IH]; intros prev; [set_solver|].
  cbn. intros [(c & Hc & _) Hl] Hin. apply elem_of_cons in Hin as [->|Hin]; eauto.
Qed.

Lemma dseg_single ct prev t nxt c :
  aget ct t = Some c -> dseg (aset ct t (set_Next nxt (set_Previous prev c))) prev [t] nxt.
Proof.
  intros H. cbn. split; [|done]. eexists. split; [by eapply aget_aset_eq|done].
Qed.

(** Storing the next pointer of the last element of a segment. *)
Lemma dseg_set_last_next ct prev l t nxt nxt' c :
  t ∉ l -> aget ct t = Some c ->
  dseg ct prev (l ++ [t]) nxt ->
  dseg (aset ct t (set_Next nxt' c)) prev (l ++ [t]) nxt'.
Proof.
  intros Ht Hc. rewrite !dseg_app. intros [Hl Hs]. split.
  - by apply dseg_frame_aset.
  - cbn in *. destruct Hs as [(c' & Hc' & Hp & _) _]. split; [|done].
    eexists. split; [by eapply aget_aset_eq|].
    rewrite Hc in Hc'. by injection Hc' as <-.
Qed.

(** Storing the previous pointer of the first element of a segment. *)
Lemma dseg_set_first_prev ct prev prev' l t nxt c :
  t ∉ l -> aget ct t = Some c ->
  dseg ct prev (t :: l) nxt ->
  dseg (aset ct t (set_Previous prev' c)) prev' (t :: l) nxt.
Proof.
  intros Ht Hc. cbn. intros [(c' & Hc' & _ & Hn) Hl]. split.
  - eexists. split; [by eapply aget_aset_eq|]. rewrite Hc in Hc'. by injection Hc' as <-.
  - by apply dseg_frame_aset.
Qed.

Lemma map_unlinked_aset ct t c c' :
  aget ct t = Some c -> unlinked c' = unlinked c ->
  map unlinked (aset ct t c') = map unlinked ct.
Proof.
  intros Hc Hu. unfold aset, aget in *. case_match; [|done].
  change (map unlinked) with (fmap (M := list) unlinked).
  rewrite list_fmap_insert, Hu. apply list_insert_id.
  by rewrite list_lookup_fmap, Hc.
Qed.

(** What [links_only] keeps of each control block. *)
Lemma unlinked_aget ct ct' t c :
  map unlinked ct' = map unlinked ct -> aget ct t = Some c ->
  exists c', aget ct' t = Some c' /\ unlinked c' = unlinked c.
Proof.
  intros Hm Hc. unfold aget in *. case_match; [|done].
  assert ((unlinked <$> ct') !! Z.to_nat t = Some (unlinked c)) as Hl.
  { change (fmap (M := list) unlinked ct') with (map unlinked ct'). rewrite Hm.
    change (map unlinked ct) with (fmap (M := list) unlinked ct).
    by rewrite list_lookup_fmap, Hc. }
  rewrite list_lookup_fmap in Hl. destruct (ct' !! Z.to_nat t) as [c'|]; [|done].
  exists c'. split; [done|]. by apply (inj Some) in Hl.
Qed.

Lemma unlinked_eq_fields c c' :
  unlinked c' = unlinked c ->
  Priority c' = Priority c /\ TimeToWait c' = TimeToWait c /\
  StackPoint c' = StackPoint c /\ StackInit c' = StackInit c /\
  StackSize c' = StackSize c /\ TaskName c' = TaskName c.
Proof. unfold unlinked. cbn. intros [=]. auto 10. Qed.

Lemma unlinked_set_TimeToWait c c' v :
  unlinked c' = unlinked c ->
  unlinked (set_TimeToWait v c') = unlinked (set_TimeToWait v c).
Proof. destruct c, c'. unfold unlinked. cbn. intros [=]. by subst. Qed.

Lemma links_only_refl s : links_only s s.
Proof. split; [by destruct s|done]. Qed.

(** ** Refinement of the two list operations *)

Lemma IncludeTaskIntoDelayList_lemma s l t c :
  delay_list s l -> t ∉ l -> aget (ContextTask s) t = Some c ->
  exists s', IncludeTaskIntoDelayList t s = Done tt s' /\
             delay_list s' (l ++ [t]) /\ links_only s s'.
Proof.
  intros (Hnd & Hh & Ht & Hd) Hni Hc. unfold IncludeTaskIntoDelayList. cbn.
  assert (NoDup (l ++ [t])) as Hnd'.
  { apply NoDup_app. split_and!; [done|set_solver|apply NoDup_singleton]. }
  destruct (decide (l = [])) as [->|Hne].
  - cbn in *. rewrite Ht. cbn. rewrite Hc. cbn.
    rewrite (aget_aset_eq _ _ _ _ Hc). cbn. eexists. split; [reflexivity|]. split.
    + split_and!; cbn; [done|done|done|]. autorewrite with brtos_rw.
      split; [|done]. eexists. split; [by eapply aget_aset_eq|done].
    + split; [reflexivity|]. cbn. autorewrite with brtos_rw.
      by eapply map_unlinked_aset.
  - destruct (exists_last Hne) as (l0 & tl & ->).
    rewrite last_snoc in Ht. rewrite Ht. cbn.
    assert (tl <> t) as Htl by set_solver.
    destruct (dseg_valid _ _ _ _ tl Hd) as [ctl Hctl]; [set_solver|].
    rewrite Hctl. cbn. rewrite aget_aset_ne by done. rewrite Hc. cbn.
    erewrite aget_aset_eq by (by rewrite aget_aset_ne).
    eexists. split; [reflexivity|]. split.
    + split_and!; cbn; [done| |by rewrite last_snoc|].
      * rewrite Hh. by destruct l0.
      * autorewrite with brtos_rw. apply dseg_app. split.
        -- apply dseg_frame_aset; [set_solver|].
           apply (dseg_set_last_next _ _ _ _ None); [|done|done].
           apply NoDup_app in Hnd. set_solver.
        -- rewrite last_snoc. rewrite <- (aset_aset _ t c).
           apply (dseg_single _ (Some tl) t None c).
           eapply aget_aset_eq. by rewrite aget_aset_ne.
    + split; [reflexivity|]. cbn. autorewrite with brtos_rw.
      rewrite (map_unlinked_aset _ t c); [|by rewrite aget_aset_ne|reflexivity].
      by eapply map_unlinked_aset.
Qed.

(** The block of [t] inside a linked list. *)
Lemma dseg_middle ct prev l1 t l2 nxt c :
  dseg ct prev (l1 ++ t :: l2) nxt -> aget ct t = Some c ->
  Previous c = (match last l1 with Some u => Some u | None => prev end) /\
  Next c = (match l2 with [] => nxt | u :: _ => Some u end).
Proof.
  rewrite dseg_app. intros [_ Hd] Hc. cbn in Hd.
  destruct Hd as [(c' & Hc' & ? & ?) _]. rewrite Hc in Hc'. injection Hc' as <-. done.
Qed.

(** Unlinking the head. *)
Lemma dseg_drop_first ct t u l nxt c :
  u ∉ l -> dseg ct None (t :: u :: l) nxt -> aget ct u = Some c ->
  dseg (aset ct u (set_Previous None c)) None (u :: l) nxt.
Proof. intros Hu [_ Hd] Hc. by eapply dseg_set_first_prev. Qed.

(** Unlinking the last element. *)
Lemma dseg_drop_last ct prev l p t c :
  p ∉ l -> dseg ct prev (l ++ [p] ++ [t]) None -> aget ct p = Some c ->
  dseg (aset ct p (set_Next None c)) prev (l ++ [p]) None.
Proof.
  intros Hp Hd Hc. rewrite app_assoc, dseg_app in Hd. destruct Hd as [Hd _].
  by eapply dseg_set_last_next.
Qed.

(** Unlinking an inner element: its neighbours [p] and [u] are joined. *)
Lemma dseg_drop_middle ct l p t u l' cp cu :
  NoDup (l ++ [p] ++ t :: u :: l') ->
  dseg ct None (l ++ [p] ++ t :: u :: l') None ->
  aget ct p = Some cp -> aget ct u = Some cu ->
  dseg (aset (aset ct u (set_Previous (Some p) cu)) p (set_Next (Some u) cp))
    None (l ++ [p] ++ u :: l') None.
Proof.
  intros Hnd Hd Hp Hu. rewrite app_assoc in *. rewrite dseg_app in Hd.
  destruct Hd as [Hl Hr]. rewrite NoDup_app, NoDup_app, !NoDup_cons in Hnd.
  destruct Hnd as ((_ & Hlp & _) & Hdis & Ht & Hu' & _).
  assert (p <> u) by (intros ->; apply (Hdis u); set_solver).
  apply dseg_app. rewrite last_snoc in *. split.
  - eapply dseg_set_last_next; [set_solver|by rewrite aget_aset_ne|].
    apply dseg_frame_aset; [|done]. intros Hin. apply (Hdis u); set_solver.
  - apply dseg_frame_aset; [intros Hin; apply (Hdis p); set_solver|].
    destruct Hr as [_ Hr]. by eapply dseg_set_first_prev.
Qed.

Lemma delay_list_valid s l t :
  delay_list s l -> t ∈ l -> exists c, aget (ContextTask s) t = Some c.
Proof. intros (_ & _ & _ & Hd). by apply (dseg_valid _ None _ None). Qed.

(** The list does not depend on the other fields of the control blocks, nor
    on the other variables of the kernel. *)
Lemma dseg_aset_links ct t c c' prev l nxt :
  aget ct t = Some c -> Next c' = Next c -> Previous c' = Previous c ->
  dseg ct prev l nxt -> dseg (aset ct t c') prev l nxt.
Proof.
  intros Hc Hn Hp. revert prev. induction l as [|u l IH]; intros prev; [done|].
  cbn. intros [(cu & Hcu & Hpu & Hnu) Hl]. split; [|by apply IH].
  destruct (decide (t = u)) as [->|Hne].
  - exists c'. rewrite Hc in Hcu. injection Hcu as <-.
    split; [by eapply aget_aset_eq|]. by rewrite Hn, Hp.
  - exists cu. by rewrite aget_aset_ne.
Qed.

Lemma delay_list_aset_links s t c c' l :
  aget (ContextTask s) t = Some c -> Next c' = Next c -> Previous c' = Previous c ->
  delay_list s l -> delay_list (set_ContextTask (aset (ContextTask s) t c') s) l.
Proof.
  intros Hc Hn Hp (? & ? & ? & Hd). split_and!; cbn; [done..|].
  by eapply dseg_aset_links.
Qed.

Lemma delay_list_ext s s' l :
  Head s' = Head s -> Tail s' = Tail s -> ContextTask s' = ContextTask s ->
  delay_list s l -> delay_list s' l.
Proof. unfold delay_list. by intros -> -> ->. Qed.

(** A delay list has at most as many members as there are control blocks. *)
Lemma delay_list_length s l :
  delay_list s l -> (length l <= length (ContextTask s))%nat.
Proof.
  intros Hd. pose proof Hd as (Hnd & _).
  assert (length l <= length (seqZ 0 (Z.of_nat (length (ContextTask s)))))%nat as Hle.
  { apply submseteq_length, NoDup_submseteq; [done|].
    intros t Ht. apply elem_of_seqZ.
    destruct (delay_list_valid s l t Hd Ht) as [c Hc].
    apply aget_lt in Hc. lia. }
  rewrite length_seqZ, Nat2Z.id in Hle. done.
Qed.

(** Which end of the list, if any, an element of it is. *)
Lemma delay_list_is_head s l1 t l2 :
  delay_list s (l1 ++ t :: l2) ->
  bool_decide (Some t = Head s) = bool_decide (l1 = []).
Proof.
  intros (Hnd & Hh & _). rewrite Hh. apply bool_decide_ext.
  destruct l1 as [|u l1]; cbn; [done|]. split; [|done]. intros [= ->].
  apply NoDup_cons in Hnd. set_solver.
Qed.

Lemma delay_list_is_tail s l1 t l2 :
  delay_list s (l1 ++ t :: l2) ->
  bool_decide (Some t = Tail s) = bool_decide (l2 = []).
Proof.
  intros (Hnd & _ & Ht & _). rewrite Ht. apply bool_decide_ext.
  destruct (decide (l2 = [])) as [->|Hne]; [by rewrite last_snoc|].
  split; [|done]. destruct (exists_last Hne) as (l0 & u & ->).
  rewrite app_comm_cons, app_assoc, last_snoc. intros [= ->].
  rewrite NoDup_app, NoDup_cons in Hnd. set_solver.
Qed.

Lemma RemoveFromDelayList_lemma s l1 t l2 :
  delay_list s (l1 ++ t :: l2) ->
  exists s', RemoveFromDelayList t s = Done tt s' /\ delay_list s' (l1 ++ l2) /\
             links_only s s' /\ aget (ContextTask s') t = aget (ContextTask s) t.
Proof.
  intros Hdl. pose proof Hdl as (Hnd & Hh & Ht & Hd).
  destruct (delay_list_valid s _ t Hdl) as [c Hc]; [set_solver|].
  destruct (dseg_middle _ _ _ _ _ _ _ Hd Hc) as [Hp Hn].
  assert (NoDup (l1 ++ l2)) as Hnd'.
  { eapply sublist_NoDup; [exact Hnd|]. apply sublist_app; [done|by constructor]. }
  assert (forall u, u ∈ l1 ++ l2 -> u <> t) as Hneq.
  { intros u Hu ->. rewrite NoDup_app, NoDup_cons in Hnd. set_solver. }
  unfold RemoveFromDelayList. cbn.
  rewrite (delay_list_is_head s l1 t l2), (delay_list_is_tail s l1 t l2) by done.
  destruct (decide (l1 = [])) as [->|Hl1], (decide (l2 = [])) as [->|Hl2];
    rewrite ?bool_decide_true, ?bool_decide_false by done; cbn.
  - eexists. split; [reflexivity|]. split_and!; cbn; done.
  - destruct l2 as [|u l2]; [done|]. rewrite Hc. cbn. rewrite Hn. cbn.
    destruct (delay_list_valid s _ u Hdl) as [cu Hcu]; [set_solver|]. rewrite Hcu.
    eexists. split; [reflexivity|]. cbn. split_and!.
    + split_and!; cbn; [done|done|by rewrite Ht|].
      apply NoDup_cons in Hnd' as [Hu _]. by apply (dseg_drop_first _ t).
    + split; [reflexivity|]. by eapply map_unlinked_aset.
    + rewrite aget_aset_ne; [done|apply Hneq; set_solver].
  - destruct (exists_last Hl1) as (l0 & p & ->). rewrite last_snoc in Hp.
    rewrite Hc. cbn. rewrite Hp. cbn.
    destruct (delay_list_valid s _ p Hdl) as [cp Hcp]; [set_solver|]. rewrite Hcp.
    eexists. split; [reflexivity|]. cbn. rewrite app_nil_r in *. split_and!.
    + split_and!; cbn; [done| |by rewrite last_snoc|].
      * rewrite Hh. by destruct l0.
      * rewrite <- app_assoc in Hd. eapply dseg_drop_last; [|done|done].
        rewrite NoDup_app in Hnd'. set_solver.
    + split; [reflexivity|]. by eapply map_unlinked_aset.
    + rewrite aget_aset_ne; [done|apply Hneq; set_solver].
  - destruct l2 as [|u l2]; [done|]. destruct (exists_last Hl1) as (l0 & p & ->).
    rewrite last_snoc in Hp. rewrite Hc. cbn. rewrite Hn. cbn.
    destruct (delay_list_valid s _ u Hdl) as [cu Hcu]; [set_solver|]. rewrite Hcu. cbn.
    rewrite aget_aset_ne by (apply Hneq; set_solver). rewrite Hc. cbn. rewrite Hp. cbn.
    destruct (delay_list_valid s _ p Hdl) as [cp Hcp]; [set_solver|].
    rewrite Hn. rewrite <- app_assoc in *.
    assert (u <> p) as Hup.
    { intros ->. rewrite app_assoc, NoDup_app in Hnd'. set_solver. }
    rewrite aget_aset_ne by done. rewrite Hcp.
    eexists. split; [reflexivity|]. cbn. split_and!.
    + split_and!; cbn; [done| | |by eapply dseg_drop_middle].
      * rewrite Hh. by destruct l0.
      * rewrite Ht. rewrite !(app_assoc l0). rewrite !last_app, !last_cons. by destruct (last l2).
    + split; [reflexivity|]. cbn.
      rewrite (map_unlinked_aset _ p cp); [|by rewrite aget_aset_ne|done].
      by eapply map_unlinked_aset.
    + rewrite !aget_aset_ne; [done|apply Hneq; set_solver|apply Hneq; set_solver].
Qed.
End delay_list.

Arguments IncludeTaskIntoDelayList : simpl never.
Arguments RemoveFromDelayList : simpl never.

(** ** Theorems *)
Section delay_theorems.
Context `{C : Config}.
Implicit Types (s : OS) (l : list Z) (t : Z).

(** C16: the linked delay list implements a sequence of tasks without repetition:
    including a task appends it at the end, removing a task takes out exactly it
    and keeps the order of the others, wherever it stands, and neither touches
    anything but links. *)
Theorem delay_list_refines s l1 l2 t c :
  delay_list s (l1 ++ l2) -> t ∉ l1 ++ l2 -> aget (ContextTask s) t = Some c ->
  (exists s1 s2, IncludeTaskIntoDelayList t s = Done tt s1 /\ delay_list s1 (l1 ++ l2 ++ [t]) /\
     links_only s s1 /\ RemoveFromDelayList t s1 = Done tt s2 /\ delay_list s2 (l1 ++ l2)) /\
  (forall u l3, l2 = u :: l3 ->
     exists s1, RemoveFromDelayList u s = Done tt s1 /\ delay_list s1 (l1 ++ l3) /\ links_only s s1).
Proof.
  intros Hd Hni Hc. split.
  - destruct (IncludeTaskIntoDelayList_lemma s (l1 ++ l2) t c) as (s1 & Hr1 & Hd1 & Hl1); [done..|].
    destruct (RemoveFromDelayList_lemma s1 (l1 ++ l2) t []) as (s2 & Hr2 & Hd2 & _); [done|].
    exists s1, s2. rewrite <- app_assoc in Hd1. rewrite app_nil_r in Hd2. done.
  - intros u l3 ->. destruct (RemoveFromDelayList_lemma s l1 u l3 Hd) as (s1 & ? & ? & ? & _).
    by exists s1.
Qed.
End delay_theorems.
