(* ===== verification/Hal.v ===== *)
(** * The Cortex-M4 port: context switch and initial task stacks

    hal/GCC_CORTEX-M4/HAL.c and HAL.h (a build with an FPU, without
    [WATERMARK] and [TICKLESS], which are in Watermark.v and Tickless.v) and the macro [OS_INT_EXIT] of
    brtos/includes/BRTOS.h: the PendSV handler that switches tasks, the
    [ChangeContext] request, and the frame a new task starts from. *)

From Stdlib Require Import ZArith Lia.
From stdpp Require Import base gmap numbers list.
From S2P Require Import Prelude Config State Sched.
#[local] Open Scope Z_scope.
#[local] Open Scope prog_scope.

Section hal.
Context `{C : Config}.
Implicit Types (s : OS).

(** The bytes [OS_SAVE_CONTEXT] pushes: R4-R11 and R14.  In the builds for the FPU
    a task that has used it pushes S16-S31 too; they are not modelled. *)
Definition CONTEXT_BYTES : Z := 36.

(** HAL.h, [OS_SAVE_CONTEXT] and [OS_SAVE_SP]: push the registers on the
    process stack and store the resulting stack pointer. *)
Definition OS_SAVE_CONTEXT_SP : prog unit :=
  modify (fun s => set_SPvalue (uint32 (PSP s - CONTEXT_BYTES)) s).

(** HAL.h, [OS_RESTORE_SP] and [OS_RESTORE_CONTEXT]: pop the registers of the
    stack [SPvalue] designates. *)
Definition OS_RESTORE_SP_CONTEXT : prog unit :=
  modify (fun s => set_PSP (uint32 (SPvalue s + CONTEXT_BYTES)) s).

(** BRTOS.h, [OS_INT_EXIT] (no task-load accounting; [CriticalDecNesting] is
    empty in this port). *)
Definition OS_INT_EXIT : prog unit :=
  nesting <- gets iNesting ;;
  when (negb (truthy nesting))
    (sel <- OSSchedule ;;
     modify (set_SelectedTask sel) ;;;
     cur <- gets currentTask ;;
     when (negb (cur =? sel))
       (OS_SAVE_CONTEXT_SP ;;;
        sp <- gets SPvalue ;;
        upd_Task cur (set_StackPoint sp) ;;;
        modify (set_currentTask sel) ;;;
        c <- Task sel ;;
        modify (set_SPvalue (StackPoint c)) ;;;
        OS_RESTORE_SP_CONTEXT)).

(** HAL.c, [SwitchContext], the PendSV handler: [OS_SAVE_ISR] masks
    interrupts and the exception return unmasks them. *)
Definition SwitchContext : prog unit :=
  modify (set_PRIMASK true) ;;;
  OS_INT_EXIT ;;;
  modify (set_PRIMASK false).

(** HAL.c, [SwitchContextToFirstTask], the handler of the SVC that
    [BTOSStartFirstTask] raises: it enters the task whose stack [SPvalue]
    designates.  (Its writes to the priority register of the handlers are not
    part of the state.) *)
Definition SwitchContextToFirstTask : prog unit :=
  OS_RESTORE_SP_CONTEXT ;;;
  modify (set_PRIMASK false).

(** HAL.h, [ChangeContext]: pend PendSV and unmask interrupts, so that the
    handler runs at once; the caller goes on when it is dispatched again. *)
Definition ChangeContext : prog unit := fun s =>
  match SwitchContext (set_PRIMASK false s) with
  | Done _ s1 => Yield s1 (fun s2 => Done tt s2)
  | _ => Fault
  end.

(** HAL.c: [*--stk_pt = w] for each word in turn. *)
Fixpoint push_words (stk_pt : Z) (ws : list Z) (m : gmap Z Z) : Z * gmap Z Z :=
  match ws with
  | [] => (stk_pt, m)
  | w :: ws' =>
      let stk_pt' := uint32 (stk_pt - sizeof_OS_CPU_TYPE) in
      push_words stk_pt' ws' (<[stk_pt' := uint32 w]> m)
  end.

Definition INITIAL_XPSR : Z := 0x01000000.

(** The registers an initial frame holds, from its highest address down: the
    exception frame xPSR, PC, LR, R12, R3, R2, R1, R0, then the exception
    return code and R11 to R4. *)
Definition initial_frame (FctPtr R1 parameters : Z) : list Z :=
  [INITIAL_XPSR; FctPtr; 0; 0x12121212; 0x03030303; 0x02020202; R1; parameters;
   0xFFFFFFFD; 0x11111111; 0x10101010; 0x09090909; 0x08080808; 0x07070707;
   0x06060606; 0x05050505; 0x04040404].

(** HAL.c, [CreateDVirtualStack]: fill the stack [stk .. stk+stk_size) of a
    dynamically installed task; the result is its stack pointer. *)
Definition CreateDVirtualStack (FctPtr stk stk_size parameters : Z) : prog Z := fun s =>
  let '(sp, m) := push_words (uint32 (stk + stk_size))
                    (initial_frame FctPtr 0x01010101 parameters) (mem s) in
  Done sp (set_mem m s).

(** HAL.c, [CreateVirtualStack], for a task in the static stack heap. *)
Definition CreateVirtualStack (FctPtr NUMBER_OF_STACKED_BYTES parameters : Z) : prog unit :=
  fun s =>
  let top := iStackAddress s + NUMBER_OF_STACKED_BYTES / sizeof_OS_CPU_TYPE in
  let '(sp, m) := push_words (uint32 (STACK_ADDR + top * sizeof_OS_CPU_TYPE))
                    (initial_frame FctPtr (NUMBER_OF_STACKED_BYTES / 10) parameters)
                    (mem s) in
  Done tt (set_mem m s).
End hal.

Arguments OS_SAVE_CONTEXT_SP {C} s /.
Arguments OS_RESTORE_SP_CONTEXT {C} s /.
Arguments OS_INT_EXIT {C} s /.
Arguments SwitchContext {C} s /.
Arguments ChangeContext : simpl never.
Arguments CreateDVirtualStack : simpl never.
Arguments CreateVirtualStack : simpl never.

(** ** The context switch *)
Section switch.
Context `{C : Config}.
Implicit Types (s : OS).

(** The state after a switch from task [cur] to task [t]. *)
Definition switched (t : Z) (s : OS) : OS :=
  if currentTask s =? t then set_SelectedTask t (set_PRIMASK false s)
  else
    match aget (ContextTask s) (currentTask s), aget (ContextTask s) t with
    | Some c, Some ct =>
        set_ContextTask
          (aset (ContextTask s) (currentTask s)
             (set_StackPoint (uint32 (PSP s - CONTEXT_BYTES)) c))
          (set_SPvalue (StackPoint ct)
             (set_PSP (uint32 (StackPoint ct + CONTEXT_BYTES))
                (set_currentTask t (set_SelectedTask t (set_PRIMASK false s)))))
    | _, _ => s
    end.

Lemma SwitchContext_eq s t :
  iNesting s = 0 -> OSSchedule (set_PRIMASK true s) = Done t (set_PRIMASK true s) ->
  is_Some (aget (ContextTask s) (currentTask s)) ->
  is_Some (aget (ContextTask s) t) ->
  SwitchContext s = Done tt (switched t s).
Proof.
  intros Hn Hs [c Hc] [ct Hct]. unfold switched. cbn in Hs.
  destruct (aget (PriorityVector s) _) as [t'|] eqn:Hv; [|done].
  injection Hs as ->. cbn. rewrite Hn. run.
  destruct (currentTask s =? t) eqn:E; run; [done|]. to_prop. by run.
Qed.

Lemma SwitchContext_nested s :
  iNesting s <> 0 -> SwitchContext s = Done tt (set_PRIMASK false s).
Proof. intros Hn. cbn. by rewrite truthy_nz. Qed.
End switch.

(** ** Initial frames *)
Section frames.
Context `{C : Config}.

Lemma push_words_spec ws p m :
  4 * Z.of_nat (length ws) <= p < 2 ^ 32 ->
  exists m', push_words p ws m = (p - 4 * Z.of_nat (length ws), m') /\
    (forall i w, ws !! i = Some w -> m' !! (p - 4 * (Z.of_nat i + 1)) = Some (uint32 w)) /\
    (forall a, a < p - 4 * Z.of_nat (length ws) \/ p <= a -> m' !! a = m !! a).
Proof.
  revert p m. induction ws as [|w ws IH]; intros p m Hp.
  - exists m. cbn. split; [f_equal; lia|done].
  - rewrite length_cons in Hp. cbn [push_words].
    rewrite (uint32_small (p - sizeof_OS_CPU_TYPE)) by (unfold sizeof_OS_CPU_TYPE; lia).
    destruct (IH (p - 4) (<[p - 4 := uint32 w]> m)) as (m' & Hm & Hin & Hout); [lia|].
    exists m'. unfold sizeof_OS_CPU_TYPE. rewrite Hm, length_cons. split_and!.
    + f_equal. lia.
    + intros [|i] v; cbn.
      * intros [= ->]. rewrite Hout by lia.
        replace (p - 4 * (Z.of_nat 0 + 1)) with (p - 4) by lia. apply lookup_insert_eq.
      * intros Hv. specialize (Hin _ _ Hv).
        by replace (p - 4 * (Z.of_nat (S i) + 1)) with (p - 4 - 4 * (Z.of_nat i + 1)) by lia.
    + intros a Ha. rewrite Hout by lia. apply lookup_insert_ne. lia.
Qed.

(** A task installed on a large enough dynamic stack starts, when it is
    first dispatched, in its own function with its own parameter: restoring
    the returned stack pointer leaves PSP at an exception frame whose PC is
    [FctPtr], whose R0 is [parameters] and whose return code is 0xFFFFFFFD;
    and the frame lies inside the stack: no word outside
    [stk, stk + stk_size) changes. *)
Theorem CreateDVirtualStack_starts_task s FctPtr stk stk_size parameters :
  0 <= stk -> NUMBER_MIN_OF_STACKED_BYTES <= stk_size -> stk + stk_size < 2 ^ 32 ->
  exists sp m,
    CreateDVirtualStack FctPtr stk stk_size parameters s = Done sp (set_mem m s) /\
    stk <= sp /\ sp + NUMBER_MIN_OF_STACKED_BYTES = stk + stk_size /\
    m !! (sp + CONTEXT_BYTES) = Some (uint32 parameters) /\
    m !! (sp + CONTEXT_BYTES + 24) = Some (uint32 FctPtr) /\
    m !! (sp + CONTEXT_BYTES + 28) = Some INITIAL_XPSR /\
    m !! (sp + CONTEXT_BYTES - 4) = Some 0xFFFFFFFD /\
    (forall a, a < stk \/ stk + stk_size <= a -> m !! a = mem s !! a).
Proof.
  unfold NUMBER_MIN_OF_STACKED_BYTES, CONTEXT_BYTES. intros.
  unfold CreateDVirtualStack. rewrite (uint32_small (stk + stk_size)) by lia.
  destruct (push_words_spec (initial_frame FctPtr 0x01010101 parameters)
              (stk + stk_size) (mem s)) as (m & -> & Hin & Hout); [cbn; lia|].
  exists (stk + stk_size - 68), m. split; [f_equal; cbn; lia|].
  split; [lia|]. split; [lia|].
  assert (forall i w a, initial_frame FctPtr 0x01010101 parameters !! i = Some w ->
            a = stk + stk_size - 4 * (Z.of_nat i + 1) -> m !! a = Some (uint32 w))
    as Hin' by (intros ??? Hi ->; eauto).
  split_and!.
  - apply (Hin' 7%nat); [done|lia].
  - apply (Hin' 1%nat); [done|lia].
  - apply (Hin' 0%nat INITIAL_XPSR); [done|lia].
  - apply (Hin' 8%nat 0xFFFFFFFD); [done|lia].
  - intros a Ha. apply Hout. cbn. lia.
Qed.
End frames.
