(* ===== verification/Clock.v ===== *)
(** * Time: the tick counter, delays and the tick handler

    brtos/BRTOS.c: the current-task and tick getters, [OSIncCounter],
    [OSDelayTask], [OSDelayTaskHMSM], [OS_TICK_HANDLER] and the idle loop's
    body; hal/GCC_CORTEX-M4/HAL.c: [TickTimer]. *)

From Stdlib Require Import ZArith Lia.
From stdpp Require Import base gmap numbers list.
From S2P Require Import Prelude Config State Sched DelayList Hal.
#[local] Open Scope Z_scope.
#[local] Open Scope prog_scope.

Section clock.
Context `{C : Config}.
Implicit Types (s : OS) (l : list Z) (t : Z).

Definition OSGetCurrentTaskHandle : prog Z :=
  CPU_SR <- OSEnterCritical ;;
  task_handle <- gets currentTask ;;
  OSExitCritical CPU_SR ;;;
  ret task_handle.

Definition OSGetTaskPriority (task_handle : Z) : prog Z :=
  CPU_SR <- OSEnterCritical ;;
  c <- Task task_handle ;;
  OSExitCritical CPU_SR ;;;
  ret (Priority c).

Definition OSGetTickCount : prog Z :=
  CPU_SR <- OSEnterCritical ;;
  cnt <- gets OSTickCounter ;;
  OSExitCritical CPU_SR ;;;
  ret cnt.

Definition OSGetCount : prog Z := gets OSTickCounter.

(** [OSIncCounter] of a build without [TICKLESS]. *)
Definition OSIncCounter : prog unit :=
  modify (fun s => set_OSTickCounter (uint ostick_bits (OSTickCounter s + 1)) s) ;;;
  cnt <- gets OSTickCounter ;;
  when (cnt =? TICK_COUNT_OVERFLOW) (modify (set_OSTickCounter 0)).

(** [OSTickCounter + time_wait], reduced by [TICK_COUNT_OVERFLOW]: the tick
    on which a delay or a timeout expires. *)
Definition wake_tick (cnt time_wait : Z) : Z :=
  let timeout := uint osdtick_bits (cnt + time_wait) in
  if sizeof_ostick_t <? 8 then
    if timeout >=? TICK_COUNT_OVERFLOW then uint ostick_bits (timeout - TICK_COUNT_OVERFLOW)
    else uint ostick_bits timeout
  else uint ostick_bits timeout.

(** [OSIncCounter] of a [TICKLESS] build. *)
Definition OSIncCounter_tickless (inc : Z) : prog unit :=
  if negb (inc =? 1) then
    cnt <- gets OSTickCounter ;;
    modify (set_OSTickCounter (wake_tick cnt inc))
  else OSIncCounter.

Definition OSDelayTask (time_wait : Z) : prog Z :=
  cur <- gets currentTask ;;
  nesting <- gets iNesting ;;
  if nesting >? 0 then ret IRQ_PEND_ERR
  else if truthy cur then
    if time_wait >? 0 then
      CPU_SR <- OSEnterCritical ;;
      cnt <- gets OSTickCounter ;;
      upd_Task cur (set_TimeToWait (wake_tick cnt time_wait)) ;;;
      (* Put task into delay list *)
      IncludeTaskIntoDelayList cur ;;;
      c <- Task cur ;;
      ready_remove (Priority c) ;;;
      (* Return to task when occur delay overflow *)
      ChangeContext ;;;
      OSExitCritical CPU_SR ;;;
      ret OK
    else ret NO_TASK_DELAY
  else ret NOT_VALID_TASK.

(** The loop [while (loops > 0) { DelayTask(60000); loops--; }]. *)
Fixpoint delay_loops (loops : nat) : prog unit :=
  match loops with
  | O => ret tt
  | S n => OSDelayTask (uint ostick_bits 60000) ;;; delay_loops n
  end.

(** The ticks of a duration, in 32-bit arithmetic. *)
Definition HMSM_ticks (hours minutes seconds miliseconds : Z) : Z :=
  uint32 (uint32 (hours * 3600 * configTICK_RATE_HZ)
          + uint32 (minutes * 60 * configTICK_RATE_HZ)
          + uint32 (seconds * configTICK_RATE_HZ)
          + uint32 (miliseconds * configTICK_RATE_HZ) / 1000).

Definition OSDelayTaskHMSM (hours minutes seconds miliseconds : Z) : prog Z :=
  if minutes >? 59 then ret INVALID_TIME
  else if seconds >? 59 then ret INVALID_TIME
  else if miliseconds >? 999 then ret INVALID_TIME
  else
    let ticks := HMSM_ticks hours minutes seconds miliseconds in
    if ticks >? 0 then
      let loops := ticks / 60000 in
      let ticks := ticks mod 60000 in
      OSDelayTask (uint16 ticks) ;;;
      delay_loops (Z.to_nat loops) ;;;
      ret OK
    else ret NO_TASK_DELAY.

(** The loop of [OS_TICK_HANDLER] over the delay list; [fuel] bounds its
    iterations. *)
Fixpoint tick_loop (fuel : nat) (T : option Z) : prog unit :=
  match T, fuel with
  | None, _ => ret tt
  | Some _, O => fault
  | Some t, S fuel' =>
      c <- Task t ;;
      cnt <- gets OSTickCounter ;;
      when (TimeToWait c =? cnt)
        (let iPrio := Priority c in
         CPU_SR <- OSEnterCritical ;;
         (* Put the task into the ready list *)
         ready_insert iPrio ;;;
         upd_Task t (set_TimeToWait EXIT_BY_TIMEOUT) ;;;
         OSExitCritical CPU_SR ;;;
         (* Remove from delay list; OS_INT_EXIT_EXT only pends the switch *)
         RemoveFromDelayList t) ;;;
      c' <- Task t ;;
      tick_loop fuel' (Next c')
  end.

(** The CPU-load accounting of [OS_TICK_HANDLER] ([COMPUTES_CPU_LOAD]). *)
Definition tick_load : prog unit :=
  cnt <- gets DutyCnt ;;
  if cnt >=? 1000 then
    modify (set_DutyCnt 0) ;;;
    modify (fun s => set_LastOSDuty (OSDuty s) s) ;;;
    modify (set_OSDuty 0)
  else
    tmp <- gets OSDutyTmp ;;
    when (negb (truthy tmp)) (modify (fun s => set_OSDuty (uint32 (OSDuty s + 1)) s)) ;;;
    modify (set_OSDutyTmp 0) ;;;
    modify (fun s => set_DutyCnt (uint16 (DutyCnt s + 1)) s).

Definition OS_TICK_HANDLER : prog unit :=
  head <- gets Head ;;
  tick_loop (Z.to_nat NUMBER_OF_TASKS + 1) head ;;;
  tick_load.

(** HAL.c, [TickTimer]: the SysTick handler, followed by the PendSV handler
    it leaves pending. *)
Definition TickTimer : prog unit :=
  OSIncCounter ;;;
  OS_TICK_HANDLER ;;;
  SwitchContext.

(** One iteration of [Idle] (the wait instruction has no effect on the
    state). *)
Definition Idle_iteration : prog unit := modify (set_OSDutyTmp 1).
End clock.

Arguments OSIncCounter {C} s /.
Arguments OSGetCount {C} s /.

(** ** The tick handler against the abstract delay list *)
Section tick.
Context `{C : Config}.
Implicit Types (s : OS) (l : list Z) (t : Z).

(** The tick of a task, its priority, and whether its wait ends now. *)
Definition prio_of (s : OS) (t : Z) : Z :=
  match aget (ContextTask s) t with Some c => Priority c | None => 0 end.

Definition expired (s : OS) (t : Z) : bool :=
  match aget (ContextTask s) t with
  | Some c => TimeToWait c =? OSTickCounter s
  | None => false
  end.

(** The ready bits of the expired tasks of [l]. *)
Fixpoint expired_set (s : OS) (l : list Z) : Z :=
  match l with
  | [] => 0
  | t :: l' => Z.lor (if expired s t then 2 ^ prio_of s t else 0) (expired_set s l')
  end.

(** What one pass over the tasks [l] does to the rest of the kernel's state:
    exactly the expired ones become ready with [EXIT_BY_TIMEOUT]. *)
Definition ticked (s s' : OS) (l : list Z) : Prop :=
  s' = set_ContextTask (ContextTask s')
         (set_Head (Head s') (set_Tail (Tail s')
            (set_OSReadyList (Z.lor (OSReadyList s) (expired_set s l)) s))) /\
  length (ContextTask s') = length (ContextTask s) /\
  forall t c, aget (ContextTask s) t = Some c ->
    exists c', aget (ContextTask s') t = Some c' /\
      unlinked c' = unlinked (if bool_decide (t ∈ l) && expired s t
                              then set_TimeToWait EXIT_BY_TIMEOUT c else c).

Lemma expired_set_ext s s' l :
  (forall t, t ∈ l -> expired s' t = expired s t /\ prio_of s' t = prio_of s t) ->
  expired_set s' l = expired_set s l.
Proof.
  induction l as [|t l IH]; intros H; [done|]. cbn.
  destruct (H t) as [-> ->]; [set_solver|]. rewrite IH; [done|set_solver].
Qed.

Lemma expired_set_testbit s l p :
  (forall t, t ∈ l -> 0 <= prio_of s t) ->
  Z.testbit (expired_set s l) p = true <->
  exists t, t ∈ l /\ expired s t = true /\ prio_of s t = p.
Proof.
  induction l as [|t l IH]; intros H.
  - cbn. rewrite Z.testbit_0_l. set_solver.
  - cbn. rewrite Z.lor_spec, orb_true_iff, IH by set_solver.
    destruct (expired s t) eqn:E.
    + rewrite testbit_pow2, bool_decide_eq_true by (apply H; set_solver). set_solver.
    + rewrite Z.testbit_0_l. set_solver.
Qed.

Lemma expired_filter_ext s s' l :
  (forall t, t ∈ l -> expired s t = expired s' t) ->
  filter (fun t => expired s t = false) l = filter (fun t => expired s' t = false) l.
Proof.
  induction l as [|t l IH]; intros H; [done|].
  rewrite !filter_cons, (H t), IH; [done|set_solver..].
Qed.

Lemma ticked_nil s : ticked s s [].
Proof.
  split_and!; [|done|].
  - cbn. rewrite Z.lor_0_r. by destruct s.
  - intros t c Hc. exists c. rewrite bool_decide_false by set_solver. done.
Qed.

(** One iteration on an expired task. *)
Lemma tick_expire s pre t rest c :
  delay_list s (pre ++ t :: rest) -> aget (ContextTask s) t = Some c ->
  0 <= Priority c < PriorityType_bits ->
  exists s1 c1,
    (CPU_SR <- OSEnterCritical ;;
     ready_insert (Priority c) ;;;
     upd_Task t (set_TimeToWait EXIT_BY_TIMEOUT) ;;;
     OSExitCritical CPU_SR ;;;
     RemoveFromDelayList t) s = Done tt s1 /\
    delay_list s1 (pre ++ rest) /\
    aget (ContextTask s1) t = Some c1 /\ Next c1 = head rest /\
    unlinked c1 = unlinked (set_TimeToWait EXIT_BY_TIMEOUT c) /\
    (forall u, u <> t -> option_map unlinked (aget (ContextTask s1) u) =
                         option_map unlinked (aget (ContextTask s) u)) /\
    length (ContextTask s1) = length (ContextTask s) /\
    s1 = set_ContextTask (ContextTask s1)
           (set_Head (Head s1) (set_Tail (Tail s1)
              (set_OSReadyList (Z.lor (OSReadyList s) (2 ^ Priority c)) s))).
Proof.
  intros Hd Hc Hp. cbn. rewrite ready_insert_eq by done. run.
  set (s0 := set_PRIMASK _ _).
  assert (delay_list s0 (pre ++ t :: rest)) as Hd0.
  { eapply (delay_list_ext (set_ContextTask (aset (ContextTask s) t
              (set_TimeToWait EXIT_BY_TIMEOUT c)) s)); [done..|].
    by eapply delay_list_aset_links. }
  destruct (RemoveFromDelayList_lemma s0 pre t rest Hd0)
    as (s1 & Hr & Hd1 & [Hs1 Hu] & Ht1).
  assert (aget (ContextTask s0) t = Some (set_TimeToWait EXIT_BY_TIMEOUT c)) as Ht0
    by (cbn; by eapply aget_aset_eq).
  exists s1, (set_TimeToWait EXIT_BY_TIMEOUT c). rewrite Hr, Ht1, Ht0.
  split_and!; [done|done|done| |done| | |].
  - pose proof Hd0 as (_ & _ & _ & Hseg).
    destruct (dseg_middle _ _ _ _ _ _ _ Hseg Ht0) as [_ Hn]. rewrite Hn. by destruct rest.
  - intros u Hne.
    assert (aget (ContextTask s0) u = aget (ContextTask s) u) as <-
      by (cbn; by apply aget_aset_ne).
    destruct (aget (ContextTask s0) u) as [cu|] eqn:Hcu.
    + destruct (unlinked_aget _ _ _ _ Hu Hcu) as (c' & -> & Hc'). cbn. by rewrite Hc'.
    + destruct (aget (ContextTask s1) u) as [c'|] eqn:Hc'; [|done].
      symmetry in Hu. destruct (unlinked_aget _ _ _ _ Hu Hc') as (? & Hx & _). congruence.
  - apply (f_equal length) in Hu. rewrite !length_map in Hu. rewrite Hu. cbn.
    apply length_aset.
  - rewrite Hs1. unfold s0. cbn. by destruct s.
Qed.

Lemma expired_unlinked s s' t c c' :
  OSTickCounter s' = OSTickCounter s ->
  aget (ContextTask s) t = Some c -> aget (ContextTask s') t = Some c' ->
  unlinked c' = unlinked c ->
  expired s' t = expired s t /\ prio_of s' t = prio_of s t.
Proof.
  intros Ht Hc Hc' Hu. apply unlinked_eq_fields in Hu as (Hp & Hw & _).
  unfold expired, prio_of. by rewrite Hc, Hc', Hp, Hw, Ht.
Qed.

(** Composing one expired iteration with the rest of the pass. *)
Lemma ticked_cons_expired s s1 s2 t rest c c1 :
  t ∉ rest -> aget (ContextTask s) t = Some c -> expired s t = true ->
  aget (ContextTask s1) t = Some c1 ->
  unlinked c1 = unlinked (set_TimeToWait EXIT_BY_TIMEOUT c) ->
  (forall u, u <> t -> option_map unlinked (aget (ContextTask s1) u) =
                       option_map unlinked (aget (ContextTask s) u)) ->
  length (ContextTask s1) = length (ContextTask s) ->
  s1 = set_ContextTask (ContextTask s1)
         (set_Head (Head s1) (set_Tail (Tail s1)
            (set_OSReadyList (Z.lor (OSReadyList s) (2 ^ Priority c)) s))) ->
  (forall u, u ∈ rest -> expired s1 u = expired s u /\ prio_of s1 u = prio_of s u) ->
  ticked s1 s2 rest -> ticked s s2 (t :: rest).
Proof.
  intros Hni Hc He Hc1 Hu1 Hoth Hlen Hs1 Hext (Hs2 & Hlen2 & Hctx). split_and!.
  - rewrite Hs2 at 1. rewrite (expired_set_ext s s1) by done. rewrite Hs1. cbn.
    rewrite He. unfold prio_of. rewrite Hc, Z.lor_assoc. by destruct s.
  - congruence.
  - intros u cu Hcu. destruct (decide (u = t)) as [->|Hne].
    + rewrite Hc in Hcu. injection Hcu as <-.
      destruct (Hctx _ _ Hc1) as (c2 & Hc2 & Hu2). exists c2. split; [done|].
      rewrite bool_decide_false in Hu2 by done.
      rewrite bool_decide_true, He by set_solver. cbn in *. congruence.
    + specialize (Hoth u Hne). rewrite Hcu in Hoth. cbn in Hoth.
      destruct (aget (ContextTask s1) u) as [cu1|] eqn:Hcu1; [|done].
      apply (inj Some) in Hoth.
      destruct (Hctx _ _ Hcu1) as (c2 & Hc2 & Hu2). exists c2. split; [done|].
      rewrite Hu2. rewrite (bool_decide_ext (u ∈ t :: rest) (u ∈ rest)) by set_solver.
      destruct (bool_decide (u ∈ rest)) eqn:Hin; [|done].
      apply bool_decide_eq_true in Hin. destruct (Hext u Hin) as [-> _]. cbn.
      destruct (expired s u); [|done]. by apply unlinked_set_TimeToWait.
Qed.

Lemma ticked_cons_kept s s' t rest :
  expired s t = false -> ticked s s' rest -> ticked s s' (t :: rest).
Proof.
  intros He (Hs & Hlen & Hctx). split_and!; [|done|].
  - cbn. by rewrite He, Z.lor_0_l.
  - intros u c Hc. destruct (Hctx _ _ Hc) as (c' & Hc' & Hu).
    exists c'. split; [done|]. rewrite Hu.
    destruct (decide (u = t)) as [->|].
    + rewrite He, !andb_false_r. done.
    + by rewrite (bool_decide_ext (u ∈ t :: rest) (u ∈ rest)) by set_solver.
Qed.

Lemma tick_loop_spec rest : forall fuel pre s,
  (length rest <= fuel)%nat ->
  delay_list s (pre ++ rest) ->
  (forall t, t ∈ rest -> 0 <= prio_of s t < PriorityType_bits) ->
  exists s', tick_loop fuel (head rest) s = Done tt s' /\
    delay_list s' (pre ++ filter (fun t => expired s t = false) rest) /\
    ticked s s' rest.
Proof.
  induction rest as [|t rest IH]; intros fuel pre s Hf Hd Hp.
  { exists s. split_and!; [by destruct fuel|done|apply ticked_nil]. }
  destruct fuel as [|fuel]; [cbn in Hf; lia|]. cbn [length] in Hf.
  destruct (delay_list_valid s _ t Hd) as [c Hc]; [set_solver|].
  assert (Hpt := Hp t ltac:(set_solver)).
  unfold prio_of in Hpt. rewrite Hc in Hpt.
  rewrite filter_cons. cbn [tick_loop head]. run.
  destruct (TimeToWait c =? OSTickCounter s) eqn:E.
  - assert (expired s t = true) as He by (unfold expired; by rewrite Hc).
    destruct (tick_expire s pre t rest c Hd Hc Hpt)
      as (s1 & c1 & Hrun & Hd1 & Hc1 & Hn1 & Hu1 & Hoth & Hlen & Hs1).
    cbn in Hrun. rewrite Hrun. run. rewrite Hn1, He.
    rewrite decide_False by done.
    assert (forall u, u ∈ rest -> expired s1 u = expired s u /\ prio_of s1 u = prio_of s u)
      as Hext.
    { intros u Hu. destruct (delay_list_valid s1 _ u Hd1) as [cu1 Hcu1]; [set_solver|].
      destruct (delay_list_valid s _ u Hd) as [cu Hcu]; [set_solver|].
      apply (expired_unlinked s s1 u cu cu1); [by rewrite Hs1|done..|].
      apply (inj Some). specialize (Hoth u). rewrite Hcu, Hcu1 in Hoth. apply Hoth.
      destruct Hd as (Hnd & _). rewrite NoDup_app, NoDup_cons in Hnd. set_solver. }
    destruct (IH fuel pre s1) as (s2 & Hrun2 & Hd2 & Ht2); [lia|done| |].
    { intros u Hu. destruct (Hext u Hu) as [_ ->]. apply Hp. set_solver. }
    exists s2. split_and!; [done| |].
    + rewrite <- (expired_filter_ext s1 s) by (intros u Hu; by apply Hext). done.
    + destruct Hd as (Hnd & _). rewrite NoDup_app, NoDup_cons in Hnd.
      eapply ticked_cons_expired; eauto; set_solver.
  - assert (expired s t = false) as He by (unfold expired; by rewrite Hc).
    run. destruct Hd as (Hnd & Hh & Htl & Hseg) eqn:HdE; clear HdE.
    destruct (dseg_middle _ _ _ _ _ _ _ Hseg Hc) as [_ Hn].
    replace (Next c) with (head rest) by (rewrite Hn; by destruct rest).
    rewrite He, decide_True by done.
    destruct (IH fuel (pre ++ [t]) s) as (s2 & Hrun2 & Hd2 & Ht2); [lia| | |].
    { by rewrite <- app_assoc. }
    { intros u Hu. apply Hp. set_solver. }
    exists s2. split_and!; [done|by rewrite <- app_assoc in Hd2|by apply ticked_cons_kept].
Qed.
End tick.

Arguments tick_load : simpl never.
Arguments tick_loop : simpl never.

(** ** Theorems on time *)
Section time_theorems.
Context `{C : Config}.
Implicit Types (s : OS) (l : list Z) (t : Z).

(** [s'] differs from [s] in the CPU-load counters only. *)
Definition same_but_load (s s' : OS) : Prop :=
  s' = set_DutyCnt (DutyCnt s') (set_LastOSDuty (LastOSDuty s')
         (set_OSDuty (OSDuty s') (set_OSDutyTmp (OSDutyTmp s') s))).

Lemma tick_load_spec s : exists s', tick_load s = Done tt s' /\ same_but_load s s'.
Proof.
  unfold tick_load. cbn. destruct (DutyCnt s >=? 1000); cbn.
  - eexists. split; [done|]. by destruct s.
  - destruct (negb (truthy (OSDutyTmp s))); cbn; (eexists; split; [done|]; by destruct s).
Qed.

(** A state whose delay list is [l] and whose control blocks are in order. *)
Definition clock_ok (s : OS) (l : list Z) : Prop :=
  delay_list s l /\ Z.of_nat (length (ContextTask s)) = NUMBER_OF_TASKS + 1 /\
  (forall t, t ∈ l -> 0 <= prio_of s t < PriorityType_bits).

Lemma OS_TICK_HANDLER_lemma s l :
  clock_ok s l ->
  exists s1 s', OS_TICK_HANDLER s = Done tt s' /\ ticked s s1 l /\ same_but_load s1 s' /\
    delay_list s' (filter (fun t => expired s t = false) l).
Proof.
  intros (Hd & Hlen & Hp). unfold OS_TICK_HANDLER. cbn.
  pose proof (delay_list_length s l Hd).
  destruct (tick_loop_spec l (Z.to_nat NUMBER_OF_TASKS + 1) [] s) as (s1 & Hr & Hd1 & Ht);
    [lia|done|done|].
  destruct Hd as (_ & Hh & _). rewrite Hh, Hr. cbn.
  destruct (tick_load_spec s1) as (s' & Hl & Hs').
  exists s1, s'. split_and!; [done|done|done|].
  eapply delay_list_ext; [..|exact Hd1]; by rewrite Hs'.
Qed.

(** What a tick leaves of a task's control block. *)
Lemma tick_task s s1 s' l t c :
  ticked s s1 l -> same_but_load s1 s' -> aget (ContextTask s) t = Some c ->
  exists c', aget (ContextTask s') t = Some c' /\ Priority c' = Priority c /\
    TimeToWait c' = if bool_decide (t ∈ l) && expired s t then EXIT_BY_TIMEOUT
                    else TimeToWait c.
Proof.
  intros (_ & _ & Hctx) Hl Hc. destruct (Hctx _ _ Hc) as (c' & Hc' & Hu).
  exists c'. rewrite Hl. cbn. split; [done|].
  apply unlinked_eq_fields in Hu as (-> & -> & _).
  destruct (bool_decide (t ∈ l) && expired s t); done.
Qed.

Lemma tick_clock_ok s s1 s' l :
  clock_ok s l -> ticked s s1 l -> same_but_load s1 s' ->
  delay_list s' (filter (fun t => expired s t = false) l) ->
  clock_ok s' (filter (fun t => expired s t = false) l).
Proof.
  intros (Hd & Hlen & Hp) Ht Hl Hd'. split_and!; [done| |].
  - rewrite Hl. cbn. destruct Ht as (_ & -> & _). done.
  - intros t [_ Hin]%list_elem_of_filter.
    destruct (delay_list_valid s l t Hd Hin) as [c Hc].
    destruct (tick_task _ _ _ _ _ _ Ht Hl Hc) as (c' & Hc' & Hpr & _).
    specialize (Hp t Hin). unfold prio_of in *. rewrite Hc in Hp. by rewrite Hc', Hpr.
Qed.

(** One tick, on a state whose delay list is [l], never faults and its
    loop ends within its fuel; afterwards the delay list holds, in the same
    order, exactly the tasks whose [TimeToWait] is not the current tick; a
    priority is ready if and only if it was or a task of [l] of that priority
    expired; the expired tasks, and no others, are marked
    [EXIT_BY_TIMEOUT]. *)
Theorem OS_TICK_HANDLER_wakes_expired s l :
  clock_ok s l ->
  exists s', OS_TICK_HANDLER s = Done tt s' /\
    clock_ok s' (filter (fun t => expired s t = false) l) /\
    (forall p, Z.testbit (OSReadyList s') p = true <->
       Z.testbit (OSReadyList s) p = true \/
       exists t, t ∈ l /\ expired s t = true /\ prio_of s t = p) /\
    (forall t c, aget (ContextTask s) t = Some c ->
       exists c', aget (ContextTask s') t = Some c' /\ Priority c' = Priority c /\
         TimeToWait c' = if bool_decide (t ∈ l) && expired s t then EXIT_BY_TIMEOUT
                         else TimeToWait c).
Proof.
  intros Hok. destruct (OS_TICK_HANDLER_lemma s l Hok) as (s1 & s' & Hr & Ht & Hl & Hd').
  exists s'. split_and!; [done|by eapply tick_clock_ok| |].
  - intros p. destruct Hok as (_ & _ & Hp). pose proof Ht as (Hs1 & _).
    rewrite <- (expired_set_testbit s l p) by (intros; by apply Hp).
    rewrite <- orb_true_iff, <- Z.lor_spec. rewrite Hl, Hs1. done.
  - intros t c Hc. by eapply tick_task.
Qed.

(** ** The counter *)

Lemma OSIncCounter_eq s :
  0 <= OSTickCounter s < TICK_COUNT_OVERFLOW ->
  OSIncCounter s =
    Done tt (set_OSTickCounter ((OSTickCounter s + 1) mod TICK_COUNT_OVERFLOW) s).
Proof.
  intros H. cbn. rewrite uint_small by (rewrite TICK_COUNT_OVERFLOW_eq in H; lia).
  destruct (OSTickCounter s + 1 =? TICK_COUNT_OVERFLOW) eqn:E; to_prop.
  - rewrite E, Z.mod_same by lia. by destruct s.
  - rewrite Z.mod_small by lia. by destruct s.
Qed.

(** On a tick narrower than 64 bits, a wait of at most one full turn of the
    counter expires after that many ticks. *)
Lemma wake_tick_mod c w :
  ostick_bits < 64 -> 0 <= c < TICK_COUNT_OVERFLOW -> 0 <= w <= TICK_COUNT_OVERFLOW ->
  wake_tick c w = (c + w) mod TICK_COUNT_OVERFLOW.
Proof.
  intros Hb Hc Hw. unfold wake_tick, sizeof_ostick_t.
  pose proof TICK_COUNT_OVERFLOW_eq as Ho.
  assert ((ostick_bits / 8 <? 8) = true) as -> by (apply Z.ltb_lt, Z.div_lt_upper_bound; lia).
  rewrite uint_small.
  - destruct (c + w >=? TICK_COUNT_OVERFLOW) eqn:E; to_prop.
    + rewrite uint_small by lia. rewrite <- (Z.mod_small (c + w - TICK_COUNT_OVERFLOW)
        TICK_COUNT_OVERFLOW) by lia.
      rewrite <- (Z.mod_add (c + w - TICK_COUNT_OVERFLOW) 1) by lia. f_equal. lia.
    + rewrite uint_small by lia. by rewrite Z.mod_small by lia.
  - destruct tick_bits_ok as [[= H1 H2]|[[= H1 H2]|[= H1 H2]]];
      rewrite H1 in *; rewrite H2; lia.
Qed.

(** Before [w] ticks have passed the counter is not at the wake tick. *)
Lemma not_wake_yet c w n o :
  0 <= c < o -> 0 <= n < w -> w <= o -> (c + n) mod o = (c + w) mod o -> n = 0 /\ w = o.
Proof.
  intros Hc Hn Hw He.
  assert ((c + w - (c + n)) mod o = 0) as Hz
    by (rewrite Zminus_mod, He, Z.sub_diag; apply Z.mod_0_l; lia).
  replace (c + w - (c + n)) with (w - n) in Hz by lia.
  destruct (decide (w - n = o)); [lia|]. rewrite Z.mod_small in Hz by lia. lia.
Qed.
End time_theorems.

Arguments OS_TICK_HANDLER : simpl never.

(** ** A delay lasts exactly as long as asked *)
Section delays.
Context `{C : Config}.
Implicit Types (s : OS) (l : list Z) (t : Z).

(** [n] tick interrupts with nothing else in between. *)
Fixpoint ticks (n : nat) : prog unit :=
  match n with
  | O => ret tt
  | S n' => ticks n' ;;; OSIncCounter ;;; OS_TICK_HANDLER
  end.

(** Task [t], of priority [p], is in the delay list until tick [W]. *)
Definition sleeping (s : OS) (t p W : Z) : Prop :=
  exists l c, clock_ok s l /\ t ∈ l /\ aget (ContextTask s) t = Some c /\
              TimeToWait c = W /\ Priority c = p.

(** Task [t], of priority [p], was woken by its timeout. *)
Definition woken (s : OS) (t p : Z) : Prop :=
  exists l c, clock_ok s l /\ t ∉ l /\ aget (ContextTask s) t = Some c /\
              TimeToWait c = EXIT_BY_TIMEOUT /\ Priority c = p /\
              Z.testbit (OSReadyList s) p = true.

(** The variables of the software timers, which a tick leaves alone. *)
Definition timer_vars (s : OS) := (BRTOS_TIMER_VECTOR s, BRTOS_TMR s).

Lemma one_tick s t p W :
  0 <= OSTickCounter s < TICK_COUNT_OVERFLOW -> sleeping s t p W ->
  exists s', (OSIncCounter ;;; OS_TICK_HANDLER) s = Done tt s' /\
    OSTickCounter s' = (OSTickCounter s + 1) mod TICK_COUNT_OVERFLOW /\
    timer_vars s' = timer_vars s /\
    if OSTickCounter s' =? W then woken s' t p else sleeping s' t p W.
Proof.
  intros Hcnt (l & c & (Hd & Hlen & Hp) & Hin & Hc & Hw & Hpr).
  unfold bind. rewrite OSIncCounter_eq by done. cbn [rbind].
  set (s0 := set_OSTickCounter _ s).
  assert (clock_ok s0 l) as Hok by done.
  destruct (OS_TICK_HANDLER_lemma s0 l Hok) as (s1 & s' & Hr & Ht & Hl & Hd').
  assert (OSTickCounter s' = OSTickCounter s0) as Hcnt'
    by (destruct Ht as (Hs1 & _); by rewrite Hl, Hs1).
  assert (timer_vars s' = timer_vars s) as Htv
    by (destruct Ht as (Hs1 & _); by rewrite Hl, Hs1).
  exists s'. split_and!; [done|done|done|]. rewrite Hcnt'.
  destruct (tick_task _ _ _ _ _ _ Ht Hl Hc) as (c' & Hc' & Hpr' & Hw').
  assert (expired s0 t = (OSTickCounter s0 =? W)) as Hex
    by (unfold expired; cbn; rewrite Hc, Hw; apply Z.eqb_sym).
  rewrite bool_decide_true, Hex in Hw' by done.
  pose proof (tick_clock_ok _ _ _ _ Hok Ht Hl Hd') as Hok'.
  destruct (OSTickCounter s0 =? W) eqn:E.
  - exists (filter (fun t => expired s0 t = false) l), c'.
    split_and!; [done| |done|done|congruence|].
    + rewrite list_elem_of_filter, Hex. by intros [? _].
    + destruct Ht as (Hs1 & _). rewrite Hl, Hs1. cbn. rewrite Z.lor_spec.
      apply orb_true_iff. right. apply expired_set_testbit.
      * intros u Hu. by apply (Hp u Hu).
      * exists t. split_and!; [done|done|]. unfold prio_of. cbn. by rewrite Hc.
  - exists (filter (fun t => expired s0 t = false) l), c'.
    split_and!; [done| |done|cbn in Hw'; congruence|congruence].
    rewrite list_elem_of_filter. done.
Qed.

Lemma delay_lemma s t p w :
  ostick_bits < 64 -> 0 <= OSTickCounter s < TICK_COUNT_OVERFLOW ->
  0 < w <= TICK_COUNT_OVERFLOW -> sleeping s t p (wake_tick (OSTickCounter s) w) ->
  (forall n, Z.of_nat n < w -> exists s', ticks n s = Done tt s' /\
     OSTickCounter s' = (OSTickCounter s + Z.of_nat n) mod TICK_COUNT_OVERFLOW /\
     timer_vars s' = timer_vars s /\ sleeping s' t p (wake_tick (OSTickCounter s) w)) /\
  (exists s', ticks (Z.to_nat w) s = Done tt s' /\
     OSTickCounter s' = wake_tick (OSTickCounter s) w /\ timer_vars s' = timer_vars s /\ woken s' t p).
Proof.
  intros Hb Hcnt Hw Hs. set (W := wake_tick _ w) in *.
  assert (W = (OSTickCounter s + w) mod TICK_COUNT_OVERFLOW) as HW
    by (apply wake_tick_mod; lia).
  assert (forall n, Z.of_nat n < w -> exists s', ticks n s = Done tt s' /\
     OSTickCounter s' = (OSTickCounter s + Z.of_nat n) mod TICK_COUNT_OVERFLOW /\
     timer_vars s' = timer_vars s /\ sleeping s' t p W) as Hn.
  { induction n as [|n IH]; intros Hlt.
    - exists s. split_and!; [done| |done|done]. rewrite Z.add_0_r. symmetry. by apply Z.mod_small.
    - destruct IH as (s1 & Hr1 & Hc1 & Hv1 & Hs1); [lia|].
      destruct (one_tick s1 t p W) as (s2 & Hr2 & Hc2 & Hv2 & Hs2); [|done|].
      { rewrite Hc1. apply Z.mod_pos_bound. lia. }
      exists s2. cbn [ticks]. unfold bind at 1. rewrite Hr1. cbn [rbind].
      assert (OSTickCounter s2 = (OSTickCounter s + Z.of_nat (S n)) mod TICK_COUNT_OVERFLOW)
        as Hc3.
      { rewrite Hc2, Hc1, Zplus_mod_idemp_l. f_equal. lia. }
      split_and!; [done|done|congruence|].
      destruct (OSTickCounter s2 =? W) eqn:E; [|done]. to_prop.
      rewrite Hc3, HW in E. apply not_wake_yet in E; lia. }
  split; [done|].
  destruct (Hn (Z.to_nat w - 1)%nat) as (s1 & Hr1 & Hc1 & Hv1 & Hs1); [lia|].
  destruct (one_tick s1 t p W) as (s2 & Hr2 & Hc2 & Hv2 & Hs2); [|done|].
  { rewrite Hc1. apply Z.mod_pos_bound. lia. }
  exists s2. replace (Z.to_nat w) with (S (Z.to_nat w - 1)) by lia. cbn [ticks].
  unfold bind at 1. rewrite Hr1. cbn [rbind].
  assert (OSTickCounter s2 = W) as E.
  { rewrite Hc2, Hc1, HW, Zplus_mod_idemp_l. f_equal. lia. }
  rewrite (proj2 (Z.eqb_eq _ _) E) in Hs2. split_and!; [done|done|congruence|done].
Qed.

(** C10: a task that went to sleep at tick [cnt] for [w] ticks (any wait up to
    a full turn of the counter, on 16- or 32-bit ticks) sleeps through the
    next [w - 1] ticks and is made ready by the [w]-th: not one tick earlier
    or later, wherever the counter wraps in between. *)
Theorem delay_lasts_exactly s t p w :
  ostick_bits < 64 -> 0 <= OSTickCounter s < TICK_COUNT_OVERFLOW ->
  0 < w <= TICK_COUNT_OVERFLOW -> sleeping s t p (wake_tick (OSTickCounter s) w) ->
  (forall n, Z.of_nat n < w -> exists s', ticks n s = Done tt s' /\
     sleeping s' t p (wake_tick (OSTickCounter s) w)) /\
  (exists s', ticks (Z.to_nat w) s = Done tt s' /\ woken s' t p).
Proof.
  intros Hb Hcnt Hw Hs. destruct (delay_lemma s t p w Hb Hcnt Hw Hs) as [Hn (s' & Hr & _ & _ & Hk)].
  split; [|by eauto]. intros n Hlt. destruct (Hn n Hlt) as (s1 & ? & _ & _ & ?). eauto.
Qed.
End delays.
