(* ===== verification/Kernel.v ===== *)
(** * The kernel invariant and the effect of a context switch

    The well-formedness invariant [wf] of the task tables, which every service
    preserves, and the theorems on the services of Clock.v that rest on it. *)

From Stdlib Require Import ZArith Lia.
From stdpp Require Import base gmap numbers list.
From S2P Require Import Prelude Config State Sched DelayList Hal Clock.
#[local] Open Scope Z_scope.
#[local] Open Scope prog_scope.

Section kernel.
Context `{C : Config}.
Implicit Types (s : OS) (l : list Z) (t p : Z).

(** Task [t] runs at priority [p]. *)
Definition task_at (s : OS) (p t : Z) : Prop :=
  aget (PriorityVector s) p = Some t /\ 0 < t /\
  exists c, aget (ContextTask s) t = Some c /\ Priority c = p.

(** Priority [p] belongs to an installed task. *)
Definition live (s : OS) (p : Z) : Prop := exists t, task_at s p t.

(** The invariant of the task tables.  [l] is the delay list.  The idle task
    is always runnable, so the scheduler always has a choice. *)
Record wf (s : OS) (l : list Z) : Prop := {
  wf_pv : Z.of_nat (length (PriorityVector s)) = PriorityType_bits;
  wf_ct : Z.of_nat (length (ContextTask s)) = NUMBER_OF_TASKS + 1;
  wf_ready : 0 <= OSReadyList s < 2 ^ PriorityType_bits;
  wf_blocked : 0 <= OSBlockedList s < 2 ^ PriorityType_bits;
  wf_tick : 0 <= OSTickCounter s < TICK_COUNT_OVERFLOW;
  wf_delay : delay_list s l;
  wf_delay_live : forall t, t ∈ l -> task_at s (prio_of s t) t;
  wf_ready_live : forall p, Z.testbit (OSReadyList s) p = true -> live s p;
  wf_idle : runnable s 0;
}.

(** The running task is the highest-priority runnable one. *)
Definition dispatched (s : OS) : Prop :=
  exists p, task_at s p (currentTask s) /\ runnable s p /\
            forall q, p < q -> ~ runnable s q.

(** States with the same tasks at the same priorities. *)
Definition same_prios (s s' : OS) : Prop :=
  PriorityVector s' = PriorityVector s /\
  length (ContextTask s') = length (ContextTask s) /\
  forall t c, aget (ContextTask s) t = Some c ->
    exists c', aget (ContextTask s') t = Some c' /\ Priority c' = Priority c.

(** ** Transport *)

Lemma same_prios_refl s : same_prios s s.
Proof. split_and!; eauto. Qed.

Lemma same_prios_trans s1 s2 s3 : same_prios s1 s2 -> same_prios s2 s3 -> same_prios s1 s3.
Proof.
  intros (H1 & H2 & H3) (G1 & G2 & G3). split_and!; [congruence..|].
  intros t c Hc. destruct (H3 _ _ Hc) as (c' & Hc' & Hp).
  destruct (G3 _ _ Hc') as (c'' & Hc'' & Hp'). exists c''. split; congruence.
Qed.

Lemma same_prios_sym s s' : same_prios s s' -> same_prios s' s.
Proof.
  intros (Hpv & Hlen & H). split_and!; [done..|]. intros t c' Hc'.
  destruct (aget_is_Some (ContextTask s) t) as [c Hc]; [apply aget_lt in Hc'; lia|].
  destruct (H _ _ Hc) as (c'' & Hc'' & Hp). exists c. split; congruence.
Qed.

Lemma same_prios_task_at s s' p t : same_prios s s' -> task_at s p t -> task_at s' p t.
Proof.
  intros (Hpv & _ & Hct) (Ht & H0 & c & Hc & Hp).
  destruct (Hct _ _ Hc) as (c' & Hc' & Hp'). split_and!; [congruence|done|].
  exists c'. split; congruence.
Qed.

Lemma same_prios_live s s' p : same_prios s s' -> live s p -> live s' p.
Proof. intros Hs [t Ht]. exists t. by eapply same_prios_task_at. Qed.

Lemma same_prios_aset s t c c' :
  aget (ContextTask s) t = Some c -> Priority c' = Priority c ->
  forall s', PriorityVector s' = PriorityVector s ->
    ContextTask s' = aset (ContextTask s) t c' -> same_prios s s'.
Proof.
  intros Hc Hp s' Hpv Hct. split_and!; [done|rewrite Hct; apply length_aset|].
  intros u cu Hu. rewrite Hct. destruct (decide (t = u)) as [->|Hne].
  - rewrite (aget_aset_eq _ _ _ _ Hc). exists c'. split; congruence.
  - rewrite aget_aset_ne by done. eauto.
Qed.

Lemma same_prios_ctx s s' :
  PriorityVector s' = PriorityVector s -> ContextTask s' = ContextTask s -> same_prios s s'.
Proof. intros H1 H2. split_and!; [done|congruence|]. intros. rewrite H2. eauto. Qed.

Lemma same_prios_links s s' : links_only s s' -> same_prios s s'.
Proof.
  intros [Hs Hu]. split_and!.
  - by rewrite Hs.
  - apply (f_equal length) in Hu. by rewrite !length_map in Hu.
  - intros t c Hc. destruct (unlinked_aget _ _ _ _ Hu Hc) as (c' & Hc' & Hx).
    apply unlinked_eq_fields in Hx as (Hp & _). eauto.
Qed.

Lemma prio_of_same s s' t p : same_prios s s' -> task_at s p t -> prio_of s' t = prio_of s t.
Proof.
  intros (_ & _ & H) (_ & _ & c & Hc & _). destruct (H _ _ Hc) as (c' & Hc' & Hp).
  unfold prio_of. by rewrite Hc, Hc', Hp.
Qed.

Lemma task_at_prio s p t : task_at s p t -> prio_of s t = p.
Proof. intros (_ & _ & c & Hc & Hp). unfold prio_of. by rewrite Hc. Qed.

Lemma task_at_prio_inj s p q t : task_at s p t -> task_at s q t -> p = q.
Proof. intros H1%task_at_prio H2%task_at_prio. congruence. Qed.

Lemma task_at_fun s p t u : task_at s p t -> task_at s p u -> t = u.
Proof. intros (H1 & _) (H2 & _). congruence. Qed.

Lemma task_at_range s l p t : wf s l -> task_at s p t -> 0 <= p < PriorityType_bits.
Proof. intros Hw (H & _). apply aget_lt in H. by rewrite (wf_pv s l Hw) in H. Qed.

Lemma task_at_ctx s p t :
  task_at s p t -> exists c, aget (ContextTask s) t = Some c /\ Priority c = p.
Proof. by intros (_ & _ & ?). Qed.

Lemma wf_clock_ok s l : wf s l -> clock_ok s l.
Proof.
  intros Hw. split_and!; [apply Hw|apply Hw|].
  intros t Ht. eapply task_at_range; [done|]. by eapply wf_delay_live.
Qed.

(** Rebuilding the invariant after a change that keeps the priorities. *)
Lemma wf_same_prios s s' l l' :
  wf s l -> same_prios s s' ->
  0 <= OSReadyList s' < 2 ^ PriorityType_bits ->
  0 <= OSBlockedList s' < 2 ^ PriorityType_bits ->
  0 <= OSTickCounter s' < TICK_COUNT_OVERFLOW ->
  delay_list s' l' ->
  (forall t, t ∈ l' -> exists p, task_at s p t) ->
  (forall p, Z.testbit (OSReadyList s') p = true -> live s p) ->
  runnable s' 0 ->
  wf s' l'.
Proof.
  intros Hw Hsp Hr Hb Htk Hd Hl Hlive Hi. pose proof Hsp as (Hpv & Hlen & _).
  split; [..|done].
  - rewrite Hpv. apply Hw.
  - rewrite Hlen. apply Hw.
  - done.
  - done.
  - done.
  - done.
  - intros t Ht. destruct (Hl t Ht) as [p Hp].
    rewrite (prio_of_same s s' t p), (task_at_prio s p t) by done.
    by eapply same_prios_task_at.
  - intros p Hp. eapply same_prios_live; eauto.
Qed.

(** ** Scheduling and switching on a well-formed state *)

Lemma highest_runnable s l :
  wf s l -> exists p, 0 <= p < PriorityType_bits /\ runnable s p /\
                      forall q, p < q -> ~ runnable s q.
Proof.
  intros Hw. set (x := Z.land (OSReadyList s) (OSBlockedList s)).
  assert (0 <= x < 2 ^ PriorityType_bits) as Hx.
  { apply land_range; [pose proof PriorityType_bits_range; lia|apply Hw]. }
  assert (Z.testbit x 0 = true) as H0 by (apply runnable_land; apply Hw).
  assert (0 < x).
  { destruct (decide (x = 0)) as [E|]; [|lia]. rewrite E, Z.testbit_0_l in H0. done. }
  destruct (highest_log2 x) as (Hp & Hbit & Hmax); [done|].
  exists (Z.log2 x). split; [apply highest_member; lia|].
  split; [by apply runnable_land|].
  intros q Hq. rewrite runnable_land. fold x. by rewrite Hmax.
Qed.

Lemma OSSchedule_wf s l :
  wf s l -> exists p t, task_at s p t /\ runnable s p /\
    (forall q, p < q -> ~ runnable s q) /\ OSSchedule s = Done t s.
Proof.
  intros Hw. destruct (highest_runnable s l Hw) as (p & Hp & Hr & Hmax).
  destruct (wf_ready_live s l Hw p) as [t Ht]; [apply Hr|].
  exists p, t. split; [done|]. split; [done|]. split; [done|].
  eapply OSSchedule_eq; [apply Hw|done|done|apply Ht].
Qed.

Lemma same_prios_switched s t : same_prios s (switched t s).
Proof.
  unfold switched. destruct (currentTask s =? t); [by apply same_prios_ctx|].
  destruct (aget (ContextTask s) (currentTask s)) as [c|] eqn:Hc; [|apply same_prios_refl].
  destruct (aget (ContextTask s) t) as [ct|] eqn:Ht; [|apply same_prios_refl].
  by apply (same_prios_aset s (currentTask s) c
              (set_StackPoint (uint32 (PSP s - CONTEXT_BYTES)) c)).
Qed.

Lemma delay_list_switched s l t : delay_list s l -> delay_list (switched t s) l.
Proof.
  intros Hd. unfold switched. destruct (currentTask s =? t); [done|].
  destruct (aget (ContextTask s) (currentTask s)) as [c|] eqn:Hc; [|done].
  destruct (aget (ContextTask s) t) as [ct|] eqn:Ht; [|done].
  by apply (delay_list_ext (set_ContextTask (aset (ContextTask s) (currentTask s)
              (set_StackPoint (uint32 (PSP s - CONTEXT_BYTES)) c)) s)),
    (delay_list_aset_links s _ c).
Qed.

(** The variables a switch leaves alone. *)
Lemma switched_frame s t :
  OSReadyList (switched t s) = OSReadyList s /\
  OSBlockedList (switched t s) = OSBlockedList s /\
  OSTickCounter (switched t s) = OSTickCounter s /\
  PriorityVector (switched t s) = PriorityVector s /\
  iNesting (switched t s) = iNesting s /\
  TaskAlloc (switched t s) = TaskAlloc s /\
  BRTOS_Sem_Table (switched t s) = BRTOS_Sem_Table s /\
  BRTOS_Mutex_Table (switched t s) = BRTOS_Mutex_Table s /\
  BRTOS_Mbox_Table (switched t s) = BRTOS_Mbox_Table s /\
  BRTOS_Queue_Table (switched t s) = BRTOS_Queue_Table s /\
  BRTOS_OS_QUEUE_Table (switched t s) = BRTOS_OS_QUEUE_Table s /\
  QUEUE_STACK (switched t s) = QUEUE_STACK s.
Proof. unfold switched. repeat case_match; done. Qed.

Lemma switched_heap s t : heap (switched t s) = heap s.
Proof. unfold switched. repeat case_match; done. Qed.

Lemma wf_switched s l t : wf s l -> wf (switched t s) l.
Proof.
  intros Hw. destruct (switched_frame s t) as (Hr & Hb & Ht & _).
  eapply wf_same_prios; [done|apply same_prios_switched|..];
    rewrite ?Hr, ?Hb, ?Ht; try apply Hw.
  - by apply delay_list_switched, Hw.
  - intros u Hu. exists (prio_of s u). by eapply wf_delay_live.
  - unfold runnable. rewrite Hr, Hb. apply Hw.
Qed.

(** The heart of the preemptive kernel.  On a well-formed state a task
    that gives up the processor outside an interrupt hands it to the task of
    the highest runnable priority; the invariant is preserved and nothing but
    the switch itself changes. *)
Lemma ChangeContext_lemma s l :
  wf s l -> iNesting s = 0 -> is_Some (aget (ContextTask s) (currentTask s)) ->
  exists t, ChangeContext s = Yield (switched t s) (fun s' => Done tt s') /\
    wf (switched t s) l /\ dispatched (switched t s) /\ same_prios s (switched t s).
Proof.
  intros Hw Hn Hcur.
  destruct (OSSchedule_wf s l Hw) as (p & t & Ht & Hr & Hmax & Hsch).
  exists t. pose proof Ht as (_ & _ & ct & Hct & _).
  assert (switched t (set_PRIMASK false s) = switched t s) as Hsw.
  { unfold switched. cbn. repeat case_match; try done; destruct Hcur; congruence. }
  split_and!.
  - unfold ChangeContext. rewrite (SwitchContext_eq _ t); [by rewrite Hsw|done| |done|by eexists].
    cbn in Hsch |- *. destruct (aget (PriorityVector s) _); [|done]. by injection Hsch as ->.
  - by apply wf_switched.
  - exists p. destruct (switched_frame s t) as (Er & Eb & _).
    assert (currentTask (switched t s) = t) as ->.
    { unfold switched. destruct Hcur as [c Hc]. destruct (currentTask s =? t) eqn:E; to_prop.
      - done.
      - by rewrite Hc, Hct. }
    unfold runnable in *. rewrite Er, Eb. split; [|done].
    eapply same_prios_task_at; [apply same_prios_switched|done].
  - apply same_prios_switched.
Qed.
End kernel.

(** ** The steps every blocking service is made of *)
Section steps.
Context `{C : Config}.
Implicit Types (s : OS) (l : list Z) (t p : Z).

(** The variables the invariant is about. *)
Definition kernel_vars (s : OS) :=
  (PriorityVector s, ContextTask s, OSReadyList s, OSBlockedList s, OSTickCounter s,
   Head s, Tail s).

Lemma wf_ext s s' l : kernel_vars s' = kernel_vars s -> wf s l -> wf s' l.
Proof.
  unfold kernel_vars. intros [= Hpv Hct Hr Hb Ht Hh Htl] Hw.
  eapply wf_same_prios; [done|by apply same_prios_ctx|..]; rewrite ?Hr, ?Hb, ?Ht;
    try apply Hw.
  - eapply delay_list_ext; [done..|apply Hw].
  - intros t Hin. eexists. by eapply wf_delay_live.
  - unfold runnable. rewrite Hr, Hb. apply Hw.
Qed.

Lemma task_at_ext s s' p t :
  PriorityVector s' = PriorityVector s -> ContextTask s' = ContextTask s ->
  task_at s p t -> task_at s' p t.
Proof. intros. eapply same_prios_task_at; [by apply same_prios_ctx|done]. Qed.

Lemma runnable_clear s p q :
  0 <= p -> p <> q -> runnable s q ->
  runnable (set_OSReadyList (andnot (OSReadyList s) (2 ^ p)) s) q.
Proof.
  intros Hp Hne [Hr Hb]. split; [|done]. cbn.
  rewrite testbit_clear, Hr, bool_decide_false by done. done.
Qed.

(** Leaving the ready list. *)
Lemma wf_ready_remove s l p :
  wf s l -> 0 < p -> wf (set_OSReadyList (andnot (OSReadyList s) (2 ^ p)) s) l.
Proof.
  intros Hw Hp. pose proof PriorityType_bits_range.
  eapply wf_same_prios; [done|by apply same_prios_ctx|..]; cbn; try apply Hw.
  - apply andnot_range; [lia|apply Hw].
  - intros t Hin. eexists. by eapply wf_delay_live.
  - intros q. rewrite testbit_clear by lia. intros [Hq _]%andb_true_iff. by eapply wf_ready_live.
  - apply runnable_clear; [lia|lia|apply Hw].
Qed.

(** Entering the ready list. *)
Lemma wf_ready_insert s l p :
  wf s l -> live s p -> wf (set_OSReadyList (Z.lor (OSReadyList s) (2 ^ p)) s) l.
Proof.
  intros Hw [t Ht]. pose proof (task_at_range s l p t Hw Ht).
  eapply wf_same_prios; [done|by apply same_prios_ctx|..]; cbn; try apply Hw.
  - apply lor_pow2_range; [lia|apply Hw].
  - intros u Hin. eexists. by eapply wf_delay_live.
  - intros q. rewrite testbit_set by lia. intros [Hq|Hq]%orb_true_iff.
    + by eapply wf_ready_live.
    + apply bool_decide_eq_true in Hq as <-. by exists t.
  - destruct (wf_idle s l Hw) as [Hr Hb]. split; cbn; [|done].
    rewrite testbit_set, Hr by lia. done.
Qed.

(** Changing a control block outside its priority and links. *)
Lemma wf_upd_Task s l t c c' :
  wf s l -> aget (ContextTask s) t = Some c ->
  Priority c' = Priority c -> Next c' = Next c -> Previous c' = Previous c ->
  wf (set_ContextTask (aset (ContextTask s) t c') s) l.
Proof.
  intros Hw Hc Hp Hn Hpr.
  eapply wf_same_prios; [done|by apply (same_prios_aset s t c c')|..]; cbn; try apply Hw.
  - apply (delay_list_aset_links s t c); [done..|apply Hw].
  - intros u Hin. eexists. by eapply wf_delay_live.
Qed.

(** A change of the links alone, to the list [l']. *)
Lemma wf_links s s' l l' :
  wf s l -> links_only s s' -> delay_list s' l' ->
  (forall t, t ∈ l' -> exists p, task_at s p t) -> wf s' l'.
Proof.
  intros Hw Hl Hd Hin. pose proof Hl as [Hs _].
  eapply wf_same_prios; [done|by apply same_prios_links|..]; [rewrite Hs; apply Hw..|done|done| |].
  - intros p. rewrite Hs. cbn. apply Hw.
  - unfold runnable. rewrite Hs. apply Hw.
Qed.

Lemma wf_include s l t p :
  wf s l -> task_at s p t -> t ∉ l ->
  exists s', IncludeTaskIntoDelayList t s = Done tt s' /\ wf s' (l ++ [t]) /\ links_only s s'.
Proof.
  intros Hw Ht Hni. destruct (task_at_ctx s p t Ht) as (c & Hc & _).
  destruct (IncludeTaskIntoDelayList_lemma s l t c) as (s' & Hr & Hd & Hl); [apply Hw|done..|].
  exists s'. split_and!; [done| |done..]. eapply wf_links; [done..|].
  intros u [Hu|Hu%list_elem_of_singleton]%elem_of_app.
  - eexists. by eapply wf_delay_live.
  - subst. eauto.
Qed.

Lemma wf_remove s l1 t l2 :
  wf s (l1 ++ t :: l2) ->
  exists s', RemoveFromDelayList t s = Done tt s' /\ wf s' (l1 ++ l2) /\ links_only s s' /\
             aget (ContextTask s') t = aget (ContextTask s) t.
Proof.
  intros Hw. destruct (RemoveFromDelayList_lemma s l1 t l2) as (s' & Hr & Hd & Hl & Ht);
    [apply Hw|].
  exists s'. split_and!; [done| |done..]. eapply wf_links; [done..|].
  intros u Hu. eexists. eapply wf_delay_live; [done|]. set_solver.
Qed.

(** [links_only] keeps everything but the links. *)
Lemma links_only_frame s s' :
  links_only s s' ->
  OSReadyList s' = OSReadyList s /\ OSBlockedList s' = OSBlockedList s /\
  OSTickCounter s' = OSTickCounter s /\ PriorityVector s' = PriorityVector s /\
  iNesting s' = iNesting s /\ currentTask s' = currentTask s /\
  PRIMASK s' = PRIMASK s.
Proof. intros [-> _]. done. Qed.

Lemma links_only_task s s' t c :
  links_only s s' -> aget (ContextTask s) t = Some c ->
  exists c', aget (ContextTask s') t = Some c' /\
             Priority c' = Priority c /\ TimeToWait c' = TimeToWait c.
Proof.
  intros [_ Hu] Hc. destruct (unlinked_aget _ _ _ _ Hu Hc) as (c' & ? & Hx).
  apply unlinked_eq_fields in Hx as (? & ? & _). eauto.
Qed.

(** What a context switch leaves of a control block. *)
Lemma switched_task s t u c :
  aget (ContextTask s) u = Some c ->
  exists c', aget (ContextTask (switched t s)) u = Some c' /\
             Priority c' = Priority c /\ TimeToWait c' = TimeToWait c.
Proof.
  intros Hc. unfold switched. destruct (currentTask s =? t); [eauto|].
  destruct (aget (ContextTask s) (currentTask s)) as [c0|] eqn:H0; [|eauto].
  destruct (aget (ContextTask s) t) as [ct|] eqn:Ht; [|eauto]. cbn.
  destruct (decide (currentTask s = u)) as [E|E].
  - subst u. rewrite (aget_aset_eq _ _ _ _ H0). eexists. split; [done|].
    rewrite H0 in Hc. injection Hc as <-. done.
  - rewrite aget_aset_ne by done. eauto.
Qed.
(** The deadlines of the tasks other than [t] are those of [s]. *)
Definition same_deadlines (t : Z) (s s' : OS) : Prop :=
  forall u c, u <> t -> aget (ContextTask s) u = Some c ->
    exists c', aget (ContextTask s') u = Some c' /\ TimeToWait c' = TimeToWait c.

Lemma same_deadlines_trans t s1 s2 s3 :
  same_deadlines t s1 s2 -> same_deadlines t s2 s3 -> same_deadlines t s1 s3.
Proof.
  intros H1 H2 u c Hu Hc. destruct (H1 u c Hu Hc) as (c1 & Hc1 & E1).
  destruct (H2 u c1 Hu Hc1) as (c2 & ? & E2). exists c2. split; congruence.
Qed.

Lemma same_deadlines_aset t s ct c :
  ContextTask s = ct -> forall s', ContextTask s' = aset ct t c -> same_deadlines t s s'.
Proof. intros <- s' Hs u cu Hne Hu. exists cu. by rewrite Hs, aget_aset_ne. Qed.

Lemma same_deadlines_ctx t s s' : ContextTask s' = ContextTask s -> same_deadlines t s s'.
Proof. intros Hs u c _ Hc. exists c. by rewrite Hs. Qed.

Lemma same_deadlines_links t s s' : links_only s s' -> same_deadlines t s s'.
Proof.
  intros Hl u c _ Hc. destruct (links_only_task _ _ _ _ Hl Hc) as (c' & ? & _ & ?). by exists c'.
Qed.

Lemma same_deadlines_switched t s u : same_deadlines t s (switched u s).
Proof. intros v c _ Hc. destruct (switched_task s u v c Hc) as (c' & ? & _ & ?). by exists c'. Qed.

(** Setting the deadline of a task and putting it into the delay list. *)
Lemma arm_timeout s l p t c D :
  wf s l -> task_at s p t -> t ∉ l -> aget (ContextTask s) t = Some c ->
  exists s0,
    IncludeTaskIntoDelayList t
      (set_ContextTask (aset (ContextTask s) t (set_TimeToWait D c)) s) = Done tt s0 /\
    (exists ct hd tl, s0 = set_ContextTask ct (set_Head hd (set_Tail tl s))) /\
    wf s0 (l ++ [t]) /\ same_prios s s0 /\ same_deadlines t s s0 /\
    (exists c', aget (ContextTask s0) t = Some c' /\ Priority c' = p /\ TimeToWait c' = D).
Proof.
  intros Hw Ht Hni Hc. destruct (task_at_ctx s p t Ht) as (c0 & Hc0 & Hp).
  rewrite Hc in Hc0. injection Hc0 as <-.
  set (s1 := set_ContextTask _ s).
  assert (wf s1 l) as Hw1 by (by eapply wf_upd_Task).
  assert (same_prios s s1) as Hsp by (by apply (same_prios_aset s t c (set_TimeToWait D c))).
  destruct (wf_include s1 l t p) as (s2 & Hr2 & Hw2 & Hl2);
    [done|by eapply same_prios_task_at|done|].
  destruct (links_only_task s1 s2 t (set_TimeToWait D c)) as (c2 & ? & HP & HT);
    [done|by eapply aget_aset_eq|].
  exists s2. split_and!; [done| |done|..].
  - destruct Hl2 as [-> _]. by eexists _, _, _.
  - eapply same_prios_trans; [done|by apply same_prios_links].
  - apply (same_deadlines_trans t s s1); [|by apply same_deadlines_links].
    by apply (same_deadlines_aset t s (ContextTask s) (set_TimeToWait D c)).
  - exists c2. by rewrite HP, HT.
Qed.
End steps.

(** ** Services of Clock.v on a well-formed state *)
Section delay_service.
Context `{C : Config}.
Implicit Types (s : OS) (l : list Z) (t p : Z).

(** The running task, of priority [p], puts itself to sleep: [s0] is the state
    in which it gives up the processor. *)
Lemma OSDelayTask_lemma s l p w :
  wf s l -> iNesting s = 0 -> task_at s p (currentTask s) -> 0 < p ->
  currentTask s ∉ l -> 0 < w ->
  exists s0 t,
    OSDelayTask w s = Yield (switched t s0) (fun s2 => Done OK (set_PRIMASK (PRIMASK s) s2)) /\
    (exists ct hd tl, s0 = set_ContextTask ct (set_Head hd (set_Tail tl
       (set_OSReadyList (andnot (OSReadyList s) (2 ^ p)) (set_PRIMASK true s))))) /\
    wf (switched t s0) (l ++ [currentTask s]) /\ dispatched (switched t s0) /\
    same_prios s s0 /\ same_deadlines (currentTask s) s s0 /\
    (exists c, aget (ContextTask s0) (currentTask s) = Some c /\ Priority c = p /\
       TimeToWait c = wake_tick (OSTickCounter s) w).
Proof.
  intros Hw Hn Ht Hp Hni Hpos. unfold OSDelayTask. cbn. rewrite Hn.
  pose proof Ht as (_ & Ht0 & c & Hc & Hpc). pose proof (task_at_range s l p _ Hw Ht).
  rewrite (truthy_nz (currentTask s)) by lia.
  rewrite (proj2 (Z.gtb_lt w 0)) by lia. run.
  destruct (arm_timeout (set_PRIMASK true s) l p (currentTask s) c (wake_tick (OSTickCounter s) w))
    as (s1 & Hr & (ct & hd & tl & Hf) & Hw1 & Hsp & Hdl & c1 & Hc1 & Hp1 & HT);
    [by apply (wf_ext s)|by apply (task_at_ext s)|done|done|].
  cbn in Hr. rewrite Hr. cbn. rewrite Hc1. cbn. rewrite Hp1, ready_remove_eq by lia. cbn.
  set (s2 := set_OSReadyList _ s1).
  assert (wf s2 (l ++ [currentTask s])) as Hw2 by (by apply wf_ready_remove).
  destruct (ChangeContext_lemma s2 (l ++ [currentTask s])) as (t & Hcc & Hw3 & Hdis & _);
    [done|by unfold s2; rewrite Hf|unfold s2; rewrite Hf in Hc1 |- *; by exists c1|].
  rewrite Hcc. cbn. exists s2, t. split_and!.
  - done.
  - exists ct, hd, tl. unfold s2. by rewrite Hf.
  - done.
  - done.
  - eapply same_prios_trans; [by apply (same_prios_ctx s (set_PRIMASK true s))|].
    eapply same_prios_trans; [done|]. by apply same_prios_ctx.
  - exact Hdl.
  - by exists c1.
Qed.
End delay_service.

(** ** The tick interrupt on a well-formed state *)
Section tick_interrupt.
Context `{C : Config}.
Implicit Types (s : OS) (l : list Z) (t p : Z).

(** The state in which the tick handler runs: the counter is advanced. *)
Definition next_tick (s : OS) : OS :=
  set_OSTickCounter ((OSTickCounter s + 1) mod TICK_COUNT_OVERFLOW) s.

(** The tasks that stay in the delay list at the next tick. *)
Definition still_waiting (s : OS) (l : list Z) : list Z :=
  filter (fun t => expired (next_tick s) t = false) l.

(** The variables a tick does not touch. *)
Definition tick_frame (s : OS) :=
  (currentTask s, iNesting s, PRIMASK s, OSBlockedList s, BRTOS_Sem_Table s, BRTOS_Mutex_Table s,
   BRTOS_Mbox_Table s, BRTOS_Queue_Table s, BRTOS_OS_QUEUE_Table s, QUEUE_STACK s, TaskAlloc s).

Lemma wf_next_tick s l : wf s l -> wf (next_tick s) l.
Proof.
  intros Hw. apply (wf_same_prios s _ l l Hw); [by apply same_prios_ctx|apply Hw|apply Hw| | | |apply Hw|apply Hw].
  - apply Z.mod_pos_bound. pose proof (wf_tick s l Hw). lia.
  - apply (delay_list_ext s); [done|done|done|apply Hw].
  - intros t Hin. eexists. by eapply wf_delay_live.
Qed.

Lemma same_prios_ticked s s1 s' l :
  ticked s s1 l -> same_but_load s1 s' -> same_prios s s'.
Proof.
  intros Ht Hl. pose proof Ht as (Hs1 & Hlen & _). split_and!.
  - rewrite Hl, Hs1. done.
  - rewrite Hl. cbn. by rewrite Hlen.
  - intros t c Hc. destruct (tick_task _ _ _ _ _ _ Ht Hl Hc) as (c' & ? & ? & _). eauto.
Qed.

Lemma expired_set_range s l :
  wf s l -> 0 <= Z.lor (OSReadyList s) (expired_set s l) < 2 ^ PriorityType_bits.
Proof.
  intros Hw. pose proof PriorityType_bits_range.
  assert (forall t, t ∈ l -> 0 <= prio_of s t < PriorityType_bits) as Hp
    by (intros t Ht; by apply (wf_clock_ok s l Hw)).
  assert (0 <= expired_set s l) as H0.
  { clear Hw. induction l as [|t l IH]; [done|]. cbn. apply Z.lor_nonneg. split.
    - destruct (expired s t); [|done]. apply Z.pow_nonneg. lia.
    - apply IH. intros u Hu. apply Hp. by apply list_elem_of_further. }
  apply bitset_range; [lia|apply Z.lor_nonneg; split; [apply Hw|done]|].
  intros q Hq. rewrite Z.lor_spec, (testbit_high _ PriorityType_bits) by (apply Hw || done).
  apply not_true_is_false. intros (t & Ht & _ & <-)%(expired_set_testbit s l q).
  - specialize (Hp t Ht). lia.
  - intros u Hu. specialize (Hp u Hu). lia.
Qed.

(** Advancing the counter and running the tick handler keeps the invariant,
    makes the expired tasks ready and marks them. *)
Lemma wf_tick_handler s l :
  wf s l ->
  exists s', (OSIncCounter ;;; OS_TICK_HANDLER) s = Done tt s' /\ wf s' (still_waiting s l) /\
    same_prios s s' /\ OSTickCounter s' = OSTickCounter (next_tick s) /\
    tick_frame s' = tick_frame s /\
    (forall p, Z.testbit (OSReadyList s') p = true <-> Z.testbit (OSReadyList s) p = true \/
       exists t, t ∈ l /\ expired (next_tick s) t = true /\ prio_of s t = p) /\
    (forall t c, aget (ContextTask s) t = Some c ->
       exists c', aget (ContextTask s') t = Some c' /\ Priority c' = Priority c /\
         TimeToWait c' = if bool_decide (t ∈ l) && expired (next_tick s) t
                         then EXIT_BY_TIMEOUT else TimeToWait c).
Proof.
  intros Hw. pose proof (wf_next_tick s l Hw) as Hw0. set (s0 := next_tick s) in *.
  pose proof (wf_clock_ok s0 l Hw0) as Hok.
  destruct (OS_TICK_HANDLER_lemma s0 l Hok) as (s1 & s' & Hr & Ht & Hl & Hd).
  pose proof (same_prios_ticked s0 s1 s' l Ht Hl) as Hsp. pose proof Ht as (Hs1 & _ & _).
  assert (OSReadyList s' = Z.lor (OSReadyList s0) (expired_set s0 l)) as Hrd by (by rewrite Hl, Hs1).
  assert (forall p, Z.testbit (OSReadyList s') p = true <->
    Z.testbit (OSReadyList s) p = true \/
    exists t, t ∈ l /\ expired s0 t = true /\ prio_of s t = p) as Hbits.
  { intros p. rewrite Hrd, Z.lor_spec, orb_true_iff.
    rewrite (expired_set_testbit s0 l p) by (intros; by apply Hok). done. }
  exists s'. split_and!.
  - unfold bind. rewrite OSIncCounter_eq by apply Hw. exact Hr.
  - eapply wf_same_prios; [exact Hw0|done|..].
    + rewrite Hrd. by apply expired_set_range.
    + rewrite Hl, Hs1. apply Hw.
    + rewrite Hl, Hs1. apply Hw0.
    + done.
    + intros t [_ Hin]%list_elem_of_filter. eexists. by eapply wf_delay_live.
    + intros p [Hp|(t & Hin & _ & Hp)]%Hbits; [by eapply wf_ready_live|].
      exists t. rewrite <- Hp. by apply (wf_delay_live s0 l Hw0).
    + destruct (wf_idle s l Hw) as [H1 H2]. split; [apply Hbits; by left|]. by rewrite Hl, Hs1.
  - eapply same_prios_trans; [|done]. by apply same_prios_ctx.
  - by rewrite Hl, Hs1.
  - unfold tick_frame. by rewrite Hl, Hs1.
  - done.
  - intros t c Hc. by eapply (tick_task s0 s1 s' l).
Qed.

Lemma SwitchContext_lemma s l :
  wf s l -> iNesting s = 0 -> is_Some (aget (ContextTask s) (currentTask s)) ->
  exists t, SwitchContext s = Done tt (switched t s) /\ wf (switched t s) l /\
    dispatched (switched t s) /\ same_prios s (switched t s).
Proof.
  intros Hw Hn Hcur. destruct (ChangeContext_lemma s l Hw Hn Hcur) as (t & Hcc & ? & ? & ?).
  exists t. split_and!; [|done..]. unfold ChangeContext in Hcc.
  destruct (SwitchContext (set_PRIMASK false s)) as [[] s1| |] eqn:E; [|done|done].
  injection Hcc as <-. rewrite <- E. by destruct s.
Qed.

(** C4: the tick interrupt keeps the kernel's promise.  On a state that satisfies
    the invariant, outside other interrupts, [TickTimer] never faults, wakes the
    tasks whose time is up, keeps the invariant, and returns to the task of the
    highest priority that can run. *)
Theorem TickTimer_correct s l :
  wf s l -> iNesting s = 0 -> is_Some (aget (ContextTask s) (currentTask s)) ->
  exists s', TickTimer s = Done tt s' /\ wf s' (still_waiting s l) /\ dispatched s' /\
    OSTickCounter s' = (OSTickCounter s + 1) mod TICK_COUNT_OVERFLOW /\
    (forall p, Z.testbit (OSReadyList s') p = true <-> Z.testbit (OSReadyList s) p = true \/
       exists t, t ∈ l /\ expired (next_tick s) t = true /\ prio_of s t = p).
Proof.
  intros Hw Hn Hcur.
  destruct (wf_tick_handler s l Hw) as (s1 & Hr & Hw1 & Hsp & Htk & Hfr & Hbits & _).
  injection Hfr as Fc Fn _ _ _ _ _ _ _ _ _.
  destruct (SwitchContext_lemma s1 _ Hw1) as (t & Hs & Hw2 & Hd & _).
  { by rewrite Fn. }
  { rewrite Fc. destruct Hcur as [c Hc], Hsp as (_ & _ & H).
    destruct (H _ _ Hc) as (c' & ? & _). by exists c'. }
  destruct (switched_frame s1 t) as (Gr & _ & Gt & _).
  exists (switched t s1). split_and!; [|done|done|by rewrite Gt, Htk|by rewrite Gr].
  unfold TickTimer, bind in Hr |- *. destruct (OSIncCounter s) as [[] s0| |]; [|done|done].
  cbn [rbind] in Hr |- *. rewrite Hr. exact Hs.
Qed.

(** Giving up the processor dispatches the right task.  On a state that
    satisfies the invariant, outside interrupts, [ChangeContext] never faults,
    keeps the invariant, and leaves running the task of the highest priority
    that is ready and not blocked; it changes no ready bit, no priority and no
    event. *)
Theorem ChangeContext_dispatches s l :
  wf s l -> iNesting s = 0 -> is_Some (aget (ContextTask s) (currentTask s)) ->
  exists s' k, ChangeContext s = Yield s' k /\ wf s' l /\ dispatched s' /\ same_prios s s' /\
    OSReadyList s' = OSReadyList s /\ OSBlockedList s' = OSBlockedList s /\
    BRTOS_Sem_Table s' = BRTOS_Sem_Table s /\ BRTOS_Mutex_Table s' = BRTOS_Mutex_Table s /\
    BRTOS_Mbox_Table s' = BRTOS_Mbox_Table s /\ BRTOS_Queue_Table s' = BRTOS_Queue_Table s /\
    (forall s2, k s2 = Done tt s2).
Proof.
  intros Hw Hn Hcur. destruct (ChangeContext_lemma s l Hw Hn Hcur) as (t & Hcc & ? & ? & ?).
  destruct (switched_frame s t) as (? & ? & ? & ? & ? & ? & ? & ? & ? & ? & ? & ?).
  exists (switched t s), (fun s' => Done tt s'). split_and!; done.
Qed.

(** A task that delays itself sleeps until its wake tick: it leaves the ready
    list, joins the end of the delay list with its wake tick, the processor goes
    to the highest priority that can run, the invariant holds, and the call
    returns OK when the task is dispatched again. *)
Theorem OSDelayTask_sleeps s l p w :
  wf s l -> iNesting s = 0 -> task_at s p (currentTask s) -> 0 < p ->
  currentTask s ∉ l -> 0 < w ->
  exists s1 k, OSDelayTask w s = Yield s1 k /\
    wf s1 (l ++ [currentTask s]) /\ dispatched s1 /\ same_prios s s1 /\
    OSReadyList s1 = andnot (OSReadyList s) (2 ^ p) /\
    sleeping s1 (currentTask s) p (wake_tick (OSTickCounter s) w) /\
    (forall s2, k s2 = Done OK (set_PRIMASK (PRIMASK s) s2)).
Proof.
  intros Hw Hn Ht Hp Hni Hpos.
  destruct (OSDelayTask_lemma s l p w)
    as (s0 & t & Hr & (ct & hd & tl & Hf) & Hw1 & Hd & Hsp & _ & c & Hc & Hpc & HT); [done..|].
  destruct (switched_frame s0 t) as (Gr & _). eexists _, _. split_and!; [exact Hr|done|done|..].
  - eapply same_prios_trans; [done|apply same_prios_switched].
  - by rewrite Gr, Hf.
  - destruct (switched_task s0 t (currentTask s) c Hc) as (c3 & Hc3 & Hp3 & HW3).
    exists (l ++ [currentTask s]), c3.
    split_and!; [by apply wf_clock_ok|set_solver|done|congruence|congruence].
  - done.
Qed.
End tick_interrupt.
