(* ===== verification/Event.v ===== *)
(** * Waiting for an event, whatever its kind

    Semaphores, mutexes, mailboxes and queues repeat the same code to suspend a
    task on an event, to clean up when it wakes, and to choose the waiter a post
    releases.  That code is written here once, over the class [Event] of control
    blocks with a wait counter and a wait list, and its lemmas serve the four
    services.  The source lines are those of brtos/semaphore.c; mutex.c, mbox.c
    and queue.c have the same text. *)

From Stdlib Require Import ZArith Lia.
From stdpp Require Import base gmap numbers list.
From S2P Require Import Prelude Config State Sched DelayList Hal Clock Kernel.
#[local] Open Scope Z_scope.
#[local] Open Scope prog_scope.

(** The tables of event control blocks, and the other variables an event
    service works on. *)
Definition event_tables `{C : Config} (s : OS) :=
  (BRTOS_Sem_Table s, BRTOS_Mutex_Table s, BRTOS_Mbox_Table s, BRTOS_Queue_Table s,
   HEAP_Queue s).
Definition core_vars `{C : Config} (s : OS) :=
  (kernel_vars s, currentTask s, iNesting s, PRIMASK s).

(** ** The interface of an event control block *)
Class Event `{C : Config} (E : Type) := {
  ev_table : OS -> list E;
  set_ev_table : list E -> OS -> OS;
  ev_wait : E -> Z;
  ev_waitlist : E -> Z;
  ev_alloc : E -> Z;
  set_ev_wait : Z -> E -> E;
  set_ev_waitlist : Z -> E -> E;
  ev_table_set l s : ev_table (set_ev_table l s) = l;
  ev_set_set l l' s : set_ev_table l (set_ev_table l' s) = set_ev_table l s;
  ev_table_dep s s' : event_tables s' = event_tables s -> ev_table s' = ev_table s;
  ev_core l s : core_vars (set_ev_table l s) = core_vars s;
  ev_wait_set v e : ev_wait (set_ev_wait v e) = v;
  ev_wait_set_list v e : ev_wait (set_ev_waitlist v e) = ev_wait e;
  ev_list_set v e : ev_waitlist (set_ev_waitlist v e) = v;
  ev_list_set_wait v e : ev_waitlist (set_ev_wait v e) = ev_waitlist e;
}.

Section event.
Context `{C : Config} {E : Type} `{!Event E}.
Implicit Types (s : OS) (l : list Z) (t p ev : Z) (e : E).

(** [pont_event->f = ...] *)
Definition upd_ev (ev : Z) (f : E -> E) : prog unit := fun s =>
  match aget (ev_table s) ev with
  | Some e => Done tt (set_ev_table (aset (ev_table s) ev (f e)) s)
  | None => Fault
  end.

(** From [iPriority = Task->Priority] to the end of [if (time_wait) ... else
    Task->TimeToWait = NO_TIMEOUT]: the current task joins the wait list of
    the event and leaves the ready list; its timeout is armed. *)
Definition pend_enqueue (ev cur time_wait : Z) : prog Z :=
  c <- Task cur ;;
  let iPriority := Priority c in
  (* Increases the wait list counter *)
  upd_ev ev (fun e => set_ev_wait (uint8 (ev_wait e + 1)) e) ;;;
  (* Allocates the current task on the wait list *)
  m <- lift (aget PriorityMask iPriority) ;;
  upd_ev ev (fun e => set_ev_waitlist (Z.lor (ev_waitlist e) m) e) ;;;
  (* Remove current task from the Ready List *)
  ready_remove iPriority ;;;
  (* Set timeout overflow *)
  (if truthy time_wait then
     cnt <- OSGetCount ;;
     upd_Task cur (set_TimeToWait (wake_tick cnt time_wait)) ;;;
     IncludeTaskIntoDelayList cur
   else upd_Task cur (set_TimeToWait NO_TIMEOUT)) ;;;
  ret iPriority.

(** After the task wakes, for a wait with a timeout: [true] when it timed out
    (it leaves the wait list), [false] when it was released by a post (it
    leaves the delay list, unless the tick handler removed it). *)
Definition pend_wakeup (ev cur iPriority : Z) : prog bool :=
  c <- Task cur ;;
  if TimeToWait c =? EXIT_BY_TIMEOUT then
    e <- read ev_table ev ;;
    m <- lift (aget PriorityMask iPriority) ;;
    (* Test if both timeout and post have occured before arrive here *)
    if truthy (Z.land (ev_waitlist e) m) then
      upd_ev ev (fun e => set_ev_waitlist (andnot (ev_waitlist e) m) e) ;;;
      upd_ev ev (fun e => set_ev_wait (uint8 (ev_wait e - 1)) e) ;;;
      ret true
    else ret false
  else
    upd_Task cur (set_TimeToWait NO_TIMEOUT) ;;;
    RemoveFromDelayList cur ;;;
    ret false.

(** A post with waiters: select the highest priority of the wait list and
    take it out. *)
Definition post_select (ev : Z) : prog Z :=
  e <- read ev_table ev ;;
  let iPriority := SAScheduler (ev_waitlist e) in
  m <- lift (aget PriorityMask iPriority) ;;
  upd_ev ev (fun e => set_ev_waitlist (andnot (ev_waitlist e) m) e) ;;;
  upd_ev ev (fun e => set_ev_wait (uint8 (ev_wait e - 1)) e) ;;;
  ret iPriority.

(** ** The invariant of a control block *)

Definition PT_nat : nat := Z.to_nat PriorityType_bits.

(** The counter counts the members of the list, and each member is the
    priority of an installed task other than idle. *)
Record ev_ok (s : OS) (e : E) : Prop := {
  ev_range : 0 <= ev_waitlist e < 2 ^ PriorityType_bits;
  ev_count : ev_wait e = popcount PT_nat (ev_waitlist e);
  ev_live : forall p, Z.testbit (ev_waitlist e) p = true -> live s p /\ 0 < p;
}.

Lemma PT_nat_Z : Z.of_nat PT_nat = PriorityType_bits.
Proof. unfold PT_nat. pose proof PriorityType_bits_range. lia. Qed.

Lemma ev_count_range s e : ev_ok s e -> 0 <= ev_wait e <= 32.
Proof.
  intros H. rewrite (ev_count s e H).
  pose proof (popcount_bound PT_nat (ev_waitlist e)).
  pose proof PT_nat_Z. pose proof PriorityType_bits_range. lia.
Qed.

Lemma ev_ok_same_prios s s' e : same_prios s s' -> ev_ok s e -> ev_ok s' e.
Proof.
  intros Hs [? ? Hl]. split; [done..|]. intros p Hp. destruct (Hl p Hp) as [? ?].
  split; [by eapply same_prios_live|done].
Qed.

Lemma ev_ok_ext s s' e :
  PriorityVector s' = PriorityVector s -> ContextTask s' = ContextTask s -> ev_ok s e -> ev_ok s' e.
Proof. intros. eapply ev_ok_same_prios; [by apply same_prios_ctx|done]. Qed.

(** Fields other than the wait list and its counter do not matter. *)
Lemma ev_ok_fields s s' e e' :
  same_prios s s' -> ev_wait e' = ev_wait e -> ev_waitlist e' = ev_waitlist e ->
  ev_ok s e -> ev_ok s' e'.
Proof.
  intros Hs Hw Hl Hok. apply (ev_ok_same_prios s s'); [done|].
  destruct Hok. split; by rewrite ?Hw, ?Hl.
Qed.

Lemma ev_waiting s e : ev_ok s e -> ev_wait e <> 0 <-> 0 < ev_waitlist e.
Proof.
  intros H. pose proof (ev_range s e H). rewrite (ev_count s e H).
  split.
  - intros Hne. destruct (decide (ev_waitlist e = 0)) as [E0|]; [|lia].
    rewrite E0, popcount_0 in Hne. done.
  - intros Hpos Hz. apply (popcount_zero PT_nat _ PriorityType_bits) in Hz; [lia|by rewrite PT_nat_Z|done].
Qed.

(** An event with priority [p] added to, or removed from, its wait list. *)
Definition ev_join (p : Z) (e : E) : E :=
  set_ev_waitlist (Z.lor (ev_waitlist e) (2 ^ p)) (set_ev_wait (ev_wait e + 1) e).
Definition ev_leave (p : Z) (e : E) : E :=
  set_ev_wait (ev_wait e - 1) (set_ev_waitlist (andnot (ev_waitlist e) (2 ^ p)) e).

Lemma ev_join_waitlist p e : ev_waitlist (ev_join p e) = Z.lor (ev_waitlist e) (2 ^ p).
Proof. apply ev_list_set. Qed.

Lemma ev_leave_waitlist p e : ev_waitlist (ev_leave p e) = andnot (ev_waitlist e) (2 ^ p).
Proof. unfold ev_leave. by rewrite ev_list_set_wait, ev_list_set. Qed.

Lemma ev_ok_join s e p :
  ev_ok s e -> live s p -> 0 < p < PriorityType_bits ->
  Z.testbit (ev_waitlist e) p = false -> ev_ok s (ev_join p e).
Proof.
  intros [Hr Hc Hl] Hp Hb Hbit. split; rewrite ?ev_join_waitlist.
  - apply lor_pow2_range; [lia|done].
  - unfold ev_join. rewrite ev_wait_set_list, ev_wait_set, Hc.
    rewrite popcount_set; [done|rewrite PT_nat_Z; lia|done].
  - intros q. rewrite testbit_set by lia. intros [Hq|Hq]%orb_true_iff; [auto|].
    apply bool_decide_eq_true in Hq as <-. split; [done|lia].
Qed.

Lemma ev_ok_leave s e p :
  ev_ok s e -> 0 <= p < PriorityType_bits ->
  Z.testbit (ev_waitlist e) p = true -> ev_ok s (ev_leave p e).
Proof.
  intros [Hr Hc Hl] Hb Hbit. split; rewrite ?ev_leave_waitlist.
  - apply andnot_range; [lia|done].
  - unfold ev_leave. rewrite ev_wait_set, Hc.
    rewrite popcount_clear; [done|rewrite PT_nat_Z; lia|done].
  - intros q. rewrite testbit_clear by lia. intros [Hq _]%andb_true_iff. auto.
Qed.

(** ** Computation *)

Lemma upd_ev_eq s ev e f :
  aget (ev_table s) ev = Some e ->
  upd_ev ev f s = Done tt (set_ev_table (aset (ev_table s) ev (f e)) s).
Proof. intros H. unfold upd_ev. by rewrite H. Qed.

(** Two assignments to the same control block. *)
Lemma upd_ev_twice s ev e f g :
  aget (ev_table s) ev = Some e ->
  upd_ev ev g (set_ev_table (aset (ev_table s) ev (f e)) s) =
  Done tt (set_ev_table (aset (ev_table s) ev (g (f e))) s).
Proof.
  intros H. unfold upd_ev. rewrite !ev_table_set, (aget_aset_eq _ _ _ _ H).
  by rewrite aset_aset, ev_set_set.
Qed.

(** Consecutive assignments to one control block are one assignment. *)
Lemma upd_ev_upd_ev {A} s ev f g (K : unit -> prog A) :
  bind (upd_ev ev f) (fun _ => bind (upd_ev ev g) K) s =
  bind (upd_ev ev (fun e => g (f e))) K s.
Proof.
  cbn. unfold upd_ev. destruct (aget (ev_table s) ev) as [e|] eqn:He; [|done]. cbn.
  rewrite ev_table_set, (aget_aset_eq _ _ _ _ He). by rewrite aset_aset, ev_set_set.
Qed.

Lemma ev_core_vars T s :
  PriorityVector (set_ev_table T s) = PriorityVector s /\
  ContextTask (set_ev_table T s) = ContextTask s /\
  OSReadyList (set_ev_table T s) = OSReadyList s /\
  OSTickCounter (set_ev_table T s) = OSTickCounter s /\
  currentTask (set_ev_table T s) = currentTask s /\
  iNesting (set_ev_table T s) = iNesting s /\
  PRIMASK (set_ev_table T s) = PRIMASK s.
Proof. pose proof (ev_core T s) as H. by injection H. Qed.

Lemma wf_set_ev_table T s l : wf s l -> wf (set_ev_table T s) l.
Proof. apply wf_ext. exact (f_equal (fun x => fst (fst (fst x))) (ev_core T s)). Qed.

Lemma same_prios_set_ev_table T s : same_prios s (set_ev_table T s).
Proof. destruct (ev_core_vars T s) as (? & ? & _). by apply same_prios_ctx. Qed.

(** The updates of [pend_enqueue] are [ev_join], those of [post_select] and of
    a timeout are [ev_leave]: the counter does not wrap. *)
Lemma join_updates s e p :
  ev_ok s e ->
  (fun e => set_ev_waitlist (Z.lor (ev_waitlist e) (2 ^ p)) e)
    (set_ev_wait (uint8 (ev_wait e + 1)) e) = ev_join p e.
Proof.
  intros H. pose proof (ev_count_range s e H). cbn.
  by rewrite ev_list_set_wait, uint8_small by lia.
Qed.

Lemma leave_updates s e p :
  ev_ok s e -> 0 <= p < PriorityType_bits -> Z.testbit (ev_waitlist e) p = true ->
  (fun e => set_ev_wait (uint8 (ev_wait e - 1)) e)
    (set_ev_waitlist (andnot (ev_waitlist e) (2 ^ p)) e) = ev_leave p e.
Proof.
  intros H Hp Hb. pose proof (ev_count_range s e H).
  assert (ev_wait e <> 0).
  { apply (ev_waiting s e H). pose proof (ev_range s e H).
    destruct (decide (ev_waitlist e = 0)) as [E0|]; [|lia].
    rewrite E0, Z.testbit_0_l in Hb. done. }
  cbn. by rewrite ev_wait_set_list, uint8_small by lia.
Qed.
End event.

Arguments upd_ev : simpl never.

(** ** Suspending on an event and being released *)
Section waiting.
Context `{C : Config} {E : Type} `{!Event E}.
Implicit Types (s : OS) (l : list Z) (t p ev w : Z) (e : E).

(** The delay list after a wait of [w] ticks by task [t] started; without a
    timeout the task is not in it. *)
Definition armed (l : list Z) (t w : Z) : list Z := if truthy w then l ++ [t] else l.

(** The tick a wait of [w] ticks started at tick [cnt] ends at. *)
Definition deadline (cnt w : Z) : Z := if truthy w then wake_tick cnt w else NO_TIMEOUT.

(** [s0] is [s] after its current task, of priority [p], joined the wait list
    of event [ev] and gave up the ready list. *)
Record suspended (s s0 : OS) (l : list Z) (p ev w : Z) (e : E) : Prop := {
  sus_frame : exists ct hd tl,
    s0 = set_ContextTask ct (set_Head hd (set_Tail tl
           (set_OSReadyList (andnot (OSReadyList s) (2 ^ p))
              (set_ev_table (aset (ev_table s) ev (ev_join p e)) s))));
  sus_wf : wf s0 (armed l (currentTask s) w);
  sus_prios : same_prios s s0;
  sus_others : same_deadlines (currentTask s) s s0;
  sus_task : exists c, aget (ContextTask s0) (currentTask s) = Some c /\
    Priority c = p /\ TimeToWait c = deadline (OSTickCounter s) w;
}.

(** Arming the timeout. *)
Lemma pend_timeout s l p w :
  wf s l -> task_at s p (currentTask s) -> currentTask s ∉ l ->
  exists s0, (if truthy w then
     cnt <- OSGetCount ;;
     upd_Task (currentTask s) (set_TimeToWait (wake_tick cnt w)) ;;;
     IncludeTaskIntoDelayList (currentTask s)
   else upd_Task (currentTask s) (set_TimeToWait NO_TIMEOUT)) s = Done tt s0 /\
    (exists ct hd tl, s0 = set_ContextTask ct (set_Head hd (set_Tail tl s))) /\
    wf s0 (armed l (currentTask s) w) /\ same_prios s s0 /\
    same_deadlines (currentTask s) s s0 /\
    (exists c, aget (ContextTask s0) (currentTask s) = Some c /\
      Priority c = p /\ TimeToWait c = deadline (OSTickCounter s) w).
Proof.
  intros Hw Ht Hni. destruct (task_at_ctx s p _ Ht) as (c & Hc & Hp).
  unfold armed, deadline. destruct (truthy w).
  - destruct (arm_timeout s l p (currentTask s) c (wake_tick (OSTickCounter s) w))
      as (s0 & Hr & ?); [done..|]. exists s0. split; [by run|done].
  - set (c' := set_TimeToWait NO_TIMEOUT c).
    set (s1 := set_ContextTask (aset (ContextTask s) (currentTask s) c') s).
    exists s1. split_and!; [by run|..].
    + exists (ContextTask s1), (Head s), (Tail s). by destruct s.
    + by eapply wf_upd_Task.
    + by apply (same_prios_aset s (currentTask s) c c').
    + by apply (same_deadlines_aset _ s (ContextTask s) c').
    + exists c'. split_and!; [by eapply aget_aset_eq|done..].
Qed.

Lemma pend_enqueue_lemma s l p ev w e :
  wf s l -> task_at s p (currentTask s) -> 0 < p -> currentTask s ∉ l ->
  aget (ev_table s) ev = Some e -> ev_ok s e ->
  exists s0, pend_enqueue ev (currentTask s) w s = Done p s0 /\ suspended s s0 l p ev w e.
Proof.
  intros Hw Ht Hp Hni He Hok. pose proof (task_at_range s l p _ Hw Ht).
  destruct (task_at_ctx s p _ Ht) as (c & Hc & Hpc).
  unfold pend_enqueue. run. rewrite (upd_ev_eq s ev e _ He). cbn.
  rewrite Hpc, (PriorityMask_pow2 p) by lia. cbn.
  rewrite (upd_ev_twice s ev e (fun e => set_ev_wait (uint8 (ev_wait e + 1)) e) _ He),
    (join_updates s e p Hok). cbn [rbind].
  unfold bind at 1. rewrite ready_remove_eq by lia. cbn [rbind].
  set (s1 := set_ev_table _ s). destruct (ev_core_vars (aset (ev_table s) ev (ev_join p e)) s)
    as (Fpv & Fct & Fr & Ft & Fc & _).
  set (s2 := set_OSReadyList _ s1).
  assert (currentTask s2 = currentTask s) as Hcur by apply Fc.
  assert (wf s2 l) as Hw2 by (apply wf_ready_remove; [by apply wf_set_ev_table|done]).
  assert (same_prios s s2) as Hsp by (by apply same_prios_ctx).
  destruct (pend_timeout s2 l p w) as (s0 & Hr & Hf & Hw0 & Hsp0 & Hdl & Hc0);
    [done|rewrite Hcur; by eapply same_prios_task_at|by rewrite Hcur|].
  rewrite Hcur in *. exists s0. split.
  - unfold bind in Hr |- *. rewrite Hr. done.
  - split; [|done|by eapply same_prios_trans| |].
    + unfold s2, s1 in Hf. cbn in Hf. rewrite Fr in Hf. done.
    + eapply (same_deadlines_trans _ s s2); [by apply same_deadlines_ctx|done].
    + unfold s2, s1 in Hc0. cbn in Hc0. by rewrite Ft in Hc0.
Qed.

(** Suspending and switching away. *)
Lemma pend_block_lemma {A} s l p ev w e (K : Z -> prog A) :
  wf s l -> iNesting s = 0 -> task_at s p (currentTask s) -> 0 < p ->
  currentTask s ∉ l -> aget (ev_table s) ev = Some e -> ev_ok s e ->
  exists s0 t, (iPriority <- pend_enqueue ev (currentTask s) w ;;
                ChangeContext ;;; K iPriority) s
               = Yield (switched t s0) (fun s' => K p s') /\
    suspended s s0 l p ev w e /\
    wf (switched t s0) (armed l (currentTask s) w) /\ dispatched (switched t s0).
Proof.
  intros Hw Hn Ht Hp Hni He Hok.
  destruct (pend_enqueue_lemma s l p ev w e) as (s0 & Hr & Hs); [done..|].
  pose proof Hs as [(ct & hd & tl & Hf) Hw0 Hsp _ (c & Hc & _)].
  destruct (ev_core_vars (aset (ev_table s) ev (ev_join p e)) s) as (_ & _ & _ & _ & Fc & Fn & _).
  assert (iNesting s0 = 0 /\ currentTask s0 = currentTask s) as [Hn0 Hc0].
  { rewrite Hf. cbn. by rewrite Fn, Fc. }
  destruct (ChangeContext_lemma s0 _ Hw0 Hn0) as (t & Hcc & Hwt & Hd & _);
    [rewrite Hc0; by exists c|].
  exists s0, t. split_and!; [|done..].
  unfold bind. rewrite Hr. cbn [rbind]. rewrite Hcc. done.
Qed.

(** Waking up: the task timed out while still on the wait list. *)
Lemma pend_wakeup_timeout s ev e t c p :
  aget (ContextTask s) t = Some c -> TimeToWait c = EXIT_BY_TIMEOUT ->
  aget (ev_table s) ev = Some e -> ev_ok s e -> 0 <= p < PriorityType_bits ->
  Z.testbit (ev_waitlist e) p = true ->
  pend_wakeup ev t p s =
    Done true (set_ev_table (aset (ev_table s) ev (ev_leave p e)) s).
Proof.
  intros Hc Ht He Hok Hp Hb. unfold pend_wakeup. run.
  rewrite Ht, Z.eqb_refl, PriorityMask_pow2 by lia. run.
  rewrite truthy_land_pow2, Hb by lia. cbn. rewrite (upd_ev_eq s ev e _ He). cbn.
  rewrite (upd_ev_twice s ev e
             (fun e => set_ev_waitlist (andnot (ev_waitlist e) (2 ^ p)) e) _ He).
  cbn. by rewrite (leave_updates s e p).
Qed.

(** Waking up: the task timed out, but a post released it first. *)
Lemma pend_wakeup_both s ev e t c p :
  aget (ContextTask s) t = Some c -> TimeToWait c = EXIT_BY_TIMEOUT ->
  aget (ev_table s) ev = Some e -> 0 <= p < PriorityType_bits ->
  Z.testbit (ev_waitlist e) p = false -> pend_wakeup ev t p s = Done false s.
Proof.
  intros Hc Ht He Hp Hb. unfold pend_wakeup. run.
  rewrite Ht, Z.eqb_refl, PriorityMask_pow2 by lia. run.
  by rewrite truthy_land_pow2, Hb by lia.
Qed.

(** Waking up: a post released the task before its timeout. *)
Lemma pend_wakeup_posted s l1 l2 ev t c p :
  wf s (l1 ++ t :: l2) -> aget (ContextTask s) t = Some c ->
  TimeToWait c <> EXIT_BY_TIMEOUT ->
  exists s', pend_wakeup ev t p s = Done false s' /\ wf s' (l1 ++ l2) /\ same_prios s s' /\
    (exists ct hd tl, s' = set_ContextTask ct (set_Head hd (set_Tail tl s))) /\
    same_deadlines t s s' /\
    (exists c', aget (ContextTask s') t = Some c' /\ Priority c' = Priority c /\
      TimeToWait c' = NO_TIMEOUT).
Proof.
  intros Hw Hc Hne. unfold pend_wakeup. run.
  rewrite (proj2 (Z.eqb_neq _ _) Hne). run.
  set (s1 := set_ContextTask _ s).
  assert (wf s1 (l1 ++ t :: l2)) as Hw1 by (by eapply wf_upd_Task).
  destruct (wf_remove s1 l1 t l2 Hw1) as (s' & Hr & Hw' & Hl & Ht').
  exists s'. rewrite Hr. split_and!; [done..| | | |].
  - eapply same_prios_trans; [|by apply same_prios_links].
    by apply (same_prios_aset s t c (set_TimeToWait NO_TIMEOUT c)).
  - destruct Hl as [-> _]. by eexists _, _, _.
  - apply (same_deadlines_trans t s s1); [|by apply same_deadlines_links].
    by apply (same_deadlines_aset t s (ContextTask s) (set_TimeToWait NO_TIMEOUT c)).
  - exists (set_TimeToWait NO_TIMEOUT c). rewrite Ht'. split; [by eapply aget_aset_eq|done].
Qed.

(** A post releases the highest-priority waiter. *)
Lemma post_select_lemma s ev e :
  aget (ev_table s) ev = Some e -> ev_ok s e -> ev_wait e <> 0 ->
  exists p, post_select ev s =
      Done p (set_ev_table (aset (ev_table s) ev (ev_leave p e)) s) /\
    highest (ev_waitlist e) p /\ 0 < p < PriorityType_bits /\ live s p /\
    ev_ok s (ev_leave p e).
Proof.
  intros He Hok Hwt. apply (ev_waiting s e Hok) in Hwt as Hpos.
  pose proof (ev_range s e Hok) as Hr.
  pose proof (highest_log2 _ Hpos) as Hh. pose proof Hh as (_ & Hb & _).
  destruct (ev_live s e Hok _ Hb) as [Hl Hp0].
  pose proof (highest_member (ev_waitlist e) PriorityType_bits) as Hm.
  exists (Z.log2 (ev_waitlist e)). split_and!; [|done..|lia|lia|done|apply ev_ok_leave; [done|lia|done]].
  unfold post_select. run. rewrite SAScheduler_log2, PriorityMask_pow2 by lia. cbn.
  rewrite (upd_ev_eq s ev e _ He). cbn.
  rewrite (upd_ev_twice s ev e
    (fun e => set_ev_waitlist (andnot (ev_waitlist e) (2 ^ Z.log2 (ev_waitlist e))) e) _ He).
  cbn. by rewrite (leave_updates s e) by (lia || done).
Qed.
End waiting.

(** ** Allocating a control block *)
Section alloc.
Context `{C : Config} {E : Type} `{!Event E}.
Implicit Types (s : OS) (e : E).

(** The loop [for(i=0;i<=MAX;i++)] of the create functions: the first control
    block that is not allocated, [None] at the end of the table. *)
Fixpoint first_free (fuel : nat) (max i : Z) : prog (option Z) :=
  match fuel with
  | O => fault
  | S fuel' =>
      if i >=? max then ret None
      else
        e <- read ev_table i ;;
        if negb (ev_alloc e =? TRUE) then ret (Some i)
        else first_free fuel' max (i + 1)
  end.

(** [i] is the first free block of [s], if there is one. *)
Definition free_slot (s : OS) (o : option Z) : Prop :=
  match o with
  | Some i => (exists e, aget (ev_table s) i = Some e /\ ev_alloc e <> TRUE) /\
              forall j e, j < i -> aget (ev_table s) j = Some e -> ev_alloc e = TRUE
  | None => forall j e, aget (ev_table s) j = Some e -> ev_alloc e = TRUE
  end.

Lemma first_free_from s max fuel i :
  Z.of_nat (length (ev_table s)) = max -> 0 <= i <= max -> max - i < Z.of_nat fuel ->
  (forall j e, j < i -> aget (ev_table s) j = Some e -> ev_alloc e = TRUE) ->
  exists o, first_free fuel max i s = Done o s /\ free_slot s o.
Proof.
  intros Hlen. revert i. induction fuel as [|fuel IH]; intros i Hi Hf Hj; [lia|].
  cbn [first_free]. destruct (i >=? max) eqn:Ei; to_prop.
  - exists None. split; [done|]. intros j e He. apply (Hj j); [|done].
    apply aget_lt in He. lia.
  - destruct (aget (ev_table s) i) as [e|] eqn:He.
    2:{ apply aget_lt in He || (exfalso; apply eq_None_not_Some in He; apply He, aget_is_Some; lia). }
    run. destruct (ev_alloc e =? TRUE) eqn:Ea; to_prop; cbn.
    + apply IH; [lia..|]. intros j e' Hlt He'.
      destruct (decide (j = i)) as [->|]; [congruence|]. apply (Hj j); [lia|done].
    + exists (Some i). split; [done|]. split; [by exists e|done].
Qed.

Lemma first_free_lemma s max :
  Z.of_nat (length (ev_table s)) = max ->
  exists o, first_free (Z.to_nat (max + 1)) max 0 s = Done o s /\ free_slot s o.
Proof.
  intros H. apply first_free_from; [done|lia|lia|].
  intros j e Hj He. apply aget_lt in He. lia.
Qed.

(** [if (currentTask) OSEnterCritical()] and the matching exit: before the
    first task runs, services are called with interrupts off. *)
Definition OSEnterCritical_started : prog bool :=
  cur <- gets currentTask ;;
  if truthy cur then OSEnterCritical else ret true.
Definition OSExitCritical_started (CPU_SR : bool) : prog unit :=
  cur <- gets currentTask ;;
  when (truthy cur) (OSExitCritical CPU_SR).

(** The state in which a create function searches the table. *)
Definition in_create (s : OS) : OS :=
  if truthy (currentTask s) then set_PRIMASK true s else s.

Lemma create_search s max :
  Z.of_nat (length (ev_table s)) = max ->
  exists o, first_free (Z.to_nat (max + 1)) max 0 (in_create s) = Done o (in_create s) /\
    free_slot s o.
Proof.
  intros Hl. assert (ev_table (in_create s) = ev_table s) as Ht
    by (unfold in_create; case_match; [by apply ev_table_dep|done]).
  destruct (first_free_lemma (in_create s) max) as (o & Hr & Hf); [by rewrite Ht|].
  exists o. split; [done|]. unfold free_slot in *. by rewrite Ht in Hf.
Qed.

(** The set of priorities a bit set denotes. *)
Definition members (x : Z) : gset Z :=
  list_to_set (filter (fun p => Z.testbit x p = true) (seqZ 0 PriorityType_bits)).

Lemma elem_of_members x p :
  p ∈ members x <-> 0 <= p < PriorityType_bits /\ Z.testbit x p = true.
Proof.
  unfold members. rewrite elem_of_list_to_set, list_elem_of_filter, elem_of_seqZ.
  intuition lia.
Qed.

Lemma members_join p e :
  0 <= p < PriorityType_bits ->
  members (ev_waitlist (ev_join p e)) = {[p]} ∪ members (ev_waitlist e).
Proof.
  intros Hp. apply set_eq. intros q. rewrite elem_of_union, elem_of_singleton, !elem_of_members.
  rewrite ev_join_waitlist, testbit_set, orb_true_iff, bool_decide_eq_true by lia.
  naive_solver lia.
Qed.

Lemma members_leave p e :
  0 <= p < PriorityType_bits ->
  members (ev_waitlist (ev_leave p e)) = members (ev_waitlist e) ∖ {[p]}.
Proof.
  intros Hp. apply set_eq. intros q.
  rewrite elem_of_difference, elem_of_singleton, !elem_of_members.
  rewrite ev_leave_waitlist, testbit_clear, andb_true_iff, negb_true_iff, bool_decide_eq_false by lia.
  naive_solver lia.
Qed.

Lemma members_empty s e : ev_ok s e -> members (ev_waitlist e) = ∅ <-> ev_wait e = 0.
Proof.
  intros Hok. split.
  - intros Hm. destruct (decide (ev_wait e = 0)) as [|Hne]; [done|].
    apply (ev_waiting s e Hok) in Hne. pose proof (ev_range s e Hok).
    assert (Z.log2 (ev_waitlist e) ∈ members (ev_waitlist e)) as Hin.
    { apply elem_of_members. split; [apply highest_member; lia|by apply Z.bit_log2]. }
    rewrite Hm in Hin. set_solver.
  - intros H0. apply set_eq. intros q. rewrite elem_of_members.
    assert (ev_waitlist e = 0) as ->.
    { pose proof (ev_range s e Hok). destruct (decide (0 < ev_waitlist e)) as [Hp|]; [|lia].
      apply (ev_waiting s e Hok) in Hp. done. }
    rewrite Z.testbit_0_l. set_solver.
Qed.
End alloc.

Arguments first_free {C} E {_} fuel max i s : rename, simpl never.
Arguments pend_enqueue {C} E {_} ev cur time_wait s : rename, simpl never.
Arguments pend_wakeup {C} E {_} ev cur iPriority s : rename, simpl never.
Arguments post_select {C} E {_} ev s : rename, simpl never.
Arguments OSEnterCritical_started {C} s /.
Arguments OSExitCritical_started {C} CPU_SR s /.

(** Runs the body of a create function, once its search is known to give [o]. *)
Ltac run_create s o Hr Hf :=
  unfold in_create in Hr; unfold upd_ev;
  destruct o as [?|]; [destruct Hf as [(? & ? & _) _]|];
  destruct (truthy (currentTask s)) eqn:?; cbn in *; rewrite Hr; run; by destruct s.

#[global] Hint Mode Event - + : typeclass_instances.
