(* ===== verification/Sample.v ===== *)
(** * A concrete system

    Boolean checkers of the kernel invariants, proved sound, and a small system
    built with the example configuration: the idle task, a task of priority 5
    (running) and one of priority 9.  The examples of the library evaluate the
    services on it. *)

From Stdlib Require Import ZArith Lia.
From stdpp Require Import base gmap numbers list.
From S2P Require Import Prelude Config State Sched DelayList Hal Clock Kernel Event.
#[local] Open Scope Z_scope.

Section checkers.
Context `{C : Config}.
Implicit Types (s : OS) (l : list Z) (t p : Z).

Fixpoint dsegb (ct : list ContextType) (prev : option Z) (l : list Z) (nxt : option Z) : bool :=
  match l with
  | [] => true
  | t :: l' =>
      match aget ct t with
      | Some c => bool_decide (Previous c = prev) &&
                  bool_decide (Next c = match l' with [] => nxt | u :: _ => Some u end)
      | None => false
      end && dsegb ct (Some t) l' nxt
  end.

Definition delay_listb (s : OS) (l : list Z) : bool :=
  bool_decide (NoDup l) && bool_decide (Head s = head l) && bool_decide (Tail s = last l) &&
  dsegb (ContextTask s) None l None.

Definition task_atb (s : OS) (p t : Z) : bool :=
  bool_decide (aget (PriorityVector s) p = Some t) && (0 <? t) &&
  match aget (ContextTask s) t with Some c => Priority c =? p | None => false end.

Definition liveb (s : OS) (p : Z) : bool :=
  match aget (PriorityVector s) p with Some t => task_atb s p t | None => false end.

Definition all_bits (x : Z) (f : Z -> bool) : bool :=
  forallb (fun p => negb (Z.testbit x p) || f p) (seqZ 0 PriorityType_bits).

Definition rangeb (x m : Z) : bool := (0 <=? x) && (x <? m).

Definition wfb (s : OS) (l : list Z) : bool :=
  (Z.of_nat (length (PriorityVector s)) =? PriorityType_bits) &&
  (Z.of_nat (length (ContextTask s)) =? NUMBER_OF_TASKS + 1) &&
  rangeb (OSReadyList s) (2 ^ PriorityType_bits) &&
  rangeb (OSBlockedList s) (2 ^ PriorityType_bits) &&
  rangeb (OSTickCounter s) TICK_COUNT_OVERFLOW &&
  delay_listb s l &&
  forallb (fun t => task_atb s (prio_of s t) t) l &&
  all_bits (OSReadyList s) (liveb s) &&
  Z.testbit (OSReadyList s) 0 && Z.testbit (OSBlockedList s) 0.

Lemma rangeb_sound x m : rangeb x m = true -> 0 <= x < m.
Proof. unfold rangeb. lia. Qed.

Lemma dsegb_sound ct prev l nxt : dsegb ct prev l nxt = true -> dseg ct prev l nxt.
Proof.
  revert prev. induction l as [|t l IH]; intros prev; cbn; [done|].
  intros [H1 H2]%andb_true_iff. split; [|by apply IH].
  destruct (aget ct t) as [c|]; [|done]. apply andb_true_iff in H1 as [?%bool_decide_eq_true ?%bool_decide_eq_true].
  by exists c.
Qed.

Lemma task_atb_sound s p t : task_atb s p t = true -> task_at s p t.
Proof.
  unfold task_atb. intros [[?%bool_decide_eq_true ?%Z.ltb_lt]%andb_true_iff Hx]%andb_true_iff.
  destruct (aget (ContextTask s) t) as [c|] eqn:E; [|done]. apply Z.eqb_eq in Hx.
  split_and!; [done..|]. by exists c.
Qed.

Lemma liveb_sound s p : liveb s p = true -> live s p.
Proof. unfold liveb. destruct (aget _ p) as [t|]; [|done]. intros ?%task_atb_sound. by exists t. Qed.

Lemma all_bits_sound x f p :
  all_bits x f = true -> 0 <= x < 2 ^ PriorityType_bits -> Z.testbit x p = true -> f p = true.
Proof.
  unfold all_bits. rewrite forallb_forall. intros H Hx Hp. specialize (H p).
  destruct (decide (0 <= p < PriorityType_bits)).
  - rewrite Hp in H. cbn in H. apply H, list_elem_of_In, elem_of_seqZ. lia.
  - destruct (decide (p < 0)); [by rewrite Z.testbit_neg_r in Hp by lia|].
    rewrite (testbit_high x PriorityType_bits) in Hp by lia. done.
Qed.

Lemma wfb_sound s l : wfb s l = true -> wf s l.
Proof.
  unfold wfb, delay_listb. intros H. repeat (apply andb_true_iff in H as [H ?]).
  repeat match goal with
  | H : rangeb _ _ = true |- _ => apply rangeb_sound in H
  | H : bool_decide _ = true |- _ => apply bool_decide_eq_true in H
  | H : (_ =? _) = true |- _ => apply Z.eqb_eq in H
  | H : (_ && _)%bool = true |- _ => apply andb_true_iff in H as [? ?]
  end.
  split; try done.
  - split_and!; try done. by apply dsegb_sound.
  - intros t Ht. apply task_atb_sound.
    match goal with H : forallb (fun t => task_atb _ _ _) l = true |- _ =>
      rewrite forallb_forall in H; apply H, list_elem_of_In, Ht end.
  - intros p Hp. apply liveb_sound. by eapply all_bits_sound.
Qed.

Definition ev_okb `{!Event E} (s : OS) (e : E) : bool :=
  rangeb (ev_waitlist e) (2 ^ PriorityType_bits) &&
  (ev_wait e =? popcount PT_nat (ev_waitlist e)) &&
  all_bits (ev_waitlist e) (fun p => liveb s p && (0 <? p)).

Lemma ev_okb_sound `{!Event E} (s : OS) (e : E) : ev_okb s e = true -> ev_ok s e.
Proof.
  unfold ev_okb. intros [[H1%rangeb_sound H2%Z.eqb_eq]%andb_true_iff H3]%andb_true_iff.
  split; [done|done|]. intros p Hp.
  eapply all_bits_sound in H3; [|done|done]. apply andb_true_iff in H3 as [? ?%Z.ltb_lt].
  split; [by apply liveb_sound|done].
Qed.
End checkers.

(** ** The sample system *)

Definition sample_config : Config := ExampleConfig unit (fun _ h => (0x20010000, h)) (fun _ h => h).
#[local] Existing Instance sample_config.

Definition no_task : ContextType := mkContext 0 0 0 0 0 EMPTY_PRIO None None.
Definition sample_task (name prio : Z) : ContextType :=
  mkContext name (0x20000000 + 0x400 * name) (0x20000000 + 0x400 * name) 0x400 NO_TIMEOUT prio None None.

(** A system of the tasks [prios] (task numbers from 1 on), of which [ready] is
    the ready set and [cur] the running task. *)
Definition generic_os `{C : Config} (h : heap_t) (prios : list Z) (ready cur : Z)
    (sems : list BRTOS_Sem) (mutexes : list BRTOS_Mutex) (mboxes : list BRTOS_Mbox) (queues : list BRTOS_Queue)
    (rings : list OS_QUEUE) (qheap : list Z) : OS := {|
  PriorityVector :=
    imap (fun p x => match list_find (fun q => q = Z.of_nat p) prios with
                     | Some (i, _) => Z.of_nat i + 1
                     | None => x
                     end) (replicate 32 EMPTY_PRIO);
  iStackAddress := 0; iQueueAddress := 0; StackAddress := 0x20000000;
  NumberOfInstalledTasks := Z.of_nat (length prios); currentTask := cur; SelectedTask := cur;
  OSReadyList := ready; OSBlockedList := 0xFFFFFFFF; OSTickCounter := 100;
  OSDuty := 0; OSDutyTmp := 0; LastOSDuty := 0; DutyCnt := 0; TaskAlloc := 7; iNesting := 0;
  Tail := None; Head := None;
  ContextTask := take 11 (no_task :: imap (fun i p => sample_task (Z.of_nat i + 1) p) prios
                            ++ replicate 10 no_task);
  BRTOS_Sem_Table := sems; BRTOS_Mutex_Table := mutexes; BRTOS_Mbox_Table := mboxes;
  BRTOS_Queue_Table := queues; BRTOS_OS_QUEUE_Table := rings; QUEUE_STACK := qheap;
  HEAP_Queue := []; HEAP_DQUEUE := []; HEAP_MEM := [];
  BRTOS_TIMER_VECTOR := mkTimerVector [] None None 0; BRTOS_TMR := [];
  SPvalue := 0; PSP := 0x20000400; PRIMASK := false; mem := ∅; heap := h |}.

Definition sample_os : list Z -> Z -> Z -> list BRTOS_Sem -> list BRTOS_Mutex ->
    list BRTOS_Mbox -> list BRTOS_Queue -> list OS_QUEUE -> list Z -> OS :=
  generic_os (C := sample_config) tt.

(** The idle task and tasks of priority 5, running, and 9. *)
Definition sample : OS := sample_os [0; 5; 9] (2 ^ 0 + 2 ^ 5 + 2 ^ 9) 2 [] [] [] [] [] [].

Lemma sample_wf : wf sample [].
Proof. by apply wfb_sound. Qed.

(** ** The same in a build with ERROR_CHECK *)

Definition with_error_check (C : Config) : Config := {|
  NUMBER_OF_PRIORITIES := @NUMBER_OF_PRIORITIES C; NUMBER_OF_TASKS := @NUMBER_OF_TASKS C;
  ostick_bits := @ostick_bits C; osdtick_bits := @osdtick_bits C; ERROR_CHECK := true;
  configTICK_RATE_HZ := @configTICK_RATE_HZ C;
  BRTOS_MAX_SEM := @BRTOS_MAX_SEM C; BRTOS_MAX_MUTEX := @BRTOS_MAX_MUTEX C;
  BRTOS_MAX_MBOX := @BRTOS_MAX_MBOX C; BRTOS_MAX_QUEUE := @BRTOS_MAX_QUEUE C;
  BRTOS_MAX_TIMER := @BRTOS_MAX_TIMER C;
  IDLE_STACK_SIZE := @IDLE_STACK_SIZE C; HEAP_SIZE := @HEAP_SIZE C;
  QUEUE_HEAP_SIZE := @QUEUE_HEAP_SIZE C; Idle_addr := @Idle_addr C; STACK_ADDR := @STACK_ADDR C;
  heap_t := @heap_t C; BRTOS_ALLOC := @BRTOS_ALLOC C; BRTOS_DEALLOC := @BRTOS_DEALLOC C;
  NUMBER_OF_PRIORITIES_ok := @NUMBER_OF_PRIORITIES_ok C;
  NUMBER_OF_TASKS_ok := @NUMBER_OF_TASKS_ok C; tick_bits_ok := @tick_bits_ok C |}.

Definition checked_config : Config := with_error_check sample_config.
