(* ===== verification/CoreExamples.v ===== *)
(** * The scheduler, the clock and the kernel on the sample system

    Evaluations of the theorems of Sched, DelayList, Hal, Clock and Kernel on
    the sample system, and on the same system with the task of priority 9
    asleep until tick 103. *)

From Stdlib Require Import ZArith Lia.
From stdpp Require Import base gmap numbers list.
From S2P Require Import Prelude Config State Sched DelayList Hal Clock Kernel Event Sample.
#[local] Open Scope Z_scope.
#[local] Existing Instance sample_config.

(** The sample system at tick 100, after task 3 (priority 9) delayed itself for
    three ticks. *)
Definition asleep : OS :=
  let s := sample_os [0; 5; 9] (2 ^ 0 + 2 ^ 5) 2 [] [] [] [] [] [] in
  set_Head (Some 3) (set_Tail (Some 3)
    (set_ContextTask (aset (ContextTask s) 3 (set_TimeToWait 103 (sample_task 3 9))) s)).

Lemma asleep_wf : wf asleep [3].
Proof. by apply wfb_sound. Qed.

Lemma SAScheduler_highest_witness : highest 0x221 (SAScheduler 0x221) /\ SAScheduler 0x221 = 9.
Proof. split; [apply SAScheduler_highest; vm_compute; split; reflexivity|reflexivity]. Defined.

Lemma Optimezed_Scheduler_SAScheduler_witness :
  Optimezed_Scheduler 0x80000001 = SAScheduler 0x80000001 /\ SAScheduler 0x80000001 = 31.
Proof.
  split; [apply Optimezed_Scheduler_SAScheduler; vm_compute; split; reflexivity|reflexivity].
Defined.

Lemma delay_list_refines_witness :
  (exists s1 s2, IncludeTaskIntoDelayList 2 asleep = Done tt s1 /\ delay_list s1 [3; 2] /\
     links_only asleep s1 /\ RemoveFromDelayList 2 s1 = Done tt s2 /\ delay_list s2 [3]) /\
  (forall u l3, [3] = u :: l3 ->
     exists s1, RemoveFromDelayList u asleep = Done tt s1 /\ delay_list s1 ([] ++ l3) /\
       links_only asleep s1).
Proof.
  apply (delay_list_refines asleep [] [3] 2 (sample_task 2 5)).
  - apply asleep_wf.
  - cbn. rewrite list_elem_of_singleton. lia.
  - reflexivity.
Defined.

Lemma CreateDVirtualStack_starts_task_witness :
  exists sp m,
    CreateDVirtualStack 0x8001235 0x20000400 0x200 7 sample = Done sp (set_mem m sample) /\
    0x20000400 <= sp /\ sp + NUMBER_MIN_OF_STACKED_BYTES = 0x20000600 /\
    m !! (sp + CONTEXT_BYTES) = Some 7 /\
    m !! (sp + CONTEXT_BYTES + 24) = Some 0x8001235 /\
    m !! (sp + CONTEXT_BYTES + 28) = Some INITIAL_XPSR /\
    m !! (sp + CONTEXT_BYTES - 4) = Some 0xFFFFFFFD /\
    (forall a, a < 0x20000400 \/ 0x20000600 <= a -> m !! a = mem sample !! a).
Proof.
  apply (CreateDVirtualStack_starts_task sample 0x8001235 0x20000400 0x200 7);
    unfold NUMBER_MIN_OF_STACKED_BYTES; lia.
Defined.

Lemma OS_TICK_HANDLER_wakes_expired_witness :
  exists s', OS_TICK_HANDLER (set_OSTickCounter 103 asleep) = Done tt s' /\ clock_ok s' [] /\
    Z.testbit (OSReadyList s') 9 = true.
Proof.
  destruct (OS_TICK_HANDLER_wakes_expired (set_OSTickCounter 103 asleep) [3])
    as (s' & Hr & Hok & Hb & _).
  - apply (wf_clock_ok _ [3]). by apply wfb_sound.
  - exists s'. split_and!; [done|exact Hok|]. apply Hb. right. exists 3.
    split_and!; [set_solver|reflexivity|reflexivity].
Defined.

Lemma delay_lasts_exactly_witness :
  (forall n, Z.of_nat n < 3 -> exists s', ticks n asleep = Done tt s' /\ sleeping s' 3 9 103) /\
  (exists s', ticks (Z.to_nat 3) asleep = Done tt s' /\ woken s' 3 9).
Proof.
  apply (delay_lasts_exactly asleep 3 9 3).
  - vm_compute. reflexivity.
  - vm_compute. split; [done|reflexivity].
  - vm_compute. split; [reflexivity|done].
  - exists [3], (set_TimeToWait 103 (sample_task 3 9)).
    split_and!; [apply wf_clock_ok, asleep_wf|set_solver|reflexivity..].
Defined.

Lemma TickTimer_correct_witness :
  exists s', TickTimer (set_OSTickCounter 102 asleep) = Done tt s' /\ wf s' [] /\ dispatched s' /\
    OSTickCounter s' = 103 /\ Z.testbit (OSReadyList s') 9 = true.
Proof.
  destruct (TickTimer_correct (set_OSTickCounter 102 asleep) [3])
    as (s' & Hr & Hw & Hd & Hc & Hb).
  - by apply wfb_sound.
  - reflexivity.
  - vm_compute. by eexists.
  - exists s'. split_and!; [done|exact Hw|done|exact Hc|]. apply Hb. right. exists 3.
    split_and!; [set_solver|reflexivity|reflexivity].
Defined.

Lemma ChangeContext_dispatches_witness :
  exists s' k, ChangeContext sample = Yield s' k /\ wf s' [] /\ dispatched s' /\
    currentTask s' = 3 /\ (forall s2, k s2 = Done tt s2).
Proof.
  destruct (ChangeContext_dispatches sample [])
    as (s' & k & Hr & Hw & Hd & _ & _ & _ & _ & _ & _ & _ & Hk).
  - apply sample_wf.
  - reflexivity.
  - vm_compute. by eexists.
  - exists s', k. split_and!; [done|done|done| |done].
    revert Hr. vm_compute. by intros [= <- _].
Defined.

Lemma OSDelayTask_sleeps_witness :
  exists s1 k, OSDelayTask 3 sample = Yield s1 k /\ wf s1 [2] /\ dispatched s1 /\
    sleeping s1 2 5 103 /\ (forall s2, k s2 = Done OK (set_PRIMASK false s2)).
Proof.
  destruct (OSDelayTask_sleeps sample [] 5 3) as (s1 & k & Hr & Hw & Hd & _ & _ & Hs & Hk).
  - apply sample_wf.
  - reflexivity.
  - by apply task_atb_sound.
  - lia.
  - set_solver.
  - lia.
  - exists s1, k. by split_and!.
Defined.
