(* ===== verification/Semaphore.v ===== *)
(** * Semaphores

    brtos/semaphore.c.  The theorems give the effect of every branch of the
    services, the invariant [sem_ok] they preserve, and that they implement the
    abstract counting semaphore [sem_spec]: a number of available units and a
    set of waiting priorities, with the highest waiter served first. *)

From Stdlib Require Import ZArith Lia.
From stdpp Require Import base gmap numbers list.
From S2P Require Import Prelude Config State Sched DelayList Hal Clock Kernel Event Sample.
#[local] Open Scope Z_scope.
#[local] Open Scope prog_scope.

#[global] Instance Event_Sem `{C : Config} : Event BRTOS_Sem.
Proof.
  refine {| ev_table := BRTOS_Sem_Table; set_ev_table := set_BRTOS_Sem_Table;
            ev_wait := sem_OSEventWait; ev_waitlist := sem_OSEventWaitList;
            ev_alloc := sem_OSEventAllocated;
            set_ev_wait := set_sem_OSEventWait; set_ev_waitlist := set_sem_OSEventWaitList |};
    try done.
  by intros s s' [=].
Defined.

Section operations.
Context `{C : Config}.

(** [OSSemCreate]; [event] is the caller's pointer variable, whose new value is
    returned with the code. *)
Definition OSSemCreate (cnt : Z) (event : option Z) : prog (Z * option Z) :=
  nesting <- gets iNesting ;;
  if nesting >? 0 then ret (IRQ_PEND_ERR, event)
  else
    CPU_SR <- OSEnterCritical_started ;;
    o <- first_free BRTOS_Sem (Z.to_nat (BRTOS_MAX_SEM + 1)) BRTOS_MAX_SEM 0 ;;
    match o with
    | None =>
        OSExitCritical_started CPU_SR ;;;
        ret (NO_AVAILABLE_EVENT, event)
    | Some i =>
        upd_ev i (set_sem_OSEventAllocated TRUE) ;;;
        upd_ev i (set_sem_OSEventCount cnt) ;;;
        upd_ev i (set_sem_OSEventWait 0) ;;;
        upd_ev i (set_sem_Binary FALSE) ;;;
        upd_ev i (set_sem_OSEventWaitList 0) ;;;
        OSExitCritical_started CPU_SR ;;;
        ret (ALLOC_EVENT_OK, Some i)
    end.

(** [OSSemBinaryCreate] *)
Definition OSSemBinaryCreate (bit : Z) (event : option Z) : prog (Z * option Z) :=
  nesting <- gets iNesting ;;
  if nesting >? 0 then ret (IRQ_PEND_ERR, event)
  else
    CPU_SR <- OSEnterCritical_started ;;
    o <- first_free BRTOS_Sem (Z.to_nat (BRTOS_MAX_SEM + 1)) BRTOS_MAX_SEM 0 ;;
    match o with
    | None =>
        OSExitCritical_started CPU_SR ;;;
        ret (NO_AVAILABLE_EVENT, event)
    | Some i =>
        upd_ev i (set_sem_OSEventAllocated TRUE) ;;;
        (if bit >? 1 then upd_ev i (set_sem_OSEventCount TRUE)
         else upd_ev i (set_sem_OSEventCount FALSE)) ;;;
        upd_ev i (set_sem_OSEventWait 0) ;;;
        upd_ev i (set_sem_Binary TRUE) ;;;
        upd_ev i (set_sem_OSEventWaitList 0) ;;;
        OSExitCritical_started CPU_SR ;;;
        ret (ALLOC_EVENT_OK, Some i)
    end.

(** [OSSemDelete] *)
Definition OSSemDelete (event : option Z) : prog (Z * option Z) :=
  nesting <- gets iNesting ;;
  if nesting >? 0 then ret (IRQ_PEND_ERR, event)
  else
    CPU_SR <- OSEnterCritical ;;
    ev <- deref event ;;
    upd_ev ev (set_sem_OSEventAllocated 0) ;;;
    upd_ev ev (set_sem_OSEventCount 0) ;;;
    upd_ev ev (set_sem_OSEventWait 0) ;;;
    upd_ev ev (set_sem_OSEventWaitList 0) ;;;
    OSExitCritical CPU_SR ;;;
    ret (DELETE_EVENT_OK, None).

(** [OSSemPend], from the return of [ChangeContext] on. *)
Definition OSSemPend_resume (ev cur time_wait : Z) (CPU_SR : bool) (iPriority : Z) : prog Z :=
  if truthy time_wait then
    OSExitCritical CPU_SR ;;;
    CPU_SR <- OSEnterCritical ;;
    timedout <- pend_wakeup BRTOS_Sem ev cur iPriority ;;
    if timedout : bool then
      OSExitCritical CPU_SR ;;;
      ret TIMEOUT
    else
      OSExitCritical CPU_SR ;;;
      ret OK
  else
    OSExitCritical CPU_SR ;;;
    ret OK.

(** [OSSemPend] *)
Definition OSSemPend (pont_event : option Z) (time_wait : Z) : prog Z :=
  nesting <- gets iNesting ;;
  if ERROR_CHECK && (nesting >? 0) then ret IRQ_PEND_ERR
  else if ERROR_CHECK && bool_decide (pont_event = None) then ret NULL_EVENT_POINTER
  else
    CPU_SR <- OSEnterCritical ;;
    ev <- deref pont_event ;;
    e <- read BRTOS_Sem_Table ev ;;
    if ERROR_CHECK && negb (sem_OSEventAllocated e =? TRUE) then
      OSExitCritical CPU_SR ;;;
      ret ERR_EVENT_NO_CREATED
    else if sem_OSEventCount e >? 0 then
      (* Decreases semaphore count *)
      upd_ev ev (fun e => set_sem_OSEventCount (uint8 (sem_OSEventCount e - 1)) e) ;;;
      OSExitCritical CPU_SR ;;;
      ret OK
    else if time_wait =? NO_TIMEOUT then
      OSExitCritical CPU_SR ;;;
      ret EXIT_BY_NO_ENTRY_AVAILABLE
    else
      cur <- gets currentTask ;;
      iPriority <- pend_enqueue BRTOS_Sem ev cur time_wait ;;
      ChangeContext ;;;
      OSSemPend_resume ev cur time_wait CPU_SR iPriority.

(** [OSSemPost] *)
Definition OSSemPost (pont_event : option Z) : prog Z :=
  if ERROR_CHECK && bool_decide (pont_event = None) then ret NULL_EVENT_POINTER
  else
    CPU_SR <- OSEnterCritical ;;
    ev <- deref pont_event ;;
    e <- read BRTOS_Sem_Table ev ;;
    if ERROR_CHECK && negb (sem_OSEventAllocated e =? TRUE) then
      OSExitCritical CPU_SR ;;;
      ret ERR_EVENT_NO_CREATED
    else if negb (sem_OSEventWait e =? 0) then
      iPriority <- post_select BRTOS_Sem ev ;;
      (* Put the selected task into Ready List *)
      ready_insert iPriority ;;;
      nesting <- gets iNesting ;;
      when (negb (truthy nesting)) ChangeContext ;;;
      OSExitCritical CPU_SR ;;;
      ret OK
    else if sem_OSEventCount e <? 255 then
      (if sem_Binary e =? FALSE then
         upd_ev ev (fun e => set_sem_OSEventCount (uint8 (sem_OSEventCount e + 1)) e)
       else upd_ev ev (set_sem_OSEventCount TRUE)) ;;;
      OSExitCritical CPU_SR ;;;
      ret OK
    else
      OSExitCritical CPU_SR ;;;
      ret ERR_SEM_OVF.
End operations.

(** ** The abstract semaphore *)

Record sem_spec := { units : Z; waiting : gset Z }.

Inductive sem_op :=
| SemTake (p : Z) | SemBlock (p : Z) | SemTimeout (p : Z) | SemWake (p : Z)
| SemCount | SemOverflow.

(** Its operations: [p] is the priority of the task concerned. *)
Inductive sem_step (binary : bool) : sem_spec -> sem_op -> sem_spec -> Prop :=
| sem_take p u W : 0 < u ->
    sem_step binary {| units := u; waiting := W |} (SemTake p) {| units := u - 1; waiting := W |}
| sem_block p W : p ∉ W ->
    sem_step binary {| units := 0; waiting := W |} (SemBlock p) {| units := 0; waiting := {[p]} ∪ W |}
| sem_giveup p u W : p ∈ W ->
    sem_step binary {| units := u; waiting := W |} (SemTimeout p) {| units := u; waiting := W ∖ {[p]} |}
| sem_wake p u W : p ∈ W -> (forall q, q ∈ W -> q <= p) ->
    sem_step binary {| units := u; waiting := W |} (SemWake p) {| units := u; waiting := W ∖ {[p]} |}
| sem_count u : u < 255 ->
    sem_step binary {| units := u; waiting := ∅ |} SemCount
      {| units := if binary then 1 else u + 1; waiting := ∅ |}
| sem_overflow :
    sem_step binary {| units := 255; waiting := ∅ |} SemOverflow {| units := 255; waiting := ∅ |}.

Section lemmas.
Context `{C : Config}.
Implicit Types (s : OS) (l : list Z) (p ev w t : Z) (e : BRTOS_Sem).

Definition sem_abs (e : BRTOS_Sem) : sem_spec :=
  {| units := sem_OSEventCount e; waiting := members (sem_OSEventWaitList e) |}.
Definition sem_binary (e : BRTOS_Sem) : bool := negb (sem_Binary e =? FALSE).

(** The invariant of a semaphore: a unit is never left while a task waits. *)
Record sem_ok (s : OS) (e : BRTOS_Sem) : Prop := {
  so_ev : ev_ok s e;
  so_count : 0 <= sem_OSEventCount e <= 255;
  so_idle : 0 < sem_OSEventCount e -> sem_OSEventWait e = 0;
  so_binary : sem_binary e = true -> sem_OSEventCount e <= 1;
}.

(** [ev] designates the allocated semaphore [e]. *)
Definition sem_at (s : OS) (ev : Z) (e : BRTOS_Sem) : Prop :=
  aget (BRTOS_Sem_Table s) ev = Some e /\ sem_OSEventAllocated e = TRUE.

Lemma OSSemPend_take_lemma s ev e w :
  iNesting s = 0 -> sem_at s ev e -> 0 < sem_OSEventCount e <= 255 ->
  OSSemPend (Some ev) w s =
    Done OK (set_BRTOS_Sem_Table (aset (BRTOS_Sem_Table s) ev
               (set_sem_OSEventCount (sem_OSEventCount e - 1) e)) s).
Proof.
  intros Hn [He Ha] Hc. unfold OSSemPend. run. rewrite Hn, andb_false_r. cbn.
  rewrite andb_false_r. run. rewrite Ha, Z.eqb_refl, andb_false_r.
  rewrite (proj2 (Z.gtb_lt _ 0)) by lia. cbn.
  rewrite (upd_ev_eq (E := BRTOS_Sem) _ ev e) by done. cbn. rewrite uint8_small by lia.
  by destruct s.
Qed.

Lemma OSSemPend_block_lemma s l p ev e w :
  wf s l -> iNesting s = 0 -> task_at s p (currentTask s) -> 0 < p ->
  currentTask s ∉ l -> sem_at s ev e -> ev_ok s e -> sem_OSEventCount e = 0 ->
  w <> NO_TIMEOUT ->
  exists s0 t, OSSemPend (Some ev) w s
      = Yield (switched t s0)
          (fun s' => OSSemPend_resume ev (currentTask s) w (PRIMASK s) p s') /\
    suspended (set_PRIMASK true s) s0 l p ev w e /\
    wf (switched t s0) (armed l (currentTask s) w) /\ dispatched (switched t s0).
Proof.
  intros Hw Hn Ht Hp Hni [He Ha] Hok Hc Hne.
  destruct (pend_block_lemma (set_PRIMASK true s) l p ev w e
              (OSSemPend_resume ev (currentTask s) w (PRIMASK s))) as (s0 & t & Hr & Hrest);
    [by apply (wf_ext s)|done|by apply (task_at_ext s)|done|done|done|by apply (ev_ok_ext s)|].
  exists s0, t. split; [|done]. rewrite <- Hr.
  unfold OSSemPend. run. rewrite Hn, andb_false_r. cbn.
  rewrite andb_false_r. run. rewrite Ha, Z.eqb_refl, andb_false_r, Hc. cbn.
  change (0 >? 0) with false. by rewrite (proj2 (Z.eqb_neq _ _) Hne).
Qed.

Lemma OSSemPend_resume_timeout s ev e cur w sr p c :
  w <> 0 -> aget (ContextTask s) cur = Some c -> TimeToWait c = EXIT_BY_TIMEOUT ->
  aget (BRTOS_Sem_Table s) ev = Some e -> ev_ok s e -> 0 <= p < PriorityType_bits ->
  Z.testbit (sem_OSEventWaitList e) p = true ->
  OSSemPend_resume ev cur w sr p s =
    Done TIMEOUT (set_PRIMASK sr
      (set_BRTOS_Sem_Table (aset (BRTOS_Sem_Table s) ev (ev_leave p e)) s)).
Proof.
  intros Hw Hc Ht He Hok Hp Hb. unfold OSSemPend_resume. rewrite truthy_nz by done. run.
  by rewrite (pend_wakeup_timeout (E := BRTOS_Sem) _ ev e cur c p)
    by (done || by apply (ev_ok_ext s)).
Qed.

Lemma OSSemPend_resume_both s ev e cur w sr p c :
  w <> 0 -> aget (ContextTask s) cur = Some c -> TimeToWait c = EXIT_BY_TIMEOUT ->
  aget (BRTOS_Sem_Table s) ev = Some e -> 0 <= p < PriorityType_bits ->
  Z.testbit (sem_OSEventWaitList e) p = false ->
  OSSemPend_resume ev cur w sr p s = Done OK (set_PRIMASK sr s).
Proof.
  intros Hw Hc Ht He Hp Hb. unfold OSSemPend_resume. rewrite truthy_nz by done. run.
  by rewrite (pend_wakeup_both (E := BRTOS_Sem) _ ev e cur c p).
Qed.

Lemma OSSemPend_resume_posted s l1 l2 ev cur w sr p c :
  w <> 0 -> wf s (l1 ++ cur :: l2) ->
  aget (ContextTask s) cur = Some c -> TimeToWait c <> EXIT_BY_TIMEOUT ->
  exists s', OSSemPend_resume ev cur w sr p s = Done OK s' /\ wf s' (l1 ++ l2) /\
    same_prios s s' /\ same_deadlines cur s s' /\
    (exists ct hd tl, s' = set_PRIMASK sr (set_ContextTask ct (set_Head hd (set_Tail tl s)))).
Proof.
  intros Hne Hw Hc Ht. unfold OSSemPend_resume. rewrite truthy_nz by done. cbn.
  destruct (pend_wakeup_posted (E := BRTOS_Sem) (set_PRIMASK true (set_PRIMASK sr s)) l1 l2 ev cur c p)
    as (s' & Hr & Hw' & Hsp & (ct & hd & tl & Hf) & Hdl & _); [by apply (wf_ext s)|done..|].
  cbn in Hr. rewrite Hr. cbn. eexists. split_and!; [done|by apply (wf_ext s')|..].
  - eapply (same_prios_trans _ s'); [|by apply same_prios_ctx].
    eapply same_prios_trans; [|done]. by apply same_prios_ctx.
  - exact Hdl.
  - exists ct, hd, tl. by rewrite Hf.
Qed.

Lemma OSSemPend_resume_untimed s ev cur sr p :
  OSSemPend_resume ev cur 0 sr p s = Done OK (set_PRIMASK sr s).
Proof. reflexivity. Qed.

(** The state a post leaves when it releases the waiter of priority [p]. *)
Definition sem_released (s : OS) (ev p : Z) (e : BRTOS_Sem) : OS :=
  set_OSReadyList (Z.lor (OSReadyList s) (2 ^ p))
    (set_BRTOS_Sem_Table (aset (BRTOS_Sem_Table s) ev (ev_leave p e)) (set_PRIMASK true s)).

Lemma OSSemPost_select s ev e :
  sem_at s ev e -> ev_ok s e -> sem_OSEventWait e <> 0 ->
  exists p, highest (sem_OSEventWaitList e) p /\ 0 < p < PriorityType_bits /\ live s p /\
    ev_ok s (ev_leave p e) /\
    OSSemPost (Some ev) s =
      (when (negb (truthy (iNesting s))) ChangeContext ;;;
       OSExitCritical (PRIMASK s) ;;; ret OK) (sem_released s ev p e).
Proof.
  intros [He Ha] Hok Hwt.
  destruct (post_select_lemma (set_PRIMASK true s) ev e) as (p & Hr & Hh & Hp & Hl & Hok');
    [done|by apply (ev_ok_ext s)|done|].
  exists p. split_and!; [done|lia|lia|..].
  { destruct Hl as [t Ht]. exists t. by apply (task_at_ext (set_PRIMASK true s)). }
  { by apply (ev_ok_ext (set_PRIMASK true s)). }
  unfold OSSemPost. rewrite bool_decide_false, andb_false_r by done. run.
  rewrite Ha, Z.eqb_refl, andb_false_r, (proj2 (Z.eqb_neq _ _) Hwt). cbn.
  cbn in Hr. rewrite Hr. cbn. rewrite ready_insert_eq by lia. done.
Qed.

Lemma wf_sem_released s l ev p e :
  wf s l -> live s p -> wf (sem_released s ev p e) l.
Proof.
  intros Hw Hl. unfold sem_released.
  apply (wf_ready_insert (set_BRTOS_Sem_Table _ (set_PRIMASK true s)));
    [by apply (wf_ext s)|]. destruct Hl as [t Ht]. exists t. by apply (task_at_ext s).
Qed.

(** A post by a task switches to the highest runnable priority. *)
Lemma OSSemPost_task_lemma s l ev e :
  wf s l -> iNesting s = 0 -> is_Some (aget (ContextTask s) (currentTask s)) ->
  sem_at s ev e -> ev_ok s e -> sem_OSEventWait e <> 0 ->
  exists p t, highest (sem_OSEventWaitList e) p /\ 0 < p < PriorityType_bits /\
    ev_ok s (ev_leave p e) /\
    OSSemPost (Some ev) s = Yield (switched t (sem_released s ev p e))
                              (fun s' => Done OK (set_PRIMASK (PRIMASK s) s')) /\
    wf (switched t (sem_released s ev p e)) l /\
    dispatched (switched t (sem_released s ev p e)).
Proof.
  intros Hw Hn Hcur Ha Hok Hwt.
  destruct (OSSemPost_select s ev e) as (p & Hh & Hp & Hl & Hok' & Hr); [done..|].
  pose proof (wf_sem_released s l ev p e Hw Hl) as Hw'.
  destruct (ChangeContext_lemma _ l Hw') as (t & Hcc & Hwt' & Hd & _); [done|done|].
  exists p, t. split_and!; try done; try lia. rewrite Hr, Hn. cbn. by rewrite Hcc.
Qed.

(** A post by an interrupt leaves the switch to the end of the interrupt. *)
Lemma OSSemPost_irq_lemma s l ev e :
  wf s l -> iNesting s <> 0 -> sem_at s ev e -> ev_ok s e -> sem_OSEventWait e <> 0 ->
  exists p, highest (sem_OSEventWaitList e) p /\ 0 < p < PriorityType_bits /\
    ev_ok s (ev_leave p e) /\
    OSSemPost (Some ev) s = Done OK (set_PRIMASK (PRIMASK s) (sem_released s ev p e)) /\
    wf (set_PRIMASK (PRIMASK s) (sem_released s ev p e)) l.
Proof.
  intros Hw Hn Ha Hok Hwt.
  destruct (OSSemPost_select s ev e) as (p & Hh & Hp & Hl & Hok' & Hr); [done..|].
  pose proof (wf_sem_released s l ev p e Hw Hl) as Hw'.
  exists p. split_and!; try done; try lia.
  - rewrite Hr. by rewrite truthy_nz.
  - by apply (wf_ext (sem_released s ev p e)).
Qed.

(** A post with nobody waiting counts, saturating at 255. *)
Definition sem_counted (e : BRTOS_Sem) : BRTOS_Sem :=
  set_sem_OSEventCount (if sem_binary e then TRUE else sem_OSEventCount e + 1) e.

Lemma OSSemPost_count_lemma s ev e :
  sem_at s ev e -> sem_OSEventWait e = 0 -> 0 <= sem_OSEventCount e < 255 ->
  OSSemPost (Some ev) s =
    Done OK (set_BRTOS_Sem_Table (aset (BRTOS_Sem_Table s) ev (sem_counted e)) s).
Proof.
  intros [He Ha] Hwt Hc. unfold OSSemPost. rewrite bool_decide_false, andb_false_r by done. run.
  rewrite Ha, Z.eqb_refl, andb_false_r, Hwt, Z.eqb_refl. cbn.
  rewrite (proj2 (Z.ltb_lt _ _)) by lia. cbn. unfold sem_counted, sem_binary.
  destruct (sem_Binary e =? FALSE); cbn; rewrite (upd_ev_eq (E := BRTOS_Sem) _ ev e) by done; cbn.
  - rewrite uint8_small by lia. by destruct s.
  - by destruct s.
Qed.

Lemma OSSemPost_overflow_lemma s ev e :
  sem_at s ev e -> sem_OSEventWait e = 0 -> 255 <= sem_OSEventCount e ->
  OSSemPost (Some ev) s = Done ERR_SEM_OVF s.
Proof.
  intros [He Ha] Hwt Hc. unfold OSSemPost. rewrite bool_decide_false, andb_false_r by done. run.
  rewrite Ha, Z.eqb_refl, andb_false_r, Hwt, Z.eqb_refl. cbn.
  rewrite (proj2 (Z.ltb_ge _ _)) by lia. by destruct s.
Qed.
End lemmas.

(** ** Theorems *)
Section theorems.
Context `{C : Config}.
Implicit Types (s : OS) (l : list Z) (p ev w t : Z) (e : BRTOS_Sem).

Lemma sem_ok_new s cnt binary :
  0 <= cnt <= 255 -> (binary <> FALSE -> cnt <= 1) -> sem_ok s (mkSem TRUE cnt 0 binary 0).
Proof.
  intros Hc Hb. split; cbn; [|done|done|].
  - split; cbn; [pose proof PriorityType_bits_range; lia|by rewrite popcount_0|].
    intros p. by rewrite Z.testbit_0_l.
  - intros Hx. apply Hb. unfold sem_binary in Hx. cbn in Hx. by apply negb_true_iff, Z.eqb_neq in Hx.
Qed.

Lemma OSSemCreate_lemma s cnt event :
  Z.of_nat (length (BRTOS_Sem_Table s)) = BRTOS_MAX_SEM -> iNesting s = 0 ->
  exists o, free_slot (E := BRTOS_Sem) s o /\
    OSSemCreate cnt event s =
      match o with
      | Some i => Done (ALLOC_EVENT_OK, Some i)
           (set_BRTOS_Sem_Table (aset (BRTOS_Sem_Table s) i (mkSem TRUE cnt 0 FALSE 0)) s)
      | None => Done (NO_AVAILABLE_EVENT, event) s
      end.
Proof.
  intros Hlen Hn. destruct (create_search (E := BRTOS_Sem) s BRTOS_MAX_SEM) as (o & Hr & Hf); [done|].
  exists o. split; [done|]. unfold OSSemCreate. cbn. rewrite Hn. change (0 >? 0) with false. cbn.
  run_create s o Hr Hf.
Qed.

Lemma OSSemBinaryCreate_lemma s bit event :
  Z.of_nat (length (BRTOS_Sem_Table s)) = BRTOS_MAX_SEM -> iNesting s = 0 ->
  exists o, free_slot (E := BRTOS_Sem) s o /\
    OSSemBinaryCreate bit event s =
      match o with
      | Some i => Done (ALLOC_EVENT_OK, Some i)
           (set_BRTOS_Sem_Table (aset (BRTOS_Sem_Table s) i
              (mkSem TRUE (if bit >? 1 then TRUE else FALSE) 0 TRUE 0)) s)
      | None => Done (NO_AVAILABLE_EVENT, event) s
      end.
Proof.
  intros Hlen Hn. destruct (create_search (E := BRTOS_Sem) s BRTOS_MAX_SEM) as (o & Hr & Hf); [done|].
  exists o. split; [done|]. unfold OSSemBinaryCreate. cbn. rewrite Hn. change (0 >? 0) with false. cbn.
  destruct (bit >? 1); run_create s o Hr Hf.
Qed.

(** Creating a semaphore takes the first free control block of the table and
    makes it a fresh semaphore with [cnt] units and no waiters, touching nothing
    else (the interrupt mask included); when every block is taken it returns
    NO_AVAILABLE_EVENT and changes nothing. *)
Theorem OSSemCreate_correct s cnt event :
  Z.of_nat (length (BRTOS_Sem_Table s)) = BRTOS_MAX_SEM -> iNesting s = 0 -> 0 <= cnt <= 255 ->
  (exists i e, free_slot (E := BRTOS_Sem) s (Some i) /\
     OSSemCreate cnt event s =
       Done (ALLOC_EVENT_OK, Some i) (set_BRTOS_Sem_Table (aset (BRTOS_Sem_Table s) i e) s) /\
     sem_OSEventAllocated e = TRUE /\ sem_ok s e /\ sem_binary e = false /\
     sem_abs e = {| units := cnt; waiting := ∅ |}) \/
  (free_slot (E := BRTOS_Sem) s None /\
     OSSemCreate cnt event s = Done (NO_AVAILABLE_EVENT, event) s).
Proof.
  intros Hlen Hn Hc. destruct (OSSemCreate_lemma s cnt event Hlen Hn) as ([i|] & Hf & Hr);
    [left|by right].
  eexists i, _. split_and!; [done|exact Hr|done|by apply sem_ok_new|done|].
  unfold sem_abs. cbn. f_equal. apply set_eq. intros q. rewrite elem_of_members, Z.testbit_0_l.
  set_solver.
Qed.

(** A binary semaphore created with initial value 1 starts empty: only a
    value above 1 makes it available. *)
Theorem OSSemBinaryCreate_one_is_empty s i event :
  Z.of_nat (length (BRTOS_Sem_Table s)) = BRTOS_MAX_SEM -> iNesting s = 0 ->
  free_slot (E := BRTOS_Sem) s (Some i) ->
  exists s' j, OSSemBinaryCreate 1 event s = Done (ALLOC_EVENT_OK, Some j) s' /\
    exists e, sem_at s' j e /\ sem_binary e = true /\ units (sem_abs e) = 0.
Proof.
  intros Hlen Hn [(ei & Hei & Hni) _].
  destruct (OSSemBinaryCreate_lemma s 1 event Hlen Hn) as ([j|] & Hf & Hr).
  - eexists _, j. split; [exact Hr|]. destruct Hf as [(e & He & _) _]. eexists. cbn in *.
    split; [split; [by eapply aget_aset_eq|done]|done].
  - by apply Hf in Hei.
Qed.

(** The variables the other components own are those of [s]. *)
Definition sem_frame (s s' : OS) : Prop :=
  OSBlockedList s' = OSBlockedList s /\ OSTickCounter s' = OSTickCounter s /\
  iNesting s' = iNesting s /\ BRTOS_Mutex_Table s' = BRTOS_Mutex_Table s /\
  BRTOS_Mbox_Table s' = BRTOS_Mbox_Table s /\ BRTOS_Queue_Table s' = BRTOS_Queue_Table s /\
  BRTOS_OS_QUEUE_Table s' = BRTOS_OS_QUEUE_Table s /\ QUEUE_STACK s' = QUEUE_STACK s.

(** A semaphore that gains or loses the waiter [p]. *)
Lemma sem_ok_join s s' e p :
  sem_ok s e -> same_prios s s' -> live s p -> 0 < p < PriorityType_bits ->
  p ∉ members (sem_OSEventWaitList e) -> sem_OSEventCount e = 0 -> sem_ok s' (ev_join p e).
Proof.
  intros [Ho Hc Hi Hb] Hsp Hl Hp Hni H0. split; [|cbn; lia|cbn; lia|cbn; lia].
  eapply ev_ok_same_prios; [done|]. apply ev_ok_join; [done..|lia|].
  rewrite elem_of_members in Hni. apply not_true_iff_false. intros ?. apply Hni. split; [lia|done].
Qed.

Lemma sem_ok_leave s s' e p :
  ev_ok s' (ev_leave p e) -> sem_ok s e -> Z.testbit (sem_OSEventWaitList e) p = true ->
  sem_ok s' (ev_leave p e).
Proof.
  intros Hl [Ho Hc Hi Hb] Hbit. split; cbn; [done|done| |done].
  intros Hpos. specialize (Hi Hpos). apply (members_empty s e Ho) in Hi.
  assert (p ∈ members (sem_OSEventWaitList e)) as Hin.
  { apply elem_of_members. split; [|done]. pose proof (ev_range s e Ho) as Hr.
    destruct (decide (0 <= p < PriorityType_bits)); [done|]. exfalso.
    destruct (decide (p < 0)); [by rewrite Z.testbit_neg_r in Hbit by lia|].
    rewrite (testbit_high _ PriorityType_bits) in Hbit by (done || lia). done. }
  cbn in Hi. rewrite Hi in Hin. set_solver.
Qed.

Lemma sem_abs_block b e p :
  0 <= p < PriorityType_bits -> p ∉ members (sem_OSEventWaitList e) -> sem_OSEventCount e = 0 ->
  sem_step b (sem_abs e) (SemBlock p) (sem_abs (ev_join p e)).
Proof.
  intros Hp Hni H0. unfold sem_abs.
  change (sem_OSEventWaitList (ev_join p e)) with (ev_waitlist (ev_join p e)).
  rewrite (members_join p e) by lia. cbn. rewrite H0. by apply sem_block.
Qed.

Lemma sem_abs_leave e p :
  0 <= p < PriorityType_bits ->
  sem_abs (ev_leave p e) =
    {| units := sem_OSEventCount e; waiting := members (sem_OSEventWaitList e) ∖ {[p]} |}.
Proof.
  intros Hp. unfold sem_abs.
  change (sem_OSEventWaitList (ev_leave p e)) with (ev_waitlist (ev_leave p e)).
  by rewrite (members_leave p e) by lia.
Qed.

(** C6: [OSSemPend] implements the pend of the abstract counting semaphore.
    With a unit available it takes one and returns OK at once; with none, the
    caller joins the waiting set, leaves the ready list, and the processor goes
    to the highest-priority task that can run.  The kernel invariant and the
    semaphore's are preserved.  The caller is a task outside every interrupt that is
    not waiting already, and it does not poll: the time-out is not [NO_TIMEOUT]. *)
Theorem OSSemPend_refines s l p ev e w :
  wf s l -> iNesting s = 0 -> task_at s p (currentTask s) -> 0 < p -> currentTask s ∉ l ->
  sem_at s ev e -> sem_ok s e -> p ∉ members (sem_OSEventWaitList e) -> w <> NO_TIMEOUT ->
  exists s' e', sem_at s' ev e' /\ sem_ok s' e' /\ sem_frame s s' /\ same_prios s s' /\
    ((OSSemPend (Some ev) w s = Done OK s' /\ wf s' l /\
      sem_step (sem_binary e) (sem_abs e) (SemTake p) (sem_abs e')) \/
     (exists k, OSSemPend (Some ev) w s = Yield s' k /\
      wf s' (armed l (currentTask s) w) /\ dispatched s' /\
      OSReadyList s' = andnot (OSReadyList s) (2 ^ p) /\
      sem_step (sem_binary e) (sem_abs e) (SemBlock p) (sem_abs e'))).
Proof.
  intros Hw Hn Ht Hp Hni Hat Hok Hnm Hnt. pose proof Hat as [He Ha].
  pose proof (task_at_range s l p _ Hw Ht). pose proof (so_count s e Hok).
  destruct (decide (0 < sem_OSEventCount e)) as [Hpos|Hz].
  - eexists _, _. split_and!; [..|left; split; [apply (OSSemPend_take_lemma s ev e w); done || lia|]].
    + split; [by eapply aget_aset_eq|done].
    + destruct Hok as [Ho Hc Hi Hb]. split; cbn; [by apply (ev_ok_fields s _ e); [apply same_prios_ctx|..]|lia|auto with lia|].
      intros Hx%Hb. lia.
    + done.
    + by apply same_prios_ctx.
    + split; [by apply (wf_ext s)|by apply sem_take].
  - destruct (OSSemPend_block_lemma s l p ev e w) as (s0 & t & Hr & Hs & Hw' & Hd);
      [done..|apply Hok|lia|done|].
    destruct Hs as [(ct & hd & tl & Hf) _ Hsp _ _].
    assert (same_prios s (switched t s0)) as Hsp'.
    { eapply same_prios_trans; [|apply same_prios_switched].
      eapply same_prios_trans; [|done]. by apply same_prios_ctx. }
    destruct (switched_frame s0 t) as (Gr & Gb & Gt & _ & Gn & _ & Gs & Gm & Gx & Gq & Go & Gk).
    exists (switched t s0), (ev_join p e). split_and!.
    + split; [|done]. rewrite Gs, Hf. by eapply aget_aset_eq.
    + apply (sem_ok_join s); [done|done|by eexists|lia|done|lia].
    + unfold sem_frame. rewrite Gb, Gt, Gn, Gm, Gx, Gq, Go, Gk, Hf. done.
    + done.
    + right. eexists. split_and!; [done..|by rewrite Gr, Hf|].
      apply sem_abs_block; [lia|done|lia].
Qed.

(** A task that [OSSemPend] suspended with a timeout returns, when it is
    dispatched again in whatever state the system reached: TIMEOUT, having left
    the waiting set, if its time ran out and no post released it; OK, changing
    nothing, if a post released it after its time ran out; OK, having left the
    delay list, if a post released it in time. *)
Theorem OSSemPend_wakes s l p ev e w :
  wf s l -> iNesting s = 0 -> task_at s p (currentTask s) -> 0 < p -> currentTask s ∉ l ->
  sem_at s ev e -> sem_ok s e -> sem_OSEventCount e = 0 -> w <> NO_TIMEOUT -> w <> 0 ->
  exists s1 k, OSSemPend (Some ev) w s = Yield s1 k /\
    forall s2 l2 e2 c, wf s2 l2 -> sem_at s2 ev e2 -> sem_ok s2 e2 ->
      aget (ContextTask s2) (currentTask s) = Some c ->
      (TimeToWait c = EXIT_BY_TIMEOUT -> p ∈ waiting (sem_abs e2) ->
       exists s3 e3, k s2 = Done TIMEOUT s3 /\ wf s3 l2 /\ sem_at s3 ev e3 /\ sem_ok s3 e3 /\
         sem_step (sem_binary e2) (sem_abs e2) (SemTimeout p) (sem_abs e3)) /\
      (TimeToWait c = EXIT_BY_TIMEOUT -> p ∉ waiting (sem_abs e2) ->
       k s2 = Done OK (set_PRIMASK (PRIMASK s) s2)) /\
      (TimeToWait c <> EXIT_BY_TIMEOUT ->
       forall l1 l3, l2 = l1 ++ currentTask s :: l3 ->
       exists s3, k s2 = Done OK s3 /\ wf s3 (l1 ++ l3) /\ sem_at s3 ev e2 /\ same_prios s2 s3).
Proof.
  intros Hw Hn Ht Hp Hni Hat Hok H0 Hnt Hw0. pose proof (task_at_range s l p _ Hw Ht).
  destruct (OSSemPend_block_lemma s l p ev e w) as (s0 & t & Hr & _); [done..|apply Hok|done|done|].
  eexists _, _. split; [exact Hr|]. intros s2 l2 e2 c Hw2 [He2 Ha2] Hok2 Hc. cbn [waiting sem_abs].
  rewrite elem_of_members. split_and!.
  - intros HT [_ Hb].
    assert (ev_ok s2 (ev_leave p e2)) as Hl by (apply ev_ok_leave; [apply Hok2|lia|done]).
    eexists _, (ev_leave p e2). split_and!.
    + by apply (OSSemPend_resume_timeout s2 ev e2 _ w _ p c); [..|apply Hok2|lia|].
    + by apply (wf_ext s2).
    + split; [by eapply aget_aset_eq|done].
    + apply (sem_ok_leave s2); [by apply (ev_ok_ext s2)|done..].
    + rewrite sem_abs_leave by lia. apply sem_giveup, elem_of_members. split; [lia|done].
  - intros HT Hb. apply (OSSemPend_resume_both s2 ev e2 _ w _ p c); [done..|lia|].
    apply not_true_iff_false. intros ?. apply Hb. split; [lia|done].
  - intros HT l1 l3 ->.
    destruct (OSSemPend_resume_posted s2 l1 l3 ev (currentTask s) w (PRIMASK s) p c)
      as (s3 & Hr3 & Hw3 & Hsp & _ & ct & hd & tl & ->); [done..|].
    eexists. split_and!; [exact Hr3|done|by split|done].
Qed.

(** C5: [OSSemPost] implements the post of the abstract semaphore, called by a
    task.  With tasks waiting it releases the one of highest priority, makes it
    ready, keeps the count, and gives the processor to the highest priority
    that can run; with none it adds a unit (a binary semaphore keeps one) or, at
    255, returns ERR_SEM_OVF and changes nothing. *)
Theorem OSSemPost_refines s l ev e :
  wf s l -> iNesting s = 0 -> is_Some (aget (ContextTask s) (currentTask s)) ->
  sem_at s ev e -> sem_ok s e ->
  exists s' e', sem_at s' ev e' /\ sem_ok s' e' /\ sem_frame s s' /\ wf s' l /\
    ((exists p k, OSSemPost (Some ev) s = Yield s' k /\ dispatched s' /\
      OSReadyList s' = Z.lor (OSReadyList s) (2 ^ p) /\
      (forall s2, k s2 = Done OK (set_PRIMASK (PRIMASK s) s2)) /\
      sem_step (sem_binary e) (sem_abs e) (SemWake p) (sem_abs e')) \/
     (OSSemPost (Some ev) s = Done OK s' /\
      sem_step (sem_binary e) (sem_abs e) SemCount (sem_abs e')) \/
     (OSSemPost (Some ev) s = Done ERR_SEM_OVF s' /\ s' = s /\
      sem_step (sem_binary e) (sem_abs e) SemOverflow (sem_abs e'))).
Proof.
  intros Hw Hn Hcur Hat Hok. pose proof Hat as [He Ha]. pose proof Hok as [Ho Hc Hi Hb].
  destruct (decide (sem_OSEventWait e = 0)) as [Hz|Hz].
  - assert (members (sem_OSEventWaitList e) = ∅) as Hm by (by apply (proj2 (members_empty s e Ho))).
    destruct (decide (sem_OSEventCount e < 255)) as [Hlt|Hge].
    + exists (set_BRTOS_Sem_Table (aset (BRTOS_Sem_Table s) ev (sem_counted e)) s), (sem_counted e).
      split_and!; [split; [by eapply aget_aset_eq|done]| |done|by apply (wf_ext s)|].
      * split; [by apply (ev_ok_fields s _ e); [apply same_prios_ctx|..]|..]; cbn.
        -- destruct (sem_binary e); unfold TRUE; lia.
        -- done.
        -- change (sem_binary (sem_counted e)) with (sem_binary e). intros ->. done.
      * right. left. split; [apply OSSemPost_count_lemma; done || lia|].
        unfold sem_abs. cbn. rewrite Hm. by apply sem_count.
    + exists s, e. split_and!; [done..|]. right. right.
      split_and!; [apply (OSSemPost_overflow_lemma s ev e); done || lia|done|].
      unfold sem_abs. replace (sem_OSEventCount e) with 255 by lia. rewrite Hm. apply sem_overflow.
  - destruct (OSSemPost_task_lemma s l ev e) as (p & t & Hh & Hp & Hl & Hr & Hw' & Hd); [done..|].
    destruct Hh as (_ & Hbit & Hmax).
    destruct (switched_frame (sem_released s ev p e) t)
      as (Gr & Gb & Gt & _ & Gn & _ & Gs & Gm & Gx & Gq & Go & Gk).
    exists (switched t (sem_released s ev p e)), (ev_leave p e). split_and!.
    + split; [|done]. rewrite Gs. by eapply aget_aset_eq.
    + apply (sem_ok_leave s); [|done|done]. apply (ev_ok_same_prios (sem_released s ev p e));
        [apply same_prios_switched|by apply (ev_ok_ext s)].
    + unfold sem_frame. by rewrite Gb, Gt, Gn, Gm, Gx, Gq, Go, Gk.
    + done.
    + left. exists p. eexists. split_and!; [exact Hr|done|by rewrite Gr|done|].
      rewrite sem_abs_leave by lia. apply sem_wake.
      * apply elem_of_members. split; [lia|done].
      * intros q [_ Hq]%elem_of_members. destruct (decide (q <= p)); [done|].
        rewrite Hmax in Hq by lia. done.
Qed.

(** The checks of [OSSemPend] in a build with ERROR_CHECK: from an
    interrupt, with a null pointer or with a semaphore that was not created it
    returns the error and changes nothing; and polling an empty semaphore with
    NO_TIMEOUT never suspends the caller. *)
Theorem OSSemPend_errors s ev e w :
  ERROR_CHECK = true ->
  (0 < iNesting s -> OSSemPend (Some ev) w s = Done IRQ_PEND_ERR s) /\
  (iNesting s = 0 -> OSSemPend None w s = Done NULL_EVENT_POINTER s) /\
  (iNesting s = 0 -> aget (BRTOS_Sem_Table s) ev = Some e -> sem_OSEventAllocated e <> TRUE ->
   OSSemPend (Some ev) w s = Done ERR_EVENT_NO_CREATED s) /\
  (iNesting s = 0 -> sem_at s ev e -> sem_OSEventCount e = 0 ->
   OSSemPend (Some ev) NO_TIMEOUT s = Done EXIT_BY_NO_ENTRY_AVAILABLE s).
Proof.
  intros Hec. unfold OSSemPend. cbn. rewrite Hec. split_and!.
  - intros Hn. by rewrite (proj2 (Z.gtb_lt _ _) Hn).
  - intros ->. done.
  - intros -> He Ha. run. rewrite (proj2 (Z.eqb_neq _ _) Ha). cbn. by destruct s.
  - intros -> [He Ha] H0. run. rewrite Ha, H0, !Z.eqb_refl. cbn. by destruct s.
Qed.
End theorems.

(** ** Examples *)
Section examples.
#[local] Existing Instance sample_config.

(** The sample system with an empty semaphore, and its task of priority 9
    suspended on something else. *)
Definition sample_sem (e : BRTOS_Sem) : OS :=
  sample_os [0; 5; 9] (2 ^ 0 + 2 ^ 5) 2 [e] [] [] [] [] [].

Definition sample_empty : BRTOS_Sem := mkSem TRUE 0 0 FALSE 0.

Lemma sample_empty_ok s : sem_ok s sample_empty.
Proof. by apply sem_ok_new. Qed.

Lemma sample_sem_wf e : wf (sample_sem e) [].
Proof. by apply wfb_sound. Qed.

Lemma OSSemPend_refines_witness :
  sem_at (sample_sem sample_empty) 0 sample_empty /\
  exists s' e', sem_at s' 0 e' /\ sem_ok s' e' /\ sem_frame (sample_sem sample_empty) s' /\
    same_prios (sample_sem sample_empty) s' /\
    ((OSSemPend (Some 0) 50 (sample_sem sample_empty) = Done OK s' /\ wf s' [] /\
      sem_step (sem_binary sample_empty) (sem_abs sample_empty) (SemTake 5) (sem_abs e')) \/
     (exists k, OSSemPend (Some 0) 50 (sample_sem sample_empty) = Yield s' k /\
      wf s' (armed [] 2 50) /\ dispatched s' /\
      OSReadyList s' = andnot (OSReadyList (sample_sem sample_empty)) (2 ^ 5) /\
      sem_step (sem_binary sample_empty) (sem_abs sample_empty) (SemBlock 5) (sem_abs e'))).
Proof.
  split; [done|].
  apply (OSSemPend_refines (sample_sem sample_empty) [] 5 0 sample_empty 50);
    [apply sample_sem_wf|reflexivity|by apply task_atb_sound|lia|by apply not_elem_of_nil|done
    |apply sample_empty_ok|by vm_compute|done].
Defined.

(** Nothing created yet. *)
Definition no_sem : BRTOS_Sem := mkSem 0 0 0 0 0.
Definition fresh_sems : OS := sample_os [0; 5; 9] (2 ^ 0 + 2 ^ 5) 2 (replicate 20 no_sem) [] [] [] [] [].

Lemma OSSemCreate_correct_witness :
  (exists i e, free_slot (E := BRTOS_Sem) fresh_sems (Some i) /\
     OSSemCreate 3 None fresh_sems =
       Done (ALLOC_EVENT_OK, Some i)
         (set_BRTOS_Sem_Table (aset (BRTOS_Sem_Table fresh_sems) i e) fresh_sems) /\
     sem_OSEventAllocated e = TRUE /\ sem_ok fresh_sems e /\ sem_binary e = false /\
     sem_abs e = {| units := 3; waiting := ∅ |}) \/
  (free_slot (E := BRTOS_Sem) fresh_sems None /\
     OSSemCreate 3 None fresh_sems = Done (NO_AVAILABLE_EVENT, None) fresh_sems).
Proof. apply (OSSemCreate_correct fresh_sems 3 None); [done|done|lia]. Defined.

Lemma OSSemBinaryCreate_one_is_empty_witness :
  exists s' j, OSSemBinaryCreate 1 None fresh_sems = Done (ALLOC_EVENT_OK, Some j) s' /\
    exists e, sem_at s' j e /\ sem_binary e = true /\ units (sem_abs e) = 0.
Proof.
  apply (OSSemBinaryCreate_one_is_empty fresh_sems 0 None); [done|done|].
  split; [by exists no_sem|]. intros j e Hj He. apply aget_lt in He. lia.
Defined.

Lemma OSSemPend_wakes_witness :
  exists s1 k, OSSemPend (Some 0) 50 (sample_sem sample_empty) = Yield s1 k /\
    forall s2 l2 e2 c, wf s2 l2 -> sem_at s2 0 e2 -> sem_ok s2 e2 ->
      aget (ContextTask s2) 2 = Some c ->
      (TimeToWait c = EXIT_BY_TIMEOUT -> 5 ∈ waiting (sem_abs e2) ->
       exists s3 e3, k s2 = Done TIMEOUT s3 /\ wf s3 l2 /\ sem_at s3 0 e3 /\ sem_ok s3 e3 /\
         sem_step (sem_binary e2) (sem_abs e2) (SemTimeout 5) (sem_abs e3)) /\
      (TimeToWait c = EXIT_BY_TIMEOUT -> 5 ∉ waiting (sem_abs e2) ->
       k s2 = Done OK (set_PRIMASK false s2)) /\
      (TimeToWait c <> EXIT_BY_TIMEOUT -> forall l1 l3, l2 = l1 ++ 2 :: l3 ->
       exists s3, k s2 = Done OK s3 /\ wf s3 (l1 ++ l3) /\ sem_at s3 0 e2 /\ same_prios s2 s3).
Proof.
  apply (OSSemPend_wakes (sample_sem sample_empty) [] 5 0 sample_empty 50);
    [apply sample_sem_wf|done|by apply task_atb_sound|lia|apply not_elem_of_nil|done
    |apply sample_empty_ok|done|done|done].
Defined.

(** A semaphore the task of priority 9 waits on. *)
Definition sample_waited : BRTOS_Sem := mkSem TRUE 0 1 FALSE (2 ^ 9).

Lemma sample_waited_ok : sem_ok (sample_sem sample_waited) sample_waited.
Proof. split; [by apply ev_okb_sound|by cbn|done|done]. Qed.

Lemma OSSemPost_refines_witness :
  exists s' e', sem_at s' 0 e' /\ sem_ok s' e' /\ sem_frame (sample_sem sample_waited) s' /\ wf s' [] /\
    ((exists p k, OSSemPost (Some 0) (sample_sem sample_waited) = Yield s' k /\ dispatched s' /\
      OSReadyList s' = Z.lor (2 ^ 0 + 2 ^ 5) (2 ^ p) /\
      (forall s2, k s2 = Done OK (set_PRIMASK false s2)) /\
      sem_step false (sem_abs sample_waited) (SemWake p) (sem_abs e')) \/
     (OSSemPost (Some 0) (sample_sem sample_waited) = Done OK s' /\
      sem_step false (sem_abs sample_waited) SemCount (sem_abs e')) \/
     (OSSemPost (Some 0) (sample_sem sample_waited) = Done ERR_SEM_OVF s' /\
      s' = sample_sem sample_waited /\
      sem_step false (sem_abs sample_waited) SemOverflow (sem_abs e'))).
Proof.
  apply (OSSemPost_refines (sample_sem sample_waited) [] 0 sample_waited);
    [apply sample_sem_wf|done|by eexists|done|apply sample_waited_ok].
Defined.
End examples.

Section checked.
#[local] Existing Instance checked_config.

Definition checked_sem : OS :=
  generic_os (C := checked_config) tt [0; 5; 9] (2 ^ 0 + 2 ^ 5) 2 [sample_empty] [] [] [] [] [].

Lemma OSSemPend_errors_witness :
  OSSemPend None 10 checked_sem = Done NULL_EVENT_POINTER checked_sem /\
  OSSemPend (Some 0) NO_TIMEOUT checked_sem = Done EXIT_BY_NO_ENTRY_AVAILABLE checked_sem.
Proof. split; by apply (OSSemPend_errors checked_sem 0 sample_empty 10). Defined.
End checked.
