(* ===== verification/Mutex.v ===== *)
(** * Mutexes with priority ceiling

    brtos/mutex.c.  The owner of a mutex runs at the mutex's ceiling priority
    [OSMaxPriority] while it holds it; the ceiling is a slot of [PriorityVector]
    reserved with the mark MUTEX_PRIO.  The theorems give the effect of acquire
    and release on ownership and on the running priority, that the kernel
    invariant is preserved by the exchange of priorities, and where nested
    mutexes break it. *)

From Stdlib Require Import ZArith Lia.
From stdpp Require Import base gmap numbers list.
From S2P Require Import Prelude Config State Sched DelayList Hal Clock Kernel Event Sample.
#[local] Open Scope Z_scope.
#[local] Open Scope prog_scope.

#[global] Instance Event_Mutex `{C : Config} : Event BRTOS_Mutex.
Proof.
  refine {| ev_table := BRTOS_Mutex_Table; set_ev_table := set_BRTOS_Mutex_Table;
            ev_wait := mtx_OSEventWait; ev_waitlist := mtx_OSEventWaitList;
            ev_alloc := mtx_OSEventAllocated;
            set_ev_wait := set_mtx_OSEventWait; set_ev_waitlist := set_mtx_OSEventWaitList |};
    try done.
  by intros s s' [=].
Defined.

Section operations.
Context `{C : Config}.

(** [OSMutexCreate] *)
Definition OSMutexCreate (event : option Z) (HigherPriority : Z) : prog (Z * option Z) :=
  nesting <- gets iNesting ;;
  if nesting >? 0 then ret (IRQ_PEND_ERR, event)
  else
    CPU_SR <- OSEnterCritical_started ;;
    busy <- (if HigherPriority >? 0 then
               v <- read PriorityVector HigherPriority ;;
               if negb (v =? EMPTY_PRIO) then ret true
               else
                 (* Allocate priority to the mutex *)
                 write PriorityVector set_PriorityVector HigherPriority MUTEX_PRIO ;;;
                 ret false
             else ret false) ;;
    if busy : bool then
      OSExitCritical_started CPU_SR ;;;
      ret (BUSY_PRIORITY, event)
    else
      o <- first_free BRTOS_Mutex (Z.to_nat (BRTOS_MAX_MUTEX + 1)) BRTOS_MAX_MUTEX 0 ;;
      match o with
      | None =>
          OSExitCritical_started CPU_SR ;;;
          ret (NO_AVAILABLE_EVENT, event)
      | Some i =>
          upd_ev i (set_mtx_OSEventAllocated TRUE) ;;;
          upd_ev i (set_mtx_OSEventState AVAILABLE_RESOURCE) ;;;
          upd_ev i (set_mtx_OSEventWait 0) ;;;
          upd_ev i (set_mtx_OSMaxPriority HigherPriority) ;;;
          upd_ev i (set_mtx_OSEventWaitList 0) ;;;
          OSExitCritical_started CPU_SR ;;;
          ret (ALLOC_EVENT_OK, Some i)
      end.

(** [OSMutexDelete] *)
Definition OSMutexDelete (event : option Z) : prog (Z * option Z) :=
  nesting <- gets iNesting ;;
  if nesting >? 0 then ret (IRQ_PEND_ERR, event)
  else
    CPU_SR <- OSEnterCritical ;;
    ev <- deref event ;;
    upd_ev ev (set_mtx_OSEventAllocated 0) ;;;
    upd_ev ev (set_mtx_OSEventState 0) ;;;
    upd_ev ev (set_mtx_OSEventOwner 0) ;;;
    upd_ev ev (set_mtx_OSMaxPriority 0) ;;;
    upd_ev ev (set_mtx_OSOriginalPriority 0) ;;;
    upd_ev ev (set_mtx_OSEventWait 0) ;;;
    upd_ev ev (set_mtx_OSEventWaitList 0) ;;;
    OSExitCritical CPU_SR ;;;
    ret (DELETE_EVENT_OK, None).

(** The exchange of the new owner's priority, at the end of both ways to
    acquire: back the priority up and rise to the ceiling if it is higher. *)
Definition mutex_raise (ev T iPriority : Z) : prog unit :=
  upd_ev ev (set_mtx_OSOriginalPriority iPriority) ;;;
  e <- read BRTOS_Mutex_Table ev ;;
  when (mtx_OSMaxPriority e >? iPriority)
    ( (* Receives the priority ceiling temporarily *)
     upd_Task T (set_Priority (mtx_OSMaxPriority e)) ;;;
     (* Priority vector change *)
     cur <- gets currentTask ;;
     write PriorityVector set_PriorityVector (mtx_OSMaxPriority e) cur ;;;
     ready_remove iPriority ;;;
     ready_insert (mtx_OSMaxPriority e)).

(** [OSMutexAcquire], from the return of [ChangeContext] on. *)
Definition OSMutexAcquire_resume (ev cur time_wait : Z) (CPU_SR : bool) (iPriority : Z)
    : prog Z :=
  OSExitCritical CPU_SR ;;;
  CPU_SR <- OSEnterCritical ;;
  timedout <- (if truthy time_wait then pend_wakeup BRTOS_Mutex ev cur iPriority
               else ret false) ;;
  if timedout : bool then
    OSExitCritical CPU_SR ;;;
    ret EXIT_BY_NO_RESOURCE_AVAILABLE
  else
    mutex_raise ev cur iPriority ;;;
    OSExitCritical CPU_SR ;;;
    ret OK.

(** [OSMutexAcquire] *)
Definition OSMutexAcquire (pont_event : option Z) (time_wait : Z) : prog Z :=
  nesting <- gets iNesting ;;
  if ERROR_CHECK && (nesting >? 0) then ret IRQ_PEND_ERR
  else if ERROR_CHECK && bool_decide (pont_event = None) then ret NULL_EVENT_POINTER
  else
    CPU_SR <- OSEnterCritical ;;
    ev <- deref pont_event ;;
    e <- read BRTOS_Mutex_Table ev ;;
    cur <- gets currentTask ;;
    if ERROR_CHECK && negb (mtx_OSEventAllocated e =? TRUE) then
      OSExitCritical CPU_SR ;;;
      ret ERR_EVENT_NO_CREATED
    else if cur =? mtx_OSEventOwner e then
      (* It is already the mutex owner *)
      OSExitCritical CPU_SR ;;;
      ret OK
    else if mtx_OSEventState e =? AVAILABLE_RESOURCE then
      upd_ev ev (set_mtx_OSEventState BUSY_RESOURCE) ;;;
      upd_ev ev (set_mtx_OSEventOwner cur) ;;;
      c <- Task cur ;;
      mutex_raise ev cur (Priority c) ;;;
      OSExitCritical CPU_SR ;;;
      ret OK
    else if time_wait =? NO_TIMEOUT then
      OSExitCritical CPU_SR ;;;
      ret EXIT_BY_NO_RESOURCE_AVAILABLE
    else
      iPriority <- pend_enqueue BRTOS_Mutex ev cur time_wait ;;
      ChangeContext ;;;
      OSMutexAcquire_resume ev cur time_wait CPU_SR iPriority.

(** [OSMutexRelease] *)
Definition OSMutexRelease (pont_event : option Z) : prog Z :=
  nesting <- gets iNesting ;;
  if ERROR_CHECK && (nesting >? 0) then ret IRQ_PEND_ERR
  else if ERROR_CHECK && bool_decide (pont_event = None) then ret NULL_EVENT_POINTER
  else
    CPU_SR <- OSEnterCritical ;;
    ev <- deref pont_event ;;
    e <- read BRTOS_Mutex_Table ev ;;
    cur <- gets currentTask ;;
    if ERROR_CHECK && negb (mtx_OSEventAllocated e =? TRUE) then
      OSExitCritical CPU_SR ;;;
      ret ERR_EVENT_NO_CREATED
    else if negb (mtx_OSEventOwner e =? cur) then
      OSExitCritical CPU_SR ;;;
      ret ERR_EVENT_OWNER
    else
      (* Returns to the original priority, if needed *)
      c <- Task cur ;;
      when (negb (Priority c =? mtx_OSOriginalPriority e))
        (ready_remove (Priority c) ;;;
         ready_insert (mtx_OSOriginalPriority e) ;;;
         upd_Task cur (set_Priority (mtx_OSOriginalPriority e))) ;;;
      (* Release mutex ownership *)
      upd_ev ev (set_mtx_OSEventOwner 0) ;;;
      if negb (mtx_OSEventWait e =? 0) then
        iPriority <- post_select BRTOS_Mutex ev ;;
        (* Changes the task that owns the mutex *)
        owner <- read PriorityVector iPriority ;;
        upd_ev ev (set_mtx_OSEventOwner owner) ;;;
        ready_insert iPriority ;;;
        ChangeContext ;;;
        OSExitCritical CPU_SR ;;;
        ret OK
      else
        upd_ev ev (set_mtx_OSEventState AVAILABLE_RESOURCE) ;;;
        when (mtx_OSMaxPriority e >? 0)
          (write PriorityVector set_PriorityVector (mtx_OSMaxPriority e) MUTEX_PRIO) ;;;
        OSExitCritical CPU_SR ;;;
        ret OK.
End operations.

Arguments mutex_raise : simpl never.

(** ** Changing the running task's priority *)
Section move.
Context `{C : Config}.
Implicit Types (s : OS) (l : list Z) (t p q ev w : Z).

(** Task [t] moved from priority [p] to [q]. *)
Definition moved (t p q : Z) (c : ContextType) (PV : list Z) (s : OS) : OS :=
  set_OSReadyList (Z.lor (andnot (OSReadyList s) (2 ^ p)) (2 ^ q))
    (set_ContextTask (aset (ContextTask s) t (set_Priority q c)) (set_PriorityVector PV s)).

Lemma moved_task_at s t p q c PV :
  task_at s p t -> aget (ContextTask s) t = Some c -> aget PV q = Some t ->
  task_at (moved t p q c PV s) q t.
Proof.
  intros (_ & Ht & _) Hc Hq. split_and!; [done..|]. eexists. split; [by eapply aget_aset_eq|done].
Qed.

Lemma moved_others s t p q c PV u r :
  (forall r u, task_at s r u -> u <> t -> aget PV r = Some u) ->
  u <> t -> task_at s r u -> task_at (moved t p q c PV s) r u.
Proof.
  intros Hpv Hne Hu. pose proof Hu as (_ & H0 & cu & Hcu & Hpu).
  split_and!; [by apply Hpv|done|]. exists cu. cbn. by rewrite aget_aset_ne.
Qed.

Lemma wf_moved s l t p q c PV :
  wf s l -> task_at s p t -> aget (ContextTask s) t = Some c -> t ∉ l -> 0 < p ->
  0 < q < PriorityType_bits -> length PV = length (PriorityVector s) -> aget PV q = Some t ->
  (forall r u, task_at s r u -> u <> t -> aget PV r = Some u) ->
  wf (moved t p q c PV s) l.
Proof.
  intros Hw Ht Hc Hni Hp Hq Hlen HPV Hoth. pose proof PriorityType_bits_range.
  split; cbn; try apply Hw.
  - rewrite Hlen. apply Hw.
  - rewrite length_aset. apply Hw.
  - apply lor_pow2_range; [lia|]. apply andnot_range; [lia|apply Hw].
  - apply (delay_list_ext (set_ContextTask (aset (ContextTask s) t (set_Priority q c)) s));
      [done..|]. apply (delay_list_aset_links s t c); [done..|apply Hw].
  - intros u Hu. assert (u <> t) by (intros ->; done).
    assert (prio_of (moved t p q c PV s) u = prio_of s u) as Hpu
      by (unfold prio_of; cbn; by rewrite aget_aset_ne).
    change (prio_of _ u) with (prio_of (moved t p q c PV s) u). rewrite Hpu.
    apply moved_others; [done..|]. by eapply wf_delay_live.
  - intros r. rewrite testbit_set, testbit_clear by lia.
    intros [[Hr Hne]%andb_true_iff|Hr]%orb_true_iff.
    + apply negb_true_iff, bool_decide_eq_false in Hne.
      destruct (wf_ready_live s l Hw r Hr) as [u Hu]. exists u. apply moved_others; [done| |done].
      intros ->. apply Hne. by eapply task_at_prio_inj.
    + apply bool_decide_eq_true in Hr as <-. exists t. by apply moved_task_at.
  - destruct (wf_idle s l Hw) as [Hr Hb]. split; cbn; [|done].
    rewrite testbit_set, testbit_clear, Hr, (bool_decide_false (p = 0)) by lia. done.
Qed.

(** A slot marked MUTEX_PRIO belongs to no task. *)
Lemma mutex_slot_not_live s l q :
  wf s l -> aget (PriorityVector s) q = Some MUTEX_PRIO -> ~ live s q.
Proof.
  intros Hw Hq [t (Ht & _ & c & Hc & _)]. rewrite Hq in Ht. injection Ht as <-.
  apply aget_lt in Hc. rewrite (wf_ct s l Hw) in Hc. pose proof NUMBER_OF_TASKS_ok.
  unfold MUTEX_PRIO in Hc. lia.
Qed.

(** The new owner's priority after [mutex_raise]. *)
Definition raised_prio (e : BRTOS_Mutex) (p : Z) : Z := Z.max p (mtx_OSMaxPriority e).

(** The ceiling of [e] is free for a task of priority [p] to rise to. *)
Definition ceiling_free (s : OS) (e : BRTOS_Mutex) (p : Z) : Prop :=
  p < mtx_OSMaxPriority e -> mtx_OSMaxPriority e < PriorityType_bits /\ ~ live s (mtx_OSMaxPriority e).

Definition raised (s : OS) (ev T p : Z) (e : BRTOS_Mutex) (c : ContextType) : OS :=
  let s1 := set_BRTOS_Mutex_Table
              (aset (BRTOS_Mutex_Table s) ev (set_mtx_OSOriginalPriority p e)) s in
  if mtx_OSMaxPriority e >? p then
    moved T p (mtx_OSMaxPriority e) c (aset (PriorityVector s) (mtx_OSMaxPriority e) T) s1
  else s1.

Lemma mutex_raise_eq s l ev e p c :
  wf s l -> task_at s p (currentTask s) -> aget (ContextTask s) (currentTask s) = Some c ->
  aget (BRTOS_Mutex_Table s) ev = Some e -> ceiling_free s e p ->
  mutex_raise ev (currentTask s) p s = Done tt (raised s ev (currentTask s) p e c).
Proof.
  intros Hw Ht Hc He Hcf. pose proof (task_at_range s l p _ Hw Ht) as Hp.
  unfold mutex_raise, raised. cbn. rewrite (upd_ev_eq (E := BRTOS_Mutex) s ev e) by done. run.
  destruct (mtx_OSMaxPriority e >? p) eqn:Hm; [|done]. to_prop. destruct (Hcf Hm) as [Hr _].
  destruct (aget (PriorityVector s) (mtx_OSMaxPriority e)) as [v|] eqn:Hv.
  - run. rewrite ready_remove_eq by lia. cbn. by rewrite ready_insert_eq by lia.
  - exfalso. apply eq_None_not_Some in Hv. apply Hv, aget_is_Some. rewrite (wf_pv s l Hw). lia.
Qed.

Lemma raised_wf s l ev e p c :
  wf s l -> task_at s p (currentTask s) -> aget (ContextTask s) (currentTask s) = Some c ->
  currentTask s ∉ l -> 0 < p -> ceiling_free s e p ->
  wf (raised s ev (currentTask s) p e c) l /\
  task_at (raised s ev (currentTask s) p e c) (raised_prio e p) (currentTask s).
Proof.
  intros Hw Ht Hc Hni Hp Hcf. unfold raised, raised_prio.
  set (s1 := set_BRTOS_Mutex_Table _ s).
  assert (wf s1 l) as Hw1 by (by apply (wf_ext s)).
  assert (task_at s1 p (currentTask s)) as Ht1 by (by apply (task_at_ext s)).
  destruct (mtx_OSMaxPriority e >? p) eqn:Hm; to_prop.
  - destruct (Hcf Hm) as [Hr Hnl]. rewrite Z.max_r by lia.
    assert (aget (aset (PriorityVector s) (mtx_OSMaxPriority e) (currentTask s))
              (mtx_OSMaxPriority e) = Some (currentTask s)) as Hq.
    { destruct (aget (PriorityVector s) (mtx_OSMaxPriority e)) as [v|] eqn:Hv.
      - by eapply aget_aset_eq.
      - exfalso. apply eq_None_not_Some in Hv. apply Hv, aget_is_Some. rewrite (wf_pv s l Hw). lia. }
    split; [|by apply moved_task_at].
    apply wf_moved; [done|done|done|done|done|lia|apply length_aset|done|].
    intros r u Hu Hne. rewrite aget_aset_ne; [apply Hu|]. intros <-. apply Hnl.
    exists u. by apply (task_at_ext s1).
  - rewrite Z.max_l by lia. done.
Qed.
End move.

(** ** Lemmas on the services *)
Section lemmas.
Context `{C : Config}.
Implicit Types (s : OS) (l : list Z) (t p q ev w : Z) (e : BRTOS_Mutex).

(** [ev] designates the allocated mutex [e]. *)
Definition mutex_at (s : OS) (ev : Z) (e : BRTOS_Mutex) : Prop :=
  aget (BRTOS_Mutex_Table s) ev = Some e /\ mtx_OSEventAllocated e = TRUE.

(** The mutex [e] taken by task [t]. *)
Definition owned_by (t : Z) (e : BRTOS_Mutex) : BRTOS_Mutex :=
  set_mtx_OSEventOwner t (set_mtx_OSEventState BUSY_RESOURCE e).

(** The test [ERROR_CHECK] of a service called by a task on a created mutex. *)
Lemma guards_pass (n : Z) (b : bool) : n = 0 ->
  (b && (n >? 0))%bool = false /\ (b && negb (TRUE =? TRUE))%bool = false.
Proof. intros ->. by rewrite !andb_false_r. Qed.

Lemma OSMutexAcquire_free_lemma s l ev e p c w :
  wf s l -> iNesting s = 0 -> task_at s p (currentTask s) ->
  aget (ContextTask s) (currentTask s) = Some c ->
  mutex_at s ev e -> mtx_OSEventOwner e <> currentTask s ->
  mtx_OSEventState e = AVAILABLE_RESOURCE -> ceiling_free s e p ->
  OSMutexAcquire (Some ev) w s =
    Done OK (raised (set_BRTOS_Mutex_Table
      (aset (BRTOS_Mutex_Table s) ev (owned_by (currentTask s) e)) s) ev (currentTask s) p
      (owned_by (currentTask s) e) c).
Proof.
  intros Hw Hn Ht Hc [He Ha] Ho Hs Hcf. unfold OSMutexAcquire. run.
  destruct (guards_pass (iNesting s) ERROR_CHECK Hn) as [-> HG]. cbn.
  rewrite andb_false_r. run. rewrite Ha, HG. run.
  rewrite (proj2 (Z.eqb_neq _ _) (not_eq_sym Ho)), Hs, Z.eqb_refl. cbn.
  unfold upd_ev. run.
  pose proof (task_at_prio s p _ Ht) as Hp. unfold prio_of in Hp. rewrite Hc in Hp. rewrite Hp.
  match goal with |- context [mutex_raise _ _ _ ?x] => set (s1 := x) end.
  change (mutex_raise ev (currentTask s)) with (mutex_raise ev (currentTask s1)).
  rewrite (mutex_raise_eq s1 l ev (owned_by (currentTask s) e) p c).
  - unfold raised. cbn. destruct (mtx_OSMaxPriority e >? p); by destruct s.
  - by apply (wf_ext s).
  - by apply (task_at_ext s).
  - done.
  - cbn. by eapply aget_aset_eq.
  - intros Hlt. destruct (Hcf Hlt) as [? Hnl]. split; [done|]. intros [u Hu]. apply Hnl.
    exists u. by apply (task_at_ext s1).
Qed.

Lemma OSMutexAcquire_block_lemma s l ev e p w :
  wf s l -> iNesting s = 0 -> task_at s p (currentTask s) -> 0 < p -> currentTask s ∉ l ->
  mutex_at s ev e -> ev_ok s e -> mtx_OSEventOwner e <> currentTask s ->
  mtx_OSEventState e <> AVAILABLE_RESOURCE -> w <> NO_TIMEOUT ->
  exists s0 t, OSMutexAcquire (Some ev) w s
      = Yield (switched t s0)
          (fun s' => OSMutexAcquire_resume ev (currentTask s) w (PRIMASK s) p s') /\
    suspended (set_PRIMASK true s) s0 l p ev w e /\
    wf (switched t s0) (armed l (currentTask s) w) /\ dispatched (switched t s0).
Proof.
  intros Hw Hn Ht Hp Hni [He Ha] Hok Ho Hs Hnt.
  destruct (pend_block_lemma (set_PRIMASK true s) l p ev w e
              (OSMutexAcquire_resume ev (currentTask s) w (PRIMASK s))) as (s0 & t & Hr & Hrest);
    [by apply (wf_ext s)|done|by apply (task_at_ext s)|done|done|done|by apply (ev_ok_ext s)|].
  exists s0, t. split; [|done]. rewrite <- Hr.
  unfold OSMutexAcquire. run. destruct (guards_pass (iNesting s) ERROR_CHECK Hn) as [-> HG]. cbn.
  rewrite andb_false_r. run. rewrite Ha, HG. run.
  by rewrite (proj2 (Z.eqb_neq _ _) (not_eq_sym Ho)), (proj2 (Z.eqb_neq _ _) Hs),
    (proj2 (Z.eqb_neq _ _) Hnt).
Qed.

(** Up to the choice of the next owner, releasing restores the priority. *)
Definition restored (s : OS) (cur q : Z) (e : BRTOS_Mutex) (c : ContextType) : OS :=
  if negb (q =? mtx_OSOriginalPriority e) then
    moved cur q (mtx_OSOriginalPriority e) c (PriorityVector s) s
  else s.

Lemma OSMutexRelease_eq s ev e q c :
  iNesting s = 0 -> mutex_at s ev e -> mtx_OSEventOwner e = currentTask s ->
  aget (ContextTask s) (currentTask s) = Some c -> Priority c = q ->
  0 <= q < PriorityType_bits -> 0 <= mtx_OSOriginalPriority e < PriorityType_bits ->
  OSMutexRelease (Some ev) s =
    (if negb (mtx_OSEventWait e =? 0) then
       iPriority <- post_select BRTOS_Mutex ev ;;
       owner <- read PriorityVector iPriority ;;
       upd_ev ev (set_mtx_OSEventOwner owner) ;;;
       ready_insert iPriority ;;;
       ChangeContext ;;;
       OSExitCritical (PRIMASK s) ;;;
       ret OK
     else
       upd_ev ev (set_mtx_OSEventState AVAILABLE_RESOURCE) ;;;
       when (mtx_OSMaxPriority e >? 0)
         (write PriorityVector set_PriorityVector (mtx_OSMaxPriority e) MUTEX_PRIO) ;;;
       OSExitCritical (PRIMASK s) ;;;
       ret OK)
    (set_BRTOS_Mutex_Table (aset (BRTOS_Mutex_Table s) ev (set_mtx_OSEventOwner 0 e))
       (restored (set_PRIMASK true s) (currentTask s) q e c)).
Proof.
  intros Hn [He Ha] Ho Hc Hp Hq Hor. unfold OSMutexRelease, restored. run.
  destruct (guards_pass (iNesting s) ERROR_CHECK Hn) as [-> HG]. cbn.
  rewrite andb_false_r. run. rewrite Ha, HG. run. rewrite Ho, Z.eqb_refl. run. rewrite Hp.
  destruct (q =? mtx_OSOriginalPriority e); run.
  - by rewrite (upd_ev_eq (E := BRTOS_Mutex) _ ev e) by done.
  - rewrite ready_remove_eq by lia. run. rewrite ready_insert_eq by lia. run.
    by rewrite (upd_ev_eq (E := BRTOS_Mutex) _ ev e) by done.
Qed.
End lemmas.

(** ** Theorems *)
Section theorems.
Context `{C : Config}.
Implicit Types (s : OS) (l : list Z) (t p q ev w : Z) (e : BRTOS_Mutex).

(** Acquiring a free mutex makes the caller its owner and raises it to the
    ceiling at once: it returns OK with the mutex busy and owned by the caller,
    the caller's priority backed up, and the caller running at the higher of its
    priority and the ceiling, in the priority vector, in its control block and in
    the ready list; the kernel invariant is preserved. *)
Theorem OSMutexAcquire_free s l p ev e w :
  wf s l -> iNesting s = 0 -> task_at s p (currentTask s) -> 0 < p -> currentTask s ∉ l ->
  mutex_at s ev e -> mtx_OSEventOwner e <> currentTask s ->
  mtx_OSEventState e = AVAILABLE_RESOURCE -> ceiling_free s e p ->
  exists s' e', OSMutexAcquire (Some ev) w s = Done OK s' /\ wf s' l /\ mutex_at s' ev e' /\
    mtx_OSEventOwner e' = currentTask s /\ mtx_OSEventState e' = BUSY_RESOURCE /\
    mtx_OSOriginalPriority e' = p /\ task_at s' (raised_prio e p) (currentTask s) /\
    PRIMASK s' = PRIMASK s /\
    (p < mtx_OSMaxPriority e -> Z.testbit (OSReadyList s') (mtx_OSMaxPriority e) = true /\
                                Z.testbit (OSReadyList s') p = false).
Proof.
  intros Hw Hn Ht Hp Hni Hat Ho Hs Hcf. pose proof Hat as [He Ha].
  destruct (task_at_ctx s p _ Ht) as (c & Hc & _).
  set (s1 := set_BRTOS_Mutex_Table (aset (BRTOS_Mutex_Table s) ev (owned_by (currentTask s) e)) s).
  destruct (raised_wf s1 l ev (owned_by (currentTask s) e) p c) as [Hw' Ht'];
    [by apply (wf_ext s)|by apply (task_at_ext s)|done|done|done| |].
  { intros Hlt. destruct (Hcf Hlt) as [? Hnl]. split; [done|]. intros [u Hu]. apply Hnl.
    exists u. by apply (task_at_ext s1). }
  eexists _, (set_mtx_OSOriginalPriority p (owned_by (currentTask s) e)).
  split_and!; [by eapply (OSMutexAcquire_free_lemma s l ev e p c w)|done| |done|done|done|done|..].
  - split; [|done]. unfold raised. cbn.
    destruct (mtx_OSMaxPriority e >? p); cbn; rewrite aset_aset; by eapply aget_aset_eq.
  - unfold raised. cbn. by destruct (mtx_OSMaxPriority e >? p).
  - intros Hlt. unfold raised. cbn. rewrite (proj2 (Z.gtb_lt _ _) Hlt). cbn.
    rewrite !testbit_set, !testbit_clear by lia.
    rewrite (bool_decide_true (mtx_OSMaxPriority e = _)), (bool_decide_true (p = p)) by done.
    rewrite (bool_decide_false (mtx_OSMaxPriority e = p)) by lia.
    by rewrite orb_true_r, andb_false_r.
Qed.

Lemma ready_swap_back R p q :
  0 <= p -> 0 <= q -> p <> q -> Z.testbit R p = true -> Z.testbit R q = false ->
  Z.lor (andnot (Z.lor (andnot R (2 ^ p)) (2 ^ q)) (2 ^ q)) (2 ^ p) = R.
Proof.
  intros Hp Hq Hne HRp HRq. apply Z.bits_inj. intros i.
  rewrite testbit_set, testbit_clear, testbit_set, testbit_clear by lia.
  destruct (decide (p = i)) as [->|Hpi].
  - rewrite HRp, (bool_decide_true (i = i)) by done. by rewrite orb_true_r.
  - rewrite (bool_decide_false (p = i)) by done. cbn. rewrite andb_true_r, orb_false_r.
    destruct (decide (q = i)) as [->|Hqi].
    + by rewrite (bool_decide_true (i = i)), andb_false_r, HRq.
    + rewrite (bool_decide_false (q = i)) by done. by rewrite orb_false_r, andb_true_r.
Qed.

(** C19: an uncontended acquire followed by the release gives back exactly the
    state before: priority, priority vector, ready list, interrupt mask and the
    mutex itself, but for the mutex's stale backup of the owner's priority. *)
Theorem OSMutex_roundtrip s l p ev e w :
  wf s l -> iNesting s = 0 -> task_at s p (currentTask s) -> 0 < p ->
  mutex_at s ev e -> mtx_OSEventOwner e = 0 -> mtx_OSEventState e = AVAILABLE_RESOURCE ->
  mtx_OSEventWait e = 0 -> 0 <= mtx_OSMaxPriority e ->
  (0 < mtx_OSMaxPriority e -> aget (PriorityVector s) (mtx_OSMaxPriority e) = Some MUTEX_PRIO) ->
  Z.testbit (OSReadyList s) p = true ->
  exists s1, OSMutexAcquire (Some ev) w s = Done OK s1 /\
    OSMutexRelease (Some ev) s1 =
      Done OK (set_BRTOS_Mutex_Table
                 (aset (BRTOS_Mutex_Table s) ev (set_mtx_OSOriginalPriority p e)) s).
Proof.
  intros Hw Hn Ht Hp Hat Ho Hs Hwt HM0 Hslot Hrd. pose proof Hat as [He Ha].
  pose proof (task_at_range s l p _ Hw Ht) as Hpr. pose proof Ht as (_ & Hcur & c & Hc & Hpc).
  assert (ceiling_free s e p) as Hcf.
  { intros Hlt. specialize (Hslot ltac:(lia)). split; [|by eapply mutex_slot_not_live].
    apply aget_lt in Hslot. rewrite (wf_pv s l Hw) in Hslot. lia. }
  eexists. split; [apply (OSMutexAcquire_free_lemma s l ev e p c w); done || congruence || lia|].
  unfold raised. cbn [mtx_OSMaxPriority owned_by set_mtx_OSEventOwner set_mtx_OSEventState].
  set (e1 := set_mtx_OSOriginalPriority p (owned_by (currentTask s) e)).
  destruct (mtx_OSMaxPriority e >? p) eqn:Hm; to_prop.
  - assert (Z.testbit (OSReadyList s) (mtx_OSMaxPriority e) = false) as HrM.
    { apply not_true_iff_false. intros HM. apply (Hcf Hm). by eapply wf_ready_live. }
    rewrite (OSMutexRelease_eq _ ev e1 (mtx_OSMaxPriority e) (set_Priority (mtx_OSMaxPriority e) c));
      [|done|split; [cbn; rewrite aset_aset; by eapply aget_aset_eq|done]|done
       |cbn; by eapply aget_aset_eq|done|split; [lia|by apply Hcf]|done].
    unfold restored, moved, upd_ev. cbn. rewrite Hwt, (Z.eqb_refl 0). cbn.
    rewrite (proj2 (Z.eqb_neq (mtx_OSMaxPriority e) p)) by lia. run.
    assert ((mtx_OSMaxPriority e >? 0) = true) as -> by lia. run.
    specialize (Hslot ltac:(lia)). run. rewrite (aset_id (PriorityVector s)) by done.
    rewrite (aset_id (ContextTask s)) by (rewrite Hc; f_equal; destruct c; cbn in *; by subst).
    rewrite ready_swap_back by (done || lia).
    assert (set_mtx_OSEventState AVAILABLE_RESOURCE (set_mtx_OSEventOwner 0 e1)
            = set_mtx_OSOriginalPriority p e) as Hee by (destruct e; cbn in *; by subst).
    rewrite Hee. by destruct s.
  - rewrite (OSMutexRelease_eq _ ev e1 p c);
      [|done|split; [cbn; rewrite aset_aset; by eapply aget_aset_eq|done]|done|done|done|done|done].
    unfold restored, upd_ev. cbn. rewrite Hwt, (Z.eqb_refl 0), (Z.eqb_refl p). run.
    assert (set_mtx_OSEventState AVAILABLE_RESOURCE (set_mtx_OSEventOwner 0 e1)
            = set_mtx_OSOriginalPriority p e) as Hee by (destruct e; cbn in *; by subst).
    rewrite Hee. destruct (mtx_OSMaxPriority e >? 0) eqn:H0; to_prop.
    + specialize (Hslot H0). run. rewrite aset_id by done. by destruct s.
    + by destruct s.
Qed.

(** The state of a holder: it runs at [q], its backed-up priority slot is still
    its own, and it is on no wait list. *)
Definition holder (s : OS) (l : list Z) (q : Z) (e : BRTOS_Mutex) : Prop :=
  mtx_OSEventOwner e = currentTask s /\ task_at s q (currentTask s) /\ 0 < q /\
  currentTask s ∉ l /\ 0 < mtx_OSOriginalPriority e < PriorityType_bits /\
  aget (PriorityVector s) (mtx_OSOriginalPriority e) = Some (currentTask s) /\
  Z.testbit (mtx_OSEventWaitList e) q = false.

Lemma restored_facts s l q e c :
  wf s l -> holder s l q e -> aget (ContextTask s) (currentTask s) = Some c ->
  let s' := restored s (currentTask s) q e c in
  wf s' l /\ task_at s' (mtx_OSOriginalPriority e) (currentTask s) /\
  (forall r u, u <> currentTask s -> task_at s r u -> task_at s' r u).
Proof.
  intros Hw (Ho & Ht & Hq & Hni & Hor & Hpv & _) Hc. unfold restored.
  assert (forall r u, task_at s r u -> u <> currentTask s ->
            aget (PriorityVector s) r = Some u) as Hoth by (by intros r u (? & _) _).
  destruct (q =? mtx_OSOriginalPriority e) eqn:E; to_prop; cbn [negb].
  - rewrite E in Ht. split_and!; auto.
  - split_and!; [by apply wf_moved|by apply moved_task_at|].
    intros r u Hne Hu. by apply moved_others.
Qed.

Lemma holder_ext s s' l q e :
  kernel_vars s' = kernel_vars s -> currentTask s' = currentTask s ->
  holder s l q e -> holder s' l q e.
Proof.
  unfold kernel_vars. intros [= Hpv Hct _ _ _ _ _] Hc (? & ? & ? & ? & ? & ? & ?).
  unfold holder. rewrite Hc, Hpv. split_and!; try done; try lia. by apply (task_at_ext s).
Qed.

Lemma restored_ev_ok s l q e c :
  wf s l -> holder s l q e -> aget (ContextTask s) (currentTask s) = Some c ->
  ev_ok s e -> ev_ok (restored s (currentTask s) q e c) (set_mtx_OSEventOwner 0 e).
Proof.
  intros Hw Hh Hc [Hr Hn Hl]. destruct (restored_facts s l q e c Hw Hh Hc) as (_ & _ & Hoth).
  destruct Hh as (_ & Ht & _ & _ & _ & _ & Hb). split; [done|done|].
  intros r Hbit. destruct (Hl r Hbit) as [[u Hu] Hr0]. split; [|done]. exists u.
  apply Hoth; [|done]. intros ->. pose proof (task_at_prio_inj _ _ _ _ Ht Hu) as <-.
  cbn in Hbit. congruence.
Qed.

Lemma restored_frame s cur q e c :
  currentTask (restored s cur q e c) = currentTask s /\
  iNesting (restored s cur q e c) = iNesting s /\
  PRIMASK (restored s cur q e c) = PRIMASK s /\
  PriorityVector (restored s cur q e c) = PriorityVector s /\
  BRTOS_Mutex_Table (restored s cur q e c) = BRTOS_Mutex_Table s.
Proof. unfold restored. by case_match. Qed.

(** C20: releasing a contended mutex hands it to the highest-priority waiter
    without ever making it available: the new owner is the task that waits at
    the highest priority of the wait list, it is ready, the mutex stays busy, the
    releasing task is back at its own priority, and the processor goes to the
    highest priority that can run. *)
Theorem OSMutexRelease_handoff s l q ev e :
  wf s l -> iNesting s = 0 -> mutex_at s ev e -> holder s l q e -> ev_ok s e ->
  mtx_OSEventWait e <> 0 ->
  exists p t s' k e', highest (mtx_OSEventWaitList e) p /\ task_at s p t /\
    OSMutexRelease (Some ev) s = Yield s' k /\ wf s' l /\ dispatched s' /\
    mutex_at s' ev e' /\ mtx_OSEventOwner e' = t /\ t <> currentTask s /\
    mtx_OSEventState e' = mtx_OSEventState e /\ ev_ok s' e' /\
    Z.testbit (OSReadyList s') p = true /\
    task_at s' (mtx_OSOriginalPriority e) (currentTask s) /\
    (forall s2, k s2 = Done OK (set_PRIMASK (PRIMASK s) s2)).
Proof.
  intros Hw Hn Hat Hh Hok Hwt. pose proof Hat as [He Ha].
  pose proof Hh as (Ho & Ht & Hq & Hni & Hor & Hpv & Hb).
  destruct (task_at_ctx s q _ Ht) as (c & Hc & Hpc). pose proof (task_at_range s l q _ Hw Ht).
  set (s0 := set_PRIMASK true s).
  assert (holder s0 l q e) as Hh0 by (by apply (holder_ext s)).
  destruct (restored_facts s0 l q e c) as (Hw1 & Ht1 & Hoth); [by apply (wf_ext s)|done..|].
  pose proof (restored_ev_ok s0 l q e c ltac:(by apply (wf_ext s)) Hh0 Hc
                ltac:(by apply (ev_ok_ext s))) as Hok1.
  destruct (restored_frame s0 (currentTask s0) q e c) as (Fc & Fn & Fm & Fpv & Ft).
  rewrite (OSMutexRelease_eq s ev e q c); [|done|done|done|done|done|lia|lia].
  fold s0. change (currentTask s) with (currentTask s0) in *.
  set (s1 := restored s0 _ q e c) in *. rewrite (proj2 (Z.eqb_neq _ _) Hwt). cbn [negb].
  set (s2 := set_BRTOS_Mutex_Table _ s1). set (e2 := set_mtx_OSEventOwner 0 e) in *.
  assert (aget (BRTOS_Mutex_Table s2) ev = Some e2) as He2
    by (cbn; by eapply aget_aset_eq).
  destruct (post_select_lemma s2 ev e2) as (p & Hr & Hhi & Hp & Hl & Hok2);
    [done|by apply (ev_ok_ext s1)|done|].
  pose proof Hhi as (_ & Hbit & _). destruct (ev_live s e Hok p Hbit) as [[t Htp] _].
  assert (t <> currentTask s0) as Hne.
  { intros ->. pose proof (task_at_prio_inj _ _ _ _ Ht Htp) as ->. cbn in Hbit. congruence. }
  set (e3 := set_mtx_OSEventOwner t (ev_leave p e2)).
  set (s3 := set_OSReadyList (Z.lor (OSReadyList s1) (2 ^ p))
               (set_BRTOS_Mutex_Table (aset (BRTOS_Mutex_Table s) ev e3) s1)).
  assert (wf s3 l) as Hw3.
  { apply (wf_ready_insert (set_BRTOS_Mutex_Table (aset (BRTOS_Mutex_Table s) ev e3) s1));
      [by apply (wf_ext s1)|]. exists t. apply (task_at_ext s1); [done|done|].
    apply Hoth; [done|by apply (task_at_ext s)]. }
  destruct (ChangeContext_lemma s3 l Hw3) as (u & Hcc & Hw4 & Hd & Hsp).
  { cbn. by rewrite Fn. }
  { cbn. rewrite Fc. destruct (task_at_ctx _ _ _ Ht1) as (c1 & Hc1 & _). by exists c1. }
  destruct (switched_frame s3 u) as (Gr & _ & _ & _ & _ & _ & _ & Gm & _).
  exists p, t, (switched u s3). eexists _, e3. split_and!;
    [done|done| |done|done| |done|done|done| | | |].
  - unfold bind at 1. rewrite Hr. cbn. rewrite Fpv; change (PriorityVector s0) with (PriorityVector s); rewrite (proj1 Htp). cbn. unfold upd_ev. run.
    rewrite ready_insert_eq by lia. cbn.
    match goal with |- context [ChangeContext ?x] => change x with s3 end.
    rewrite Hcc. reflexivity.
  - split; [|done]. rewrite Gm. cbn. by eapply aget_aset_eq.
  - apply (ev_ok_fields s2 _ (ev_leave p e2)); [|done..].
    eapply same_prios_trans; [|done]. by apply same_prios_ctx.
  - rewrite Gr. cbn. rewrite testbit_set by lia. by rewrite bool_decide_true, orb_true_r.
  - eapply same_prios_task_at; [done|]. by apply (task_at_ext s1).
  - intros s5. by destruct s5.
Qed.

(** A task that waited for a mutex without a timeout and is dispatched after
    the hand-off returns OK running at the higher of its priority and the
    ceiling; one whose time ran out on the wait list gives up with
    EXIT_BY_NO_RESOURCE_AVAILABLE, leaves the wait list, and does not touch the
    mutex's owner or its own priority. *)
Theorem OSMutexAcquire_wakes s l p ev e w sr :
  wf s l -> task_at s p (currentTask s) -> 0 < p -> currentTask s ∉ l ->
  mutex_at s ev e -> ev_ok s e -> ceiling_free s e p ->
  (exists s' e', OSMutexAcquire_resume ev (currentTask s) 0 sr p s = Done OK s' /\ wf s' l /\
     mutex_at s' ev e' /\ mtx_OSEventOwner e' = mtx_OSEventOwner e /\
     mtx_OSOriginalPriority e' = p /\ task_at s' (raised_prio e p) (currentTask s)) /\
  (forall c, w <> 0 -> aget (ContextTask s) (currentTask s) = Some c ->
     TimeToWait c = EXIT_BY_TIMEOUT -> Z.testbit (mtx_OSEventWaitList e) p = true ->
     exists s' e', OSMutexAcquire_resume ev (currentTask s) w sr p s
         = Done EXIT_BY_NO_RESOURCE_AVAILABLE s' /\ wf s' l /\ same_prios s s' /\
       mutex_at s' ev e' /\ ev_ok s' e' /\ mtx_OSEventOwner e' = mtx_OSEventOwner e /\
       members (mtx_OSEventWaitList e') = members (mtx_OSEventWaitList e) ∖ {[p]}).
Proof.
  intros Hw Ht Hp Hni [He Ha] Hok Hcf. pose proof (task_at_range s l p _ Hw Ht).
  set (s0 := set_PRIMASK true (set_PRIMASK sr s)).
  assert (wf s0 l) as Hw0 by (by apply (wf_ext s)).
  assert (task_at s0 p (currentTask s0)) as Ht0 by (by apply (task_at_ext s)).
  split.
  - destruct (task_at_ctx s p _ Ht) as (c & Hc & _).
    assert (ceiling_free s0 e p) as Hcf0.
    { intros Hlt. destruct (Hcf Hlt) as [? Hnl]. split; [done|]. intros [u Hu]. apply Hnl.
      exists u. by apply (task_at_ext s0). }
    destruct (raised_wf s0 l ev e p c) as [Hw1 Ht1]; [done..|].
    exists (set_PRIMASK sr (raised s0 ev (currentTask s0) p e c)), (set_mtx_OSOriginalPriority p e).
    split_and!; [|by apply (wf_ext (raised s0 ev (currentTask s0) p e c))|split; [|done]|done|done|by apply (task_at_ext (raised s0 ev (currentTask s0) p e c))].
    + unfold OSMutexAcquire_resume. run. fold s0.
      change (currentTask s) with (currentTask s0).
      by rewrite (mutex_raise_eq s0 l ev e p c).
    + unfold raised. cbn. destruct (mtx_OSMaxPriority e >? p); by eapply aget_aset_eq.
  - intros c Hw' Hc HT Hb.
    eexists _, (ev_leave p e). split_and!.
    + unfold OSMutexAcquire_resume. rewrite truthy_nz by done. cbn. fold s0.
      by rewrite (pend_wakeup_timeout (E := BRTOS_Mutex) s0 ev e (currentTask s) c p)
        by (done || lia || by apply (ev_ok_ext s)).
    + by apply (wf_ext s).
    + by apply same_prios_ctx.
    + split; [|done]. cbn. by eapply aget_aset_eq.
    + apply (ev_ok_ext s); [done..|]. apply ev_ok_leave; [done|lia|done].
    + done.
    + pose proof (members_leave (E := BRTOS_Mutex) p e) as Hm. by apply Hm.
Qed.

(** Only the owner can release: a release by any other task returns
    ERR_EVENT_OWNER and changes nothing; and a second acquire by the owner
    returns OK and changes nothing (the mutex is recursive without a count). *)
Theorem OSMutex_owner_only s ev e w :
  iNesting s = 0 -> mutex_at s ev e ->
  (mtx_OSEventOwner e <> currentTask s -> OSMutexRelease (Some ev) s = Done ERR_EVENT_OWNER s) /\
  (mtx_OSEventOwner e = currentTask s -> OSMutexAcquire (Some ev) w s = Done OK s).
Proof.
  intros Hn [He Ha]. destruct (guards_pass (iNesting s) ERROR_CHECK Hn) as [HG1 HG2].
  split; intros Ho; [unfold OSMutexRelease|unfold OSMutexAcquire]; run;
    rewrite andb_false_r; run; rewrite Ha, HG2; run.
  - rewrite (proj2 (Z.eqb_neq _ _) Ho). by destruct s.
  - rewrite Ho, Z.eqb_refl. by destruct s.
Qed.

(** Releasing a mutex nobody waits for does not reschedule.  The holder
    drops from the ceiling to its own priority and keeps the processor even when
    a task of a priority in between became ready meanwhile, which then waits for
    the next interrupt or service call. *)
Theorem OSMutexRelease_no_preemption s l q ev e r :
  wf s l -> iNesting s = 0 -> mutex_at s ev e -> holder s l q e -> mtx_OSEventWait e = 0 ->
  0 < mtx_OSMaxPriority e < PriorityType_bits -> mtx_OSMaxPriority e <> mtx_OSOriginalPriority e ->
  runnable s r -> mtx_OSOriginalPriority e < r < q ->
  exists s', OSMutexRelease (Some ev) s = Done OK s' /\ currentTask s' = currentTask s /\
    task_at s' (mtx_OSOriginalPriority e) (currentTask s') /\ runnable s' r.
Proof.
  intros Hw Hn Hat Hh Hwt HM HMO [Hrr Hrb] Hlt. pose proof Hat as [He Ha].
  pose proof Hh as (Ho & Ht & Hq & Hni & Hor & Hpv & Hb).
  destruct (task_at_ctx s q _ Ht) as (c & Hc & Hpc). pose proof (task_at_range s l q _ Hw Ht).
  rewrite (OSMutexRelease_eq s ev e q c); [|done|done|done|done|done|lia|lia].
  destruct (aget (PriorityVector s) (mtx_OSMaxPriority e)) as [v|] eqn:Hv.
  2:{ exfalso. apply eq_None_not_Some in Hv. apply Hv, aget_is_Some. rewrite (wf_pv s l Hw). lia. }
  unfold restored, moved, upd_ev. rewrite Hwt, (Z.eqb_refl 0).
  rewrite (proj2 (Z.eqb_neq q (mtx_OSOriginalPriority e))) by lia. run.
  assert ((mtx_OSMaxPriority e >? 0) = true) as -> by lia. run.
  eexists. split_and!; [reflexivity|done|..].
  - split_and!; cbn.
    + by rewrite aget_aset_ne.
    + apply Ht.
    + exists (set_Priority (mtx_OSOriginalPriority e) c). split; [by eapply aget_aset_eq|done].
  - split; cbn; [|done]. rewrite testbit_set, testbit_clear, Hrr, bool_decide_false by lia. done.
Qed.

Lemma OSMutexDelete_eq s ev e :
  iNesting s = 0 -> aget (BRTOS_Mutex_Table s) ev = Some e ->
  OSMutexDelete (Some ev) s =
    Done (DELETE_EVENT_OK, None)
      (set_BRTOS_Mutex_Table (aset (BRTOS_Mutex_Table s) ev (mkMutex 0 0 0 0 0 0 0)) s).
Proof.
  intros Hn He. unfold OSMutexDelete. rewrite (bind_Done _ _ s (iNesting s) s) by done.
  rewrite Hn. change (0 >? 0) with false. cbv iota.
  rewrite (bind_Done _ _ s (PRIMASK s) (set_PRIMASK true s)) by done.
  rewrite (bind_Done _ _ _ ev (set_PRIMASK true s)) by done.
  rewrite !upd_ev_upd_ev. cbn. by rewrite (upd_ev_eq (E := BRTOS_Mutex) _ ev e) by done.
Qed.

(** Deleting a mutex does not give its ceiling back: the slot of the
    priority vector stays marked, and creating a mutex with the same ceiling is
    refused with BUSY_PRIORITY. *)
Theorem OSMutexDelete_keeps_ceiling s ev e m event :
  iNesting s = 0 -> aget (BRTOS_Mutex_Table s) ev = Some e -> 0 < m ->
  aget (PriorityVector s) m = Some MUTEX_PRIO ->
  exists s', OSMutexDelete (Some ev) s = Done (DELETE_EVENT_OK, None) s' /\
    OSMutexCreate event m s' = Done (BUSY_PRIORITY, event) s'.
Proof.
  intros Hn He Hm Hpv. eexists. split; [by apply (OSMutexDelete_eq s ev e)|].
  set (s' := set_BRTOS_Mutex_Table _ s).
  assert (iNesting s' = 0 /\ aget (PriorityVector s') m = Some MUTEX_PRIO) as [Hn' Hpv'] by done.
  clearbody s'. unfold OSMutexCreate. run. rewrite Hn'. run.
  assert ((m >? 0) = true) as Hm' by lia.
  destruct (truthy (currentTask s')) eqn:Ec; run; change (MUTEX_PRIO =? EMPTY_PRIO) with false;
    run; by destruct s'.
Qed.
End theorems.

(** ** Examples *)
Section examples.
#[local] Existing Instance sample_config.

(** The sample system with two mutexes of ceilings 10 and 12, the task of
    priority 5 running and that of priority 9 ready or not. *)
Definition sample_mutex (ready : Z) (a b : BRTOS_Mutex) : OS :=
  let s := sample_os [0; 5; 9] ready 2 [] [a; b] [] [] [] [] in
  set_PriorityVector (aset (aset (PriorityVector s) 10 MUTEX_PRIO) 12 MUTEX_PRIO) s.

Definition free_mutex (ceiling : Z) : BRTOS_Mutex :=
  mkMutex TRUE AVAILABLE_RESOURCE 0 ceiling 0 0 0.

Definition two_free : OS := sample_mutex (2 ^ 0 + 2 ^ 5) (free_mutex 10) (free_mutex 12).

Lemma two_free_wf : wf two_free [].
Proof. by apply wfb_sound. Qed.

Lemma two_free_cur : task_at two_free 5 2.
Proof. by apply task_atb_sound. Qed.

(** A task acquires mutex 0, then mutex 1, and releases them in the order of
    acquisition. *)
Definition release_in_order : prog Z :=
  OSMutexAcquire (Some 0) 0 ;;; OSMutexAcquire (Some 1) 0 ;;;
  OSMutexRelease (Some 0) ;;; OSMutexRelease (Some 1).

(** Releasing two nested mutexes in the order of acquisition, instead of the
    reverse, corrupts the priority vector: every call returns OK, but the task
    is left ready at the first mutex's ceiling, whose slot is marked MUTEX_PRIO,
    and the scheduler selects task number 0xFE, which does not exist. *)
Theorem OSMutex_release_order_corrupts :
  exists s', release_in_order two_free = Done OK s' /\
    OSSchedule s' = Done MUTEX_PRIO s' /\ aget (ContextTask s') MUTEX_PRIO = None /\
    ChangeContext s' = Fault.
Proof.
  exists (match release_in_order two_free with Done _ s => s | _ => two_free end).
  split_and!; vm_compute; reflexivity.
Qed.

Lemma OSMutexAcquire_free_witness :
  exists s' e', OSMutexAcquire (Some 0) 0 two_free = Done OK s' /\ wf s' [] /\
    mutex_at s' 0 e' /\ mtx_OSEventOwner e' = 2 /\ mtx_OSEventState e' = BUSY_RESOURCE /\
    mtx_OSOriginalPriority e' = 5 /\ task_at s' 10 2 /\ PRIMASK s' = false /\
    (5 < 10 -> Z.testbit (OSReadyList s') 10 = true /\ Z.testbit (OSReadyList s') 5 = false).
Proof.
  apply (OSMutexAcquire_free two_free [] 5 0 (free_mutex 10) 0);
    [apply two_free_wf|done|apply two_free_cur|lia|apply not_elem_of_nil|done|done|done|].
  intros _. split; [done|]. eapply mutex_slot_not_live; [apply two_free_wf|done].
Defined.

Lemma OSMutex_roundtrip_witness :
  exists s1, OSMutexAcquire (Some 0) 0 two_free = Done OK s1 /\
    OSMutexRelease (Some 0) s1 =
      Done OK (set_BRTOS_Mutex_Table
        (aset (BRTOS_Mutex_Table two_free) 0 (set_mtx_OSOriginalPriority 5 (free_mutex 10))) two_free).
Proof.
  apply (OSMutex_roundtrip two_free [] 5 0 (free_mutex 10) 0);
    try done; [apply two_free_wf|apply two_free_cur].
Defined.

(** Mutex 0 held by task 2 (priority 5, raised to 10) with task 3 waiting. *)
Definition contended : BRTOS_Mutex := mkMutex TRUE BUSY_RESOURCE 2 10 5 1 (2 ^ 9).
Definition raise_sample (s : OS) : OS :=
  set_PriorityVector (aset (PriorityVector s) 10 2)
    (set_ContextTask (aset (ContextTask s) 2 (sample_task 2 10)) s).
Definition held : OS :=
  raise_sample (sample_mutex (2 ^ 0 + 2 ^ 10) contended (free_mutex 12)).

Lemma held_wf : wf held [].
Proof. by apply wfb_sound. Qed.

Lemma held_holder s e :
  s = held -> e = contended -> holder s [] 10 e.
Proof.
  intros -> ->. split_and!; try done; [by apply task_atb_sound|apply not_elem_of_nil].
Qed.

Lemma OSMutexRelease_handoff_witness :
  exists p t s' k e', highest (2 ^ 9) p /\ task_at held p t /\
    OSMutexRelease (Some 0) held = Yield s' k /\ wf s' [] /\ dispatched s' /\
    mutex_at s' 0 e' /\ mtx_OSEventOwner e' = t /\ t <> 2 /\
    mtx_OSEventState e' = BUSY_RESOURCE /\ ev_ok s' e' /\
    Z.testbit (OSReadyList s') p = true /\ task_at s' 5 2 /\
    (forall s2, k s2 = Done OK (set_PRIMASK false s2)).
Proof.
  apply (OSMutexRelease_handoff held [] 10 0 contended);
    [apply held_wf|done|done|by apply held_holder|by apply ev_okb_sound|done].
Defined.

(** Task 3 dispatched after a hand-off. *)
Definition handed : BRTOS_Mutex := mkMutex TRUE BUSY_RESOURCE 3 10 5 0 0.
Definition handed_os : OS :=
  set_currentTask 3 (sample_mutex (2 ^ 0 + 2 ^ 5 + 2 ^ 9) handed (free_mutex 12)).

Lemma OSMutexAcquire_wakes_witness :
  exists s' e', OSMutexAcquire_resume 0 3 0 false 9 handed_os = Done OK s' /\ wf s' [] /\
     mutex_at s' 0 e' /\ mtx_OSEventOwner e' = 3 /\ mtx_OSOriginalPriority e' = 9 /\
     task_at s' 10 3.
Proof.
  apply (OSMutexAcquire_wakes handed_os [] 9 0 handed 0 false);
    [by apply wfb_sound|by apply task_atb_sound|lia|apply not_elem_of_nil|done|by apply ev_okb_sound|].
  intros _. split; [done|]. apply (mutex_slot_not_live _ []); [by apply wfb_sound|done].
Defined.

Lemma OSMutex_owner_only_witness :
  OSMutexRelease (Some 0) handed_os = Done OK handed_os \/
  OSMutexRelease (Some 0) two_free = Done ERR_EVENT_OWNER two_free.
Proof. right. by apply (OSMutex_owner_only two_free 0 (free_mutex 10) 0). Defined.

(** Task 2 holds mutex 0 and nobody waits for it, but task 3 is ready. *)
Definition uncontended : BRTOS_Mutex := mkMutex TRUE BUSY_RESOURCE 2 10 5 0 0.
Definition preemptable : OS :=
  raise_sample (sample_mutex (2 ^ 0 + 2 ^ 9 + 2 ^ 10) uncontended (free_mutex 12)).

Lemma OSMutexRelease_no_preemption_witness :
  exists s', OSMutexRelease (Some 0) preemptable = Done OK s' /\ currentTask s' = 2 /\
    task_at s' 5 (currentTask s') /\ runnable s' 9.
Proof.
  apply (OSMutexRelease_no_preemption preemptable [] 10 0 uncontended 9);
    [by apply wfb_sound|done|done| |done|by cbn|done|done|cbn; lia].
  split_and!; try done; [by apply task_atb_sound|apply not_elem_of_nil].
Defined.

Lemma OSMutexDelete_keeps_ceiling_witness :
  exists s', OSMutexDelete (Some 0) two_free = Done (DELETE_EVENT_OK, None) s' /\
    OSMutexCreate None 10 s' = Done (BUSY_PRIORITY, None) s'.
Proof. by apply (OSMutexDelete_keeps_ceiling two_free 0 (free_mutex 10) 10 None). Defined.
End examples.
