(* ===== verification/Mbox.v ===== *)
(** * Mailboxes

    brtos/mbox.c: a one-place buffer for a pointer.  The theorems give the
    effect of the services on the message and on the waiting tasks, that a posted
    message reaches the waiter, and when it is lost or delivered twice. *)

From Stdlib Require Import ZArith Lia.
From stdpp Require Import base gmap numbers list.
From S2P Require Import Prelude Config State Sched DelayList Hal Clock Kernel Event Sample.
#[local] Open Scope Z_scope.
#[local] Open Scope prog_scope.

#[global] Instance Event_Mbox `{C : Config} : Event BRTOS_Mbox.
Proof.
  refine {| ev_table := BRTOS_Mbox_Table; set_ev_table := set_BRTOS_Mbox_Table;
            ev_wait := mbx_OSEventWait; ev_waitlist := mbx_OSEventWaitList;
            ev_alloc := mbx_OSEventAllocated;
            set_ev_wait := set_mbx_OSEventWait; set_ev_waitlist := set_mbx_OSEventWaitList |};
    try done.
  by intros s s' [=].
Defined.

(** The null message. *)
Definition NULL : Z := 0.

Section operations.
Context `{C : Config}.

(** [OSMboxCreate] *)
Definition OSMboxCreate (event : option Z) (message : Z) : prog (Z * option Z) :=
  nesting <- gets iNesting ;;
  if nesting >? 0 then ret (IRQ_PEND_ERR, event)
  else
    CPU_SR <- OSEnterCritical_started ;;
    o <- first_free BRTOS_Mbox (Z.to_nat (BRTOS_MAX_MBOX + 1)) BRTOS_MAX_MBOX 0 ;;
    match o with
    | None =>
        OSExitCritical_started CPU_SR ;;;
        ret (NO_AVAILABLE_EVENT, event)
    | Some i =>
        upd_ev i (set_mbx_OSEventAllocated TRUE) ;;;
        (if negb (message =? NULL) then upd_ev i (set_mbx_OSEventState AVAILABLE_MESSAGE)
         else upd_ev i (set_mbx_OSEventState NO_MESSAGE)) ;;;
        upd_ev i (set_mbx_OSEventPointer message) ;;;
        upd_ev i (set_mbx_OSEventWait 0) ;;;
        upd_ev i (set_mbx_OSEventWaitList 0) ;;;
        OSExitCritical_started CPU_SR ;;;
        ret (ALLOC_EVENT_OK, Some i)
    end.

(** [OSMboxDelete] *)
Definition OSMboxDelete (event : option Z) : prog (Z * option Z) :=
  nesting <- gets iNesting ;;
  if nesting >? 0 then ret (IRQ_PEND_ERR, event)
  else
    CPU_SR <- OSEnterCritical ;;
    ev <- deref event ;;
    upd_ev ev (set_mbx_OSEventAllocated 0) ;;;
    upd_ev ev (set_mbx_OSEventPointer NULL) ;;;
    upd_ev ev (set_mbx_OSEventWait 0) ;;;
    upd_ev ev (set_mbx_OSEventState NO_MESSAGE) ;;;
    upd_ev ev (set_mbx_OSEventWaitList 0) ;;;
    OSExitCritical CPU_SR ;;;
    ret (DELETE_EVENT_OK, None).

(** Taking the message: [*Mail = pont_event->OSEventPointer] and freeing the
    slot. *)
Definition mbox_take (ev : Z) : prog Z :=
  e <- read BRTOS_Mbox_Table ev ;;
  upd_ev ev (set_mbx_OSEventState NO_MESSAGE) ;;;
  ret (mbx_OSEventPointer e).

(** [OSMboxPend], from the return of [ChangeContext] on; the result is the code
    and the new value of [*Mail]. *)
Definition OSMboxPend_resume (ev cur time_wait : Z) (CPU_SR : bool) (iPriority : Z)
    : prog (Z * Z) :=
  OSExitCritical CPU_SR ;;;
  CPU_SR <- OSEnterCritical ;;
  timedout <- (if truthy time_wait then pend_wakeup BRTOS_Mbox ev cur iPriority
               else ret false) ;;
  if timedout : bool then
    OSExitCritical CPU_SR ;;;
    ret (TIMEOUT, NULL)
  else
    m <- mbox_take ev ;;
    OSExitCritical CPU_SR ;;;
    ret (OK, m).

(** [OSMboxPend]; [Mail] is the value of [*Mail] before the call. *)
Definition OSMboxPend (pont_event : option Z) (Mail time_wait : Z) : prog (Z * Z) :=
  nesting <- gets iNesting ;;
  if ERROR_CHECK && (nesting >? 0) then ret (IRQ_PEND_ERR, NULL)
  else if ERROR_CHECK && bool_decide (pont_event = None) then ret (NULL_EVENT_POINTER, Mail)
  else
    CPU_SR <- OSEnterCritical ;;
    ev <- deref pont_event ;;
    e <- read BRTOS_Mbox_Table ev ;;
    if ERROR_CHECK && negb (mbx_OSEventAllocated e =? TRUE) then
      OSExitCritical CPU_SR ;;;
      ret (ERR_EVENT_NO_CREATED, Mail)
    else if mbx_OSEventState e =? AVAILABLE_MESSAGE then
      m <- mbox_take ev ;;
      OSExitCritical CPU_SR ;;;
      ret (OK, m)
    else if time_wait =? NO_TIMEOUT then
      OSExitCritical CPU_SR ;;;
      ret (EXIT_BY_NO_ENTRY_AVAILABLE, Mail)
    else
      cur <- gets currentTask ;;
      iPriority <- pend_enqueue BRTOS_Mbox ev cur time_wait ;;
      ChangeContext ;;;
      OSMboxPend_resume ev cur time_wait CPU_SR iPriority.

(** [OSMboxPost] *)
Definition OSMboxPost (pont_event : option Z) (message : Z) : prog Z :=
  if ERROR_CHECK && bool_decide (pont_event = None) then ret NULL_EVENT_POINTER
  else
    CPU_SR <- OSEnterCritical ;;
    ev <- deref pont_event ;;
    e <- read BRTOS_Mbox_Table ev ;;
    if ERROR_CHECK && negb (mbx_OSEventAllocated e =? TRUE) then
      OSExitCritical CPU_SR ;;;
      ret ERR_EVENT_NO_CREATED
    else if negb (mbx_OSEventWait e =? 0) then
      iPriority <- post_select BRTOS_Mbox ev ;;
      ready_insert iPriority ;;;
      upd_ev ev (set_mbx_OSEventPointer message) ;;;
      upd_ev ev (set_mbx_OSEventState AVAILABLE_MESSAGE) ;;;
      nesting <- gets iNesting ;;
      when (negb (truthy nesting)) ChangeContext ;;;
      OSExitCritical CPU_SR ;;;
      ret OK
    else
      upd_ev ev (set_mbx_OSEventPointer message) ;;;
      upd_ev ev (set_mbx_OSEventState AVAILABLE_MESSAGE) ;;;
      OSExitCritical CPU_SR ;;;
      ret OK.
End operations.

Arguments mbox_take : simpl never.

Section lemmas.
Context `{C : Config}.
Implicit Types (s : OS) (l : list Z) (p ev w t m : Z) (e : BRTOS_Mbox).

Definition mbox_at (s : OS) (ev : Z) (e : BRTOS_Mbox) : Prop :=
  aget (BRTOS_Mbox_Table s) ev = Some e /\ mbx_OSEventAllocated e = TRUE.

(** The message a mailbox holds. *)
Definition mail (e : BRTOS_Mbox) : option Z :=
  if mbx_OSEventState e =? AVAILABLE_MESSAGE then Some (mbx_OSEventPointer e) else None.

(** The mailbox [e] holding [m], and emptied. *)
Definition filled (m : Z) (e : BRTOS_Mbox) : BRTOS_Mbox :=
  set_mbx_OSEventState AVAILABLE_MESSAGE (set_mbx_OSEventPointer m e).
Definition emptied (e : BRTOS_Mbox) : BRTOS_Mbox := set_mbx_OSEventState NO_MESSAGE e.

Definition put_mbox (ev : Z) (e : BRTOS_Mbox) (s : OS) : OS :=
  set_BRTOS_Mbox_Table (aset (BRTOS_Mbox_Table s) ev e) s.

Lemma mail_available e : mail e <> None -> mbx_OSEventState e = AVAILABLE_MESSAGE.
Proof. unfold mail. destruct (_ =? _) eqn:E; to_prop; done. Qed.

Lemma mbox_take_eq s ev e :
  aget (BRTOS_Mbox_Table s) ev = Some e ->
  mbox_take ev s = Done (mbx_OSEventPointer e) (put_mbox ev (emptied e) s).
Proof.
  intros He. unfold mbox_take. run. by rewrite (upd_ev_eq (E := BRTOS_Mbox) s ev e) by done.
Qed.

Lemma OSMboxPend_take_lemma s ev e M w m :
  iNesting s = 0 -> mbox_at s ev e -> mail e = Some m ->
  OSMboxPend (Some ev) M w s = Done (OK, m) (put_mbox ev (emptied e) s).
Proof.
  intros Hn [He Ha] Hm. pose proof (mail_available e ltac:(by rewrite Hm)) as Hs.
  unfold mail in Hm. rewrite Hs, Z.eqb_refl in Hm. injection Hm as <-.
  unfold OSMboxPend. run. rewrite Hn, andb_false_r. cbn. rewrite andb_false_r. run.
  rewrite Ha, Z.eqb_refl, andb_false_r, Hs, Z.eqb_refl. cbn.
  rewrite (mbox_take_eq _ ev e) by done. by destruct s.
Qed.

Lemma OSMboxPend_block_lemma s l p ev e M w :
  wf s l -> iNesting s = 0 -> task_at s p (currentTask s) -> 0 < p ->
  currentTask s ∉ l -> mbox_at s ev e -> ev_ok s e -> mail e = None -> w <> NO_TIMEOUT ->
  exists s0 t, OSMboxPend (Some ev) M w s
      = Yield (switched t s0)
          (fun s' => OSMboxPend_resume ev (currentTask s) w (PRIMASK s) p s') /\
    suspended (set_PRIMASK true s) s0 l p ev w e /\
    wf (switched t s0) (armed l (currentTask s) w) /\ dispatched (switched t s0).
Proof.
  intros Hw Hn Ht Hp Hni [He Ha] Hok Hm Hne.
  destruct (pend_block_lemma (set_PRIMASK true s) l p ev w e
              (OSMboxPend_resume ev (currentTask s) w (PRIMASK s))) as (s0 & t & Hr & Hrest);
    [by apply (wf_ext s)|done|by apply (task_at_ext s)|done|done|done|by apply (ev_ok_ext s)|].
  exists s0, t. split; [|done]. rewrite <- Hr. unfold mail in Hm.
  destruct (mbx_OSEventState e =? AVAILABLE_MESSAGE) eqn:E; [done|].
  unfold OSMboxPend. run. rewrite Hn, andb_false_r. cbn.
  rewrite andb_false_r. run. rewrite Ha, Z.eqb_refl, andb_false_r. run.
  by rewrite (proj2 (Z.eqb_neq _ _) Hne).
Qed.

(** The state after a post of [m] that releases the waiter [p]. *)
Definition mbox_released (s : OS) (ev p m : Z) (e : BRTOS_Mbox) : OS :=
  put_mbox ev (filled m (ev_leave p e))
    (set_OSReadyList (Z.lor (OSReadyList s) (2 ^ p)) (set_PRIMASK true s)).

Lemma OSMboxPost_select s ev e m :
  mbox_at s ev e -> ev_ok s e -> mbx_OSEventWait e <> 0 ->
  exists p, highest (mbx_OSEventWaitList e) p /\ 0 < p < PriorityType_bits /\ live s p /\
    ev_ok s (ev_leave p e) /\
    OSMboxPost (Some ev) m s =
      (when (negb (truthy (iNesting s))) ChangeContext ;;;
       OSExitCritical (PRIMASK s) ;;; ret OK) (mbox_released s ev p m e).
Proof.
  intros [He Ha] Hok Hwt.
  destruct (post_select_lemma (set_PRIMASK true s) ev e) as (p & Hr & Hh & Hp & Hl & Hok');
    [done|by apply (ev_ok_ext s)|done|].
  exists p. split_and!; [done|lia|lia|..].
  { destruct Hl as [t Ht]. exists t. by apply (task_at_ext (set_PRIMASK true s)). }
  { by apply (ev_ok_ext (set_PRIMASK true s)). }
  unfold OSMboxPost. rewrite bool_decide_false, andb_false_r by done. run.
  rewrite Ha, Z.eqb_refl, andb_false_r, (proj2 (Z.eqb_neq _ _) Hwt). cbn.
  cbn in Hr. rewrite Hr. cbn. rewrite ready_insert_eq by lia. unfold upd_ev. run.
  unfold mbox_released, put_mbox, filled. by destruct (negb (truthy (iNesting s))).
Qed.

Lemma wf_mbox_released s l ev p m e :
  wf s l -> live s p -> wf (mbox_released s ev p m e) l.
Proof.
  intros Hw Hl.
  apply (wf_ext (set_OSReadyList (Z.lor (OSReadyList s) (2 ^ p)) (set_PRIMASK true s))); [done|].
  apply (wf_ready_insert (set_PRIMASK true s)); [by apply (wf_ext s)|].
  destruct Hl as [t Ht]. exists t. by apply (task_at_ext s).
Qed.

Lemma OSMboxPost_store_lemma s ev e m :
  mbox_at s ev e -> mbx_OSEventWait e = 0 ->
  OSMboxPost (Some ev) m s = Done OK (put_mbox ev (filled m e) s).
Proof.
  intros [He Ha] Hwt. unfold OSMboxPost. rewrite bool_decide_false, andb_false_r by done. run.
  rewrite Ha, Z.eqb_refl, andb_false_r, Hwt, Z.eqb_refl. cbn. unfold upd_ev. run. by destruct s.
Qed.
End lemmas.

(** ** Theorems *)
Section theorems.
Context `{C : Config}.
Implicit Types (s : OS) (l : list Z) (p ev w t m : Z) (e : BRTOS_Mbox).

(** A message posted to a mailbox nobody waits on is received by the next
    pend, which returns OK and exactly that message and leaves the mailbox
    empty; the two calls change nothing else in the system. *)
Theorem OSMbox_roundtrip s ev e M w m :
  iNesting s = 0 -> mbox_at s ev e -> mbx_OSEventWait e = 0 ->
  exists s1 e2, OSMboxPost (Some ev) m s = Done OK s1 /\
    OSMboxPend (Some ev) M w s1 = Done (OK, m) (put_mbox ev e2 s) /\
    mail e2 = None /\ mbx_OSEventWaitList e2 = mbx_OSEventWaitList e /\
    mbox_at (put_mbox ev e2 s) ev e2.
Proof.
  intros Hn [He Ha] Hwt. eexists _, (emptied (filled m e)).
  split_and!; [by apply OSMboxPost_store_lemma|..|done|done|split; [by eapply aget_aset_eq|done]].
  rewrite (OSMboxPend_take_lemma _ ev (filled m e) M w m);
    [|done|split; [by eapply aget_aset_eq|done]|done].
  unfold put_mbox. cbn. by rewrite aset_aset.
Qed.

(** A post to a mailbox with waiters stores the message, releases the waiter
    of highest priority and gives the processor to the highest priority that can
    run; and that waiter, suspended by [OSMboxPend] without a timeout, returns OK
    and the message when it is dispatched in a state where the mailbox still
    holds it. *)
Theorem OSMboxPost_wakes s l ev e m :
  wf s l -> iNesting s = 0 -> is_Some (aget (ContextTask s) (currentTask s)) ->
  mbox_at s ev e -> ev_ok s e -> mbx_OSEventWait e <> 0 ->
  exists p s' k e', highest (mbx_OSEventWaitList e) p /\
    OSMboxPost (Some ev) m s = Yield s' k /\ wf s' l /\ dispatched s' /\
    OSReadyList s' = Z.lor (OSReadyList s) (2 ^ p) /\
    mbox_at s' ev e' /\ ev_ok s' e' /\ mail e' = Some m /\
    members (mbx_OSEventWaitList e') = members (mbx_OSEventWaitList e) ∖ {[p]} /\
    (forall s2 cur sr e2, mbox_at s2 ev e2 -> mail e2 = Some m ->
       OSMboxPend_resume ev cur 0 sr p s2 =
         Done (OK, m) (set_PRIMASK sr (put_mbox ev (emptied e2) s2))).
Proof.
  intros Hw Hn Hcur [He Ha] Hok Hwt.
  destruct (OSMboxPost_select s ev e m) as (p & Hh & Hp & Hl & Hok' & Hr); [done..|].
  pose proof (wf_mbox_released s l ev p m e Hw Hl) as Hw'.
  destruct (ChangeContext_lemma _ l Hw') as (t & Hcc & Hwt' & Hd & Hsp); [done|done|].
  destruct (switched_frame (mbox_released s ev p m e) t)
    as (Gr & _ & _ & _ & _ & _ & _ & _ & Gx & _).
  exists p, (switched t (mbox_released s ev p m e)). eexists _, (filled m (ev_leave p e)).
  split_and!; [done|..].
  - rewrite Hr, Hn. cbn. rewrite Hcc. reflexivity.
  - done.
  - done.
  - by rewrite Gr.
  - split; [|done]. rewrite Gx. by eapply aget_aset_eq.
  - apply (ev_ok_fields s _ (ev_leave p e)); [|done..].
    eapply same_prios_trans; [|done]. by apply same_prios_ctx.
  - done.
  - pose proof (members_leave (E := BRTOS_Mbox) p e) as Hm. apply Hm. lia.
  - intros s2 cur sr e2 [He2 _] Hm2.
    pose proof (mail_available e2 ltac:(by rewrite Hm2)) as Hs.
    unfold mail in Hm2. rewrite Hs, Z.eqb_refl in Hm2. injection Hm2 as <-.
    unfold OSMboxPend_resume. run. by rewrite (mbox_take_eq _ ev e2) by done.
Qed.

(** A task whose wait for a message timed out gets TIMEOUT and a null
    message, leaves the wait list, and the mailbox keeps its content. *)
Theorem OSMboxPend_timeout s l p ev e cur c w sr :
  wf s l -> mbox_at s ev e -> ev_ok s e -> 0 <= p < PriorityType_bits -> w <> 0 ->
  aget (ContextTask s) cur = Some c -> TimeToWait c = EXIT_BY_TIMEOUT ->
  Z.testbit (mbx_OSEventWaitList e) p = true ->
  exists s' e', OSMboxPend_resume ev cur w sr p s = Done (TIMEOUT, NULL) s' /\ wf s' l /\
    mbox_at s' ev e' /\ ev_ok s' e' /\ mail e' = mail e /\
    members (mbx_OSEventWaitList e') = members (mbx_OSEventWaitList e) ∖ {[p]}.
Proof.
  intros Hw [He Ha] Hok Hp Hw0 Hc HT Hb. eexists _, (ev_leave p e). split_and!.
  - unfold OSMboxPend_resume. rewrite truthy_nz by done. cbn.
    by rewrite (pend_wakeup_timeout (E := BRTOS_Mbox) _ ev e cur c p)
      by (done || by apply (ev_ok_ext s)).
  - by apply (wf_ext s).
  - split; [by eapply aget_aset_eq|done].
  - apply (ev_ok_ext s); [done..|]. by apply ev_ok_leave.
  - done.
  - pose proof (members_leave (E := BRTOS_Mbox) p e) as Hm. by apply Hm.
Qed.

(** Posting to a full mailbox overwrites: both posts return OK, the first
    message is lost, and the receiver gets the second. *)
Theorem OSMboxPost_overwrites s ev e M w m1 m2 :
  iNesting s = 0 -> mbox_at s ev e -> mbx_OSEventWait e = 0 ->
  exists s1 s2 s3, OSMboxPost (Some ev) m1 s = Done OK s1 /\
    OSMboxPost (Some ev) m2 s1 = Done OK s2 /\
    OSMboxPend (Some ev) M w s2 = Done (OK, m2) s3 /\
    (w <> NO_TIMEOUT \/ OSMboxPend (Some ev) M w s3 = Done (EXIT_BY_NO_ENTRY_AVAILABLE, M) s3).
Proof.
  intros Hn [He Ha] Hwt. eexists _, _, _.
  split_and!; [by apply OSMboxPost_store_lemma|
    apply (OSMboxPost_store_lemma _ ev (filled m1 e)); [split; [by eapply aget_aset_eq|done]|done]|
    apply (OSMboxPend_take_lemma _ ev (filled m2 (filled m1 e)) M w m2);
      [done|split; [cbn; rewrite aset_aset; by eapply aget_aset_eq|done]|done]|].
  destruct (decide (w = NO_TIMEOUT)) as [->|]; [right|by left].
  set (s3 := put_mbox _ _ _).
  assert (iNesting s3 = 0 /\ aget (BRTOS_Mbox_Table s3) ev = Some (emptied (filled m2 (filled m1 e))))
    as [Hn3 He3] by (split; [done|cbn; rewrite !aset_aset; by eapply aget_aset_eq]).
  clearbody s3. unfold OSMboxPend. run. rewrite Hn3, andb_false_r. cbn. rewrite andb_false_r. run.
  rewrite Ha, Z.eqb_refl, andb_false_r. cbn.
  change (NO_MESSAGE =? AVAILABLE_MESSAGE) with false. rewrite Z.eqb_refl. by destruct s3.
Qed.

(** A message can be received twice.  Once a post released a waiter, the
    mailbox is open to any task until the waiter runs: a task that pends first
    takes the message, and the released waiter still returns OK with the same
    message. *)
Theorem OSMbox_delivers_twice s ev e M w m :
  iNesting s = 0 -> mbox_at s ev e -> mail e = Some m ->
  exists s1, OSMboxPend (Some ev) M w s = Done (OK, m) s1 /\
    forall cur p sr, exists s2, OSMboxPend_resume ev cur 0 sr p s1 = Done (OK, m) s2.
Proof.
  intros Hn Hat Hm. pose proof Hat as [He Ha]. eexists.
  split; [by eapply OSMboxPend_take_lemma|]. intros cur p sr.
  unfold OSMboxPend_resume. run. eexists.
  rewrite (mbox_take_eq _ ev (emptied e)) by (by eapply aget_aset_eq). cbn.
  pose proof (mail_available e ltac:(by rewrite Hm)) as Hs.
  unfold mail in Hm. rewrite Hs, Z.eqb_refl in Hm. by injection Hm as ->.
Qed.
End theorems.

(** ** Examples *)
Section examples.
#[local] Existing Instance sample_config.

Definition sample_mbox (e : BRTOS_Mbox) : OS :=
  sample_os [0; 5; 9] (2 ^ 0 + 2 ^ 5) 2 [] [] [e] [] [] [].
Definition empty_mbox : BRTOS_Mbox := mkMbox TRUE 0 NO_MESSAGE 0 NULL.
Definition waited_mbox : BRTOS_Mbox := mkMbox TRUE 1 NO_MESSAGE (2 ^ 9) NULL.
Definition full_mbox : BRTOS_Mbox := mkMbox TRUE 0 AVAILABLE_MESSAGE 0 77.

Lemma OSMbox_roundtrip_witness :
  exists s1 e2, OSMboxPost (Some 0) 77 (sample_mbox empty_mbox) = Done OK s1 /\
    OSMboxPend (Some 0) 0 10 s1 = Done (OK, 77) (put_mbox 0 e2 (sample_mbox empty_mbox)) /\
    mail e2 = None /\ mbx_OSEventWaitList e2 = 0 /\
    mbox_at (put_mbox 0 e2 (sample_mbox empty_mbox)) 0 e2.
Proof. by apply (OSMbox_roundtrip (sample_mbox empty_mbox) 0 empty_mbox 0 10 77). Defined.

Lemma OSMboxPost_wakes_witness :
  exists p s' k e', highest (2 ^ 9) p /\
    OSMboxPost (Some 0) 77 (sample_mbox waited_mbox) = Yield s' k /\ wf s' [] /\ dispatched s' /\
    OSReadyList s' = Z.lor (2 ^ 0 + 2 ^ 5) (2 ^ p) /\
    mbox_at s' 0 e' /\ ev_ok s' e' /\ mail e' = Some 77 /\
    members (mbx_OSEventWaitList e') = members (2 ^ 9) ∖ {[p]} /\
    (forall s2 cur sr e2, mbox_at s2 0 e2 -> mail e2 = Some 77 ->
       OSMboxPend_resume 0 cur 0 sr p s2 =
         Done (OK, 77) (set_PRIMASK sr (put_mbox 0 (emptied e2) s2))).
Proof.
  apply (OSMboxPost_wakes (sample_mbox waited_mbox) [] 0 waited_mbox 77);
    [by apply wfb_sound|done|by eexists|done|by apply ev_okb_sound|done].
Defined.

(** The waiter of priority 9 dispatched by its timeout. *)
Definition timed_out : OS :=
  let s := sample_mbox waited_mbox in
  set_ContextTask (aset (ContextTask s) 3 (set_TimeToWait EXIT_BY_TIMEOUT (sample_task 3 9))) s.

Lemma OSMboxPend_timeout_witness :
  exists s' e', OSMboxPend_resume 0 3 10 false 9 timed_out = Done (TIMEOUT, NULL) s' /\ wf s' [] /\
    mbox_at s' 0 e' /\ ev_ok s' e' /\ mail e' = None /\
    members (mbx_OSEventWaitList e') = members (2 ^ 9) ∖ {[9]}.
Proof.
  apply (OSMboxPend_timeout timed_out [] 9 0 waited_mbox 3
           (set_TimeToWait EXIT_BY_TIMEOUT (sample_task 3 9)) 10 false);
    [by apply wfb_sound|done|by apply ev_okb_sound|by vm_compute|done..].
Defined.

Lemma OSMboxPost_overwrites_witness :
  exists s1 s2 s3, OSMboxPost (Some 0) 7 (sample_mbox empty_mbox) = Done OK s1 /\
    OSMboxPost (Some 0) 8 s1 = Done OK s2 /\
    OSMboxPend (Some 0) 0 NO_TIMEOUT s2 = Done (OK, 8) s3 /\
    (NO_TIMEOUT <> NO_TIMEOUT \/
     OSMboxPend (Some 0) 0 NO_TIMEOUT s3 = Done (EXIT_BY_NO_ENTRY_AVAILABLE, 0) s3).
Proof. by apply (OSMboxPost_overwrites (sample_mbox empty_mbox) 0 empty_mbox 0 NO_TIMEOUT 7 8). Defined.

Lemma OSMbox_delivers_twice_witness :
  exists s1, OSMboxPend (Some 0) 0 0 (sample_mbox full_mbox) = Done (OK, 77) s1 /\
    forall cur p sr, exists s2, OSMboxPend_resume 0 cur 0 sr p s1 = Done (OK, 77) s2.
Proof. by apply (OSMbox_delivers_twice (sample_mbox full_mbox) 0 full_mbox 0 0 77). Defined.
End examples.
