(* ===== verification/Ring.v ===== *)
(** * Ring buffers

    The circular buffer every queue of brtos/queue.c is built on: the write and
    the read of one element of 1, 2 or 4 bytes in the queue heap, little-endian
    as on the Cortex-M4.  [ring_rep] relates the pointers and the bytes to the
    sequence of elements they hold; writing appends to it and reading takes its
    head, wherever the pointers wrap. *)

From Stdlib Require Import ZArith Lia.
From stdpp Require Import base gmap numbers list.
From S2P Require Import Prelude Config State.
#[local] Open Scope Z_scope.

(** [*p] for a pointer [p] to a [w]-byte integer at byte offset [a]. *)
Fixpoint qload (w : nat) (m : list Z) (a : Z) : option Z :=
  match w with
  | O => Some 0
  | S w' =>
      match aget m a, qload w' m (a + 1) with
      | Some b, Some r => Some (b + 256 * r)
      | _, _ => None
      end
  end.

(** [*p = v] *)
Fixpoint qstore (w : nat) (m : list Z) (a v : Z) : option (list Z) :=
  match w with
  | O => Some m
  | S w' =>
      match aget m a with
      | Some _ => qstore w' (aset m a (v mod 256)) (a + 1) (v / 256)
      | None => None
      end
  end.

(** From [cqueue->OSQEntries++] to [cqueue->OSQIn++]. *)
Definition ring_write (w : nat) (q : OS_QUEUE) (m : list Z) (data : Z)
    : option (OS_QUEUE * list Z) :=
  let q := set_OSQEntries (uint16 (OSQEntries q + 1)) q in
  let q := if OSQIn q =? OSQEnd q then set_OSQIn (OSQStart q) q else q in
  match qstore w m (OSQIn q) data with
  | Some m' => Some (set_OSQIn (OSQIn q + Z.of_nat w) q, m')
  | None => None
  end.

(** From [if (cqueue->OSQOut == cqueue->OSQEnd)] to [cqueue->OSQEntries--]. *)
Definition ring_read (w : nat) (q : OS_QUEUE) (m : list Z) : option (Z * OS_QUEUE) :=
  let q := if OSQOut q =? OSQEnd q then set_OSQOut (OSQStart q) q else q in
  match qload w m (OSQOut q) with
  | Some data =>
      let q := set_OSQOut (OSQOut q + Z.of_nat w) q in
      Some (data, set_OSQEntries (uint16 (OSQEntries q - 1)) q)
  | None => None
  end.

(** [OSQueueClean] and its variants. *)
Definition ring_clean (q : OS_QUEUE) : OS_QUEUE :=
  set_OSQOut (OSQStart q) (set_OSQIn (OSQStart q) (set_OSQEntries 0 q)).

(** The ring a create function builds at byte offset [start] for [size] elements. *)
Definition ring_new (w : nat) (start size : Z) : OS_QUEUE :=
  mkOS_QUEUE start (start + Z.of_nat w * size) start start size 0.

(** ** The elements a ring holds *)

(** The offset of slot [i]. *)
Definition slot (w : nat) (q : OS_QUEUE) (i : Z) : Z := OSQStart q + Z.of_nat w * i.

(** The pointers [OSQIn] and [OSQOut] are at slots [i] and [o] (the end of the
    buffer stands for its start), and from slot [o] on the buffer holds [xs]. *)
Record ring_at (w : nat) (q : OS_QUEUE) (m : list Z) (i o : Z) (xs : list Z) : Prop := {
  rr_size : 0 < OSQSize q < 2 ^ 16;
  rr_start : 0 <= OSQStart q;
  rr_end : OSQEnd q = slot w q (OSQSize q);
  rr_mem : OSQEnd q <= Z.of_nat (length m);
  rr_in : OSQIn q = slot w q i;
  rr_out : OSQOut q = slot w q o;
  rr_i : 0 <= i <= OSQSize q;
  rr_o : 0 <= o <= OSQSize q;
  rr_entries : OSQEntries q = Z.of_nat (length xs);
  rr_full : Z.of_nat (length xs) <= OSQSize q;
  rr_next : (o + Z.of_nat (length xs)) mod OSQSize q = i mod OSQSize q;
  rr_data : forall k x, xs !! k = Some x ->
    qload w m (slot w q ((o + Z.of_nat k) mod OSQSize q)) = Some x;
}.

(** The ring [q], in the bytes [m], holds the elements [xs], oldest first. *)
Definition ring_rep (w : nat) (q : OS_QUEUE) (m : list Z) (xs : list Z) : Prop :=
  (0 < w)%nat /\ exists i o, ring_at w q m i o xs.

(** ** Loads and stores *)

Lemma qload_is_Some w m a :
  0 <= a -> a + Z.of_nat w <= Z.of_nat (length m) -> is_Some (qload w m a).
Proof.
  revert a. induction w as [|w IH]; intros a Ha Hl; [by eexists|]. cbn.
  destruct (aget_is_Some m a) as [b Hb]; [lia|]. rewrite Hb.
  destruct (IH (a + 1)) as [r Hr]; [lia|lia|]. rewrite Hr. by eexists.
Qed.

Lemma qstore_is_Some w m a v :
  0 <= a -> a + Z.of_nat w <= Z.of_nat (length m) ->
  exists m', qstore w m a v = Some m' /\ length m' = length m.
Proof.
  revert m a v. induction w as [|w IH]; intros m a v Ha Hl; [by eexists|]. cbn.
  destruct (aget_is_Some m a) as [b Hb]; [lia|]. rewrite Hb.
  destruct (IH (aset m a (v mod 256)) (a + 1) (v / 256)) as (m' & Hm & Hlen);
    [lia|rewrite length_aset; lia|].
  exists m'. split; [done|]. by rewrite Hlen, length_aset.
Qed.

(** A store changes only its own bytes, and a load of them gives the value. *)
Lemma qstore_bytes w m a v m' j :
  qstore w m a v = Some m' -> j < a \/ a + Z.of_nat w <= j -> aget m' j = aget m j.
Proof.
  revert m a v. induction w as [|w IH]; intros m a v; cbn; [by intros [= ->]|].
  destruct (aget m a) as [b|] eqn:Hb; [|done]. intros Hm Hj.
  rewrite (IH _ _ _ Hm) by lia. apply aget_aset_ne. lia.
Qed.

Lemma qload_ext w m m' a :
  (forall j, a <= j < a + Z.of_nat w -> aget m' j = aget m j) -> qload w m' a = qload w m a.
Proof.
  revert a. induction w as [|w IH]; intros a H; [done|]. cbn.
  rewrite H, IH by (lia || (intros; apply H; lia)). done.
Qed.

Lemma qload_qstore w m a v m' :
  qstore w m a v = Some m' -> 0 <= v < 256 ^ Z.of_nat w -> qload w m' a = Some v.
Proof.
  revert m a v. induction w as [|w IH]; intros m a v; cbn [qstore qload].
  - intros [= ->] Hv. change (256 ^ Z.of_nat 0) with 1 in Hv. f_equal. lia.
  - destruct (aget m a) as [b|] eqn:Hb; [|done]. intros Hm Hv.
    rewrite (qstore_bytes _ _ _ _ _ a Hm) by lia. rewrite (aget_aset_eq _ _ _ _ Hb).
    rewrite (IH _ _ _ Hm).
    + f_equal. pose proof (Z.div_mod v 256). lia.
    + rewrite Nat2Z.inj_succ, Z.pow_succ_r in Hv by lia.
      split; [apply Z.div_pos; lia|apply Z.div_lt_upper_bound; lia].
Qed.

(** ** Slots *)

Lemma slot_wrap w q i :
  (0 < w)%nat -> 0 < OSQSize q -> 0 <= i <= OSQSize q ->
  (if slot w q i =? slot w q (OSQSize q) then OSQStart q else slot w q i)
  = slot w q (i mod OSQSize q).
Proof.
  intros Hw Hs Hi. destruct (decide (i = OSQSize q)) as [->|Hne].
  - rewrite Z.eqb_refl, Z.mod_same by lia. unfold slot. lia.
  - rewrite (proj2 (Z.eqb_neq _ _)) by (unfold slot; nia). by rewrite Z.mod_small by lia.
Qed.

Lemma slot_bounds w q i :
  0 <= i < OSQSize q ->
  OSQStart q <= slot w q i /\ slot w q i + Z.of_nat w <= slot w q (OSQSize q).
Proof. unfold slot. nia. Qed.

Lemma slot_disjoint w q i j :
  i <> j -> slot w q i + Z.of_nat w <= slot w q j \/ slot w q j + Z.of_nat w <= slot w q i.
Proof. unfold slot. intros. destruct (Z.lt_total i j) as [|[|]]; nia. Qed.

Lemma mod_next a n : 0 < n -> (a mod n + 1) mod n = (a + 1) mod n.
Proof. intros. by rewrite Zplus_mod_idemp_l. Qed.

(** Slots at a distance less than the size are distinct. *)
Lemma mod_ne o k l n : 0 < n -> 0 <= k < l -> l < n -> (o + k) mod n <> (o + l) mod n.
Proof.
  intros Hn Hk Hl He.
  assert ((l - k) mod n = 0) as Hz.
  { replace (l - k) with (o + l - (o + k)) by lia.
    rewrite Zminus_mod, He, Z.sub_diag. apply Z.mod_0_l. lia. }
  rewrite Z.mod_small in Hz by lia. lia.
Qed.

(** ** Refinement *)

Lemma ring_new_rep w m start size :
  (0 < w)%nat -> 0 < size < 2 ^ 16 -> 0 <= start ->
  start + Z.of_nat w * size <= Z.of_nat (length m) -> ring_rep w (ring_new w start size) m [].
Proof.
  intros Hw Hs Hst Hm. split; [done|]. exists 0, 0. split; unfold slot; cbn; lia || done.
Qed.

Lemma ring_clean_rep w q m xs : ring_rep w q m xs -> ring_rep w (ring_clean q) m [].
Proof.
  intros (Hw & i & o & [Hs Hst He Hm Hi Ho Hir Hor Hen Hf Hn Hd]).
  split; [done|]. exists 0, 0. split; unfold slot in *; cbn in *; lia || done.
Qed.

Lemma ring_write_rep w q m xs data :
  ring_rep w q m xs -> Z.of_nat (length xs) < OSQSize q -> 0 <= data < 256 ^ Z.of_nat w ->
  exists q' m', ring_write w q m data = Some (q', m') /\ ring_rep w q' m' (xs ++ [data]) /\
    length m' = length m /\ OSQStart q' = OSQStart q /\ OSQEnd q' = OSQEnd q /\
    OSQSize q' = OSQSize q /\
    (forall j, j < OSQStart q \/ OSQEnd q <= j -> aget m' j = aget m j).
Proof.
  intros (Hw & i & o & [Hs Hst He Hm Hi Ho Hir Hor Hen Hf Hn Hd]) Hlt Hdata.
  set (n := OSQSize q) in *. set (i' := i mod n).
  assert (0 <= i' < n) as Hi' by (apply Z.mod_pos_bound; lia).
  pose proof (slot_bounds w q i' Hi') as [Hb1 Hb2]. fold n in Hb2.
  destruct (qstore_is_Some w m (slot w q i') data) as (m' & Hm' & Hlen); [lia|lia|].
  pose proof (slot_wrap w q i Hw ltac:(lia) ltac:(lia)) as Hwrap. fold n i' in Hwrap.
  set (q' := mkOS_QUEUE (OSQStart q) (OSQEnd q) (slot w q i' + Z.of_nat w) (OSQOut q) n
               (Z.of_nat (length xs) + 1)).
  exists q', m'. split_and!; [| |done|done|done|done|].
  - unfold ring_write. cbn. rewrite Hen, uint16_small, Hi, He by lia. fold n.
    destruct (slot w q i =? slot w q n); cbn; rewrite ?Hi, Hwrap, Hm'; done.
  - split; [done|]. exists (i' + 1), o.
    split; rewrite ?length_app; cbn; fold n; try done; try (unfold slot in *; cbn; fold n; lia).
    + rewrite Nat2Z.inj_add. cbn. unfold i'. rewrite mod_next, Z.add_assoc by lia.
      by rewrite <- Zplus_mod_idemp_l, Hn, Zplus_mod_idemp_l.
    + intros k x Hk. change (slot w q' ?z) with (slot w q z).
      apply lookup_app_Some in Hk as [Hk|[Hge Hk]].
      * pose proof (lookup_lt_Some _ _ _ Hk).
        rewrite <- (Hd k x Hk). apply qload_ext. intros j Hj. apply (qstore_bytes _ _ _ _ _ _ Hm').
        destruct (slot_disjoint w q ((o + Z.of_nat k) mod n) i'); [|lia|lia].
        unfold i'. rewrite <- Hn. apply mod_ne; lia.
      * destruct (k - length xs)%nat eqn:Ek; [|done]. injection Hk as <-.
        replace (Z.of_nat k) with (Z.of_nat (length xs)) by lia. rewrite Hn.
        by eapply qload_qstore.
  - intros j Hj. apply (qstore_bytes _ _ _ _ _ _ Hm'). lia.
Qed.

Lemma ring_read_rep w q m x xs :
  ring_rep w q m (x :: xs) ->
  exists q', ring_read w q m = Some (x, q') /\ ring_rep w q' m xs /\
    OSQStart q' = OSQStart q /\ OSQEnd q' = OSQEnd q /\ OSQSize q' = OSQSize q.
Proof.
  intros (Hw & i & o & [Hs Hst He Hm Hi Ho Hir Hor Hen Hf Hn Hd]).
  rewrite length_cons in *. set (n := OSQSize q) in *. set (o' := o mod n).
  assert (0 <= o' < n) as Ho' by (apply Z.mod_pos_bound; lia).
  pose proof (slot_wrap w q o Hw ltac:(lia) ltac:(lia)) as Hwrap. fold n o' in Hwrap.
  pose proof (Hd O x eq_refl) as H0. rewrite Z.add_0_r in H0. fold o' in H0.
  set (q' := mkOS_QUEUE (OSQStart q) (OSQEnd q) (OSQIn q) (slot w q o' + Z.of_nat w) n
               (Z.of_nat (length xs))).
  exists q'. split_and!; [| |done|done|done].
  - unfold ring_read. rewrite Ho, He. fold n.
    assert (uint16 (OSQEntries q - 1) = Z.of_nat (length xs)) as Hu by (rewrite uint16_small; lia).
    destruct (slot w q o =? slot w q n); cbn; rewrite ?Ho, Hwrap, H0; cbn; by rewrite Hu.
  - split; [done|]. exists i, (o' + 1).
    split; cbn; fold n; try done; try (unfold slot in *; cbn; fold n; lia).
    + rewrite <- Hn. unfold o'. rewrite <- Z.add_assoc, Zplus_mod_idemp_l. f_equal. lia.
    + intros k y Hk. change (slot w q' ?z) with (slot w q z). rewrite <- (Hd (S k) y Hk).
      unfold o'. rewrite <- Z.add_assoc, Zplus_mod_idemp_l. do 3 f_equal. lia.
Qed.

(** A ring only depends on its own bytes. *)
Lemma ring_rep_frame w q m m' xs :
  ring_rep w q m xs -> length m' = length m ->
  (forall j, OSQStart q <= j < OSQEnd q -> aget m' j = aget m j) -> ring_rep w q m' xs.
Proof.
  intros (Hw & i & o & [Hs Hst He Hm Hi Ho Hir Hor Hen Hf Hn Hd]) Hlen Hj.
  split; [done|]. exists i, o. split; try done; [by rewrite Hlen|].
  intros k x Hk. rewrite <- (Hd k x Hk). apply qload_ext. intros j Hjr. apply Hj.
  destruct (slot_bounds w q ((o + Z.of_nat k) mod OSQSize q)); [apply Z.mod_pos_bound; lia|].
  rewrite He. lia.
Qed.

(** The counter of a ring, and its end. *)
Lemma ring_rep_entries (n : nat) q m xs :
  ring_rep n q m xs -> OSQEntries q = Z.of_nat (length xs) /\ Z.of_nat (length xs) <= OSQSize q.
Proof. intros (_ & i & o & H). split; apply H. Qed.

Lemma ring_rep_end w (q : OS_QUEUE) m xs : ring_rep w q m xs ->
  OSQEnd q = OSQStart q + Z.of_nat w * OSQSize q.
Proof. intros (_ & i & o & H). apply H. Qed.
