(* ===== verification/Queue.v ===== *)
(** * Queues

    brtos/queue.c: queues of bytes with waiting tasks ([OSQueueCreate] to
    [OSQueuePost]) and the plain ring buffers of 8-, 16- and 32-bit elements
    ([OSWQueue], [OSRQueue] and their variants), all in the static queue heap
    [QUEUE_STACK].  The theorems show that the operations implement a bounded
    FIFO of elements, that creating queues carves disjoint regions out of the
    heap, and what the race between a released waiter and another reader does. *)

From Stdlib Require Import ZArith Lia.
From stdpp Require Import base gmap numbers list.
From S2P Require Import Prelude Config State Sched DelayList Hal Clock Kernel Event Sample Ring.
#[local] Open Scope Z_scope.
#[local] Open Scope prog_scope.

#[global] Instance Event_Queue `{C : Config} : Event BRTOS_Queue.
Proof.
  refine {| ev_table := BRTOS_Queue_Table; set_ev_table := set_BRTOS_Queue_Table;
            ev_wait := q_OSEventWait; ev_waitlist := q_OSEventWaitList;
            ev_alloc := q_OSEventAllocated;
            set_ev_wait := set_q_OSEventWait; set_ev_waitlist := set_q_OSEventWaitList |};
    try done.
  by intros s s' [=].
Defined.

Section operations.
Context `{C : Config}.

(** ** Queues of bytes *)

(** [size] rounded up to a multiple of the processor's word, in 16 bits. *)
Definition fix_size (size : Z) : Z :=
  if truthy (size mod sizeof_OS_CPU_TYPE) then
    uint16 (size + (sizeof_OS_CPU_TYPE - size mod sizeof_OS_CPU_TYPE))
  else size.

(** [OSQueueCreate] *)
Definition OSQueueCreate (size : Z) (event : option Z) : prog (Z * option Z) :=
  nesting <- gets iNesting ;;
  if nesting >? 0 then ret (IRQ_PEND_ERR, event)
  else
    CPU_SR <- OSEnterCritical_started ;;
    let size := fix_size size in
    addr <- gets iQueueAddress ;;
    if addr + size / sizeof_OS_CPU_TYPE >? QUEUE_HEAP_SIZE / sizeof_OS_CPU_TYPE then
      OSExitCritical_started CPU_SR ;;;
      ret (NO_MEMORY, event)
    else
      o <- first_free BRTOS_Queue (Z.to_nat (BRTOS_MAX_QUEUE + 1)) BRTOS_MAX_QUEUE 0 ;;
      match o with
      | None =>
          OSExitCritical_started CPU_SR ;;;
          ret (NO_AVAILABLE_EVENT, event)
      | Some i =>
          upd_ev i (set_q_OSEventAllocated TRUE) ;;;
          modify (set_iQueueAddress (uint16 (addr + size / sizeof_OS_CPU_TYPE))) ;;;
          write BRTOS_OS_QUEUE_Table set_BRTOS_OS_QUEUE_Table i
            (ring_new 1 (addr * sizeof_OS_CPU_TYPE) size) ;;;
          upd_ev i (set_q_OSEventPointer (Some i)) ;;;
          upd_ev i (set_q_OSEventWait 0) ;;;
          upd_ev i (set_q_OSEventWaitList 0) ;;;
          OSExitCritical_started CPU_SR ;;;
          ret (ALLOC_EVENT_OK, Some i)
      end.

(** Writing and reading an element of the ring [cqueue]. *)
Definition queue_put (cqueue data : Z) : prog unit :=
  q <- read BRTOS_OS_QUEUE_Table cqueue ;;
  m <- gets QUEUE_STACK ;;
  r <- lift (ring_write 1 q m data) ;;
  write BRTOS_OS_QUEUE_Table set_BRTOS_OS_QUEUE_Table cqueue (fst r) ;;;
  modify (set_QUEUE_STACK (snd r)).
Definition queue_get (cqueue : Z) : prog Z :=
  q <- read BRTOS_OS_QUEUE_Table cqueue ;;
  m <- gets QUEUE_STACK ;;
  r <- lift (ring_read 1 q m) ;;
  write BRTOS_OS_QUEUE_Table set_BRTOS_OS_QUEUE_Table cqueue (snd r) ;;;
  ret (fst r).

(** [OSWQueue] *)
Definition OSWQueue (cqueue : option Z) (data : Z) : prog Z :=
  CPU_SR <- OSEnterCritical ;;
  c <- deref cqueue ;;
  q <- read BRTOS_OS_QUEUE_Table c ;;
  if OSQEntries q <? OSQSize q then
    queue_put c data ;;;
    OSExitCritical CPU_SR ;;;
    ret WRITE_BUFFER_OK
  else
    OSExitCritical CPU_SR ;;;
    ret BUFFER_UNDERRUN.

(** [OSRQueue]; [pdata] is the value of [*pdata] before the call. *)
Definition OSRQueue (cqueue : option Z) (pdata : Z) : prog (Z * Z) :=
  CPU_SR <- OSEnterCritical ;;
  c <- deref cqueue ;;
  q <- read BRTOS_OS_QUEUE_Table c ;;
  if OSQEntries q >? 0 then
    data <- queue_get c ;;
    OSExitCritical CPU_SR ;;;
    ret (READ_BUFFER_OK, data)
  else
    OSExitCritical CPU_SR ;;;
    ret (NO_ENTRY_AVAILABLE, pdata).

(** [OSQueueClean] *)
Definition OSQueueClean (pont_event : option Z) : prog Z :=
  ev <- deref pont_event ;;
  e <- read BRTOS_Queue_Table ev ;;
  CPU_SR <- OSEnterCritical ;;
  c <- deref (q_OSEventPointer e) ;;
  q <- read BRTOS_OS_QUEUE_Table c ;;
  write BRTOS_OS_QUEUE_Table set_BRTOS_OS_QUEUE_Table c (ring_clean q) ;;;
  OSExitCritical CPU_SR ;;;
  ret CLEAN_BUFFER_OK.

(** [OSQueuePend], from the return of [ChangeContext] on. *)
Definition OSQueuePend_resume (ev c pdata cur time_wait : Z) (CPU_SR : bool) (iPriority : Z)
    : prog (Z * Z) :=
  OSExitCritical CPU_SR ;;;
  CPU_SR <- OSEnterCritical ;;
  timedout <- (if truthy time_wait then pend_wakeup BRTOS_Queue ev cur iPriority
               else ret false) ;;
  if timedout : bool then
    OSExitCritical CPU_SR ;;;
    ret (TIMEOUT, pdata)
  else
    data <- queue_get c ;;
    OSExitCritical CPU_SR ;;;
    ret (READ_BUFFER_OK, data).

(** [OSQueuePend]: [cqueue] is read through [pont_event] before the checks. *)
Definition OSQueuePend (pont_event : option Z) (pdata time_wait : Z) : prog (Z * Z) :=
  ev <- deref pont_event ;;
  e <- read BRTOS_Queue_Table ev ;;
  let cqueue := q_OSEventPointer e in
  nesting <- gets iNesting ;;
  if ERROR_CHECK && (nesting >? 0) then ret (IRQ_PEND_ERR, pdata)
  else if ERROR_CHECK && bool_decide (pont_event = None) then ret (NULL_EVENT_POINTER, pdata)
  else
    CPU_SR <- OSEnterCritical ;;
    if ERROR_CHECK && negb (q_OSEventAllocated e =? TRUE) then
      OSExitCritical CPU_SR ;;;
      ret (ERR_EVENT_NO_CREATED, pdata)
    else
      c <- deref cqueue ;;
      q <- read BRTOS_OS_QUEUE_Table c ;;
      if OSQEntries q >? 0 then
        data <- queue_get c ;;
        OSExitCritical CPU_SR ;;;
        ret (READ_BUFFER_OK, data)
      else if time_wait =? NO_TIMEOUT then
        OSExitCritical CPU_SR ;;;
        ret (EXIT_BY_NO_ENTRY_AVAILABLE, pdata)
      else
        cur <- gets currentTask ;;
        iPriority <- pend_enqueue BRTOS_Queue ev cur time_wait ;;
        ChangeContext ;;;
        OSQueuePend_resume ev c pdata cur time_wait CPU_SR iPriority.

(** [OSQueuePost] *)
Definition OSQueuePost (pont_event : option Z) (data : Z) : prog Z :=
  ev <- deref pont_event ;;
  e <- read BRTOS_Queue_Table ev ;;
  let cqueue := q_OSEventPointer e in
  if ERROR_CHECK && bool_decide (pont_event = None) then ret NULL_EVENT_POINTER
  else
    CPU_SR <- OSEnterCritical ;;
    if ERROR_CHECK && negb (q_OSEventAllocated e =? TRUE) then
      OSExitCritical CPU_SR ;;;
      ret ERR_EVENT_NO_CREATED
    else
      c <- deref cqueue ;;
      q <- read BRTOS_OS_QUEUE_Table c ;;
      if OSQEntries q <? OSQSize q then
        queue_put c data ;;;
        (if negb (q_OSEventWait e =? 0) then
           iPriority <- post_select BRTOS_Queue ev ;;
           ready_insert iPriority ;;;
           nesting <- gets iNesting ;;
           when (negb (truthy nesting)) ChangeContext ;;;
           OSExitCritical CPU_SR ;;;
           ret WRITE_BUFFER_OK
         else
           OSExitCritical CPU_SR ;;;
           ret WRITE_BUFFER_OK)
      else
        OSExitCritical CPU_SR ;;;
        ret BUFFER_UNDERRUN.

(** ** Rings of 16- and 32-bit elements

    Their control block is a variable of the caller: it is an argument, and its
    new value is part of the result. *)

Definition ring_put (w : nat) (cqueue : OS_QUEUE) (data : Z) : prog (Z * OS_QUEUE) :=
  CPU_SR <- OSEnterCritical ;;
  if OSQEntries cqueue <? OSQSize cqueue then
    m <- gets QUEUE_STACK ;;
    r <- lift (ring_write w cqueue m data) ;;
    modify (set_QUEUE_STACK (snd r)) ;;;
    OSExitCritical CPU_SR ;;;
    ret (WRITE_BUFFER_OK, fst r)
  else
    OSExitCritical CPU_SR ;;;
    ret (BUFFER_UNDERRUN, cqueue).

Definition ring_get (w : nat) (cqueue : OS_QUEUE) (pdata : Z) : prog (Z * Z * OS_QUEUE) :=
  CPU_SR <- OSEnterCritical ;;
  if OSQEntries cqueue >? 0 then
    m <- gets QUEUE_STACK ;;
    r <- lift (ring_read w cqueue m) ;;
    OSExitCritical CPU_SR ;;;
    ret (READ_BUFFER_OK, fst r, snd r)
  else
    OSExitCritical CPU_SR ;;;
    ret (NO_ENTRY_AVAILABLE, pdata, cqueue).

Definition ring_clear (cqueue : OS_QUEUE) : prog (Z * OS_QUEUE) :=
  CPU_SR <- OSEnterCritical ;;
  OSExitCritical CPU_SR ;;;
  ret (CLEAN_BUFFER_OK, ring_clean cqueue).

(** The end of [OSQueue16Create] and [OSQueue32Create], for [size] elements of
    [w] bytes. *)
Definition ring_create (w : nat) (cqueue : OS_QUEUE) (size : Z) (CPU_SR : bool)
    : prog (Z * OS_QUEUE) :=
  addr <- gets iQueueAddress ;;
  let words := size * Z.of_nat w / sizeof_OS_CPU_TYPE in
  if addr + words >? QUEUE_HEAP_SIZE / sizeof_OS_CPU_TYPE then
    OSExitCritical_started CPU_SR ;;;
    ret (NO_MEMORY, cqueue)
  else
    modify (set_iQueueAddress (uint16 (addr + words))) ;;;
    OSExitCritical_started CPU_SR ;;;
    ret (ALLOC_EVENT_OK, ring_new w (addr * sizeof_OS_CPU_TYPE) size).

(** [OSQueue16Create] *)
Definition OSQueue16Create (cqueue : OS_QUEUE) (size : Z) : prog (Z * OS_QUEUE) :=
  nesting <- gets iNesting ;;
  if nesting >? 0 then ret (IRQ_PEND_ERR, cqueue)
  else
    CPU_SR <- OSEnterCritical_started ;;
    ring_create 2 cqueue
      (if truthy ((size * 2) mod sizeof_OS_CPU_TYPE) then uint16 (size + 1) else size) CPU_SR.

(** [OSQueue32Create] *)
Definition OSQueue32Create (cqueue : OS_QUEUE) (size : Z) : prog (Z * OS_QUEUE) :=
  nesting <- gets iNesting ;;
  if nesting >? 0 then ret (IRQ_PEND_ERR, cqueue)
  else
    CPU_SR <- OSEnterCritical_started ;;
    ring_create 4 cqueue size CPU_SR.

(** [OSWQueue16], [OSRQueue16], [OSCleanQueue16] *)
Definition OSWQueue16 (cqueue : OS_QUEUE) (data : Z) := ring_put 2 cqueue data.
Definition OSRQueue16 (cqueue : OS_QUEUE) (pdata : Z) := ring_get 2 cqueue pdata.
Definition OSCleanQueue16 (cqueue : OS_QUEUE) := ring_clear cqueue.

(** [OSWQueue32], [OSRQueue32], [OSCleanQueue32] *)
Definition OSWQueue32 (cqueue : OS_QUEUE) (data : Z) := ring_put 4 cqueue data.
Definition OSRQueue32 (cqueue : OS_QUEUE) (pdata : Z) := ring_get 4 cqueue pdata.
Definition OSCleanQueue32 (cqueue : OS_QUEUE) := ring_clear cqueue.
End operations.

Arguments queue_put : simpl never.
Arguments queue_get : simpl never.
Arguments ring_write : simpl never.
Arguments ring_read : simpl never.

(** ** Lemmas *)
Section lemmas.
Context `{C : Config}.
Implicit Types (s : OS) (l xs : list Z) (p ev w t c d : Z) (e : BRTOS_Queue) (q : OS_QUEUE).

(** [ev] designates the allocated queue [e], whose ring [q] is number [c] and
    holds [xs]. *)
Record queue_at (s : OS) (ev : Z) (e : BRTOS_Queue) (c : Z) (q : OS_QUEUE) (xs : list Z)
    : Prop := {
  qa_event : aget (BRTOS_Queue_Table s) ev = Some e;
  qa_alloc : q_OSEventAllocated e = TRUE;
  qa_ptr : q_OSEventPointer e = Some c;
  qa_ring : aget (BRTOS_OS_QUEUE_Table s) c = Some q;
  qa_rep : ring_rep 1 q (QUEUE_STACK s) xs;
}.

(** The ring [c] and the queue heap replaced. *)
Definition put_ring (c : Z) (q : OS_QUEUE) (m : list Z) (s : OS) : OS :=
  set_QUEUE_STACK m (set_BRTOS_OS_QUEUE_Table (aset (BRTOS_OS_QUEUE_Table s) c q) s).

Lemma queue_put_eq s c q d q' m' :
  aget (BRTOS_OS_QUEUE_Table s) c = Some q ->
  ring_write 1 q (QUEUE_STACK s) d = Some (q', m') ->
  queue_put c d s = Done tt (put_ring c q' m' s).
Proof. intros Hq Hr. unfold queue_put. run. rewrite Hr. cbn. run. done. Qed.

Lemma queue_get_eq s c q d q' :
  aget (BRTOS_OS_QUEUE_Table s) c = Some q ->
  ring_read 1 q (QUEUE_STACK s) = Some (d, q') ->
  queue_get c s = Done d (put_ring c q' (QUEUE_STACK s) s).
Proof. intros Hq Hr. unfold queue_get. run. rewrite Hr. cbn. run. by destruct s. Qed.

Lemma queue_at_put s ev e c q xs q' m' xs' :
  queue_at s ev e c q xs -> ring_rep 1 q' m' xs' ->
  queue_at (put_ring c q' m' s) ev e c q' xs'.
Proof. intros [He Ha Hp Hq _] Hr. split; try done. cbn. by eapply aget_aset_eq. Qed.

Lemma OSQueuePend_read_lemma s ev e c q x xs pd w :
  iNesting s = 0 -> queue_at s ev e c q (x :: xs) ->
  exists q', OSQueuePend (Some ev) pd w s =
      Done (READ_BUFFER_OK, x) (put_ring c q' (QUEUE_STACK s) s) /\
    queue_at (put_ring c q' (QUEUE_STACK s) s) ev e c q' xs /\ OSQSize q' = OSQSize q.
Proof.
  intros Hn Hat. pose proof Hat as [He Ha Hp Hq Hr].
  destruct (ring_rep_entries _ _ _ _ Hr) as [Hen _]. rewrite length_cons in Hen.
  destruct (ring_read_rep _ _ _ _ _ Hr) as (q' & Hrd & Hrep & _ & _ & Hsz).
  exists q'. split_and!; [|by eapply queue_at_put|done].
  unfold OSQueuePend. run. rewrite Hn, andb_false_r, andb_false_r. cbn.
  rewrite Ha, Z.eqb_refl, andb_false_r, Hp. run.
  assert ((OSQEntries q >? 0) = true) as -> by lia. cbn.
  rewrite (queue_get_eq _ c q x q') by done. by destruct s.
Qed.

Lemma OSQueuePost_put_lemma s ev e c q xs d :
  queue_at s ev e c q xs -> Z.of_nat (length xs) < OSQSize q -> 0 <= d < 256 ->
  exists q' m',
    queue_at (put_ring c q' m' s) ev e c q' (xs ++ [d]) /\ OSQSize q' = OSQSize q /\
    OSQStart q' = OSQStart q /\ OSQEnd q' = OSQEnd q /\
    length m' = length (QUEUE_STACK s) /\
    (forall j, j < OSQStart q \/ OSQEnd q <= j -> aget m' j = aget (QUEUE_STACK s) j) /\
    OSQueuePost (Some ev) d s =
      (if negb (q_OSEventWait e =? 0) then
         iPriority <- post_select BRTOS_Queue ev ;;
         ready_insert iPriority ;;;
         nesting <- gets iNesting ;;
         when (negb (truthy nesting)) ChangeContext ;;;
         OSExitCritical (PRIMASK s) ;;;
         ret WRITE_BUFFER_OK
       else
         OSExitCritical (PRIMASK s) ;;;
         ret WRITE_BUFFER_OK) (put_ring c q' m' (set_PRIMASK true s)).
Proof.
  intros Hat Hlt Hd. pose proof Hat as [He Ha Hp Hq Hr].
  destruct (ring_rep_entries _ _ _ _ Hr) as [Hen _].
  destruct (ring_write_rep _ _ _ _ d Hr) as (q' & m' & Hw & Hrep & Hlen & Hst & Hend & Hsz & Hj);
    [done|done|].
  exists q', m'. split_and!; [by eapply queue_at_put|done..|].
  unfold OSQueuePost. run. rewrite andb_false_r. cbn.
  rewrite Ha, Z.eqb_refl, andb_false_r, Hp. run.
  rewrite (proj2 (Z.ltb_lt (OSQEntries q) (OSQSize q))) by lia. cbn.
  by rewrite (queue_put_eq _ c q d q' m') by done.
Qed.

Lemma OSQueuePost_store_lemma s ev e c q xs d :
  queue_at s ev e c q xs -> q_OSEventWait e = 0 -> Z.of_nat (length xs) < OSQSize q ->
  0 <= d < 256 ->
  exists q' m', OSQueuePost (Some ev) d s = Done WRITE_BUFFER_OK (put_ring c q' m' s) /\
    queue_at (put_ring c q' m' s) ev e c q' (xs ++ [d]) /\ OSQSize q' = OSQSize q.
Proof.
  intros Hat Hwt Hlt Hd.
  destruct (OSQueuePost_put_lemma s ev e c q xs d Hat Hlt Hd)
    as (q' & m' & Hat' & Hsz & _ & _ & _ & _ & Hr).
  exists q', m'. split_and!; [|done..]. rewrite Hr, Hwt, Z.eqb_refl. by destruct s.
Qed.

Lemma OSQueuePost_full_lemma s ev e c q xs d :
  queue_at s ev e c q xs -> Z.of_nat (length xs) = OSQSize q ->
  OSQueuePost (Some ev) d s = Done BUFFER_UNDERRUN s.
Proof.
  intros [He Ha Hp Hq Hr] Hf. destruct (ring_rep_entries _ _ _ _ Hr) as [Hen _].
  unfold OSQueuePost. run. rewrite andb_false_r. cbn.
  rewrite Ha, Z.eqb_refl, andb_false_r, Hp. run.
  rewrite (proj2 (Z.ltb_ge (OSQEntries q) (OSQSize q))) by lia. by destruct s.
Qed.
End lemmas.

(** ** Theorems *)
Section theorems.
Context `{C : Config}.
Implicit Types (s : OS) (l xs ys : list Z) (p ev w t c d : Z) (e : BRTOS_Queue) (q : OS_QUEUE).

(** Posting the bytes [ys] one after the other, and reading [n] bytes. *)
Fixpoint post_all (ev : Z) (ys : list Z) : prog unit :=
  match ys with
  | [] => ret tt
  | y :: ys' => r <- OSQueuePost (Some ev) y ;; when (negb (r =? WRITE_BUFFER_OK)) fault ;;;
                post_all ev ys'
  end.
Fixpoint pend_all (ev w : Z) (n : nat) : prog (list Z) :=
  match n with
  | O => ret []
  | S n' => r <- OSQueuePend (Some ev) 0 w ;; when (negb (fst r =? READ_BUFFER_OK)) fault ;;;
            ys <- pend_all ev w n' ;;
            ret (snd r :: ys)
  end.

Lemma post_all_lemma s ev e c q xs ys :
  queue_at s ev e c q xs -> q_OSEventWait e = 0 -> iNesting s = 0 ->
  Z.of_nat (length xs) + Z.of_nat (length ys) <= OSQSize q ->
  Forall (fun d => 0 <= d < 256) ys ->
  exists s' q', post_all ev ys s = Done tt s' /\ queue_at s' ev e c q' (xs ++ ys) /\ iNesting s' = 0.
Proof.
  revert s q xs. induction ys as [|y ys IH]; intros s q xs Hat Hwt Hn Hl Hf.
  - exists s, q. by rewrite app_nil_r.
  - inversion Hf as [|? ? Hy Hys]; subst. rewrite length_cons in Hl.
    destruct (OSQueuePost_store_lemma s ev e c q xs y) as (q' & m' & Hr & Hat' & Hsz);
      [done|done|lia|done|].
    destruct (IH (put_ring c q' m' s) q' (xs ++ [y])) as (s2 & q2 & Hr2 & Hat2 & Hn2);
      [done|done|done|rewrite length_app; cbn; lia|done|].
    exists s2, q2. split_and!; [|by rewrite <- app_assoc in Hat2|done].
    cbn [post_all]. unfold bind at 1. rewrite Hr. exact Hr2.
Qed.

Lemma pend_all_lemma s ev e c q ys xs w :
  queue_at s ev e c q (ys ++ xs) -> iNesting s = 0 ->
  exists s' q', pend_all ev w (length ys) s = Done ys s' /\ queue_at s' ev e c q' xs.
Proof.
  revert s q. induction ys as [|y ys IH]; intros s q Hat Hn.
  - by exists s, q.
  - destruct (OSQueuePend_read_lemma s ev e c q y (ys ++ xs) 0 w Hn Hat) as (q' & Hr & Hat' & _).
    destruct (IH _ q' Hat') as (s2 & q2 & Hr2 & Hat2); [done|].
    exists s2, q2. split; [|done]. cbn [length pend_all]. rewrite (bind_Done _ _ s _ _ Hr).
    cbn [fst snd]. rewrite Z.eqb_refl. unfold bind, when. cbn [negb rbind]. by rewrite Hr2.
Qed.

(** C7: a queue is a bounded FIFO.  Posting any bytes that fit, to a queue nobody
    waits on, and then reading as many bytes as it held returns first what the
    queue held before and then the posted bytes, in order, wherever the ring's
    pointers wrap around; the queue is empty afterwards. *)
Theorem OSQueue_fifo s ev e c q xs ys w :
  queue_at s ev e c q xs -> q_OSEventWait e = 0 -> iNesting s = 0 ->
  Z.of_nat (length xs) + Z.of_nat (length ys) <= OSQSize q ->
  Forall (fun d => 0 <= d < 256) ys ->
  exists s1 s2 q2, post_all ev ys s = Done tt s1 /\
    pend_all ev w (length (xs ++ ys)) s1 = Done (xs ++ ys) s2 /\ queue_at s2 ev e c q2 [].
Proof.
  intros Hat Hwt Hn Hl Hf.
  destruct (post_all_lemma s ev e c q xs ys) as (s1 & q1 & Hr1 & Hat1 & Hn1); [done..|].
  rewrite <- (app_nil_r (xs ++ ys)) in Hat1.
  destruct (pend_all_lemma s1 ev e c q1 (xs ++ ys) [] w) as (s2 & q2 & Hr2 & Hat2); [done..|].
  by exists s1, s2, q2.
Qed.

(** The bounds of a queue.  A post to a full queue returns BUFFER_UNDERRUN
    and changes nothing, waiters or not; polling an empty queue with NO_TIMEOUT
    returns EXIT_BY_NO_ENTRY_AVAILABLE and changes neither the system nor the
    caller's variable. *)
Theorem OSQueue_bounds s ev e c q xs d pd :
  queue_at s ev e c q xs ->
  (Z.of_nat (length xs) = OSQSize q -> OSQueuePost (Some ev) d s = Done BUFFER_UNDERRUN s) /\
  (xs = [] -> iNesting s = 0 ->
   OSQueuePend (Some ev) pd NO_TIMEOUT s = Done (EXIT_BY_NO_ENTRY_AVAILABLE, pd) s).
Proof.
  intros Hat. split; [by intros; eapply OSQueuePost_full_lemma|].
  intros -> Hn. destruct Hat as [He Ha Hp Hq Hr]. destruct (ring_rep_entries _ _ _ _ Hr) as [Hen _].
  unfold OSQueuePend. run. rewrite Hn, andb_false_r, andb_false_r. cbn.
  rewrite Ha, Z.eqb_refl, andb_false_r, Hp. run. rewrite Hen. cbn. run.
  rewrite Z.eqb_refl. by destruct s.
Qed.

(** A post to a queue with waiters stores the byte, releases the waiter of
    highest priority and gives the processor to the highest priority that can
    run; that waiter, suspended without a timeout, reads the oldest byte of the
    queue when it is dispatched in a state where the queue is not empty. *)
Theorem OSQueuePost_wakes s l ev e c q xs d :
  wf s l -> iNesting s = 0 -> is_Some (aget (ContextTask s) (currentTask s)) ->
  queue_at s ev e c q xs -> ev_ok s e -> q_OSEventWait e <> 0 ->
  Z.of_nat (length xs) < OSQSize q -> 0 <= d < 256 ->
  exists p s' k e' q', highest (q_OSEventWaitList e) p /\
    OSQueuePost (Some ev) d s = Yield s' k /\ wf s' l /\ dispatched s' /\
    OSReadyList s' = Z.lor (OSReadyList s) (2 ^ p) /\
    queue_at s' ev e' c q' (xs ++ [d]) /\ ev_ok s' e' /\
    members (q_OSEventWaitList e') = members (q_OSEventWaitList e) ∖ {[p]} /\
    (forall s2 e2 q2 x ys pd cur sr, queue_at s2 ev e2 c q2 (x :: ys) ->
       exists s3 q3, OSQueuePend_resume ev c pd cur 0 sr p s2 = Done (READ_BUFFER_OK, x) s3 /\
         queue_at s3 ev e2 c q3 ys).
Proof.
  intros Hw Hn Hcur Hat Hok Hwt Hlt Hd.
  destruct (OSQueuePost_put_lemma s ev e c q xs d Hat Hlt Hd)
    as (q' & m' & Hat' & Hsz & _ & _ & _ & _ & Hr).
  set (s1 := put_ring c q' m' (set_PRIMASK true s)) in Hr.
  pose proof Hat' as [He' Ha' Hp' Hq' Hr'].
  destruct (post_select_lemma s1 ev e) as (p & Hsel & Hh & Hp & Hl & Hok');
    [done|by apply (ev_ok_ext s)|done|].
  set (s2 := set_OSReadyList (Z.lor (OSReadyList s) (2 ^ p))
               (set_BRTOS_Queue_Table (aset (BRTOS_Queue_Table s) ev (ev_leave p e)) s1)).
  assert (wf s2 l) as Hw2.
  { apply (wf_ready_insert (set_BRTOS_Queue_Table
             (aset (BRTOS_Queue_Table s) ev (ev_leave p e)) s1)); [by apply (wf_ext s)|].
    destruct Hl as [t Ht]. exists t. by apply (task_at_ext s1). }
  destruct (ChangeContext_lemma s2 l Hw2) as (t & Hcc & Hw3 & Hdis & Hsp); [done|done|].
  destruct (switched_frame s2 t) as (Gr & _ & _ & _ & _ & _ & _ & _ & _ & Gq & Go & Gk).
  exists p, (switched t s2). eexists _, (ev_leave p e), q'.
  split_and!; [done| |done|done|by rewrite Gr| | | |].
  - rewrite Hr, (proj2 (Z.eqb_neq _ _) Hwt). cbn [negb]. unfold bind at 1. rewrite Hsel. cbn.
    rewrite ready_insert_eq by lia. cbn. rewrite Hn. cbn.
    match goal with |- context [ChangeContext ?x] => change x with s2 end.
    rewrite Hcc. reflexivity.
  - split; [rewrite Gq; by eapply aget_aset_eq|done|done|by rewrite Go|by rewrite Gk].
  - apply (ev_ok_same_prios s2); [done|by apply (ev_ok_ext s1)].
  - pose proof (members_leave (E := BRTOS_Queue) p e) as Hm. apply Hm. lia.
  - intros s4 e4 q4 x ys pd cur sr Hat4. pose proof Hat4 as [_ _ _ Hq4 Hr4].
    destruct (ring_read_rep _ _ _ _ _ Hr4) as (q5 & Hrd & Hrep & _).
    unfold OSQueuePend_resume. run. rewrite (queue_get_eq _ c q4 x q5) by done.
    eexists _, q5. split; [reflexivity|]. destruct Hat4.
    split; try done. cbn. by eapply aget_aset_eq.
Qed.

(** The entries counter can underflow.  Once a post released a waiter, the
    byte is open to any task until the waiter runs: a task that reads first takes
    it, and the released waiter still returns READ_BUFFER_OK, with a stale byte,
    and leaves the queue claiming 65535 entries. *)
Theorem OSQueue_steal_underflows s ev e c q x pd w :
  iNesting s = 0 -> queue_at s ev e c q [x] ->
  exists s1, OSQueuePend (Some ev) pd w s = Done (READ_BUFFER_OK, x) s1 /\
    forall cur p sr pd', exists y s2 q2,
      OSQueuePend_resume ev c pd' cur 0 sr p s1 = Done (READ_BUFFER_OK, y) s2 /\
      aget (BRTOS_OS_QUEUE_Table s2) c = Some q2 /\ OSQEntries q2 = 65535.
Proof.
  intros Hn Hat. destruct (OSQueuePend_read_lemma s ev e c q x [] pd w Hn Hat) as (q1 & Hr & Hat1 & _).
  eexists. split; [exact Hr|]. intros cur p sr pd'. destruct Hat1 as [_ _ _ Hq1 Hr1].
  destruct (ring_rep_entries _ _ _ _ Hr1) as [Hen _].
  destruct Hr1 as (_ & i & o & [Hs Hst He Hm _ Ho _ Hor _ _ _ _]).
  pose proof (slot_wrap 1 q1 o ltac:(lia) ltac:(lia) Hor) as Hwrap.
  destruct (slot_bounds 1 q1 (o mod OSQSize q1)) as [Hb1 Hb2]; [apply Z.mod_pos_bound; lia|].
  destruct (qload_is_Some 1 (QUEUE_STACK s) (slot 1 q1 (o mod OSQSize q1))) as [y Hy];
    [lia|cbn in Hm; lia|].
  assert (exists q2, ring_read 1 q1 (QUEUE_STACK s) = Some (y, q2) /\ OSQEntries q2 = 65535)
    as (q2 & Hrd & Hu).
  { unfold ring_read. rewrite Ho, He.
    destruct (slot 1 q1 o =? slot 1 q1 (OSQSize q1)); cbn [OSQOut set_OSQOut];
      rewrite ?Ho, Hwrap, Hy; eexists; (split; [reflexivity|]); cbn; by rewrite Hen. }
  exists y. eexists _, q2. unfold OSQueuePend_resume. run.
  rewrite (queue_get_eq _ c q1 y q2) by done. split_and!; [reflexivity| |done].
  cbn. by eapply aget_aset_eq.
Qed.

(** [OSQueuePend] and [OSQueuePost] read the queue through the pointer before
    they check it: a null pointer is dereferenced, also in builds with
    ERROR_CHECK, and the code NULL_EVENT_POINTER is never returned. *)
Theorem OSQueue_null_dereferenced s pd w d :
  OSQueuePend None pd w s = Fault /\ OSQueuePost None d s = Fault.
Proof. done. Qed.
End theorems.

(** ** Creating queues *)
Section create.
Context `{C : Config}.
Implicit Types (s : OS) (xs : list Z) (ev i j size : Z) (e : BRTOS_Queue) (q : OS_QUEUE).

(** The heap of queues: each allocated queue has its own ring, in the part of
    the heap already handed out, and the rings do not overlap. *)
Record queue_heap_ok (s : OS) : Prop := {
  qh_addr : 0 <= iQueueAddress s <= QUEUE_HEAP_SIZE / sizeof_OS_CPU_TYPE;
  qh_ring : forall i e, aget (BRTOS_Queue_Table s) i = Some e -> q_OSEventAllocated e = TRUE ->
    q_OSEventPointer e = Some i /\ exists q, aget (BRTOS_OS_QUEUE_Table s) i = Some q /\
      0 <= OSQStart q /\ OSQEnd q <= sizeof_OS_CPU_TYPE * iQueueAddress s;
  qh_disjoint : forall i j ei ej qi qj, i <> j ->
    aget (BRTOS_Queue_Table s) i = Some ei -> q_OSEventAllocated ei = TRUE ->
    aget (BRTOS_Queue_Table s) j = Some ej -> q_OSEventAllocated ej = TRUE ->
    aget (BRTOS_OS_QUEUE_Table s) i = Some qi -> aget (BRTOS_OS_QUEUE_Table s) j = Some qj ->
    OSQEnd qi <= OSQStart qj \/ OSQEnd qj <= OSQStart qi;
}.

Definition new_queue (i : Z) (e : BRTOS_Queue) : BRTOS_Queue :=
  mkQueue TRUE (q_OSEventCount e) 0 (Some i) 0.

(** The state after creating queue [i] with a ring of [sz] bytes. *)
Definition queue_created (s : OS) (i sz : Z) (e : BRTOS_Queue) : OS :=
  set_BRTOS_Queue_Table (aset (BRTOS_Queue_Table s) i (new_queue i e))
    (set_BRTOS_OS_QUEUE_Table (aset (BRTOS_OS_QUEUE_Table s) i
       (ring_new 1 (iQueueAddress s * sizeof_OS_CPU_TYPE) sz))
    (set_iQueueAddress (uint16 (iQueueAddress s + sz / sizeof_OS_CPU_TYPE)) s)).

Lemma OSQueueCreate_lemma s size event :
  Z.of_nat (length (BRTOS_Queue_Table s)) = BRTOS_MAX_QUEUE ->
  Z.of_nat (length (BRTOS_OS_QUEUE_Table s)) = BRTOS_MAX_QUEUE -> iNesting s = 0 ->
  if iQueueAddress s + fix_size size / sizeof_OS_CPU_TYPE >? QUEUE_HEAP_SIZE / sizeof_OS_CPU_TYPE
  then OSQueueCreate size event s = Done (NO_MEMORY, event) s
  else exists o, free_slot (E := BRTOS_Queue) s o /\
    match o with
    | Some i => exists e, aget (BRTOS_Queue_Table s) i = Some e /\ q_OSEventAllocated e <> TRUE /\
        OSQueueCreate size event s =
          Done (ALLOC_EVENT_OK, Some i) (queue_created s i (fix_size size) e)
    | None => OSQueueCreate size event s = Done (NO_AVAILABLE_EVENT, event) s
    end.
Proof.
  intros Hl1 Hl2 Hn. unfold OSQueueCreate. cbn. rewrite Hn. change (0 >? 0) with false. cbn.
  set (sz := fix_size size). destruct (_ >? _) eqn:Hf.
  - destruct (truthy (currentTask s)) eqn:Ec; run; by destruct s.
  - destruct (create_search (E := BRTOS_Queue) s BRTOS_MAX_QUEUE) as (o & Hr & Hfree); [done|].
    exists o. split; [done|]. unfold in_create in Hr. destruct o as [i|].
    + pose proof Hfree as [(e & He & Ha) _]. exists e. split_and!; [done|done|].
      cbn in He, Ha. pose proof (aget_lt _ _ _ He) as Hi.
      destruct (aget_is_Some (BRTOS_OS_QUEUE_Table s) i) as [q Hq]; [lia|].
      unfold upd_ev, queue_created, new_queue.
      destruct (truthy (currentTask s)) eqn:Ec; run; rewrite Hr; run; by destruct s.
    + destruct (truthy (currentTask s)) eqn:Ec; run; rewrite Hr; run; by destruct s.
Qed.

Lemma fix_size_ok size :
  0 < size <= 65532 -> size <= fix_size size <= 65532 /\ fix_size size mod 4 = 0.
Proof.
  intros Hs. unfold fix_size, truthy, sizeof_OS_CPU_TYPE. pose proof (Z.mod_pos_bound size 4).
  pose proof (Z.div_mod size 4). destruct (size mod 4 =? 0) eqn:E; to_prop; cbn; [lia|].
  rewrite uint16_small by lia. split; [lia|].
  replace (size + (4 - size mod 4)) with ((size / 4 + 1) * 4) by lia. apply Z_mod_mult.
Qed.

(** The ring of a new queue starts where the used part of the heap ends. *)
Lemma queue_created_ok s i sz e :
  queue_heap_ok s -> aget (BRTOS_Queue_Table s) i = Some e ->
  is_Some (aget (BRTOS_OS_QUEUE_Table s) i) ->
  QUEUE_HEAP_SIZE < 2 ^ 18 -> 0 < sz -> sz mod 4 = 0 ->
  iQueueAddress s + sz / sizeof_OS_CPU_TYPE <= QUEUE_HEAP_SIZE / sizeof_OS_CPU_TYPE ->
  queue_heap_ok (queue_created s i sz e).
Proof.
  intros [Ha Hr Hd] He [q0 Hq0] Hsz Hpos Hmod Hfit. unfold sizeof_OS_CPU_TYPE in *.
  pose proof (Z.div_mod sz 4). pose proof (Z.div_lt_upper_bound QUEUE_HEAP_SIZE 4 (2 ^ 16)).
  assert (iQueueAddress (queue_created s i sz e) = iQueueAddress s + sz / 4) as Haddr.
  { cbn. unfold sizeof_OS_CPU_TYPE. rewrite uint16_small; [done|lia]. }
  split; rewrite ?Haddr; unfold sizeof_OS_CPU_TYPE.
  - lia.
  - intros j ej. cbn. destruct (decide (i = j)) as [<-|Hne].
    + rewrite (aget_aset_eq _ _ _ _ He), (aget_aset_eq _ _ _ _ Hq0). intros [= <-] _.
      split; [done|]. eexists. split; [done|]. cbn. unfold sizeof_OS_CPU_TYPE. lia.
    + rewrite !aget_aset_ne by done. intros Hej Haj. destruct (Hr j ej Hej Haj) as (? & q & ? & ? & ?).
      split; [done|]. exists q. split_and!; [done|done|lia].
  - intros j k ej ek qj qk Hjk. cbn.
    destruct (decide (i = j)) as [<-|Hij], (decide (i = k)) as [<-|Hik]; [done|..];
      rewrite ?(aget_aset_eq _ _ _ _ He), ?(aget_aset_eq _ _ _ _ Hq0), ?aget_aset_ne by done.
    + intros [= <-] _ Hek Hak [= <-] Hqk. destruct (Hr k ek Hek Hak) as (_ & q & Hq & _ & ?).
      assert (q = qk) as -> by congruence. right. cbn. unfold sizeof_OS_CPU_TYPE. lia.
    + intros Hej Haj [= <-] _ Hqj [= <-]. destruct (Hr j ej Hej Haj) as (_ & q & Hq & _ & ?).
      assert (q = qj) as -> by congruence. left. cbn. unfold sizeof_OS_CPU_TYPE. lia.
    + by apply Hd.
Qed.

(** Creating a queue carves a fresh region out of the queue heap.  If the
    size, rounded up to whole words, does not fit it returns NO_MEMORY and
    changes nothing; if no control block is free, NO_AVAILABLE_EVENT and changes
    nothing; otherwise the first free block becomes an empty queue of at least
    the size asked for, whose ring overlaps no other queue's, and every other
    queue keeps its content. *)
Theorem OSQueueCreate_correct s size event :
  Z.of_nat (length (BRTOS_Queue_Table s)) = BRTOS_MAX_QUEUE ->
  Z.of_nat (length (BRTOS_OS_QUEUE_Table s)) = BRTOS_MAX_QUEUE -> iNesting s = 0 ->
  QUEUE_HEAP_SIZE <= Z.of_nat (length (QUEUE_STACK s)) -> QUEUE_HEAP_SIZE < 2 ^ 18 ->
  queue_heap_ok s -> 0 < size <= 65532 ->
  (OSQueueCreate size event s = Done (NO_MEMORY, event) s /\
   QUEUE_HEAP_SIZE < 4 * iQueueAddress s + fix_size size) \/
  (OSQueueCreate size event s = Done (NO_AVAILABLE_EVENT, event) s /\
   free_slot (E := BRTOS_Queue) s None) \/
  (exists i s' e q, OSQueueCreate size event s = Done (ALLOC_EVENT_OK, Some i) s' /\
   free_slot (E := BRTOS_Queue) s (Some i) /\ queue_at s' i e i q [] /\ ev_ok s' e /\
   size <= OSQSize q /\ queue_heap_ok s' /\
   forall ev e' c q' xs, queue_at s ev e' c q' xs -> queue_at s' ev e' c q' xs).
Proof.
  intros Hl1 Hl2 Hn Hm Hbig Hok Hs. destruct (fix_size_ok size Hs) as [Hfx Hmod].
  pose proof (OSQueueCreate_lemma s size event Hl1 Hl2 Hn) as Hrun.
  pose proof (Z.div_mod (fix_size size) 4). pose proof (Z.div_mod QUEUE_HEAP_SIZE 4).
  pose proof (Z.mod_pos_bound QUEUE_HEAP_SIZE 4). pose proof (qh_addr s Hok) as Haddr.
  destruct (_ >? _) eqn:Hf; to_prop; unfold sizeof_OS_CPU_TYPE in Hf, Haddr.
  - left. split; [done|lia].
  - right. destruct Hrun as ([i|] & Hfree & Hrun); [right|left; done].
    destruct Hrun as (e & He & Hna & Hrun). pose proof (aget_lt _ _ _ He).
    destruct (aget_is_Some (BRTOS_OS_QUEUE_Table s) i) as [q0 Hq0]; [lia|].
    eexists i, _, (new_queue i e), _. split_and!; [exact Hrun|done|..].
    + split; [by eapply aget_aset_eq|done|done|by eapply aget_aset_eq|].
      apply ring_new_rep; unfold sizeof_OS_CPU_TYPE; cbn; lia.
    + split; cbn; [pose proof PriorityType_bits_range; lia|by rewrite popcount_0|].
      intros p. by rewrite Z.testbit_0_l.
    + cbn. lia.
    + apply queue_created_ok; [done|done|by exists q0|done|lia|done|].
      unfold sizeof_OS_CPU_TYPE. lia.
    + intros ev e' c q' xs [He' Ha' Hp' Hq' Hr'].
      assert (i <> ev) by (intros <-; congruence).
      assert (c = ev) as -> by (destruct (qh_ring s Hok ev e' He' Ha') as [? _]; congruence).
      split; [|done|done| |done]; cbn; by rewrite aget_aset_ne.
Qed.

(** A size that rounds up past 65535 wraps to zero.  Asking for 65533 to
    65535 bytes always succeeds while a control block is free, however small the
    heap, and gives a queue that refuses every byte. *)
Theorem OSQueueCreate_size_wraps s size event i :
  Z.of_nat (length (BRTOS_Queue_Table s)) = BRTOS_MAX_QUEUE ->
  Z.of_nat (length (BRTOS_OS_QUEUE_Table s)) = BRTOS_MAX_QUEUE -> iNesting s = 0 ->
  iQueueAddress s <= QUEUE_HEAP_SIZE / sizeof_OS_CPU_TYPE ->
  free_slot (E := BRTOS_Queue) s (Some i) -> 65533 <= size <= 65535 ->
  exists j s', OSQueueCreate size event s = Done (ALLOC_EVENT_OK, Some j) s' /\
    forall d, OSQueuePost (Some j) d s' = Done BUFFER_UNDERRUN s'.
Proof.
  intros Hl1 Hl2 Hn Haddr [(ei & Hei & Hni) _] Hs.
  assert (fix_size size = 0) as Hz.
  { assert (size = 65533 \/ size = 65534 \/ size = 65535) as [->|[->| ->]] by lia; done. }
  pose proof (OSQueueCreate_lemma s size event Hl1 Hl2 Hn) as Hrun. rewrite Hz in Hrun.
  change (0 / sizeof_OS_CPU_TYPE) with 0 in Hrun. rewrite Z.add_0_r in Hrun.
  destruct (_ >? _) eqn:Hf; to_prop; [lia|].
  destruct Hrun as ([j|] & Hfree & Hrun); [|by apply Hfree in Hei].
  destruct Hrun as (e & He & _ & Hrun). eexists j, _. split; [exact Hrun|]. intros d.
  pose proof (aget_lt _ _ _ He). destruct (aget_is_Some (BRTOS_OS_QUEUE_Table s) j) as [q0 Hq0]; [lia|].
  set (s' := queue_created s j 0 e).
  assert (aget (BRTOS_Queue_Table s') j = Some (new_queue j e)) as He' by (by eapply aget_aset_eq).
  assert (exists q', aget (BRTOS_OS_QUEUE_Table s') j = Some q' /\ OSQEntries q' = 0 /\ OSQSize q' = 0)
    as (q' & Hq' & H1 & H2) by (eexists; split; [by eapply aget_aset_eq|done]).
  clearbody s'. unfold OSQueuePost. run. rewrite andb_false_r. cbn.
  rewrite andb_false_r. run. rewrite H1, H2. by destruct s'.
Qed.

(** The rings of 16- and 32-bit elements are bounded FIFOs too: on a ring
    that holds [xs], a write appends the element or, when the ring is full,
    returns BUFFER_UNDERRUN and changes nothing; a read returns and removes the
    head or, when the ring is empty, returns NO_ENTRY_AVAILABLE; and a write
    changes no byte outside the ring. *)
Theorem OSQueue16_32_fifo (w : nat) s q xs d pd :
  w = 2%nat \/ w = 4%nat -> ring_rep w q (QUEUE_STACK s) xs -> 0 <= d < 256 ^ Z.of_nat w ->
  let put := if (w =? 2)%nat then OSWQueue16 else OSWQueue32 in
  let get := if (w =? 2)%nat then OSRQueue16 else OSRQueue32 in
  (Z.of_nat (length xs) < OSQSize q ->
   exists q' m', put q d s = Done (WRITE_BUFFER_OK, q') (set_QUEUE_STACK m' s) /\
     ring_rep w q' m' (xs ++ [d]) /\
     (forall j, j < OSQStart q \/ OSQEnd q <= j -> aget m' j = aget (QUEUE_STACK s) j)) /\
  (Z.of_nat (length xs) = OSQSize q -> put q d s = Done (BUFFER_UNDERRUN, q) s) /\
  (forall x xs', xs = x :: xs' ->
   exists q', get q pd s = Done (READ_BUFFER_OK, x, q') s /\ ring_rep w q' (QUEUE_STACK s) xs') /\
  (xs = [] -> get q pd s = Done (NO_ENTRY_AVAILABLE, pd, q) s).
Proof.
  intros Hw Hr Hd put get. destruct (ring_rep_entries _ _ _ _ Hr) as [Hen Hle].
  assert (put q d s = ring_put w q d s) as -> by (by destruct Hw as [->| ->]).
  assert (get q pd s = ring_get w q pd s) as -> by (by destruct Hw as [->| ->]).
  clear put get. unfold ring_put, ring_get. cbn. split_and!.
  - intros Hlt. destruct (ring_write_rep _ _ _ _ d Hr) as (q' & m' & Hwr & Hrep & _ & _ & _ & _ & Hj);
      [done|done|].
    exists q', m'. split_and!; [|done|done].
    rewrite (proj2 (Z.ltb_lt (OSQEntries q) (OSQSize q))) by lia. cbn. rewrite Hwr. by destruct s.
  - intros Hf. rewrite (proj2 (Z.ltb_ge (OSQEntries q) (OSQSize q))) by lia. by destruct s.
  - intros x xs' ->. destruct (ring_read_rep _ _ _ _ _ Hr) as (q' & Hrd & Hrep & _).
    exists q'. split; [|done]. rewrite length_cons in Hen.
    assert ((OSQEntries q >? 0) = true) as -> by lia. cbn. rewrite Hrd. by destruct s.
  - intros ->. rewrite Hen. by destruct s.
Qed.
End create.

(** ** Examples *)
Section examples.
#[local] Existing Instance sample_config.

(** A queue of 8 bytes whose ring starts at offset 16 and is about to wrap. *)
Definition sample_ring (entries : Z) : OS_QUEUE := mkOS_QUEUE 16 24 (16 + entries mod 8) 24 8 entries.
Definition sample_qheap : list Z := map (fun n => n mod 256) (seqZ 0 1024).
Definition sample_queue (ready : Z) (e : BRTOS_Queue) (entries : Z) : OS :=
  sample_os [0; 5; 9] ready 2 [] [] [] [e] [sample_ring entries] sample_qheap.
Definition idle_queue : BRTOS_Queue := mkQueue TRUE 0 0 (Some 0) 0.
Definition waited_queue : BRTOS_Queue := mkQueue TRUE 0 1 (Some 0) (2 ^ 9).

(** It holds the [n] bytes from offset 16 on. *)
Lemma sample_ring_rep n :
  (n <= 7)%nat -> ring_rep 1 (sample_ring (Z.of_nat n)) sample_qheap (seqZ 16 (Z.of_nat n)).
Proof.
  intros Hn. split; [lia|]. exists (Z.of_nat n), 8.
  do 8 (destruct n as [|n]; [split; try done; intros k x Hk;
    do 8 (destruct k as [|k]; [cbn in Hk; simplify_eq; done|]); done|]).
  lia.
Qed.

Lemma sample_queue_at ready e n :
  q_OSEventAllocated e = TRUE -> q_OSEventPointer e = Some 0 -> (n <= 7)%nat ->
  queue_at (sample_queue ready e (Z.of_nat n)) 0 e 0 (sample_ring (Z.of_nat n)) (seqZ 16 (Z.of_nat n)).
Proof. intros Ha Hp Hn. split; try done. by apply sample_ring_rep. Qed.

Definition ready_5 : Z := 2 ^ 0 + 2 ^ 5.

Lemma OSQueue_fifo_witness :
  exists s1 s2 q2, post_all 0 [7; 8; 9] (sample_queue ready_5 idle_queue 3) = Done tt s1 /\
    pend_all 0 0 6 s1 = Done [16; 17; 18; 7; 8; 9] s2 /\ queue_at s2 0 idle_queue 0 q2 [].
Proof.
  apply (OSQueue_fifo (sample_queue ready_5 idle_queue 3) 0 idle_queue 0 (sample_ring 3)
           [16; 17; 18] [7; 8; 9] 0); [by apply (sample_queue_at _ _ 3); [..|lia]|done|done|by cbn|].
  repeat constructor; lia.
Defined.

Definition full_ring : OS_QUEUE := mkOS_QUEUE 16 24 24 24 8 8.
Definition full_queue : OS :=
  sample_os [0; 5; 9] ready_5 2 [] [] [] [idle_queue] [full_ring] sample_qheap.

Lemma OSQueue_bounds_witness :
  OSQueuePost (Some 0) 7 full_queue = Done BUFFER_UNDERRUN full_queue /\
  OSQueuePend (Some 0) 5 NO_TIMEOUT (sample_queue ready_5 idle_queue 0)
    = Done (EXIT_BY_NO_ENTRY_AVAILABLE, 5) (sample_queue ready_5 idle_queue 0).
Proof.
  split.
  - apply (OSQueue_bounds full_queue 0 idle_queue 0 full_ring (seqZ 16 8) 7 0); [|done].
    split; try done. split; [lia|]. exists 8, 8. split; try done.
    cbn. intros k x Hk. do 8 (destruct k as [|k]; [cbn in Hk; simplify_eq; done|]). done.
  - by apply (OSQueue_bounds (sample_queue ready_5 idle_queue 0) 0 idle_queue 0 (sample_ring 0) [] 7 5);
      [apply (sample_queue_at _ _ 0); [done|done|lia]|..].
Defined.

Lemma OSQueuePost_wakes_witness :
  exists p s' k e' q', highest (2 ^ 9) p /\
    OSQueuePost (Some 0) 7 (sample_queue ready_5 waited_queue 0) = Yield s' k /\ wf s' [] /\
    dispatched s' /\ OSReadyList s' = Z.lor ready_5 (2 ^ p) /\
    queue_at s' 0 e' 0 q' [7] /\ ev_ok s' e' /\
    members (q_OSEventWaitList e') = members (2 ^ 9) ∖ {[p]} /\
    (forall s2 e2 q2 x ys pd cur sr, queue_at s2 0 e2 0 q2 (x :: ys) ->
       exists s3 q3, OSQueuePend_resume 0 0 pd cur 0 sr p s2 = Done (READ_BUFFER_OK, x) s3 /\
         queue_at s3 0 e2 0 q3 ys).
Proof.
  apply (OSQueuePost_wakes (sample_queue ready_5 waited_queue 0) [] 0 waited_queue 0
           (sample_ring 0) [] 7);
    [by apply wfb_sound|done|by eexists|by apply (sample_queue_at _ _ 0); [..|lia]
    |by apply ev_okb_sound|done|done|done].
Defined.

Lemma OSQueue_steal_underflows_witness :
  exists s1, OSQueuePend (Some 0) 0 0 (sample_queue ready_5 idle_queue 1)
      = Done (READ_BUFFER_OK, 16) s1 /\
    forall cur p sr pd', exists y s2 q2,
      OSQueuePend_resume 0 0 pd' cur 0 sr p s1 = Done (READ_BUFFER_OK, y) s2 /\
      aget (BRTOS_OS_QUEUE_Table s2) 0 = Some q2 /\ OSQEntries q2 = 65535.
Proof.
  apply (OSQueue_steal_underflows (sample_queue ready_5 idle_queue 1) 0 idle_queue 0
           (sample_ring 1) 16 0 0); [done|by apply (sample_queue_at _ _ 1); [..|lia]].
Defined.

(** No queue created yet. *)
Definition no_queue : BRTOS_Queue := mkQueue 0 0 0 None 0.
Definition fresh_queues : OS :=
  sample_os [0; 5; 9] ready_5 2 [] [] [] (replicate 20 no_queue)
    (replicate 20 (mkOS_QUEUE 0 0 0 0 0 0)) sample_qheap.

Lemma fresh_heap_ok : queue_heap_ok fresh_queues.
Proof.
  assert (forall i e, aget (BRTOS_Queue_Table fresh_queues) i = Some e -> q_OSEventAllocated e = 0) as Hz.
  { intros i e. unfold aget. cbn. destruct (0 <=? i); [|done].
    change [no_queue; no_queue; no_queue; no_queue; no_queue; no_queue; no_queue; no_queue;
            no_queue; no_queue; no_queue; no_queue; no_queue; no_queue; no_queue; no_queue;
            no_queue; no_queue; no_queue; no_queue] with (replicate 20 no_queue).
    intros [-> _]%lookup_replicate. done. }
  split; [by cbn| |]; intros.
  - apply Hz in H. rewrite H in H0. done.
  - apply Hz in H0. rewrite H0 in H1. done.
Qed.

Lemma OSQueueCreate_correct_witness :
  (OSQueueCreate 30 None fresh_queues = Done (NO_MEMORY, None) fresh_queues /\
   QUEUE_HEAP_SIZE < 4 * iQueueAddress fresh_queues + fix_size 30) \/
  (OSQueueCreate 30 None fresh_queues = Done (NO_AVAILABLE_EVENT, None) fresh_queues /\
   free_slot (E := BRTOS_Queue) fresh_queues None) \/
  (exists i s' e q, OSQueueCreate 30 None fresh_queues = Done (ALLOC_EVENT_OK, Some i) s' /\
   free_slot (E := BRTOS_Queue) fresh_queues (Some i) /\ queue_at s' i e i q [] /\ ev_ok s' e /\
   30 <= OSQSize q /\ queue_heap_ok s' /\
   forall ev e' c q' xs, queue_at fresh_queues ev e' c q' xs -> queue_at s' ev e' c q' xs).
Proof.
  apply (OSQueueCreate_correct fresh_queues 30 None);
    [done|done|done|by vm_compute|done|apply fresh_heap_ok|lia].
Defined.

Lemma OSQueueCreate_size_wraps_witness :
  exists j s', OSQueueCreate 65535 None fresh_queues = Done (ALLOC_EVENT_OK, Some j) s' /\
    forall d, OSQueuePost (Some j) d s' = Done BUFFER_UNDERRUN s'.
Proof.
  apply (OSQueueCreate_size_wraps fresh_queues 65535 None 0); [done|done|done|by cbn| |lia].
  split; [by exists no_queue|]. intros j e Hj He. apply aget_lt in He. lia.
Defined.

(** A ring of two 16-bit elements at offset 4, holding one. *)
Definition ring16 : OS_QUEUE := mkOS_QUEUE 4 8 6 4 2 1.

Lemma OSQueue16_32_fifo_witness :
  exists q' m', OSWQueue16 ring16 0xBEEF (sample_queue ready_5 idle_queue 0)
      = Done (WRITE_BUFFER_OK, q') (set_QUEUE_STACK m' (sample_queue ready_5 idle_queue 0)) /\
    ring_rep 2 q' m' [0x0504; 0xBEEF] /\
    (forall j, j < 4 \/ 8 <= j -> aget m' j = aget sample_qheap j).
Proof.
  destruct (OSQueue16_32_fifo 2 (sample_queue ready_5 idle_queue 0) ring16 [0x0504] 0xBEEF 0)
    as [Hput _]; [by left| |done|exact (Hput eq_refl)].
  split; [lia|]. exists 1, 0. split; try done.
  cbn. intros [|k] x Hk; [|done]. cbn in Hk. by simplify_eq.
Defined.
End examples.
