(* ===== verification/DQueue.v ===== *)
(** * Dynamic queues

    The queues of brtos/queue.c whose control blocks and buffers come from the
    memory allocator, for elements of any size ([OSDQueueCreate] to
    [OSDQueuePost]).  Event control blocks, ring control blocks and bytes are
    addressed by the pointers the allocator returns; 0 is NULL.  An element is
    the list of its bytes. *)

From Stdlib Require Import ZArith Lia.
From stdpp Require Import base gmap numbers list.
From S2P Require Import Prelude Config State Sched DelayList Hal Clock Kernel Event Ring.
#[local] Open Scope Z_scope.
#[local] Open Scope prog_scope.

(** The control blocks of the dynamic queues as events. *)
Definition Event_DQueue `{C : Config} : Event BRTOS_Queue.
Proof.
  refine {| ev_table := HEAP_Queue; set_ev_table := set_HEAP_Queue;
            ev_wait := q_OSEventWait; ev_waitlist := q_OSEventWaitList;
            ev_alloc := q_OSEventAllocated;
            set_ev_wait := set_q_OSEventWait; set_ev_waitlist := set_q_OSEventWaitList |};
    try done.
  by intros s s' [=].
Defined.
#[local] Existing Instance Event_DQueue.

(** The sizes of the two structures on the Cortex-M4. *)
Definition sizeof_OS_DQUEUE : Z := 24.
Definition sizeof_BRTOS_Queue : Z := 12.

Section operations.
Context `{C : Config}.

(** Calls of the allocator. *)
Definition call_ALLOC (n : Z) : prog Z := fun s =>
  Done (fst (BRTOS_ALLOC n (heap s))) (set_heap (snd (BRTOS_ALLOC n (heap s))) s).
Definition call_DEALLOC (p : Z) : prog unit :=
  modify (fun s => set_heap (BRTOS_DEALLOC p (heap s)) s).

(** Assignments to the ring control block [cqueue]. *)
Definition upd_dq (cqueue : Z) (f : OS_DQUEUE -> OS_DQUEUE) : prog unit :=
  q <- read HEAP_DQUEUE cqueue ;; write HEAP_DQUEUE set_HEAP_DQUEUE cqueue (f q).

(** [OSDQueueCreate]; [event] is [*event] before the call, the result has it
    after. *)
Definition OSDQueueCreate (queue_length type_size : Z) (event : option Z)
    : prog (Z * option Z) :=
  nesting <- gets iNesting ;;
  if nesting >? 0 then ret (IRQ_PEND_ERR, event)
  else
    CPU_SR <- OSEnterCritical_started ;;
    if (queue_length >? 0) && (type_size >? 0) then
      (* Allocate the queue handler *)
      cqueue <- call_ALLOC sizeof_OS_DQUEUE ;;
      if negb (cqueue =? 0) then
        let size_in_bytes := uint16 (queue_length * type_size) in
        (* Allocate the queue in the heap *)
        start <- call_ALLOC size_in_bytes ;;
        upd_dq cqueue (set_DQStart start) ;;;
        q <- read HEAP_DQUEUE cqueue ;;
        if negb (DQStart q =? 0) then
          pont_event <- call_ALLOC sizeof_BRTOS_Queue ;;
          if pont_event =? 0 then
            q <- read HEAP_DQUEUE cqueue ;;
            call_DEALLOC (DQStart q) ;;;
            call_DEALLOC cqueue ;;;
            OSExitCritical_started CPU_SR ;;;
            ret (NO_AVAILABLE_EVENT, event)
          else
            upd_dq cqueue (set_DQLength queue_length) ;;;
            upd_dq cqueue (set_DQTSize (uint16 type_size)) ;;;
            upd_dq cqueue (set_DQEntries 0) ;;;
            upd_dq cqueue (fun q => set_DQEnd (DQStart q + size_in_bytes) q) ;;;
            upd_dq cqueue (fun q => set_DQIn (DQStart q) q) ;;;
            upd_dq cqueue (fun q => set_DQOut (DQStart q) q) ;;;
            upd_ev pont_event (set_q_OSEventPointer (Some cqueue)) ;;;
            upd_ev pont_event (set_q_OSEventWait 0) ;;;
            upd_ev pont_event (set_q_OSEventWaitList 0) ;;;
            OSExitCritical_started CPU_SR ;;;
            ret (ALLOC_EVENT_OK, Some pont_event)
        else
          call_DEALLOC cqueue ;;;
          OSExitCritical_started CPU_SR ;;;
          ret (NO_AVAILABLE_MEMORY, event)
      else
        OSExitCritical_started CPU_SR ;;;
        ret (NO_AVAILABLE_MEMORY, event)
    else
      OSExitCritical_started CPU_SR ;;;
      ret (INVALID_PARAMETERS, event).

(** [OSDQueueDelete] *)
Definition OSDQueueDelete (event : option Z) : prog (Z * option Z) :=
  pont_event <- deref event ;;
  e <- read HEAP_Queue pont_event ;;
  let cqueue := q_OSEventPointer e in
  nesting <- gets iNesting ;;
  if nesting >? 0 then ret (IRQ_PEND_ERR, event)
  else
    CPU_SR <- OSEnterCritical ;;
    c <- deref cqueue ;;
    q <- read HEAP_DQUEUE c ;;
    call_DEALLOC (DQStart q) ;;;
    call_DEALLOC c ;;;
    upd_ev pont_event (set_q_OSEventAllocated 0) ;;;
    upd_ev pont_event (set_q_OSEventCount 0) ;;;
    upd_ev pont_event (set_q_OSEventWait 0) ;;;
    upd_ev pont_event (set_q_OSEventWaitList 0) ;;;
    call_DEALLOC pont_event ;;;
    OSExitCritical CPU_SR ;;;
    ret (DELETE_EVENT_OK, None).

(** [OSDQueueClean] *)
Definition OSDQueueClean (pont_event : option Z) : prog Z :=
  ev <- deref pont_event ;;
  e <- read HEAP_Queue ev ;;
  let cqueue := q_OSEventPointer e in
  CPU_SR <- OSEnterCritical ;;
  c <- deref cqueue ;;
  upd_dq c (set_DQEntries 0) ;;;
  upd_dq c (fun q => set_DQIn (DQStart q) q) ;;;
  upd_dq c (fun q => set_DQOut (DQStart q) q) ;;;
  OSExitCritical CPU_SR ;;;
  ret CLEAN_BUFFER_OK.

(** [while(n) { *cqueue->OSQIn++ = *src++; n--; }]; [src] is what the pointer
    points to. *)
Fixpoint copy_in (n : nat) (cqueue : Z) (src : list Z) : prog unit :=
  match n with
  | O => ret tt
  | S n' =>
      match src with
      | [] => fault
      | b :: src' =>
          q <- read HEAP_DQUEUE cqueue ;;
          write HEAP_MEM set_HEAP_MEM (DQIn q) b ;;;
          upd_dq cqueue (fun q => set_DQIn (DQIn q + 1) q) ;;;
          copy_in n' cqueue src'
      end
  end.

(** [while(n) { *dst++ = *cqueue->OSQOut++; n--; }]; the result is the
    destination, whose next byte is [dst[k]]. *)
Fixpoint copy_out (n : nat) (cqueue : Z) (dst : list Z) (k : Z) : prog (list Z) :=
  match n with
  | O => ret dst
  | S n' =>
      q <- read HEAP_DQUEUE cqueue ;;
      b <- read HEAP_MEM (DQOut q) ;;
      _ <- lift (aget dst k) ;;
      upd_dq cqueue (fun q => set_DQOut (DQOut q + 1) q) ;;;
      copy_out n' cqueue (aset dst k b) (k + 1)
  end.

(** Storing an element of [n] bytes, and taking one out. *)
Definition dq_put (cqueue n : Z) (src : list Z) : prog unit :=
  upd_dq cqueue (fun q => set_DQEntries (uint16 (DQEntries q + 1)) q) ;;;
  upd_dq cqueue (fun q => if DQIn q =? DQEnd q then set_DQIn (DQStart q) q else q) ;;;
  copy_in (Z.to_nat n) cqueue src.
Definition dq_get (cqueue n : Z) (dst : list Z) : prog (list Z) :=
  upd_dq cqueue (fun q => if DQOut q =? DQEnd q then set_DQOut (DQStart q) q else q) ;;;
  dst <- copy_out (Z.to_nat n) cqueue dst 0 ;;
  upd_dq cqueue (fun q => set_DQEntries (uint16 (DQEntries q - 1)) q) ;;;
  ret dst.

(** [OSDQueuePend], from the return of [ChangeContext] on. *)
Definition OSDQueuePend_resume (ev c n : Z) (pdata : list Z) (cur time_wait : Z)
    (CPU_SR : bool) (iPriority : Z) : prog (Z * list Z) :=
  OSExitCritical CPU_SR ;;;
  CPU_SR <- OSEnterCritical ;;
  timedout <- (if truthy time_wait then pend_wakeup BRTOS_Queue ev cur iPriority
               else ret false) ;;
  if timedout : bool then
    OSExitCritical CPU_SR ;;;
    ret (TIMEOUT, pdata)
  else
    pdata <- dq_get c n pdata ;;
    OSExitCritical CPU_SR ;;;
    ret (READ_BUFFER_OK, pdata).

(** [OSDQueuePend]; [pdata] is what the pointer points to, before and after. *)
Definition OSDQueuePend (pont_event : option Z) (pdata : list Z) (time_wait : Z)
    : prog (Z * list Z) :=
  nesting <- gets iNesting ;;
  if ERROR_CHECK && (nesting >? 0) then ret (IRQ_PEND_ERR, pdata)
  else if ERROR_CHECK && bool_decide (pont_event = None) then ret (NULL_EVENT_POINTER, pdata)
  else
    CPU_SR <- OSEnterCritical ;;
    ev <- deref pont_event ;;
    e <- read HEAP_Queue ev ;;
    c <- deref (q_OSEventPointer e) ;;
    q <- read HEAP_DQUEUE c ;;
    let n := DQTSize q in
    if ERROR_CHECK && negb (q_OSEventAllocated e =? TRUE) then
      OSExitCritical CPU_SR ;;;
      ret (ERR_EVENT_NO_CREATED, pdata)
    else if DQEntries q >? 0 then
      pdata <- dq_get c n pdata ;;
      OSExitCritical CPU_SR ;;;
      ret (READ_BUFFER_OK, pdata)
    else if time_wait =? NO_TIMEOUT then
      OSExitCritical CPU_SR ;;;
      ret (EXIT_BY_NO_ENTRY_AVAILABLE, pdata)
    else
      cur <- gets currentTask ;;
      iPriority <- pend_enqueue BRTOS_Queue ev cur time_wait ;;
      ChangeContext ;;;
      OSDQueuePend_resume ev c n pdata cur time_wait CPU_SR iPriority.

(** [OSDQueuePost] *)
Definition OSDQueuePost (pont_event : option Z) (pdata : list Z) : prog Z :=
  if ERROR_CHECK && bool_decide (pont_event = None) then ret NULL_EVENT_POINTER
  else
    CPU_SR <- OSEnterCritical ;;
    ev <- deref pont_event ;;
    e <- read HEAP_Queue ev ;;
    c <- deref (q_OSEventPointer e) ;;
    q <- read HEAP_DQUEUE c ;;
    let n := DQTSize q in
    if ERROR_CHECK && negb (q_OSEventAllocated e =? TRUE) then
      OSExitCritical CPU_SR ;;;
      ret ERR_EVENT_NO_CREATED
    else if DQEntries q <? DQLength q then
      dq_put c n pdata ;;;
      e <- read HEAP_Queue ev ;;
      (if negb (q_OSEventWait e =? 0) then
         iPriority <- post_select BRTOS_Queue ev ;;
         ready_insert iPriority ;;;
         nesting <- gets iNesting ;;
         when (negb (truthy nesting)) ChangeContext ;;;
         OSExitCritical CPU_SR ;;;
         ret WRITE_BUFFER_OK
       else
         OSExitCritical CPU_SR ;;;
         ret WRITE_BUFFER_OK)
    else
      OSExitCritical CPU_SR ;;;
      ret BUFFER_UNDERRUN.
End operations.

Arguments call_ALLOC {C} n s /.
Arguments call_DEALLOC {C} p s /.
Arguments upd_dq {C} cqueue f s /.
Arguments dq_put : simpl never.
Arguments dq_get : simpl never.

(** ** Bytes and elements *)

Definition byte (b : Z) : Prop := 0 <= b < 256.

(** The bytes of an element as one little-endian number: the ring of Ring.v
    stores it. *)
Fixpoint le_val (bs : list Z) : Z :=
  match bs with
  | [] => 0
  | b :: bs' => b + 256 * le_val bs'
  end.

(** The [n] bytes at offset [a]. *)
Fixpoint mload (n : nat) (m : list Z) (a : Z) : option (list Z) :=
  match n with
  | O => Some []
  | S n' => b ← aget m a; bs ← mload n' m (a + 1); Some (b :: bs)
  end.

Lemma le_val_range bs : Forall byte bs -> 0 <= le_val bs < 256 ^ Z.of_nat (length bs).
Proof.
  induction 1 as [|b bs Hb _ IH]; cbn [le_val length]; [done|]. unfold byte in Hb.
  rewrite Nat2Z.inj_succ, Z.pow_succ_r by lia. lia.
Qed.

Lemma le_val_inj bs bs' :
  length bs = length bs' -> Forall byte bs -> Forall byte bs' -> le_val bs = le_val bs' -> bs = bs'.
Proof.
  revert bs'. induction bs as [|b bs IH]; intros [|b' bs'] Hl H1 H2 Hv; try done.
  apply Forall_cons in H1 as [Hb H1]. apply Forall_cons in H2 as [Hb' H2]. unfold byte in *.
  cbn [le_val] in Hv. assert (b = b' /\ le_val bs = le_val bs') as [-> He] by lia.
  f_equal. apply IH; [by injection Hl|done..].
Qed.

Lemma qload_mload n m a : qload n m a = le_val <$> mload n m a.
Proof.
  revert a. induction n as [|n IH]; intros a; [done|]. cbn. rewrite IH.
  destruct (aget m a); cbn; [|done]. by destruct (mload n m (a + 1)).
Qed.

Lemma mload_bytes n m a bs : Forall byte m -> mload n m a = Some bs -> Forall byte bs /\ length bs = n.
Proof.
  intros Hm. revert a bs. induction n as [|n IH]; intros a bs; cbn; [by intros [= <-]|].
  destruct (aget m a) as [b|] eqn:Hb; cbn; [|done].
  destruct (mload n m (a + 1)) as [bs'|] eqn:Hbs; cbn; [|done]. intros [= <-].
  destruct (IH _ _ Hbs) as [H1 H2]. split; [|cbn; lia]. constructor; [|done].
  unfold aget in Hb. case_match; [|done]. rewrite Forall_forall in Hm.
  by eapply Hm, list_elem_of_lookup_2.
Qed.

(** The bytes of an element that is in memory as a number. *)
Lemma mload_elem n m a x :
  Forall byte m -> Forall byte x -> length x = n -> qload n m a = Some (le_val x) ->
  mload n m a = Some x.
Proof.
  intros Hm Hx Hl Hq. rewrite qload_mload in Hq. destruct (mload n m a) as [bs|] eqn:Hb; [|done].
  cbn in Hq. injection Hq as Hv. destruct (mload_bytes _ _ _ _ Hm Hb) as [H1 H2].
  f_equal. apply le_val_inj; [congruence|done..].
Qed.

Lemma qstore_byte n m a v m' : Forall byte m -> qstore n m a v = Some m' -> Forall byte m'.
Proof.
  revert m a v. induction n as [|n IH]; intros m a v Hm; cbn; [by intros [= <-]|].
  destruct (aget m a) eqn:Ha; [|done]. apply IH. unfold aset. case_match; [|done].
  apply Forall_insert; [done|]. pose proof (Z.mod_pos_bound v 256). unfold byte. lia.
Qed.

(** A ring control block as one of Ring.v, and back. *)
Definition ring_of (q : OS_DQUEUE) : OS_QUEUE :=
  mkOS_QUEUE (DQStart q) (DQEnd q) (DQIn q) (DQOut q) (DQLength q) (DQEntries q).
Definition with_ring (q : OS_DQUEUE) (r : OS_QUEUE) : OS_DQUEUE :=
  mkOS_DQUEUE (OSQStart r) (OSQEnd r) (OSQIn r) (OSQOut r) (DQTSize q) (OSQSize r) (OSQEntries r).

(** ** Running the copy loops *)
Section copying.
Context `{C : Config}.
Implicit Types (s : OS) (q : OS_DQUEUE) (m : list Z) (c : Z).

(** The ring control block [c] and the bytes replaced. *)
Definition put_dq (c : Z) (q : OS_DQUEUE) (m : list Z) (s : OS) : OS :=
  set_HEAP_MEM m (set_HEAP_DQUEUE (aset (HEAP_DQUEUE s) c q) s).

Lemma put_dq_put_dq c q q' m m' s : put_dq c q m (put_dq c q' m' s) = put_dq c q m s.
Proof. unfold put_dq. cbn. by rewrite aset_aset. Qed.

Lemma aget_put_dq c q m s :
  is_Some (aget (HEAP_DQUEUE s) c) -> aget (HEAP_DQUEUE (put_dq c q m s)) c = Some q.
Proof. intros [q0 H]. by eapply aget_aset_eq. Qed.

Lemma copy_in_eq n : forall src s c q m',
  aget (HEAP_DQUEUE s) c = Some q -> length src = n -> Forall byte src ->
  qstore n (HEAP_MEM s) (DQIn q) (le_val src) = Some m' ->
  copy_in n c src s = Done tt (put_dq c (set_DQIn (DQIn q + Z.of_nat n) q) m' s).
Proof.
  induction n as [|n IH]; intros src s c q m' Hq Hl Hb Hm; cbn in Hm.
  - injection Hm as <-. cbn. rewrite Z.add_0_r. unfold put_dq. f_equal.
    rewrite aset_id; [by destruct s|]. by rewrite Hq; destruct q.
  - destruct src as [|b src]; [done|]. apply Forall_cons in Hb as [Hb Hbs]. unfold byte in Hb.
    destruct (aget (HEAP_MEM s) (DQIn q)) as [b0|] eqn:Hb0; [|done].
    cbn [le_val] in Hm.
    replace ((b + 256 * le_val src) mod 256) with b in Hm
      by (rewrite Z.mul_comm, Z_mod_plus_full, Z.mod_small by lia; done).
    replace ((b + 256 * le_val src) / 256) with (le_val src) in Hm
      by (rewrite Z.mul_comm, Z.div_add, Z.div_small by lia; lia).
    cbn [copy_in]. run.
    rewrite (IH src _ c (set_DQIn (DQIn q + 1) q) m').
    + unfold put_dq. cbn. rewrite aset_aset.
      by replace (DQIn q + Z.of_nat (S n)) with (DQIn q + 1 + Z.of_nat n) by lia.
    + cbn. by eapply aget_aset_eq.
    + by injection Hl.
    + done.
    + done.
Qed.

Lemma copy_out_eq n : forall pre mid suf bs s c q,
  aget (HEAP_DQUEUE s) c = Some q -> length mid = n ->
  mload n (HEAP_MEM s) (DQOut q) = Some bs ->
  copy_out n c (pre ++ mid ++ suf) (Z.of_nat (length pre)) s =
    Done (pre ++ bs ++ suf) (put_dq c (set_DQOut (DQOut q + Z.of_nat n) q) (HEAP_MEM s) s).
Proof.
  induction n as [|n IH]; intros pre mid suf bs s c q Hq Hl Hm; cbn in Hm.
  - injection Hm as <-. destruct mid; [|done]. cbn. rewrite Z.add_0_r. unfold put_dq. f_equal.
    rewrite aset_id; [by destruct s|]. by rewrite Hq; destruct q.
  - destruct mid as [|x mid]; [done|].
    destruct (aget (HEAP_MEM s) (DQOut q)) as [b|] eqn:Hb; cbn in Hm; [|done].
    destruct (mload n (HEAP_MEM s) (DQOut q + 1)) as [bs'|] eqn:Hbs; cbn in Hm; [|done].
    injection Hm as <-. cbn [copy_out]. run.
    assert (aget (pre ++ x :: mid ++ suf) (Z.of_nat (length pre)) = Some x) as Hx.
    { unfold aget. rewrite (proj2 (Z.leb_le _ _)) by lia. by rewrite Nat2Z.id, list_lookup_middle. }
    rewrite Hx. cbn. run.
    replace (aset (pre ++ x :: mid ++ suf) (Z.of_nat (length pre)) b)
      with ((pre ++ [b]) ++ mid ++ suf).
    2:{ unfold aset. rewrite (proj2 (Z.leb_le _ _)) by lia. rewrite Nat2Z.id.
        by rewrite <- (Nat.add_0_r (length pre)), insert_app_r, <- app_assoc. }
    replace (Z.of_nat (length pre) + 1) with (Z.of_nat (length (pre ++ [b])))
      by (rewrite length_app; cbn; lia).
    rewrite (IH _ _ _ bs' _ c (set_DQOut (DQOut q + 1) q)).
    + rewrite <- app_assoc. unfold put_dq. cbn. rewrite aset_aset.
      by replace (DQOut q + Z.of_nat (S n)) with (DQOut q + 1 + Z.of_nat n) by lia.
    + cbn. by eapply aget_aset_eq.
    + by injection Hl.
    + done.
Qed.

Lemma dq_put_eq s c q n x r' m' :
  aget (HEAP_DQUEUE s) c = Some q -> 0 <= n -> Z.of_nat (length x) = n -> Forall byte x ->
  ring_write (Z.to_nat n) (ring_of q) (HEAP_MEM s) (le_val x) = Some (r', m') ->
  dq_put c n x s = Done tt (put_dq c (with_ring q r') m' s).
Proof.
  intros Hq Hn Hl Hb Hr. unfold ring_write in Hr. cbn in Hr.
  unfold dq_put. run. unfold put_dq.
  set (q1 := if DQIn q =? DQEnd q then _ else _).
  match type of Hr with context [qstore _ _ (OSQIn ?r) _] => set (r1 := r) in Hr end.
  assert (r1 = ring_of q1 /\ DQTSize q1 = DQTSize q) as [Er Et]
    by (unfold r1, q1; cbn; by destruct (DQIn q =? DQEnd q)).
  destruct (qstore _ _ _ _) as [m1|] eqn:Hm; [|done]. injection Hr as <- <-.
  rewrite (copy_in_eq _ x _ c q1 m1).
  - unfold put_dq. cbn. rewrite aset_aset, Er. unfold with_ring. cbn. rewrite <- Et. by destruct q1.
  - cbn. by eapply aget_aset_eq.
  - lia.
  - done.
  - by rewrite Er in Hm.
Qed.

Lemma dq_get_eq s c q n dst x r' :
  aget (HEAP_DQUEUE s) c = Some q -> 0 <= n <= Z.of_nat (length dst) ->
  Z.of_nat (length x) = n -> Forall byte x -> Forall byte (HEAP_MEM s) ->
  ring_read (Z.to_nat n) (ring_of q) (HEAP_MEM s) = Some (le_val x, r') ->
  dq_get c n dst s = Done (x ++ drop (Z.to_nat n) dst) (put_dq c (with_ring q r') (HEAP_MEM s) s).
Proof.
  intros Hq Hn Hl Hb Hmem Hr. unfold ring_read in Hr. cbn in Hr. unfold dq_get. run.
  set (q1 := if DQOut q =? DQEnd q then _ else _).
  match type of Hr with context [qload _ _ (OSQOut ?r)] => set (r1 := r) in Hr end.
  assert (r1 = ring_of q1 /\ DQTSize q1 = DQTSize q) as [Er Et]
    by (unfold r1, q1; cbn; by destruct (DQOut q =? DQEnd q)).
  destruct (qload _ _ _) as [v|] eqn:Hm; [|done]. injection Hr as -> <-.
  rewrite Er in *. apply mload_elem in Hm; [|done|done|lia].
  rewrite <- (take_drop (Z.to_nat n) dst) at 1.
  change (copy_out ?k c (?a ++ ?b) 0) with (copy_out k c ([] ++ a ++ b) (Z.of_nat (length (@nil Z)))).
  rewrite (copy_out_eq _ [] _ _ x _ c q1).
  - unfold put_dq. cbn. rewrite aset_aset. run. unfold with_ring. cbn. rewrite <- Et. by destruct q1.
  - cbn. by eapply aget_aset_eq.
  - rewrite length_take. lia.
  - done.
Qed.
End copying.
