(* ===== verification/DQueueSpec.v ===== *)
(** * What the dynamic queues promise

    The specification of DQueue.v: a finite map from event pointers to bounded
    sequences of elements, each queue in three blocks of its own of the
    allocator.  Creating adds an empty queue or returns an error and leaks
    nothing; deleting gives the three blocks back; posting and pending act on one
    queue and leave every other as it was. *)

From Stdlib Require Import ZArith Lia.
From stdpp Require Import base gmap numbers list.
From S2P Require Import Prelude Config State Sched DelayList Hal Clock Kernel Event Ring DQueue.
#[local] Open Scope Z_scope.
#[local] Open Scope prog_scope.
#[local] Existing Instance Event_DQueue.

(** ** The contract of the allocator

    [blocks] are the live blocks, by address, with their sizes. *)
Class Allocator `{C : Config} := {
  heap_ok : heap_t -> Prop;
  blocks : heap_t -> gmap Z Z;
  heap_end : Z;
  blocks_range h p n :
    heap_ok h -> blocks h !! p = Some n -> 0 < p /\ 0 < n /\ p + n <= heap_end;
  blocks_disjoint h p n q m :
    heap_ok h -> blocks h !! p = Some n -> blocks h !! q = Some m -> p <> q ->
    p + n <= q \/ q + m <= p;
  alloc_law h n p h' :
    heap_ok h -> 0 < n < 2 ^ 16 -> BRTOS_ALLOC n h = (p, h') -> heap_ok h' /\
    ((p = 0 /\ blocks h' = blocks h) \/ (blocks h !! p = None /\ blocks h' = <[p := n]> (blocks h)));
  dealloc_law h p :
    heap_ok h -> is_Some (blocks h !! p) ->
    heap_ok (BRTOS_DEALLOC p h) /\ blocks (BRTOS_DEALLOC p h) = delete p (blocks h);
}.

(** ** The abstract queues *)

(** A queue: the addresses of its ring control block and of its buffer, the
    bytes of an element, the elements it has room for, those it holds, oldest
    first, and the priorities that wait for one. *)
Record dqueue := mkDQ {
  dq_ctl : Z;
  dq_buf : Z;
  dq_width : Z;
  dq_room : Z;
  dq_items : list (list Z);
  dq_waiters : gset Z;
}.

Definition with_items (xs : list (list Z)) (d : dqueue) : dqueue :=
  mkDQ (dq_ctl d) (dq_buf d) (dq_width d) (dq_room d) xs (dq_waiters d).
Definition with_waiters (W : gset Z) (d : dqueue) : dqueue :=
  mkDQ (dq_ctl d) (dq_buf d) (dq_width d) (dq_room d) (dq_items d) W.

(** An element of [w] bytes. *)
Definition element (w : Z) (x : list Z) : Prop := Z.of_nat (length x) = w /\ Forall byte x.

Section spec.
Context `{C : Config}.
Implicit Types (s : OS) (ev : Z) (e : BRTOS_Queue) (q : OS_DQUEUE) (d : dqueue) (x : list Z).

(** The event [ev], with control blocks [e] and [q], is the queue [d]. *)
Record dqueue_at (s : OS) (ev : Z) (e : BRTOS_Queue) (q : OS_DQUEUE) (d : dqueue) : Prop := {
  da_event : aget (HEAP_Queue s) ev = Some e;
  da_alloc : ERROR_CHECK = true -> q_OSEventAllocated e = TRUE;
  da_ptr : q_OSEventPointer e = Some (dq_ctl d);
  da_ring : aget (HEAP_DQUEUE s) (dq_ctl d) = Some q;
  da_start : DQStart q = dq_buf d;
  da_width : DQTSize q = dq_width d;
  da_pos : 0 < dq_width d;
  da_room : DQLength q = dq_room d;
  da_mem : Forall byte (HEAP_MEM s);
  da_items : Forall (element (dq_width d)) (dq_items d);
  da_rep : ring_rep (Z.to_nat (dq_width d)) (ring_of q) (HEAP_MEM s) (map le_val (dq_items d));
  da_ok : ev_ok s e;
  da_waiters : members (q_OSEventWaitList e) = dq_waiters d;
}.

Lemma dqueue_at_entries s ev e q d :
  dqueue_at s ev e q d ->
  DQEntries q = Z.of_nat (length (dq_items d)) /\ Z.of_nat (length (dq_items d)) <= dq_room d.
Proof.
  intros H. destruct (ring_rep_entries _ _ _ _ (da_rep _ _ _ _ _ H)) as [H1 H2].
  cbn in *. rewrite length_map, (da_room _ _ _ _ _ H) in *. done.
Qed.

Lemma dqueue_at_no_waiter s ev e q d :
  dqueue_at s ev e q d -> dq_waiters d = ∅ <-> q_OSEventWait e = 0.
Proof.
  intros H. rewrite <- (da_waiters _ _ _ _ _ H). exact (members_empty s e (da_ok _ _ _ _ _ H)).
Qed.

(** A queue only depends on its own blocks and on who is installed. *)
Lemma dqueue_at_frame s s' ev e q d :
  dqueue_at s ev e q d -> same_prios s s' ->
  aget (HEAP_Queue s') ev = aget (HEAP_Queue s) ev ->
  aget (HEAP_DQUEUE s') (dq_ctl d) = aget (HEAP_DQUEUE s) (dq_ctl d) ->
  Forall byte (HEAP_MEM s') -> length (HEAP_MEM s') = length (HEAP_MEM s) ->
  (forall j, dq_buf d <= j < dq_buf d + dq_room d * dq_width d ->
     aget (HEAP_MEM s') j = aget (HEAP_MEM s) j) ->
  dqueue_at s' ev e q d.
Proof.
  intros [He Ha Hp Hq Hs Hw Hpos Hr Hm Hi Hrep Hok HW] Hsp E1 E2 Hb Hl Hj.
  split; try done; [congruence|congruence| |by eapply ev_ok_same_prios].
  apply (ring_rep_frame _ _ (HEAP_MEM s)); [done|done|].
  intros j. rewrite (ring_rep_end _ _ _ _ Hrep). cbn. rewrite Hs, Hr, Z2Nat.id by lia.
  intros Hjr. apply Hj. lia.
Qed.

(** Storing an element in the ring, and taking the oldest out. *)
Lemma dq_put_lemma s ev e q d x :
  dqueue_at s ev e q d -> Z.of_nat (length (dq_items d)) < dq_room d -> element (dq_width d) x ->
  exists q' m', dq_put (dq_ctl d) (dq_width d) x s = Done tt (put_dq (dq_ctl d) q' m' s) /\
    dqueue_at (put_dq (dq_ctl d) q' m' s) ev e q' (with_items (dq_items d ++ [x]) d) /\
    Forall byte m' /\ length m' = length (HEAP_MEM s) /\
    (forall j, j < dq_buf d \/ dq_buf d + dq_room d * dq_width d <= j -> aget m' j = aget (HEAP_MEM s) j).
Proof.
  intros Hat Hlt [Hlx Hbx]. pose proof Hat as [He Ha Hp Hq Hs Hw Hpos Hr Hm Hi Hrep Hok HW].
  pose proof (le_val_range x Hbx) as Hv.
  destruct (ring_write_rep _ _ _ _ (le_val x) Hrep)
    as (r' & m' & Hwr & Hrep' & Hlen & H1 & H2 & H3 & Hj).
  { rewrite length_map. cbn. lia. }
  { rewrite Z2Nat.id by lia. by rewrite <- Hlx. }
  assert (Forall byte m') as Hm'.
  { unfold ring_write in Hwr. destruct (qstore _ _ _ _) as [m1|] eqn:E; [|done].
    injection Hwr as _ <-. by eapply qstore_byte. }
  exists (with_ring q r'), m'. split_and!; [| |done|done|].
  - apply (dq_put_eq _ _ q); [done|lia|done|done|done].
  - split; cbn; try done; try congruence.
    + by eapply aget_aset_eq.
    + by rewrite H1.
    + by rewrite H3.
    + apply Forall_app. split; [done|by repeat constructor].
    + rewrite map_app. unfold ring_of. cbn. by destruct r'.
    + by apply (ev_ok_ext s).
  - intros j Hjr. apply Hj. rewrite (ring_rep_end _ _ _ _ Hrep). cbn. rewrite Hs, Hr, Z2Nat.id by lia. lia.
Qed.

Lemma dq_get_lemma s ev e q d x xs dst :
  dqueue_at s ev e q d -> dq_items d = x :: xs -> dq_width d <= Z.of_nat (length dst) ->
  exists q', dq_get (dq_ctl d) (dq_width d) dst s =
      Done (x ++ drop (Z.to_nat (dq_width d)) dst) (put_dq (dq_ctl d) q' (HEAP_MEM s) s) /\
    dqueue_at (put_dq (dq_ctl d) q' (HEAP_MEM s) s) ev e q' (with_items xs d).
Proof.
  intros Hat Hd Hdst. pose proof Hat as [He Ha Hp Hq Hs Hw Hpos Hr Hm Hi Hrep Hok HW].
  rewrite Hd in Hi, Hrep. apply Forall_cons in Hi as [[Hlx Hbx] Hi]. cbn [map] in Hrep.
  destruct (ring_read_rep _ _ _ _ _ Hrep) as (r' & Hrd & Hrep' & H1 & H2 & H3).
  exists (with_ring q r'). split.
  - apply (dq_get_eq _ _ q); [done|lia|done|done|done|done].
  - split; cbn; try done; try congruence.
    + by eapply aget_aset_eq.
    + by rewrite H1.
    + by rewrite H3.
    + unfold ring_of. cbn. by destruct r'.
    + by apply (ev_ok_ext s).
Qed.
End spec.

(** ** The map of queues *)
Section map.
Context `{C : Config} {AL : Allocator}.
Implicit Types (s : OS) (ev : Z) (e : BRTOS_Queue) (q : OS_DQUEUE) (d : dqueue) (x : list Z).
Implicit Types (Q : gmap Z dqueue).

(** The blocks of a queue. *)
Definition parts (ev : Z) (d : dqueue) : list Z := [ev; dq_ctl d; dq_buf d].
Definition owns (B : gmap Z Z) (ev : Z) (d : dqueue) : Prop :=
  B !! ev = Some sizeof_BRTOS_Queue /\ B !! dq_ctl d = Some sizeof_OS_DQUEUE /\
  B !! dq_buf d = Some (dq_room d * dq_width d) /\ NoDup (parts ev d).

(** The memory the allocator hands out is the heap the queues live in. *)
Definition heap_seen (s : OS) : Prop :=
  heap_end <= Z.of_nat (length (HEAP_Queue s)) /\ heap_end <= Z.of_nat (length (HEAP_DQUEUE s)) /\
  heap_end <= Z.of_nat (length (HEAP_MEM s)).

(** The dynamic queues of [s] are [Q]: each is well formed, and its three blocks
    are live and no other queue's. *)
Record dqueues (s : OS) (Q : gmap Z dqueue) : Prop := {
  ds_heap : heap_ok (heap s);
  ds_seen : heap_seen s;
  ds_mem : Forall byte (HEAP_MEM s);
  ds_at : forall ev d, Q !! ev = Some d -> exists e q, dqueue_at s ev e q d;
  ds_own : forall ev d, Q !! ev = Some d -> owns (blocks (heap s)) ev d;
  ds_sep : forall ev1 d1 ev2 d2 a, Q !! ev1 = Some d1 -> Q !! ev2 = Some d2 ->
    a ∈ parts ev1 d1 -> a ∈ parts ev2 d2 -> ev1 = ev2;
}.

Lemma parts_ev ev d : ev ∈ parts ev d.
Proof. left. Qed.
Lemma parts_ctl ev d : dq_ctl d ∈ parts ev d.
Proof. right; left. Qed.
Lemma parts_buf ev d : dq_buf d ∈ parts ev d.
Proof. right; right; left. Qed.

(** The parts of different queues differ, and their buffers do not overlap. *)
Lemma ds_apart s Q ev1 d1 ev2 d2 :
  dqueues s Q -> Q !! ev1 = Some d1 -> Q !! ev2 = Some d2 -> ev1 <> ev2 ->
  dq_ctl d1 <> dq_ctl d2 /\
  (dq_buf d1 + dq_room d1 * dq_width d1 <= dq_buf d2 \/
   dq_buf d2 + dq_room d2 * dq_width d2 <= dq_buf d1).
Proof.
  intros H H1 H2 Hne. split.
  - intros E. apply Hne. apply (ds_sep _ _ H _ _ _ _ (dq_ctl d1) H1 H2); [apply parts_ctl|].
    rewrite E. apply parts_ctl.
  - destruct (ds_own _ _ H _ _ H1) as (_ & _ & B1 & _), (ds_own _ _ H _ _ H2) as (_ & _ & B2 & _).
    apply (blocks_disjoint (heap s)); [apply H|done..|].
    intros E. apply Hne. apply (ds_sep _ _ H _ _ _ _ (dq_buf d1) H1 H2); [apply parts_buf|].
    rewrite E. apply parts_buf.
Qed.

(** Nothing but the queues' memory and the priorities of the tasks matter. *)
Lemma dqueues_ext s s' Q :
  dqueues s Q -> same_prios s s' -> HEAP_Queue s' = HEAP_Queue s -> HEAP_DQUEUE s' = HEAP_DQUEUE s ->
  HEAP_MEM s' = HEAP_MEM s -> heap s' = heap s -> dqueues s' Q.
Proof.
  intros [Hh Hs Hm Ha Ho Hp] Hsp E1 E2 E3 E4.
  split; unfold heap_seen in *; rewrite ?E1, ?E2, ?E3, ?E4; try done.
  intros ev d Hd. destruct (Ha ev d Hd) as (e & q & Hat). exists e, q.
  apply (dqueue_at_frame s); by rewrite ?E1, ?E2, ?E3.
Qed.

(** A change of one queue, within its own blocks. *)
Lemma dqueues_update s s' Q ev d d' e' q' :
  dqueues s Q -> Q !! ev = Some d -> dqueue_at s' ev e' q' d' -> same_prios s s' ->
  dq_ctl d' = dq_ctl d -> dq_buf d' = dq_buf d -> dq_width d' = dq_width d -> dq_room d' = dq_room d ->
  heap s' = heap s -> length (HEAP_MEM s') = length (HEAP_MEM s) ->
  length (HEAP_Queue s') = length (HEAP_Queue s) -> length (HEAP_DQUEUE s') = length (HEAP_DQUEUE s) ->
  (forall a, a <> ev -> aget (HEAP_Queue s') a = aget (HEAP_Queue s) a) ->
  (forall a, a <> dq_ctl d -> aget (HEAP_DQUEUE s') a = aget (HEAP_DQUEUE s) a) ->
  (forall j, j < dq_buf d \/ dq_buf d + dq_room d * dq_width d <= j ->
     aget (HEAP_MEM s') j = aget (HEAP_MEM s) j) ->
  dqueues s' (<[ev := d']> Q).
Proof.
  intros H Hd Hat' Hsp Ec Eb Ew Er Eh El1 El2 El3 F1 F2 F3.
  pose proof H as [Hh Hs Hm Ha Ho Hp].
  assert (parts ev d' = parts ev d) as Eparts by (unfold parts; by rewrite Ec, Eb).
  split.
  - by rewrite Eh.
  - unfold heap_seen in *. lia.
  - by eapply da_mem.
  - intros ev2 d2. destruct (decide (ev = ev2)) as [<-|Hne].
    + rewrite lookup_insert_eq. intros [= <-]. eauto.
    + rewrite lookup_insert_ne by done. intros Hd2. destruct (Ha ev2 d2 Hd2) as (e2 & q2 & Hat2).
      destruct (ds_apart s Q ev d ev2 d2 H Hd Hd2 Hne) as [Hc Hb].
      exists e2, q2. apply (dqueue_at_frame s); [done|done|by apply F1|by apply F2|by eapply da_mem|done|].
      intros j Hj. apply F3. lia.
  - intros ev2 d2. rewrite Eh. destruct (decide (ev = ev2)) as [<-|Hne].
    + rewrite lookup_insert_eq. intros [= <-]. unfold owns. rewrite Eparts, Ec, Eb, Ew, Er. by apply Ho.
    + rewrite lookup_insert_ne by done. apply Ho.
  - intros ev1 d1 ev2 d2 a H1 H2.
    assert (forall ev' d1, <[ev:=d']> Q !! ev' = Some d1 ->
      exists d0, Q !! ev' = Some d0 /\ parts ev' d1 = parts ev' d0) as Hget.
    { intros ev' d0. destruct (decide (ev = ev')) as [<-|].
      - rewrite lookup_insert_eq. intros [= <-]. eauto.
      - rewrite lookup_insert_ne by done. eauto. }
    destruct (Hget _ _ H1) as (? & ? & ->), (Hget _ _ H2) as (? & ? & ->). by apply Hp.
Qed.

Lemma dqueues_put s Q ev d xs e q' m' :
  dqueues s Q -> Q !! ev = Some d ->
  dqueue_at (put_dq (dq_ctl d) q' m' s) ev e q' (with_items xs d) ->
  length m' = length (HEAP_MEM s) ->
  (forall j, j < dq_buf d \/ dq_buf d + dq_room d * dq_width d <= j -> aget m' j = aget (HEAP_MEM s) j) ->
  dqueues (put_dq (dq_ctl d) q' m' s) (<[ev := with_items xs d]> Q).
Proof.
  intros H Hd Hat Hl Hj. eapply (dqueues_update s); try done.
  - by apply same_prios_ctx.
  - cbn. apply length_aset.
  - intros a Ha. cbn. by apply aget_aset_ne.
Qed.

Lemma dqueues_event s Q ev d e' q W :
  dqueues s Q -> Q !! ev = Some d ->
  dqueue_at (set_HEAP_Queue (aset (HEAP_Queue s) ev e') s) ev e' q (with_waiters W d) ->
  dqueues (set_HEAP_Queue (aset (HEAP_Queue s) ev e') s) (<[ev := with_waiters W d]> Q).
Proof.
  intros H Hd Hat. eapply (dqueues_update s); try done.
  - by apply same_prios_ctx.
  - cbn. apply length_aset.
  - intros a Ha. cbn. by apply aget_aset_ne.
Qed.
End map.

(** ** Posting and pending *)
Section ops.
Context `{C : Config} {AL : Allocator}.
Implicit Types (s : OS) (ev p t w : Z) (l : list Z) (e : BRTOS_Queue) (q : OS_DQUEUE) (d : dqueue) (x : list Z).
Implicit Types (Q : gmap Z dqueue).

Lemma dqueue_at_masked s ev e q d b : dqueue_at s ev e q d -> dqueue_at (set_PRIMASK b s) ev e q d.
Proof.
  intros H. apply (dqueue_at_frame s); [done|by apply same_prios_ctx|done|done| |done|done].
  exact (da_mem _ _ _ _ _ H).
Qed.

Lemma OSDQueuePost_put_lemma s Q ev d x :
  dqueues s Q -> Q !! ev = Some d -> Z.of_nat (length (dq_items d)) < dq_room d ->
  element (dq_width d) x ->
  exists e q' m', let s1 := put_dq (dq_ctl d) q' m' s in
    dqueue_at s1 ev e q' (with_items (dq_items d ++ [x]) d) /\
    dqueues s1 (<[ev := with_items (dq_items d ++ [x]) d]> Q) /\
    OSDQueuePost (Some ev) x s =
      (if negb (q_OSEventWait e =? 0) then
         iPriority <- post_select BRTOS_Queue ev ;;
         ready_insert iPriority ;;;
         nesting <- gets iNesting ;;
         when (negb (truthy nesting)) ChangeContext ;;;
         OSExitCritical (PRIMASK s) ;;;
         ret WRITE_BUFFER_OK
       else
         OSExitCritical (PRIMASK s) ;;;
         ret WRITE_BUFFER_OK) (set_PRIMASK true s1).
Proof.
  intros H Hd Hlt Hx. destruct (ds_at _ _ H ev d Hd) as (e & q & Hat).
  destruct (dqueue_at_entries _ _ _ _ _ Hat) as [Hen _].
  destruct (dq_put_lemma s ev e q d x Hat Hlt Hx) as (q' & m' & _ & Hat' & Hb & Hl & Hj).
  destruct (dq_put_lemma (set_PRIMASK true s) ev e q d x) as (q2 & m2 & Hr & Hat2 & Hb2 & Hl2 & Hj2);
    [by apply dqueue_at_masked|done|done|].
  pose proof Hat as [He Ha Hp Hq Hs Hw Hpos Hrm _ _ _ _ _].
  exists e, q2, m2. split_and!.
  - by apply (dqueue_at_masked _ _ _ _ _ (PRIMASK s)) in Hat2; destruct s.
  - apply (dqueues_put s _ _ _ _ e q2 m2); [done|done| |done|done].
    by apply (dqueue_at_masked _ _ _ _ _ (PRIMASK s)) in Hat2; destruct s.
  - unfold OSDQueuePost. rewrite bool_decide_eq_false_2, andb_false_r by done. run.
    rewrite Hp. run.
    replace (ERROR_CHECK && negb (q_OSEventAllocated e =? TRUE)) with false.
    2:{ destruct ERROR_CHECK; [|done]. by rewrite Ha. }
    rewrite Hen, Hrm, (proj2 (Z.ltb_lt _ _)) by lia. rewrite Hw.
    unfold bind at 1. rewrite Hr. cbn. run. done.
Qed.

Lemma OSDQueuePend_read_lemma s Q ev d x xs dst w :
  dqueues s Q -> Q !! ev = Some d -> dq_items d = x :: xs -> iNesting s = 0 ->
  dq_width d <= Z.of_nat (length dst) ->
  exists s', OSDQueuePend (Some ev) dst w s =
      Done (READ_BUFFER_OK, x ++ drop (Z.to_nat (dq_width d)) dst) s' /\
    dqueues s' (<[ev := with_items xs d]> Q) /\ iNesting s' = 0.
Proof.
  intros H Hd Hxs Hn Hdst. destruct (ds_at _ _ H ev d Hd) as (e & q & Hat).
  destruct (dqueue_at_entries _ _ _ _ _ Hat) as [Hen _].
  destruct (dq_get_lemma (set_PRIMASK true s) ev e q d x xs dst) as (q' & Hr & Hat');
    [by apply dqueue_at_masked|done|done|].
  pose proof Hat as [He Ha Hp Hq Hs Hw Hpos Hrm _ _ _ _ _].
  exists (put_dq (dq_ctl d) q' (HEAP_MEM s) s). split_and!; [|apply (dqueues_put s _ _ _ _ e); try done|done].
  - unfold OSDQueuePend. run. rewrite Hn, !andb_false_r.
    cbn. run. rewrite Hp. run.
    replace (ERROR_CHECK && negb (q_OSEventAllocated e =? TRUE)) with false.
    2:{ destruct ERROR_CHECK; [|done]. by rewrite Ha. }
    rewrite Hen, Hxs. cbn [length]. rewrite Nat2Z.inj_succ.
    assert ((Z.succ (Z.of_nat (length xs)) >? 0) = true) as -> by (rewrite Z.gtb_ltb, Z.ltb_lt; pose proof (Nat2Z.is_nonneg (length xs)); lia).
    rewrite Hw. unfold bind at 1. rewrite Hr. cbn. by destruct s.
  - by apply (dqueue_at_masked _ _ _ _ _ (PRIMASK s)) in Hat'; destruct s.
Qed.

(** Posting the elements [ys] one after the other, and taking [n] elements into
    buffers [dst]. *)
Fixpoint dq_post_all (ev : Z) (ys : list (list Z)) : prog unit :=
  match ys with
  | [] => ret tt
  | y :: ys' => r <- OSDQueuePost (Some ev) y ;; when (negb (r =? WRITE_BUFFER_OK)) fault ;;;
                dq_post_all ev ys'
  end.
Fixpoint dq_pend_all (ev w : Z) (dst : list Z) (n : nat) : prog (list (list Z)) :=
  match n with
  | O => ret []
  | S n' => r <- OSDQueuePend (Some ev) dst w ;; when (negb (fst r =? READ_BUFFER_OK)) fault ;;;
            ys <- dq_pend_all ev w dst n' ;;
            ret (snd r :: ys)
  end.

Lemma with_items_twice xs ys d : with_items xs (with_items ys d) = with_items xs d.
Proof. done. Qed.

Lemma OSDQueuePost_store_lemma s Q ev d x :
  dqueues s Q -> Q !! ev = Some d -> dq_waiters d = ∅ ->
  Z.of_nat (length (dq_items d)) < dq_room d -> element (dq_width d) x ->
  exists s', OSDQueuePost (Some ev) x s = Done WRITE_BUFFER_OK s' /\
    dqueues s' (<[ev := with_items (dq_items d ++ [x]) d]> Q) /\ iNesting s' = iNesting s.
Proof.
  intros H Hd HW Hlt Hx.
  destruct (OSDQueuePost_put_lemma s Q ev d x) as (e & q' & m' & Hat & Hq & Hr); [done..|].
  eexists. split_and!; [|exact Hq|done].
  rewrite Hr. apply (dqueue_at_no_waiter _ _ _ _ _ Hat) in HW as ->. by destruct s.
Qed.

Lemma dq_post_all_lemma ys : forall s Q ev d,
  dqueues s Q -> Q !! ev = Some d -> dq_waiters d = ∅ ->
  Z.of_nat (length (dq_items d)) + Z.of_nat (length ys) <= dq_room d ->
  Forall (element (dq_width d)) ys ->
  exists s', dq_post_all ev ys s = Done tt s' /\
    dqueues s' (<[ev := with_items (dq_items d ++ ys) d]> Q) /\ iNesting s' = iNesting s.
Proof.
  induction ys as [|y ys IH]; intros s Q ev d H Hd HW Hl Hys.
  - exists s. rewrite app_nil_r. split_and!; [done| |done].
    replace (with_items (dq_items d) d) with d by (by destruct d). by rewrite insert_id.
  - apply Forall_cons in Hys as [Hy Hys]. cbn [length] in Hl.
    destruct (OSDQueuePost_store_lemma s Q ev d y) as (s1 & Hr & H1 & Hn1); [done..|lia|done|].
    destruct (IH s1 _ ev _ H1 (lookup_insert_eq _ _ _)) as (s2 & Hr2 & H2 & Hn2);
      [done|cbn; rewrite length_app; cbn; lia|done|].
    exists s2. cbn [dq_post_all]. unfold bind at 1. rewrite Hr.
    rewrite insert_insert_eq, with_items_twice in H2. cbn in H2.
    rewrite <- app_assoc in H2. split_and!; [exact Hr2|done|congruence].
Qed.

Lemma dq_pend_all_lemma w dst : forall xs s Q ev d rest,
  dqueues s Q -> Q !! ev = Some d -> dq_items d = xs ++ rest -> iNesting s = 0 ->
  dq_width d <= Z.of_nat (length dst) ->
  exists s', dq_pend_all ev w dst (length xs) s =
      Done (map (fun x => x ++ drop (Z.to_nat (dq_width d)) dst) xs) s' /\
    dqueues s' (<[ev := with_items rest d]> Q).
Proof.
  induction xs as [|x xs IH]; intros s Q ev d rest H Hd Hxs Hn Hdst.
  - exists s. cbn in Hxs. split; [done|]. rewrite <- Hxs.
    replace (with_items (dq_items d) d) with d by (by destruct d). by rewrite insert_id.
  - destruct (OSDQueuePend_read_lemma s Q ev d x (xs ++ rest) dst w) as (s1 & Hr & H1 & Hn1); [done..|].
    destruct (IH s1 _ ev _ rest H1 (lookup_insert_eq _ _ _)) as (s2 & Hr2 & H2); [done|done|done|].
    exists s2. cbn [length dq_pend_all]. rewrite (bind_Done _ _ s _ _ Hr). cbn [fst snd].
    rewrite Z.eqb_refl. unfold bind, when. cbn [negb rbind]. rewrite Hr2. cbn.
    rewrite insert_insert_eq, with_items_twice in H2. done.
Qed.

(** C8: a dynamic queue is a bounded FIFO of elements of any size, in memory of its
    own.  Posting elements that fit to a queue nobody waits on and then taking as
    many as it held returns first what it held and then the posted elements, byte
    for byte and in order, into the first bytes of the caller's buffer, wherever
    the ring wraps; the queue ends empty and every other dynamic queue is as it
    was. *)
Theorem OSDQueue_fifo s Q ev d ys dst w :
  dqueues s Q -> Q !! ev = Some d -> dq_waiters d = ∅ -> iNesting s = 0 ->
  Z.of_nat (length (dq_items d)) + Z.of_nat (length ys) <= dq_room d ->
  Forall (element (dq_width d)) ys -> dq_width d <= Z.of_nat (length dst) ->
  exists s1 s2, dq_post_all ev ys s = Done tt s1 /\
    dqueues s1 (<[ev := with_items (dq_items d ++ ys) d]> Q) /\
    dq_pend_all ev w dst (length (dq_items d ++ ys)) s1 =
      Done (map (fun x => x ++ drop (Z.to_nat (dq_width d)) dst) (dq_items d ++ ys)) s2 /\
    dqueues s2 (<[ev := with_items [] d]> Q).
Proof.
  intros H Hd HW Hn Hl Hys Hdst.
  destruct (dq_post_all_lemma ys s Q ev d) as (s1 & Hr1 & H1 & Hn1); [done..|].
  destruct (dq_pend_all_lemma w dst (dq_items d ++ ys) s1 _ ev _ [] H1 (lookup_insert_eq _ _ _))
    as (s2 & Hr2 & H2); [by rewrite app_nil_r|congruence|done|].
  exists s1, s2. rewrite insert_insert_eq, with_items_twice in H2. split_and!; try done.
Qed.
End ops.

(** ** Waiting *)
Section wait.
Context `{C : Config} {AL : Allocator}.
Implicit Types (s : OS) (ev p t w : Z) (l : list Z) (e : BRTOS_Queue) (q : OS_DQUEUE) (d : dqueue) (x : list Z).
Implicit Types (Q : gmap Z dqueue).

Lemma switched_views s t :
  HEAP_Queue (switched t s) = HEAP_Queue s /\ HEAP_DQUEUE (switched t s) = HEAP_DQUEUE s /\
  HEAP_MEM (switched t s) = HEAP_MEM s.
Proof. unfold switched. repeat case_match; done. Qed.

Lemma dqueues_switched s t Q : dqueues s Q -> dqueues (switched t s) Q.
Proof.
  intros H. destruct (switched_views s t) as (E1 & E2 & E3).
  apply (dqueues_ext s); [done|apply same_prios_switched|done|done|done|apply switched_heap].
Qed.

(** A queue whose event control block changed in its wait list only. *)
Lemma dqueue_at_event s ev e e' q d W :
  dqueue_at s ev e q d -> ev_ok s e' -> members (q_OSEventWaitList e') = W ->
  q_OSEventAllocated e' = q_OSEventAllocated e -> q_OSEventPointer e' = q_OSEventPointer e ->
  dqueue_at (set_HEAP_Queue (aset (HEAP_Queue s) ev e') s) ev e' q (with_waiters W d).
Proof.
  intros [He Ha Hp Hq Hs Hw Hpos Hrm Hm Hi Hrep Hok HW] Hok' HW' Ea Ep.
  split; try done; [by eapply aget_aset_eq|by rewrite Ea|by rewrite Ep|by apply (ev_ok_ext s)].
Qed.

(** The wait list of a queue, seen in the map. *)
Lemma dqueues_join s Q ev d e q p :
  dqueues s Q -> Q !! ev = Some d -> dqueue_at s ev e q d -> live s p -> 0 < p < PriorityType_bits ->
  p ∉ dq_waiters d ->
  dqueues (set_HEAP_Queue (aset (HEAP_Queue s) ev (ev_join p e)) s)
    (<[ev := with_waiters ({[p]} ∪ dq_waiters d) d]> Q).
Proof.
  intros H Hd Hat Hl Hp Hnw. pose proof (da_waiters _ _ _ _ _ Hat) as HWe.
  apply (dqueues_event s Q ev d (ev_join p e) q); [done|done|].
  apply (dqueue_at_event _ _ e); [done| | |done|done].
  - apply ev_ok_join; [apply Hat|done|done|].
    apply not_true_iff_false. intros Hb. apply Hnw. rewrite <- HWe, elem_of_members. split; [lia|done].
  - pose proof (members_join (E := BRTOS_Queue) p e) as Hm. cbn [ev_waitlist Event_DQueue] in Hm.
    rewrite Hm by lia. by rewrite HWe.
Qed.

Lemma dqueues_leave s Q ev d e q p :
  dqueues s Q -> Q !! ev = Some d -> dqueue_at s ev e q d -> 0 <= p < PriorityType_bits ->
  Z.testbit (q_OSEventWaitList e) p = true ->
  dqueues (set_HEAP_Queue (aset (HEAP_Queue s) ev (ev_leave p e)) s)
    (<[ev := with_waiters (dq_waiters d ∖ {[p]}) d]> Q).
Proof.
  intros H Hd Hat Hp Hb. pose proof (da_waiters _ _ _ _ _ Hat) as HWe.
  apply (dqueues_event s Q ev d (ev_leave p e) q); [done|done|].
  apply (dqueue_at_event _ _ e); [done| | |done|done].
  - apply ev_ok_leave; [apply Hat|done|done].
  - pose proof (members_leave (E := BRTOS_Queue) p e) as Hm. cbn [ev_waitlist Event_DQueue] in Hm.
    rewrite Hm by lia. by rewrite HWe.
Qed.

Lemma dqueue_at_waits s ev e q d p :
  dqueue_at s ev e q d -> 0 <= p < PriorityType_bits ->
  p ∈ dq_waiters d <-> Z.testbit (q_OSEventWaitList e) p = true.
Proof. intros Hat Hp. rewrite <- (da_waiters _ _ _ _ _ Hat), elem_of_members. tauto. Qed.

Lemma OSDQueuePost_full_lemma s Q ev d x :
  dqueues s Q -> Q !! ev = Some d -> Z.of_nat (length (dq_items d)) = dq_room d ->
  OSDQueuePost (Some ev) x s = Done BUFFER_UNDERRUN s.
Proof.
  intros H Hd Hfull. destruct (ds_at _ _ H ev d Hd) as (e & q & Hat).
  destruct (dqueue_at_entries _ _ _ _ _ Hat) as [Hen _].
  pose proof Hat as [He Ha Hp Hq Hs Hwd Hpos Hrm _ _ _ _ _].
  unfold OSDQueuePost. rewrite bool_decide_eq_false_2, andb_false_r by done. run. rewrite Hp. run.
  replace (ERROR_CHECK && negb (q_OSEventAllocated e =? TRUE)) with false.
  2:{ destruct ERROR_CHECK; [|done]. by rewrite Ha. }
  rewrite Hen, Hrm, (proj2 (Z.ltb_ge _ _)) by lia. by destruct s.
Qed.

(** A post to a queue with waiters stores the element, releases the waiter of the
    highest priority, and gives the processor to the highest priority that can
    run; a post to a full queue returns BUFFER_UNDERRUN and changes nothing. *)
Theorem OSDQueuePost_wakes s l Q ev d x :
  wf s l -> iNesting s = 0 -> is_Some (aget (ContextTask s) (currentTask s)) ->
  dqueues s Q -> Q !! ev = Some d -> dq_waiters d <> ∅ -> element (dq_width d) x ->
  (Z.of_nat (length (dq_items d)) = dq_room d ->
   OSDQueuePost (Some ev) x s = Done BUFFER_UNDERRUN s) /\
  (Z.of_nat (length (dq_items d)) < dq_room d ->
   exists p s' k, p ∈ dq_waiters d /\ (forall p', p' ∈ dq_waiters d -> p' <= p) /\
    OSDQueuePost (Some ev) x s = Yield s' k /\ wf s' l /\ dispatched s' /\
    OSReadyList s' = Z.lor (OSReadyList s) (2 ^ p) /\
    dqueues s' (<[ev := with_waiters (dq_waiters d ∖ {[p]}) (with_items (dq_items d ++ [x]) d)]> Q) /\
    forall s2, k s2 = Done WRITE_BUFFER_OK (set_PRIMASK (PRIMASK s) s2)).
Proof.
  intros Hw Hn Hcur H Hd HW Hx. split; [by intros; eapply OSDQueuePost_full_lemma|].
  intros Hlt. destruct (OSDQueuePost_put_lemma s Q ev d x) as (e & q' & m' & Hat & H1 & Hr); [done..|].
  set (s1 := put_dq (dq_ctl d) q' m' s) in *. set (s0 := set_PRIMASK true s1) in Hr.
  assert (q_OSEventWait e <> 0) as Hne.
  { intros E. apply HW. by apply (dqueue_at_no_waiter _ _ _ _ _ Hat). }
  destruct (post_select_lemma s0 ev e) as (p & Hsel & Hh & Hp & Hl & Hok');
    [apply Hat|by apply (ev_ok_ext s1), Hat|done|].
  set (s2 := set_OSReadyList (Z.lor (OSReadyList s) (2 ^ p))
               (set_HEAP_Queue (aset (HEAP_Queue s) ev (ev_leave p e)) s0)).
  assert (wf s2 l) as Hw2.
  { apply (wf_ready_insert (set_HEAP_Queue (aset (HEAP_Queue s) ev (ev_leave p e)) s0));
      [by apply (wf_ext s)|]. destruct Hl as [t Ht]. exists t. by apply (task_at_ext s0). }
  destruct (ChangeContext_lemma s2 l Hw2) as (t & Hcc & Hw3 & Hdis & Hsp); [done|done|].
  destruct (switched_frame s2 t) as (Gr & _). destruct Hh as (_ & Hb & Hhi).
  exists p, (switched t s2). eexists. split_and!; [| | |done|done|by rewrite Gr| |].
  - apply (dqueue_at_waits _ _ _ _ _ p Hat); [lia|done].
  - intros p' Hp'. change (p' ∈ dq_waiters (with_items (dq_items d ++ [x]) d)) in Hp'.
    rewrite <- (da_waiters _ _ _ _ _ Hat), elem_of_members in Hp'.
    destruct (Z.le_gt_cases p' p) as [|Hgt]; [done|].
    specialize (Hhi p' Hgt). cbn in Hhi. destruct Hp'. congruence.
  - rewrite Hr, (proj2 (Z.eqb_neq _ _) Hne). cbn [negb]. unfold bind at 1. rewrite Hsel. cbn.
    rewrite ready_insert_eq by lia. cbn. rewrite Hn. cbn.
    match goal with |- context [ChangeContext ?y] => change y with s2 end.
    rewrite Hcc. reflexivity.
  - apply dqueues_switched. pose proof (dqueues_leave s1 _ ev _ e q' p H1 (lookup_insert_eq _ _ _) Hat ltac:(lia) Hb) as Hf.
    rewrite insert_insert_eq in Hf. apply (dqueues_ext _ s2) in Hf; try done. by apply same_prios_ctx.
  - done.
Qed.

(** ** Suspending, and what the caller returns *)

(** Reading on behalf of a task that was released. *)
Lemma resume_read_lemma s Q ev d y ys dst n sr :
  dqueues s Q -> Q !! ev = Some d -> dq_items d = y :: ys -> n = dq_width d ->
  n <= Z.of_nat (length dst) ->
  exists s3, (pdata <- dq_get (dq_ctl d) n dst ;; OSExitCritical sr ;;; ret (READ_BUFFER_OK, pdata)) s =
      Done (READ_BUFFER_OK, y ++ drop (Z.to_nat n) dst) s3 /\
    dqueues s3 (<[ev := with_items ys d]> Q) /\ (forall l, wf s l -> wf s3 l).
Proof.
  intros H Hd Hi -> Hdst. destruct (ds_at _ _ H ev d Hd) as (e & q & Hat).
  destruct (dq_get_lemma s ev e q d y ys dst Hat Hi Hdst) as (q' & Hr & Hat').
  exists (set_PRIMASK sr (put_dq (dq_ctl d) q' (HEAP_MEM s) s)). split_and!.
  - unfold bind at 1. by rewrite Hr.
  - apply (dqueues_ext (put_dq (dq_ctl d) q' (HEAP_MEM s) s)); try done; [|by apply same_prios_ctx].
    by eapply dqueues_put.
  - intros l Hw. by apply (wf_ext s).
Qed.

(** Two places of a task that waits for an element of the queue [d]. *)
Definition same_blocks (d d' : dqueue) : Prop :=
  dq_ctl d' = dq_ctl d /\ dq_width d' = dq_width d.

Lemma OSDQueuePend_empty_eq s Q ev d dst w :
  dqueues s Q -> Q !! ev = Some d -> dq_items d = [] -> iNesting s = 0 ->
  OSDQueuePend (Some ev) dst w s =
    (if w =? NO_TIMEOUT then OSExitCritical (PRIMASK s) ;;; ret (EXIT_BY_NO_ENTRY_AVAILABLE, dst)
     else iPriority <- pend_enqueue BRTOS_Queue ev (currentTask s) w ;;
          ChangeContext ;;;
          OSDQueuePend_resume ev (dq_ctl d) (dq_width d) dst (currentTask s) w (PRIMASK s) iPriority)
      (set_PRIMASK true s).
Proof.
  intros H Hd Hi Hn. destruct (ds_at _ _ H ev d Hd) as (e & q & Hat).
  destruct (dqueue_at_entries _ _ _ _ _ Hat) as [Hen _]. rewrite Hi in Hen. cbn in Hen.
  pose proof Hat as [He Ha Hptr Hq Hs Hwd Hpos Hrm _ _ _ Hok HWe].
  unfold OSDQueuePend. run. rewrite Hn, !andb_false_r. cbn. run. rewrite Hptr. run.
  replace (ERROR_CHECK && negb (q_OSEventAllocated e =? TRUE)) with false.
  2:{ destruct ERROR_CHECK; [|done]. by rewrite Ha. }
  rewrite Hen, Hwd. change (0 >? 0) with false. by destruct (w =? NO_TIMEOUT).
Qed.

(** What is left of a wait, run on the state in which the task is dispatched. *)
Lemma OSDQueuePend_resume_eq s ev c n dst cur w sr p :
  OSDQueuePend_resume ev c n dst cur w sr p s =
  (timedout <- (if truthy w then pend_wakeup BRTOS_Queue ev cur p else ret false) ;;
   if timedout : bool then OSExitCritical sr ;;; ret (TIMEOUT, dst)
   else pdata <- dq_get c n dst ;; OSExitCritical sr ;;; ret (READ_BUFFER_OK, pdata))
    (set_PRIMASK true (set_PRIMASK sr s)).
Proof. done. Qed.

Lemma dqueues_masked s Q a b : dqueues s Q -> dqueues (set_PRIMASK a (set_PRIMASK b s)) Q.
Proof. intros H. by apply (dqueues_ext s); [|apply same_prios_ctx|..]. Qed.

Lemma resume_timeout_lemma s l Q ev d dst cur c w p sr n :
  wf s l -> dqueues s Q -> Q !! ev = Some d -> aget (ContextTask s) cur = Some c ->
  0 <= p < PriorityType_bits -> w <> 0 -> TimeToWait c = EXIT_BY_TIMEOUT -> p ∈ dq_waiters d ->
  exists s3, OSDQueuePend_resume ev (dq_ctl d) n dst cur w sr p s = Done (TIMEOUT, dst) s3 /\
    wf s3 l /\ dqueues s3 (<[ev := with_waiters (dq_waiters d ∖ {[p]}) d]> Q).
Proof.
  intros Hw H Hd Hc Hp Hw0 HT Hin. destruct (ds_at _ _ H ev d Hd) as (e & q & Hat).
  apply (dqueue_at_waits _ _ _ _ _ p Hat Hp) in Hin as Hb.
  rewrite OSDQueuePend_resume_eq, truthy_nz by done.
  unfold bind at 1. rewrite (pend_wakeup_timeout (E := BRTOS_Queue) _ ev e _ c p)
    by (done || apply Hat || by apply (ev_ok_ext s), Hat).
  cbn. eexists. split_and!; [reflexivity|by apply (wf_ext s)|].
  apply (dqueues_ext _ _ _ (dqueues_leave s Q ev d e q p H Hd Hat Hp Hb)); [by apply same_prios_ctx|done..].
Qed.

Lemma resume_late_lemma s l Q ev d y ys dst cur c w p sr :
  wf s l -> dqueues s Q -> Q !! ev = Some d -> aget (ContextTask s) cur = Some c ->
  0 <= p < PriorityType_bits -> dq_width d <= Z.of_nat (length dst) -> dq_items d = y :: ys ->
  w = 0 \/ (TimeToWait c = EXIT_BY_TIMEOUT /\ p ∉ dq_waiters d) ->
  exists s3, OSDQueuePend_resume ev (dq_ctl d) (dq_width d) dst cur w sr p s =
      Done (READ_BUFFER_OK, y ++ drop (Z.to_nat (dq_width d)) dst) s3 /\
    wf s3 l /\ dqueues s3 (<[ev := with_items ys d]> Q).
Proof.
  intros Hw H Hd Hc Hp Hdst Hys Hcase. destruct (ds_at _ _ H ev d Hd) as (e & q & Hat).
  rewrite OSDQueuePend_resume_eq. set (s' := set_PRIMASK true (set_PRIMASK sr s)).
  assert ((if truthy w then pend_wakeup BRTOS_Queue ev cur p else ret false) s' = Done false s') as Hwk.
  { destruct (truthy w) eqn:Etw; [|done]. destruct Hcase as [->|[HT Hnin]]; [done|].
    apply (pend_wakeup_both (E := BRTOS_Queue) s' ev e _ c p); [done..|apply Hat|done|].
    apply not_true_iff_false. intros Hb. by apply Hnin, (dqueue_at_waits _ _ _ _ _ p Hat Hp). }
  unfold bind at 1. rewrite Hwk. cbn [rbind].
  destruct (resume_read_lemma s' Q ev d y ys dst (dq_width d) sr) as (s3 & Hr3 & H3 & Hw3);
    [by apply dqueues_masked|done..|].
  exists s3. split_and!; [exact Hr3|by apply Hw3, (wf_ext s)|done].
Qed.

Lemma resume_posted_lemma s l1 l3 Q ev d y ys dst cur c w p sr :
  wf s (l1 ++ cur :: l3) -> dqueues s Q -> Q !! ev = Some d -> aget (ContextTask s) cur = Some c ->
  dq_width d <= Z.of_nat (length dst) -> dq_items d = y :: ys ->
  w <> 0 -> TimeToWait c <> EXIT_BY_TIMEOUT ->
  exists s3, OSDQueuePend_resume ev (dq_ctl d) (dq_width d) dst cur w sr p s =
      Done (READ_BUFFER_OK, y ++ drop (Z.to_nat (dq_width d)) dst) s3 /\
    wf s3 (l1 ++ l3) /\ dqueues s3 (<[ev := with_items ys d]> Q).
Proof.
  intros Hw H Hd Hc Hdst Hys Hw0 HT. rewrite OSDQueuePend_resume_eq, truthy_nz by done.
  destruct (pend_wakeup_posted (E := BRTOS_Queue) (set_PRIMASK true (set_PRIMASK sr s)) l1 l3 ev cur c p)
    as (s4 & Hr4 & Hw4 & Hsp4 & (ct & hd & tl & Hf) & _); [by apply (wf_ext s)|done..|].
  unfold bind at 1. rewrite Hr4. cbn [rbind].
  assert (dqueues s4 Q) as H4
    by (apply (dqueues_ext _ s4 _ (dqueues_masked _ _ true sr H)); [done|by rewrite Hf..]).
  destruct (resume_read_lemma s4 Q ev d y ys dst (dq_width d) sr) as (s3 & Hr3 & H3 & Hw3); [done..|].
  exists s3. split_and!; [exact Hr3|by apply Hw3|done].
Qed.

(** A task that takes from an empty queue waits for an element.  With NO_TIMEOUT it
    returns EXIT_BY_NO_ENTRY_AVAILABLE and changes nothing.  Otherwise it joins the
    waiting set of the queue, and the delay list if it has a timeout, and the
    processor goes to the highest priority that can run.  Dispatched again in
    whatever state the system reached: if its time ran out and no post released
    it, it returns TIMEOUT, its buffer unchanged, having left the waiting set;
    otherwise, if the queue holds an element, it returns the oldest one, having
    left the delay list; other queues are as they were. *)
Theorem OSDQueuePend_waits s l Q ev d dst w p :
  wf s l -> iNesting s = 0 -> task_at s p (currentTask s) -> 0 < p -> currentTask s ∉ l ->
  dqueues s Q -> Q !! ev = Some d -> dq_items d = [] -> p ∉ dq_waiters d ->
  dq_width d <= Z.of_nat (length dst) ->
  OSDQueuePend (Some ev) dst NO_TIMEOUT s = Done (EXIT_BY_NO_ENTRY_AVAILABLE, dst) s /\
  (w <> NO_TIMEOUT -> exists s1 k, OSDQueuePend (Some ev) dst w s = Yield s1 k /\
     wf s1 (armed l (currentTask s) w) /\ dispatched s1 /\
     dqueues s1 (<[ev := with_waiters ({[p]} ∪ dq_waiters d) d]> Q) /\
     forall s2 l2 Q2 d2 c, wf s2 l2 -> dqueues s2 Q2 -> Q2 !! ev = Some d2 -> same_blocks d d2 ->
       aget (ContextTask s2) (currentTask s) = Some c ->
       (w <> 0 -> TimeToWait c = EXIT_BY_TIMEOUT -> p ∈ dq_waiters d2 ->
        exists s3, k s2 = Done (TIMEOUT, dst) s3 /\ wf s3 l2 /\
          dqueues s3 (<[ev := with_waiters (dq_waiters d2 ∖ {[p]}) d2]> Q2)) /\
       (forall y ys, dq_items d2 = y :: ys ->
        (w = 0 \/ (TimeToWait c = EXIT_BY_TIMEOUT /\ p ∉ dq_waiters d2) ->
         exists s3, k s2 = Done (READ_BUFFER_OK, y ++ drop (Z.to_nat (dq_width d)) dst) s3 /\
           wf s3 l2 /\ dqueues s3 (<[ev := with_items ys d2]> Q2)) /\
        (w <> 0 -> TimeToWait c <> EXIT_BY_TIMEOUT ->
         forall l1 l3, l2 = l1 ++ currentTask s :: l3 ->
         exists s3, k s2 = Done (READ_BUFFER_OK, y ++ drop (Z.to_nat (dq_width d)) dst) s3 /\
           wf s3 (l1 ++ l3) /\ dqueues s3 (<[ev := with_items ys d2]> Q2)))).
Proof.
  intros Hw Hn Ht Hp Hni H Hd Hi Hnw Hdst. pose proof (task_at_range s l p _ Hw Ht).
  destruct (ds_at _ _ H ev d Hd) as (e & q & Hat).
  split; [rewrite (OSDQueuePend_empty_eq s Q ev d), Z.eqb_refl by done; by destruct s|]. intros Hne.
  destruct (pend_block_lemma (set_PRIMASK true s) l p ev w e
     (fun iPriority => OSDQueuePend_resume ev (dq_ctl d) (dq_width d) dst (currentTask s) w (PRIMASK s) iPriority))
    as (s0 & t & Hr & [(ct & hd & tl & Hf) _ Hsp _ _] & Hw1 & Hdis);
    [by apply (wf_ext s)|done|by apply (task_at_ext s)|done|done|apply Hat|by apply (ev_ok_ext s), Hat|].
  rewrite (OSDQueuePend_empty_eq s Q ev d), (proj2 (Z.eqb_neq _ _) Hne) by done. eexists _, _.
  split_and!; [exact Hr|done|done| |].
  - apply dqueues_switched. assert (live s p) as Hl by (by eexists).
    eapply (dqueues_ext _ s0 _ (dqueues_join s Q ev d e q p H Hd Hat Hl ltac:(lia) Hnw)); [|by rewrite Hf..].
    apply (same_prios_trans _ (set_PRIMASK true s)); [by apply same_prios_ctx|done].
  - intros s2 l2 Q2 d2 c Hw2 H2 Hd2 [Ec Ew] Hc. rewrite <- Ec, <- Ew in *. split.
    + intros. eapply resume_timeout_lemma; (done || lia).
    + intros y ys Hys. split.
      * intros. eapply resume_late_lemma; (done || lia).
      * intros ? ? l1 l3 ->. by eapply resume_posted_lemma.
Qed.
End wait.

(** ** Creating and deleting *)
Section create.
Context `{C : Config} {AL : Allocator}.
Implicit Types (s : OS) (ev b c len w p n : Z) (e : BRTOS_Queue) (q : OS_DQUEUE) (d : dqueue).
Implicit Types (Q : gmap Z dqueue) (h : heap_t).

(** The contents of a memory block, if the pointer is not NULL. *)
Lemma block_read {A} (l : list A) p (dflt : A) :
  (p <> 0 -> 0 <= p < Z.of_nat (length l)) -> exists x, p <> 0 -> aget l p = Some x.
Proof.
  intros Hp. destruct (decide (p = 0)) as [->|Hne]; [by exists dflt|].
  destruct (aget_is_Some l p (Hp Hne)) as [x Hx]. by exists x.
Qed.

(** What is not a queue's own does not matter. *)
Lemma dqueues_frame s s' Q :
  dqueues s Q -> heap_ok (heap s') -> same_prios s s' ->
  length (HEAP_Queue s') = length (HEAP_Queue s) -> length (HEAP_DQUEUE s') = length (HEAP_DQUEUE s) ->
  HEAP_MEM s' = HEAP_MEM s ->
  (forall ev d, Q !! ev = Some d -> aget (HEAP_Queue s') ev = aget (HEAP_Queue s) ev /\
     aget (HEAP_DQUEUE s') (dq_ctl d) = aget (HEAP_DQUEUE s) (dq_ctl d) /\
     owns (blocks (heap s')) ev d) ->
  dqueues s' Q.
Proof.
  intros [Hh Hs Hm Ha Ho Hp] Hh' Hsp E1 E2 E3 HF.
  split; unfold heap_seen in *; rewrite ?E1, ?E2, ?E3; try done.
  - intros ev d Hd. destruct (Ha ev d Hd) as (e & q & Hat), (HF ev d Hd) as (F1 & F2 & _).
    exists e, q. by apply (dqueue_at_frame s); rewrite ?E3.
  - intros ev d Hd. by apply HF.
Qed.

Lemma dqueues_new s Q ev e q d :
  dqueues s Q -> dqueue_at s ev e q d -> owns (blocks (heap s)) ev d ->
  (forall ev' d' a, Q !! ev' = Some d' -> a ∈ parts ev' d' -> a ∉ parts ev d) ->
  dqueues s (<[ev := d]> Q).
Proof.
  intros [Hh Hs Hm Ha Ho Hp] Hat Hown Hsep. split; try done.
  - intros ev' d' [[<- <-]|[_ Hd]]%lookup_insert_Some; [eauto|by apply Ha].
  - intros ev' d' [[<- <-]|[_ Hd]]%lookup_insert_Some; [done|by apply Ho].
  - intros ev1 d1 ev2 d2 a [[<- <-]|[_ H1]]%lookup_insert_Some [[<- <-]|[_ H2]]%lookup_insert_Some I1 I2.
    + done.
    + by destruct (Hsep _ _ _ H2 I2).
    + by destruct (Hsep _ _ _ H1 I1).
    + by eapply Hp.
Qed.

Lemma dqueues_delete s Q ev : dqueues s Q -> dqueues s (delete ev Q).
Proof.
  intros [Hh Hs Hm Ha Ho Hp]. split; try done.
  - intros ev' d' [_ Hd]%lookup_delete_Some. by apply Ha.
  - intros ev' d' [_ Hd]%lookup_delete_Some. by apply Ho.
  - intros ev1 d1 ev2 d2 a [_ H1]%lookup_delete_Some [_ H2]%lookup_delete_Some. by apply Hp.
Qed.

Lemma owns_parts B ev d a : owns B ev d -> a ∈ parts ev d -> is_Some (B !! a).
Proof.
  intros (H1 & H2 & H3 & _) Ha. unfold parts in Ha.
  repeat (apply elem_of_cons in Ha as [-> |Ha]; [by eexists|]). by apply elem_of_nil in Ha.
Qed.

Lemma owns_agree B B' ev d :
  owns B ev d -> (forall a, a ∈ parts ev d -> B' !! a = B !! a) -> owns B' ev d.
Proof.
  intros (H1 & H2 & H3 & H4) HE. unfold owns. rewrite (HE ev), (HE (dq_ctl d)), (HE (dq_buf d));
    [done|apply parts_buf|apply parts_ctl|apply parts_ev].
Qed.

(** A block the allocator just returned. *)
Lemma alloc_new h n p h' :
  heap_ok h -> 0 < n < 2 ^ 16 -> BRTOS_ALLOC n h = (p, h') -> heap_ok h' /\
  (if p =? 0 then blocks h' = blocks h
   else blocks h !! p = None /\ blocks h' = <[p := n]> (blocks h) /\ 0 < p /\ p + n <= heap_end).
Proof.
  intros Hh Hn Ha. destruct (alloc_law h n p h' Hh Hn Ha) as [Hh' Hcase]. split; [done|].
  destruct Hcase as [[-> Hb]|[Hnone Hb]]; [done|].
  destruct (blocks_range h' p n Hh') as (? & _ & ?); [by rewrite Hb, lookup_insert_eq|].
  by rewrite (proj2 (Z.eqb_neq _ _)) by lia.
Qed.

(** The control blocks of a new queue. *)
Definition new_event (c : Z) (e : BRTOS_Queue) : BRTOS_Queue :=
  mkQueue (q_OSEventAllocated e) (q_OSEventCount e) 0 (Some c) 0.
Definition new_dqueue (b len w : Z) : OS_DQUEUE :=
  mkOS_DQUEUE b (b + uint16 (len * w)) b b (uint16 w) len 0.

Lemma OSDQueueCreate_eq s len w event c h1 b h2 ev h3 q0 e0 :
  iNesting s = 0 -> 0 < len -> 0 < w ->
  BRTOS_ALLOC sizeof_OS_DQUEUE (heap s) = (c, h1) -> BRTOS_ALLOC (uint16 (len * w)) h1 = (b, h2) ->
  BRTOS_ALLOC sizeof_BRTOS_Queue h2 = (ev, h3) ->
  (c <> 0 -> aget (HEAP_DQUEUE s) c = Some q0) -> (ev <> 0 -> aget (HEAP_Queue s) ev = Some e0) ->
  OSDQueueCreate len w event s =
    if c =? 0 then Done (NO_AVAILABLE_MEMORY, event) (set_heap h1 s)
    else
      let s1 := set_HEAP_DQUEUE (aset (HEAP_DQUEUE s) c (set_DQStart b q0)) s in
      if b =? 0 then Done (NO_AVAILABLE_MEMORY, event) (set_heap (BRTOS_DEALLOC c h2) s1)
      else if ev =? 0 then
        Done (NO_AVAILABLE_EVENT, event) (set_heap (BRTOS_DEALLOC c (BRTOS_DEALLOC b h3)) s1)
      else
        Done (ALLOC_EVENT_OK, Some ev)
          (set_heap h3 (set_HEAP_Queue (aset (HEAP_Queue s) ev (new_event c e0))
             (set_HEAP_DQUEUE (aset (HEAP_DQUEUE s) c (new_dqueue b len w)) s))).
Proof.
  intros Hn Hlen Hw A1 A2 A3 Hc He. unfold OSDQueueCreate. run. rewrite Hn.
  change (0 >? 0) with false. rewrite (proj2 (Z.gtb_lt _ _) Hlen), (proj2 (Z.gtb_lt _ _) Hw).
  destruct (truthy (currentTask s)) eqn:Ecur; run; rewrite A1; cbn [fst snd];
    (destruct (c =? 0) eqn:Ec; [run; by destruct s|apply Z.eqb_neq in Ec; specialize (Hc Ec)]);
    run; rewrite A2; cbn [fst snd]; run;
    (destruct (b =? 0) eqn:Eb; [run; by destruct s|]);
    run; rewrite A3; cbn [fst snd];
    (destruct (ev =? 0) eqn:Ee; [run; by destruct s|apply Z.eqb_neq in Ee; specialize (He Ee)]);
    run; unfold upd_ev; repeat (run; rewrite ?aset_aset; cbn);
    unfold new_event, new_dqueue; by destruct s, q0, e0.
Qed.

(** A fresh block is no part of a queue, and taking it or giving it back leaves
    the queues' blocks alone. *)
Lemma dqueues_fresh s Q ev d a p :
  dqueues s Q -> Q !! ev = Some d -> blocks (heap s) !! p = None -> a ∈ parts ev d -> a <> p.
Proof.
  intros H Hd Hp Ha ->. destruct (owns_parts _ _ _ _ (ds_own _ _ H _ _ Hd) Ha) as [n Hn]. congruence.
Qed.

(** The blocks of the queues survive when the allocator's map agrees on them. *)
Lemma dqueues_heap s s' Q :
  dqueues s Q -> heap_ok (heap s') -> same_prios s s' ->
  length (HEAP_Queue s') = length (HEAP_Queue s) -> length (HEAP_DQUEUE s') = length (HEAP_DQUEUE s) ->
  HEAP_MEM s' = HEAP_MEM s ->
  (forall a, is_Some (blocks (heap s) !! a) -> aget (HEAP_Queue s') a = aget (HEAP_Queue s) a /\
     aget (HEAP_DQUEUE s') a = aget (HEAP_DQUEUE s) a /\ blocks (heap s') !! a = blocks (heap s) !! a) ->
  dqueues s' Q.
Proof.
  intros H Hh Hsp E1 E2 E3 HF. apply (dqueues_frame s); try done.
  intros ev d Hd. pose proof (ds_own _ _ H ev d Hd) as Hown.
  assert (forall a, a ∈ parts ev d -> is_Some (blocks (heap s) !! a)) as HP
    by (intros a; by apply owns_parts).
  split_and!; [apply HF, HP, parts_ev|apply HF, HP, parts_ctl|].
  apply (owns_agree _ _ _ _ Hown). intros a Ha. by apply HF, HP.
Qed.

(** The empty queue with blocks [ev], [c] and [b]. *)
Definition empty_queue (c b len w : Z) : dqueue := mkDQ c b w len [] ∅.

Lemma new_dqueue_at s ev c b len w e :
  aget (HEAP_Queue s) ev = Some (new_event c e) -> aget (HEAP_DQUEUE s) c = Some (new_dqueue b len w) ->
  (ERROR_CHECK = true -> q_OSEventAllocated e = TRUE) ->
  0 < len < 2 ^ 16 -> 0 < w -> len * w < 2 ^ 16 -> 0 < b -> b + len * w <= Z.of_nat (length (HEAP_MEM s)) ->
  Forall byte (HEAP_MEM s) ->
  dqueue_at s ev (new_event c e) (new_dqueue b len w) (empty_queue c b len w).
Proof.
  intros He Hq Ha Hlen Hw Hlw Hb Hm HM.
  assert (w < 2 ^ 16) as Hw16 by nia.
  split; cbn; try done.
  - by rewrite uint16_small by lia.
  - unfold new_dqueue, ring_of. cbn. rewrite uint16_small by lia.
    replace (len * w) with (Z.of_nat (Z.to_nat w) * len) by lia.
    apply (ring_new_rep (Z.to_nat w) _ b len); lia.
  - split; cbn; [pose proof PriorityType_bits_range; lia|by rewrite popcount_0|].
    intros p. by rewrite Z.testbit_0_l.
  - apply set_eq. intros p. rewrite elem_of_members, Z.testbit_0_l. set_solver.
Qed.

(** The failures: the blocks taken are given back, a block was written that is no
    queue's. *)
Lemma create_failed s Q c q h :
  dqueues s Q -> blocks (heap s) !! c = None -> heap_ok h -> blocks h = blocks (heap s) ->
  dqueues (set_heap h (set_HEAP_DQUEUE (aset (HEAP_DQUEUE s) c q) s)) Q.
Proof.
  intros H Hc Hh HB. apply (dqueues_heap s); try done; [by apply same_prios_ctx|by apply length_aset|].
  intros a [n Ha]. cbn. rewrite HB, aget_aset_ne by congruence. done.
Qed.

Lemma dealloc_fresh h B c n :
  heap_ok h -> blocks h = <[c := n]> B -> B !! c = None ->
  heap_ok (BRTOS_DEALLOC c h) /\ blocks (BRTOS_DEALLOC c h) = B.
Proof.
  intros Hh HB Hc. destruct (dealloc_law h c Hh) as [Hh' HB'].
  { rewrite HB, lookup_insert_eq. by eexists. }
  split; [done|]. by rewrite HB', HB, delete_insert_id.
Qed.

(** Success. *)
Lemma create_done s Q ev c b len w h e0 q0 :
  dqueues s Q -> 0 < len < 2 ^ 16 -> 0 < w -> len * w < 2 ^ 16 -> heap_ok h ->
  aget (HEAP_Queue s) ev = Some e0 -> aget (HEAP_DQUEUE s) c = Some q0 ->
  (ERROR_CHECK = true -> q_OSEventAllocated e0 = TRUE) ->
  blocks (heap s) !! c = None -> <[c := sizeof_OS_DQUEUE]> (blocks (heap s)) !! b = None ->
  <[b := len * w]> (<[c := sizeof_OS_DQUEUE]> (blocks (heap s))) !! ev = None ->
  blocks h = <[ev := sizeof_BRTOS_Queue]> (<[b := len * w]> (<[c := sizeof_OS_DQUEUE]> (blocks (heap s)))) ->
  0 < b -> b + len * w <= heap_end ->
  dqueues (set_heap h (set_HEAP_Queue (aset (HEAP_Queue s) ev (new_event c e0))
             (set_HEAP_DQUEUE (aset (HEAP_DQUEUE s) c (new_dqueue b len w)) s)))
    (<[ev := empty_queue c b len w]> Q).
Proof.
  intros H Hlen Hw Hlw Hh He Hq Hchk F1 F2 F3 HB Hb Hbe.
  apply lookup_insert_None in F2 as [F2 Ncb]. apply lookup_insert_None in F3 as [F3 Nbe].
  apply lookup_insert_None in F3 as [F3 Nce].
  set (s' := set_heap _ _).
  assert (dqueues s' Q) as H'.
  { apply (dqueues_heap s); try done; [by apply same_prios_ctx|by apply length_aset|by apply length_aset|].
    intros a [n Ha]. cbn. rewrite HB, !aget_aset_ne, !lookup_insert_ne by congruence. done. }
  apply (dqueues_new s' Q ev (new_event c e0) (new_dqueue b len w)); [done| | |].
  - destruct (ds_seen _ _ H) as (_ & _ & S3).
    apply new_dqueue_at; try done; [by eapply aget_aset_eq|by eapply aget_aset_eq|cbn; lia|apply H].
  - unfold owns, parts. cbn [dq_ctl dq_buf dq_room dq_width empty_queue]. cbn [heap s' set_heap]. rewrite HB.
    split_and!; simplify_map_eq; try done.
    apply NoDup_cons. split; [set_solver|]. apply NoDup_cons. split; [set_solver|]. apply NoDup_singleton.
  - intros ev' d' a Hd' Ha. unfold parts. cbn.
    rewrite !elem_of_cons, elem_of_nil.
    intros [->|[->|[->|[]]]]; [by eapply (dqueues_fresh s Q ev' d' ev ev)|by eapply (dqueues_fresh s Q ev' d' c c)
      |by eapply (dqueues_fresh s Q ev' d' b b)].
Qed.

Lemma create_code code :
  code = NO_AVAILABLE_MEMORY \/ code = NO_AVAILABLE_EVENT -> code <> ALLOC_EVENT_OK.
Proof. by intros [->| ->]. Qed.

Lemma OSDQueueCreate_lemma s Q len w event :
  dqueues s Q -> 0 < len < 2 ^ 16 -> 0 < w -> len * w < 2 ^ 16 -> iNesting s = 0 ->
  (exists code s', (code = NO_AVAILABLE_MEMORY \/ code = NO_AVAILABLE_EVENT) /\
     OSDQueueCreate len w event s = Done (code, event) s' /\
     dqueues s' Q /\ blocks (heap s') = blocks (heap s)) \/
  (exists ev c b s' e, OSDQueueCreate len w event s = Done (ALLOC_EVENT_OK, Some ev) s' /\
     Q !! ev = None /\ iNesting s' = 0 /\
     aget (HEAP_Queue s) ev = Some e /\ aget (HEAP_Queue s') ev = Some (new_event c e) /\
     aget (HEAP_DQUEUE s') c = Some (new_dqueue b len w) /\
     blocks (heap s) !! c = None /\ <[c := sizeof_OS_DQUEUE]> (blocks (heap s)) !! b = None /\
     <[b := len * w]> (<[c := sizeof_OS_DQUEUE]> (blocks (heap s))) !! ev = None /\
     blocks (heap s') = <[ev := sizeof_BRTOS_Queue]> (<[b := len * w]>
                          (<[c := sizeof_OS_DQUEUE]> (blocks (heap s)))) /\
     ((ERROR_CHECK = true -> q_OSEventAllocated e = TRUE) ->
      dqueues s' (<[ev := empty_queue c b len w]> Q))).
Proof.
  intros H Hlen Hw Hlw Hn.
  destruct (BRTOS_ALLOC sizeof_OS_DQUEUE (heap s)) as [c h1] eqn:A1.
  destruct (BRTOS_ALLOC (uint16 (len * w)) h1) as [b h2] eqn:A2.
  destruct (BRTOS_ALLOC sizeof_BRTOS_Queue h2) as [ev h3] eqn:A3.
  assert (uint16 (len * w) = len * w) as Hu by (apply uint16_small; nia).
  destruct (alloc_new _ sizeof_OS_DQUEUE _ _ (ds_heap _ _ H) ltac:(by split) A1) as [Hh1 B1].
  destruct (alloc_new _ (uint16 (len * w)) _ _ Hh1 ltac:(split; nia) A2) as [Hh2 B2]. rewrite Hu in B2.
  destruct (alloc_new _ sizeof_BRTOS_Queue _ _ Hh2 ltac:(by split) A3) as [Hh3 B3].
  pose proof (ds_seen _ _ H) as (S1 & S2 & _).
  destruct (block_read (HEAP_DQUEUE s) c (new_dqueue 0 0 0)) as [q0 Hq0];
    [unfold sizeof_OS_DQUEUE in B1; intros Ec; apply Z.eqb_neq in Ec; rewrite Ec in B1; lia|].
  destruct (block_read (HEAP_Queue s) ev (mkQueue 0 0 0 None 0)) as [e0 He0];
    [unfold sizeof_BRTOS_Queue in B3; intros Ec; apply Z.eqb_neq in Ec; rewrite Ec in B3; lia|].
  rewrite (OSDQueueCreate_eq s len w event c h1 b h2 ev h3 q0 e0) by (done || lia).
  destruct (c =? 0) eqn:Ec; to_prop.
  { left. exists NO_AVAILABLE_MEMORY. eexists. split_and!; [by left|done| |done].
    apply (dqueues_heap s); try done; [by apply same_prios_ctx|]. intros a _. cbn. by rewrite B1. }
  destruct B1 as (F1 & B1 & Hc & _). cbn zeta. destruct (b =? 0) eqn:Eb; to_prop.
  { left. exists NO_AVAILABLE_MEMORY. rewrite B1 in B2.
    destruct (dealloc_fresh h2 (blocks (heap s)) c sizeof_OS_DQUEUE) as [Hh4 B4]; [done..|].
    eexists. split_and!; [by left|done|by apply create_failed|done]. }
  destruct B2 as (F2 & B2 & Hb & Hbe). destruct (ev =? 0) eqn:Ee; to_prop.
  { left. exists NO_AVAILABLE_EVENT.
    destruct (dealloc_fresh h3 (blocks h1) b (len * w)) as [Hh4 B4]; [done|congruence|done|].
    destruct (dealloc_fresh (BRTOS_DEALLOC b h3) (blocks (heap s)) c sizeof_OS_DQUEUE) as [Hh5 B5];
      [done|congruence|done|].
    eexists. split_and!; [by right|done|by apply create_failed|done]. }
  destruct B3 as (F3 & B3 & _). rewrite B1 in F2, B2. rewrite B2 in F3, B3.
  specialize (He0 Ee). specialize (Hq0 Ec).
  right. exists ev, c, b. eexists _, e0. split_and!; try done.
  - apply eq_None_not_Some. intros [d Hd]. apply lookup_insert_None in F3 as [F3 _].
    apply lookup_insert_None in F3 as [F3 _]. by apply (dqueues_fresh s Q ev d ev ev H Hd F3 (parts_ev _ _)).
  - by eapply aget_aset_eq.
  - by eapply aget_aset_eq.
  - intros Hchk. by apply (create_done s Q ev c b len w h3 e0 q0).
Qed.

(** C24: creating a dynamic queue.  A handler that interrupts is refused with
    IRQ_PEND_ERR and a length or size of zero with INVALID_PARAMETERS.  Otherwise,
    for a buffer of less than 64 KiB: if one of the three blocks cannot be
    allocated, the error is returned, the blocks already taken are given back and
    every queue is as it was; if they can, a new empty queue with the room asked
    for is added, in three blocks of its own (in a build with ERROR_CHECK, if the
    memory of the event block held TRUE in OSEventAllocated). *)
Theorem OSDQueueCreate_correct s Q len w event :
  dqueues s Q -> 0 <= len < 2 ^ 16 -> 0 <= w -> len * w < 2 ^ 16 ->
  (0 < iNesting s -> OSDQueueCreate len w event s = Done (IRQ_PEND_ERR, event) s) /\
  (iNesting s = 0 -> len = 0 \/ w = 0 ->
   OSDQueueCreate len w event s = Done (INVALID_PARAMETERS, event) s) /\
  (iNesting s = 0 -> 0 < len -> 0 < w ->
   (exists code s', (code = NO_AVAILABLE_MEMORY \/ code = NO_AVAILABLE_EVENT) /\
      OSDQueueCreate len w event s = Done (code, event) s' /\
      dqueues s' Q /\ blocks (heap s') = blocks (heap s)) \/
   (exists ev c b s', OSDQueueCreate len w event s = Done (ALLOC_EVENT_OK, Some ev) s' /\
      Q !! ev = None /\
      blocks (heap s') = <[ev := sizeof_BRTOS_Queue]> (<[b := len * w]>
                           (<[c := sizeof_OS_DQUEUE]> (blocks (heap s)))) /\
      ((ERROR_CHECK = true -> exists e, aget (HEAP_Queue s) ev = Some e /\ q_OSEventAllocated e = TRUE) ->
       dqueues s' (<[ev := empty_queue c b len w]> Q)))).
Proof.
  intros H Hlen0 Hw0 Hlw. split_and!.
  { intros Hn. unfold OSDQueueCreate. run. by rewrite (proj2 (Z.gtb_lt _ _) Hn). }
  { intros Hn Hz. unfold OSDQueueCreate.
    assert (((len >? 0) && (w >? 0))%bool = false) as ->
      by (destruct Hz as [->| ->]; [done|by rewrite andb_false_r]).
    cbn. rewrite Hn. change (0 >? 0) with false.
    destruct (truthy (currentTask s)) eqn:Ecur; run; by destruct s. }
  intros Hn Hlen Hw.
  destruct (OSDQueueCreate_lemma s Q len w event H ltac:(lia) Hw Hlw Hn)
    as [?|(ev & c & b & s' & e & Hr & HQ & _ & He & _ & _ & _ & _ & _ & HB & Hok)]; [by left|right].
  exists ev, c, b, s'. split_and!; [done..|]. intros Hchk. apply Hok. intros HE.
  destruct (Hchk HE) as (e' & He' & ?). congruence.
Qed.

(** Deleting a queue. *)
Lemma OSDQueueDelete_eq s Q ev d :
  dqueues s Q -> Q !! ev = Some d -> iNesting s = 0 ->
  exists e', OSDQueueDelete (Some ev) s = Done (DELETE_EVENT_OK, None)
    (set_heap (BRTOS_DEALLOC ev (BRTOS_DEALLOC (dq_ctl d) (BRTOS_DEALLOC (dq_buf d) (heap s))))
       (set_HEAP_Queue (aset (HEAP_Queue s) ev e') s)).
Proof.
  intros H Hd Hn. destruct (ds_at _ _ H ev d Hd) as (e & q & Hat).
  pose proof Hat as [He Ha Hptr Hq Hs _ _ _ _ _ _ _ _].
  unfold OSDQueueDelete. run. rewrite Hn, Hptr. run. rewrite Hs. unfold upd_ev.
  repeat (run; rewrite ?aset_aset; cbn). eexists. by destruct s.
Qed.

Lemma OSDQueueDelete_lemma s Q ev d :
  dqueues s Q -> Q !! ev = Some d -> iNesting s = 0 ->
  exists s', OSDQueueDelete (Some ev) s = Done (DELETE_EVENT_OK, None) s' /\
    dqueues s' (delete ev Q) /\
    blocks (heap s') = delete ev (delete (dq_ctl d) (delete (dq_buf d) (blocks (heap s)))).
Proof.
  intros H Hd Hn. destruct (OSDQueueDelete_eq s Q ev d H Hd Hn) as [e' Hr].
  pose proof (ds_own _ _ H ev d Hd) as Hown. pose proof Hown as (O1 & O2 & O3 & Hnd).
  apply NoDup_cons in Hnd as [N1 Hnd]. apply NoDup_cons in Hnd as [N2 _].
  rewrite !elem_of_cons, elem_of_nil in N1. rewrite elem_of_cons, elem_of_nil in N2.
  destruct (dealloc_law (heap s) (dq_buf d) (ds_heap _ _ H)) as [Hh1 B1]; [by eexists|].
  destruct (dealloc_law _ (dq_ctl d) Hh1) as [Hh2 B2].
  { rewrite B1, lookup_delete_ne by naive_solver. by eexists. }
  destruct (dealloc_law _ ev Hh2) as [Hh3 B3].
  { rewrite B2, B1, !lookup_delete_ne by naive_solver. by eexists. }
  eexists. split_and!; [exact Hr| |cbn; by rewrite B3, B2, B1].
  apply (dqueues_frame s); try done; [by apply dqueues_delete|by apply same_prios_ctx|cbn; apply length_aset|].
  intros ev' d' [Hne Hd']%lookup_delete_Some. cbn. rewrite aget_aset_ne by done. split_and!; [done|done|].
  apply (owns_agree _ _ _ _ (ds_own _ _ H ev' d' Hd')). intros a Ha.
  assert (forall a', a' ∈ parts ev d -> a' <> a) as Hsep.
  { intros a' Ha' ->. by apply Hne, (ds_sep _ _ H ev d ev' d' a). }
  rewrite B3, B2, B1, !lookup_delete_ne; [done|apply Hsep, parts_buf|apply Hsep, parts_ctl|apply Hsep, parts_ev].
Qed.

(** The blocks a creation takes are the ones a deletion gives back. *)
Lemma create_delete_blocks (B B1 B2 : gmap Z Z) ev c b n nc ne len w :
  B !! c = None -> <[c := nc]> B !! b = None -> <[b := n]> (<[c := nc]> B) !! ev = None ->
  B1 = <[ev := ne]> (<[b := n]> (<[c := nc]> B)) ->
  B2 = delete ev (delete (dq_ctl (empty_queue c b len w)) (delete (dq_buf (empty_queue c b len w)) B1)) ->
  B2 = B.
Proof.
  intros F1 F2 F3 HB ->. rewrite HB. cbn [dq_ctl dq_buf empty_queue].
  apply lookup_insert_None in F2 as [F2 Ncb]. apply lookup_insert_None in F3 as [F3 Nbe].
  apply lookup_insert_None in F3 as [F3 Nce].
  rewrite (delete_insert_ne _ b ev) by congruence. rewrite (delete_insert_id _ b)
    by (rewrite lookup_insert_ne; [exact F2|congruence]).
  rewrite (delete_insert_ne _ c ev) by congruence. rewrite (delete_insert_id _ c) by done.
  by rewrite delete_insert_id.
Qed.

(** C25: creating a dynamic queue of less than 64 KiB and deleting it, outside every
    interrupt and in whatever state of the other queues, leaks nothing in a build
    without ERROR_CHECK (with it the queue is not marked allocated, and deleting it
    is refused): deleting returns DELETE_EVENT_OK, sets the caller's
    pointer to NULL, leaves every other queue as it was, and the live blocks of the
    allocator are those from before the creation. *)
Theorem OSDQueue_create_delete s Q len w event ev s1 :
  dqueues s Q -> 0 < len < 2 ^ 16 -> 0 < w -> len * w < 2 ^ 16 -> iNesting s = 0 ->
  ERROR_CHECK = false -> OSDQueueCreate len w event s = Done (ALLOC_EVENT_OK, Some ev) s1 ->
  exists s2, OSDQueueDelete (Some ev) s1 = Done (DELETE_EVENT_OK, None) s2 /\
    dqueues s2 Q /\ blocks (heap s2) = blocks (heap s).
Proof.
  intros H Hlen Hw Hlw Hn Hchk Hr1.
  destruct (OSDQueueCreate_lemma s Q len w event H Hlen Hw Hlw Hn)
    as [(code & s' & Hcode & Hr & _)|(ev' & c & b & s' & e & Hr & HQ & Hn' & _ & _ & _ & F1 & F2 & F3 & HB & Hok)];
    rewrite Hr in Hr1; [injection Hr1 as E _ _; by apply create_code in Hcode|]. injection Hr1 as -> ->.
  specialize (Hok ltac:(congruence)).
  destruct (OSDQueueDelete_lemma s1 _ ev _ Hok (lookup_insert_eq _ _ _) Hn') as (s2 & Hr2 & H2 & HB2).
  exists s2. split_and!; [done|by rewrite delete_insert_id in H2|].
  by eapply create_delete_blocks.
Qed.

(** [OSDQueueClean] empties the queue and leaves the others alone. *)
Theorem OSDQueueClean_correct s Q ev d :
  dqueues s Q -> Q !! ev = Some d ->
  exists s', OSDQueueClean (Some ev) s = Done CLEAN_BUFFER_OK s' /\ dqueues s' (<[ev := with_items [] d]> Q).
Proof.
  intros H Hd. destruct (ds_at _ _ H ev d Hd) as (e & q & Hat).
  pose proof Hat as [He Ha Hptr Hq Hs Hwd Hpos Hrm Hm Hi Hrep Hok HW].
  set (q' := mkOS_DQUEUE (DQStart q) (DQEnd q) (DQStart q) (DQStart q) (DQTSize q) (DQLength q) 0).
  exists (put_dq (dq_ctl d) q' (HEAP_MEM s) s). split.
  - unfold OSDQueueClean. run. rewrite Hptr. repeat (run; rewrite ?aset_aset; cbn). by destruct s.
  - apply (dqueues_put s Q ev d [] e); try done. split; cbn; try done; [by eapply aget_aset_eq| |by apply (ev_ok_ext s)].
    by apply ring_clean_rep in Hrep.
Qed.

(** In a build with ERROR_CHECK a new queue is usable only by chance:
    [OSDQueueCreate] does not set OSEventAllocated, so unless the allocated memory
    happened to hold TRUE there, posting and pending return ERR_EVENT_NO_CREATED. *)
Theorem OSDQueueCreate_unallocated s Q len w event ev s1 x dst wait :
  dqueues s Q -> 0 < len < 2 ^ 16 -> 0 < w -> len * w < 2 ^ 16 -> iNesting s = 0 ->
  ERROR_CHECK = true -> OSDQueueCreate len w event s = Done (ALLOC_EVENT_OK, Some ev) s1 ->
  (forall e, aget (HEAP_Queue s) ev = Some e -> q_OSEventAllocated e <> TRUE) ->
  OSDQueuePost (Some ev) x s1 = Done ERR_EVENT_NO_CREATED s1 /\
  OSDQueuePend (Some ev) dst wait s1 = Done (ERR_EVENT_NO_CREATED, dst) s1.
Proof.
  intros H Hlen Hw Hlw Hn Hchk Hr1 Hna.
  destruct (OSDQueueCreate_lemma s Q len w event H Hlen Hw Hlw Hn)
    as [(code & s' & Hcode & Hr & _)|(ev' & c & b & s' & e & Hr & HQ & Hn' & He0 & He & Hq & _)];
    rewrite Hr in Hr1; [injection Hr1 as E _ _; by apply create_code in Hcode|]. injection Hr1 as -> ->.
  specialize (Hna e He0). unfold OSDQueuePost, OSDQueuePend. rewrite Hchk. split; run; rewrite ?Hn'.
  - rewrite (proj2 (Z.eqb_neq _ _) Hna). by destruct s1.
  - change (0 >? 0) with false. run. rewrite (proj2 (Z.eqb_neq _ _) Hna). by destruct s1.
Qed.
End create.
