(* ===== verification/DQueueExamples.v ===== *)
(** * Dynamic queues on a concrete system

    A small allocator that meets the contract of DQueueSpec.v, a system with one
    dynamic queue, the theorems evaluated on it, and a run that shows what happens
    to a queue whose size in bytes does not fit in 16 bits. *)

From Stdlib Require Import ZArith Lia.
From stdpp Require Import base gmap numbers list.
From S2P Require Import Prelude Config State Sched DelayList Hal Clock Kernel Event Sample Ring DQueue DQueueSpec.
#[local] Open Scope Z_scope.
#[local] Open Scope prog_scope.
#[local] Existing Instance Event_DQueue.

(** ** A bump allocator *)

(** It hands out the addresses from [next] up to 128 and never reuses them. *)
Record bump := mkBump { next : Z; live_blocks : gmap Z Z }.

Definition bump_alloc (n : Z) (h : bump) : Z * bump :=
  if (next h + n <=? 128) then (next h, mkBump (next h + n) (<[next h := n]> (live_blocks h)))
  else (0, h).
Definition bump_free (p : Z) (h : bump) : bump := mkBump (next h) (delete p (live_blocks h)).

#[local] Instance dq_config : Config := ExampleConfig bump bump_alloc bump_free.

Definition bump_ok (h : bump) : Prop :=
  0 < next h <= 128 /\
  (forall p n, live_blocks h !! p = Some n -> 0 < p /\ 0 < n /\ p + n <= next h) /\
  (forall p n q m, live_blocks h !! p = Some n -> live_blocks h !! q = Some m -> p <> q ->
     p + n <= q \/ q + m <= p).

#[local] Instance bump_Allocator : Allocator.
Proof.
  refine {| heap_ok := bump_ok : @heap_t dq_config -> Prop;
            blocks := live_blocks : @heap_t dq_config -> gmap Z Z; heap_end := 128 |}.
  - intros h p n (Hr & Hb & _) Hp. specialize (Hb p n Hp). lia.
  - intros h p n q m (_ & _ & Hd). apply Hd.
  - intros h n p h' (Hr & Hb & Hd) Hn Ha. cbn in Ha. unfold bump_alloc in Ha.
    destruct (next h + n <=? 128) eqn:Hfit; to_prop; injection Ha as <- <-; [|by split; [split|left]].
    assert (live_blocks h !! next h = None) as Hnone.
    { apply eq_None_not_Some. intros [m Hm]. specialize (Hb _ _ Hm). lia. }
    split; [|by right]. split_and!; cbn; [lia|lia| |].
    + intros q m [[<- <-]|[_ Hq]]%lookup_insert_Some; [lia|]. specialize (Hb _ _ Hq). lia.
    + intros q m r k [[<- <-]|[_ Hq]]%lookup_insert_Some [[<- <-]|[_ Hk]]%lookup_insert_Some Hne; [done|..].
      * specialize (Hb _ _ Hk). lia.
      * specialize (Hb _ _ Hq). lia.
      * by apply (Hd q m r k).
  - intros h p (Hr & Hb & Hd) _. split; [|done]. split_and!; cbn; [lia|lia| |].
    + intros q m [_ Hq]%lookup_delete_Some. by apply Hb.
    + intros q m r k [_ Hq]%lookup_delete_Some [_ Hk]%lookup_delete_Some. by apply Hd.
Defined.

(** ** A system with a queue of three elements of three bytes

    Its control block is at 16, its buffer at 40 and its event at 52; the next
    element to come out is in the last slot of the ring. *)
Definition sample_heap : bump := mkBump 64 {[ 16 := 24; 40 := 12; 52 := 12 ]}.
Definition sample_bytes : list Z :=
  replicate 40 0xAA ++ [4; 5; 6] ++ replicate 6 0 ++ [1; 2; 3] ++ replicate 76 0xAA.
Definition no_event : BRTOS_Queue := mkQueue 0xAA 0xAA 0xAA None 0xAA.
Definition no_ring : OS_DQUEUE := mkOS_DQUEUE 0 0 0 0 0 0 0.

Definition dq_os (e : BRTOS_Queue) (q : OS_DQUEUE) : OS :=
  set_HEAP_MEM sample_bytes
    (set_HEAP_DQUEUE (<[16%nat := q]> (replicate 128 no_ring))
       (set_HEAP_Queue (<[52%nat := e]> (replicate 128 no_event))
          (generic_os sample_heap [0; 5; 9] (2 ^ 0 + 2 ^ 5) 2 [] [] [] [] [] []))).

Definition sample_dqueue (items : list (list Z)) (W : gset Z) : dqueue := mkDQ 16 40 3 4 items W.
Definition idle_event : BRTOS_Queue := mkQueue 0 0 0 (Some 16) 0.
Definition waited_event : BRTOS_Queue := mkQueue 0 0 1 (Some 16) (2 ^ 9).
Definition ring_two : OS_DQUEUE := mkOS_DQUEUE 40 52 43 49 3 4 2.
Definition ring_none : OS_DQUEUE := mkOS_DQUEUE 40 52 49 49 3 4 0.

Definition two_items : list (list Z) := [[1; 2; 3]; [4; 5; 6]].

Lemma ring_two_rep : ring_rep 3 (ring_of ring_two) sample_bytes (map le_val two_items).
Proof.
  split; [lia|]. exists 1, 3. split; try done. intros k x Hk.
  do 2 (destruct k as [|k]; [cbn in Hk; simplify_eq; by vm_compute|]). done.
Qed.

Lemma ring_none_rep : ring_rep 3 (ring_of ring_none) sample_bytes (map le_val []).
Proof. split; [lia|]. exists 3, 3. split; try done. Qed.

Lemma sample_bytes_ok : Forall byte sample_bytes.
Proof. apply (bool_decide_eq_true_1 (Forall (fun b => 0 <= b < 256) sample_bytes)). by vm_compute. Qed.

Lemma sample_heap_ok : bump_ok sample_heap.
Proof.
  assert (forall p n, live_blocks sample_heap !! p = Some n ->
    (p = 16 /\ n = 24) \/ (p = 40 /\ n = 12) \/ (p = 52 /\ n = 12)) as Hall.
  { intros p n H. cbn in H. apply lookup_insert_Some in H as [[<- <-]|[_ H]]; [by left|].
    apply lookup_insert_Some in H as [[<- <-]|[_ H]]; [by right; left|].
    apply lookup_singleton_Some in H as [<- <-]. by right; right. }
  split_and!; [done|done| |].
  - intros p n H%Hall. cbn. lia.
  - intros p n q m H1%Hall H2%Hall. lia.
Qed.

Lemma sample_dqueues e q d :
  dq_ctl d = 16 -> dq_buf d = 40 -> dq_room d * dq_width d = 12 ->
  dqueue_at (dq_os e q) 52 e q d -> dqueues (dq_os e q) {[ 52 := d ]}.
Proof.
  intros H1 H2 H3 Hat. split.
  - apply sample_heap_ok.
  - by split_and!.
  - apply sample_bytes_ok.
  - intros ev d' [<- <-]%lookup_singleton_Some. eauto.
  - intros ev d' [<- <-]%lookup_singleton_Some. unfold owns, parts. rewrite H1, H2, H3.
    split_and!; [done|done|done|]. by apply (bool_decide_eq_true_1 (NoDup [52; 16; 40])).
  - intros ev1 d1 ev2 d2 a [<- _]%lookup_singleton_Some [<- _]%lookup_singleton_Some. done.
Qed.

(** The queue holds two elements and nobody waits; a task of priority 9 waits. *)
Definition busy : OS := dq_os idle_event ring_two.
Definition busy_queue : dqueue := sample_dqueue two_items (members 0).
Definition waited : OS := dq_os waited_event ring_none.
Definition waited_queue : dqueue := sample_dqueue [] (members (2 ^ 9)).
Definition idle : OS := dq_os idle_event ring_none.
Definition idle_queue : dqueue := sample_dqueue [] (members 0).

Lemma element_3 a b c : byte a -> byte b -> byte c -> element 3 [a; b; c].
Proof. intros. split; [done|]. by repeat (constructor; [done|]). Qed.

Lemma busy_dqueues : dqueues busy {[ 52 := busy_queue ]}.
Proof.
  apply (sample_dqueues idle_event ring_two); [done..|]. split; try done.
  - apply sample_bytes_ok.
  - repeat constructor; by unfold byte.
  - apply ring_two_rep.
  - by apply ev_okb_sound.
Qed.

Lemma waited_dqueues : dqueues waited {[ 52 := waited_queue ]}.
Proof.
  apply (sample_dqueues waited_event ring_none); [done..|]. split; try done.
  - apply sample_bytes_ok.
  - apply ring_none_rep.
  - by apply ev_okb_sound.
Qed.

Lemma idle_dqueues : dqueues idle {[ 52 := idle_queue ]}.
Proof.
  apply (sample_dqueues idle_event ring_none); [done..|]. split; try done.
  - apply sample_bytes_ok.
  - apply ring_none_rep.
  - by apply ev_okb_sound.
Qed.

Lemma members_0 : members 0 = ∅.
Proof. apply set_eq. intros p. rewrite elem_of_members, Z.testbit_0_l. set_solver. Qed.

Lemma OSDQueue_fifo_witness :
  exists s1 s2, dq_post_all 52 [[7; 8; 9]; [10; 11; 12]] busy = Done tt s1 /\
    dqueues s1 (<[52 := with_items (two_items ++ [[7; 8; 9]; [10; 11; 12]]) busy_queue]> {[52 := busy_queue]}) /\
    dq_pend_all 52 0 [0; 0; 0; 99] 4 s1 =
      Done (map (fun x => x ++ [99]) (two_items ++ [[7; 8; 9]; [10; 11; 12]])) s2 /\
    dqueues s2 (<[52 := with_items [] busy_queue]> {[52 := busy_queue]}).
Proof.
  apply (OSDQueue_fifo busy {[52 := busy_queue]} 52 busy_queue [[7; 8; 9]; [10; 11; 12]] [0; 0; 0; 99] 0);
    [apply busy_dqueues|by apply lookup_singleton_eq|apply members_0|done|by cbn| |by cbn].
  repeat constructor; by unfold byte.
Defined.

Lemma OSDQueuePost_wakes_witness :
  exists p s' k, p ∈ members (2 ^ 9) /\ (forall p', p' ∈ members (2 ^ 9) -> p' <= p) /\
    OSDQueuePost (Some 52) [7; 8; 9] waited = Yield s' k /\ wf s' [] /\ dispatched s' /\
    OSReadyList s' = Z.lor (OSReadyList waited) (2 ^ p) /\
    dqueues s' (<[52 := with_waiters (members (2 ^ 9) ∖ {[p]}) (with_items [[7; 8; 9]] waited_queue)]>
      {[52 := waited_queue]}) /\
    forall s2, k s2 = Done WRITE_BUFFER_OK (set_PRIMASK (PRIMASK waited) s2).
Proof.
  apply (OSDQueuePost_wakes waited [] {[52 := waited_queue]} 52 waited_queue [7; 8; 9]);
    [by apply wfb_sound|done|by eexists|apply waited_dqueues|by apply lookup_singleton_eq| | |done].
  - intros E. assert (9 ∈ members (2 ^ 9)) as Hin by (by apply elem_of_members).
    change (members (2 ^ 9) = ∅) in E. rewrite E in Hin. by apply elem_of_empty in Hin.
  - by apply element_3.
Defined.

Lemma OSDQueuePend_waits_witness :
  OSDQueuePend (Some 52) [0; 0; 0] NO_TIMEOUT idle = Done (EXIT_BY_NO_ENTRY_AVAILABLE, [0; 0; 0]) idle /\
  exists s1 k, OSDQueuePend (Some 52) [0; 0; 0] 50 idle = Yield s1 k /\ wf s1 [2] /\ dispatched s1 /\
    dqueues s1 (<[52 := with_waiters ({[5]} ∪ members 0) idle_queue]> {[52 := idle_queue]}).
Proof.
  destruct (OSDQueuePend_waits idle [] {[52 := idle_queue]} 52 idle_queue [0; 0; 0] 50 5) as [H1 H2];
    [by apply wfb_sound|done|by apply task_atb_sound|done|apply not_elem_of_nil|apply idle_dqueues
    |by apply lookup_singleton_eq|done| |done|].
  - change (5 ∉ members 0). rewrite members_0. apply not_elem_of_empty.
  - split; [done|]. destruct (H2 ltac:(done)) as (s1 & k & Hr & Hw & Hd & Hq & _). by exists s1, k.
Defined.

Lemma OSDQueueCreate_correct_witness :
  (exists code s', (code = NO_AVAILABLE_MEMORY \/ code = NO_AVAILABLE_EVENT) /\
     OSDQueueCreate 5 2 None busy = Done (code, None) s' /\
     dqueues s' {[52 := busy_queue]} /\ blocks (heap s') = blocks (heap busy)) \/
  (exists ev c b s', OSDQueueCreate 5 2 None busy = Done (ALLOC_EVENT_OK, Some ev) s' /\
     ({[52 := busy_queue]} : gmap Z dqueue) !! ev = None /\
     blocks (heap s') = <[ev := sizeof_BRTOS_Queue]> (<[b := 10]> (<[c := sizeof_OS_DQUEUE]> (blocks (heap busy)))) /\
     ((ERROR_CHECK = true -> exists e, aget (HEAP_Queue busy) ev = Some e /\ q_OSEventAllocated e = TRUE) ->
      dqueues s' (<[ev := empty_queue c b 5 2]> {[52 := busy_queue]}))).
Proof.
  destruct (OSDQueueCreate_correct busy {[52 := busy_queue]} 5 2 None) as (_ & _ & H);
    [apply busy_dqueues|done|done|done|].
  destruct (H ltac:(done) ltac:(done) ltac:(done)) as [?|(ev & c & b & s' & Hr & Hn & HB & Hok)];
    [by left|right]. exists ev, c, b, s'. split_and!; done.
Defined.

(** The fresh queue is at 98. *)
Definition created : OS :=
  match OSDQueueCreate 5 2 None busy with Done _ s' => s' | _ => busy end.

Lemma OSDQueue_create_delete_witness :
  exists s2, OSDQueueDelete (Some 98) created = Done (DELETE_EVENT_OK, None) s2 /\
    dqueues s2 {[52 := busy_queue]} /\ blocks (heap s2) = blocks (heap busy).
Proof.
  apply (OSDQueue_create_delete busy {[52 := busy_queue]} 5 2 None 98 created);
    [apply busy_dqueues|done|done|done|done|done|by vm_compute].
Defined.

Definition then_on {A B} (r : res A) (k : OS -> option B) : option B :=
  match r with Done _ s => k s | _ => None end.
Definition value {A} (r : res A) : option A := match r with Done a _ => Some a | _ => None end.

(** A queue of 32769 elements of 2 bytes gets a buffer of 2 bytes, because its size
    is computed in 16 bits: the second element posted overwrites the first. *)
Example OSDQueueCreate_size_wraps :
  then_on (OSDQueueCreate 32769 2 None busy) (fun s1 =>
  then_on (OSDQueuePost (Some 90) [1; 2] s1) (fun s2 =>
  then_on (OSDQueuePost (Some 90) [3; 4] s2) (fun s3 =>
  value (OSDQueuePend (Some 90) [0; 0] 0 s3))))
  = Some (READ_BUFFER_OK, [3; 4]).
Proof. by vm_compute. Qed.
