(* ===== verification/Blocking.v ===== *)
(** * Blocking and unblocking tasks

    brtos/BRTOS.c, [OSBlockPriority] to [OSUnBlockMultipleTask].  A blocked
    priority is a clear bit of [OSBlockedList]; its task keeps its place in the
    ready list but is not scheduled.  The theorems show that the services keep
    the kernel invariant, that a blocked task does not run until it is
    unblocked, and which tasks the services on a range of handles touch. *)

From Stdlib Require Import ZArith Lia.
From stdpp Require Import base gmap numbers list.
From S2P Require Import Prelude Config State Sched DelayList Hal Clock Kernel Event Sample.
#[local] Open Scope Z_scope.
#[local] Open Scope prog_scope.

Section operations.
Context `{C : Config}.

(** [OSBlockPriority] *)
Definition OSBlockPriority (iPriority : Z) : prog Z :=
  nesting <- gets iNesting ;;
  if nesting >? 0 then ret IRQ_PEND_ERR
  else
    CPU_SR <- OSEnterCritical_started ;;
    BlockedTask <- read PriorityVector iPriority ;;
    blocked_remove iPriority ;;;
    cur <- gets currentTask ;;
    when (cur =? BlockedTask) ChangeContext ;;;
    OSExitCritical_started CPU_SR ;;;
    ret OK.

(** [OSUnBlockPriority] *)
Definition OSUnBlockPriority (iPriority : Z) : prog Z :=
  CPU_SR <- OSEnterCritical ;;
  blocked_insert iPriority ;;;
  (* check if we have unblocked a higher priority task *)
  cur <- gets currentTask ;;
  nesting <- gets iNesting ;;
  when (truthy cur && negb (truthy nesting)) ChangeContext ;;;
  OSExitCritical CPU_SR ;;;
  ret OK.

(** [OSBlockTask].  With no task running and a null handle the code restores an
    interrupt mask it never saved: that is undefined. *)
Definition OSBlockTask (TaskHandle : Z) : prog Z :=
  nesting <- gets iNesting ;;
  if nesting >? 0 then ret IRQ_PEND_ERR
  else
    CPU_SR <- OSEnterCritical_started ;;
    cur <- gets currentTask ;;
    if negb (truthy TaskHandle) && negb (truthy cur) then fault
    else
      let TaskHandle := if truthy TaskHandle then TaskHandle else cur in
      c <- Task TaskHandle ;;
      blocked_remove (Priority c) ;;;
      when (cur =? TaskHandle) ChangeContext ;;;
      OSExitCritical_started CPU_SR ;;;
      ret OK.

(** [OSUnBlockTask] *)
Definition OSUnBlockTask (TaskHandle : Z) : prog Z :=
  CPU_SR <- OSEnterCritical ;;
  c <- Task TaskHandle ;;
  blocked_insert (Priority c) ;;;
  cur <- gets currentTask ;;
  nesting <- gets iNesting ;;
  when (truthy cur && negb (truthy nesting)) ChangeContext ;;;
  OSExitCritical CPU_SR ;;;
  ret OK.

(** The loop [for (iTask = TaskStart; iTask < TaskFinish; iTask++)] of the two
    services below, with an 8-bit counter; [f] is what it does to a priority. *)
Fixpoint tasks_loop (fuel : nat) (f : Z -> prog unit) (iTask TaskFinish : Z) : prog unit :=
  match fuel with
  | O => fault
  | S fuel' =>
      if iTask <? TaskFinish then
        cur <- gets currentTask ;;
        when (negb (iTask =? cur))
          (c <- Task iTask ;;
           f (Priority c)) ;;;
        tasks_loop fuel' f (uint8 (iTask + 1)) TaskFinish
      else ret tt
  end.

(** [OSBlockMultipleTask] *)
Definition OSBlockMultipleTask (TaskStart TaskNumber : Z) : prog Z :=
  nesting <- gets iNesting ;;
  if nesting >? 0 then ret IRQ_PEND_ERR
  else
    CPU_SR <- OSEnterCritical_started ;;
    tasks_loop 257 blocked_remove TaskStart (uint8 (TaskStart + TaskNumber)) ;;;
    OSExitCritical_started CPU_SR ;;;
    ret OK.

(** [OSUnBlockMultipleTask] *)
Definition OSUnBlockMultipleTask (TaskStart TaskNumber : Z) : prog Z :=
  nesting <- gets iNesting ;;
  if nesting >? 0 then ret IRQ_PEND_ERR
  else
    CPU_SR <- OSEnterCritical_started ;;
    tasks_loop 257 blocked_insert TaskStart (uint8 (TaskStart + TaskNumber)) ;;;
    cur <- gets currentTask ;;
    nesting <- gets iNesting ;;
    when (truthy cur)
      (when (negb (truthy nesting)) ChangeContext ;;;
       OSExitCritical CPU_SR) ;;;
    ret OK.
End operations.

Section lemmas.
Context `{C : Config}.
Implicit Types (s : OS) (l : list Z) (t p : Z).

Lemma wf_set_blocked s l B :
  wf s l -> 0 <= B < 2 ^ PriorityType_bits -> Z.testbit B 0 = true -> wf (set_OSBlockedList B s) l.
Proof.
  intros Hw HB H0. eapply wf_same_prios; [done|by apply same_prios_ctx|..]; cbn; try apply Hw; try done.
  - intros u Hin. eexists. by eapply wf_delay_live.
  - destruct (wf_idle s l Hw). by split.
Qed.

Lemma wf_block s l p :
  wf s l -> 0 < p -> wf (set_OSBlockedList (andnot (OSBlockedList s) (2 ^ p)) s) l.
Proof.
  intros Hw Hp. pose proof PriorityType_bits_range. destruct (wf_idle s l Hw) as [_ H0].
  apply wf_set_blocked; [done|apply andnot_range; [lia|apply Hw]|].
  by rewrite testbit_clear, H0, bool_decide_false by lia.
Qed.

Lemma wf_unblock s l p :
  wf s l -> 0 <= p < PriorityType_bits ->
  wf (set_OSBlockedList (Z.lor (OSBlockedList s) (2 ^ p)) s) l.
Proof.
  intros Hw Hp. destruct (wf_idle s l Hw) as [_ H0].
  apply wf_set_blocked; [done|apply lor_pow2_range; [lia|apply Hw]|].
  by rewrite testbit_set, H0 by lia.
Qed.

(** The end of the services: switch if [b], then restore the interrupt mask. *)
Lemma finish_lemma s l (b : bool) sr :
  wf s l -> iNesting s = 0 -> is_Some (aget (ContextTask s) (currentTask s)) ->
  currentTask s <> 0 ->
  exists s', same_prios s s' /\ wf s' l /\ OSReadyList s' = OSReadyList s /\
    OSBlockedList s' = OSBlockedList s /\
    if b then
      exists k, (when true ChangeContext ;;; OSExitCritical_started sr ;;; ret OK) s = Yield s' k /\
        dispatched s'
    else (when false ChangeContext ;;; OSExitCritical_started sr ;;; ret OK) s = Done OK s' /\
         currentTask s' = currentTask s /\ s' = set_PRIMASK sr s.
Proof.
  intros Hw Hn Hcur Hne. destruct b.
  - destruct (ChangeContext_lemma s l Hw Hn Hcur) as (t & Hcc & Hw' & Hd & Hsp).
    destruct (switched_frame s t) as (Gr & Gb & _). exists (switched t s).
    split_and!; [done..|]. eexists. cbn. rewrite Hcc. cbn. split; [reflexivity|done].
  - exists (set_PRIMASK sr s). split_and!; [by apply same_prios_ctx|by apply (wf_ext s)|done|done|..].
    + cbn. by rewrite truthy_nz.
    + done.
    + done.
Qed.
End lemmas.

(** ** Theorems *)
Section theorems.
Context `{C : Config}.
Implicit Types (s : OS) (l : list Z) (t p : Z).

(** Blocking a task other than idle keeps the kernel invariant and takes the
    task's priority, and no other, out of the runnable set.  A task that blocks
    another goes on running; a task that blocks itself (by its handle or with a
    null handle) gives the processor to the highest priority that can run, which
    is not its own. *)
Theorem OSBlockTask_correct s l h t p :
  wf s l -> iNesting s = 0 -> is_Some (aget (ContextTask s) (currentTask s)) ->
  currentTask s <> 0 -> t = (if truthy h then h else currentTask s) ->
  task_at s p t -> 0 < p ->
  exists s', wf s' l /\ same_prios s s' /\ OSReadyList s' = OSReadyList s /\
    (forall q, runnable s' q <-> runnable s q /\ q <> p) /\
    if currentTask s =? t then
      exists k, OSBlockTask h s = Yield s' k /\ dispatched s' /\ currentTask s' <> t
    else OSBlockTask h s = Done OK s' /\ currentTask s' = currentTask s.
Proof.
  intros Hw Hn Hcur Hne Heq Ht Hp. pose proof (task_at_range s l p _ Hw Ht) as Hr.
  destruct (task_at_ctx s p t Ht) as (c & Hc & Hpc).
  set (s1 := set_OSBlockedList (andnot (OSBlockedList s) (2 ^ p)) (set_PRIMASK true s)).
  assert (wf s1 l) as Hw1 by (apply (wf_ext (set_OSBlockedList (andnot (OSBlockedList s) (2 ^ p)) s));
                                [done|by apply wf_block]).
  destruct (finish_lemma s1 l (currentTask s =? t) (PRIMASK s) Hw1 Hn Hcur Hne)
    as (s' & Hsp & Hw' & Hrd & Hbl & Hrun).
  assert (same_prios s s') as Hsp' by (eapply same_prios_trans; [|done]; by apply same_prios_ctx).
  assert (forall q, runnable s' q <-> runnable s q /\ q <> p) as Hrun'.
  { intros q. unfold runnable. rewrite Hrd, Hbl. cbn. rewrite testbit_clear by lia.
    rewrite andb_true_iff, negb_true_iff, bool_decide_eq_false. naive_solver. }
  exists s'. split_and!; [done|done|by rewrite Hrd|done|].
  assert (OSBlockTask h s = (when (currentTask s =? t) ChangeContext ;;;
            OSExitCritical_started (PRIMASK s) ;;; ret OK) s1) as ->.
  { unfold OSBlockTask. cbn. rewrite Hn. change (0 >? 0) with false. cbn.
    rewrite (truthy_nz (currentTask s)) by done. cbn.
    destruct (truthy h); cbn; rewrite ?(truthy_nz (currentTask s)) by done; cbn; rewrite <- Heq;
      run; by rewrite Hpc, blocked_remove_eq by lia. }
  destruct (currentTask s =? t) eqn:E; to_prop.
  - destruct Hrun as (k & Hk & Hd). exists k. split_and!; [done|done|].
    intros He. destruct Hd as (q & Hq & Hqr & _). rewrite He in Hq.
    apply Hrun' in Hqr as [_ Hqp]. apply Hqp.
    eapply task_at_prio_inj; [done|]. by eapply same_prios_task_at.
  - by destruct Hrun as (Hk & Hc' & _).
Qed.

(** Unblocking undoes blocking: the priority can run again, no other changes,
    the kernel invariant holds, and the processor goes to the highest priority
    that can run. *)
Theorem OSUnBlockTask_correct s l t p :
  wf s l -> iNesting s = 0 -> is_Some (aget (ContextTask s) (currentTask s)) ->
  currentTask s <> 0 -> task_at s p t ->
  exists s' k, OSUnBlockTask t s = Yield s' k /\ wf s' l /\ dispatched s' /\ same_prios s s' /\
    (forall q, runnable s' q <-> runnable s q \/ q = p /\ Z.testbit (OSReadyList s) p = true) /\
    (forall s2, k s2 = Done OK (set_PRIMASK (PRIMASK s) s2)).
Proof.
  intros Hw Hn Hcur Hne Ht. pose proof (task_at_range s l p _ Hw Ht) as Hr.
  destruct (task_at_ctx s p t Ht) as (c & Hc & Hpc).
  set (s1 := set_OSBlockedList (Z.lor (OSBlockedList s) (2 ^ p)) (set_PRIMASK true s)).
  assert (wf s1 l) as Hw1 by (apply (wf_ext (set_OSBlockedList (Z.lor (OSBlockedList s) (2 ^ p)) s));
                                [done|by apply wf_unblock]).
  destruct (ChangeContext_lemma s1 l Hw1) as (u & Hcc & Hw' & Hd & Hsp); [done|done|].
  destruct (switched_frame s1 u) as (Gr & Gb & _).
  exists (switched u s1). eexists. split_and!; [|done|done|..].
  - unfold OSUnBlockTask. run. rewrite Hpc, blocked_insert_eq by lia. cbn.
    rewrite (truthy_nz (currentTask s)), Hn by done. run. fold s1. rewrite Hcc. reflexivity.
  - eapply same_prios_trans; [|done]. by apply same_prios_ctx.
  - intros q. unfold runnable. rewrite Gr, Gb. cbn. rewrite testbit_set by lia.
    rewrite orb_true_iff, bool_decide_eq_true. naive_solver.
  - intros s2. by destruct s2.
Qed.

(** The priorities of the tasks [a .. b) other than the running one. *)
Definition range_prios (s : OS) (a b : Z) : list Z :=
  map (prio_of s) (filter (fun t => t <> currentTask s) (seqZ a (b - a))).

Lemma range_prios_step s a b :
  a < b -> range_prios s a b =
    (if a =? currentTask s then [] else [prio_of s a]) ++ range_prios s (a + 1) b.
Proof.
  intros Hlt. unfold range_prios. rewrite seqZ_cons by lia.
  replace (Z.pred (b - a)) with (b - (a + 1)) by lia.
  destruct (a =? currentTask s) eqn:E; to_prop.
  - rewrite filter_cons_False by (intros ?; done). done.
  - rewrite filter_cons_True by done. done.
Qed.

Lemma block_loop_lemma fuel s a b :
  0 <= a <= b -> b < 256 -> b - a < Z.of_nat fuel ->
  0 <= OSBlockedList s < 2 ^ PriorityType_bits ->
  (forall t, a <= t < b -> t <> currentTask s ->
     exists c, aget (ContextTask s) t = Some c /\ 0 <= Priority c < PriorityType_bits) ->
  exists B, tasks_loop fuel blocked_remove a b s = Done tt (set_OSBlockedList B s) /\
    0 <= B < 2 ^ PriorityType_bits /\
    forall q, Z.testbit B q = true <-> Z.testbit (OSBlockedList s) q = true /\ q ∉ range_prios s a b.
Proof.
  revert s a. induction fuel as [|fuel IH]; intros s a Hab Hb Hf Hbl Hc; [lia|].
  pose proof PriorityType_bits_range.
  cbn [tasks_loop]. destruct (a <? b) eqn:Hlt; to_prop.
  2:{ exists (OSBlockedList s). split_and!; [by destruct s|lia|lia|]. intros q. unfold range_prios.
      rewrite seqZ_nil by lia. set_solver. }
  rewrite range_prios_step by done. cbn. rewrite uint8_small by lia.
  destruct (a =? currentTask s) eqn:E; to_prop; cbn.
  - destruct (IH s (a + 1)) as (B & HB & Hbit); [lia|lia|lia|done|intros; apply Hc; [lia|done]|].
    exists B. by rewrite HB.
  - destruct (Hc a) as (c & Hca & Hpc); [lia|done|]. run. rewrite blocked_remove_eq by lia. cbn.
    set (s1 := set_OSBlockedList _ s).
    destruct (IH s1 (a + 1)) as (B & HB & HBr & Hbit);
      [lia|lia|lia|apply andnot_range; [lia|done]|intros; apply Hc; [lia|done]|].
    exists B. rewrite HB. split_and!; [done|lia|lia|]. intros q. rewrite Hbit. cbn.
    rewrite testbit_clear by lia. change (range_prios s1 (a + 1) b) with (range_prios s (a + 1) b).
    assert (prio_of s a = Priority c) as -> by (unfold prio_of; by rewrite Hca).
    rewrite andb_true_iff, negb_true_iff, bool_decide_eq_false, not_elem_of_cons. naive_solver.
Qed.

#[local] Arguments tasks_loop : simpl never.

(** [OSBlockMultipleTask] blocks exactly the priorities of the tasks
    [TaskStart .. TaskStart + TaskNumber) other than the caller, in one critical
    section, and returns OK without giving up the processor; when idle is not
    among them the kernel invariant is preserved. *)
Theorem OSBlockMultipleTask_correct s l a n :
  wf s l -> iNesting s = 0 -> currentTask s <> 0 -> 0 <= a -> 0 <= n -> a + n < 256 ->
  (forall t, a <= t < a + n -> t <> currentTask s -> exists p, task_at s p t /\ 0 < p) ->
  exists s', OSBlockMultipleTask a n s = Done OK s' /\ wf s' l /\
    currentTask s' = currentTask s /\ OSReadyList s' = OSReadyList s /\
    forall q, runnable s' q <-> runnable s q /\ q ∉ range_prios s a (a + n).
Proof.
  intros Hw Hn Hne Ha Hn0 Hlt Hts.
  destruct (block_loop_lemma 257 (set_PRIMASK true s) a (a + n)) as (B & HB & HBr & Hbit);
    [lia|lia|lia|apply Hw|..].
  { intros t Ht Hnt. destruct (Hts t Ht Hnt) as (p & Hp & _).
    destruct (task_at_ctx s p t Hp) as (c & Hc & Hpc). exists c. split; [done|].
    rewrite Hpc. by eapply task_at_range. }
  assert (0 ∉ range_prios s a (a + n)) as H0.
  { unfold range_prios. intros (t & Ht & [Hnt Hin%elem_of_seqZ]%list_elem_of_filter)%list_elem_of_fmap.
    destruct (Hts t) as (p & Hp & Hpos); [lia|done|]. rewrite (task_at_prio s p t Hp) in Ht. lia. }
  exists (set_OSBlockedList B s). split_and!; [| |done|done|].
  - unfold OSBlockMultipleTask. cbn. rewrite Hn. change (0 >? 0) with false. cbn.
    rewrite (truthy_nz (currentTask s)), uint8_small by (done || lia). cbn. rewrite HB. cbn.
    rewrite (truthy_nz (currentTask s)) by done. by destruct s.
  - destruct (wf_idle s l Hw) as [_ Hb0]. by apply wf_set_blocked; [..|apply Hbit].
  - intros q. unfold runnable. cbn. rewrite Hbit. cbn. naive_solver.
Qed.
End theorems.

(** ** Examples *)
Section examples.
#[local] Existing Instance sample_config.

Lemma OSBlockTask_correct_witness :
  exists s', wf s' [] /\ same_prios sample s' /\ OSReadyList s' = OSReadyList sample /\
    (forall q, runnable s' q <-> runnable sample q /\ q <> 5) /\
    exists k, OSBlockTask 0 sample = Yield s' k /\ dispatched s' /\ currentTask s' <> 2.
Proof.
  apply (OSBlockTask_correct sample [] 0 2 5);
    [apply sample_wf|done|by eexists|done|done|by apply task_atb_sound|lia].
Defined.

Lemma OSUnBlockTask_correct_witness :
  exists s' k, OSUnBlockTask 3 sample = Yield s' k /\ wf s' [] /\ dispatched s' /\
    same_prios sample s' /\
    (forall q, runnable s' q <-> runnable sample q \/ q = 9 /\ Z.testbit (OSReadyList sample) 9 = true) /\
    (forall s2, k s2 = Done OK (set_PRIMASK false s2)).
Proof.
  apply (OSUnBlockTask_correct sample [] 3 9);
    [apply sample_wf|done|by eexists|done|by apply task_atb_sound].
Defined.

Lemma OSBlockMultipleTask_correct_witness :
  exists s', OSBlockMultipleTask 2 2 sample = Done OK s' /\ wf s' [] /\
    currentTask s' = 2 /\ OSReadyList s' = OSReadyList sample /\
    forall q, runnable s' q <-> runnable sample q /\ q ∉ range_prios sample 2 4.
Proof.
  apply (OSBlockMultipleTask_correct sample [] 2 2);
    [apply sample_wf|done|done|lia|lia|lia|].
  intros t Ht Hne. cbn in Hne. assert (t = 3) as -> by lia. exists 9.
  split; [by apply task_atb_sound|lia].
Defined.
End examples.
