(* ===== verification/Tasks.v ===== *)
(** * Installing tasks and starting the system

    brtos/BRTOS.c: [OSInstallTask] (the static and the dynamic version),
    [OSUninstallTask], [PreInstallTasks], [initEvents], [BRTOSInit] and
    [BRTOSStart].  The theorems show that initialisation and the first start
    establish the kernel invariant and that installing and uninstalling tasks
    keep it. *)

From Stdlib Require Import ZArith Lia.
From stdpp Require Import base gmap numbers list.
From S2P Require Import Prelude Config State Sched DelayList Hal Clock Kernel Event Sample.
#[local] Open Scope Z_scope.
#[local] Open Scope prog_scope.

Section operations.
Context `{C : Config}.

(** The checks of a priority common to both versions of [OSInstallTask]:
    [None] when the task may be installed at [iPriority]. *)
Definition check_priority (FctPtr iPriority : Z) : prog (option Z) :=
  if truthy iPriority then
    if iPriority >? configMAX_TASK_PRIORITY then ret (Some END_OF_AVAILABLE_PRIORITIES)
    else
      v <- read PriorityVector iPriority ;;
      if negb (v =? EMPTY_PRIO) then ret (Some BUSY_PRIORITY) else ret None
  else if negb (FctPtr =? Idle_addr) then ret (Some CANNOT_ASSIGN_IDLE_TASK_PRIO)
  else ret None.

(** "Number Task Discovery": the loop over [i < NUMBER_OF_TASKS] that takes the
    first clear bit of [TaskAlloc]; the result is [TaskNumber], 0 if none. *)
Fixpoint discover (n : nat) (i : Z) : prog Z :=
  match n with
  | O => ret 0
  | S n' =>
      alloc <- gets TaskAlloc ;;
      let teste := uint32 (Z.shiftl 1 i) in
      if negb (truthy (Z.land teste alloc)) then
        modify (set_TaskAlloc (Z.lor alloc teste)) ;;;
        ret (uint8 (i + 1))
      else discover n' (i + 1)
  end.

(** [OSInstallTask] of a build without dynamic tasks.  The result is the code
    and the handle written through [TaskHandle], if any. *)
Definition OSInstallTask_static (FctPtr name USER_STACKED_BYTES iPriority parameters : Z)
    : prog (Z * option Z) :=
  CPU_SR <- OSEnterCritical_started ;;
  let bytes := uint16 (USER_STACKED_BYTES - USER_STACKED_BYTES mod sizeof_OS_CPU_TYPE) in
  addr <- gets iStackAddress ;;
  if bytes <? NUMBER_MIN_OF_STACKED_BYTES then
    OSExitCritical_started CPU_SR ;;;
    ret (STACK_SIZE_TOO_SMALL, None)
  else if addr + bytes / sizeof_OS_CPU_TYPE >? HEAP_SIZE / sizeof_OS_CPU_TYPE then
    OSExitCritical_started CPU_SR ;;;
    ret (NO_MEMORY, None)
  else
    bad <- check_priority FctPtr iPriority ;;
    match bad with
    | Some code =>
        OSExitCritical_started CPU_SR ;;;
        ret (code, None)
    | None =>
        TaskNumber <- discover (Z.to_nat NUMBER_OF_TASKS) 0 ;;
        if TaskNumber =? 0 then
          OSExitCritical_started CPU_SR ;;;
          ret (END_OF_AVAILABLE_TCB, None)
        else
          modify (fun s => set_NumberOfInstalledTasks (uint8 (NumberOfInstalledTasks s + 1)) s) ;;;
          upd_Task TaskNumber (set_TaskName name) ;;;
          stack <- gets StackAddress ;;
          upd_Task TaskNumber
            (set_StackPoint (uint32 (stack + (bytes - NUMBER_MIN_OF_STACKED_BYTES)))) ;;;
          upd_Task TaskNumber (set_StackInit (uint32 (stack + bytes))) ;;;
          upd_Task TaskNumber (set_Priority iPriority) ;;;
          write PriorityVector set_PriorityVector iPriority TaskNumber ;;;
          CreateVirtualStack FctPtr bytes parameters ;;;
          modify (fun s => set_iStackAddress
                             (uint16 (iStackAddress s + bytes / sizeof_OS_CPU_TYPE)) s) ;;;
          modify (fun s => set_StackAddress (uint32 (StackAddress s + bytes)) s) ;;;
          upd_Task TaskNumber (set_TimeToWait NO_TIMEOUT) ;;;
          upd_Task TaskNumber (set_Next None) ;;;
          upd_Task TaskNumber (set_Previous None) ;;;
          ready_insert iPriority ;;;
          OSExitCritical_started CPU_SR ;;;
          ret (OK, Some TaskNumber)
    end.

(** The end of the dynamic [OSInstallTask], once the task has a control block
    and a stack. *)
Definition install_task (FctPtr name bytes iPriority parameters TaskNumber Stack : Z)
    : prog unit :=
  modify (fun s => set_NumberOfInstalledTasks (uint8 (NumberOfInstalledTasks s + 1)) s) ;;;
  upd_Task TaskNumber (set_TaskName name) ;;;
  upd_Task TaskNumber (set_StackInit Stack) ;;;
  upd_Task TaskNumber (set_Priority iPriority) ;;;
  write PriorityVector set_PriorityVector iPriority TaskNumber ;;;
  sp <- CreateDVirtualStack FctPtr Stack bytes parameters ;;
  upd_Task TaskNumber (set_StackPoint sp) ;;;
  upd_Task TaskNumber (set_StackSize bytes) ;;;
  upd_Task TaskNumber (set_TimeToWait NO_TIMEOUT) ;;;
  upd_Task TaskNumber (set_Next None) ;;;
  upd_Task TaskNumber (set_Previous None) ;;;
  ready_insert iPriority.

(** [OSInstallTask] of a build with dynamic tasks. *)
Definition OSInstallTask (FctPtr name USER_STACKED_BYTES iPriority parameters : Z)
    : prog (Z * option Z) :=
  CPU_SR <- OSEnterCritical_started ;;
  let bytes := uint16 (USER_STACKED_BYTES - USER_STACKED_BYTES mod sizeof_OS_CPU_TYPE) in
  if bytes <? NUMBER_MIN_OF_STACKED_BYTES then
    OSExitCritical_started CPU_SR ;;;
    ret (STACK_SIZE_TOO_SMALL, None)
  else
    bad <- check_priority FctPtr iPriority ;;
    match bad with
    | Some code =>
        OSExitCritical_started CPU_SR ;;;
        ret (code, None)
    | None =>
        (* Allocate the task virtual stack *)
        h <- gets heap ;;
        let '(Stack, h') := BRTOS_ALLOC bytes h in
        modify (set_heap h') ;;;
        if Stack =? 0 then
          OSExitCritical_started CPU_SR ;;;
          ret (NO_MEMORY, None)
        else
          TaskNumber <- discover (Z.to_nat NUMBER_OF_TASKS) 0 ;;
          if TaskNumber =? 0 then
            modify (fun s => set_heap (BRTOS_DEALLOC Stack (heap s)) s) ;;;
            OSExitCritical_started CPU_SR ;;;
            ret (END_OF_AVAILABLE_TCB, None)
          else
            install_task FctPtr name bytes iPriority parameters TaskNumber Stack ;;;
            OSExitCritical_started CPU_SR ;;;
            ret (OK, Some TaskNumber)
    end.

(** The loop that searches the delay list for the task being uninstalled. *)
Fixpoint delay_search (fuel : nat) (T : Z) (Task_timer : option Z) : prog unit :=
  match fuel with
  | O => fault
  | S fuel' =>
      match Task_timer with
      | None => ret tt
      | Some u =>
          if u =? T then RemoveFromDelayList T
          else
            c <- Task u ;;
            delay_search fuel' T (Next c)
      end
  end.

(** The end of [OSUninstallTask]: free the control block, the priority and the
    stack. *)
Definition uninstall_task (TaskHandle : Z) : prog unit :=
  modify (fun s => set_TaskAlloc
                     (uint32 (andnot (TaskAlloc s) (Z.shiftl 1 (TaskHandle - 1)))) s) ;;;
  c <- Task TaskHandle ;;
  write PriorityVector set_PriorityVector (Priority c) EMPTY_PRIO ;;;
  modify (fun s => set_heap (BRTOS_DEALLOC (StackInit c) (heap s)) s) ;;;
  upd_Task TaskHandle (set_StackInit 0) ;;;
  upd_Task TaskHandle (set_StackPoint 0) ;;;
  upd_Task TaskHandle (set_StackSize 0) ;;;
  upd_Task TaskHandle (set_Priority EMPTY_PRIO) ;;;
  upd_Task TaskHandle (set_TimeToWait NO_TIMEOUT) ;;;
  upd_Task TaskHandle (set_Next None) ;;;
  upd_Task TaskHandle (set_Previous None) ;;;
  modify (fun s => set_NumberOfInstalledTasks (uint8 (NumberOfInstalledTasks s - 1)) s).

(** [OSUninstallTask].  With no task running and a null handle it leaves the
    critical section it did not enter: [CPU_SR] is its initial 0, so that
    interrupts are enabled.  [Task] is the address of an array element, so the test
    [Task != NULL] always succeeds. *)
Definition OSUninstallTask (TaskHandle safety_off : Z) : prog Z :=
  head <- gets Head ;;
  CPU_SR <- OSEnterCritical_started ;;
  cur <- gets currentTask ;;
  if negb (truthy TaskHandle) && negb (truthy cur) then
    OSExitCritical false ;;;
    ret NOT_VALID_TASK
  else
    let TaskHandle := if truthy TaskHandle then TaskHandle else cur in
    c <- Task TaskHandle ;;
    if negb (truthy (Priority c)) then
      OSExitCritical_started CPU_SR ;;;
      ret CANNOT_UNINSTALL_IDLE_TASK
    else
      m <- lift (aget PriorityMask (Priority c)) ;;
      ready <- gets OSReadyList ;;
      refused <- (if negb (Z.land ready m =? m) then
                    (* The task is waiting for an event *)
                    if safety_off =? TRUE then
                      delay_search (Z.to_nat (NUMBER_OF_TASKS + 2)) TaskHandle head ;;;
                      ret false
                    else ret true
                  else
                    ready_remove (Priority c) ;;;
                    ret false) ;;
      if refused : bool then
        OSExitCritical_started CPU_SR ;;;
        ret TASK_WAITING_EVENT
      else
        uninstall_task TaskHandle ;;;
        when (TaskHandle =? cur) ChangeContext ;;;
        OSExitCritical_started CPU_SR ;;;
        ret OK.

(** [initEvents] *)
Definition initEvents : prog unit :=
  modify (fun s => set_BRTOS_Sem_Table
                     (map (set_sem_OSEventAllocated 0) (BRTOS_Sem_Table s)) s) ;;;
  modify (fun s => set_BRTOS_Mutex_Table
                     (map (set_mtx_OSEventAllocated 0) (BRTOS_Mutex_Table s)) s) ;;;
  modify (fun s => set_BRTOS_Mbox_Table
                     (map (set_mbx_OSEventAllocated 0) (BRTOS_Mbox_Table s)) s) ;;;
  modify (fun s => set_BRTOS_Queue_Table
                     (map (set_q_OSEventAllocated 0) (BRTOS_Queue_Table s)) s).

(** [PreInstallTasks]: the loops run over the whole [PriorityVector], and over
    the control blocks from 1 on. *)
Definition PreInstallTasks : prog unit :=
  modify (set_OSTickCounter 0) ;;;
  modify (set_currentTask 0) ;;;
  modify (set_NumberOfInstalledTasks 0) ;;;
  modify (set_TaskAlloc 0) ;;;
  modify (set_iStackAddress 0) ;;;
  modify (set_StackAddress STACK_ADDR) ;;;
  modify (fun s => set_PriorityVector (map (fun _ => EMPTY_PRIO) (PriorityVector s)) s) ;;;
  modify (fun s => set_ContextTask
            (match ContextTask s with
             | [] => []
             | c0 :: ct => c0 :: map (set_Priority EMPTY_PRIO) ct
             end) s) ;;;
  modify (set_Tail None) ;;;
  modify (set_Head None).

(** [BRTOSInit]; [TickTimerSetup] writes device registers only. *)
Definition BRTOSInit : prog unit :=
  initEvents ;;;
  PreInstallTasks.

(** [BRTOSStart]: install the idle task, select the first task, load its stack
    pointer and enter it; the final state is the one the first task starts in. *)
Definition BRTOSStart : prog Z :=
  r <- OSInstallTask Idle_addr 0 IDLE_STACK_SIZE 0 0 ;;
  if negb (fst r =? OK) then ret NO_MEMORY
  else
    t <- OSSchedule ;;
    modify (set_currentTask t) ;;;
    c <- Task t ;;
    modify (set_SPvalue (StackPoint c)) ;;;
    SwitchContextToFirstTask ;;;
    ret OK.
End operations.

Arguments install_task : simpl never.
Arguments uninstall_task : simpl never.
Arguments check_priority : simpl never.

(** ** Lemmas *)
Section lemmas.
Context `{C : Config}.
Implicit Types (s : OS) (l : list Z) (t p : Z).

(** Consecutive assignments to one control block are one assignment. *)
Lemma upd_Task_upd_Task {A} s t f g (K : unit -> prog A) :
  bind (upd_Task t f) (fun _ => bind (upd_Task t g) K) s =
  bind (upd_Task t (fun c => g (f c))) K s.
Proof.
  cbn. destruct (aget (ContextTask s) t) as [c|] eqn:Hc; [|done]. cbn.
  rewrite (aget_aset_eq _ _ _ _ Hc). cbn. by rewrite aset_aset.
Qed.

(** The invariant of the task tables before the idle task exists. *)
Record tables (s : OS) (l : list Z) : Prop := {
  tb_pv : Z.of_nat (length (PriorityVector s)) = PriorityType_bits;
  tb_ct : Z.of_nat (length (ContextTask s)) = NUMBER_OF_TASKS + 1;
  tb_ready : 0 <= OSReadyList s < 2 ^ PriorityType_bits;
  tb_blocked : 0 <= OSBlockedList s < 2 ^ PriorityType_bits;
  tb_tick : 0 <= OSTickCounter s < TICK_COUNT_OVERFLOW;
  tb_delay : delay_list s l;
  tb_delay_live : forall t, t ∈ l -> task_at s (prio_of s t) t;
  tb_ready_live : forall p, Z.testbit (OSReadyList s) p = true -> live s p;
}.

Lemma wf_tables s l : wf s l <-> tables s l /\ runnable s 0.
Proof. split; [intros []; by split|]. intros [[] ?]. by split. Qed.

(** The allocation bit of each installed task is set. *)
Definition alloc_ok (s : OS) : Prop :=
  0 <= TaskAlloc s < 2 ^ 32 /\
  forall p t, task_at s p t -> Z.testbit (TaskAlloc s) (t - 1) = true.

Lemma discover_lemma n i s :
  0 <= i -> i + Z.of_nat n <= 32 ->
  (discover n i s = Done 0 s /\
   forall j, i <= j < i + Z.of_nat n -> Z.testbit (TaskAlloc s) j = true) \/
  (exists j, i <= j < i + Z.of_nat n /\ Z.testbit (TaskAlloc s) j = false /\
     (forall k, i <= k < j -> Z.testbit (TaskAlloc s) k = true) /\
     discover n i s = Done (j + 1) (set_TaskAlloc (Z.lor (TaskAlloc s) (2 ^ j)) s)).
Proof.
  revert i. induction n as [|n IH]; intros i Hi Hn.
  { left. split; [done|lia]. }
  assert (discover (S n) i s =
    if Z.testbit (TaskAlloc s) i then discover n (i + 1) s
    else Done (i + 1) (set_TaskAlloc (Z.lor (TaskAlloc s) (2 ^ i)) s)) as ->.
  { assert (uint32 (Z.shiftl 1 i) = 2 ^ i) as Hsh.
    { rewrite Z.shiftl_1_l, uint32_small; [done|]. split; [apply Z.pow_nonneg; lia|].
      change 4294967296 with (2 ^ 32). apply Z.pow_lt_mono_r; lia. }
    cbn. rewrite Hsh, Z.land_comm, truthy_land_pow2 by lia.
    destruct (Z.testbit (TaskAlloc s) i); cbn; [done|]. by rewrite uint8_small by lia. }
  destruct (Z.testbit (TaskAlloc s) i) eqn:Eb.
  - destruct (IH (i + 1)) as [[Hr Hall]|(j & Hj & Hjb & Hk & Hr)]; [lia|lia|left|right].
    + split; [done|]. intros j Hj. destruct (decide (j = i)) as [->|]; [done|]. apply Hall. lia.
    + exists j. split_and!; [lia|lia|done| |done].
      intros k Hki. destruct (decide (k = i)) as [->|]; [done|]. apply Hk. lia.
  - right. exists i. split_and!; [lia|lia|done|lia|done].
Qed.

(** The control block and the state of a newly installed task. *)
Definition new_task (name p sp stack bytes : Z) : ContextType :=
  mkContext name sp stack bytes NO_TIMEOUT p None None.

Definition installed (s : OS) (t p : Z) (c : ContextType) (m : gmap Z Z) : OS :=
  set_OSReadyList (Z.lor (OSReadyList s) (2 ^ p))
    (set_ContextTask (aset (ContextTask s) t c)
      (set_mem m
        (set_PriorityVector (aset (PriorityVector s) p t)
          (set_NumberOfInstalledTasks (uint8 (NumberOfInstalledTasks s + 1)) s)))).

Lemma install_task_eq s f name bytes p params t stack c v :
  aget (ContextTask s) t = Some c -> aget (PriorityVector s) p = Some v ->
  0 <= p < PriorityType_bits -> 0 <= stack -> NUMBER_MIN_OF_STACKED_BYTES <= bytes ->
  stack + bytes < 2 ^ 32 ->
  exists sp m, install_task f name bytes p params t stack s =
      Done tt (installed s t p (new_task name p sp stack bytes) m) /\
    sp + NUMBER_MIN_OF_STACKED_BYTES = stack + bytes /\
    m !! (sp + CONTEXT_BYTES + 24) = Some (uint32 f) /\
    m !! (sp + CONTEXT_BYTES) = Some (uint32 params).
Proof.
  intros Hc Hv Hp Hst Hb Hsz.
  destruct (push_words_spec (initial_frame f 0x01010101 params) (stack + bytes) (mem s))
    as (m & Hpush & Hin & Hout); [unfold NUMBER_MIN_OF_STACKED_BYTES in Hb; cbn; lia|].
  exists (stack + bytes - 68), m. unfold NUMBER_MIN_OF_STACKED_BYTES, CONTEXT_BYTES in *. split_and!.
  - unfold install_task. rewrite (bind_Done _ _ s tt
      (set_NumberOfInstalledTasks (uint8 (NumberOfInstalledTasks s + 1)) s)) by done.
    rewrite !upd_Task_upd_Task. run. unfold CreateDVirtualStack. cbn [mem set_PriorityVector
      set_ContextTask set_NumberOfInstalledTasks].
    rewrite (uint32_small (stack + bytes)) by lia. rewrite Hpush. cbn [rbind].
    rewrite !upd_Task_upd_Task. run. rewrite ready_insert_eq by lia.
    unfold installed, new_task. f_equal.
  - lia.
  - replace (stack + bytes - 68 + 36 + 24) with (stack + bytes - 4 * (Z.of_nat 1 + 1)) by lia.
    by apply Hin.
  - replace (stack + bytes - 68 + 36) with (stack + bytes - 4 * (Z.of_nat 7 + 1)) by lia.
    by apply Hin.
Qed.
End lemmas.

Section installing.
Context `{C : Config}.
Implicit Types (s : OS) (l : list Z) (t p : Z).

(** Control block [t] is not in use. *)
Definition free_tcb (s : OS) (t : Z) : Prop := 0 < t /\ forall p, ~ task_at s p t.

Lemma delay_list_aset_other s s' l t c :
  t ∉ l -> ContextTask s' = aset (ContextTask s) t c -> Head s' = Head s -> Tail s' = Tail s ->
  delay_list s l -> delay_list s' l.
Proof.
  intros Hni Hct Hh Ht (Hnd & Hhd & Htl & Hs). split_and!; [done|congruence|congruence|].
  rewrite Hct. by apply dseg_frame_aset.
Qed.

Section one.
Context (s : OS) (l : list Z) (t p : Z) (c0 c : ContextType) (m : gmap Z Z).
Context (Htb : tables s l) (Hfree : free_tcb s t) (Hc0 : aget (ContextTask s) t = Some c0).
Context (Hp : 0 <= p < PriorityType_bits) (Hnl : ~ live s p) (Hpc : Priority c = p).

Lemma installed_task_at : task_at (installed s t p c m) p t.
Proof.
  destruct (aget_is_Some (PriorityVector s) p) as [v Hv]; [rewrite (tb_pv s l Htb); lia|].
  split_and!; cbn; [by eapply aget_aset_eq|apply Hfree|].
  exists c. split; [by eapply aget_aset_eq|done].
Qed.

Lemma installed_others q u : task_at s q u -> task_at (installed s t p c m) q u.
Proof.
  intros Hu. assert (u <> t) by (intros ->; by eapply Hfree).
  assert (q <> p) by (intros ->; apply Hnl; by exists u).
  destruct Hu as (Hv & Hu0 & cu & Hcu & Hpu).
  split_and!; cbn; [by rewrite aget_aset_ne|done|]. exists cu. by rewrite aget_aset_ne.
Qed.

Lemma installed_not_delayed : t ∉ l.
Proof. intros Hin. eapply Hfree. by eapply tb_delay_live. Qed.

Lemma tables_installed : tables (installed s t p c m) l.
Proof.
  pose proof installed_not_delayed as Hnd. pose proof installed_others as Hoth.
  pose proof installed_task_at as Hat.
  pose proof Htb as [H1 H2 H3 H4 H5 H6 H7 H8]. split; cbn; try done.
  - by rewrite length_aset.
  - by rewrite length_aset.
  - apply lor_pow2_range; [lia|done].
  - by apply (delay_list_aset_other s _ l t c).
  - intros u Hu. assert (prio_of (installed s t p c m) u = prio_of s u) as Hpu.
    { unfold prio_of. cbn. rewrite aget_aset_ne; [done|]. intros ->. done. }
    change (prio_of _ u) with (prio_of (installed s t p c m) u). rewrite Hpu.
    by apply Hoth, H7.
  - intros q. rewrite testbit_set by lia. intros [Hq|Hq]%orb_true_iff.
    + destruct (H8 q Hq) as [u Hu]. exists u. by apply Hoth.
    + apply bool_decide_eq_true in Hq as <-. by exists t.
Qed.
End one.

Lemma installed_runnable s t p c m q :
  0 <= p -> runnable s q -> runnable (installed s t p c m) q.
Proof.
  intros Hp [Hr Hb]. split; cbn; [|done]. rewrite testbit_set, Hr by done. done.
Qed.

Lemma task_at_range_tb s l p t : tables s l -> task_at s p t -> 0 <= p < PriorityType_bits.
Proof. intros Hw (H & _). apply aget_lt in H. by rewrite (tb_pv s l Hw) in H. Qed.

(** The arguments [OSInstallTask] accepts in state [s]. *)
Definition may_install (s : OS) (f bytes p : Z) : Prop :=
  NUMBER_MIN_OF_STACKED_BYTES <= bytes - bytes mod sizeof_OS_CPU_TYPE < 2 ^ 16 /\
  0 <= p <= configMAX_TASK_PRIORITY /\ (p = 0 -> f = Idle_addr) /\
  aget (PriorityVector s) p = Some EMPTY_PRIO.

Lemma check_priority_ok s f bytes p : may_install s f bytes p -> check_priority f p s = Done None s.
Proof.
  intros (_ & Hp & Hf & Hv). unfold check_priority. destruct (decide (p = 0)) as [->|Hne].
  - rewrite truthy_0. by rewrite (Hf eq_refl), Z.eqb_refl.
  - rewrite truthy_nz by done. assert ((p >? configMAX_TASK_PRIORITY) = false) as -> by lia.
    run. by rewrite Z.eqb_refl.
Qed.

(** The bytes of the allocator [OSInstallTask] can use: an address of a 32-bit
    machine with room for the stack. *)
Definition good_block (stack bytes : Z) : Prop := 0 < stack /\ stack + bytes < 2 ^ 32.

Lemma OSInstallTask_lemma s f name bytes p params stack h t c0 :
  may_install s f bytes p -> Z.of_nat (length (PriorityVector s)) = PriorityType_bits ->
  let sz := bytes - bytes mod sizeof_OS_CPU_TYPE in
  BRTOS_ALLOC sz (heap s) = (stack, h) -> good_block stack sz ->
  0 < t <= NUMBER_OF_TASKS -> aget (ContextTask s) t = Some c0 ->
  (forall j, 0 <= j < t - 1 -> Z.testbit (TaskAlloc s) j = true) ->
  Z.testbit (TaskAlloc s) (t - 1) = false ->
  exists sp m, OSInstallTask f name bytes p params s =
      Done (OK, Some t) (set_PRIMASK (PRIMASK s)
        (installed (set_TaskAlloc (Z.lor (TaskAlloc s) (2 ^ (t - 1))) (set_heap h s)) t p
           (new_task name p sp stack sz) m)) /\
    sp + NUMBER_MIN_OF_STACKED_BYTES = stack + sz /\
    m !! (sp + CONTEXT_BYTES + 24) = Some (uint32 f) /\
    m !! (sp + CONTEXT_BYTES) = Some (uint32 params).
Proof.
  intros Hmay Hlen sz Hal [Hst Hsz] Ht Hc0 Hset Hclr. pose proof Hmay as ([Hmin Hmax] & Hp & Hf & Hv).
  rewrite configMAX_TASK_PRIORITY_eq in Hp. pose proof NUMBER_OF_TASKS_ok.
  set (s0 := in_create s).
  set (s1 := set_TaskAlloc (Z.lor (TaskAlloc s) (2 ^ (t - 1))) (set_heap h s0)).
  assert (ContextTask s0 = ContextTask s /\ PriorityVector s0 = PriorityVector s /\
          TaskAlloc s0 = TaskAlloc s /\ currentTask s0 = currentTask s /\ heap s0 = heap s)
    as (F1 & F2 & F3 & F4 & F5) by (unfold s0, in_create; by case_match).
  destruct (install_task_eq s1 f name sz p params t stack c0 EMPTY_PRIO)
    as (sp & m & Hr & Hsp & Hpc & Hr0); [cbn; by rewrite F1|cbn; by rewrite F2|lia|lia|done|done|].
  exists sp, m. split_and!; [|done..].
  assert (discover (Z.to_nat NUMBER_OF_TASKS) 0 (set_heap h s0) = Done t s1) as Hdis.
  { destruct (discover_lemma (Z.to_nat NUMBER_OF_TASKS) 0 (set_heap h s0)) as [[_ Hall]|(j & Hj & Hjb & Hk & Hd)];
      [lia|lia|..]; cbn in *; rewrite F3 in *.
    - rewrite Hall in Hclr by lia. done.
    - assert (j = t - 1) as ->.
      { destruct (Z.lt_total j (t - 1)) as [Hlt|[?|Hgt]]; [rewrite Hset in Hjb by lia; done|done|].
        rewrite Hk in Hclr by lia. done. }
      rewrite Hd. f_equal. lia. }
  assert (OSInstallTask f name bytes p params s =
    (OSExitCritical_started (PRIMASK s) ;;; ret (OK, Some t))
      (installed s1 t p (new_task name p sp stack sz) m)) as ->.
  { unfold OSInstallTask. rewrite (bind_Done _ _ s (if truthy (currentTask s) then PRIMASK s else true) s0);
      [|unfold s0, in_create; cbn; by destruct (truthy (currentTask s))].
    fold sz. rewrite (uint16_small sz) by (unfold NUMBER_MIN_OF_STACKED_BYTES in *; lia).
    rewrite (proj2 (Z.ltb_ge sz NUMBER_MIN_OF_STACKED_BYTES) Hmin).
    rewrite (bind_Done _ _ s0 None s0); [|apply (check_priority_ok s0 f bytes p)].
    2:{ unfold may_install. by rewrite F2. }
    rewrite (bind_Done _ _ s0 (heap s) s0) by (cbn; by rewrite F5).
    rewrite Hal. rewrite (bind_Done _ _ s0 tt (set_heap h s0)) by done.
    rewrite (proj2 (Z.eqb_neq stack 0)) by lia. rewrite (bind_Done _ _ _ t s1) by done.
    rewrite (proj2 (Z.eqb_neq t 0)) by lia. rewrite (bind_Done _ _ _ tt _ Hr). cbn.
    rewrite F4. by destruct (truthy (currentTask s)). }
  cbn. rewrite F4. unfold s1, s0, in_create. destruct (truthy (currentTask s)); cbn.
  - by destruct s.
  - by destruct s.
Qed.

Lemma empty_not_live s l p :
  tables s l -> aget (PriorityVector s) p = Some EMPTY_PRIO -> ~ live s p.
Proof.
  intros Htb Hv [t (Ht & _ & c & Hc & _)]. rewrite Hv in Ht. injection Ht as <-.
  apply aget_lt in Hc. rewrite (tb_ct s l Htb) in Hc. pose proof NUMBER_OF_TASKS_ok.
  unfold EMPTY_PRIO in Hc. lia.
Qed.

Lemma tables_ext s s' l : kernel_vars s' = kernel_vars s -> tables s l -> tables s' l.
Proof.
  unfold kernel_vars. intros [= Hpv Hct Hr Hb Ht Hh Htl] Htb.
  pose proof (same_prios_ctx s s' Hpv Hct) as Hsp. split; rewrite ?Hpv, ?Hct, ?Hr, ?Hb, ?Ht; try apply Htb.
  - eapply delay_list_ext; [done..|apply Htb].
  - intros u Hu. pose proof (tb_delay_live s l Htb u Hu) as Hau.
    rewrite (prio_of_same s s' u _ Hsp Hau). by eapply same_prios_task_at.
  - intros q Hq. eapply same_prios_live; [done|]. by apply (tb_ready_live s l Htb).
Qed.

Lemma OSInstallTask_ok s l f name bytes p params stack h :
  tables s l -> alloc_ok s -> may_install s f bytes p ->
  BRTOS_ALLOC (bytes - bytes mod sizeof_OS_CPU_TYPE) (heap s) = (stack, h) ->
  good_block stack (bytes - bytes mod sizeof_OS_CPU_TYPE) ->
  (exists j, 0 <= j < NUMBER_OF_TASKS /\ Z.testbit (TaskAlloc s) j = false) ->
  exists t s' c, OSInstallTask f name bytes p params s = Done (OK, Some t) s' /\
    0 < t <= NUMBER_OF_TASKS /\ free_tcb s t /\ task_at s' p t /\
    aget (ContextTask s') t = Some c /\
    mem s' !! (StackPoint c + CONTEXT_BYTES + 24) = Some (uint32 f) /\
    mem s' !! (StackPoint c + CONTEXT_BYTES) = Some (uint32 params) /\
    Z.testbit (OSReadyList s') p = true /\ PRIMASK s' = PRIMASK s /\
    OSBlockedList s' = OSBlockedList s /\
    (forall q u, task_at s q u -> task_at s' q u) /\
    tables s' l /\ alloc_ok s' /\ (wf s l -> wf s' l).
Proof.
  intros Htb [Har Hal] Hmay Hall Hgood (j0 & Hj0 & Hb0). pose proof NUMBER_OF_TASKS_ok.
  destruct (discover_lemma (Z.to_nat NUMBER_OF_TASKS) 0 s) as [[_ Hfull]|(j & Hj & Hjb & Hk & _)];
    [lia|lia|rewrite Hfull in Hb0 by lia; done|].
  assert (free_tcb s (j + 1)) as Hfree.
  { split; [lia|]. intros q Hq. apply Hal in Hq. replace (j + 1 - 1) with j in Hq by lia. congruence. }
  destruct (aget_is_Some (ContextTask s) (j + 1)) as [c0 Hc0]; [rewrite (tb_ct s l Htb); lia|].
  replace j with (j + 1 - 1) in Hjb, Hk by lia.
  destruct (OSInstallTask_lemma s f name bytes p params stack h (j + 1) c0)
    as (sp & m & Hr & _ & Hpc & Hr0);
    [done|apply (tb_pv s l Htb)|done|done|lia|done|done|done|].
  destruct Hmay as (_ & Hp & _ & Hv). rewrite configMAX_TASK_PRIORITY_eq in Hp.
  set (s1 := set_TaskAlloc _ (set_heap h s)) in Hr.
  set (c := new_task name p sp stack _) in Hr.
  assert (tables s1 l) as Htb1 by (by apply (tables_ext s)).
  assert (free_tcb s1 (j + 1)) as Hfree1.
  { split; [lia|]. intros q Hq. eapply Hfree. by apply (task_at_ext s1). }
  assert (~ live s1 p) as Hnl1 by (by apply (empty_not_live s1 l)).
  set (s2 := installed s1 (j + 1) p c m) in Hr.
  assert (task_at s2 p (j + 1)) as Hat by (apply (installed_task_at s1 l _ _ c0); done || lia).
  assert (forall q u, task_at s q u -> task_at s2 q u) as Hoth.
  { intros q u Hu. apply installed_others; [done|done|]. by apply (task_at_ext s). }
  assert (tables s2 l) as Htb2 by (apply (tables_installed s1 l _ _ c0); done || lia).
  exists (j + 1), (set_PRIMASK (PRIMASK s) s2), c.
  split_and!; [exact Hr|lia|lia|done|..].
  - by apply (task_at_ext s2).
  - by eapply aget_aset_eq.
  - done.
  - done.
  - cbn. rewrite testbit_set by lia. by rewrite bool_decide_true, orb_true_r.
  - done.
  - done.
  - intros q u Hu. apply (task_at_ext s2); [done|done|by apply Hoth].
  - by apply (tables_ext s2).
  - split; [cbn; apply lor_pow2_range; [lia|done]|]. intros q u Hu. cbn.
    rewrite testbit_set by lia. apply orb_true_iff.
    destruct (decide (u = j + 1)) as [->|Hne]; [right; by apply bool_decide_eq_true|left].
    apply (Hal q). destruct Hu as (Hpv & Hu0 & cu & Hcu & Hpu). cbn in Hpv, Hcu.
    rewrite aget_aset_ne in Hcu by done. split_and!; [|done|by exists cu].
    destruct (decide (p = q)) as [->|]; [|by rewrite aget_aset_ne in Hpv].
    rewrite (aget_aset_eq _ _ _ _ Hv) in Hpv. congruence.
  - intros Hwf. apply wf_tables. split; [by apply (tables_ext s2)|].
    apply wf_tables in Hwf as [_ Hrun]. by apply (installed_runnable s1); [lia|].
Qed.

(** C32: [OSInstallTask] with a valid priority, a large enough stack, memory and a
    free control block installs the task: it returns OK and a handle no other
    task has, the task owns its priority, is ready, and starts in its function
    with its parameter when first dispatched; every other task keeps its
    priority, and the invariants of the task tables, of the allocation bits and
    of the running kernel are preserved. *)
Theorem OSInstallTask_correct s l f name bytes p params stack h :
  tables s l -> alloc_ok s -> may_install s f bytes p ->
  BRTOS_ALLOC (bytes - bytes mod sizeof_OS_CPU_TYPE) (heap s) = (stack, h) ->
  good_block stack (bytes - bytes mod sizeof_OS_CPU_TYPE) ->
  (exists j, 0 <= j < NUMBER_OF_TASKS /\ Z.testbit (TaskAlloc s) j = false) ->
  exists t s' c, OSInstallTask f name bytes p params s = Done (OK, Some t) s' /\
    0 < t <= NUMBER_OF_TASKS /\ free_tcb s t /\ task_at s' p t /\
    aget (ContextTask s') t = Some c /\
    mem s' !! (StackPoint c + CONTEXT_BYTES + 24) = Some (uint32 f) /\
    mem s' !! (StackPoint c + CONTEXT_BYTES) = Some (uint32 params) /\
    Z.testbit (OSReadyList s') p = true /\ PRIMASK s' = PRIMASK s /\
    OSBlockedList s' = OSBlockedList s /\
    (forall q u, task_at s q u -> task_at s' q u) /\
    tables s' l /\ alloc_ok s' /\ (wf s l -> wf s' l).
Proof. apply OSInstallTask_ok. Qed.

(** What [OSInstallTask] refuses, it refuses without installing anything: a
    stack below the minimum, a priority above the maximum, a priority in use, or
    priority 0 for a task other than idle return their code and change nothing;
    without memory only the allocator's state changes, and without a free control
    block the stack is given back. *)
Theorem OSInstallTask_errors s f name bytes p params :
  let sz := bytes - bytes mod sizeof_OS_CPU_TYPE in
  0 <= sz < 2 ^ 16 -> 0 <= p ->
  (sz < NUMBER_MIN_OF_STACKED_BYTES ->
   OSInstallTask f name bytes p params s = Done (STACK_SIZE_TOO_SMALL, None) s) /\
  (NUMBER_MIN_OF_STACKED_BYTES <= sz -> configMAX_TASK_PRIORITY < p ->
   OSInstallTask f name bytes p params s = Done (END_OF_AVAILABLE_PRIORITIES, None) s) /\
  (forall v, NUMBER_MIN_OF_STACKED_BYTES <= sz -> 0 < p <= configMAX_TASK_PRIORITY ->
   aget (PriorityVector s) p = Some v -> v <> EMPTY_PRIO ->
   OSInstallTask f name bytes p params s = Done (BUSY_PRIORITY, None) s) /\
  (NUMBER_MIN_OF_STACKED_BYTES <= sz -> p = 0 -> f <> Idle_addr ->
   OSInstallTask f name bytes p params s = Done (CANNOT_ASSIGN_IDLE_TASK_PRIO, None) s) /\
  (forall h, may_install s f bytes p -> BRTOS_ALLOC sz (heap s) = (0, h) ->
   OSInstallTask f name bytes p params s = Done (NO_MEMORY, None) (set_heap h s)) /\
  (forall stack h, may_install s f bytes p -> BRTOS_ALLOC sz (heap s) = (stack, h) -> stack <> 0 ->
   (forall j, 0 <= j < NUMBER_OF_TASKS -> Z.testbit (TaskAlloc s) j = true) ->
   OSInstallTask f name bytes p params s =
     Done (END_OF_AVAILABLE_TCB, None) (set_heap (BRTOS_DEALLOC stack h) s)).
Proof.
  intros sz Hsz Hp. unfold OSInstallTask. cbn. fold sz. rewrite (uint16_small sz) by lia.
  set (s0 := if truthy (currentTask s) then set_PRIMASK true s else s).
  split_and!.
  - intros H. rewrite (proj2 (Z.ltb_lt _ _) H).
    destruct (truthy (currentTask s)) eqn:Ec; run; by destruct s.
  - intros H1 H2. rewrite (proj2 (Z.ltb_ge _ _) H1). unfold check_priority.
    assert (p <> 0) by (pose proof configMAX_TASK_PRIORITY_eq; pose proof PriorityType_bits_range; lia).
    rewrite (truthy_nz p), (proj2 (Z.gtb_lt _ _)) by done.
    destruct (truthy (currentTask s)) eqn:Ec; run; by destruct s.
  - intros v H1 H2 Hv Hne. rewrite (proj2 (Z.ltb_ge _ _) H1). unfold check_priority.
    rewrite (truthy_nz p) by lia. assert ((p >? configMAX_TASK_PRIORITY) = false) as -> by lia.
    destruct (truthy (currentTask s)) eqn:Ec; run; rewrite (proj2 (Z.eqb_neq _ _) Hne); run; by destruct s.
  - intros H1 -> Hf. rewrite (proj2 (Z.ltb_ge _ _) H1). unfold check_priority.
    rewrite truthy_0, (proj2 (Z.eqb_neq _ _) Hf).
    destruct (truthy (currentTask s)) eqn:Ec; run; by destruct s.
  - intros h Hmay Hal. pose proof Hmay as ([H1 _] & _). rewrite (proj2 (Z.ltb_ge sz _) H1).
    destruct (truthy (currentTask s)) eqn:Ec; cbn;
      rewrite (check_priority_ok _ f bytes p) by done; cbn; rewrite Hal; cbn; rewrite (Z.eqb_refl 0); run; by destruct s.
  - intros stack h Hmay Hal Hne Hfull. pose proof Hmay as ([H1 _] & _).
    pose proof NUMBER_OF_TASKS_ok. rewrite (proj2 (Z.ltb_ge sz _) H1).
    assert (forall s', TaskAlloc s' = TaskAlloc s ->
              discover (Z.to_nat NUMBER_OF_TASKS) 0 s' = Done 0 s') as Hd.
    { intros s' Hs'. destruct (discover_lemma (Z.to_nat NUMBER_OF_TASKS) 0 s')
        as [[Hr _]|(j & Hj & Hjb & _)]; [lia|lia|done|]. rewrite Hs', Hfull in Hjb by lia. done. }
    destruct (truthy (currentTask s)) eqn:Ec; cbn;
      rewrite (check_priority_ok _ f bytes p) by done; cbn; rewrite Hal; cbn;
      rewrite (proj2 (Z.eqb_neq _ _) Hne); cbn; rewrite Hd by done; cbn; rewrite (Z.eqb_refl 0); run; by destruct s.
Qed.

(** The state before initialisation: the arrays have their size, nothing is
    ready and nothing is blocked. *)
Definition at_reset (s : OS) : Prop :=
  Z.of_nat (length (PriorityVector s)) = PriorityType_bits /\
  Z.of_nat (length (ContextTask s)) = NUMBER_OF_TASKS + 1 /\
  OSReadyList s = 0 /\ OSBlockedList s = 2 ^ PriorityType_bits - 1.

Lemma aget_map_const {A B} (l : list A) (b : B) i x :
  aget (map (fun _ => b) l) i = Some x -> x = b.
Proof.
  unfold aget. destruct (0 <=? i); [|done].
  rewrite list_lookup_fmap. destruct (l !! _); cbn; congruence.
Qed.

(** Initialisation establishes the invariants of the task tables: from the
    reset state [BRTOSInit] returns with every priority empty, no task installed
    or delayed, no event allocated, and time at zero. *)
Theorem BRTOSInit_establishes s :
  at_reset s ->
  exists s', BRTOSInit s = Done tt s' /\ tables s' [] /\ alloc_ok s' /\ currentTask s' = 0 /\
    OSTickCounter s' = 0 /\ (forall p, ~ live s' p) /\
    (forall p v, aget (PriorityVector s') p = Some v -> v = EMPTY_PRIO) /\
    Forall (fun e => sem_OSEventAllocated e = 0) (BRTOS_Sem_Table s') /\
    Forall (fun e => mtx_OSEventAllocated e = 0) (BRTOS_Mutex_Table s') /\
    Forall (fun e => mbx_OSEventAllocated e = 0) (BRTOS_Mbox_Table s') /\
    Forall (fun e => q_OSEventAllocated e = 0) (BRTOS_Queue_Table s').
Proof.
  intros (Hpv & Hct & Hr & Hb). pose proof PriorityType_bits_range. pose proof NUMBER_OF_TASKS_ok.
  pose proof TICK_COUNT_OVERFLOW_big.
  eexists. split; [reflexivity|]. set (s' := set_Head _ _).
  assert (forall p v, aget (PriorityVector s') p = Some v -> v = EMPTY_PRIO) as Hempty
    by (intros p v; apply aget_map_const).
  assert (Z.of_nat (length (ContextTask s')) = NUMBER_OF_TASKS + 1) as Hct'.
  { cbn. destruct (ContextTask s); [done|]. cbn. by rewrite length_map. }
  assert (forall p, ~ live s' p) as Hnl.
  { intros p [t (Ht & _ & c & Hc & _)]. apply Hempty in Ht as ->. apply aget_lt in Hc.
    rewrite Hct' in Hc. unfold EMPTY_PRIO in Hc. lia. }
  assert (0 < 2 ^ PriorityType_bits) by (apply Z.pow_pos_nonneg; lia).
  split_and!; [| |done|done|done|done|by apply Forall_fmap, Forall_true..].
  - split; [cbn; by rewrite length_map|done|cbn; lia|cbn; lia|cbn; lia|by split_and!; try constructor| |].
    + intros t Ht. by apply not_elem_of_nil in Ht.
    + intros p. cbn. by rewrite Hr, Z.testbit_0_l.
  - split; [cbn; lia|]. intros p t Ht. exfalso. eapply Hnl. by exists t.
Qed.

(** C9: starting the system establishes the kernel invariant: after any tasks
    were installed, [BRTOSStart] installs idle, selects the installed task of
    highest priority that is not blocked and enters it on its own stack with
    interrupts enabled, in a state that satisfies [wf].  The allocator has a block
    for the stack of idle, a control block is free, and priority 0 is neither taken
    nor blocked. *)
Theorem BRTOSStart_establishes s stack h :
  tables s [] -> alloc_ok s -> currentTask s = 0 -> Z.testbit (OSBlockedList s) 0 = true ->
  may_install s Idle_addr IDLE_STACK_SIZE 0 ->
  BRTOS_ALLOC (IDLE_STACK_SIZE - IDLE_STACK_SIZE mod sizeof_OS_CPU_TYPE) (heap s) = (stack, h) ->
  good_block stack (IDLE_STACK_SIZE - IDLE_STACK_SIZE mod sizeof_OS_CPU_TYPE) ->
  (exists j, 0 <= j < NUMBER_OF_TASKS /\ Z.testbit (TaskAlloc s) j = false) ->
  exists s' c, BRTOSStart s = Done OK s' /\ wf s' [] /\ dispatched s' /\
    aget (ContextTask s') (currentTask s') = Some c /\
    PSP s' = uint32 (StackPoint c + CONTEXT_BYTES) /\ PRIMASK s' = false.
Proof.
  intros Htb Hal Hcur Hb0 Hmay Ha Hg Hj.
  destruct (OSInstallTask_ok s [] Idle_addr 0 IDLE_STACK_SIZE 0 0 stack h)
    as (t0 & s1 & c0 & Hr & _ & _ & Ht0 & _ & _ & _ & Hrd & _ & Hbl & _ & Htb1 & _ & _); [done..|].
  assert (wf s1 []) as Hw1 by (apply wf_tables; split; [done|split; [done|by rewrite Hbl]]).
  destruct (OSSchedule_wf s1 [] Hw1) as (p & t & Ht & Hrun & Hmax & Hsch).
  destruct (task_at_ctx s1 p t Ht) as (c & Hc & _).
  exists (set_PRIMASK false (set_PSP (uint32 (StackPoint c + CONTEXT_BYTES))
            (set_SPvalue (StackPoint c) (set_currentTask t s1)))), c. split_and!.
  - unfold BRTOSStart. rewrite (bind_Done _ _ s _ _ Hr). cbn [fst]. rewrite Z.eqb_refl. cbn [negb].
    rewrite (bind_Done _ _ s1 _ _ Hsch). by run.
  - by apply (wf_ext s1).
  - exists p. split_and!; [by apply (task_at_ext s1)|done|done].
  - done.
  - done.
  - done.
Qed.
End installing.

(** ** Uninstalling *)
Section uninstalling.
Context `{C : Config}.
Implicit Types (s : OS) (l : list Z) (t p : Z).

Definition freed_task (c : ContextType) : ContextType :=
  mkContext (TaskName c) 0 0 0 NO_TIMEOUT EMPTY_PRIO None None.

Definition uninstalled (s : OS) (t p : Z) (c : ContextType) : OS :=
  set_ContextTask (aset (ContextTask s) t (freed_task c))
    (set_heap (BRTOS_DEALLOC (StackInit c) (heap s))
      (set_PriorityVector (aset (PriorityVector s) p EMPTY_PRIO)
        (set_TaskAlloc (uint32 (andnot (TaskAlloc s) (2 ^ (t - 1))))
          (set_NumberOfInstalledTasks (uint8 (NumberOfInstalledTasks s - 1)) s)))).

Lemma uninstall_task_eq s t p c v :
  aget (ContextTask s) t = Some c -> Priority c = p -> aget (PriorityVector s) p = Some v ->
  0 < t -> uninstall_task t s = Done tt (uninstalled s t p c).
Proof.
  intros Hc Hp Hv Ht. unfold uninstall_task.
  rewrite (bind_Done _ _ s tt
    (set_TaskAlloc (uint32 (andnot (TaskAlloc s) (2 ^ (t - 1)))) s));
    [|cbn; by rewrite Z.shiftl_1_l].
  unfold bind at 1. cbn. rewrite Hc. cbn. rewrite Hp, Hv. cbn [rbind].
  rewrite (bind_Done _ _ _ tt (set_heap (BRTOS_DEALLOC (StackInit c) (heap s))
    (set_PriorityVector (aset (PriorityVector s) p EMPTY_PRIO)
       (set_TaskAlloc (uint32 (andnot (TaskAlloc s) (2 ^ (t - 1)))) s)))) by done.
  rewrite !upd_Task_upd_Task. cbn. rewrite Hc. cbn. done.
Qed.

Section one.
Context (s : OS) (l : list Z) (t p : Z) (c : ContextType).
Context (Hw : wf s l) (Ht : task_at s p t) (Hc : aget (ContextTask s) t = Some c) (Hp : 0 < p).
Context (Hni : t ∉ l) (Hnr : Z.testbit (OSReadyList s) p = false).

Lemma uninstalled_others q u : u <> t -> task_at s q u -> task_at (uninstalled s t p c) q u.
Proof.
  intros Hne Hu. assert (q <> p) by (intros ->; apply Hne; by eapply task_at_fun).
  destruct Hu as (Hv & Hu0 & cu & Hcu & Hpu).
  split_and!; cbn; [by rewrite aget_aset_ne|done|]. exists cu. by rewrite aget_aset_ne.
Qed.

Lemma wf_uninstalled : wf (uninstalled s t p c) l.
Proof.
  pose proof uninstalled_others as Hoth. pose proof Hw as [H1 H2 H3 H4 H5 H6 H7 H8 H9].
  split; cbn; try done.
  - by rewrite length_aset.
  - by rewrite length_aset.
  - by apply (delay_list_aset_other s _ l t (freed_task c)).
  - intros u Hu. assert (u <> t) as Hne by (intros ->; done).
    assert (prio_of (uninstalled s t p c) u = prio_of s u) as Hpu
      by (unfold prio_of; cbn; by rewrite aget_aset_ne).
    change (prio_of _ u) with (prio_of (uninstalled s t p c) u). rewrite Hpu. by apply Hoth, H7.
  - intros q Hq. destruct (H8 q Hq) as [u Hu]. exists u. apply Hoth; [|done].
    intros ->. pose proof (task_at_prio_inj _ _ _ _ Ht Hu) as ->. congruence.
Qed.

Lemma uninstalled_not_live : ~ live (uninstalled s t p c) p.
Proof.
  pose proof Ht as (Hv & _). intros [u (Hu & _ & cu & Hcu & _)]. cbn in Hu, Hcu.
  rewrite (aget_aset_eq _ _ _ _ Hv) in Hu. injection Hu as <-.
  apply aget_lt in Hcu. rewrite length_aset, (wf_ct s l Hw) in Hcu.
  pose proof NUMBER_OF_TASKS_ok. unfold EMPTY_PRIO in Hcu. lia.
Qed.
End one.

(** The ready task [t] taken off the ready list, then removed. *)
Definition removed (s : OS) (t p : Z) (c : ContextType) : OS :=
  uninstalled (set_OSReadyList (andnot (OSReadyList s) (2 ^ p)) (set_PRIMASK true s)) t p c.

Lemma OSUninstallTask_eq s l h t p c off :
  wf s l -> currentTask s <> 0 -> t = (if truthy h then h else currentTask s) ->
  task_at s p t -> aget (ContextTask s) t = Some c -> 0 < p ->
  Z.testbit (OSReadyList s) p = true ->
  OSUninstallTask h off s =
    (when (currentTask s =? t) ChangeContext ;;; OSExitCritical_started (PRIMASK s) ;;; ret OK)
      (removed s t p c).
Proof.
  intros Hw Hne Heq Ht Hc Hp Hrd. pose proof (task_at_range s l p t Hw Ht) as Hr.
  pose proof Ht as (Hv & Ht0 & _).
  assert (Priority c = p) as Hpc by (destruct (task_at_ctx s p t Ht) as (c' & ? & <-); congruence).
  unfold OSUninstallTask. cbn. rewrite (truthy_nz (currentTask s)) by done. cbn.
  rewrite (Z.eqb_sym (currentTask s) t).
  destruct (truthy h); cbn; rewrite ?(truthy_nz (currentTask s)) by done; cbn; rewrite <- Heq;
    run; rewrite Hpc, (truthy_nz p) by lia; cbn; rewrite PriorityMask_pow2 by lia; cbn;
    rewrite land_pow2_eqb, Hrd by lia; cbn; rewrite ready_remove_eq by lia; cbn;
    by rewrite (uninstall_task_eq (set_OSReadyList _ _) t p c t).
Qed.

Arguments removed : simpl never.

Lemma removed_frame s t p c :
  iNesting (removed s t p c) = iNesting s /\ currentTask (removed s t p c) = currentTask s /\
  OSReadyList (removed s t p c) = andnot (OSReadyList s) (2 ^ p) /\
  heap (removed s t p c) = BRTOS_DEALLOC (StackInit c) (heap s) /\
  PriorityVector (removed s t p c) = aset (PriorityVector s) p EMPTY_PRIO /\
  length (ContextTask (removed s t p c)) = length (ContextTask s).
Proof. split_and!; [done..|]. cbn. apply length_aset. Qed.

Lemma removed_wf s l t p c :
  wf s l -> task_at s p t -> 0 < p -> t ∉ l ->
  wf (removed s t p c) l /\ ~ live (removed s t p c) p /\
  Z.testbit (TaskAlloc (removed s t p c)) (t - 1) = false /\
  (forall q u, u <> t -> task_at s q u -> task_at (removed s t p c) q u).
Proof.
  intros Hw Ht Hp Hni. pose proof (task_at_range s l p t Hw Ht) as Hr. unfold removed.
  set (s1 := set_OSReadyList _ _).
  assert (wf s1 l) as Hw1
    by (apply (wf_ext (set_OSReadyList (andnot (OSReadyList s) (2 ^ p)) s)); [done|by apply wf_ready_remove]).
  assert (task_at s1 p t) as Ht1 by (by apply (task_at_ext s)).
  split_and!.
  - apply (wf_uninstalled s1 l t p c Hw1 Ht1 Hp Hni).
    cbn. rewrite testbit_clear, bool_decide_true by lia. by rewrite andb_false_r.
  - by apply (uninstalled_not_live s1 l).
  - cbn. pose proof (task_at_ctx s p t Ht) as (c' & Hc' & _). apply aget_lt in Hc'.
    rewrite (wf_ct s l Hw) in Hc'. pose proof NUMBER_OF_TASKS_ok. destruct Ht as (_ & Ht0 & _).
    unfold uint32, uint. rewrite Z.mod_pow2_bits_low by lia. rewrite testbit_clear, bool_decide_true by lia.
    by rewrite andb_false_r.
  - intros q u Hut Hu. apply (uninstalled_others s1 t p c Ht1); [done|]. by apply (task_at_ext s).
Qed.

(** The end of [OSUninstallTask]: the switch if the task removed itself. *)
Lemma uninstall_finish s s2 l t p c :
  iNesting s = 0 -> currentTask s <> 0 -> wf s2 l -> ~ live s2 p ->
  Z.testbit (TaskAlloc s2) (t - 1) = false ->
  (forall q u, u <> t -> task_at s q u -> task_at s2 q u) ->
  iNesting s2 = iNesting s -> currentTask s2 = currentTask s ->
  OSReadyList s2 = andnot (OSReadyList s) (2 ^ p) ->
  heap s2 = BRTOS_DEALLOC (StackInit c) (heap s) ->
  aget (PriorityVector s2) p = Some EMPTY_PRIO ->
  is_Some (aget (ContextTask s2) (currentTask s2)) ->
  exists s', wf s' l /\ aget (PriorityVector s') p = Some EMPTY_PRIO /\ ~ live s' p /\
    heap s' = BRTOS_DEALLOC (StackInit c) (heap s) /\
    OSReadyList s' = andnot (OSReadyList s) (2 ^ p) /\
    Z.testbit (TaskAlloc s') (t - 1) = false /\
    (forall q u, u <> t -> task_at s q u -> task_at s' q u) /\
    let r := (when (currentTask s =? t) ChangeContext ;;;
              OSExitCritical_started (PRIMASK s) ;;; ret OK) s2 in
    if currentTask s =? t then exists k, r = Yield s' k /\ dispatched s'
    else r = Done OK s' /\ currentTask s' = currentTask s.
Proof.
  intros Hn Hne Hw2 Hnl Hbit Hoth Fn Fc Fr Fh He Hcur2. destruct (currentTask s =? t) eqn:E; to_prop.
  - destruct (ChangeContext_lemma s2 l Hw2) as (u & Hcc & Hw3 & Hd & Hsp); [by rewrite Fn|done|].
    destruct (switched_frame s2 u) as (Gr & _ & _ & Gpv & _ & Ga & _).
    exists (switched u s2). split_and!.
    + done.
    + by rewrite Gpv.
    + intros Hl. apply Hnl. eapply same_prios_live; [by apply same_prios_sym|done].
    + by rewrite switched_heap.
    + by rewrite Gr.
    + by rewrite Ga.
    + intros q v Hv1 Hv2. eapply same_prios_task_at; [done|by apply Hoth].
    + eexists. cbn. rewrite Hcc. cbn. split; [reflexivity|done].
  - exists (set_PRIMASK (PRIMASK s) s2). split_and!;
      [by apply (wf_ext s2)|done| |done|done|done| |].
    + intros [u Hu]. apply Hnl. exists u. by apply (task_at_ext (set_PRIMASK (PRIMASK s) s2)).
    + intros q v Hv1 Hv2. apply (task_at_ext s2); [done|done|by apply Hoth].
    + cbn. split; [by rewrite Fc, truthy_nz|done].
Qed.

(** Called with a null handle before the first task runs. *)
Lemma OSUninstallTask_not_valid s off :
  currentTask s = 0 -> OSUninstallTask 0 off s = Done NOT_VALID_TASK (set_PRIMASK false s).
Proof. intros Hc. unfold OSUninstallTask. cbn. rewrite Hc, !truthy_0. cbn. by rewrite Hc, truthy_0. Qed.

(** C33: uninstalling a ready task gives everything back: it returns OK, the
    task's priority is empty and can be installed again, its control block is
    free, its stack is returned to the allocator, it is not ready, every other
    task keeps its priority, and the kernel invariant holds.  A task that
    uninstalls itself gives the processor to the highest priority that can run;
    another task goes on. *)
Theorem OSUninstallTask_correct s l h t p c off :
  wf s l -> iNesting s = 0 -> is_Some (aget (ContextTask s) (currentTask s)) ->
  currentTask s <> 0 -> t = (if truthy h then h else currentTask s) ->
  task_at s p t -> aget (ContextTask s) t = Some c -> 0 < p -> t ∉ l ->
  Z.testbit (OSReadyList s) p = true ->
  exists s', wf s' l /\ aget (PriorityVector s') p = Some EMPTY_PRIO /\ ~ live s' p /\
    heap s' = BRTOS_DEALLOC (StackInit c) (heap s) /\
    OSReadyList s' = andnot (OSReadyList s) (2 ^ p) /\
    Z.testbit (TaskAlloc s') (t - 1) = false /\
    (forall q u, u <> t -> task_at s q u -> task_at s' q u) /\
    if currentTask s =? t then exists k, OSUninstallTask h off s = Yield s' k /\ dispatched s'
    else OSUninstallTask h off s = Done OK s' /\ currentTask s' = currentTask s.
Proof.
  intros Hw Hn Hcur Hne Heq Ht Hc Hp Hni Hrd. pose proof Ht as (Hv & _).
  destruct (removed_wf s l t p c Hw Ht Hp Hni) as (Hw2 & Hnl & Hbit & Hoth).
  destruct (removed_frame s t p c) as (Fn & Fc & Fr & Fh & Fpv & Flen).
  rewrite (OSUninstallTask_eq s l h t p c off) by assumption.
  apply uninstall_finish; try assumption.
  - rewrite Fpv. by eapply aget_aset_eq.
  - apply aget_is_Some. destruct Hcur as [cc Hcc]. apply aget_lt in Hcc. by rewrite Flen, Fc.
Qed.
End uninstalling.

(** ** Examples *)
Section checker.
Context `{C : Config}.
Implicit Types (s : OS).

(** Each task of the priority vector has its allocation bit. *)
Definition alloc_okb (s : OS) : bool :=
  rangeb (TaskAlloc s) (2 ^ 32) &&
  forallb (fun t => negb (0 <? t) || (Z.of_nat (length (ContextTask s)) <=? t) ||
                    Z.testbit (TaskAlloc s) (t - 1)) (PriorityVector s).

Lemma alloc_okb_sound s : alloc_okb s = true -> alloc_ok s.
Proof.
  unfold alloc_okb. intros [H1%rangeb_sound H2]%andb_true_iff. split; [done|].
  intros p t (Hv & Ht & c & Hc & _). rewrite forallb_forall in H2.
  apply aget_lt in Hc. specialize (H2 t). unfold aget in Hv. destruct (0 <=? p); [|done].
  assert (In t (PriorityVector s)) as Hin by (by eapply list_elem_of_In, list_elem_of_lookup_2).
  apply H2 in Hin. rewrite !orb_true_iff in Hin. destruct Hin as [[Hin|Hin]|Hin]; [lia|lia|done].
Qed.
End checker.

Section examples.
#[local] Existing Instance sample_config.

Lemma sample_tables : tables sample [].
Proof. apply wf_tables, sample_wf. Qed.

Lemma sample_alloc : alloc_ok sample.
Proof. by apply alloc_okb_sound. Qed.

Definition stack_addr : Z := 0x20010000.

Lemma OSInstallTask_correct_witness :
  exists t s' c, OSInstallTask 0x8001000 0 600 7 42 sample = Done (OK, Some t) s' /\
    0 < t <= NUMBER_OF_TASKS /\ free_tcb sample t /\ task_at s' 7 t /\
    aget (ContextTask s') t = Some c /\
    mem s' !! (StackPoint c + CONTEXT_BYTES + 24) = Some (uint32 0x8001000) /\
    mem s' !! (StackPoint c + CONTEXT_BYTES) = Some (uint32 42) /\
    Z.testbit (OSReadyList s') 7 = true /\ PRIMASK s' = PRIMASK sample /\
    OSBlockedList s' = OSBlockedList sample /\
    (forall q u, task_at sample q u -> task_at s' q u) /\
    tables s' [] /\ alloc_ok s' /\ (wf sample [] -> wf s' []).
Proof.
  apply (OSInstallTask_correct sample [] 0x8001000 0 600 7 42 stack_addr tt);
    [apply sample_tables|apply sample_alloc|done|done|done|by exists 3].
Defined.

Lemma OSInstallTask_errors_witness :
  OSInstallTask 0x8001000 0 600 9 42 sample = Done (BUSY_PRIORITY, None) sample.
Proof.
  eapply (OSInstallTask_errors sample 0x8001000 0 600 9 42 ltac:(by cbn) ltac:(lia));
    [done|by cbn|reflexivity|done].
Defined.

(** Memory at reset: whatever the control blocks held. *)
Definition reset_os : OS :=
  set_OSReadyList 0 (set_TaskAlloc 77 (sample_os [0; 5; 9] 0 2 [mkSem TRUE 0 0 0 0] [] [] [] [] [])).

Lemma BRTOSInit_establishes_witness :
  at_reset reset_os /\
  exists s', BRTOSInit reset_os = Done tt s' /\ tables s' [] /\ alloc_ok s' /\ currentTask s' = 0 /\
    OSTickCounter s' = 0 /\ (forall p, ~ live s' p) /\
    (forall p v, aget (PriorityVector s') p = Some v -> v = EMPTY_PRIO) /\
    Forall (fun e => sem_OSEventAllocated e = 0) (BRTOS_Sem_Table s') /\
    Forall (fun e => mtx_OSEventAllocated e = 0) (BRTOS_Mutex_Table s') /\
    Forall (fun e => mbx_OSEventAllocated e = 0) (BRTOS_Mbox_Table s') /\
    Forall (fun e => q_OSEventAllocated e = 0) (BRTOS_Queue_Table s').
Proof. split; [done|]. by apply (BRTOSInit_establishes reset_os). Defined.

(** A system with two tasks installed, not yet started. *)
Definition before_start : OS :=
  set_TaskAlloc 3 (sample_os [5; 9] (2 ^ 5 + 2 ^ 9) 0 [] [] [] [] [] []).

Lemma before_start_tables : tables before_start [].
Proof.
  split; try by vm_compute.
  - split_and!; [constructor|done..].
  - intros t Ht. by apply not_elem_of_nil in Ht.
  - intros p Hp. apply liveb_sound. apply (all_bits_sound (OSReadyList before_start) (liveb before_start) p);
      [by vm_compute|by vm_compute|done].
Qed.

Lemma BRTOSStart_establishes_witness :
  exists s' c, BRTOSStart before_start = Done OK s' /\ wf s' [] /\ dispatched s' /\
    aget (ContextTask s') (currentTask s') = Some c /\
    PSP s' = uint32 (StackPoint c + CONTEXT_BYTES) /\ PRIMASK s' = false.
Proof.
  apply (BRTOSStart_establishes before_start stack_addr tt);
    [apply before_start_tables|by apply alloc_okb_sound|done|done|done|done|done|by exists 2].
Defined.

Lemma OSUninstallTask_correct_witness :
  exists s', wf s' [] /\ aget (PriorityVector s') 9 = Some EMPTY_PRIO /\ ~ live s' 9 /\
    heap s' = BRTOS_DEALLOC (StackInit (sample_task 3 9)) (heap sample) /\
    OSReadyList s' = andnot (OSReadyList sample) (2 ^ 9) /\
    Z.testbit (TaskAlloc s') 2 = false /\
    (forall q u, u <> 3 -> task_at sample q u -> task_at s' q u) /\
    OSUninstallTask 3 0 sample = Done OK s' /\ currentTask s' = 2.
Proof.
  apply (OSUninstallTask_correct sample [] 3 3 9 (sample_task 3 9) 0);
    [apply sample_wf|done|by eexists|done|done|by apply task_atb_sound|done|lia
    |apply not_elem_of_nil|done].
Defined.
End examples.
