(* ===== verification/System.v ===== *)
(** * A whole system: tasks, semaphores and the tick interrupt

    A system is the kernel state together with what each task is doing: running
    its own code, or suspended inside a service with the rest of the service
    still to run.  Its steps are the service calls of the running task, the
    continuation of a service after the task is dispatched again, and the tick
    interrupt, in any order.  Every reachable state satisfies the invariant
    [sys_ok], no step ever faults, and the posts to a semaphore and the pends it
    satisfied balance. *)

From Stdlib Require Import ZArith Lia.
From stdpp Require Import base gmap numbers list.
From S2P Require Import Prelude Config State Sched DelayList Hal Clock Kernel Event Sample Semaphore.
#[local] Open Scope Z_scope.
#[local] Open Scope prog_scope.

Section system.
Context `{C : Config}.
Implicit Types (s : OS) (l : list Z) (p t u ev w : Z).

(** ** Systems and their steps *)

(** The services a task of the system calls. *)
Inductive call := Delay (w : Z) | Pend (ev w : Z) | Post (ev : Z).

Definition run_call (c : call) : prog Z :=
  match c with
  | Delay w => OSDelayTask w
  | Pend ev w => OSSemPend (Some ev) w
  | Post ev => OSSemPost (Some ev)
  end.

(** What a task is doing: its own code, or the rest of a service. *)
Definition thread : Type := option (call * (OS -> res Z)).

Record sys := mkSys { os : OS; doing : Z -> thread }.

Definition set_doing (t : Z) (d : thread) (f : Z -> thread) (u : Z) : thread :=
  if decide (u = t) then d else f u.

(** What the environment sees of a step. *)
Inductive label :=
| Returned (t : Z) (c : call) (r : Z)
| Suspended (t : Z) (c : call)
| Resumed (t : Z) (c : call) (r : Z)
| Ticked.

(** The calls an application may make: from a task other than idle, on a
    semaphore that was created, with a wait the tick counter can represent. *)
Definition has_sem (s : OS) (ev : Z) : Prop := exists e, sem_at s ev e.
Definition may_call (s : OS) (c : call) : Prop :=
  0 < prio_of s (currentTask s) /\
  match c with
  | Delay w => 0 <= w <= TICK_COUNT_OVERFLOW
  | Pend ev w => has_sem s ev /\ (w = NO_TIMEOUT \/ 0 <= w <= TICK_COUNT_OVERFLOW)
  | Post ev => has_sem s ev
  end.

Inductive sys_step : sys -> label -> sys -> Prop :=
| step_returns s d c r s' :
    d (currentTask s) = None -> may_call s c -> run_call c s = Done r s' ->
    sys_step (mkSys s d) (Returned (currentTask s) c r) (mkSys s' d)
| step_suspends s d c s' k :
    d (currentTask s) = None -> may_call s c -> run_call c s = Yield s' k ->
    sys_step (mkSys s d) (Suspended (currentTask s) c)
      (mkSys s' (set_doing (currentTask s) (Some (c, k)) d))
| step_resumes s d c k r s' :
    d (currentTask s) = Some (c, k) -> k s = Done r s' ->
    sys_step (mkSys s d) (Resumed (currentTask s) c r)
      (mkSys s' (set_doing (currentTask s) None d))
| step_tick s d s' :
    TickTimer s = Done tt s' -> sys_step (mkSys s d) Ticked (mkSys s' d).

(** A run and its trace. *)
Inductive runs : sys -> list label -> sys -> Prop :=
| runs_nil σ : runs σ [] σ
| runs_snoc σ tr σ1 lb σ2 : runs σ tr σ1 -> sys_step σ1 lb σ2 -> runs σ (tr ++ [lb]) σ2.

(** ** The invariant *)

Definition ready (s : OS) (p : Z) : bool := Z.testbit (OSReadyList s) p.
Definition waits (s : OS) (ev p : Z) : bool :=
  match aget (BRTOS_Sem_Table s) ev with
  | Some e => Z.testbit (sem_OSEventWaitList e) p
  | None => false
  end.
Definition ttw (s : OS) (t : Z) : Z :=
  match aget (ContextTask s) t with Some c => TimeToWait c | None => 0 end.

(** A continuation that only leaves the critical section. *)
Definition returns_ok (k : OS -> res Z) : Prop :=
  exists sr, forall s, k s = Done OK (set_PRIMASK sr s).

(** Task [t] of priority [p], doing [d], is where it should be: a task is off
    the ready list only while it sleeps or waits, a task that waits is on the
    wait list of its semaphore and of no other, and it is in the delay list
    until its time is up. *)
Definition thread_ok (s : OS) (l : list Z) (p t : Z) (d : thread) : Prop :=
  match d with
  | None => ready s p = true /\ t ∉ l /\ forall ev, waits s ev p = false
  | Some (Delay _, k) =>
      returns_ok k /\ (ready s p = true <-> t ∉ l) /\ forall ev, waits s ev p = false
  | Some (Post _, k) =>
      returns_ok k /\ ready s p = true /\ t ∉ l /\ forall ev, waits s ev p = false
  | Some (Pend ev w, k) =>
      (exists sr, forall s2, k s2 = OSSemPend_resume ev t w sr p s2) /\ has_sem s ev /\
      (forall ev', waits s ev' p = true -> ev' = ev) /\
      (ready s p = true \/ waits s ev p = true) /\
      (ready s p = true -> waits s ev p = true -> w <> 0 /\ ttw s t = EXIT_BY_TIMEOUT) /\
      (t ∈ l -> w <> 0 /\ ttw s t <> EXIT_BY_TIMEOUT) /\
      (t ∉ l -> w <> 0 -> ready s p = true /\ ttw s t = EXIT_BY_TIMEOUT)
  end.

Record sys_ok (σ : sys) (l : list Z) : Prop := {
  ok_wf : wf (os σ) l;
  ok_nesting : iNesting (os σ) = 0;
  ok_dispatched : dispatched (os σ);
  ok_sems : forall ev e, aget (BRTOS_Sem_Table (os σ)) ev = Some e -> sem_ok (os σ) e;
  ok_threads : forall p t, task_at (os σ) p t -> thread_ok (os σ) l p t (doing σ t);
  ok_installed : forall t, doing σ t <> None -> exists p, task_at (os σ) p t;
}.

(** ** Accounting *)

(** The tasks whose pend on [ev] was granted but has not returned yet. *)
Definition granted_by (σ : sys) (ev t : Z) : bool :=
  match doing σ t with
  | Some (Pend ev' _, _) => (ev' =? ev) && negb (waits (os σ) ev (prio_of (os σ) t))
  | _ => false
  end.
Definition granted (σ : sys) (ev : Z) : gset Z :=
  list_to_set (filter (fun t => granted_by σ ev t = true) (seqZ 0 (NUMBER_OF_TASKS + 1))).

Definition sem_units (s : OS) (ev : Z) : Z :=
  match aget (BRTOS_Sem_Table s) ev with Some e => sem_OSEventCount e | None => 0 end.

(** The units of [ev] that were posted and not yet received. *)
Definition credit (σ : sys) (ev : Z) : Z :=
  sem_units (os σ) ev + Z.of_nat (size (granted σ ev)).

(** A post that succeeded adds a unit, a pend that returned OK took one. *)
Definition posts (ev : Z) (lb : label) : Z :=
  match lb with
  | Returned _ (Post ev') r => if (ev' =? ev) && (r =? OK) then 1 else 0
  | Suspended _ (Post ev') => if ev' =? ev then 1 else 0
  | _ => 0
  end.
Definition takes (ev : Z) (lb : label) : Z :=
  match lb with
  | Returned _ (Pend ev' _) r | Resumed _ (Pend ev' _) r =>
      if (ev' =? ev) && (r =? OK) then 1 else 0
  | _ => 0
  end.
Definition gain (ev : Z) (lb : label) : Z :=
  match lb with
  | Returned _ (Post ev') r => if (ev' =? ev) && (r =? OK) then 1 else 0
  | Suspended _ (Post ev') => if ev' =? ev then 1 else 0
  | Returned _ (Pend ev' _) r | Resumed _ (Pend ev' _) r =>
      if (ev' =? ev) && (r =? OK) then -1 else 0
  | _ => 0
  end.
Definition total (f : label -> Z) (tr : list label) : Z := foldr (fun lb n => f lb + n) 0 tr.

(** A counting semaphore. *)
Definition counting (s : OS) (ev : Z) : Prop :=
  exists e, sem_at s ev e /\ sem_binary e = false.
End system.

(** ** Transport of the invariant *)
Section transport.
Context `{C : Config}.
Implicit Types (s : OS) (l : list Z) (p q t u ev w : Z) (d : thread).

(** Task [u] of priority [q] does not notice the change from [s], [l] to [s'],
    [l']. *)
Definition unaffected (s : OS) (l : list Z) (s' : OS) (l' : list Z) (q u : Z) : Prop :=
  ready s' q = ready s q /\ (forall ev, waits s' ev q = waits s ev q) /\
  (u ∈ l' <-> u ∈ l) /\ ttw s' u = ttw s u.

Definition sems_stay (s s' : OS) : Prop := forall ev, has_sem s ev -> has_sem s' ev.

Lemma thread_ok_frame s l s' l' q u d :
  unaffected s l s' l' q u -> sems_stay s s' -> thread_ok s l q u d -> thread_ok s' l' q u d.
Proof.
  intros (Hr & Hw & Hl & Ht) Hs. destruct d as [[[w|ev w|ev] k]|]; cbn; rewrite ?Hr, ?Hl, ?Ht.
  - intros (? & ? & ?). split_and!; [done..|]. intros ev. by rewrite Hw.
  - rewrite Hw. intros (? & ? & He & ?). split_and!; [done|by apply Hs| |tauto..].
    intros ev'. rewrite Hw. apply He.
  - intros (? & ? & ? & ?). split_and!; [done..|]. intros ev'. by rewrite Hw.
  - intros (? & ? & ?). split_and!; [done..|]. intros ev. by rewrite Hw.
Qed.

Lemma sems_stay_refl s s' : BRTOS_Sem_Table s' = BRTOS_Sem_Table s -> sems_stay s s'.
Proof. intros Hs ev [e He]. exists e. unfold sem_at. by rewrite Hs. Qed.

Lemma sems_stay_aset s ev e e' s' :
  aget (BRTOS_Sem_Table s) ev = Some e -> sem_OSEventAllocated e' = sem_OSEventAllocated e ->
  BRTOS_Sem_Table s' = aset (BRTOS_Sem_Table s) ev e' -> sems_stay s s'.
Proof.
  intros He Ha Hs ev' (e1 & H1 & H2). destruct (decide (ev = ev')) as [<-|Hne].
  - exists e'. split; [rewrite Hs; by eapply aget_aset_eq|congruence].
  - exists e1. split; [by rewrite Hs, aget_aset_ne|done].
Qed.

Lemma waits_ext s s' ev p : BRTOS_Sem_Table s' = BRTOS_Sem_Table s -> waits s' ev p = waits s ev p.
Proof. unfold waits. by intros ->. Qed.

(** Changing one semaphore. *)
Lemma waits_aset s s' ev e e' ev' p :
  aget (BRTOS_Sem_Table s) ev = Some e -> BRTOS_Sem_Table s' = aset (BRTOS_Sem_Table s) ev e' ->
  waits s' ev' p = if decide (ev' = ev) then Z.testbit (sem_OSEventWaitList e') p else waits s ev' p.
Proof.
  intros He Hs. unfold waits. rewrite Hs. case_decide as Hd.
  - subst. by rewrite (aget_aset_eq _ _ _ _ He).
  - by rewrite aget_aset_ne.
Qed.

Lemma sem_units_aset s s' ev e e' ev' :
  aget (BRTOS_Sem_Table s) ev = Some e -> BRTOS_Sem_Table s' = aset (BRTOS_Sem_Table s) ev e' ->
  sem_units s' ev' = if decide (ev' = ev) then sem_OSEventCount e' else sem_units s ev'.
Proof.
  intros He Hs. unfold sem_units. rewrite Hs. case_decide as Hd.
  - subst. by rewrite (aget_aset_eq _ _ _ _ He).
  - by rewrite aget_aset_ne.
Qed.

Lemma ttw_others t s s' u : same_deadlines t s s' -> u <> t ->
  is_Some (aget (ContextTask s) u) -> ttw s' u = ttw s u.
Proof.
  intros H Hu [c Hc]. destruct (H u c Hu Hc) as (c' & Hc' & HT). unfold ttw. by rewrite Hc, Hc'.
Qed.

Lemma dispatched_ext s s' :
  same_prios s s' -> currentTask s' = currentTask s -> OSReadyList s' = OSReadyList s ->
  OSBlockedList s' = OSBlockedList s -> dispatched s -> dispatched s'.
Proof.
  intros Hsp Hc Hr Hb (p & Ht & Hp & Hmax). exists p. unfold runnable in *. rewrite Hc, Hr, Hb.
  split; [by eapply same_prios_task_at|done].
Qed.

(** All semaphores stay well-formed when one changes. *)
Lemma sems_aset s s' ev e' :
  same_prios s s' -> BRTOS_Sem_Table s' = aset (BRTOS_Sem_Table s) ev e' -> sem_ok s' e' ->
  (forall ev e, aget (BRTOS_Sem_Table s) ev = Some e -> sem_ok s e) ->
  forall ev e, aget (BRTOS_Sem_Table s') ev = Some e -> sem_ok s' e.
Proof.
  intros Hsp Hs He' Hall ev1 e1. rewrite Hs. destruct (decide (ev = ev1)) as [<-|Hne].
  - intros H1. destruct (aget (BRTOS_Sem_Table s) ev) as [e|] eqn:He.
    + rewrite (aget_aset_eq _ _ _ _ He) in H1. by injection H1 as <-.
    + apply aget_lt in H1. rewrite length_aset in H1.
      destruct (aget_is_Some (BRTOS_Sem_Table s) ev H1). congruence.
  - rewrite aget_aset_ne by done. intros [Ho ? ? ?]%Hall. split; [|done..].
    by eapply ev_ok_same_prios.
Qed.

Lemma sems_same s s' :
  same_prios s s' -> BRTOS_Sem_Table s' = BRTOS_Sem_Table s ->
  (forall ev e, aget (BRTOS_Sem_Table s) ev = Some e -> sem_ok s e) ->
  forall ev e, aget (BRTOS_Sem_Table s') ev = Some e -> sem_ok s' e.
Proof.
  intros Hsp Hs Hall ev e. rewrite Hs. intros [Ho ? ? ?]%Hall. split; [|done..].
  by eapply ev_ok_same_prios.
Qed.

(** A step of task [t], of priority [p], to the state [s'] and the activity [d]. *)
Lemma sys_ok_update σ l s' l' p t d :
  sys_ok σ l -> wf s' l' -> iNesting s' = iNesting (os σ) -> dispatched s' ->
  same_prios (os σ) s' ->
  (forall ev e, aget (BRTOS_Sem_Table s') ev = Some e -> sem_ok s' e) ->
  task_at (os σ) p t -> thread_ok s' l' p t d ->
  (forall q u, task_at (os σ) q u -> u <> t -> thread_ok (os σ) l q u (doing σ u) ->
     thread_ok s' l' q u (doing σ u)) ->
  sys_ok (mkSys s' (set_doing t d (doing σ))) l'.
Proof.
  intros [Hw Hn Hd Hs Ht Hi] Hw' Hn' Hd' Hsp Hs' Hat Hth Hoth. split; cbn; try done.
  - congruence.
  - intros q u Hu. apply (same_prios_task_at _ _ _ _ (same_prios_sym _ _ Hsp)) in Hu.
    unfold set_doing. case_decide as Hx; [subst u|].
    + by rewrite (task_at_prio_inj _ _ _ _ Hu Hat).
    + apply Hoth; auto.
  - intros u. unfold set_doing. case_decide as Hx.
    + subst. intros _. exists p. by eapply same_prios_task_at.
    + intros [q Hq]%Hi. exists q. by eapply same_prios_task_at.
Qed.

(** A step that leaves every task in its activity. *)
Lemma sys_ok_keep σ l s' l' :
  sys_ok σ l -> wf s' l' -> iNesting s' = iNesting (os σ) -> dispatched s' ->
  same_prios (os σ) s' ->
  (forall ev e, aget (BRTOS_Sem_Table s') ev = Some e -> sem_ok s' e) ->
  (forall q u, task_at (os σ) q u -> thread_ok (os σ) l q u (doing σ u) ->
     thread_ok s' l' q u (doing σ u)) ->
  sys_ok (mkSys s' (doing σ)) l'.
Proof.
  intros [Hw Hn Hd Hs Ht Hi] Hw' Hn' Hd' Hsp Hs' Hth. split; cbn; try done.
  - congruence.
  - intros q u Hu. apply (same_prios_task_at _ _ _ _ (same_prios_sym _ _ Hsp)) in Hu. auto.
  - intros u [q Hq]%Hi. exists q. by eapply same_prios_task_at.
Qed.
End transport.

(** ** Counting the granted tasks *)
Section accounting.
Context `{C : Config}.
Implicit Types (s : OS) (l : list Z) (p q t u ev w : Z) (d : thread).

Lemma elem_of_granted σ ev t :
  t ∈ granted σ ev <-> 0 <= t <= NUMBER_OF_TASKS /\ granted_by σ ev t = true.
Proof.
  unfold granted. rewrite elem_of_list_to_set, list_elem_of_filter, elem_of_seqZ.
  split; intros [? ?]; (split; [|done]) || (split; [done|]); lia.
Qed.

(** The number of granted tasks follows the only task [t] that changes. *)
Lemma granted_change σ σ' ev t :
  0 <= t <= NUMBER_OF_TASKS ->
  (forall u, u <> t -> granted_by σ' ev u = granted_by σ ev u) ->
  Z.of_nat (size (granted σ' ev)) =
    Z.of_nat (size (granted σ ev)) + Z.b2z (granted_by σ' ev t) - Z.b2z (granted_by σ ev t).
Proof.
  intros Ht Hu.
  assert (forall τ, Z.of_nat (size (granted τ ev)) =
    Z.b2z (granted_by τ ev t) + Z.of_nat (size (granted τ ev ∖ {[t]}))) as Hsplit.
  { intros τ. destruct (granted_by τ ev t) eqn:E.
    - assert ({[t]} ⊆ granted τ ev) as Hin
        by (apply singleton_subseteq_l, elem_of_granted; done).
      rewrite (union_difference_L {[t]} (granted τ ev) Hin) at 1.
      rewrite size_union by set_solver. rewrite size_singleton. cbn [Z.b2z]. lia.
    - assert (granted τ ev ∖ {[t]} = granted τ ev) as ->; [|done].
      apply set_eq. intros u. rewrite elem_of_difference, elem_of_singleton, elem_of_granted.
      split; [tauto|]. intros [? Hg]. split; [done|]. intros ->. congruence. }
  assert (granted σ' ev ∖ {[t]} = granted σ ev ∖ {[t]}) as Hrest.
  { apply set_eq. intros u. rewrite !elem_of_difference, !elem_of_granted, elem_of_singleton.
    destruct (decide (u = t)) as [->|Hne]; [tauto|]. by rewrite Hu. }
  rewrite (Hsplit σ'), (Hsplit σ), Hrest. lia.
Qed.

Lemma granted_by_frame σ l s' f ev u :
  sys_ok σ l -> same_prios (os σ) s' -> f u = doing σ u ->
  (forall q, task_at (os σ) q u -> waits s' ev q = waits (os σ) ev q) ->
  granted_by (mkSys s' f) ev u = granted_by σ ev u.
Proof.
  intros Hok Hsp Hf Hw. unfold granted_by. cbn. rewrite Hf.
  destruct (doing σ u) as [[[w|ev' w|ev'] k]|] eqn:Hd; try done.
  destruct (ok_installed σ l Hok u) as [q Hq]; [by rewrite Hd|].
  rewrite (prio_of_same _ _ u q Hsp Hq), (task_at_prio _ q u Hq). by rewrite Hw.
Qed.

Lemma task_index s l p t : wf s l -> task_at s p t -> 0 <= t <= NUMBER_OF_TASKS.
Proof.
  intros Hw (_ & H0 & c & Hc & _). apply aget_lt in Hc. rewrite (wf_ct s l Hw) in Hc. lia.
Qed.

Lemma granted_same σ l s' ev :
  sys_ok σ l -> same_prios (os σ) s' ->
  (forall q, waits s' ev q = waits (os σ) ev q) ->
  granted (mkSys s' (doing σ)) ev = granted σ ev.
Proof.
  intros Hok Hsp Hw. apply set_eq. intros u. rewrite !elem_of_granted.
  by rewrite (granted_by_frame σ l).
Qed.

(** The granted tasks after a step of task [t] that leaves the wait list of
    [ev] alone but for [t]. *)
Lemma granted_update σ l s' p t d ev :
  sys_ok σ l -> same_prios (os σ) s' -> task_at (os σ) p t ->
  (forall q, q <> p -> waits s' ev q = waits (os σ) ev q) ->
  Z.of_nat (size (granted (mkSys s' (set_doing t d (doing σ))) ev)) =
    Z.of_nat (size (granted σ ev)) +
    Z.b2z (granted_by (mkSys s' (set_doing t d (doing σ))) ev t) - Z.b2z (granted_by σ ev t).
Proof.
  intros Hok Hsp Ht Hw. apply granted_change; [by eapply task_index, Ht; apply Hok|].
  intros u Hu. apply (granted_by_frame σ l); [done..| |].
  - unfold set_doing. by rewrite decide_False.
  - intros q Hq. apply Hw. intros ->. apply Hu. by eapply task_at_fun.
Qed.

Lemma set_doing_eq t d f : set_doing t d f t = d.
Proof. unfold set_doing. by rewrite decide_True. Qed.

Lemma granted_by_doing σ ev t d :
  doing σ t = d ->
  granted_by σ ev t = match d with
                      | Some (Pend ev' _, _) =>
                          (ev' =? ev) && negb (waits (os σ) ev (prio_of (os σ) t))
                      | _ => false
                      end.
Proof. by intros <-. Qed.

Lemma granted_by_set s f ev t d :
  granted_by (mkSys s (set_doing t d f)) ev t =
    match d with
    | Some (Pend ev' _, _) => (ev' =? ev) && negb (waits s ev (prio_of s t))
    | _ => false
    end.
Proof. apply granted_by_doing, set_doing_eq. Qed.

Lemma counting_aset s s' ev e e' :
  aget (BRTOS_Sem_Table s) ev = Some e -> sem_OSEventAllocated e' = sem_OSEventAllocated e ->
  sem_Binary e' = sem_Binary e -> BRTOS_Sem_Table s' = aset (BRTOS_Sem_Table s) ev e' ->
  forall ev', counting s ev' -> counting s' ev'.
Proof.
  intros He Ha Hb Hs ev' (e1 & [H1 H2] & H3). destruct (decide (ev = ev')) as [<-|Hne].
  - exists e'. unfold sem_at, sem_binary in *. rewrite Hs, (aget_aset_eq _ _ _ _ He).
    split_and!; congruence.
  - exists e1. unfold sem_at. by rewrite Hs, aget_aset_ne.
Qed.

Lemma counting_same s s' ev :
  BRTOS_Sem_Table s' = BRTOS_Sem_Table s -> counting s ev -> counting s' ev.
Proof. intros Hs (e & [? ?] & ?). exists e. unfold sem_at. by rewrite Hs. Qed.

Lemma sem_units_ext s s' ev : BRTOS_Sem_Table s' = BRTOS_Sem_Table s -> sem_units s' ev = sem_units s ev.
Proof. unfold sem_units. by intros ->. Qed.

(** What a step must do: keep the invariant and the balance. *)
Definition step_ok (σ : sys) (lb : label) (σ' : sys) : Prop :=
  (exists l', sys_ok σ' l') /\
  forall ev, counting (os σ) ev ->
    counting (os σ') ev /\ credit σ' ev = credit σ ev + gain ev lb.

Lemma step_ok_stutter σ l lb : sys_ok σ l -> (forall ev, gain ev lb = 0) -> step_ok σ lb σ.
Proof. intros Hok Hg. split; [by exists l|]. intros ev Hc. split; [done|]. rewrite Hg. lia. Qed.
End accounting.

(** ** The steps keep the invariant and the balance *)
Section steps.
Context `{C : Config}.
Implicit Types (s : OS) (l : list Z) (p q t u ev w : Z) (d : thread).

(** The outcome of a call is a step that keeps the invariant. *)
Definition call_ok (σ : sys) (c : call) : Prop :=
  match run_call c (os σ) with
  | Done r s' => step_ok σ (Returned (currentTask (os σ)) c r) (mkSys s' (doing σ))
  | Yield s' k => step_ok σ (Suspended (currentTask (os σ)) c)
                    (mkSys s' (set_doing (currentTask (os σ)) (Some (c, k)) (doing σ)))
  | Fault => False
  end.

Lemma running σ l :
  sys_ok σ l -> exists p, task_at (os σ) p (currentTask (os σ)) /\ prio_of (os σ) (currentTask (os σ)) = p /\
    thread_ok (os σ) l p (currentTask (os σ)) (doing σ (currentTask (os σ))) /\ ready (os σ) p = true.
Proof.
  intros Hok. destruct (ok_dispatched σ l Hok) as (p & Ht & [Hr _] & _).
  exists p. split_and!; [done|by apply task_at_prio|by apply (ok_threads σ l Hok)|done].
Qed.

Lemma other_prio s p q t u : task_at s p t -> task_at s q u -> u <> t -> q <> p.
Proof. intros Ht Hu Hne ->. apply Hne. by eapply task_at_fun. Qed.

Lemma mkSys_eta σ : mkSys (os σ) (doing σ) = σ.
Proof. by destruct σ. Qed.

Lemma delay_step σ l w :
  sys_ok σ l -> doing σ (currentTask (os σ)) = None -> may_call (os σ) (Delay w) ->
  call_ok σ (Delay w).
Proof.
  intros Hok Hd [Hp0 Hw]. destruct (running σ l Hok) as (p & Ht & Hp & Hth & _).
  rewrite Hp in Hp0. rewrite Hd in Hth. destruct Hth as (Hrd & Hni & Hnw).
  unfold call_ok. cbn [run_call]. set (s := os σ) in *. set (t := currentTask s) in *.
  destruct (decide (w = 0)) as [->|Hw0].
  - assert (OSDelayTask 0 s = Done NO_TASK_DELAY s) as ->.
    { unfold OSDelayTask. cbn. rewrite (ok_nesting σ l Hok : iNesting s = 0).
      rewrite truthy_nz by (destruct Ht as (_ & ? & _); lia). done. }
    unfold s. rewrite mkSys_eta. by apply (step_ok_stutter σ l).
  - destruct (OSDelayTask_lemma s l p w)
      as (s0 & t0 & Hr & (ct & hd & tl & Hf) & Hw' & Hdis & Hsp & Hdl & _);
      [apply Hok|apply Hok|done|done|done|lia|].
    rewrite Hr. destruct (switched_frame s0 t0) as (Gr & _ & _ & _ & Gn & _ & Gs & _).
    assert (BRTOS_Sem_Table (switched t0 s0) = BRTOS_Sem_Table s) as Hsem by (by rewrite Gs, Hf).
    assert (same_prios s (switched t0 s0)) as Hsp'
      by (eapply same_prios_trans; [done|apply same_prios_switched]).
    pose proof (same_deadlines_trans _ _ _ _ Hdl (same_deadlines_switched t s0 t0)) as Hdl'.
    assert (forall q, ready (switched t0 s0) q = ready s q && negb (bool_decide (p = q))) as Hready.
    { intros q. unfold ready. rewrite Gr, Hf. cbn. by rewrite testbit_clear by lia. }
    split.
    + exists (l ++ [t]). apply (sys_ok_update σ l _ _ p); [done|done|by rewrite Gn, Hf|done|done| |done|..].
      * apply (sems_same s); [done|done|apply Hok].
      * cbn. split_and!; [by eexists| |].
        -- rewrite Hready, bool_decide_true, andb_false_r by done. split; [done|set_solver].
        -- intros ev. by rewrite (waits_ext s).
      * intros q u Hu Hne. apply thread_ok_frame; [|by apply sems_stay_refl].
        pose proof (other_prio _ _ _ _ _ Ht Hu Hne). split_and!.
        -- by rewrite Hready, bool_decide_false, andb_true_r by done.
        -- intros ev. by apply waits_ext.
        -- set_solver.
        -- apply (ttw_others t); [done|done|]. destruct Hu as (_ & _ & c & ? & _). by exists c.
    + intros ev Hc. split; [by apply (counting_same s)|]. unfold credit.
      rewrite (granted_update σ l _ p) by (done || intros; by apply waits_ext).
      cbn [os]. rewrite (sem_units_ext s) by done.
      rewrite (granted_by_doing σ ev t None Hd), granted_by_set. cbn. fold s. lia.
Qed.

(** A call that only changes the count of semaphore [ev]. *)
Lemma count_step σ l ev e n lb :
  sys_ok σ l -> sem_at (os σ) ev e -> sem_ok (os σ) (set_sem_OSEventCount n e) ->
  (forall ev', counting (os σ) ev' ->
     gain ev' lb = if decide (ev' = ev) then n - sem_OSEventCount e else 0) ->
  step_ok σ lb (mkSys (set_BRTOS_Sem_Table
    (aset (BRTOS_Sem_Table (os σ)) ev (set_sem_OSEventCount n e)) (os σ)) (doing σ)).
Proof.
  intros Hok [He Ha] Hse Hg. set (s := os σ) in *. set (s' := set_BRTOS_Sem_Table _ s).
  assert (same_prios s s') as Hsp by (by apply same_prios_ctx).
  assert (forall ev' q, waits s' ev' q = waits s ev' q) as Hwt.
  { intros ev' q. rewrite (waits_aset s s' ev e (set_sem_OSEventCount n e)) by done.
    case_decide; [subst|done]. unfold waits. by rewrite He. }
  split.
  - exists l. apply (sys_ok_keep σ l); [done|by apply (wf_ext s); [|apply Hok]|done| |done|..].
    + by apply (dispatched_ext s), Hok.
    + eapply (sems_aset s s'); [done|done| |apply Hok].
      destruct Hse as [Ho ? ? ?]. split; [by apply (ev_ok_ext s)|done..].
    + intros q u _. apply thread_ok_frame; [done|].
      by apply (sems_stay_aset s ev e (set_sem_OSEventCount n e)).
  - intros ev' Hc. split; [by apply (counting_aset s s' ev e (set_sem_OSEventCount n e))|].
    unfold credit. rewrite (granted_same σ l) by done. rewrite (Hg ev' Hc). cbn [os]. fold s.
    rewrite (sem_units_aset s s' ev e (set_sem_OSEventCount n e)) by done.
    case_decide; [subst|lia]. unfold sem_units. rewrite He. cbn. lia.
Qed.

Lemma OSSemPend_poll_lemma s ev e :
  iNesting s = 0 -> sem_at s ev e -> sem_OSEventCount e = 0 ->
  OSSemPend (Some ev) NO_TIMEOUT s = Done EXIT_BY_NO_ENTRY_AVAILABLE s.
Proof.
  intros Hn [He Ha] Hc. unfold OSSemPend. run. rewrite Hn, andb_false_r. cbn.
  rewrite andb_false_r. run. rewrite Ha, Hc, !Z.eqb_refl, andb_false_r. cbn. by destruct s.
Qed.

Lemma deadline_not_timeout s l w :
  ostick_bits < 64 -> wf s l -> 0 <= w <= TICK_COUNT_OVERFLOW -> w <> 0 ->
  deadline (OSTickCounter s) w <> EXIT_BY_TIMEOUT.
Proof.
  intros Hb Hw Hr H0. unfold deadline. rewrite truthy_nz by done.
  pose proof (wf_tick s l Hw) as Ht. rewrite wake_tick_mod by done.
  pose proof (Z.mod_pos_bound (OSTickCounter s + w) TICK_COUNT_OVERFLOW).
  rewrite EXIT_BY_TIMEOUT_eq. rewrite TICK_COUNT_OVERFLOW_eq in *. lia.
Qed.

Lemma elem_of_armed l t w u : u ∈ armed l t w <-> u ∈ l \/ (u = t /\ w <> 0).
Proof.
  unfold armed. destruct (decide (w = 0)) as [->|Hw].
  - rewrite truthy_0. tauto.
  - rewrite truthy_nz by done. set_solver.
Qed.

Lemma waits_join s s' ev e p q ev' :
  0 <= p -> aget (BRTOS_Sem_Table s) ev = Some e ->
  BRTOS_Sem_Table s' = aset (BRTOS_Sem_Table s) ev (ev_join p e) ->
  waits s' ev' q = waits s ev' q || (bool_decide (ev' = ev) && bool_decide (p = q)).
Proof.
  intros Hp He Hs. rewrite (waits_aset s s' ev e (ev_join p e)) by done.
  case_decide as Hd; [subst|].
  - change (sem_OSEventWaitList (ev_join p e)) with (ev_waitlist (ev_join p e)).
    rewrite ev_join_waitlist, testbit_set, (bool_decide_true (ev = ev)) by done. unfold waits. by rewrite He.
  - by rewrite bool_decide_false, orb_false_r by done.
Qed.

Lemma waits_leave s s' ev e p q ev' :
  0 <= p -> aget (BRTOS_Sem_Table s) ev = Some e ->
  BRTOS_Sem_Table s' = aset (BRTOS_Sem_Table s) ev (ev_leave p e) ->
  waits s' ev' q = waits s ev' q && negb (bool_decide (ev' = ev) && bool_decide (p = q)).
Proof.
  intros Hp He Hs. rewrite (waits_aset s s' ev e (ev_leave p e)) by done.
  case_decide as Hd; [subst|].
  - change (sem_OSEventWaitList (ev_leave p e)) with (ev_waitlist (ev_leave p e)).
    rewrite ev_leave_waitlist, testbit_clear, (bool_decide_true (ev = ev)) by done. unfold waits. by rewrite He.
  - by rewrite bool_decide_false, andb_true_r by done.
Qed.

(** Joining a wait list neither grants nor takes a unit. *)
Lemma block_credit σ l s' p t ev e w k ev' :
  sys_ok σ l -> same_prios (os σ) s' -> task_at (os σ) p t -> doing σ t = None ->
  aget (BRTOS_Sem_Table (os σ)) ev = Some e ->
  BRTOS_Sem_Table s' = aset (BRTOS_Sem_Table (os σ)) ev (ev_join p e) ->
  (forall q ev1, waits s' ev1 q =
     waits (os σ) ev1 q || (bool_decide (ev1 = ev) && bool_decide (p = q))) ->
  credit (mkSys s' (set_doing t (Some (Pend ev w, k)) (doing σ))) ev' =
    credit σ ev' + gain ev' (Suspended t (Pend ev w)).
Proof.
  intros Hok Hsp Ht Hd He Hsem Hwaits. unfold credit.
  rewrite (granted_update σ l _ p); [|done|done|done|].
  - cbn [os]. rewrite (sem_units_aset (os σ) s' ev e (ev_join p e)) by done.
    rewrite (granted_by_doing σ ev' t None Hd), granted_by_set.
    rewrite (prio_of_same (os σ) s' t p), (task_at_prio (os σ) p t), Hwaits by done.
    rewrite (bool_decide_true (p = p)), andb_true_r by done. cbn [gain].
    destruct (decide (ev' = ev)) as [->|Hne].
    + rewrite bool_decide_true, orb_true_r, andb_false_r by done. unfold sem_units.
      rewrite He. cbn. lia.
    + rewrite (proj2 (Z.eqb_neq ev ev')) by done. cbn. lia.
  - intros q Hq. by rewrite Hwaits, (bool_decide_false (p = q)), andb_false_r, orb_false_r by done.
Qed.

(** The state in which a pend on an empty semaphore gives up the processor. *)
Lemma pend_block_effect s l p ev e w :
  wf s l -> iNesting s = 0 -> task_at s p (currentTask s) -> 0 < p -> currentTask s ∉ l ->
  sem_at s ev e -> ev_ok s e -> sem_OSEventCount e = 0 -> w <> NO_TIMEOUT ->
  exists s', OSSemPend (Some ev) w s
      = Yield s' (fun s2 => OSSemPend_resume ev (currentTask s) w (PRIMASK s) p s2) /\
    wf s' (armed l (currentTask s) w) /\ dispatched s' /\ iNesting s' = iNesting s /\
    BRTOS_Sem_Table s' = aset (BRTOS_Sem_Table s) ev (ev_join p e) /\
    same_prios s s' /\ same_deadlines (currentTask s) s s' /\
    (forall q, ready s' q = ready s q && negb (bool_decide (p = q))) /\
    ttw s' (currentTask s) = deadline (OSTickCounter s) w.
Proof.
  intros Hw Hn Ht Hp Hni Hat Hev H0 Hnt.
  destruct (OSSemPend_block_lemma s l p ev e w) as (s0 & t0 & Hr & Hs & Hw' & Hdis); [done..|].
  destruct Hs as [(ct & hd & tl & Hf) _ Hsp Hdl (c & Hc & _ & HcT)].
  destruct (switched_frame s0 t0) as (Gr & _ & _ & _ & Gn & _ & Gs & _).
  exists (switched t0 s0). split_and!; [done|done|done|by rewrite Gn, Hf|by rewrite Gs, Hf|..].
  - apply (same_prios_trans s (set_PRIMASK true s)); [by apply same_prios_ctx|].
    eapply same_prios_trans; [done|apply same_prios_switched].
  - apply (same_deadlines_trans _ s (set_PRIMASK true s)); [by apply same_deadlines_ctx|].
    eapply same_deadlines_trans; [exact Hdl|apply same_deadlines_switched].
  - intros q. unfold ready. rewrite Gr, Hf. cbn. by rewrite testbit_clear by lia.
  - destruct (switched_task s0 t0 (currentTask s) c Hc) as (c3 & Hc3 & _ & HT3). unfold ttw.
    by rewrite Hc3, HT3, HcT.
Qed.

Lemma pend_block_step σ l ev e w :
  ostick_bits < 64 -> sys_ok σ l -> doing σ (currentTask (os σ)) = None ->
  0 < prio_of (os σ) (currentTask (os σ)) -> sem_at (os σ) ev e -> sem_OSEventCount e = 0 ->
  w <> NO_TIMEOUT -> 0 <= w <= TICK_COUNT_OVERFLOW -> call_ok σ (Pend ev w).
Proof.
  intros Hbits Hok Hd Hp0 Hat H0 Hnt Hw. destruct (running σ l Hok) as (p & Ht & Hp & Hth & _).
  rewrite Hp in Hp0. rewrite Hd in Hth. destruct Hth as (Hrd & Hni & Hnw).
  unfold call_ok. cbn [run_call]. set (s := os σ) in *.
  pose proof Hat as [He Ha]. pose proof (ok_sems σ l Hok ev e He) as Hse.
  destruct (pend_block_effect s l p ev e w)
    as (s' & Hr & Hw' & Hdis & Hn & Hsem & Hsp & Hdl & Hready & HT);
    [apply Hok|apply Hok|done|done|done|done|apply Hse|done|done|].
  rewrite Hr. set (t := currentTask s) in *.
  assert (forall ev' q, waits s' ev' q = waits s ev' q || (bool_decide (ev' = ev) && bool_decide (p = q)))
    as Hwaits by (intros; apply (waits_join s s' ev e); done || lia).
  assert (sems_stay s s') as Hstay by (by apply (sems_stay_aset s ev e (ev_join p e))).
  split.
  - exists (armed l t w). apply (sys_ok_update σ l _ _ p); [done|done|done|done|done| |done|..].
    + apply (sems_aset s s' ev (ev_join p e)); [done|done| |apply Hok].
      pose proof (task_at_range s l p t (ok_wf σ l Hok) Ht).
      apply (sem_ok_join s); [done|done|by exists t|lia| |done].
      rewrite elem_of_members. intros [_ Hx]. specialize (Hnw ev). unfold waits in Hnw.
      rewrite He in Hnw. congruence.
    + cbn. rewrite Hready, Hwaits, !bool_decide_true, orb_true_r, andb_false_r by done.
      split_and!; [by eexists|apply Hstay; by exists e| |by right|done|..].
      * intros ev'. rewrite Hwaits, Hnw. destruct (bool_decide (ev' = ev)) eqn:E; [|done].
        intros _. by apply bool_decide_eq_true in E.
      * intros [?|[_ Hw0]]%elem_of_armed; [done|]. split; [done|]. rewrite HT.
        by apply (deadline_not_timeout s l); [|apply Hok|..].
      * intros Hx Hw0. exfalso. apply Hx, elem_of_armed. by right.
    + intros q u Hu Hne. apply thread_ok_frame; [|done].
      pose proof (other_prio _ _ _ _ _ Ht Hu Hne) as Hpq. split_and!.
      * by rewrite Hready, bool_decide_false, andb_true_r by done.
      * intros ev'. by rewrite Hwaits, (bool_decide_false (p = q)), andb_false_r, orb_false_r by done.
      * rewrite elem_of_armed. tauto.
      * apply (ttw_others t); [done|done|]. destruct Hu as (_ & _ & cu & ? & _). by exists cu.
  - intros ev' Hcnt. split; [by apply (counting_aset s s' ev e (ev_join p e))|].
    apply (block_credit σ l s' p t ev e); done || (intros; apply Hwaits).
Qed.

Lemma pend_step σ l ev w :
  ostick_bits < 64 -> sys_ok σ l -> doing σ (currentTask (os σ)) = None ->
  may_call (os σ) (Pend ev w) -> call_ok σ (Pend ev w).
Proof.
  intros Hb Hok Hd (Hp & [e Hat] & Hw). pose proof Hat as [He Ha].
  pose proof (ok_sems σ l Hok ev e He) as Hse. pose proof (so_count _ _ Hse) as Hc.
  destruct (decide (0 < sem_OSEventCount e)) as [Hpos|Hz].
  - unfold call_ok. cbn [run_call].
    rewrite (OSSemPend_take_lemma _ ev e) by (apply Hok || done || lia).
    apply (count_step σ l); [done|done|..].
    + destruct Hse as [Ho ? Hi Hbn]. split; cbn.
      * by apply (ev_ok_fields (os σ) _ e); [apply same_prios_refl|..].
      * lia.
      * auto with lia.
      * intros Hx%Hbn. lia.
    + intros ev' _. cbn. destruct (decide (ev' = ev)) as [->|Hne].
      * rewrite !Z.eqb_refl. cbn. lia.
      * by rewrite (proj2 (Z.eqb_neq ev ev')) by done.
  - destruct (decide (w = NO_TIMEOUT)) as [->|Hnt].
    + unfold call_ok. cbn [run_call]. rewrite (OSSemPend_poll_lemma _ ev e) by (apply Hok || done || lia).
      rewrite mkSys_eta. apply (step_ok_stutter σ l); [done|]. intros ev'. cbn.
      change (EXIT_BY_NO_ENTRY_AVAILABLE =? OK) with false. by rewrite andb_false_r.
    + destruct Hw as [|Hw]; [done|]. by apply (pend_block_step σ l ev e w); [..|lia|done|done].
Qed.

(** A waiter: a task on the wait list of [ev] is inside a pend on [ev]. *)
Lemma waiter s l p u d ev :
  thread_ok s l p u d -> waits s ev p = true -> exists w k, d = Some (Pend ev w, k).
Proof.
  destruct d as [[[w|ev' w|ev'] k]|]; cbn.
  - intros (_ & _ & H). by rewrite H.
  - intros (_ & _ & H & _) ->%H. by exists w, k.
  - intros (_ & _ & _ & H). by rewrite H.
  - intros (_ & _ & H). by rewrite H.
Qed.

(** Granting the unit to the waiter of priority [p]. *)
Lemma thread_ok_granted s s' l p u ev w k :
  ready s' p = true -> (forall ev', waits s' ev' p = waits s ev' p && negb (bool_decide (ev' = ev))) ->
  ttw s' u = ttw s u -> sems_stay s s' ->
  thread_ok s l p u (Some (Pend ev w, k)) -> thread_ok s' l p u (Some (Pend ev w, k)).
Proof.
  intros Hr Hw HT Hs (? & ? & He & _ & _ & Hin & Hout). cbn.
  rewrite Hr, Hw, bool_decide_true, andb_false_r, HT by done.
  split_and!; [done|by apply Hs| |by left|done|done|].
  - intros ev'. rewrite Hw. intros [Hx%He _]%andb_true_iff. done.
  - intros Hni Hw0. split; [done|]. by apply Hout.
Qed.

(** The state in which a post that releases a waiter gives up the processor. *)
Lemma post_wake_effect s l ev e :
  wf s l -> iNesting s = 0 -> is_Some (aget (ContextTask s) (currentTask s)) ->
  sem_at s ev e -> ev_ok s e -> sem_OSEventWait e <> 0 ->
  exists s' p u, OSSemPost (Some ev) s = Yield s' (fun s2 => Done OK (set_PRIMASK (PRIMASK s) s2)) /\
    wf s' l /\ dispatched s' /\ iNesting s' = iNesting s /\ 0 <= p /\ task_at s p u /\
    Z.testbit (sem_OSEventWaitList e) p = true /\ ev_ok s (ev_leave p e) /\
    BRTOS_Sem_Table s' = aset (BRTOS_Sem_Table s) ev (ev_leave p e) /\ same_prios s s' /\
    (forall v, is_Some (aget (ContextTask s) v) -> ttw s' v = ttw s v) /\
    (forall q, ready s' q = ready s q || bool_decide (p = q)).
Proof.
  intros Hw Hn Hcur Hat Hev Hwt.
  destruct (OSSemPost_task_lemma s l ev e) as (p & t0 & Hh & Hp & Hlv & Hr & Hw' & Hdis); [done..|].
  destruct Hh as (_ & Hbit & _). destruct (ev_live s e Hev p Hbit) as [(u & Hu) _].
  destruct (switched_frame (sem_released s ev p e) t0) as (Gr & _ & _ & _ & Gn & _ & Gs & _).
  exists (switched t0 (sem_released s ev p e)), p, u.
  split_and!; [done|done|done|by rewrite Gn|lia|done|done|done|by rewrite Gs|..].
  - apply (same_prios_trans s (sem_released s ev p e)); [by apply same_prios_ctx|].
    apply same_prios_switched.
  - intros v [c Hc]. destruct (switched_task (sem_released s ev p e) t0 v c Hc) as (c' & Hc' & _ & HT).
    unfold ttw. by rewrite Hc', Hc.
  - intros q. unfold ready. rewrite Gr. cbn. by rewrite testbit_set by lia.
Qed.

(** Releasing the waiter [u] grants it a unit. *)
Lemma wake_credit σ l s' p u t ev e w k k' ev' :
  sys_ok σ l -> same_prios (os σ) s' -> task_at (os σ) p u -> doing σ t = None ->
  doing σ u = Some (Pend ev w, k) -> aget (BRTOS_Sem_Table (os σ)) ev = Some e ->
  waits (os σ) ev p = true -> BRTOS_Sem_Table s' = aset (BRTOS_Sem_Table (os σ)) ev (ev_leave p e) ->
  (forall ev1 q, waits s' ev1 q =
     waits (os σ) ev1 q && negb (bool_decide (ev1 = ev) && bool_decide (p = q))) ->
  credit (mkSys s' (set_doing t (Some (Post ev, k')) (doing σ))) ev' =
    credit σ ev' + gain ev' (Suspended t (Post ev)).
Proof.
  intros Hok Hsp Hu Hd Hdu He Hwp Hsem Hwaits. unfold credit.
  assert (u <> t) as Hut by (intros ->; congruence).
  rewrite (granted_change σ _ ev' u); [|by eapply task_index, Hu; apply Hok|].
  - cbn [os]. rewrite (sem_units_aset (os σ) s' ev e (ev_leave p e)) by done.
    rewrite (granted_by_doing σ ev' u _ Hdu).
    rewrite (granted_by_doing (mkSys s' _) ev' u (Some (Pend ev w, k)))
      by (cbn; unfold set_doing; by rewrite decide_False).
    cbn [os]. rewrite (prio_of_same (os σ) s' u p), (task_at_prio (os σ) p u), Hwaits by done.
    rewrite (bool_decide_true (p = p)), andb_true_r by done. cbn [gain].
    destruct (decide (ev' = ev)) as [->|Hne].
    + rewrite bool_decide_true, Hwp, Z.eqb_refl by done. unfold sem_units. rewrite He. cbn. lia.
    + rewrite (proj2 (Z.eqb_neq ev ev')) by done. cbn. lia.
  - intros v Hv. destruct (decide (v = t)) as [->|Hne].
    + by rewrite granted_by_set, (granted_by_doing σ ev' t None Hd).
    + apply (granted_by_frame σ l); [done|done|unfold set_doing; by rewrite decide_False|].
      intros q Hq. rewrite Hwaits, (bool_decide_false (p = q)), andb_false_r, andb_true_r; [done|].
      intros <-. apply Hv. by eapply task_at_fun.
Qed.

Lemma post_wake_step σ l ev e :
  sys_ok σ l -> doing σ (currentTask (os σ)) = None -> sem_at (os σ) ev e ->
  sem_OSEventWait e <> 0 -> call_ok σ (Post ev).
Proof.
  intros Hok Hd Hat Hwt. destruct (running σ l Hok) as (p & Ht & Hp & Hth & _).
  rewrite Hd in Hth. destruct Hth as (Hrd & Hni & Hnw).
  unfold call_ok. cbn [run_call]. set (s := os σ) in *. set (t := currentTask s) in *.
  pose proof Hat as [He Ha]. pose proof (ok_sems σ l Hok ev e He) as Hse.
  destruct (post_wake_effect s l ev e)
    as (s' & p1 & u1 & Hr & Hw' & Hdis & Hn & Hp1 & Hu1 & Hbit & Hlv & Hsem & Hsp & Httw & Hready);
    [apply Hok|apply Hok|destruct Ht as (_ & _ & c & Hc & _); by exists c|done|apply Hse|done|].
  rewrite Hr.
  assert (forall ev' q, waits s' ev' q = waits s ev' q && negb (bool_decide (ev' = ev) && bool_decide (p1 = q)))
    as Hwaits by (intros; by apply (waits_leave s s' ev e)).
  assert (sems_stay s s') as Hstay by (by apply (sems_stay_aset s ev e (ev_leave p1 e))).
  assert (waits s ev p1 = true) as Hwp by (unfold waits; by rewrite He).
  destruct (waiter s l p1 u1 (doing σ u1) ev (ok_threads σ l Hok p1 u1 Hu1) Hwp) as (w1 & k1 & Hd1).
  split.
  - exists l. apply (sys_ok_update σ l _ _ p); [done|done|done|done|done| |done|..].
    + apply (sems_aset s s' ev (ev_leave p1 e)); [done|done| |apply Hok].
      apply (sem_ok_leave s); [by apply (ev_ok_same_prios s)|done|done].
    + cbn. split_and!; [by eexists|by rewrite Hready, Hrd|done|]. intros ev'. by rewrite Hwaits, Hnw.
    + intros q u Hu Hne Hth. assert (is_Some (aget (ContextTask s) u)) as Hctx
        by (destruct Hu as (_ & _ & cu & ? & _); by exists cu).
      destruct (decide (q = p1)) as [->|Hq].
      * assert (u = u1) as -> by (by eapply task_at_fun). rewrite Hd1 in Hth |- *.
        apply (thread_ok_granted s); [|..|by apply Httw|done|done].
        -- by rewrite Hready, bool_decide_true, orb_true_r by done.
        -- intros ev'. by rewrite Hwaits, (bool_decide_true (p1 = p1)), andb_true_r by done.
      * apply (thread_ok_frame s l); [|done|done]. split_and!; [| |done|by apply Httw].
        -- by rewrite Hready, bool_decide_false, orb_false_r by done.
        -- intros ev'. by rewrite Hwaits, (bool_decide_false (p1 = q)), andb_false_r, andb_true_r by done.
  - intros ev' Hcnt. split; [by apply (counting_aset s s' ev e (ev_leave p1 e))|].
    by apply (wake_credit σ l s' p1 u1 t ev e w1 k1).
Qed.

Lemma post_step σ l ev :
  sys_ok σ l -> doing σ (currentTask (os σ)) = None -> has_sem (os σ) ev -> call_ok σ (Post ev).
Proof.
  intros Hok Hd [e Hat]. pose proof Hat as [He Ha].
  pose proof (ok_sems σ l Hok ev e He) as Hse. destruct Hse as [Ho Hc Hi Hb].
  destruct (decide (sem_OSEventWait e = 0)) as [Hz|Hz]; [|by apply (post_wake_step σ l ev e)].
  unfold call_ok. cbn [run_call]. destruct (decide (sem_OSEventCount e < 255)) as [Hlt|Hge].
  - rewrite (OSSemPost_count_lemma _ ev e) by (done || lia). unfold sem_counted.
    apply (count_step σ l); [done|done|..].
    + split; cbn; [by apply (ev_ok_fields (os σ) _ e); [apply same_prios_refl|..]| |done|].
      * destruct (sem_binary e); unfold TRUE; lia.
      * change (sem_binary (set_sem_OSEventCount _ e)) with (sem_binary e). intros ->. done.
    + intros ev' (e' & [He' _] & Hb'). cbn. destruct (decide (ev' = ev)) as [->|Hne].
      * assert (e' = e) as -> by congruence. rewrite Hb', !Z.eqb_refl. cbn. lia.
      * by rewrite (proj2 (Z.eqb_neq ev ev')) by done.
  - rewrite (OSSemPost_overflow_lemma _ ev e) by (done || lia). rewrite mkSys_eta.
    apply (step_ok_stutter σ l); [done|]. intros ev'. cbn.
    change (ERR_SEM_OVF =? OK) with false. by rewrite andb_false_r.
Qed.

(** The outcome of running the rest of a service. *)
Definition resume_ok (σ : sys) (c : call) (k : OS -> res Z) : Prop :=
  match k (os σ) with
  | Done r s' => (r = OK \/ r = TIMEOUT) /\
                 step_ok σ (Resumed (currentTask (os σ)) c r)
                   (mkSys s' (set_doing (currentTask (os σ)) None (doing σ)))
  | _ => False
  end.

(** The service has nothing left to do but to leave the critical section. *)
Lemma leave_critical σ l p t sr lb :
  sys_ok σ l -> task_at (os σ) p t -> thread_ok (os σ) l p t None ->
  (forall ev, gain ev lb = - Z.b2z (granted_by σ ev t)) ->
  step_ok σ lb (mkSys (set_PRIMASK sr (os σ)) (set_doing t None (doing σ))).
Proof.
  intros Hok Ht Hth Hg. set (s := os σ) in *.
  assert (same_prios s (set_PRIMASK sr s)) as Hsp by (by apply same_prios_ctx).
  split.
  - exists l. apply (sys_ok_update σ l _ _ p); [done|by apply (wf_ext s); [|apply Hok]|done| |done| |done|done|].
    + by apply (dispatched_ext s), Hok.
    + apply (sems_same s); [done|done|apply Hok].
    + intros q u _ _. by apply thread_ok_frame; [|apply sems_stay_refl].
  - intros ev Hc. split; [by apply (counting_same s)|]. unfold credit.
    rewrite (granted_update σ l _ p) by done. rewrite granted_by_set, Hg. cbn [os].
    rewrite (sem_units_ext s) by done. cbn. fold s. lia.
Qed.

Lemma pend_timeout_step σ l p ev e w sr :
  sys_ok σ l -> task_at (os σ) p (currentTask (os σ)) ->
  sem_at (os σ) ev e -> waits (os σ) ev p = true -> ready (os σ) p = true ->
  (forall ev', waits (os σ) ev' p = true -> ev' = ev) ->
  currentTask (os σ) ∉ l -> w <> 0 -> ttw (os σ) (currentTask (os σ)) = EXIT_BY_TIMEOUT ->
  (exists k, doing σ (currentTask (os σ)) = Some (Pend ev w, k)) ->
  resume_ok σ (Pend ev w) (OSSemPend_resume ev (currentTask (os σ)) w sr p).
Proof.
  intros Hok Ht Hat Hwp Hrd Hev Hni Hw0 HT [k Hd]. unfold resume_ok.
  set (s := os σ) in *. set (t := currentTask s) in *. pose proof Hat as [He Ha].
  pose proof (ok_sems σ l Hok ev e He) as Hse. destruct (task_at_ctx s p t Ht) as (c & Hc & _).
  pose proof (task_at_range s l p t (ok_wf σ l Hok) Ht) as Hpr.
  assert (Z.testbit (sem_OSEventWaitList e) p = true) as Hbit by (unfold waits in Hwp; by rewrite He in Hwp).
  rewrite (OSSemPend_resume_timeout s ev e t w sr p c);
    [|done|done|unfold ttw in HT; by rewrite Hc in HT|done|apply Hse|done|done].
  set (s' := set_PRIMASK sr _).
  assert (same_prios s s') as Hsp by (by apply same_prios_ctx).
  assert (forall ev' q, waits s' ev' q = waits s ev' q && negb (bool_decide (ev' = ev) && bool_decide (p = q)))
    as Hwaits by (intros; apply (waits_leave s s' ev e); done || lia).
  split; [by right|]. split.
  - exists l. apply (sys_ok_update σ l _ _ p); [done|by apply (wf_ext s); [|apply Hok]|done| |done| |done|..].
    + by apply (dispatched_ext s), Hok.
    + apply (sems_aset s s' ev (ev_leave p e)); [done|done| |apply Hok].
      apply (sem_ok_leave s); [|done|done]. apply (ev_ok_ext s); [done|done|].
      by apply ev_ok_leave; [apply Hse|..].
    + cbn. split_and!; [done|done|]. intros ev'. rewrite Hwaits, (bool_decide_true (p = p)), andb_true_r by done.
      destruct (waits s ev' p) eqn:E; [|done]. by rewrite (Hev ev' E), bool_decide_true.
    + intros q u Hu Hne. apply thread_ok_frame; [|by apply (sems_stay_aset s ev e (ev_leave p e))].
      pose proof (other_prio _ _ _ _ _ Ht Hu Hne) as Hpq. split_and!; [done| |done|done].
      intros ev'. by rewrite Hwaits, (bool_decide_false (p = q)), andb_false_r, andb_true_r by done.
  - intros ev' Hcnt. split; [by apply (counting_aset s s' ev e (ev_leave p e))|]. unfold credit.
    rewrite (granted_update σ l _ p); [|done|done|done|].
    + cbn [os]. rewrite (sem_units_aset s s' ev e (ev_leave p e)), granted_by_set by done.
      rewrite (granted_by_doing σ ev' t _ Hd). fold s. rewrite (task_at_prio s p t Ht). cbn [gain].
      change (TIMEOUT =? OK) with false. rewrite andb_false_r. destruct (decide (ev' = ev)) as [->|Hne].
      * rewrite Hwp, Z.eqb_refl. unfold sem_units. rewrite He. cbn. lia.
      * rewrite (proj2 (Z.eqb_neq ev ev')) by done. cbn. lia.
    + intros q Hq. by rewrite Hwaits, (bool_decide_false (p = q)), andb_false_r, andb_true_r by done.
Qed.

Lemma pend_posted_step σ l p ev w sr :
  sys_ok σ l -> task_at (os σ) p (currentTask (os σ)) -> ready (os σ) p = true ->
  (forall ev', waits (os σ) ev' p = false) ->
  currentTask (os σ) ∈ l -> w <> 0 -> ttw (os σ) (currentTask (os σ)) <> EXIT_BY_TIMEOUT ->
  (exists k, doing σ (currentTask (os σ)) = Some (Pend ev w, k)) ->
  resume_ok σ (Pend ev w) (OSSemPend_resume ev (currentTask (os σ)) w sr p).
Proof.
  intros Hok Ht Hrd Hnw Hin Hw0 HT [k Hd]. unfold resume_ok.
  set (s := os σ) in *. set (t := currentTask s) in *. destruct (task_at_ctx s p t Ht) as (c & Hc & _).
  apply list_elem_of_split in Hin as (l1 & l2 & ->).
  destruct (OSSemPend_resume_posted s l1 l2 ev t w sr p c)
    as (s' & Hr & Hw' & Hsp & Hdl & ct & hd & tl & Hf);
    [done|apply Hok|done|unfold ttw in HT; by rewrite Hc in HT|].
  rewrite Hr. assert (NoDup (l1 ++ t :: l2)) as Hnd by apply (wf_delay _ _ (ok_wf σ _ Hok)).
  assert (BRTOS_Sem_Table s' = BRTOS_Sem_Table s) as Hsem by (by rewrite Hf).
  assert (forall q, ready s' q = ready s q) as Hready by (intros; unfold ready; by rewrite Hf).
  apply NoDup_app in Hnd as (_ & Hd12 & [Ht2 _]%NoDup_cons).
  split; [by left|]. split.
  - exists (l1 ++ l2). apply (sys_ok_update σ (l1 ++ t :: l2) _ _ p); [done|done|by rewrite Hf| |done| |done|..].
    + apply (dispatched_ext s); [done|by rewrite Hf..|apply Hok].
    + apply (sems_same s); [done|done|apply Hok].
    + cbn. rewrite Hready. split_and!; [done| |].
      * intros [Hx|Hx]%elem_of_app; [|done]. apply (Hd12 t Hx). set_solver.
      * intros ev'. by rewrite (waits_ext s).
    + intros q u Hu Hne. apply thread_ok_frame; [|by apply sems_stay_refl]. split_and!.
      * done.
      * intros ev'. by apply waits_ext.
      * set_solver.
      * apply (ttw_others t); [done|done|]. destruct Hu as (_ & _ & cu & ? & _). by exists cu.
  - intros ev' Hcnt. split; [by apply (counting_same s)|]. unfold credit.
    rewrite (granted_update σ _ _ p) by (done || intros; by apply waits_ext).
    rewrite granted_by_set, (granted_by_doing σ ev' t _ Hd). cbn [os]. fold s.
    rewrite (sem_units_ext s), (task_at_prio s p t), Hnw by done. cbn.
    change (OK =? OK) with true. destruct (ev =? ev'); cbn; lia.
Qed.

Lemma resume_step σ l c k :
  sys_ok σ l -> doing σ (currentTask (os σ)) = Some (c, k) -> resume_ok σ c k.
Proof.
  intros Hok Hd. destruct (running σ l Hok) as (p & Ht & Hp & Hth & Hrd). rewrite Hd in Hth.
  destruct c as [w|ev w|ev]; cbn in Hth.
  - destruct Hth as ([sr Hk] & Hl & Hnw). unfold resume_ok. rewrite Hk. split; [by left|].
    apply (leave_critical σ l p); [done|done|split_and!; [done|by apply Hl|done]|].
    intros ev. by rewrite (granted_by_doing σ ev _ _ Hd).
  - destruct Hth as ([sr Hk] & [e Hat] & Hev & _ & Hto & Hin & Hout).
    assert (resume_ok σ (Pend ev w) (OSSemPend_resume ev (currentTask (os σ)) w sr p)) as Hres;
      [|unfold resume_ok in *; by rewrite Hk].
    destruct (waits (os σ) ev p) eqn:Hwp.
    + destruct (Hto Hrd eq_refl) as [Hw0 HT].
      apply (pend_timeout_step σ l p ev e w sr); [done..| |done|done|by exists k].
      intros Hx. by destruct (Hin Hx).
    + assert (forall ev', waits (os σ) ev' p = false) as Hnw.
      { intros ev'. destruct (waits (os σ) ev' p) eqn:E; [|done]. rewrite (Hev ev' E) in E. congruence. }
      destruct (decide (currentTask (os σ) ∈ l)) as [Hx|Hx].
      { destruct (Hin Hx) as [Hw0 HT]. by apply (pend_posted_step σ l p ev w sr); [..|by exists k]. }
      assert (OSSemPend_resume ev (currentTask (os σ)) w sr p (os σ) =
              Done OK (set_PRIMASK sr (os σ))) as Hr.
      { destruct (decide (w = 0)) as [->|Hw0]; [apply OSSemPend_resume_untimed|].
        destruct (Hout Hx Hw0) as [_ HT]. destruct (task_at_ctx _ _ _ Ht) as (c & Hc & _).
        apply (OSSemPend_resume_both _ ev e _ w sr p c); [done|done| |apply Hat| |].
        - unfold ttw in HT. by rewrite Hc in HT.
        - by eapply task_at_range; [apply Hok|].
        - destruct Hat as [He _]. unfold waits in Hwp. by rewrite He in Hwp. }
      unfold resume_ok. rewrite Hr. split; [by left|]. apply (leave_critical σ l p); [done|done|done|].
      intros ev'. rewrite (granted_by_doing σ ev' _ _ Hd), Hp, Hnw. cbn.
      change (OK =? OK) with true. by destruct (ev =? ev').
  - destruct Hth as ([sr Hk] & _ & Hl & Hnw). unfold resume_ok. rewrite Hk. split; [by left|].
    apply (leave_critical σ l p); [done|done|by split_and!|].
    intros ev'. by rewrite (granted_by_doing σ ev' _ _ Hd).
Qed.

(** What a tick does to task [u] of priority [q]: [x] tells whether its time is
    up. *)
Lemma thread_ok_tick s s' l l' q u (x : bool) d :
  (x = true -> u ∈ l) -> ready s' q = ready s q || x ->
  (forall ev, waits s' ev q = waits s ev q) -> (u ∈ l' <-> u ∈ l /\ x = false) ->
  ttw s' u = (if x then EXIT_BY_TIMEOUT else ttw s u) -> sems_stay s s' ->
  thread_ok s l q u d -> thread_ok s' l' q u d.
Proof.
  intros Hx Hr Hw Hl HT Hs Hth. destruct x.
  - specialize (Hx eq_refl). rewrite orb_true_r in Hr.
    assert (u ∉ l') as Hnl by (rewrite Hl; by intros [_ ?]).
    destruct d as [[[w|ev w|ev] k]|]; cbn in Hth |- *; rewrite Hr.
    + destruct Hth as (? & _ & Hnw). split_and!; [done..|]. intros ev. by rewrite Hw.
    + destruct Hth as (Hk & Hsem & Hev & _ & _ & Hin & _). destruct (Hin Hx) as [Hw0 _].
      split_and!; [done|by apply Hs| |by left|done|done|done].
      intros ev'. rewrite Hw. apply Hev.
    + by destruct Hth as (_ & _ & ? & _).
    + by destruct Hth as (_ & ? & _).
  - apply (thread_ok_frame s l); [|done|done]. rewrite orb_false_r in Hr.
    split_and!; [done|done|tauto|done].
Qed.

Lemma tick_step σ l :
  sys_ok σ l -> exists s', TickTimer (os σ) = Done tt s' /\ step_ok σ Ticked (mkSys s' (doing σ)).
Proof.
  intros Hok. set (s := os σ) in *. pose proof (ok_wf σ l Hok : wf s l) as Hw.
  destruct (wf_tick_handler s l Hw) as (s1 & Hr & Hw1 & Hsp & _ & Hfr & Hbits & Hctx).
  injection Hfr as Fc Fn _ _ Fs _ _ _ _ _ _.
  destruct (running σ l Hok) as (p0 & Ht0 & _). fold s in Ht0.
  destruct (SwitchContext_lemma s1 _ Hw1) as (t & Hsw & Hw2 & Hdis & Hsp2).
  { rewrite Fn. apply Hok. }
  { rewrite Fc. destruct (task_at_ctx _ _ _ Ht0) as (c & Hc & _).
    destruct (Hctx _ _ Hc) as (c' & ? & _). by exists c'. }
  destruct (switched_frame s1 t) as (Gr & _ & _ & _ & Gn & _ & Gs & _).
  exists (switched t s1). split.
  { unfold TickTimer, bind in Hr |- *. destruct (OSIncCounter s) as [[] s0| |]; [|done|done].
    cbn [rbind] in Hr |- *. rewrite Hr. exact Hsw. }
  set (s' := switched t s1) in *.
  assert (BRTOS_Sem_Table s' = BRTOS_Sem_Table s) as Hsem by (by rewrite Gs, Fs).
  assert (same_prios s s') as Hsp' by (by eapply same_prios_trans).
  split.
  - exists (still_waiting s l). apply (sys_ok_keep σ l); [done|done|by rewrite Gn, Fn|done|done|..].
    + apply (sems_same s); [done|done|apply Hok].
    + intros q u Hu.
      apply (thread_ok_tick s s' l _ q u (bool_decide (u ∈ l) && expired (next_tick s) u)).
      * intros [Hx _]%andb_true_iff. by apply bool_decide_eq_true in Hx.
      * apply eq_iff_eq_true. unfold ready. rewrite Gr, Hbits, orb_true_iff, andb_true_iff, bool_decide_eq_true.
        split; (intros [?|Hx]; [by left|right]).
        -- destruct Hx as (v & Hv & Hev & Hpv). pose proof (wf_delay_live s l Hw v Hv) as Hvt.
           rewrite Hpv in Hvt. by rewrite (task_at_fun s q u v Hu Hvt).
        -- exists u. split_and!; [apply Hx..|by apply task_at_prio].
      * intros ev. by apply waits_ext.
      * unfold still_waiting. rewrite list_elem_of_filter.
        destruct (bool_decide_reflect (u ∈ l)), (expired (next_tick s) u); naive_solver.
      * destruct (task_at_ctx s q u Hu) as (c & Hc & _). destruct (Hctx u c Hc) as (c1 & Hc1 & _ & HT).
        destruct (switched_task s1 t u c1 Hc1) as (c2 & Hc2 & _ & HT2). unfold ttw. unfold s'.
        by rewrite Hc2, Hc, HT2, HT.
      * by apply sems_stay_refl.
  - intros ev Hc. split; [by apply (counting_same s)|]. unfold credit.
    rewrite (granted_same σ l) by (done || intros; by apply waits_ext). cbn [os].
    rewrite (sem_units_ext s) by done. cbn. fold s. lia.
Qed.
End steps.

(** ** Theorems *)
Section theorems.
Context `{C : Config}.
Implicit Types (s : OS) (l : list Z) (p q t u ev w : Z) (tr : list label).

Lemma call_step σ l c :
  ostick_bits < 64 -> sys_ok σ l -> doing σ (currentTask (os σ)) = None ->
  may_call (os σ) c -> call_ok σ c.
Proof.
  intros Hb Hok Hd Hc. destruct c as [w|ev w|ev].
  - by apply (delay_step σ l).
  - by apply (pend_step σ l).
  - apply (post_step σ l); [done|done|apply Hc].
Qed.

Lemma step_keeps σ l lb σ' :
  ostick_bits < 64 -> sys_ok σ l -> sys_step σ lb σ' -> step_ok σ lb σ'.
Proof.
  intros Hb Hok Hst. destruct Hst as [s d c r s' Hd Hc Hr|s d c s' k Hd Hc Hr|s d c k r s' Hd Hr|s d s' Hr].
  - pose proof (call_step _ l c Hb Hok Hd Hc) as H. unfold call_ok in H. cbn [os doing] in H. by rewrite Hr in H.
  - pose proof (call_step _ l c Hb Hok Hd Hc) as H. unfold call_ok in H. cbn [os doing] in H. by rewrite Hr in H.
  - pose proof (resume_step _ l c k Hok Hd) as H. unfold resume_ok in H. cbn [os doing] in H.
    rewrite Hr in H. apply H.
  - destruct (tick_step _ l Hok) as (s1 & Hr1 & H). cbn [os doing] in *. rewrite Hr in Hr1. by injection Hr1 as <-.
Qed.

Lemma gain_balance ev lb : gain ev lb = posts ev lb - takes ev lb.
Proof. destruct lb as [t [w|ev' w|ev'] r|t [w|ev' w|ev']|t [w|ev' w|ev'] r|]; cbn; try case_match; done. Qed.

Lemma total_snoc f tr lb : total f (tr ++ [lb]) = total f tr + f lb.
Proof. unfold total. induction tr as [|x tr IH]; cbn; [|rewrite IH]; lia. Qed.

Lemma runs_ok σ0 l0 tr σ :
  ostick_bits < 64 -> sys_ok σ0 l0 -> runs σ0 tr σ -> exists l, sys_ok σ l.
Proof.
  intros Hb H0. induction 1 as [|σ0 tr σ1 lb σ2 _ IH Hst]; [by exists l0|].
  destruct (IH H0) as [l Hok]. by destruct (step_keeps σ1 l lb σ2 Hb Hok Hst) as [? _].
Qed.

(** The state in which tasks start: every installed task is ready and runs its
    own code, and nobody waits. *)
Lemma start_ok s :
  wf s [] -> iNesting s = 0 -> dispatched s -> (forall p, live s p -> ready s p = true) ->
  (forall ev e, aget (BRTOS_Sem_Table s) ev = Some e -> sem_ok s e /\ sem_OSEventWaitList e = 0) ->
  sys_ok (mkSys s (fun _ => None)) [].
Proof.
  intros Hw Hn Hd Hr Hs. split; cbn; try done.
  - intros ev e He. by apply (Hs ev e).
  - intros p t Ht. split_and!; [apply Hr; by exists t|apply not_elem_of_nil|].
    intros ev. unfold waits. destruct (aget (BRTOS_Sem_Table s) ev) as [e|] eqn:He; [|done].
    destruct (Hs ev e He) as [_ ->]. apply Z.testbit_0_l.
Qed.

(** C1: a system of tasks that delay themselves and share semaphores never
    faults.  Whatever the tasks call and whenever the tick interrupts them, in
    every reachable state the kernel invariant holds, the running task is the
    highest-priority one that can run, the next tick is handled, any permitted
    call of the running task runs without fault, and a task that was suspended
    inside a service and is dispatched again completes the service and returns
    OK or TIMEOUT. *)
Theorem system_never_faults σ0 l0 tr σ :
  ostick_bits < 64 -> sys_ok σ0 l0 -> runs σ0 tr σ ->
  (exists l, wf (os σ) l) /\ dispatched (os σ) /\ (exists s', TickTimer (os σ) = Done tt s') /\
  match doing σ (currentTask (os σ)) with
  | None => forall c, may_call (os σ) c -> run_call c (os σ) <> Fault
  | Some (c, k) => exists r s', k (os σ) = Done r s' /\ (r = OK \/ r = TIMEOUT)
  end.
Proof.
  intros Hb H0 Hr. destruct (runs_ok σ0 l0 tr σ Hb H0 Hr) as [l Hok].
  split_and!; [exists l; apply Hok|apply (ok_dispatched σ l Hok)| |].
  - destruct (tick_step σ l Hok) as (s' & ? & _). by exists s'.
  - destruct (doing σ (currentTask (os σ))) as [[c k]|] eqn:Hd.
    + pose proof (resume_step σ l c k Hok Hd) as H. unfold resume_ok in H.
      destruct (k (os σ)) as [r s'| |]; [|done|done]. exists r, s'. by destruct H.
    + intros c Hc HF. pose proof (call_step σ l c Hb Hok Hd Hc) as H. unfold call_ok in H.
      by rewrite HF in H.
Qed.

(** C3: no wake-up is lost.  In every reachable state a task inside a pend is
    ready to run, or it is on the wait list of its semaphore, the semaphore has
    no unit, and if the pend has a timeout the task is in the delay list, where
    the tick will find it. *)
Theorem system_no_lost_wakeup σ0 l0 tr σ p t ev w k :
  ostick_bits < 64 -> sys_ok σ0 l0 -> runs σ0 tr σ ->
  task_at (os σ) p t -> doing σ t = Some (Pend ev w, k) ->
  exists l, wf (os σ) l /\
    (ready (os σ) p = true \/
     waits (os σ) ev p = true /\ sem_units (os σ) ev = 0 /\ (w <> 0 -> t ∈ l)).
Proof.
  intros Hb H0 Hr Ht Hd. destruct (runs_ok σ0 l0 tr σ Hb H0 Hr) as [l Hok]. exists l.
  split; [apply Hok|]. pose proof (ok_threads σ l Hok p t Ht) as Hth. rewrite Hd in Hth.
  destruct Hth as (_ & [e [He _]] & _ & _ & _ & _ & Hout).
  destruct (ready (os σ) p) eqn:Hrd; [by left|]. right.
  assert (waits (os σ) ev p = true) as Hw.
  { pose proof (ok_threads σ l Hok p t Ht) as Hth. rewrite Hd in Hth.
    destruct Hth as (_ & _ & _ & [?|?] & _); [congruence|done]. }
  split_and!; [done| |].
  - pose proof (ok_sems σ l Hok ev e He) as [Ho Hc Hi _]. unfold sem_units. rewrite He.
    destruct (decide (0 < sem_OSEventCount e)) as [Hp|]; [|lia]. exfalso.
    apply (members_empty (os σ) e Ho) in Hi; [|done].
    assert (p ∈ members (sem_OSEventWaitList e)); [|cbn in Hi; set_solver].
    apply elem_of_members. split; [by eapply task_at_range; [apply Hok|]|].
    unfold waits in Hw. by rewrite He in Hw.
  - intros Hw0. destruct (decide (t ∈ l)) as [|Hx]; [done|]. by destruct (Hout Hx Hw0).
Qed.

(** C2: a counting semaphore neither loses nor invents units.  Over any run, the
    units it had plus the successful posts are the units it has plus the pends
    that returned OK plus the pends that were granted and have not returned
    yet. *)
Theorem system_units_conserved σ0 l0 tr σ ev :
  ostick_bits < 64 -> sys_ok σ0 l0 -> counting (os σ0) ev -> runs σ0 tr σ ->
  sem_units (os σ0) ev + Z.of_nat (size (granted σ0 ev)) + total (posts ev) tr =
  sem_units (os σ) ev + Z.of_nat (size (granted σ ev)) + total (takes ev) tr.
Proof.
  intros Hb H0 Hc Hr.
  assert (counting (os σ) ev /\ credit σ0 ev + total (gain ev) tr = credit σ ev) as [_ Heq].
  { induction Hr as [|σ0 tr σ1 lb σ2 Hr IH Hst]; [split; [done|cbn; lia]|].
    destruct (IH H0 Hc) as [Hc1 H1]. destruct (runs_ok σ0 l0 tr σ1 Hb H0 Hr) as [l Hok].
    destruct (step_keeps σ1 l lb σ2 Hb Hok Hst) as [_ Hbal].
    destruct (Hbal ev Hc1) as [Hc2 H2]. split; [done|]. rewrite total_snoc. lia. }
  unfold credit in Heq. clear - Heq.
  assert (total (gain ev) tr = total (posts ev) tr - total (takes ev) tr) as Hg.
  { clear. unfold total. induction tr as [|lb tr IH]; cbn; [lia|]. rewrite IH, gain_balance. lia. }
  lia.
Qed.
End theorems.

(** ** Examples *)
Section examples.
#[local] Existing Instance sample_config.

(** The sample system with one empty counting semaphore; the task of priority 9
    runs. *)
Definition start : OS :=
  sample_os [0; 5; 9] (2 ^ 0 + 2 ^ 5 + 2 ^ 9) 3 [sample_empty] [] [] [] [] [].
Definition start_sys : sys := mkSys start (fun _ => None).

Lemma start_sys_ok : sys_ok start_sys [].
Proof.
  apply start_ok.
  - by apply wfb_sound.
  - done.
  - exists 9. split_and!; [by apply task_atb_sound|done|].
    intros q Hq [Hr _]. cbn in Hr. rewrite (testbit_high _ 10) in Hr; [done|lia|lia].
  - intros p (t & Hv & _ & c & Hc & _). apply aget_lt in Hc.
    assert (forallb (fun p => match aget (PriorityVector start) p with
              | Some t => (t >? 10) || ready start p | None => true end) (seqZ 0 32) = true) as Hall
      by (by vm_compute).
    rewrite forallb_forall in Hall. specialize (Hall p). rewrite Hv in Hall.
    destruct (t >? 10) eqn:E; [apply Z.gtb_lt in E; change (Z.of_nat (length _)) with 11 in Hc; lia|].
    apply Hall, list_elem_of_In, elem_of_seqZ. apply aget_lt in Hv.
    change (Z.of_nat (length _)) with 32 in Hv. lia.
  - intros ev e He. apply aget_lt in He as Hlt. change (Z.of_nat (length _)) with 1 in Hlt.
    assert (ev = 0) as -> by lia. injection He as <-. split; [|done]. by apply sem_ok_new.
Qed.

(** The task of priority 9 waits for the semaphore, a tick passes, the task of
    priority 5 posts, and the waiter resumes. *)
Definition pended : sys :=
  match run_call (Pend 0 5) start with
  | Yield s k => mkSys s (set_doing 3 (Some (Pend 0 5, k)) (fun _ => None))
  | _ => start_sys
  end.
Definition ticked_once : sys :=
  match TickTimer (os pended) with Done _ s => mkSys s (doing pended) | _ => start_sys end.
Definition posted : sys :=
  match run_call (Post 0) (os ticked_once) with
  | Yield s k => mkSys s (set_doing 2 (Some (Post 0, k)) (doing ticked_once))
  | _ => start_sys
  end.
Definition resumed : sys :=
  match doing posted 3 with
  | Some (_, k) =>
      match k (os posted) with
      | Done _ s => mkSys s (set_doing 3 None (doing posted))
      | _ => start_sys
      end
  | None => start_sys
  end.
Definition sample_trace : list label :=
  [Suspended 3 (Pend 0 5); Ticked; Suspended 2 (Post 0); Resumed 3 (Pend 0 5) OK].

Lemma sample_pended : runs start_sys [Suspended 3 (Pend 0 5)] pended.
Proof.
  apply (runs_snoc _ [] start_sys); [constructor|]. unfold pended.
  destruct (run_call (Pend 0 5) start) as [r s|s k|] eqn:E; [by vm_compute in E| |by vm_compute in E].
  apply (step_suspends start _ (Pend 0 5)); [done| |done].
  split; [done|]. split; [by eexists|]. right. by vm_compute.
Qed.

Lemma sample_ticked : runs start_sys [Suspended 3 (Pend 0 5); Ticked] ticked_once.
Proof.
  apply (runs_snoc _ [_] pended); [apply sample_pended|]. unfold ticked_once.
  destruct (TickTimer (os pended)) as [[] s|s k|] eqn:E; [|by vm_compute in E..].
  rewrite <- (mkSys_eta pended) at 1. by apply step_tick.
Qed.

Lemma sample_posted :
  runs start_sys [Suspended 3 (Pend 0 5); Ticked; Suspended 2 (Post 0)] posted.
Proof.
  apply (runs_snoc _ [_; _] ticked_once); [apply sample_ticked|]. unfold posted.
  destruct (run_call (Post 0) (os ticked_once)) as [r s|s k|] eqn:E;
    [by vm_compute in E| |by vm_compute in E].
  rewrite <- (mkSys_eta ticked_once) at 1.
  apply (step_suspends (os ticked_once) _ (Post 0)); [by vm_compute| |done].
  split; [by vm_compute|]. eexists. split; by vm_compute.
Qed.

Lemma sample_resumed : runs start_sys sample_trace resumed.
Proof.
  apply (runs_snoc _ [_; _; _] posted); [apply sample_posted|]. unfold resumed.
  assert (match doing posted 3 with
          | Some (c, k) => c = Pend 0 5 /\ match k (os posted) with Done r _ => r = OK | _ => False end
          | None => False
          end) as H by (by vm_compute).
  destruct (doing posted 3) as [[c k]|] eqn:E; [|by destruct H]. destruct H as [Hc H].
  destruct (k (os posted)) as [r s|s k'|] eqn:Ek; [|by destruct H..]. clear - E Ek Hc H. subst.
  rewrite <- (mkSys_eta posted) at 1. apply (step_resumes (os posted) _ (Pend 0 5) k); assumption.
Qed.

Lemma system_never_faults_witness :
  (exists l, wf (os posted) l) /\ dispatched (os posted) /\
  (exists s', TickTimer (os posted) = Done tt s') /\
  match doing posted (currentTask (os posted)) with
  | None => forall c, may_call (os posted) c -> run_call c (os posted) <> Fault
  | Some (c, k) => exists r s', k (os posted) = Done r s' /\ (r = OK \/ r = TIMEOUT)
  end.
Proof.
  apply (system_never_faults start_sys [] [Suspended 3 (Pend 0 5); Ticked; Suspended 2 (Post 0)]);
    [by vm_compute|apply start_sys_ok|apply sample_posted].
Defined.

Lemma system_no_lost_wakeup_witness :
  exists l, wf (os ticked_once) l /\
    (ready (os ticked_once) 9 = true \/
     waits (os ticked_once) 0 9 = true /\ sem_units (os ticked_once) 0 = 0 /\ (5 <> 0 -> 3 ∈ l)).
Proof.
  eapply (system_no_lost_wakeup start_sys [] [Suspended 3 (Pend 0 5); Ticked] ticked_once 9 3 0 5);
    [by vm_compute|apply start_sys_ok|apply sample_ticked|apply task_atb_sound; by vm_compute
    |by vm_compute].
Defined.

Lemma system_units_conserved_witness :
  sem_units start 0 + Z.of_nat (size (granted start_sys 0)) + total (posts 0) sample_trace =
  sem_units (os resumed) 0 + Z.of_nat (size (granted resumed 0)) + total (takes 0) sample_trace /\
  total (posts 0) sample_trace = 1.
Proof.
  split; [|by vm_compute].
  apply (system_units_conserved start_sys [] sample_trace resumed 0);
    [by vm_compute|apply start_sys_ok|eexists; split; [split; by vm_compute|by vm_compute]
    |apply sample_resumed].
Defined.
End examples.
