(* ===== verification/Time.v ===== *)
(** * Time of day and calendar (OSTime.c)

    The variables of OSTime.c and its operations.  The reference is the count of
    seconds: a time of day is a number of seconds modulo a day, a calendar value
    the number of seconds since the start of year 0 of the Gregorian calendar. *)

From Stdlib Require Import ZArith Lia.
From stdpp Require Import base gmap numbers list.
From S2P Require Import Prelude.
#[local] Open Scope Z_scope.

(** ** Data *)

Record OSTime := mkTime { RTC_Second : Z; RTC_Minute : Z; RTC_Hour : Z }.
Record OSDate := mkDate { RTC_Day : Z; RTC_Month : Z; RTC_Year : Z }.
Record OS_RTC := mkRTC { Year : Z; Month : Z; Day : Z; Hour : Z; Min : Z; Sec : Z }.

(** The static variables, and the interrupt mask the critical sections use. *)
Record time_vars := mkVars {
  Hora : OSTime; Data : OSDate; OSRtc : OS_RTC; LeapMonth : Z; masked : bool }.

Definition MonthLength : list Z := [0; 31; 28; 31; 30; 31; 30; 31; 31; 30; 31; 30; 31].

(** ** Operations *)

(** [OSEnterCritical] ... [OSExitCritical] restore the mask they found;
    [UserEnterCritical] ... [UserExitCritical] mask and then unmask. *)
Definition critical (f : time_vars -> time_vars) (v : time_vars) : time_vars :=
  let w := f (mkVars (Hora v) (Data v) (OSRtc v) (LeapMonth v) true) in
  mkVars (Hora w) (Data w) (OSRtc w) (LeapMonth w) (masked v).
Definition set_Hora (h : OSTime) (v : time_vars) : time_vars :=
  mkVars h (Data v) (OSRtc v) (LeapMonth v) (masked v).
Definition set_Data (d : OSDate) (v : time_vars) : time_vars :=
  mkVars (Hora v) d (OSRtc v) (LeapMonth v) (masked v).

(** The cascade of [OSUpdateTime]; the flag tells whether the hour wrapped. *)
Definition next_second (h : OSTime) : OSTime * bool :=
  let s := uint8 (RTC_Second h + 1) in
  if s =? 60 then
    let m := uint8 (RTC_Minute h + 1) in
    if m =? 60 then
      let hr := uint8 (RTC_Hour h + 1) in
      if hr =? 24 then (mkTime 0 0 0, true) else (mkTime 0 0 hr, false)
    else (mkTime 0 m (RTC_Hour h), false)
  else (mkTime s (RTC_Minute h) (RTC_Hour h), false).

Definition OSUpdateTime : time_vars -> time_vars :=
  critical (fun v => set_Hora (fst (next_second (Hora v))) v).

Definition OSUpdateUptime : time_vars -> time_vars :=
  critical (fun v =>
    let '(h, wrapped) := next_second (Hora v) in
    let v := set_Hora h v in
    if wrapped : bool then
      set_Data (mkDate (uint8 (RTC_Day (Data v) + 1)) (RTC_Month (Data v)) (RTC_Year (Data v))) v
    else v).

Definition OSUpdateDate : time_vars -> time_vars :=
  critical (fun v =>
    let d := Data v in
    let day := uint8 (RTC_Day d + 1) in
    set_Data
      (if day =? 30 then
         let month := uint8 (RTC_Month d + 1) in
         if month =? 12 then
           let year := uint16 (RTC_Year d + 1) in
           mkDate 0 0 (if year =? 9999 then 0 else year)
         else mkDate 0 month (RTC_Year d)
       else mkDate day (RTC_Month d) (RTC_Year d)) v).

Definition OSResetTime : time_vars -> time_vars := critical (set_Hora (mkTime 0 0 0)).
Definition OSResetDate : time_vars -> time_vars := critical (set_Data (mkDate 0 0 0)).
Definition OSUptime (v : time_vars) : OSTime := Hora v.
Definition OSUpDate (v : time_vars) : OSDate := Data v.

(** The nested tests of [OSUpdateCalendar] that set [LeapMonth]. *)
Definition leap_month (month year : Z) : Z :=
  if month =? 2 then
    if Z.land year 3 =? 0 then
      if year mod 100 =? 0 then if year mod 400 =? 0 then 1 else 0
      else 1
    else 0
  else 0.

(** [None] is the access outside [MonthLength]. *)
Definition OSUpdateCalendar (v : time_vars) : option time_vars :=
  let r := OSRtc v in
  let upd r leap := Some (mkVars (Hora v) (Data v) r leap (masked v)) in
  let sec := uint8 (Sec r + 1) in
  if sec =? 60 then
    let min := uint8 (Min r + 1) in
    if min >? 59 then
      let hour := uint8 (Hour r + 1) in
      if hour >? 23 then
        let day := uint8 (Day r + 1) in
        let leap := leap_month (Month r) (Year r) in
        match aget MonthLength (Month r) with
        | Some n =>
            if day >? n + leap then
              let month := uint8 (Month r + 1) in
              if month >? 12 then upd (mkRTC (uint16 (Year r + 1)) 1 1 0 0 0) leap
              else upd (mkRTC (Year r) month 1 0 0 0) leap
            else upd (mkRTC (Year r) (Month r) day 0 0 0) leap
        | None => None
        end
      else upd (mkRTC (Year r) (Month r) (Day r) hour 0 0) (LeapMonth v)
    else upd (mkRTC (Year r) (Month r) (Day r) (Hour r) min 0) (LeapMonth v)
  else upd (mkRTC (Year r) (Month r) (Day r) (Hour r) (Min r) sec) (LeapMonth v).

Definition GetCalendar (v : time_vars) : OS_RTC * time_vars :=
  (OSRtc v, mkVars (Hora v) (Data v) (OSRtc v) (LeapMonth v) false).
Definition SetCalendar (rtc : OS_RTC) (v : time_vars) : time_vars :=
  mkVars (Hora v) (Data v) rtc (LeapMonth v) false.
Definition Init_Calendar : time_vars -> time_vars := SetCalendar (mkRTC 2011 3 28 9 0 30).

(** ** The reference calendar *)

Definition leap_year (y : Z) : bool :=
  (y mod 4 =? 0) && (negb (y mod 100 =? 0) || (y mod 400 =? 0)).
Definition days_in_month (y m : Z) : Z :=
  if m =? 2 then (if leap_year y then 29 else 28)
  else if bool_decide (m ∈ [4; 6; 9; 11]) then 30 else 31.

(** The days of the years before [y], and of the months of [y] before [m]. *)
Definition days_before_year (y : Z) : Z :=
  foldr (fun i n => (if leap_year i then 366 else 365) + n) 0 (seqZ 0 y).
Definition days_before_month (y m : Z) : Z :=
  foldr (fun i n => days_in_month y i + n) 0 (seqZ 1 (m - 1)).

Definition valid_rtc (r : OS_RTC) : Prop :=
  0 <= Year r < 65536 /\ 1 <= Month r <= 12 /\
  1 <= Day r <= days_in_month (Year r) (Month r) /\
  0 <= Hour r < 24 /\ 0 <= Min r < 60 /\ 0 <= Sec r < 60.

Definition seconds_of (r : OS_RTC) : Z :=
  let days := days_before_year (Year r) + days_before_month (Year r) (Month r) + (Day r - 1) in
  ((days * 24 + Hour r) * 60 + Min r) * 60 + Sec r.

Definition valid_time (h : OSTime) : Prop :=
  0 <= RTC_Hour h < 24 /\ 0 <= RTC_Minute h < 60 /\ 0 <= RTC_Second h < 60.
Definition tod (h : OSTime) : Z := (RTC_Hour h * 60 + RTC_Minute h) * 60 + RTC_Second h.

(** ** Lemmas *)

Lemma foldr_sum_snoc (f : Z -> Z) l x :
  foldr (fun i n => f i + n) 0 (l ++ [x]) = foldr (fun i n => f i + n) 0 l + f x.
Proof. induction l as [|y l IH]; cbn; [|rewrite IH]; lia. Qed.

Lemma seqZ_snoc a n : 0 <= n -> seqZ a (n + 1) = seqZ a n ++ [a + n].
Proof. intros Hn. rewrite seqZ_app by lia. done. Qed.

Lemma days_before_year_next y :
  0 <= y -> days_before_year (y + 1) = days_before_year y + (if leap_year y then 366 else 365).
Proof.
  intros Hy. unfold days_before_year. rewrite seqZ_snoc by lia.
  by rewrite (foldr_sum_snoc (fun i => if leap_year i then 366 else 365)).
Qed.

Lemma days_before_month_next y m :
  1 <= m -> days_before_month y (m + 1) = days_before_month y m + days_in_month y m.
Proof.
  intros Hm. unfold days_before_month. replace (m + 1 - 1) with (m - 1 + 1) by lia.
  rewrite seqZ_snoc by lia. rewrite (foldr_sum_snoc (days_in_month y)).
  by replace (1 + (m - 1)) with m by lia.
Qed.

Lemma days_before_month_13 y : days_before_month y 13 = if leap_year y then 366 else 365.
Proof.
  change 13 with (1 + 1 + 1 + 1 + 1 + 1 + 1 + 1 + 1 + 1 + 1 + 1 + 1).
  rewrite !days_before_month_next by lia. unfold days_in_month. by destruct (leap_year y).
Qed.

Lemma month_cases m : 1 <= m <= 12 ->
  m = 1 \/ m = 2 \/ m = 3 \/ m = 4 \/ m = 5 \/ m = 6 \/ m = 7 \/ m = 8 \/ m = 9 \/ m = 10 \/
  m = 11 \/ m = 12.
Proof. lia. Qed.

(** The table and [LeapMonth] give the length of the month. *)
Lemma month_length y m :
  1 <= m <= 12 ->
  exists n, aget MonthLength m = Some n /\ n + leap_month m y = days_in_month y m.
Proof.
  intros Hm. unfold leap_month.
  replace (Z.land y 3) with (y mod 4) by (change 3 with (Z.ones 2); by rewrite Z.land_ones).
  assert (m = 2 \/ m <> 2) as [->|Hne] by lia.
  - exists 28. split; [done|]. unfold days_in_month, leap_year. cbn.
    change (2 =? 2) with true. cbn.
    destruct (y mod 4 =? 0), (y mod 100 =? 0), (y mod 400 =? 0); done.
  - apply month_cases in Hm. unfold days_in_month. rewrite (proj2 (Z.eqb_neq m 2) Hne).
    repeat (destruct Hm as [->|Hm]; [done || (eexists; split; reflexivity)|]).
    subst. eexists. split; reflexivity.
Qed.

Lemma days_in_month_range y m : 28 <= days_in_month y m <= 31.
Proof. unfold days_in_month. repeat case_match; lia. Qed.

Lemma next_second_spec h :
  valid_time h ->
  valid_time (fst (next_second h)) /\
  tod (fst (next_second h)) = (tod h + 1) mod 86400 /\
  snd (next_second h) = (tod h =? 86399).
Proof.
  destruct h as [s m hr]. unfold valid_time, next_second, tod. cbn. intros (Hh & Hm & Hs).
  rewrite !uint8_small by lia.
  destruct (s + 1 =? 60) eqn:E1; to_prop;
    [destruct (m + 1 =? 60) eqn:E2; to_prop; [destruct (hr + 1 =? 24) eqn:E3; to_prop|]|]; cbn.
  - replace hr with 23 by lia. replace m with 59 by lia. replace s with 59 by lia. split_and!; (done || lia).
  - rewrite Z.mod_small, (proj2 (Z.eqb_neq _ 86399)) by lia. split_and!; done || lia.
  - rewrite Z.mod_small, (proj2 (Z.eqb_neq _ 86399)) by lia. split_and!; done || lia.
  - rewrite Z.mod_small, (proj2 (Z.eqb_neq _ 86399)) by lia. split_and!; done || lia.
Qed.

Lemma calendar_second v :
  valid_rtc (OSRtc v) -> Year (OSRtc v) < 65535 ->
  exists v', OSUpdateCalendar v = Some v' /\ valid_rtc (OSRtc v') /\
    seconds_of (OSRtc v') = seconds_of (OSRtc v) + 1 /\
    Hora v' = Hora v /\ Data v' = Data v /\ masked v' = masked v.
Proof.
  destruct v as [h dt [y m d hr mi s] lm mk]. unfold valid_rtc, OSUpdateCalendar, seconds_of.
  cbn. intros (Hy & Hm & Hd & Hh & Hmi & Hs) Hy2.
  pose proof (days_in_month_range y m) as Hdr. rewrite !uint8_small, uint16_small by lia.
  destruct (s + 1 =? 60) eqn:E1; to_prop;
    [|by eexists; split_and!; [done|cbn; lia..|done|done|done]].
  destruct (mi + 1 >? 59) eqn:E2; to_prop;
    [|by eexists; split_and!; [done|cbn; lia..|done|done|done]].
  destruct (hr + 1 >? 23) eqn:E3; to_prop;
    [|by eexists; split_and!; [done|cbn; lia..|done|done|done]].
  destruct (month_length y m Hm) as (n & Hn & Hlen). rewrite Hn, Hlen.
  destruct (d + 1 >? days_in_month y m) eqn:E4; to_prop;
    [|by eexists; split_and!; [done|cbn; lia..|done|done|done]].
  pose proof (days_before_month_next y m) as Hnext.
  destruct (m + 1 >? 12) eqn:E5; to_prop; eexists; (split; [done|]); cbn.
  - assert (m = 12) as -> by lia. pose proof (days_before_month_13 y) as H13.
    change 13 with (12 + 1) in H13. rewrite Hnext in H13 by lia.
    pose proof (days_before_year_next y). pose proof (days_in_month_range (y + 1) 1).
    change (days_before_month (y + 1) 1) with 0. split_and!; try done; lia.
  - pose proof (days_in_month_range y (m + 1)). rewrite Hnext by lia. split_and!; try done; lia.
Qed.

(** [n] calls of [OSUpdateCalendar]. *)
Fixpoint calendar_after (n : nat) (v : time_vars) : option time_vars :=
  match n with
  | O => Some v
  | S n' => match calendar_after n' v with Some w => OSUpdateCalendar w | None => None end
  end.

Lemma days_before_year_mono y : 0 <= y <= 65535 -> forall r, valid_rtc r -> y <= Year r ->
  days_before_year y * 86400 <= seconds_of r.
Proof.
  intros Hy r (Hyr & Hm & Hd & Hh & Hmi & Hs) Hle.
  assert (forall k, (0 <= k)%Z -> days_before_year y <= days_before_year (y + k)) as Hmono.
  { intros k. revert k. apply (natlike_ind (fun k => _ <= days_before_year (y + k))).
    - rewrite Z.add_0_r. lia.
    - intros k Hk IH. replace (y + Z.succ k) with (y + k + 1) by lia.
      rewrite days_before_year_next by lia. destruct (leap_year (y + k)); lia. }
  specialize (Hmono (Year r - y)). replace (y + (Year r - y)) with (Year r) in Hmono by lia.
  assert (0 <= days_before_month (Year r) (Month r)).
  { unfold days_before_month. induction (seqZ 1 (Month r - 1)) as [|i l IH]; cbn; [lia|].
    pose proof (days_in_month_range (Year r) i). lia. }
  unfold seconds_of. lia.
Qed.

(** ** Theorems *)

(** C28: the calendar is a correct Gregorian clock.  From any valid date and time,
    after [n] calls of [OSUpdateCalendar] (as long as a year [y] up to 65535 is
    not reached, the year counter having 16 bits)
    the calendar shows a valid date and time, exactly [n] seconds later: month
    lengths, leap years and centuries included, and the table of month lengths
    is never read out of its bounds. *)
Theorem calendar_counts_seconds v n y :
  valid_rtc (OSRtc v) -> 0 <= y <= 65535 ->
  seconds_of (OSRtc v) + Z.of_nat n <= days_before_year y * 86400 ->
  exists v', calendar_after n v = Some v' /\ valid_rtc (OSRtc v') /\
    seconds_of (OSRtc v') = seconds_of (OSRtc v) + Z.of_nat n.
Proof.
  intros Hv Hb. induction n as [|n IH]; intros Hn.
  - exists v. split_and!; [done|done|lia].
  - destruct IH as (w & Hw & Hvw & Hs); [lia|]. cbn [calendar_after]. rewrite Hw.
    assert (Year (OSRtc w) < 65535) as Hy.
    { destruct (decide (y <= Year (OSRtc w))) as [Hle|]; [|lia].
      pose proof (days_before_year_mono y ltac:(lia) (OSRtc w) Hvw Hle). lia. }
    destruct (calendar_second w Hvw Hy) as (v' & Hv' & Hvv & Hs' & _).
    exists v'. split_and!; [done|done|lia].
Qed.

(** The uptime counts seconds.  After a reset, [n] calls of [OSUpdateUptime]
    leave a day, hour, minute and second that together are [n] seconds, modulo
    the 256 days the day counter can hold. *)
Theorem uptime_counts_seconds v n :
  let v' := Nat.iter n OSUpdateUptime (OSResetDate (OSResetTime v)) in
  valid_time (Hora v') /\ 0 <= RTC_Day (Data v') < 256 /\ masked v' = masked v /\
  RTC_Day (Data v') * 86400 + tod (Hora v') = Z.of_nat n mod (256 * 86400).
Proof.
  intros v'. unfold v'. clear v'. induction n as [|n IH].
  { cbn. split_and!; try done; unfold valid_time; cbn; lia. }
  rewrite Nat.iter_succ. set (w := Nat.iter n _ _) in *. clearbody w.
  destruct IH as (Hvt & Hd & Hmk & Hsum).
  destruct (next_second_spec (Hora w) Hvt) as (Hv' & Ht & Hwr).
  unfold OSUpdateUptime, critical. cbn. destruct (next_second (Hora w)) as [h wrapped]. cbn in *.
  subst wrapped. rewrite Nat2Z.inj_succ, <- Z.add_1_r, <- Zplus_mod_idemp_l, <- Hsum.
  assert (0 <= tod (Hora w) < 86400) as Hr by (unfold tod; destruct Hvt as (? & ? & ?); lia).
  destruct (tod (Hora w) =? 86399) eqn:E; to_prop; cbn.
  - rewrite E in Ht |- *. change ((86399 + 1) mod 86400) with 0 in Ht. rewrite Ht.
    destruct (decide (RTC_Day (Data w) = 255)) as [E2|E2].
    + rewrite E2. unfold uint8, uint. split_and!; done.
    + rewrite uint8_small by lia. split_and!; [done|lia|lia|done|]. rewrite Z.mod_small; lia.
  - rewrite Z.mod_small in Ht by lia. rewrite Ht. split_and!; [done|lia|lia|done|].
    rewrite Z.mod_small; lia.
Qed.

(** ** Examples *)

(** The last second of February 28th of a century that is a leap year. *)
Definition leap_eve : time_vars :=
  mkVars (mkTime 0 0 0) (mkDate 0 0 0) (mkRTC 2000 2 28 23 59 59) 0 false.

#[local] Opaque days_before_year.

Lemma calendar_counts_seconds_witness :
  exists v', calendar_after 2 leap_eve = Some v' /\ valid_rtc (OSRtc v') /\
    seconds_of (OSRtc v') = seconds_of (OSRtc leap_eve) + 2 /\ OSRtc v' = mkRTC 2000 2 29 0 0 1.
Proof.
  destruct (calendar_counts_seconds leap_eve 2 2001) as (v' & Hr & Hv & Hs).
  - unfold valid_rtc. cbn. change (days_in_month 2000 2) with 29. lia.
  - lia.
  - unfold seconds_of. cbn [leap_eve OSRtc Year Month Day Hour Min Sec].
    pose proof (days_before_year_next 2000 ltac:(lia)) as Hn.
    change (days_before_month 2000 2) with 31. change (leap_year 2000) with true in Hn.
    change (2000 + 1) with 2001 in Hn. cbn beta iota in Hn. lia.
  - exists v'. split_and!; [done|done|done|]. cbn in Hr. by injection Hr as <-.
Defined.
