(* ===== verification/Text.v ===== *)
(** * Text in the caller's buffer

    The string routines of brtos/OSInfo.c: copying a C string, printing a decimal
    number, and the writing of text through a pointer into the caller's buffer.
    A buffer is a list of bytes and a pointer into it an offset; writing or
    reading outside it is [None]. *)

From Stdlib Require Import ZArith Lia Ascii String.
From stdpp Require Import base gmap numbers list.
From S2P Require Import Prelude.
#[local] Open Scope Z_scope.

(** ** The code *)

(** The bytes of a string literal; as a C string it ends in a NUL. *)
Definition lit (s : string) : list Z :=
  map (fun a => Z.of_N (N_of_ascii a)) (list_ascii_of_string s).
Definition cstr (xs : list Z) : list Z := xs ++ [0].
(** The line end [\n\r] of the reports. *)
Definition nl : list Z := [10; 13].

(** [buff[i] = c] *)
Definition put (buff : list Z) (i : nat) (c : Z) : option (list Z) :=
  _ ← buff !! i; Some (<[i := c]> buff).

(** A pointer into a buffer, and [*string++ = c]. *)
Definition text : Type := list Z * nat.
Definition putc (c : Z) (t : text) : option text :=
  buf ← put (fst t) (snd t) c; Some (buf, S (snd t)).

(** [mem_cpy]: copies up to the NUL, which it does not copy; [src] is the memory
    from the source pointer on.  The result is the destination and the number of
    bytes copied. *)
Fixpoint mem_cpy (dst : list Z) (d : nat) (src : list Z) (i : nat) : option (list Z * nat) :=
  match src with
  | [] => None
  | c :: src' =>
      if c =? 0 then Some (dst, i)
      else dst ← put dst d c; mem_cpy dst (S d) src' (S i)
  end.

(** [string += mem_cpy(string, src)] *)
Definition append (src : list Z) (t : text) : option text :=
  '(dst, n) ← mem_cpy (fst t) (snd t) src 0; Some (dst, (snd t + n)%nat).

(** [for(count=0;count<n;count++) *string++ = ' '] *)
Fixpoint spaces (n : nat) (t : text) : option text :=
  match n with
  | O => Some t
  | S n' => t ← putc 32 t; spaces n' t
  end.

(** A store into a signed 16-bit object. *)
Definition int16 (x : Z) : Z := (x + 2 ^ 15) mod 2 ^ 16 - 2 ^ 15.

(** The first loop of [PrintDecimal]. *)
Fixpoint fill (n i : nat) (buff : list Z) : option (list Z) :=
  match n with
  | O => Some buff
  | S n' => buff ← put buff i 32; fill n' (S i) buff
  end.

(** The loop [for (i = 5; i > 0;)]. *)
Fixpoint decimal_loop (i : nat) (val : Z) (buff : list Z) : option (list Z * nat) :=
  match i with
  | O => Some (buff, O)
  | S i' =>
      let backup := uint16 val in
      let val := int16 (Z.quot val 10) in
      buff ← put buff i (uint8 (backup - val * 10 + 48));
      if val =? 0 then Some (buff, i') else decimal_loop i' val buff
  end.

(** [PrintDecimal]; the result is the buffer and the offset returned. *)
Definition PrintDecimal (val : Z) (buff : list Z) : option (list Z * nat) :=
  buff ← fill 6 0 buff;
  buff ← put buff 6 0;
  let '(val, s) := if val <? 0 then (int16 (- val), 45) else (val, 32) in
  '(buff, i) ← decimal_loop 5 val buff;
  buff ← put buff i s;
  c ← buff !! i;
  Some (buff, if c =? 45 then i else S i).

(** ** Overlaying a buffer *)

(** [buf] with [x] from offset [p] on. *)
Definition overlay (buf : list Z) (p : nat) (x : list Z) : list Z :=
  take p buf ++ x ++ drop (p + length x) buf.
#[global] Arguments overlay : simpl never.

Lemma length_overlay buf p x : (p + length x <= length buf)%nat -> length (overlay buf p x) = length buf.
Proof. intros. unfold overlay. rewrite !length_app, length_take, length_drop. lia. Qed.

Lemma overlay_nil buf p : overlay buf p [] = buf.
Proof. unfold overlay. cbn. by rewrite Nat.add_0_r, take_drop. Qed.

Lemma overlay_app buf p x y :
  (p + length x + length y <= length buf)%nat ->
  overlay (overlay buf p x) (p + length x) y = overlay buf p (x ++ y).
Proof.
  intros Hl. unfold overlay. rewrite length_app.
  assert (length (take p buf ++ x) = p + length x)%nat as Hp by (rewrite length_app, length_take; lia).
  rewrite (app_assoc (take p buf) x (drop _ buf)), take_app_length' by done.
  rewrite drop_app_ge, Hp, drop_drop by lia. rewrite <- !app_assoc. do 4 f_equal. lia.
Qed.

Lemma insert_overlay buf p c : (p < length buf)%nat -> <[p := c]> buf = overlay buf p [c].
Proof.
  intros Hp. unfold overlay. rewrite insert_take_drop by done. do 3 f_equal. cbn. lia.
Qed.

Lemma put_overlay buf p c : (p < length buf)%nat -> put buf p c = Some (overlay buf p [c]).
Proof.
  intros Hp. unfold put. destruct (lookup_lt_is_Some_2 buf p Hp) as [x ->]. cbn.
  by rewrite insert_overlay.
Qed.

(** ** What a writer emits *)

(** [f] writes [x] at the pointer and moves the pointer past it. *)
Definition emits (f : text -> option text) (x : list Z) : Prop :=
  forall buf pos, (pos + length x <= length buf)%nat ->
    f (buf, pos) = Some (overlay buf pos x, (pos + length x)%nat).

Lemma emits_putc c : emits (putc c) [c].
Proof.
  intros buf pos H. cbn in H. unfold putc. cbn. rewrite put_overlay by lia. cbn. by rewrite Nat.add_1_r.
Qed.

Lemma emits_bind f g x y : emits f x -> emits g y -> emits (fun t => f t ≫= g) (x ++ y).
Proof.
  intros Hf Hg buf pos H. rewrite length_app in H. rewrite Hf by lia. cbn.
  rewrite Hg by (rewrite length_overlay; lia). rewrite overlay_app, length_app by lia. do 2 f_equal. lia.
Qed.

Lemma emits_nil : emits Some [].
Proof. intros buf pos _. by rewrite overlay_nil, Nat.add_0_r. Qed.

Lemma mem_cpy_eq x rest : forall dst d i,
  Forall (fun c => c <> 0) x -> (d + length x <= length dst)%nat ->
  mem_cpy dst d (x ++ 0 :: rest) i = Some (overlay dst d x, (i + length x)%nat).
Proof.
  induction x as [|c x IH]; intros dst d i Hx Hl; cbn.
  - by rewrite overlay_nil, Nat.add_0_r.
  - apply Forall_cons in Hx as [Hc Hx]. rewrite (proj2 (Z.eqb_neq _ _) Hc). cbn in Hl.
    rewrite put_overlay by lia. cbn. rewrite IH by (done || rewrite length_overlay; cbn; lia).
    replace (S d) with (d + length [c])%nat by (cbn; lia).
    rewrite overlay_app by (cbn; lia). cbn. do 2 f_equal. lia.
Qed.

Lemma emits_append x rest : Forall (fun c => c <> 0) x -> emits (append (x ++ 0 :: rest)) x.
Proof. intros Hx buf pos H. unfold append. cbn. by rewrite mem_cpy_eq. Qed.

Lemma emits_spaces n : emits (spaces n) (replicate n 32).
Proof.
  induction n as [|n IH]; [apply emits_nil|]. cbn [spaces replicate].
  change (32 :: replicate n 32) with ([32] ++ replicate n 32). by apply emits_bind; [apply emits_putc|].
Qed.

(** ** Decimal numbers *)

(** The decimal digits of [n], at most [k] of them. *)
Fixpoint decimal_f (k : nat) (n : Z) : list Z :=
  match k with
  | O => []
  | S k' => if n <? 10 then [48 + n] else decimal_f k' (n / 10) ++ [48 + n mod 10]
  end.
Definition decimal : Z -> list Z := decimal_f 20.
Arguments decimal : simpl never.

(** The number a text of decimal digits, with an optional minus sign, denotes. *)
Definition parse (ds : list Z) : Z := fold_left (fun a c => 10 * a + (c - 48)) ds 0.
Definition atoi (t : list Z) : Z :=
  match t with
  | 45 :: ds => - parse ds
  | ds => parse ds
  end.

Lemma decimal_f_S k n : 0 <= n < 10 ^ Z.of_nat k -> (0 < k)%nat -> decimal_f (S k) n = decimal_f k n.
Proof.
  revert n. induction k as [|k IH]; intros n Hn Hk; [lia|].
  cbn [decimal_f]. destruct (n <? 10) eqn:E; [done|]. to_prop.
  destruct k as [|k]; [cbn in Hn; lia|].
  rewrite Nat2Z.inj_succ, Z.pow_succ_r in Hn by lia. f_equal. apply IH; [|lia].
  split; [apply Z.div_pos; lia|apply Z.div_lt_upper_bound; lia].
Qed.

Lemma decimal_f_eq k n :
  0 <= n < 10 ^ Z.of_nat k -> (0 < k <= 20)%nat -> decimal_f k n = decimal n.
Proof.
  intros Hn Hk. unfold decimal.
  assert (forall j, decimal_f (j + k) n = decimal_f k n) as H.
  { induction j as [|j IH]; [done|]. rewrite <- IH. cbn [Nat.add]. apply decimal_f_S; [|lia].
    split; [lia|]. eapply Z.lt_le_trans; [apply Hn|]. apply Z.pow_le_mono_r; lia. }
  rewrite <- (H (20 - k)%nat). f_equal. lia.
Qed.

Lemma decimal_f_length k n : (length (decimal_f k n) <= k)%nat.
Proof.
  revert n. induction k as [|k IH]; intros n; cbn; [done|].
  destruct (n <? 10); cbn; [lia|]. rewrite length_app. cbn. specialize (IH (n / 10)). lia.
Qed.

Lemma decimal_length n k :
  0 <= n < 10 ^ Z.of_nat k -> (0 < k <= 20)%nat -> (1 <= length (decimal n) <= k)%nat.
Proof.
  intros Hn Hk. rewrite <- (decimal_f_eq k) by done. split; [|apply decimal_f_length].
  destruct k; [lia|]. cbn. destruct (n <? 10); [done|]. rewrite length_app. cbn. lia.
Qed.

Lemma decimal_f_digits k n : 0 <= n -> Forall (fun c => 48 <= c < 58) (decimal_f k n).
Proof.
  revert n. induction k as [|k IH]; intros n Hn; cbn; [done|].
  destruct (n <? 10) eqn:E; to_prop; [constructor; [lia|done]|].
  apply Forall_app. split; [apply IH, Z.div_pos; lia|].
  constructor; [|done]. pose proof (Z.mod_pos_bound n 10). lia.
Qed.

Lemma decimal_digits n : 0 <= n -> Forall (fun c => 48 <= c < 58) (decimal n).
Proof. apply decimal_f_digits. Qed.

Lemma parse_decimal k n : 0 <= n < 10 ^ Z.of_nat k -> parse (decimal_f k n) = n.
Proof.
  unfold parse. revert n. induction k as [|k IH]; intros n Hn; cbn [decimal_f].
  - change (10 ^ Z.of_nat 0) with 1 in Hn. cbn. lia.
  - rewrite Nat2Z.inj_succ, Z.pow_succ_r in Hn by lia. destruct (n <? 10) eqn:E; [cbn; lia|]. to_prop.
    rewrite fold_left_app, IH by (split; [apply Z.div_pos; lia|apply Z.div_lt_upper_bound; lia]).
    cbn. pose proof (Z.div_mod n 10). lia.
Qed.

(** ** [PrintDecimal] *)

Lemma overlay_split pre mid post x :
  length mid = length x -> overlay (pre ++ mid ++ post) (length pre) x = pre ++ x ++ post.
Proof.
  intros Hl. unfold overlay. rewrite take_app_length, <- Hl.
  rewrite (app_assoc pre mid post), <- length_app, drop_app_length. done.
Qed.

(** Changing a part of what was written. *)
Lemma overlay_inside buf p a b b' c :
  length b = length b' -> (p + length (a ++ b ++ c) <= length buf)%nat ->
  overlay (overlay buf p (a ++ b ++ c)) (p + length a) b' = overlay buf p (a ++ b' ++ c).
Proof.
  intros Hb Hl.
  assert (length (take p buf ++ a) = p + length a)%nat as Hp
    by (rewrite !length_app in *; rewrite length_take; lia).
  rewrite <- Hp. unfold overlay at 2. rewrite <- !app_assoc.
  rewrite (app_assoc (take p buf) a), overlay_split by done.
  unfold overlay. rewrite !length_app, Hb, <- !app_assoc. done.
Qed.

Lemma fill_eq n : forall i buff,
  (i + n <= length buff)%nat -> fill n i buff = Some (overlay buff i (replicate n 32)).
Proof.
  induction n as [|n IH]; intros i buff Hl; cbn [fill replicate].
  - by rewrite overlay_nil.
  - rewrite put_overlay by lia. cbn. rewrite IH by (rewrite length_overlay; cbn; lia).
    replace (S i) with (i + length [32])%nat by (cbn; lia).
    rewrite overlay_app by (cbn; rewrite ?length_replicate; lia). done.
Qed.

Lemma int16_small x : - 2 ^ 15 <= x < 2 ^ 15 -> int16 x = x.
Proof. intros. unfold int16. rewrite Z.mod_small by lia. lia. Qed.

(** The loop writes the digits right-aligned at slot [i]; [post] is what follows. *)
Lemma decimal_loop_eq i : forall val pre post,
  (0 < i)%nat -> 0 <= val < 10 ^ Z.of_nat i -> val < 2 ^ 15 -> length pre = S i ->
  let D := decimal_f i val in
  decimal_loop i val (pre ++ post) =
    Some (take (S i - length D) pre ++ D ++ post, (i - length D)%nat).
Proof.
  induction i as [|i IH]; intros val pre post Hi Hv Hv15 Hpre; [lia|].
  destruct (rev pre) as [|x pre'] eqn:Erev; [by apply (f_equal (@length Z)) in Erev; rewrite length_rev in Erev; cbn in *; lia|].
  assert (pre = rev pre' ++ [x]) as -> by (by rewrite <- (rev_involutive pre), Erev).
  set (p := rev pre') in *. rewrite length_app in Hpre. cbn [length] in Hpre.
  assert (length p = S i) as Hp by lia.
  cbn [decimal_loop decimal_f]. rewrite Z.quot_div_nonneg by lia.
  pose proof (Z.div_mod val 10). pose proof (Z.mod_pos_bound val 10).
  rewrite int16_small, uint16_small by lia.
  rewrite uint8_small by lia. replace (val - val / 10 * 10 + 48) with (48 + val mod 10) by lia.
  assert (put ((p ++ [x]) ++ post) (S i) (48 + val mod 10) = Some (p ++ [48 + val mod 10] ++ post)) as ->.
  { rewrite put_overlay by (rewrite !length_app; cbn; lia). rewrite <- app_assoc, <- Hp. by rewrite overlay_split. }
  cbn [mbind option_bind].
  destruct (val <? 10) eqn:E; to_prop.
  - assert (val / 10 = 0) as -> by (apply Z.div_small; lia). rewrite Z.eqb_refl, Z.mod_small by lia.
    cbn [length]. replace (S (S i) - 1)%nat with (length p) by lia. rewrite take_app_length.
    do 2 f_equal. lia.
  - assert ((val / 10 =? 0) = false) as -> by (apply Z.eqb_neq; lia).
    rewrite Nat2Z.inj_succ, Z.pow_succ_r in Hv by lia.
    destruct i as [|i]; [change (10 ^ Z.of_nat 0) with 1 in Hv; lia|].
    rewrite IH; [|lia|lia|lia|done].
    pose proof (decimal_f_length (S i) (val / 10)).
    rewrite length_app. cbn [length].
    rewrite <- app_assoc. do 2 f_equal; [|lia].
    rewrite take_app_le by lia. do 2 f_equal. lia.
Qed.

(** The text [PrintDecimal] produces. *)
Definition sign (val : Z) : Z := if val <? 0 then 45 else 32.
Definition signed_decimal (val : Z) : list Z :=
  if val <? 0 then 45 :: decimal (- val) else decimal val.

(** The seven bytes it writes: spaces, the sign, the digits and the NUL. *)
Definition printed (val : Z) : list Z :=
  replicate (5 - length (decimal (Z.abs val))) 32 ++ [sign val] ++ decimal (Z.abs val).

Lemma decimal_int16 val : - 2 ^ 15 < val < 2 ^ 15 -> (1 <= length (decimal (Z.abs val)) <= 5)%nat.
Proof. intros. apply decimal_length; lia. Qed.

Lemma length_printed val : - 2 ^ 15 < val < 2 ^ 15 -> length (printed val) = 6%nat.
Proof.
  intros H. pose proof (decimal_int16 val H). unfold printed.
  rewrite !length_app, length_replicate. cbn. lia.
Qed.

(** Where the number starts in the buffer. *)
Definition number_at (val : Z) : nat :=
  if val <? 0 then 5 - length (decimal (Z.abs val)) else 6 - length (decimal (Z.abs val)).

Lemma PrintDecimal_eq val buff :
  - 2 ^ 15 < val < 2 ^ 15 -> (7 <= length buff)%nat ->
  PrintDecimal val buff = Some (overlay buff 0 (printed val ++ [0]), number_at val).
Proof.
  intros Hv Hl. unfold PrintDecimal. rewrite fill_eq by lia. cbn [mbind option_bind].
  rewrite put_overlay by (rewrite length_overlay; cbn; lia).
  change 6%nat with (0 + length (replicate 6 32))%nat at 2. rewrite overlay_app by (cbn; lia).
  cbn [mbind option_bind].
  assert ((if val <? 0 then (int16 (- val), 45) else (val, 32)) = (Z.abs val, sign val)) as ->.
  { unfold sign. destruct (val <? 0) eqn:E; to_prop; [rewrite int16_small by lia|]; f_equal; lia. }
  pose proof (decimal_int16 val Hv) as HD. set (D := decimal (Z.abs val)) in *.
  set (post := [0] ++ drop 7 buff).
  assert (overlay buff 0 (replicate 6 32 ++ [0]) = [32; 32; 32; 32; 32; 32] ++ post) as -> by done.
  assert (0 <= Z.abs val < 10 ^ Z.of_nat 5 /\ Z.abs val < 2 ^ 15) as [Ha Ha'] by (clear -Hv; lia).
  rewrite (decimal_loop_eq 5 (Z.abs val) [32; 32; 32; 32; 32; 32] post ltac:(lia) Ha Ha' eq_refl).
  rewrite (decimal_f_eq 5) by (done || lia). fold D. cbn [mbind option_bind].
  assert (take (6 - length D) [32; 32; 32; 32; 32; 32] = replicate (5 - length D) 32 ++ [32]) as ->.
  { destruct (length D) as [|[|[|[|[|[|]]]]]]; try done; lia. }
  set (pre := replicate (5 - length D) 32).
  assert (length pre = 5 - length D)%nat as Hpre by (unfold pre; by rewrite length_replicate).
  rewrite <- Hpre, <- !app_assoc.
  rewrite put_overlay by (rewrite !length_app; cbn [length]; lia). rewrite overlay_split by done. cbn [mbind option_bind].
  change ([sign val] ++ D ++ post) with (sign val :: D ++ post). rewrite list_lookup_middle by done. cbn [mbind option_bind].
  assert (overlay buff 0 (printed val ++ [0]) = pre ++ sign val :: D ++ post) as ->.
  { unfold overlay. rewrite length_app, length_printed by done. unfold printed. fold D pre.
    rewrite <- !app_assoc. done. }
  unfold number_at, sign. fold D. destruct (val <? 0); [by rewrite Hpre|]. change (32 =? 45) with false. cbn iota. do 2 f_equal. lia.
Qed.

(** The C string in memory: the bytes up to the first NUL. *)
Fixpoint cstring (m : list Z) : list Z :=
  match m with
  | [] => []
  | c :: m' => if c =? 0 then [] else c :: cstring m'
  end.

Lemma cstring_app x rest : Forall (fun c => c <> 0) x -> cstring (x ++ 0 :: rest) = x.
Proof.
  induction 1 as [|c x Hc _ IH]; [done|]. cbn. by rewrite (proj2 (Z.eqb_neq _ _) Hc), IH.
Qed.

Lemma printed_text val : - 2 ^ 15 < val < 2 ^ 15 -> Forall (fun c => c <> 0) (printed val).
Proof.
  intros Hv. unfold printed. repeat (apply Forall_app; split).
  - by apply Forall_replicate.
  - constructor; [|done]. unfold sign. by case_match.
  - eapply Forall_impl; [apply (decimal_digits (Z.abs val)); lia|]. cbn. lia.
Qed.

Lemma printed_number val :
  - 2 ^ 15 < val < 2 ^ 15 -> drop (number_at val) (printed val) = signed_decimal val.
Proof.
  intros Hv. pose proof (decimal_int16 val Hv) as HD. unfold number_at, printed, signed_decimal, sign.
  set (D := decimal (Z.abs val)) in *. destruct (val <? 0) eqn:E; to_prop.
  - rewrite drop_app_length' by (by rewrite length_replicate). cbn. unfold D. do 2 f_equal. lia.
  - replace (6 - length D)%nat with (length (replicate (5 - length D) 32 ++ [32]))
      by (rewrite length_app, length_replicate; cbn; lia).
    rewrite app_assoc, drop_app_length. unfold D. f_equal. lia.
Qed.

(** The buffer after [PrintDecimal], read from offset [k] on. *)
Lemma drop_printed val buff k :
  - 2 ^ 15 < val < 2 ^ 15 -> (k <= 6)%nat ->
  drop k (overlay buff 0 (printed val ++ [0])) = drop k (printed val) ++ 0 :: drop 7 buff.
Proof.
  intros Hv Hk. pose proof (length_printed val Hv) as Hl. unfold overlay.
  rewrite length_app, Hl. cbn [Nat.add length]. rewrite take_0. cbn [app]. rewrite <- app_assoc.
  rewrite drop_app_le by lia. done.
Qed.

Lemma emits_printed val buff k :
  - 2 ^ 15 < val < 2 ^ 15 -> (k <= 6)%nat ->
  emits (append (drop k (overlay buff 0 (printed val ++ [0])))) (drop k (printed val)).
Proof.
  intros Hv Hk. rewrite drop_printed by done. apply emits_append, Forall_drop.
  by apply printed_text.
Qed.

Lemma parse_decimal_small n : 0 <= n < 2 ^ 16 -> parse (decimal n) = n.
Proof.
  intros Hn. apply parse_decimal. change (10 ^ Z.of_nat 20) with 100000000000000000000. lia.
Qed.

Lemma atoi_signed val : - 2 ^ 15 < val < 2 ^ 15 -> atoi (signed_decimal val) = val.
Proof.
  intros Hv. unfold signed_decimal. destruct (val <? 0) eqn:E; to_prop.
  - change (- parse (decimal (- val)) = val). rewrite parse_decimal_small; lia.
  - pose proof (parse_decimal_small val ltac:(lia)) as Hp.
    pose proof (decimal_digits val E) as Hd. destruct (decimal val) as [|c ds]; [done|].
    apply Forall_cons in Hd as [Hc _]. rewrite <- Hp. unfold atoi.
    assert (c <> 45) as Hne by lia. clear - Hne.
    destruct c as [|p|p]; [done| |done]. repeat (destruct p as [p|p|]; try done).
Qed.

(** Printing a decimal number and reading it back.  For every 16-bit number but
    the least, and a buffer of at least 7 bytes, [PrintDecimal] writes seven bytes
    and nothing else: the number right-aligned in six columns and a NUL.  The
    pointer it returns is where the number starts: the C string there is its
    decimal representation, with a minus sign if it is negative, and denotes the
    number printed. *)
Theorem PrintDecimal_roundtrip val buff :
  - 2 ^ 15 < val < 2 ^ 15 -> (7 <= length buff)%nat ->
  exists buff' r, PrintDecimal val buff = Some (buff', r) /\
    cstring (drop r buff') = signed_decimal val /\ atoi (cstring (drop r buff')) = val /\
    length (cstring buff') = 6%nat /\ length buff' = length buff /\ drop 7 buff' = drop 7 buff.
Proof.
  intros Hv Hl. pose proof (decimal_int16 val Hv). pose proof (length_printed val Hv) as Hp.
  exists (overlay buff 0 (printed val ++ [0])), (number_at val).
  assert (cstring (drop (number_at val) (overlay buff 0 (printed val ++ [0]))) = signed_decimal val) as Hs.
  { rewrite drop_printed by (done || (unfold number_at; case_match; lia)).
    rewrite printed_number by done. apply cstring_app.
    rewrite <- printed_number by done. by apply Forall_drop, printed_text. }
  split_and!; [by apply PrintDecimal_eq|done|by rewrite Hs, atoi_signed| | |].
  - rewrite <- (drop_0 (overlay _ _ _)), drop_printed, cstring_app by (done || lia || by apply printed_text). done.
  - apply length_overlay. rewrite length_app, Hp. cbn. lia.
  - unfold overlay. rewrite take_0. cbn [app]. rewrite drop_app_length' by (rewrite length_app, Hp; done).
    by rewrite length_app, Hp.
Qed.

Lemma PrintDecimal_roundtrip_witness :
  exists buff' r, PrintDecimal (-1234) (replicate 9 7) = Some (buff', r) /\
    cstring (drop r buff') = signed_decimal (-1234) /\ atoi (cstring (drop r buff')) = -1234 /\
    length (cstring buff') = 6%nat /\ length buff' = 9%nat /\ drop 7 buff' = [7; 7].
Proof. apply (PrintDecimal_roundtrip (-1234) (replicate 9 7)); [lia|cbn; lia]. Defined.

(** The least number is printed wrong: its negation does not fit in 16 bits. *)
Example PrintDecimal_least :
  (fun p => cstring (drop (snd p) (fst p))) <$> PrintDecimal (-32768) (replicate 7 0)
  <> Some (signed_decimal (-32768)).
Proof. by vm_compute. Qed.
