(* ===== verification/Info.v ===== *)
(** * System reports

    brtos/OSInfo.c in the example configuration (dynamic tasks, no watermark):
    the reports on the tasks, the memory, the uptime and the CPU load, as text in
    a buffer of the caller.  The names of the tasks are the application's; what
    the allocator says about its heap is the allocator's. *)

From Stdlib Require Import ZArith Lia Ascii String.
From stdpp Require Import base gmap numbers list.
From S2P Require Import Prelude Config State Sched Clock Kernel Sample Time Text.
#[local] Open Scope Z_scope.
#[local] Open Scope prog_scope.

(** The literals of the reports, as C strings. *)
Notation "'C_STR' s" := (cstr (lit s%string)) (at level 10, s at level 9, only parsing).

Section operations.
Context `{C : Config}.

(** HAL.h: [CPSID I] and [CPSIE I]. *)
Definition UserEnterCritical : prog unit := modify (set_PRIMASK true).
Definition UserExitCritical : prog unit := modify (set_PRIMASK false).

(** [string += mem_cpy(string, PrintDecimal(val, str))]: the number without the
    spaces before it; the result has the buffer [str] too. *)
Definition append_number (val : Z) (st : text * list Z) : option (text * list Z) :=
  '(str, r) ← PrintDecimal (int16 val) (snd st);
  t ← append (drop r str) (fst st); Some (t, str).

(** [PrintDecimal(val, str); string += mem_cpy(string, str + k)] *)
Definition append_column (k : nat) (val : Z) (st : text * list Z) : option (text * list Z) :=
  '(str, _) ← PrintDecimal (int16 val) (snd st);
  t ← append (drop k str) (fst st); Some (t, str).

(** ** The list of tasks *)

(** The loop that looks for 16 zero words at the end of a stack; [fuel] bounds
    its iterations.  The result is [sp_address] and [i]. *)
Fixpoint scan_stack (fuel : nat) (m : gmap Z Z) (sp_address sp_end i : Z) : option (Z * Z) :=
  if i <? 16 then
    if sp_address <=? sp_end then Some (sp_address, i)
    else
      match fuel with
      | O => None
      | S fuel' =>
          w ← m !! sp_address;
          scan_stack fuel' m (uint32 (sp_address - 4)) sp_end (if w =? 0 then i + 1 else 0)
      end
  else Some (sp_address, i).

(** The letter for the state of a task. *)
Definition state_letter (prio : Z) : prog Z :=
  blocked <- gets OSBlockedList ;;
  m <- lift (aget PriorityMask prio) ;;
  if Z.land blocked m =? 0 then ret 66 (* B *)
  else
    ready <- gets OSReadyList ;;
    ret (if Z.land ready m =? m then 82 (* R *) else 83 (* S *)).

(** "Find for at least 16 available sp data into task stack": the bytes of the stack
    of the task [j] that are in use. *)
Definition stack_used (j : Z) : prog Z :=
  UserEnterCritical ;;;
  c <- Task j ;;
  let sp_address := StackPoint c in
  let sp_end := StackInit c in
  UserExitCritical ;;;
  m <- gets mem ;;
  r <- lift (scan_stack (Z.to_nat (sp_address - sp_end)) m sp_address sp_end 0) ;;
  UserEnterCritical ;;;
  c <- Task j ;;
  let VirtualStack :=
    uint16 (uint32 (StackInit c + StackSize c - (fst r + snd r * 4))) in
  UserExitCritical ;;;
  ret VirtualStack.

Section reports.
(** The memory from an address on, for the names of the tasks. *)
Variable memory_at : Z -> list Z.
(** The size of the stack in use, which builds with WATERMARK find in another way. *)
Variable used : Z -> prog Z.

(** The line of the task [j] with control block [c]. *)
Definition task_id (j : Z) (st : text * list Z) : option (text * list Z) :=
  t ← putc 91 (fst st);
  if j <? 10 then t ← putc (j + 48) t; t ← append (C_STR "]  ") t; Some (t, snd st)
  else st ← append_column 4 j (t, snd st); t ← append (C_STR "] ") (fst st); Some (t, snd st).

Definition task_name (c : ContextType) (t : text) : option text :=
  '(dst, z) ← mem_cpy (fst t) (snd t) (memory_at (TaskName c)) 0;
  spaces (24 - z) (dst, (snd t + z)%nat).

(** One iteration of the loop of [OSTaskList]. *)
Definition task_line (j : Z) (st : text * list Z) : prog (text * list Z) :=
  c <- Task j ;;
  if negb (Priority c =? EMPTY_PRIO) then
    st <- lift (task_id j st) ;;
    t <- lift (task_name c (fst st)) ;;
    (* Print the task state *)
    t <- lift (append (C_STR "  ") t) ;;
    UserEnterCritical ;;;
    letter <- state_letter (Priority c) ;;
    t <- lift (putc letter t) ;;
    UserExitCritical ;;;
    t <- lift (append (C_STR "      ") t) ;;
    (* Print the task priority *)
    UserEnterCritical ;;;
    c <- Task j ;;
    let prio := Priority c in
    UserExitCritical ;;;
    st <- lift (append_column 2 prio (t, snd st)) ;;
    t <- lift (append (C_STR "       ") (fst st)) ;;
    (* Print the task stack size *)
    VirtualStack <- used j ;;
    st <- lift (append_column 0 VirtualStack (t, snd st)) ;;
    t <- lift (append (cstr nl) (fst st)) ;;
    ret (t, snd st)
  else ret st.

Fixpoint task_lines (n : nat) (j : Z) (st : text * list Z) : prog (text * list Z) :=
  match n with
  | O => ret st
  | S n' => st <- task_line j st ;; task_lines n' (j + 1) st
  end.

(** [OSTaskList]; [str] is its local buffer of 9 bytes, not initialised, and the
    result the caller's buffer. *)
Definition stars : list Z := replicate 59 42.
Definition OSTaskList_with (str : list Z) (string : text) : prog (list Z) :=
  t <- lift (append (cstr (nl ++ stars ++ nl)) string) ;;
  t <- lift (append (cstr (lit "ID   NAME                    STATE   PRIORITY   STACK SIZE" ++ nl)) t) ;;
  t <- lift (append (cstr (stars ++ nl)) t) ;;
  st <- task_lines (Z.to_nat NUMBER_OF_TASKS) 1 (t, str) ;;
  t <- lift (append (cstr nl) (fst st)) ;;
  (* End of string *)
  lift (put (fst t) (snd t) 0).
End reports.

Definition OSTaskList (memory_at : Z -> list Z) : list Z -> text -> prog (list Z) :=
  OSTaskList_with memory_at stack_used.

(** ** Memory and load *)

(** [OSAvailableMemory]; [used] is the value of [OSGetUsedHeapSize()] and [total]
    that of DYNAMIC_HEAP_SIZE. *)
Definition OSAvailableMemory (used total : Z) (str : list Z) (string : text) : prog (list Z) :=
  t <- lift (append (cstr (nl ++ lit "***** BRTOS Memory Info *****" ++ nl)) string) ;;
  t <- lift (append (C_STR "DYNAMIC MEMORY HEAP:       ") t) ;;
  UserEnterCritical ;;;
  (* address is overwritten before it is read *)
  UserExitCritical ;;;
  st <- lift (append_column 1 used (t, str)) ;;
  t <- lift (append (C_STR " of ") (fst st)) ;;
  st <- lift (append_number total (t, snd st)) ;;
  t <- lift (append (cstr (nl ++ lit "STATIC QUEUE MEMORY HEAP:  ")) (fst st)) ;;
  UserEnterCritical ;;;
  addr <- gets iQueueAddress ;;
  let address := uint16 (addr * sizeof_OS_CPU_TYPE) in
  UserExitCritical ;;;
  st <- lift (append_column 1 address (t, snd st)) ;;
  t <- lift (append (C_STR " of ") (fst st)) ;;
  st <- lift (append_number QUEUE_HEAP_SIZE (t, snd st)) ;;
  t <- lift (append (cstr nl) (fst st)) ;;
  lift (put (fst t) (snd t) 0).

(** The digits of [OSCPULoad], for a load of [percent] tenths of a percent. *)
Definition load_digits (percent : Z) (t : text) : option text :=
  let cent := uint8 (Z.quot percent 100) in
  let caracter := uint8 (cent + 48) in
  t ← (if negb (caracter =? 48) then putc caracter t else Some t);
  let dez := uint8 (Z.quot (percent - cent * 100) 10) in
  t ← putc (uint8 (dez + 48)) t;
  t ← putc 46 t;
  t ← putc (uint8 (percent mod 10 + 48)) t;
  putc 37 t.

(** [OSCPULoad] *)
Definition OSCPULoad (string : text) : prog (list Z) :=
  UserEnterCritical ;;;
  percent <- gets LastOSDuty ;;
  UserExitCritical ;;;
  t <- lift (append (cstr (nl ++ lit "CPU LOAD: ")) string) ;;
  t <- lift (if percent >=? 1000 then append (C_STR "100 %") t else load_digits percent t) ;;
  t <- lift (append (cstr nl) t) ;;
  lift (put (fst t) (snd t) 0).
(** [OSUptimeInfo], where [v] are the variables of OSTime.c; [str] is its local
    buffer, of [uptime_str] bytes. *)
Definition uptime_str : nat := 6.
Definition OSUptimeInfo (str : list Z) (v : time_vars) (string : text) : prog (list Z) :=
  UserEnterCritical ;;;
  let Uptime := OSUptime v in
  let UpDate := OSUpDate v in
  UserExitCritical ;;;
  t <- lift (append (cstr (nl ++ lit "BRTOS UPTIME: ")) string) ;;
  st <- (if RTC_Day UpDate >? 0 then
           st <- lift (append_number (RTC_Day UpDate) (t, str)) ;;
           t <- lift (append (C_STR "d ") (fst st)) ;;
           ret (t, snd st)
         else ret (t, str)) ;;
  st <- lift (append_number (RTC_Hour Uptime) st) ;;
  t <- lift (append (C_STR "h ") (fst st)) ;;
  st <- lift (append_number (RTC_Minute Uptime) (t, snd st)) ;;
  t <- lift (append (C_STR "m ") (fst st)) ;;
  st <- lift (append_number (RTC_Second Uptime) (t, snd st)) ;;
  t <- lift (append (cstr (lit "s" ++ nl)) (fst st)) ;;
  lift (put (fst t) (snd t) 0).
End operations.

(** ** What the parts of a report emit *)

Lemma nonzero x : forallb (fun c => negb (c =? 0)) x = true -> Forall (fun c => c <> 0) x.
Proof.
  intros H. apply List.Forall_forall. intros c Hc. rewrite forallb_forall in H.
  by apply Z.eqb_neq, negb_true_iff, H.
Qed.

Lemma emits_cstr x : forallb (fun c => negb (c =? 0)) x = true -> emits (append (cstr x)) x.
Proof. intros H. by apply emits_append, nonzero. Qed.

(** A writer that also uses a local buffer of at least 7 bytes. *)
Definition emits2 (f : text * list Z -> option (text * list Z)) (x : list Z) : Prop :=
  forall buf pos str, (pos + length x <= length buf)%nat -> (7 <= length str)%nat ->
    exists str', f (((buf, pos) : text), str) = Some (((overlay buf pos x, (pos + length x)%nat) : text), str') /\
      length str' = length str.

Lemma emits2_column k val :
  - 2 ^ 15 < val < 2 ^ 15 -> (k <= 6)%nat -> emits2 (append_column k val) (drop k (printed val)).
Proof.
  intros Hv Hk buf pos str Hr Hs. exists (overlay str 0 (printed val ++ [0])). split.
  - unfold append_column. cbn [fst snd]. rewrite int16_small, PrintDecimal_eq by lia. cbn [mbind option_bind].
    by rewrite (emits_printed val str k Hv Hk buf pos Hr).
  - apply length_overlay. rewrite length_app, length_printed by done. cbn. lia.
Qed.

Lemma emits2_number val : - 2 ^ 15 < val < 2 ^ 15 -> emits2 (append_number val) (signed_decimal val).
Proof.
  intros Hv buf pos str Hr Hs. exists (overlay str 0 (printed val ++ [0])). split.
  - unfold append_number. cbn [fst snd]. rewrite int16_small, PrintDecimal_eq by lia. cbn [mbind option_bind].
    assert (number_at val <= 6)%nat as Hk by (unfold number_at; pose proof (decimal_int16 val Hv); case_match; lia).
    pose proof (emits_printed val str _ Hv Hk) as He. rewrite printed_number in He by done.
    by rewrite (He buf pos Hr).
  - apply length_overlay. rewrite length_app, length_printed by done. cbn. lia.
Qed.

(** A writer that does not use the local buffer, after one that does. *)
Lemma emits2_then f g x y :
  emits2 f x -> emits g y ->
  emits2 (fun st => st ← f st; t ← g (fst st); Some (t, snd st)) (x ++ y).
Proof.
  intros Hf Hg buf pos str Hr Hs. rewrite length_app in Hr.
  destruct (Hf buf pos str ltac:(lia) Hs) as (str' & E & Hl). exists str'. split; [|done].
  rewrite E. cbn. rewrite Hg by (rewrite length_overlay; lia). cbn.
  rewrite overlay_app, length_app by lia. do 3 f_equal. lia.
Qed.

Lemma emits2_bind f g x y : emits2 f x -> emits2 g y -> emits2 (fun st => f st ≫= g) (x ++ y).
Proof.
  intros Hf Hg buf pos str Hr Hs. rewrite length_app in Hr.
  destruct (Hf buf pos str ltac:(lia) Hs) as (str1 & E & Hl).
  destruct (Hg (overlay buf pos x) (pos + length x)%nat str1) as (str2 & E2 & Hl2);
    [rewrite length_overlay; lia|lia|].
  exists str2. split; [|congruence]. rewrite E. cbn. rewrite E2, overlay_app, length_app by lia.
  do 3 f_equal. lia.
Qed.

Lemma emits2_text f x : emits f x -> emits2 (fun st => t ← f (fst st); Some (t, snd st)) x.
Proof. intros Hf buf pos str Hr Hs. exists str. cbn. by rewrite Hf. Qed.

(** ** The use of a stack *)

(** The 16 words from [top] down, as far as they are in the stack, are zero. *)
Definition quiet (m : gmap Z Z) (lo top : Z) : Prop :=
  forall k, 0 <= k < 16 -> lo < top - 4 * k -> m !! (top - 4 * k) = Some 0.

(** [top] is the highest word of the stack, from [sp] down, with that property. *)
Definition stack_top (m : gmap Z Z) (lo sp top : Z) : Prop :=
  exists n, 0 <= n /\ top = sp - 4 * n /\ quiet m lo top /\
    forall j, 0 <= j < n -> ~ quiet m lo (sp - 4 * j).

Lemma stack_top_fun m lo sp t1 t2 : stack_top m lo sp t1 -> stack_top m lo sp t2 -> t1 = t2.
Proof.
  intros (n1 & Hn1 & -> & Hq1 & Hm1) (n2 & Hn2 & -> & Hq2 & Hm2).
  destruct (Z.lt_trichotomy n1 n2) as [Hl|[->|Hl]]; [|done|];
    [destruct (Hm2 n1)|destruct (Hm1 n2)]; done || lia.
Qed.

(** The words of the stack between [lo] and [sp] are in memory. *)
Definition stack_seen (m : gmap Z Z) (lo sp : Z) : Prop :=
  forall j, 0 <= j -> lo < sp - 4 * j -> is_Some (m !! (sp - 4 * j)).

Lemma scan_stack_from m lo sp : forall fuel n i,
  4 <= lo -> sp < 2 ^ 32 -> stack_seen m lo sp -> 0 <= n -> 0 <= i <= 16 -> i <= n ->
  sp - 4 * n - lo <= Z.of_nat fuel ->
  (forall k, 1 <= k <= i -> m !! (sp - 4 * n + 4 * k) = Some 0) ->
  (forall j, 0 <= j < n - i -> ~ quiet m lo (sp - 4 * j)) ->
  (0 < i -> lo < sp - 4 * n + 4) ->
  exists a i', scan_stack fuel m (sp - 4 * n) lo i = Some (a, i') /\ stack_top m lo sp (a + i' * 4).
Proof.
  induction fuel as [|fuel IH]; intros n i Hlo Hsp Hm Hn Hi Hin Hf Hz Hq Hl.
  all: assert (i = 16 \/ sp - 4 * n <= lo -> stack_top m lo sp (sp - 4 * n + i * 4)) as Hend.
  1,3: intros Hc; exists (n - i); split; [lia|split; [lia|split; [|done]]]; intros k Hk Hlk;
    replace (sp - 4 * n + i * 4 - 4 * k) with (sp - 4 * n + 4 * (i - k)) by lia; apply Hz; lia.
  - unfold scan_stack. destruct (i <? 16) eqn:Ei; to_prop; [|exists (sp - 4 * n), i; split; [done|apply Hend; lia]].
    rewrite (proj2 (Z.leb_le _ _)) by lia. exists (sp - 4 * n), i. split; [done|apply Hend; lia].
  - cbn [scan_stack]. destruct (i <? 16) eqn:Ei; to_prop; [|exists (sp - 4 * n), i; split; [done|apply Hend; lia]].
    destruct (sp - 4 * n <=? lo) eqn:El; to_prop; [exists (sp - 4 * n), i; split; [done|apply Hend; lia]|].
    destruct (Hm n Hn El) as [w Hw]. rewrite Hw. cbn [mbind option_bind].
    rewrite uint32_small by lia. replace (sp - 4 * n - 4) with (sp - 4 * (n + 1)) by lia.
    destruct (w =? 0) eqn:Ew; to_prop.
    + subst w. apply IH; try lia; [done| |].
      * intros k Hk. destruct (decide (k = 1)) as [->|]; [by replace (sp - 4 * (n + 1) + 4 * 1) with (sp - 4 * n) by lia|].
        replace (sp - 4 * (n + 1) + 4 * k) with (sp - 4 * n + 4 * (k - 1)) by lia. apply Hz. lia.
      * intros j Hj. apply Hq; lia.
    + apply IH; try lia; [done|].
      intros j Hj. destruct (decide (j < n - i)); [apply Hq; lia|].
      intros Hqj. specialize (Hqj (n - j) ltac:(lia)).
      replace (sp - 4 * j - 4 * (n - j)) with (sp - 4 * n) in Hqj by lia.
      specialize (Hqj El). congruence.
Qed.

(** The loop ends and finds the top of the used part of the stack. *)
Lemma scan_stack_spec m lo sp :
  4 <= lo -> sp < 2 ^ 32 -> stack_seen m lo sp ->
  exists a i, scan_stack (Z.to_nat (sp - lo)) m sp lo 0 = Some (a, i) /\ stack_top m lo sp (a + i * 4).
Proof.
  intros Hlo Hsp Hm. destruct (scan_stack_from m lo sp (Z.to_nat (sp - lo)) 0 0) as (a & i & Hr & Ht);
    [done|done|done|lia|lia|lia|lia|lia| |lia|].
  - intros j Hj. lia.
  - rewrite Z.mul_0_r, Z.sub_0_r in Hr. eauto.
Qed.
