(* ===== verification/InfoSpec.v ===== *)
(** * What the system reports say

    The texts of the reports of Info.v: the table of the tasks, row by row, the
    memory, the uptime and the CPU load, with the sizes of the buffers they need. *)

From Stdlib Require Import ZArith Lia Ascii String.
From stdpp Require Import base gmap numbers list.
From S2P Require Import Prelude Config State Sched Clock Kernel Sample Time Text Info.
#[local] Open Scope Z_scope.

(** ** Continuing a text *)

Lemma emits_at g y buf pos a :
  emits g y -> (pos + length (a ++ y) <= length buf)%nat ->
  g (overlay buf pos a, (pos + length a)%nat)
  = Some (overlay buf pos (a ++ y), (pos + length (a ++ y))%nat).
Proof.
  intros Hg Hl. rewrite length_app in *. rewrite Hg by (rewrite length_overlay; lia).
  rewrite overlay_app by lia. do 2 f_equal. lia.
Qed.

Lemma emits2_at g y buf pos a str :
  emits2 g y -> (pos + length (a ++ y) <= length buf)%nat -> (7 <= length str)%nat ->
  exists str', g (((overlay buf pos a, (pos + length a)%nat) : text), str)
    = Some (((overlay buf pos (a ++ y), (pos + length (a ++ y))%nat) : text), str') /\
    length str' = length str.
Proof.
  intros Hg Hl Hs. rewrite length_app in *.
  destruct (Hg (overlay buf pos a) (pos + length a)%nat str) as (str' & E & El);
    [rewrite length_overlay; lia|done|].
  exists str'. split; [|done]. rewrite E, overlay_app by lia. do 3 f_equal. lia.
Qed.

(** The end of a report. *)
Lemma put_at buf pos a :
  (pos + length a < length buf)%nat ->
  put (overlay buf pos a) (pos + length a) 0 = Some (overlay buf pos (cstr a)).
Proof.
  intros Hl. rewrite put_overlay by (rewrite length_overlay; lia).
  by rewrite overlay_app by (cbn; lia).
Qed.

(** ** Columns *)

Definition left (n : nat) (x : list Z) : list Z := x ++ replicate (n - length x) 32.
Definition right (n : nat) (x : list Z) : list Z := replicate (n - length x) 32 ++ x.

#[global] Arguments left : simpl never.
#[global] Arguments right : simpl never.

Lemma length_left n x : (length x <= n)%nat -> length (left n x) = n.
Proof. intros. unfold left. rewrite length_app, length_replicate. lia. Qed.

Lemma length_right n x : (length x <= n)%nat -> length (right n x) = n.
Proof. intros. unfold right. rewrite length_app, length_replicate. lia. Qed.

(** A number that is not negative is printed right-aligned in six columns; from
    the [k]-th on, in [6 - k] columns. *)
Lemma drop_printed_right val k :
  0 <= val < 2 ^ 15 -> (k + length (decimal val) <= 6)%nat ->
  drop k (printed val) = right (6 - k) (decimal val).
Proof.
  intros Hv Hk. unfold printed, right, sign. rewrite (proj2 (Z.ltb_ge _ _)), Z.abs_eq by lia.
  pose proof (decimal_int16 val ltac:(lia)) as Hd. rewrite Z.abs_eq in Hd by lia.
  rewrite app_assoc. change [32] with (replicate 1 32). rewrite <- replicate_add.
  rewrite drop_app_le, drop_replicate by (rewrite length_replicate; lia). do 2 f_equal. lia.
Qed.

(** ** Running the report functions *)
Section steps.
Context `{C : Config}.
Implicit Types (s : OS) (j : Z).

(** The text at the start of a report. *)
Lemma from_start {A} (f : text -> prog A) buf pos s r :
  f (overlay buf pos [], (pos + length (@nil Z))%nat) s = r -> f (buf, pos) s = r.
Proof. by rewrite overlay_nil, Nat.add_0_r. Qed.

(** [f] run in [s] writes [x], ends in [s'] and uses a local buffer of at least [n]
    bytes. *)
Definition writes (n : nat) (f : text * list Z -> prog (text * list Z)) (s s' : OS) (x : list Z) : Prop :=
  forall buf pos str, (pos + length x <= length buf)%nat -> (n <= length str)%nat ->
    exists str', f (((buf, pos) : text), str) s
      = Done (((overlay buf pos x, (pos + length x)%nat) : text), str') s' /\ length str' = length str.

(** The steps of such a program. *)
Lemma bind_emits {B} g y buf pos a (k : text -> prog B) s :
  emits g y -> (pos + length (a ++ y) <= length buf)%nat ->
  bind (lift (g (overlay buf pos a, (pos + length a)%nat))) k s
  = k (overlay buf pos (a ++ y), (pos + length (a ++ y))%nat) s.
Proof. intros. unfold bind. by rewrite (emits_at g y). Qed.

Lemma bind_emits2 {B} g y buf pos a str (k : text * list Z -> prog B) s :
  emits2 g y -> (pos + length (a ++ y) <= length buf)%nat -> (7 <= length str)%nat ->
  exists str', bind (lift (g (((overlay buf pos a, (pos + length a)%nat) : text), str))) k s
    = k (((overlay buf pos (a ++ y), (pos + length (a ++ y))%nat) : text), str') s /\
    length str' = length str.
Proof.
  intros Hg Hr Hs. destruct (emits2_at g y buf pos a str Hg Hr Hs) as (str' & E & Hl).
  exists str'. split; [|done]. unfold bind. by rewrite E.
Qed.

Lemma bind_enter {B} (k : unit -> prog B) s : bind UserEnterCritical k s = k tt (set_PRIMASK true s).
Proof. reflexivity. Qed.
Lemma bind_exit {B} (k : unit -> prog B) s : bind UserExitCritical k s = k tt (set_PRIMASK false s).
Proof. reflexivity. Qed.
Lemma bind_gets {A B} f (k : A -> prog B) s : bind (gets f) k s = k (f s) s.
Proof. reflexivity. Qed.
Lemma bind_Task {B} j c b (k : ContextType -> prog B) s :
  aget (ContextTask s) j = Some c -> bind (Task j) k (set_PRIMASK b s) = k c (set_PRIMASK b s).
Proof. intros H. cbn. by rewrite H. Qed.
Lemma set_PRIMASK_twice b b' s : set_PRIMASK b (set_PRIMASK b' s) = set_PRIMASK b s.
Proof. reflexivity. Qed.

Lemma writes_from n f s s' x :
  (forall buf pos str, (pos + length x <= length buf)%nat -> (n <= length str)%nat ->
    exists str', f (((overlay buf pos [], (pos + length (@nil Z))%nat) : text), str) s
      = Done (((overlay buf pos x, (pos + length x)%nat) : text), str') s' /\ length str' = length str) ->
  writes n f s s' x.
Proof.
  intros H buf pos str Hr Hs. specialize (H buf pos str Hr Hs).
  by rewrite overlay_nil, Nat.add_0_r in H.
Qed.

Lemma writes_nil n s : writes n ret s s [].
Proof. intros buf pos str _ _. exists str. by rewrite overlay_nil, Nat.add_0_r. Qed.

Lemma writes_bind n f g s s1 s2 x y :
  writes n f s s1 x -> writes n g s1 s2 y -> writes n (fun st => bind (f st) g) s s2 (x ++ y).
Proof.
  intros Hf Hg buf pos str Hr Hs. rewrite length_app in *.
  destruct (Hf buf pos str ltac:(lia) Hs) as (str1 & E1 & L1).
  destruct (Hg (overlay buf pos x) (pos + length x)%nat str1) as (str2 & E2 & L2);
    [rewrite length_overlay; lia|lia|].
  exists str2. split; [|congruence].
  rewrite (bind_Done _ _ _ _ _ E1), E2, overlay_app by lia. do 3 f_equal. lia.
Qed.

Lemma bind_writes {B} {n} g y buf pos a str (k : text * list Z -> prog B) s s' :
  writes n g s s' y -> (pos + length (a ++ y) <= length buf)%nat -> (n <= length str)%nat ->
  exists str', bind (g (((overlay buf pos a, (pos + length a)%nat) : text), str)) k s
    = k (((overlay buf pos (a ++ y), (pos + length (a ++ y))%nat) : text), str') s' /\
    length str' = length str.
Proof.
  intros Hg Hr Hs. rewrite length_app in *.
  destruct (Hg (overlay buf pos a) (pos + length a)%nat str) as (str' & E & Hl);
    [rewrite length_overlay; lia|done|].
  exists str'. split; [|done]. rewrite (bind_Done _ _ _ _ _ E), overlay_app by lia. do 3 f_equal. lia.
Qed.

Lemma put_end buf pos a s :
  (pos + length a < length buf)%nat ->
  lift (put (overlay buf pos a) (pos + length a) 0) s = Done (overlay buf pos (cstr a)) s.
Proof. intros Hr. by rewrite put_at. Qed.
End steps.

(** Room in the buffer, from the lengths of the parts written; the next writer. *)
Ltac room :=
  repeat rewrite length_app;
  repeat match goal with H : length ?x = _ |- context [length ?x] => rewrite H end;
  cbn; lia.
Ltac next_text E := rewrite (bind_emits _ _ _ _ _ _ _ E) by room.
Ltac next_number E :=
  match goal with
  | |- context [bind (lift (?g ((overlay ?buf ?pos ?a, _), ?str))) ?k ?s] =>
      let Hl := fresh "Hl" in
      destruct (bind_emits2 g _ buf pos a str k s E) as (? & -> & Hl); [room|lia|]
  end.

(** ** The table of the tasks *)
Section tasks.
Context `{C : Config}.
Variable memory_at : Z -> list Z.
Variable used : Z -> prog Z.
Implicit Types (s : OS) (c : ContextType) (j : Z).

(** The state of a task of priority [p]: blocked, ready or suspended. *)
Definition letter_of (s : OS) (p : Z) : Z :=
  if Z.testbit (OSBlockedList s) p then if Z.testbit (OSReadyList s) p then 82 else 83 else 66.

Definition row (j : Z) (name : list Z) (letter prio usage : Z) : list Z :=
  [91] ++ left 4 (decimal j ++ [93]) ++ left 24 name ++ lit "  " ++ [letter] ++ lit "      " ++
  right 4 (decimal prio) ++ lit "       " ++ right 6 (decimal usage) ++ nl.

(** What the report relies on of the task [j] with control block [c]: a name of at
    most 24 characters, and a stack of which [usage] bytes are found in use. *)
Record shown (s : OS) (j : Z) (c : ContextType) (name : list Z) (usage : Z) : Prop := {
  sh_prio : 0 <= Priority c < PriorityType_bits;
  sh_text : Forall (fun x => x <> 0) name;
  sh_len : (length name <= 24)%nat;
  sh_name : exists rest, memory_at (TaskName c) = name ++ 0 :: rest;
  sh_used : forall b, used j (set_PRIMASK b s) = Done usage (set_PRIMASK false s);
  sh_range : 0 <= usage < 2 ^ 15;
}.

Lemma length_row j name letter prio usage :
  0 <= j < 100 -> (length name <= 24)%nat -> 0 <= prio < 100 -> 0 <= usage < 2 ^ 15 ->
  length (row j name letter prio usage) = 57%nat.
Proof.
  intros Hj Hn Hp Hu. unfold row.
  pose proof (decimal_length j 2 ltac:(lia) ltac:(lia)).
  pose proof (decimal_length prio 2 ltac:(lia) ltac:(lia)).
  pose proof (decimal_length usage 5 ltac:(lia) ltac:(lia)).
  rewrite !length_app, !length_left, !length_right by (rewrite ?length_app; cbn; lia).
  reflexivity.
Qed.

Lemma emits2_task_id j :
  1 <= j < 100 -> emits2 (task_id j) ([91] ++ left 4 (decimal j ++ [93])).
Proof.
  intros Hj buf pos str Hr Hs. pose proof (decimal_length j 2 ltac:(lia) ltac:(lia)) as Hd.
  rewrite length_app, length_left in Hr by (rewrite length_app; cbn; lia). cbn in Hr.
  unfold task_id. cbn [fst snd]. rewrite (emits_putc 91 buf pos) by (cbn; lia).
  cbn [mbind option_bind]. destruct (j <? 10) eqn:E; to_prop.
  - rewrite (emits_at _ _ _ _ _ (emits_putc (j + 48))) by (rewrite !length_app; cbn; lia).
    cbn [mbind option_bind].
    rewrite (emits_at _ _ _ _ _ (emits_cstr (lit "]  ") eq_refl)) by (rewrite !length_app; cbn; lia).
    cbn [mbind option_bind]. exists str. split; [|done].
    rewrite <- (decimal_f_eq 1) by (change (10 ^ Z.of_nat 1) with 10; lia).
    cbn [decimal_f]. rewrite (proj2 (Z.ltb_lt _ _)) by done. by rewrite (Z.add_comm j).
  - assert (2 <= length (decimal j))%nat as Hd2.
    { rewrite <- (decimal_f_eq 2) by (change (10 ^ Z.of_nat 2) with 100; lia). cbn [decimal_f].
      rewrite (proj2 (Z.ltb_ge _ _)) by done. rewrite length_app. cbn [length].
      case_match; cbn; rewrite ?length_app; cbn; lia. }
    assert (left 4 (decimal j ++ [93]) = decimal j ++ lit "] ") as Hl.
    { unfold left. rewrite length_app. cbn [length]. replace (4 - (length (decimal j) + 1))%nat with 1%nat by lia.
      by rewrite <- app_assoc. }
    assert (drop 4 (printed j) = decimal j) as Hp.
    { rewrite drop_printed_right by lia. unfold right. by replace (6 - 4 - _)%nat with 0%nat by lia. }
    pose proof (emits2_column 4 j ltac:(lia) ltac:(lia)) as He. rewrite Hp in He.
    destruct (emits2_at _ _ buf pos [91] str He) as (str' & -> & Hs'); [rewrite !length_app; cbn; lia|done|].
    cbn [mbind option_bind fst snd].
    rewrite (emits_at _ _ _ _ _ (emits_cstr (lit "] ") eq_refl)) by (rewrite !length_app; cbn; lia).
    cbn [mbind option_bind]. exists str'. split; [|done]. rewrite <- app_assoc. by rewrite Hl.
Qed.

Lemma emits_task_name c name :
  (exists rest, memory_at (TaskName c) = name ++ 0 :: rest) -> Forall (fun x => x <> 0) name ->
  emits (task_name memory_at c) (left 24 name).
Proof.
  intros [rest Hm] Hn buf pos Hr. unfold left in Hr. rewrite length_app in Hr. unfold task_name.
  cbn [fst snd]. rewrite Hm, mem_cpy_eq by (done || lia). cbn [mbind option_bind Nat.add].
  rewrite (emits_at _ _ _ _ _ (emits_spaces (24 - length name))) by (rewrite length_app; lia).
  done.
Qed.

Lemma state_letter_eq s p :
  0 <= p < PriorityType_bits -> state_letter p s = Done (letter_of s p) s.
Proof.
  intros Hp. unfold state_letter, letter_of. cbn. rewrite PriorityMask_pow2 by done. cbn.
  pose proof (truthy_land_pow2 (OSBlockedList s) p ltac:(lia)) as Ht.
  unfold truthy in Ht. destruct (Z.land (OSBlockedList s) (2 ^ p) =? 0); cbn in Ht; rewrite <- Ht; [done|].
  cbn. rewrite land_pow2_eqb by lia. by case_match.
Qed.

Lemma task_line_writes s j c name usage :
  1 <= j < 100 -> aget (ContextTask s) j = Some c -> (Priority c =? EMPTY_PRIO) = false ->
  shown s j c name usage ->
  writes 7 (task_line memory_at used j) s (set_PRIMASK false s)
    (row j name (letter_of s (Priority c)) (Priority c) usage).
Proof.
  intros Hj Hc He [Hp Ht Hl Hn Hu Hur].
  apply writes_from. intros buf pos str Hr Hs.
  pose proof PriorityType_bits_range. rewrite length_row in Hr by lia.
  pose proof (decimal_length j 2 ltac:(lia) ltac:(lia)).
  pose proof (decimal_length (Priority c) 2 ltac:(lia) ltac:(lia)).
  pose proof (decimal_length usage 5 ltac:(lia) ltac:(lia)).
  pose proof (emits2_task_id j Hj) as E1. pose proof (emits_task_name c name Hn Ht) as E2.
  pose proof (emits2_column 2 (Priority c) ltac:(lia) ltac:(lia)) as E3.
  rewrite drop_printed_right in E3 by lia. change (6 - 2)%nat with 4%nat in E3.
  pose proof (emits2_column 0 usage ltac:(lia) ltac:(lia)) as E4.
  rewrite drop_printed_right in E4 by lia. change (6 - 0)%nat with 6%nat in E4.
  assert (length (left 4 (decimal j ++ [93])) = 4%nat) as L1 by (apply length_left; rewrite length_app; cbn; lia).
  assert (length (left 24 name) = 24%nat) as L2 by (apply length_left; lia).
  assert (length (right 4 (decimal (Priority c))) = 4%nat) as L3 by (apply length_right; lia).
  assert (length (right 6 (decimal usage)) = 6%nat) as L4 by (apply length_right; lia).
  unfold task_line. rewrite (bind_Done _ _ _ c s) by (cbn; by rewrite Hc). rewrite He. cbn [negb].
  next_number E1. cbn [fst snd]. next_text E2. next_text (emits_cstr (lit "  ") eq_refl).
  rewrite bind_enter. rewrite (bind_Done _ _ _ _ _ (state_letter_eq (set_PRIMASK true s) _ Hp)).
  next_text (emits_putc (letter_of s (Priority c))). rewrite bind_exit, set_PRIMASK_twice.
  next_text (emits_cstr (lit "      ") eq_refl). rewrite bind_enter, set_PRIMASK_twice.
  rewrite (bind_Task j c) by done. cbv zeta. rewrite bind_exit, set_PRIMASK_twice.
  next_number E3. cbn [fst snd]. next_text (emits_cstr (lit "       ") eq_refl).
  rewrite (bind_Done _ _ _ _ _ (Hu false)).
  next_number E4. cbn [fst snd]. next_text (emits_cstr nl eq_refl).
  eexists. split; [unfold row; by rewrite <- !app_assoc|congruence].
Qed.

(** ** The whole table *)

Definition installed (s : OS) (j : Z) : bool :=
  match aget (ContextTask s) j with Some c => negb (Priority c =? EMPTY_PRIO) | None => false end.

(** What the report says about the number [j]: nothing when no task has it. *)
Definition entry (s : OS) (name : Z -> list Z) (usage : Z -> Z) (j : Z) : list Z :=
  match aget (ContextTask s) j with
  | Some c =>
      if Priority c =? EMPTY_PRIO then []
      else row j (name j) (letter_of s (Priority c)) (Priority c) (usage j)
  | None => []
  end.

Definition header : list Z :=
  nl ++ stars ++ nl ++ lit "ID   NAME                    STATE   PRIORITY   STACK SIZE" ++ nl ++
  stars ++ nl.
Definition report (s : OS) (name : Z -> list Z) (usage : Z -> Z) : list Z :=
  header ++ concat (entry s name usage <$> seqZ 1 NUMBER_OF_TASKS) ++ nl.

(** The report leaves interrupts enabled if there is a task to report. *)
Definition unmasked (b : bool) (s : OS) : OS := if b then set_PRIMASK false s else s.

Lemma task_line_entry s name usage j :
  1 <= j < 100 -> 0 <= j < Z.of_nat (length (ContextTask s)) ->
  (forall c, aget (ContextTask s) j = Some c -> (Priority c =? EMPTY_PRIO) = false ->
    shown s j c (name j) (usage j)) ->
  writes 7 (task_line memory_at used j) s (unmasked (installed s j) s) (entry s name usage j).
Proof.
  intros Hj Hl Hr. destruct (aget_is_Some _ _ Hl) as [c Hc]. specialize (Hr c Hc).
  unfold installed, entry. rewrite Hc. destruct (Priority c =? EMPTY_PRIO) eqn:E; cbn [negb unmasked].
  - intros buf pos str _ _. exists str. rewrite overlay_nil, Nat.add_0_r. split; [|done].
    unfold task_line. rewrite (bind_Done _ _ _ c s) by (cbn; by rewrite Hc). by rewrite E.
  - by apply task_line_writes; [| | |apply Hr].
Qed.

(** The rows of a table, one for each number, when the row of every number is written
    whether interrupts are enabled already or not. *)
Lemma table_writes m (line : Z -> text * list Z -> prog (text * list Z)) lines (ent : Z -> list Z) s n : forall j,
  (forall j st, lines O j st = ret st) ->
  (forall n j st, lines (S n) j st = bind (line j st) (lines n (j + 1))) ->
  (forall i b, j <= i < j + Z.of_nat n ->
    writes m (line i) (unmasked b s) (unmasked (b || installed s i) s) (ent i)) ->
  forall b, writes m (lines n j) (unmasked b s) (unmasked (b || existsb (installed s) (seqZ j (Z.of_nat n))) s)
    (concat (ent <$> seqZ j (Z.of_nat n))).
Proof.
  induction n as [|n IH]; intros j H0 HS Hl b buf pos str.
  - rewrite H0. cbn [seqZ existsb]. rewrite orb_false_r. apply writes_nil.
  - rewrite HS, seqZ_cons by lia. cbn [existsb fmap list_fmap concat].
    replace (Z.pred (Z.of_nat (S n))) with (Z.of_nat n) by lia. rewrite <- Z.add_1_r, orb_assoc.
    apply (writes_bind m (line j) (lines n (j + 1)) _ (unmasked (b || installed s j) s)); [apply Hl; lia|].
    apply IH; [done|done|]. intros i b' Hi. apply Hl. lia.
Qed.

Lemma task_lines_writes s name usage n j :
  1 <= j -> j + Z.of_nat n <= 100 -> j + Z.of_nat n <= Z.of_nat (length (ContextTask s)) ->
  (forall i c, j <= i < j + Z.of_nat n -> aget (ContextTask s) i = Some c ->
    (Priority c =? EMPTY_PRIO) = false -> shown s i c (name i) (usage i)) ->
  writes 7 (task_lines memory_at used n j) s (unmasked (existsb (installed s) (seqZ j (Z.of_nat n))) s)
    (concat (entry s name usage <$> seqZ j (Z.of_nat n))).
Proof.
  intros Hj Hn Hl Hr.
  refine (table_writes 7 (task_line memory_at used) (task_lines memory_at used) (entry s name usage) s n j _ _ _ false); [done..|].
  intros i b Hi. replace (unmasked (b || installed s i) s) with (unmasked (installed (unmasked b s) i) (unmasked b s))
    by (by destruct b; cbn; [destruct (installed _ i)|]).
  replace (entry s name usage i) with (entry (unmasked b s) name usage i) by (by destruct b).
  apply task_line_entry; [lia|by destruct b; cbn; lia|].
  intros c Hc He. assert (aget (ContextTask s) i = Some c) as Hc' by (by destruct b).
  destruct b; [|by apply Hr]. destruct (Hr i c ltac:(lia) Hc' He). by split.
Qed.

(** The number of tasks reported. *)
Definition count (s : OS) : nat := length (filter (fun j => installed s j = true) (seqZ 1 NUMBER_OF_TASKS)).

Definition all_shown (s : OS) (name : Z -> list Z) (usage : Z -> Z) : Prop :=
  forall j c, 1 <= j <= NUMBER_OF_TASKS -> aget (ContextTask s) j = Some c ->
    (Priority c =? EMPTY_PRIO) = false -> shown s j c (name j) (usage j).

Lemma length_rows s name usage : forall l,
  (forall j, j ∈ l -> length (entry s name usage j) = if installed s j then 57%nat else 0%nat) ->
  length (concat (entry s name usage <$> l)) = (57 * length (filter (fun j => installed s j = true) l))%nat.
Proof.
  induction l as [|j l IH]; intros H; [done|]. cbn [fmap list_fmap concat]. rewrite length_app, H by set_solver.
  change (list_fmap Z (list Z) (entry s name usage) l) with (entry s name usage <$> l).
  rewrite IH by (intros; apply H; set_solver). rewrite filter_cons.
  destruct (installed s j); cbn [decide bool_eq_dec]; case_decide; try done; cbn; lia.
Qed.

Lemma text_row j name letter prio usage :
  0 <= j -> Forall (fun x => x <> 0) name -> letter <> 0 -> 0 <= prio -> 0 <= usage ->
  Forall (fun x => x <> 0) (row j name letter prio usage).
Proof.
  intros Hj Hn Hl Hp Hu.
  assert (forall n, 0 <= n -> Forall (fun x => x <> 0) (decimal n)) as Hd.
  { intros n H. eapply Forall_impl; [by apply decimal_digits|]. cbn. lia. }
  unfold row, left, right. repeat (apply Forall_app; split); try by apply Forall_replicate.
  all: try by apply Hd. all: try done. all: repeat constructor; done.
Qed.

Lemma task_index_small j : 1 <= j <= NUMBER_OF_TASKS -> 1 <= j < 100.
Proof. pose proof NUMBER_OF_TASKS_ok. lia. Qed.

Lemma text_report s name usage :
  all_shown s name usage -> Forall (fun x => x <> 0) (report s name usage).
Proof.
  intros Hr. unfold report. rewrite !Forall_app. split; [by apply nonzero|split; [|by apply nonzero]].
  apply Forall_concat, Forall_fmap, Forall_forall. intros j Hj%elem_of_seqZ. unfold compose, entry.
  destruct (aget (ContextTask s) j) as [c|] eqn:Hc; [|done].
  destruct (Priority c =? EMPTY_PRIO) eqn:E; [done|].
  destruct (Hr j c ltac:(lia) Hc E). apply text_row; try done; try lia.
  unfold letter_of. by repeat case_match.
Qed.

Lemma length_report s name usage :
  all_shown s name usage -> length (report s name usage) = (186 + 57 * count s)%nat.
Proof.
  intros Hr. pose proof PriorityType_bits_range. unfold report. rewrite !length_app, length_rows.
  { change (length header) with 184%nat. change (length nl) with 2%nat. unfold count. lia. }
  intros j Hj%elem_of_seqZ. unfold entry, installed.
  destruct (aget (ContextTask s) j) as [c|] eqn:Hc; [|done].
  destruct (Priority c =? EMPTY_PRIO) eqn:E; [done|]. cbn [negb].
  destruct (Hr j c ltac:(lia) Hc E). pose proof (task_index_small j ltac:(lia)).
  apply length_row; try done; lia.
Qed.

(** The report, of either build. *)
Lemma OSTaskList_with_report s name usage str buf pos :
  Z.of_nat (length (ContextTask s)) = NUMBER_OF_TASKS + 1 ->
  all_shown s name usage -> length str = 9%nat ->
  (pos + 187 + 57 * count s <= length buf)%nat ->
  let text := report s name usage in
  let buf' := overlay buf pos (cstr text) in
  OSTaskList_with memory_at used str (buf, pos) s
    = Done buf' (unmasked (existsb (installed s) (seqZ 1 NUMBER_OF_TASKS)) s) /\
  cstring (drop pos buf') = text /\ length text = (186 + 57 * count s)%nat.
Proof.
  intros Hl Hr Hs Hroom text buf'. pose proof (length_report s name usage Hr) as Hlen.
  pose proof NUMBER_OF_TASKS_ok. split; [|split; [|done]].
  - subst text buf'. apply from_start.
    unfold report in Hlen |- *. rewrite !length_app in Hlen.
    change (length header) with 184%nat in Hlen. change (length nl) with 2%nat in Hlen.
    unfold OSTaskList_with.
    next_text (emits_cstr (nl ++ stars ++ nl) eq_refl).
    next_text (emits_cstr (lit "ID   NAME                    STATE   PRIORITY   STACK SIZE" ++ nl) eq_refl).
    next_text (emits_cstr (stars ++ nl) eq_refl).
    pose proof (task_lines_writes s name usage (Z.to_nat NUMBER_OF_TASKS) 1) as Ht.
    rewrite Z2Nat.id in Ht by lia. specialize (Ht ltac:(lia) ltac:(lia) ltac:(lia)).
    specialize (Ht ltac:(intros i c Hi; apply Hr; lia)).
    match goal with
    | |- context [bind (?g ((overlay _ _ ?a, _), _)) ?k s] =>
        destruct (bind_writes g _ buf pos a str k s _ Ht) as (str' & -> & _); [room|lia|]
    end.
    cbn [fst snd]. next_text (emits_cstr nl eq_refl). cbn [fst snd].
    rewrite put_end by room. unfold header. by rewrite <- !app_assoc.
  - subst buf'. unfold overlay. rewrite drop_app_length' by (rewrite length_take; lia).
    unfold cstr. rewrite <- !app_assoc. apply cstring_app, text_report, Hr.
Qed.
End tasks.

(** ** The table, with the stacks as they are found without WATERMARK *)
Section found.
Context `{C : Config}.
Variable memory_at : Z -> list Z.
Implicit Types (s : OS) (c : ContextType) (j : Z).

(** What the report relies on of the task [c]: a name of at most 24 characters, and
    a stack whose words below the stack pointer are in memory, of which [usage]
    bytes are used. *)
Record reportable (s : OS) (c : ContextType) (name : list Z) (usage : Z) : Prop := {
  rp_prio : 0 <= Priority c < PriorityType_bits;
  rp_text : Forall (fun x => x <> 0) name;
  rp_len : (length name <= 24)%nat;
  rp_name : exists rest, memory_at (TaskName c) = name ++ 0 :: rest;
  rp_lo : 4 <= StackInit c;
  rp_sp : StackPoint c < 2 ^ 32;
  rp_seen : stack_seen (mem s) (StackInit c) (StackPoint c);
  rp_usage : forall top, stack_top (mem s) (StackInit c) (StackPoint c) top ->
             usage = StackInit c + StackSize c - top;
  rp_range : 0 <= usage < 2 ^ 15;
}.

Definition all_reportable (s : OS) (name : Z -> list Z) (usage : Z -> Z) : Prop :=
  forall j c, 1 <= j <= NUMBER_OF_TASKS -> aget (ContextTask s) j = Some c ->
    (Priority c =? EMPTY_PRIO) = false -> reportable s c (name j) (usage j).

Lemma reportable_shown s j c name usage :
  aget (ContextTask s) j = Some c -> reportable s c name usage -> shown memory_at stack_used s j c name usage.
Proof.
  intros Hc [Hp Ht Hl Hn Hlo Hsp Hm Hu Hur]. split; try done. intros b.
  destruct (scan_stack_spec (mem s) (StackInit c) (StackPoint c) Hlo Hsp Hm) as (a & i & Hscan & Htop).
  apply Hu in Htop. unfold stack_used.
  rewrite bind_enter, set_PRIMASK_twice, (bind_Task j c) by done. cbv zeta.
  rewrite bind_exit, set_PRIMASK_twice, bind_gets.
  rewrite (bind_Done _ _ _ (a, i) (set_PRIMASK false s)) by (cbn; by rewrite Hscan).
  rewrite bind_enter, set_PRIMASK_twice, (bind_Task j c) by done. cbv zeta. cbn [fst snd].
  rewrite bind_exit, set_PRIMASK_twice, <- Htop, uint32_small, uint16_small by lia. done.
Qed.

(** C27: the table of the tasks.  When every installed task has a priority of the
    kernel, a name of at most 24 characters, and a readable stack of which it uses less
    than 32768 bytes (the number is printed as a signed 16-bit one), [OSTaskList] writes into the caller's buffer
    exactly the heading, for each installed task in the order of their numbers one
    row of 57 characters -- number, name, state, priority and the bytes of stack in
    use --, and the NUL; the C string the buffer then holds is this text.  It needs
    187 bytes and 57 for each task.  The tasks are not changed, but the report
    leaves interrupts enabled when there is a task to report. *)
Theorem OSTaskList_report s name usage str buf pos :
  Z.of_nat (length (ContextTask s)) = NUMBER_OF_TASKS + 1 ->
  all_reportable s name usage -> length str = 9%nat ->
  (pos + 187 + 57 * count s <= length buf)%nat ->
  let text := report s name usage in
  let buf' := overlay buf pos (cstr text) in
  OSTaskList memory_at str (buf, pos) s
    = Done buf' (unmasked (existsb (installed s) (seqZ 1 NUMBER_OF_TASKS)) s) /\
  cstring (drop pos buf') = text /\ length text = (186 + 57 * count s)%nat.
Proof.
  intros Hl Hr Hs Hroom. apply OSTaskList_with_report; try done.
  intros j c Hj Hc He. by apply reportable_shown, Hr.
Qed.
End found.

(** ** The CPU load *)
Section load.
Context `{C : Config}.
Implicit Types (s : OS).

(** A load of [percent] tenths of a percent. *)
Definition load_text (percent : Z) : list Z :=
  if percent >=? 1000 then lit "100 %"
  else decimal (percent / 10) ++ [46] ++ decimal (percent mod 10) ++ [37].

Lemma decimal_small n : 0 <= n < 10 -> decimal n = [48 + n].
Proof.
  intros Hn. rewrite <- (decimal_f_eq 1) by (change (10 ^ Z.of_nat 1) with 10; lia).
  cbn [decimal_f]. by rewrite (proj2 (Z.ltb_lt _ _)) by lia.
Qed.

Lemma decimal_two n : 10 <= n < 100 -> decimal n = [48 + n / 10; 48 + n mod 10].
Proof.
  intros Hn. pose proof (Z.div_mod n 10). pose proof (Z.mod_pos_bound n 10).
  rewrite <- (decimal_f_eq 2) by (change (10 ^ Z.of_nat 2) with 100; lia). cbn [decimal_f].
  rewrite (proj2 (Z.ltb_ge n _)), (proj2 (Z.ltb_lt (n / 10) _)) by lia. done.
Qed.

(** The hundreds, tens and units the code computes. *)
Lemma three_digits p :
  0 <= p < 1000 ->
  exists a b c, 0 <= a < 10 /\ 0 <= b < 10 /\ 0 <= c < 10 /\ p = 100 * a + 10 * b + c /\
    p / 100 = a /\ (p - a * 100) / 10 = b /\ p mod 10 = c /\ p / 10 = 10 * a + b.
Proof.
  intros Hp. exists (p / 100), (p / 10 mod 10), (p mod 10).
  assert (p / 100 = p / 10 / 10) as Hd by (by rewrite Z.div_div).
  pose proof (Z.div_mod p 10). pose proof (Z.mod_pos_bound p 10).
  pose proof (Z.div_mod (p / 10) 10). pose proof (Z.mod_pos_bound (p / 10) 10).
  split_and!; try lia.
  symmetry. apply (Z.div_unique _ _ _ (p mod 10)); lia.
Qed.

Lemma load_digits_emits p : 0 <= p < 1000 -> emits (load_digits p) (load_text p).
Proof.
  intros Hp buf pos. destruct (three_digits p Hp) as (a & b & c & Ha & Hb & Hc & Heq & H1 & H2 & H3 & H4).
  unfold load_text, load_digits. destruct (p >=? 1000) eqn:E; [lia|].
  rewrite (Z.quot_div_nonneg p 100), H1, (uint8_small a) by lia.
  rewrite !Z.quot_div_nonneg, H2, H3, H4 by lia.
  rewrite (uint8_small b), !(uint8_small (_ + 48)), !(Z.add_comm _ 48), (decimal_small c) by lia.
  assert (forall x y z w, emits (fun t => putc x t ≫= fun t => putc y t ≫= fun t => putc z t ≫= putc w)
            ([x] ++ [y] ++ [z] ++ [w])) as Htail.
  { intros. repeat (apply emits_bind; [apply emits_putc|]). apply emits_putc. }
  intros Hr. destruct (48 + a =? 48) eqn:E0; to_prop; cbn [negb].
  - rewrite (decimal_small (10 * a + b)) in * by lia. replace (10 * a + b) with b in * by lia.
    by apply (Htail (48 + b) 46 (48 + c) 37).
  - rewrite (decimal_two (10 * a + b)) in * by lia.
    replace ((10 * a + b) / 10) with a in * by (apply (Z.div_unique _ _ _ b); lia).
    replace ((10 * a + b) mod 10) with b in * by (apply (Z.mod_unique _ _ a); lia).
    apply (emits_bind _ _ _ _ (emits_putc (48 + a)) (Htail (48 + b) 46 (48 + c) 37)). done.
Qed.

(** The CPU load.  [OSCPULoad] writes exactly the heading, the load with one
    decimal, in decimal notation and without leading zeros, or "100 %" from 1000
    tenths on, the line end and the NUL. *)
Theorem OSCPULoad_text s buf pos :
  0 <= LastOSDuty s ->
  let text := nl ++ lit "CPU LOAD: " ++ load_text (LastOSDuty s) ++ nl in
  (pos + length (cstr text) <= length buf)%nat ->
  OSCPULoad (buf, pos) s = Done (overlay buf pos (cstr text)) (set_PRIMASK false s).
Proof.
  intros Hp text Hr. subst text. unfold cstr in Hr. rewrite !length_app in Hr. apply from_start.
  unfold OSCPULoad. rewrite bind_enter, bind_gets, bind_exit, set_PRIMASK_twice.
  change (LastOSDuty (set_PRIMASK true s)) with (LastOSDuty s).
  assert (if LastOSDuty s >=? 1000 then emits (append (C_STR "100 %")) (load_text (LastOSDuty s))
          else emits (load_digits (LastOSDuty s)) (load_text (LastOSDuty s))) as He.
  { destruct (LastOSDuty s >=? 1000) eqn:E; [unfold load_text; rewrite E; by apply emits_cstr|].
    apply load_digits_emits. lia. }
  revert Hr He. generalize (load_text (LastOSDuty s)). intros x Hr He. cbn in Hr.
  next_text (emits_cstr (nl ++ lit "CPU LOAD: ") eq_refl).
  destruct (LastOSDuty s >=? 1000); next_text He; next_text (emits_cstr nl eq_refl); cbn [fst snd];
    rewrite put_end by room; by rewrite <- !app_assoc.
Qed.
End load.

(** ** The memory and the uptime *)
Section numbers.
Context `{C : Config}.
Implicit Types (s : OS).

Lemma emits2_right k val :
  0 <= val < 2 ^ 15 -> (k <= 1)%nat -> emits2 (append_column k val) (right (6 - k) (decimal val)).
Proof.
  intros Hv Hk. pose proof (decimal_length val 5 ltac:(lia) ltac:(lia)).
  rewrite <- drop_printed_right by lia. apply emits2_column; lia.
Qed.

Lemma emits2_decimal val : 0 <= val < 2 ^ 15 -> emits2 (append_number val) (decimal val).
Proof.
  intros Hv. pose proof (emits2_number val ltac:(lia)) as H. unfold signed_decimal in H.
  by rewrite (proj2 (Z.ltb_ge _ _)) in H by lia.
Qed.

Definition memory_text (used total queues : Z) : list Z :=
  nl ++ lit "***** BRTOS Memory Info *****" ++ nl ++
  lit "DYNAMIC MEMORY HEAP:       " ++ right 5 (decimal used) ++ lit " of " ++ decimal total ++ nl ++
  lit "STATIC QUEUE MEMORY HEAP:  " ++ right 5 (decimal queues) ++ lit " of " ++
  decimal QUEUE_HEAP_SIZE ++ nl.

(** The memory report: the four sizes in decimal, if they fit in 16 bits with a
    sign. *)
Lemma OSAvailableMemory_text s used total str buf pos :
  0 <= used < 2 ^ 15 -> 0 <= total < 2 ^ 15 -> 0 <= iQueueAddress s * sizeof_OS_CPU_TYPE < 2 ^ 15 ->
  0 <= QUEUE_HEAP_SIZE < 2 ^ 15 -> length str = 8%nat ->
  let text := memory_text used total (iQueueAddress s * sizeof_OS_CPU_TYPE) in
  (pos + length (cstr text) <= length buf)%nat ->
  OSAvailableMemory used total str (buf, pos) s = Done (overlay buf pos (cstr text)) (set_PRIMASK false s).
Proof.
  intros Hu Ht Hq Hh Hs text Hr. subst text.
  unfold cstr in Hr. unfold memory_text in *. rewrite !length_app in Hr. apply from_start.
  pose proof (emits2_right 1 used Hu ltac:(lia)) as E1. pose proof (emits2_decimal total Ht) as E2.
  pose proof (emits2_right 1 _ Hq ltac:(lia)) as E3. pose proof (emits2_decimal QUEUE_HEAP_SIZE Hh) as E4.
  change (6 - 1)%nat with 5%nat in E1, E3. cbn in Hr.
  unfold OSAvailableMemory.
  next_text (emits_cstr (nl ++ lit "***** BRTOS Memory Info *****" ++ nl) eq_refl).
  next_text (emits_cstr (lit "DYNAMIC MEMORY HEAP:       ") eq_refl).
  rewrite bind_enter, bind_exit, set_PRIMASK_twice.
  next_number E1. cbn [fst snd]. next_text (emits_cstr (lit " of ") eq_refl).
  next_number E2. cbn [fst snd].
  next_text (emits_cstr (nl ++ lit "STATIC QUEUE MEMORY HEAP:  ") eq_refl).
  rewrite bind_enter, bind_gets. cbv zeta. rewrite bind_exit, !set_PRIMASK_twice.
  change (iQueueAddress (set_PRIMASK true s)) with (iQueueAddress s). rewrite uint16_small by lia.
  next_number E3. cbn [fst snd]. next_text (emits_cstr (lit " of ") eq_refl).
  next_number E4. cbn [fst snd]. next_text (emits_cstr nl eq_refl). cbn [fst snd].
  rewrite put_end by room. by rewrite <- !app_assoc.
Qed.

(** The uptime, when the local buffer is large enough. *)
Definition uptime_report (t : OSTime) (d : OSDate) : list Z :=
  nl ++ lit "BRTOS UPTIME: " ++
  (if RTC_Day d >? 0 then decimal (RTC_Day d) ++ lit "d " else []) ++
  decimal (RTC_Hour t) ++ lit "h " ++ decimal (RTC_Minute t) ++ lit "m " ++
  decimal (RTC_Second t) ++ lit "s" ++ nl.

Definition bytes (t : OSTime) (d : OSDate) : Prop :=
  0 <= RTC_Day d < 256 /\ 0 <= RTC_Hour t < 256 /\ 0 <= RTC_Minute t < 256 /\ 0 <= RTC_Second t < 256.

Lemma day_writes n s :
  0 <= n < 256 ->
  writes 7 (fun st => if n >? 0 then
            (st <- lift (append_number n st) ;; t <- lift (append (C_STR "d ") (fst st)) ;; ret (t, snd st))%prog
          else ret st) s s (if n >? 0 then decimal n ++ lit "d " else []).
Proof.
  intros Hn. destruct (n >? 0); [|apply writes_nil].
  pose proof (emits2_decimal n ltac:(lia)) as E. apply writes_from. intros buf pos str Hr Hs.
  rewrite length_app in Hr. cbn in Hr.
  next_number E. cbn [fst snd]. next_text (emits_cstr (lit "d ") eq_refl).
  eexists. split; [done|]. done.
Qed.

(** The uptime report, if the local buffer had room for it. *)
Lemma OSUptimeInfo_text s v str buf pos :
  bytes (OSUptime v) (OSUpDate v) -> (7 <= length str)%nat ->
  let text := uptime_report (OSUptime v) (OSUpDate v) in
  (pos + length (cstr text) <= length buf)%nat ->
  OSUptimeInfo str v (buf, pos) s = Done (overlay buf pos (cstr text)) (set_PRIMASK false s).
Proof.
  intros (Hd & Hh & Hm & Hs) Hl text Hr. subst text. unfold cstr in Hr. unfold uptime_report in *.
  rewrite !length_app in Hr.
  pose proof (day_writes _ (set_PRIMASK false s) Hd) as E0.
  pose proof (emits2_decimal (RTC_Hour (OSUptime v)) ltac:(lia)) as E1.
  pose proof (emits2_decimal (RTC_Minute (OSUptime v)) ltac:(lia)) as E2.
  pose proof (emits2_decimal (RTC_Second (OSUptime v)) ltac:(lia)) as E3.
  revert E0 Hr. generalize (if RTC_Day (OSUpDate v) >? 0 then decimal (RTC_Day (OSUpDate v)) ++ lit "d " else []).
  intros x E0 Hr. cbn in Hr. apply from_start.
  unfold OSUptimeInfo. rewrite bind_enter. cbv zeta. rewrite bind_exit, set_PRIMASK_twice.
  next_text (emits_cstr (nl ++ lit "BRTOS UPTIME: ") eq_refl).
  match goal with
  | |- context [bind (if _ then bind (lift (_ _ ((overlay _ _ ?a, _), _))) _ else _) ?k _] =>
      destruct (bind_writes _ _ buf pos a str k _ _ E0) as (str' & E & Hl'); [room|lia|rewrite E; clear E]
  end.
  next_number E1. cbn [fst snd]. next_text (emits_cstr (lit "h ") eq_refl).
  next_number E2. cbn [fst snd]. next_text (emits_cstr (lit "m ") eq_refl).
  next_number E3. cbn [fst snd]. next_text (emits_cstr (lit "s" ++ nl) eq_refl). cbn [fst snd].
  rewrite put_end by room. by rewrite <- !app_assoc.
Qed.

Lemma PrintDecimal_overflows val buff : length buff = 6%nat -> PrintDecimal val buff = None.
Proof.
  intros Hl. unfold PrintDecimal. rewrite fill_eq by lia. cbn [mbind option_bind].
  unfold put. by rewrite lookup_ge_None_2 by (rewrite length_overlay; cbn; lia).
Qed.

(** The local buffer of [OSUptimeInfo] is one byte too short: whatever the uptime,
    the first number printed into it overflows it. *)
Theorem OSUptimeInfo_overflows s v str string :
  length str = uptime_str -> OSUptimeInfo str v string s = Fault.
Proof.
  intros Hl. unfold OSUptimeInfo. rewrite bind_enter, bind_exit, set_PRIMASK_twice.
  assert (forall n t, append_number n (t, str) = None) as Hn.
  { intros n t. unfold append_number. cbn [snd]. by rewrite PrintDecimal_overflows. }
  unfold bind at 1. cbn [lift].
  destruct (append _ string) as [t|]; [|done]. cbn [rbind]. unfold bind at 1.
  destruct (_ >? _); cbn [rbind bind lift ret]; by rewrite Hn.
Qed.
End numbers.

(** ** Evaluating the hypotheses *)
Section checker.
Context `{C : Config}.
Variable memory_at : Z -> list Z.

Definition stack_seenb (m : gmap Z Z) (lo sp : Z) : bool :=
  forallb (fun j => bool_decide (is_Some (m !! (sp - 4 * j)))) (seqZ 0 ((sp - lo + 3) / 4)).

Lemma stack_seenb_sound m lo sp : stack_seenb m lo sp = true -> stack_seen m lo sp.
Proof.
  intros H j Hj Hl. unfold stack_seenb in H. rewrite forallb_forall in H.
  apply (bool_decide_eq_true_1 _), H, list_elem_of_In, elem_of_seqZ.
  pose proof (Z.div_mod (sp - lo + 3) 4). pose proof (Z.mod_pos_bound (sp - lo + 3) 4). lia.
Qed.

(** The report on a task, from a run of the code. *)
Lemma reportable_run s c name rest a i usage :
  memory_at (TaskName c) = name ++ 0 :: rest ->
  forallb (fun x => negb (x =? 0)) name && (length name <=? 24)%nat &&
    rangeb (Priority c) PriorityType_bits && (4 <=? StackInit c) && (StackPoint c <? 2 ^ 32) &&
    stack_seenb (mem s) (StackInit c) (StackPoint c) && rangeb usage (2 ^ 15) &&
    (usage =? StackInit c + StackSize c - (a + i * 4)) = true ->
  scan_stack (Z.to_nat (StackPoint c - StackInit c)) (mem s) (StackPoint c) (StackInit c) 0 = Some (a, i) ->
  reportable memory_at s c name usage.
Proof.
  intros Hn Hb Hrun. repeat (apply andb_true_iff in Hb as [Hb ?]).
  repeat match goal with H : rangeb _ _ = true |- _ => apply rangeb_sound in H end. to_prop.
  assert (stack_seen (mem s) (StackInit c) (StackPoint c)) as Hs by by apply stack_seenb_sound.
  destruct (scan_stack_spec (mem s) (StackInit c) (StackPoint c)) as (a' & i' & Hr & Ht);
    [done|done|done|]. rewrite Hrun in Hr. injection Hr as <- <-.
  split; try done; try lia; [by apply nonzero|by apply Nat.leb_le|by exists rest|].
  intros top Htop. rewrite (stack_top_fun _ _ _ _ _ Htop Ht). lia.
Qed.
End checker.

(** ** Examples *)

Section examples.
#[local] Existing Instance sample_config.

(** The tasks of [sample], the second with three words on its stack. *)
Definition info_mem : gmap Z Z :=
  list_to_map (imap (fun i w => (0x20000864 - 4 * Z.of_nat i, w)) ([7; 0; 9] ++ replicate 22 0)).
Definition info_os : OS :=
  set_mem info_mem (set_ContextTask
    (aset (ContextTask sample) 2 (set_StackPoint 0x20000864 (sample_task 2 5))) sample).
Definition info_names (p : Z) : list Z :=
  if p =? 1 then C_STR "Idle Task" else if p =? 2 then C_STR "System Time" else C_STR "Network".
Definition info_name (j : Z) : list Z := cstring (info_names j).
Definition info_usage (j : Z) : Z := if j =? 2 then 936 else 1024.

Lemma info_reportable : all_reportable info_names info_os info_name info_usage.
Proof.
  intros j c Hj Hc He. assert (j = 1 \/ j = 2 \/ j = 3 \/ 4 <= j <= 10) as [->|[->|[->|Hge]]]
    by (change NUMBER_OF_TASKS with 10 in Hj; lia).
  - cbv in Hc. injection Hc as <-. by apply (reportable_run _ _ _ _ [] 0x20000400 0).
  - cbv in Hc. injection Hc as <-. by apply (reportable_run _ _ _ _ [] 0x20000818 16).
  - cbv in Hc. injection Hc as <-. by apply (reportable_run _ _ _ _ [] 0x20000C00 0).
  - assert (forallb (fun i => match aget (ContextTask info_os) i with
                              | Some c => Priority c =? EMPTY_PRIO | None => false end) (seqZ 4 7) = true) as Hall
      by by vm_compute.
    rewrite forallb_forall in Hall. specialize (Hall j ltac:(apply list_elem_of_In, elem_of_seqZ; lia)).
    rewrite Hc in Hall. congruence.
Qed.

Lemma OSTaskList_report_witness :
  let text := report info_os info_name info_usage in
  let buf' := overlay (replicate 400 0) 2 (cstr text) in
  OSTaskList info_names (replicate 9 1) (replicate 400 0, 2%nat) info_os
    = Done buf' (unmasked (existsb (installed info_os) (seqZ 1 NUMBER_OF_TASKS)) info_os) /\
  cstring (drop 2 buf') = text /\ length text = (186 + 57 * count info_os)%nat.
Proof.
  apply (OSTaskList_report info_names info_os info_name info_usage (replicate 9 1) (replicate 400 0) 2);
    [done|apply info_reportable|done|].
  vm_compute. lia.
Defined.

Lemma OSCPULoad_text_witness :
  OSCPULoad (replicate 40 0, 0%nat) (set_LastOSDuty 427 sample)
  = Done (overlay (replicate 40 0) 0 (cstr (nl ++ lit "CPU LOAD: " ++ lit "42.7%" ++ nl)))
      (set_PRIMASK false (set_LastOSDuty 427 sample)).
Proof. apply (OSCPULoad_text (set_LastOSDuty 427 sample) (replicate 40 0) 0); [done|]. vm_compute. lia. Defined.

Lemma OSUptimeInfo_overflows_witness :
  OSUptimeInfo (replicate 6 0) leap_eve (replicate 100 0, 0%nat) sample = Fault.
Proof. by apply (OSUptimeInfo_overflows sample leap_eve (replicate 6 0) (replicate 100 0, 0%nat)). Defined.

(** The rows of the three tasks. *)
Example report_rows :
  concat (entry info_os info_name info_usage <$> seqZ 1 3) =
  lit "[1]  Idle Task                 R         0         1024" ++ nl ++
  lit "[2]  System Time               R         5          936" ++ nl ++
  lit "[3]  Network                   R         9         1024" ++ nl.
Proof. by vm_compute. Qed.
End examples.
