(* ===== verification/Watermark.v ===== *)
(** * Stacks with a watermark

    The builds with [WATERMARK]: hal/GCC_CORTEX-M4/HAL.c fills the free part of the
    stack of a new task with a pattern, and [OSTaskList] of brtos/OSInfo.c looks for
    the deepest word that does not hold it any more. *)

From Stdlib Require Import ZArith Lia Ascii String.
From stdpp Require Import base gmap numbers list.
From S2P Require Import Prelude Config State Sched Hal Clock Kernel Sample Time Text Info InfoSpec.
#[local] Open Scope Z_scope.
#[local] Open Scope prog_scope.

(** ** The code *)

Definition WATERMARK_WORD : Z := 0x24242424.

(** [(((NumberOfInstalledTasks + '0') << 24) + 'T' + ('S' << 8) + ('K' << 16))] *)
Definition stack_tag (NumberOfInstalledTasks : Z) : Z :=
  uint32 (Z.shiftl (NumberOfInstalledTasks + 48) 24 + 84 + Z.shiftl 83 8 + Z.shiftl 75 16).

(** [do{ *--stk_pt = 0x24242424; }while (stk_pt > temp_stk_pt)]; [fuel] bounds its
    iterations after the first. *)
Fixpoint fill_stack (fuel : nat) (stk_pt temp_stk_pt : Z) (m : gmap Z Z) : option (gmap Z Z) :=
  let stk_pt := uint32 (stk_pt - sizeof_OS_CPU_TYPE) in
  let m := <[stk_pt := WATERMARK_WORD]> m in
  if stk_pt >? temp_stk_pt then
    match fuel with O => None | S fuel' => fill_stack fuel' stk_pt temp_stk_pt m end
  else Some m.

(** The loop of [OSTaskList]: leave it at the first word that
    differs from the pattern, and at the latest behind [StackPoint]. *)
Fixpoint scan_watermark (fuel : nat) (m : gmap Z Z) (sp_address StackPoint : Z) : option Z :=
  w ← m !! sp_address;
  if negb (w =? WATERMARK_WORD) then Some sp_address
  else
    let sp_address := uint32 (sp_address + 4) in
    if sp_address <=? StackPoint then
      match fuel with O => None | S fuel' => scan_watermark fuel' m sp_address StackPoint end
    else Some sp_address.

Section operations.
Context `{C : Config}.

Definition CreateDVirtualStack_watermark (FctPtr stk stk_size parameters : Z) : prog Z := fun s =>
  let temp_stk_pt := uint32 (stk + sizeof_OS_CPU_TYPE) in
  let m := <[stk := stack_tag (NumberOfInstalledTasks s)]> (mem s) in
  let '(ret_stk, m) := push_words (uint32 (stk + stk_size))
                         (initial_frame FctPtr 0x01010101 parameters) m in
  match fill_stack (Z.to_nat ((ret_stk - temp_stk_pt) / sizeof_OS_CPU_TYPE)) ret_stk temp_stk_pt m with
  | Some m => Done ret_stk (set_mem m s)
  | None => Fault
  end.

Definition CreateVirtualStack_watermark (FctPtr NUMBER_OF_STACKED_BYTES parameters : Z) : prog unit := fun s =>
  let base := uint32 (STACK_ADDR + iStackAddress s * sizeof_OS_CPU_TYPE) in
  let temp_stk_pt := uint32 (base + sizeof_OS_CPU_TYPE) in
  let m := <[base := stack_tag (NumberOfInstalledTasks s)]> (mem s) in
  let top := iStackAddress s + NUMBER_OF_STACKED_BYTES / sizeof_OS_CPU_TYPE in
  let '(sp, m) := push_words (uint32 (STACK_ADDR + top * sizeof_OS_CPU_TYPE))
                    (initial_frame FctPtr (NUMBER_OF_STACKED_BYTES / 10) parameters) m in
  match fill_stack (Z.to_nat ((sp - temp_stk_pt) / sizeof_OS_CPU_TYPE)) sp temp_stk_pt m with
  | Some m => Done tt (set_mem m s)
  | None => Fault
  end.

(** The bytes of the stack of the task [j] that [OSTaskList] reports. *)
Definition stack_used_watermark (j : Z) : prog Z :=
  UserEnterCritical ;;;
  c <- Task j ;;
  let sp_end := StackInit c in
  UserExitCritical ;;;
  c <- Task j ;;
  m <- gets mem ;;
  sp_address <- lift (scan_watermark (Z.to_nat ((StackPoint c - sp_end) / 4)) m (uint32 (sp_end + 4)) (StackPoint c)) ;;
  UserEnterCritical ;;;
  c <- Task j ;;
  let VirtualStack := uint16 (uint32 (StackInit c + StackSize c - (sp_address + 4))) in
  UserExitCritical ;;;
  ret VirtualStack.

Definition OSTaskList_watermark (memory_at : Z -> list Z) : list Z -> text -> prog (list Z) :=
  OSTaskList_with memory_at stack_used_watermark.
End operations.

(** ** Filling *)

(** The words from [lo] on and below [hi] hold the pattern. *)
Definition unused (m : gmap Z Z) (lo hi : Z) : Prop :=
  forall k, 0 <= k -> lo + 4 * k < hi -> m !! (lo + 4 * k) = Some WATERMARK_WORD.

(** The loop ends.  It fills the [n] words below the frame down to [temp_stk_pt], or,
    when there is none, one word below the frame nevertheless. *)
Lemma fill_stack_spec n : forall fuel temp m,
  4 <= temp -> temp + 4 * Z.of_nat (S n) < 2 ^ 32 -> (n <= fuel)%nat ->
  exists m', fill_stack fuel (temp + 4 * Z.of_nat (S n)) temp m = Some m' /\
    unused m' temp (temp + 4 * Z.of_nat (S n)) /\
    (forall a, a < temp \/ temp + 4 * Z.of_nat (S n) <= a -> m' !! a = m !! a).
Proof.
  induction n as [|n IH]; intros fuel temp m Ht Hlt Hf.
  - exists (<[temp := WATERMARK_WORD]> m). split_and!.
    + destruct fuel; cbn [fill_stack]; unfold sizeof_OS_CPU_TYPE; rewrite uint32_small by lia;
        replace (temp + 4 * Z.of_nat 1 - 4) with temp by lia; by rewrite Z.gtb_ltb, (proj2 (Z.ltb_ge _ _)) by lia.
    + intros k Hk Hl. replace (temp + 4 * k) with temp by lia. apply lookup_insert_eq.
    + intros a Ha. apply lookup_insert_ne. lia.
  - destruct fuel as [|fuel]; [lia|].
    destruct (IH fuel temp (<[temp + 4 * Z.of_nat (S n) := WATERMARK_WORD]> m)) as (m' & E & Hu & Ho);
      [lia..|].
    exists m'. split_and!.
    + cbn [fill_stack]. unfold sizeof_OS_CPU_TYPE. rewrite uint32_small by lia.
      replace (temp + 4 * Z.of_nat (S (S n)) - 4) with (temp + 4 * Z.of_nat (S n)) by lia.
      by rewrite (proj2 (Z.gtb_lt _ _)) by lia.
    + intros k Hk Hl. destruct (decide (k = Z.of_nat (S n))) as [->|]; [|apply Hu; lia].
      rewrite Ho by lia. apply lookup_insert_eq.
    + intros a Ha. rewrite Ho by lia. apply lookup_insert_ne. lia.
Qed.

(** The room of a stack: a whole number of words, the tag, at least one word of pattern
    and the first frame. *)
Definition roomy (stk stk_size : Z) : Prop :=
  0 <= stk /\ NUMBER_MIN_OF_STACKED_BYTES + 8 <= stk_size /\ stk + stk_size < 2 ^ 32 /\ (4 | stk_size).

Section creation.
Context `{C : Config}.
Implicit Types (s : OS).

(** The stack of a new task: the tag, the pattern, and the frame from which the task
    starts; no word outside of the stack changes. *)
Lemma CreateDVirtualStack_watermark_spec s FctPtr stk stk_size parameters :
  roomy stk stk_size ->
  exists sp m, CreateDVirtualStack_watermark FctPtr stk stk_size parameters s = Done sp (set_mem m s) /\
    sp = stk + stk_size - NUMBER_MIN_OF_STACKED_BYTES /\
    m !! stk = Some (stack_tag (NumberOfInstalledTasks s)) /\
    unused m (stk + 4) sp /\
    (forall i w, initial_frame FctPtr 0x01010101 parameters !! i = Some w ->
      m !! (stk + stk_size - 4 * (Z.of_nat i + 1)) = Some (uint32 w)) /\
    (forall a, a < stk \/ stk + stk_size <= a -> m !! a = mem s !! a).
Proof.
  unfold roomy, NUMBER_MIN_OF_STACKED_BYTES. intros (H0 & Hmin & Hmax & [q Hq]).
  unfold CreateDVirtualStack_watermark. change sizeof_OS_CPU_TYPE with 4.
  rewrite (uint32_small (stk + stk_size)), (uint32_small (stk + 4)) by lia.
  destruct (push_words_spec (initial_frame FctPtr 0x01010101 parameters) (stk + stk_size)
              (<[stk := stack_tag (NumberOfInstalledTasks s)]> (mem s))) as (m & -> & Hin & Hout); [cbn; lia|].
  cbv beta iota zeta.
  assert (length (initial_frame FctPtr 0x01010101 parameters) = 17%nat) as Hlen by done.
  rewrite Hlen in Hout |- *. destruct (Z_of_nat_complete (q - 19)) as [n Hn]; [lia|].
  replace (stk + stk_size - 4 * Z.of_nat 17) with (stk + 4 + 4 * Z.of_nat (S n)) in Hout |- * by lia.
  destruct (fill_stack_spec n (Z.to_nat ((stk + 4 + 4 * Z.of_nat (S n) - (stk + 4)) / 4)) (stk + 4) m)
    as (m' & -> & Hu & Ho); [lia|lia| |].
  { replace (stk + 4 + 4 * Z.of_nat (S n) - (stk + 4)) with (Z.of_nat (S n) * 4) by lia.
    rewrite Z.div_mul by done. lia. }
  exists (stk + 4 + 4 * Z.of_nat (S n)), m'. split_and!; [done|lia| |done| |].
  - rewrite Ho, Hout by lia. apply lookup_insert_eq.
  - intros i w Hi. assert (i < 17)%nat by (rewrite <- Hlen; by eapply lookup_lt_Some).
    rewrite Ho by lia. by apply Hin.
  - intros a Ha. rewrite Ho, Hout by lia. apply lookup_insert_ne. lia.
Qed.

(** A stack of the least size the kernel accepts has no room for the pattern: the loop
    nevertheless writes a word, below the stack. *)
Lemma CreateDVirtualStack_watermark_underflow s FctPtr stk parameters :
  4 <= stk -> stk + NUMBER_MIN_OF_STACKED_BYTES < 2 ^ 32 ->
  exists m, CreateDVirtualStack_watermark FctPtr stk NUMBER_MIN_OF_STACKED_BYTES parameters s = Done stk (set_mem m s) /\
    m !! (stk - 4) = Some WATERMARK_WORD.
Proof.
  unfold NUMBER_MIN_OF_STACKED_BYTES. intros H0 H1. unfold CreateDVirtualStack_watermark.
  change sizeof_OS_CPU_TYPE with 4. rewrite (uint32_small (stk + 68)), (uint32_small (stk + 4)) by lia.
  destruct (push_words_spec (initial_frame FctPtr 0x01010101 parameters) (stk + 68)
              (<[stk := stack_tag (NumberOfInstalledTasks s)]> (mem s))) as (m & -> & _); [cbn; lia|].
  cbv beta iota zeta. cbn [length initial_frame]. replace (stk + 68 - 4 * Z.of_nat 17) with stk by lia.
  exists (<[stk - 4 := WATERMARK_WORD]> m). split; [|apply lookup_insert_eq].
  assert (forall fuel, fill_stack fuel stk (stk + 4) m = Some (<[stk - 4 := WATERMARK_WORD]> m)) as ->; [|done].
  intros fuel. destruct fuel; cbn [fill_stack]; unfold sizeof_OS_CPU_TYPE; rewrite uint32_small by lia;
    by rewrite Z.gtb_ltb, (proj2 (Z.ltb_ge _ _)) by lia.
Qed.

(** ** Finding the depth *)

(** The deepest word of the stack of a task that does not hold the pattern is at [low]. *)
Record depth (m : gmap Z Z) (c : ContextType) (low : Z) : Prop := {
  dp_lo : 0 <= StackInit c;
  dp_top : StackPoint c + 4 < 2 ^ 32;
  dp_low : exists k, 0 <= k /\ low = StackInit c + 4 + 4 * k;
  dp_sp : low <= StackPoint c;
  dp_unused : unused m (StackInit c + 4) low;
  dp_used : exists w, m !! low = Some w /\ w <> WATERMARK_WORD;
}.

Lemma scan_watermark_spec m sp : forall (n fuel : nat) a w,
  0 <= a -> a + 4 * Z.of_nat n <= sp -> sp + 4 < 2 ^ 32 -> (n <= fuel)%nat ->
  unused m a (a + 4 * Z.of_nat n) -> m !! (a + 4 * Z.of_nat n) = Some w -> w <> WATERMARK_WORD ->
  scan_watermark fuel m a sp = Some (a + 4 * Z.of_nat n).
Proof.
  induction n as [|n IH]; intros fuel a w Ha Hs Hsp Hf Hu Hw Hne.
  - rewrite Z.mul_0_r, Z.add_0_r in *.
    destruct fuel; cbn [scan_watermark]; rewrite Hw; cbn; by rewrite (proj2 (Z.eqb_neq _ _)).
  - destruct fuel as [|fuel]; [lia|]. cbn [scan_watermark].
    pose proof (Hu 0 ltac:(lia) ltac:(lia)) as H0. rewrite Z.mul_0_r, Z.add_0_r in H0. rewrite H0.
    cbn [mbind option_bind]. rewrite Z.eqb_refl. cbn [negb]. rewrite uint32_small by lia.
    rewrite (proj2 (Z.leb_le _ _)) by lia.
    replace (a + 4 * Z.of_nat (S n)) with (a + 4 + 4 * Z.of_nat n) in * by lia.
    apply (IH _ _ w); try done; try lia.
    intros k Hk Hl. replace (a + 4 + 4 * k) with (a + 4 * (k + 1)) by lia. apply Hu; lia.
Qed.

(** The report finds the deepest word, but gives one word less than the bytes from it
    to the top of the stack. *)
Lemma stack_used_watermark_eq s j c low b :
  aget (ContextTask s) j = Some c -> depth (mem s) c low ->
  0 <= StackInit c + StackSize c - low - 4 < 2 ^ 16 ->
  stack_used_watermark j (set_PRIMASK b s) = Done (StackInit c + StackSize c - low - 4) (set_PRIMASK false s).
Proof.
  intros Hc [Hlo Htop (k & Hk & ->) Hsp Hu (w & Hw & Hne)] Hr.
  destruct (Z_of_nat_complete k Hk) as [n ->].
  assert (scan_watermark (Z.to_nat ((StackPoint c - StackInit c) / 4)) (mem s) (StackInit c + 4) (StackPoint c)
          = Some (StackInit c + 4 + 4 * Z.of_nat n)) as Hscan.
  { apply (scan_watermark_spec _ _ _ _ _ w); try done; try lia.
    rewrite <- (Nat2Z.id n) at 1. apply Z2Nat.inj_le; [lia|apply Z.div_pos; lia|apply Z.div_le_lower_bound; lia]. }
  unfold stack_used_watermark. rewrite bind_enter, set_PRIMASK_twice, (bind_Task j c) by done. cbv zeta.
  rewrite bind_exit, set_PRIMASK_twice, (bind_Task j c), bind_gets by done.
  rewrite uint32_small by lia.
  rewrite (bind_Done _ _ _ (StackInit c + 4 + 4 * Z.of_nat n) (set_PRIMASK false s)) by (cbn; by rewrite Hscan).
  rewrite bind_enter, set_PRIMASK_twice, (bind_Task j c) by done.
  rewrite bind_exit, set_PRIMASK_twice, uint32_small, uint16_small by lia.
  unfold ret. f_equal. lia.
Qed.
End creation.

(** ** From the creation of a task to the report *)
Section use.
Context `{C : Config}.
Implicit Types (s : OS).

(** The watermark measures the depth a stack reached.  A task is created on a stack of
    [stk_size] bytes at [stk] and runs.  If it left alone the words below [low], wrote
    another word than the pattern at [low], and waits with its stack pointer there or
    above, the report gives the bytes from [low] to the top of the stack less one
    word, whatever the task wrote above [low] and took back since. *)
Theorem watermark_depth s FctPtr stk stk_size parameters :
  roomy stk stk_size -> stk_size < 2 ^ 16 ->
  exists sp m, CreateDVirtualStack_watermark FctPtr stk stk_size parameters s = Done sp (set_mem m s) /\
    forall s' j c n w b,
    let low := stk + 4 + 4 * n in
    aget (ContextTask s') j = Some c -> StackInit c = stk -> StackSize c = stk_size ->
    low <= StackPoint c -> StackPoint c + 4 <= stk + stk_size -> 0 <= n -> low <= sp ->
    (forall a, stk <= a < low -> mem s' !! a = m !! a) -> mem s' !! low = Some w -> w <> WATERMARK_WORD ->
    stack_used_watermark j (set_PRIMASK b s') = Done (stk + stk_size - low - 4) (set_PRIMASK false s').
Proof.
  intros Hr Hs. pose proof Hr as (H0 & Hmin & Hmax & [q Hq]). unfold NUMBER_MIN_OF_STACKED_BYTES in *.
  destruct (CreateDVirtualStack_watermark_spec s FctPtr stk stk_size parameters Hr)
    as (sp & m & -> & Hsp & _ & Hu & _ & _). unfold NUMBER_MIN_OF_STACKED_BYTES in *.
  exists sp, m. split; [done|]. intros s' j c n w b Hc Hi Hz Hp Hp4 Hn Hlow Ha Hw Hne.
  rewrite <- Hi, <- Hz. apply stack_used_watermark_eq; [done| |lia]. split; try lia.
  - exists n. lia.
  - intros k Hk Hl. rewrite Ha by lia. rewrite Hi. apply Hu; lia.
  - exists w. by rewrite Hi.
Qed.

(** The report of the tasks of these builds: that of [OSTaskList], with the depths. *)
Record deep (memory_at : Z -> list Z) (s : OS) (c : ContextType) (name : list Z) (low : Z) : Prop := {
  de_prio : 0 <= Priority c < PriorityType_bits;
  de_text : Forall (fun x => x <> 0) name;
  de_len : (length name <= 24)%nat;
  de_name : exists rest, memory_at (TaskName c) = name ++ 0 :: rest;
  de_depth : depth (mem s) c low;
  de_range : 0 <= StackInit c + StackSize c - low - 4 < 2 ^ 15;
}.

Theorem OSTaskList_watermark_report memory_at s name usage low str buf pos :
  Z.of_nat (length (ContextTask s)) = NUMBER_OF_TASKS + 1 ->
  (forall j c, 1 <= j <= NUMBER_OF_TASKS -> aget (ContextTask s) j = Some c ->
    (Priority c =? EMPTY_PRIO) = false ->
    deep memory_at s c (name j) (low j) /\ usage j = StackInit c + StackSize c - low j - 4) ->
  length str = 9%nat -> (pos + 187 + 57 * count s <= length buf)%nat ->
  let text := report s name usage in
  let buf' := overlay buf pos (cstr text) in
  OSTaskList_watermark memory_at str (buf, pos) s
    = Done buf' (unmasked (existsb (installed s) (seqZ 1 NUMBER_OF_TASKS)) s) /\
  cstring (drop pos buf') = text /\ length text = (186 + 57 * count s)%nat.
Proof.
  intros Hl Hr Hs Hroom. apply OSTaskList_with_report; [done| |done|done].
  intros j c Hj Hc He. destruct (Hr j c Hj Hc He) as [[Hp Ht Hn Hm Hd Hrg] Hu].
  split; try done; rewrite Hu; [|done]. intros b. by apply stack_used_watermark_eq; [| |lia].
Qed.
End use.

(** ** Examples *)
Section examples.
#[local] Existing Instance sample_config.

(** A task on a new stack of 128 bytes, and the same task after 12 bytes deeper. *)
Definition fresh (FctPtr stk stk_size : Z) : option OS :=
  match CreateDVirtualStack_watermark FctPtr stk stk_size 7 sample with
  | Done sp s =>
      Some (set_ContextTask (aset (ContextTask s) 3
        (set_StackInit stk (set_StackSize stk_size (set_StackPoint sp (sample_task 3 9))))) s)
  | _ => None
  end.
Definition deeper (s : OS) : OS := set_mem (snd (push_words 0x20000C3C [1; 2; 3] (mem s))) s.
Definition used_of (s : option OS) : option Z :=
  s ← s; match stack_used_watermark 3 s with Done n _ => Some n | _ => None end.

(** The frame of a new task takes 68 bytes, and 64 are reported. *)
Example fresh_reported : used_of (fresh 0x8001235 0x20000C00 128) = Some 64.
Proof. by vm_compute. Qed.
Example deeper_reported : used_of (deeper <$> fresh 0x8001235 0x20000C00 128) = Some 76.
Proof. by vm_compute. Qed.

Lemma watermark_depth_witness :
  exists sp m, CreateDVirtualStack_watermark 0x8001235 0x20000C00 128 7 sample = Done sp (set_mem m sample) /\
    let s := set_ContextTask (aset (ContextTask sample) 3
        (set_StackInit 0x20000C00 (set_StackSize 128 (set_StackPoint sp (sample_task 3 9)))))
        (set_mem (<[0x20000C10 := 5]> m) sample) in
    sp = 0x20000C3C /\ stack_used_watermark 3 (set_PRIMASK false s) = Done 108 (set_PRIMASK false s).
Proof.
  destruct (watermark_depth sample 0x8001235 0x20000C00 128 7) as (sp & m & E & H).
  - split; [done|split; [by vm_compute|split; [done|by exists 32]]].
  - done.
  - exists sp, m. split; [done|]. intros s. assert (sp = 0x20000C3C) as ->.
    { vm_compute in E. by injection E. }
    split; [done|].
    apply (H s 3 (set_StackInit 0x20000C00 (set_StackSize 128 (set_StackPoint 0x20000C3C (sample_task 3 9)))) 3 5 false);
      try done.
    + intros a Ha. apply lookup_insert_ne. cbn in Ha. lia.
    + apply lookup_insert_eq.
Defined.
End examples.
