(* ===== verification/Load.v ===== *)
(** * The load of the tasks

    Builds with COMPUTES_TASK_LOAD: the time every task has run, which the switch
    of tasks charges (COMPUTE_TASK_LOAD in brtos/BRTOS.c, OS_INT_EXIT in BRTOS.h),
    and the report on it (OSRuntimeStats in brtos/OSInfo.c).  The member [Runtime]
    of the control blocks, which the other builds do not have, is an array beside
    them.  The timer is the application's: [timer] is what a reading of it gave. *)

From Stdlib Require Import ZArith Lia Ascii String.
From stdpp Require Import base gmap numbers list.
From S2P Require Import Prelude Config State Sched Hal Clock Kernel Sample Time Text Info InfoSpec.
#[local] Open Scope Z_scope.
#[local] Open Scope prog_scope.

(** ** The code *)

(** BRTOS.c: [ContextTask[i].Runtime] and the two counters. *)
Record load_vars := mkLoad { Runtime : list Z; OSTimeTaskSwitched : Z; OSTotalRuntime : Z }.

Definition COMPUTE_TASK_LOAD (timer currentTask : Z) (V : load_vars) : option load_vars :=
  let OSTotalRuntime := timer in
  R ← (if OSTotalRuntime >? OSTimeTaskSwitched V then
         r ← aget (Runtime V) currentTask;
         Some (aset (Runtime V) currentTask (uint32 (r + (OSTotalRuntime - OSTimeTaskSwitched V))))
       else Some (Runtime V));
  Some (mkLoad R OSTotalRuntime OSTotalRuntime).

(** [PreInstallTasks]: [for(i=1;i<=NUMBER_OF_TASKS;i++) ContextTask[i].Runtime = 0]. *)
Fixpoint clear_runtimes (n : nat) (i : Z) (R : list Z) : list Z :=
  match n with
  | O => R
  | S n' => clear_runtimes n' (i + 1) (aset R i 0)
  end.

Section operations.
Context `{C : Config}.

Definition PreInstallTasks_load (V : load_vars) : load_vars :=
  mkLoad (clear_runtimes (Z.to_nat NUMBER_OF_TASKS) 1 (Runtime V)) (OSTimeTaskSwitched V) (OSTotalRuntime V).

(** [OS_INT_EXIT] of these builds. *)
Definition OS_INT_EXIT_load (timer : Z) (V : load_vars) : prog load_vars :=
  nesting <- gets iNesting ;;
  if negb (truthy nesting) then
    sel <- OSSchedule ;;
    modify (set_SelectedTask sel) ;;;
    cur <- gets currentTask ;;
    if negb (cur =? sel) then
      V <- lift (COMPUTE_TASK_LOAD timer cur V) ;;
      OS_SAVE_CONTEXT_SP ;;;
      sp <- gets SPvalue ;;
      upd_Task cur (set_StackPoint sp) ;;;
      modify (set_currentTask sel) ;;;
      c <- Task sel ;;
      modify (set_SPvalue (StackPoint c)) ;;;
      OS_RESTORE_SP_CONTEXT ;;;
      ret V
    else ret V
  else ret V.

(** [sprintf(str, ...)] of the text [x]. *)
Definition sprintf (x str : list Z) : option (list Z) :=
  if (length x <? length str)%nat then Some (overlay str 0 (cstr x)) else None.

(** [z = mem_cpy(string, src); string += z; for(count=0;count<(n-z);count++) *string++ = ' '] *)
Definition padded (n : nat) (src : list Z) (t : text) : option text :=
  '(dst, z) ← mem_cpy (fst t) (snd t) src 0; spaces (n - z) (dst, (snd t + z)%nat).

Section report.
Variable memory_at : Z -> list Z.

(** One iteration of the loop of [OSRuntimeStats]. *)
Definition stats_line (V : load_vars) (total_time j : Z) (st : text * list Z) : prog (text * list Z) :=
  c <- Task j ;;
  if negb (Priority c =? EMPTY_PRIO) then
    st <- lift (task_id j st) ;;
    t <- lift (padded 24 (memory_at (TaskName c)) (fst st)) ;;
    (* Get task runtime *)
    UserEnterCritical ;;;
    runtime <- lift (aget (Runtime V) j) ;;
    UserExitCritical ;;;
    (* Percentage calculation *)
    percentage <- lift (udiv runtime total_time) ;;
    (* Print task runtime *)
    str <- lift (sprintf (decimal runtime) (snd st)) ;;
    t <- lift (padded 12 str t) ;;
    str <- lift (sprintf (if percentage >? 0 then decimal percentage ++ lit "%" else lit "<1%") str) ;;
    t <- lift (append str t) ;;
    t <- lift (append (cstr nl) t) ;;
    ret (t, str)
  else ret st.

Fixpoint stats_lines (V : load_vars) (total_time : Z) (n : nat) (j : Z) (st : text * list Z) : prog (text * list Z) :=
  match n with
  | O => ret st
  | S n' => st <- stats_line V total_time j st ;; stats_lines V total_time n' (j + 1) st
  end.

(** [OSRuntimeStats]; [str] is its local buffer of 16 bytes, not initialised. *)
Definition line_of_stars : list Z := replicate 46 42.
Definition OSRuntimeStats (timer : Z) (V : load_vars) (str : list Z) (string : text) : prog (list Z) :=
  t <- lift (append (cstr (nl ++ line_of_stars ++ nl)) string) ;;
  t <- lift (append (cstr (lit "ID   NAME                    Abs Time   % Time " ++ nl)) t) ;;
  t <- lift (append (cstr (line_of_stars ++ nl)) t) ;;
  let total_time := timer / 100 in
  st <- stats_lines V total_time (Z.to_nat NUMBER_OF_TASKS) 1 (t, str) ;;
  t <- lift (append (cstr nl) (fst st)) ;;
  (* End of string *)
  lift (put (fst t) (snd t) 0).
End report.
End operations.

(** ** Accounting *)

Definition sum (l : list Z) : Z := foldr Z.add 0 l.

Lemma sum_app l1 l2 : sum (l1 ++ l2) = sum l1 + sum l2.
Proof. unfold sum. induction l1 as [|x l1 IH]; cbn; [|rewrite IH]; lia. Qed.

Lemma sum_nonneg l : Forall (fun x => 0 <= x) l -> 0 <= sum l.
Proof. unfold sum. induction 1; cbn; lia. Qed.

Lemma sum_middle l1 (x : Z) l2 : sum (l1 ++ x :: l2) = sum l1 + x + sum l2.
Proof. rewrite sum_app. cbn. fold (sum l2). lia. Qed.

Lemma aget_split (l : list Z) j r :
  aget l j = Some r -> exists l1 l2, l = l1 ++ r :: l2 /\ forall v, aset l j v = l1 ++ v :: l2.
Proof.
  unfold aget, aset. destruct (0 <=? j); [|done]. intros Hj.
  exists (take (Z.to_nat j) l), (drop (S (Z.to_nat j)) l). split; [by rewrite take_drop_middle|].
  intros v. apply insert_take_drop. by eapply lookup_lt_Some.
Qed.

(** Every tick of the timer up to the last switch was charged to some task. *)
Record accounted (V : load_vars) : Prop := {
  ac_runtime : Forall (fun r => 0 <= r) (Runtime V);
  ac_sum : sum (Runtime V) = OSTimeTaskSwitched V;
  ac_timer : 0 <= OSTimeTaskSwitched V < 2 ^ 32;
}.

(** The timer did not go back: the time since the last switch is charged to the
    task that leaves. *)
Lemma COMPUTE_TASK_LOAD_lemma V timer cur V' :
  accounted V -> OSTimeTaskSwitched V <= timer < 2 ^ 32 -> COMPUTE_TASK_LOAD timer cur V = Some V' ->
  accounted V' /\ OSTimeTaskSwitched V' = timer /\
  forall j r, aget (Runtime V) j = Some r ->
    aget (Runtime V') j = Some (r + if cur =? j then timer - OSTimeTaskSwitched V else 0).
Proof.
  intros [HR HS HT] Ht. unfold COMPUTE_TASK_LOAD.
  destruct (timer >? OSTimeTaskSwitched V) eqn:E; to_prop.
  - destruct (aget (Runtime V) cur) as [r|] eqn:Hr; [|done]. cbn [mbind option_bind]. intros [= <-].
    destruct (aget_split _ _ _ Hr) as (l1 & l2 & El & Ea). rewrite El in HR, HS.
    apply Forall_app in HR as [H1 H2]. apply Forall_cons in H2 as [H0 H2]. rewrite sum_middle in HS.
    pose proof (sum_nonneg _ H1). pose proof (sum_nonneg _ H2). rewrite uint32_small by lia.
    split_and!; [|done|].
    + rewrite Ea. split; cbn [Runtime OSTimeTaskSwitched]; [|rewrite sum_middle; lia|lia].
      apply Forall_app. split; [done|]. constructor; [lia|done].
    + intros j r' Hj. cbn [Runtime]. destruct (cur =? j) eqn:Ej; to_prop.
      * subst j. rewrite Hr in Hj. injection Hj as <-. by eapply aget_aset_eq.
      * by rewrite aget_aset_ne, Z.add_0_r.
  - cbn [mbind option_bind]. intros [= <-]. cbn [Runtime OSTimeTaskSwitched]. split_and!; [|done|].
    + split; cbn [Runtime OSTimeTaskSwitched]; [done|lia|lia].
    + intros j r Hj. rewrite Hj. f_equal. case_match; lia.
Qed.

Section switch.
Context `{C : Config}.
Implicit Types (s : OS) (V : load_vars).

(** What the charging exit does to the kernel is what the other builds do: it
    charges the task that leaves, if the task is switched, and nothing else. *)
Lemma OS_INT_EXIT_load_eq timer V s :
  OS_INT_EXIT_load timer V s =
    match OS_INT_EXIT s with
    | Done _ s' =>
        if currentTask s' =? currentTask s then Done V s'
        else match COMPUTE_TASK_LOAD timer (currentTask s) V with Some V' => Done V' s' | None => Fault end
    | _ => Fault
    end.
Proof.
  unfold OS_INT_EXIT_load. cbn. destruct (truthy (iNesting s)); cbn; [by rewrite Z.eqb_refl|].
  destruct (aget (PriorityVector s) _) as [sel|]; cbn; [|done].
  destruct (currentTask s =? sel) eqn:E; cbn; [by rewrite Z.eqb_refl|].
  destruct (COMPUTE_TASK_LOAD _ _ _); cbn.
  - destruct (aget (ContextTask s) _); cbn; [|done]. destruct (aget _ sel); cbn; [|done].
    by rewrite Z.eqb_sym, E.
  - destruct (aget (ContextTask s) _); cbn; [|done]. destruct (aget _ sel); cbn; [|done].
    by rewrite Z.eqb_sym, E.
Qed.

(** A run of the kernel: whatever does not switch the task, and exits from
    interrupts; the trace has the switches, each with the task that left and the
    time. *)
Inductive runs (s0 : OS) (V0 : load_vars) : list (Z * Z) -> OS -> load_vars -> Prop :=
| runs_start : runs s0 V0 [] s0 V0
| runs_other tr s s' V :
    runs s0 V0 tr s V -> currentTask s' = currentTask s -> runs s0 V0 tr s' V
| runs_exit tr s s' V V' timer :
    runs s0 V0 tr s V -> OS_INT_EXIT_load timer V s = Done V' s' ->
    runs s0 V0 (if currentTask s' =? currentTask s then tr else tr ++ [(currentTask s, timer)]) s' V'.

Lemma runs_switch s0 V0 tr s s' V V' cur timer :
  runs s0 V0 tr s V -> OS_INT_EXIT_load timer V s = Done V' s' -> currentTask s = cur ->
  (currentTask s' =? cur) = false -> runs s0 V0 (tr ++ [(cur, timer)]) s' V'.
Proof.
  intros Hr He <- Hc. pose proof (runs_exit _ _ _ _ _ _ _ _ Hr He) as H. by rewrite Hc in H.
Qed.

(** The time of the last switch, and what the task [j] ran, from time [t] on. *)
Definition last_time (t : Z) (tr : list (Z * Z)) : Z := default t (snd <$> last tr).
Fixpoint time_of (j t : Z) (tr : list (Z * Z)) : Z :=
  match tr with
  | [] => 0
  | (c, t') :: tr' => (if c =? j then t' - t else 0) + time_of j t' tr'
  end.
(** The timer does not go back and does not wrap. *)
Fixpoint forward (t : Z) (tr : list (Z * Z)) : Prop :=
  match tr with [] => True | (_, t') :: tr' => t <= t' < 2 ^ 32 /\ forward t' tr' end.

Lemma last_time_snoc t tr c t' : last_time t (tr ++ [(c, t')]) = t'.
Proof. unfold last_time. by rewrite last_snoc. Qed.

Lemma last_time_cons t c t' tr : last_time t ((c, t') :: tr) = last_time t' tr.
Proof. unfold last_time. rewrite last_cons. by destruct (last tr). Qed.

Lemma time_of_snoc j tr c t' : forall t,
  time_of j t (tr ++ [(c, t')]) = time_of j t tr + (if c =? j then t' - last_time t tr else 0).
Proof.
  induction tr as [|[c1 t1] tr IH]; intros t; [cbn; unfold last_time; cbn; lia|].
  cbn [app time_of]. rewrite IH, last_time_cons. lia.
Qed.

Lemma forward_snoc tr c t' : forall t,
  forward t (tr ++ [(c, t')]) <-> forward t tr /\ last_time t tr <= t' < 2 ^ 32.
Proof.
  induction tr as [|[c1 t1] tr IH]; intros t; [unfold last_time; cbn; naive_solver|].
  cbn [app forward]. rewrite IH, last_time_cons. naive_solver.
Qed.

(** C12: the time of the tasks.  Over any run of the kernel, as long as the timer neither
    goes back nor wraps, the runtime of every task grows by exactly the time during
    which it was the current task, up to the last switch; together the runtimes are
    the whole time: nothing is lost and nothing charged twice. *)
Theorem task_load_conserved s0 V0 tr s V :
  runs s0 V0 tr s V -> accounted V0 -> forward (OSTimeTaskSwitched V0) tr ->
  accounted V /\ OSTimeTaskSwitched V = last_time (OSTimeTaskSwitched V0) tr /\
  forall j r, aget (Runtime V0) j = Some r ->
    aget (Runtime V) j = Some (r + time_of j (OSTimeTaskSwitched V0) tr).
Proof.
  intros Hrun HA. induction Hrun as [|tr s s' V Hrun IH Hc|tr s s' V V' timer Hrun IH He]; intros Hf.
  - split_and!; [done|done|]. intros j r Hj. cbn. by rewrite Z.add_0_r.
  - by apply IH.
  - rewrite OS_INT_EXIT_load_eq in He. destruct (OS_INT_EXIT s) as [u s1| |]; [|done..].
    destruct (currentTask s1 =? currentTask s) eqn:Ec; [injection He as <- <-; rewrite Ec in *; by apply IH|].
    destruct (COMPUTE_TASK_LOAD _ _ _) as [V1|] eqn:HL; [|done]. injection He as <- <-.
    rewrite Ec in *. apply forward_snoc in Hf as [Hf Ht]. destruct (IH Hf) as (HV & HT & HR).
    destruct (COMPUTE_TASK_LOAD_lemma V timer (currentTask s) V1) as (HV1 & HT1 & HR1); [done|by rewrite HT|done|].
    split_and!; [done|by rewrite last_time_snoc|]. intros j r Hj.
    rewrite (HR1 j _ (HR j r Hj)), time_of_snoc, HT. f_equal. lia.
Qed.
End switch.

(** ** The report *)
Section stats.
Context `{C : Config}.
Variable memory_at : Z -> list Z.
Implicit Types (s : OS) (c : ContextType) (j : Z) (V : load_vars).

Lemma emits_padded n x rest :
  Forall (fun y => y <> 0) x -> emits (padded n (x ++ 0 :: rest)) (left n x).
Proof.
  intros Hx buf pos Hr. unfold left in Hr. rewrite length_app in Hr. unfold padded.
  cbn [fst snd]. rewrite mem_cpy_eq by (done || lia). cbn [mbind option_bind Nat.add].
  by rewrite (emits_at _ _ _ _ _ (emits_spaces (n - length x))) by (rewrite length_app; lia).
Qed.

(** The text printed into the local buffer is a C string there. *)
Lemma sprintf_eq x str :
  (length x < length str)%nat ->
  exists rest, sprintf x str = Some (x ++ 0 :: rest) /\ length (x ++ 0 :: rest) = length str.
Proof.
  intros Hl. exists (drop (length x + 1) str). unfold sprintf. rewrite (proj2 (Nat.ltb_lt _ _)) by done.
  unfold overlay, cstr. rewrite take_0, length_app. cbn [app length Nat.add]. rewrite <- app_assoc.
  split; [done|]. rewrite length_app. cbn. rewrite length_drop. lia.
Qed.

Lemma decimal_chars n : 0 <= n -> Forall (fun x => x <> 0) (decimal n).
Proof. intros H. eapply Forall_impl; [by apply decimal_digits|]. cbn. lia. Qed.

(** The share of a task that ran [runtime] of [total] units, in percent. *)
Definition share (runtime total : Z) : list Z :=
  let percentage := runtime / (total / 100) in
  if percentage >? 0 then decimal percentage ++ lit "%" else lit "<1%".

Definition stats_row (j : Z) (name : list Z) (runtime total : Z) : list Z :=
  [91] ++ left 4 (decimal j ++ [93]) ++ left 24 name ++ left 12 (decimal runtime) ++ share runtime total ++ nl.

Definition stats_entry s V (name : Z -> list Z) (total j : Z) : list Z :=
  if installed s j then stats_row j (name j) (default 0 (aget (Runtime V) j)) total else [].

Lemma share_text runtime total :
  0 <= runtime < 2 ^ 32 -> 100 <= total ->
  Forall (fun x => x <> 0) (share runtime total) /\ (length (share runtime total) <= 11)%nat.
Proof.
  intros Hr Ht. assert (1 <= total / 100) by (apply Z.div_le_lower_bound; lia).
  assert (0 <= runtime / (total / 100)) by (apply Z.div_pos; lia).
  assert (runtime / (total / 100) <= runtime) by (apply Z.div_le_upper_bound; nia).
  pose proof (decimal_length (runtime / (total / 100)) 10 ltac:(lia) ltac:(lia)).
  unfold share. case_match; [|split; [by apply nonzero|cbn; lia]].
  split; [apply Forall_app; split; [by apply decimal_chars|by apply nonzero]|rewrite length_app; cbn; lia].
Qed.

(** What the report relies on: the names are C strings, every task has a runtime. *)
Definition named s (name : Z -> list Z) : Prop := forall j c, 1 <= j <= NUMBER_OF_TASKS ->
  aget (ContextTask s) j = Some c -> Priority c <> EMPTY_PRIO ->
  Forall (fun x => x <> 0) (name j) /\ exists rest, memory_at (TaskName c) = name j ++ 0 :: rest.
Definition timed V : Prop := Z.of_nat (length (Runtime V)) = NUMBER_OF_TASKS + 1 /\
  Forall (fun r => 0 <= r < 2 ^ 32) (Runtime V).

Lemma stats_line_writes s V name total j :
  1 <= j <= NUMBER_OF_TASKS -> Z.of_nat (length (ContextTask s)) = NUMBER_OF_TASKS + 1 ->
  named s name -> timed V -> 100 <= total ->
  writes 16 (stats_line memory_at V (total / 100) j) s (unmasked (installed s j) s) (stats_entry s V name total j).
Proof.
  intros Hj Hl Hn [HV Hr] Ht. destruct (aget_is_Some (ContextTask s) j ltac:(lia)) as [c Hc].
  destruct (aget_is_Some (Runtime V) j ltac:(lia)) as [runtime Hrt].
  assert (0 <= runtime < 2 ^ 32) as Hrange.
  { unfold aget in Hrt. case_match; [|done]. exact (Forall_lookup_1 _ _ _ _ Hr Hrt). }
  specialize (Hn j c Hj Hc). unfold stats_entry, installed. rewrite Hc, Hrt.
  change (default 0 (Some runtime)) with runtime.
  destruct (Priority c =? EMPTY_PRIO) eqn:Ep; cbn [negb unmasked].
  { intros buf pos str _ _. exists str. rewrite overlay_nil, Nat.add_0_r. split; [|done].
    unfold stats_line. rewrite (bind_Done _ _ _ c s) by (cbn; by rewrite Hc). by rewrite Ep. }
  to_prop. destruct (Hn Ep) as [Hname [rest Hrest]].
  apply writes_from. intros buf pos str Hroom Hs. unfold stats_row in Hroom |- *. rewrite !length_app in Hroom.
  cbn [length nl] in Hroom.
  pose proof (emits2_task_id j (task_index_small j Hj)) as E1.
  pose proof (emits_padded 24 (name j) rest Hname) as E2. rewrite <- Hrest in E2.
  pose proof (decimal_length runtime 10 ltac:(lia) ltac:(lia)) as Hd.
  destruct (share_text runtime total Hrange Ht) as [Hst Hsl].
  unfold stats_line. rewrite (bind_Done _ _ _ c s) by (cbn; by rewrite Hc).
  rewrite (proj2 (Z.eqb_neq _ _) Ep). cbn [negb].
  next_number E1. cbn [fst snd]. next_text E2.
  rewrite bind_enter. rewrite (bind_Done _ _ _ runtime (set_PRIMASK true s)) by (cbn; by rewrite Hrt).
  rewrite bind_exit, set_PRIMASK_twice.
  assert (1 <= total / 100) by (apply Z.div_le_lower_bound; lia).
  rewrite (bind_Done _ _ _ (runtime / (total / 100)) (set_PRIMASK false s))
    by (cbn; unfold udiv; by rewrite (proj2 (Z.eqb_neq _ 0)) by lia).
  destruct (sprintf_eq (decimal runtime) x) as (r1 & S1 & L1); [lia|].
  rewrite (bind_Done _ _ _ _ (set_PRIMASK false s)) by (cbn; by rewrite S1).
  next_text (emits_padded 12 (decimal runtime) r1 (decimal_chars _ (proj1 Hrange))).
  change (if runtime / (total / 100) >? 0 then decimal (runtime / (total / 100)) ++ lit "%" else lit "<1%")
    with (share runtime total).
  destruct (sprintf_eq (share runtime total) (decimal runtime ++ 0 :: r1)) as (r2 & S2 & L2); [lia|].
  rewrite (bind_Done _ _ _ _ (set_PRIMASK false s)) by (cbn; by rewrite S2).
  next_text (emits_append (share runtime total) r2 Hst). next_text (emits_cstr nl eq_refl).
  eexists. split; [by rewrite <- !app_assoc|]. lia.
Qed.

Lemma stats_lines_writes s V name total :
  Z.of_nat (length (ContextTask s)) = NUMBER_OF_TASKS + 1 -> named s name -> timed V -> 100 <= total ->
  writes 16 (stats_lines memory_at V (total / 100) (Z.to_nat NUMBER_OF_TASKS) 1) s
    (unmasked (existsb (installed s) (seqZ 1 NUMBER_OF_TASKS)) s)
    (concat (stats_entry s V name total <$> seqZ 1 NUMBER_OF_TASKS)).
Proof.
  intros Hl Hn HV Ht. pose proof NUMBER_OF_TASKS_ok.
  rewrite <- (Z2Nat.id NUMBER_OF_TASKS) at 2 3 by lia.
  refine (table_writes 16 (stats_line memory_at V (total / 100)) (stats_lines memory_at V (total / 100))
            (stats_entry s V name total) s _ 1 _ _ _ false); [done..|].
  intros i b Hi. replace (unmasked (b || installed s i) s) with (unmasked (installed (unmasked b s) i) (unmasked b s))
    by (by destruct b; cbn; [destruct (installed _ i)|]).
  replace (stats_entry s V name total i) with (stats_entry (unmasked b s) V name total i) by (by destruct b).
  apply stats_line_writes; [lia|by destruct b|by destruct b|done|done].
Qed.

Definition stats_header : list Z :=
  nl ++ line_of_stars ++ nl ++ lit "ID   NAME                    Abs Time   % Time " ++ nl ++ line_of_stars ++ nl.
Definition stats_report s V (name : Z -> list Z) (timer : Z) : list Z :=
  stats_header ++ concat (stats_entry s V name timer <$> seqZ 1 NUMBER_OF_TASKS) ++ nl.

Lemma text_stats_report s V name timer :
  Z.of_nat (length (ContextTask s)) = NUMBER_OF_TASKS + 1 -> named s name -> timed V -> 100 <= timer ->
  Forall (fun x => x <> 0) (stats_report s V name timer).
Proof.
  intros Hl Hn [HV HR] Ht. unfold stats_report. rewrite !Forall_app.
  split; [by apply nonzero|split; [|by apply nonzero]].
  apply Forall_concat, Forall_fmap, Forall_forall. intros j Hj%elem_of_seqZ. unfold compose, stats_entry, installed.
  destruct (aget_is_Some (ContextTask s) j ltac:(lia)) as [c Hc]. rewrite Hc.
  destruct (Priority c =? EMPTY_PRIO) eqn:E; [done|]. to_prop. cbn [negb].
  destruct (Hn j c ltac:(lia) Hc E) as [Hname _].
  destruct (aget_is_Some (Runtime V) j ltac:(lia)) as [r Hr]. rewrite Hr.
  assert (0 <= r < 2 ^ 32) as Hrange.
  { unfold aget in Hr. case_match; [|done]. exact (Forall_lookup_1 _ _ _ _ HR Hr). }
  unfold stats_row, left. change (default 0 (Some r)) with r. repeat (apply Forall_app; split); try by apply Forall_replicate.
  all: try done. all: try (apply decimal_chars; lia). all: try (by apply share_text). all: by repeat constructor.
Qed.

(** The report on the load.  When the timer has counted at least 100, [OSRuntimeStats]
    writes into the caller's buffer exactly the heading, for each installed task, in
    the order of their numbers, its number, its name, the time it ran and its share
    of the whole time in percent, and the NUL; the C string the buffer then holds is
    this text. *)
Theorem OSRuntimeStats_report s V name timer str buf pos :
  Z.of_nat (length (ContextTask s)) = NUMBER_OF_TASKS + 1 -> named s name -> timed V -> 100 <= timer ->
  length str = 16%nat ->
  let text := stats_report s V name timer in
  (pos + length (cstr text) <= length buf)%nat ->
  OSRuntimeStats memory_at timer V str (buf, pos) s =
    Done (overlay buf pos (cstr text)) (unmasked (existsb (installed s) (seqZ 1 NUMBER_OF_TASKS)) s) /\
  cstring (drop pos (overlay buf pos (cstr text))) = text.
Proof.
  intros Hl Hn HV Ht Hs text Hroom. split.
  - subst text. unfold cstr in Hroom. unfold stats_report in Hroom |- *. rewrite !length_app in Hroom.
    cbn [length nl] in Hroom. change (length stats_header) with 147%nat in Hroom. apply from_start.
    unfold OSRuntimeStats.
    next_text (emits_cstr (nl ++ line_of_stars ++ nl) eq_refl).
    next_text (emits_cstr (lit "ID   NAME                    Abs Time   % Time " ++ nl) eq_refl).
    next_text (emits_cstr (line_of_stars ++ nl) eq_refl). cbv zeta.
    match goal with
    | |- context [bind (?g ((overlay _ _ ?a, _), _)) ?k s] =>
        destruct (bind_writes g _ buf pos a str k s _ (stats_lines_writes s V name timer Hl Hn HV Ht))
          as (str' & -> & _); [room|lia|]
    end.
    cbn [fst snd]. next_text (emits_cstr nl eq_refl). cbn [fst snd].
    rewrite put_end by room. unfold stats_header. by rewrite <- !app_assoc.
  - unfold overlay. rewrite drop_app_length' by (rewrite length_take; lia).
    unfold cstr. rewrite <- !app_assoc. by apply cstring_app, text_stats_report.
Qed.

(** Before the timer has counted 100 the report divides by zero. *)
Lemma stats_line_zero V s j st :
  stats_line memory_at V 0 j st s = if installed s j then Fault
                                    else match aget (ContextTask s) j with Some _ => Done st s | None => Fault end.
Proof.
  unfold stats_line, installed. cbn. destruct (aget (ContextTask s) j) as [c|]; cbn; [|done].
  destruct (Priority c =? EMPTY_PRIO); cbn; [done|].
  destruct (task_id j st); cbn; [|done]. destruct (padded _ _ _); cbn; [|done].
  by destruct (aget (Runtime V) j).
Qed.

Lemma stats_lines_zero V s n : forall j st,
  Exists (fun i => installed s i = true) (seqZ j (Z.of_nat n)) ->
  stats_lines memory_at V 0 n j st s = Fault.
Proof.
  induction n as [|n IH]; intros j st HE; [by apply Exists_nil in HE|].
  rewrite seqZ_cons in HE by lia. replace (Z.pred (Z.of_nat (S n))) with (Z.of_nat n) in HE by lia.
  rewrite <- Z.add_1_r in HE. cbn [stats_lines]. unfold bind. rewrite stats_line_zero.
  destruct (installed s j) eqn:Ej; [done|]. apply Exists_cons in HE as [?|HE]; [congruence|].
  destruct (aget (ContextTask s) j); [|done]. by apply IH.
Qed.

Theorem OSRuntimeStats_early s V timer str string :
  0 <= timer < 100 -> Exists (fun i => installed s i = true) (seqZ 1 NUMBER_OF_TASKS) ->
  OSRuntimeStats memory_at timer V str string s = Fault.
Proof.
  intros Ht HE. pose proof NUMBER_OF_TASKS_ok. unfold OSRuntimeStats. rewrite (Z.div_small timer) by lia.
  rewrite <- (Z2Nat.id NUMBER_OF_TASKS) in HE by lia.
  do 3 (unfold bind at 1; destruct (append _ _) as [?|]; cbn [lift rbind]; [|done]).
  unfold bind at 1. by rewrite stats_lines_zero.
Qed.
End stats.

(** ** Examples *)
Section examples.
#[local] Existing Instance sample_config.

Definition no_load : load_vars := mkLoad (replicate 11 0) 0 0.
Lemma no_load_accounted : accounted no_load.
Proof. split; [by repeat constructor|done|done]. Qed.

(** The task 3 takes over from task 2 at time 1000, waits, and gives way at 2500. *)
Definition after_exit (timer : Z) (V : load_vars) (s : OS) : load_vars * OS :=
  match OS_INT_EXIT_load timer V s with Done V' s' => (V', s') | _ => (V, s) end.
Definition load_1 : load_vars * OS := after_exit 1000 no_load sample.
Definition load_2 : load_vars * OS := after_exit 2500 load_1.1 (set_OSReadyList (2 ^ 0 + 2 ^ 5) load_1.2).

Lemma two_switches : runs sample no_load [(2, 1000); (3, 2500)] load_2.2 load_2.1.
Proof.
  assert (runs sample no_load [(2, 1000)] load_1.2 load_1.1) as H1.
  { apply (runs_switch sample no_load [] sample load_1.2 no_load load_1.1 2 1000); [apply runs_start|by vm_compute..]. }
  apply (runs_switch sample no_load [(2, 1000)] (set_OSReadyList (2 ^ 0 + 2 ^ 5) load_1.2) load_2.2 load_1.1 load_2.1 3 2500);
    [|by vm_compute..].
  apply (runs_other sample no_load [(2, 1000)] load_1.2 _ load_1.1 H1). by vm_compute.
Qed.

Lemma task_load_conserved_witness :
  accounted load_2.1 /\ OSTimeTaskSwitched load_2.1 = 2500 /\
  forall j r, aget (Runtime no_load) j = Some r ->
    aget (Runtime load_2.1) j = Some (r + time_of j 0 [(2, 1000); (3, 2500)]).
Proof.
  apply (task_load_conserved sample no_load [(2, 1000); (3, 2500)] load_2.2 load_2.1);
    [apply two_switches|apply no_load_accounted|]. cbn. lia.
Defined.

(** The report after them. *)
Example load_rows :
  concat (stats_entry info_os load_2.1 info_name 2500 <$> seqZ 1 3) =
  lit "[1]  Idle Task               0           <1%" ++ nl ++
  lit "[2]  System Time             1000        40%" ++ nl ++
  lit "[3]  Network                 1500        60%" ++ nl.
Proof. by vm_compute. Qed.

Lemma OSRuntimeStats_report_witness :
  let text := stats_report info_os load_2.1 info_name 2500 in
  OSRuntimeStats info_names 2500 load_2.1 (replicate 16 7) (replicate 400 0, 2%nat) info_os =
    Done (overlay (replicate 400 0) 2 (cstr text))
      (unmasked (existsb (installed info_os) (seqZ 1 NUMBER_OF_TASKS)) info_os) /\
  cstring (drop 2 (overlay (replicate 400 0) 2 (cstr text))) = text.
Proof.
  apply (OSRuntimeStats_report info_names info_os load_2.1 info_name 2500 (replicate 16 7) (replicate 400 0) 2).
  - done.
  - intros j c Hj Hc He. destruct (info_reportable j c Hj Hc ltac:(by apply Z.eqb_neq)). by split.
  - split; [done|]. apply (bool_decide_eq_true_1 (Forall (fun r => 0 <= r < 2 ^ 32) (Runtime load_2.1))). by vm_compute.
  - done.
  - done.
  - apply (bool_decide_eq_true_1 _). by vm_compute.
Defined.

(** The hundredth of the time is rounded down: a task that ran for the whole time is
    reported to have run 199%. *)
Example load_199 : share 199 199 = lit "199%".
Proof. by vm_compute. Qed.

(** A time that goes past the end of the timer is not charged at all. *)
Example wrap_not_charged :
  Runtime <$> COMPUTE_TASK_LOAD 500 1 (mkLoad [0; 7] (2 ^ 32 - 1000) (2 ^ 32 - 1000)) = Some [0; 7].
Proof. by vm_compute. Qed.
End examples.
