(* ===== verification/Tickless.v ===== *)
(** * Sleeping without ticks

    Builds with TICKLESS of the Cortex-M4 port (hal/GCC_CORTEX-M4/HAL.c): before the
    processor is stopped, the idle task programs the timer for the time until the
    next deadline of the delay list; the interrupt that ends the sleep advances the
    counter by what was slept.  The variables of the port and the reload value of the
    timer are a record beside the kernel's state; the count of the timer is read from
    its register and is an argument. *)

From Stdlib Require Import ZArith Lia.
From stdpp Require Import base gmap numbers list.
From S2P Require Import Prelude Config State Sched DelayList Hal Clock Kernel Sample Info.
#[local] Open Scope Z_scope.
#[local] Open Scope prog_scope.

(** ** The code *)

Record systick := mkSystick { time_next_task : Z; normal_run : bool; SYSTICK_LOAD : Z }.

(** [#if (ostick_t != uint64_t)]: to the preprocessor both are unknown identifiers,
    which it replaces by 0. *)
Definition ostick_differs : bool := negb (0 =? 0).

Section operations.
Context `{C : Config} (configCPU_CLOCK_HZ : Z).

(** [module] *)
Definition tick_module : Z := uint32 (configCPU_CLOCK_HZ / configTICK_RATE_HZ).
Definition MAX_TICKS : option Z := udiv 0x00FFFFFF (uint32 (tick_module - 1)).

Definition TickTimerSetup (V : systick) : systick :=
  mkSystick (time_next_task V) (normal_run V) (uint32 (tick_module - 1)).

(** The loop of [WaitTickless]; [wrap] says if its second half is compiled. *)
Definition shorter (time_tmp lowWait : Z) : Z := if time_tmp <? lowWait then time_tmp else lowWait.
Fixpoint low_wait (wrap : bool) (fuel : nat) (T : option Z) (cnt lowWait : Z) : prog Z :=
  match T, fuel with
  | None, _ => ret lowWait
  | Some _, O => fault
  | Some t, S fuel' =>
      c <- Task t ;;
      low_wait wrap fuel' (Next c) cnt
        (if TimeToWait c >=? cnt then shorter (uint ostick_bits (TimeToWait c - cnt)) lowWait
         else if wrap then shorter (uint ostick_bits (TimeToWait c + (TICK_COUNT_OVERFLOW - cnt))) lowWait
         else lowWait)
  end.

(** [WaitTickless], up to and after the wait.  The code is the half with [wrap] false:
    the other branch is under [#if (ostick_t != uint64_t)], HAL.c:410, where the
    preprocessor reads both type names as 0, so that it is never compiled. *)
Definition WaitTickless_if (wrap : bool) (V : systick) : prog systick :=
  T <- gets Head ;;
  UserEnterCritical ;;;
  (* Get current tick count *)
  OS_tick_counter <- OSGetTickCount ;;
  lowWait <- low_wait wrap (Z.to_nat NUMBER_OF_TASKS + 1) T OS_tick_counter (uint ostick_bits MAX_TIMER) ;;
  max <- lift MAX_TICKS ;;
  let time_next_task := if lowWait >? max then uint ostick_bits max else lowWait in
  let LOAD := if time_next_task >? 0 then uint32 (uint32 (tick_module - 1) * time_next_task)
              else uint32 (tick_module - 1) in
  UserExitCritical ;;;
  ret (mkSystick time_next_task false LOAD).
Definition WaitTickless : systick -> prog systick := WaitTickless_if ostick_differs.

(** [CNT] is the value of [*(NVIC_SYSTICK_CNT)]. *)
Definition BRTOS_WakeUP (CNT : Z) (V : systick) : prog systick :=
  CPU_SR <- OSEnterCritical ;;
  V <- (if negb (normal_run V) then
          q <- lift (udiv CNT (uint32 (tick_module - 1))) ;;
          let time := uint ostick_bits (time_next_task V - q) in
          when (time >? 0) (OSIncCounter_tickless time ;;; OS_TICK_HANDLER) ;;;
          ret (TickTimerSetup (mkSystick (time_next_task V) true (SYSTICK_LOAD V)))
        else ret V) ;;
  OSExitCritical CPU_SR ;;;
  ret V.

Definition OSIncTickLess (V : systick) : prog systick :=
  CPU_SR <- OSEnterCritical ;;
  V <- (if negb (normal_run V) then
          OSIncCounter_tickless (time_next_task V) ;;;
          ret (TickTimerSetup (mkSystick (time_next_task V) true (SYSTICK_LOAD V)))
        else OSIncCounter_tickless 1 ;;; ret V) ;;
  OSExitCritical CPU_SR ;;;
  ret V.

(** [SwitchContext] and [TickTimer] of these builds. *)
Definition SwitchContext_tickless (CNT : Z) (V : systick) : prog systick :=
  modify (set_PRIMASK true) ;;;
  V <- BRTOS_WakeUP CNT V ;;
  OS_INT_EXIT ;;;
  modify (set_PRIMASK false) ;;;
  ret V.
Definition TickTimer_tickless (CNT : Z) (V : systick) : prog systick :=
  V <- OSIncTickLess V ;;
  OS_TICK_HANDLER ;;;
  SwitchContext_tickless CNT V.
End operations.

(** ** States that agree but for the load counters, the task selected last and the
    interrupt mask *)
Definition blur `{C : Config} (s : OS) : OS :=
  set_PRIMASK false (set_SelectedTask 0 (set_DutyCnt 0 (set_LastOSDuty 0 (set_OSDuty 0 (set_OSDutyTmp 0 s))))).
Definition similar `{C : Config} (s1 s2 : OS) : Prop := blur s1 = blur s2.

#[export] Instance similar_equiv `{C : Config} : Equivalence similar.
Proof. split; repeat intro; unfold similar in *; congruence. Qed.

Section similar.
Context `{C : Config}.
Implicit Types (s : OS) (t : Z).

Definition similar_res {A} (r1 r2 : res A) : Prop :=
  match r1, r2 with
  | Done a1 s1, Done a2 s2 => a1 = a2 /\ similar s1 s2
  | Fault, Fault => True
  | _, _ => False
  end.

(** On similar states the two programs do not give up the processor, return the same
    and end in similar states. *)
Definition simulates {A} (p q : prog A) : Prop :=
  forall s1 s2, similar s1 s2 -> similar_res (p s1) (q s2).

Lemma simulates_bind {A B} (p q : prog A) (f g : A -> prog B) :
  simulates p q -> (forall a, simulates (f a) (g a)) -> simulates (bind p f) (bind q g).
Proof.
  intros Hp Hf s1 s2 Hs. specialize (Hp s1 s2 Hs). unfold bind.
  destruct (p s1), (q s2); try done. destruct Hp as [-> Hs']. by apply Hf.
Qed.

Lemma simulates_ret {A} (a : A) : simulates (ret a) (ret a).
Proof. by intros s1 s2. Qed.
Lemma simulates_fault {A} : simulates (@fault _ A) fault.
Proof. by intros s1 s2. Qed.
Lemma simulates_lift {A} (o : option A) : simulates (lift o) (lift o).
Proof. intros s1 s2 H. by destruct o. Qed.
Lemma simulates_when b (p q : prog unit) : simulates p q -> simulates (when b p) (when b q).
Proof. intros H s1 s2 Hs. unfold when. destruct b; [by apply H|done]. Qed.

(** A variable that is not blurred, and a store. *)
Lemma similar_var {A} (f : OS -> A) s1 s2 : (forall s, f (blur s) = f s) -> similar s1 s2 -> f s1 = f s2.
Proof. intros Hf H. by rewrite <- Hf, H, Hf. Qed.

Lemma simulates_gets {A} (f : OS -> A) : (forall s, f (blur s) = f s) -> simulates (gets f) (gets f).
Proof. intros Hf s1 s2 H. split; [by apply similar_var|done]. Qed.
Lemma simulates_read {A} (l : OS -> list A) i : (forall s, l (blur s) = l s) -> simulates (read l i) (read l i).
Proof.
  intros Hl s1 s2 H. unfold read. rewrite (similar_var l s1 s2 Hl H). by apply simulates_lift.
Qed.

Lemma simulates_modify f : (forall s, blur (f (blur s)) = blur (f s)) -> simulates (modify f) (modify f).
Proof. intros Hf s1 s2 H. split; [done|]. unfold similar. by rewrite <- Hf, H, Hf. Qed.
Lemma simulates_mask b1 b2 : simulates (modify (set_PRIMASK b1)) (modify (set_PRIMASK b2)).
Proof. intros s1 s2 H. split; [done|exact H]. Qed.

Lemma simulates_upd_Task t f : simulates (upd_Task t f) (upd_Task t f).
Proof.
  intros s1 s2 H. unfold upd_Task. rewrite (similar_var ContextTask s1 s2) by done.
  destruct (aget _ _); [|done]. split; [done|]. unfold similar.
  change (set_ContextTask (aset (ContextTask s2) t (f c)) (blur s1) = set_ContextTask (aset (ContextTask s2) t (f c)) (blur s2)).
  by rewrite H.
Qed.

(** A critical section: what it saves is put back only. *)
Lemma simulates_enter {B} (f g : bool -> prog B) :
  (forall b1 b2, simulates (f b1) (g b2)) -> simulates (bind OSEnterCritical f) (bind OSEnterCritical g).
Proof. intros Hf s1 s2 H. apply Hf. exact H. Qed.
Lemma simulates_exit b1 b2 : simulates (OSExitCritical b1) (OSExitCritical b2).
Proof. apply simulates_mask. Qed.
Lemma simulates_Task t : simulates (Task t) (Task t).
Proof. by apply simulates_read. Qed.
Lemma simulates_deref p : simulates (deref p) (deref p).
Proof. apply simulates_lift. Qed.
End similar.

Create HintDb similar.
#[export] Hint Resolve simulates_ret simulates_fault simulates_lift simulates_upd_Task simulates_exit
  simulates_Task simulates_deref simulates_mask : similar.

(** Proves it of a program that does not look at the blurred variables. *)
Ltac similar_step :=
  lazymatch goal with
  | |- simulates (bind OSEnterCritical _) _ => apply simulates_enter; intros
  | |- simulates (bind _ _) _ => apply simulates_bind; [|intros]
  | |- simulates (when _ _) _ => apply simulates_when
  | |- simulates (gets _) _ => apply simulates_gets; by intros []
  | |- simulates (read _ _) _ => apply simulates_read; by intros []
  | |- simulates (modify (set_PRIMASK _)) _ => apply simulates_mask
  | |- simulates (modify _) _ => apply simulates_modify; by intros []
  | |- simulates (match _ with _ => _ end) _ => case_match
  | |- simulates _ _ => solve [auto 1 with similar nocore]
  end.
Ltac similar := intros; repeat similar_step.

Section services.
Context `{C : Config}.
Implicit Types (s : OS) (l : list Z).

Lemma simulates_remove t : simulates (RemoveFromDelayList t) (RemoveFromDelayList t).
Proof. unfold RemoveFromDelayList. similar. Qed.
Lemma simulates_ready_insert p : simulates (ready_insert p) (ready_insert p).
Proof. unfold ready_insert. similar. Qed.
#[local] Hint Resolve simulates_remove simulates_ready_insert : similar.

Lemma simulates_tick_loop fuel : forall T, simulates (tick_loop fuel T) (tick_loop fuel T).
Proof.
  induction fuel as [|fuel IH]; intros [t|]; [apply simulates_fault|apply simulates_ret| |apply simulates_ret].
  unfold tick_loop. fold tick_loop. similar.
Qed.

Lemma similar_load s s' : same_but_load s s' -> similar s s'.
Proof. intros ->. by destruct s. Qed.

Lemma simulates_tick_load : simulates tick_load tick_load.
Proof.
  intros s1 s2 H. destruct (tick_load_spec s1) as (s1' & -> & H1), (tick_load_spec s2) as (s2' & -> & H2).
  split; [done|]. apply similar_load in H1, H2. by rewrite <- H1, <- H2.
Qed.
#[local] Hint Resolve simulates_tick_loop simulates_tick_load : similar.

Lemma simulates_handler : simulates OS_TICK_HANDLER OS_TICK_HANDLER.
Proof. unfold OS_TICK_HANDLER. similar. Qed.
Lemma simulates_inc : simulates OSIncCounter OSIncCounter.
Proof. unfold OSIncCounter. similar. Qed.
Lemma simulates_int_exit : simulates OS_INT_EXIT OS_INT_EXIT.
Proof. unfold OS_INT_EXIT, OSSchedule, OS_SAVE_CONTEXT_SP, OS_RESTORE_SP_CONTEXT. similar. Qed.
#[local] Hint Resolve simulates_handler simulates_inc simulates_int_exit : similar.

Lemma simulates_TickTimer : simulates TickTimer TickTimer.
Proof. unfold TickTimer, SwitchContext. similar. Qed.
Lemma simulates_SwitchContext : simulates SwitchContext SwitchContext.
Proof. unfold SwitchContext. similar. Qed.

(** ** A tick nobody waits for *)

Lemma tick_loop_quiet s rest : forall fuel prev,
  (length rest <= fuel)%nat -> dseg (ContextTask s) prev rest None ->
  (forall t, t ∈ rest -> expired s t = false) -> tick_loop fuel (head rest) s = Done tt s.
Proof.
  induction rest as [|t rest IH]; intros fuel prev Hf Hd He; [by destruct fuel|].
  destruct fuel as [|fuel]; cbn [length] in Hf; [lia|]. destruct Hd as [(c & Hc & _ & Hn) Hd].
  pose proof (He t ltac:(by left)) as Ht. unfold expired in Ht. rewrite Hc in Ht.
  cbn [head]. unfold tick_loop. fold tick_loop. rewrite (bind_Done _ _ s c s) by (cbn; by rewrite Hc).
  rewrite (bind_Done _ _ s _ s) by done. rewrite Ht.
  rewrite (bind_Done _ _ s tt s) by done. rewrite (bind_Done _ _ s c s) by (cbn; by rewrite Hc).
  replace (Next c) with (head rest) by (rewrite Hn; by destruct rest).
  apply (IH fuel (Some t)); [lia|done|]. intros u Hu. apply He. by right.
Qed.

Lemma handler_quiet s l :
  wf s l -> (forall t, t ∈ l -> expired s t = false) ->
  exists s', OS_TICK_HANDLER s = Done tt s' /\ similar s s'.
Proof.
  intros Hw He. pose proof (wf_delay s l Hw) as (Hnd & Hh & _ & Hd).
  pose proof (delay_list_length s l (wf_delay s l Hw)). pose proof (wf_ct s l Hw).
  destruct (tick_load_spec s) as (s' & Hr & Hs). exists s'. split; [|by apply similar_load].
  unfold OS_TICK_HANDLER. rewrite (bind_Done _ _ s (head l) s) by (cbn; by rewrite Hh).
  rewrite (bind_Done _ _ s tt s); [done|]. apply (tick_loop_quiet s l _ None); [lia|done|done].
Qed.

(** The task of the highest priority runs, outside interrupts. *)
Record resting s l : Prop := { re_wf : wf s l; re_disp : dispatched s; re_irq : iNesting s = 0 }.

Lemma resting_tick s l k : resting s l -> resting (set_OSTickCounter (k mod TICK_COUNT_OVERFLOW) s) l.
Proof.
  intros [Hw Hd Hn]. split; [|exact Hd|done]. pose proof (wf_tick s l Hw).
  apply (wf_same_prios s _ l l Hw); [by apply same_prios_ctx|apply Hw|apply Hw| | | |apply Hw|apply Hw].
  - apply Z.mod_pos_bound. lia.
  - apply (delay_list_ext s); [done|done|done|apply Hw].
  - intros t Hin. eexists. by eapply wf_delay_live.
Qed.

Lemma SwitchContext_stays s l :
  resting s l -> exists s', SwitchContext s = Done tt s' /\ similar s s'.
Proof.
  intros [Hw (p & Hat & Hrun & Hmax) Hn]. pose proof Hat as (Hpv & _ & c & Hc & _).
  exists (set_SelectedTask (currentTask s) (set_PRIMASK false s)). split; [|by destruct s].
  rewrite (SwitchContext_eq s (currentTask s)); [unfold switched; by rewrite Z.eqb_refl|done| |by exists c..].
  apply (OSSchedule_eq _ p); [apply Hw|exact Hrun|exact Hmax|done].
Qed.

Lemma TickTimer_quiet s l :
  resting s l -> (forall t, t ∈ l -> expired (next_tick s) t = false) ->
  exists s', TickTimer s = Done tt s' /\ similar (next_tick s) s'.
Proof.
  intros Hr He. pose proof (resting_tick s l (OSTickCounter s + 1) Hr) as Hr1. fold (next_tick s) in Hr1.
  destruct (handler_quiet (next_tick s) l (re_wf _ _ Hr1) He) as (s1 & H1 & E1).
  destruct (SwitchContext_stays _ l Hr1) as (s2 & H2 & E2).
  pose proof (simulates_SwitchContext _ _ E1) as H3. rewrite H2 in H3.
  destruct (SwitchContext s1) as [[] s3| |] eqn:Es; [|done|done]. destruct H3 as [_ E3].
  exists s3. split; [|by rewrite E2].
  unfold TickTimer. rewrite (bind_Done _ _ s tt (next_tick s)) by (apply OSIncCounter_eq, (re_wf _ _ Hr)).
  by rewrite (bind_Done _ _ _ _ _ H1).
Qed.

(** ** Ticks slept and ticks counted *)

(** [n] ordinary ticks. *)
Fixpoint ticks (n : nat) : prog unit :=
  match n with O => ret tt | S n' => ticks n' ;;; TickTimer end.

Lemma simulates_ticks n : simulates (ticks n) (ticks n).
Proof. induction n as [|n IH]; cbn [ticks]; [apply simulates_ret|]. apply simulates_bind; [done|intros _; apply simulates_TickTimer]. Qed.

Definition after_ticks (s : OS) (k : Z) : OS :=
  set_OSTickCounter ((OSTickCounter s + k) mod TICK_COUNT_OVERFLOW) s.

(** No task of [l] has to wake in less than [n] ticks. *)
Definition undisturbed (s : OS) (l : list Z) (n : Z) : Prop :=
  forall t c k, t ∈ l -> aget (ContextTask s) t = Some c -> 0 < k < n ->
    TimeToWait c <> (OSTickCounter s + k) mod TICK_COUNT_OVERFLOW.

Lemma after_ticks_next s l k : wf s l -> next_tick (after_ticks s k) = after_ticks s (k + 1).
Proof.
  intros Hw. pose proof (wf_tick s l Hw). unfold next_tick, after_ticks. cbn.
  rewrite Zplus_mod_idemp_l. replace (OSTickCounter s + k + 1) with (OSTickCounter s + (k + 1)) by lia.
  by destruct s.
Qed.

Lemma ticks_quiet s l n : forall k : nat,
  resting s l -> undisturbed s l n -> Z.of_nat k < n ->
  exists s', ticks k s = Done tt s' /\ similar (after_ticks s (Z.of_nat k)) s'.
Proof.
  induction k as [|k IH]; intros Hr Hu Hk.
  - exists s. split; [done|]. pose proof (wf_tick s l (re_wf _ _ Hr)). unfold after_ticks.
    rewrite Z.add_0_r, Z.mod_small by lia. by destruct s.
  - destruct IH as (s1 & H1 & E1); [done|done|lia|].
    destruct (TickTimer_quiet (after_ticks s (Z.of_nat k)) l) as (s2 & H2 & E2); [by apply resting_tick| |].
    { intros t Ht. rewrite (after_ticks_next s l) by apply Hr. unfold expired. cbn.
      destruct (aget (ContextTask s) t) as [c|] eqn:Hc; [|done].
      apply Z.eqb_neq, (Hu t c); [done|done|lia]. }
    rewrite (after_ticks_next s l) in E2 by apply Hr.
    pose proof (simulates_TickTimer _ _ E1) as H3. rewrite H2 in H3.
    destruct (TickTimer s1) as [[] s3| |] eqn:Es; [|done|done]. destruct H3 as [_ E3].
    exists s3. split; [cbn [ticks]; by rewrite (bind_Done _ _ _ _ _ H1)|].
    replace (Z.of_nat (S k)) with (Z.of_nat k + 1) by lia. by rewrite E2.
Qed.
End services.

(** ** Waking *)
Section waking.
Context `{C : Config} (configCPU_CLOCK_HZ : Z).
Implicit Types (s : OS) (l : list Z) (V : systick).

Lemma OSIncCounter_tickless_eq s n :
  ostick_bits < 64 -> 0 <= OSTickCounter s < TICK_COUNT_OVERFLOW -> 0 < n <= TICK_COUNT_OVERFLOW ->
  OSIncCounter_tickless n s = Done tt (after_ticks s n).
Proof.
  intros Hb Hc Hn. unfold OSIncCounter_tickless. destruct (n =? 1) eqn:E; to_prop; cbn [negb].
  - subst n. by apply OSIncCounter_eq.
  - cbn. by rewrite wake_tick_mod by lia.
Qed.

(** Counting [n] ticks leads where the handlers lead from [n] ticks later. *)
Lemma ticks_handlers s l n :
  resting s l -> undisturbed s l n -> 0 < n ->
  exists s1 s2, ticks (Z.to_nat n) s = Done tt s1 /\
    (OS_TICK_HANDLER ;;; SwitchContext) (after_ticks s n) = Done tt s2 /\ similar s2 s1.
Proof.
  intros Hr Hu Hn. destruct (ticks_quiet s l n (Z.to_nat (n - 1))) as (s0 & H0 & E0); [done|done|lia|].
  rewrite Z2Nat.id in E0 by lia. pose proof (resting_tick s l (OSTickCounter s + (n - 1)) Hr) as Hr1.
  fold (after_ticks s (n - 1)) in Hr1. pose proof Hr1 as [Hw1 (p & (_ & _ & c & Hc & _) & _) Hn1].
  destruct (TickTimer_correct (after_ticks s (n - 1)) l Hw1 Hn1) as (s2 & H2 & _); [by exists c|].
  pose proof (simulates_TickTimer _ _ E0) as H3. rewrite H2 in H3.
  destruct (TickTimer s0) as [[] s3| |] eqn:Es; [|done|done]. destruct H3 as [_ E3].
  exists s3, s2. split_and!; [|clear Es|done].
  - replace (Z.to_nat n) with (S (Z.to_nat (n - 1))) by lia. cbn [ticks]. by rewrite (bind_Done _ _ _ _ _ H0).
  - unfold TickTimer in H2. rewrite (bind_Done _ _ _ tt _ (OSIncCounter_eq _ (wf_tick _ _ Hw1))) in H2.
    fold (next_tick (after_ticks s (n - 1))) in H2. rewrite (after_ticks_next s l) in H2 by apply Hr.
    by replace (n - 1 + 1) with n in H2 by lia.
Qed.

Lemma simulates_rest : simulates (OS_INT_EXIT ;;; modify (set_PRIMASK false)) SwitchContext.
Proof.
  intros s1 s2 E. assert (similar s1 (set_PRIMASK true s2)) as E2 by exact E.
  pose proof (simulates_int_exit _ _ E2) as H. unfold SwitchContext, bind. cbn [modify rbind].
  unfold modify at 2. cbn [rbind].
  destruct (OS_INT_EXIT s1), (OS_INT_EXIT (set_PRIMASK true s2)); try done. destruct H as [_ H].
  by apply simulates_mask.
Qed.

(** The state before a wake-up: the processor sleeps for [n] ticks. *)
Record sleeping_for V n : Prop := { as_next : time_next_task V = n; as_run : normal_run V = false }.

(** The tick that ends the sleep counts all of it. *)
Lemma tick_wakes CNT V s l n :
  ostick_bits < 64 -> resting s l -> undisturbed s l n -> 0 < n <= TICK_COUNT_OVERFLOW -> sleeping_for V n ->
  exists V' s1 s2, TickTimer_tickless configCPU_CLOCK_HZ CNT V s = Done V' s1 /\
    ticks (Z.to_nat n) s = Done tt s2 /\ similar s1 s2 /\ normal_run V' = true.
Proof.
  intros Hb Hr Hu Hn [<- Hrun]. destruct (ticks_handlers s l _ Hr Hu ltac:(lia)) as (s2 & s1 & H2 & H1 & E).
  set (V' := TickTimerSetup configCPU_CLOCK_HZ (mkSystick (time_next_task V) true (SYSTICK_LOAD V))).
  exists V', s1, s2. split_and!; [|done|done|done].
  unfold TickTimer_tickless. rewrite (bind_Done _ _ s V' (after_ticks s (time_next_task V))).
  - unfold bind in H1 |- *. destruct (OS_TICK_HANDLER _) as [[] s3| |]; [|done|done].
    cbn [rbind] in H1 |- *. unfold SwitchContext_tickless, SwitchContext, BRTOS_WakeUP, bind in *.
    change (normal_run V') with true. cbn in H1 |- *.
    destruct (truthy (iNesting s3)); cbn in H1 |- *; [by injection H1 as <-|].
    destruct (aget (PriorityVector s3) _) as [sel|]; cbn in H1 |- *; [|done].
    destruct (currentTask s3 =? sel); cbn in H1 |- *; [by injection H1 as <-|].
    destruct (aget (ContextTask s3) _); cbn in H1 |- *; [|done].
    destruct (aget _ sel); cbn in H1 |- *; [|done]. by injection H1 as <-.
  - unfold OSIncTickLess. unfold OSEnterCritical, OS_CPU_SR_Save. unfold bind at 1. cbn [rbind].
    rewrite Hrun. cbn [negb].
    assert (OSIncCounter_tickless (time_next_task V) (set_PRIMASK true s) =
            Done tt (after_ticks (set_PRIMASK true s) (time_next_task V))) as Hi
      by (apply OSIncCounter_tickless_eq; [done|apply (wf_tick s l), Hr|done]).
    unfold bind. rewrite Hi. cbn. by destruct s.
Qed.

(** The clock runs fast enough for a tick of several cycles, which fit in the
    register of 24 bits. *)
Record clock_fits : Prop := {
  cf_module : 1 < tick_module configCPU_CLOCK_HZ;
  cf_load : tick_module configCPU_CLOCK_HZ <= 2 ^ 24;
}.

Lemma uint32_module : clock_fits -> uint32 (tick_module configCPU_CLOCK_HZ - 1) = tick_module configCPU_CLOCK_HZ - 1.
Proof. intros []. apply uint32_small. lia. Qed.

(** Another interrupt that ends the sleep counts what was slept, rounded up to a
    tick, and the deadline is served then and there if it is reached. *)
Lemma interrupt_wakes CNT V s l n :
  ostick_bits < 64 -> resting s l -> undisturbed s l n -> sleeping_for V n -> clock_fits ->
  0 < n <= TICK_COUNT_OVERFLOW -> 0 <= CNT < (tick_module configCPU_CLOCK_HZ - 1) * n ->
  let time := n - CNT / (tick_module configCPU_CLOCK_HZ - 1) in
  0 < time <= n /\
  exists V' s1 s2, SwitchContext_tickless configCPU_CLOCK_HZ CNT V s = Done V' s1 /\
    ticks (Z.to_nat time) s = Done tt s2 /\ similar s1 s2 /\ normal_run V' = true.
Proof.
  intros Hb Hr Hu [<- Hrun] Hcf Hn HC time. pose proof (cf_module Hcf) as Hm.
  assert (0 < time <= time_next_task V) as Ht.
  { unfold time. set (m := tick_module configCPU_CLOCK_HZ - 1) in *.
    assert (0 <= CNT / m) by (apply Z.div_pos; lia).
    assert (CNT / m < time_next_task V) by (apply Z.div_lt_upper_bound; lia). lia. }
  split; [done|].
  assert (undisturbed s l time) as Hu' by (intros t c k Hin Hc Hk; apply (Hu t c k Hin Hc); lia).
  destruct (ticks_handlers s l time Hr Hu' ltac:(lia)) as (s2 & s1 & H2 & H1 & E).
  set (V' := TickTimerSetup configCPU_CLOCK_HZ (mkSystick (time_next_task V) true (SYSTICK_LOAD V))).
  assert (OSIncCounter_tickless time (set_PRIMASK true s) = Done tt (after_ticks (set_PRIMASK true s) time)) as Hi
    by (apply OSIncCounter_tickless_eq; [done|apply (wf_tick s l), Hr|lia]).
  pose proof (simulates_handler (after_ticks (set_PRIMASK true s) time) (after_ticks s time) eq_refl) as Hh.
  unfold bind in H1. destruct (OS_TICK_HANDLER (after_ticks s time)) as [[] s4| |]; [|done|done]. cbn [rbind] in H1.
  destruct (OS_TICK_HANDLER (after_ticks (set_PRIMASK true s) time)) as [[] s3| |] eqn:Hs3; [|done|done].
  destruct Hh as [_ Hh].
  pose proof (simulates_rest (set_PRIMASK true s3) s4 Hh) as Hrest. rewrite H1 in Hrest.
  destruct ((OS_INT_EXIT ;;; modify (set_PRIMASK false)) (set_PRIMASK true s3)) as [[] s5| |] eqn:Hs5; [|done|done].
  destruct Hrest as [_ E5]. exists V', s5, s2. split_and!; [|done|by rewrite E5|done].
  assert (BRTOS_WakeUP configCPU_CLOCK_HZ CNT V (set_PRIMASK true s) = Done V' (set_PRIMASK true s3)) as HW.
  { unfold BRTOS_WakeUP. unfold OSEnterCritical, OS_CPU_SR_Save. unfold bind at 1. cbn [rbind].
    change (set_PRIMASK true (set_PRIMASK true s)) with (set_PRIMASK true s).
    rewrite Hrun. cbn [negb]. rewrite uint32_module by done. unfold udiv.
    rewrite (proj2 (Z.eqb_neq _ 0)) by lia. unfold bind. cbn [lift rbind]. cbv zeta.
    pose proof TICK_COUNT_OVERFLOW_eq. rewrite uint_small by (unfold time in Ht; lia). fold time.
    rewrite (proj2 (Z.gtb_lt _ _)) by lia. cbn [when]. rewrite Hi. cbn [rbind]. rewrite Hs3. reflexivity. }
  unfold SwitchContext_tickless. unfold bind at 1. cbn [modify rbind]. rewrite (bind_Done _ _ _ _ _ HW).
  unfold bind in Hs5 |- *. destruct (OS_INT_EXIT _) as [[] s6| |]; [|done|done].
  cbn [rbind modify] in Hs5 |- *. by injection Hs5 as <-.
Qed.

(** ** Going to sleep *)

(** The next deadline, in ticks from now on, and the deadlines the loop looks at. *)
Definition distance s (c : ContextType) : Z := (TimeToWait c - OSTickCounter s) mod TICK_COUNT_OVERFLOW.
Definition deadlines (wrap : bool) s l : Prop := forall t c, t ∈ l -> aget (ContextTask s) t = Some c ->
  0 <= TimeToWait c < TICK_COUNT_OVERFLOW /\ TimeToWait c <> OSTickCounter s /\
  (wrap = true \/ OSTickCounter s < TimeToWait c).

Lemma distance_eq s c :
  0 <= OSTickCounter s < TICK_COUNT_OVERFLOW -> 0 <= TimeToWait c < TICK_COUNT_OVERFLOW ->
  distance s c = if TimeToWait c >=? OSTickCounter s then TimeToWait c - OSTickCounter s
                 else TimeToWait c + (TICK_COUNT_OVERFLOW - OSTickCounter s).
Proof.
  intros Hc Ht. unfold distance. destruct (_ >=? _) eqn:E; to_prop; [by apply Z.mod_small; lia|].
  symmetry. apply (Z.mod_unique_pos _ _ (-1)); lia.
Qed.

Lemma low_wait_spec wrap s rest : forall fuel prev low,
  0 <= OSTickCounter s < TICK_COUNT_OVERFLOW -> (length rest <= fuel)%nat ->
  dseg (ContextTask s) prev rest None -> deadlines wrap s rest -> 0 < low ->
  exists r, low_wait wrap fuel (head rest) (OSTickCounter s) low s = Done r s /\ 0 < r <= low /\
    (forall t c, t ∈ rest -> aget (ContextTask s) t = Some c -> r <= distance s c) /\
    (r = low \/ exists t c, t ∈ rest /\ aget (ContextTask s) t = Some c /\ r = distance s c).
Proof.
  induction rest as [|t rest IH]; intros fuel prev low Hcnt Hf Hd Hdl Hlow.
  - exists low. destruct fuel; (split_and!; [done|lia|lia|set_solver|by left]).
  - destruct fuel as [|fuel]; cbn [length] in Hf; [lia|]. destruct Hd as [(c & Hc & _ & Hn) Hd].
    destruct (Hdl t c ltac:(by left) Hc) as (Hr & Hne & Hw).
    pose proof (distance_eq s c Hcnt Hr) as Hdist. pose proof TICK_COUNT_OVERFLOW_eq.
    assert (0 < distance s c < TICK_COUNT_OVERFLOW) as Hdr by (rewrite Hdist; case_match; to_prop; lia).
    cbn [head low_wait]. rewrite (bind_Done _ _ s c s) by (cbn; by rewrite Hc).
    replace (Next c) with (head rest) by (rewrite Hn; by destruct rest).
    set (low1 := if TimeToWait c >=? OSTickCounter s then _ else _).
    assert (low1 = shorter (distance s c) low) as El.
    { unfold low1. rewrite Hdist in Hdr |- *. destruct (_ >=? _) eqn:E; to_prop.
      - by rewrite uint_small by lia.
      - destruct Hw as [->|Hw]; [|lia]. by rewrite uint_small by lia. }
    assert (0 < low1 <= low /\ low1 <= distance s c /\ (low1 = low \/ low1 = distance s c)) as (H1 & H2 & H3)
      by (clearbody low1; subst low1; unfold shorter; destruct (distance s c <? low) eqn:E; to_prop; lia).
    destruct (IH fuel (Some t) low1) as (r & -> & Hr1 & Hr2 & Hr3); [done|lia|done| |lia|].
    { intros u cu Hu. apply Hdl. by right. }
    exists r. split_and!; [done|lia|lia| |].
    + intros u cu [->|Hu]%elem_of_cons Hcu; [|by apply (Hr2 u)]. rewrite Hc in Hcu. injection Hcu as <-. lia.
    + destruct Hr3 as [->|(u & cu & Hu & Hcu & ->)].
      * destruct H3 as [H3|H3]; [by left|right]. exists t, c. split_and!; [by left|done|done].
      * right. exists u, cu. split_and!; [by right|done|done].
Qed.

(** Nobody has to wake in less than [n] ticks if [n] is not beyond a distance. *)
Lemma undisturbed_distance s l n :
  0 <= OSTickCounter s < TICK_COUNT_OVERFLOW ->
  (forall t c, t ∈ l -> aget (ContextTask s) t = Some c -> n <= distance s c) -> undisturbed s l n.
Proof.
  intros Hcnt Hd t c k Hin Hc Hk He. specialize (Hd t c Hin Hc). unfold distance in Hd. rewrite He in Hd.
  pose proof (Z.mod_pos_bound (OSTickCounter s + k - OSTickCounter s) TICK_COUNT_OVERFLOW).
  rewrite Zminus_mod_idemp_l in Hd. replace (OSTickCounter s + k - OSTickCounter s) with k in * by lia.
  destruct (Z.lt_ge_cases k TICK_COUNT_OVERFLOW); [rewrite Z.mod_small in Hd by lia; lia|lia].
Qed.

Lemma MAX_TICKS_eq : clock_fits ->
  exists m, MAX_TICKS configCPU_CLOCK_HZ = Some m /\ 0 < m /\ (tick_module configCPU_CLOCK_HZ - 1) * m <= 0x00FFFFFF.
Proof.
  intros Hcf. pose proof Hcf as [H1 H2]. unfold MAX_TICKS. rewrite uint32_module by done. unfold udiv.
  rewrite (proj2 (Z.eqb_neq _ 0)) by lia. eexists. split; [done|].
  set (m := tick_module configCPU_CLOCK_HZ - 1) in *.
  split; [apply Z.div_str_pos; unfold m in *; lia|apply Z.mul_div_le; lia].
Qed.

(** The sleep goes on to the nearest deadline, as far as the timer can count; its
    reload value fits in the timer's 24 bits. *)
Lemma WaitTickless_lemma wrap V s l :
  resting s l -> deadlines wrap s l -> clock_fits ->
  exists V1 n m, WaitTickless_if configCPU_CLOCK_HZ wrap V s = Done V1 (set_PRIMASK false s) /\ sleeping_for V1 n /\
    MAX_TICKS configCPU_CLOCK_HZ = Some m /\ 0 < n <= m /\
    SYSTICK_LOAD V1 = (tick_module configCPU_CLOCK_HZ - 1) * n /\ SYSTICK_LOAD V1 < 2 ^ 24 /\ undisturbed s l n /\
    (n < m -> l <> [] -> exists t c, t ∈ l /\ aget (ContextTask s) t = Some c /\ n = distance s c).
Proof.
  intros Hr Hdl Hcf. pose proof (re_wf _ _ Hr) as Hw. destruct (MAX_TICKS_eq Hcf) as (m & Hm & Hm0 & Hml).
  pose proof (wf_delay s l Hw) as (Hnd & Hh & _ & Hd). pose proof (wf_tick s l Hw) as Hcnt.
  pose proof (delay_list_length s l (wf_delay s l Hw)). pose proof (wf_ct s l Hw).
  pose proof (cf_module Hcf). pose proof TICK_COUNT_OVERFLOW_eq.
  assert (0 < ostick_bits) by (destruct ostick_bits_cases as [E|[E|E]]; rewrite E; lia).
  set (low := uint ostick_bits MAX_TIMER).
  assert (low = 2 ^ ostick_bits - 1) as Elow.
  { unfold low, uint, MAX_TIMER. destruct ostick_bits_cases as [E|[E|E]]; rewrite E; reflexivity. }
  destruct (low_wait_spec wrap (set_PRIMASK true s) l (Z.to_nat NUMBER_OF_TASKS + 1) None low)
    as (r & Hrun & Hr1 & Hr2 & Hr3); [done|lia|done|done|lia|].
  set (n := if r >? m then uint ostick_bits m else r).
  assert (n = Z.min r m) as En.
  { unfold n. destruct (r >? m) eqn:E; to_prop; [|lia]. rewrite uint_small by lia. lia. }
  eexists (mkSystick n false _), n, m. split_and!; [| |done|lia|lia| | | |].
  - unfold WaitTickless_if. rewrite (bind_Done _ _ s (head l) s) by (cbn; by rewrite Hh).
    rewrite (bind_Done _ _ s tt (set_PRIMASK true s)) by done.
    rewrite (bind_Done _ _ (set_PRIMASK true s) (OSTickCounter s) (set_PRIMASK true s)) by done.
    rewrite (bind_Done _ _ _ _ _ Hrun). rewrite (bind_Done _ _ _ m (set_PRIMASK true s)) by (cbn; by rewrite Hm).
    cbv zeta. fold n. rewrite uint32_module by done. rewrite (proj2 (Z.gtb_lt n 0)) by lia.
    rewrite uint32_small by nia. reflexivity.
  - done.
  - done.
  - cbn. nia.
  - apply undisturbed_distance; [done|]. intros t c Hin Hc. specialize (Hr2 t c Hin Hc).
    change (distance (set_PRIMASK true s) c) with (distance s c) in Hr2. lia.
  - intros Hnm Hne. destruct Hr3 as [->|(t & c & Hin & Hc & ->)].
    + exfalso. destruct l as [|t l]; [done|].
      destruct (delay_list_valid s _ t (wf_delay s _ Hw)) as [c Hc]; [by left|].
      specialize (Hr2 t c ltac:(by left) Hc). unfold distance in Hr2.
      pose proof (Z.mod_pos_bound (TimeToWait c - OSTickCounter (set_PRIMASK true s)) TICK_COUNT_OVERFLOW). lia.
    + exists t, c. split_and!; [done|done|]. change (distance (set_PRIMASK true s) c) with (distance s c) in *. lia.
Qed.

Lemma unmask_similar s : similar (set_PRIMASK false s) s.
Proof. by destruct s. Qed.

(** C11: sleeping without ticks.  When the idle task runs and every deadline lies in
    this turn of the counter -- or in any case, if the half of the loop of
    [WaitTickless] that the preprocessor always leaves out had been compiled ([wrap]) -- the processor sleeps for [n] ticks, up to
    the nearest deadline or as far as the 24-bit timer can count; whether the timer
    or, before, another interrupt ends the sleep, the kernel is then in the state in
    which the ticking kernel would be after the ticks counted -- all [n] or those
    slept, rounded up: no deadline is missed.  The two states are compared but for the
    load counters, the interrupt mask and the task selected last ([similar]); the
    other interrupt is the handler of the context switch with no handler of a device
    before it; a tick fits in the timer, and the ticks of the longest sleep in the
    counter. *)
Theorem tickless_sleep wrap V s l :
  ostick_bits < 64 -> resting s l -> deadlines wrap s l -> clock_fits ->
  (forall m, MAX_TICKS configCPU_CLOCK_HZ = Some m -> m <= TICK_COUNT_OVERFLOW) ->
  exists V1 n, WaitTickless_if configCPU_CLOCK_HZ wrap V s = Done V1 (set_PRIMASK false s) /\
    0 < n /\ SYSTICK_LOAD V1 = (tick_module configCPU_CLOCK_HZ - 1) * n /\ SYSTICK_LOAD V1 < 2 ^ 24 /\
    (forall CNT, exists V2 s1 s2,
       TickTimer_tickless configCPU_CLOCK_HZ CNT V1 (set_PRIMASK false s) = Done V2 s1 /\
       ticks (Z.to_nat n) s = Done tt s2 /\ similar s1 s2 /\ normal_run V2 = true) /\
    (forall CNT, 0 <= CNT < SYSTICK_LOAD V1 ->
       let time := n - CNT / (tick_module configCPU_CLOCK_HZ - 1) in 0 < time <= n /\
       exists V2 s1 s2,
         SwitchContext_tickless configCPU_CLOCK_HZ CNT V1 (set_PRIMASK false s) = Done V2 s1 /\
         ticks (Z.to_nat time) s = Done tt s2 /\ similar s1 s2 /\ normal_run V2 = true).
Proof.
  intros Hb Hr Hdl Hcf HM.
  destruct (WaitTickless_lemma wrap V s l Hr Hdl Hcf) as (V1 & n & m & Hrun & Has & Hm & Hn & HL & HL2 & Hu & _).
  specialize (HM m Hm).
  assert (resting (set_PRIMASK false s) l) as Hr' by (destruct Hr as [? ? ?]; split; [by apply (wf_ext s)|done|done]).
  exists V1, n. split_and!; [done|lia|done|done| |].
  - intros CNT. destruct (tick_wakes CNT V1 (set_PRIMASK false s) l n) as (V2 & s1 & s2 & H1 & H2 & E & HR);
      [done|done|done|lia|done|].
    pose proof (simulates_ticks (Z.to_nat n) _ _ (unmask_similar s)) as H3. rewrite H2 in H3.
    destruct (ticks (Z.to_nat n) s) as [[] s3| |]; [|done|done]. destruct H3 as [_ E3].
    exists V2, s1, s3. split_and!; [done|done|by rewrite E|done].
  - intros CNT HC time.
    destruct (interrupt_wakes CNT V1 (set_PRIMASK false s) l n) as (Ht & V2 & s1 & s2 & H1 & H2 & E & HR);
      [done|done|done|done|done|lia|by rewrite <- HL|].
    fold time in Ht, H2. split; [done|].
    pose proof (simulates_ticks (Z.to_nat time) _ _ (unmask_similar s)) as H3. rewrite H2 in H3.
    destruct (ticks (Z.to_nat time) s) as [[] s3| |]; [|done|done]. destruct H3 as [_ E3].
    exists V2, s1, s3. split_and!; [done|done|by rewrite E|done].
Qed.
End waking.

(** ** Examples

    The idle task runs and a task of priority 9 waits for the tick [deadline]; the
    processor has a clock of 168 MHz and a tick of 1 ms. *)
Section examples.
#[local] Existing Instance sample_config.

Definition idle_os (now deadline : Z) : OS :=
  let s := sample_os [0; 9] (2 ^ 0) 1 [] [] [] [] [] [] in
  set_OSTickCounter now (set_Head (Some 2) (set_Tail (Some 2)
    (set_ContextTask (aset (ContextTask s) 2 (set_TimeToWait deadline (sample_task 2 9))) s))).
Definition clock_hz : Z := 168000000.
Definition at_start : systick := mkSystick 0 true 167999.

Lemma idle_resting : resting (idle_os 100 130) [2].
Proof.
  split; [by apply wfb_sound| |done].
  exists 0. split_and!; [by apply task_atb_sound|done|].
  intros q Hq [H1 _]. cbn in H1. destruct q as [|q|q]; [lia|by destruct q|lia].
Qed.

Lemma tickless_sleep_witness :
  exists V1 n, WaitTickless_if clock_hz false at_start (idle_os 100 130) = Done V1 (set_PRIMASK false (idle_os 100 130)) /\
    0 < n /\ SYSTICK_LOAD V1 = (tick_module clock_hz - 1) * n /\ SYSTICK_LOAD V1 < 2 ^ 24 /\
    (forall CNT, exists V2 s1 s2,
       TickTimer_tickless clock_hz CNT V1 (set_PRIMASK false (idle_os 100 130)) = Done V2 s1 /\
       ticks (Z.to_nat n) (idle_os 100 130) = Done tt s2 /\ similar s1 s2 /\ normal_run V2 = true) /\
    (forall CNT, 0 <= CNT < SYSTICK_LOAD V1 ->
       let time := n - CNT / (tick_module clock_hz - 1) in 0 < time <= n /\
       exists V2 s1 s2,
         SwitchContext_tickless clock_hz CNT V1 (set_PRIMASK false (idle_os 100 130)) = Done V2 s1 /\
         ticks (Z.to_nat time) (idle_os 100 130) = Done tt s2 /\ similar s1 s2 /\ normal_run V2 = true).
Proof.
  apply (tickless_sleep clock_hz false at_start (idle_os 100 130) [2]).
  - done.
  - apply idle_resting.
  - intros t c ->%list_elem_of_singleton Hc. cbn in Hc. injection Hc as <-.
    split; [done|]. split; [done|]. by right.
  - by split.
  - intros m Hm. vm_compute in Hm. injection Hm as <-. done.
Defined.

(** The ticks slept, and the counter and the ready tasks after the tick that ends the
    sleep. *)
Definition slept (now deadline : Z) : option (Z * Z * Z) :=
  match WaitTickless clock_hz at_start (idle_os now deadline) with
  | Done V s =>
      match TickTimer_tickless clock_hz 0 V s with
      | Done _ s' => Some (time_next_task V, OSTickCounter s', OSReadyList s')
      | _ => None
      end
  | _ => None
  end.

Example slept_30 : slept 100 130 = Some (30, 130, 2 ^ 0 + 2 ^ 9).
Proof. by vm_compute. Qed.

(** A deadline behind the end of the counter is not looked at: the task that should
    wake in 42 ticks is slept past, and waits for another turn of the counter. *)
Example deadline_missed : slept 65500 10 = Some (99, 67, 2 ^ 0).
Proof. by vm_compute. Qed.

(** A wait of a full turn of the counter has its deadline at the present tick: the
    time to sleep is 0, the tick that ends the sleep is not counted, and the task wakes
    a turn too early. *)
Example full_turn_ends_at_once : slept 100 100 = Some (0, 100, 2 ^ 0 + 2 ^ 9).
Proof. by vm_compute. Qed.
End examples.
