(* ===== verification/SysArch.v ===== *)
(** * The network stack's port to the kernel

    modules/LwIP/STM32F4_gnu_gcc_port/brtos_port/sys_arch.c: the semaphores,
    mailboxes and threads of the lwIP stack, built on the semaphores, dynamic
    queues and tasks of the kernel.  (The Freescale port has the same text.)  A
    semaphore is a pointer to a kernel semaphore, a mailbox a pointer to a
    dynamic queue of 4-byte elements; [None] is NULL.  A loop that waits for ever
    has a fuel. *)

From Stdlib Require Import ZArith Lia.
From stdpp Require Import base gmap numbers list.
From S2P Require Import Prelude Config State Sched DelayList Hal Clock Kernel Event Semaphore DQueue Tasks Info.
#[local] Open Scope Z_scope.
#[local] Open Scope prog_scope.

(** lwip/err.h, lwip/sys.h *)
Definition ERR_OK : Z := 0.
Definition ERR_MEM : Z := -1.
Definition SYS_ARCH_TIMEOUT : Z := 0xFFFFFFFF.

(** [sizeof( void * )] on the Cortex-M4, and the bytes of a pointer. *)
Definition sizeof_void_ptr : Z := 4.
Fixpoint le_bytes (n : nat) (v : Z) : list Z :=
  match n with
  | O => []
  | S n' => v mod 256 :: le_bytes n' (v / 256)
  end.
Definition ptr_bytes (v : Z) : list Z := le_bytes (Z.to_nat sizeof_void_ptr) v.

(** sys_arch.c: the control block of a thread; the list links are addresses, 0
    is NULL, and [pid] is a kernel control block.  [tcb_timeouts] is the head of
    its list of timeouts. *)
Record sys_tcb := mkTcb {
  tcb_next : Z;
  tcb_timeouts : Z;
  tcb_pid : option Z;
}.

Definition set_tcb_next (v : Z) (t : sys_tcb) : sys_tcb := mkTcb v (tcb_timeouts t) (tcb_pid t).
Definition set_tcb_pid (v : option Z) (t : sys_tcb) : sys_tcb := mkTcb (tcb_next t) (tcb_timeouts t) v.

(** The list of threads and the control blocks in the heap, by address: a block
    that is given back to the allocator is no longer there. *)
Record sys_vars := mkSysVars { tasks : Z; tcbs : gmap Z sys_tcb }.

Definition set_tasks (v : Z) (V : sys_vars) : sys_vars := mkSysVars v (tcbs V).
Definition set_tcbs (m : gmap Z sys_tcb) (V : sys_vars) : sys_vars := mkSysVars (tasks V) m.

Section operations.
Context `{C : Config}.

(** ** Elapsed time *)

(** [StartTime = OSGetTickCount();], into an [INT16U]. *)
Definition tick16 : prog Z :=
  cnt <- OSGetTickCount ;; ret (uint16 cnt).

(** [if (EndTime > StartTime) ... if( Elapsed == 0 ) Elapsed = 1;] *)
Definition ticks_elapsed (StartTime EndTime : Z) : Z :=
  let Elapsed :=
    if EndTime >? StartTime then uint16 (EndTime - StartTime)
    else uint16 ((TICK_COUNT_OVERFLOW - StartTime) + EndTime) in
  if Elapsed =? 0 then 1 else Elapsed.

(** ** Mailboxes *)

(** [sys_mbox_new]; the local [mbox] is not initialised, [mbox0] is what it
    holds. *)
Definition sys_mbox_new (mbox0 : option Z) (size : Z) : prog (option Z) :=
  r <- OSDQueueCreate (uint16 size) sizeof_void_ptr mbox0 ;;
  ret (snd r).

Definition sys_mbox_free (mbox : option Z) : prog unit :=
  OSDQueueDelete mbox ;;; ret tt.

Definition sys_mbox_post (mbox : option Z) (data : Z) : prog unit :=
  OSDQueuePost mbox (ptr_bytes data) ;;; ret tt.

Definition sys_mbox_trypost (mbox : option Z) (data : Z) : prog Z :=
  r <- OSDQueuePost mbox (ptr_bytes data) ;;
  ret (if negb (truthy r) then ERR_OK else ERR_MEM).

(** [while( OSDQueuePend (mbox, &( *msg), 10000)) ;] *)
Fixpoint mbox_loop (fuel : nat) (mbox : option Z) (pdata : list Z) : prog (list Z) :=
  match fuel with
  | O => fault
  | S fuel' =>
      r <- OSDQueuePend mbox pdata 10000 ;;
      if truthy (fst r) then mbox_loop fuel' mbox (snd r)
      else ret (snd r)
  end.

(** [sys_arch_mbox_fetch]; [msg] is what the pointer argument points to, [None]
    if it is NULL, and then the local [dummyptr], which holds anything, takes its
    place.  The result has the time and what the pointer argument points to
    afterwards: with a NULL argument the message is dropped with [dummyptr]. *)
Definition sys_arch_mbox_fetch (fuel : nat) (mbox msg : option Z) (dummyptr timeout : Z)
    : prog (Z * option Z) :=
  StartTime <- tick16 ;;
  let pdata := ptr_bytes (default dummyptr msg) in
  let store v := match msg with Some _ => Some v | None => None end in
  if truthy timeout then
    r <- OSDQueuePend mbox pdata (uint ostick_bits timeout) ;;
    if negb (truthy (fst r)) then
      EndTime <- tick16 ;;
      ret (ticks_elapsed StartTime EndTime, store (le_val (snd r)))
    else ret (SYS_ARCH_TIMEOUT, store 0)
  else
    pdata <- mbox_loop fuel mbox pdata ;;
    EndTime <- tick16 ;;
    ret (ticks_elapsed StartTime EndTime, store (le_val pdata)).

(** ** Semaphores *)

Definition sys_sem_new (count : Z) : prog (option Z) :=
  r <- OSSemCreate count None ;;
  let Semaphore := snd r in
  (* Means it can't be taken *)
  (if count =? 0 then OSSemPend Semaphore 1 ;;; ret tt else ret tt) ;;;
  ret Semaphore.

(** [while( OSSemPend(sem, 10000) ) ;] *)
Fixpoint sem_loop (fuel : nat) (sem : option Z) : prog unit :=
  match fuel with
  | O => fault
  | S fuel' =>
      r <- OSSemPend sem 10000 ;;
      if truthy r then sem_loop fuel' sem else ret tt
  end.

Definition sys_arch_sem_wait (fuel : nat) (sem : option Z) (timeout : Z) : prog Z :=
  StartTime <- tick16 ;;
  if truthy timeout then
    r <- OSSemPend sem (uint ostick_bits timeout) ;;
    if negb (truthy r) then
      EndTime <- tick16 ;;
      ret (ticks_elapsed StartTime EndTime)
    else ret SYS_ARCH_TIMEOUT
  else
    sem_loop fuel sem ;;;
    EndTime <- tick16 ;;
    ret (ticks_elapsed StartTime EndTime).

Definition sys_sem_signal (sem : option Z) : prog unit :=
  OSSemPost sem ;;; ret tt.

Definition sys_sem_free (sem : option Z) : prog unit :=
  OSSemDelete sem ;;; ret tt.

(** ** Threads *)

Definition sys_init (V : sys_vars) : sys_vars := set_tasks 0 V.

(** [&ContextTask[currentTask]] *)
Definition xTaskGetCurrentTaskHandle : prog Z :=
  CPU_SR <- OSEnterCritical ;;
  xReturn <- gets currentTask ;;
  OSExitCritical CPU_SR ;;;
  ret xReturn.

(** [while( ( p != NULL ) && ( p->pid != pid ) ) p = p->next;] *)
Fixpoint find_thread (fuel : nat) (m : gmap Z sys_tcb) (p pid : Z) : option Z :=
  match fuel with
  | O => None
  | S fuel' =>
      if p =? 0 then Some p
      else
        t ← m !! p;
        if bool_decide (tcb_pid t = Some pid) then Some p
        else find_thread fuel' m (tcb_next t) pid
  end.

Definition sys_arch_thread_current (V : sys_vars) : prog Z :=
  pid <- xTaskGetCurrentTaskHandle ;;
  CPU_SR <- OSEnterCritical ;;
  p <- lift (find_thread (size (tcbs V) + 1) (tcbs V) (tasks V) pid) ;;
  OSExitCritical CPU_SR ;;;
  ret p.

(** [sys_arch_timeouts]; the result is the address of the thread whose timeouts
    these are.  [LWIP_ASSERT] is empty without LWIP_DEBUG. *)
Definition sys_arch_timeouts (V : sys_vars) : prog Z :=
  ptask <- sys_arch_thread_current V ;;
  ret (if negb (ptask =? 0) then ptask else 0).

(** [while( p->next != NULL ) { i++; p = p->next; }]; the counter is not used. *)
Fixpoint last_thread (fuel : nat) (m : gmap Z sys_tcb) (p : Z) : option Z :=
  match fuel with
  | O => None
  | S fuel' =>
      t ← m !! p;
      if tcb_next t =? 0 then Some p else last_thread fuel' m (tcb_next t)
  end.

(** [for(j = 1;j<NUMBER_OF_TASKS;j++)]: the control block that has the
    priority, the last one if there are several. *)
Fixpoint find_pid (n : nat) (j prio : Z) (pid : option Z) : prog (option Z) :=
  match n with
  | O => ret pid
  | S n' =>
      c <- Task j ;;
      find_pid n' (j + 1) prio (if Priority c =? prio then Some j else pid)
  end.

(** The size of a thread's control block: [struct sys_timeouts] is lwIP's. *)
Context (sizeof_sys_tcb : Z).

(** The first part of [sys_thread_new]: a control block at the end of the list. *)
Definition new_tcb (V : sys_vars) : prog (Z * sys_vars) :=
  if tasks V =? 0 then
    p <- call_ALLOC sizeof_sys_tcb ;;
    ret (p, if negb (p =? 0) then set_tasks p V else V)
  else
    last <- lift (last_thread (size (tcbs V) + 1) (tcbs V) (tasks V)) ;;
    p <- call_ALLOC sizeof_sys_tcb ;;
    t <- lift (tcbs V !! last) ;;
    ret (p, set_tcbs (<[last := set_tcb_next p t]> (tcbs V)) V).

(** [sys_thread_new].  The call of [InstallTask] has five arguments: it is the one
    of a kernel without TASK_WITH_PARAMETERS, whose last argument is the pointer to
    the task's handle.  So the task gets no argument (R0 is 0) and its number is
    stored where [arg] points.  The result has the new thread, the variables and
    what is stored at [arg]: nothing when it is NULL or no task was installed. *)
Definition sys_thread_new (V : sys_vars) (name thread arg stacksize prio : Z)
    : prog (option Z * sys_vars * option Z) :=
  UserEnterCritical ;;;
  r <- new_tcb V ;;
  let '(p, V) := r in
  if negb (p =? 0) then
    let V := set_tcbs (<[p := mkTcb 0 0 None]> (tcbs V)) V in
    r <- OSInstallTask thread name (uint16 stacksize) (uint8 prio) 0 ;;
    let TaskHandle := if arg =? 0 then None else snd r in
    if fst r =? OK then
      pid <- find_pid (Z.to_nat (NUMBER_OF_TASKS - 1)) 1 prio None ;;
      UserExitCritical ;;;
      ret (pid, set_tcbs (<[p := mkTcb 0 0 pid]> (tcbs V)) V, TaskHandle)
    else
      call_DEALLOC p ;;;
      UserExitCritical ;;;
      ret (None, set_tcbs (delete p (tcbs V)) V, TaskHandle)
  else
    UserExitCritical ;;;
    ret (None, V, None).

(** ** Protection *)

Definition sys_arch_protect : prog bool := OSEnterCritical.
Definition sys_arch_unprotect (CPU_SR : bool) : prog unit := OSExitCritical CPU_SR.
End operations.
