(* ===== verification/SysArchSpec.v ===== *)
(** * What the network stack's port promises

    The theorems on SysArch.v: the time that was waited, the semaphores and
    mailboxes over any history of time-outs, and the list of threads. *)

From Stdlib Require Import ZArith Lia.
From stdpp Require Import base gmap numbers list.
From S2P Require Import Prelude Config State Sched DelayList Hal Clock Kernel Event Semaphore DQueue DQueueSpec Tasks Info SysArch.
#[local] Open Scope Z_scope.
#[local] Open Scope prog_scope.

(** ** Histories *)

(** A service and the states in which its task is dispatched again, one for each
    time it gave up the processor. *)
Fixpoint replay `{C : Config} {A} (r : res A) (ss : list OS) {struct ss} : res A :=
  match ss with
  | [] => r
  | s :: ss' => match r with Yield _ k => replay (k s) ss' | _ => Fault end
  end.

Section replay.
Context `{C : Config}.

Lemma replay_rbind {A B} ss1 ss2 : forall (r : res A) (f : A -> prog B) a s1,
  replay r ss1 = Done a s1 -> replay (rbind r f) (ss1 ++ ss2) = replay (f a s1) ss2.
Proof.
  induction ss1 as [|s ss1 IH]; intros r f a s1.
  - cbn. by intros ->.
  - destruct r as [|s0 k|]; cbn; [done| |done]. apply IH.
Qed.

Lemma replay_bind {A B} (p : prog A) (f : A -> prog B) s ss1 ss2 a s1 :
  replay (p s) ss1 = Done a s1 -> replay (bind p f s) (ss1 ++ ss2) = replay (f a s1) ss2.
Proof. apply (replay_rbind ss1 ss2 (p s)). Qed.

(** Without a switch. *)
Lemma replay_Done {A B} (p : prog A) (f : A -> prog B) s ss a s1 :
  p s = Done a s1 -> replay (bind p f s) ss = replay (f a s1) ss.
Proof. intros H. by rewrite (bind_Done _ _ _ _ _ H). Qed.
End replay.

(** ** Elapsed time *)
Section elapsed.
Context `{C : Config}.

Lemma tick16_eq s : tick16 s = Done (uint16 (OSTickCounter s)) s.
Proof. unfold tick16, OSGetTickCount. cbn. by destruct s. Qed.

Lemma uint16_overflow_ticks x : uint16 (TICK_COUNT_OVERFLOW + x) = (x - 4) mod 2 ^ 16.
Proof.
  rewrite TICK_COUNT_OVERFLOW_eq. unfold uint16, uint.
  assert (16 <= ostick_bits) by (destruct ostick_bits_cases as [E|[E|E]]; rewrite E; lia).
  replace (2 ^ ostick_bits - 4 + x) with (x - 4 + 2 ^ (ostick_bits - 16) * 2 ^ 16).
  - by rewrite Z_mod_plus_full.
  - rewrite <- Z.pow_add_r by lia.
    replace (ostick_bits - 16 + 16) with ostick_bits by lia. lia.
Qed.

Lemma ticks_elapsed_eq S E :
  0 <= S < 2 ^ 16 -> 0 <= E < 2 ^ 16 ->
  ticks_elapsed S E =
    if E >? S then E - S else if E - S =? -65532 then 1 else (E - S - 4) mod 2 ^ 16.
Proof.
  intros HS HE. unfold ticks_elapsed. destruct (E >? S) eqn:Hgt; to_prop.
  - rewrite uint16_small by lia. by rewrite (proj2 (Z.eqb_neq _ _)) by lia.
  - replace (TICK_COUNT_OVERFLOW - S + E) with (TICK_COUNT_OVERFLOW + (E - S)) by lia.
    rewrite uint16_overflow_ticks. destruct (E - S =? -65532) eqn:E1; to_prop; [by rewrite E1|].
    destruct ((E - S - 4) mod 2 ^ 16 =? 0) eqn:E2; to_prop; [|done].
    rewrite Z.mod_eq in E2 by lia. exfalso. change (2 ^ 16) with 65536 in *.
    assert ((E - S - 4) / 65536 = -1 \/ (E - S - 4) / 65536 = -2) as [Hq|Hq]; [|rewrite Hq in E2..]; lia.
Qed.

(** The time waited.  With 16-bit ticks a wait of [n] ticks, shorter than a turn
    of the counter, is reported as [n] wherever it wraps; with wider ticks the
    report is 4 ticks short when the low half of the counter wraps.  A wait of no
    tick at all is reported as 65532 ticks in every build. *)
Theorem ticks_elapsed_correct S n :
  0 <= S < TICK_COUNT_OVERFLOW ->
  (ostick_bits = 16 -> 0 < n < TICK_COUNT_OVERFLOW ->
   ticks_elapsed (uint16 S) (uint16 ((S + n) mod TICK_COUNT_OVERFLOW)) = n) /\
  (ostick_bits <> 16 -> 4 < n < 2 ^ 16 -> S + n < TICK_COUNT_OVERFLOW ->
   ticks_elapsed (uint16 S) (uint16 (S + n)) = if uint16 S + n <? 2 ^ 16 then n else n - 4) /\
  ticks_elapsed (uint16 S) (uint16 S) = 65532.
Proof.
  intros HS. split_and!.
  - intros Hb Hn. rewrite TICK_COUNT_OVERFLOW_eq, Hb in *. change (2 ^ 16 - 4) with 65532 in *.
    rewrite (uint16_small S) by lia. pose proof (Z.mod_pos_bound (S + n) 65532).
    rewrite (uint16_small (_ mod _)) by lia. rewrite ticks_elapsed_eq by lia.
    destruct (Z_lt_le_dec (S + n) 65532).
    + rewrite Z.mod_small by lia. rewrite (proj2 (Z.gtb_lt _ _)) by lia. lia.
    + replace ((S + n) mod 65532) with (S + n - 65532)
        by (apply (Z.mod_unique_pos _ _ 1); lia).
      rewrite Z.gtb_ltb, (proj2 (Z.ltb_ge _ _)) by lia.
      destruct (_ =? _) eqn:E; to_prop; [lia|].
      symmetry. apply (Z.mod_unique_pos _ _ (-1)); lia.
  - intros Hb Hn Hlt. set (a := uint16 S). pose proof (uint_range 16 S ltac:(lia)) as Ha.
    change (uint 16 S) with a in Ha.
    assert (uint16 (S + n) = (a + n) mod 2 ^ 16) as ->
      by (unfold a, uint16, uint; by rewrite Zplus_mod_idemp_l).
    rewrite ticks_elapsed_eq by (try apply Z.mod_pos_bound; lia).
    destruct (a + n <? 2 ^ 16) eqn:E; to_prop.
    + rewrite Z.mod_small by lia. rewrite (proj2 (Z.gtb_lt _ _)) by lia. lia.
    + replace ((a + n) mod 2 ^ 16) with (a + n - 2 ^ 16)
        by (apply (Z.mod_unique_pos _ _ 1); lia).
      rewrite Z.gtb_ltb, (proj2 (Z.ltb_ge _ _)) by lia.
      rewrite (proj2 (Z.eqb_neq _ _)) by lia.
      symmetry. apply (Z.mod_unique_pos _ _ (-1)); lia.
  - set (a := uint16 S). pose proof (uint_range 16 S ltac:(lia)) as Ha. change (uint 16 S) with a in Ha.
    rewrite ticks_elapsed_eq by lia. rewrite Z.gtb_ltb, Z.ltb_irrefl, Z.sub_diag. done.
Qed.
End elapsed.

(** ** Semaphores *)
Section sems.
Context `{C : Config}.
Context (cur p ev : Z) (Hp : 0 < p).
Implicit Types (s : OS) (l : list Z) (e : BRTOS_Sem).

(** The task [cur], of priority [p], runs and may wait for the semaphore [ev],
    which has no unit. *)
Record may_wait s l e : Prop := {
  mw_wf : wf s l;
  mw_irq : iNesting s = 0;
  mw_cur : currentTask s = cur;
  mw_task : task_at s p cur;
  mw_free : cur ∉ l;
  mw_sem : sem_at s ev e;
  mw_ok : sem_ok s e;
  mw_empty : sem_OSEventCount e = 0;
}.

(** Its wait timed out: no post released it. *)
Definition timed_out s : Prop := exists l e c, may_wait s l e /\
  p ∈ waiting (sem_abs e) /\ aget (ContextTask s) cur = Some c /\ TimeToWait c = EXIT_BY_TIMEOUT.

(** A post released it, before its time ran out or after. *)
Definition released s e : Prop := exists l c, wf s l /\ sem_at s ev e /\
  0 <= p < PriorityType_bits /\ aget (ContextTask s) cur = Some c /\
  (TimeToWait c <> EXIT_BY_TIMEOUT /\ (exists l1 l3, l = l1 ++ cur :: l3) \/
   TimeToWait c = EXIT_BY_TIMEOUT /\ p ∉ waiting (sem_abs e)).

Lemma wait_range s l e : may_wait s l e -> 0 <= p < PriorityType_bits.
Proof. intros [Hw _ _ Ht _ _ _ _]. by eapply task_at_range. Qed.

(** A pend that times out leaves the task able to wait again; one that was
    released returns with the semaphore as it is. *)
Lemma pend_timed_out s l e w s1 :
  may_wait s l e -> w <> 0 -> w <> NO_TIMEOUT -> timed_out s1 ->
  exists s2 l2 e2, replay (OSSemPend (Some ev) w s) [s1] = Done TIMEOUT s2 /\ may_wait s2 l2 e2 /\
    OSTickCounter s2 = OSTickCounter s1 /\ p ∉ waiting (sem_abs e2).
Proof.
  intros Hm Hw0 Hwn (l1 & e1 & c & Hm1 & Hin & Hc & HT). pose proof (wait_range _ _ _ Hm) as Hpr.
  destruct Hm as [Hw Hn Hcur Ht Hni Hat Hok H0]. destruct Hm1 as [Hw1 Hn1 Hcur1 Ht1 Hni1 [He1 Ha1] Hok1 H01].
  rewrite <- Hcur in Ht, Hni.
  destruct (OSSemPend_block_lemma s l p ev e w) as (s0 & t & Hr & _); [done..|apply Hok|done|done|].
  rewrite Hr, Hcur. cbn [replay]. apply elem_of_members in Hin as [_ Hb].
  rewrite (OSSemPend_resume_timeout s1 ev e1 cur w _ p c) by (done || apply Hok1).
  eexists _, l1, (ev_leave p e1). split_and!; [done| |done|].
  - split; cbn; try done.
    + by apply (wf_ext s1).
    + split; [by eapply aget_aset_eq|done].
    + apply (sem_ok_leave s1); [|done|done]. apply (ev_ok_ext s1); [done|done|].
      apply ev_ok_leave; [apply Hok1|lia|done].
  - cbn. rewrite elem_of_members. intros [_ Hb']. rewrite testbit_clear in Hb' by lia.
    rewrite bool_decide_true in Hb' by done. by rewrite andb_false_r in Hb'.
Qed.

Lemma pend_released s l e w s1 e1 :
  may_wait s l e -> w <> 0 -> w <> NO_TIMEOUT -> released s1 e1 ->
  exists s2 l2, replay (OSSemPend (Some ev) w s) [s1] = Done OK s2 /\ wf s2 l2 /\
    sem_at s2 ev e1 /\ OSTickCounter s2 = OSTickCounter s1.
Proof.
  intros [Hw Hn Hcur Ht Hni Hat Hok H0] Hw0 Hwn (l1 & c & Hw1 & Hat1 & Hpr & Hc & Hcase).
  rewrite <- Hcur in Ht, Hni.
  destruct (OSSemPend_block_lemma s l p ev e w) as (s0 & t & Hr & _); [done..|apply Hok|done|done|].
  rewrite Hr, Hcur. cbn [replay]. destruct Hcase as [[HT (la & lb & ->)]|[HT Hnin]].
  - destruct (OSSemPend_resume_posted s1 la lb ev cur w (PRIMASK s) p c)
      as (s3 & Hr3 & Hw3 & Hsp & _ & ct & hd & tl & ->); [done..|].
    rewrite Hr3. eexists _, _. by split_and!.
  - rewrite (OSSemPend_resume_both s1 ev e1 cur w _ p c); [|done..|apply Hat1|done|].
    + eexists _, l1. split_and!; [done|by apply (wf_ext s1)|done|done].
    + apply not_true_iff_false. intros Hb. apply Hnin, elem_of_members. split; [lia|done].
Qed.

(** The loop that waits for ever, over a history of time-outs. *)
Lemma sem_loop_replay ss : forall fuel s l e s1 e1,
  (length ss < fuel)%nat -> may_wait s l e -> Forall timed_out ss -> released s1 e1 ->
  exists s2 l2, replay (sem_loop fuel (Some ev) s) (ss ++ [s1]) = Done tt s2 /\ wf s2 l2 /\
    sem_at s2 ev e1 /\ OSTickCounter s2 = OSTickCounter s1.
Proof.
  assert (10000 <> NO_TIMEOUT) as Hnt
    by (rewrite NO_TIMEOUT_eq; destruct ostick_bits_cases as [->|[->| ->]]; lia).
  induction ss as [|x ss IH]; intros [|fuel] s l e s1 e1 Hf Hm Hss Hs1; cbn [length] in Hf; try lia.
  - destruct (pend_released s l e 10000 s1 e1) as (s2 & l2 & Hr & H2); [done..|].
    exists s2, l2. split; [|done]. cbn [sem_loop app].
    by rewrite (replay_bind _ _ s [s1] [] _ _ Hr).
  - apply Forall_cons in Hss as [Hx Hss].
    destruct (pend_timed_out s l e 10000 x) as (s2 & l2 & e2 & Hr & Hm2 & _); [done..|].
    destruct (IH fuel s2 l2 e2 s1 e1) as (s3 & l3 & Hr3 & H3); [lia|done..|].
    exists s3, l3. split; [|done]. cbn [sem_loop].
    change ((x :: ss) ++ [s1]) with ([x] ++ ss ++ [s1]).
    rewrite (replay_bind _ _ s [x] _ _ _ Hr). exact Hr3.
Qed.

(** What the port reports of a wait of [n] ticks that began on tick [S]. *)
Definition time_reported (S n r : Z) : Prop :=
  (ostick_bits = 16 -> 0 < n -> r = n) /\
  (ostick_bits <> 16 -> 4 < n < 2 ^ 16 -> S + n < TICK_COUNT_OVERFLOW ->
     r = if S mod 2 ^ 16 + n <? 2 ^ 16 then n else n - 4) /\
  (n = 0 -> r = 65532).

Lemma ticks_elapsed_reported S n :
  0 <= S < TICK_COUNT_OVERFLOW -> 0 <= n < TICK_COUNT_OVERFLOW ->
  time_reported S n (ticks_elapsed (uint16 S) (uint16 ((S + n) mod TICK_COUNT_OVERFLOW))).
Proof.
  intros HS Hn. destruct (ticks_elapsed_correct S n HS) as (H1 & H2 & H3). split_and!.
  - intros Hb Hpos. apply H1; [done|lia].
  - intros Hb Hr Hlt. rewrite Z.mod_small by lia. by apply H2.
  - intros ->. by rewrite Z.add_0_r, Z.mod_small.
Qed.

(** C29: Waiting, without a time limit, for a semaphore that has no unit, in a task
    outside every interrupt that is not waiting already.  However often the task
    wakes because its pend timed out, it goes on waiting, and once a post released
    it, it returns with the semaphore as the post left it.  When [n] ticks, less
    than a turn of the counter, passed between the call and that dispatch, the
    result is [n] with 16-bit ticks, unless no tick passed: then it is 65532, in
    every build.  With wider ticks a wait of 5 to 65535 ticks in which the counter
    does not begin a new turn is reported as [n], or as [n - 4] when the lower 16
    bits of the counter wrapped.  (The unit is the tick, where the comment in the
    code says milliseconds.) *)
Theorem sys_arch_sem_wait_forever s l e ss s1 e1 fuel n :
  (length ss < fuel)%nat -> may_wait s l e -> Forall timed_out ss -> released s1 e1 ->
  0 <= OSTickCounter s < TICK_COUNT_OVERFLOW -> 0 <= n < TICK_COUNT_OVERFLOW ->
  OSTickCounter s1 = (OSTickCounter s + n) mod TICK_COUNT_OVERFLOW ->
  exists r s2 l2, replay (sys_arch_sem_wait fuel (Some ev) 0 s) (ss ++ [s1]) = Done r s2 /\
    time_reported (OSTickCounter s) n r /\ wf s2 l2 /\ sem_at s2 ev e1.
Proof.
  intros Hf Hm Hss Hs1 HS Hn Htk1.
  destruct (sem_loop_replay ss fuel s l e s1 e1) as (s2 & l2 & Hr & Hw2 & Hat2 & Htk); [done..|].
  exists (ticks_elapsed (uint16 (OSTickCounter s)) (uint16 (OSTickCounter s1))), s2, l2.
  split; [|rewrite Htk1; split; [by apply ticks_elapsed_reported|done]].
  unfold sys_arch_sem_wait.
  rewrite (replay_Done _ _ s _ _ _ (tick16_eq s)). rewrite truthy_0.
  rewrite <- (app_nil_r (ss ++ [s1])), (replay_bind _ _ s _ [] _ _ Hr).
  rewrite (replay_Done _ _ _ _ _ _ (tick16_eq s2)). cbn. by rewrite Htk.
Qed.

(** Waiting with a time limit: SYS_ARCH_TIMEOUT if the pend timed out, the task
    having left the waiting set; the time waited if a post released it; and if
    the semaphore has a unit it is taken at once and 65532 is returned. *)
Theorem sys_arch_sem_wait_timed s l e timeout fuel :
  let w := uint ostick_bits timeout in
  timeout <> 0 -> w <> 0 -> w <> NO_TIMEOUT -> may_wait s l e ->
  (forall s1, timed_out s1 -> exists s2 l2 e2,
     replay (sys_arch_sem_wait fuel (Some ev) timeout s) [s1] = Done SYS_ARCH_TIMEOUT s2 /\
     wf s2 l2 /\ sem_at s2 ev e2 /\ p ∉ waiting (sem_abs e2)) /\
  (forall s1 e1, released s1 e1 -> exists s2 l2,
     replay (sys_arch_sem_wait fuel (Some ev) timeout s) [s1] =
       Done (ticks_elapsed (uint16 (OSTickCounter s)) (uint16 (OSTickCounter s1))) s2 /\
     wf s2 l2 /\ sem_at s2 ev e1).
Proof.
  intros w Ht0 Hw0 Hwn Hm. unfold sys_arch_sem_wait. rewrite truthy_nz by done.
  split.
  - intros s1 Hs1. destruct (pend_timed_out s l e w s1) as (s2 & l2 & e2 & Hr & Hm2 & _ & Hnin); [done..|].
    exists s2, l2, e2. rewrite (replay_Done _ _ s _ _ _ (tick16_eq s)).
    rewrite (replay_bind _ _ s [s1] [] _ _ Hr). split_and!; [done|apply Hm2|apply Hm2|done].
  - intros s1 e1 Hs1. destruct (pend_released s l e w s1 e1) as (s2 & l2 & Hr & Hw2 & Hat2 & Htk); [done..|].
    exists s2, l2. rewrite (replay_Done _ _ s _ _ _ (tick16_eq s)).
    rewrite (replay_bind _ _ s [s1] [] _ _ Hr). cbn [truthy negb replay].
    split_and!; [|done|done]. change (truthy OK) with false. cbn [negb].
    rewrite (bind_Done _ _ _ _ _ (tick16_eq s2)). cbn. by rewrite Htk.
Qed.
End sems.

Section more_sems.
Context `{C : Config}.
Implicit Types (s : OS) (l : list Z) (ev : Z) (e : BRTOS_Sem).

(** A semaphore that was signaled is taken without waiting, with or without a
    limit -- and then 65532 is returned, the longest time there is. *)
Theorem sys_arch_sem_wait_available s ev e timeout fuel :
  (0 < fuel)%nat -> iNesting s = 0 -> 0 <= OSTickCounter s < TICK_COUNT_OVERFLOW ->
  sem_at s ev e -> 0 < sem_OSEventCount e <= 255 ->
  sys_arch_sem_wait fuel (Some ev) timeout s =
    Done 65532 (set_BRTOS_Sem_Table (aset (BRTOS_Sem_Table s) ev
                  (set_sem_OSEventCount (sem_OSEventCount e - 1) e)) s).
Proof.
  intros Hf Hn Htk Hat Hc. unfold sys_arch_sem_wait. rewrite (bind_Done _ _ _ _ _ (tick16_eq s)).
  destruct (ticks_elapsed_correct (OSTickCounter s) 0 Htk) as (_ & _ & HE).
  destruct fuel as [|fuel]; [lia|]. cbn [sem_loop].
  destruct (truthy timeout).
  - rewrite (bind_Done _ _ _ _ _ (OSSemPend_take_lemma s ev e _ Hn Hat Hc)).
    change (truthy OK) with false. cbn [negb]. rewrite (bind_Done _ _ _ _ _ (tick16_eq _)).
    cbn. by rewrite HE.
  - unfold bind at 1. rewrite (bind_Done _ _ _ _ _ (OSSemPend_take_lemma s ev e _ Hn Hat Hc)).
    change (truthy OK) with false. cbn [ret rbind]. rewrite (bind_Done _ _ _ _ _ (tick16_eq _)).
    cbn. by rewrite HE.
Qed.

(** With ERROR_CHECK a wait without a limit for a semaphore that could not be
    created is a loop that never gives up the processor: every turn of it comes
    back to the same state. *)
Theorem sem_loop_null_spins s fuel :
  ERROR_CHECK = true -> iNesting s = 0 ->
  sem_loop (S fuel) None s = sem_loop fuel None s.
Proof.
  intros HE Hn. cbn [sem_loop]. rewrite (bind_Done _ _ s NULL_EVENT_POINTER s); [done|].
  unfold OSSemPend. cbn. by rewrite Hn, HE.
Qed.

(** A new semaphore.  With a count it is created with that many units, nobody
    waiting, and nothing else changes.  With a count of 0 the caller goes on to
    wait for the semaphore it just created; when that pend times out -- no other
    task knows the semaphore -- the semaphore is returned, empty, nobody waiting
    for it. *)
Theorem sys_sem_new_correct s l cur p cnt i :
  Z.of_nat (length (BRTOS_Sem_Table s)) = BRTOS_MAX_SEM -> 0 <= cnt <= 255 ->
  wf s l -> iNesting s = 0 -> currentTask s = cur -> task_at s p cur -> 0 < p -> cur ∉ l ->
  free_slot (E := BRTOS_Sem) s (Some i) ->
  exists j s1 e, sem_at s1 j e /\ sem_ok s1 e /\ sem_abs e = {| units := cnt; waiting := ∅ |} /\
    (0 < cnt -> sys_sem_new cnt s = Done (Some j) s1 /\
       s1 = set_BRTOS_Sem_Table (aset (BRTOS_Sem_Table s) j e) s) /\
    (cnt = 0 -> may_wait cur p j s1 l e /\
       forall s2, timed_out cur p j s2 -> exists s3 l3 e3,
         replay (sys_sem_new 0 s) [s2] = Done (Some j) s3 /\ may_wait cur p j s3 l3 e3 /\
         p ∉ waiting (sem_abs e3)).
Proof.
  intros Hlen Hc Hw Hn Hcur Ht Hp Hni Hfree.
  destruct (OSSemCreate_lemma s cnt None Hlen Hn) as ([j|] & Hf & Hr).
  2:{ destruct Hfree as [(ei & Hei & Hal) _]. by apply Hf in Hei. }
  destruct Hf as [(e0 & He0 & _) _]. cbn in He0.
  set (e := mkSem TRUE cnt 0 FALSE 0) in *. set (s1 := set_BRTOS_Sem_Table _ s) in Hr.
  assert (sem_at s1 j e) as Hat by (split; [by eapply aget_aset_eq|done]).
  assert (sem_ok s1 e) as Hok by (by apply sem_ok_new).
  exists j, s1, e. split_and!; [done|done| | |].
  - unfold sem_abs. cbn. f_equal. apply set_eq. intros q. rewrite elem_of_members, Z.testbit_0_l. set_solver.
  - intros Hpos. split; [|done]. unfold sys_sem_new. rewrite (bind_Done _ _ _ _ _ Hr). cbn [snd].
    by rewrite (proj2 (Z.eqb_neq cnt 0)) by lia.
  - intros ->. assert (may_wait cur p j s1 l e) as Hm.
    { split; try done. by apply (wf_ext s). }
    split; [done|]. intros s2 Hs2.
    destruct (pend_timed_out cur p j Hp s1 l e 1 s2) as (s3 & l3 & e3 & Hr3 & Hm3 & _ & Hnin3); [done|done| |done|].
    { rewrite NO_TIMEOUT_eq. destruct ostick_bits_cases as [->|[->| ->]]; lia. }
    exists s3, l3, e3. split_and!; [|done|done]. unfold sys_sem_new.
    rewrite (replay_Done _ _ s _ _ _ Hr). cbn [snd]. change (0 =? 0) with true. cbv iota.
    rewrite <- (app_nil_r [s2]). 
    assert (replay ((OSSemPend (Some j) 1 ;;; ret tt) s1) [s2] = Done tt s3) as Hr4.
    { rewrite <- (app_nil_r [s2]). by rewrite (replay_bind _ _ s1 [s2] [] _ _ Hr3). }
    by rewrite (replay_bind _ _ s1 [s2] [] _ _ Hr4).
Qed.

(** When no control block is free, a count of 0 is fatal without ERROR_CHECK: the
    null pointer is followed. *)
Theorem sys_sem_new_null s :
  Z.of_nat (length (BRTOS_Sem_Table s)) = BRTOS_MAX_SEM -> iNesting s = 0 ->
  free_slot (E := BRTOS_Sem) s None ->
  sys_sem_new 0 s = if ERROR_CHECK then Done None s else Fault.
Proof.
  intros Hlen Hn Hfree. destruct (OSSemCreate_lemma s 0 None Hlen Hn) as ([j|] & Hf & Hr).
  { destruct Hf as [(ei & Hei & Hal) _]. by apply Hfree in Hei. }
  unfold sys_sem_new. rewrite (bind_Done _ _ _ _ _ Hr). cbn [snd]. unfold OSSemPend.
  change (0 =? 0) with true. cbn. rewrite Hn. by destruct ERROR_CHECK.
Qed.

(** Signaling is the post of the kernel, but for its result. *)
Lemma sys_sem_signal_counts s ev e :
  sem_at s ev e -> sem_OSEventWait e = 0 -> 0 <= sem_OSEventCount e < 255 ->
  sys_sem_signal (Some ev) s =
    Done tt (set_BRTOS_Sem_Table (aset (BRTOS_Sem_Table s) ev (sem_counted e)) s).
Proof.
  intros Hat Hw Hc. unfold sys_sem_signal.
  by rewrite (bind_Done _ _ _ _ _ (OSSemPost_count_lemma s ev e Hat Hw Hc)).
Qed.
End more_sems.
