(* ===== verification/SysMbox.v ===== *)
(** * The mailboxes of the network stack

    What the mailboxes of sys_arch.c promise: a bounded first-in first-out queue of
    pointers, and a fetch that waits over any history of time-outs.  First a small
    logic of the services that leave the clock and the tasks alone ([calm]). *)

From Stdlib Require Import ZArith Lia.
From stdpp Require Import base gmap numbers list.
From S2P Require Import Prelude Config State Sched DelayList Hal Clock Kernel Event Ring DQueue DQueueSpec SysArch SysArchSpec.
#[local] Open Scope Z_scope.
#[local] Open Scope prog_scope.
#[local] Existing Instance Event_DQueue.

(** ** Calm services

    A calm service, from its start to its first switch and from every dispatch
    to the next, changes neither the tick, nor the running task, nor the nesting
    of interrupts, nor who owns which priority. *)
Section calm.
Context `{C : Config}.
Implicit Types (s : OS).

Definition same_clock (s s' : OS) : Prop :=
  OSTickCounter s' = OSTickCounter s /\ iNesting s' = iNesting s /\
  currentTask s' = currentTask s /\ same_prios s s'.

Lemma same_clock_refl s : same_clock s s.
Proof. split_and!; try done. apply same_prios_refl. Qed.

Lemma same_clock_trans s1 s2 s3 : same_clock s1 s2 -> same_clock s2 s3 -> same_clock s1 s3.
Proof.
  intros (A1 & A2 & A3 & A4) (B1 & B2 & B3 & B4). split_and!; try congruence.
  by eapply same_prios_trans.
Qed.

(** The part of a run that began in state [s0]. *)
Fixpoint calm_res {A} (r : res A) (s0 : OS) : Prop :=
  match r with
  | Done _ s => same_clock s0 s
  | Yield _ k => forall s, calm_res (k s) s
  | Fault => True
  end.
Definition calm {A} (p : prog A) : Prop := forall s, calm_res (p s) s.

Lemma calm_weaken {A} (r : res A) s0 s1 : same_clock s0 s1 -> calm_res r s1 -> calm_res r s0.
Proof. destruct r; cbn; [|done|done]. intros H1 H2. by eapply same_clock_trans. Qed.

Lemma calm_rbind {A B} (f : A -> prog B) : (forall a, calm (f a)) ->
  forall (r : res A) s0, calm_res r s0 -> calm_res (rbind r f) s0.
Proof.
  intros Hf. induction r as [a s|s k IH|]; intros s0 Hr; cbn in *; [|naive_solver|done].
  eapply calm_weaken; [exact Hr|apply Hf].
Qed.

Lemma calm_bind {A B} (p : prog A) (f : A -> prog B) :
  calm p -> (forall a, calm (f a)) -> calm (bind p f).
Proof. intros Hp Hf s. by apply calm_rbind. Qed.

Lemma calm_ret {A} (a : A) : calm (ret a).
Proof. intros s. apply same_clock_refl. Qed.
Lemma calm_fault {A} : calm (@fault _ A).
Proof. by intros s. Qed.
Lemma calm_gets {A} (f : OS -> A) : calm (gets f).
Proof. intros s. apply same_clock_refl. Qed.
Lemma calm_lift {A} (o : option A) : calm (lift o).
Proof. intros s. destruct o; cbn; [apply same_clock_refl|done]. Qed.
Lemma calm_read {A} (l : OS -> list A) i : calm (read l i).
Proof. intros s. cbn. destruct (aget _ _); cbn; [apply same_clock_refl|done]. Qed.

(** A store into a variable that is not the clock's. *)
Lemma same_clock_store s s' :
  OSTickCounter s' = OSTickCounter s -> iNesting s' = iNesting s -> currentTask s' = currentTask s ->
  PriorityVector s' = PriorityVector s -> ContextTask s' = ContextTask s -> same_clock s s'.
Proof. intros. split_and!; try done. by apply same_prios_ctx. Qed.

Lemma calm_modify f : (forall s, same_clock s (f s)) -> calm (modify f).
Proof. intros H s. apply H. Qed.

Lemma calm_upd_Task t f : (forall c, Priority (f c) = Priority c) -> calm (upd_Task t f).
Proof.
  intros Hf s. cbn. destruct (aget (ContextTask s) t) as [c|] eqn:Hc; cbn; [|done].
  split_and!; try done. by apply (same_prios_aset s t c (f c)).
Qed.

Lemma calm_upd_ev ev f : calm (upd_ev (E := BRTOS_Queue) ev f).
Proof.
  intros s. unfold upd_ev. destruct (aget _ _); cbn; [|done]. by apply same_clock_store.
Qed.

Lemma calm_upd_dq c f : calm (upd_dq c f).
Proof. intros s. unfold upd_dq. cbn. destruct (aget _ _) eqn:E; cbn; [|done]. rewrite E. by apply same_clock_store. Qed.

Lemma calm_ChangeContext : calm ChangeContext.
Proof.
  intros s. unfold ChangeContext. destruct (SwitchContext _); cbn; [|done|done].
  intros s'. apply same_clock_refl.
Qed.

Lemma calm_PRIMASK b : calm (OS_CPU_SR_Restore b).
Proof. apply calm_modify. intros s. by apply same_clock_store. Qed.
Lemma calm_save : calm OS_CPU_SR_Save.
Proof. intros s. by apply same_clock_store. Qed.
Lemma calm_enter : calm OSEnterCritical.
Proof. exact calm_save. Qed.
Lemma calm_exit b : calm (OSExitCritical b).
Proof. apply calm_PRIMASK. Qed.
Lemma calm_deref p : calm (deref p).
Proof. apply calm_lift. Qed.
Lemma calm_Task t : calm (Task t).
Proof. apply calm_read. Qed.
Lemma calm_count : calm OSGetCount.
Proof. apply calm_gets. Qed.

Lemma replay_calm {A} ss : forall (r : res A) s0 a s s1,
  calm_res r s0 -> replay r (ss ++ [s]) = Done a s1 -> same_clock s s1.
Proof.
  induction ss as [|x ss IH]; intros r s0 a s s1 Hr.
  - destruct r as [|y k|]; cbn; [done| |done]. intros E. specialize (Hr s). by rewrite E in Hr.
  - destruct r as [|y k|]; cbn; [done| |done]. apply (IH _ x), Hr.
Qed.
End calm.

Create HintDb calm.
#[export] Hint Resolve calm_ret calm_fault calm_gets calm_lift calm_read calm_enter calm_exit
  calm_deref calm_Task calm_count calm_ChangeContext calm_upd_ev calm_upd_dq : calm.

(** Proves a service calm by going through its text. *)
Ltac calm_step :=
  first
    [ solve [auto 1 with calm nocore]
    | (apply calm_upd_Task; done)
    | (apply calm_modify; intros; by apply same_clock_store)
    | (apply calm_bind; [|intros])
    | case_match ].
Ltac calm := repeat calm_step.

Section queue_calm.
Context `{C : Config}.

Lemma calm_remove t : calm (RemoveFromDelayList t).
Proof. unfold RemoveFromDelayList. calm. Qed.
Lemma calm_include t : calm (IncludeTaskIntoDelayList t).
Proof. unfold IncludeTaskIntoDelayList. calm. Qed.
#[local] Hint Resolve calm_remove calm_include : calm.

Lemma calm_ready_remove p : calm (ready_remove p).
Proof. unfold ready_remove. calm. Qed.
#[local] Hint Resolve calm_ready_remove : calm.

Lemma calm_enqueue ev cur w : calm (pend_enqueue BRTOS_Queue ev cur w).
Proof. unfold pend_enqueue. calm. Qed.
Lemma calm_wakeup ev cur p : calm (pend_wakeup BRTOS_Queue ev cur p).
Proof. unfold pend_wakeup. calm. Qed.

Lemma calm_copy_out n : forall c dst k, calm (copy_out n c dst k).
Proof. induction n as [|n IH]; intros c dst k; cbn [copy_out]; calm; apply IH. Qed.
#[local] Hint Resolve calm_copy_out : calm.
Lemma calm_get c n dst : calm (dq_get c n dst).
Proof. unfold dq_get. calm. Qed.
#[local] Hint Resolve calm_enqueue calm_wakeup calm_get : calm.

(** Taking from a dynamic queue, whatever happens. *)
Lemma calm_pend ev dst w : calm (OSDQueuePend ev dst w).
Proof. unfold OSDQueuePend, OSDQueuePend_resume. calm. Qed.

Lemma calm_ready_insert p : calm (ready_insert p).
Proof. unfold ready_insert. calm. Qed.
Lemma calm_select ev : calm (post_select BRTOS_Queue ev).
Proof. unfold post_select. calm. Qed.
Lemma calm_write_mem i b : calm (write HEAP_MEM set_HEAP_MEM i b).
Proof. intros s. cbn. destruct (aget _ _); cbn; [by apply same_clock_store|done]. Qed.
Lemma calm_when b q : calm q -> calm (when b q).
Proof. intros Hq s. unfold when. destruct b; [apply Hq|apply same_clock_refl]. Qed.
#[local] Hint Resolve calm_write_mem calm_ready_insert calm_select : calm.

Lemma calm_copy_in n : forall c src, calm (copy_in n c src).
Proof. induction n as [|n IH]; intros c src; cbn [copy_in]; calm; apply IH. Qed.
#[local] Hint Resolve calm_copy_in : calm.
Lemma calm_put c n src : calm (dq_put c n src).
Proof. unfold dq_put. calm. Qed.
#[local] Hint Resolve calm_put : calm.

(** Posting to a dynamic queue. *)
Lemma calm_post ev x : calm (OSDQueuePost ev x).
Proof.
  unfold OSDQueuePost. calm. apply calm_when, calm_ChangeContext.
Qed.
End queue_calm.

(** ** Pointers as bytes *)

Lemma le_bytes_length n v : length (le_bytes n v) = n.
Proof. revert v. induction n as [|n IH]; intros v; cbn; [done|]. by rewrite IH. Qed.

Lemma le_bytes_byte n v : Forall byte (le_bytes n v).
Proof.
  revert v. induction n as [|n IH]; intros v; cbn [le_bytes]; constructor; [|apply IH].
  unfold byte. apply Z.mod_pos_bound. lia.
Qed.

Lemma le_val_le_bytes n v : le_val (le_bytes n v) = v mod 256 ^ Z.of_nat n.
Proof.
  revert v. induction n as [|n IH]; intros v; cbn [le_bytes le_val]; [by rewrite Z.mod_1_r|].
  rewrite IH. rewrite Nat2Z.inj_succ, Z.pow_succ_r by lia.
  rewrite Z.rem_mul_r by lia. lia.
Qed.

(** A pointer, and the queue element that holds it. *)
Definition pointer (v : Z) : Prop := 0 <= v < 2 ^ 32.

Lemma ptr_bytes_element v : element sizeof_void_ptr (ptr_bytes v).
Proof. split; [by unfold ptr_bytes; rewrite le_bytes_length|apply le_bytes_byte]. Qed.

Lemma le_val_ptr_bytes v : pointer v -> le_val (ptr_bytes v) = v.
Proof. intros Hv. unfold ptr_bytes. rewrite le_val_le_bytes. by apply Z.mod_small. Qed.

(** What a fetch leaves in the four bytes of [*msg]. *)
Lemma fetched_bytes x v : ptr_bytes x ++ drop (Z.to_nat sizeof_void_ptr) (ptr_bytes v) = ptr_bytes x.
Proof. rewrite drop_ge; [apply app_nil_r|]. unfold ptr_bytes. by rewrite le_bytes_length. Qed.

(** ** The mailbox *)
Section mbox.
Context `{C : Config} {AL : Allocator}.
Implicit Types (s : OS) (ev : Z) (d : dqueue) (x : Z) (xs : list Z) (Q : gmap Z dqueue).

(** The dynamic queue [d] is a mailbox with the messages [xs], oldest first. *)
Record holds d xs : Prop := {
  ho_width : dq_width d = sizeof_void_ptr;
  ho_items : dq_items d = map ptr_bytes xs;
  ho_ptr : Forall pointer xs;
}.

Definition with_messages (xs : list Z) (d : dqueue) : dqueue := with_items (map ptr_bytes xs) d.

Lemma holds_with d xs ys : holds d xs -> Forall pointer ys -> holds (with_messages ys d) ys.
Proof. intros [Hw _ _] Hy. by split. Qed.

Lemma holds_length d xs : holds d xs -> length (dq_items d) = length xs.
Proof. intros [_ Hi _]. by rewrite Hi, length_map. Qed.

Lemma holds_snoc d xs x :
  holds d xs -> with_items (dq_items d ++ [ptr_bytes x]) d = with_messages (xs ++ [x]) d.
Proof. intros [_ Hi _]. unfold with_messages. by rewrite Hi, map_app. Qed.

Lemma post_lemma s Q ev d xs x :
  dqueues s Q -> Q !! ev = Some d -> holds d xs -> dq_waiters d = ∅ ->
  Z.of_nat (length xs) < dq_room d ->
  exists s', OSDQueuePost (Some ev) (ptr_bytes x) s = Done WRITE_BUFFER_OK s' /\
    dqueues s' (<[ev := with_messages (xs ++ [x]) d]> Q) /\ same_clock s s'.
Proof.
  intros H Hd Hh HW Hl. destruct (OSDQueuePost_store_lemma s Q ev d (ptr_bytes x)) as (s' & Hr & H' & Hn);
    [done..|by rewrite (holds_length d xs)|rewrite (ho_width _ _ Hh); apply ptr_bytes_element|].
  exists s'. rewrite (holds_snoc d xs) in H' by done. split_and!; [done..|].
  pose proof (calm_post (Some ev) (ptr_bytes x) s) as Hc. by rewrite Hr in Hc.
Qed.

(** Posting to a mailbox nobody waits on.  [sys_mbox_trypost] returns ERR_OK and
    the message comes last, or, if the mailbox is full, ERR_MEM and nothing
    changes.  [sys_mbox_post] does the same and does not tell: to a full mailbox
    the message is lost. *)
Theorem sys_mbox_post_correct s Q ev d xs x :
  dqueues s Q -> Q !! ev = Some d -> holds d xs -> dq_waiters d = ∅ ->
  (Z.of_nat (length xs) < dq_room d -> exists s',
     sys_mbox_trypost (Some ev) x s = Done ERR_OK s' /\ sys_mbox_post (Some ev) x s = Done tt s' /\
     dqueues s' (<[ev := with_messages (xs ++ [x]) d]> Q)) /\
  (Z.of_nat (length xs) = dq_room d ->
     sys_mbox_trypost (Some ev) x s = Done ERR_MEM s /\ sys_mbox_post (Some ev) x s = Done tt s).
Proof.
  intros H Hd Hh HW. unfold sys_mbox_trypost, sys_mbox_post. split.
  - intros Hl. destruct (post_lemma s Q ev d xs x) as (s' & Hr & H' & _); [done..|].
    exists s'. by rewrite !(bind_Done _ _ _ _ _ Hr).
  - intros Hl. assert (OSDQueuePost (Some ev) (ptr_bytes x) s = Done BUFFER_UNDERRUN s) as Hr.
    { apply (OSDQueuePost_full_lemma s Q ev d); [done|done|]. by rewrite (holds_length d xs). }
    by rewrite !(bind_Done _ _ _ _ _ Hr).
Qed.

(** Posting to a mailbox that is waited on releases the waiter of the highest
    priority, and still returns ERR_OK once the caller runs again. *)
Theorem sys_mbox_trypost_wakes s l Q ev d xs x :
  wf s l -> iNesting s = 0 -> is_Some (aget (ContextTask s) (currentTask s)) ->
  dqueues s Q -> Q !! ev = Some d -> holds d xs -> dq_waiters d <> ∅ ->
  Z.of_nat (length xs) < dq_room d ->
  exists p s' k, p ∈ dq_waiters d /\ (forall p', p' ∈ dq_waiters d -> p' <= p) /\
    sys_mbox_trypost (Some ev) x s = Yield s' k /\ wf s' l /\ dispatched s' /\
    OSReadyList s' = Z.lor (OSReadyList s) (2 ^ p) /\
    dqueues s' (<[ev := with_waiters (dq_waiters d ∖ {[p]}) (with_messages (xs ++ [x]) d)]> Q) /\
    forall s2, k s2 = Done ERR_OK (set_PRIMASK (PRIMASK s) s2).
Proof.
  intros Hw Hn Hcur H Hd Hh HW Hl.
  destruct (OSDQueuePost_wakes s l Q ev d (ptr_bytes x)) as (_ & Hpost); [done..| |].
  { rewrite (ho_width _ _ Hh). apply ptr_bytes_element. }
  destruct Hpost as (p & s' & k & Hp & Hmax & Hr & Hw' & Hdis & Hrdy & H' & Hk); [by rewrite (holds_length d xs)|].
  rewrite (holds_snoc d xs) in H' by done.
  exists p, s', (fun s2 => rbind (k s2) (fun r => ret (if negb (truthy r) then ERR_OK else ERR_MEM))).
  split_and!; try done.
  - unfold sys_mbox_trypost, bind. rewrite Hr. reflexivity.
  - intros s2. cbn. by rewrite Hk.
Qed.

(** [sys_arch_mbox_fetch] when a message is there: the oldest one is stored, at
    once. *)
Lemma fetch_now s Q ev d x xs w v :
  dqueues s Q -> Q !! ev = Some d -> holds d (x :: xs) -> iNesting s = 0 ->
  exists s', OSDQueuePend (Some ev) (ptr_bytes v) w s = Done (READ_BUFFER_OK, ptr_bytes x) s' /\
    dqueues s' (<[ev := with_messages xs d]> Q) /\ same_clock s s'.
Proof.
  intros H Hd [Hw Hi _] Hn.
  destruct (OSDQueuePend_read_lemma s Q ev d (ptr_bytes x) (map ptr_bytes xs) (ptr_bytes v) w)
    as (s' & Hr & H' & Hn'); [done..|by rewrite Hw; unfold ptr_bytes; rewrite le_bytes_length|].
  rewrite Hw, fetched_bytes in Hr. exists s'. split_and!; [done..|].
  pose proof (calm_pend (Some ev) (ptr_bytes v) w s) as Hc. by rewrite Hr in Hc.
Qed.

(** What the pointer argument points to after a fetch of [x]. *)
Definition stored (msg : option Z) x : option Z := match msg with Some _ => Some x | None => None end.

(** With any time limit; the time reported is then 65532. *)
Lemma fetch_lemma s Q ev d x xs msg dummyptr timeout fuel :
  (0 < fuel)%nat -> 0 <= OSTickCounter s < TICK_COUNT_OVERFLOW ->
  dqueues s Q -> Q !! ev = Some d -> holds d (x :: xs) -> iNesting s = 0 ->
  exists s', sys_arch_mbox_fetch fuel (Some ev) msg dummyptr timeout s = Done (65532, stored msg x) s' /\
    dqueues s' (<[ev := with_messages xs d]> Q) /\ same_clock s s'.
Proof.
  intros Hf Htk H Hd Hh Hn. pose proof (ho_ptr _ _ Hh) as Hptr. apply Forall_cons in Hptr as [Hx _].
  destruct (ticks_elapsed_correct (OSTickCounter s) 0 Htk) as (_ & _ & HE).
  unfold sys_arch_mbox_fetch. rewrite (bind_Done _ _ _ _ _ (tick16_eq s)).
  destruct fuel as [|fuel]; [lia|]. cbn [mbox_loop].
  destruct (fetch_now s Q ev d x xs (if truthy timeout then uint ostick_bits timeout else 10000) (default dummyptr msg))
    as (s' & Hr & H' & Hcl); [done..|]. pose proof (proj1 Hcl) as Ht'.
  exists s'. split_and!; [|done..]. destruct (truthy timeout).
  - rewrite (bind_Done _ _ _ _ _ Hr). cbn [fst snd]. change (truthy READ_BUFFER_OK) with false. cbn [negb].
    rewrite (bind_Done _ _ _ _ _ (tick16_eq s')), Ht'. cbn. by rewrite HE, le_val_ptr_bytes.
  - unfold bind at 1. rewrite (bind_Done _ _ _ _ _ Hr). cbn [fst snd]. change (truthy READ_BUFFER_OK) with false.
    cbn [ret rbind]. rewrite (bind_Done _ _ _ _ _ (tick16_eq s')), Ht'. cbn. by rewrite HE, le_val_ptr_bytes.
Qed.

(** Posting the messages [xs] one after the other, each accepted; and fetching
    messages with a time limit, one into each of the variables that hold [vars]:
    what they hold afterwards. *)
Fixpoint post_all (ev : Z) (xs : list Z) : prog unit :=
  match xs with
  | [] => ret tt
  | x :: xs' => r <- sys_mbox_trypost (Some ev) x ;; when (negb (r =? ERR_OK)) fault ;;; post_all ev xs'
  end.
Fixpoint fetch_all (ev timeout : Z) (vars : list Z) : prog (list Z) :=
  match vars with
  | [] => ret []
  | v :: vars' =>
      r <- sys_arch_mbox_fetch 1 (Some ev) (Some v) 0 timeout ;;
      x <- lift (snd r) ;;
      xs <- fetch_all ev timeout vars' ;;
      ret (x :: xs)
  end.

Lemma with_messages_twice xs ys d : with_messages xs (with_messages ys d) = with_messages xs d.
Proof. done. Qed.

Lemma mbox_post_all_lemma ys : forall s Q ev d xs,
  dqueues s Q -> Q !! ev = Some d -> holds d xs -> dq_waiters d = ∅ -> Forall pointer ys ->
  Z.of_nat (length xs + length ys) <= dq_room d ->
  exists s', post_all ev ys s = Done tt s' /\ dqueues s' (<[ev := with_messages (xs ++ ys) d]> Q) /\
    same_clock s s'.
Proof.
  induction ys as [|y ys IH]; intros s Q ev d xs H Hd Hh HW Hys Hl.
  - exists s. rewrite app_nil_r. split_and!; [done| |apply same_clock_refl]. unfold with_messages.
    destruct Hh as [_ Hi _].
    rewrite <- Hi. replace (with_items (dq_items d) d) with d by (by destruct d). by rewrite insert_id.
  - apply Forall_cons in Hys as [Hy Hys]. cbn [length] in Hl.
    destruct (post_lemma s Q ev d xs y) as (s1 & Hr & H1 & Hc1); [done..|lia|].
    destruct (IH s1 _ ev _ (xs ++ [y]) H1 (lookup_insert_eq _ _ _)) as (s2 & Hr2 & H2 & Hc2);
      [|done|done|rewrite length_app; cbn; lia|].
    { apply (holds_with d xs); [done|]. apply Forall_app. split; [apply Hh|by constructor]. }
    exists s2. rewrite insert_insert_eq, with_messages_twice, <- app_assoc in H2. split_and!; [|done|].
    + cbn [post_all]. unfold sys_mbox_trypost. unfold bind at 1. rewrite (bind_Done _ _ _ _ _ Hr). exact Hr2.
    + by eapply same_clock_trans.
Qed.

Lemma fetch_all_lemma timeout : forall xs vars s Q ev d,
  length vars = length xs ->
  dqueues s Q -> Q !! ev = Some d -> holds d xs -> iNesting s = 0 ->
  0 <= OSTickCounter s < TICK_COUNT_OVERFLOW ->
  exists s', fetch_all ev timeout vars s = Done xs s' /\
    dqueues s' (<[ev := with_messages [] d]> Q) /\ same_clock s s'.
Proof.
  induction xs as [|x xs IH]; intros [|v vars] s Q ev d Hlen H Hd Hh Hn Htk; try done.
  - exists s. split_and!; [done| |apply same_clock_refl]. unfold with_messages. destruct Hh as [_ Hi _].
    rewrite <- Hi. replace (with_items (dq_items d) d) with d by (by destruct d). by rewrite insert_id.
  - destruct (fetch_lemma s Q ev d x xs (Some v) 0 timeout 1) as (s1 & Hr & H1 & Hc1); [lia|done..|].
    pose proof (ho_ptr _ _ Hh) as Hp. apply Forall_cons in Hp as [_ Hp].
    injection Hlen as Hlen.
    destruct (IH vars s1 _ ev _ Hlen H1 (lookup_insert_eq _ _ _)) as (s2 & Hr2 & H2 & Hc2);
      [by apply (holds_with d (x :: xs))|destruct Hc1 as (_ & E & _); congruence|by rewrite (proj1 Hc1)|].
    exists s2. rewrite insert_insert_eq, with_messages_twice in H2. split_and!; [|done|by eapply same_clock_trans].
    cbn [fetch_all]. rewrite (bind_Done _ _ _ _ _ Hr).
    erewrite (bind_Done (lift _) _ s1 x s1); [|done]. by rewrite (bind_Done _ _ _ _ _ Hr2).
Qed.

(** C30: a mailbox delivers every message once and in order: posting messages that
    fit to a mailbox nobody waits on, outside every interrupt, each of which is
    accepted (a message is a pointer of 32 bits), and then fetching
    as many as it holds, each into a variable of the caller, stores there first
    what it held and then the messages posted, whatever the variables held before
    and whatever the time limit; it ends empty, every other mailbox and the clock
    being as they were. *)
Theorem sys_mbox_fifo s Q ev d xs ys vars timeout :
  dqueues s Q -> Q !! ev = Some d -> holds d xs -> dq_waiters d = ∅ -> iNesting s = 0 ->
  0 <= OSTickCounter s < TICK_COUNT_OVERFLOW -> Forall pointer ys ->
  Z.of_nat (length xs + length ys) <= dq_room d -> length vars = length (xs ++ ys) ->
  exists s1 s2, post_all ev ys s = Done tt s1 /\
    fetch_all ev timeout vars s1 = Done (xs ++ ys) s2 /\
    dqueues s2 (<[ev := with_messages [] d]> Q) /\ same_clock s s2.
Proof.
  intros H Hd Hh HW Hn Htk Hys Hl Hvars.
  destruct (mbox_post_all_lemma ys s Q ev d xs) as (s1 & Hr1 & H1 & Hc1); [done..|].
  destruct (fetch_all_lemma timeout (xs ++ ys) vars s1 _ ev _ Hvars H1 (lookup_insert_eq _ _ _)) as (s2 & Hr2 & H2 & Hc2).
  - apply (holds_with d xs); [done|]. apply Forall_app. split; [apply Hh|done].
  - destruct Hc1 as (_ & E & _). congruence.
  - by rewrite (proj1 Hc1).
  - exists s1, s2. rewrite insert_insert_eq, with_messages_twice in H2.
    split_and!; [done..|by eapply same_clock_trans].
Qed.
End mbox.

(** ** Waiting for a message *)
Section fetch.
Context `{C : Config} {AL : Allocator}.
Context (cur p ev ctl : Z) (Hp : 0 < p).
Implicit Types (s : OS) (l : list Z) (d : dqueue) (x : Z) (xs : list Z) (Q : gmap Z dqueue).

(** The task [cur], of priority [p], runs; the mailbox [ev] is empty. *)
Record at_empty s l Q d : Prop := {
  ae_wf : wf s l;
  ae_irq : iNesting s = 0;
  ae_cur : currentTask s = cur;
  ae_task : task_at s p cur;
  ae_free : cur ∉ l;
  ae_queues : dqueues s Q;
  ae_mbox : Q !! ev = Some d;
  ae_holds : holds d [];
  ae_ctl : dq_ctl d = ctl;
}.

Definition may_fetch s l Q d : Prop := at_empty s l Q d /\ p ∉ dq_waiters d.

(** Its wait timed out: no post released it. *)
Definition fetch_timed_out s : Prop := exists l Q d c, at_empty s l Q d /\
  p ∈ dq_waiters d /\ aget (ContextTask s) cur = Some c /\ TimeToWait c = EXIT_BY_TIMEOUT.

(** A post released it, before its time ran out or after; the messages [x :: xs]
    are there. *)
Definition delivered s Q d x xs : Prop := exists l c, wf s l /\ dqueues s Q /\
  Q !! ev = Some d /\ holds d (x :: xs) /\ dq_ctl d = ctl /\ aget (ContextTask s) cur = Some c /\
  (TimeToWait c <> EXIT_BY_TIMEOUT /\ (exists l1 l3, l = l1 ++ cur :: l3) \/
   TimeToWait c = EXIT_BY_TIMEOUT /\ p ∉ dq_waiters d).

Lemma pend_again s l Q d w v s1 :
  may_fetch s l Q d -> w <> 0 -> w <> NO_TIMEOUT -> fetch_timed_out s1 ->
  exists s2 l2 Q2 d2, replay (OSDQueuePend (Some ev) (ptr_bytes v) w s) [s1] = Done (TIMEOUT, ptr_bytes v) s2 /\
    may_fetch s2 l2 Q2 d2 /\ same_clock s1 s2.
Proof.
  intros [[Hw Hn Hcur Ht Hni H Hd [Hwd Hi Hx] Hctl] Hnin] Hw0 Hwn (l1 & Q1 & d1 & c & Ha1 & Hin1 & Hc & HT).
  destruct Ha1 as [Hw1 Hn1 Hcur1 Ht1 Hni1 H1 Hd1 [Hwd1 Hi1 Hx1] Hctl1].
  rewrite <- Hcur in Ht, Hni.
  destruct (OSDQueuePend_waits s l Q ev d (ptr_bytes v) w p) as (_ & Hpend); [done..| |].
  { rewrite Hwd. unfold ptr_bytes. by rewrite le_bytes_length. }
  destruct (Hpend Hwn) as (s0 & k & Hr & _ & _ & _ & Hk). rewrite Hcur in Hk.
  destruct (Hk s1 l1 Q1 d1 c) as [Hto _]; [done|done|done|split; congruence|done|].
  destruct (Hto Hw0 HT Hin1) as (s2 & Hr2 & Hw2 & H2).
  assert (replay (OSDQueuePend (Some ev) (ptr_bytes v) w s) [s1] = Done (TIMEOUT, ptr_bytes v) s2) as Hrep
    by (by rewrite Hr).
  assert (same_clock s1 s2) as Hcl by exact (replay_calm [] _ s _ s1 s2 (calm_pend _ _ _ s) Hrep).
  destruct Hcl as (Htk & Hn' & Hcur' & Hsp).
  eexists s2, l1, _, _. split_and!; [done| |done]. split.
  - split; [done|congruence|congruence|by eapply same_prios_task_at|done|exact H2|by rewrite lookup_insert_eq|by split|done].
  - cbn. set_solver.
Qed.

Lemma pend_delivered s l Q d w v s1 Q1 d1 x xs :
  may_fetch s l Q d -> w <> 0 -> w <> NO_TIMEOUT -> delivered s1 Q1 d1 x xs ->
  exists s2 l2, replay (OSDQueuePend (Some ev) (ptr_bytes v) w s) [s1] = Done (READ_BUFFER_OK, ptr_bytes x) s2 /\
    wf s2 l2 /\ dqueues s2 (<[ev := with_messages xs d1]> Q1) /\ same_clock s1 s2.
Proof.
  intros [[Hw Hn Hcur Ht Hni H Hd [Hwd Hi Hx] Hctl] Hnin] Hw0 Hwn
    (l1 & c & Hw1 & H1 & Hd1 & [Hwd1 Hi1 Hx1] & Hctl1 & Hc & Hcase).
  rewrite <- Hcur in Ht, Hni.
  destruct (OSDQueuePend_waits s l Q ev d (ptr_bytes v) w p) as (_ & Hpend); [done..| |].
  { rewrite Hwd. unfold ptr_bytes. by rewrite le_bytes_length. }
  destruct (Hpend Hwn) as (s0 & k & Hr & _ & _ & _ & Hk). rewrite Hcur in Hk.
  destruct (Hk s1 l1 Q1 d1 c) as [_ Hread]; [done|done|done|split; congruence|done|].
  destruct (Hread (ptr_bytes x) (map ptr_bytes xs) Hi1) as [Hlate Hpost]. rewrite Hwd, fetched_bytes in *.
  assert (exists s2 l2, k s1 = Done (READ_BUFFER_OK, ptr_bytes x) s2 /\ wf s2 l2 /\
    dqueues s2 (<[ev := with_messages xs d1]> Q1)) as (s2 & l2 & Hr2 & Hw2 & H2).
  { destruct Hcase as [[HT (la & lb & ->)]|[HT Hnin1]].
    - destruct (Hpost Hw0 HT la lb eq_refl) as (s2 & ? & ? & ?). by exists s2, (la ++ lb).
    - destruct (Hlate (or_intror (conj HT Hnin1))) as (s2 & ? & ? & ?). by exists s2, l1. }
  assert (replay (OSDQueuePend (Some ev) (ptr_bytes v) w s) [s1] = Done (READ_BUFFER_OK, ptr_bytes x) s2) as Hrep
    by (by rewrite Hr).
  exists s2, l2. split_and!; [done..|].
  exact (replay_calm [] _ s _ s1 s2 (calm_pend _ _ _ s) Hrep).
Qed.

Lemma mbox_loop_replay v ss : forall fuel s l Q d s1 Q1 d1 x xs,
  (length ss < fuel)%nat -> may_fetch s l Q d -> Forall fetch_timed_out ss -> delivered s1 Q1 d1 x xs ->
  exists s2 l2, replay (mbox_loop fuel (Some ev) (ptr_bytes v) s) (ss ++ [s1]) = Done (ptr_bytes x) s2 /\
    wf s2 l2 /\ dqueues s2 (<[ev := with_messages xs d1]> Q1) /\ same_clock s1 s2.
Proof.
  assert (10000 <> NO_TIMEOUT) as Hnt
    by (rewrite NO_TIMEOUT_eq; destruct ostick_bits_cases as [->|[->| ->]]; lia).
  induction ss as [|y ss IH]; intros [|fuel] s l Q d s1 Q1 d1 x xs Hf Hm Hss Hs1; cbn [length] in Hf; try lia.
  - destruct (pend_delivered s l Q d 10000 v s1 Q1 d1 x xs) as (s2 & l2 & Hr & H2); [done..|].
    exists s2, l2. split; [|done]. cbn [mbox_loop app].
    by rewrite (replay_bind _ _ s [s1] [] _ _ Hr).
  - apply Forall_cons in Hss as [Hy Hss].
    destruct (pend_again s l Q d 10000 v y) as (s2 & l2 & Q2 & d2 & Hr & Hm2 & _); [done..|].
    destruct (IH fuel s2 l2 Q2 d2 s1 Q1 d1 x xs) as (s3 & l3 & Hr3 & H3); [lia|done..|].
    exists s3, l3. split; [|done]. cbn [mbox_loop].
    change ((y :: ss) ++ [s1]) with ([y] ++ ss ++ [s1]).
    rewrite (replay_bind _ _ s [y] _ _ _ Hr). exact Hr3.
Qed.

(** Waiting for a message without a time limit.  However often the task wakes
    because its pend timed out, it goes on waiting; once a post released it, it
    returns the oldest message and the time that passed between the call and that
    dispatch, and takes that message, and nothing else, out of the mailbox.  With
    a NULL [msg] the message is taken all the same, and dropped. *)
Theorem sys_arch_mbox_fetch_forever s l Q d ss s1 Q1 d1 x xs msg dummyptr fuel :
  (length ss < fuel)%nat -> may_fetch s l Q d -> Forall fetch_timed_out ss -> delivered s1 Q1 d1 x xs ->
  exists s2 l2, replay (sys_arch_mbox_fetch fuel (Some ev) msg dummyptr 0 s) (ss ++ [s1]) =
      Done (ticks_elapsed (uint16 (OSTickCounter s)) (uint16 (OSTickCounter s1)), stored msg x) s2 /\
    wf s2 l2 /\ dqueues s2 (<[ev := with_messages xs d1]> Q1) /\ same_clock s1 s2.
Proof.
  intros Hf Hm Hss Hs1. pose proof Hs1 as (_ & _ & _ & _ & _ & [_ _ Hx] & _). apply Forall_cons in Hx as [Hx _].
  destruct (mbox_loop_replay (default dummyptr msg) ss fuel s l Q d s1 Q1 d1 x xs) as (s2 & l2 & Hr & H2); [done..|].
  exists s2, l2. split; [|done]. unfold sys_arch_mbox_fetch.
  rewrite (replay_Done _ _ s _ _ _ (tick16_eq s)). rewrite truthy_0.
  rewrite <- (app_nil_r (ss ++ [s1])), (replay_bind _ _ s _ [] _ _ Hr).
  rewrite (replay_Done _ _ _ _ _ _ (tick16_eq s2)). destruct H2 as (_ & _ & Htk & _).
  cbn. by rewrite Htk, le_val_ptr_bytes.
Qed.

(** With a time limit: if the pend timed out, SYS_ARCH_TIMEOUT is returned and
    [*msg] is NULL; otherwise as above. *)
Theorem sys_arch_mbox_fetch_timed s l Q d msg dummyptr timeout fuel :
  let w := uint ostick_bits timeout in
  timeout <> 0 -> w <> 0 -> w <> NO_TIMEOUT -> may_fetch s l Q d ->
  (forall s1, fetch_timed_out s1 -> exists s2 l2 Q2 d2,
     replay (sys_arch_mbox_fetch fuel (Some ev) msg dummyptr timeout s) [s1] = Done (SYS_ARCH_TIMEOUT, stored msg 0) s2 /\
     may_fetch s2 l2 Q2 d2 /\ same_clock s1 s2) /\
  (forall s1 Q1 d1 x xs, delivered s1 Q1 d1 x xs -> exists s2 l2,
     replay (sys_arch_mbox_fetch fuel (Some ev) msg dummyptr timeout s) [s1] =
       Done (ticks_elapsed (uint16 (OSTickCounter s)) (uint16 (OSTickCounter s1)), stored msg x) s2 /\
     wf s2 l2 /\ dqueues s2 (<[ev := with_messages xs d1]> Q1) /\ same_clock s1 s2).
Proof.
  intros w Ht0 Hw0 Hwn Hm. unfold sys_arch_mbox_fetch. rewrite truthy_nz by done. split.
  - intros s1 Hs1.
    destruct (pend_again s l Q d w (default dummyptr msg) s1) as (s2 & l2 & Q2 & d2 & Hr & H2); [done..|].
    exists s2, l2, Q2, d2. rewrite (replay_Done _ _ s _ _ _ (tick16_eq s)).
    by rewrite (replay_bind _ _ s [s1] [] _ _ Hr).
  - intros s1 Q1 d1 x xs Hs1. pose proof Hs1 as (_ & _ & _ & _ & _ & [_ _ Hx] & _). apply Forall_cons in Hx as [Hx _].
    destruct (pend_delivered s l Q d w (default dummyptr msg) s1 Q1 d1 x xs) as (s2 & l2 & Hr & H2); [done..|].
    exists s2, l2. rewrite (replay_Done _ _ s _ _ _ (tick16_eq s)). split; [|done].
    rewrite (replay_bind _ _ s [s1] [] _ _ Hr). cbn [fst snd]. change (truthy READ_BUFFER_OK) with false.
    cbn [negb replay]. rewrite (bind_Done _ _ _ _ _ (tick16_eq s2)). destruct H2 as (_ & _ & Htk & _).
    cbn. by rewrite Htk, le_val_ptr_bytes.
Qed.
End fetch.

(** ** Creating and freeing *)
Section create.
Context `{C : Config} {AL : Allocator}.
Implicit Types (s : OS) (ev : Z) (Q : gmap Z dqueue).

(** [sys_mbox_new] adds an empty mailbox with the room asked for, in blocks of its
    own -- freeing it gives every block back --, or it leaves everything as it was
    and returns its uninitialised variable. *)
Theorem sys_mbox_new_free s Q mbox0 size :
  dqueues s Q -> 0 < size -> size * sizeof_void_ptr < 2 ^ 16 -> iNesting s = 0 -> ERROR_CHECK = false ->
  (exists s', sys_mbox_new mbox0 size s = Done mbox0 s' /\ dqueues s' Q /\
     blocks (heap s') = blocks (heap s)) \/
  (exists ev d s', sys_mbox_new mbox0 size s = Done (Some ev) s' /\ Q !! ev = None /\
     dqueues s' (<[ev := d]> Q) /\ holds d [] /\ dq_room d = size /\ dq_waiters d = ∅ /\
     exists s'', sys_mbox_free (Some ev) s' = Done tt s'' /\ dqueues s'' Q /\
       blocks (heap s'') = blocks (heap s)).
Proof.
  unfold sizeof_void_ptr. intros H Hs Hl Hn HE. unfold sys_mbox_new. rewrite (uint16_small size) by lia.
  destruct (OSDQueueCreate_lemma s Q size sizeof_void_ptr mbox0) as
    [(code & s' & _ & Hr & H')|(ev & c & b & s' & e & Hr & HQ & Hn' & _ & _ & _ & F1 & F2 & F3 & HB & Hok)];
    [done|unfold sizeof_void_ptr; lia..|done| |].
  - left. exists s'. by rewrite (bind_Done _ _ _ _ _ Hr).
  - right. specialize (Hok ltac:(congruence)). exists ev, (empty_queue c b size sizeof_void_ptr), s'.
    rewrite (bind_Done _ _ _ _ _ Hr). split_and!; [done..|by split|done|done|].
    destruct (OSDQueueDelete_lemma s' _ ev _ Hok (lookup_insert_eq _ _ _) Hn') as (s2 & Hr2 & H2 & HB2).
    exists s2. unfold sys_mbox_free. rewrite (bind_Done _ _ _ _ _ Hr2).
    split_and!; [done|by rewrite delete_insert_id in H2|].
    by eapply create_delete_blocks.
Qed.
End create.
