(* ===== verification/SysThread.v ===== *)
(** * The threads of the network stack

    What [sys_thread_new], [sys_arch_thread_current] and [sys_arch_timeouts] of
    sys_arch.c do to the list of threads: each thread is a kernel task with a
    control block, and so a list of timeouts, of its own. *)

From Stdlib Require Import ZArith Lia.
From stdpp Require Import base gmap numbers list.
From S2P Require Import Prelude Config State Sched DelayList Hal Clock Kernel Event DQueue Tasks Info SysArch.
#[local] Open Scope Z_scope.
#[local] Open Scope prog_scope.

(** ** The list of threads *)

(** From address [p] the list goes through the control blocks [l], each given
    with its kernel task, to address [z]. *)
Fixpoint tcb_seg (m : gmap Z sys_tcb) (p : Z) (l : list (Z * option Z)) (z : Z) : Prop :=
  match l with
  | [] => p = z
  | (a, pid) :: l' => p = a /\ a <> 0 /\
      exists t, m !! a = Some t /\ tcb_pid t = pid /\ tcb_seg m (tcb_next t) l' z
  end.

(** The threads are [l], in the order of their creation, and there is no other
    control block. *)
Record threads (V : sys_vars) (l : list (Z * option Z)) : Prop := {
  th_chain : tcb_seg (tcbs V) (tasks V) l 0;
  th_nodup : NoDup (map fst l);
  th_dom : forall a, is_Some (tcbs V !! a) -> a ∈ map fst l;
}.

(** The control block of the task [pid], 0 if it is no thread. *)
Fixpoint thread_of (pid : Z) (l : list (Z * option Z)) : Z :=
  match l with
  | [] => 0
  | (a, q) :: l' => if bool_decide (q = Some pid) then a else thread_of pid l'
  end.

Lemma tcb_seg_dom m l z : forall p a, tcb_seg m p l z -> a ∈ map fst l -> is_Some (m !! a) /\ a <> 0.
Proof.
  induction l as [|[b q] l IH]; intros p a; cbn; [intros _ H; by apply elem_of_nil in H|].
  intros (-> & Hb & t & Ht & _ & Hc) [->|Ha]%elem_of_cons; [split; [by exists t|done]|by eapply IH].
Qed.

(** The list is read in the blocks it consists of. *)
Lemma tcb_seg_frame m m' l z : forall p,
  tcb_seg m p l z -> (forall a, a ∈ map fst l -> m' !! a = m !! a) -> tcb_seg m' p l z.
Proof.
  induction l as [|[b q] l IH]; intros p; cbn; [done|].
  intros (-> & Hb & t & Ht & Hq & Hc) HF. split_and!; [done|done|].
  exists t. split_and!; [rewrite HF; [done|left]|done|]. apply IH; [done|]. intros a Ha. apply HF. by right.
Qed.

Lemma tcb_seg_app m l1 l2 z : forall p,
  tcb_seg m p (l1 ++ l2) z <-> exists y, tcb_seg m p l1 y /\ tcb_seg m y l2 z.
Proof.
  induction l1 as [|[b q] l1 IH]; intros p; cbn.
  - split; [intros H; by exists p|by intros (y & -> & H)].
  - split.
    + intros (-> & Hb & t & Ht & Hq & (y & H1 & H2)%IH). exists y. split; [|done].
      split_and!; [done|done|by exists t].
    + intros (y & (-> & Hb & t & Ht & Hq & H1) & H2). split_and!; [done|done|].
      exists t. split_and!; [done|done|]. apply IH. by exists y.
Qed.

Lemma find_thread_seg m pid l z : forall fuel p,
  tcb_seg m p l z ->
  find_thread (length l + fuel) m p pid =
    if thread_of pid l =? 0 then find_thread fuel m z pid else Some (thread_of pid l).
Proof.
  induction l as [|[b q] l IH]; intros fuel p; cbn; [by intros ->|].
  intros (-> & Hb & t & Ht & Hq & Hc). rewrite (proj2 (Z.eqb_neq _ _) Hb), Ht. cbn. rewrite Hq.
  case_bool_decide; [by rewrite (proj2 (Z.eqb_neq _ _) Hb)|]. by apply IH.
Qed.

(** The search over a list that ends. *)
Lemma find_thread_end m pid l fuel p :
  (length l < fuel)%nat -> tcb_seg m p l 0 -> find_thread fuel m p pid = Some (thread_of pid l).
Proof.
  intros Hf H. replace fuel with (length l + S (fuel - length l - 1))%nat by lia.
  rewrite (find_thread_seg m pid l 0) by done. destruct (_ =? 0) eqn:E; [|done]. to_prop. by rewrite E.
Qed.

(** The search over a list that goes on in a block given back. *)
Lemma find_thread_dangling m pid l fuel p z :
  (length l < fuel)%nat -> tcb_seg m p l z -> z <> 0 -> m !! z = None -> thread_of pid l = 0 ->
  find_thread fuel m p pid = None.
Proof.
  intros Hf H Hz Hm H0. replace fuel with (length l + S (fuel - length l - 1))%nat by lia.
  rewrite (find_thread_seg m pid l z), H0 by done. cbn. by rewrite (proj2 (Z.eqb_neq _ _) Hz), Hm.
Qed.

Lemma last_thread_eq m l a q fuel : forall p,
  (length l < fuel)%nat -> tcb_seg m p (l ++ [(a, q)]) 0 -> last_thread fuel m p = Some a.
Proof.
  revert fuel. induction l as [|[b r] l IH]; intros [|fuel] p Hf Hc; cbn in Hf; try lia.
  - destruct Hc as (-> & Ha & t & Ht & _ & Hn). cbn. rewrite Ht. cbn. cbn in Hn. by rewrite Hn.
  - destruct Hc as (-> & Hb & t & Ht & Hq & Hc). cbn [last_thread]. rewrite Ht. cbn.
    destruct (tcb_next t =? 0) eqn:E; [|by eapply IH; [lia|]]. to_prop. exfalso.
    destruct l as [|[b2 r2] l]; cbn in Hc; destruct Hc as (E2 & Hne & _); congruence.
Qed.

Lemma threads_size m p l z :
  tcb_seg m p l z -> NoDup (map fst l) -> (length l <= size m)%nat.
Proof.
  intros Hc Hnd. rewrite <- size_dom. rewrite <- (length_map fst l).
  rewrite <- (size_list_to_set (C := gset Z) (map fst l) Hnd). apply subseteq_size.
  intros a Ha%elem_of_list_to_set. apply elem_of_dom. by apply (tcb_seg_dom m l z p a).
Qed.

(** Linking a block behind the last one. *)
Lemma tcb_seg_relink m l a q t p z :
  tcb_seg m p (l ++ [(a, q)]) 0 -> NoDup (map fst (l ++ [(a, q)])) -> m !! a = Some t ->
  tcb_seg (<[a := set_tcb_next z t]> m) p (l ++ [(a, q)]) z.
Proof.
  rewrite map_app. intros (y & H1 & H2)%tcb_seg_app (_ & Hdis & _)%NoDup_app Ht. apply tcb_seg_app.
  exists y. split.
  - apply (tcb_seg_frame m); [done|]. intros b Hb. rewrite lookup_insert_ne; [done|].
    intros <-. by apply (Hdis a Hb), list_elem_of_singleton.
  - cbn in *. destruct H2 as (-> & Ha & t' & Ht' & Hq & _). split_and!; [done|done|].
    exists (set_tcb_next z t). rewrite lookup_insert_eq. split_and!; [done| |done].
    cbn. congruence.
Qed.

(** A block at the end of the list, initialised as the last thread. *)
Lemma threads_snoc m r l p q :
  tcb_seg m r l p -> NoDup (map fst l) -> p <> 0 -> p ∉ map fst l ->
  (forall a, is_Some (m !! a) -> a ∈ map fst l) ->
  threads (mkSysVars r (<[p := mkTcb 0 0 q]> m)) (l ++ [(p, q)]).
Proof.
  intros Hs Hnd Hp Hni Hdom. split; cbn.
  - apply tcb_seg_app. exists p. split.
    + apply (tcb_seg_frame m); [done|]. intros a Ha. rewrite lookup_insert_ne; [done|congruence].
    + cbn. split_and!; [done|done|]. exists (mkTcb 0 0 q). by rewrite lookup_insert_eq.
  - rewrite map_app. apply NoDup_app. split_and!; [done| |apply NoDup_singleton].
    intros a Ha ->%list_elem_of_singleton. done.
  - intros a. rewrite map_app, elem_of_app. destruct (decide (p = a)) as [->|Hne].
    + intros _. right. by left.
    + rewrite lookup_insert_ne by done. intros Ha. left. by apply Hdom.
Qed.

Section current.
Context `{C : Config}.
Implicit Types (s : OS) (l : list (Z * option Z)).

Lemma sys_arch_thread_current_eq V s :
  sys_arch_thread_current V s =
    match find_thread (size (tcbs V) + 1) (tcbs V) (tasks V) (currentTask s) with
    | Some p => Done p s
    | None => Fault
    end.
Proof.
  unfold sys_arch_thread_current, xTaskGetCurrentTaskHandle. cbn.
  destruct (find_thread _ _ _ _); cbn; [by destruct s|done].
Qed.

(** The timeouts of the running task are those in its own control block; for a
    task that is not a thread NULL is returned. *)
Lemma sys_arch_timeouts_lemma V l s :
  threads V l -> sys_arch_timeouts V s = Done (thread_of (currentTask s) l) s.
Proof.
  intros [Hc Hnd _]. pose proof (threads_size _ _ _ _ Hc Hnd).
  assert (sys_arch_thread_current V s = Done (thread_of (currentTask s) l) s) as Hr
    by (by rewrite sys_arch_thread_current_eq, (find_thread_end _ _ l) by (done || lia)).
  unfold sys_arch_timeouts. rewrite (bind_Done _ _ _ _ _ Hr).
  cbn. destruct (_ =? 0) eqn:E; cbn; [|done]. to_prop. by rewrite E.
Qed.
End current.

(** ** Starting a thread *)
Section create.
Context `{C : Config}.
Context (sizeof_sys_tcb : Z).
Implicit Types (s : OS) (V : sys_vars) (l : list (Z * option Z)).

(** When task [t] is first dispatched it starts in function [f] with [param] in
    R0. *)
Definition starts_with s t f param : Prop := exists c, aget (ContextTask s) t = Some c /\
  mem s !! (StackPoint c + CONTEXT_BYTES + 24) = Some (uint32 f) /\
  mem s !! (StackPoint c + CONTEXT_BYTES) = Some (uint32 param).

Lemma new_tcb_lemma V l s p h :
  threads V l -> BRTOS_ALLOC sizeof_sys_tcb (heap s) = (p, h) -> p <> 0 -> p ∉ map fst l ->
  exists V1, new_tcb sizeof_sys_tcb V s = Done (p, V1) (set_heap h s) /\
    tcb_seg (tcbs V1) (tasks V1) l p /\ (forall a, is_Some (tcbs V1 !! a) -> a ∈ map fst l).
Proof.
  intros [Hc Hnd Hdom] HA Hp Hni. pose proof (threads_size _ _ _ _ Hc Hnd) as Hsz. unfold new_tcb.
  destruct l as [|[a q] l0 _] using rev_ind.
  - cbn in Hc. rewrite Hc. change (0 =? 0) with true. cbn. rewrite HA. cbn.
    rewrite (proj2 (Z.eqb_neq _ _) Hp). cbn. eexists. by split_and!.
  - destruct (tcb_seg_dom _ _ _ _ a Hc) as [[t Ht] Ha]; [rewrite map_app; set_solver|].
    assert (tasks V <> 0) as H0.
    { destruct l0 as [|[b r] l0]; cbn in Hc; destruct Hc as (-> & Hne & _); done. }
    rewrite (proj2 (Z.eqb_neq _ _) H0). rewrite length_app in Hsz. cbn in Hsz.
    rewrite (bind_Done _ _ s a s) by (cbn; by rewrite (last_thread_eq _ l0 a q) by (done || lia)).
    cbn. rewrite HA. cbn. rewrite Ht. cbn. eexists. split_and!; [done| |].
    + cbn. by apply tcb_seg_relink.
    + cbn. intros b Hb. apply Hdom. destruct (decide (a = b)) as [->|]; [by exists t|].
      by rewrite lookup_insert_ne in Hb.
Qed.

(** The search for the control block of a priority that only task [t] has. *)
Lemma find_pid_eq s t c n : forall j pid,
  (forall i, j <= i < j + Z.of_nat n -> is_Some (aget (ContextTask s) i)) ->
  aget (ContextTask s) t = Some c ->
  (forall i c', j <= i < j + Z.of_nat n -> i <> t -> aget (ContextTask s) i = Some c' ->
     Priority c' <> Priority c) ->
  find_pid n j (Priority c) pid s =
    Done (if bool_decide (j <= t < j + Z.of_nat n) then Some t else pid) s.
Proof.
  induction n as [|n IH]; intros j pid Hall Hc Honly; cbn [find_pid].
  - rewrite bool_decide_eq_false_2 by lia. done.
  - destruct (Hall j ltac:(lia)) as [cj Hcj].
    rewrite (bind_Done _ _ s cj s) by (unfold Task; by apply read_Some).
    rewrite IH; [|intros i Hi; apply Hall; lia|done|intros i c' Hi; apply Honly; lia].
    destruct (decide (j = t)) as [->|Hne].
    + rewrite Hc in Hcj. injection Hcj as <-. rewrite Z.eqb_refl.
      rewrite bool_decide_eq_false_2, bool_decide_eq_true_2 by lia. done.
    + rewrite (proj2 (Z.eqb_neq _ _)) by (apply (Honly j); [lia|done|done]).
      by rewrite (bool_decide_ext (j + 1 <= t < j + 1 + Z.of_nat n) (j <= t < j + Z.of_nat (S n))) by lia.
Qed.

(** Starting a thread, when there is memory and the task can be installed into
    the control block [t], the first free one: the kernel has a new task, ready to
    run, that owns the priority, the kernel invariant is kept, interrupts are
    enabled, and the list has the thread at its end.  Its handle is returned --
    unless [t] is the last control block of the kernel: that one is not searched,
    and the caller gets NULL for a thread that runs. *)
Lemma sys_thread_new_lemma s (L : list Z) V l name thread arg stacksize prio t p h1 stack h2 :
  tables s L -> alloc_ok s -> may_install s thread stacksize prio -> 0 <= stacksize < 2 ^ 16 ->
  (forall i c, aget (ContextTask s) i = Some c -> Priority c <> prio) ->
  0 < t <= NUMBER_OF_TASKS -> (forall j, 0 <= j < t - 1 -> Z.testbit (TaskAlloc s) j = true) ->
  Z.testbit (TaskAlloc s) (t - 1) = false ->
  threads V l -> BRTOS_ALLOC sizeof_sys_tcb (heap s) = (p, h1) -> p <> 0 -> p ∉ map fst l ->
  let bytes := stacksize - stacksize mod sizeof_OS_CPU_TYPE in
  BRTOS_ALLOC bytes h1 = (stack, h2) -> good_block stack bytes ->
  exists s' V', let pid := if t <? NUMBER_OF_TASKS then Some t else None in
    sys_thread_new sizeof_sys_tcb V name thread arg stacksize prio s =
      Done (pid, V', if arg =? 0 then None else Some t) s' /\
    threads V' (l ++ [(p, pid)]) /\
    task_at s' prio t /\ starts_with s' t thread 0 /\ Z.testbit (OSReadyList s') prio = true /\ PRIMASK s' = false /\
    (forall q u, task_at s q u -> task_at s' q u) /\
    tables s' L /\ alloc_ok s' /\ (wf s L -> wf s' L).
Proof.
  intros Htb Hal Hmay Hst Hfresh Ht Hset Hclr Hth HA1 Hp Hni bytes HA2 Hgood.
  pose proof NUMBER_OF_TASKS_ok as HN.
  set (s0 := set_PRIMASK true s). set (s1 := set_heap h1 s0).
  destruct (new_tcb_lemma V l s0 p h1) as (V1 & Hnew & Hseg & Hdom); [done..|].
  destruct (aget_is_Some (ContextTask s) t) as [c0 Hc0]; [rewrite (tb_ct s L Htb); lia|].
  assert (tables s1 L) as Htb1 by (by apply (tables_ext s)).
  destruct (OSInstallTask_lemma s1 thread name stacksize prio 0 stack h2 t c0)
    as (sp & m & Hr & _ & _); [done|apply Htb1|done|done|lia|done|done|done|].
  destruct (OSInstallTask_ok s1 L thread name stacksize prio 0 stack h2)
    as (t' & s2 & c & Hr' & _ & _ & Hat & Hc & Hpc & Hr0 & Hrdy & _ & _ & Hoth & Htb2 & Hal2 & Hwf2);
    [done|done|done|done|done|exists (t - 1); split; [lia|done]|].
  pose proof Hr as Hr2. rewrite Hr' in Hr2. injection Hr2 as -> Hs2.
  set (c' := new_task name prio sp stack bytes) in Hs2.
  assert (ContextTask s2 = aset (ContextTask s) t c') as Hct by (by rewrite Hs2).
  set (pid := if t <? NUMBER_OF_TASKS then Some t else None).
  assert (find_pid (Z.to_nat (NUMBER_OF_TASKS - 1)) 1 prio None s2 = Done pid s2) as Hfind.
  { pose proof (find_pid_eq s2 t c' (Z.to_nat (NUMBER_OF_TASKS - 1)) 1 None) as Hf.
    change (Priority c') with prio in Hf. rewrite Hf.
    - rewrite Z2Nat.id by lia. unfold pid. do 2 f_equal. destruct (t <? NUMBER_OF_TASKS) eqn:E; to_prop.
      + by rewrite bool_decide_eq_true_2 by lia.
      + by rewrite bool_decide_eq_false_2 by lia.
    - intros i Hi. apply aget_is_Some. rewrite (tb_ct s2 L Htb2). lia.
    - rewrite Hct. by eapply aget_aset_eq.
    - intros i ci _ Hne. rewrite Hct, aget_aset_ne by done. apply Hfresh. }
  set (V' := mkSysVars (tasks V1) (<[p := mkTcb 0 0 pid]> (tcbs V1))).
  exists (set_PRIMASK false s2), V'. cbn zeta. fold pid. split_and!.
  - unfold sys_thread_new. rewrite (bind_Done _ _ s tt s0) by done.
    rewrite (bind_Done _ _ _ _ _ Hnew), (proj2 (Z.eqb_neq _ _) Hp). cbn [negb].
    pose proof Hmay as (_ & Hpr & _). rewrite configMAX_TASK_PRIORITY_eq in Hpr.
    pose proof PriorityType_bits_range. rewrite (uint16_small stacksize), (uint8_small prio) by lia.
    rewrite (bind_Done _ _ _ _ _ Hr'). cbn [fst snd]. rewrite Z.eqb_refl.
    rewrite (bind_Done _ _ _ _ _ Hfind). cbn. by rewrite insert_insert_eq.
  - by apply threads_snoc; [..|apply Hth| | |].
  - by apply (task_at_ext s2).
  - by exists c.
  - done.
  - done.
  - intros q u Hu. by apply (task_at_ext s2); [..|apply Hoth].
  - by apply (tables_ext s2).
  - done.
  - intros Hw. apply (wf_ext s2); [done|]. apply Hwf2. by apply (wf_ext s).
Qed.

Lemma thread_of_app u l1 l2 :
  thread_of u l1 <> 0 -> thread_of u (l1 ++ l2) = thread_of u l1.
Proof. induction l1 as [|[a q] l1 IH]; cbn; [done|]. by case_bool_decide. Qed.

Lemma thread_of_new u l p : Some u ∉ map snd l -> thread_of u (l ++ [(p, Some u)]) = p.
Proof.
  induction l as [|[a q] l IH]; cbn.
  - by rewrite bool_decide_eq_true_2.
  - intros [Hne Hni]%not_elem_of_cons. rewrite bool_decide_eq_false_2 by congruence. by apply IH.
Qed.

(** C31: Starting a thread in a kernel without TASK_WITH_PARAMETERS (the call in
    the code does not compile with it), when the priority is one of the kernel's
    and free, the stack is smaller than 64 KiB, there is memory, and a kernel control
    block but the last is free and belongs to no thread of the list: the kernel has a
    new task, the owner of the
    priority, ready to run from the beginning of the thread's function, and the
    kernel invariant is kept; its handle is returned; the thread is the last of
    the list.  But the thread does not get [arg]: R0 is 0 when it starts, and the
    number of the new task is stored in the word [arg] points to, unless [arg] is
    NULL.  Whenever the thread runs it finds the timeouts of its own control block,
    and every older thread still finds its own. *)
Theorem sys_thread_new_correct s (L : list Z) V l name thread arg stacksize prio t p h1 stack h2 :
  tables s L -> alloc_ok s -> may_install s thread stacksize prio -> 0 <= stacksize < 2 ^ 16 ->
  (forall i c, aget (ContextTask s) i = Some c -> Priority c <> prio) ->
  0 < t < NUMBER_OF_TASKS -> (forall j, 0 <= j < t - 1 -> Z.testbit (TaskAlloc s) j = true) ->
  Z.testbit (TaskAlloc s) (t - 1) = false -> Some t ∉ map snd l ->
  threads V l -> BRTOS_ALLOC sizeof_sys_tcb (heap s) = (p, h1) -> p <> 0 -> p ∉ map fst l ->
  let bytes := stacksize - stacksize mod sizeof_OS_CPU_TYPE in
  BRTOS_ALLOC bytes h1 = (stack, h2) -> good_block stack bytes ->
  exists s' V',
    sys_thread_new sizeof_sys_tcb V name thread arg stacksize prio s =
      Done (Some t, V', if arg =? 0 then None else Some t) s' /\
    threads V' (l ++ [(p, Some t)]) /\ task_at s' prio t /\ starts_with s' t thread 0 /\
    Z.testbit (OSReadyList s') prio = true /\
    (forall q u, task_at s q u -> task_at s' q u) /\ tables s' L /\ alloc_ok s' /\ (wf s L -> wf s' L) /\
    (forall s2, currentTask s2 = t -> sys_arch_timeouts V' s2 = Done p s2) /\
    (forall s2, thread_of (currentTask s2) l <> 0 -> sys_arch_timeouts V' s2 = sys_arch_timeouts V s2).
Proof.
  intros Htb Hal Hmay Hst Hfresh Ht Hset Hclr Hnew Hth HA1 Hp Hni bytes HA2 Hgood.
  destruct (sys_thread_new_lemma s L V l name thread arg stacksize prio t p h1 stack h2)
    as (s' & V' & Hr & Hth' & Hat & Hstart & Hrdy & _ & Hoth & Hrest); [first [done|lia]..|].
  rewrite (proj2 (Z.ltb_lt _ _)) in Hr, Hth' by lia.
  exists s', V'. destruct Hrest as (Htb' & Hal' & Hwf'). split_and!; try done.
  - intros s2 <-. by rewrite (sys_arch_timeouts_lemma V' _ s2 Hth'), thread_of_new.
  - intros s2 H2. by rewrite (sys_arch_timeouts_lemma V' _ s2 Hth'), (sys_arch_timeouts_lemma V l s2 Hth), thread_of_app.
Qed.

(** The last control block of the kernel is not searched: a thread installed there
    runs, but NULL is returned, and the thread finds no timeouts. *)
Theorem sys_thread_new_last_block s (L : list Z) V l name thread arg stacksize prio p h1 stack h2 :
  let t := NUMBER_OF_TASKS in
  tables s L -> alloc_ok s -> may_install s thread stacksize prio -> 0 <= stacksize < 2 ^ 16 ->
  (forall i c, aget (ContextTask s) i = Some c -> Priority c <> prio) ->
  (forall j, 0 <= j < t - 1 -> Z.testbit (TaskAlloc s) j = true) ->
  Z.testbit (TaskAlloc s) (t - 1) = false -> thread_of t l = 0 ->
  threads V l -> BRTOS_ALLOC sizeof_sys_tcb (heap s) = (p, h1) -> p <> 0 -> p ∉ map fst l ->
  let bytes := stacksize - stacksize mod sizeof_OS_CPU_TYPE in
  BRTOS_ALLOC bytes h1 = (stack, h2) -> good_block stack bytes ->
  exists s' V',
    sys_thread_new sizeof_sys_tcb V name thread arg stacksize prio s =
      Done (None, V', if arg =? 0 then None else Some t) s' /\
    task_at s' prio t /\ Z.testbit (OSReadyList s') prio = true /\
    forall s2, currentTask s2 = t -> sys_arch_timeouts V' s2 = Done 0 s2.
Proof.
  intros t Htb Hal Hmay Hst Hfresh Hset Hclr Hnone Hth HA1 Hp Hni bytes HA2 Hgood.
  pose proof NUMBER_OF_TASKS_ok.
  destruct (sys_thread_new_lemma s L V l name thread arg stacksize prio t p h1 stack h2)
    as (s' & V' & Hr & Hth' & Hat & _ & Hrdy & _); [first [done|unfold t; lia]..|].
  rewrite (proj2 (Z.ltb_ge _ _)) in Hr, Hth' by (unfold t; lia).
  exists s', V'. split_and!; [done..|]. intros s2 Hs2.
  rewrite (sys_arch_timeouts_lemma V' _ s2 Hth'), Hs2. do 2 f_equal. clear -Hnone.
  induction l as [|[a q] l IH]; cbn in *; [done|]. case_bool_decide; [done|]. by apply IH.
Qed.

(** When the task cannot be installed, whatever the reason, NULL is returned and
    the new control block is given back -- but the list still leads to it: from
    then on every task that is not an older thread reads a block that is no longer
    there. *)
Theorem sys_thread_new_dangling s V l name thread arg stacksize prio p h1 code o s1 :
  threads V l -> BRTOS_ALLOC sizeof_sys_tcb (heap s) = (p, h1) -> p <> 0 -> p ∉ map fst l ->
  OSInstallTask thread name (uint16 stacksize) (uint8 prio) 0 (set_heap h1 (set_PRIMASK true s)) =
    Done (code, o) s1 -> code <> OK ->
  exists s' V',
    sys_thread_new sizeof_sys_tcb V name thread arg stacksize prio s = Done (None, V', if arg =? 0 then None else o) s' /\
    heap s' = BRTOS_DEALLOC p (heap s1) /\
    forall s2, if thread_of (currentTask s2) l =? 0 then sys_arch_timeouts V' s2 = Fault
               else sys_arch_timeouts V' s2 = sys_arch_timeouts V s2.
Proof.
  intros Hth HA Hp Hni Hr Hne. pose proof Hth as [Hc Hnd _].
  set (s0 := set_PRIMASK true s) in *.
  destruct (new_tcb_lemma V l s0 p h1) as (V1 & Hnew & Hseg & Hdom); [done..|].
  eexists _, (mkSysVars (tasks V1) (delete p (tcbs V1))). split_and!.
  - unfold sys_thread_new. rewrite (bind_Done _ _ s tt s0) by done.
    rewrite (bind_Done _ _ _ _ _ Hnew), (proj2 (Z.eqb_neq _ _) Hp). cbn [negb].
    rewrite (bind_Done _ _ _ _ _ Hr). cbn [fst]. rewrite (proj2 (Z.eqb_neq _ _) Hne). cbn.
    rewrite delete_insert_eq. reflexivity.
  - done.
  - intros s2. set (m := delete p (tcbs V1)).
    assert (tcb_seg m (tasks V1) l p) as Hseg'.
    { apply (tcb_seg_frame (tcbs V1)); [done|]. intros a Ha. unfold m. rewrite lookup_delete_ne; [done|congruence]. }
    pose proof (threads_size _ _ _ _ Hseg' Hnd) as Hsz.
    rewrite (sys_arch_timeouts_lemma V l s2 Hth).
    unfold sys_arch_timeouts, bind. rewrite sys_arch_thread_current_eq. cbn [tasks tcbs]. fold m.
    destruct (thread_of (currentTask s2) l =? 0) eqn:E; to_prop.
    + rewrite (find_thread_dangling _ _ l _ _ p) by first [done|(unfold m; by rewrite lookup_delete_eq)|lia]. done.
    + replace (size m + 1)%nat with (length l + (size m + 1 - length l))%nat by lia.
      rewrite (find_thread_seg _ _ l p) by done. apply Z.eqb_neq in E. rewrite E. cbn. by rewrite E.
Qed.
End create.
