(* ===== verification/SysArchExamples.v ===== *)
(** * The port of the network stack on concrete systems

    The theorems of SysArchSpec.v, SysMbox.v and SysThread.v evaluated, and the
    runs that show the defects of sys_arch.c. *)

From Stdlib Require Import ZArith Lia.
From stdpp Require Import base gmap numbers list.
From S2P Require Import Prelude Config State Sched DelayList Hal Clock Kernel Event Sample Semaphore Ring DQueue DQueueSpec DQueueExamples Tasks Info SysArch SysArchSpec SysMbox SysThread.
#[local] Open Scope Z_scope.
#[local] Open Scope prog_scope.

(** ** A semaphore *)
Section sems.
#[local] Existing Instance sample_config.

(** Task 2, of priority 5, after a pend of 10000 ticks timed out at tick 10100, and
    after a post released it at tick 12345 from a pend that lasts until 20100. *)
Definition upd_task2 (s : OS) (w : Z) : OS :=
  set_ContextTask (aset (ContextTask s) 2 (set_TimeToWait w (sample_task 2 5))) s.
Definition sem_waits : BRTOS_Sem := mkSem TRUE 0 1 FALSE (2 ^ 5).
Definition woken_late : OS :=
  set_OSTickCounter 10100 (set_OSReadyList (2 ^ 0 + 2 ^ 5) (upd_task2 (sample_sem sem_waits) EXIT_BY_TIMEOUT)).
Definition woken_in_time : OS :=
  set_OSTickCounter 12345 (set_Head (Some 2) (set_Tail (Some 2) (upd_task2 (sample_sem sample_empty) 20100))).

Lemma may_wait_sample : may_wait 2 5 0 (sample_sem sample_empty) [] sample_empty.
Proof.
  split; try done; [apply sample_sem_wf|by apply task_atb_sound|by apply not_elem_of_nil|apply sample_empty_ok].
Qed.

Lemma timed_out_sample : timed_out 2 5 0 woken_late.
Proof.
  exists [], sem_waits. eexists. split_and!; [split; try done| |done|done].
  - by apply wfb_sound.
  - by apply task_atb_sound.
  - apply not_elem_of_nil.
  - split; [by apply ev_okb_sound|by cbn|done|done].
  - by apply elem_of_members.
Qed.

Lemma released_sample : released 2 5 0 woken_in_time sample_empty.
Proof.
  exists [2]. eexists. split_and!; [by apply wfb_sound|done|done|by vm_compute|done|].
  left. split; [done|]. by exists [], [].
Qed.

Lemma sys_arch_sem_wait_forever_witness :
  exists r s2 l2, replay (sys_arch_sem_wait 2 (Some 0) 0 (sample_sem sample_empty)) [woken_late; woken_in_time] =
      Done r s2 /\ time_reported 100 12245 r /\ wf s2 l2 /\ sem_at s2 0 sample_empty.
Proof.
  apply (sys_arch_sem_wait_forever 2 5 0 ltac:(lia) (sample_sem sample_empty) [] sample_empty [woken_late]
           woken_in_time sample_empty 2 12245);
    [by apply Nat.ltb_lt|apply may_wait_sample| |apply released_sample|done|done|by vm_compute].
  repeat constructor. apply timed_out_sample.
Defined.

(** A semaphore that was signaled: the longest time is reported. *)
Example sem_wait_reports_65532 :
  fst <$> done (sys_arch_sem_wait 1 (Some 0) 0 (sample_sem (mkSem TRUE 1 0 FALSE 0))) = Some 65532.
Proof. by vm_compute. Qed.

(** A limit of 65536 ticks on a 16-bit tick is no limit: the task waits for ever,
    as after a call of the kernel with 0. *)
Example sem_wait_limit_truncated :
  let s := sample_sem sample_empty in
  yielded (sys_arch_sem_wait 1 (Some 0) 65536 s) = yielded (OSSemPend (Some 0) 0 s).
Proof. by vm_compute. Qed.
End sems.

(** ** A mailbox of three pointers *)
Section mailboxes.
#[local] Existing Instance dq_config.
#[local] Existing Instance bump_Allocator.
#[local] Existing Instance Event_DQueue.

Definition ring_ptr : OS_DQUEUE := mkOS_DQUEUE 40 52 52 48 4 3 1.
Definition one_message : OS := dq_os idle_event ring_ptr.
Definition mailbox (xs : list Z) : dqueue := mkDQ 16 40 4 3 (map ptr_bytes xs) (members 0).

Lemma ring_ptr_rep : ring_rep 4 (ring_of ring_ptr) sample_bytes (map le_val [ptr_bytes 0x03020100]).
Proof.
  split; [lia|]. exists 3, 2. split; try done. intros k x Hk.
  destruct k as [|k]; [cbn in Hk; simplify_eq; by vm_compute|done].
Qed.

Lemma one_message_dqueues : dqueues one_message {[ 52 := mailbox [0x03020100] ]}.
Proof.
  apply (sample_dqueues idle_event ring_ptr); [done..|]. split; try done.
  - apply sample_bytes_ok.
  - repeat constructor; by unfold byte.
  - apply ring_ptr_rep.
  - by apply ev_okb_sound.
Qed.

Lemma sys_mbox_fifo_witness :
  exists s1 s2, post_all 52 [0xDEADBEEF; 7] one_message = Done tt s1 /\
    fetch_all 52 100 [1; 2; 3] s1 = Done [0x03020100; 0xDEADBEEF; 7] s2 /\
    dqueues s2 (<[52 := with_messages [] (mailbox [0x03020100])]> {[ 52 := mailbox [0x03020100] ]}) /\
    same_clock one_message s2.
Proof.
  apply (sys_mbox_fifo one_message {[ 52 := mailbox [0x03020100] ]} 52 (mailbox [0x03020100]) [0x03020100]
           [0xDEADBEEF; 7] [1; 2; 3] 100); [apply one_message_dqueues|by apply lookup_singleton_eq| |apply members_0|done|done| |by cbn|done].
  - split; [done|done|]. by repeat constructor.
  - by repeat constructor.
Defined.

(** The mailbox is full after two more messages: [sys_mbox_post] says nothing and
    the fourth message is lost. *)
Example sys_mbox_post_loses :
  then_on (post_all 52 [1; 2] one_message) (fun s1 =>
  then_on (sys_mbox_post (Some 52) 3 s1) (fun s2 =>
  value (fetch_all 52 100 [0; 0; 0] s2))) = Some [0x03020100; 1; 2].
Proof. by vm_compute. Qed.

(** With a NULL pointer the oldest message is dropped. *)
Example fetch_null_drops :
  fst <$> done (sys_arch_mbox_fetch 1 (Some 52) None 77 100 one_message) = Some (65532, None).
Proof. by vm_compute. Qed.
End mailboxes.

(** ** Threads *)
Section threads.
#[local] Existing Instance dq_config.

Definition no_threads : sys_vars := mkSysVars 0 ∅.
Definition thread_os : OS :=
  generic_os (mkBump 16 ∅) [0; 5; 9] (2 ^ 0 + 2 ^ 5 + 2 ^ 9) 2 [] [] [] [] [] [].

Lemma thread_os_wf : wf thread_os [].
Proof. by apply wfb_sound. Qed.

Lemma sys_thread_new_correct_witness :
  exists s' V',
    sys_thread_new 12 no_threads 0 0x8000 99 68 7 thread_os = Done (Some 4, V', Some 4) s' /\
    threads V' [(16, Some 4)] /\ task_at s' 7 4 /\ starts_with s' 4 0x8000 0 /\ Z.testbit (OSReadyList s') 7 = true /\
    (forall q u, task_at thread_os q u -> task_at s' q u) /\ tables s' [] /\ alloc_ok s' /\
    (wf thread_os [] -> wf s' []) /\
    (forall s2, currentTask s2 = 4 -> sys_arch_timeouts V' s2 = Done 16 s2) /\
    (forall s2, thread_of (currentTask s2) [] <> 0 -> sys_arch_timeouts V' s2 = sys_arch_timeouts no_threads s2).
Proof.
  apply (sys_thread_new_correct 12 thread_os [] no_threads [] 0 0x8000 99 68 7 4 16 (mkBump 28 {[16 := 12]})
           28 (mkBump 96 {[28 := 68; 16 := 12]})).
  - apply wf_tables, thread_os_wf.
  - by apply alloc_okb_sound.
  - by split_and!.
  - done.
  - intros i c Hc.
    assert (Forall (fun c => Priority c <> 7) (ContextTask thread_os)) as HF
      by (apply (bool_decide_eq_true_1 (Forall (fun c => Priority c <> 7) (ContextTask thread_os)));
          by vm_compute).
    unfold aget in Hc. case_match; [|done]. exact (Forall_lookup_1 _ _ _ _ HF Hc).
  - done.
  - intros j Hj. assert (j = 0 \/ j = 1 \/ j = 2) as [->|[->| ->]] by lia; done.
  - done.
  - apply not_elem_of_nil.
  - split; [done|constructor|]. intros a [t Ht]. cbn in Ht. by rewrite lookup_empty in Ht.
  - by vm_compute.
  - done.
  - apply not_elem_of_nil.
  - by vm_compute.
  - done.
Defined.

(** A thread of a priority that is taken: NULL, and then every task that asks for
    its timeouts reads the block that was given back. *)
Example sys_thread_new_leaves_dangling :
  match sys_thread_new 12 no_threads 0 0x8000 99 68 9 thread_os with
  | Done (None, V', _) s' => sys_arch_timeouts V' s' = Fault /\ tasks V' = 16 /\ live_blocks (heap s') = ∅
  | _ => False
  end.
Proof. by vm_compute. Qed.
End threads.
