(* ===== verification/TimerHeap.v ===== *)
(** * The binary heap of software timers

    brtos/stimer.c keeps the running timers in two arrays of pointers, each a
    binary heap ordered by expiry tick with its root in slot 1.  This file holds
    the sifting routines [Subir] and [Descer], the statements that insert a timer
    and remove the first one, and their specification: the heap order is
    preserved and the timers of the list are those expected.  The routines read
    and write the arrays through NULL-able pointers; [None] is an access the C
    program may not make. *)

From Stdlib Require Import ZArith Lia Sorted.
From stdpp Require Import base gmap numbers list.
From S2P Require Import Prelude Config State.
#[local] Open Scope Z_scope.

(** ** The code *)

(** The macros [PAI], [LEFT] and [RIGHT]. *)
Definition PAI (i : Z) : Z := uint8 (Z.shiftr i 1).
Definition LEFT (i : Z) : Z := uint8 (Z.shiftl i 1).
Definition RIGHT (i : Z) : Z := uint8 (Z.shiftl i 1 + 1).

(** [timers[i]->timeout] *)
Definition key (mem : list BRTOS_TIMER_T) (timers : list (option Z)) (i : Z) : option Z :=
  o ← aget timers i; t ← o; r ← aget mem t; Some (tmr_timeout r).

(** [timers[i] != NULL] *)
Definition nonnull (timers : list (option Z)) (i : Z) : option bool :=
  o ← aget timers i; Some (bool_decide (is_Some o)).

(** [timers[i]->timeout < timers[j]->timeout] *)
Definition sooner (mem : list BRTOS_TIMER_T) (timers : list (option Z)) (i j : Z)
    : option bool :=
  a ← key mem timers i; b ← key mem timers j; Some (a <? b).

(** C's [&&] on expressions whose evaluation may be undefined. *)
Definition oand (a b : option bool) : option bool :=
  match a with Some true => b | _ => a end.

(** Exchanging two slots. *)
Definition swap (timers : list (option Z)) (i j : Z) : option (list (option Z)) :=
  tmp ← aget timers i; x ← aget timers j; Some (aset (aset timers i x) j tmp).

(** The loop of [Subir]; its index is halved every time, so that 8 iterations
    are enough for an 8-bit index. *)
Fixpoint Subir_loop (fuel : nat) (mem : list BRTOS_TIMER_T) (timers : list (option Z)) (i : Z)
    : option (list (option Z)) :=
  c ← (if i >? 1 then sooner mem timers i (PAI i) else Some false);
  if c : bool then
    match fuel with
    | O => None
    | S fuel' => timers ← swap timers (PAI i) i; Subir_loop fuel' mem timers (PAI i)
    end
  else Some timers.
Definition Subir : list BRTOS_TIMER_T -> list (option Z) -> Z -> option (list (option Z)) :=
  Subir_loop 8.

(** The loop of [Descer]; its index doubles every time. *)
Fixpoint Descer_loop (fuel : nat) (mem : list BRTOS_TIMER_T) (timers : list (option Z)) (i n : Z)
    : option (list (option Z)) :=
  match fuel with
  | O => None
  | S fuel' =>
      r ← oand (oand (oand (Some (RIGHT i <=? n)) (nonnull timers (RIGHT i)))
                  (nonnull timers (LEFT i)))
            (sooner mem timers (RIGHT i) (LEFT i));
      let son := if r : bool then RIGHT i else LEFT i in
      c ← oand (oand (oand (Some (son <=? n)) (nonnull timers son)) (nonnull timers i))
            (sooner mem timers son i);
      if c : bool then
        timers ← swap timers son i; Descer_loop fuel' mem timers son n
      else Some timers
  end.
Definition Descer : list BRTOS_TIMER_T -> list (option Z) -> Z -> Z -> option (list (option Z)) :=
  Descer_loop 8.

Section lists.
Context `{C : Config}.

(** From [if(list->count < (BRTOS_MAX_TIMER-1)) list->count++] to [Subir]:
    timer [p] enters a list. *)
Definition tmr_insert (mem : list BRTOS_TIMER_T) (list : BRTOS_TMR_T) (p : Z)
    : option BRTOS_TMR_T :=
  let list := if tl_count list <? BRTOS_MAX_TIMER - 1
              then set_tl_count (int8 (tl_count list + 1)) list else list in
  _ ← aget (tl_timers list) (tl_count list);
  timers ← Subir mem (aset (tl_timers list) (tl_count list) (Some p)) (uint8 (tl_count list));
  Some (set_tl_timers timers list).

(** [list->timers[1]=list->timers[list->count]] and the two lines after it. *)
Definition tmr_remove (list : BRTOS_TMR_T) : option BRTOS_TMR_T :=
  x ← aget (tl_timers list) (tl_count list);
  _ ← aget (tl_timers list) 1;
  let timers := aset (aset (tl_timers list) 1 x) (tl_count list) None in
  let list := set_tl_timers timers list in
  Some (if tl_count list >? 0 then set_tl_count (int8 (tl_count list - 1)) list else list).

(** [Descer (list->timers, 1, list->count)] *)
Definition tmr_settle (mem : list BRTOS_TIMER_T) (list : BRTOS_TMR_T) : option BRTOS_TMR_T :=
  timers ← Descer mem (tl_timers list) 1 (uint8 (tl_count list));
  Some (set_tl_timers timers list).
End lists.

Arguments Subir : simpl never.
Arguments Descer : simpl never.
Arguments BRTOS_MAX_TIMER : simpl never.

(** ** Slots and keys *)
Section slots.
Implicit Types (mem : list BRTOS_TIMER_T) (S : list (option Z)) (i j n t : Z).

(** The key of a slot, 0 when it has none. *)
Definition keyz mem S i : Z := default 0 (key mem S i).

(** Slots 1 to [n] hold timers of [mem]. *)
Definition live_slots mem S n : Prop :=
  forall i, 1 <= i <= n -> exists t r, aget S i = Some (Some t) /\ aget mem t = Some r.

(** The heap order, everywhere; everywhere but between [i] and its parent;
    everywhere but between [i] and its children. *)
Definition ordered mem S n : Prop :=
  forall j, 2 <= j <= n -> keyz mem S (j / 2) <= keyz mem S j.
Definition ordered_up mem S n i : Prop :=
  (forall j, 2 <= j <= n -> j <> i -> keyz mem S (j / 2) <= keyz mem S j) /\
  (forall j, 2 <= i -> 2 <= j <= n -> j / 2 = i -> keyz mem S (i / 2) <= keyz mem S j).
Definition ordered_down mem S n i : Prop :=
  (forall j, 2 <= j <= n -> j / 2 <> i -> keyz mem S (j / 2) <= keyz mem S j) /\
  (forall j, 2 <= i -> 2 <= j <= n -> j / 2 = i -> keyz mem S (i / 2) <= keyz mem S j).

Lemma PAI_eq i : 0 <= i < 256 -> PAI i = i / 2.
Proof.
  intros. unfold PAI. rewrite Z.shiftr_div_pow2 by lia. change (2 ^ 1) with 2.
  apply uint8_small. split; [apply Z.div_pos; lia|]. apply Z.div_lt_upper_bound; lia.
Qed.

Lemma LEFT_eq i : 0 <= i < 128 -> LEFT i = 2 * i.
Proof.
  intros. unfold LEFT. rewrite Z.shiftl_mul_pow2 by lia. change (2 ^ 1) with 2.
  rewrite uint8_small; lia.
Qed.

Lemma RIGHT_eq i : 0 <= i < 128 -> RIGHT i = 2 * i + 1.
Proof.
  intros. unfold RIGHT. rewrite Z.shiftl_mul_pow2 by lia. change (2 ^ 1) with 2.
  rewrite uint8_small; lia.
Qed.

Lemma half_range i : 2 <= i -> 1 <= i / 2 < i.
Proof. intros. pose proof (Z.div_mod i 2). pose proof (Z.mod_pos_bound i 2). lia. Qed.

Lemma half_child i j : j / 2 = i <-> j = 2 * i \/ j = 2 * i + 1.
Proof. pose proof (Z.div_mod j 2). pose proof (Z.mod_pos_bound j 2). lia. Qed.

Lemma live_key mem S n i :
  live_slots mem S n -> 1 <= i <= n -> key mem S i = Some (keyz mem S i).
Proof. intros H Hi. destruct (H i Hi) as (t & r & H1 & H2). unfold keyz, key. by rewrite H1; cbn; rewrite H2. Qed.

Lemma live_nonnull mem S n i :
  live_slots mem S n -> 1 <= i <= n -> nonnull S i = Some true.
Proof. intros H Hi. destruct (H i Hi) as (t & r & H1 & H2). unfold nonnull. by rewrite H1. Qed.

Lemma live_sooner mem S n i j :
  live_slots mem S n -> 1 <= i <= n -> 1 <= j <= n ->
  sooner mem S i j = Some (keyz mem S i <? keyz mem S j).
Proof. intros H Hi Hj. unfold sooner. by rewrite (live_key mem S n i), (live_key mem S n j). Qed.

Lemma key_aget mem S S' i j : aget S' i = aget S j -> keyz mem S' i = keyz mem S j.
Proof. intros H. unfold keyz, key. by rewrite H. Qed.

(** Replacing an entry of a list, and exchanging two, up to order. *)
Lemma insert_Permutation {A} (l : list A) (k : nat) z :
  is_Some (l !! k) -> <[k := z]> l ≡ₚ z :: delete k l.
Proof.
  intros Hk. rewrite (delete_Permutation (<[k := z]> l) k z).
  - by rewrite !delete_take_drop, take_insert_ge, drop_insert_lt by lia.
  - apply list_lookup_insert_eq. by apply lookup_lt_is_Some.
Qed.

Lemma Permutation_exchange {A} (l : list A) (a b : nat) x y :
  l !! a = Some x -> l !! b = Some y -> <[b := x]> (<[a := y]> l) ≡ₚ l.
Proof.
  intros Ha Hb. set (l1 := <[a := y]> l).
  assert (l1 !! b = Some y) as Hb1.
  { unfold l1. destruct (decide (a = b)) as [->|].
    - rewrite list_lookup_insert_eq; [done|]. by eapply lookup_lt_Some.
    - by rewrite list_lookup_insert_ne. }
  rewrite (insert_Permutation l1 b x) by eauto.
  assert (delete b l1 ≡ₚ delete a l) as ->.
  { apply (Permutation_cons_inv (a := y)). rewrite <- (delete_Permutation l1 b y Hb1).
    apply insert_Permutation. eauto. }
  symmetry. by apply delete_Permutation.
Qed.

(** What an exchange of two live slots does. *)
Lemma swap_spec mem S n i j :
  live_slots mem S n -> 1 <= i <= n -> 1 <= j <= n -> i <> j ->
  exists S', swap S i j = Some S' /\ (S' ≡ₚ S) /\ live_slots mem S' n /\
    aget S' i = aget S j /\ aget S' j = aget S i /\
    (forall k, k <> i -> k <> j -> aget S' k = aget S k).
Proof.
  intros H Hi Hj Hne. destruct (H i Hi) as (ti & ri & Hti & Hri).
  destruct (H j Hj) as (tj & rj & Htj & Hrj).
  exists (aset (aset S i (Some tj)) j (Some ti)).
  assert (aget (aset S i (Some tj)) j = Some (Some tj)) as Hj1 by (by rewrite aget_aset_ne).
  assert (forall k, k <> i -> k <> j ->
            aget (aset (aset S i (Some tj)) j (Some ti)) k = aget S k) as Hk
    by (intros; by rewrite !aget_aset_ne by done).
  assert (aget (aset (aset S i (Some tj)) j (Some ti)) i = Some (Some tj)) as Hgi
    by (rewrite aget_aset_ne by done; by eapply aget_aset_eq).
  assert (aget (aset (aset S i (Some tj)) j (Some ti)) j = Some (Some ti)) as Hgj
    by (by eapply aget_aset_eq).
  split_and!; [unfold swap; by rewrite Hti; cbn; rewrite Htj|..|congruence|congruence|done].
  - unfold aset, aget in *. rewrite !(proj2 (Z.leb_le 0 _)) in * by lia.
    by apply Permutation_exchange.
  - intros k Hkn. destruct (decide (k = i)) as [->|]; [eauto|].
    destruct (decide (k = j)) as [->|]; [eauto|]. rewrite Hk by done. by apply H.
Qed.
End slots.

(** ** Sifting *)
Section sifting.
Implicit Types (mem : list BRTOS_TIMER_T) (S : list (option Z)) (i j n t : Z).

(** The slots of a heap of [n] timers rearranged. *)
Definition rearranged mem S S' n : Prop :=
  (S' ≡ₚ S) /\ live_slots mem S' n /\ (forall k, k < 1 \/ n < k -> aget S' k = aget S k).

Lemma rearranged_refl mem S n : live_slots mem S n -> rearranged mem S S n.
Proof. intros. by split_and!. Qed.

Lemma rearranged_trans mem S S1 S2 n :
  rearranged mem S S1 n -> rearranged mem S1 S2 n -> rearranged mem S S2 n.
Proof.
  intros (P1 & _ & O1) (P2 & L2 & O2). split_and!; [by rewrite P2|done|].
  intros k Hk. by rewrite O2, O1.
Qed.

Lemma swap_rearranged mem S n i j :
  live_slots mem S n -> 1 <= i <= n -> 1 <= j <= n -> i <> j ->
  exists S', swap S i j = Some S' /\ rearranged mem S S' n /\
    keyz mem S' i = keyz mem S j /\ keyz mem S' j = keyz mem S i /\
    aget S' i = aget S j /\
    (forall k, k <> i -> k <> j -> keyz mem S' k = keyz mem S k).
Proof.
  intros H Hi Hj Hne. destruct (swap_spec mem S n i j H Hi Hj Hne) as (S' & Hs & Hp & Hl & Hai & Haj & Hk).
  exists S'. split_and!; [done|split_and!; [done|done|intros; apply Hk; lia]|..];
    try (intros; apply key_aget; auto; done); try done.
Qed.

(** One step of [Subir]: the violation moves to the parent. *)
Lemma ordered_up_swap mem S S' n i :
  2 <= i <= n -> ordered_up mem S n i -> keyz mem S i < keyz mem S (i / 2) ->
  keyz mem S' (i / 2) = keyz mem S i -> keyz mem S' i = keyz mem S (i / 2) ->
  (forall k, k <> i / 2 -> k <> i -> keyz mem S' k = keyz mem S k) ->
  ordered_up mem S' n (i / 2).
Proof.
  intros Hi [Ho Hc] Hlt Hkp Hki Hk. pose proof (half_range i ltac:(lia)). split.
  - intros j Hj Hne. pose proof (half_range j ltac:(lia)).
    destruct (decide (j = i)) as [->|]; [lia|]. rewrite (Hk j) by done.
    destruct (decide (j / 2 = i)) as [E|]; [rewrite E, Hki; apply (Hc j); lia|].
    destruct (decide (j / 2 = i / 2)) as [E|].
    + rewrite E, Hkp. pose proof (Ho j Hj n0) as Hx. rewrite E in Hx. lia.
    + rewrite Hk by done. by apply Ho.
  - intros j Hp Hj Hji. pose proof (half_range (i / 2) ltac:(lia)).
    rewrite (Hk (i / 2 / 2)) by lia.
    pose proof (Ho (i / 2) ltac:(lia) ltac:(lia)).
    destruct (decide (j = i)) as [->|Hne]; [lia|].
    pose proof (half_range j ltac:(lia)). rewrite (Hk j) by lia.
    pose proof (Ho j Hj Hne) as Hx. rewrite Hji in Hx. lia.
Qed.

Lemma Subir_loop_spec fuel mem : forall S i n,
  1 <= i <= n -> n < 256 -> i < 2 ^ Z.of_nat fuel ->
  live_slots mem S n -> ordered_up mem S n i ->
  exists S', Subir_loop fuel mem S i = Some S' /\ rearranged mem S S' n /\ ordered mem S' n /\
    ((forall j, 1 <= j <= n -> j <> i -> keyz mem S i < keyz mem S j) -> aget S' 1 = aget S i).
Proof.
  induction fuel as [|fuel IH]; intros S i n Hi Hn Hf Hl Ho.
  all: assert (1 < i \/ i = 1) as [Hi1| ->] by lia.
  all: try change (2 ^ Z.of_nat 0) with 1 in Hf.
  - lia.
  - lia.
  - pose proof (half_range i ltac:(lia)) as Hh. cbn [Subir_loop].
    assert ((i >? 1) = true) as -> by lia.
    rewrite PAI_eq, (live_sooner mem S n i) by (lia || done). cbn [mbind option_bind].
    destruct (keyz mem S i <? keyz mem S (i / 2)) eqn:Hlt; to_prop.
    + destruct (swap_rearranged mem S n (i / 2) i) as (S1 & -> & Hr & Hkp & Hki & Hap & Hk); [done|lia|lia|lia|].
      cbn [mbind option_bind].
      destruct (IH S1 (i / 2) n) as (S2 & Hrun & Hr2 & Ho2 & Hm2); [lia|lia| |apply Hr| |].
      { rewrite Nat2Z.inj_succ, Z.pow_succ_r in Hf by lia. apply Z.div_lt_upper_bound; lia. }
      { by apply (ordered_up_swap mem S S1 n i); [lia|..]. }
      exists S2. split_and!; [done|by eapply rearranged_trans|done|].
      intros Hmin. rewrite Hm2; [done|]. intros j Hj Hne. rewrite Hkp.
      destruct (decide (j = i)) as [->|]; [rewrite Hki; apply Hmin; lia|].
      rewrite Hk by done. by apply Hmin.
    + exists S. split_and!; [done|by apply rearranged_refl| |].
      * intros j Hj. destruct (decide (j = i)) as [->|]; [done|]. by apply Ho.
      * intros Hmin. specialize (Hmin (i / 2)). lia.
  - exists S. cbn [Subir_loop]. change (1 >? 1) with false. cbn [mbind option_bind].
    split_and!; [done|by apply rearranged_refl| |done].
    intros j Hj. apply Ho; lia.
Qed.

Lemma Subir_spec mem S i n :
  1 <= i <= n -> n < 256 -> live_slots mem S n -> ordered_up mem S n i ->
  exists S', Subir mem S i = Some S' /\ rearranged mem S S' n /\ ordered mem S' n /\
    ((forall j, 1 <= j <= n -> j <> i -> keyz mem S i < keyz mem S j) -> aget S' 1 = aget S i).
Proof. intros. apply Subir_loop_spec; try done. cbn. lia. Qed.
End sifting.

Section sinking.
Implicit Types (mem : list BRTOS_TIMER_T) (S : list (option Z)) (i j n t : Z).

(** The child [Descer] compares a slot with: the smaller of its live
    children. *)
Lemma Descer_son mem S i n :
  1 <= i < 128 -> 0 <= n < 128 -> live_slots mem S n ->
  exists r,
    oand (oand (oand (Some (RIGHT i <=? n)) (nonnull S (RIGHT i))) (nonnull S (LEFT i)))
      (sooner mem S (RIGHT i) (LEFT i)) = Some r /\
    let son := if r : bool then RIGHT i else LEFT i in
    (son = 2 * i \/ son = 2 * i + 1) /\
    (forall j, 2 <= j <= n -> j / 2 = i -> son <= n /\ keyz mem S son <= keyz mem S j).
Proof.
  intros Hi Hn Hl. rewrite RIGHT_eq, LEFT_eq by lia.
  destruct (2 * i + 1 <=? n) eqn:Hr; to_prop.
  - cbn [oand]. rewrite (live_nonnull mem S n (2 * i + 1)) by (lia || done). cbn [oand].
    rewrite (live_nonnull mem S n (2 * i)) by (lia || done). cbn [oand].
    rewrite (live_sooner mem S n) by (lia || done).
    eexists. split; [done|]. cbn zeta.
    destruct (keyz mem S (2 * i + 1) <? keyz mem S (2 * i)) eqn:Hlt; to_prop.
    + split; [lia|]. intros j Hj [-> | ->]%half_child; lia.
    + split; [lia|]. intros j Hj [-> | ->]%half_child; lia.
  - cbn [oand]. exists false. split_and!; [done|lia|].
    intros j Hj [-> | ->]%half_child; lia.
Qed.

(** One step of [Descer]: the violation moves to the child. *)
Lemma ordered_down_swap mem S S' n i son :
  1 <= i -> son = 2 * i \/ son = 2 * i + 1 -> son <= n -> ordered_down mem S n i ->
  keyz mem S son < keyz mem S i ->
  (forall j, 2 <= j <= n -> j / 2 = i -> keyz mem S son <= keyz mem S j) ->
  keyz mem S' son = keyz mem S i -> keyz mem S' i = keyz mem S son ->
  (forall k, k <> son -> k <> i -> keyz mem S' k = keyz mem S k) ->
  ordered_down mem S' n son.
Proof.
  intros Hi Hson%half_child Hn [Ho Hc] Hlt Hmin Hks Hki Hk.
  assert (2 <= son) by (apply half_child in Hson; lia).
  pose proof (half_range son ltac:(lia)). split.
  - intros j Hj Hne. pose proof (half_range j ltac:(lia)).
    destruct (decide (j = son)) as [->|]; [rewrite Hson; lia|].
    destruct (decide (j = i)) as [->|].
    + rewrite Hki, (Hk (i / 2)) by lia. apply (Hc son); lia.
    + rewrite (Hk j) by done. destruct (decide (j / 2 = i)) as [E|].
      * rewrite E, Hki. by apply Hmin.
      * rewrite Hk by done. by apply Ho.
  - intros j _ Hj Hjs. pose proof (half_range j ltac:(lia)). rewrite Hson, Hki.
    rewrite (Hk j) by lia. rewrite <- Hjs. apply Ho; lia.
Qed.

Lemma Descer_loop_spec fuel mem : forall S i n,
  1 <= i -> i <= n \/ (0 < fuel)%nat -> i < 128 -> 0 <= n < 128 -> n < i * 2 ^ Z.of_nat fuel ->
  live_slots mem S n -> ordered_down mem S n i ->
  exists S', Descer_loop fuel mem S i n = Some S' /\ rearranged mem S S' n /\ ordered mem S' n.
Proof.
  induction fuel as [|fuel IH]; intros S i n Hi Hfu Hi2 Hn Hf Hl Ho.
  { change (2 ^ Z.of_nat 0) with 1 in Hf. lia. }
  cbn [Descer_loop]. destruct (Descer_son mem S i n ltac:(lia) Hn Hl) as (r & -> & Hson & Hmin).
  cbn [mbind option_bind]. cbn zeta in Hson, Hmin.
  set (son := if r then RIGHT i else LEFT i) in *. clearbody son. clear r.
  destruct (son <=? n) eqn:Hs; to_prop; cbn [oand]; cycle 1.
  { exists S. split_and!; [done|by apply rearranged_refl|]. intros j Hj.
    destruct (decide (j / 2 = i)) as [E|]; [destruct (Hmin j Hj E); lia|]. by apply Ho. }
  rewrite (live_nonnull mem S n son) by (lia || done). cbn [oand].
  rewrite (live_nonnull mem S n i) by (lia || done). cbn [oand].
  rewrite (live_sooner mem S n) by (lia || done). cbn [mbind option_bind].
  destruct (keyz mem S son <? keyz mem S i) eqn:Hlt; to_prop.
  - destruct (swap_rearranged mem S n son i) as (S1 & -> & Hr & Hks & Hki & _ & Hk); [done|lia..|].
    cbn [mbind option_bind].
    destruct (IH S1 son n) as (S2 & Hrun & Hr2 & Ho2); [lia|lia|lia|lia| |apply Hr| |].
    { rewrite Nat2Z.inj_succ, Z.pow_succ_r in Hf by lia. nia. }
    { apply (ordered_down_swap mem S S1 n i son); try done. intros j Hj E. by apply Hmin. }
    exists S2. split_and!; [done|by eapply rearranged_trans|done].
  - exists S. split_and!; [done|by apply rearranged_refl|]. intros j Hj.
    destruct (decide (j / 2 = i)) as [E|]; [|by apply Ho].
    destruct (Hmin j Hj E). rewrite E. lia.
Qed.

Lemma Descer_spec mem S n :
  0 <= n < 128 -> live_slots mem S n -> ordered_down mem S n 1 ->
  exists S', Descer mem S 1 n = Some S' /\ rearranged mem S S' n /\ ordered mem S' n.
Proof. intros. apply Descer_loop_spec; try done; cbn; lia. Qed.

(** The root of a heap is its minimum. *)
Lemma ordered_root mem S n i : ordered mem S n -> 1 <= i <= n -> keyz mem S 1 <= keyz mem S i.
Proof.
  intros Ho. revert i. apply (well_founded_ind (Z.lt_wf 0) (fun i => 1 <= i <= n -> _)).
  intros i IH Hi. destruct (decide (i = 1)) as [->|]; [lia|].
  pose proof (half_range i ltac:(lia)). specialize (IH (i / 2)). specialize (Ho i). lia.
Qed.
End sinking.

(** ** Timer lists *)
Section tlists.
Context `{C : Config}.
Implicit Types (mem : list BRTOS_TIMER_T) (S : list (option Z)) (L : BRTOS_TMR_T) (i j n t p : Z).

(** The timers of a list. *)
Definition contents L : list Z := omap id (tl_timers L).

(** The expiry tick of a timer. *)
Definition timeout_of mem t : Z :=
  match aget mem t with Some r => tmr_timeout r | None => 0 end.

(** The invariant of a list: its slots 1 to [count] hold timers, the others are
    NULL, no timer is in it twice, and it is a heap. *)
Record tlist_ok mem L : Prop := {
  tl_max : 2 <= BRTOS_MAX_TIMER <= 128;
  tl_length : Z.of_nat (length (tl_timers L)) = BRTOS_MAX_TIMER;
  tl_range : 0 <= tl_count L < BRTOS_MAX_TIMER;
  tl_live : live_slots mem (tl_timers L) (tl_count L);
  tl_null : forall i o, aget (tl_timers L) i = Some o -> i < 1 \/ tl_count L < i -> o = None;
  tl_nodup : NoDup (contents L);
  tl_order : ordered mem (tl_timers L) (tl_count L);
}.

Lemma elem_of_contents L t : t ∈ contents L <-> exists i, aget (tl_timers L) i = Some (Some t).
Proof.
  unfold contents. rewrite list_elem_of_omap. split.
  - intros (o & Ho & [= ->]). apply list_elem_of_lookup in Ho as [k Hk].
    exists (Z.of_nat k). unfold aget. rewrite (proj2 (Z.leb_le _ _)) by lia. by rewrite Nat2Z.id.
  - intros [i Hi]. exists (Some t). split; [|done]. unfold aget in Hi.
    case_match; [|done]. by eapply list_elem_of_lookup_2.
Qed.

Lemma keyz_timeout mem S i t : aget S i = Some (Some t) -> keyz mem S i = timeout_of mem t.
Proof.
  intros H. unfold keyz, key, timeout_of. rewrite H. cbn. by destruct (aget mem t).
Qed.

(** Filling an empty slot, emptying one. *)
Lemma contents_fill S S' i p c c' :
  aget S i = Some None -> S' = aset S i (Some p) ->
  contents (mkTmrList S' c') ≡ₚ p :: contents (mkTmrList S c).
Proof.
  intros H ->. unfold contents, aset, aget in *. cbn [tl_timers]. case_match; [|done].
  rewrite (insert_Permutation S (Z.to_nat i) (Some p)) by eauto. cbn.
  rewrite (delete_Permutation S _ _ H) at 2. done.
Qed.

Lemma contents_clear S S' i p c c' :
  aget S i = Some (Some p) -> S' = aset S i None ->
  contents (mkTmrList S c) ≡ₚ p :: contents (mkTmrList S' c').
Proof.
  intros H ->. unfold contents, aset, aget in *. cbn [tl_timers]. case_match; [|done].
  rewrite (insert_Permutation S (Z.to_nat i) None) by eauto. cbn.
  rewrite (delete_Permutation S _ _ H) at 1. done.
Qed.

Lemma contents_Permutation S S' c c' :
  S' ≡ₚ S -> contents (mkTmrList S' c') ≡ₚ contents (mkTmrList S c).
Proof. intros H. unfold contents. cbn. by rewrite H. Qed.

(** A list does not depend on the timers outside it. *)
Lemma tlist_ok_mem mem mem' L :
  tlist_ok mem L ->
  (forall t, t ∈ contents L -> option_map tmr_timeout (aget mem' t) = option_map tmr_timeout (aget mem t)) ->
  tlist_ok mem' L.
Proof.
  intros [Hm Hlen Hr Hl Hz Hnd Ho] Hk.
  assert (forall i, keyz mem' (tl_timers L) i = keyz mem (tl_timers L) i) as Hkz.
  { intros i. unfold keyz, key. destruct (aget (tl_timers L) i) as [[t|]|] eqn:E; [|done..]. cbn.
    assert (t ∈ contents L) as Hin by (apply elem_of_contents; eauto).
    specialize (Hk t Hin). destruct (aget mem t), (aget mem' t); cbn in *; congruence. }
  split; try done.
  - intros i Hi. destruct (Hl i Hi) as (t & r & Ht & Hr'). specialize (Hk t).
    rewrite Hr' in Hk. destruct (aget mem' t) as [r'|] eqn:E; [eauto|].
    discriminate Hk. apply elem_of_contents; eauto.
  - intros j Hj. rewrite !Hkz. by apply Ho.
Qed.

Lemma tlist_root_null mem L :
  tlist_ok mem L -> aget (tl_timers L) 1 = Some None -> tl_count L = 0 /\ contents L = [].
Proof.
  intros H Hroot. destruct H as [Hm Hlen Hr Hl Hz Hnd Ho].
  assert (tl_count L = 0) as Hc.
  { destruct (decide (tl_count L = 0)); [done|]. destruct (Hl 1) as (t & r & Ht & _); [lia|]. congruence. }
  split; [done|]. destruct (contents L) as [|t ts] eqn:E; [done|]. exfalso.
  assert (t ∈ contents L) as [i Hi]%elem_of_contents by (rewrite E; left).
  apply Hz in Hi as Hi'; [done|lia].
Qed.

Lemma tlist_root mem L :
  tlist_ok mem L -> exists o, aget (tl_timers L) 1 = Some o /\ (is_Some o <-> 0 < tl_count L).
Proof.
  intros H. destruct (aget_is_Some (tl_timers L) 1) as [o Ho].
  { destruct H. lia. }
  exists o. split; [done|]. destruct o as [t|].
  - split; [|by eauto]. intros _. destruct (decide (0 < tl_count L)); [done|].
    pose proof (tl_null _ _ H 1 _ Ho ltac:(lia)). done.
  - split; [by intros []|]. intros Hc. destruct (tlist_root_null mem L H Ho). lia.
Qed.

Lemma tlist_root_live mem L t :
  tlist_ok mem L -> aget (tl_timers L) 1 = Some (Some t) ->
  exists r, aget mem t = Some r /\ 0 < tl_count L.
Proof.
  intros H Ht. destruct (tlist_root mem L H) as (o & Ho & Hos).
  assert (0 < tl_count L) as Hc by (apply Hos; rewrite Ht in Ho; injection Ho as <-; by eexists).
  destruct (tl_live _ _ H 1) as (t' & r & Ht' & Hr); [lia|].
  exists r. split; congruence.
Qed.

Lemma contents_slot mem L t :
  tlist_ok mem L -> t ∈ contents L ->
  exists i, 1 <= i <= tl_count L /\ aget (tl_timers L) i = Some (Some t).
Proof.
  intros H [i Hi]%elem_of_contents. exists i. split; [|done].
  destruct (decide (1 <= i <= tl_count L)); [done|].
  pose proof (tl_null _ _ H i _ Hi ltac:(lia)). done.
Qed.

(** The first timer of a list expires first. *)
Lemma tlist_root_min mem L t u :
  tlist_ok mem L -> aget (tl_timers L) 1 = Some (Some t) -> u ∈ contents L ->
  timeout_of mem t <= timeout_of mem u.
Proof.
  intros H Ht Hu. destruct (contents_slot mem L u H Hu) as (i & Hi & Hiu).
  rewrite <- (keyz_timeout mem _ _ _ Ht), <- (keyz_timeout mem _ _ _ Hiu).
  eapply ordered_root; [apply H|done].
Qed.
End tlists.

(** ** Inserting, removing and reordering *)
Section tlist_ops.
Context `{C : Config}.
Implicit Types (mem : list BRTOS_TIMER_T) (S : list (option Z)) (L : BRTOS_TMR_T) (i j n t p : Z).

(** [mem] and [mem'] give the timers of [L] other than [t] the same ticks. *)
Definition agree_off mem mem' L t : Prop :=
  forall u, u ∈ contents L -> u <> t ->
    option_map tmr_timeout (aget mem' u) = option_map tmr_timeout (aget mem u).

Lemma tlist_slot_inj L t i j :
  NoDup (contents L) -> aget (tl_timers L) i = Some (Some t) -> aget (tl_timers L) j = Some (Some t) ->
  i = j.
Proof.
  destruct L as [S c]. cbn. intros Hnd Hi Hj. destruct (decide (i = j)) as [|Hne]; [done|]. exfalso.
  pose proof (contents_clear S _ i t c c Hi eq_refl) as Hp. rewrite Hp, NoDup_cons in Hnd.
  destruct Hnd as [Hni _]. apply Hni, elem_of_contents. exists j. cbn. by rewrite aget_aset_ne.
Qed.

(** Slots of other timers keep their keys. *)
Lemma agree_off_slot mem mem' L t i :
  tlist_ok mem L -> agree_off mem mem' L t -> 1 <= i <= tl_count L ->
  aget (tl_timers L) i <> Some (Some t) ->
  keyz mem' (tl_timers L) i = keyz mem (tl_timers L) i /\
  exists u r, aget (tl_timers L) i = Some (Some u) /\ aget mem' u = Some r.
Proof.
  intros H Ha Hi Hne. destruct (tl_live _ _ H i Hi) as (u & r & Hu & Hr).
  assert (u <> t) as Hut by congruence.
  specialize (Ha u ltac:(apply elem_of_contents; eauto) Hut).
  rewrite Hr in Ha. destruct (aget mem' u) as [r'|] eqn:Hr'; [|done]. injection Ha as Ha.
  split; [|by eauto]. rewrite !(keyz_timeout _ _ _ u) by done.
  unfold timeout_of. by rewrite Hr, Hr'.
Qed.

(** A rearranged list, once it is ordered again. *)
Lemma tlist_ok_intro mem S S' n :
  2 <= BRTOS_MAX_TIMER <= 128 -> Z.of_nat (length S) = BRTOS_MAX_TIMER -> 0 <= n < BRTOS_MAX_TIMER ->
  (forall i o, aget S i = Some o -> i < 1 \/ n < i -> o = None) ->
  NoDup (contents (mkTmrList S n)) -> rearranged mem S S' n -> ordered mem S' n ->
  tlist_ok mem (mkTmrList S' n) /\ contents (mkTmrList S' n) ≡ₚ contents (mkTmrList S n).
Proof.
  intros Hmax Hlen Hn Hz Hnd (Hp & Hl & Hout) Ho.
  pose proof (contents_Permutation S S' n n Hp) as Hc. split; [|done]. split; cbn; try done.
  - by rewrite Hp.
  - intros i o Hi Hr. rewrite Hout in Hi by lia. by eapply Hz.
  - by rewrite Hc.
Qed.

(** A timer enters a list that has room. *)
Lemma tmr_insert_spec mem L p r :
  tlist_ok mem L -> tl_count L < BRTOS_MAX_TIMER - 1 -> p ∉ contents L -> aget mem p = Some r ->
  exists L', tmr_insert mem L p = Some L' /\ tlist_ok mem L' /\
    contents L' ≡ₚ p :: contents L /\ tl_count L' = tl_count L + 1.
Proof.
  intros [Hm Hlen Hr Hl Hz Hnd Ho] Hc Hp Hmp. destruct L as [S c]. cbn in *.
  unfold tmr_insert. cbn. rewrite (proj2 (Z.ltb_lt _ _)) by lia. cbn.
  rewrite int8_small by lia.
  destruct (aget_is_Some S (c + 1)) as [o Hco]; [lia|]. rewrite Hco. cbn.
  assert (o = None) as -> by (eapply Hz; [done|lia]).
  rewrite uint8_small by lia. set (S1 := aset S (c + 1) (Some p)).
  assert (forall i, i <> c + 1 -> aget S1 i = aget S i) as Hk by (intros; by apply aget_aset_ne).
  assert (aget S1 (c + 1) = Some (Some p)) as Hnew by (by eapply aget_aset_eq).
  assert (contents (mkTmrList S1 (c + 1)) ≡ₚ p :: contents (mkTmrList S c)) as Hct
    by (by eapply contents_fill).
  assert (live_slots mem S1 (c + 1)) as Hl1.
  { intros i Hi. destruct (decide (i = c + 1)) as [->|]; [by eauto|]. rewrite Hk by done. apply Hl. lia. }
  destruct (Subir_spec mem S1 (c + 1) (c + 1)) as (S2 & -> & Hr2 & Ho2 & _); [lia|lia|done| |].
  { split.
    - intros j Hj Hne. pose proof (half_range j ltac:(lia)).
      rewrite (key_aget mem S S1 _ _ (Hk j Hne)), (key_aget mem S S1 _ _ (Hk (j / 2) ltac:(lia))).
      apply Ho. lia.
    - intros j _ Hj [-> | ->]%half_child; lia. }
  cbn. destruct (tlist_ok_intro mem S1 S2 (c + 1)) as [Hok Hct2]; [lia|unfold S1; by rewrite length_aset|lia| | |done|done|].
  - intros i o Hi Hr'. rewrite Hk in Hi by lia. eapply Hz; [done|lia].
  - rewrite Hct, NoDup_cons. done.
  - eexists. split_and!; [done|done|by rewrite Hct2|done].
Qed.

(** The first timer leaves the list; its own tick may have changed. *)
Lemma tmr_pop_spec mem mem' L t :
  tlist_ok mem L -> aget (tl_timers L) 1 = Some (Some t) -> agree_off mem mem' L t ->
  exists L1 L', tmr_remove L = Some L1 /\ tmr_settle mem' L1 = Some L' /\ tlist_ok mem' L' /\
    contents L ≡ₚ t :: contents L' /\ tl_count L' = tl_count L - 1.
Proof.
  intros H Ht Ha. pose proof H as [Hm Hlen Hr Hl Hz Hnd Ho]. destruct L as [S c]. cbn in *.
  assert (1 <= c) as Hc1.
  { destruct (decide (1 <= c)); [done|]. pose proof (Hz 1 _ Ht ltac:(lia)). done. }
  destruct (Hl c) as (x & rx & Hx & Hrx); [lia|].
  set (S0 := aset (aset S 1 (Some x)) c (Some t)). set (S1 := aset (aset S 1 (Some x)) c None).
  assert (S1 = aset S0 c None) as HS01 by (unfold S0, S1; by rewrite aset_aset).
  assert (S0 ≡ₚ S) as Hp0.
  { unfold S0, aset, aget in *. rewrite !(proj2 (Z.leb_le 0 _)) in * by lia.
    by apply Permutation_exchange. }
  assert (aget S0 c = Some (Some t)) as H0c.
  { unfold S0. destruct (aget_is_Some (aset S 1 (Some x)) c) as [y Hy]; [rewrite length_aset; lia|].
    by eapply aget_aset_eq. }
  assert (contents (mkTmrList S c) ≡ₚ t :: contents (mkTmrList S1 (c - 1))) as Hct.
  { rewrite <- (contents_Permutation S S0 c c Hp0). by eapply contents_clear. }
  assert (forall i, i <> 1 -> i <> c -> aget S1 i = aget S i) as Hk
    by (intros; unfold S1; by rewrite !aget_aset_ne).
  assert (forall i, 1 <= i <= c -> i <> 1 -> aget S i <> Some (Some t)) as Hnt.
  { intros i Hi Hne E. apply Hne. by apply (tlist_slot_inj (mkTmrList S c) t). }
  assert (2 <= c -> aget S1 1 = aget S c) as H1.
  { intros. unfold S1. rewrite aget_aset_ne by lia. rewrite Hx. by eapply aget_aset_eq. }
  assert (forall i, 2 <= i <= c - 1 -> keyz mem' S1 i = keyz mem S i) as Hkey.
  { intros i Hi. rewrite (key_aget mem' S S1 i i) by (apply Hk; lia).
    apply (agree_off_slot mem mem' (mkTmrList S c) t i); [done|done|cbn; lia|apply Hnt; lia]. }
  destruct (Descer_spec mem' S1 (c - 1)) as (S2 & Hrun & Hr2 & Ho2); [lia| | |].
  { intros i Hi. destruct (decide (i = 1)) as [->|].
    - rewrite H1 by lia.
      apply (agree_off_slot mem mem' (mkTmrList S c) t c); [done|done|cbn; lia|apply Hnt; lia].
    - rewrite Hk by lia.
      apply (agree_off_slot mem mem' (mkTmrList S c) t i); [done|done|cbn; lia|apply Hnt; lia]. }
  { split; [|lia]. intros j Hj Hne. pose proof (half_range j ltac:(lia)).
    rewrite !Hkey by lia. apply Ho. lia. }
  exists (mkTmrList S1 (c - 1)), (mkTmrList S2 (c - 1)).
  destruct (tlist_ok_intro mem' S1 S2 (c - 1)) as [Hok Hct2];
    [lia|unfold S1; by rewrite !length_aset|lia| | |done|done|].
  - intros i o Hi Hr'. destruct (decide (i = c)) as [->|].
    + unfold S1 in Hi. destruct (aget_is_Some (aset S 1 (Some x)) c) as [y Hy]; [rewrite length_aset; lia|].
      rewrite (aget_aset_eq _ _ _ _ Hy) in Hi. congruence.
    + rewrite Hk in Hi by lia. eapply Hz; [done|lia].
  - rewrite Hct, NoDup_cons in Hnd. apply Hnd.
  - split_and!; [|by unfold tmr_settle; cbn; rewrite uint8_small, Hrun by lia|done|by rewrite Hct2|done].
    unfold tmr_remove. cbn. rewrite Hx. cbn. rewrite Ht. cbn.
    assert ((c >? 0) = true) as -> by lia. by rewrite int8_small by lia.
Qed.

(** The first timer gets another tick and stays in the list. *)
Lemma tmr_settle_spec mem mem' L t r :
  tlist_ok mem L -> aget (tl_timers L) 1 = Some (Some t) -> agree_off mem mem' L t ->
  aget mem' t = Some r ->
  exists L', tmr_settle mem' L = Some L' /\ tlist_ok mem' L' /\ contents L' ≡ₚ contents L /\
    tl_count L' = tl_count L.
Proof.
  intros H Ht Ha Hmt. pose proof H as [Hm Hlen Hr Hl Hz Hnd Ho]. destruct L as [S c]. cbn in *.
  assert (forall i, 1 <= i <= c -> i <> 1 -> aget S i <> Some (Some t)) as Hnt.
  { intros i Hi Hne E. apply Hne. by apply (tlist_slot_inj (mkTmrList S c) t). }
  destruct (Descer_spec mem' S c) as (S2 & Hrun & Hr2 & Ho2); [lia| | |].
  { intros i Hi. destruct (decide (i = 1)) as [->|]; [by eauto|].
    by apply (agree_off_slot mem mem' (mkTmrList S c) t i); [..|apply Hnt]. }
  { split; [|lia]. intros j Hj Hne. pose proof (half_range j ltac:(lia)).
    assert (j / 2 <> 1) by done.
    assert (forall i, 2 <= i <= c -> keyz mem' S i = keyz mem S i) as Hkey.
    { intros i Hi. by apply (agree_off_slot mem mem' (mkTmrList S c) t i); [..|cbn; lia|apply Hnt; lia]. }
    rewrite !Hkey by lia. apply Ho. lia. }
  destruct (tlist_ok_intro mem' S S2 c) as [Hok Hct2]; [done..|].
  exists (mkTmrList S2 c). split_and!; [|done..].
  unfold tmr_settle. cbn. by rewrite uint8_small, Hrun by lia.
Qed.

(** A timer whose tick drops below every other one rises to the root. *)
Lemma Subir_to_root mem mem' L t i r :
  tlist_ok mem L -> aget (tl_timers L) i = Some (Some t) -> agree_off mem mem' L t ->
  aget mem' t = Some r -> 0 <= tmr_timeout r ->
  (forall u, u ∈ contents L -> u <> t -> tmr_timeout r < timeout_of mem u) ->
  tmr_timeout r <= timeout_of mem t ->
  exists S', Subir mem' (tl_timers L) i = Some S' /\ tlist_ok mem' (mkTmrList S' (tl_count L)) /\
    aget S' 1 = Some (Some t) /\ contents (mkTmrList S' (tl_count L)) ≡ₚ contents L.
Proof.
  intros H Ht Ha Hmt Hr0 Hmin Hle.
  assert (t ∈ contents L) as Hin by (apply elem_of_contents; eauto).
  destruct (contents_slot mem L t H Hin) as (i' & Hi & Hi').
  pose proof H as [Hm Hlen Hr Hl Hz Hnd Ho].
  assert (i' = i) as -> by (by eapply tlist_slot_inj).
  assert (forall j, 1 <= j <= tl_count L -> j <> i -> aget (tl_timers L) j <> Some (Some t)) as Hnt.
  { intros j Hj Hne E. apply Hne. by eapply tlist_slot_inj. }
  assert (forall j, 1 <= j <= tl_count L -> j <> i ->
            keyz mem' (tl_timers L) j = keyz mem (tl_timers L) j) as Hkey
    by (intros; apply (agree_off_slot mem mem' L t j); auto).
  assert (keyz mem' (tl_timers L) i = tmr_timeout r) as Hki.
  { rewrite (keyz_timeout _ _ _ t) by done. unfold timeout_of. by rewrite Hmt. }
  assert (keyz mem (tl_timers L) i = timeout_of mem t) as Hki0 by (by apply keyz_timeout).
  destruct (Subir_spec mem' (tl_timers L) i (tl_count L)) as (S' & Hrun & Hr2 & Ho2 & Hroot);
    [done|lia| | |].
  { intros j Hj. destruct (decide (j = i)) as [->|]; [by eauto|].
    apply (agree_off_slot mem mem' L t j); auto. }
  { split.
    - intros j Hj Hne. pose proof (half_range j ltac:(lia)). rewrite (Hkey j) by lia.
      specialize (Ho j Hj). destruct (decide (j / 2 = i)) as [E|].
      + rewrite E in *. lia.
      + by rewrite Hkey by lia.
    - intros j Hi2 Hj Hji. pose proof (half_range j ltac:(lia)). pose proof (half_range i ltac:(lia)).
      rewrite !Hkey by lia. pose proof (Ho j Hj) as Hx. rewrite Hji in Hx. specialize (Ho i). lia. }
  exists S'. destruct (tlist_ok_intro mem' (tl_timers L) S' (tl_count L)) as [Hok Hct]; [done..|by destruct L|done|done|].
  split_and!; [done|done| |by destruct L]. rewrite Hroot; [done|].
  intros j Hj Hne. rewrite Hki, Hkey by done. destruct (Hl j Hj) as (u & ru & Hu & _).
  rewrite (keyz_timeout _ _ _ u) by done. apply Hmin; [apply elem_of_contents; eauto|].
  intros ->. by apply (Hnt j).
Qed.
End tlist_ops.

(** The number of timers of a list is its counter. *)
Section tlist_length.
Context `{C : Config}.

Lemma filled_length (n : nat) : forall S,
  (forall i, 1 <= i <= Z.of_nat n -> exists t, aget S i = Some (Some t)) ->
  (forall i o, aget S i = Some o -> i < 1 \/ Z.of_nat n < i -> o = None) ->
  length (contents (mkTmrList S (Z.of_nat n))) = n.
Proof.
  induction n as [|n IH]; intros S Hl Hz.
  - destruct (contents (mkTmrList S (Z.of_nat 0))) as [|t ts] eqn:E; [done|]. exfalso.
    assert (t ∈ contents (mkTmrList S (Z.of_nat 0))) as [i Hi]%elem_of_contents by (rewrite E; left).
    pose proof (Hz i _ Hi ltac:(lia)). done.
  - destruct (Hl (Z.of_nat (Datatypes.S n))) as [t Ht]; [lia|].
    rewrite (contents_clear S _ _ t (Z.of_nat (Datatypes.S n)) (Z.of_nat n) Ht eq_refl), length_cons. f_equal.
    apply IH.
    + intros i Hi. destruct (Hl i) as [u Hu]; [lia|]. exists u. by rewrite aget_aset_ne by lia.
    + intros i o Hi Hr. destruct (decide (i = Z.of_nat (Datatypes.S n))) as [->|].
      * rewrite (aget_aset_eq _ _ _ _ Ht) in Hi. congruence.
      * rewrite aget_aset_ne in Hi by done. eapply Hz; [done|lia].
Qed.

Lemma contents_length mem L : tlist_ok mem L -> Z.of_nat (length (contents L)) = tl_count L.
Proof.
  intros [Hm Hlen Hr Hl Hz _ _]. destruct L as [S c]. cbn in *.
  rewrite <- (Z2Nat.id c) by lia. f_equal. apply filled_length; rewrite Z2Nat.id by lia; [|done].
  intros i Hi. destruct (Hl i Hi) as (t & _ & Ht & _). eauto.
Qed.
End tlist_length.

(** ** The list as a priority queue *)
Section drain.
Context `{C : Config}.
Implicit Types (mem : list BRTOS_TIMER_T) (L : BRTOS_TMR_T).

(** Inserting timers one after the other, and taking the first timer [n] times. *)
Fixpoint insert_all mem L (ps : list Z) : option BRTOS_TMR_T :=
  match ps with
  | [] => Some L
  | p :: ps => L ← tmr_insert mem L p; insert_all mem L ps
  end.

Fixpoint take_first mem L (n : nat) : option (list Z) :=
  match n with
  | O => Some []
  | S n =>
      o ← aget (tl_timers L) 1; t ← o;
      L ← tmr_remove L; L ← tmr_settle mem L;
      ts ← take_first mem L n; Some (t :: ts)
  end.

Lemma insert_all_spec mem ps : forall L,
  tlist_ok mem L -> NoDup (ps ++ contents L) -> Forall (fun p => is_Some (aget mem p)) ps ->
  Z.of_nat (length ps) + tl_count L < BRTOS_MAX_TIMER ->
  exists L', insert_all mem L ps = Some L' /\ tlist_ok mem L' /\ contents L' ≡ₚ ps ++ contents L.
Proof.
  induction ps as [|p ps IH]; intros L HL Hnd Hlive Hroom; cbn in *; [by eauto|].
  apply NoDup_cons in Hnd as [Hp Hnd]. apply Forall_cons in Hlive as [[r Hr] Hlive].
  rewrite not_elem_of_app in Hp.
  destruct (tmr_insert_spec mem L p r) as (L1 & E & H1 & Hp1 & Hc1); [done|lia|tauto|done|].
  rewrite E. cbn. destruct (IH L1) as (L' & -> & H' & Hp'); [done| |done|lia|].
  { rewrite Hp1, <- Permutation_middle. apply NoDup_cons. split; [|done].
    rewrite not_elem_of_app. tauto. }
  exists L'. split_and!; [done..|]. by rewrite Hp', Hp1, <- Permutation_middle.
Qed.

Lemma take_first_spec mem : forall n L,
  tlist_ok mem L -> tl_count L = Z.of_nat n ->
  exists ts, take_first mem L n = Some ts /\ ts ≡ₚ contents L /\
    StronglySorted (fun t u => timeout_of mem t <= timeout_of mem u) ts.
Proof.
  induction n as [|n IH]; intros L HL Hn; cbn.
  - exists []. split_and!; [done| |constructor]. pose proof (contents_length mem L HL).
    destruct (contents L); cbn in *; [done|lia].
  - destruct (tlist_root mem L HL) as (o & Ho & [_ [t ->]]); [lia|]. rewrite Ho. cbn.
    destruct (tmr_pop_spec mem mem L t) as (L1 & L' & -> & E & H' & Hp & Hc); [done..|].
    cbn. rewrite E. cbn. destruct (IH L' H' ltac:(lia)) as (ts & -> & Hts & Hs). cbn.
    exists (t :: ts). split_and!; [done|by rewrite Hp, Hts|]. constructor; [done|].
    apply List.Forall_forall. intros u Hu%list_elem_of_In.
    apply (tlist_root_min mem L t u HL Ho). rewrite Hp, <- Hts. by right.
Qed.

(** C15: a list of timers is a priority queue: as long as it has room, timers inserted
    into it one by one and then taken out from its root come out in the order of
    their expiry ticks, each exactly once, whatever the order of insertion; no
    access of [Subir], [Descer] and the statements around them leaves the array or
    follows a NULL pointer, and their loops end. *)
Theorem timer_heap_refines mem L ps :
  tlist_ok mem L -> NoDup (ps ++ contents L) -> Forall (fun p => is_Some (aget mem p)) ps ->
  Z.of_nat (length ps) + tl_count L < BRTOS_MAX_TIMER ->
  exists L' ts, insert_all mem L ps = Some L' /\ tlist_ok mem L' /\
    take_first mem L' (length (contents L')) = Some ts /\ ts ≡ₚ ps ++ contents L /\
    StronglySorted (fun t u => timeout_of mem t <= timeout_of mem u) ts.
Proof.
  intros HL Hnd Hlive Hroom.
  destruct (insert_all_spec mem ps L) as (L' & E & H' & Hp); [done..|].
  destruct (take_first_spec mem (length (contents L')) L') as (ts & Et & Hts & Hs);
    [done|by rewrite (contents_length mem L')|].
  exists L', ts. split_and!; [done..|by rewrite Hts, Hp|done].
Qed.
End drain.
