(* ===== verification/Timer.v ===== *)
(** * Software timers

    brtos/stimer.c: timers with a callback, kept in a list for the current turn
    of the tick counter and one for the next; the timer task that sleeps until
    the first of them expires; and the services that set, start, stop and read a
    timer.  A timer is its index in the array of timers, and a list is 0
    ([BRTOS_TMR_PING]) or 1 ([BRTOS_TMR_PONG]).  The callbacks are the
    application's: what the function at an address does is the parameter
    [callback]. *)

From Stdlib Require Import ZArith Lia.
From stdpp Require Import base gmap numbers list.
From S2P Require Import Prelude Config State Sched DelayList Hal Clock Kernel Event Sample Tasks TimerHeap.
#[local] Open Scope Z_scope.
#[local] Open Scope prog_scope.

(** stimer.h, [TIMER_STATE] *)
Definition TIMER_NOT_ALLOCATED : Z := 0.
Definition TIMER_NOT_USED : Z := 1.
Definition TIMER_STOPPED : Z := 2.
Definition TIMER_RUNNING : Z := 3.
Definition TIMER_SEARCH : Z := 4.

Section operations.
Context `{C : Config}.

Definition TIMER_MAX_COUNTER : Z := uint ostick_bits (TICK_COUNT_OVERFLOW - 1).

(** The array of timers, and assignments to the fields of one. *)
Definition timers_mem (s : OS) : list BRTOS_TIMER_T := tv_mem (BRTOS_TIMER_VECTOR s).
Definition set_timers_mem (m : list BRTOS_TIMER_T) (s : OS) : OS :=
  set_BRTOS_TIMER_VECTOR (set_tv_mem m (BRTOS_TIMER_VECTOR s)) s.
Definition Timer (p : Z) : prog BRTOS_TIMER_T := read timers_mem p.
Definition upd_Timer (p : Z) (f : BRTOS_TIMER_T -> BRTOS_TIMER_T) : prog unit :=
  r <- Timer p ;; write timers_mem set_timers_mem p (f r).

(** [list = BRTOS_TIMER_VECTOR.current] and [list = BRTOS_TIMER_VECTOR.future] *)
Definition get_current : prog Z :=
  o <- gets (fun s => tv_current (BRTOS_TIMER_VECTOR s)) ;; deref o.
Definition get_future : prog Z :=
  o <- gets (fun s => tv_future (BRTOS_TIMER_VECTOR s)) ;; deref o.

(** A statement on the list [l]. *)
Definition upd_list (l : Z) (f : list BRTOS_TIMER_T -> BRTOS_TMR_T -> option BRTOS_TMR_T)
    : prog unit :=
  m <- gets timers_mem ;;
  L <- read BRTOS_TMR l ;;
  L' <- lift (f m L) ;;
  write BRTOS_TMR set_BRTOS_TMR l L'.

(** [p = list->timers[1]] *)
Definition first_timer (l : Z) : prog (option Z) :=
  L <- read BRTOS_TMR l ;; lift (aget (tl_timers L) 1).

(** The loop of [BRTOS_TimerTaskInit]. *)
Fixpoint init_loop (n : nat) (i : Z) : prog unit :=
  match n with
  | O => ret tt
  | S n' =>
      upd_Timer i (set_tmr_state TIMER_NOT_USED) ;;;
      upd_Timer i (set_tmr_func_cb None) ;;;
      upd_Timer i (set_tmr_timeout 0) ;;;
      init_loop n' (i + 1)
  end.

(** [BRTOS_TimerTaskInit] *)
Definition BRTOS_TimerTaskInit : prog unit :=
  CPU_SR <- OSEnterCritical_started ;;
  modify (fun s => set_BRTOS_TIMER_VECTOR (set_tv_current (Some 0) (BRTOS_TIMER_VECTOR s)) s) ;;;
  modify (fun s => set_BRTOS_TIMER_VECTOR (set_tv_future (Some 1) (BRTOS_TIMER_VECTOR s)) s) ;;;
  init_loop (Z.to_nat BRTOS_MAX_TIMER) 0 ;;;
  OSExitCritical_started CPU_SR.

(** [BRTOS_TimerTaskSleep] *)
Definition BRTOS_TimerTaskSleep (next_time_to_wake : Z) : prog unit :=
  cur <- gets currentTask ;;
  upd_Task cur (set_TimeToWait next_time_to_wake) ;;;
  CPU_SR <- OSEnterCritical ;;
  (* Put task into delay list *)
  IncludeTaskIntoDelayList cur ;;;
  c <- Task cur ;;
  ready_remove (Priority c) ;;;
  (* Return to task when occur delay overflow *)
  ChangeContext ;;;
  OSExitCritical CPU_SR.

(** ** The timer task *)
Section task.
Variable callback : Z -> prog Z.

(** [p->state = TIMER_STOPPED] and the call of the callback: the value
    [repeat]. *)
Definition timer_fire (p : Z) : prog Z :=
  upd_Timer p (set_tmr_state TIMER_STOPPED) ;;;
  r <- Timer p ;;
  match tmr_func_cb r with
  | Some f => x <- callback f ;; ret (uint ostick_bits x)
  | None => ret 0
  end.

(** A timer that does not repeat is freed and leaves the list. *)
Definition timer_free (list p : Z) : prog unit :=
  upd_Timer p (set_tmr_timeout 0) ;;;
  upd_Timer p (set_tmr_state TIMER_NOT_USED) ;;;
  upd_Timer p (set_tmr_func_cb None) ;;;
  upd_list list (fun _ => tmr_remove).

(** A timer that repeats in the next turn of the counter changes list. *)
Definition timer_to_future (list p timeout : Z) : prog unit :=
  upd_Timer p (set_tmr_timeout timeout) ;;;
  list_tmp <- get_future ;;
  upd_list list_tmp (fun m L => tmr_insert m L p) ;;;
  upd_list list (fun _ => tmr_remove).

(** [Descer (list->timers, 1, list->count)] and [p = list->timers[1]] *)
Definition next_timer (list : Z) : prog (option Z) :=
  upd_list list tmr_settle ;;;
  first_timer list.

(** The body of the first [while] loop: a timer of a turn that is over.  The
    result is the new value of [timeout] and the next timer. *)
Definition late_one (list t timeout : Z) : prog (Z * option Z) :=
  repeat <- timer_fire t ;;
  CPU_SR <- OSEnterCritical ;;
  timeout <-
    (if repeat >? 0 then
       upd_Timer t (set_tmr_state TIMER_RUNNING) ;;;
       now <- OSGetTickCount ;;
       let timeout := uint osdtick_bits (now + repeat) in
       timer_to_future list t (uint ostick_bits timeout) ;;;
       ret timeout
     else
       timer_free list t ;;;
       ret timeout) ;;
  p <- next_timer list ;;
  OSExitCritical CPU_SR ;;;
  ret (timeout, p).

(** The first [while] loop. *)
Fixpoint late_loop (fuel : nat) (list : Z) (p : option Z) (timeout : Z) : prog Z :=
  match p, fuel with
  | None, _ => ret timeout
  | Some _, O => fault
  | Some t, S fuel' =>
      r <- late_one list t timeout ;;
      late_loop fuel' list (snd r) (fst r)
  end.

(** The body of the second [while] loop: a timer that has expired. *)
Definition expire_one (list t timeout : Z) : prog (Z * option Z) :=
  repeat <- timer_fire t ;;
  CPU_SR <- OSEnterCritical ;;
  timeout <-
    (if repeat >? 0 then
       upd_Timer t (set_tmr_state TIMER_RUNNING) ;;;
       now <- OSGetTickCount ;;
       let timeout := uint osdtick_bits (now + repeat) in
       (if timeout >=? TICK_COUNT_OVERFLOW then
          timer_to_future list t (uint ostick_bits (timeout - TICK_COUNT_OVERFLOW))
        else upd_Timer t (set_tmr_timeout (uint ostick_bits timeout))) ;;;
       ret timeout
     else
       timer_free list t ;;;
       ret timeout) ;;
  p <- next_timer list ;;
  OSExitCritical CPU_SR ;;;
  ret (timeout, p).

(** The second [while] loop. *)
Fixpoint expire_loop (fuel : nat) (list : Z) (p : option Z) (timeout : Z)
    : prog (option Z * Z) :=
  match p with
  | None => ret (p, timeout)
  | Some t =>
      r <- Timer t ;;
      now <- OSGetTickCount ;;
      if tmr_timeout r <=? now then
        match fuel with
        | O => fault
        | S fuel' =>
            r <- expire_one list t timeout ;;
            expire_loop fuel' list (snd r) (fst r)
        end
      else ret (p, timeout)
  end.

(** [time to switch lists] *)
Definition switch_lists : prog Z :=
  tmp <- gets (fun s => tv_current (BRTOS_TIMER_VECTOR s)) ;;
  modify (fun s => set_BRTOS_TIMER_VECTOR
            (set_tv_current (tv_future (BRTOS_TIMER_VECTOR s)) (BRTOS_TIMER_VECTOR s)) s) ;;;
  modify (fun s => set_BRTOS_TIMER_VECTOR (set_tv_future tmp (BRTOS_TIMER_VECTOR s)) s) ;;;
  get_current.

(** [next_time_to_wake]: the tick of the first timer. *)
Definition wake_time (p : option Z) : prog Z :=
  match p with
  | Some t => r <- Timer t ;; ret (tmr_timeout r)
  | None => ret TIMER_MAX_COUNTER
  end.

(** One iteration of the loop of [BRTOSTimerTask] after its sleep; [timeout] is
    the task's variable, which keeps its value between iterations.  The result
    is the tick to sleep until and the new value of [timeout].  [fuel] bounds
    the timers one loop handles. *)
Definition timer_pass (fuel : nat) (timeout : Z) : prog (Z * Z) :=
  list <- get_current ;;
  p <- first_timer list ;;
  (* a high priority task ran while the counter overflowed *)
  late <- match p with
          | None => ret false
          | Some t => r <- Timer t ;; now <- OSGetTickCount ;; ret (tmr_timeout r >? now)
          end ;;
  st <- (if late : bool then
           timeout <- late_loop fuel list p timeout ;;
           list <- switch_lists ;;
           p <- first_timer list ;;
           ret (list, p, timeout)
         else ret (list, p, timeout)) ;;
  let '(list, p, timeout) := st in
  st <- expire_loop fuel list p timeout ;;
  let '(p, timeout) := st in
  p <- (if (timeout >? TIMER_MAX_COUNTER) && bool_decide (p = None) then
          list <- switch_lists ;;
          first_timer list
        else ret p) ;;
  next_time_to_wake <- wake_time p ;;
  ret (next_time_to_wake, timeout).

(** [rounds] iterations of the endless loop. *)
Fixpoint timer_rounds (rounds fuel : nat) (next_time_to_wake timeout : Z) : prog unit :=
  match rounds with
  | O => ret tt
  | S rounds' =>
      BRTOS_TimerTaskSleep next_time_to_wake ;;;
      r <- timer_pass fuel timeout ;;
      timer_rounds rounds' fuel (fst r) (snd r)
  end.

(** [BRTOSTimerTask] *)
Definition BRTOSTimerTask (rounds fuel : nat) : prog unit :=
  cur <- gets currentTask ;;
  modify (fun s => set_BRTOS_TIMER_VECTOR (set_tv_handling_task cur (BRTOS_TIMER_VECTOR s)) s) ;;;
  list <- get_current ;;
  p <- first_timer list ;;
  next_time_to_wake <- wake_time p ;;
  timer_rounds rounds fuel next_time_to_wake 0.
End task.

(** ** Services *)

(** [OSTimerInit]; [task_addr] is the address of [BRTOSTimerTask] and [name]
    that of its name.  When the task cannot be installed the function does not
    return. *)
Definition OSTimerInit (task_addr name timertask_stacksize prio : Z) : prog unit :=
  BRTOS_TimerTaskInit ;;;
  r <- OSInstallTask task_addr name timertask_stacksize prio 0 ;;
  when (negb (fst r =? OK)) fault.

(** The loop of [OSTimerSet]: the first timer that is not used, or the code of
    an error. *)
Fixpoint search_timer (fuel : nat) (i : Z) : prog (Z + Z) :=
  match fuel with
  | O => fault
  | S fuel' =>
      if i >=? BRTOS_MAX_TIMER then ret (inl NO_AVAILABLE_EVENT)
      else
        r <- Timer i ;;
        if tmr_state r =? TIMER_NOT_ALLOCATED then ret (inl ERR_EVENT_NO_CREATED)
        else if tmr_state r =? TIMER_NOT_USED then ret (inr i)
        else search_timer fuel' (i + 1)
  end.

(** From [timeout = ...] to [p->state = TIMER_RUNNING]: timer [p] enters the
    list of the turn in which it expires. *)
Definition timer_arm (p time_wait : Z) : prog unit :=
  now <- OSGetCount ;;
  let timeout := uint osdtick_bits (now + time_wait) in
  (if timeout >=? TICK_COUNT_OVERFLOW then
     upd_Timer p (set_tmr_timeout (uint ostick_bits (timeout - TICK_COUNT_OVERFLOW))) ;;;
     list <- get_future ;;
     upd_list list (fun m L => tmr_insert m L p)
   else
     upd_Timer p (set_tmr_timeout (uint ostick_bits timeout)) ;;;
     list <- get_current ;;
     upd_list list (fun m L => tmr_insert m L p) ;;;
     (* may need to change wake time of timer task *)
     cur <- gets currentTask ;;
     when (truthy cur)
       (r <- Timer p ;;
        o <- first_timer list ;;
        q <- deref o ;;
        r1 <- Timer q ;;
        when (tmr_timeout r =? tmr_timeout r1)
          (h <- gets (fun s => tv_handling_task (BRTOS_TIMER_VECTOR s)) ;;
           upd_Task h (set_TimeToWait (tmr_timeout r))))) ;;;
  upd_Timer p (set_tmr_state TIMER_RUNNING).

(** [OSTimerSet]: [cbp] is [None] for a NULL pointer, else the variable it
    points to; the result holds its new value. *)
Definition OSTimerSet (cbp : option (option Z)) (cb : option Z) (time_wait : Z)
    : prog (Z * option (option Z)) :=
  match cb, cbp with
  | Some _, Some _ =>
      CPU_SR <- OSEnterCritical_started ;;
      f <- search_timer (Z.to_nat (BRTOS_MAX_TIMER + 1)) 0 ;;
      match f with
      | inl code =>
          OSExitCritical_started CPU_SR ;;;
          ret (code, cbp)
      | inr p =>
          upd_Timer p (set_tmr_state TIMER_STOPPED) ;;;
          upd_Timer p (set_tmr_func_cb cb) ;;;
          when (time_wait >? 0) (timer_arm p time_wait) ;;;
          OSExitCritical_started CPU_SR ;;;
          ret (OK, Some (Some p))
      end
  | _, _ => ret (NULL_EVENT_POINTER, cbp)
  end.

(** [OSTimerGet] *)
Definition OSTimerGet (p : option Z) : prog Z :=
  match p with
  | None => ret 0
  | Some t =>
      r <- Timer t ;;
      if tmr_state r =? TIMER_RUNNING then
        CPU_SR <- OSEnterCritical_started ;;
        tickcount <- OSGetCount ;;
        r <- Timer t ;;
        let timeout :=
          if tmr_timeout r >=? tickcount then uint ostick_bits (tmr_timeout r - tickcount)
          else uint ostick_bits (TIMER_MAX_COUNTER - tickcount + tmr_timeout r + 1) in
        OSExitCritical_started CPU_SR ;;;
        ret timeout
      else ret 0
  end.

(** [OSTimerStart] *)
Definition OSTimerStart (p : option Z) (time_wait : Z) : prog Z :=
  match p with
  | Some t =>
      if negb (time_wait =? 0) then
        let time_wait := if time_wait >? TIMER_MAX_COUNTER then TIMER_MAX_COUNTER
                         else time_wait in
        CPU_SR <- OSEnterCritical_started ;;
        when (time_wait >? 0) (timer_arm t time_wait) ;;;
        OSExitCritical_started CPU_SR ;;;
        ret OK
      else ret NULL_EVENT_POINTER
  | None => ret NULL_EVENT_POINTER
  end.

(** The loop of [OSTimerStop] over the slots of a list: the first one whose
    timer is in the state TIMER_SEARCH, [count + 1] if there is none. *)
Fixpoint search_slot (fuel : nat) (list pos_timer : Z) : prog Z :=
  match fuel with
  | O => fault
  | S fuel' =>
      L <- read BRTOS_TMR list ;;
      if pos_timer <=? tl_count L then
        o <- lift (aget (tl_timers L) pos_timer) ;;
        t <- deref o ;;
        r <- Timer t ;;
        if tmr_state r =? TIMER_SEARCH then ret pos_timer
        else search_slot fuel' list (uint8 (pos_timer + 1))
      else ret pos_timer
  end.

(** [OSTimerStop] *)
Definition OSTimerStop (p : option Z) (del : Z) : prog Z :=
  match p with
  | None => ret NULL_EVENT_POINTER
  | Some t =>
      CPU_SR <- OSEnterCritical_started ;;
      r <- Timer t ;;
      now <- OSGetCount ;;
      list <- (if tmr_timeout r >=? now then get_current else get_future) ;;
      (* search timer index *)
      upd_Timer t (set_tmr_state TIMER_SEARCH) ;;;
      pos_timer <- search_slot 256 list 1 ;;
      upd_Timer t (set_tmr_timeout 0) ;;;
      upd_list list (fun m L => match Subir m (tl_timers L) pos_timer with
                                | Some ts => Some (set_tl_timers ts L)
                                | None => None
                                end) ;;;
      upd_list list (fun _ => tmr_remove) ;;;
      upd_list list tmr_settle ;;;
      (if del >? 0 then
         upd_Timer t (set_tmr_state TIMER_NOT_USED) ;;;
         upd_Timer t (set_tmr_func_cb None)
       else upd_Timer t (set_tmr_state TIMER_STOPPED)) ;;;
      OSExitCritical_started CPU_SR ;;;
      ret OK
  end.
End operations.

(** ** Running the services

    The state with the timers [m] and the lists [Ls] in the place of its own. *)
Section running.
Context `{C : Config}.
Implicit Types (s : OS) (m : list BRTOS_TIMER_T) (Ls : list BRTOS_TMR_T) (t p l : Z).

Definition put_timers m Ls s : OS := set_BRTOS_TMR Ls (set_timers_mem m s).

Lemma put_timers_id s : put_timers (timers_mem s) (BRTOS_TMR s) s = s.
Proof. destruct s. unfold put_timers, set_timers_mem, timers_mem. cbn. by destruct BRTOS_TIMER_VECTOR. Qed.

Lemma put_timers_put m Ls m' Ls' s :
  put_timers m Ls (put_timers m' Ls' s) = put_timers m Ls s.
Proof. done. Qed.

Lemma put_timers_mem m Ls s : timers_mem (put_timers m Ls s) = m.
Proof. done. Qed.

Lemma put_timers_lists m Ls s : BRTOS_TMR (put_timers m Ls s) = Ls.
Proof. done. Qed.

(** Everything but the array of timers and the lists. *)
Lemma put_timers_frame m Ls s :
  currentTask (put_timers m Ls s) = currentTask s /\
  OSTickCounter (put_timers m Ls s) = OSTickCounter s /\
  ContextTask (put_timers m Ls s) = ContextTask s /\
  PRIMASK (put_timers m Ls s) = PRIMASK s /\
  tv_current (BRTOS_TIMER_VECTOR (put_timers m Ls s)) = tv_current (BRTOS_TIMER_VECTOR s) /\
  tv_future (BRTOS_TIMER_VECTOR (put_timers m Ls s)) = tv_future (BRTOS_TIMER_VECTOR s) /\
  tv_handling_task (BRTOS_TIMER_VECTOR (put_timers m Ls s)) = tv_handling_task (BRTOS_TIMER_VECTOR s).
Proof. done. Qed.

Lemma Timer_put m Ls s t r : aget m t = Some r -> Timer t (put_timers m Ls s) = Done r (put_timers m Ls s).
Proof. intros H. unfold Timer. apply read_Some. done. Qed.

Lemma upd_Timer_put m Ls s t r f :
  aget m t = Some r -> upd_Timer t f (put_timers m Ls s) = Done tt (put_timers (aset m t (f r)) Ls s).
Proof.
  intros H. unfold upd_Timer. rewrite (bind_Done _ _ _ _ _ (Timer_put m Ls s t r H)).
  cbn. by rewrite H.
Qed.

Lemma upd_list_put m Ls s l f L L' :
  aget Ls l = Some L -> f m L = Some L' ->
  upd_list l f (put_timers m Ls s) = Done tt (put_timers m (aset Ls l L') s).
Proof. intros HL Hf. unfold upd_list. cbn. rewrite HL. cbn. rewrite Hf. cbn. by rewrite HL. Qed.

Lemma upd_list_fault m Ls s l f L :
  aget Ls l = Some L -> f m L = None -> upd_list l f (put_timers m Ls s) = Fault.
Proof. intros HL Hf. unfold upd_list. cbn. rewrite HL. cbn. by rewrite Hf. Qed.

Lemma first_timer_put m Ls s l L o :
  aget Ls l = Some L -> aget (tl_timers L) 1 = Some o ->
  first_timer l (put_timers m Ls s) = Done o (put_timers m Ls s).
Proof. intros HL Ho. unfold first_timer. cbn. rewrite HL. cbn. by rewrite Ho. Qed.

Lemma get_current_put m Ls s l :
  tv_current (BRTOS_TIMER_VECTOR s) = Some l -> get_current (put_timers m Ls s) = Done l (put_timers m Ls s).
Proof. intros H. unfold get_current. cbn. by rewrite H. Qed.

Lemma get_future_put m Ls s l :
  tv_future (BRTOS_TIMER_VECTOR s) = Some l -> get_future (put_timers m Ls s) = Done l (put_timers m Ls s).
Proof. intros H. unfold get_future. cbn. by rewrite H. Qed.

Lemma upd_Task_put m Ls s h f c :
  aget (ContextTask s) h = Some c ->
  upd_Task h f (put_timers m Ls s) =
  Done tt (put_timers m Ls (set_ContextTask (aset (ContextTask s) h (f c)) s)).
Proof. intros H. cbn. by rewrite H. Qed.
End running.

Arguments put_timers : simpl never.
Arguments Timer : simpl never.
Arguments upd_Timer : simpl never.
Arguments upd_list : simpl never.
Arguments first_timer : simpl never.
Arguments get_current : simpl never.
Arguments get_future : simpl never.
