(* ===== verification/TimerSpec.v ===== *)
(** * What the timer services promise

    The invariant [timers_at] of the array of timers and the two lists of
    brtos/stimer.c, and the effect of setting, starting, stopping and reading a
    timer on it. *)

From Stdlib Require Import ZArith Lia.
From stdpp Require Import base gmap numbers list.
From S2P Require Import Prelude Config State Sched DelayList Hal Clock Kernel Event Sample Tasks TimerHeap Timer.
#[local] Open Scope Z_scope.
#[local] Open Scope prog_scope.

Section invariant.
Context `{C : Config}.
Implicit Types (s : OS) (m : list BRTOS_TIMER_T) (L Lc Lf : BRTOS_TMR_T) (t p lc lf w : Z).

(** Of the timers [m], those running are in the list [Lc] of the current turn
    of the counter or in the list [Lf] of the next one, each in one slot; both
    lists are heaps, and every tick is below [B]. *)
Record timers_below (B : Z) m Lc Lf : Prop := {
  tr_cok : tlist_ok m Lc;
  tr_fok : tlist_ok m Lf;
  tr_nodup : NoDup (contents Lc ++ contents Lf);
  tr_length : Z.of_nat (length m) = BRTOS_MAX_TIMER;
  tr_running : forall t r, aget m t = Some r ->
    (tmr_state r = TIMER_RUNNING <-> t ∈ contents Lc ++ contents Lf);
  tr_ticks : forall t r, aget m t = Some r -> 0 <= tmr_timeout r < B;
}.

(** The ticks of a turn of the counter are below its end. *)
Definition timers_rep m Lc Lf : Prop := timers_below TICK_COUNT_OVERFLOW m Lc Lf.

(** The timers of [s], whose lists are number [lc] and [lf]. *)
Record timers_at_below (B : Z) (s : OS) lc lf Lc Lf : Prop := {
  ta_current : tv_current (BRTOS_TIMER_VECTOR s) = Some lc;
  ta_future : tv_future (BRTOS_TIMER_VECTOR s) = Some lf;
  ta_ne : lc <> lf;
  ta_Lc : aget (BRTOS_TMR s) lc = Some Lc;
  ta_Lf : aget (BRTOS_TMR s) lf = Some Lf;
  ta_rep : timers_below B (timers_mem s) Lc Lf;
}.
Definition timers_at s lc lf Lc Lf : Prop := timers_at_below TICK_COUNT_OVERFLOW s lc lf Lc Lf.

(** A timer changes, and enters or leaves a list. *)
Lemma timers_below_update B m p r' Lc Lf Lc' Lf' :
  timers_below B m Lc Lf -> tlist_ok (aset m p r') Lc' -> tlist_ok (aset m p r') Lf' ->
  NoDup (contents Lc' ++ contents Lf') ->
  (forall t, t <> p -> t ∈ contents Lc' ++ contents Lf' <-> t ∈ contents Lc ++ contents Lf) ->
  (tmr_state r' = TIMER_RUNNING <-> p ∈ contents Lc' ++ contents Lf') ->
  0 <= tmr_timeout r' < B ->
  timers_below B (aset m p r') Lc' Lf'.
Proof.
  intros [_ _ _ Hlen Hrun Htk] Hc Hf Hnd Hin Hp Hr. split; [done..|by rewrite length_aset| |];
    intros t r Ht; rewrite aget_aset in Ht; case_decide as Hd;
    [destruct Hd as [-> _]; by injection Ht as <-| |destruct Hd as [-> _]; by injection Ht as <-|by eapply Htk].
  destruct (decide (t = p)) as [->|Hne].
  - exfalso. apply Hd. split; [done|]. by eapply aget_lt.
  - rewrite Hin by done. by eapply Hrun.
Qed.

Lemma timers_below_mono B B' m Lc Lf :
  B <= B' -> timers_below B m Lc Lf -> timers_below B' m Lc Lf.
Proof. intros HB [? ? ? ? ? Htk]. split; try done. intros t r Ht. specialize (Htk t r Ht). lia. Qed.

(** The lists in the other order. *)
Lemma timers_below_swap B m Lc Lf : timers_below B m Lc Lf -> timers_below B m Lf Lc.
Proof.
  intros [? ? Hnd ? Hrun ?]. split; try done; [by rewrite Permutation_app_comm|].
  intros u r Hu. rewrite (Hrun u r Hu), !elem_of_app. tauto.
Qed.

(** The lists only depend on the ticks. *)
Lemma tlist_ok_aset m p r' L :
  tlist_ok m L -> p ∉ contents L -> tlist_ok (aset m p r') L.
Proof.
  intros H Hp. eapply tlist_ok_mem; [done|]. intros t Ht.
  rewrite aget_aset_ne; [done|]. by intros ->.
Qed.

Lemma tlist_ok_same_tick m p r r' L :
  tlist_ok m L -> aget m p = Some r -> tmr_timeout r' = tmr_timeout r -> tlist_ok (aset m p r') L.
Proof.
  intros H Hr Hk. eapply tlist_ok_mem; [done|]. intros t Ht.
  destruct (decide (p = t)) as [->|]; [|by rewrite aget_aset_ne].
  rewrite (aget_aset_eq _ _ _ _ Hr), Hr. cbn. by rewrite Hk.
Qed.

Lemma timers_at_put s lc lf Lc Lf m Ls Lc' Lf' s' :
  timers_at s lc lf Lc Lf -> BRTOS_TIMER_VECTOR s' = BRTOS_TIMER_VECTOR s ->
  aget Ls lc = Some Lc' -> aget Ls lf = Some Lf' -> timers_rep m Lc' Lf' ->
  timers_at (put_timers m Ls s') lc lf Lc' Lf'.
Proof.
  intros [Hc Hf Hne _ _ _] Hv HLc HLf Hrep. split; try done.
  - unfold put_timers, set_timers_mem. cbn. by rewrite Hv.
  - unfold put_timers, set_timers_mem. cbn. by rewrite Hv.
Qed.

(** The tick on which a wait of [w] ticks started now ends. *)
Definition expiry (s : OS) (w : Z) : Z := (OSTickCounter s + w) mod TICK_COUNT_OVERFLOW.

Lemma expiry_cases s w :
  ostick_bits < 64 -> 0 <= OSTickCounter s < TICK_COUNT_OVERFLOW -> 0 < w < TICK_COUNT_OVERFLOW ->
  uint osdtick_bits (OSTickCounter s + w) = OSTickCounter s + w /\
  (OSTickCounter s + w < TICK_COUNT_OVERFLOW -> expiry s w = OSTickCounter s + w /\
     uint ostick_bits (OSTickCounter s + w) = expiry s w) /\
  (TICK_COUNT_OVERFLOW <= OSTickCounter s + w ->
     expiry s w = OSTickCounter s + w - TICK_COUNT_OVERFLOW /\
     uint ostick_bits (OSTickCounter s + w - TICK_COUNT_OVERFLOW) = expiry s w) /\
  0 <= expiry s w < TICK_COUNT_OVERFLOW.
Proof.
  intros Hb Hn Hw. pose proof TICK_COUNT_OVERFLOW_eq as Ho.
  assert (0 <= expiry s w < TICK_COUNT_OVERFLOW) as Hr by (apply Z.mod_pos_bound; lia).
  split_and!; [| | |lia|lia].
  - apply uint_small. destruct tick_bits_ok as [[= H1 H2]|[[= H1 H2]|[= H1 H2]]]; rewrite H1 in *; rewrite H2; lia.
  - intros Hlt. assert (expiry s w = OSTickCounter s + w) as E by (apply Z.mod_small; lia).
    split; [done|]. rewrite E. apply uint_small. lia.
  - intros Hge. assert (expiry s w = OSTickCounter s + w - TICK_COUNT_OVERFLOW) as E.
    { unfold expiry. rewrite <- (Z.mod_small (OSTickCounter s + w - TICK_COUNT_OVERFLOW) TICK_COUNT_OVERFLOW) by lia.
      rewrite <- (Z.mod_add (OSTickCounter s + w - TICK_COUNT_OVERFLOW) 1) by lia. f_equal. lia. }
    split; [done|]. rewrite E. apply uint_small. lia.
Qed.
End invariant.

(** One statement on the timers, executed symbolically. *)
Ltac tstep_with p K s tac := erewrite (bind_Done p K s); [|tac]; cbv beta.
Ltac tstep :=
  match goal with
  | |- context [@bind ?C ?A ?B ?p ?K ?s] =>
      lazymatch p with
      | Timer _ => tstep_with p K s ltac:(eapply Timer_put; eassumption)
      | upd_Timer _ _ => tstep_with p K s ltac:(eapply upd_Timer_put; eassumption)
      | upd_list _ _ => tstep_with p K s ltac:(eapply upd_list_put; eassumption)
      | first_timer _ => tstep_with p K s ltac:(eapply first_timer_put; eassumption)
      | @get_current _ => tstep_with p K s ltac:(eapply get_current_put; eassumption)
      | @get_future _ => tstep_with p K s ltac:(eapply get_future_put; eassumption)
      | gets ?f => change (bind p K s) with (K (f s) s); cbv beta
      | @OSGetCount _ => change (bind p K s) with (K (OSTickCounter s) s); cbv beta
      | deref (Some ?x) => change (bind p K s) with (K x s); cbv beta
      end
  | |- context [OSTickCounter (put_timers ?m ?Ls ?s)] =>
      change (OSTickCounter (put_timers m Ls s)) with (OSTickCounter s)
  | |- context [currentTask (put_timers ?m ?Ls ?s)] =>
      change (currentTask (put_timers m Ls s)) with (currentTask s)
  | |- context [tv_handling_task (BRTOS_TIMER_VECTOR (put_timers ?m ?Ls ?s))] =>
      change (tv_handling_task (BRTOS_TIMER_VECTOR (put_timers m Ls s)))
        with (tv_handling_task (BRTOS_TIMER_VECTOR s))
  end.

(** ** Setting and starting a timer *)
Section arming.
Context `{C : Config}.
Implicit Types (s : OS) (m : list BRTOS_TIMER_T) (L Lc Lf : BRTOS_TMR_T) (t p lc lf w : Z).

(** A timer that expires on tick [k] would be the first of the list [L]. *)
Definition first_to_expire m L (k : Z) : bool :=
  bool_decide (Forall (fun t => k <= timeout_of m t) (contents L)).

(** [s'] is [s] after the timer [p], with callback [cb], was started for [w]
    ticks: it is in the list of the turn in which it expires, and the timer
    task's wake-up time is moved when it has become the first. *)
Record armed_timer (s s' : OS) p (cb : option Z) w Lc Lf Lc' Lf' : Prop := {
  at_frame : s' = put_timers (timers_mem s') (BRTOS_TMR s') (set_ContextTask (ContextTask s') s);
  at_mem : timers_mem s' = aset (timers_mem s) p (mkTimer cb (expiry s w) TIMER_RUNNING);
  at_lists : if OSTickCounter s + w <? TICK_COUNT_OVERFLOW
             then contents Lc' ≡ₚ p :: contents Lc /\ Lf' = Lf
             else Lc' = Lc /\ contents Lf' ≡ₚ p :: contents Lf;
  at_wake : forall c, aget (ContextTask s) (tv_handling_task (BRTOS_TIMER_VECTOR s)) = Some c ->
    ContextTask s' =
    if (OSTickCounter s + w <? TICK_COUNT_OVERFLOW) && truthy (currentTask s) &&
       first_to_expire (timers_mem s) Lc (expiry s w)
    then aset (ContextTask s) (tv_handling_task (BRTOS_TIMER_VECTOR s)) (set_TimeToWait (expiry s w) c)
    else ContextTask s;
}.

(** Inserting a stopped timer, once its tick is set. *)
Lemma insert_stopped m L p r tick :
  tlist_ok m L -> tl_count L < BRTOS_MAX_TIMER - 1 -> p ∉ contents L -> aget m p = Some r ->
  exists L', tmr_insert (aset m p (set_tmr_timeout tick r)) L p = Some L' /\
    tlist_ok (aset m p (set_tmr_timeout tick r)) L' /\
    tlist_ok (aset m p (mkTimer (tmr_func_cb r) tick TIMER_RUNNING)) L' /\
    contents L' ≡ₚ p :: contents L.
Proof.
  intros HL Hroom Hp Hr.
  destruct (tmr_insert_spec (aset m p (set_tmr_timeout tick r)) L p (set_tmr_timeout tick r))
    as (L' & Hi & Hok & Hct & _); [by apply tlist_ok_aset|done|done|by eapply aget_aset_eq|].
  exists L'. split_and!; [done|done| |done].
  rewrite <- (aset_aset m p (set_tmr_timeout tick r)).
  eapply tlist_ok_same_tick; [done|by eapply aget_aset_eq|done].
Qed.

(** The comparison that decides whether the timer task must wake earlier. *)
Lemma root_is_first m L L' p r tick q rq :
  p ∉ contents L -> aget m p = Some r ->
  tlist_ok (aset m p (set_tmr_timeout tick r)) L' -> contents L' ≡ₚ p :: contents L ->
  aget (tl_timers L') 1 = Some (Some q) ->
  aget (aset m p (set_tmr_timeout tick r)) q = Some rq ->
  (tick =? tmr_timeout rq) = first_to_expire m L tick.
Proof.
  intros Hp Hr Hok Hct Hq Hrq. set (m1 := aset m p (set_tmr_timeout tick r)) in *.
  assert (timeout_of m1 q = tmr_timeout rq) as Eq by (unfold timeout_of; by rewrite Hrq).
  assert (timeout_of m1 p = tick) as Ep.
  { unfold timeout_of, m1. by rewrite (aget_aset_eq _ _ _ _ Hr). }
  assert (forall t, t ∈ contents L -> timeout_of m1 t = timeout_of m t) as Et.
  { intros t Ht. unfold timeout_of, m1. rewrite aget_aset_ne; [done|]. by intros ->. }
  assert (q ∈ p :: contents L) as Hin by (rewrite <- Hct; apply elem_of_contents; eauto).
  pose proof (tlist_root_min m1 L' q p Hok Hq) as Hmin. rewrite Hct in Hmin.
  specialize (Hmin ltac:(left)). rewrite Ep, Eq in Hmin.
  unfold first_to_expire. case_bool_decide as Hd.
  - apply Z.eqb_eq. rewrite Forall_forall in Hd.
    apply elem_of_cons in Hin as [->|Hin]; [congruence|].
    specialize (Hd q). rewrite <- Et in Hd by done. specialize (Hd Hin). lia.
  - apply Z.eqb_neq. intros E. apply Hd, Forall_forall. intros t Ht. rewrite <- Et by done.
    rewrite E, <- Eq. apply (tlist_root_min m1 L'); [done|done|]. rewrite Hct. by right.
Qed.

(** A timer that is not running is in no list. *)
Lemma stopped_not_listed s lc lf Lc Lf p r :
  timers_at s lc lf Lc Lf -> aget (timers_mem s) p = Some r -> tmr_state r <> TIMER_RUNNING ->
  p ∉ contents Lc /\ p ∉ contents Lf.
Proof.
  intros [_ _ _ _ _ Hrep] Hr Hst.
  assert (p ∉ contents Lc ++ contents Lf) as Hnp
    by (intros Hin; by apply (tr_running _ _ _ _ Hrep p r Hr) in Hin).
  rewrite elem_of_app in Hnp. tauto.
Qed.

(** The two cases of [timer_arm], on the state with the timers [m] and the
    lists [Ls]. *)
Section cases.
Variables (s : OS) (lc lf : Z) (Lc Lf : BRTOS_TMR_T) (p w : Z) (r : BRTOS_TIMER_T) (c : ContextType).
Let m := timers_mem s.
Let Ls := BRTOS_TMR s.
Let h := tv_handling_task (BRTOS_TIMER_VECTOR s).
Let m1 := aset m p (set_tmr_timeout (expiry s w) r).
Let m2 := aset m p (mkTimer (tmr_func_cb r) (expiry s w) TIMER_RUNNING).
Hypotheses (Hat : timers_at s lc lf Lc Lf) (Hr : aget m p = Some r)
  (Hst : tmr_state r <> TIMER_RUNNING) (Hb : ostick_bits < 64)
  (Hn : 0 <= OSTickCounter s < TICK_COUNT_OVERFLOW) (Hw : 0 < w < TICK_COUNT_OVERFLOW)
  (Hc : aget (ContextTask s) h = Some c).

Lemma arm_tick_set : aget m1 p = Some (set_tmr_timeout (expiry s w) r).
Proof. by eapply aget_aset_eq. Qed.

Lemma arm_state Ls' s1 :
  upd_Timer p (set_tmr_state TIMER_RUNNING) (put_timers m1 Ls' s1) = Done tt (put_timers m2 Ls' s1).
Proof.
  rewrite (upd_Timer_put m1 Ls' s1 p _ _ arm_tick_set). unfold m1, m2. by rewrite aset_aset.
Qed.

Lemma timer_arm_this_turn :
  OSTickCounter s + w < TICK_COUNT_OVERFLOW -> tl_count Lc < BRTOS_MAX_TIMER - 1 ->
  exists L', contents L' ≡ₚ p :: contents Lc /\ tlist_ok m2 L' /\
    timer_arm p w s = Done tt (put_timers m2 (aset Ls lc L')
      (set_ContextTask (if truthy (currentTask s) && first_to_expire m Lc (expiry s w)
                        then aset (ContextTask s) h (set_TimeToWait (expiry s w) c)
                        else ContextTask s) s)).
Proof.
  intros Hturn Hroom. pose proof Hat as [Hcur Hfut Hne HLc HLf [Hcok _ _ _ _ _]].
  destruct (expiry_cases s w Hb Hn Hw) as (Hd & Hlo & _ & _). destruct (stopped_not_listed s lc lf Lc Lf p r Hat Hr Hst) as [Hnc _].
  destruct (insert_stopped m Lc p r (expiry s w)) as (L' & Hi & Hok1 & Hok2 & Hct); [done..|].
  exists L'. split_and!; [done|done|].
  pose proof arm_tick_set as Hp1. pose proof arm_state as Hrest.
  assert (timer_arm p w s = timer_arm p w (put_timers m Ls s)) as ->
    by (unfold m, Ls; by rewrite put_timers_id).
  unfold timer_arm. do 2 tstep.
  rewrite Hd, Z.geb_leb, (proj2 (Z.leb_gt _ _)) by lia. destruct (Hlo Hturn) as [_ ->].
  fold m1 in Hi, Hok1. set (Ls' := aset Ls lc L').
  assert (aget Ls' lc = Some L') as HL' by (by eapply aget_aset_eq).
  assert (exists q, aget (tl_timers L') 1 = Some (Some q)) as [q Hq].
  { destruct (tlist_root m1 L' Hok1) as ([q|] & Ho & _); [by eauto|].
    destruct (tlist_root_null m1 L' Hok1 Ho) as [_ E]. rewrite E in Hct.
    by apply Permutation_nil_cons in Hct. }
  destruct (tlist_root_live m1 L' q Hok1 Hq) as (rq & Hrq & _).
  pose proof (root_is_first m Lc L' p r (expiry s w) q rq Hnc Hr Hok1 Hct Hq Hrq) as Hfirst.
  unfold bind at 1. tstep. fold m1. tstep. tstep. fold Ls'. do 2 tstep. unfold when at 1.
  destruct (truthy (currentTask s)); cbn [andb rbind]; [|rewrite Hrest; by destruct s].
  do 4 tstep. unfold when. cbn [tmr_timeout set_tmr_timeout]. rewrite Hfirst.
  destruct (first_to_expire m Lc (expiry s w)); cbn [rbind]; [|rewrite Hrest; by destruct s].
  do 2 tstep. fold h. rewrite (upd_Task_put _ _ _ _ _ c Hc). cbn [rbind]. apply Hrest.
Qed.

Lemma timer_arm_next_turn :
  TICK_COUNT_OVERFLOW <= OSTickCounter s + w -> tl_count Lf < BRTOS_MAX_TIMER - 1 ->
  exists L', contents L' ≡ₚ p :: contents Lf /\ tlist_ok m2 L' /\
    timer_arm p w s = Done tt (put_timers m2 (aset Ls lf L') s).
Proof.
  intros Hturn Hroom. pose proof Hat as [Hcur Hfut Hne HLc HLf [_ Hfok _ _ _ _]].
  destruct (expiry_cases s w Hb Hn Hw) as (Hd & _ & Hhi & _). destruct (stopped_not_listed s lc lf Lc Lf p r Hat Hr Hst) as [_ Hnf].
  destruct (insert_stopped m Lf p r (expiry s w)) as (L' & Hi & Hok1 & Hok2 & Hct); [done..|].
  exists L'. split_and!; [done|done|].
  assert (timer_arm p w s = timer_arm p w (put_timers m Ls s)) as ->
    by (unfold m, Ls; by rewrite put_timers_id).
  unfold timer_arm. do 2 tstep.
  rewrite Hd, Z.geb_leb, (proj2 (Z.leb_le _ _)) by lia. destruct (Hhi Hturn) as [_ ->].
  unfold bind at 1. do 2 tstep. erewrite upd_list_put; [|done|done]. cbn [rbind]. apply arm_state.
Qed.

Lemma timers_rep_armed Lc' Lf' :
  tlist_ok m2 Lc' -> tlist_ok m2 Lf' ->
  contents Lc' ++ contents Lf' ≡ₚ p :: (contents Lc ++ contents Lf) -> timers_rep m2 Lc' Lf'.
Proof.
  intros Hc' Hf' Hp. pose proof Hat as [_ _ _ _ _ Hrep]. pose proof Hrep as [_ _ Hnd _ _ _].
  destruct (stopped_not_listed s lc lf Lc Lf p r Hat Hr Hst) as [Hnc Hnf]. destruct (expiry_cases s w Hb Hn Hw) as (_ & _ & _ & Hrange).
  unfold m2. eapply timers_below_update; [done|done|done| | | |done].
  - rewrite Hp, NoDup_cons, elem_of_app. tauto.
  - intros t Ht. rewrite Hp, elem_of_cons. tauto.
  - rewrite Hp, elem_of_cons. tauto.
Qed.
End cases.

Lemma timer_arm_lemma s lc lf Lc Lf p r w :
  timers_at s lc lf Lc Lf -> aget (timers_mem s) p = Some r -> tmr_state r <> TIMER_RUNNING ->
  ostick_bits < 64 -> 0 <= OSTickCounter s < TICK_COUNT_OVERFLOW -> 0 < w < TICK_COUNT_OVERFLOW ->
  is_Some (aget (ContextTask s) (tv_handling_task (BRTOS_TIMER_VECTOR s))) ->
  tl_count (if OSTickCounter s + w <? TICK_COUNT_OVERFLOW then Lc else Lf) < BRTOS_MAX_TIMER - 1 ->
  exists s' Lc' Lf', timer_arm p w s = Done tt s' /\ timers_at s' lc lf Lc' Lf' /\
    armed_timer s s' p (tmr_func_cb r) w Lc Lf Lc' Lf'.
Proof.
  intros Hat Hr Hst Hb Hn Hw [c Hc] Hroom. pose proof Hat as [_ _ Hne HLc HLf [Hcok Hfok _ _ _ _]].
  destruct (stopped_not_listed s lc lf Lc Lf p r Hat Hr Hst) as [Hnc Hnf].
  destruct (OSTickCounter s + w <? TICK_COUNT_OVERFLOW) eqn:Hturn.
  - destruct (timer_arm_this_turn s lc lf Lc Lf p w r c) as (L' & Hct & Hok & Hrun); try done.
    { by apply Z.ltb_lt. }
    eexists _, L', Lf. split_and!; [exact Hrun| |].
    + eapply timers_at_put; [exact Hat|done|by eapply aget_aset_eq|by rewrite aget_aset_ne|].
      eapply timers_rep_armed; [done..|by apply tlist_ok_aset|by rewrite Hct].
    + split; [done|done|by rewrite Hturn|].
      intros c' Hc'. rewrite Hc in Hc'. injection Hc' as <-. by rewrite Hturn.
  - destruct (timer_arm_next_turn s lc lf Lc Lf p w r) as (L' & Hct & Hok & Hrun); try done.
    { by apply Z.ltb_ge. }
    eexists _, Lc, L'. split_and!; [exact Hrun| |].
    + eapply timers_at_put; [exact Hat|done|by rewrite aget_aset_ne|by eapply aget_aset_eq|].
      eapply timers_rep_armed; [done..|by apply tlist_ok_aset|done|].
      by rewrite Hct, <- Permutation_middle.
    + split; [by destruct s|done|by rewrite Hturn|]. intros c' Hc'. by rewrite Hturn.
Qed.
End arming.

(** ** Critical sections of services that may run before the first task *)
Section masked.
Context `{C : Config}.
Implicit Types (s : OS) (m : list BRTOS_TIMER_T) (Ls : list BRTOS_TMR_T).

Lemma enter_started {A} s (K : bool -> prog A) :
  bind OSEnterCritical_started K s =
  K (if truthy (currentTask s) then PRIMASK s else true) (in_create s).
Proof. unfold in_create. cbn. by destruct (truthy (currentTask s)). Qed.

(** Leaving the critical section, whatever happened in between to the timers
    and the control blocks. *)
Lemma exit_started {A} s ct m Ls (K : unit -> prog A) :
  bind (OSExitCritical_started (if truthy (currentTask s) then PRIMASK s else true)) K
    (put_timers m Ls (set_ContextTask ct (in_create s))) =
  K tt (put_timers m Ls (set_ContextTask ct s)).
Proof.
  unfold in_create. destruct s. unfold put_timers. cbn. by destruct (truthy currentTask) eqn:E; cbn; rewrite E.
Qed.

Lemma exit_started_put {A} s m Ls (K : unit -> prog A) :
  bind (OSExitCritical_started (if truthy (currentTask s) then PRIMASK s else true)) K
    (put_timers m Ls (in_create s)) = K tt (put_timers m Ls s).
Proof.
  unfold in_create. destruct s. unfold put_timers. cbn. by destruct (truthy currentTask) eqn:E; cbn; rewrite E.
Qed.

Lemma exit_unchanged {A} s (K : unit -> prog A) :
  bind (OSExitCritical_started (if truthy (currentTask s) then PRIMASK s else true)) K (in_create s) =
  K tt s.
Proof. unfold in_create. destruct s. cbn. by destruct (truthy currentTask) eqn:E; cbn; rewrite E. Qed.

Lemma in_create_timers s :
  timers_mem (in_create s) = timers_mem s /\ BRTOS_TMR (in_create s) = BRTOS_TMR s /\
  BRTOS_TIMER_VECTOR (in_create s) = BRTOS_TIMER_VECTOR s /\
  OSTickCounter (in_create s) = OSTickCounter s /\ currentTask (in_create s) = currentTask s /\
  ContextTask (in_create s) = ContextTask s.
Proof. unfold in_create. by destruct (truthy (currentTask s)). Qed.

Lemma in_create_put s : in_create s = put_timers (timers_mem s) (BRTOS_TMR s) (in_create s).
Proof. destruct (in_create_timers s) as (<- & <- & _). by rewrite put_timers_id. Qed.

Lemma timers_at_in_create s lc lf Lc Lf : timers_at s lc lf Lc Lf -> timers_at (in_create s) lc lf Lc Lf.
Proof.
  intros [H1 H2 H3 H4 H5 H6]. destruct (in_create_timers s) as (E1 & E2 & E3 & _).
  split; by rewrite ?E1, ?E2, ?E3.
Qed.
End masked.

(** ** Theorems on setting and starting *)
Section services.
Context `{C : Config}.
Implicit Types (s : OS) (m : list BRTOS_TIMER_T) (L Lc Lf : BRTOS_TMR_T) (t p lc lf w : Z).

(** What the search of [OSTimerSet] returns. *)
Definition timer_search m (f : Z + Z) : Prop :=
  let used r := tmr_state r <> TIMER_NOT_ALLOCATED /\ tmr_state r <> TIMER_NOT_USED in
  match f with
  | inr p => (exists r, aget m p = Some r /\ tmr_state r = TIMER_NOT_USED) /\
             forall j r, j < p -> aget m j = Some r -> used r
  | inl code => (code = NO_AVAILABLE_EVENT /\ forall j r, aget m j = Some r -> used r) \/
                (code = ERR_EVENT_NO_CREATED /\
                 exists j r, aget m j = Some r /\ tmr_state r = TIMER_NOT_ALLOCATED)
  end.

Lemma search_timer_from s fuel i :
  Z.of_nat (length (timers_mem s)) = BRTOS_MAX_TIMER -> 0 <= i <= BRTOS_MAX_TIMER ->
  BRTOS_MAX_TIMER - i < Z.of_nat fuel ->
  (forall j r, j < i -> aget (timers_mem s) j = Some r ->
     tmr_state r <> TIMER_NOT_ALLOCATED /\ tmr_state r <> TIMER_NOT_USED) ->
  exists f, search_timer fuel i s = Done f s /\ timer_search (timers_mem s) f.
Proof.
  intros Hlen. revert i. induction fuel as [|fuel IH]; intros i Hi Hf Hj; [lia|].
  cbn [search_timer]. destruct (i >=? BRTOS_MAX_TIMER) eqn:Ei; to_prop.
  - eexists. split; [done|]. left. split; [done|]. intros j r Hr. eapply Hj; [|done].
    apply aget_lt in Hr. lia.
  - destruct (aget_is_Some (timers_mem s) i) as [r Hr]; [lia|].
    rewrite (bind_Done _ _ s r s) by (unfold Timer; by apply read_Some).
    destruct (tmr_state r =? TIMER_NOT_ALLOCATED) eqn:E0; to_prop.
    { eexists. split; [done|]. right. eauto. }
    destruct (tmr_state r =? TIMER_NOT_USED) eqn:E1; to_prop.
    { exists (inr i). split; [done|]. cbn. eauto. }
    apply IH; [lia|lia|]. intros j r' Hlt Hr'.
    destruct (decide (j = i)) as [->|]; [by simplify_eq|]. apply (Hj j); [lia|done].
Qed.

Lemma search_timer_lemma s :
  2 <= BRTOS_MAX_TIMER -> Z.of_nat (length (timers_mem s)) = BRTOS_MAX_TIMER ->
  exists f, search_timer (Z.to_nat (BRTOS_MAX_TIMER + 1)) 0 s = Done f s /\ timer_search (timers_mem s) f.
Proof.
  intros Hm Hlen. apply search_timer_from; [done|lia|lia|].
  intros j r Hj Hr. apply aget_lt in Hr. lia.
Qed.

(** A timer's callback and state change while it is in no list. *)
Lemma timers_at_stopped s lc lf Lc Lf p r r' :
  timers_at s lc lf Lc Lf -> aget (timers_mem s) p = Some r -> tmr_state r <> TIMER_RUNNING ->
  tmr_state r' <> TIMER_RUNNING -> tmr_timeout r' = tmr_timeout r ->
  timers_at (put_timers (aset (timers_mem s) p r') (BRTOS_TMR s) s) lc lf Lc Lf.
Proof.
  intros Hat Hr Hst Hst' Hk. pose proof Hat as [_ _ _ HLc HLf Hrep]. pose proof Hrep as [Hc Hf Hnd _ _ Htk].
  destruct (stopped_not_listed s lc lf Lc Lf p r Hat Hr Hst) as [Hnc Hnf].
  eapply timers_at_put; [done..|]. eapply timers_below_update; try done.
  - by apply tlist_ok_aset.
  - by apply tlist_ok_aset.
  - rewrite elem_of_app. tauto.
  - rewrite Hk. by eapply Htk.
Qed.


Lemma timeout_of_aset m p r r' t :
  aget m p = Some r -> tmr_timeout r' = tmr_timeout r -> timeout_of (aset m p r') t = timeout_of m t.
Proof.
  intros Hr Hk. unfold timeout_of. destruct (decide (p = t)) as [->|]; [|by rewrite aget_aset_ne].
  by rewrite (aget_aset_eq _ _ _ _ Hr), Hr, Hk.
Qed.

(** Starting a timer at the end of a service, in its critical section. *)
Lemma arm_started {A} s lc lf Lc Lf p r r1 w (K : unit -> prog A) :
  timers_at s lc lf Lc Lf -> aget (timers_mem s) p = Some r -> tmr_state r <> TIMER_RUNNING ->
  tmr_state r1 <> TIMER_RUNNING -> tmr_timeout r1 = tmr_timeout r ->
  ostick_bits < 64 -> 0 <= OSTickCounter s < TICK_COUNT_OVERFLOW -> 0 < w < TICK_COUNT_OVERFLOW ->
  is_Some (aget (ContextTask s) (tv_handling_task (BRTOS_TIMER_VECTOR s))) ->
  tl_count (if OSTickCounter s + w <? TICK_COUNT_OVERFLOW then Lc else Lf) < BRTOS_MAX_TIMER - 1 ->
  exists s' Lc' Lf',
    bind (when (w >? 0) (timer_arm p w))
      (fun _ => bind (OSExitCritical_started (if truthy (currentTask s) then PRIMASK s else true)) K)
      (put_timers (aset (timers_mem s) p r1) (BRTOS_TMR s) (in_create s)) = K tt s' /\
    timers_at s' lc lf Lc' Lf' /\ armed_timer s s' p (tmr_func_cb r1) w Lc Lf Lc' Lf'.
Proof.
  intros Hat Hr Hst Hst1 Hk Hb Hn Hw Hh Hroom.
  destruct (in_create_timers s) as (E1 & E2 & E3 & E4 & E5 & E6).
  set (s1 := put_timers _ _ _).
  assert (timers_at s1 lc lf Lc Lf) as Hat1.
  { unfold s1. rewrite <- E1, <- E2.
    eapply (timers_at_stopped (in_create s)); [by apply timers_at_in_create|by rewrite E1|done..]. }
  assert (timers_mem s1 = aset (timers_mem s) p r1) as Em1 by done.
  assert (OSTickCounter s1 = OSTickCounter s) as Et1 by apply E4.
  assert (currentTask s1 = currentTask s) as Ec1 by apply E5.
  assert (ContextTask s1 = ContextTask s) as Ex1 by apply E6.
  assert (tv_handling_task (BRTOS_TIMER_VECTOR s1) = tv_handling_task (BRTOS_TIMER_VECTOR s)) as Eh1
    by (unfold s1, put_timers, set_timers_mem; cbn; by rewrite E3).
  destruct (timer_arm_lemma s1 lc lf Lc Lf p r1 w) as (s2 & Lc' & Lf' & Hrun & Hat2 & [Hf2 Hm2 Hl2 Hw2]);
    rewrite ?Em1, ?Et1, ?Ex1, ?Eh1; try done; [by eapply aget_aset_eq|].
  set (ct := ContextTask s2) in *. set (m2 := timers_mem s2) in *. set (Ls2 := BRTOS_TMR s2) in *.
  assert (expiry s1 w = expiry s w) as Ee by (unfold expiry; by rewrite Et1).
  exists (put_timers m2 Ls2 (set_ContextTask ct s)), Lc', Lf'. split_and!.
  - assert ((w >? 0) = true) as -> by lia. unfold when.
    rewrite (bind_Done _ _ s1 tt s2 Hrun), Hf2. exact (exit_started s ct m2 Ls2 K).
  - destruct Hat2 as [_ _ _ HLc' HLf' Hrep']. exact (timers_at_put s lc lf Lc Lf m2 Ls2 Lc' Lf' (set_ContextTask ct s) Hat eq_refl HLc' HLf' Hrep').
  - split; [done| | |].
    + change (m2 = aset (timers_mem s) p (mkTimer (tmr_func_cb r1) (expiry s w) TIMER_RUNNING)).
      by rewrite Hm2, Em1, aset_aset, Ee.
    + by rewrite Et1 in Hl2.
    + change (ContextTask (put_timers m2 Ls2 (set_ContextTask ct s))) with ct. intros c Hc.
      assert (first_to_expire (timers_mem s1) Lc (expiry s1 w)
              = first_to_expire (timers_mem s) Lc (expiry s w)) as Ef.
      { unfold first_to_expire. apply bool_decide_ext. rewrite Ee, !Forall_forall, Em1.
        split; intros Hx t Ht; specialize (Hx t Ht); by rewrite (timeout_of_aset _ _ r) in *. }
      rewrite Ex1, Eh1 in Hw2. rewrite (Hw2 c Hc), Et1, Ec1, Ef, Ee. done.
Qed.

Lemma OSTimerSet_lemma s lc lf Lc Lf v f w :
  timers_at s lc lf Lc Lf ->
  (forall t r, aget (timers_mem s) t = Some r -> tmr_state r <> TIMER_NOT_ALLOCATED) ->
  ostick_bits < 64 -> 0 <= OSTickCounter s < TICK_COUNT_OVERFLOW -> 0 < w < TICK_COUNT_OVERFLOW ->
  is_Some (aget (ContextTask s) (tv_handling_task (BRTOS_TIMER_VECTOR s))) ->
  tl_count (if OSTickCounter s + w <? TICK_COUNT_OVERFLOW then Lc else Lf) < BRTOS_MAX_TIMER - 1 ->
  (OSTimerSet (Some v) (Some f) w s = Done (NO_AVAILABLE_EVENT, Some v) s /\
   forall t r, aget (timers_mem s) t = Some r -> tmr_state r <> TIMER_NOT_USED) \/
  (exists p s' Lc' Lf', timer_search (timers_mem s) (inr p) /\
   OSTimerSet (Some v) (Some f) w s = Done (OK, Some (Some p)) s' /\
   timers_at s' lc lf Lc' Lf' /\ armed_timer s s' p (Some f) w Lc Lf Lc' Lf').
Proof.
  intros Hat Hall Hb Hn Hw Hh Hroom. pose proof Hat as [_ _ _ _ _ [Hcok _ _ Hlen _ _]].
  destruct (in_create_timers s) as (E1 & _). pose proof (tl_max _ _ Hcok) as Hmax.
  destruct (search_timer_lemma (in_create s)) as (fo & Hs & Hfo); [lia|by rewrite E1|]. rewrite E1 in Hfo.
  unfold OSTimerSet. rewrite enter_started, (bind_Done _ _ _ _ _ Hs).
  destruct fo as [code|p].
  - left. destruct Hfo as [[-> Hu]|(_ & j & r & Hr & Hz)]; [|by eapply Hall in Hr].
    split; [|by intros t r Hr; apply (Hu t)].
    by rewrite exit_unchanged.
  - right. pose proof Hfo as [(r & Hr & Hu) _].
    destruct (arm_started s lc lf Lc Lf p r (mkTimer (Some f) (tmr_timeout r) TIMER_STOPPED) w
                (fun _ => ret (OK, Some (Some p)))) as (s' & Lc' & Lf' & Hrun & Hat' & Harm);
      try done; [by rewrite Hu|].
    exists p, s', Lc', Lf'. split_and!; try done.
    rewrite in_create_put. tstep.
    erewrite (bind_Done (upd_Timer p (set_tmr_func_cb (Some f))));
      [|eapply upd_Timer_put; by eapply aget_aset_eq].
    rewrite aset_aset. exact Hrun.
Qed.

(** Setting a timer.  On well-formed timers, with room in the list the timer
    goes to, [OSTimerSet] never faults.  If every timer is in use it returns
    NO_AVAILABLE_EVENT and changes nothing; otherwise it takes the first unused
    timer and starts it: the timer runs with the callback given until exactly
    [w] ticks from now, it is in the heap of the turn of the counter in which it
    expires, the timer task's wake-up time is moved to it when it has become the
    first of the current turn, and nothing else changes. *)
Theorem OSTimerSet_correct s lc lf Lc Lf v f w :
  timers_at s lc lf Lc Lf ->
  (forall t r, aget (timers_mem s) t = Some r -> tmr_state r <> TIMER_NOT_ALLOCATED) ->
  ostick_bits < 64 -> 0 <= OSTickCounter s < TICK_COUNT_OVERFLOW -> 0 < w < TICK_COUNT_OVERFLOW ->
  is_Some (aget (ContextTask s) (tv_handling_task (BRTOS_TIMER_VECTOR s))) ->
  tl_count (if OSTickCounter s + w <? TICK_COUNT_OVERFLOW then Lc else Lf) < BRTOS_MAX_TIMER - 1 ->
  (OSTimerSet (Some v) (Some f) w s = Done (NO_AVAILABLE_EVENT, Some v) s /\
   forall t r, aget (timers_mem s) t = Some r -> tmr_state r <> TIMER_NOT_USED) \/
  (exists p s' Lc' Lf', timer_search (timers_mem s) (inr p) /\
   OSTimerSet (Some v) (Some f) w s = Done (OK, Some (Some p)) s' /\
   timers_at s' lc lf Lc' Lf' /\ armed_timer s s' p (Some f) w Lc Lf Lc' Lf').
Proof. apply OSTimerSet_lemma. Qed.

(** [OSTimerStart] bounds the wait by the largest count. *)
Definition start_wait (w : Z) : Z := Z.min w (TICK_COUNT_OVERFLOW - 1).

(** Starting a timer.  A stopped timer started for [w] ticks, cut to the
    longest wait the counter allows, runs until exactly that many ticks from now
    in the heap of the turn in which it expires; a null timer or a wait of zero
    is refused and changes nothing. *)
Theorem OSTimerStart_correct s lc lf Lc Lf p r w :
  timers_at s lc lf Lc Lf -> aget (timers_mem s) p = Some r -> tmr_state r <> TIMER_RUNNING ->
  ostick_bits < 64 -> 0 <= OSTickCounter s < TICK_COUNT_OVERFLOW -> 0 < w ->
  is_Some (aget (ContextTask s) (tv_handling_task (BRTOS_TIMER_VECTOR s))) ->
  tl_count (if OSTickCounter s + start_wait w <? TICK_COUNT_OVERFLOW then Lc else Lf)
    < BRTOS_MAX_TIMER - 1 ->
  (exists s' Lc' Lf', OSTimerStart (Some p) w s = Done OK s' /\ timers_at s' lc lf Lc' Lf' /\
     armed_timer s s' p (tmr_func_cb r) (start_wait w) Lc Lf Lc' Lf') /\
  OSTimerStart (Some p) 0 s = Done NULL_EVENT_POINTER s /\
  OSTimerStart None w s = Done NULL_EVENT_POINTER s.
Proof.
  intros Hat Hr Hst Hb Hn Hw Hh Hroom. split_and!; [|done|done].
  pose proof TICK_COUNT_OVERFLOW_big. pose proof TICK_COUNT_OVERFLOW_eq as Ho.
  assert ((if w >? TIMER_MAX_COUNTER then TIMER_MAX_COUNTER else w) = start_wait w) as Hmin.
  { unfold TIMER_MAX_COUNTER, start_wait. rewrite uint_small by lia.
    destruct (w >? _) eqn:E; to_prop; lia. }
  destruct (arm_started s lc lf Lc Lf p r r (start_wait w) (fun _ => ret OK))
    as (s' & Lc' & Lf' & Hrun & Hat' & Harm); try done.
  { unfold start_wait. lia. }
  exists s', Lc', Lf'. split_and!; try done. unfold OSTimerStart.
  rewrite (proj2 (Z.eqb_neq w 0)) by lia. cbn [negb]. rewrite Hmin, enter_started.
  rewrite aset_id in Hrun by done. rewrite in_create_put. exact Hrun.
Qed.

(** The ticks left of a running timer. *)
Definition remaining (s : OS) (r : BRTOS_TIMER_T) : Z :=
  (tmr_timeout r - OSTickCounter s) mod TICK_COUNT_OVERFLOW.

Lemma OSTimerGet_lemma s lc lf Lc Lf p r :
  timers_at s lc lf Lc Lf -> aget (timers_mem s) p = Some r ->
  0 <= OSTickCounter s < TICK_COUNT_OVERFLOW ->
  OSTimerGet (Some p) s =
    Done (if tmr_state r =? TIMER_RUNNING then remaining s r else 0) s.
Proof.
  intros Hat Hr Hn. pose proof Hat as [_ _ _ _ _ [_ _ _ _ _ Htk]]. pose proof (Htk p r Hr) as Hrange.
  pose proof TICK_COUNT_OVERFLOW_eq as Ho. pose proof TICK_COUNT_OVERFLOW_big.
  destruct (in_create_timers s) as (E1 & _ & _ & E4 & _).
  assert (Timer p s = Done r s) as Ht by (unfold Timer; by apply read_Some).
  assert (Timer p (in_create s) = Done r (in_create s)) as Ht1
    by (unfold Timer; apply read_Some; by rewrite E1).
  unfold OSTimerGet. rewrite (bind_Done _ _ _ _ _ Ht).
  destruct (tmr_state r =? TIMER_RUNNING); [|done].
  rewrite enter_started. change (bind OSGetCount ?K ?x) with (K (OSTickCounter x) x). cbv beta.
  rewrite (bind_Done _ _ _ _ _ Ht1), E4.
  set (x := if _ >=? _ then _ else _).
  assert (x = remaining s r) as ->.
  { unfold x, remaining, TIMER_MAX_COUNTER. rewrite (uint_small ostick_bits (TICK_COUNT_OVERFLOW - 1)) by lia.
    destruct (tmr_timeout r >=? OSTickCounter s) eqn:E; to_prop.
    - rewrite uint_small by lia. symmetry. apply Z.mod_small. lia.
    - rewrite uint_small by lia.
      rewrite <- (Z.mod_small (_ - _ + _ + _) TICK_COUNT_OVERFLOW) by lia.
      rewrite <- (Z.mod_add (tmr_timeout r - OSTickCounter s) 1) by lia. f_equal. lia. }
  by rewrite exit_unchanged.
Qed.

(** Reading a timer.  [OSTimerGet] returns the ticks left until a running
    timer expires, across a wrap of the counter, and 0 for a timer that is not
    running or a null one; it changes nothing.  So after [OSTimerSet] gave a
    timer [w] ticks, [n] ticks later it returns [w - n]. *)
Theorem OSTimerGet_remaining s lc lf Lc Lf v f w p s' n :
  timers_at s lc lf Lc Lf ->
  (forall t r, aget (timers_mem s) t = Some r -> tmr_state r <> TIMER_NOT_ALLOCATED) ->
  ostick_bits < 64 -> 0 <= OSTickCounter s < TICK_COUNT_OVERFLOW -> 0 < w < TICK_COUNT_OVERFLOW ->
  is_Some (aget (ContextTask s) (tv_handling_task (BRTOS_TIMER_VECTOR s))) ->
  tl_count (if OSTickCounter s + w <? TICK_COUNT_OVERFLOW then Lc else Lf) < BRTOS_MAX_TIMER - 1 ->
  OSTimerSet (Some v) (Some f) w s = Done (OK, Some (Some p)) s' -> 0 <= n <= w ->
  let now := set_OSTickCounter ((OSTickCounter s + n) mod TICK_COUNT_OVERFLOW) s' in
  OSTimerGet (Some p) now = Done (w - n) now /\ OSTimerGet None now = Done 0 now /\
  (forall q r, aget (timers_mem s') q = Some r -> tmr_state r <> TIMER_RUNNING ->
     OSTimerGet (Some q) now = Done 0 now).
Proof.
  intros Hat Hall Hb Hn Hw Hh Hroom Hset Hnw now.
  assert (0 <= OSTickCounter now < TICK_COUNT_OVERFLOW) as Hnow by (apply Z.mod_pos_bound; lia).
  destruct (OSTimerSet_lemma s lc lf Lc Lf v f w) as [[Hr _]|(q & s2 & Lc' & Lf' & Hfs & Hr & Hat' & [_ Hm _ _])];
    try done; rewrite Hset in Hr; [done|]. injection Hr as -> ->.
  assert (timers_at now lc lf Lc' Lf') as Hatn by (destruct Hat' as [? ? ? ? ? ?]; by split).
  destruct Hfs as [(r0 & Hr0 & _) _].
  split_and!; [|done|].
  - rewrite (OSTimerGet_lemma now lc lf Lc' Lf' q (mkTimer (Some f) (expiry s w) TIMER_RUNNING)); [|done| |done].
    + cbn [tmr_state]. rewrite Z.eqb_refl. f_equal. unfold remaining, expiry, now. cbn.
      rewrite <- Zminus_mod. replace (OSTickCounter s + w - (OSTickCounter s + n)) with (w - n) by lia.
      apply Z.mod_small. lia.
    + change (timers_mem now) with (timers_mem s2). rewrite Hm. by eapply aget_aset_eq.
  - intros u r Hu Hst. rewrite (OSTimerGet_lemma now lc lf Lc' Lf' u r) by done.
    by rewrite (proj2 (Z.eqb_neq _ _) Hst).
Qed.
End services.

(** ** Stopping a timer *)
Section stopping.
Context `{C : Config}.
Implicit Types (s : OS) (m : list BRTOS_TIMER_T) (Ls : list BRTOS_TMR_T) (L Lc Lf : BRTOS_TMR_T) (t p l lc lf : Z).

(** The search for the slot of a timer. *)
Lemma search_slot_from m Ls s l L t i fuel pos :
  aget Ls l = Some L -> tlist_ok m L -> 1 <= i <= tl_count L -> aget (tl_timers L) i = Some (Some t) ->
  (forall u r, aget m u = Some r -> u ∈ contents L -> tmr_state r = TIMER_SEARCH <-> u = t) ->
  1 <= pos <= i -> i - pos < Z.of_nat fuel ->
  search_slot fuel l pos (put_timers m Ls s) = Done i (put_timers m Ls s).
Proof.
  intros HL Hok Hi Ht Hs. revert pos. induction fuel as [|fuel IH]; intros pos Hp Hf; [lia|].
  cbn [search_slot]. erewrite (bind_Done (read BRTOS_TMR l)); [|by apply read_Some].
  pose proof (tl_range _ _ Hok). pose proof (tl_max _ _ Hok).
  rewrite (proj2 (Z.leb_le _ _)) by lia.
  destruct (tl_live _ _ Hok pos) as (u & r & Hu & Hr); [lia|]. rewrite Hu.
  change (bind (lift (Some (Some u))) ?K ?x) with (K (Some u) x). cbv beta. do 2 tstep.
  specialize (Hs u r Hr ltac:(apply elem_of_contents; eauto)).
  destruct (decide (pos = i)) as [->|Hne].
  - assert (u = t) as -> by congruence. by rewrite (proj2 (Z.eqb_eq _ _) (proj2 Hs eq_refl)).
  - rewrite (proj2 (Z.eqb_neq _ _)).
    + rewrite uint8_small by lia. apply IH; lia.
    + rewrite Hs. intros ->. apply Hne. by apply (tlist_slot_inj L t); [apply Hok|..].
Qed.

(** The record of a timer that [OSTimerStop] stopped, and deleted if [del]. *)
Definition stopped_timer (r : BRTOS_TIMER_T) (del : Z) : BRTOS_TIMER_T :=
  if del >? 0 then mkTimer None 0 TIMER_NOT_USED else mkTimer (tmr_func_cb r) 0 TIMER_STOPPED.

(** The statements of [OSTimerStop] on the list [l] that holds the timer. *)
Lemma stop_in_list {A} m Ls s l L t r del (K : unit -> prog A) :
  aget Ls l = Some L -> tlist_ok m L -> t ∈ contents L -> aget m t = Some r ->
  (forall u ru, aget m u = Some ru -> u ∈ contents L -> tmr_state ru = TIMER_RUNNING) ->
  0 <= tmr_timeout r -> (forall u, u ∈ contents L -> u <> t -> 0 < timeout_of m u) ->
  exists L', contents L ≡ₚ t :: contents L' /\
    tlist_ok (aset m t (stopped_timer r del)) L' /\
    (upd_Timer t (set_tmr_state TIMER_SEARCH) ;;;
     pos_timer <- search_slot 256 l 1 ;;
     upd_Timer t (set_tmr_timeout 0) ;;;
     upd_list l (fun m L => match Subir m (tl_timers L) pos_timer with
                            | Some ts => Some (set_tl_timers ts L)
                            | None => None
                            end) ;;;
     upd_list l (fun _ => tmr_remove) ;;;
     upd_list l tmr_settle ;;;
     bind (if del >? 0 then
             upd_Timer t (set_tmr_state TIMER_NOT_USED) ;;;
             upd_Timer t (set_tmr_func_cb None)
           else upd_Timer t (set_tmr_state TIMER_STOPPED)) K) (put_timers m Ls s)
    = K tt (put_timers (aset m t (stopped_timer r del)) (aset Ls l L') s).
Proof.
  intros HL Hok Hin Hr Hrun Hr0 Hpos.
  destruct (contents_slot m L t Hok Hin) as (i & Hi & Ht).
  pose proof (tl_range _ _ Hok). pose proof (tl_max _ _ Hok).
  set (m1 := aset m t (set_tmr_state TIMER_SEARCH r)).
  set (m2 := aset m t (set_tmr_timeout 0 (set_tmr_state TIMER_SEARCH r))).
  assert (aget m1 t = Some (set_tmr_state TIMER_SEARCH r)) as Hm1 by (by eapply aget_aset_eq).
  assert (aget m2 t = Some (set_tmr_timeout 0 (set_tmr_state TIMER_SEARCH r))) as Hm2 by (by eapply aget_aset_eq).
  assert (tlist_ok m1 L) as Hok1 by (by eapply tlist_ok_same_tick).
  assert (forall u, u <> t -> aget m2 u = aget m u) as Hoff by (intros; by apply aget_aset_ne).
  destruct (Subir_to_root m m2 L t i (set_tmr_timeout 0 (set_tmr_state TIMER_SEARCH r)))
    as (ts & Hsub & Hok2 & Hroot & Hct2); [done|done| |done|cbn; lia|exact Hpos| |].
  { intros u _ Hne. by rewrite Hoff. }
  { cbn. unfold timeout_of. by rewrite Hr. }
  destruct (tmr_pop_spec m2 m2 (mkTmrList ts (tl_count L)) t) as (L1 & L' & Hrm & Hse & Hok' & Hct' & _);
    [done|done|by intros|].
  set (L0 := set_tl_timers ts L).
  assert (mkTmrList ts (tl_count L) = L0) as E0 by done. rewrite E0 in *.
  exists L'. rewrite <- Hct2. split_and!; [done| |].
  { replace (aset m t (stopped_timer r del)) with (aset m2 t (stopped_timer r del)) by (unfold m2; apply aset_aset).
    eapply tlist_ok_same_tick; [done|done|]. unfold stopped_timer. by case_match. }
  tstep. fold m1.
  erewrite (bind_Done (search_slot 256 l 1)); [|eapply search_slot_from; try done; [|lia|lia]].
  2:{ intros u ru Hu Hin'. destruct (decide (u = t)) as [->|Hne]; [by rewrite Hm1 in Hu; injection Hu as <-|].
      unfold m1 in Hu. rewrite aget_aset_ne in Hu by done. rewrite (Hrun u ru Hu Hin'). done. }
  tstep. unfold m1. rewrite aset_aset. fold m2.
  erewrite (bind_Done (upd_list l _)); [|eapply upd_list_put; [exact HL|cbv beta; by rewrite Hsub]].
  assert (aget (aset Ls l L0) l = Some L0) as HL0 by (by eapply aget_aset_eq).
  erewrite (bind_Done (upd_list l _)); [|eapply upd_list_put; [exact HL0|cbv beta; exact Hrm]].
  assert (aget (aset (aset Ls l L0) l L1) l = Some L1) as HL1 by (by eapply aget_aset_eq).
  erewrite (bind_Done (upd_list l _)); [|eapply upd_list_put; [exact HL1|exact Hse]].
  rewrite !aset_aset. unfold stopped_timer. destruct (del >? 0).
  - unfold bind at 1. tstep. erewrite upd_Timer_put by (by eapply aget_aset_eq). cbn [rbind].
    unfold m2. by rewrite !aset_aset.
  - erewrite (bind_Done (upd_Timer t _)); [|by eapply upd_Timer_put]. unfold m2. by rewrite aset_aset.
Qed.

(** Every timer is in the list of the turn in which it expires: those of the
    current turn have not been missed, those of the next turn lie behind. *)
Definition on_time (s : OS) Lc Lf : Prop :=
  (forall u, u ∈ contents Lc -> OSTickCounter s <= timeout_of (timers_mem s) u) /\
  (forall u, u ∈ contents Lf -> timeout_of (timers_mem s) u < OSTickCounter s).

(** The whole service, once the list the timer is in is known. *)
Lemma OSTimerStop_run s lc lf Lc Lf t r del l L :
  timers_at s lc lf Lc Lf -> aget (timers_mem s) t = Some r ->
  (l, L) = (if OSTickCounter s <=? tmr_timeout r then (lc, Lc) else (lf, Lf)) -> t ∈ contents L ->
  (forall u, u ∈ contents L -> u <> t -> 0 < timeout_of (timers_mem s) u) ->
  exists L', contents L ≡ₚ t :: contents L' /\
    tlist_ok (aset (timers_mem s) t (stopped_timer r del)) L' /\
    OSTimerStop (Some t) del s =
      Done OK (put_timers (aset (timers_mem s) t (stopped_timer r del)) (aset (BRTOS_TMR s) l L') s).
Proof.
  intros Hat Hr Hl Hin Hpos. pose proof Hat as [Hcur Hfut Hne HLc HLf [Hcok Hfok Hnd Hlen Hrun Htk]].
  destruct (in_create_timers s) as (_ & _ & E3 & E4 & _).
  assert (aget (BRTOS_TMR s) l = Some L /\ tlist_ok (timers_mem s) L /\
          forall u, u ∈ contents L -> u ∈ contents Lc ++ contents Lf) as (HL & Hok & Hsub).
  { destruct (_ <=? _); injection Hl as -> ->; split_and!; try done;
      intros u Hu; apply elem_of_app; auto. }
  destruct (stop_in_list (timers_mem s) (BRTOS_TMR s) (in_create s) l L t r del
    (fun _ => bind (OSExitCritical_started (if truthy (currentTask s) then PRIMASK s else true)) (fun _ => ret OK)))
    as (L' & Hct & Hok' & Hrun'); try done.
  { intros u ru Hu Hi. apply (Hrun u ru Hu). auto. }
  { by apply (Htk t r). }
  exists L'. split_and!; [done|done|]. unfold OSTimerStop. rewrite enter_started, in_create_put.
  tstep. tstep. tstep. rewrite E4, Z.geb_leb.
  assert (forall m Ls, (if OSTickCounter s <=? tmr_timeout r then get_current else get_future)
            (put_timers m Ls (in_create s)) = Done l (put_timers m Ls (in_create s))) as Hg.
  { intros. destruct (_ <=? _); injection Hl as -> _; [apply get_current_put|apply get_future_put]; by rewrite E3. }
  rewrite (bind_Done _ _ _ _ _ (Hg _ _)).
  etrans; [exact Hrun'|]. by rewrite exit_started_put.
Qed.

Lemma timers_rep_stopped m t r del Lc Lf Lc' Lf' :
  timers_rep m Lc Lf -> tlist_ok (aset m t (stopped_timer r del)) Lc' ->
  tlist_ok (aset m t (stopped_timer r del)) Lf' ->
  contents Lc ++ contents Lf ≡ₚ t :: (contents Lc' ++ contents Lf') ->
  timers_rep (aset m t (stopped_timer r del)) Lc' Lf'.
Proof.
  intros Hrep H1 H2 Hp. pose proof Hrep as [_ _ Hnd _ _ _]. pose proof TICK_COUNT_OVERFLOW_big.
  rewrite Hp, NoDup_cons in Hnd. destruct Hnd as [Hni Hnd].
  eapply timers_below_update; [exact Hrep|done|done|done| | |].
  - intros u Hu. rewrite Hp, elem_of_cons. tauto.
  - split; [|done]. unfold stopped_timer. by case_match.
  - unfold stopped_timer. case_match; cbn; lia.
Qed.

Lemma OSTimerStop_lemma s lc lf Lc Lf t r del :
  timers_at s lc lf Lc Lf -> on_time s Lc Lf ->
  aget (timers_mem s) t = Some r -> tmr_state r = TIMER_RUNNING ->
  (forall u, u ∈ contents Lc ++ contents Lf -> u <> t -> 0 < timeout_of (timers_mem s) u) ->
  (exists Ls' Lc' Lf', let s' := put_timers (aset (timers_mem s) t (stopped_timer r del)) Ls' s in
     OSTimerStop (Some t) del s = Done OK s' /\ timers_at s' lc lf Lc' Lf' /\
     contents Lc ++ contents Lf ≡ₚ t :: (contents Lc' ++ contents Lf') /\
     (Lc' = Lc \/ Lf' = Lf)) /\
  OSTimerStop None del s = Done NULL_EVENT_POINTER s.
Proof.
  intros Hat [Hc Hf] Hr Hst Hpos. split; [|done]. pose proof Hat as [_ _ Hne HLc HLf Hrep].
  pose proof Hrep as [Hcok Hfok Hnd _ Hrun _].
  assert (timeout_of (timers_mem s) t = tmr_timeout r) as Ek by (unfold timeout_of; by rewrite Hr).
  pose proof Hst as Hin. apply (Hrun t r Hr), elem_of_app in Hin as [Hin|Hin].
  - specialize (Hc t Hin). rewrite Ek in Hc.
    destruct (OSTimerStop_run s lc lf Lc Lf t r del lc Lc) as (L' & Hct & Hok' & Hr'); [done|done| |done| |].
    { by rewrite (proj2 (Z.leb_le _ _)). }
    { intros u Hu. apply Hpos, elem_of_app. by left. }
    assert (t ∉ contents Lf) as Hnf.
    { rewrite Hct in Hnd. cbn in Hnd. rewrite NoDup_cons, elem_of_app in Hnd. tauto. }
    assert (contents Lc ++ contents Lf ≡ₚ t :: (contents L' ++ contents Lf)) as Hp by (by rewrite Hct).
    exists (aset (BRTOS_TMR s) lc L'), L', Lf. split_and!; [done| |done|by right].
    eapply timers_at_put; [exact Hat|done|by eapply aget_aset_eq|by rewrite aget_aset_ne|].
    by eapply timers_rep_stopped; [..|apply tlist_ok_aset|].
  - specialize (Hf t Hin). rewrite Ek in Hf.
    destruct (OSTimerStop_run s lc lf Lc Lf t r del lf Lf) as (L' & Hct & Hok' & Hr'); [done|done| |done| |].
    { by rewrite (proj2 (Z.leb_gt _ _)). }
    { intros u Hu. apply Hpos, elem_of_app. by right. }
    assert (contents Lc ++ contents Lf ≡ₚ t :: (contents Lc ++ contents L')) as Hp
      by (by rewrite Hct, <- Permutation_middle).
    assert (t ∉ contents Lc) as Hnc.
    { rewrite Hp, NoDup_cons, elem_of_app in Hnd. tauto. }
    exists (aset (BRTOS_TMR s) lf L'), Lc, L'. split_and!; [done| |done|by left].
    eapply timers_at_put; [exact Hat|done|by rewrite aget_aset_ne|by eapply aget_aset_eq|].
    by eapply timers_rep_stopped; [done|apply tlist_ok_aset|..].
Qed.

(** Stopping a timer.  When every timer is in the list of its turn and no
    other timer of the list expires on tick 0, [OSTimerStop] takes exactly the
    running timer given out of its heap, clears its tick, marks it stopped, or
    unused when it is to be deleted, and changes nothing else.  A null timer is
    refused. *)
Theorem OSTimerStop_correct s lc lf Lc Lf t r del :
  timers_at s lc lf Lc Lf -> on_time s Lc Lf ->
  aget (timers_mem s) t = Some r -> tmr_state r = TIMER_RUNNING ->
  (forall u, u ∈ contents Lc ++ contents Lf -> u <> t -> 0 < timeout_of (timers_mem s) u) ->
  (exists Ls' Lc' Lf', let s' := put_timers (aset (timers_mem s) t (stopped_timer r del)) Ls' s in
     OSTimerStop (Some t) del s = Done OK s' /\ timers_at s' lc lf Lc' Lf' /\
     contents Lc ++ contents Lf ≡ₚ t :: (contents Lc' ++ contents Lf') /\
     (Lc' = Lc \/ Lf' = Lf)) /\
  OSTimerStop None del s = Done NULL_EVENT_POINTER s.
Proof. apply OSTimerStop_lemma. Qed.
End stopping.

(** ** Initialisation and the timer task's sleep *)
Section initial.
Context `{C : Config}.
Implicit Types (s : OS) (m : list BRTOS_TIMER_T) (t p : Z).

Definition no_timers : BRTOS_TMR_T := mkTmrList (replicate (Z.to_nat BRTOS_MAX_TIMER) None) 0.
Definition unused_timer : BRTOS_TIMER_T := mkTimer None 0 TIMER_NOT_USED.

Lemma no_timers_ok m : 2 <= BRTOS_MAX_TIMER <= 128 -> tlist_ok m no_timers.
Proof.
  intros Hmax. assert (forall i o, aget (tl_timers no_timers) i = Some o -> o = None) as Hnone.
  { intros i o Hi. unfold aget in Hi. case_match; [|done]. by apply lookup_replicate in Hi as [? _]. }
  split; try done.
  - cbn. rewrite length_replicate. lia.
  - cbn. lia.
  - intros i Hi. cbn in Hi. lia.
  - intros i o Hi _. by eapply Hnone.
  - destruct (contents no_timers) as [|t ts] eqn:E; [constructor|].
    assert (t ∈ contents no_timers) as [i Hi]%elem_of_contents by (rewrite E; left). by apply Hnone in Hi.
  - intros i Hi. cbn in Hi. lia.
Qed.

Lemma contents_no_timers : contents no_timers = [].
Proof. unfold contents, no_timers. cbn. by induction (Z.to_nat BRTOS_MAX_TIMER). Qed.

Lemma init_loop_lemma n : forall i m Ls s,
  0 <= i -> Z.of_nat (length m) = i + Z.of_nat n ->
  exists m', init_loop n i (put_timers m Ls s) = Done tt (put_timers m' Ls s) /\ length m' = length m /\
    forall j, 0 <= j < Z.of_nat (length m) -> aget m' j = if decide (i <= j) then Some unused_timer else aget m j.
Proof.
  induction n as [|n IH]; intros i m Ls s Hi Hlen.
  { exists m. split_and!; [done|done|]. intros j Hj. rewrite decide_False by lia. done. }
  destruct (aget_is_Some m i) as [r Hr]; [lia|]. cbn [init_loop]. tstep.
  do 2 (erewrite (bind_Done (upd_Timer i _)); [|eapply upd_Timer_put; by eapply aget_aset_eq]; rewrite aset_aset).
  change (set_tmr_timeout 0 _) with unused_timer.
  destruct (IH (i + 1) (aset m i unused_timer) Ls s) as (m' & Hrun & Hl & Hm); [lia|rewrite length_aset; lia|].
  rewrite length_aset in *. exists m'. split_and!; [done|done|]. intros j Hj. rewrite (Hm j Hj).
  destruct (decide (j = i)) as [->|].
  - rewrite decide_False, decide_True by lia. by eapply aget_aset_eq.
  - rewrite aget_aset_ne by done. repeat case_decide; try done; lia.
Qed.

(** Initialisation.  On lists that are empty, as they are when the program is
    loaded, [BRTOS_TimerTaskInit] never faults and establishes the invariant of
    the timers, with every timer unused and no timer running. *)
Theorem BRTOS_TimerTaskInit_establishes s :
  2 <= BRTOS_MAX_TIMER <= 128 -> Z.of_nat (length (timers_mem s)) = BRTOS_MAX_TIMER ->
  BRTOS_TMR s = [no_timers; no_timers] ->
  exists s', BRTOS_TimerTaskInit s = Done tt s' /\ timers_at s' 0 1 no_timers no_timers /\
    (forall t r, aget (timers_mem s') t = Some r -> r = unused_timer) /\ PRIMASK s' = PRIMASK s.
Proof.
  intros Hmax Hlen HT. destruct (in_create_timers s) as (E1 & E2 & E3 & _).
  set (v := mkTimerVector (timers_mem s) (Some 0) (Some 1) (tv_handling_task (BRTOS_TIMER_VECTOR s))).
  destruct (init_loop_lemma (Z.to_nat BRTOS_MAX_TIMER) 0 (timers_mem s) (BRTOS_TMR s)
              (set_BRTOS_TIMER_VECTOR v (in_create s))) as (m' & Hrun & Hl & Hm); [lia|lia|].
  assert (forall t r, aget m' t = Some r -> r = unused_timer) as Hall.
  { intros t r Hr. pose proof (aget_lt _ _ _ Hr). rewrite (Hm t) in Hr by lia.
    rewrite decide_True in Hr by lia. by injection Hr. }
  exists (put_timers m' (BRTOS_TMR s) (set_BRTOS_TIMER_VECTOR v s)). split_and!; [| |done|done].
  - unfold BRTOS_TimerTaskInit. rewrite enter_started.
    change (bind (modify ?f) ?K ?x) with (K tt (f x)). cbv beta.
    change (bind (modify ?f) ?K ?x) with (K tt (f x)). cbv beta.
    match goal with |- bind _ _ ?x = _ =>
      assert (x = put_timers (timers_mem s) (BRTOS_TMR s) (set_BRTOS_TIMER_VECTOR v (in_create s))) as -> end.
    { unfold put_timers, set_timers_mem, v, timers_mem. rewrite <- E3, <- E2. reflexivity. }
    rewrite (bind_Done _ _ _ _ _ Hrun). unfold put_timers, set_timers_mem, in_create, OSExitCritical_started.
    destruct s. cbn. by destruct (truthy currentTask) eqn:E; cbn; rewrite E.
  - split; try done; rewrite ?put_timers_lists, ?HT; try done. split; try by apply no_timers_ok.
    + rewrite contents_no_timers. constructor.
    + change (Z.of_nat (length m') = BRTOS_MAX_TIMER). by rewrite Hl.
    + intros t r Hr. rewrite contents_no_timers. apply Hall in Hr as ->. cbn. rewrite elem_of_nil. done.
    + intros t r Hr. apply Hall in Hr as ->. cbn. pose proof TICK_COUNT_OVERFLOW_big. lia.
Qed.

(** The timer task's sleep.  [BRTOS_TimerTaskSleep] puts the task into the
    delay list until the tick given, takes it off the ready list and gives the
    processor to the highest priority that can run; the kernel invariant is
    kept, and when the task is dispatched again the service returns. *)
Theorem BRTOS_TimerTaskSleep_sleeps s l p next :
  wf s l -> iNesting s = 0 -> task_at s p (currentTask s) -> 0 < p -> currentTask s ∉ l ->
  exists s1 k, BRTOS_TimerTaskSleep next s = Yield s1 k /\ wf s1 (l ++ [currentTask s]) /\ dispatched s1 /\
    OSReadyList s1 = andnot (OSReadyList s) (2 ^ p) /\ timer_vars s1 = timer_vars s /\
    sleeping s1 (currentTask s) p next /\ (forall s2, k s2 = Done tt (set_PRIMASK (PRIMASK s) s2)).
Proof.
  intros Hw Hn Ht Hp Hni. pose proof Ht as (_ & Ht0 & c & Hc & Hpc). pose proof (task_at_range s l p _ Hw Ht).
  unfold BRTOS_TimerTaskSleep. run.
  destruct (arm_timeout (set_PRIMASK true s) l p (currentTask s) c next)
    as (s1 & Hr & (ct & hd & tl & Hf) & Hw1 & Hsp & Hdl & c1 & Hc1 & Hp1 & HT);
    [by apply (wf_ext s)|by apply (task_at_ext s)|done|done|].
  change (set_ContextTask ?ct (set_PRIMASK true s)) with (set_PRIMASK true (set_ContextTask ct s)) in Hr.
  cbn in Hr. rewrite Hr. cbn. rewrite Hc1. cbn. rewrite Hp1, ready_remove_eq by lia. cbn.
  set (s2 := set_OSReadyList _ s1).
  assert (wf s2 (l ++ [currentTask s])) as Hw2 by (by apply wf_ready_remove).
  destruct (ChangeContext_lemma s2 (l ++ [currentTask s])) as (t & Hcc & Hw3 & Hdis & _);
    [done|by unfold s2; rewrite Hf|unfold s2; rewrite Hf in Hc1 |- *; by exists c1|].
  rewrite Hcc. cbn. destruct (switched_frame s2 t) as (Gr & _).
  eexists _, _. split_and!; [done|done|done| | | |done].
  - rewrite Gr. unfold s2. cbn. by rewrite Hf.
  - assert (timer_vars (switched t s2) = timer_vars s2) as -> by (unfold switched; by repeat case_match).
    unfold s2. by rewrite Hf.
  - destruct (switched_task s2 t (currentTask s) c1 Hc1) as (c3 & Hc3 & Hp3 & HW3).
    exists (l ++ [currentTask s]), c3. split_and!; [by apply wf_clock_ok|set_solver|done|congruence|congruence].
Qed.
End initial.

(** ** Defects of [OSTimerStop] *)
Section stop_defects.
Context `{C : Config}.
Implicit Types (s : OS) (m : list BRTOS_TIMER_T) (Ls : list BRTOS_TMR_T) (L Lc Lf : BRTOS_TMR_T) (t p l lc lf : Z).

Lemma search_slot_absent m Ls s l L fuel pos :
  aget Ls l = Some L -> tlist_ok m L ->
  (forall u r, aget m u = Some r -> u ∈ contents L -> tmr_state r <> TIMER_SEARCH) ->
  1 <= pos <= tl_count L + 1 -> tl_count L + 1 - pos < Z.of_nat fuel ->
  search_slot fuel l pos (put_timers m Ls s) = Done (tl_count L + 1) (put_timers m Ls s).
Proof.
  intros HL Hok Hs. revert pos. induction fuel as [|fuel IH]; intros pos Hp Hf; [lia|].
  cbn [search_slot]. erewrite (bind_Done (read BRTOS_TMR l)); [|by apply read_Some].
  pose proof (tl_range _ _ Hok). pose proof (tl_max _ _ Hok).
  destruct (pos <=? tl_count L) eqn:E; to_prop; [|replace pos with (tl_count L + 1) by lia; done].
  destruct (tl_live _ _ Hok pos) as (u & r & Hu & Hr); [lia|]. rewrite Hu.
  change (bind (lift (Some (Some u))) ?K ?x) with (K (Some u) x). cbv beta. do 2 tstep.
  specialize (Hs u r Hr ltac:(apply elem_of_contents; eauto)).
  rewrite (proj2 (Z.eqb_neq _ _) Hs), uint8_small by lia. apply IH; lia.
Qed.

(** Stopping a timer that is not running.  While timers of the next turn
    exist, [OSTimerStop] on a timer that has already been stopped or has fired
    does not find it, sifts up the slot past the end of the list and reads
    through its null pointer. *)
Theorem OSTimerStop_not_running_faults s lc lf Lc Lf p r del :
  timers_at s lc lf Lc Lf -> aget (timers_mem s) p = Some r -> tmr_state r <> TIMER_RUNNING ->
  tmr_timeout r < OSTickCounter s -> 0 < tl_count Lf -> OSTimerStop (Some p) del s = Fault.
Proof.
  intros Hat Hr Hst Hlt Hpos. pose proof Hat as [Hcur Hfut Hne HLc HLf [Hcok Hfok Hnd Hlen Hrun Htk]].
  destruct (stopped_not_listed s lc lf Lc Lf p r Hat Hr Hst) as [_ Hnf].
  destruct (in_create_timers s) as (_ & _ & E3 & E4 & _).
  pose proof (tl_range _ _ Hfok). pose proof (tl_max _ _ Hfok).
  unfold OSTimerStop. rewrite enter_started, in_create_put. do 3 tstep. rewrite E4, Z.geb_leb.
  rewrite (proj2 (Z.leb_gt _ _)) by lia.
  erewrite (bind_Done get_future); [|apply get_future_put; by rewrite E3]. tstep.
  set (m1 := aset (timers_mem s) p (set_tmr_state TIMER_SEARCH r)).
  erewrite (bind_Done (search_slot 256 lf 1)); [|eapply (search_slot_absent m1); [done|by apply tlist_ok_aset| |lia|lia]].
  2:{ intros u ru Hu Hin. unfold m1 in Hu. rewrite aget_aset_ne in Hu by (by intros ->).
      assert (tmr_state ru = TIMER_RUNNING) as ->; [|done]. apply (Hrun u ru Hu), elem_of_app. by right. }
  assert (aget m1 p = Some (set_tmr_state TIMER_SEARCH r)) as Hp1 by (by eapply aget_aset_eq). tstep.
  set (m2 := aset m1 p _).
  assert (forall m, Subir m (tl_timers Lf) (tl_count Lf + 1) = None) as Hsub.
  { intros m. unfold Subir. cbn [Subir_loop]. assert ((tl_count Lf + 1 >? 1) = true) as -> by lia.
    assert (key m (tl_timers Lf) (tl_count Lf + 1) = None) as Hk.
    { unfold key. destruct (aget (tl_timers Lf) (tl_count Lf + 1)) as [o|] eqn:Ho; [|done].
      by rewrite (tl_null _ _ Hfok _ _ Ho) by lia. }
    unfold sooner. by rewrite Hk. }
  unfold bind at 1. erewrite upd_list_fault; [done|exact HLf|]. cbv beta. by rewrite Hsub.
Qed.
End stop_defects.
