(* ===== verification/TimerTask.v ===== *)
(** * What the timer task promises

    The loop of [BRTOSTimerTask] of brtos/stimer.c over the expired timers.  The
    callbacks are arbitrary: they may change the system, choose their periods from
    it and take several ticks.  The log of a pass names every call of a callback,
    in order.  Exactly the expired timers fire, each once and in the order of their
    ticks, and are freed or started again; what a pass does after a turn of the
    counter ended early is described as well, and the defects of the lists'
    bookkeeping are proved. *)

From Stdlib Require Import ZArith Lia Sorted.
From stdpp Require Import base gmap numbers list.
From S2P Require Import Prelude Config State Sched DelayList Hal Clock Kernel Event Sample Tasks TimerHeap Timer TimerSpec.
#[local] Open Scope Z_scope.
#[local] Open Scope prog_scope.

(** ** The callbacks

    What the timer task relies on: from a state the application's callbacks may
    run in ([may_run]; the timers' variables play no part in it), a callback
    returns without having given up the processor, at most [delay] ticks later, to
    another such state; it does not call the timer services; and the period it
    returns is 0 (the timer does not repeat) or longer than the callbacks of two
    full lists take together. *)
Class Callbacks `{C : Config} (callback : Z -> prog Z) (delay : Z) (may_run : OS -> Prop) := {
  cb_delay : 0 <= delay;
  cb_timers v Ls s : may_run s -> may_run (set_BRTOS_TMR Ls (set_BRTOS_TIMER_VECTOR v s));
  cb_returns f s :
    may_run s -> 0 <= OSTickCounter s -> OSTickCounter s + delay < TICK_COUNT_OVERFLOW ->
    exists x s', callback f s = Done x s' /\ may_run s' /\ timer_vars s' = timer_vars s /\
      OSTickCounter s <= OSTickCounter s' <= OSTickCounter s + delay /\
      let repeat := uint ostick_bits x in
      repeat = 0 \/ 2 * BRTOS_MAX_TIMER * delay < repeat <= TIMER_MAX_COUNTER;
}.

(** One call of a callback by the timer task: the timer, its function, the
    period it returned and the tick when it did. *)
Record firing : Type := mkFiring {
  f_timer : Z;
  f_func : option Z;
  f_period : Z;
  f_tick : Z;
}.

Section firing.
Context `{C : Config} (callback : Z -> prog Z) (delay : Z) (may_run : OS -> Prop)
  `{!Callbacks callback delay may_run}.
Implicit Types (s : OS) (m : list BRTOS_TIMER_T) (Ls : list BRTOS_TMR_T) (r : BRTOS_TIMER_T)
  (L Lc Lf : BRTOS_TMR_T) (t l lc lf B : Z) (p : option Z) (e : firing) (fs : list firing).

(** ** The log of a pass *)

(** [repeat = p->func_cb()], and 0 for a NULL pointer. *)
Definition call (o : option Z) s (repeat : Z) s' : Prop :=
  match o with
  | Some f => exists x, callback f s = Done x s' /\ repeat = uint ostick_bits x
  | None => repeat = 0 /\ s' = s
  end.

(** [s'] is [s] but for the timers' variables. *)
Definition retimed s s' : Prop := exists v Ls, s' = set_BRTOS_TMR Ls (set_BRTOS_TIMER_VECTOR v s).

(** From [s] to [s'] the callbacks in [fs] were called, in this order, each for
    a timer whose function it was; in between only the timers' variables
    changed. *)
Inductive calls : OS -> list firing -> OS -> Prop :=
  | calls_nil s s' : retimed s s' -> calls s [] s'
  | calls_cons s s1 r e s2 fs s' :
      retimed s s1 -> aget (timers_mem s1) (f_timer e) = Some r -> tmr_func_cb r = f_func e ->
      call (f_func e) s1 (f_period e) s2 -> f_tick e = OSTickCounter s2 ->
      calls s2 fs s' -> calls s (e :: fs) s'.

(** A timer after the call [e]; [stored k] is how the loop stores tick [k]. *)
Definition rearmed (stored : Z -> Z) e r : BRTOS_TIMER_T :=
  if f_period e >? 0 then mkTimer (tmr_func_cb r) (stored (f_tick e + f_period e)) TIMER_RUNNING
  else mkTimer None 0 TIMER_NOT_USED.

(** A tick of this turn of the counter or the next, as the counter counts. *)
Definition in_turn (k : Z) : Z := k mod TICK_COUNT_OVERFLOW.

(** The timers of [fs] fired, once each, and the others are untouched. *)
Record fired_all (stored : Z -> Z) m fs m' : Prop := {
  fa_once : NoDup (f_timer <$> fs);
  fa_length : length m' = length m;
  fa_fired e r : e ∈ fs -> aget m (f_timer e) = Some r ->
    f_func e = tmr_func_cb r /\ aget m' (f_timer e) = Some (rearmed stored e r);
  fa_others u : u ∉ f_timer <$> fs -> aget m' u = aget m u;
}.

(** The lists afterwards: a timer that repeats is in the list of the turn of its
    next tick, one that does not is in none, and the others stay. *)
Record placed fs Lc Lf Lc' Lf' : Prop := {
  pl_fired e : e ∈ fs ->
    (f_timer e ∈ contents Lc' <-> 0 < f_period e /\ f_tick e + f_period e < TICK_COUNT_OVERFLOW) /\
    (f_timer e ∈ contents Lf' <-> 0 < f_period e /\ TICK_COUNT_OVERFLOW <= f_tick e + f_period e);
  pl_others u : u ∉ f_timer <$> fs ->
    (u ∈ contents Lc' <-> u ∈ contents Lc) /\ (u ∈ contents Lf' <-> u ∈ contents Lf);
}.

#[local] Lemma retimed_refl s : retimed s s.
Proof. exists (BRTOS_TIMER_VECTOR s), (BRTOS_TMR s). by destruct s. Qed.

#[local] Lemma retimed_put m Ls m' Ls' s : retimed (put_timers m Ls s) (put_timers m' Ls' s).
Proof. by eexists _, _. Qed.

#[local] Lemma calls_retimed s s1 fs s' : retimed s s1 -> calls s1 fs s' -> calls s fs s'.
Proof.
  assert (forall s2, retimed s s1 -> retimed s1 s2 -> retimed s s2) as Htrans
    by (intros s2 (v & Ls & ->) (v' & Ls' & ->); by exists v', Ls').
  intros Hr Hc. destruct Hc; [apply calls_nil; by apply Htrans|].
  by eapply calls_cons; [apply Htrans|..].
Qed.

#[local] Lemma calls_app s fs s1 fs' s' : calls s fs s1 -> calls s1 fs' s' -> calls s (fs ++ fs') s'.
Proof.
  induction 1 as [s s1 Hr|]; intros Hc; [by eapply calls_retimed|]. cbn. by eapply calls_cons; eauto.
Qed.

#[local] Lemma calls_last s fs s1 s' : calls s fs s1 -> retimed s1 s' -> calls s fs s'.
Proof. intros Hc Hr. rewrite <- (app_nil_r fs). eapply calls_app; [done|]. by apply calls_nil. Qed.

(** ** One callback *)

(** Timer [t], with record [r] in [m], was called as [e], from [s] to [s1]. *)
Record fires m Ls s t r e s1 : Prop := {
  fi_timer : f_timer e = t;
  fi_func : f_func e = tmr_func_cb r;
  fi_call : call (tmr_func_cb r) (put_timers (aset m t (set_tmr_state TIMER_STOPPED r)) Ls s) (f_period e)
                 (put_timers (aset m t (set_tmr_state TIMER_STOPPED r)) Ls s1);
  fi_tick : f_tick e = OSTickCounter s1;
  fi_run : may_run s1;
  fi_current : tv_current (BRTOS_TIMER_VECTOR s1) = tv_current (BRTOS_TIMER_VECTOR s);
  fi_future : tv_future (BRTOS_TIMER_VECTOR s1) = tv_future (BRTOS_TIMER_VECTOR s);
  fi_delay : OSTickCounter s <= OSTickCounter s1 <= OSTickCounter s + delay;
  fi_period : f_period e = 0 \/ 2 * BRTOS_MAX_TIMER * delay < f_period e <= TIMER_MAX_COUNTER;
}.

Lemma may_run_put m Ls s : may_run s -> may_run (put_timers m Ls s).
Proof. apply cb_timers. Qed.

Lemma put_timers_vars m Ls s s' :
  timer_vars s' = timer_vars (put_timers m Ls s) -> put_timers m Ls s' = s'.
Proof. intros [= Hv HT]. destruct s'. cbn in *. by subst. Qed.

Lemma timer_fire_lemma m Ls s t r :
  aget m t = Some r -> may_run s -> 0 <= OSTickCounter s ->
  OSTickCounter s + delay < TICK_COUNT_OVERFLOW ->
  exists e s1, fires m Ls s t r e s1 /\
    timer_fire callback t (put_timers m Ls s) =
    Done (f_period e) (put_timers (aset m t (set_tmr_state TIMER_STOPPED r)) Ls s1).
Proof.
  intros Hr Hrun H0 Hd. unfold timer_fire. tstep. set (m1 := aset m t _).
  assert (aget m1 t = Some (set_tmr_state TIMER_STOPPED r)) as Hr1 by (by eapply aget_aset_eq).
  tstep. change (tmr_func_cb (set_tmr_state TIMER_STOPPED r)) with (tmr_func_cb r).
  pose proof cb_delay. destruct (tmr_func_cb r) as [f|] eqn:Hf.
  - destruct (cb_returns f (put_timers m1 Ls s)) as (x & s1 & Hcb & Hrun1 & Hvars & Htick & Hper);
      [by apply may_run_put|done..|].
    pose proof (put_timers_vars m1 Ls s s1 Hvars) as Hput. cbn zeta in Hper.
    exists (mkFiring t (Some f) (uint ostick_bits x) (OSTickCounter s1)), s1.
    rewrite (bind_Done _ _ _ _ _ Hcb), Hput. split; [|done]. injection Hvars as Hv _.
    split; cbn; rewrite ?Hf, ?Hv; try done. exists x. fold m1. by rewrite Hput.
  - exists (mkFiring t None 0 (OSTickCounter s)), s. split; [|done].
    split; cbn; rewrite ?Hf; try done; [lia|by left].
Qed.

Lemma calls_fires m Ls s t r e s1 m' Ls' fs s' :
  aget m t = Some r -> fires m Ls s t r e s1 -> calls (put_timers m' Ls' s1) fs s' ->
  calls (put_timers m Ls s) (e :: fs) s'.
Proof.
  intros Hr [Ht Hf Hc Hk _ _ _ _ _] Hcs.
  set (m1 := aset m t (set_tmr_state TIMER_STOPPED r)) in *.
  apply (calls_cons _ (put_timers m1 Ls s) (set_tmr_state TIMER_STOPPED r) _ (put_timers m1 Ls s1));
    [apply retimed_put| |done|by rewrite Hf|done|].
  - rewrite Ht. by eapply aget_aset_eq.
  - by eapply calls_retimed; [apply retimed_put|].
Qed.

Lemma rearmed_below stored e r B :
  (0 < f_period e -> 0 <= stored (f_tick e + f_period e) < B) -> 0 < B ->
  0 <= tmr_timeout (rearmed stored e r) < B.
Proof. unfold rearmed. destruct (f_period e >? 0) eqn:E; to_prop; cbn; lia. Qed.

(** The end of a loop body, in its critical section. *)
Lemma body_finish m Ls s l L1 L' p (P : prog Z) timeout m2 Ls2 :
  P (put_timers m Ls (set_PRIMASK true s)) = Done timeout (put_timers m2 Ls2 (set_PRIMASK true s)) ->
  aget Ls2 l = Some L1 -> tmr_settle m2 L1 = Some L' -> aget (tl_timers L') 1 = Some p ->
  (CPU_SR <- OSEnterCritical ;;
   timeout <- P ;;
   p <- next_timer l ;;
   OSExitCritical CPU_SR ;;;
   ret (timeout, p)) (put_timers m Ls s) = Done (timeout, p) (put_timers m2 (aset Ls2 l L') s).
Proof.
  intros HP HL Hse Hp. assert (aget (aset Ls2 l L') l = Some L') as HL' by (by eapply aget_aset_eq).
  assert (next_timer l (put_timers m2 Ls2 (set_PRIMASK true s))
          = Done p (put_timers m2 (aset Ls2 l L') (set_PRIMASK true s))) as Hn.
  { unfold next_timer. tstep. by apply (first_timer_put _ _ _ _ L'). }
  rewrite (bind_Done OSEnterCritical _ (put_timers m Ls s) (PRIMASK s)
             (put_timers m Ls (set_PRIMASK true s)) eq_refl).
  rewrite (bind_Done _ _ _ _ _ HP), (bind_Done _ _ _ _ _ Hn). by destruct s.
Qed.

Lemma OSGetTickCount_eq s : OSGetTickCount s = Done (OSTickCounter s) s.
Proof. by destruct s. Qed.

(** ** One expired timer *)

(** The branches of [expire_one], on timers of which only [t] changed since
    [m]. *)
Section branches.
Variables (B : Z) (m : list BRTOS_TIMER_T) (Ls : list BRTOS_TMR_T) (s : OS) (lc lf : Z) (Lc Lf : BRTOS_TMR_T)
  (t : Z) (r r1 : BRTOS_TIMER_T).
Hypotheses (Hfut : tv_future (BRTOS_TIMER_VECTOR s) = Some lf) (Hne : lc <> lf)
  (HLc : aget Ls lc = Some Lc) (HLf : aget Ls lf = Some Lf)
  (Hrep : timers_below B m Lc Lf) (HB : 0 < B) (Hr : aget m t = Some r) (Hroot : aget (tl_timers Lc) 1 = Some (Some t)).

(** Only [t] differs. *)
Lemma agree_off_aset r' L : agree_off m (aset m t r') L t.
Proof. intros u _ Hu. by rewrite aget_aset_ne. Qed.

Lemma root_listed : t ∈ contents Lc /\ t ∉ contents Lf.
Proof.
  assert (t ∈ contents Lc) as Hin by (apply elem_of_contents; eauto). split; [done|].
  intros Hf. pose proof (tr_nodup _ _ _ _ Hrep) as Hnd. apply NoDup_app in Hnd as (_ & Hd & _).
  by apply (Hd t).
Qed.

(** The timer leaves its list, with [r'] as its new record. *)
Lemma leave_list r' :
  exists L1 Lc', tmr_remove Lc = Some L1 /\ tmr_settle (aset m t r') L1 = Some Lc' /\
    tlist_ok (aset m t r') Lc' /\ contents Lc ≡ₚ t :: contents Lc' /\
    (exists p, aget (tl_timers Lc') 1 = Some p).
Proof.
  pose proof Hrep as [Hcok _ _ _ _ _].
  destruct (tmr_pop_spec m (aset m t r') Lc t) as (L1 & Lc' & H1 & H2 & H3 & H4 & _);
    [done|done|apply agree_off_aset|].
  exists L1, Lc'. destruct (tlist_root _ _ H3) as (p & Hp & _). by eauto 10.
Qed.

Lemma free_branch (timeout : Z) :
  exists L1 Lc' p,
    (timer_free lc t ;;; ret timeout) (put_timers (aset m t r1) Ls s) =
      Done timeout (put_timers (aset m t (mkTimer None 0 TIMER_NOT_USED)) (aset Ls lc L1) s) /\
    tmr_settle (aset m t (mkTimer None 0 TIMER_NOT_USED)) L1 = Some Lc' /\
    aget (tl_timers Lc') 1 = Some p /\ contents Lc ≡ₚ t :: contents Lc' /\
    timers_below B (aset m t (mkTimer None 0 TIMER_NOT_USED)) Lc' Lf.
Proof.
  destruct (leave_list (mkTimer None 0 TIMER_NOT_USED)) as (L1 & Lc' & Hrm & Hse & Hok & Hct & p & Hp).
  pose proof Hrep as [_ Hfok Hnd _ _ _]. destruct root_listed as [_ Hnf].
  exists L1, Lc', p. split_and!; [|done..|].
  - assert (forall x y, aget (aset m t x) t = Some y <-> x = y) as Hget.
    { intros x y. rewrite (aget_aset_eq _ _ x _ Hr). split; [by intros [= ->]|by intros ->]. }
    unfold timer_free, bind at 1.
    do 3 (erewrite (bind_Done (upd_Timer t _)); [|eapply upd_Timer_put; by apply Hget]; rewrite aset_aset).
    erewrite upd_list_put; [|done|exact Hrm]. done.
  - rewrite Hct in Hnd. cbn in Hnd. apply NoDup_cons in Hnd as [Hni Hnd].
    eapply timers_below_update; [done|done|by apply tlist_ok_aset|done| | |cbn; lia].
    + intros u Hu. rewrite Hct. cbn. rewrite elem_of_cons. tauto.
    + split; [done|]. tauto.
Qed.

Lemma future_branch cb tick :
  0 <= tick < B -> tl_count Lf < BRTOS_MAX_TIMER - 1 ->
  tmr_func_cb r1 = cb -> tmr_state r1 = TIMER_RUNNING ->
  exists L1 Lc' Lf' p,
    timer_to_future lc t tick (put_timers (aset m t r1) Ls s) =
      Done tt (put_timers (aset m t (mkTimer cb tick TIMER_RUNNING)) (aset (aset Ls lf Lf') lc L1) s) /\
    tmr_settle (aset m t (mkTimer cb tick TIMER_RUNNING)) L1 = Some Lc' /\
    aget (tl_timers Lc') 1 = Some p /\ contents Lc ≡ₚ t :: contents Lc' /\
    contents Lf' ≡ₚ t :: contents Lf /\
    timers_below B (aset m t (mkTimer cb tick TIMER_RUNNING)) Lc' Lf'.
Proof.
  intros Htick Hroom Hcb Hst. set (r' := mkTimer cb tick TIMER_RUNNING).
  destruct (leave_list r') as (L1 & Lc' & Hrm & Hse & Hok & Hct & p & Hp).
  pose proof Hrep as [_ Hfok Hnd _ _ _]. destruct root_listed as [_ Hnf].
  destruct (tmr_insert_spec (aset m t r') Lf t r') as (Lf' & Hins & Hfok' & Hcf & _);
    [by apply tlist_ok_aset|done|done|by eapply aget_aset_eq|].
  exists L1, Lc', Lf', p. split_and!; [|done..|].
  - unfold timer_to_future.
    erewrite (bind_Done (upd_Timer t _)); [|eapply upd_Timer_put; by eapply aget_aset_eq].
    rewrite aset_aset. replace (set_tmr_timeout tick r1) with r' by (destruct r1; cbn in *; by subst).
    do 2 tstep. erewrite upd_list_put; [|by rewrite aget_aset_ne|exact Hrm]. done.
  - rewrite Hct in Hnd. cbn in Hnd. apply NoDup_cons in Hnd as [Hni Hnd].
    eapply timers_below_update; [done|done|done| | | |done].
    + rewrite Hcf, <- Permutation_middle. by apply NoDup_cons.
    + intros u Hu. rewrite Hct, Hcf, <- Permutation_middle. cbn. rewrite !elem_of_cons. tauto.
    + rewrite Hcf, <- Permutation_middle, elem_of_cons. tauto.
Qed.

Lemma stay_branch cb tick :
  0 <= tick < B ->
  exists Lc' p, tmr_settle (aset m t (mkTimer cb tick TIMER_RUNNING)) Lc = Some Lc' /\
    aget (tl_timers Lc') 1 = Some p /\ contents Lc' ≡ₚ contents Lc /\
    timers_below B (aset m t (mkTimer cb tick TIMER_RUNNING)) Lc' Lf.
Proof.
  intros Htick. pose proof Hrep as [Hcok Hfok Hnd _ _ _]. destruct root_listed as [Hin Hnf].
  set (r' := mkTimer cb tick TIMER_RUNNING).
  destruct (tmr_settle_spec m (aset m t r') Lc t r') as (Lc' & Hse & Hok & Hct & _);
    [done|done|apply agree_off_aset|by eapply aget_aset_eq|].
  destruct (tlist_root _ _ Hok) as (p & Hp & _). exists Lc', p. split_and!; [done..|].
  eapply timers_below_update; [done|done|by apply tlist_ok_aset| | | |done].
  - by rewrite Hct.
  - intros u _. by rewrite Hct.
  - rewrite Hct, elem_of_app. tauto.
Qed.
End branches.

(** How the lists change when a timer of list [Lc] fires. *)
Definition moved e Lc Lf Lc' Lf' : Prop :=
  if f_period e >? 0 then
    if f_tick e + f_period e <? TICK_COUNT_OVERFLOW
    then contents Lc' ≡ₚ contents Lc /\ contents Lf' ≡ₚ contents Lf
    else contents Lc ≡ₚ f_timer e :: contents Lc' /\ contents Lf' ≡ₚ f_timer e :: contents Lf
  else contents Lc ≡ₚ f_timer e :: contents Lc' /\ contents Lf' ≡ₚ contents Lf.

Lemma TIMER_MAX_COUNTER_eq : TIMER_MAX_COUNTER = TICK_COUNT_OVERFLOW - 1.
Proof.
  unfold TIMER_MAX_COUNTER. pose proof TICK_COUNT_OVERFLOW_eq. pose proof TICK_COUNT_OVERFLOW_big.
  apply uint_small. lia.
Qed.

Lemma in_turn_range k : 0 <= in_turn k < TICK_COUNT_OVERFLOW.
Proof. apply Z.mod_pos_bound. pose proof TICK_COUNT_OVERFLOW_big. lia. Qed.

(** The current list, with a free slot left in the other one. *)
Lemma room_left B m Lc Lf t :
  timers_below B m Lc Lf -> aget (tl_timers Lc) 1 = Some (Some t) ->
  Z.of_nat (length (contents Lc ++ contents Lf)) <= BRTOS_MAX_TIMER - 1 ->
  tl_count Lf < BRTOS_MAX_TIMER - 1.
Proof.
  intros [Hcok Hfok _ _ _ _] Hroot Htot. rewrite <- (contents_length m Lf) by done.
  rewrite length_app in Htot. destruct (tlist_root_live m Lc t Hcok Hroot) as (_ & _ & Hpos).
  rewrite <- (contents_length m Lc) in Hpos by done. lia.
Qed.

Lemma expire_one_lemma B m Ls s lc lf Lc Lf t r timeout :
  may_run s -> tv_future (BRTOS_TIMER_VECTOR s) = Some lf -> lc <> lf ->
  aget Ls lc = Some Lc -> aget Ls lf = Some Lf -> timers_below B m Lc Lf -> TICK_COUNT_OVERFLOW <= B ->
  aget m t = Some r -> aget (tl_timers Lc) 1 = Some (Some t) -> ostick_bits < 64 ->
  0 <= OSTickCounter s -> OSTickCounter s + delay < TICK_COUNT_OVERFLOW ->
  Z.of_nat (length (contents Lc ++ contents Lf)) <= BRTOS_MAX_TIMER - 1 ->
  exists e s1 Ls' Lc' Lf' p timeout', fires m Ls s t r e s1 /\
    expire_one callback lc t timeout (put_timers m Ls s) =
      Done (timeout', p) (put_timers (aset m t (rearmed in_turn e r)) Ls' s1) /\
    aget Ls' lc = Some Lc' /\ aget Ls' lf = Some Lf' /\ aget (tl_timers Lc') 1 = Some p /\
    timers_below B (aset m t (rearmed in_turn e r)) Lc' Lf' /\ moved e Lc Lf Lc' Lf'.
Proof.
  intros Hrun0 Hfut Hne HLc HLf Hrep HB Hr Hroot Hb H0 Hd0 Htot. unfold expire_one.
  destruct (timer_fire_lemma m Ls s t r) as (e & s1 & Hfires & Hfire); [done..|].
  rewrite (bind_Done _ _ _ _ _ Hfire). pose proof Hfires as [Ht _ _ Hk _ _ Hv Hdl Hper0].
  exists e, s1. set (repeat := f_period e) in *.
  assert (tv_future (BRTOS_TIMER_VECTOR (set_PRIMASK true s1)) = Some lf) as Hfut1 by (cbn; by rewrite Hv).
  set (r1 := set_tmr_state TIMER_STOPPED r). unfold moved, rearmed. rewrite Ht. fold repeat.
  destruct (repeat >? 0) eqn:Hper; to_prop; cycle 1.
  { destruct (free_branch B m Ls (set_PRIMASK true s1) lc Lc Lf t r r1 HLc Hrep ltac:(lia) Hr Hroot timeout)
      as (L1 & Lc' & p & Hrun & Hse & Hp & Hct & Hrep').
    exists (aset (aset Ls lc L1) lc Lc'), Lc', Lf, p, timeout. split_and!; try done.
    - apply (body_finish _ _ s1 lc L1 Lc' p _ timeout); [exact Hrun|by eapply aget_aset_eq|done|done].
    - rewrite aset_aset. by eapply aget_aset_eq.
    - by rewrite !aget_aset_ne. }
  assert (aget (aset m t r1) t = Some r1) as Hr1 by (by eapply aget_aset_eq).
  set (r2 := set_tmr_state TIMER_RUNNING r1).
  assert (forall P : Z -> prog Z,
    (upd_Timer t (set_tmr_state TIMER_RUNNING) ;;; now <- OSGetTickCount ;; P now)
      (put_timers (aset m t r1) Ls (set_PRIMASK true s1))
    = P (f_tick e) (put_timers (aset m t r2) Ls (set_PRIMASK true s1))) as Hpre.
  { intros P. tstep. rewrite aset_aset. fold r2.
    rewrite (bind_Done _ _ _ _ _ (OSGetTickCount_eq _)). tstep. cbn. by rewrite Hk. }
  pose proof TIMER_MAX_COUNTER_eq as Hmax.
  destruct (expiry_cases s1 repeat Hb) as (Hd & Hlo & Hhi & Hrange); [lia|lia|].
  unfold expiry in *. rewrite <- Hk in *. unfold in_turn.
  set (tick := (f_tick e + repeat) mod TICK_COUNT_OVERFLOW) in *.
  destruct (f_tick e + repeat <? TICK_COUNT_OVERFLOW) eqn:Hturn; to_prop.
  - destruct (Hlo Hturn) as [_ Htick].
    destruct (stay_branch B m Lc Lf t r Hrep Hr Hroot (tmr_func_cb r) tick ltac:(lia))
      as (Lc' & p & Hse & Hp & Hct & Hrep').
    exists (aset Ls lc Lc'), Lc', Lf, p, (f_tick e + repeat). split_and!; try done.
    + apply (body_finish _ _ s1 lc Lc Lc' p); [|done..]. rewrite Hpre, Hd.
      rewrite Z.geb_leb, (proj2 (Z.leb_gt _ _)), Htick by lia.
      erewrite (bind_Done (upd_Timer t _)); [|eapply upd_Timer_put; by eapply aget_aset_eq].
      by rewrite aset_aset.
    + by eapply aget_aset_eq.
    + by rewrite aget_aset_ne.
  - destruct (Hhi Hturn) as [_ Htick].
    destruct (future_branch B m Ls (set_PRIMASK true s1) lc lf Lc Lf t r r2 Hfut1 Hne HLc HLf Hrep Hr Hroot
                (tmr_func_cb r) tick ltac:(lia)) as (L1 & Lc' & Lf' & p & Hrun & Hse & Hp & Hct & Hcf & Hrep'); try done.
    { by eapply room_left. }
    assert (aget (aset (aset Ls lf Lf') lc L1) lc = Some L1) as HL1
      by (eapply aget_aset_eq; rewrite aget_aset_ne; done).
    eexists _, Lc', Lf', p, _. split_and!; [| |..]; try done.
    + apply (body_finish _ _ s1 lc L1 Lc' p); [|done..]. rewrite Hpre, Hd.
      rewrite Z.geb_leb, (proj2 (Z.leb_le _ _)), Htick by lia.
      rewrite (bind_Done _ _ _ _ _ Hrun). done.
    + by eapply aget_aset_eq.
    + rewrite !aget_aset_ne by done. by eapply aget_aset_eq.
Qed.

(** ** All expired timers *)

(** The timers of a list that expire up to tick [now]. *)
Definition due m (now : Z) (ts : list Z) : list Z := filter (fun t => timeout_of m t <= now) ts.

Lemma timeout_of_aset_ne m t r' u : u <> t -> timeout_of (aset m t r') u = timeout_of m u.
Proof. intros. unfold timeout_of. by rewrite aget_aset_ne. Qed.

Lemma timeout_of_aset_eq m t r r' : aget m t = Some r -> timeout_of (aset m t r') t = tmr_timeout r'.
Proof. intros Hr. unfold timeout_of. by rewrite (aget_aset_eq _ _ _ _ Hr). Qed.

Lemma due_ext m m' now ts :
  (forall u, u ∈ ts -> timeout_of m' u = timeout_of m u) -> due m' now ts = due m now ts.
Proof.
  induction ts as [|u ts IH]; intros H; [done|]. unfold due in *. rewrite !filter_cons, (H u), IH; [done|set_solver..].
Qed.

Lemma due_none m now ts : (forall u, u ∈ ts -> now < timeout_of m u) -> due m now ts = [].
Proof.
  induction ts as [|u ts IH]; intros H; [done|]. unfold due in *.
  rewrite filter_cons, decide_False; [apply IH; set_solver|]. specialize (H u). set_solver by lia.
Qed.

Lemma due_proper m now ts ts' : ts ≡ₚ ts' -> due m now ts ≡ₚ due m now ts'.
Proof. intros H. unfold due. by rewrite H. Qed.

(** A timer that repeats does so after the pass. *)
Lemma rearmed_later m t r e now :
  aget m t = Some r -> 0 <= f_tick e -> 0 < f_period e -> f_tick e + f_period e < TICK_COUNT_OVERFLOW ->
  now < f_tick e + f_period e -> now < timeout_of (aset m t (rearmed in_turn e r)) t.
Proof.
  intros Hr H0 Hp Hturn Hl. rewrite (timeout_of_aset_eq _ _ r) by done.
  unfold rearmed. assert ((f_period e >? 0) = true) as -> by lia.
  cbn [tmr_timeout]. unfold in_turn. by rewrite Z.mod_small by lia.
Qed.

Lemma fired_all_nil stored m : fired_all stored m [] m.
Proof. split; [constructor|done|intros e r He; by apply elem_of_nil in He|done]. Qed.

Lemma fired_all_cons stored m r e fs m' :
  f_timer e ∉ f_timer <$> fs -> aget m (f_timer e) = Some r -> f_func e = tmr_func_cb r ->
  fired_all stored (aset m (f_timer e) (rearmed stored e r)) fs m' -> fired_all stored m (e :: fs) m'.
Proof.
  intros Hni Hr Hf [Hnd Hlen Hfd Hot]. split.
  - rewrite fmap_cons. by constructor.
  - by rewrite Hlen, length_aset.
  - intros e' r' He Hr'. apply elem_of_cons in He as [->|He].
    + rewrite Hr in Hr'. injection Hr' as <-. split; [done|]. rewrite Hot by done. by eapply aget_aset_eq.
    + apply Hfd; [done|]. rewrite aget_aset_ne; [done|]. intros E. apply Hni. rewrite E. by apply list_elem_of_fmap_2.
  - intros u Hu. rewrite fmap_cons, not_elem_of_cons in Hu. destruct Hu as [Hne Hu].
    rewrite Hot by done. by rewrite aget_aset_ne by done.
Qed.

Lemma placed_nil Lc Lf : placed [] Lc Lf Lc Lf.
Proof. split; [intros e He; by apply elem_of_nil in He|done]. Qed.

Lemma placed_cons e fs Lc Lf Lc1 Lf1 Lc' Lf' :
  f_timer e ∉ f_timer <$> fs -> NoDup (contents Lc) -> f_timer e ∈ contents Lc -> f_timer e ∉ contents Lf ->
  0 <= f_period e -> moved e Lc Lf Lc1 Lf1 -> placed fs Lc1 Lf1 Lc' Lf' -> placed (e :: fs) Lc Lf Lc' Lf'.
Proof.
  intros Hni Hnd Hin Hnf H0 Hmv [Hfd Hot]. split.
  - intros e' He. apply elem_of_cons in He as [->|He]; [|by apply Hfd].
    destruct (Hot _ Hni) as [-> ->]. unfold moved in Hmv.
    destruct (f_period e >? 0) eqn:Hper; [destruct (_ <? _) eqn:Hturn|]; to_prop;
      destruct Hmv as [Hc Hf]; rewrite ?Hc, ?Hf in *; rewrite ?elem_of_cons in *;
      rewrite ?NoDup_cons in Hnd; naive_solver lia.
  - intros u Hu. rewrite fmap_cons, not_elem_of_cons in Hu. destruct Hu as [Hne Hu].
    destruct (Hot u Hu) as [-> ->]. unfold moved in Hmv.
    destruct (f_period e >? 0) eqn:Hper; [destruct (_ <? _) eqn:Hturn|];
      destruct Hmv as [Hc Hf]; rewrite ?Hc, ?Hf; rewrite ?elem_of_cons; tauto.
Qed.

Lemma fires_period m Ls s t r e s1 L : fires m Ls s t r e s1 -> tlist_ok m L -> 0 <= f_period e.
Proof. intros [_ _ _ _ _ _ _ _ Hp] [Hm _ _ _ _ _]. pose proof cb_delay. nia. Qed.

(** The loop over the list [Lc] (number [lc]) called [fs] and left the timers
    [m'] and the lists [Ls'], in which [p'] is the first timer.  [U] are the
    timers that did not fire before in this loop. *)
Record fired_pass B (U : list Z) m Ls s lc lf Lc Lf fs m' Ls' s' Lc' Lf' p' : Prop := {
  fp_calls : calls (put_timers m Ls s) fs (put_timers m' Ls' s');
  fp_due : f_timer <$> fs ≡ₚ due m (OSTickCounter s') U;
  fp_sorted : StronglySorted (fun t u => timeout_of m t <= timeout_of m u) (f_timer <$> fs);
  fp_fired : fired_all in_turn m fs m';
  fp_placed : placed fs Lc Lf Lc' Lf';
  fp_ticks e : e ∈ fs -> OSTickCounter s <= f_tick e <= OSTickCounter s';
  fp_time : OSTickCounter s <= OSTickCounter s' <= OSTickCounter s + Z.of_nat (length U) * delay;
  fp_Lc : aget Ls' lc = Some Lc';
  fp_Lf : aget Ls' lf = Some Lf';
  fp_root : aget (tl_timers Lc') 1 = Some p';
  fp_rep : timers_below B m' Lc' Lf';
  fp_later u : u ∈ contents Lc' -> OSTickCounter s' < timeout_of m' u;
  fp_run : may_run s';
  fp_current : tv_current (BRTOS_TIMER_VECTOR s') = tv_current (BRTOS_TIMER_VECTOR s);
  fp_future : tv_future (BRTOS_TIMER_VECTOR s') = tv_future (BRTOS_TIMER_VECTOR s);
}.

(** Nothing is due when the first timer is not. *)
Lemma fired_pass_nil B U m Ls s lc lf Lc Lf p :
  may_run s -> (forall u, u ∈ U -> u ∈ contents Lc) ->
  aget Ls lc = Some Lc -> aget Ls lf = Some Lf -> timers_below B m Lc Lf -> aget (tl_timers Lc) 1 = Some p ->
  (forall t, p = Some t -> OSTickCounter s < timeout_of m t) ->
  fired_pass B U m Ls s lc lf Lc Lf [] m Ls s Lc Lf p.
Proof.
  intros Hrun HU HLc HLf Hrep Hp Hlt. pose proof Hrep as [Hcok _ _ _ _ _].
  assert (forall u, u ∈ contents Lc -> OSTickCounter s < timeout_of m u) as Hall.
  { intros u Hu. destruct p as [t|].
    - pose proof (tlist_root_min m Lc t u Hcok Hp Hu). specialize (Hlt t eq_refl). lia.
    - destruct (tlist_root_null m Lc Hcok Hp) as [_ E]. rewrite E in Hu. by apply elem_of_nil in Hu. }
  pose proof cb_delay.
  split; try done; [apply calls_nil, retimed_refl| |constructor|apply fired_all_nil|apply placed_nil|
                   intros e He; by apply elem_of_nil in He|nia].
  rewrite due_none; [done|]. eauto.
Qed.

(** The first timer fires and the loop goes on. *)
Lemma fired_pass_cons B U m Ls s lc lf Lc Lf t r e s1 Ls1 Lc1 Lf1 fs m' Ls' s' Lc' Lf' p' :
  fires m Ls s t r e s1 -> timers_below B m Lc Lf -> aget m t = Some r ->
  aget (tl_timers Lc) 1 = Some (Some t) -> tmr_timeout r <= OSTickCounter s -> moved e Lc Lf Lc1 Lf1 ->
  (forall u, u ∈ U -> u ∈ contents Lc) -> t ∉ U ->
  fired_pass B U (aset m t (rearmed in_turn e r)) Ls1 s1 lc lf Lc1 Lf1 fs m' Ls' s' Lc' Lf' p' ->
  fired_pass B (t :: U) m Ls s lc lf Lc Lf (e :: fs) m' Ls' s' Lc' Lf' p'.
Proof.
  intros Hfires Hrep Hr Hroot Hle Hmv HU HtU
    [Hcs Hdue Hsort Hfd Hpl Htk Htime HLc' HLf' Hp' Hrep' Hlater Hrun Hcu Hfu].
  pose proof Hfires as [Ht Hf _ Hk _ Hcu1 Hfu1 Hdl Hper]. pose proof cb_delay as H0.
  pose proof Hrep as [Hcok _ Hnd _ _ _]. destruct (root_listed B m Lc Lf t Hrep Hroot) as [Hin Hnf].
  assert (NoDup (contents Lc)) as Hndc by (by apply NoDup_app in Hnd as (? & _ & _)).
  assert (forall u, u ∈ U -> timeout_of (aset m t (rearmed in_turn e r)) u = timeout_of m u) as Hk1.
  { intros u Hu. apply timeout_of_aset_ne. by intros ->. }
  rewrite (due_ext m _ _ U Hk1) in Hdue.
  assert (forall u, u ∈ f_timer <$> fs -> u ∈ U) as Hsub.
  { intros u Hu. rewrite Hdue in Hu. by apply list_elem_of_filter in Hu as [_ ?]. }
  assert (t ∉ f_timer <$> fs) as Hni by (intros Hx; by apply HtU, Hsub).
  assert (timeout_of m t = tmr_timeout r) as Ek by (unfold timeout_of; by rewrite Hr).
  split; try done; rewrite ?Ht.
  - by eapply calls_fires.
  - rewrite fmap_cons, Ht, Hdue. unfold due at 2. by rewrite filter_cons, decide_True by lia.
  - rewrite fmap_cons, Ht. constructor.
    + clear -Hsort Hk1 Hsub. induction Hsort as [|u us Hs IH Hfa]; constructor.
      * apply IH. intros v Hv. apply Hsub. by right.
      * rewrite Forall_forall in Hfa |- *. intros v Hv. specialize (Hfa v Hv).
        rewrite !Hk1 in Hfa by (apply Hsub; by left || by right). done.
    + apply Forall_forall. intros u Hu. apply (tlist_root_min m Lc); [done|done|]. by apply HU, Hsub.
  - apply (fired_all_cons _ _ r); by rewrite ?Ht.
  - eapply placed_cons; rewrite ?Ht; try done. by eapply fires_period.
  - intros e' He. apply elem_of_cons in He as [->|He]; [lia|]. specialize (Htk e' He). lia.
  - cbn [length]. rewrite Nat2Z.inj_succ. lia.
  - by rewrite Hcu.
  - by rewrite Hfu.
Qed.

Lemma moved_total e Lc Lf Lc' Lf' :
  moved e Lc Lf Lc' Lf' ->
  (length (contents Lc' ++ contents Lf') <= length (contents Lc ++ contents Lf))%nat.
Proof.
  unfold moved. rewrite !length_app. repeat case_match; intros [Hc Hf]; rewrite ?Hc, ?Hf; cbn; lia.
Qed.

(** The timers that have fired lie beyond the ticks the rest can take. *)
Lemma later_kept m t r e Lc Lf Lc1 Lf1 U (now now1 : Z) :
  aget m t = Some r -> t ∈ contents Lc -> f_timer e = t -> 0 <= f_tick e ->
  moved e Lc Lf Lc1 Lf1 -> (0 < f_period e -> now1 < f_tick e + f_period e) -> now1 <= now ->
  (forall v, v ∈ contents Lc -> v ∉ t :: U -> now < timeout_of m v) ->
  forall v, v ∈ contents Lc1 -> v ∉ U -> NoDup (contents Lc) ->
  now1 < timeout_of (aset m t (rearmed in_turn e r)) v.
Proof.
  intros Hr Hin Ht H0 Hmv Hp Hnow Hall v Hv HU Hnd.
  destruct (decide (v = t)) as [->|Hne].
  - unfold moved in Hmv. rewrite Ht in Hmv.
    destruct (f_period e >? 0) eqn:Hper; [destruct (_ <? _) eqn:Hturn|]; to_prop.
    + apply rearmed_later; auto.
    + exfalso. destruct Hmv as [Hc _]. rewrite Hc, NoDup_cons in Hnd. tauto.
    + exfalso. destruct Hmv as [Hc _]. rewrite Hc, NoDup_cons in Hnd. tauto.
  - rewrite timeout_of_aset_ne by done.
    assert (v ∈ contents Lc) as Hvc.
    { unfold moved in Hmv. rewrite Ht in Hmv.
      repeat case_match; destruct Hmv as [Hc _]; rewrite Hc in *; try done; by right. }
    specialize (Hall v Hvc). rewrite not_elem_of_cons in Hall. specialize (Hall (conj Hne HU)). lia.
Qed.

(** The loop fires the due timers among [U], in the order of their ticks; one
    iteration each. *)
Lemma expire_loop_lemma B fuel : forall U m Ls s lc lf Lc Lf p timeout,
  may_run s -> tv_future (BRTOS_TIMER_VECTOR s) = Some lf -> lc <> lf ->
  aget Ls lc = Some Lc -> aget Ls lf = Some Lf -> timers_below B m Lc Lf -> TICK_COUNT_OVERFLOW <= B ->
  aget (tl_timers Lc) 1 = Some p -> ostick_bits < 64 ->
  (forall u, u ∈ U -> u ∈ contents Lc) -> NoDup U -> Z.of_nat (length U) <= BRTOS_MAX_TIMER ->
  0 <= OSTickCounter s -> OSTickCounter s < TICK_COUNT_OVERFLOW ->
  OSTickCounter s + Z.of_nat (length U) * delay < TICK_COUNT_OVERFLOW ->
  (forall v, v ∈ contents Lc -> v ∉ U -> OSTickCounter s + Z.of_nat (length U) * delay < timeout_of m v) ->
  Z.of_nat (length (contents Lc ++ contents Lf)) <= BRTOS_MAX_TIMER - 1 ->
  (length U <= fuel)%nat ->
  exists fs m' Ls' s' Lc' Lf' p' timeout',
    expire_loop callback fuel lc p timeout (put_timers m Ls s) =
      Done (p', timeout') (put_timers m' Ls' s') /\
    fired_pass B U m Ls s lc lf Lc Lf fs m' Ls' s' Lc' Lf' p'.
Proof.
  pose proof cb_delay as Hd0.
  induction fuel as [|fuel IH];
    intros U m Ls s lc lf Lc Lf p timeout Hrun Hfut Hne HLc HLf Hrep HB Hp Hb HU Hnd HM H0 H1 Hroom Hkept Htot Hfuel.
  all: pose proof Hrep as [Hcok _ _ _ _ _]; destruct p as [t|];
    [|exists [], m, Ls, s, Lc, Lf, None, timeout; split; [done|by apply fired_pass_nil]].
  all: destruct (tlist_root_live m Lc t Hcok Hp) as (r & Hr & _);
    assert (timeout_of m t = tmr_timeout r) as Ek by (unfold timeout_of; by rewrite Hr);
    cbn [expire_loop]; tstep; rewrite (bind_Done _ _ _ _ _ (OSGetTickCount_eq _)); tstep;
    destruct (tmr_timeout r <=? OSTickCounter s) eqn:Hle; to_prop;
    [|exists [], m, Ls, s, Lc, Lf, (Some t), timeout; split; [done|apply fired_pass_nil; try done;
       intros t' [= <-]; lia]].
  all: destruct (root_listed B m Lc Lf t Hrep Hp) as [Hin _];
    assert (t ∈ U) as HtU by (destruct (decide (t ∈ U)) as [|Hx]; [done|]; specialize (Hkept t Hin Hx); nia).
  { exfalso. destruct U; [by apply elem_of_nil in HtU|cbn in Hfuel; lia]. }
  destruct (proj1 (elem_of_Permutation _ _) HtU) as [U' HU'].
  pose proof (Permutation_length HU') as Hlen. cbn in Hlen. rewrite Hlen in Hfuel, HM, Hroom, Hkept.
  rewrite HU', NoDup_cons in Hnd. destruct Hnd as [Hni Hnd].
  rewrite Nat2Z.inj_succ in HM, Hroom, Hkept.
  destruct (expire_one_lemma B m Ls s lc lf Lc Lf t r timeout)
    as (e & s1 & Ls1 & Lc1 & Lf1 & p1 & timeout1 & Hfires & Hone & HLc1 & HLf1 & Hp1 & Hrep1 & Hmv); try done; [nia|].
  rewrite (bind_Done _ _ _ _ _ Hone). cbn [fst snd].
  pose proof Hfires as [Ht _ _ Hk Hrun1 _ Hfu1 Hdl Hper]. pose proof (fires_period _ _ _ _ _ _ _ _ Hfires Hcok) as Hp0.
  pose proof (moved_total e Lc Lf Lc1 Lf1 Hmv). pose proof (tl_max _ _ Hcok) as HMx.
  assert (forall v, v ∈ U' -> v ∈ contents Lc) as HU1 by (intros v Hv; apply HU; rewrite HU'; by right).
  edestruct (IH U' (aset m t (rearmed in_turn e r)) Ls1 s1 lc lf Lc1 Lf1 p1 timeout1)
    as (fs & m' & Ls' & s' & Lc' & Lf' & p' & timeout' & Hloop & Hpass); try done; try lia; try nia.
  { by rewrite Hfu1. }
  { intros v Hv. assert (v <> t) by (by intros ->).
    unfold moved in Hmv. rewrite Ht in Hmv. specialize (HU1 v Hv).
    repeat case_match; destruct Hmv as [Hc _]; rewrite Hc in *; try done; by apply elem_of_cons in HU1 as [?|?]. }
  { intros v Hv HvU. apply (later_kept m t r e Lc Lf Lc1 Lf1 U' (OSTickCounter s + Z.succ (Z.of_nat (length U')) * delay));
      try done; [lia|intros ?; nia|nia| |by apply tl_nodup in Hcok].
    intros w Hw HwU. apply Hkept; [done|]. by rewrite HU'. }
  exists (e :: fs), m', Ls', s', Lc', Lf', p', timeout'. split; [exact Hloop|].
  destruct (fired_pass_cons B U' m Ls s lc lf Lc Lf t r e s1 Ls1 Lc1 Lf1 fs m' Ls' s' Lc' Lf' p')
    as [G1 G2 G3 G4 G5 G6 G7 G8 G9 G10 G11 G12 G13 G14 G15]; try done.
  split; try done; [|by rewrite Hlen].
  rewrite G2. apply due_proper. by rewrite HU'.
Qed.

(** ** A pass of the timer task *)

(** The tick the timer task sleeps until: that of the first timer. *)
Definition wakes_at m L (next : Z) : Prop :=
  (contents L = [] /\ next = TIMER_MAX_COUNTER) \/
  (exists t, t ∈ contents L /\ next = timeout_of m t /\ forall u, u ∈ contents L -> next <= timeout_of m u).

Lemma wake_time_lemma m Ls s L p :
  tlist_ok m L -> aget (tl_timers L) 1 = Some p ->
  exists next, wake_time p (put_timers m Ls s) = Done next (put_timers m Ls s) /\ wakes_at m L next.
Proof.
  intros Hok Hp. destruct p as [t|].
  - destruct (tlist_root_live m L t Hok Hp) as (r & Hr & _). exists (tmr_timeout r). split.
    + unfold wake_time. by tstep.
    + right. exists t. assert (timeout_of m t = tmr_timeout r) as <- by (unfold timeout_of; by rewrite Hr).
      split_and!; [apply elem_of_contents; eauto|done|]. intros u Hu. by apply (tlist_root_min m L).
  - exists TIMER_MAX_COUNTER. split; [done|]. left. by destruct (tlist_root_null m L Hok Hp).
Qed.

(** The two lists exchanged. *)
Definition exchanged s : OS :=
  set_BRTOS_TIMER_VECTOR (set_tv_future (tv_current (BRTOS_TIMER_VECTOR s))
    (set_tv_current (tv_future (BRTOS_TIMER_VECTOR s)) (BRTOS_TIMER_VECTOR s))) s.

Lemma switch_lists_put m Ls s lf :
  tv_future (BRTOS_TIMER_VECTOR s) = Some lf ->
  switch_lists (put_timers m Ls s) = Done lf (put_timers m Ls (exchanged s)).
Proof.
  intros Hf. unfold switch_lists, get_current, put_timers, exchanged, set_timers_mem. cbn.
  by rewrite Hf.
Qed.

#[local] Lemma retimed_exchanged m Ls m' Ls' s : retimed (put_timers m Ls s) (put_timers m' Ls' (exchanged s)).
Proof. by eexists _, _. Qed.

(** What the end of a pass leaves of the lists [Lc] and [Lf]: the same lists, or
    the two exchanged if [Lc] is empty; the task will sleep until the first
    timer of its list. *)
Definition pass_end B s' lc lf Lc Lf (next : Z) : Prop :=
  (timers_at_below B s' lc lf Lc Lf /\ wakes_at (timers_mem s') Lc next) \/
  (timers_at_below B s' lf lc Lf Lc /\ contents Lc = [] /\ wakes_at (timers_mem s') Lf next).

Lemma pass_ends B m Ls s lc lf Lc Lf p timeout :
  tv_current (BRTOS_TIMER_VECTOR s) = Some lc -> tv_future (BRTOS_TIMER_VECTOR s) = Some lf -> lc <> lf ->
  aget Ls lc = Some Lc -> aget Ls lf = Some Lf -> timers_below B m Lc Lf -> aget (tl_timers Lc) 1 = Some p ->
  exists next s',
    bind (if (timeout >? TIMER_MAX_COUNTER) && bool_decide (p = None)
          then list <- switch_lists ;; first_timer list else ret p)
      (fun p => next <- wake_time p ;; ret (next, timeout)) (put_timers m Ls s) = Done (next, timeout) s' /\
    retimed (put_timers m Ls s) s' /\ timers_mem s' = m /\ OSTickCounter s' = OSTickCounter s /\
    pass_end B s' lc lf Lc Lf next.
Proof.
  intros Hcur Hfut Hne HLc HLf Hrep Hp. pose proof Hrep as [Hcok Hfok _ _ _ _].
  destruct ((timeout >? TIMER_MAX_COUNTER) && bool_decide (p = None)) eqn:Hsw.
  - apply andb_true_iff in Hsw as [_ ->%bool_decide_eq_true].
    destruct (tlist_root m Lf Hfok) as (q & Hq & _).
    destruct (wake_time_lemma m Ls (exchanged s) Lf q Hfok Hq) as (next & Hwk & Hwa).
    exists next, (put_timers m Ls (exchanged s)). split_and!; [|apply retimed_exchanged|done|done|].
    + unfold bind at 1. rewrite (bind_Done _ _ _ _ _ (switch_lists_put m Ls s lf Hfut)).
      rewrite (first_timer_put _ _ _ _ Lf q) by done. cbn [rbind]. by rewrite (bind_Done _ _ _ _ _ Hwk).
    + right. split_and!; [|by destruct (tlist_root_null m Lc Hcok Hp)|done].
      split; try done. by apply timers_below_swap.
  - destruct (wake_time_lemma m Ls s Lc p Hcok Hp) as (next & Hwk & Hwa).
    exists next, (put_timers m Ls s). split_and!; [|apply retimed_put|done|done|by left].
    change (bind (ret ?a) ?K ?x) with (K a x). cbv beta. by rewrite (bind_Done _ _ _ _ _ Hwk).
Qed.

Lemma due_length m L now :
  tlist_ok m L -> (length (due m now (contents L)) <= Z.to_nat BRTOS_MAX_TIMER)%nat.
Proof.
  intros Hok. pose proof (contents_length m L Hok). pose proof (tl_range _ _ Hok).
  pose proof (length_filter (fun t => timeout_of m t <= now) (contents L)). unfold due. lia.
Qed.

(** The timers that may fire in a pass take less than [BRTOS_MAX_TIMER] times
    [delay] ticks. *)
Lemma pass_room m L now k :
  tlist_ok m L -> now + k * BRTOS_MAX_TIMER * delay < TICK_COUNT_OVERFLOW -> 0 <= k ->
  now + k * Z.of_nat (length (contents L)) * delay < TICK_COUNT_OVERFLOW /\
  Z.of_nat (length (contents L)) <= BRTOS_MAX_TIMER - 1 /\ now < TICK_COUNT_OVERFLOW.
Proof.
  intros Hok Hlt Hk. pose proof (contents_length m L Hok). pose proof (tl_range _ _ Hok). pose proof cb_delay.
  assert (k * Z.of_nat (length (contents L)) * delay <= k * BRTOS_MAX_TIMER * delay).
  { apply Z.mul_le_mono_nonneg_r; [done|]. apply Z.mul_le_mono_nonneg_l; lia. }
  assert (0 <= k * Z.of_nat (length (contents L)) * delay) by nia. lia.
Qed.

Lemma timer_pass_lemma s lc lf Lc Lf timeout :
  timers_at s lc lf Lc Lf -> may_run s -> ostick_bits < 64 -> 0 <= OSTickCounter s ->
  OSTickCounter s + BRTOS_MAX_TIMER * delay < TICK_COUNT_OVERFLOW ->
  Z.of_nat (length (contents Lc ++ contents Lf)) <= BRTOS_MAX_TIMER - 1 ->
  (forall t, aget (tl_timers Lc) 1 = Some (Some t) -> timeout_of (timers_mem s) t <= OSTickCounter s) ->
  exists fs s' Lc' Lf' next timeout',
    timer_pass callback (Z.to_nat BRTOS_MAX_TIMER) timeout s = Done (next, timeout') s' /\
    calls s fs s' /\
    (forall e, e ∈ fs -> OSTickCounter s <= f_tick e <= OSTickCounter s') /\
    (f_timer <$> fs ≡ₚ due (timers_mem s) (OSTickCounter s') (contents Lc)) /\
    StronglySorted (fun t u => timeout_of (timers_mem s) t <= timeout_of (timers_mem s) u) (f_timer <$> fs) /\
    fired_all in_turn (timers_mem s) fs (timers_mem s') /\ placed fs Lc Lf Lc' Lf' /\
    (forall u, u ∈ contents Lc' -> OSTickCounter s' < timeout_of (timers_mem s') u) /\
    pass_end TICK_COUNT_OVERFLOW s' lc lf Lc' Lf' next.
Proof.
  intros [Hcur Hfut Hne HLc HLf Hrep] Hrun0 Hb H0 Hroom Htot Hdue. pose proof Hrep as [Hcok _ _ _ _ _].
  set (m := timers_mem s) in *. set (Ls := BRTOS_TMR s) in *.
  destruct (tlist_root m Lc Hcok) as (p & Hp & _).
  destruct (pass_room m Lc (OSTickCounter s) 1) as (HU & HM & H1); [done|lia|lia|].
  destruct (expire_loop_lemma TICK_COUNT_OVERFLOW (Z.to_nat BRTOS_MAX_TIMER) (contents Lc) m Ls s lc lf Lc Lf p timeout)
    as (fs & m' & Ls' & s1 & Lc' & Lf' & p' & timeout' & Hloop &
        [Hcs Hd Hs Hfd Hpl Htk _ HLc' HLf' Hp' Hrep' Hlater _ Hcu Hfu]); try done; try lia.
  { by apply tl_nodup in Hcok. }
  set (late := match p with
          | None => ret false
          | Some t => r <- Timer t ;; now <- OSGetTickCount ;; ret (tmr_timeout r >? now)
          end : prog bool).
  assert (late (put_timers m Ls s) = Done false (put_timers m Ls s)) as Hlate.
  { unfold late. destruct p as [t|]; [|done]. destruct (tlist_root_live m Lc t Hcok Hp) as (r & Hr & _).
    tstep. rewrite (bind_Done _ _ _ _ _ (OSGetTickCount_eq _)). tstep.
    specialize (Hdue t Hp). unfold timeout_of in Hdue. rewrite Hr in Hdue.
    unfold ret. f_equal. lia. }
  destruct (pass_ends TICK_COUNT_OVERFLOW m' Ls' s1 lc lf Lc' Lf' p' timeout')
    as (next & s' & Hend & Hre & Hm' & Ht' & Hpe); try done; [by rewrite Hcu|by rewrite Hfu|].
  rewrite <- Ht', <- ?Hm' in *.
  exists fs, s', Lc', Lf', next, timeout'. split_and!; try done.
  - rewrite <- (put_timers_id s). fold m Ls. unfold timer_pass. tstep. tstep.
    rewrite (bind_Done _ _ _ _ _ Hlate). change (bind (ret ?a) ?K ?x) with (K a x). cbv beta iota.
    by rewrite (bind_Done _ _ _ _ _ Hloop).
  - rewrite <- (put_timers_id s). fold m Ls. by eapply calls_last.
Qed.

(** C14: the timer task fires what is due.  Let the timer task wake on a tick that
    the first timer of the current list does not lie beyond, with at most
    BRTOS_MAX_TIMER - 1 running timers, in a state the callbacks may run in; and
    let every callback, from such a state, return to such a state without giving
    up the processor or calling the timer services, at most [delay] ticks after
    its call, with a period that is 0 or longer than
    2 * BRTOS_MAX_TIMER * [delay]; and let the turn of the counter (of 16 or 32
    bits) not end within BRTOS_MAX_TIMER * [delay] ticks.  Then its pass ends, whatever the task's
    variable [timeout] holds, and has called the callback of exactly the timers
    whose tick had come when it ended, each once, in the order of their ticks;
    each of them is freed, or runs again and will expire its period after the
    tick on which its callback returned, in the list of the right turn; the other
    timers are untouched and lie in the future, both lists are heaps again, and
    the task will sleep until the first timer of its list. *)
Theorem timer_pass_fires_due s lc lf Lc Lf timeout :
  timers_at s lc lf Lc Lf -> may_run s -> ostick_bits < 64 -> 0 <= OSTickCounter s ->
  OSTickCounter s + BRTOS_MAX_TIMER * delay < TICK_COUNT_OVERFLOW ->
  Z.of_nat (length (contents Lc ++ contents Lf)) <= BRTOS_MAX_TIMER - 1 ->
  (forall t, aget (tl_timers Lc) 1 = Some (Some t) -> timeout_of (timers_mem s) t <= OSTickCounter s) ->
  exists fs s' Lc' Lf' next timeout',
    timer_pass callback (Z.to_nat BRTOS_MAX_TIMER) timeout s = Done (next, timeout') s' /\
    calls s fs s' /\
    (forall e, e ∈ fs -> OSTickCounter s <= f_tick e <= OSTickCounter s') /\
    (f_timer <$> fs ≡ₚ due (timers_mem s) (OSTickCounter s') (contents Lc)) /\
    StronglySorted (fun t u => timeout_of (timers_mem s) t <= timeout_of (timers_mem s) u) (f_timer <$> fs) /\
    fired_all in_turn (timers_mem s) fs (timers_mem s') /\ placed fs Lc Lf Lc' Lf' /\
    (forall u, u ∈ contents Lc' -> OSTickCounter s' < timeout_of (timers_mem s') u) /\
    pass_end TICK_COUNT_OVERFLOW s' lc lf Lc' Lf' next.
Proof. apply timer_pass_lemma. Qed.

(** ** From setting a timer to its callback *)

Lemma sleeping_set s h ph W tick :
  sleeping s h ph W ->
  exists c, aget (ContextTask s) h = Some c /\
    sleeping (set_ContextTask (aset (ContextTask s) h (set_TimeToWait tick c)) s) h ph tick.
Proof.
  intros (l & c & (Hd & Hlen & Hp) & Hin & Hc & Hw & Hpr). exists c. split; [done|].
  exists l, (set_TimeToWait tick c). split_and!; [|done|by eapply aget_aset_eq|done|done].
  split_and!; [by eapply delay_list_aset_links|cbn; by rewrite length_aset|].
  intros u Hu. specialize (Hp u Hu). unfold prio_of in *. cbn.
  destruct (decide (h = u)) as [->|]; [|by rewrite aget_aset_ne].
  rewrite (aget_aset_eq _ _ _ _ Hc). by rewrite Hc in Hp.
Qed.

Lemma sleeping_ext s s' h ph W :
  ContextTask s' = ContextTask s -> Head s' = Head s -> Tail s' = Tail s ->
  sleeping s h ph W -> sleeping s' h ph W.
Proof.
  intros Hct Hh Ht (l & c & (Hd & Hlen & Hp) & Hin & Hc & Hw & Hpr).
  exists l, c. split_and!; [|done|by rewrite Hct|done|done].
  split_and!; [by eapply delay_list_ext|by rewrite Hct|].
  intros u Hu. unfold prio_of. rewrite Hct. by apply Hp.
Qed.

Lemma timers_at_vars s s' lc lf Lc Lf :
  timer_vars s' = timer_vars s -> timers_at s lc lf Lc Lf -> timers_at s' lc lf Lc Lf.
Proof.
  intros [= Hv HT] [H1 H2 H3 H4 H5 H6]. unfold timers_mem in *.
  split; rewrite ?HT, ?Hv; try done. unfold timers_mem. by rewrite Hv.
Qed.

(** C13: a timer fires on time.  While the timer task sleeps in the delay list, the
    control blocks of the timers are initialised and fewer than BRTOS_MAX_TIMER - 1
    timers run, a task sets a timer, with success, that is to expire in this turn of
    the counter and before every other one.  The timer task then sleeps through the
    next [w - 1] ticks and is made ready by the [w]-th; and if it gets the processor
    on that tick, in a state the callbacks may run in, its pass ends, whatever its
    variable [timeout] holds, and calls the timer's callback in it.  The callbacks are
    those of C14: they return at most [delay] ticks after their call without having
    given up the processor or called the timer services, with a period that is 0
    or longer than 2 * BRTOS_MAX_TIMER * [delay], and the turn (of 16 or 32 bits)
    does not end within BRTOS_MAX_TIMER * [delay] ticks after the [w]-th. *)
Theorem timer_fires_on_time s lc lf Lc Lf v f w ph W (p : Z) s' timeout :
  timers_at s lc lf Lc Lf ->
  (forall t r, aget (timers_mem s) t = Some r -> tmr_state r <> TIMER_NOT_ALLOCATED) ->
  ostick_bits < 64 -> 0 <= OSTickCounter s -> 0 < w ->
  OSTickCounter s + w + BRTOS_MAX_TIMER * delay < TICK_COUNT_OVERFLOW ->
  Z.of_nat (length (contents Lc ++ contents Lf)) < BRTOS_MAX_TIMER - 1 ->
  currentTask s <> 0 -> sleeping s (tv_handling_task (BRTOS_TIMER_VECTOR s)) ph W ->
  first_to_expire (timers_mem s) Lc (OSTickCounter s + w) = true ->
  OSTimerSet (Some v) (Some f) w s = Done (OK, Some (Some p)) s' ->
  (forall s1, ticks (Z.to_nat w) s' = Done tt s1 -> may_run s1) ->
  let h := tv_handling_task (BRTOS_TIMER_VECTOR s) in
  (forall n, Z.of_nat n < w -> exists s1, ticks n s' = Done tt s1 /\ sleeping s1 h ph (OSTickCounter s + w)) /\
  (exists s1 fs e s2 next timeout', ticks (Z.to_nat w) s' = Done tt s1 /\ woken s1 h ph /\
     OSTickCounter s1 = OSTickCounter s + w /\
     timer_pass callback (Z.to_nat BRTOS_MAX_TIMER) timeout s1 = Done (next, timeout') s2 /\
     calls s1 fs s2 /\ e ∈ fs /\ f_timer e = p /\ f_func e = Some f /\ OSTickCounter s1 <= f_tick e).
Proof.
  intros Hat Hall Hb H0 Hw Hroom Htot Hcur Hsl Hfirst Hset Hmay h.
  pose proof Hat as [_ _ _ _ _ [Hcok Hfok _ _ _ _]]. pose proof cb_delay as Hd0. pose proof (tl_max _ _ Hcok) as HMx.
  assert (OSTickCounter s + w < TICK_COUNT_OVERFLOW) as Hturn by nia.
  assert (0 <= OSTickCounter s < TICK_COUNT_OVERFLOW) as Hn by lia.
  destruct (sleeping_set s h ph W (expiry s w) Hsl) as (c & Hc & Hsl').
  destruct (expiry_cases s w) as (_ & Hlo & _ & _); [done|done|lia|]. destruct (Hlo Hturn) as [Ee _].
  pose proof (contents_length _ _ Hcok). rewrite length_app in Htot.
  destruct (OSTimerSet_lemma s lc lf Lc Lf v f w)
    as [[Hr _]|(q & s2 & Lc' & Lf' & [(r0 & Hr0 & _) _] & Hr & Hat' & [Hf' Hm' Hl' Hw'])]; try done; try lia.
  { rewrite (proj2 (Z.ltb_lt _ _)) by lia. lia. }
  { by rewrite Hset in Hr. }
  rewrite Hset in Hr. injection Hr as <- <-.
  assert ((OSTickCounter s + w <? TICK_COUNT_OVERFLOW) = true) as Hlt by lia.
  rewrite Hlt in Hl'. destruct Hl' as [Hct ->].
  specialize (Hw' c Hc). rewrite Hlt, truthy_nz, Ee, Hfirst in Hw' by done. cbn [andb] in Hw'. rewrite Ee in Hsl', Hm'.
  assert (sleeping s' h ph (OSTickCounter s + w)) as Hs'.
  { eapply sleeping_ext; [..|exact Hsl']; [exact Hw'|by rewrite Hf'..]. }
  assert (OSTickCounter s' = OSTickCounter s) as Et by (by rewrite Hf').
  assert (wake_tick (OSTickCounter s) w = OSTickCounter s + w) as Ew
    by (rewrite wake_tick_mod by lia; apply Z.mod_small; lia).
  destruct (delay_lemma s' h ph w) as [Hbefore (s1 & Hrun & Htk & Hv & Hwk)]; rewrite ?Et, ?Ew; try done; [lia|].
  rewrite Et, Ew in *. split.
  { intros n Hlt'. destruct (Hbefore n Hlt') as (s3 & ? & _ & _ & ?). eauto. }
  pose proof (timers_at_vars s' s1 lc lf Lc' Lf Hv Hat') as Hat1.
  assert (timers_mem s1 = timers_mem s') as Em by (unfold timers_mem; by injection Hv as ->).
  assert (aget (timers_mem s1) p = Some (mkTimer (Some f) (OSTickCounter s + w) TIMER_RUNNING)) as Hp
    by (rewrite Em, Hm'; by eapply aget_aset_eq).
  assert (timeout_of (timers_mem s1) p = OSTickCounter s + w) as Ep by (unfold timeout_of; by rewrite Hp).
  assert (p ∈ contents Lc') as Hin by (rewrite Hct; by left).
  destruct (timer_pass_lemma s1 lc lf Lc' Lf timeout)
    as (fs & s2 & Lc2 & Lf2 & next & timeout' & Hpass & Hcs & Htks & Hdue & _ & Hfd & _ & _ & Hend);
    try done; try lia; [by apply Hmay|rewrite length_app, Hct; cbn; lia| |].
  { intros t Ht. destruct Hat1 as [_ _ _ _ _ [Hok1 _ _ _ _ _]].
    pose proof (tlist_root_min _ Lc' t p Hok1 Ht Hin). lia. }
  assert (OSTickCounter s1 <= OSTickCounter s2) as Hmono.
  { destruct fs as [|e fs]; [inversion Hcs; subst; by destruct H1 as (? & ? & ->)|].
    specialize (Htks e ltac:(by left)). lia. }
  assert (p ∈ f_timer <$> fs) as Hpf by (rewrite Hdue; apply list_elem_of_filter; split; [lia|done]).
  apply list_elem_of_fmap in Hpf as (e & -> & He).
  destruct (fa_fired _ _ _ _ Hfd e _ He Hp) as [Hfe _].
  exists s1, fs, e, s2, next, timeout'. split_and!; try done. by apply Htks.
Qed.

(** ** A turn that ended while the timer task was kept waiting *)

(** How the first loop stores the tick of a timer that repeats: without
    reducing it to the turn. *)
Definition unreduced (k : Z) : Z := uint ostick_bits k.

(** One past the largest value of a tick. *)
Definition tick_values : Z := 2 ^ ostick_bits.

Lemma tick_values_eq : tick_values = TICK_COUNT_OVERFLOW + 4.
Proof. unfold tick_values. pose proof TICK_COUNT_OVERFLOW_eq. lia. Qed.

Lemma unreduced_range k : 0 <= unreduced k < tick_values.
Proof. unfold unreduced, uint, tick_values. apply Z.mod_pos_bound. pose proof tick_values_eq. pose proof TICK_COUNT_OVERFLOW_big. unfold tick_values in *. lia. Qed.

(** How the lists change when a timer of a turn that is over fires. *)
Definition moved_late e Lc Lf Lc' Lf' : Prop :=
  contents Lc ≡ₚ f_timer e :: contents Lc' /\
  contents Lf' ≡ₚ (if f_period e >? 0 then f_timer e :: contents Lf else contents Lf).

Lemma late_one_lemma m Ls s lc lf Lc Lf t r timeout :
  may_run s -> tv_future (BRTOS_TIMER_VECTOR s) = Some lf -> lc <> lf ->
  aget Ls lc = Some Lc -> aget Ls lf = Some Lf -> timers_below tick_values m Lc Lf ->
  aget m t = Some r -> aget (tl_timers Lc) 1 = Some (Some t) -> ostick_bits < 64 ->
  0 <= OSTickCounter s -> OSTickCounter s + delay < TICK_COUNT_OVERFLOW ->
  Z.of_nat (length (contents Lc ++ contents Lf)) <= BRTOS_MAX_TIMER - 1 ->
  exists e s1 Ls' Lc' Lf' p timeout', fires m Ls s t r e s1 /\
    late_one callback lc t timeout (put_timers m Ls s) =
      Done (timeout', p) (put_timers (aset m t (rearmed unreduced e r)) Ls' s1) /\
    aget Ls' lc = Some Lc' /\ aget Ls' lf = Some Lf' /\ aget (tl_timers Lc') 1 = Some p /\
    timers_below tick_values (aset m t (rearmed unreduced e r)) Lc' Lf' /\ moved_late e Lc Lf Lc' Lf'.
Proof.
  intros Hrun0 Hfut Hne HLc HLf Hrep Hr Hroot Hb H0 Hd0 Htot. unfold late_one.
  destruct (timer_fire_lemma m Ls s t r) as (e & s1 & Hfires & Hfire); [done..|].
  rewrite (bind_Done _ _ _ _ _ Hfire). pose proof Hfires as [Ht _ _ Hk _ _ Hv Hdl Hper0].
  exists e, s1. set (repeat := f_period e) in *. pose proof (unreduced_range (f_tick e + repeat)) as Hrange.
  assert (tv_future (BRTOS_TIMER_VECTOR (set_PRIMASK true s1)) = Some lf) as Hfut1 by (cbn; by rewrite Hv).
  set (r1 := set_tmr_state TIMER_STOPPED r). unfold moved_late, rearmed. rewrite Ht. fold repeat.
  destruct (repeat >? 0) eqn:Hper; to_prop; cycle 1.
  { destruct (free_branch tick_values m Ls (set_PRIMASK true s1) lc Lc Lf t r r1 HLc Hrep ltac:(lia) Hr Hroot timeout)
      as (L1 & Lc' & p & Hrun & Hse & Hp & Hct & Hrep').
    exists (aset (aset Ls lc L1) lc Lc'), Lc', Lf, p, timeout. split_and!; try done.
    - apply (body_finish _ _ s1 lc L1 Lc' p _ timeout); [exact Hrun|by eapply aget_aset_eq|done|done].
    - rewrite aset_aset. by eapply aget_aset_eq.
    - by rewrite !aget_aset_ne. }
  pose proof TIMER_MAX_COUNTER_eq as Hmax.
  destruct (expiry_cases s1 repeat Hb) as (Hd & _ & _ & _); [lia|lia|]. rewrite <- Hk in Hd.
  set (r2 := set_tmr_state TIMER_RUNNING r1).
  destruct (future_branch tick_values m Ls (set_PRIMASK true s1) lc lf Lc Lf t r r2 Hfut1 Hne HLc HLf Hrep Hr Hroot
              (tmr_func_cb r) (unreduced (f_tick e + repeat)) Hrange)
    as (L1 & Lc' & Lf' & p & Hrun & Hse & Hp & Hct & Hcf & Hrep'); try done.
  { by eapply room_left. }
  assert (aget (aset (aset Ls lf Lf') lc L1) lc = Some L1) as HL1
    by (eapply aget_aset_eq; rewrite aget_aset_ne; done).
  eexists _, Lc', Lf', p, (f_tick e + repeat). split_and!; [| |..]; try done.
  - apply (body_finish _ _ s1 lc L1 Lc' p); [|done..].
    assert (aget (aset m t r1) t = Some r1) as Hr1 by (by eapply aget_aset_eq). tstep.
    rewrite aset_aset. fold r2. rewrite (bind_Done _ _ _ _ _ (OSGetTickCount_eq _)). tstep.
    change (OSTickCounter (set_PRIMASK true s1)) with (OSTickCounter s1).
    rewrite <- Hk, Hd. fold (unreduced (f_tick e + repeat)). rewrite (bind_Done _ _ _ _ _ Hrun). done.
  - by eapply aget_aset_eq.
  - rewrite !aget_aset_ne by done. by eapply aget_aset_eq.
Qed.

(** The loop over the list [Lc] of a turn that is over fired all its timers;
    those that repeat follow the timers of [Lf]. *)
Record late_fired m Ls s lc lf Lc Lf fs m' Ls' s' Lc' Lf' : Prop := {
  lp_calls : calls (put_timers m Ls s) fs (put_timers m' Ls' s');
  lp_all : f_timer <$> fs ≡ₚ contents Lc;
  lp_fired : fired_all unreduced m fs m';
  lp_moved : contents Lf' ≡ₚ (f_timer <$> filter (fun e => 0 < f_period e) fs) ++ contents Lf;
  lp_events e : e ∈ fs -> OSTickCounter s <= f_tick e <= OSTickCounter s' /\
    (f_period e = 0 \/ 2 * BRTOS_MAX_TIMER * delay < f_period e <= TIMER_MAX_COUNTER);
  lp_time : OSTickCounter s <= OSTickCounter s' <= OSTickCounter s + Z.of_nat (length (contents Lc)) * delay;
  lp_empty : contents Lc' = [];
  lp_Lc : aget Ls' lc = Some Lc';
  lp_Lf : aget Ls' lf = Some Lf';
  lp_rep : timers_below tick_values m' Lc' Lf';
  lp_run : may_run s';
  lp_current : tv_current (BRTOS_TIMER_VECTOR s') = tv_current (BRTOS_TIMER_VECTOR s);
  lp_future : tv_future (BRTOS_TIMER_VECTOR s') = tv_future (BRTOS_TIMER_VECTOR s);
}.

Lemma late_fired_cons m Ls s lc lf Lc Lf t r e s1 Ls1 Lc1 Lf1 fs m' Ls' s' Lc' Lf' :
  fires m Ls s t r e s1 -> aget m t = Some r -> tlist_ok m Lc -> moved_late e Lc Lf Lc1 Lf1 ->
  late_fired (aset m t (rearmed unreduced e r)) Ls1 s1 lc lf Lc1 Lf1 fs m' Ls' s' Lc' Lf' ->
  late_fired m Ls s lc lf Lc Lf (e :: fs) m' Ls' s' Lc' Lf'.
Proof.
  intros Hfires Hr Hok [Hct Hcf] [Hcs Hall Hfd Hmv Hev Htm He HLc HLf Hrep Hrun Hcu Hfu].
  pose proof Hfires as [Ht Hf _ Hk _ Hcu1 Hfu1 Hdl Hper]. pose proof (fires_period _ _ _ _ _ _ _ _ Hfires Hok) as Hp0.
  pose proof (tl_nodup _ _ Hok) as Hnd. rewrite Hct, Ht, NoDup_cons in Hnd. destruct Hnd as [Hni Hnd].
  pose proof (Permutation_length Hct) as Hlen. cbn in Hlen.
  split; try done.
  - by eapply calls_fires.
  - by rewrite fmap_cons, Hall, Hct.
  - apply (fired_all_cons _ _ r); rewrite ?Ht; try done. by rewrite Hall.
  - rewrite Hmv, Hcf, filter_cons. destruct (f_period e >? 0) eqn:E; to_prop.
    + rewrite decide_True by done. rewrite fmap_cons. cbn. by rewrite Permutation_middle.
    + rewrite decide_False by lia. done.
  - intros e' He'. apply elem_of_cons in He' as [->|He']; [split; [lia|done]|].
    destruct (Hev e' He') as [? ?]. split; [lia|done].
  - rewrite Hlen, Nat2Z.inj_succ. lia.
  - by rewrite Hcu.
  - by rewrite Hfu.
Qed.

Lemma late_loop_lemma fuel : forall m Ls s lc lf Lc Lf p timeout,
  may_run s -> tv_future (BRTOS_TIMER_VECTOR s) = Some lf -> lc <> lf ->
  aget Ls lc = Some Lc -> aget Ls lf = Some Lf -> timers_below tick_values m Lc Lf ->
  aget (tl_timers Lc) 1 = Some p -> ostick_bits < 64 -> 0 <= OSTickCounter s ->
  OSTickCounter s + Z.of_nat (length (contents Lc)) * delay < TICK_COUNT_OVERFLOW ->
  Z.of_nat (length (contents Lc ++ contents Lf)) <= BRTOS_MAX_TIMER - 1 ->
  (length (contents Lc) <= fuel)%nat ->
  exists fs m' Ls' s' Lc' Lf' timeout',
    late_loop callback fuel lc p timeout (put_timers m Ls s) = Done timeout' (put_timers m' Ls' s') /\
    late_fired m Ls s lc lf Lc Lf fs m' Ls' s' Lc' Lf'.
Proof.
  pose proof cb_delay as Hd0.
  induction fuel as [|fuel IH]; intros m Ls s lc lf Lc Lf p timeout Hrun Hfut Hne HLc HLf Hrep Hp Hb H0 Hroom Htot Hfuel.
  all: pose proof Hrep as [Hcok _ Hnd _ _ _]; rewrite length_app in Htot; destruct p as [t|];
    [|destruct (tlist_root_null m Lc Hcok Hp) as [_ E0];
      exists [], m, Ls, s, Lc, Lf, timeout; split; [done|];
      split; try done; [apply calls_nil, retimed_refl|by rewrite E0|apply fired_all_nil|
        intros e He; by apply elem_of_nil in He|rewrite E0; cbn; lia]].
  all: destruct (root_listed _ m Lc Lf t Hrep Hp) as [Hin Hnf].
  { exfalso. destruct (contents Lc); [by apply elem_of_nil in Hin|cbn in Hfuel; lia]. }
  destruct (tlist_root_live m Lc t Hcok Hp) as (r & Hr & _). cbn [late_loop].
  assert (OSTickCounter s + delay < TICK_COUNT_OVERFLOW) as Hd1.
  { destruct (contents Lc); [by apply elem_of_nil in Hin|]. cbn in Hroom. nia. }
  destruct (late_one_lemma m Ls s lc lf Lc Lf t r timeout)
    as (e & s1 & Ls1 & Lc1 & Lf1 & p1 & timeout1 & Hfires & Hone & HLc1 & HLf1 & Hp1 & Hrep1 & Hmv); try done;
    [rewrite length_app; lia|].
  rewrite (bind_Done _ _ _ _ _ Hone). cbn [fst snd].
  pose proof Hfires as [Ht _ _ Hk Hrun1 _ Hfu1 Hdl Hper]. pose proof Hmv as [Hct Hcf].
  pose proof (Permutation_length Hct) as Hlen. pose proof (Permutation_length Hcf) as Hlen2. cbn in Hlen.
  rewrite Hlen in Hroom, Htot, Hfuel.
  edestruct (IH (aset m t (rearmed unreduced e r)) Ls1 s1 lc lf Lc1 Lf1 p1 timeout1)
    as (fs & m' & Ls' & s' & Lc' & Lf' & timeout' & Hloop & Hpass); try done; try lia.
  { by rewrite Hfu1. }
  { rewrite length_app, Hlen2. destruct (f_period e >? 0); cbn; lia. }
  exists (e :: fs), m', Ls', s', Lc', Lf', timeout'. split; [exact Hloop|]. by eapply late_fired_cons.
Qed.

(** The period of the call [e] reaches past the last value of a tick. *)
Definition past_end e : Prop := 0 < f_period e /\ tick_values <= f_tick e + f_period e.
#[export] Instance past_end_dec e : Decision (past_end e) := _.

(** Of the timers that repeated in the first loop, those are due at [now] whose
    period reached past the end. *)
Lemma due_unreduced m fs m' s s' now :
  fired_all unreduced m fs m' -> (forall e, e ∈ fs -> exists r, aget m (f_timer e) = Some r) ->
  0 <= OSTickCounter s -> OSTickCounter s' < TICK_COUNT_OVERFLOW ->
  OSTickCounter s' <= now <= OSTickCounter s + 2 * BRTOS_MAX_TIMER * delay ->
  (forall e, e ∈ fs -> OSTickCounter s <= f_tick e <= OSTickCounter s' /\
    (f_period e = 0 \/ 2 * BRTOS_MAX_TIMER * delay < f_period e <= TIMER_MAX_COUNTER)) ->
  due m' now (f_timer <$> filter (fun e => 0 < f_period e) fs) = f_timer <$> filter past_end fs.
Proof.
  intros [_ _ Hfd _] Hlive H0 H1 Hnow Hev. pose proof TIMER_MAX_COUNTER_eq. pose proof tick_values_eq as Htv.
  assert (forall e, e ∈ fs -> 0 < f_period e ->
    (timeout_of m' (f_timer e) <= now <-> tick_values <= f_tick e + f_period e)) as Hiff.
  { intros e He Hp. destruct (Hlive e He) as [r Hr]. destruct (Hfd e r He Hr) as [_ Hr'].
    destruct (Hev e He) as [Htk Hper]. unfold timeout_of. rewrite Hr'. unfold rearmed.
    assert ((f_period e >? 0) = true) as -> by lia. cbn [tmr_timeout]. unfold unreduced, uint.
    fold tick_values. destruct (Z.lt_ge_cases (f_tick e + f_period e) tick_values).
    - rewrite Z.mod_small by lia. lia.
    - rewrite <- (Z.mod_add _ (-1)) by lia. rewrite Z.mod_small by lia. lia. }
  clear -Hiff. unfold due, past_end.
  induction fs as [|e fs IH]; [done|]. rewrite !filter_cons.
  assert (filter (λ t, timeout_of m' t <= now) (f_timer <$> filter (λ e, 0 < f_period e) fs)
    = f_timer <$> filter (λ e, 0 < f_period e ∧ tick_values <= f_tick e + f_period e) fs) as IH'
    by (apply IH; intros e' He'; apply Hiff; by right).
  destruct (decide (0 < f_period e)) as [Hp|Hp]; [|rewrite decide_False by tauto; done].
  rewrite fmap_cons, filter_cons.
  specialize (Hiff e ltac:(by left) Hp).
  destruct (decide (tick_values <= f_tick e + f_period e)).
  - rewrite !decide_True by tauto. by rewrite fmap_cons, IH'.
  - by rewrite !decide_False by tauto.
Qed.

#[local] Lemma contents_live B m Lc Lf u :
  timers_below B m Lc Lf -> u ∈ contents Lc ++ contents Lf -> exists r, aget m u = Some r.
Proof.
  intros [Hcok Hfok _ _ _ _] Hu. apply elem_of_app in Hu as [Hu|Hu];
    [destruct (contents_slot m Lc u Hcok Hu) as (i & Hi & Hiu); destruct (tl_live _ _ Hcok i Hi) as (u' & r & Hu' & Hr)
    |destruct (contents_slot m Lf u Hfok Hu) as (i & Hi & Hiu); destruct (tl_live _ _ Hfok i Hi) as (u' & r & Hu' & Hr)];
    exists r; congruence.
Qed.

(** What is due after the first loop in the list that becomes current. *)
Lemma due_after_late m Ls s lc lf Lc Lf fs m' Ls' s' Lc' Lf' now :
  timers_below tick_values m Lc Lf -> late_fired m Ls s lc lf Lc Lf fs m' Ls' s' Lc' Lf' ->
  0 <= OSTickCounter s -> OSTickCounter s' < TICK_COUNT_OVERFLOW ->
  OSTickCounter s' <= now <= OSTickCounter s + 2 * BRTOS_MAX_TIMER * delay ->
  due m' now (contents Lf') ≡ₚ due m now (contents Lf) ++ (f_timer <$> filter past_end fs).
Proof.
  intros Hrep [_ Hall Hfd Hmv Hev _ _ _ _ _ _ _ _] H0 H1 Hnow.
  rewrite (due_proper _ _ _ _ Hmv). unfold due at 1. rewrite filter_app.
  change (filter (λ t, timeout_of m' t <= now) ?l) with (due m' now l).
  rewrite (due_unreduced m fs m' s s' now); try done.
  - rewrite (due_ext m m' now (contents Lf)); [by rewrite Permutation_app_comm|].
    intros u Hu. unfold timeout_of. rewrite (fa_others _ _ _ _ Hfd); [done|]. rewrite Hall. intros Hx.
    pose proof (tr_nodup _ _ _ _ Hrep) as Hnd. apply NoDup_app in Hnd as (_ & Hd & _). by apply (Hd u).
  - intros e He. apply (contents_live tick_values m Lc Lf); [done|]. apply elem_of_app. left. rewrite <- Hall.
    by apply list_elem_of_fmap_2.
Qed.

Lemma timer_pass_late_lemma s lc lf Lc Lf timeout t :
  timers_at s lc lf Lc Lf -> may_run s -> ostick_bits < 64 -> 0 <= OSTickCounter s ->
  OSTickCounter s + 2 * BRTOS_MAX_TIMER * delay < TICK_COUNT_OVERFLOW ->
  Z.of_nat (length (contents Lc ++ contents Lf)) <= BRTOS_MAX_TIMER - 1 ->
  aget (tl_timers Lc) 1 = Some (Some t) -> OSTickCounter s < timeout_of (timers_mem s) t ->
  exists fs1 fs2 m1 s' Lc' Lf' next timeout',
    timer_pass callback (Z.to_nat BRTOS_MAX_TIMER) timeout s = Done (next, timeout') s' /\
    calls s (fs1 ++ fs2) s' /\
    (f_timer <$> fs1 ≡ₚ contents Lc) /\ fired_all unreduced (timers_mem s) fs1 m1 /\
    (f_timer <$> fs2 ≡ₚ due (timers_mem s) (OSTickCounter s') (contents Lf) ++
                        (f_timer <$> filter past_end fs1)) /\
    StronglySorted (fun t u => timeout_of m1 t <= timeout_of m1 u) (f_timer <$> fs2) /\
    fired_all in_turn m1 fs2 (timers_mem s') /\
    pass_end tick_values s' lf lc Lf' Lc' next.
Proof.
  intros [Hcur Hfut Hne HLc HLf Hrep0] Hrun0 Hb H0 Hroom Htot Hp Hbeyond. pose proof Hrep0 as [Hcok _ _ _ _ _].
  pose proof cb_delay as Hd0. pose proof tick_values_eq as Htv. pose proof (tl_max _ _ Hcok) as HMx.
  set (m := timers_mem s) in *. set (Ls := BRTOS_TMR s) in *.
  assert (timers_below tick_values m Lc Lf) as Hrep by (eapply timers_below_mono; [|done]; lia).
  destruct (pass_room m Lc (OSTickCounter s) 2) as (HU & HM & H1); [done|lia|lia|].
  pose proof (contents_length m Lc Hcok) as Hlc.
  destruct (late_loop_lemma (Z.to_nat BRTOS_MAX_TIMER) m Ls s lc lf Lc Lf (Some t) timeout)
    as (fs1 & m1 & Ls1 & s1 & Lc1 & Lf1 & timeout1 & Hloop1 & Hlate); try done; [nia|lia|].
  pose proof Hlate as [Hcs1 Hall1 Hfd1 Hmv1 _ Htm1 He1 HLc1 HLf1 Hrep1 Hrun1 Hcu1 Hfu1].
  pose proof (timers_below_swap _ _ _ _ Hrep1) as Hrep1'. pose proof Hrep1' as [Hfok1 _ _ _ _ _].
  destruct (tlist_root m1 Lf1 Hfok1) as (p1 & Hp1 & _).
  assert (tv_future (BRTOS_TIMER_VECTOR (exchanged s1)) = Some lc) as Hfut1 by (cbn; by rewrite Hcu1).
  pose proof (contents_length m1 Lf1 Hfok1) as Hlf1. pose proof (tl_range _ _ Hfok1) as Hrg1.
  assert (OSTickCounter s1 + Z.of_nat (length (contents Lf1)) * delay < TICK_COUNT_OVERFLOW) as HU1 by nia.
  assert (may_run (exchanged s1)) as Hrun1'.
  { change (may_run (set_BRTOS_TMR (BRTOS_TMR s1) (exchanged s1))). unfold exchanged. by apply (cb_timers _ (BRTOS_TMR s1)). }
  destruct (expire_loop_lemma tick_values (Z.to_nat BRTOS_MAX_TIMER) (contents Lf1) m1 Ls1 (exchanged s1)
              lf lc Lf1 Lc1 p1 timeout1)
    as (fs2 & m' & Ls' & s2 & Lf' & Lc' & p' & timeout' & Hloop &
        [Hcs2 Hd Hs Hfd2 _ _ Htm2 HLf' HLc' Hp' Hrep' _ _ Hcu2 Hfu2]); try done; try lia.
  { by apply tl_nodup in Hfok1. } { change (OSTickCounter (exchanged s1)) with (OSTickCounter s1). lia. }
  { change (OSTickCounter (exchanged s1)) with (OSTickCounter s1). nia. }
  { rewrite length_app, He1. cbn. lia. }
  change (OSTickCounter (exchanged s1)) with (OSTickCounter s1) in *.
  destruct (pass_ends tick_values m' Ls' s2 lf lc Lf' Lc' p' timeout')
    as (next & s' & Hend & Hre & Hm' & Ht' & Hpe); try done.
  { rewrite Hcu2. cbn. by rewrite Hfu1. } { by rewrite Hfu2. }
  destruct (tlist_root_live m Lc t Hcok Hp) as (r & Hr & _).
  exists fs1, fs2, m1, s', Lc', Lf', next, timeout'. rewrite Hm', Ht'. split_and!; try done.
  - rewrite <- (put_timers_id s) at 1. fold m Ls. unfold timer_pass. tstep. tstep. unfold bind at 1. tstep.
    rewrite (bind_Done _ _ _ _ _ (OSGetTickCount_eq _)). cbn [ret rbind]. tstep.
    unfold timeout_of in Hbeyond. rewrite Hr in Hbeyond.
    assert ((tmr_timeout r >? OSTickCounter s) = true) as -> by lia.
    unfold bind at 1. rewrite (bind_Done _ _ _ _ _ Hloop1).
    rewrite (bind_Done _ _ _ _ _ (switch_lists_put m1 Ls1 s1 lf ltac:(by rewrite Hfu1))).
    rewrite (bind_Done _ _ _ _ _ (first_timer_put _ _ _ _ Lf1 p1 HLf1 Hp1)). cbn [ret rbind].
    by rewrite (bind_Done _ _ _ _ _ Hloop).
  - rewrite <- (put_timers_id s). fold m Ls. eapply calls_app; [done|].
    eapply calls_last; [|done]. by eapply calls_retimed; [apply retimed_exchanged|].
  - rewrite Hd. eapply due_after_late; [done|exact Hlate|done|lia|nia].
Qed.


(** Stopping the first timer makes the others fire early.  [OSTimerStop] does
    not move the timer task's wake-up time.  If it stops the first timer of the
    current list, due on tick [k], the task still wakes on tick [k], takes the
    next timer, which lies beyond [k], for one of a turn that is over, and fires
    every timer of the list, although each of them was to expire later. *)
Theorem OSTimerStop_fires_others_early s lc lf Lc Lf t r u del timeout :
  timers_at s lc lf Lc Lf -> on_time s Lc Lf -> aget (timers_mem s) t = Some r ->
  tmr_state r = TIMER_RUNNING -> t ∈ contents Lc -> u ∈ contents Lc -> u <> t ->
  (forall v, v ∈ contents Lc ++ contents Lf -> v <> t -> 0 < timeout_of (timers_mem s) v) ->
  (forall v, v ∈ contents Lc -> v <> t -> tmr_timeout r < timeout_of (timers_mem s) v) ->
  ostick_bits < 64 -> Z.of_nat (length (contents Lc ++ contents Lf)) <= BRTOS_MAX_TIMER - 1 ->
  tmr_timeout r + 2 * BRTOS_MAX_TIMER * delay < TICK_COUNT_OVERFLOW ->
  (forall s1, OSTimerStop (Some t) del s = Done OK s1 -> may_run (set_OSTickCounter (tmr_timeout r) s1)) ->
  exists s1 fs1 fs2 m1 s2 next timeout', OSTimerStop (Some t) del s = Done OK s1 /\
    ContextTask s1 = ContextTask s /\
    timer_pass callback (Z.to_nat BRTOS_MAX_TIMER) timeout (set_OSTickCounter (tmr_timeout r) s1)
      = Done (next, timeout') s2 /\
    calls (set_OSTickCounter (tmr_timeout r) s1) (fs1 ++ fs2) s2 /\
    (t :: (f_timer <$> fs1) ≡ₚ contents Lc) /\ fired_all unreduced (timers_mem s1) fs1 m1 /\
    fired_all in_turn m1 fs2 (timers_mem s2).
Proof.
  intros Hat Hot Hr Hst Hin Hu Hne Hpos Hlater Hb Htot Hroom Hmay.
  destruct (OSTimerStop_lemma s lc lf Lc Lf t r del Hat Hot Hr Hst Hpos) as [(Ls' & Lc' & Lf' & Hstop & Hat' & Hct & HL) _].
  set (s1 := put_timers (aset (timers_mem s) t (stopped_timer r del)) Ls' s) in *.
  pose proof Hat as [_ _ _ _ _ [Hcok _ Hnd _ Hrun Htk]]. apply NoDup_app in Hnd as (_ & Hdis & _).
  assert (contents Lc ≡ₚ t :: contents Lc' /\ Lf' = Lf) as [Hc ->].
  { destruct HL as [->| ->].
    - exfalso. assert (t ∈ contents Lc ++ contents Lf) as Hx by (apply elem_of_app; by left).
      pose proof (ta_rep _ _ _ _ _ _ Hat') as [_ _ _ _ Hrun' _].
      destruct (Hrun' t (stopped_timer r del)) as [_ H2]; [by eapply aget_aset_eq|].
      assert (tmr_state (stopped_timer r del) = TIMER_RUNNING) as H3 by (apply H2, elem_of_app; by left).
      unfold stopped_timer in H3. by case_match.
    - split; [|done]. apply (Permutation_app_inv_r (contents Lf)). by rewrite Hct. }
  assert (u ∈ contents Lc') as Hu' by (rewrite Hc in Hu; by apply elem_of_cons in Hu as [?|?]).
  set (s1' := set_OSTickCounter (tmr_timeout r) s1).
  assert (timers_at s1' lc lf Lc' Lf) as Hat1 by (by eapply timers_at_vars; [|exact Hat']).
  assert (forall v, v ∈ contents Lc' -> v <> t) as Hvt.
  { intros v Hv ->. pose proof (tl_nodup _ _ Hcok) as Hx. rewrite Hc in Hx. by apply NoDup_cons in Hx as [? _]. }
  pose proof Hat1 as [_ _ _ _ _ [Hcok1 _ _ _ _ _]]. destruct (tlist_root _ Lc' Hcok1) as (o & Ho & _).
  destruct o as [q|]; [|destruct (tlist_root_null _ Lc' Hcok1 Ho) as [_ E]; rewrite E in Hu'; by apply elem_of_nil in Hu'].
  assert (q ∈ contents Lc') as Hq by (apply elem_of_contents; eauto).
  destruct (timer_pass_late_lemma s1' lc lf Lc' Lf timeout q)
    as (fs1 & fs2 & m1 & s2 & Lc2 & Lf2 & next & timeout' & Hpass & Hcs & Hts1 & Hf1 & _ & _ & Hf2 & _); try done.
  - by apply Hmay.
  - by apply (Htk t r).
  - rewrite length_app in *. rewrite Hc in Htot. cbn in Htot. lia.
  - change (timers_mem s1') with (aset (timers_mem s) t (stopped_timer r del)).
    rewrite timeout_of_aset_ne by (by apply Hvt). apply Hlater; [rewrite Hc; by right|by apply Hvt].
  - exists s1, fs1, fs2, m1, s2, next, timeout'. split_and!; try done. by rewrite Hts1.
Qed.
End firing.

(** ** A defect of the timer task *)
Section defects.
Context `{C : Config} (callback : Z -> prog Z).

(** Timers of the next turn can be lost.  While the current list is empty and
    the last timer that repeated did so within its turn, a pass of the timer task
    does nothing, on whatever tick it runs, and sleeps until the last tick of the
    turn: the lists are not exchanged, so that a timer set across the wrap of the
    counter never fires. *)
Theorem timer_pass_ignores_next_turn s lc lf Lc Lf fuel timeout :
  timers_at s lc lf Lc Lf -> contents Lc = [] -> timeout <= TIMER_MAX_COUNTER ->
  timer_pass callback fuel timeout s = Done (TIMER_MAX_COUNTER, timeout) s.
Proof.
  intros [Hcur _ _ HLc _ [Hcok _ _ _ _ _]] He Ht.
  assert (aget (tl_timers Lc) 1 = Some None) as Hp.
  { destruct (tlist_root _ Lc Hcok) as ([t|] & Hp & _); [|done].
    assert (t ∈ contents Lc) as Hx by (apply elem_of_contents; eauto). rewrite He in Hx. by apply elem_of_nil in Hx. }
  rewrite <- (put_timers_id s). unfold timer_pass. do 2 tstep. destruct fuel; cbn [expire_loop];
    change (bind (ret ?a) ?K ?x) with (K a x); cbv beta iota;
    change (bind (ret ?a) ?K ?x) with (K a x); cbv beta iota;
    change (bind (ret ?a) ?K ?x) with (K a x); cbv beta iota;
    assert ((timeout >? TIMER_MAX_COUNTER) = false) as -> by lia; done.
Qed.
End defects.
