(* ===== verification/TimerExamples.v ===== *)
(** * Software timers on a concrete system

    Boolean checkers of the timers' invariants, proved sound, a small system with
    timers, the theorems of TimerSpec.v and TimerTask.v evaluated on it, and runs
    that show the defects of brtos/stimer.c. *)

From Stdlib Require Import ZArith Lia Sorted.
From stdpp Require Import base gmap numbers list.
From S2P Require Import Prelude Config State Sched DelayList Hal Clock Kernel Event Sample Tasks TimerHeap Timer TimerSpec TimerTask.
#[local] Open Scope Z_scope.
#[local] Open Scope prog_scope.

Lemma In_seqZ a n x : a <= x < a + n -> In x (seqZ a n).
Proof. intros. apply list_elem_of_In, elem_of_seqZ. lia. Qed.

Section checkers.
Context `{C : Config}.

Definition tlist_okb (m : list BRTOS_TIMER_T) (L : BRTOS_TMR_T) : bool :=
  (2 <=? BRTOS_MAX_TIMER) && (BRTOS_MAX_TIMER <=? 128) &&
  (Z.of_nat (length (tl_timers L)) =? BRTOS_MAX_TIMER) && rangeb (tl_count L) BRTOS_MAX_TIMER &&
  forallb (fun i => match aget (tl_timers L) i with
                    | Some (Some t) => bool_decide (is_Some (aget m t))
                    | _ => false
                    end) (seqZ 1 (tl_count L)) &&
  forallb (fun i => ((1 <=? i) && (i <=? tl_count L)) ||
                    bool_decide (aget (tl_timers L) i = Some None)) (seqZ 0 BRTOS_MAX_TIMER) &&
  bool_decide (NoDup (contents L)) &&
  forallb (fun j => keyz m (tl_timers L) (j / 2) <=? keyz m (tl_timers L) j) (seqZ 2 (tl_count L - 1)).

Lemma tlist_okb_sound m L : tlist_okb m L = true -> tlist_ok m L.
Proof.
  unfold tlist_okb. rewrite !andb_true_iff, !forallb_forall, !Z.leb_le, Z.eqb_eq, bool_decide_eq_true.
  intros (((((((H1 & H2) & H3) & H4%rangeb_sound) & H5) & H6) & H7) & H8). split; [lia|done|lia|..].
  - intros i Hi. specialize (H5 i). destruct (aget (tl_timers L) i) as [[t|]|].
    + rewrite bool_decide_eq_true in H5. destruct H5 as [r Hr]; [apply In_seqZ; lia|]. eauto.
    + discriminate H5. apply In_seqZ. lia.
    + discriminate H5. apply In_seqZ. lia.
  - intros i o Hi Hr. pose proof (aget_lt _ _ _ Hi). specialize (H6 i).
    rewrite orb_true_iff, andb_true_iff, !Z.leb_le, bool_decide_eq_true in H6.
    destruct H6 as [|H6]; [apply In_seqZ; lia|lia|congruence].
  - done.
  - intros j Hj. apply Z.leb_le, H8, In_seqZ. lia.
Qed.

Definition timers_repb (m : list BRTOS_TIMER_T) (Lc Lf : BRTOS_TMR_T) : bool :=
  tlist_okb m Lc && tlist_okb m Lf && bool_decide (NoDup (contents Lc ++ contents Lf)) &&
  (Z.of_nat (length m) =? BRTOS_MAX_TIMER) &&
  forallb (fun i => match aget m i with
                    | Some r => Bool.eqb (tmr_state r =? TIMER_RUNNING) (bool_decide (i ∈ contents Lc ++ contents Lf)) &&
                                rangeb (tmr_timeout r) TICK_COUNT_OVERFLOW
                    | None => false
                    end) (seqZ 0 BRTOS_MAX_TIMER).

Lemma timers_repb_sound m Lc Lf : timers_repb m Lc Lf = true -> timers_rep m Lc Lf.
Proof.
  unfold timers_repb. rewrite !andb_true_iff, forallb_forall, Z.eqb_eq, bool_decide_eq_true.
  intros ((((H1%tlist_okb_sound & H2%tlist_okb_sound) & H3) & H4) & H5).
  assert (forall t r, aget m t = Some r -> Bool.eqb (tmr_state r =? TIMER_RUNNING)
      (bool_decide (t ∈ contents Lc ++ contents Lf)) = true /\ 0 <= tmr_timeout r < TICK_COUNT_OVERFLOW) as Hall.
  { intros t r Hr. pose proof (aget_lt _ _ _ Hr). specialize (H5 t). rewrite Hr in H5.
    rewrite andb_true_iff in H5. destruct H5 as [? ?%rangeb_sound]; [apply In_seqZ; lia|done]. }
  split; try done; intros t r Hr; destruct (Hall t r Hr) as [He ?]; [|done].
  apply Bool.eqb_prop in He. rewrite <- Z.eqb_eq, He. by rewrite bool_decide_eq_true.
Qed.
End checkers.

(** ** The sample *)
Section sample.
#[local] Existing Instance sample_config.

(** The timers 0, 1 and 2 run until ticks 150, 120 and (in the next turn) 40;
    the timer task is task 4, of priority 12, and sleeps until tick 120. *)
Definition running (f tick : Z) : BRTOS_TIMER_T := mkTimer (Some f) tick TIMER_RUNNING.
Definition free_timers (n : nat) : list BRTOS_TIMER_T := replicate n (mkTimer None 0 TIMER_NOT_USED).
Definition slots (ts : list Z) : BRTOS_TMR_T :=
  mkTmrList (take 8 (None :: map Some ts ++ replicate 8 None)) (Z.of_nat (length ts)).

Definition timer_os (now wake : Z) (m : list BRTOS_TIMER_T) (cur fut : list Z) : OS :=
  let s := sample_os [0; 5; 9; 12] (2 ^ 0 + 2 ^ 5) 2 [] [] [] [] [] [] in
  set_OSTickCounter now (set_Head (Some 4) (set_Tail (Some 4)
    (set_ContextTask (aset (ContextTask s) 4 (set_TimeToWait wake (sample_task 4 12)))
      (set_BRTOS_TIMER_VECTOR (mkTimerVector m (Some 0) (Some 1) 4)
        (set_BRTOS_TMR [slots cur; slots fut] s))))).

Definition three_timers : list BRTOS_TIMER_T := [running 10 150; running 11 120; running 10 40] ++ free_timers 5.
Definition sample_timers : OS := timer_os 100 120 three_timers [1; 0] [2].

Lemma timer_os_at now wake m cur fut :
  timers_repb m (slots cur) (slots fut) = true -> timers_at (timer_os now wake m cur fut) 0 1 (slots cur) (slots fut).
Proof. intros H. split; try done. by apply timers_repb_sound. Qed.

Lemma sample_timers_at : timers_at sample_timers 0 1 (slots [1; 0]) (slots [2]).
Proof. by apply timer_os_at. Qed.

(** The callbacks.  Function 11 is [timer2_cb] of tests/test_stimer.c without its
    check of the elapsed time: it counts five ticks and repeats after 100.
    Function 10 does not repeat and counts its calls, and the period of function
    12 depends on that count. *)
Definition timer2_cb : prog Z :=
  CPU_SR <- OSEnterCritical ;;
  OSIncCounter ;;; OSIncCounter ;;; OSIncCounter ;;; OSIncCounter ;;; OSIncCounter ;;;
  OSExitCritical CPU_SR ;;;
  ret 100.

Definition sample_callback (f : Z) : prog Z :=
  if f =? 11 then timer2_cb
  else if f =? 12 then (d <- gets OSDuty ;; ret (if d =? 0 then 200 else 0))
  else (modify (fun s => set_OSDuty (OSDuty s + 1) s) ;;; ret 0).

Lemma OSIncCounter_below s :
  0 <= OSTickCounter s -> OSTickCounter s + 1 < TICK_COUNT_OVERFLOW ->
  OSIncCounter s = Done tt (set_OSTickCounter (OSTickCounter s + 1) s).
Proof. intros H0 H1. rewrite OSIncCounter_eq by lia. by rewrite Z.mod_small by lia. Qed.

Lemma timer2_cb_returns s :
  0 <= OSTickCounter s -> OSTickCounter s + 5 < TICK_COUNT_OVERFLOW ->
  timer2_cb s = Done 100 (set_OSTickCounter (OSTickCounter s + 5) s).
Proof.
  intros H0 H1. unfold timer2_cb.
  rewrite (bind_Done OSEnterCritical _ s (PRIMASK s) (set_PRIMASK true s) eq_refl).
  do 5 (erewrite bind_Done; [|apply OSIncCounter_below; cbn; lia]). cbn.
  replace (OSTickCounter s + 1 + 1 + 1 + 1 + 1) with (OSTickCounter s + 5) by lia. by destruct s.
Qed.

#[local] Instance sample_callbacks : Callbacks sample_callback 5 (fun _ => True).
Proof.
  split; [lia|done|]. intros f s _ H0 H1. unfold sample_callback.
  destruct (f =? 11); [|destruct (f =? 12)].
  - rewrite timer2_cb_returns by done. eexists _, _. split; [done|]. split_and!; try done; [cbn; lia..|by right].
  - eexists _, _. split; [done|]. split_and!; try done; [lia..|].
    destruct (OSDuty s =? 0); [by right|by left].
  - eexists _, _. split; [done|]. split_and!; try done; [cbn; lia..|by left].
Defined.

Lemma three_timers_allocated t r : aget three_timers t = Some r -> tmr_state r <> TIMER_NOT_ALLOCATED.
Proof. apply (Forall_aget (fun r => tmr_state r <> TIMER_NOT_ALLOCATED)). by repeat constructor. Qed.

Lemma timer_heap_refines_witness :
  exists L' ts, insert_all three_timers (slots []) [2; 0; 1] = Some L' /\ tlist_ok three_timers L' /\
    take_first three_timers L' (length (contents L')) = Some ts /\ ts ≡ₚ [2; 0; 1] ++ contents (slots []) /\
    StronglySorted (fun t u => timeout_of three_timers t <= timeout_of three_timers u) ts.
Proof.
  apply (timer_heap_refines three_timers (slots []) [2; 0; 1]).
  - by apply tlist_okb_sound.
  - change ([2; 0; 1] ++ contents (slots [])) with [2; 0; 1]. by apply (bool_decide_eq_true_1 _).
  - repeat constructor; by eexists.
  - by vm_compute.
Defined.

Lemma OSTimerSet_correct_witness :
  (OSTimerSet (Some None) (Some 10) 10 sample_timers = Done (NO_AVAILABLE_EVENT, Some None) sample_timers /\
   forall t r, aget (timers_mem sample_timers) t = Some r -> tmr_state r <> TIMER_NOT_USED) \/
  (exists p s' Lc' Lf', timer_search (timers_mem sample_timers) (inr p) /\
   OSTimerSet (Some None) (Some 10) 10 sample_timers = Done (OK, Some (Some p)) s' /\
   timers_at s' 0 1 Lc' Lf' /\ armed_timer sample_timers s' p (Some 10) 10 (slots [1; 0]) (slots [2]) Lc' Lf').
Proof.
  apply (OSTimerSet_correct sample_timers 0 1 (slots [1; 0]) (slots [2]) None 10 10);
    [apply sample_timers_at|apply three_timers_allocated|done|done|done|by eexists|done].
Defined.

Lemma OSTimerStart_correct_witness :
  (exists s' Lc' Lf', OSTimerStart (Some 5) 65535 sample_timers = Done OK s' /\ timers_at s' 0 1 Lc' Lf' /\
     armed_timer sample_timers s' 5 None (start_wait 65535) (slots [1; 0]) (slots [2]) Lc' Lf') /\
  OSTimerStart (Some 5) 0 sample_timers = Done NULL_EVENT_POINTER sample_timers /\
  OSTimerStart None 65535 sample_timers = Done NULL_EVENT_POINTER sample_timers.
Proof.
  apply (OSTimerStart_correct sample_timers 0 1 (slots [1; 0]) (slots [2]) 5 (mkTimer None 0 TIMER_NOT_USED) 65535);
    [apply sample_timers_at|done|done|done|done|done|by eexists|done].
Defined.

Lemma OSTimerGet_remaining_witness :
  exists s', OSTimerSet (Some None) (Some 10) 10 sample_timers = Done (OK, Some (Some 3)) s' /\
    OSTimerGet (Some 3) (set_OSTickCounter 104 s') = Done 6 (set_OSTickCounter 104 s').
Proof.
  eexists. split; [by vm_compute|].
  apply (OSTimerGet_remaining sample_timers 0 1 (slots [1; 0]) (slots [2]) None 10 10 3 _ 4);
    [apply sample_timers_at|apply three_timers_allocated|done|done|done|by eexists|done|by vm_compute|done].
Defined.

Lemma sample_on_time : on_time sample_timers (slots [1; 0]) (slots [2]).
Proof.
  split; intros u Hu; cbn in Hu; rewrite ?elem_of_cons, elem_of_nil in Hu;
    repeat destruct Hu as [->|Hu]; done.
Qed.

Lemma OSTimerStop_correct_witness :
  (exists Ls' Lc' Lf', let s' := put_timers (aset three_timers 0 (stopped_timer (running 10 150) 1)) Ls' sample_timers in
     OSTimerStop (Some 0) 1 sample_timers = Done OK s' /\ timers_at s' 0 1 Lc' Lf' /\
     contents (slots [1; 0]) ++ contents (slots [2]) ≡ₚ 0 :: (contents Lc' ++ contents Lf') /\
     (Lc' = slots [1; 0] \/ Lf' = slots [2])) /\
  OSTimerStop None 1 sample_timers = Done NULL_EVENT_POINTER sample_timers.
Proof.
  apply (OSTimerStop_correct sample_timers 0 1 (slots [1; 0]) (slots [2]) 0 (running 10 150) 1);
    [apply sample_timers_at|apply sample_on_time|done|done|].
  intros u Hu. cbn in Hu. rewrite ?elem_of_cons, elem_of_nil in Hu. by repeat destruct Hu as [->|Hu].
Defined.

(** A timer that was stopped, while timer 2 runs in the next turn. *)
Lemma OSTimerStop_not_running_faults_witness : OSTimerStop (Some 5) 0 sample_timers = Fault.
Proof.
  apply (OSTimerStop_not_running_faults sample_timers 0 1 (slots [1; 0]) (slots [2]) 5 (mkTimer None 0 TIMER_NOT_USED) 0);
    [apply sample_timers_at|done|done|done|done].
Defined.

(** Before the timers are initialised. *)
Definition loaded_timers : OS :=
  set_BRTOS_TMR [no_timers; no_timers]
    (set_BRTOS_TIMER_VECTOR (mkTimerVector (replicate 8 (mkTimer None 0 TIMER_NOT_ALLOCATED)) None None 0) sample).

Lemma BRTOS_TimerTaskInit_establishes_witness :
  exists s', BRTOS_TimerTaskInit loaded_timers = Done tt s' /\ timers_at s' 0 1 no_timers no_timers /\
    (forall t r, aget (timers_mem s') t = Some r -> r = unused_timer) /\ PRIMASK s' = PRIMASK loaded_timers.
Proof. apply (BRTOS_TimerTaskInit_establishes loaded_timers); done. Defined.

Lemma BRTOS_TimerTaskSleep_sleeps_witness :
  exists s1 k, BRTOS_TimerTaskSleep 150 sample = Yield s1 k /\ wf s1 ([] ++ [currentTask sample]) /\ dispatched s1 /\
    OSReadyList s1 = andnot (OSReadyList sample) (2 ^ 5) /\ timer_vars s1 = timer_vars sample /\
    sleeping s1 (currentTask sample) 5 150 /\ (forall s2, k s2 = Done tt (set_PRIMASK (PRIMASK sample) s2)).
Proof.
  apply (BRTOS_TimerTaskSleep_sleeps sample [] 5 150);
    [apply sample_wf|done|by apply task_atb_sound|done|by apply not_elem_of_nil].
Defined.

(** Tick 120: timer 1 is due and repeats. *)
Definition due_timers : OS := timer_os 120 120 three_timers [1; 0] [2].

Lemma timer_pass_fires_due_witness :
  exists fs s' Lc' Lf' next timeout',
    timer_pass sample_callback 8 70000 due_timers = Done (next, timeout') s' /\
    calls sample_callback due_timers fs s' /\
    (forall e, e ∈ fs -> 120 <= f_tick e <= OSTickCounter s') /\
    (f_timer <$> fs ≡ₚ due three_timers (OSTickCounter s') (contents (slots [1; 0]))) /\
    StronglySorted (fun t u => timeout_of three_timers t <= timeout_of three_timers u) (f_timer <$> fs) /\
    fired_all in_turn three_timers fs (timers_mem s') /\ placed fs (slots [1; 0]) (slots [2]) Lc' Lf' /\
    (forall u, u ∈ contents Lc' -> OSTickCounter s' < timeout_of (timers_mem s') u) /\
    pass_end TICK_COUNT_OVERFLOW s' 0 1 Lc' Lf' next.
Proof.
  apply (timer_pass_fires_due sample_callback 5 (fun _ => True) due_timers 0 1 (slots [1; 0]) (slots [2]) 70000);
    [by apply timer_os_at|done|done|done|by vm_compute|done|]. by intros t [= <-].
Defined.

(** Timer 1 fires, takes five ticks and runs until tick 225. *)
Example due_timers_run :
  exists s', timer_pass sample_callback 8 0 due_timers = Done (150, 225) s' /\ OSTickCounter s' = 125 /\
    timers_mem s' = [running 10 150; running 11 225; running 10 40] ++ free_timers 5.
Proof. eexists. split; [by vm_compute|]. by split. Qed.

Lemma sample_sleeping : sleeping sample_timers 4 12 120.
Proof.
  exists [4], (set_TimeToWait 120 (sample_task 4 12)). split_and!; [|by left|done|done|done].
  apply wf_clock_ok. by apply wfb_sound.
Qed.

Lemma timer_fires_on_time_witness :
  exists s', OSTimerSet (Some None) (Some 12) 10 sample_timers = Done (OK, Some (Some 3)) s' /\
    (forall n, Z.of_nat n < 10 -> exists s1, ticks n s' = Done tt s1 /\ sleeping s1 4 12 110) /\
    (exists s1 fs e s2 next timeout', ticks 10 s' = Done tt s1 /\ woken s1 4 12 /\ OSTickCounter s1 = 110 /\
       timer_pass sample_callback 8 70000 s1 = Done (next, timeout') s2 /\
       calls sample_callback s1 fs s2 /\ e ∈ fs /\ f_timer e = 3 /\ f_func e = Some 12 /\
       OSTickCounter s1 <= f_tick e).
Proof.
  eexists. split; [by vm_compute|].
  apply (timer_fires_on_time sample_callback 5 (fun _ => True) sample_timers 0 1 (slots [1; 0]) (slots [2])
           None 12 10 12 120 3 _ 70000);
    [apply sample_timers_at|apply three_timers_allocated|done|done|done|by vm_compute|done|done
    |apply sample_sleeping|done|by vm_compute|done].
Defined.



(** Timer 1 is stopped; timer 0, set for tick 150, fires on tick 120. *)
Lemma OSTimerStop_fires_others_early_witness :
  exists s1 fs1 fs2 m1 s2 next timeout', OSTimerStop (Some 1) 0 sample_timers = Done OK s1 /\
    ContextTask s1 = ContextTask sample_timers /\
    timer_pass sample_callback 8 0 (set_OSTickCounter 120 s1) = Done (next, timeout') s2 /\
    calls sample_callback (set_OSTickCounter 120 s1) (fs1 ++ fs2) s2 /\
    (1 :: (f_timer <$> fs1) ≡ₚ contents (slots [1; 0])) /\ fired_all unreduced (timers_mem s1) fs1 m1 /\
    fired_all in_turn m1 fs2 (timers_mem s2).
Proof.
  apply (OSTimerStop_fires_others_early sample_callback 5 (fun _ => True) sample_timers 0 1 (slots [1; 0]) (slots [2]) 1
           (running 11 120) 0 0 0);
    [apply sample_timers_at|apply sample_on_time|done|done|by left|by right; left|done| | |done|done|by vm_compute|done].
  - intros u Hu. cbn in Hu. rewrite ?elem_of_cons, elem_of_nil in Hu. by repeat destruct Hu as [->|Hu].
  - intros u Hu. cbn in Hu. rewrite ?elem_of_cons, elem_of_nil in Hu. by repeat destruct Hu as [->|Hu].
Defined.

(** Timer 2 alone, in the next turn: no pass touches it, on its own tick or on
    any other. *)
Lemma timer_pass_ignores_next_turn_witness :
  timer_pass sample_callback 8 0 (timer_os 40 65531 ([running 10 40] ++ free_timers 7) [] [0]) =
  Done (TIMER_MAX_COUNTER, 0) (timer_os 40 65531 ([running 10 40] ++ free_timers 7) [] [0]).
Proof.
  apply (timer_pass_ignores_next_turn sample_callback _ 0 1 (slots []) (slots [0]));
    [by apply timer_os_at|done|done].
Defined.

(** ** Runs that lose or confuse timers *)

Definition set_timer (w : Z) : prog Z :=
  r <- OSTimerSet (Some None) (Some 10) w ;; ret (fst r).

(** The lists have 7 slots for 8 timers.  The eighth timer set in one turn takes
    the last slot; the timer that was there is marked as running but is in no
    list any more. *)
Example eighth_timer_overwrites :
  exists s, (set_timer 20 ;;; set_timer 21 ;;; set_timer 22 ;;; set_timer 23 ;;; set_timer 24 ;;;
             set_timer 25 ;;; set_timer 26 ;;; set_timer 27) (timer_os 100 120 (free_timers 8) [] []) = Done OK s /\
    aget (timers_mem s) 6 = Some (running 10 126) /\
    option_map contents (aget (BRTOS_TMR s) 0) = Some [0; 1; 2; 3; 4; 5; 7] /\
    option_map contents (aget (BRTOS_TMR s) 1) = Some [].
Proof. eexists. split; [by vm_compute|]. by split_and!. Qed.

(** A timer that expires on tick 0 is not moved by [Subir] when another one is
    stopped: stopping timer 1 takes timer 0 out of the list, and timer 1 stays
    in it. *)
Example stop_removes_another_timer :
  exists s, (set_timer 65432 ;;; set_timer 65440 ;;; OSTimerStop (Some 1) 0)
              (timer_os 100 120 (free_timers 8) [] []) = Done OK s /\
    aget (timers_mem s) 0 = Some (running 10 0) /\
    aget (timers_mem s) 1 = Some (mkTimer (Some 10) 0 TIMER_STOPPED) /\
    option_map contents (aget (BRTOS_TMR s) 1) = Some [1].
Proof. eexists. split; [by vm_compute|]. by split_and!. Qed.

(** The loop for a turn that is over does not reduce the ticks it stores.
    Near the end of the turn, with its first timer beyond the current tick,
    a pass calls the callback of timer 0 (which counts five ticks and repeats
    after 100) twice in a row: the tick 65500 + 5 + 100 is stored as 69. *)
Example late_timer_fires_twice :
  exists s1 s2,
    late_one sample_callback 0 0 0 (timer_os 65500 65510 ([running 11 65510] ++ free_timers 7) [0] [])
      = Done (65605, None) s1 /\ aget (timers_mem s1) 0 = Some (running 11 69) /\
    timer_pass sample_callback 8 0 (timer_os 65500 65510 ([running 11 65510] ++ free_timers 7) [0] [])
      = Done (78, 65610) s2 /\
    OSTickCounter s2 = 65510 /\ aget (timers_mem s2) 0 = Some (running 11 78).
Proof. eexists _, _. split; [by vm_compute|]. split; [done|]. split; [by vm_compute|]. by split. Qed.
End sample.
