(* ===== verification/Terminal.v ===== *)
(** * The terminal

    modules/terminal/terminal.c in the configuration of terminal_cfg.h: a line
    editor with a history of one line, fed character by character, the search of
    a command in a sorted table and in a list of commands added at run time, and
    the call of the command with its arguments.  The commands, the output
    function, the input hook and printf_lib are not part of the repository: they
    are parameters. *)

From Stdlib Require Import ZArith Lia Ascii String.
From stdpp Require Import base gmap numbers list.
From S2P Require Import Prelude Text.
#[local] Open Scope Z_scope.

(** ** The C library *)

(** [strcmp] on the bytes from two pointers on: negative, 0 or positive. *)
Fixpoint strcmp (a b : list Z) : option Z :=
  match a, b with
  | c :: a', d :: b' => if negb (c =? d) then Some (c - d) else if c =? 0 then Some 0 else strcmp a' b'
  | _, _ => None
  end.

(** The first index from [i] on whose byte does not satisfy [f]; [n] bounds the
    search. *)
Fixpoint span (f : Z -> bool) (n : nat) (buf : list Z) (i : nat) : option nat :=
  match n with
  | O => None
  | S n' => c ← buf !! i; if f c then span f n' buf (S i) else Some i
  end.

(** [strtok(s, " \t\r\n")] from the index [p]: the buffer, the token and the place
    where the next call goes on. *)
Definition is_delim (c : Z) : bool := (c =? 32) || (c =? 9) || (c =? 13) || (c =? 10).
Definition strtok (buf : list Z) (p : nat) : option (list Z * option nat * nat) :=
  i ← span is_delim (length buf) buf p;
  c ← buf !! i;
  if c =? 0 then Some (buf, None, i)
  else
    j ← span (fun c => negb (is_delim c) && negb (c =? 0)) (length buf) buf i;
    d ← buf !! j;
    if d =? 0 then Some (buf, Some i, j) else Some (<[j := 0]> buf, Some i, S j).

(** [int] arithmetic, whose overflow is undefined. *)
Definition int_of (x : Z) : option Z :=
  if (- 2 ^ 31 <=? x) && (x <? 2 ^ 31) then Some x else None.

(** ** Data *)

(** terminal_cfg.h *)
Definition TERM_INPUT_BUFSIZE : nat := 32.
Definition UP_KEY_CHAR : Z := 224. (* (char)-32 *)
Definition CHARS_TO_DISCARD : Z := 1.
Definition TERM_ARGS_MAX_COUNT : nat := 6.

(** The external functions: [P] are the commands, [F] the output functions, [G]
    the input hooks and [W] what they act on. *)
Class Externals := {
  P : Type; F : Type; G : Type; W : Type;
  cmd_runst : P; cmd_top : P; cmd_ver : P;
  do_putchar : F -> Z -> W -> W;
  do_input : G -> Z -> W -> W;
  printf_lib : list Z -> list (list Z) -> W -> W;
}.

Section terminal.
Context `{X : Externals}.

(** terminal.h; the command [help] is part of the terminal.  A name is the string
    it points to. *)
Inductive pf_cmd :=
| cmd_help_ptr
| cmd_extern (p : P).
Record cmd_t := mkCmd { cmd_func : pf_cmd; cmd_name : list Z }.
Record dcmd_t := mkDcmd {
  d_cmd_func : pf_cmd;
  d_cmd_name : list Z;
  d_cmd_description : list Z;
  d_next : option Z;
}.

(** The static variables. *)
Record term := mkTerm {
  putchar_func : option F;
  input : option G;
  cmd_head : option Z;
  dcmds : gmap Z dcmd_t; (* the control blocks of the dynamic commands *)
  term_in_idx : Z;
  term_tmp_idx : Z;
  discard_char : Z;
  cpi : Z;
  term_in : list Z;
  last_term_in : list Z;
  world : W;
}.

Definition eta_term (t : term) : term :=
  mkTerm (putchar_func t) (input t) (cmd_head t) (dcmds t) (term_in_idx t) (term_tmp_idx t)
    (discard_char t) (cpi t) (term_in t) (last_term_in t) (world t).

Definition set_putchar_func (v : option F) (t : term) : term :=
  ltac:(set_field (eta_term t) (putchar_func t) v).
Definition set_input (v : option G) (t : term) : term :=
  ltac:(set_field (eta_term t) (input t) v).
Definition set_cmd_head (v : option Z) (t : term) : term :=
  ltac:(set_field (eta_term t) (cmd_head t) v).
Definition set_dcmds (v : gmap Z dcmd_t) (t : term) : term :=
  ltac:(set_field (eta_term t) (dcmds t) v).
Definition set_term_in_idx (v : Z) (t : term) : term :=
  ltac:(set_field (eta_term t) (term_in_idx t) v).
Definition set_term_tmp_idx (v : Z) (t : term) : term :=
  ltac:(set_field (eta_term t) (term_tmp_idx t) v).
Definition set_discard_char (v : Z) (t : term) : term :=
  ltac:(set_field (eta_term t) (discard_char t) v).
Definition set_cpi (v : Z) (t : term) : term :=
  ltac:(set_field (eta_term t) (cpi t) v).
Definition set_term_in (v : list Z) (t : term) : term :=
  ltac:(set_field (eta_term t) (term_in t) v).
Definition set_last_term_in (v : list Z) (t : term) : term :=
  ltac:(set_field (eta_term t) (last_term_in t) v).
Definition set_world (v : W) (t : term) : term :=
  ltac:(set_field (eta_term t) (world t) v).

Definition set_d_next (v : option Z) (d : dcmd_t) : dcmd_t :=
  mkDcmd (d_cmd_func d) (d_cmd_name d) (d_cmd_description d) v.

(** A function of the terminal. *)
Definition M (A : Type) : Type := stm term A.
End terminal.

#[local] Open Scope stm_scope.

Section operations.
Context `{X : Externals}.

(** [l[i]] and [l[i] = c] on the buffers, with an index of type [int]. *)
Definition load (l : list Z) (i : Z) : M Z := tlift (aget l i).
Definition store_in (i c : Z) : M unit :=
  l <- tget term_in ;; _ <- load l i ;; tset (set_term_in (aset l i c)).
Definition store_last (i c : Z) : M unit :=
  l <- tget last_term_in ;; _ <- load l i ;; tset (set_last_term_in (aset l i c)).

(** The indices, which are of type [int]. *)
Definition put_idx (x : Z) : M unit := x <- tlift (int_of x) ;; tset (set_term_in_idx x).
Definition put_tmp (x : Z) : M unit := x <- tlift (int_of x) ;; tset (set_term_tmp_idx x).

(** [putchar_func(c)] *)
Definition putchar (c : Z) : M unit :=
  f <- tget putchar_func ;; f <- tlift f ;;
  tset (fun t => set_world (do_putchar f c (world t)) t).

Definition term_putchar_install (_putchar_func : option F) : M unit :=
  match _putchar_func with
  | None => tret tt
  | Some f => tset (set_putchar_func (Some f))
  end.

Definition terminal_set_input (_input : option G) : M unit := tset (set_input _input).

(** [terminal_init], without CUSTOM_PRINTF. *)
Definition terminal_init (_putchar_func : option F) : M unit :=
  term_putchar_install _putchar_func ;;;
  putchar 10 ;;; putchar 13 ;;; putchar 62 ;;; putchar 62.

(** ** [terminal_input] *)

(** The echo of the character and the count of characters; [None] when the
    function returns at once, otherwise the character to go on with. *)
Definition echo (c : Z) : M (option Z) :=
  if negb (c =? 0x7F) then
    c' <- (if negb (c =? UP_KEY_CHAR) then
             d <- tget discard_char ;;
             if d =? 0 then putchar c ;;; tret (Some c)
             else
               let d := uint8 (d - 1) in
               tset (set_discard_char d) ;;;
               if d =? 0 then tret (Some UP_KEY_CHAR) else tret None
           else tset (set_discard_char CHARS_TO_DISCARD) ;;; tret None) ;;
    match c' with
    | None => tret None
    | Some c =>
        (if negb (c =? 13) then
           tmp <- tget term_tmp_idx ;;
           if tmp >=? 0 then put_tmp (tmp + 1) else put_tmp 1
         else put_tmp 0) ;;;
        tret (Some c)
    end
  else
    tmp <- tget term_tmp_idx ;;
    put_tmp (tmp - 1) ;;;
    (if tmp - 1 >=? 0 then putchar c else tret tt) ;;;
    tret (Some c).

(** [while (term_in_idx) { putchar_func(0x7F); term_in_idx--; }] *)
Fixpoint erase_loop (fuel : nat) : M unit :=
  i <- tget term_in_idx ;;
  if i =? 0 then tret tt
  else match fuel with
       | O => tlift None
       | S fuel' => putchar 0x7F ;;; put_idx (i - 1) ;;; erase_loop fuel'
       end.

(** [while (term_in_idx <= cpi) putchar_func(last_term_in[term_in_idx++])] *)
Fixpoint show_loop (fuel : nat) : M unit :=
  i <- tget term_in_idx ;; n <- tget cpi ;;
  if i >? n then tret tt
  else match fuel with
       | O => tlift None
       | S fuel' =>
           l <- tget last_term_in ;; c <- load l i ;;
           put_idx (i + 1) ;;; putchar c ;;; show_loop fuel'
       end.

(** The loop that copies the last line. *)
Fixpoint recall_loop (fuel : nat) : M unit :=
  i <- tget term_in_idx ;; n <- tget cpi ;;
  if i >? n then tret tt
  else match fuel with
       | O => tlift None
       | S fuel' =>
           l <- tget last_term_in ;; c <- load l i ;;
           store_in i c ;;; put_idx (i + 1) ;;;
           tmp <- tget term_tmp_idx ;; put_tmp (tmp + 1) ;;;
           recall_loop fuel'
       end.

(** The up key. *)
Definition up_key : M unit :=
  erase_loop TERM_INPUT_BUFSIZE ;;;
  put_idx 0 ;;;
  l <- tget last_term_in ;; c0 <- load l 0 ;;
  if negb (c0 =? 0) then
    show_loop TERM_INPUT_BUFSIZE ;;;
    put_idx 0 ;;; put_tmp 0 ;;;
    recall_loop TERM_INPUT_BUFSIZE ;;;
    tmp <- tget term_tmp_idx ;; put_tmp (tmp - 1) ;;;
    i <- tget term_in_idx ;; store_in i 0 ;;; put_idx (i - 1)
  else tret tt.

(** What the character does to the line. *)
Definition edit_key (c : Z) : M Z :=
  tmp <- tget term_tmp_idx ;;
  if tmp >=? 0 then
    i <- tget term_in_idx ;;
    if ((c =? 8) || (c =? 0x7F)) && (i >? 0) then
      store_in i 0 ;;; put_idx (i - 1) ;;; tret 0
    else if c =? UP_KEY_CHAR then up_key ;;; tret 0
    else
      store_in i c ;;; put_idx (i + 1) ;;;
      if (c =? 10) || (c =? 13) || (i + 1 =? Z.of_nat TERM_INPUT_BUFSIZE - 1) then
        store_in i 0 ;;; tret 1
      else tret 0
  else tret 0.

Definition terminal_input (c : Z) : M Z :=
  f <- tget input ;;
  match f with
  | None => tret tt
  | Some f => tset (fun t => set_world (do_input f c (world t)) t)
  end ;;;
  r <- echo c ;;
  match r with
  | None => tret 0
  | Some c => edit_key c
  end.

(** ** Commands *)

(** [TERM_PRINT(fmt, ...)] *)
Definition TERM_PRINT (fmt : list Z) (args : list (list Z)) : M unit :=
  tset (fun t => set_world (printf_lib fmt args (world t)) t).
Definition crlf : list Z := [13; 10].

(** COMMAND_TABLE of terminal_cfg.h, expanded as the table of names and functions
    and as the table of descriptions. *)
Definition cmds : list cmd_t :=
  [mkCmd cmd_help_ptr (cstr (lit "help")); mkCmd (cmd_extern cmd_runst) (cstr (lit "runst"));
   mkCmd (cmd_extern cmd_top) (cstr (lit "top")); mkCmd (cmd_extern cmd_ver) (cstr (lit "ver"))].
Definition ListOfCmdDesc : list (list Z) :=
  [cstr (lit "Help Command"); cstr (lit "Running stats"); cstr (lit "System info");
   cstr (lit "System version")].

(** The binary search of [search_cmd] in a table; [Some None] is not found.  The
    indices are of type [int8_t] and are cut to 8 bits when they are assigned. *)
Fixpoint search_table (table : list cmd_t) (fuel : nat) (inf sup : Z) (c : list Z) : option (option Z) :=
  if inf <=? sup then
    match fuel with
    | O => None
    | S fuel' =>
        let meio := int8 (uint8 (Z.shiftr (inf + sup) 1)) in
        e ← aget table meio;
        r ← strcmp (cmd_name e) c;
        if r <? 0 then search_table table fuel' (int8 (uint8 (meio + 1))) sup c
        else if r >? 0 then search_table table fuel' inf (int8 (uint8 (meio - 1))) c
        else Some (Some meio)
    end
  else Some None.

(** The search in the list of the dynamic commands. *)
Fixpoint search_list (fuel : nat) (m : gmap Z dcmd_t) (cmd_p : option Z) (idx : Z) (c : list Z)
    : option (option Z) :=
  match cmd_p with
  | None => Some None
  | Some p =>
      match fuel with
      | O => None
      | S fuel' =>
          d ← m !! p;
          r ← strcmp (d_cmd_name d) c;
          if r =? 0 then Some (Some idx) else search_list fuel' m (d_next d) (uint8 (idx + 1)) c
      end
  end.

Definition NUMBER_OF_COMMANDS (table : list cmd_t) : Z := Z.of_nat (length table).

(** [search_cmd] *)
Definition search_cmd (table : list cmd_t) (c : list Z) : M Z :=
  r <- tlift (search_table table (length table) 0 (int8 (NUMBER_OF_COMMANDS table - 1)) c) ;;
  match r with
  | Some meio => tret (uint8 meio)
  | None =>
      head <- tget cmd_head ;; m <- tget dcmds ;;
      r <- tlift (search_list (size m) m head (uint8 (NUMBER_OF_COMMANDS table)) c) ;;
      tret (default 0 r)
  end.

(** [cmd_help] *)
Fixpoint help_table (table : list cmd_t) (descs : list (list Z)) : M unit :=
  match table with
  | [] => tret tt
  | e :: table' =>
      TERM_PRINT (lit "%s : ") [cmd_name e] ;;;
      d <- tlift (head descs) ;;
      TERM_PRINT (lit "%s" ++ nl) [d] ;;;
      help_table table' (tail descs)
  end.
Fixpoint help_list (fuel : nat) (cmd_p : option Z) : M unit :=
  match cmd_p, fuel with
  | None, _ => tret tt
  | Some p, O => tlift None
  | Some p, S fuel' =>
      m <- tget dcmds ;; d <- tlift (m !! p) ;;
      TERM_PRINT (lit "%s : ") [d_cmd_name d] ;;;
      TERM_PRINT (lit "%s" ++ nl) [d_cmd_description d] ;;;
      help_list fuel' (d_next d)
  end.
Definition cmd_help : M Z :=
  TERM_PRINT (lit "If you have not typed " ++ [34] ++ lit "help" ++ [34] ++
              lit ", the command you typed was not found!" ++ crlf) [] ;;;
  TERM_PRINT (lit "Else, here is the list of supported commands: " ++ crlf) [] ;;;
  TERM_PRINT (lit "----------------" ++ nl) [] ;;;
  help_table cmds ListOfCmdDesc ;;;
  head <- tget cmd_head ;; m <- tget dcmds ;;
  help_list (size m) head ;;;
  TERM_PRINT (lit "----------------" ++ nl) [] ;;;
  tret 0.

(** [terminal_add_cmd]: the walk to the last control block of the list, then the
    new one. *)
Fixpoint last_cmd (fuel : nat) (m : gmap Z dcmd_t) (cmd_p : Z) : option Z :=
  d ← m !! cmd_p;
  match d_next d with
  | None => Some cmd_p
  | Some q => match fuel with O => None | S fuel' => last_cmd fuel' m q end
  end.

Definition upd_dcmd (p : Z) (f : dcmd_t -> dcmd_t) : M unit :=
  m <- tget dcmds ;; d <- tlift (m !! p) ;; tset (set_dcmds (<[p := f d]> m)).

Definition terminal_add_cmd (handler : Z) (cmd : pf_cmd) (name description : list Z) : M unit :=
  head <- tget cmd_head ;;
  match head with
  | None => tset (set_cmd_head (Some handler))
  | Some p =>
      m <- tget dcmds ;;
      q <- tlift (last_cmd (size m) m p) ;;
      upd_dcmd q (set_d_next (Some handler))
  end ;;;
  upd_dcmd handler (fun d => mkDcmd cmd (d_cmd_name d) (d_cmd_description d) (d_next d)) ;;;
  upd_dcmd handler (fun d => mkDcmd (d_cmd_func d) name (d_cmd_description d) (d_next d)) ;;;
  upd_dcmd handler (fun d => mkDcmd (d_cmd_func d) (d_cmd_name d) description (d_next d)) ;;;
  upd_dcmd handler (set_d_next None).

(** ** [terminal_process] *)
Section process.
(** What an external command does, given [argc] and [argv]; the pointers of [argv]
    are indices of [term_in]. *)
Variable do_cmd : P -> Z -> list (option nat) -> M Z.

Definition call_cmd (f : pf_cmd) (argc : Z) (argv : list (option nat)) : M Z :=
  match f with
  | cmd_help_ptr => cmd_help
  | cmd_extern p => do_cmd p argc argv
  end.

(** [while (arg != NULL) { argv[argc++] = arg; arg = strtok(NULL, ...); }]; [p] is
    where [strtok] goes on. *)
Fixpoint arguments (fuel : nat) (buf : list Z) (p : nat) (argv : list (option nat)) (argc : Z)
    : option (list Z * list (option nat) * Z) :=
  '(buf, arg, p) ← strtok buf p;
  match arg, fuel with
  | None, _ => Some (buf, argv, argc)
  | Some _, O => None
  | Some a, S fuel' =>
      _ ← aget argv argc;
      arguments fuel' buf p (aset argv argc (Some a)) (uint8 (argc + 1))
  end.

(** [while (idx) { cmd_p = cmd_p->next; idx--; }] *)
Fixpoint nth_cmd (idx : nat) (m : gmap Z dcmd_t) (cmd_p : option Z) : option Z :=
  match idx with
  | O => cmd_p
  | S idx' => p ← cmd_p; d ← m !! p; nth_cmd idx' m (d_next d)
  end.

(** [while ((term_in[cpi] != 0) || (term_in[cpi+1] != 0))] *)
Fixpoint copy_last (fuel : nat) : M unit :=
  i <- tget cpi ;;
  l <- tget term_in ;; c <- load l i ;;
  more <- (if negb (c =? 0) then tret true else d <- load l (i + 1) ;; tret (negb (d =? 0))) ;;
  if more : bool then
    match fuel with
    | O => tlift None
    | S fuel' =>
        store_last i (if c =? 0 then 0x20 else c) ;;;
        tset (set_cpi (i + 1)) ;;; copy_last fuel'
    end
  else tret tt.

Definition terminal_process : M Z :=
  l <- tget term_in ;;
  idx_start <- tlift (span (fun c => (c =? 32) || (c =? 9)) TERM_INPUT_BUFSIZE l 0) ;;
  r <- tlift (arguments TERM_INPUT_BUFSIZE l idx_start (replicate TERM_ARGS_MAX_COUNT None) 0) ;;
  let '(l, argv, argc) := r in
  tset (set_term_in l) ;;;
  res <- match head argv with
         | Some (Some a) =>
             c <- search_cmd cmds (drop a l) ;;
             TERM_PRINT crlf [] ;;;
             res <- (if c <? NUMBER_OF_COMMANDS cmds then
                       e <- tlift (aget cmds c) ;; call_cmd (cmd_func e) argc argv
                     else
                       head <- tget cmd_head ;; m <- tget dcmds ;;
                       p <- tlift (nth_cmd (Z.to_nat (c - NUMBER_OF_COMMANDS cmds)) m head) ;;
                       m <- tget dcmds ;; d <- tlift (m !! p) ;;
                       call_cmd (d_cmd_func d) argc argv) ;;
             (* copy last command *)
             tset (set_cpi 0) ;;;
             copy_last TERM_INPUT_BUFSIZE ;;;
             n <- tget cpi ;; store_last n 0 ;;;
             TERM_PRINT (crlf ++ lit ">>") [] ;;;
             tret res
         | _ => tret 0
         end ;;
  tset (set_term_in (replicate TERM_INPUT_BUFSIZE 0)) ;;;
  tset (set_term_in_idx 0) ;;;
  tret res.
End process.
End operations.
