(* ===== verification/TermCmds.v ===== *)
(** * The commands of the terminal

    What the search of Terminal.v finds, in the table and in the list of the
    dynamic commands, and how [terminal_add_cmd] extends the list. *)

From Stdlib Require Import ZArith Lia Ascii String.
From Stdlib Require Import Sorted.
From stdpp Require Import base gmap numbers list.
From S2P Require Import Prelude Text Terminal.
#[local] Open Scope Z_scope.
#[local] Open Scope stm_scope.

(** ** The order of strings *)

Fixpoint str_cmp (x y : list Z) : comparison :=
  match x, y with
  | [], [] => Eq
  | [], _ => Lt
  | _, [] => Gt
  | c :: x', d :: y' => match c ?= d with Eq => str_cmp x' y' | r => r end
  end.
Definition str_lt (x y : list Z) : Prop := str_cmp x y = Lt.
Definition chars (x : list Z) : Prop := Forall (fun c => 0 < c) x.

Lemma strcmp_spec x y r1 r2 :
  chars x -> chars y ->
  exists r, strcmp (x ++ 0 :: r1) (y ++ 0 :: r2) = Some r /\ (r ?= 0) = str_cmp x y.
Proof.
  revert y. induction x as [|c x IH]; intros [|d y] Hx Hy; cbn [app strcmp str_cmp].
  - by exists 0.
  - apply Forall_cons in Hy as [Hd _]. rewrite (proj2 (Z.eqb_neq 0 d)) by lia. cbn.
    exists (- d). split; [done|]. by apply Z.compare_lt_iff; lia.
  - apply Forall_cons in Hx as [Hc _]. rewrite (proj2 (Z.eqb_neq c 0)) by lia. cbn.
    exists (c - 0). split; [done|]. by apply Z.compare_gt_iff; lia.
  - apply Forall_cons in Hx as [Hc Hx]. apply Forall_cons in Hy as [Hd Hy].
    destruct (Z.compare_spec c d) as [->|Hl|Hg].
    + rewrite Z.eqb_refl, (proj2 (Z.eqb_neq d 0)) by lia. cbn. by apply IH.
    + rewrite (proj2 (Z.eqb_neq c d)) by lia. exists (c - d). split; [done|]. apply Z.compare_lt_iff. lia.
    + rewrite (proj2 (Z.eqb_neq c d)) by lia. exists (c - d). split; [done|]. apply Z.compare_gt_iff. lia.
Qed.

Lemma str_cmp_eq x y : str_cmp x y = Eq <-> x = y.
Proof.
  revert y. induction x as [|c x IH]; intros [|d y]; cbn; try done.
  destruct (Z.compare_spec c d); [|split; [done|intros [= -> _]; lia]..].
  subst. rewrite IH. split; congruence.
Qed.

Lemma str_cmp_opp x y : str_cmp y x = CompOpp (str_cmp x y).
Proof.
  revert y. induction x as [|c x IH]; intros [|d y]; cbn; try done.
  rewrite Z.compare_antisym. destruct (c ?= d); cbn; auto.
Qed.

#[export] Instance str_lt_trans : Transitive str_lt.
Proof.
  unfold str_lt. intros x. induction x as [|c x IH]; intros [|d y] [|e z]; cbn; try done.
  destruct (Z.compare_spec c d), (Z.compare_spec d e); try done; intros H1 H2; subst.
  all: try (rewrite (proj2 (Z.compare_lt_iff _ _)) by lia; done).
  rewrite Z.compare_refl. eauto.
Qed.

Lemma str_lt_irrefl x : ~ str_lt x x.
Proof. unfold str_lt. rewrite (proj2 (str_cmp_eq x x) eq_refl). done. Qed.

(** What the control block of a dynamic command holds, besides the link: the
    function, the name and the description. *)
Notation dyn := (pf_cmd * list Z * list Z)%type (only parsing).

(** ** The binary search *)
Section search.
Context `{X : Externals}.

(** [e] is named [n]. *)
Definition named (s n : list Z) : Prop := chars n /\ exists rest, s = n ++ 0 :: rest.

(** The table: names in alphabetical order, at most 127 of them, so that the 8-bit
    indices do not wrap. *)
Record sorted_table (table : list cmd_t) (ns : list (list Z)) : Prop := {
  st_names : Forall2 (fun e n => named (cmd_name e) n) table ns;
  st_sorted : StronglySorted str_lt ns;
  st_len : Z.of_nat (length table) <= 127;
}.

Lemma sorted_lookup ns i j x y :
  StronglySorted str_lt ns -> (i < j)%nat -> ns !! i = Some x -> ns !! j = Some y -> str_lt x y.
Proof.
  intros Hs. revert i j. induction Hs as [|n ns Hs IH Hall]; intros i j Hij Hi Hj; [done|].
  destruct j as [|j]; [lia|]. destruct i as [|i]; cbn in Hi, Hj.
  - injection Hi as <-. rewrite Forall_forall in Hall. apply Hall. by eapply list_elem_of_lookup_2.
  - apply (IH i j); done || lia.
Qed.

(** The index found is the one of the name, if the table has it. *)
Definition search_ok (ns : list (list Z)) (w : list Z) (r : option Z) : Prop :=
  match r with
  | Some i => 0 <= i /\ ns !! Z.to_nat i = Some w
  | None => w ∉ ns
  end.

Lemma search_table_spec table ns w rest :
  sorted_table table ns -> chars w ->
  forall fuel inf sup,
    0 <= inf -> sup < Z.of_nat (length ns) -> sup - inf + 1 <= Z.of_nat fuel ->
    (forall k n, Z.of_nat k < inf -> ns !! k = Some n -> str_lt n w) ->
    (forall k n, sup < Z.of_nat k -> ns !! k = Some n -> str_lt w n) ->
    exists r, search_table table fuel inf sup (w ++ 0 :: rest) = Some r /\ search_ok ns w r.
Proof.
  intros [Hn Hs Hl] Hw. pose proof (Forall2_length _ _ _ Hn) as Hlen.
  induction fuel as [|fuel IH]; intros inf sup Hi Hsup Hf Hlo Hhi; cbn [search_table].
  all: destruct (inf <=? sup) eqn:E; to_prop.
  1: lia.
  2: set (m := Z.shiftr (inf + sup) 1).
  2: assert (inf <= m <= sup) as Hm by (subst m; rewrite Z.shiftr_div_pow2 by lia; change (2 ^ 1) with 2;
       pose proof (Z.div_mod (inf + sup) 2); pose proof (Z.mod_pos_bound (inf + sup) 2); lia).
  1, 3: exists None; split; [done|]; intros (k & Hk)%list_elem_of_lookup;
    destruct (decide (Z.of_nat k < inf)) as [Hlt|Hge];
    [specialize (Hlo _ _ Hlt Hk)|specialize (Hhi k w ltac:(lia) Hk)]; by eapply str_lt_irrefl.
  rewrite (int8_uint8 m) by lia.
  destruct (aget_is_Some table m) as [e He]; [lia|]. rewrite He. cbn [mbind option_bind].
  assert (exists n, ns !! Z.to_nat m = Some n /\ named (cmd_name e) n) as (n & Hnm & Hc & r0 & Hr0).
  { unfold aget in He. rewrite (proj2 (Z.leb_le _ _)) in He by lia.
    destruct (Forall2_lookup_l _ _ _ _ _ Hn He) as (n & Hk & Hnd). by exists n. }
  rewrite Hr0. destruct (strcmp_spec n w r0 rest Hc Hw) as (r & -> & Hr). cbn [mbind option_bind].
  destruct (Z.compare_spec r 0) as [Heq|Hlt|Hgt]; symmetry in Hr.
  - rewrite Heq. exists (Some m). split; [done|]. apply str_cmp_eq in Hr as ->. split; [lia|done].
  - rewrite (proj2 (Z.ltb_lt _ _)), int8_uint8 by lia. apply IH; try lia; [|done].
    intros k n' Hk Hkn. destruct (decide (k = Z.to_nat m)) as [->|Hne]; [congruence|].
    transitivity n; [|done]. apply (sorted_lookup ns k (Z.to_nat m)); done || lia.
  - assert (str_lt w n) as Hwn by (unfold str_lt; by rewrite str_cmp_opp, Hr).
    rewrite (proj2 (Z.ltb_ge _ _)), (proj2 (Z.gtb_lt _ _)), int8_uint8 by lia. apply IH; try lia; [done|].
    intros k n' Hk Hkn. destruct (decide (k = Z.to_nat m)) as [->|Hne]; [congruence|].
    transitivity n; [done|]. apply (sorted_lookup ns (Z.to_nat m) k); done || lia.
Qed.

(** ** The list of the dynamic commands *)

Definition holds (d : dcmd_t) (x : dyn) : Prop :=
  d_cmd_func d = fst (fst x) /\ d_cmd_name d = snd (fst x) /\ d_cmd_description d = snd x.

(** The list from the pointer [p] on. *)
Fixpoint cmd_list (m : gmap Z dcmd_t) (p : option Z) (l : list (Z * dyn)) : Prop :=
  match l with
  | [] => p = None
  | (q, x) :: l' => p = Some q /\ exists d, m !! q = Some d /\ holds d x /\ cmd_list m (d_next d) l'
  end.

Lemma cmd_list_len m l1 : forall p l2, cmd_list m p l1 -> cmd_list m p l2 -> length l1 = length l2.
Proof.
  induction l1 as [|[q x] l1 IH]; intros p [|[q' x'] l2]; cbn; try done.
  - by intros -> [? _].
  - by intros [-> _] ?.
  - intros (-> & d & Hd & _ & H1) ([= <-] & d' & Hd' & _ & H2).
    rewrite Hd in Hd'. injection Hd' as <-. f_equal. by eapply IH.
Qed.

Lemma cmd_list_suffix m : forall l p q, q ∈ l.*1 -> cmd_list m p l ->
  exists l2, cmd_list m (Some q) l2 /\ (0 < length l2 <= length l)%nat.
Proof.
  induction l as [|[q x] l IH]; intros p q' Hin Hl; [by apply not_elem_of_nil in Hin|].
  cbn in Hin. apply elem_of_cons in Hin as [->|Hin].
  - destruct Hl as [-> Hd]. exists ((q, x) :: l). split; [done|cbn; lia].
  - destruct Hl as (_ & d & _ & _ & Hl). destruct (IH _ _ Hin Hl) as (l2 & H2 & Hlen).
    exists l2. split; [done|cbn; lia].
Qed.

(** The list does not run in a circle. *)
Lemma cmd_list_NoDup m p l : cmd_list m p l -> NoDup l.*1.
Proof.
  revert p. induction l as [|[q x] l IH]; intros p Hl; cbn; [constructor|].
  destruct Hl as (-> & d & Hd & Hx & Hl). constructor; [|by eapply IH]. intros Hin.
  destruct (cmd_list_suffix _ _ _ _ Hin Hl) as (l2 & H2 & Hlen).
  assert (length ((q, x) :: l) = length l2) as Heq.
  { eapply cmd_list_len; [|done]. split; [done|]. eauto. }
  cbn in Heq. lia.
Qed.

Lemma cmd_list_dom m l : forall p q, cmd_list m p l -> q ∈ l.*1 -> is_Some (m !! q).
Proof.
  induction l as [|[q x] l IH]; intros p q' Hl Hin; [by apply not_elem_of_nil in Hin|].
  destruct Hl as (-> & d & Hd & _ & Hl). cbn in Hin. apply elem_of_cons in Hin as [->|Hin]; eauto.
Qed.

Lemma cmd_list_size m p l : cmd_list m p l -> (length l <= size m)%nat.
Proof.
  intros Hl. rewrite <- (length_fmap fst l), <- size_dom.
  rewrite <- (size_list_to_set (C := gset Z)) by by eapply cmd_list_NoDup.
  apply subseteq_size. intros q Hq%elem_of_list_to_set. apply elem_of_dom. by eapply cmd_list_dom.
Qed.

(** The position of a name in the list. *)
Definition names_of (l : list (Z * dyn)) (ds : list (list Z)) : Prop :=
  Forall2 (fun x n => named (snd (fst (snd x))) n) l ds.

Definition position (ns : list (list Z)) (w : list Z) : option Z :=
  Z.of_nat ∘ fst <$> list_find (fun n => n = w) ns.

Lemma search_list_spec m w rest l ds : chars w ->
  names_of l ds -> forall fuel p idx,
    cmd_list m p l -> (length l <= fuel)%nat -> 0 <= idx -> idx + Z.of_nat (length l) <= 256 ->
    search_list fuel m p idx (w ++ 0 :: rest) = Some (Z.add idx <$> position ds w).
Proof.
  intros Hw Hn. induction Hn as [|[q x] n l ds [Hc [r0 Hr0]] Hn IH]; intros fuel p idx Hl Hf Hi Hb.
  - cbn in Hl. subst p. by destruct fuel.
  - destruct Hl as (-> & d & Hd & (_ & Hnm & _) & Hl). destruct fuel as [|fuel]; [cbn in Hf; lia|].
    cbn [search_list]. rewrite Hd. cbn [mbind option_bind]. cbn in Hr0. rewrite Hnm, Hr0.
    destruct (strcmp_spec n w r0 rest Hc Hw) as (r & -> & Hr). cbn [mbind option_bind].
    cbn in Hf, Hb. unfold position. cbn [list_find]. destruct (decide (n = w)) as [->|Hne].
    + rewrite (proj2 (str_cmp_eq w w) eq_refl) in Hr. apply Z.compare_eq_iff in Hr as ->. cbn. do 2 f_equal. lia.
    + destruct (Z.eqb_spec r 0) as [->|Hr0'].
      { destruct Hne. by apply str_cmp_eq. }
      destruct l as [|x' l].
      * cbn in Hl. inversion Hn; subst. rewrite Hl. by destruct fuel.
      * cbn in Hb. rewrite uint8_small by lia. rewrite IH; [|done|lia|lia|cbn; lia].
        unfold position. destruct (list_find _ ds) as [[k y]|]; cbn; [do 2 f_equal; lia|done].
Qed.

Lemma position_None ns w : position ns w = None <-> w ∉ ns.
Proof.
  unfold position. rewrite fmap_None, list_find_None, Forall_forall. split; [|naive_solver].
  intros H Hin. by apply (H w Hin).
Qed.

Lemma position_lookup ns i w :
  StronglySorted str_lt ns -> ns !! i = Some w -> position ns w = Some (Z.of_nat i).
Proof.
  intros Hs Hi. unfold position.
  assert (list_find (fun n => n = w) ns = Some (i, w)) as ->; [|done].
  apply list_find_Some. split_and!; [done|done|]. intros j y Hj Hlt ->.
  apply (str_lt_irrefl w). by apply (sorted_lookup ns j i).
Qed.

Lemma position_app ns ds w :
  position (ns ++ ds) w =
  match position ns w with
  | Some i => Some i
  | None => Z.add (Z.of_nat (length ns)) <$> position ds w
  end.
Proof.
  unfold position. destruct (list_find _ ns) as [[i y]|] eqn:E.
  { by rewrite (list_find_app_l _ _ _ _ _ E). }
  rewrite list_find_app_r by done. cbn.
  destruct (list_find _ ds) as [[j y]|]; cbn; [f_equal; lia|done].
Qed.

(** The dynamic commands of [t]. *)
Definition commands (t : term) (l : list (Z * dyn)) : Prop := cmd_list (dcmds t) (cmd_head t) l.

Lemma search_cmd_linear_lemma t table ns l ds w rest :
  sorted_table table ns -> commands t l -> names_of l ds ->
  NUMBER_OF_COMMANDS table + Z.of_nat (length l) <= 256 -> chars w ->
  search_cmd table (w ++ 0 :: rest) t = Some (default 0 (position (ns ++ ds) w), t).
Proof.
  intros Ht Hl Hd Hlen Hw. pose proof (Forall2_length _ _ _ (st_names _ _ Ht)) as Hn.
  pose proof (st_len _ _ Ht) as H127. unfold NUMBER_OF_COMMANDS in *.
  unfold search_cmd, NUMBER_OF_COMMANDS. rewrite int8_small by lia.
  destruct (search_table_spec table ns w rest Ht Hw (length table) 0 (Z.of_nat (length table) - 1))
    as (r & Hrun & Hr); [lia|lia|lia|lia| |].
  { intros k n Hk Hkn%lookup_lt_Some. lia. }
  rewrite (bind_lift _ _ _ _ Hrun), position_app. destruct r as [i|]; cbn in Hr.
  - destruct Hr as [Hi Hk]. pose proof (lookup_lt_Some _ _ _ Hk).
    rewrite (position_lookup ns (Z.to_nat i) w) by (apply Ht || done).
    rewrite uint8_small by lia. cbn. by rewrite Z2Nat.id by lia.
  - rewrite (proj2 (position_None ns w)) by done. rewrite !bind_get.
    rewrite uint8_small by lia. erewrite bind_lift
      by (apply (search_list_spec _ w rest l ds); try done; [by eapply cmd_list_size|lia..]).
    rewrite Hn. by destruct (position ds w).
Qed.

(** The search of a command.  For every table in alphabetical order of at most
    127 commands and every list of dynamic commands, 256 in all at most, [search_cmd]
    -- a binary search with 8-bit indices, then a walk through the list -- returns
    what a linear search through the table followed by the list does: the position of
    the first command with the name, and 0, the help command, when there is none.  It
    changes nothing. *)
Theorem search_cmd_linear t table ns l ds w rest :
  sorted_table table ns -> commands t l -> names_of l ds ->
  NUMBER_OF_COMMANDS table + Z.of_nat (length l) <= 256 -> chars w ->
  search_cmd table (w ++ 0 :: rest) t = Some (default 0 (position (ns ++ ds) w), t).
Proof. apply search_cmd_linear_lemma. Qed.

(** ** Adding a command *)

(** The walk finds the last control block, and linking a new one there, once it is
    filled in, extends the list. *)
Lemma last_cmd_spec m h y dh l : forall fuel p,
  cmd_list m (Some p) l -> (length l <= fuel)%nat ->
  h ∉ l.*1 -> holds dh y -> d_next dh = None ->
  exists q d, last_cmd fuel m p = Some q /\ m !! q = Some d /\ q ∈ l.*1 /\
    cmd_list (<[h := dh]> (<[q := set_d_next (Some h) d]> m)) (Some p) (l ++ [(h, y)]).
Proof.
  induction l as [|[r x] l IH]; intros fuel p Hl Hf Hh Hy Hn; [done|].
  pose proof (cmd_list_NoDup _ _ _ Hl) as Hnd. apply NoDup_cons in Hnd as [Hr _].
  rewrite fmap_cons, not_elem_of_cons in Hh. destruct Hh as [Hne Hh]. cbn in Hne.
  destruct Hl as ([= <-] & d & Hd & Hx & Hl). destruct fuel as [|fuel]; [cbn in Hf; lia|]. cbn in Hf.
  cbn [last_cmd]. rewrite Hd. cbn [mbind option_bind]. destruct (d_next d) as [p'|] eqn:En.
  - destruct (IH fuel p' Hl ltac:(lia) Hh Hy Hn) as (q & dq & Hq & Hdq & Hin & Hnew).
    exists q, dq. split_and!; [done|done|set_solver|]. split; [done|].
    exists d. rewrite !lookup_insert_ne by set_solver. by rewrite En.
  - destruct l as [|[r' x'] l]; [|by destruct Hl].
    exists p, d. split_and!; [done|done|set_solver|]. split; [done|].
    exists (set_d_next (Some h) d). rewrite lookup_insert_ne, lookup_insert_eq by done.
    split_and!; [done|done|]. split; [done|]. exists dh. by rewrite lookup_insert_eq, Hn.
Qed.

Lemma upd_dcmd_eq p f t d :
  dcmds t !! p = Some d -> upd_dcmd p f t = Some (tt, set_dcmds (<[p := f d]> (dcmds t)) t).
Proof. intros H. unfold upd_dcmd, tbind, tget, tlift, tset. cbn. by rewrite H. Qed.

(** The four assignments that fill in the control block. *)
Lemma fill_handler handler cmd name description t d0 :
  dcmds t !! handler = Some d0 ->
  (upd_dcmd handler (fun d => mkDcmd cmd (d_cmd_name d) (d_cmd_description d) (d_next d)) ;;;
   upd_dcmd handler (fun d => mkDcmd (d_cmd_func d) name (d_cmd_description d) (d_next d)) ;;;
   upd_dcmd handler (fun d => mkDcmd (d_cmd_func d) (d_cmd_name d) description (d_next d)) ;;;
   upd_dcmd handler (set_d_next None)) t
  = Some (tt, set_dcmds (<[handler := mkDcmd cmd name description None]> (dcmds t)) t).
Proof.
  intros Hd. rewrite (bind_Some _ _ _ _ _ (upd_dcmd_eq _ _ _ _ Hd)).
  do 2 (erewrite bind_Some by (apply upd_dcmd_eq; cbn; apply lookup_insert_eq)).
  erewrite upd_dcmd_eq by (cbn; apply lookup_insert_eq). cbn. by rewrite !insert_insert_eq.
Qed.

(** Adding a command at run time.  [terminal_add_cmd] appends the control block,
    with the function, the name and the description given, to the list of the dynamic
    commands, wherever the list ends, and changes nothing else, provided that the
    control block is not already in the list. *)
Theorem terminal_add_cmd_appends t l handler d0 cmd name description :
  commands t l -> handler ∉ l.*1 -> dcmds t !! handler = Some d0 ->
  exists m p,
    let t' := set_cmd_head p (set_dcmds m t) in
    terminal_add_cmd handler cmd name description t = Some (tt, t') /\
    commands t' (l ++ [(handler, (cmd, name, description))]) /\
    forall q, q ∉ l.*1 -> q <> handler -> m !! q = dcmds t !! q.
Proof.
  intros Hl Hh Hd. unfold commands in *. unfold terminal_add_cmd.
  assert (holds (mkDcmd cmd name description None) (cmd, name, description)) as Hy by done.
  rewrite bind_get. destruct (cmd_head t) as [p|] eqn:Ehd.
  - destruct (last_cmd_spec (dcmds t) handler _ _ l (size (dcmds t)) p Hl ltac:(by eapply cmd_list_size) Hh Hy eq_refl)
      as (q & d & Hq & Hdq & Hin & Hnew).
    eexists _, (Some p). split_and!; [|exact Hnew|].
    + rewrite bind_assoc, bind_get, bind_assoc, (bind_lift _ q), (bind_Some _ _ _ _ _ (upd_dcmd_eq _ _ _ _ Hdq)) by done.
      erewrite fill_handler by (cbn; rewrite lookup_insert_ne by set_solver; exact Hd).
      by rewrite <- Ehd.
    + intros r Hr Hne. by rewrite !lookup_insert_ne by set_solver.
  - destruct l as [|[r x] l]; [|by destruct Hl].
    eexists (<[handler := mkDcmd cmd name description None]> (dcmds t)), (Some handler). split_and!.
    + rewrite bind_set. by erewrite fill_handler by exact Hd.
    + cbn. split; [done|]. eexists. rewrite lookup_insert_eq. by split_and!.
    + intros r _ Hne. by rewrite lookup_insert_ne.
Qed.

(** ** The table of terminal_cfg.h *)

Definition cmd_names : list (list Z) := [lit "help"; lit "runst"; lit "top"; lit "ver"].

Lemma chars_b x : forallb (fun c => 0 <? c) x = true -> chars x.
Proof.
  intros H. apply List.Forall_forall. intros c Hc. rewrite forallb_forall in H. by apply Z.ltb_lt, H.
Qed.

Lemma cmds_sorted : sorted_table cmds cmd_names.
Proof.
  split; [|by repeat constructor|done]. unfold cmds, cmd_names.
  repeat (apply Forall2_cons; split); try done; (split; [by apply chars_b|by exists []]).
Qed.
End search.
