(* ===== verification/TermLine.v ===== *)
(** * The line editor of the terminal

    An abstract editor -- the line, the last line, the count of characters and
    whether the up key was begun -- that [terminal_input] of Terminal.v refines on
    every byte, so that its accesses stay inside the buffers; and what
    [terminal_process] does with a line. *)

From Stdlib Require Import ZArith Lia Ascii String.
From stdpp Require Import base gmap numbers list.
From S2P Require Import Prelude Text Terminal TermCmds.
#[local] Open Scope Z_scope.
#[local] Open Scope stm_scope.

(** ** The abstract editor *)

Record ed := mkEd {
  e_line : list Z; (* the characters typed so far *)
  e_hist : list Z; (* the last command line *)
  e_tmp : Z;       (* the count of characters that the echo of DEL looks at *)
  e_esc : bool;    (* the first byte of the up key was received *)
}.

(** The effect of a byte: a new state of the editor, or the line entered. *)
Inductive outcome :=
| Editing (e : ed)
| Entered (line hist : list Z) (tmp : Z).

(** What the byte counts for, and what is echoed; [None] is no effect. *)
Definition ed_echo (c : Z) (e : ed) : option Z * Z * bool * list Z :=
  let count c := if c =? 13 then 0 else if e_tmp e >=? 0 then e_tmp e + 1 else 1 in
  if c =? 0x7F then (Some c, e_tmp e - 1, e_esc e, if e_tmp e - 1 >=? 0 then [c] else [])
  else if c =? UP_KEY_CHAR then (None, e_tmp e, true, [])
  else if e_esc e then (Some UP_KEY_CHAR, count UP_KEY_CHAR, false, [])
  else (Some c, count c, false, [c]).

(** The last line again: erases the line and shows the last one with its NUL. *)
Definition ed_recall (e : ed) : list Z * Z * list Z :=
  let erased := replicate (length (e_line e)) 0x7F in
  match e_hist e with
  | [] => ([], e_tmp e, erased)
  | hist => (hist, Z.of_nat (length hist), erased ++ hist ++ [0])
  end.

(** The effect on the line. *)
Definition ed_key (c : Z) (e : ed) : outcome * list Z :=
  if e_tmp e <? 0 then (Editing e, [])
  else if ((c =? 8) || (c =? 0x7F)) && negb (length (e_line e) =? 0)%nat then
    (Editing (mkEd (take (pred (length (e_line e))) (e_line e)) (e_hist e) (e_tmp e) (e_esc e)), [])
  else if c =? UP_KEY_CHAR then
    let '(line, tmp, out) := ed_recall e in (Editing (mkEd line (e_hist e) tmp (e_esc e)), out)
  else if (c =? 10) || (c =? 13) || (length (e_line e) =? 30)%nat then
    (Entered (e_line e) (e_hist e) (e_tmp e), [])
  else (Editing (mkEd (e_line e ++ [c]) (e_hist e) (e_tmp e) (e_esc e)), []).

Definition ed_step (c : Z) (e : ed) : outcome * list Z :=
  let '(r, tmp, esc, out) := ed_echo c e in
  let e := mkEd (e_line e) (e_hist e) tmp esc in
  match r with
  | None => (Editing e, out)
  | Some c => let '(o, out') := ed_key c e in (o, out ++ out')
  end.

Section editor.
Context `{X : Externals}.
Implicit Types (t : term) (e : ed).

(** The buffers between two calls: the last two bytes of the line buffer are NUL, and
    the last line is a C string whose length is [cpi]. *)
Record buffers (t : term) (hist : list Z) (tmp : Z) (esc : bool) : Prop := {
  bf_in : length (term_in t) = TERM_INPUT_BUFSIZE;
  bf_put : is_Some (putchar_func t);
  bf_top : term_in t !! 30%nat = Some 0 /\ term_in t !! 31%nat = Some 0;
  bf_last : exists rest, last_term_in t = hist ++ 0 :: rest;
  bf_last_len : length (last_term_in t) = TERM_INPUT_BUFSIZE;
  bf_bytes : Forall (Z.le 0) (term_in t);
  bf_hist : chars hist;
  bf_hist_len : (length hist <= 30)%nat;
  bf_cpi : cpi t = Z.of_nat (length hist);
  bf_tmp : term_tmp_idx t = tmp;
  bf_esc : discard_char t = if esc then 1 else 0;
}.

(** The state of the terminal for a state of the editor. *)
Record edits (t : term) (e : ed) : Prop := {
  ed_buffers : buffers t (e_hist e) (e_tmp e) (e_esc e);
  ed_line : exists rest, term_in t = e_line e ++ rest;
  ed_len : (length (e_line e) <= 30)%nat;
  ed_idx : term_in_idx t = Z.of_nat (length (e_line e));
}.

(** A line was entered: it is the C string in the line buffer, up to its first NUL. *)
Record enters (t : term) (line hist : list Z) (tmp : Z) : Prop := {
  en_buffers : buffers t hist tmp false;
  en_line : exists rest, term_in t = line ++ 0 :: rest;
  en_len : (length line <= 30)%nat;
}.

(** ** Steps *)

Lemma load_eq (l : list Z) i c t : l !! i = Some c -> load l (Z.of_nat i) t = Some (c, t).
Proof. intros H. unfold load, tlift. by rewrite aget_nat, H. Qed.

Lemma store_in_eq i c t :
  (i < length (term_in t))%nat ->
  store_in (Z.of_nat i) c t = Some (tt, set_term_in (<[i := c]> (term_in t)) t).
Proof.
  intros H. destruct (lookup_lt_is_Some_2 _ _ H) as [x Hx].
  unfold store_in. rewrite bind_get, (bind_Some _ _ _ _ _ (load_eq _ _ _ _ Hx)), aset_nat. done.
Qed.

Lemma store_last_eq i c t :
  (i < length (last_term_in t))%nat ->
  store_last (Z.of_nat i) c t = Some (tt, set_last_term_in (<[i := c]> (last_term_in t)) t).
Proof.
  intros H. destruct (lookup_lt_is_Some_2 _ _ H) as [x Hx].
  unfold store_last. rewrite bind_get, (bind_Some _ _ _ _ _ (load_eq _ _ _ _ Hx)), aset_nat. done.
Qed.

Lemma int_of_eq x : - 2 ^ 31 <= x < 2 ^ 31 -> int_of x = Some x.
Proof. intros. unfold int_of. by rewrite (proj2 (Z.leb_le _ _)), (proj2 (Z.ltb_lt _ _)) by lia. Qed.

Lemma put_idx_eq x t : - 2 ^ 31 <= x < 2 ^ 31 -> put_idx x t = Some (tt, set_term_in_idx x t).
Proof. intros H. unfold put_idx. by rewrite (bind_lift _ _ _ _ (int_of_eq x H)). Qed.

Lemma put_tmp_eq x t : - 2 ^ 31 <= x < 2 ^ 31 -> put_tmp x t = Some (tt, set_term_tmp_idx x t).
Proof. intros H. unfold put_tmp. by rewrite (bind_lift _ _ _ _ (int_of_eq x H)). Qed.

(** The characters sent to the output function. *)
Definition sent (f : option F) (out : list Z) (w : W) : W :=
  match f with
  | None => w
  | Some f => fold_left (fun w c => do_putchar f c w) out w
  end.

Lemma sent_app f o1 o2 w : sent f (o1 ++ o2) w = sent f o2 (sent f o1 w).
Proof. destruct f; [apply fold_left_app|done]. Qed.

Definition send (out : list Z) (t : term) : term := set_world (sent (putchar_func t) out (world t)) t.

Lemma putchar_eq c t : is_Some (putchar_func t) -> putchar c t = Some (tt, send [c] t).
Proof. intros [f Hf]. unfold putchar, send, sent. by rewrite bind_get, Hf. Qed.

Lemma send_nil t : send [] t = t.
Proof. destruct t. unfold send, sent. cbn. by case_match. Qed.
Lemma send_send o1 o2 t : send o2 (send o1 t) = send (o1 ++ o2) t.
Proof. unfold send. cbn. by rewrite sent_app. Qed.

(** ** The up key *)

Lemma erase_loop_eq n : forall fuel t,
  term_in_idx t = Z.of_nat n -> (n <= fuel)%nat -> (n <= TERM_INPUT_BUFSIZE)%nat ->
  is_Some (putchar_func t) ->
  erase_loop fuel t = Some (tt, set_term_in_idx 0 (send (replicate n 0x7F) t)).
Proof.
  unfold TERM_INPUT_BUFSIZE. induction n as [|n IH]; intros fuel t Hi Hf Hb Hp.
  - assert (erase_loop fuel t = Some (tt, t)) as ->.
    { destruct fuel; cbn [erase_loop]; rewrite bind_get, Hi; done. }
    cbn [replicate]. rewrite send_nil. change 0 with (Z.of_nat 0). rewrite <- Hi. by destruct t.
  - destruct fuel as [|fuel]; [lia|]. cbn [erase_loop]. rewrite bind_get, Hi.
    rewrite (proj2 (Z.eqb_neq _ _)) by lia.
    rewrite (bind_Some _ _ _ _ _ (putchar_eq _ _ Hp)), (bind_Some _ _ _ _ _ (put_idx_eq (Z.of_nat (S n) - 1) _ ltac:(lia))).
    rewrite IH by (done || cbn; lia). unfold send. cbn. rewrite <- sent_app. done.
Qed.

(** The two loops over the last line, from the index [i] on; [n] steps are left. *)
Lemma show_loop_eq hist rest : forall n fuel i t,
  last_term_in t = hist ++ 0 :: rest -> cpi t = Z.of_nat (length hist) ->
  (length hist <= 30)%nat -> (i + n = S (length hist))%nat -> (n <= fuel)%nat ->
  term_in_idx t = Z.of_nat i -> is_Some (putchar_func t) ->
  show_loop fuel t
  = Some (tt, set_term_in_idx (Z.of_nat (S (length hist))) (send (drop i (hist ++ [0])) t)).
Proof.
  induction n as [|n IH]; intros fuel i t Hl Hc Hb Hn Hf Hi Hp.
  - assert (show_loop fuel t = Some (tt, t)) as ->.
    { destruct fuel; cbn [show_loop]; rewrite !bind_get, Hi, Hc, (proj2 (Z.gtb_lt _ _)) by lia; done. }
    rewrite drop_ge by (rewrite length_app; cbn; lia). rewrite send_nil.
    replace (Z.of_nat (S (length hist))) with (Z.of_nat i) by lia. rewrite <- Hi. by destruct t.
  - destruct fuel as [|fuel]; [lia|]. cbn [show_loop]. rewrite !bind_get, Hi, Hc.
    replace (Z.of_nat i >? Z.of_nat (length hist)) with false by (symmetry; rewrite Z.gtb_ltb; apply Z.ltb_ge; lia).
    rewrite bind_get.
    destruct (lookup_lt_is_Some_2 (hist ++ [0]) i) as [c Hci]; [rewrite length_app; cbn; lia|].
    assert (last_term_in t !! i = Some c) as Hl2.
    { rewrite Hl. change (0 :: rest) with ([0] ++ rest). rewrite app_assoc. by apply lookup_app_l_Some. }
    rewrite (bind_Some _ _ _ _ _ (load_eq _ _ _ _ Hl2)).
    rewrite (bind_Some _ _ _ _ _ (put_idx_eq (Z.of_nat i + 1) _ ltac:(lia))).
    rewrite (bind_Some _ _ _ _ _ (putchar_eq c (set_term_in_idx (Z.of_nat i + 1) t) Hp)).
    rewrite (IH fuel (S i)) by (done || cbn; lia). rewrite (drop_S _ _ _ Hci).
    unfold send. cbn. change (c :: drop (S i) (hist ++ [0])) with ([c] ++ drop (S i) (hist ++ [0])).
    by rewrite sent_app.
Qed.

Lemma recall_loop_eq hist rest : forall n fuel i t,
  last_term_in t = hist ++ 0 :: rest -> cpi t = Z.of_nat (length hist) ->
  (length hist <= 30)%nat -> (i + n = S (length hist))%nat -> (n <= fuel)%nat ->
  term_in_idx t = Z.of_nat i -> term_tmp_idx t = Z.of_nat i -> length (term_in t) = TERM_INPUT_BUFSIZE ->
  recall_loop fuel t
  = Some (tt, set_term_tmp_idx (Z.of_nat (S (length hist))) (set_term_in_idx (Z.of_nat (S (length hist)))
           (set_term_in (overlay (term_in t) i (drop i (hist ++ [0]))) t))).
Proof.
  induction n as [|n IH]; intros fuel i t Hl Hc Hb Hn Hf Hi Ht Hlen.
  - assert (recall_loop fuel t = Some (tt, t)) as ->.
    { destruct fuel; cbn [recall_loop]; rewrite !bind_get, Hi, Hc, (proj2 (Z.gtb_lt _ _)) by lia; done. }
    rewrite drop_ge by (rewrite length_app; cbn; lia). rewrite overlay_nil.
    replace (S (length hist)) with i by lia. rewrite <- Hi at 2. rewrite <- Ht. by destruct t.
  - destruct fuel as [|fuel]; [lia|]. cbn [recall_loop]. rewrite !bind_get, Hi, Hc.
    replace (Z.of_nat i >? Z.of_nat (length hist)) with false by (symmetry; rewrite Z.gtb_ltb; apply Z.ltb_ge; lia).
    rewrite bind_get.
    destruct (lookup_lt_is_Some_2 (hist ++ [0]) i) as [c Hci]; [rewrite length_app; cbn; lia|].
    assert (last_term_in t !! i = Some c) as Hl2.
    { rewrite Hl. change (0 :: rest) with ([0] ++ rest). rewrite app_assoc. by apply lookup_app_l_Some. }
    unfold TERM_INPUT_BUFSIZE in Hlen.
    rewrite (bind_Some _ _ _ _ _ (load_eq _ _ _ _ Hl2)).
    rewrite (bind_Some _ _ _ _ _ (store_in_eq i c t ltac:(lia))).
    rewrite (bind_Some _ _ _ _ _ (put_idx_eq (Z.of_nat i + 1) _ ltac:(lia))), bind_get.
    cbn [term_tmp_idx set_term_in_idx set_term_in]. rewrite Ht.
    rewrite (bind_Some _ _ _ _ _ (put_tmp_eq (Z.of_nat i + 1) _ ltac:(lia))).
    rewrite (IH fuel (S i)) by (done || unfold TERM_INPUT_BUFSIZE; cbn; rewrite ?length_insert; lia). rewrite (drop_S _ _ _ Hci).
    change (c :: drop (S i) (hist ++ [0])) with ([c] ++ drop (S i) (hist ++ [0])).
    rewrite <- overlay_app by (rewrite length_drop, length_app; cbn; lia).
    rewrite <- insert_overlay, Nat.add_1_r by lia. done.
Qed.

Lemma lookup_overlay (l : list Z) p x i :
  (p + length x <= length l)%nat ->
  overlay l p x !! i = if decide (p <= i < p + length x)%nat then x !! (i - p)%nat else l !! i.
Proof.
  intros Hl. unfold overlay. assert (length (take p l) = p) as Hp by (rewrite length_take; lia).
  case_decide as Hd.
  - rewrite lookup_app_r, Hp by lia. by rewrite lookup_app_l by lia.
  - destruct (decide (i < p)%nat).
    + rewrite lookup_app_l by lia. by apply lookup_take_lt.
    + rewrite lookup_app_r, Hp, lookup_app_r, lookup_drop by lia. f_equal. lia.
Qed.

(** What no service of the editor changes. *)
Definition same_setup (t t' : term) : Prop :=
  putchar_func t' = putchar_func t /\ input t' = input t /\ cmd_head t' = cmd_head t /\
  dcmds t' = dcmds t.

Definition recalled (e : ed) : ed :=
  mkEd (fst (fst (ed_recall e))) (e_hist e) (snd (fst (ed_recall e))) (e_esc e).

Lemma up_key_eq t e :
  edits t e -> exists t', up_key t = Some (tt, t') /\ edits t' (recalled e) /\
    same_setup t t' /\ world t' = sent (putchar_func t) (snd (ed_recall e)) (world t).
Proof.
  intros [[Hin Hp [Ht1 Ht2] [r2 Hlast] Hll Hby Hh Hhl Hc Ht He] [r Hline] Hlen Hidx].
  unfold up_key. unfold TERM_INPUT_BUFSIZE in Hin, Hll.
  rewrite (bind_Some _ _ _ _ _ (erase_loop_eq (length (e_line e)) TERM_INPUT_BUFSIZE t Hidx
    ltac:(unfold TERM_INPUT_BUFSIZE; lia) ltac:(unfold TERM_INPUT_BUFSIZE; lia) Hp)).
  set (t1 := set_term_in_idx 0 _). 
  rewrite (bind_Some _ _ _ _ _ (put_idx_eq 0 t1 ltac:(lia))), bind_get.
  change (set_term_in_idx 0 t1) with t1. change (last_term_in t1) with (last_term_in t).
  unfold recalled, ed_recall. destruct (e_hist e) as [|c0 hist] eqn:Eh.
  - rewrite (bind_Some _ _ _ _ _ (load_eq (last_term_in t) 0 0 t1 ltac:(by rewrite Hlast))). cbn [negb Z.eqb].
    exists t1. split; [done|]. split; [|done].
    split; [split|..]; cbn; eauto; lia.
  - rewrite (bind_Some _ _ _ _ _ (load_eq (last_term_in t) 0 c0 t1 ltac:(by rewrite Hlast))).
    apply Forall_cons in Hh as Hc0. destruct Hc0 as [Hc0 _].
    rewrite (proj2 (Z.eqb_neq _ _)) by lia. cbn [negb]. rewrite <- Eh in *.
    set (n := length (e_hist e)) in *.
    rewrite (bind_Some _ _ _ _ _ (show_loop_eq (e_hist e) r2 (S n) 32 0 t1 Hlast Hc Hhl eq_refl
      ltac:(lia) eq_refl Hp)), drop_0.
    rewrite (bind_Some _ _ _ _ _ (put_idx_eq 0 _ ltac:(lia))), (bind_Some _ _ _ _ _ (put_tmp_eq 0 _ ltac:(lia))).
    set (t2 := set_term_tmp_idx 0 _).
    rewrite (bind_Some _ _ _ _ _ (recall_loop_eq (e_hist e) r2 (S n) 32 0 t2 Hlast Hc Hhl eq_refl
      ltac:(lia) eq_refl eq_refl Hin)), drop_0, bind_get.
    change (term_tmp_idx _) with (Z.of_nat (S n)).
    rewrite (bind_Some _ _ _ _ _ (put_tmp_eq (Z.of_nat (S n) - 1) _ ltac:(lia))), bind_get.
    change (term_in_idx _) with (Z.of_nat (S n)).
    assert (length (e_hist e ++ [0]) = S n) as Hx by (rewrite length_app; cbn; lia).
    assert (length (overlay (term_in t) 0 (e_hist e ++ [0])) = 32%nat) as Ho
      by (rewrite length_overlay; [done|lia]).
    erewrite bind_Some by (apply store_in_eq;
      change (S n < length (overlay (term_in t) 0 (e_hist e ++ [0%Z])))%nat; rewrite Ho; lia).
    rewrite put_idx_eq by lia. eexists. split; [done|].
    assert (<[S n := 0]> (overlay (term_in t) 0 (e_hist e ++ [0])) = overlay (term_in t) 0 (e_hist e ++ [0; 0])) as Hov.
    { rewrite insert_overlay by lia. change (S n) with (0 + S n)%nat. rewrite <- Hx.
      rewrite overlay_app by (cbn [length]; lia). by rewrite <- app_assoc. }
    assert (length (e_hist e ++ [0; 0]) = S (S n)) as Hx2 by (rewrite length_app; cbn; lia).
    assert (forall i, (i = 30 \/ i = 31)%nat ->
      overlay (term_in t) 0 (e_hist e ++ [0; 0]) !! i = Some 0) as Htop.
    { intros i Hi. rewrite lookup_overlay by lia. rewrite Hx2. case_decide; [|destruct Hi as [->| ->]; done].
      rewrite Nat.sub_0_r, lookup_app_r by (destruct Hi; fold n; lia). fold n.
      destruct (i - n)%nat as [|[|]] eqn:E; [done|done|lia]. }
    split; [|split; [done|]].
    + split; [split|..]; cbn; rewrite ?Hov; eauto; try lia.
      * by rewrite length_overlay by lia.
      * split; apply Htop; lia.
      * unfold overlay. rewrite take_0. apply Forall_app. split; [|apply Forall_app; split].
        all: try by apply Forall_drop.
        -- constructor.
        -- apply Forall_app. split; [|by repeat constructor]. eapply Forall_impl; [done|]. cbn. lia.
      * exists ([0; 0] ++ drop (S (S n)) (term_in t)). unfold overlay. rewrite Hx2. by rewrite <- !app_assoc.
    + cbn. by rewrite <- sent_app.
Qed.

(** ** The refinement *)

(** The terminal after an outcome of the editor, and the value returned. *)
Definition reaches (t : term) (o : outcome) : Prop :=
  match o with
  | Editing e => edits t e
  | Entered line hist tmp => enters t line hist tmp
  end.
Definition returned (o : outcome) : Z := match o with Editing _ => 0 | Entered _ _ _ => 1 end.

Lemma edits_send t e out : edits t e -> edits (send out t) e.
Proof. intros [[] ? ? ?]. by split; [split|..]. Qed.

Lemma edits_tmp t e tmp : edits t e -> edits (set_term_tmp_idx tmp t) (mkEd (e_line e) (e_hist e) tmp (e_esc e)).
Proof. intros [[] ? ? ?]. by split; [split|..]. Qed.

Lemma edits_esc t e (esc : bool) :
  edits t e -> edits (set_discard_char (if esc then 1 else 0) t) (mkEd (e_line e) (e_hist e) (e_tmp e) esc).
Proof. intros [[] ? ? ?]. by split; [split|..]. Qed.

Lemma count_eq {A} c t x (k : unit -> M A) :
  term_tmp_idx t = x -> - 2 ^ 31 < x < 2 ^ 31 - 1 ->
  tbind (if negb (c =? 13) then
     tmp <- tget term_tmp_idx ;; if tmp >=? 0 then put_tmp (tmp + 1) else put_tmp 1
   else put_tmp 0) k t
  = k tt (set_term_tmp_idx (if c =? 13 then 0 else if x >=? 0 then x + 1 else 1) t).
Proof.
  intros <- Hx. destruct (c =? 13); cbn [negb]; [by rewrite (bind_Some _ _ _ _ _ (put_tmp_eq 0 t ltac:(lia)))|].
  rewrite bind_assoc, bind_get.
  destruct (term_tmp_idx t >=? 0) eqn:E.
  - by rewrite (bind_Some _ _ _ _ _ (put_tmp_eq (term_tmp_idx t + 1) t ltac:(lia))).
  - by rewrite (bind_Some _ _ _ _ _ (put_tmp_eq 1 t ltac:(lia))).
Qed.

Lemma sent_nil f w : sent f [] w = w.
Proof. by destruct f. Qed.

(** The first part of [terminal_input]. *)
Lemma echo_eq c t e :
  edits t e -> - 2 ^ 31 < e_tmp e < 2 ^ 31 - 1 ->
  let '(r, tmp, esc, out) := ed_echo c e in
  exists t', echo c t = Some (r, t') /\ edits t' (mkEd (e_line e) (e_hist e) tmp esc) /\
    same_setup t t' /\ world t' = sent (putchar_func t) out (world t).
Proof.
  intros Hed Htmp. pose proof Hed as [[_ Hp _ _ _ _ _ _ _ Ht He] _ _ _].
  unfold ed_echo, echo. destruct (c =? 127) eqn:E127; cbn [negb].
  - rewrite bind_get, Ht, (bind_Some _ _ _ _ _ (put_tmp_eq (e_tmp e - 1) t ltac:(lia))).
    destruct (e_tmp e - 1 >=? 0) eqn:E.
    + rewrite (bind_Some _ _ _ _ _ (putchar_eq c (set_term_tmp_idx (e_tmp e - 1) t) Hp)).
      eexists. split; [done|]. split; [by apply edits_send, edits_tmp|done].
    + rewrite bind_ret. eexists. split; [done|]. split; [by apply edits_tmp|].
      split; [done|]. by rewrite sent_nil.
  - destruct (c =? UP_KEY_CHAR) eqn:EU; cbn [negb].
    + rewrite bind_assoc, bind_set, bind_ret. eexists. split; [done|].
      split; [by apply (edits_esc t e true)|]. split; [done|]. by rewrite sent_nil.
    + rewrite bind_assoc, bind_get, He. destruct (e_esc e) eqn:Ee.
      * change (1 =? 0) with false. change (uint8 (1 - 1) =? 0) with true. cbv iota.
        change (uint8 (1 - 1)) with 0. rewrite bind_assoc, bind_set, bind_ret.
        rewrite (count_eq _ _ (e_tmp e)) by done. eexists. split; [done|].
        split; [by apply (edits_tmp _ (mkEd (e_line e) (e_hist e) (e_tmp e) false)), (edits_esc t e false)|].
        split; [done|]. by rewrite sent_nil.
      * rewrite Z.eqb_refl, bind_assoc, (bind_Some _ _ _ _ _ (putchar_eq c t Hp)), bind_ret.
        rewrite (count_eq _ _ (e_tmp e)) by done. eexists. split; [done|].
        split; [rewrite <- Ee; by apply edits_tmp, edits_send|done].
Qed.

Lemma buffers_insert t hist tmp esc i c x :
  buffers t hist tmp esc -> (i <= 30)%nat -> (i = 30%nat -> c = 0) -> 0 <= c ->
  buffers (set_term_in_idx x (set_term_in (<[i := c]> (term_in t)) t)) hist tmp esc.
Proof.
  intros [Hin ? [Ht1 Ht2]] Hi Hc Hc0. unfold TERM_INPUT_BUFSIZE in Hin. split; cbn; try done.
  - by rewrite length_insert.
  - rewrite (list_lookup_insert_ne _ _ 31) by lia. split; [|done].
    destruct (decide (i = 30%nat)) as [->|]; [|by rewrite list_lookup_insert_ne by lia].
    rewrite list_lookup_insert_eq by lia. by rewrite Hc.
  - by apply Forall_insert.
Qed.

Lemma insert_line (l line r : list Z) c :
  l = line ++ r -> (length line < length l)%nat ->
  exists r', <[length line := c]> l = (line ++ [c]) ++ r'.
Proof.
  intros -> Hl. rewrite length_app in Hl. destruct r as [|x r]; [cbn in Hl; lia|].
  exists r. rewrite <- app_assoc. by rewrite insert_app_r_alt, Nat.sub_diag by lia.
Qed.

(** The second part. *)
Lemma key_eq c t e :
  edits t e -> 0 <= c -> (c = 0x7F \/ e_esc e = false) ->
  let '(o, out) := ed_key c e in
  exists t', edit_key c t = Some (returned o, t') /\ reaches t' o /\ same_setup t t' /\
    world t' = sent (putchar_func t) out (world t).
Proof.
  intros Hed Hc0 Hesc. pose proof Hed as [[Hin Hp [Ht1 Ht2] Hlast Hll Hby Hh Hhl Hc Ht He] [r Hline] Hlen Hidx].
  unfold TERM_INPUT_BUFSIZE in Hin. unfold ed_key, edit_key. rewrite bind_get, Ht.
  destruct (e_tmp e <? 0) eqn:E0.
  { replace (e_tmp e >=? 0) with false by lia. exists t. by rewrite sent_nil. }
  replace (e_tmp e >=? 0) with true by lia. rewrite bind_get, Hidx.
  assert ((Z.of_nat (length (e_line e)) >? 0) = negb (length (e_line e) =? 0)%nat) as ->
    by (destruct (length (e_line e)); [done|by apply Z.gtb_lt; lia]).
  set (n := length (e_line e)) in *.
  destruct (((c =? 8) || (c =? 127)) && negb (n =? 0)%nat) eqn:EB.
  { apply andb_true_iff in EB as [_ En]. apply negb_true_iff, Nat.eqb_neq in En.
    rewrite (bind_Some _ _ _ _ _ (store_in_eq n 0 t ltac:(lia))).
    rewrite (bind_Some _ _ _ _ _ (put_idx_eq (Z.of_nat n - 1) _ ltac:(lia))).
    eexists. split; [done|]. rewrite sent_nil. split; [|done].
    split; cbn; [by apply buffers_insert; [done|lia|..]| |rewrite length_take; lia|rewrite length_take; lia].
    exists (drop (pred n) (<[n := 0]> (term_in t))). rewrite <- (take_drop (pred n) (<[n := 0]> (term_in t))) at 1.
    f_equal. rewrite take_insert_ge, Hline by lia. apply take_app_le. lia. }
  destruct (c =? UP_KEY_CHAR) eqn:EU.
  { destruct (up_key_eq t e Hed) as (t' & Hrun & Hed' & Hs & Hw).
    rewrite (bind_Some _ _ _ _ _ Hrun). unfold recalled in Hed'.
    destruct (ed_recall e) as [[line tmp] out]. by exists t'. }
  rewrite (bind_Some _ _ _ _ _ (store_in_eq n c t ltac:(lia))).
  rewrite (bind_Some _ _ _ _ _ (put_idx_eq (Z.of_nat n + 1) _ ltac:(lia))).
  assert ((Z.of_nat n + 1 =? Z.of_nat TERM_INPUT_BUFSIZE - 1) = (n =? 30)%nat) as ->.
  { change (Z.of_nat TERM_INPUT_BUFSIZE) with 32.
    destruct (Nat.eqb_spec n 30); [apply Z.eqb_eq|apply Z.eqb_neq]; lia. }
  destruct ((c =? 10) || (c =? 13) || (n =? 30)%nat) eqn:EE.
  - erewrite bind_Some by (apply store_in_eq; cbn; rewrite length_insert; lia).
    eexists. split; [done|]. rewrite sent_nil. split; [|done]. 
    match goal with |- reaches ?x _ =>
      replace x with (set_term_in_idx (Z.of_nat n + 1) (set_term_in (<[n := 0]> (term_in t)) t))
        by (unfold set_term_in, set_term_in_idx; cbn; by rewrite list_insert_insert_eq) end.
    assert (e_esc e = false) as Hesc'.
    { destruct Hesc as [->|]; [|done]. cbn in EB, EE. apply negb_false_iff, Nat.eqb_eq in EB.
      apply Nat.eqb_eq in EE. lia. }
    split; cbn; [rewrite <- Hesc'; by apply buffers_insert; [done|lia|..]| |done].
    destruct (insert_line _ _ _ 0 Hline) as [r' Hr']; [fold n; lia|]. exists r'. fold n in Hr'. rewrite Hr'.
    by rewrite <- app_assoc.
  - eexists. split; [done|]. rewrite sent_nil. split; [|done].
    apply orb_false_iff in EE as [_ En]. apply Nat.eqb_neq in En.
    split; cbn; [by apply buffers_insert; [done|lia|lia|done]| |rewrite length_app; cbn; lia|rewrite length_app; cbn; lia].
    apply (insert_line _ _ _ c Hline). fold n. lia.
Qed.

Lemma ed_echo_esc c e :
  let '(r, _, esc, _) := ed_echo c e in
  forall c', r = Some c' -> (c' = 0x7F \/ esc = false) /\ (0 <= c -> 0 <= c').
Proof.
  unfold ed_echo. destruct (c =? 127) eqn:E; [to_prop; intros c' [= <-]; split; [by left|done]|].
  destruct (c =? UP_KEY_CHAR), (e_esc e); try done; intros c' [= <-]; split; try done; by right.
Qed.

Lemma same_setup_trans t1 t2 t3 : same_setup t1 t2 -> same_setup t2 t3 -> same_setup t1 t3.
Proof. intros (? & ? & ? & ?) (? & ? & ? & ?). split_and!; congruence. Qed.

(** The input hook. *)
Definition hooked (f : option G) (c : Z) (w : W) : W :=
  match f with None => w | Some f => do_input f c w end.

Lemma terminal_input_lemma c t e :
  edits t e -> 0 <= c -> - 2 ^ 31 < e_tmp e < 2 ^ 31 - 1 ->
  let '(o, out) := ed_step c e in
  exists t', terminal_input c t = Some (returned o, t') /\ reaches t' o /\ same_setup t t' /\
    world t' = sent (putchar_func t) out (hooked (input t) c (world t)).
Proof.
  intros Hed Hc0 Htmp. unfold terminal_input. rewrite bind_get.
  set (t0 := set_world (hooked (input t) c (world t)) t).
  assert (edits t0 e) as Hed0 by (by destruct Hed as [[] ? ? ?]; split; [split|..]).
  rewrite (bind_Some _ _ t tt t0) by (unfold t0, hooked; destruct (input t); [done|by destruct t]).
  pose proof (echo_eq c t0 e Hed0 Htmp) as Hecho. pose proof (ed_echo_esc c e) as Hesc. unfold ed_step.
  destruct (ed_echo c e) as [[[r tmp] esc] out]. destruct Hecho as (t1 & Hrun & Hed1 & Hs1 & Hw1).
  rewrite (bind_Some _ _ _ _ _ Hrun). clear Hrun.
  assert (same_setup t t1) as Hs by (by apply (same_setup_trans t t0)).
  assert (putchar_func t1 = putchar_func t) as Hp by apply Hs.
  destruct r as [c'|]; [|by exists t1].
  destruct (Hesc c' eq_refl) as [Hc1 Hc2].
  pose proof (key_eq c' t1 _ Hed1 (Hc2 Hc0) Hc1) as Hk.
  destruct (ed_key c' _) as [o out']. destruct Hk as (t2 & Hrun & Hr & Hs2 & Hw2).
  exists t2. split; [done|]. split; [done|]. split; [by eapply same_setup_trans|].
  rewrite Hw2, Hp, Hw1, <- sent_app. done.
Qed.

(** C35: the line editor.  On every byte [terminal_input] does what the abstract editor
    does: it goes on editing and returns 0, or the line is entered, the buffer holds
    it as a C string and 1 is returned; it sends exactly the echo of the editor and
    calls the input hook once.  In particular no access leaves the buffers, as long as
    the count of characters, an [int], does not overflow. *)
Theorem terminal_input_refines c t e :
  edits t e -> 0 <= c -> - 2 ^ 31 < e_tmp e < 2 ^ 31 - 1 ->
  let '(o, out) := ed_step c e in
  exists t', terminal_input c t = Some (returned o, t') /\ reaches t' o /\ same_setup t t' /\
    world t' = sent (putchar_func t) out (hooked (input t) c (world t)).
Proof. apply terminal_input_lemma. Qed.
End editor.
