(* ===== verification/TermProcess.v ===== *)
(** * Running a command line

    What [terminal_process] of Terminal.v does with the line entered: the words
    [strtok] finds, the command called with them, and the line that the up key
    shows again. *)

From Stdlib Require Import ZArith Lia Ascii String.
From stdpp Require Import base gmap numbers list.
From S2P Require Import Prelude Text Terminal TermCmds TermLine.
#[local] Open Scope Z_scope.
#[local] Open Scope stm_scope.

(** ** The words of a line *)

(** The words of [x]; [cur] is what was read of the present one. *)
Fixpoint words_from (cur : list Z) (x : list Z) : list (list Z) :=
  match x with
  | [] => match cur with [] => [] | _ => [cur] end
  | c :: x' =>
      if is_delim c then match cur with [] => words_from [] x' | _ => cur :: words_from [] x' end
      else words_from (cur ++ [c]) x'
  end.
Definition words : list Z -> list (list Z) := words_from [].

(** The index where each word starts, [i] being the index of [x]. *)
Fixpoint starts (inword : bool) (i : nat) (x : list Z) : list nat :=
  match x with
  | [] => []
  | c :: x' =>
      if is_delim c then starts false (S i) x'
      else if inword then starts true (S i) x' else i :: starts true (S i) x'
  end.

(** The line with a NUL after each word. *)
Fixpoint cut (inword : bool) (x : list Z) : list Z :=
  match x with
  | [] => []
  | c :: x' => (if inword && is_delim c then 0 else c) :: cut (negb (is_delim c)) x'
  end.

Definition delims (x : list Z) : Prop := Forall (fun c => is_delim c = true) x.
Definition letters (x : list Z) : Prop := Forall (fun c => is_delim c = false) x.

Lemma delims_nil : delims [].
Proof. constructor. Qed.
#[local] Hint Resolve delims_nil : core.
Lemma letters_1 c : is_delim c = false -> letters [c].
Proof. intros H. by constructor. Qed.

Lemma length_cut x b : length (cut b x) = length x.
Proof. revert b. induction x; intros b; cbn; auto. Qed.

Lemma words_delims d x : delims d -> words_from [] (d ++ x) = words_from [] x.
Proof. induction 1 as [|c d Hc _ IH]; [done|]. cbn. by rewrite Hc. Qed.
Lemma starts_delims d x i : delims d -> starts false i (d ++ x) = starts false (i + length d) x.
Proof.
  intros Hd. revert i. induction Hd as [|c d Hc _ IH]; intros i; cbn; [by rewrite Nat.add_0_r|].
  rewrite Hc, IH. f_equal. lia.
Qed.
Lemma cut_delims d x : delims d -> cut false (d ++ x) = d ++ cut false x.
Proof. induction 1 as [|c d Hc _ IH]; [done|]. cbn. rewrite Hc. cbn. by rewrite IH. Qed.

Lemma words_letters w x cur :
  letters w -> words_from cur (w ++ x) = words_from (cur ++ w) x.
Proof.
  intros Hw. revert cur. induction Hw as [|c w Hc _ IH]; intros cur; cbn; [by rewrite app_nil_r|].
  rewrite Hc, IH. by rewrite <- app_assoc.
Qed.
Lemma starts_letters w x i : letters w -> starts true i (w ++ x) = starts true (i + length w) x.
Proof.
  intros Hw. revert i. induction Hw as [|c w Hc _ IH]; intros i; cbn; [by rewrite Nat.add_0_r|].
  rewrite Hc, IH. f_equal. lia.
Qed.
Lemma cut_letters w x : letters w -> cut true (w ++ x) = w ++ cut true x.
Proof. induction 1 as [|c w Hc _ IH]; [done|]. cbn. rewrite Hc. cbn. by rewrite IH. Qed.

(** A line is blank, a last word, or a word and the rest after a delimiter. *)
Inductive shape : list Z -> Prop :=
| shape_blank d : delims d -> shape d
| shape_last d w : delims d -> letters w -> w <> [] -> shape (d ++ w)
| shape_word d w c x : delims d -> letters w -> w <> [] -> is_delim c = true -> shape (d ++ w ++ c :: x).

Lemma shape_all x : shape x.
Proof.
  induction x as [|c x IH]; [by apply (shape_blank []); constructor|].
  destruct (is_delim c) eqn:E.
  - destruct IH as [d Hd|d w Hd Hw Hne|d w c' x Hd Hw Hne Hc'].
    + apply (shape_blank (c :: d)). by constructor.
    + apply (shape_last (c :: d) w); [by constructor|done..].
    + apply (shape_word (c :: d) w c' x); [by constructor|done..].
  - destruct IH as [[|c' d] Hd|[|c' d] w Hd Hw Hne|[|c0 d] w c' x Hd Hw Hne Hc'].
    + apply (shape_last [] [c]); [done|by apply letters_1|done].
    + apply Forall_cons in Hd as [Hc' Hd]. apply (shape_word [] [c] c' d); [done|by apply letters_1|done..].
    + apply (shape_last [] (c :: w)); [done|by constructor|done].
    + apply Forall_cons in Hd as [Hc' Hd]. apply (shape_word [] [c] c' (d ++ w)); [done|by apply letters_1|done..].
    + apply (shape_word [] (c :: w) c' x); [done|by constructor|done..].
    + apply Forall_cons in Hd as [Hc0 Hd].
      apply (shape_word [] [c] c0 (d ++ w ++ c' :: x)); [done|by apply letters_1|done..].
Qed.

Lemma word_cases (w : list Z) : w <> [] -> exists c w', w = c :: w'.
Proof. destruct w; [done|eauto]. Qed.

(** Words, starts and cuts of a word and the rest. *)
Lemma words_word d w c x :
  delims d -> letters w -> w <> [] -> is_delim c = true -> words (d ++ w ++ c :: x) = w :: words x.
Proof.
  intros Hd Hw Hne Hc. unfold words. rewrite words_delims, words_letters by done. cbn.
  rewrite Hc. by destruct w.
Qed.
Lemma words_last d w : delims d -> letters w -> w <> [] -> words (d ++ w) = [w].
Proof.
  intros Hd Hw Hne. unfold words. rewrite words_delims by done. rewrite <- (app_nil_r w), words_letters by done.
  cbn. rewrite app_nil_r. by destruct w.
Qed.
Lemma words_blank d : delims d -> words d = [].
Proof. intros Hd. unfold words. rewrite <- (app_nil_r d), words_delims by done. done. Qed.

Lemma starts_word d w c x i :
  delims d -> letters w -> w <> [] -> is_delim c = true ->
  starts false i (d ++ w ++ c :: x) = (i + length d)%nat :: starts false (i + length d + length w + 1) x.
Proof.
  intros Hd Hw Hne Hc. rewrite starts_delims by done.
  destruct (word_cases w Hne) as (c' & w' & ->). apply Forall_cons in Hw as [Hc' Hw]. cbn.
  rewrite Hc', starts_letters by done. cbn. rewrite Hc. do 2 f_equal. lia.
Qed.
Lemma starts_last d w i :
  delims d -> letters w -> w <> [] -> starts false i (d ++ w) = [(i + length d)%nat].
Proof.
  intros Hd Hw Hne. rewrite starts_delims by done.
  destruct (word_cases w Hne) as (c' & w' & ->). apply Forall_cons in Hw as [Hc' Hw]. cbn.
  rewrite Hc'. rewrite <- (app_nil_r w'), starts_letters by done. done.
Qed.
Lemma starts_blank d i : delims d -> starts false i d = [].
Proof. intros Hd. rewrite <- (app_nil_r d), starts_delims by done. done. Qed.

Lemma cut_word d w c x :
  delims d -> letters w -> w <> [] -> is_delim c = true ->
  cut false (d ++ w ++ c :: x) = d ++ w ++ 0 :: cut false x.
Proof.
  intros Hd Hw Hne Hc. rewrite cut_delims by done.
  destruct (word_cases w Hne) as (c' & w' & ->). apply Forall_cons in Hw as [Hc' Hw]. cbn.
  rewrite Hc'. cbn. rewrite cut_letters by done. cbn. by rewrite Hc.
Qed.
Lemma cut_last d w : delims d -> letters w -> cut false (d ++ w) = d ++ w.
Proof.
  intros Hd Hw. rewrite cut_delims by done. destruct w as [|c' w']; [done|].
  apply Forall_cons in Hw as [Hc' Hw]. cbn. rewrite Hc'. cbn.
  rewrite <- (app_nil_r w') at 1. rewrite cut_letters by done. cbn. by rewrite app_nil_r.
Qed.
Lemma cut_blank d : delims d -> cut false d = d.
Proof. intros Hd. rewrite <- (app_nil_r d). by rewrite cut_delims. Qed.

(** ** [strtok] *)

Lemma span_eq f g c post : forall pre n,
  Forall (fun c => f c = true) g -> f c = false -> (length g < n)%nat ->
  span f n (pre ++ g ++ c :: post) (length pre) = Some (length pre + length g)%nat.
Proof.
  induction g as [|d g IH]; intros pre n Hg Hc Hn.
  - destruct n as [|n]; [lia|]. cbn [span app]. rewrite list_lookup_middle by done. cbn [mbind option_bind].
    rewrite Hc. cbn. by rewrite Nat.add_0_r.
  - apply Forall_cons in Hg as [Hd Hg]. cbn in Hn. destruct n as [|n]; [lia|].
    cbn [span app]. rewrite list_lookup_middle by done. cbn [mbind option_bind]. rewrite Hd.
    specialize (IH (pre ++ [d]) n Hg Hc ltac:(lia)). rewrite <- app_assoc, length_app in IH. cbn in IH.
    rewrite Nat.add_1_r in IH. rewrite IH. f_equal. cbn. lia.
Qed.

Definition text0 (x : list Z) : Prop := Forall (fun c => c <> 0) x.

Lemma letters_token w : letters w -> text0 w -> Forall (fun c => negb (is_delim c) && negb (c =? 0) = true) w.
Proof.
  intros Hw Ht. apply List.Forall_forall. intros c Hc. unfold letters, text0 in *. rewrite List.Forall_forall in Hw, Ht.
  rewrite (Hw c Hc), (proj2 (Z.eqb_neq _ _)) by by apply Ht. done.
Qed.

Lemma is_delim_0 : is_delim 0 = false.
Proof. done. Qed.

Lemma strtok_blank pre d rest :
  delims d -> strtok (pre ++ d ++ 0 :: rest) (length pre)
  = Some (pre ++ d ++ 0 :: rest, None, (length pre + length d)%nat).
Proof.
  intros Hd. unfold strtok.
  rewrite span_eq by (done || (rewrite !length_app; cbn; lia)). cbn [mbind option_bind].
  rewrite app_assoc, <- length_app, list_lookup_middle by done. done.
Qed.

Lemma strtok_token pre d w c rest :
  delims d -> letters w -> w <> [] -> text0 w -> is_delim c = true \/ c = 0 ->
  strtok (pre ++ d ++ w ++ c :: rest) (length pre)
  = Some (pre ++ d ++ w ++ 0 :: rest, Some (length pre + length d)%nat,
      (length pre + length d + length w + (if (c =? 0)%Z then 0 else 1))%nat).
Proof.
  intros Hd Hw Hne Ht Hc. set (buf := pre ++ d ++ w ++ c :: rest).
  set (i := length (pre ++ d)). set (j := length ((pre ++ d) ++ w)).
  destruct (word_cases w Hne) as (c' & w' & Hww).
  assert (is_delim c' = false /\ c' <> 0) as [Hc' Hn'].
  { rewrite Hww in Hw, Ht. apply Forall_cons in Hw as [? _]. by apply Forall_cons in Ht as [? _]. }
  assert (buf = (pre ++ d) ++ c' :: (w' ++ c :: rest)) as E1 by (unfold buf; by rewrite Hww, <- app_assoc).
  assert (buf = (pre ++ d) ++ w ++ c :: rest) as E2 by (unfold buf; by rewrite <- app_assoc).
  assert (buf = ((pre ++ d) ++ w) ++ c :: rest) as E3 by (unfold buf; by rewrite <- !app_assoc).
  assert (length buf = j + S (length rest))%nat as El by (rewrite E3, length_app; done).
  assert (i = length pre + length d /\ j = length pre + length d + length w)%nat as [Hi Hj]
    by (unfold i, j; rewrite !length_app; lia).
  pose proof (span_eq is_delim d c' (w' ++ c :: rest) pre (length buf) Hd Hc' ltac:(lia)) as F1.
  rewrite (app_assoc pre d), <- E1, <- Hi in F1.
  assert (buf !! i = Some c') as F2 by (rewrite E1; by apply list_lookup_middle).
  pose proof (span_eq (fun c => negb (is_delim c) && negb (c =? 0)) w c rest (pre ++ d) (length buf)
    (letters_token w Hw Ht) ltac:(by destruct Hc as [->| ->]; [|done]; rewrite ?orb_true_r) ltac:(fold i; lia)) as F3.
  rewrite <- E2 in F3. fold i in F3. replace (i + length w)%nat with j in F3 by lia.
  assert (buf !! j = Some c) as F4 by (rewrite E3; by apply list_lookup_middle).
  unfold strtok. rewrite F1. cbn [mbind option_bind]. rewrite F2. cbn [mbind option_bind].
  rewrite (proj2 (Z.eqb_neq _ _)) by done. rewrite F3. cbn [mbind option_bind]. rewrite F4. cbn [mbind option_bind].
  destruct (Z.eqb_spec c 0) as [->|Hcn]; [by rewrite Hi, Hj, Nat.add_0_r|].
  rewrite Hi, Nat.add_1_r, <- Hj. do 3 f_equal. rewrite E3. unfold j.
  rewrite insert_app_r_alt, Nat.sub_diag by lia. by rewrite <- !app_assoc.
Qed.

(** ** The arguments *)

(** [argv] with the words found so far. *)
Definition argv_of (args : list nat) : list (option nat) :=
  (Some <$> args) ++ replicate (TERM_ARGS_MAX_COUNT - length args) None.

Lemma argv_step args a :
  (length args < TERM_ARGS_MAX_COUNT)%nat ->
  is_Some (aget (argv_of args) (Z.of_nat (length args))) /\
  aset (argv_of args) (Z.of_nat (length args)) (Some a) = argv_of (args ++ [a]).
Proof.
  intros Hl. rewrite aget_nat, aset_nat. unfold argv_of.
  destruct (TERM_ARGS_MAX_COUNT - length args)%nat as [|k] eqn:E; [lia|]. cbn [replicate].
  split.
  - rewrite list_lookup_middle by (by rewrite length_fmap). by eexists.
  - rewrite insert_app_r_alt by (rewrite length_fmap; lia). rewrite length_fmap, Nat.sub_diag.
    rewrite fmap_app, length_app, <- app_assoc. cbn [length].
    by replace (TERM_ARGS_MAX_COUNT - (length args + 1))%nat with k by lia.
Qed.

Lemma argv_full args : length args = TERM_ARGS_MAX_COUNT -> aget (argv_of args) (Z.of_nat (length args)) = None.
Proof.
  intros Hl. rewrite aget_nat. unfold argv_of. rewrite Hl, Nat.sub_diag. cbn. rewrite app_nil_r.
  apply lookup_ge_None_2. rewrite length_fmap. lia.
Qed.

(** One turn of the loop, on a word. *)
Lemma arguments_token fuel pre d w c rest args :
  delims d -> letters w -> w <> [] -> text0 w -> is_delim c = true \/ c = 0 ->
  (length args <= TERM_ARGS_MAX_COUNT)%nat ->
  arguments (S fuel) (pre ++ d ++ w ++ c :: rest) (length pre) (argv_of args) (Z.of_nat (length args))
  = if (length args <? TERM_ARGS_MAX_COUNT)%nat
    then let args' := args ++ [(length pre + length d)%nat] in
         arguments fuel (pre ++ d ++ w ++ 0 :: rest)
           (length pre + length d + length w + (if (c =? 0)%Z then 0 else 1)) (argv_of args')
           (Z.of_nat (length args'))
    else None.
Proof.
  intros Hd Hw Hne Ht Hc Ha. cbn [arguments]. rewrite strtok_token by done. cbn [mbind option_bind].
  destruct (Nat.ltb_spec (length args) TERM_ARGS_MAX_COUNT) as [Hl|Hg].
  - destruct (argv_step args (length pre + length d) Hl) as [[y ->] ->]. cbn [mbind option_bind].
    rewrite uint8_small by (unfold TERM_ARGS_MAX_COUNT in *; lia). rewrite length_app. cbn [length].
    by rewrite Nat2Z.inj_add.
  - by rewrite argv_full by lia.
Qed.

(** The loop over the words: the starts of the words, or undefined behaviour when
    there are more than [argv] holds. *)
Lemma arguments_spec rest : forall fuel pre x args,
  text0 x -> (length x <= fuel)%nat -> (length args <= TERM_ARGS_MAX_COUNT)%nat ->
  let s := starts false (length pre) x in
  arguments fuel (pre ++ x ++ 0 :: rest) (length pre) (argv_of args) (Z.of_nat (length args))
  = if (length (args ++ s) <=? TERM_ARGS_MAX_COUNT)%nat
    then Some (pre ++ cut false x ++ 0 :: rest, argv_of (args ++ s), Z.of_nat (length (args ++ s)))
    else None.
Proof.
  induction fuel as [|fuel IH]; intros pre x args Hx Hf Ha s.
  - destruct x; [|cbn in Hf; lia]. subst s. cbn [starts cut arguments app].
    pose proof (strtok_blank pre [] rest delims_nil) as E. cbn [app] in E. rewrite E. cbn.
    rewrite app_nil_r. by rewrite (proj2 (Nat.leb_le _ _)).
  - subst s. destruct (shape_all x) as [d Hd|d w Hd Hw Hne|d w c x Hd Hw Hne Hc].
    + cbn [arguments]. rewrite strtok_blank by done. cbn [mbind option_bind].
      rewrite starts_blank, cut_blank, app_nil_r by done. by rewrite (proj2 (Nat.leb_le _ _)).
    + apply Forall_app in Hx as [_ Hx]. rewrite <- app_assoc, arguments_token by (done || by right).
      rewrite starts_last, cut_last by done.
      assert (length (d ++ w) <= S fuel /\ 0 < length w)%nat as [Hf' Hw0] by (destruct w; [done|cbn; lia]).
      destruct (Nat.ltb_spec (length args) TERM_ARGS_MAX_COUNT) as [Hl|Hg];
        [|by rewrite (proj2 (Nat.leb_gt _ _)) by (rewrite length_app; cbn; lia)].
      specialize (IH (pre ++ d ++ w) [] (args ++ [(length pre + length d)%nat])).
      cbn [starts cut app length] in IH. rewrite app_nil_r, <- !app_assoc in IH.
      rewrite Z.eqb_refl, Nat.add_0_r.
      replace (length pre + length d + length w)%nat with (length (pre ++ d ++ w)) by (rewrite !length_app; lia).
      rewrite <- app_assoc. apply IH; [constructor|lia|rewrite length_app; cbn; lia].
    + apply Forall_app in Hx as [_ Hx]. apply Forall_app in Hx as [Hx Hx2]. apply Forall_cons in Hx2 as [Hc0 Hx2].
      rewrite <- !app_assoc, <- app_comm_cons, arguments_token by (done || by left).
      rewrite starts_word, cut_word by done. rewrite !length_app in Hf. cbn [length] in Hf.
      destruct (Nat.ltb_spec (length args) TERM_ARGS_MAX_COUNT) as [Hl|Hg];
        [|by rewrite (proj2 (Nat.leb_gt _ _)) by (rewrite length_app; cbn; lia)].
      specialize (IH (pre ++ d ++ w ++ [0]) x (args ++ [(length pre + length d)%nat])).
      rewrite (proj2 (Z.eqb_neq _ _)) by done.
      replace (length (pre ++ d ++ w ++ [0])) with (length pre + length d + length w + 1)%nat in IH
        by (rewrite !length_app; cbn; lia).
      cbv zeta in IH. rewrite <- !app_assoc in IH. cbn [app] in IH. cbn [app]. rewrite <- !app_assoc. cbn [app].
      apply IH; [done|lia|rewrite length_app; cbn; lia].
Qed.

(** In the buffer after the loop each start is the start of the word as a C string. *)
Lemma words_at rest n : forall pre x, (length x <= n)%nat ->
  Forall2 (fun a w => exists r, drop a (pre ++ cut false x ++ 0 :: rest) = w ++ 0 :: r)
    (starts false (length pre) x) (words x).
Proof.
  induction n as [|n IH]; intros pre x Hn.
  { destruct x; [constructor|cbn in Hn; lia]. }
  destruct (shape_all x) as [d Hd|d w Hd Hw Hne|d w c x Hd Hw Hne Hc].
  - rewrite starts_blank, words_blank by done. constructor.
  - rewrite starts_last, words_last, cut_last by done. apply Forall2_cons. split; [|constructor].
    exists rest. rewrite <- app_assoc, app_assoc, <- length_app. apply drop_app_length.
  - rewrite starts_word, words_word, cut_word by done. apply Forall2_cons. split.
    + exists (cut false x ++ 0 :: rest). rewrite <- !app_assoc, (app_assoc pre), <- length_app.
      rewrite drop_app_length. by rewrite <- app_comm_cons.
    + rewrite !length_app in Hn. cbn in Hn.
      specialize (IH (pre ++ d ++ w ++ [0]) x ltac:(lia)).
      replace (length (pre ++ d ++ w ++ [0])) with (length pre + length d + length w + 1)%nat in IH
        by (rewrite !length_app; cbn; lia).
      rewrite <- !app_assoc in IH. rewrite <- !app_assoc. cbn [app] in IH |- *. exact IH.
Qed.

Lemma words_text (Q : Z -> Prop) x : Forall Q x -> Forall (fun w => w <> [] /\ Forall Q w) (words x).
Proof.
  remember (length x) as n eqn:En. revert x En. induction n as [n IH] using lt_wf_ind. intros x -> Hx.
  destruct (shape_all x) as [d Hd|d w Hd Hw Hne|d w c x Hd Hw Hne Hc].
  - rewrite words_blank by done. constructor.
  - apply Forall_app in Hx as [_ Hx]. rewrite words_last by done. by constructor.
  - apply Forall_app in Hx as [_ Hx]. apply Forall_app in Hx as [Hx Hx2]. apply Forall_cons in Hx2 as [_ Hx2].
    rewrite words_word by done. constructor; [done|]. eapply IH; [|done|done].
    rewrite !length_app. cbn. lia.
Qed.

(** ** The copy of the last line *)

(** The line as the up key will show it: a NUL after a word is a space, two NULs are
    the end. *)
Fixpoint history (b : list Z) : list Z :=
  match b with
  | c :: (d :: _) as b' => if (c =? 0) && (d =? 0) then [] else (if c =? 0 then 32 else c) :: history b'
  | _ => []
  end.

Section process.
Context `{X : Externals}.
Implicit Types (t : term).

Lemma history_drop b i c d :
  b !! i = Some c -> b !! S i = Some d ->
  history (drop i b) =
  if (c =? 0) && (d =? 0) then [] else (if c =? 0 then 32 else c) :: history (drop (S i) b).
Proof. intros Hc Hd. by rewrite (drop_S _ _ _ Hc), (drop_S _ _ _ Hd). Qed.

Lemma overlay_cons l i x h :
  (i + S (length h) <= length l)%nat -> overlay (<[i := x]> l) (S i) h = overlay l i (x :: h).
Proof.
  intros Hl. change (x :: h) with ([x] ++ h). rewrite <- overlay_app by (cbn; lia).
  rewrite <- insert_overlay, Nat.add_1_r by lia. done.
Qed.

Lemma copy_last_eq b : forall fuel i t,
  term_in t = b -> length b = 32%nat -> b !! 30%nat = Some 0 -> b !! 31%nat = Some 0 ->
  length (last_term_in t) = 32%nat -> cpi t = Z.of_nat i -> (i <= 30)%nat -> (30 - i <= fuel)%nat ->
  let h := history (drop i b) in
  copy_last fuel t
  = Some (tt, set_cpi (Z.of_nat (i + length h)) (set_last_term_in (overlay (last_term_in t) i h) t)) /\
  (i + length h <= 30)%nat.
Proof.
  intros fuel. induction fuel as [|fuel IH]; intros i t Hb Hl H30 H31 Hlast Hc Hi Hf h.
  all: destruct (lookup_lt_is_Some_2 b i) as [c Hic]; [lia|].
  all: destruct (lookup_lt_is_Some_2 b (S i)) as [d Hid]; [lia|].
  all: pose proof (history_drop b i c d Hic Hid) as Hh; fold h in Hh.
  all: cbn [copy_last]; rewrite !bind_get, Hc, Hb.
  all: rewrite (bind_Some _ _ _ _ _ (load_eq b i c t Hic)).
  all: assert ((if negb (c =? 0) then tret true
        else d <- load b (Z.of_nat i + 1) ;; tret (negb (d =? 0))) t
      = Some (negb ((c =? 0) && (d =? 0)), t)) as Hm
    by (destruct (c =? 0); cbn [negb andb]; [|done];
        replace (Z.of_nat i + 1) with (Z.of_nat (S i)) by lia; by rewrite (bind_Some _ _ _ _ _ (load_eq b _ d t Hid))).
  all: rewrite (bind_Some _ _ _ _ _ Hm).
  all: destruct ((c =? 0) && (d =? 0)) eqn:E; cbn [negb].
  1, 3: rewrite Hh; cbn [length]; rewrite Nat.add_0_r, overlay_nil, <- Hc; split; [by destruct t|done].
  - assert (i = 30%nat) as -> by lia. rewrite H30 in Hic. rewrite H31 in Hid. by injection Hic as <-; injection Hid as <-.
  - assert (i <> 30%nat) as Hne by (intros ->; rewrite H30 in Hic; rewrite H31 in Hid; by injection Hic as <-; injection Hid as <-).
    rewrite (bind_Some _ _ _ _ _ (store_last_eq i _ t ltac:(lia))), bind_set.
    set (t1 := set_cpi _ _). 
    destruct (IH (S i) t1) as [Hrun Hle]; try done; try lia.
    { cbn. by rewrite length_insert. }
    { cbn. lia. }
    rewrite Hrun, Hh. cbn [length]. split; [|lia].
    rewrite <- overlay_cons by lia. by replace (i + S (length (history (drop (S i) b))))%nat
      with (S i + length (history (drop (S i) b)))%nat by lia.
Qed.

(** ** The command *)

(** The command of a number: of the table first, then of the list. *)
Definition command_at (l : list (Z * dyn)) (i : nat) : option pf_cmd :=
  (map cmd_func cmds ++ map (fun x => fst (fst (snd x))) l) !! i.

Lemma nth_cmd_spec m l : forall p i q x,
  cmd_list m p l -> l !! i = Some (q, x) ->
  nth_cmd i m p = Some q /\ exists d, m !! q = Some d /\ holds d x.
Proof.
  induction l as [|[r y] l IH]; intros p i q x Hl Hi; [done|].
  destruct Hl as (-> & d & Hd & Hx & Hl). destruct i as [|i]; cbn in Hi.
  - injection Hi as <- <-. cbn. eauto.
  - cbn [nth_cmd mbind option_bind]. rewrite Hd. cbn [mbind option_bind]. by apply IH.
Qed.

(** What a command may do, as far as the terminal is concerned: it returns and changes
    only the world. *)
Definition only_world (t t' : term) : Prop := t' = set_world (world t') t.

Lemma only_world_trans t1 t2 t3 : only_world t1 t2 -> only_world t2 t3 -> only_world t1 t3.
Proof. unfold only_world. intros -> ->. by destruct t1. Qed.

Definition polite {A} (p : M A) (t : term) : Prop := exists r t', p t = Some (r, t') /\ only_world t t'.

Lemma polite_bind {A B} (p : M A) (k : A -> M B) t :
  polite p t -> (forall r t', only_world t t' -> polite (k r) t') -> polite (tbind p k) t.
Proof.
  intros (r & t1 & Hr & Hw) Hk. destruct (Hk r t1 Hw) as (r2 & t2 & Hr2 & Hw2).
  exists r2, t2. rewrite (bind_Some _ _ _ _ _ Hr). split; [done|]. by eapply only_world_trans.
Qed.

Lemma polite_print fmt args t : polite (TERM_PRINT fmt args) t.
Proof. eexists _, _. split; [done|]. done. Qed.
Lemma polite_get {A} (f : term -> A) t : polite (tget f) t.
Proof. eexists _, _. split; [done|]. by destruct t. Qed.
Lemma polite_ret {A} (a : A) t : polite (tret a) t.
Proof. eexists _, _. split; [done|]. by destruct t. Qed.
Lemma polite_lift {A} (o : option A) t : is_Some o -> polite (tlift o) t.
Proof. intros [a ->]. eexists _, _. split; [done|]. by destruct t. Qed.

Lemma help_table_polite table : forall descs t, length descs = length table -> polite (help_table table descs) t.
Proof.
  induction table as [|e table IH]; intros descs t Hl; [apply polite_ret|]. destruct descs as [|d descs]; [done|].
  cbn. apply polite_bind; [apply polite_print|intros _ t1 _].
  apply polite_bind; [by apply polite_lift|intros d' t2 _].
  apply polite_bind; [apply polite_print|intros _ t3 _]. apply IH. by injection Hl.
Qed.

Lemma help_list_polite l : forall fuel p t,
  cmd_list (dcmds t) p l -> (length l <= fuel)%nat -> polite (help_list fuel p) t.
Proof.
  induction l as [|[q x] l IH]; intros fuel p t Hl Hf.
  - cbn in Hl. subst p. destruct fuel; apply polite_ret.
  - destruct Hl as (-> & d & Hd & _ & Hl). destruct fuel as [|fuel]; [cbn in Hf; lia|]. cbn in Hf. cbn [help_list].
    unfold polite. rewrite bind_get, (bind_lift _ d) by done. change (polite (TERM_PRINT (lit "%s : ") [d_cmd_name d] ;;;
      TERM_PRINT (lit "%s" ++ nl) [d_cmd_description d] ;;; help_list fuel (d_next d)) t).
    apply polite_bind; [apply polite_print|intros _ t1 H1].
    apply polite_bind; [apply polite_print|intros _ t2 H2]. apply IH; [|lia].
    rewrite H2, H1. done.
Qed.

Lemma cmd_help_polite t l : commands t l -> polite cmd_help t.
Proof.
  intros Hl. unfold cmd_help.
  apply polite_bind; [apply polite_print|intros _ ta Ha]. apply polite_bind; [apply polite_print|intros _ tb Hb].
  apply polite_bind; [apply polite_print|intros _ tc Hc].
  apply polite_bind; [by apply help_table_polite|intros _ t1 H1].
  assert (commands t1 l) as Hl1 by (unfold commands in *; by rewrite H1, Hc, Hb, Ha).
  unfold polite. rewrite !bind_get.
  change (polite (help_list (size (dcmds t1)) (cmd_head t1) ;;; TERM_PRINT (lit "----------------" ++ nl) [] ;;; tret 0) t1).
  apply polite_bind.
  - eapply help_list_polite; [exact Hl1|]. by eapply cmd_list_size.
  - intros _ t2 _. apply polite_bind; [apply polite_print|intros _ t3 _]. apply polite_ret.
Qed.

(** ** The whole function *)

Lemma prefix_split (f : Z -> bool) x :
  exists g y, x = g ++ y /\ Forall (fun c => f c = true) g /\
    (y = [] \/ exists c y', y = c :: y' /\ f c = false).
Proof.
  induction x as [|c x IH]; [exists [], []; auto|]. destruct (f c) eqn:E.
  - destruct IH as (g & y & -> & Hg & Hy). exists (c :: g), y. split_and!; [done|by constructor|done].
  - exists [], (c :: x). split_and!; [done|constructor|right; eauto].
Qed.

(** Up to the call: the blanks skipped and the words found. *)
Lemma process_arguments x rest :
  text0 x -> (length x <= 30)%nat ->
  exists k, span (fun c => (c =? 32) || (c =? 9)) TERM_INPUT_BUFSIZE (x ++ 0 :: rest) 0 = Some k /\
    arguments TERM_INPUT_BUFSIZE (x ++ 0 :: rest) k (replicate TERM_ARGS_MAX_COUNT None) 0
    = if (length (words x) <=? TERM_ARGS_MAX_COUNT)%nat
      then Some (cut false x ++ 0 :: rest, argv_of (starts false 0 x), Z.of_nat (length (words x)))
      else None.
Proof.
  intros Hx Hl. destruct (prefix_split (fun c => (c =? 32) || (c =? 9)) x) as (d & y & Heq & Hd & Hy).
  assert (length (words x) = length (starts false 0 x)) as ->
    by (symmetry; exact (Forall2_length _ _ _ (words_at rest (length x) [] x (le_n _)))).
  exists (length d). subst x. rewrite length_app in Hl. apply Forall_app in Hx as [_ Hx].
  assert (delims d) as Hd'.
  { eapply Forall_impl; [exact Hd|]. cbn. intros c Hc. unfold is_delim. destruct (c =? 32), (c =? 9); done. }
  split.
  - destruct Hy as [->|(c & y' & -> & Hc)]; rewrite <- app_assoc.
    + apply (span_eq _ d 0 rest []); [done|done|unfold TERM_INPUT_BUFSIZE; lia].
    + rewrite <- app_comm_cons. apply (span_eq _ d c _ []); [done|done|unfold TERM_INPUT_BUFSIZE; lia].
  - rewrite <- app_assoc.
    pose proof (arguments_spec rest TERM_INPUT_BUFSIZE d y [] Hx ltac:(unfold TERM_INPUT_BUFSIZE; lia) ltac:(unfold TERM_ARGS_MAX_COUNT; cbn; lia)) as H.
    cbv zeta in H. cbn [app] in H. rewrite starts_delims, cut_delims, <- app_assoc by done. exact H.
Qed.

(** The state after the line was processed. *)
Lemma flushed t (hist : list Z) tmp (esc : bool) :
  is_Some (putchar_func t) -> (exists rest, last_term_in t = hist ++ 0 :: rest) ->
  length (last_term_in t) = TERM_INPUT_BUFSIZE -> chars hist -> (length hist <= 30)%nat ->
  cpi t = Z.of_nat (length hist) -> term_tmp_idx t = tmp -> discard_char t = (if esc then 1 else 0) ->
  edits (set_term_in_idx 0 (set_term_in (replicate TERM_INPUT_BUFSIZE 0) t)) (mkEd [] hist tmp esc).
Proof.
  intros. split; [split|..]; cbn; try done; [|by eexists|lia].
  by repeat constructor.
Qed.

Variable do_cmd : P -> Z -> list (option nat) -> M Z.

Lemma call_cmd_polite t l f argc argv :
  (forall p argc argv t, polite (do_cmd p argc argv) t) -> commands t l ->
  polite (call_cmd do_cmd f argc argv) t.
Proof. intros Hp Hl. destruct f; [by eapply cmd_help_polite|apply Hp]. Qed.

(** The line buffer: as long as it is, and with two NULs at its end. *)
Definition line_ok (b : list Z) : Prop :=
  length b = TERM_INPUT_BUFSIZE /\ b !! 30%nat = Some 0 /\ b !! 31%nat = Some 0 /\ Forall (Z.le 0) b.

(** What the commands of the application may do: they return, and change the world
    and the line they were called with -- the strings of [argv] lie in the line
    buffer --, but none of the terminal's other variables. *)
Definition only_line (t t' : term) : Prop := t' = set_world (world t') (set_term_in (term_in t') t).
Definition obliging {A} (p : M A) (t : term) : Prop :=
  line_ok (term_in t) -> exists r t', p t = Some (r, t') /\ only_line t t' /\ line_ok (term_in t').

Lemma only_world_line t t' : only_world t t' -> only_line t t' /\ term_in t' = term_in t.
Proof. unfold only_world, only_line. intros ->. by destruct t. Qed.

Lemma polite_obliging {A} (p : M A) t : polite p t -> obliging p t.
Proof.
  intros (r & t' & Hr & Hw) Hb. destruct (only_world_line t t' Hw) as [Hl E].
  exists r, t'. by rewrite E.
Qed.

Lemma call_cmd_obliging t l f argc argv :
  (forall p argc argv t, obliging (do_cmd p argc argv) t) -> commands t l ->
  obliging (call_cmd do_cmd f argc argv) t.
Proof. intros Hp Hl. destruct f; [eapply polite_obliging, cmd_help_polite, Hl|apply Hp]. Qed.

(** The part of [terminal_process] from the search to the prompt. *)
Lemma command_found t l ds w rest :
  commands t l -> names_of l ds -> (length l <= 252)%nat -> chars w ->
  exists c f, search_cmd cmds (w ++ 0 :: rest) t = Some (c, t) /\
    command_at l (Z.to_nat c) = Some f /\ c = default 0 (position (cmd_names ++ ds) w) /\
    forall argc argv t1, only_world t t1 ->
      (if c <? NUMBER_OF_COMMANDS cmds then
         e <- tlift (aget cmds c) ;; call_cmd do_cmd (cmd_func e) argc argv
       else
         head <- tget cmd_head ;; m <- tget dcmds ;;
         p <- tlift (nth_cmd (Z.to_nat (c - NUMBER_OF_COMMANDS cmds)) m head) ;;
         m <- tget dcmds ;; d <- tlift (m !! p) ;;
         call_cmd do_cmd (d_cmd_func d) argc argv) t1
      = call_cmd do_cmd f argc argv t1.
Proof.
  intros Hl Hd Hlen Hw. exists (default 0 (position (cmd_names ++ ds) w)).
  pose proof (search_cmd_linear_lemma t cmds cmd_names l ds w rest cmds_sorted Hl Hd) as Hs.
  remember (default 0 (position (cmd_names ++ ds) w)) as c eqn:Ec.
  assert (0 <= c < 4 + Z.of_nat (length l)) as Hc.
  { rewrite Ec. assert (length l = length ds) as Hdl by exact (Forall2_length _ _ _ Hd). unfold position.
    destruct (list_find _ (cmd_names ++ ds)) as [[i y]|] eqn:E; [|cbn -[Z.add]; lia].
    change (0 <= Z.of_nat i < 4 + Z.of_nat (length l)). apply list_find_Some in E as [Hi _]. apply lookup_lt_Some in Hi. rewrite length_app in Hi. cbn in Hi. lia. }
  assert (Z.to_nat c < 4 + length l)%nat as Hcn by lia.
  destruct (lookup_lt_is_Some_2 (map cmd_func cmds ++ map (fun x => fst (fst (snd x))) l) (Z.to_nat c)) as [f Hf];
    [rewrite length_app, !length_map; exact Hcn|].
  exists f. split_and!; [|done|done|].
  - apply Hs; [|done]. change (NUMBER_OF_COMMANDS cmds) with 4. lia.
  - intros argc argv t1 H1. change (NUMBER_OF_COMMANDS cmds) with 4. destruct (c <? 4) eqn:E; to_prop.
    + rewrite lookup_app_l in Hf by (cbn; lia). rewrite list_lookup_fmap in Hf.
      destruct (cmds !! Z.to_nat c) as [e|] eqn:He; [|done]. injection Hf as <-.
      rewrite (bind_lift _ e); [done|]. unfold aget. by rewrite (proj2 (Z.leb_le _ _)) by lia.
    + rewrite lookup_app_r in Hf by (cbn; lia). rewrite list_lookup_fmap in Hf.
      replace (Z.to_nat c - length (map cmd_func cmds))%nat with (Z.to_nat (c - 4)) in Hf by (cbn; lia).
      destruct (l !! Z.to_nat (c - 4)) as [[q x]|] eqn:Hq; [|done]. injection Hf as <-.
      destruct (nth_cmd_spec _ _ _ _ _ _ Hl Hq) as (Hn & d & Hdq & Hfn & _).
      assert (dcmds t1 = dcmds t /\ cmd_head t1 = cmd_head t) as [E1 E2] by (by rewrite H1).
      rewrite !bind_get, E1, E2, (bind_lift _ q), bind_get, E1, (bind_lift _ d) by done. by rewrite Hfn.
Qed.

Hypothesis commands_obliging : forall p argc argv t, obliging (do_cmd p argc argv) t.

Lemma cut_text x b : chars x -> Forall (Z.le 0) (cut b x).
Proof.
  intros Hx. revert b. induction Hx as [|c x Hc _ IH]; intros b; cbn; constructor; [|by apply IH].
  destruct (b && is_delim c); lia.
Qed.

Lemma history_chars b : Forall (Z.le 0) b -> chars (history b).
Proof.
  induction 1 as [|c b Hc Hb IH]; [constructor|]. destruct b as [|d b]; [constructor|].
  change (history (c :: d :: b)) with
    (if (c =? 0) && (d =? 0) then [] else (if c =? 0 then 32 else c) :: history (d :: b)).
  destruct (Z.eqb_spec c 0), (d =? 0); cbn [andb]; constructor; try done; lia.
Qed.

Lemma chars_text x rest : text0 x -> Forall (Z.le 0) (x ++ rest) -> chars x.
Proof.
  intros Hx Hb. apply Forall_app in Hb as [Hb _]. unfold text0 in Hx. induction Hx as [|c x Hc Hx IH]; [constructor|].
  apply Forall_cons in Hb as [Hb0 Hb]. constructor; [lia|by apply IH].
Qed.

(** The buffer after the words were cut still ends in two NULs. *)
Lemma cut_top x rest i :
  (length x <= i)%nat -> (cut false x ++ 0 :: rest) !! i = (x ++ 0 :: rest) !! i.
Proof. intros Hi. by rewrite !lookup_app_r, length_cut by (rewrite ?length_cut; lia). Qed.

Lemma print_bind {B} fmt args (k : unit -> M B) t :
  tbind (TERM_PRINT fmt args) k t = k tt (set_world (printf_lib fmt args (world t)) t).
Proof. reflexivity. Qed.

(** The copy of the line and the prompt. *)
Lemma copy_and_prompt t b (r : Z) :
  term_in t = b -> length b = 32%nat -> b !! 30%nat = Some 0 -> b !! 31%nat = Some 0 ->
  length (last_term_in t) = 32%nat ->
  let h := history b in
  (length h <= 30)%nat /\
  (tset (set_cpi 0) ;;; copy_last TERM_INPUT_BUFSIZE ;;; n <- tget cpi ;; store_last n 0 ;;;
   TERM_PRINT (crlf ++ lit ">>") [] ;;; tret r) t
  = Some (r, set_world (printf_lib (crlf ++ lit ">>") [] (world t))
      (set_last_term_in (overlay (last_term_in t) 0 (h ++ [0])) (set_cpi (Z.of_nat (length h)) t))).
Proof.
  intros Hb Hl H30 H31 Hlast h. rewrite bind_set.
  destruct (copy_last_eq b TERM_INPUT_BUFSIZE 0 (set_cpi 0 t)) as [Hrun Hle]; try done;
    [lia|unfold TERM_INPUT_BUFSIZE; lia|].
  rewrite drop_0 in Hrun, Hle. fold h in Hrun, Hle. split; [lia|].
  rewrite (bind_Some _ _ _ _ _ Hrun), bind_get. change (0 + length h)%nat with (length h).
  cbn [cpi set_cpi].
  assert (length (overlay (last_term_in t) 0 h) = 32%nat) as Ho by (rewrite length_overlay; lia).
  erewrite bind_Some by (apply store_last_eq;
    change (length h < length (overlay (last_term_in t) 0 h))%nat; lia).
  rewrite print_bind.
  assert (<[length h := 0]> (overlay (last_term_in t) 0 h) = overlay (last_term_in t) 0 (h ++ [0])) as <-; [|done].
  rewrite insert_overlay by lia. by rewrite (overlay_app _ 0) by (cbn; lia).
Qed.

(** A line with words: the command and its arguments, the state in which it is
    called, and the state afterwards. *)
Definition runs_command (t : term) (l : list (Z * dyn)) (ds : list (list Z)) (x rest : list Z)
    (esc : bool) (r : Z) (t' : term) : Prop :=
  let argv := starts false 0 x in
  let b := cut false x ++ 0 :: rest in
  let t1 := set_world (printf_lib crlf [] (world t)) (set_term_in b t) in
  exists w f t2,
    head (words x) = Some w /\
    command_at l (Z.to_nat (default 0 (position (cmd_names ++ ds) w))) = Some f /\
    Forall2 (fun a w => exists r, drop a b = w ++ 0 :: r) argv (words x) /\
    call_cmd do_cmd f (Z.of_nat (length (words x))) (argv_of argv) t1 = Some (r, t2) /\ only_line t1 t2 /\
    edits t' (mkEd [] (history (term_in t2)) (term_tmp_idx t) esc) /\ same_setup t t' /\
    world t' = printf_lib (crlf ++ lit ">>") [] (world t2).

Lemma terminal_process_lemma t l ds x rest hist tmp esc :
  buffers t hist tmp esc -> term_in t = x ++ 0 :: rest -> text0 x -> (length x <= 30)%nat ->
  commands t l -> names_of l ds -> (length l <= 252)%nat ->
  words x <> [] -> (length (words x) <= TERM_ARGS_MAX_COUNT)%nat ->
  exists r t', terminal_process do_cmd t = Some (r, t') /\ runs_command t l ds x rest esc r t'.
Proof.
  intros [Hin Hp [Ht1 Ht2] Hlast Hll Hby Hh Hhl Hc Ht He] Hx Htx Hlx Hl Hd Hlen Hne Hw.
  destruct (process_arguments x rest Htx Hlx) as (k & Hspan & Hargs).
  rewrite (proj2 (Nat.leb_le _ _)) in Hargs by done.
  unfold terminal_process. rewrite bind_get, Hx, (bind_lift _ _ _ _ Hspan), (bind_lift _ _ _ _ Hargs). cbv beta iota zeta.
  rewrite bind_set. set (b := cut false x ++ 0 :: rest).
  pose proof (words_at rest (length x) [] x (le_n _)) as Hat. cbn [app length] in Hat. fold b in Hat.
  pose proof (words_text (fun c => c <> 0) x Htx) as Hwt.
  destruct (words x) as [|w ws] eqn:Ews; [done|]. destruct (starts false 0 x) as [|a argv] eqn:Est; [by inversion Hat|].
  pose proof Hat as Hat'. apply Forall2_cons in Hat' as [[r0 Hr0] _].
  change (head (argv_of (a :: argv))) with (Some (Some a)). cbv beta iota zeta. rewrite bind_assoc, Hr0.
  assert (chars x) as Hcx by (apply (chars_text x (0 :: rest)); [done|by rewrite <- Hx]).
  pose proof (words_text (fun c => 0 < c) x Hcx) as Hwc. rewrite Ews in Hwc.
  apply Forall_cons in Hwc as [[_ Hwc] _].
  destruct (command_found (set_term_in b t) l ds w r0 Hl Hd Hlen Hwc) as (c & f & Hs & Hf & Ec & Hcall).
  rewrite (bind_Some _ _ _ _ _ Hs), bind_assoc, print_bind, bind_assoc.
  set (t1 := set_world (printf_lib crlf [] (world t)) (set_term_in b t)).
  change (set_world _ (set_term_in b t)) with t1.
  assert (length b = 32%nat) as Hlb.
  { unfold b. rewrite length_app, length_cut, <- length_app, <- Hx. exact Hin. }
  assert (b !! 30%nat = Some 0 /\ b !! 31%nat = Some 0) as [Hb30 Hb31] by (unfold b; rewrite !cut_top, <- Hx by lia; done).
  assert (Forall (Z.le 0) b) as Hbb.
  { unfold b. apply Forall_app. split; [by apply cut_text|]. rewrite Hx in Hby. by apply Forall_app in Hby as [_ Hby]. }
  destruct (call_cmd_obliging t1 l f (Z.of_nat (length (w :: ws))) (argv_of (a :: argv)) commands_obliging Hl)
    as (r & t2 & Hr & Ht12 & Hl2 & H30 & H31 & Hby2); [done|].
  rewrite (bind_Some _ _ t1 r t2) by (rewrite Hcall; done).
  destruct (copy_and_prompt t2 (term_in t2) r eq_refl Hl2 H30 H31 ltac:(by rewrite Ht12)) as [Hle Hrun].
  rewrite (bind_Some _ _ _ _ _ Hrun), !bind_set. eexists _, _. split; [done|].
  assert (last_term_in t2 = last_term_in t) as Elast by (by rewrite Ht12).
  exists w, f, t2. split_and!; [by rewrite Ews|by rewrite <- Ec|by rewrite Est, Ews|by rewrite Est, Ews|done| | |done].
  - assert (term_tmp_idx t = term_tmp_idx t2) as -> by (by rewrite Ht12). apply flushed; cbn; try done.
    + by rewrite Ht12.
    + rewrite Elast. unfold overlay. rewrite take_0, <- app_assoc. by eexists.
    + rewrite Elast, length_overlay by (rewrite length_app; cbn; unfold TERM_INPUT_BUFSIZE in Hll; lia). done.
    + by apply history_chars.
    + by rewrite Ht12.
  - by rewrite Ht12.
Qed.

(** A blank line runs nothing. *)
Lemma terminal_process_blank t x rest hist tmp esc :
  buffers t hist tmp esc -> term_in t = x ++ 0 :: rest -> text0 x -> (length x <= 30)%nat ->
  words x = [] ->
  exists t', terminal_process do_cmd t = Some (0, t') /\ edits t' (mkEd [] hist tmp esc) /\
    same_setup t t' /\ world t' = world t.
Proof.
  intros [Hin Hp Htop Hlast Hll Hby Hh Hhl Hc Ht He] Hx Htx Hlx Hw.
  destruct (process_arguments x rest Htx Hlx) as (k & Hspan & Hargs).
  assert (starts false 0 x = []) as Hst.
  { pose proof (words_at rest (length x) [] x (le_n _)) as Hat. rewrite Hw in Hat. by apply Forall2_nil_inv_r in Hat. }
  rewrite Hw, Hst in Hargs. cbn [length] in Hargs.
  unfold terminal_process. rewrite bind_get, Hx, (bind_lift _ _ _ _ Hspan), (bind_lift _ _ _ _ Hargs).
  cbv beta iota zeta. rewrite bind_set. change (head (argv_of [])) with (Some (@None nat)). cbv iota.
  rewrite bind_ret, !bind_set. eexists. split; [done|]. split; [|done].
  by apply (flushed (set_term_in (cut false x ++ 0 :: rest) t)).
Qed.

(** A line of more than six words writes past the end of [argv]. *)
Theorem terminal_process_overruns t x rest :
  term_in t = x ++ 0 :: rest -> text0 x -> (length x <= 30)%nat ->
  (TERM_ARGS_MAX_COUNT < length (words x))%nat -> terminal_process do_cmd t = None.
Proof.
  intros Hx Htx Hlx Hw. destruct (process_arguments x rest Htx Hlx) as (k & Hspan & Hargs).
  rewrite (proj2 (Nat.leb_gt _ _)) in Hargs by done.
  unfold terminal_process. rewrite bind_get, Hx, (bind_lift _ _ _ _ Hspan).
  unfold tbind at 1, tlift at 1. by rewrite Hargs.
Qed.

(** Running a command line.  For a line of one to six words, [terminal_process]
    calls the command of the first word, in the table or added at run time, or the
    help command when there is none, with the number of words and with pointers to
    the words as C strings; it returns the result of the command, prints the prompt,
    empties the line, and keeps the line for the up key. *)
Theorem terminal_process_runs t l ds x rest hist tmp esc :
  buffers t hist tmp esc -> term_in t = x ++ 0 :: rest -> text0 x -> (length x <= 30)%nat ->
  commands t l -> names_of l ds -> (length l <= 252)%nat ->
  words x <> [] -> (length (words x) <= TERM_ARGS_MAX_COUNT)%nat ->
  exists r t', terminal_process do_cmd t = Some (r, t') /\ runs_command t l ds x rest esc r t'.
Proof. apply terminal_process_lemma. Qed.

(** ** A session *)

(** The characters received one after the other; a line entered is processed before
    the next character. *)
Fixpoint feed (cs : list Z) (t : term) : option term :=
  match cs with
  | [] => Some t
  | c :: cs' =>
      '(r, t) ← terminal_input c t;
      t ← (if r =? 1 then '(_, t) ← terminal_process do_cmd t; Some t else Some t);
      feed cs' t
  end.

Lemma cstring_split m i : m !! i = Some 0 ->
  exists x rest, m = x ++ 0 :: rest /\ text0 x /\ (length x <= i)%nat /\ cstring m = x.
Proof.
  revert i. induction m as [|c m IH]; intros i Hi; [done|]. cbn [cstring].
  destruct (Z.eqb_spec c 0) as [->|Hc].
  - exists [], m. split_and!; [done|constructor|cbn; lia|done].
  - destruct i as [|i]; [cbn in Hi; congruence|].
    destruct (IH i Hi) as (x & rest & -> & Hx & Hl & ->).
    exists (c :: x), rest. split_and!; [done|by constructor|cbn; lia|done].
Qed.

Lemma ed_step_tmp c e o out :
  ed_step c e = (o, out) -> (length (e_hist e) <= 30)%nat ->
  let b := Z.max (Z.abs (e_tmp e)) 30 + 1 in
  match o with Editing e' => Z.abs (e_tmp e') <= b | Entered _ _ tmp => Z.abs tmp <= b end.
Proof.
  intros H Hh b. unfold ed_step, ed_echo, ed_key, ed_recall in H. subst b.
  repeat case_match; simplify_eq/=; try lia.
  all: match goal with H : e_hist _ = _ |- _ => rewrite H in * end; cbn in *; lia.
Qed.

Lemma same_setup_commands t t' l : same_setup t t' -> commands t l -> commands t' l.
Proof. intros (_ & _ & Hh & Hm) Hl. unfold commands in *. by rewrite Hh, Hm. Qed.

(** One character of a session. *)
Lemma feed_step t e l ds c :
  edits t e -> 0 <= c -> Z.abs (e_tmp e) < 2 ^ 31 - 64 ->
  commands t l -> names_of l ds -> (length l <= 252)%nat ->
  exists r t1, terminal_input c t = Some (r, t1) /\
    ((TERM_ARGS_MAX_COUNT < length (words (cstring (term_in t1))))%nat /\ r = 1 \/
     exists t2 e2, (if r =? 1 then '(_, t) ← terminal_process do_cmd t1; Some t else Some t1) = Some t2 /\
       edits t2 e2 /\ Z.abs (e_tmp e2) <= Z.max (Z.abs (e_tmp e)) 30 + 1 /\ commands t2 l).
Proof.
  intros Hed Hc Htmp Hl Hd Hlen. pose proof (terminal_input_lemma c t e Hed Hc ltac:(lia)) as H.
  destruct (ed_step c e) as [o out] eqn:Es. destruct H as (t1 & Hrun & Hreach & Hs & _).
  pose proof (ed_step_tmp c e o out Es (bf_hist_len _ _ _ _ (ed_buffers _ _ Hed))) as Hb.
  exists (returned o), t1. split; [done|]. pose proof (same_setup_commands _ _ _ Hs Hl) as Hl1.
  destruct o as [e'|line hist tmp]; cbn in Hreach, Hb; cbn [returned].
  { right. exists t1, e'. done. }
  destruct Hreach as [Hbuf [rest Hline] Hll]. 
  destruct (cstring_split (term_in t1) (length line)) as (x & rest' & Hx & Htx & Hlx & Ex).
  { rewrite Hline. by apply list_lookup_middle. }
  rewrite Ex. destruct (decide (TERM_ARGS_MAX_COUNT < length (words x))%nat) as [Hbig|Hsmall]; [by left|right].
  change (1 =? 1) with true. cbv iota.
  destruct (words x) as [|w ws] eqn:Ew.
  - destruct (terminal_process_blank t1 x rest' hist tmp false Hbuf Hx Htx ltac:(lia) Ew) as (t2 & -> & He2 & Hs2 & _).
    exists t2, (mkEd [] hist tmp false). split_and!; [done|done|done|]. by eapply same_setup_commands.
  - destruct (terminal_process_lemma t1 l ds x rest' hist tmp false) as (r & t2 & -> & Hr); try done; try lia.
    { by rewrite Ew. }
    { rewrite Ew. lia. }
    destruct Hr as (w' & f & t3 & _ & _ & _ & _ & _ & He2 & Hs2 & _).
    eexists t2, _. split; [done|]. split; [exact He2|]. cbn.
    rewrite (bf_tmp _ _ _ _ Hbuf). split; [done|]. by eapply same_setup_commands.
Qed.

(** C34: a session never leaves the buffers.  Let every command of the application,
    called with any arguments, return having changed nothing of the terminal but
    the line its arguments lie in, where it writes bytes and keeps the two NULs at
    the end of the buffer; let at most 252 commands be added at run time; and let
    the session have at most 10^9 bytes (and the count of characters, an [int], begin
    within 10^9).  Then, whatever bytes the terminal
    receives, each line entered being processed before the next byte, every access
    is inside the buffers, every loop ends, and the line editor and the list of
    commands are in a proper state at the end -- up to a line of more than six
    words, after which [argv] would be written past its end. *)
Theorem terminal_session_safe cs t e l ds :
  edits t e -> Z.abs (e_tmp e) <= 10 ^ 9 -> Z.of_nat (length cs) <= 10 ^ 9 -> Forall (Z.le 0) cs ->
  commands t l -> names_of l ds -> (length l <= 252)%nat ->
  (exists t' e', feed cs t = Some t' /\ edits t' e' /\ commands t' l) \/
  (exists cs1 c cs2 t1 t2, cs = cs1 ++ c :: cs2 /\ feed cs1 t = Some t1 /\
     terminal_input c t1 = Some (1, t2) /\
     (TERM_ARGS_MAX_COUNT < length (words (cstring (term_in t2))))%nat).
Proof.
  intros Hed Htmp Hn Hcs Hl Hd Hlen.
  assert (Z.max (Z.abs (e_tmp e)) 30 + Z.of_nat (length cs) <= 2 ^ 31 - 100) as Hb by lia. clear Htmp Hn.
  revert t e Hed Hb Hl. induction Hcs as [|c cs Hc Hcs IH]; intros t e Hed Hb Hl; [left; by exists t, e|].
  cbn [length] in Hb.
  destruct (feed_step t e l ds c) as (r & t1 & Hrun & Hr); try done; [lia|].
  destruct Hr as [[Hbig ->]|(t2 & e2 & Hp & Hed2 & Htmp2 & Hl2)].
  - right. by exists [], c, cs, t, t1.
  - assert (feed (c :: cs) t = feed cs t2) as Hf by (cbn [feed]; rewrite Hrun; cbn [mbind option_bind]; by rewrite Hp).
    destruct (IH t2 e2 Hed2 ltac:(lia) Hl2) as [(t' & e' & Hf' & H')|(cs1 & c' & cs2 & t3 & t4 & -> & H3 & H4)].
    + left. exists t', e'. by rewrite Hf.
    + right. exists (c :: cs1), c', cs2, t3, t4. split; [done|]. split; [|done].
      cbn [feed]. rewrite Hrun. cbn [mbind option_bind]. by rewrite Hp.
Qed.

End process.

(** ** A line typed and recalled *)
Section recall.
Context `{X : Externals}.
Variable do_cmd : P -> Z -> list (option nat) -> M Z.
(** These commands leave the line alone. *)
Hypothesis commands_polite : forall p argc argv t, polite (do_cmd p argc argv) t.

Lemma commands_obliging : forall p argc argv t, obliging (do_cmd p argc argv) t.
Proof. intros. apply polite_obliging, commands_polite. Qed.

(** A line of visible characters and spaces, of one to six words, that does not end
    in a space. *)
Record plain (x : list Z) : Prop := {
  pl_chars : Forall (fun c => 32 <= c < 127) x;
  pl_last : exists y c, x = y ++ [c] /\ c <> 32;
  pl_len : (length x <= 29)%nat;
  pl_words : (length (words x) <= TERM_ARGS_MAX_COUNT)%nat;
}.

Lemma visible_delim c : 32 <= c < 127 -> is_delim c = (c =? 32).
Proof. intros Hc. unfold is_delim. destruct (Z.eqb_spec c 32); [done|]. cbn. lia. Qed.

(** The line as it is kept is the line typed. *)
Lemma history_cut m : forall x b,
  Forall (fun c => 32 <= c < 127) x -> (x = [] \/ exists y c, x = y ++ [c] /\ c <> 32) ->
  history (cut b x ++ 0 :: 0 :: m) = x.
Proof.
  induction x as [|c x IH]; intros b Hx Hlast; [done|].
  apply Forall_cons in Hx as [Hc Hx]. cbn [cut app]. rewrite (visible_delim c Hc).
  assert (x = [] \/ exists y d, x = y ++ [d] /\ d <> 32) as Hlast'.
  { destruct Hlast as [|(y & d & Hy & Hd)]; [done|]. destruct y as [|c' y]; [injection Hy as _ ->; by left|].
    injection Hy as _ ->. right. eauto. }
  specialize (IH (negb (c =? 32)) Hx Hlast').
  destruct x as [|c2 x].
  - destruct Hlast as [|(y & d & Hy & Hd)]; [done|].
    destruct y as [|c' [|? y]]; [|done..]. injection Hy as ->.
    rewrite (proj2 (Z.eqb_neq d 32)) by done. rewrite andb_false_r. cbn. by rewrite (proj2 (Z.eqb_neq d 0)) by lia.
  - apply Forall_cons in Hx as [Hc2 Hx]. cbn [cut app] in IH |- *. cbn [history] in IH |- *.
    rewrite IH. destruct (Z.eqb_spec c 32) as [->|Hne].
    + cbn [negb andb]. rewrite (proj2 (Z.eqb_neq c2 0)) by lia. rewrite andb_false_r. by destruct b.
    + rewrite andb_false_r, (proj2 (Z.eqb_neq c 0)) by lia. done.
Qed.

(** A visible character or a carriage return. *)
Lemma plain_key c t x hist :
  edits t (mkEd x hist (Z.of_nat (length x)) false) -> (length x <= 29)%nat -> 32 <= c < 127 \/ c = 13 ->
  exists t', terminal_input c t = Some (if c =? 13 then 1 else 0, t') /\
    term_in t' = <[length x := if c =? 13 then 0 else c]> (term_in t).
Proof.
  intros Hed Hx Hc. pose proof Hed as [[Hin Hp _ _ _ _ _ _ _ Ht He] [r Hline] _ Hidx].
  unfold TERM_INPUT_BUFSIZE in Hin. cbn in Ht, He, Hidx.
  unfold terminal_input. rewrite bind_get. set (t0 := set_world (hooked (input t) c (world t)) t).
  rewrite (bind_Some _ _ t tt t0) by (unfold t0, hooked; destruct (input t); [done|by destruct t]).
  assert ((c =? 127) = false /\ (c =? UP_KEY_CHAR) = false /\ (c =? 8) = false /\ (c =? 10) = false) as (E1 & E2 & E3 & E4)
    by (unfold UP_KEY_CHAR; lia).
  set (t1 := set_term_tmp_idx (if c =? 13 then 0 else Z.of_nat (length x) + 1) (send [c] t0)).
  assert (echo c t0 = Some (Some c, t1)) as Hecho.
  { unfold echo. rewrite E1, E2. cbn [negb]. rewrite bind_assoc, bind_get.
    change (discard_char t0) with (discard_char t). rewrite He, Z.eqb_refl, bind_assoc.
    rewrite (bind_Some _ _ _ _ _ (putchar_eq c t0 Hp)), bind_ret, (count_eq _ _ (Z.of_nat (length x))) by (done || lia).
    by rewrite (proj2 (Z.geb_le _ _)) by lia. }
  rewrite (bind_Some _ _ _ _ _ Hecho). unfold edit_key. rewrite bind_get.
  assert (term_tmp_idx t1 >=? 0 = true) as -> by (cbn; destruct (c =? 13); lia).
  rewrite bind_get. change (term_in_idx t1) with (term_in_idx t). rewrite Hidx, E1, E3, E2. cbn [orb andb].
  rewrite (bind_Some _ _ _ _ _ (store_in_eq (length x) c t1 ltac:(cbn; lia))).
  rewrite (bind_Some _ _ _ _ _ (put_idx_eq (Z.of_nat (length x) + 1) _ ltac:(lia))), E4.
  assert ((Z.of_nat (length x) + 1 =? Z.of_nat TERM_INPUT_BUFSIZE - 1) = false) as ->
    by (change (Z.of_nat TERM_INPUT_BUFSIZE) with 32; lia).
  cbn [orb]. rewrite orb_false_r. destruct (c =? 13) eqn:E13.
  - erewrite bind_Some by (apply store_in_eq; cbn; rewrite length_insert; lia).
    eexists. split; [done|]. cbn. by rewrite list_insert_insert_eq.
  - eexists. split; [done|]. done.
Qed.

Lemma feed_app cs1 cs2 t : feed do_cmd (cs1 ++ cs2) t = feed do_cmd cs1 t ≫= feed do_cmd cs2.
Proof.
  revert t. induction cs1 as [|c cs1 IH]; intros t; [done|]. cbn [feed app].
  destruct (terminal_input c t) as [[r t1]|]; [|done]. cbn [mbind option_bind].
  destruct (r =? 1); [|apply IH]. destruct (terminal_process do_cmd t1) as [[? t2]|]; [|done].
  cbn [mbind option_bind]. apply IH.
Qed.

(** The line typed so far and nothing behind it. *)
Definition typed (t : term) (x hist : list Z) : Prop :=
  edits t (mkEd x hist (Z.of_nat (length x)) false) /\
  term_in t = x ++ replicate (TERM_INPUT_BUFSIZE - length x) 0.

Lemma insert_zeros (x : list Z) c k :
  <[length x := c]> (x ++ replicate (S k) 0) = (x ++ [c]) ++ replicate k 0.
Proof. rewrite insert_app_r_alt, Nat.sub_diag by lia. cbn. by rewrite <- app_assoc. Qed.

Lemma typed_zeros (x : list Z) k : (length x <= 31)%nat -> k = (TERM_INPUT_BUFSIZE - length x)%nat -> k = S (31 - length x).
Proof. unfold TERM_INPUT_BUFSIZE. lia. Qed.

Lemma type_char c t x hist :
  typed t x hist -> (length x <= 28)%nat -> 32 <= c < 127 ->
  exists t', terminal_input c t = Some (0, t') /\ typed t' (x ++ [c]) hist /\ same_setup t t'.
Proof.
  intros [Hed Hin] Hx Hc.
  destruct (plain_key c t x hist Hed ltac:(lia) ltac:(by left)) as (t' & Hrun & Hin').
  rewrite (proj2 (Z.eqb_neq c 13)) in Hrun, Hin' by lia.
  pose proof (terminal_input_lemma c t _ Hed ltac:(lia) ltac:(cbn; lia)) as H.
  assert (ed_step c (mkEd x hist (Z.of_nat (length x)) false)
    = (Editing (mkEd (x ++ [c]) hist (Z.of_nat (length x) + 1) false), [c])) as Es.
  { unfold ed_step, ed_echo, ed_key, UP_KEY_CHAR. cbn [e_tmp e_line e_hist e_esc].
    assert ((c =? 127) = false /\ (c =? 224) = false /\ (c =? 8) = false /\ (c =? 10) = false /\ (c =? 13) = false)
      as (E1 & E2 & E3 & E4 & E5) by lia. rewrite E1, E2, E5. cbn [e_tmp e_line e_hist e_esc].
    rewrite (proj2 (Z.geb_le _ _)), (proj2 (Z.ltb_ge _ _)), ?E1, ?E2, ?E3, ?E4, ?E5 by lia. cbn [orb andb]. rewrite ?E1, ?E2, ?E3, ?E4, ?E5.
    by rewrite (proj2 (Nat.eqb_neq (length x) 30)) by lia. }
  rewrite Es in H. destruct H as (t2 & Hrun2 & Hed2 & Hs & _). rewrite Hrun in Hrun2. injection Hrun2 as <-.
  exists t'. split; [done|]. split; [|done]. split.
  - rewrite length_app. cbn [length]. by rewrite Nat2Z.inj_add.
  - rewrite Hin', Hin, (typed_zeros x _ ltac:(lia) eq_refl), insert_zeros, length_app. cbn [length].
    do 2 f_equal. unfold TERM_INPUT_BUFSIZE. lia.
Qed.

Lemma type_line hist : forall x y t,
  typed t y hist -> Forall (fun c => 32 <= c < 127) x -> (length (y ++ x) <= 29)%nat ->
  exists t', feed do_cmd x t = Some t' /\ typed t' (y ++ x) hist /\ same_setup t t'.
Proof.
  induction x as [|c x IH]; intros y t Ht Hx Hl; [exists t; by rewrite app_nil_r|].
  apply Forall_cons in Hx as [Hc Hx]. rewrite length_app in Hl. cbn in Hl.
  destruct (type_char c t y hist Ht ltac:(lia) Hc) as (t1 & Hrun & Ht1 & Hs1).
  destruct (IH (y ++ [c]) t1 Ht1 Hx) as (t2 & Hf & Ht2 & Hs2); [rewrite !length_app; cbn; lia|].
  exists t2. cbn [feed]. rewrite Hrun. cbn [mbind option_bind]. change (0 =? 1) with false. cbv iota.
  rewrite <- app_assoc in Ht2. split_and!; [done|done|]. by eapply same_setup_trans.
Qed.

(** A byte after which the line is still edited. *)
Lemma feed_editing c cs t e e' out :
  edits t e -> 0 <= c -> - 2 ^ 31 < e_tmp e < 2 ^ 31 - 1 -> ed_step c e = (Editing e', out) ->
  exists t', feed do_cmd (c :: cs) t = feed do_cmd cs t' /\ edits t' e'.
Proof.
  intros Hed Hc Htmp Es. pose proof (terminal_input_lemma c t e Hed Hc Htmp) as H. rewrite Es in H.
  destruct H as (t' & Hrun & Hed' & _). exists t'. split; [|done]. cbn [feed]. rewrite Hrun. done.
Qed.

(** The up key shows the last line. *)
Lemma feed_up_key t x c :
  edits t (mkEd [] x 0 false) -> x <> [] -> 0 <= c -> c <> 0x7F -> c <> UP_KEY_CHAR ->
  exists t', feed do_cmd [UP_KEY_CHAR; c] t = Some t' /\ edits t' (mkEd x x (Z.of_nat (length x)) false).
Proof.
  intros Hed Hx Hc H127 H224.
  destruct (feed_editing UP_KEY_CHAR [c] t _ (mkEd [] x 0 true) [] Hed ltac:(done) ltac:(cbn; lia) eq_refl)
    as (t1 & -> & Hed1).
  assert (exists out, ed_step c (mkEd [] x 0 true) = (Editing (mkEd x x (Z.of_nat (length x)) false), out)) as [out Es].
  { unfold ed_step, ed_echo. rewrite (proj2 (Z.eqb_neq c _)), (proj2 (Z.eqb_neq c _)) by done.
    destruct x as [|d x]; [done|]. by eexists. }
  destruct (feed_editing c [] t1 _ _ _ Hed1 Hc ltac:(cbn; lia) Es) as (t2 & -> & Hed2). by exists t2.
Qed.

Lemma plain_last x : plain x -> exists y c, x = y ++ [c] /\ is_delim c = false /\ x <> [].
Proof.
  intros [Hx (y & c & -> & Hc) _ _]. exists y, c. split_and!; [done| |by destruct y].
  apply Forall_app in Hx as [_ Hx]. apply Forall_cons in Hx as [Hx _]. rewrite visible_delim by done.
  by apply Z.eqb_neq.
Qed.

Lemma words_last_letter y c : is_delim c = false -> forall cur, words_from cur (y ++ [c]) <> [].
Proof.
  intros Hc. induction y as [|d y IH]; intros cur; cbn.
  - rewrite Hc. by destruct cur.
  - destruct (is_delim d); [|apply IH]. by destruct cur.
Qed.

(** The carriage return after a line typed runs it and keeps it. *)
Lemma feed_enter t l ds x hist :
  typed t x hist -> plain x -> commands t l -> names_of l ds -> (length l <= 252)%nat ->
  exists t', (forall cs, feed do_cmd (13 :: cs) t = feed do_cmd cs t') /\ edits t' (mkEd [] x 0 false).
Proof.
  intros [Hed Hin] Hpl Hl Hd Hlen. pose proof Hpl as [Hvis Hlast Hlx Hw].
  destruct (plain_last x Hpl) as (y & c & Exy & Hc & Hx0).
  destruct (plain_key 13 t x hist Hed Hlx ltac:(by right)) as (t1 & Hrun & Hin1).
  pose proof (terminal_input_lemma 13 t _ Hed ltac:(done) ltac:(cbn; lia)) as H.
  assert (exists out, ed_step 13 (mkEd x hist (Z.of_nat (length x)) false) = (Entered x hist 0, out)) as [out Es] by by eexists.
  rewrite Es in H. destruct H as (t2 & Hrun2 & Hen & Hs & _). rewrite Hrun in Hrun2. injection Hrun2 as <-.
  destruct Hen as [Hbuf _ _]. change (13 =? 13) with true in Hin1. cbv iota in Hin1.
  remember (30 - length x)%nat as k eqn:Ek.
  assert (term_in t1 = x ++ 0 :: 0 :: replicate k 0) as Hin2.
  { rewrite Hin1, Hin, (typed_zeros x _ ltac:(lia) eq_refl), insert_zeros, <- app_assoc.
    replace (31 - length x)%nat with (S k) by lia. done. }
  assert (text0 x) as Htx by (eapply Forall_impl; [exact Hvis|]; cbn; lia).
  destruct (terminal_process_lemma do_cmd commands_obliging t1 l ds x (0 :: replicate k 0) hist 0 false) as (r & t3 & Hp & Hr);
    try done; [lia|by eapply same_setup_commands| |].
  { rewrite Exy. by apply words_last_letter. }
  pose proof Hr as (w & f & t4 & _ & _ & _ & Hcall & _ & He & _).
  set (t5 := set_world _ _) in Hcall.
  destruct (call_cmd_polite do_cmd t5 l f (Z.of_nat (length (words x))) (argv_of (starts false 0 x)) commands_polite (same_setup_commands _ _ _ Hs Hl))
    as (r' & t6 & Hcall' & Hw6).
  rewrite Hcall in Hcall'. injection Hcall' as <- <-. destruct (only_world_line _ _ Hw6) as [_ E4].
  rewrite E4 in He. change (term_in t5) with (cut false x ++ 0 :: 0 :: replicate k 0) in He.
  rewrite history_cut in He by (done || by right). rewrite (bf_tmp _ _ _ _ Hbuf) in He.
  exists t3. split; [|done]. intros cs. cbn [feed]. rewrite Hrun. cbn [mbind option_bind].
  change (13 =? 13) with true. cbv iota. change (1 =? 1) with true. cbv iota. by rewrite Hp.
Qed.

(** The command history.  A line of one to six words typed at the prompt and
    ended by a carriage return is run and kept, and the up key (0xE0 and one more
    byte) makes it the line being edited again, letter by letter, although running it
    cut it into words.  (The commands leave the line alone.) *)
Theorem terminal_recall t l ds x hist c :
  typed t [] hist -> plain x -> commands t l -> names_of l ds -> (length l <= 252)%nat ->
  0 <= c -> c <> 0x7F -> c <> UP_KEY_CHAR ->
  exists t', feed do_cmd (x ++ [13; UP_KEY_CHAR; c]) t = Some t' /\
    edits t' (mkEd x x (Z.of_nat (length x)) false).
Proof.
  intros Ht Hpl Hl Hd Hlen Hc H127 H224.
  destruct (type_line hist x [] t Ht (pl_chars x Hpl) (pl_len x Hpl)) as (t1 & Hf & Ht1 & Hs).
  destruct (feed_enter t1 l ds x hist Ht1 Hpl (same_setup_commands _ _ _ Hs Hl) Hd Hlen) as (t2 & Hf2 & He2).
  destruct (plain_last x Hpl) as (_ & _ & _ & _ & Hx0).
  destruct (feed_up_key t2 x c He2 Hx0 Hc H127 H224) as (t3 & Hf3 & He3).
  exists t3. split; [|done]. rewrite feed_app, Hf. cbn [mbind option_bind]. by rewrite Hf2.
Qed.
End recall.
