(* ===== verification/TermExamples.v ===== *)
(** * The terminal on a concrete system

    The theorems on the terminal evaluated on a terminal with one dynamic command,
    and runs that show what the line editor does in the corners. *)

From Stdlib Require Import ZArith Lia Ascii String.
From stdpp Require Import base gmap numbers list.
From S2P Require Import Prelude Text Terminal TermCmds TermLine TermProcess.
#[local] Open Scope Z_scope.

(** Output is recorded; a command does nothing and returns [argc]. *)
#[local] Instance recorder : Externals := {|
  P := unit; F := unit; G := unit; W := list Z;
  cmd_runst := tt; cmd_top := tt; cmd_ver := tt;
  do_putchar _ c w := w ++ [c];
  do_input _ _ w := w;
  printf_lib fmt _ w := w ++ fmt;
|}.
Definition return_argc (p : P) (argc : Z) (argv : list (option nat)) : M Z := tret argc.

Definition led_func : pf_cmd := cmd_extern tt.
Definition led : dcmd_t := mkDcmd led_func (cstr (lit "led")) (cstr (lit "Led control")) None.
Definition blank : dcmd_t := mkDcmd cmd_help_ptr [] [] None.
Definition prompt : term :=
  mkTerm (Some tt) None (Some 100) {[ 100 := led; 200 := blank ]} 0 0 0 0
    (replicate TERM_INPUT_BUFSIZE 0) (replicate TERM_INPUT_BUFSIZE 0) [].
Definition prompt_cmds : list (Z * (pf_cmd * list Z * list Z)) :=
  [(100, (led_func, cstr (lit "led"), cstr (lit "Led control")))].
Definition prompt_names : list (list Z) := [lit "led"].

Lemma prompt_commands : commands prompt prompt_cmds.
Proof. split; [done|]. exists led. done. Qed.
Lemma prompt_names_of : names_of prompt_cmds prompt_names.
Proof. apply Forall2_cons. split; [|constructor]. split; [by apply chars_b|by exists []]. Qed.
Lemma zeros_top n : (n < 32)%nat -> replicate TERM_INPUT_BUFSIZE 0 !! n = Some 0.
Proof. intros H. by apply lookup_replicate_2. Qed.
Lemma prompt_buffers (t : term) x :
  putchar_func t = Some tt -> term_in t = x -> length x = 32%nat -> x !! 30%nat = Some 0 -> x !! 31%nat = Some 0 ->
  last_term_in t = replicate 32 0 -> Forall (Z.le 0) x -> cpi t = 0 -> discard_char t = 0 ->
  buffers t [] (term_tmp_idx t) false.
Proof. intros Hp <- ? ? ? Hlast ? ? ?. 
  split; rewrite ?Hlast, ?Hp; try done; first [by eexists|by exists (replicate 31 0)|by constructor|cbn; lia].
Qed.
Lemma prompt_edits : edits prompt (mkEd [] [] 0 false).
Proof.
  split; cbn; [|by eexists|lia|done].
  by apply (prompt_buffers prompt (replicate 32 0)); try done; repeat constructor.
Qed.

Lemma return_argc_polite p argc argv (t : term) : polite (return_argc p argc argv) t.
Proof. apply polite_ret. Qed.

Lemma return_argc_obliging p argc argv (t : term) : obliging (return_argc p argc argv) t.
Proof. apply polite_obliging, return_argc_polite. Qed.

(** A command that writes into its name. *)
Definition scribble (p : P) (argc : Z) (argv : list (option nat)) : M Z :=
  match argv with
  | Some a :: _ => if (a <? 30)%nat then (tset (fun t => set_term_in (<[a := 88]> (term_in t)) t) ;;; tret argc)%stm
                   else tret argc
  | _ => tret argc
  end.

Lemma scribble_obliging p argc argv (t : term) : obliging (scribble p argc argv) t.
Proof.
  destruct argv as [|[a|] argv]; try (apply polite_obliging, polite_ret).
  unfold scribble. destruct (Nat.ltb_spec a 30); [|apply polite_obliging, polite_ret].
  intros (Hl & H30 & H31 & Hb). eexists _, _. split; [done|]. split; [by destruct t|].
  split_and!; cbn.
  - by rewrite length_insert.
  - by rewrite list_lookup_insert_ne by lia.
  - by rewrite list_lookup_insert_ne by lia.
  - by apply Forall_insert.
Qed.

(** The line ["led on"] as it was typed. *)
Definition line_of (x : list Z) : list Z := x ++ replicate (TERM_INPUT_BUFSIZE - length x) 0.
Definition with_line (x : list Z) : term := set_term_in (line_of x) prompt.

Lemma with_line_buffers x :
  (length x <= 30)%nat -> Forall (Z.le 0) x -> buffers (with_line x) [] 0 false.
Proof.
  intros Hl Hx. apply (prompt_buffers (with_line x) (line_of x)); try done; unfold line_of, TERM_INPUT_BUFSIZE.
  - rewrite length_app, length_replicate. lia.
  - rewrite lookup_app_r, lookup_replicate_2; [done|lia..].
  - rewrite lookup_app_r, lookup_replicate_2; [done|lia..].
  - apply Forall_app. split; [done|]. by apply Forall_replicate.
Qed.

(** ** Witnesses *)

Lemma search_cmd_linear_witness :
  search_cmd cmds (lit "led" ++ 0 :: [1; 2]) prompt = Some (4, prompt).
Proof.
  apply (search_cmd_linear prompt cmds cmd_names prompt_cmds prompt_names (lit "led") [1; 2]);
    [exact cmds_sorted|exact prompt_commands|exact prompt_names_of|vm_compute; discriminate|repeat constructor].
Defined.

Lemma terminal_add_cmd_appends_witness :
  exists m p, let t' := set_cmd_head p (set_dcmds m prompt) in
    terminal_add_cmd 200 led_func (cstr (lit "x")) [] prompt = Some (tt, t') /\
    commands t' (prompt_cmds ++ [(200, (led_func, cstr (lit "x"), []))]) /\
    forall q, q ∉ prompt_cmds.*1 -> q <> 200 -> m !! q = dcmds prompt !! q.
Proof.
  apply (terminal_add_cmd_appends prompt prompt_cmds 200 blank led_func (cstr (lit "x")) []);
    [exact prompt_commands|set_solver|reflexivity].
Defined.

Lemma terminal_input_refines_witness :
  exists t', terminal_input 120 prompt = Some (0, t') /\ edits t' (mkEd [120] [] 1 false) /\
    same_setup prompt t' /\ world t' = [120].
Proof.
  exact (terminal_input_refines 120 prompt (mkEd [] [] 0 false) prompt_edits ltac:(lia) ltac:(cbn; lia)).
Defined.

Lemma terminal_process_overruns_witness :
  terminal_process return_argc (with_line (lit "led 1 2 3 4 5 6")) = None.
Proof.
  apply (terminal_process_overruns return_argc _ (lit "led 1 2 3 4 5 6") (replicate 16 0));
    [reflexivity|repeat (constructor; [discriminate|]); constructor|vm_compute; lia|vm_compute; lia].
Defined.

Lemma terminal_process_runs_witness :
  exists r t', terminal_process return_argc (with_line (lit "led on")) = Some (r, t') /\
    runs_command return_argc (with_line (lit "led on")) prompt_cmds prompt_names (lit "led on") (replicate 25 0) false r t'.
Proof.
  apply (terminal_process_runs return_argc return_argc_obliging (with_line (lit "led on")) prompt_cmds prompt_names
    (lit "led on") (replicate 25 0) [] 0 false);
    [apply with_line_buffers; [vm_compute; lia|repeat constructor; discriminate]|reflexivity
    |repeat (constructor; [discriminate|]); constructor|vm_compute; lia|exact prompt_commands|exact prompt_names_of
    |vm_compute; lia|discriminate|vm_compute; lia].
Defined.

Definition a_session : list Z := lit "led on" ++ [13; 224; 65; 8; 13; 10].
Lemma terminal_session_safe_witness :
  (exists t' e', feed scribble a_session prompt = Some t' /\ edits t' e' /\ commands t' prompt_cmds) \/
  (exists cs1 c cs2 t1 t2, a_session = cs1 ++ c :: cs2 /\ feed scribble cs1 prompt = Some t1 /\
     terminal_input c t1 = Some (1, t2) /\
     (TERM_ARGS_MAX_COUNT < length (words (cstring (term_in t2))))%nat).
Proof.
  apply (terminal_session_safe scribble scribble_obliging a_session prompt (mkEd [] [] 0 false) prompt_cmds prompt_names);
    [exact prompt_edits|vm_compute; discriminate|vm_compute; discriminate|repeat constructor; discriminate
    |exact prompt_commands|exact prompt_names_of|vm_compute; lia].
Defined.

Lemma led_on_plain : plain (lit "led on").
Proof.
  split; [by repeat (apply Forall_cons; split; [done|])|by exists (lit "led o"), 110|vm_compute; lia|vm_compute; lia].
Qed.
Lemma terminal_recall_witness :
  exists t', feed return_argc (lit "led on" ++ [13; UP_KEY_CHAR; 65]) prompt = Some t' /\
    edits t' (mkEd (lit "led on") (lit "led on") 6 false).
Proof.
  apply (terminal_recall return_argc return_argc_polite prompt prompt_cmds prompt_names (lit "led on") [] 65);
    [split; [exact prompt_edits|reflexivity]|exact led_on_plain|exact prompt_commands|exact prompt_names_of
    |vm_compute; lia|lia|lia|unfold UP_KEY_CHAR; lia].
Defined.

(** ** Corners *)

(** The up key does not clear the buffer: after [top], a longer line given up with
    the up key and one more letter, the line run is [topX], but the line kept is
    [topX] and the end of the line given up. *)
Example stale_letters_kept :
  (fun t => take 10 (last_term_in t)) <$>
    feed return_argc (lit "top" ++ [13] ++ lit "led x on" ++ [224; 65] ++ lit "X" ++ [13]) prompt
  = Some (lit "topX  on" ++ [0; 0]).
Proof. vm_compute. reflexivity. Qed.

(** A delete key on the empty line after a line ended by a line feed is stored as a
    character of the line. *)
Example delete_stored :
  (fun t => (term_in_idx t, take 2 (term_in t))) <$> feed return_argc (lit "top" ++ [10; 0x7F]) prompt
  = Some (1, [0x7F; 0]).
Proof. vm_compute. reflexivity. Qed.

(** Adding the first of two control blocks again loses the second. *)
Example added_twice :
  (match tbind (terminal_add_cmd 200 led_func (cstr (lit "x")) [])
          (fun _ => terminal_add_cmd 100 led_func (cstr (lit "led")) []) prompt with
   | Some (_, t) => d_next <$> dcmds t !! 100
   | None => None
   end) = Some None.
Proof. vm_compute. reflexivity. Qed.
