(* ===== verification/Chain.v ===== *)
(** * Neighbours in a list

    What the doubly linked structures of the heap need of lists: [consec L a b]
    says that [b] comes right after [a] in [L], and the lemmas say which
    neighbours a list has after an element was put in, taken out or added. *)

From Stdlib Require Import ZArith Lia Sorted.
From stdpp Require Import base numbers list sets.
#[local] Open Scope Z_scope.

Definition consec (L : list Z) (a b : Z) : Prop := exists l1 l2, L = l1 ++ a :: b :: l2.

Lemma consec_cons x y l a b : consec (x :: y :: l) a b <-> (a = x /\ b = y) \/ consec (y :: l) a b.
Proof.
  split.
  - intros ([|z l1] & l2 & E); [injection E as <- <- _; by left|].
    injection E as _ E. right. by exists l1, l2.
  - intros [[-> ->]|(l1 & l2 & ->)]; [by exists [], l|by exists (x :: l1), l2].
Qed.

Lemma consec_nil a b : ~ consec [] a b.
Proof. intros ([|] & l2 & E); done. Qed.
Lemma consec_one x a b : ~ consec [x] a b.
Proof. intros ([|? [|]] & l2 & E); done. Qed.

(** At an element the list falls in two. *)
Lemma consec_split l1 x l2 a b :
  consec (l1 ++ x :: l2) a b <-> consec (l1 ++ [x]) a b \/ consec (x :: l2) a b.
Proof.
  induction l1 as [|y l1 IH]; cbn [app].
  - split; [by right|]. intros [H|H]; [by apply consec_one in H|done].
  - destruct l1 as [|z l1]; cbn [app] in *.
    + rewrite !consec_cons. split; [intros [H|H]; auto|]. intros [[H|H]|H]; auto. by apply consec_one in H.
    + rewrite !(consec_cons y z), IH. tauto.
Qed.

Lemma consec_elem L a b : consec L a b -> a ∈ L /\ b ∈ L.
Proof. intros (l1 & l2 & ->). set_solver. Qed.

Lemma consec_left l x a b : consec (l ++ [x]) a b -> a ∈ l /\ b ∈ l ++ [x].
Proof.
  intros (l1 & l2 & E). split; [|rewrite E; set_solver].
  destruct (exists_last (l := b :: l2)) as (l3 & y & E'); [done|].
  rewrite E' in E. change (l1 ++ a :: l3 ++ [y]) with (l1 ++ (a :: l3) ++ [y]) in E. rewrite app_assoc in E.
  apply app_inj_tail in E as [-> _]. set_solver.
Qed.
Lemma consec_right l x a b : consec (x :: l) a b -> a ∈ x :: l /\ b ∈ l.
Proof.
  intros (l1 & l2 & E). split; [rewrite E; set_solver|].
  destruct l1 as [|y l1]; injection E as _ ->; set_solver.
Qed.

(** The neighbours around [x] and [y], next to each other or with [m] between. *)
Lemma consec_pair l1 x y l2 a b :
  consec (l1 ++ x :: y :: l2) a b <->
  consec (l1 ++ [x]) a b \/ (a = x /\ b = y) \/ consec (y :: l2) a b.
Proof. rewrite consec_split, consec_cons. tauto. Qed.
Lemma consec_triple l1 x m y l2 a b :
  consec (l1 ++ x :: m :: y :: l2) a b <->
  consec (l1 ++ [x]) a b \/ (a = x /\ b = m) \/ (a = m /\ b = y) \/ consec (y :: l2) a b.
Proof. rewrite consec_split, !consec_cons. tauto. Qed.

Lemma consec_middle l1 x y l2 : consec (l1 ++ x :: y :: l2) x y.
Proof. by exists l1, l2. Qed.

(** The last element replaced or followed by another. *)
Lemma consec_snoc l x a b : consec (l ++ [x]) a b <-> consec l a b \/ (last l = Some a /\ b = x).
Proof.
  destruct l as [|y l _] using rev_ind.
  - cbn. split; [intros H; by apply consec_one in H|]. intros [H|[H _]]; [by apply consec_nil in H|done].
  - rewrite <- app_assoc. cbn [app]. rewrite consec_pair, last_snoc. split.
    + intros [H|[[-> ->]|H]]; [by left|by right|by apply consec_one in H].
    + intros [H|[[= ->] ->]]; [by left|right; by left].
Qed.

(** Without repetition the neighbours are functions. *)
Lemma consec_fun L a b c : NoDup L -> consec L a b -> consec L a c -> b = c.
Proof.
  intros Hn (l1 & l2 & ->) H. apply consec_pair in H.
  apply NoDup_app in Hn as (_ & Hd & Hn). apply NoDup_cons in Hn as [Ha Hn].
  destruct H as [H|[[_ ->]|H]]; [|done|].
  - apply consec_left in H as [H _]. destruct (Hd _ H). set_solver.
  - apply consec_elem in H as [H _]. done.
Qed.
Lemma consec_inj L a b c : NoDup L -> consec L a c -> consec L b c -> a = b.
Proof.
  intros Hn (l1 & l2 & ->) H. apply consec_pair in H.
  apply NoDup_app in Hn as (_ & Hd & Hn). apply NoDup_cons in Hn as [Ha Hn]. apply NoDup_cons in Hn as [Hc Hn].
  destruct H as [H|[[-> _]|H]]; [|done|].
  - apply consec_left in H as [_ H]. apply elem_of_app in H as [H|H].
    + destruct (Hd _ H). set_solver.
    + set_solver.
  - apply consec_right in H as [_ H]. done.
Qed.

(** ** Increasing lists *)
Notation increasing := (StronglySorted Z.lt).

Lemma increasing_app l1 l2 :
  increasing (l1 ++ l2) <->
  increasing l1 /\ increasing l2 /\ (forall x y, x ∈ l1 -> y ∈ l2 -> x < y).
Proof.
  induction l1 as [|z l1 IH]; cbn [app].
  - split; [intros; split_and!; [constructor|done|set_solver]|tauto].
  - split.
    + intros H. apply StronglySorted_inv in H as [H1 H2]. apply IH in H1 as (? & ? & ?).
      apply Forall_app in H2 as [H2 H3]. rewrite Forall_forall in H3.
      split_and!; [by constructor|done|]. intros x y [->|Hx]%elem_of_cons Hy; auto.
    + intros (H1 & H2 & H3). apply StronglySorted_inv in H1 as [H1 H4]. constructor.
      * apply IH. split_and!; [done|done|]. intros; apply H3; set_solver.
      * apply Forall_app. split; [done|]. apply Forall_forall. intros y Hy. apply H3; set_solver.
Qed.

Lemma increasing_cons x l : increasing (x :: l) <-> increasing l /\ forall y, y ∈ l -> x < y.
Proof.
  change (x :: l) with ([x] ++ l). rewrite increasing_app. split.
  - intros (_ & H & H'). split; [done|]. intros; apply H'; set_solver.
  - intros [H H']. split_and!; [by repeat constructor|done|]. intros ? y ->%list_elem_of_singleton. apply H'.
Qed.

Lemma increasing_NoDup l : increasing l -> NoDup l.
Proof.
  induction 1 as [|x l _ IH Hx]; constructor; [|done]. intros H. rewrite Forall_forall in Hx.
  specialize (Hx _ H). lia.
Qed.

Lemma increasing_consec L a b : increasing L -> consec L a b -> a < b.
Proof.
  intros H (l1 & l2 & ->). apply increasing_app in H as (_ & H & _). apply increasing_cons in H as [_ H].
  apply H. set_solver.
Qed.

(** Nothing lies between neighbours. *)
Lemma increasing_gap L a b x : increasing L -> consec L a b -> x ∈ L -> x <= a \/ b <= x.
Proof.
  intros H (l1 & l2 & ->) Hx. apply increasing_app in H as (_ & H & H1). apply increasing_cons in H as [H2 H3].
  apply increasing_cons in H2 as [_ H2].
  apply elem_of_app in Hx as [Hx|[->|[->|Hx]%elem_of_cons]%elem_of_cons]; [|lia|lia|].
  - specialize (H1 x a Hx ltac:(set_solver)). lia.
  - specialize (H2 x Hx). lia.
Qed.

(** Every element but the last has a successor. *)
Lemma consec_next l x a : a ∈ l -> exists b, consec (l ++ [x]) a b.
Proof.
  intros (l1 & l2 & ->)%list_elem_of_split. destruct l2 as [|b l2].
  - exists x, l1, []. by rewrite <- app_assoc.
  - exists b, l1, (l2 ++ [x]). by rewrite <- app_assoc.
Qed.
(** Every element but the first has a predecessor. *)
Lemma consec_prev l x a : a ∈ l -> exists b, consec (x :: l) b a.
Proof.
  intros (l1 & l2 & ->)%list_elem_of_split. destruct l1 as [|b l1 _] using rev_ind.
  - exists x, [], l2. done.
  - exists b, (x :: l1), l2. cbn. by rewrite <- app_assoc.
Qed.

(** ** Doubly linked lists

    Along [L], [nx] leads from an element to the next and [pv] back. *)
Definition linked (nx pv : Z -> Z) (L : list Z) : Prop :=
  forall a b, consec L a b -> nx a = b /\ pv b = a.

Lemma linked_ext nx pv nx' pv' L :
  linked nx pv L -> (forall x, x ∈ L -> nx' x = nx x /\ pv' x = pv x) -> linked nx' pv' L.
Proof.
  intros H He a b Hab. destruct (consec_elem _ _ _ Hab) as [Ha Hb].
  rewrite (proj1 (He a Ha)), (proj2 (He b Hb)). by apply H.
Qed.

Lemma NoDup_middle {A} (l1 : list A) x l2 : NoDup (l1 ++ x :: l2) -> x ∉ l1 /\ x ∉ l2 /\ NoDup (l1 ++ l2).
Proof.
  intros H. apply NoDup_app in H as (H1 & H2 & H3). apply NoDup_cons in H3 as [H3 H4].
  split_and!; [intros Hx; apply (H2 _ Hx); set_solver|done|apply NoDup_app; set_solver].
Qed.

Section links.
Context (nx pv nx' pv' : Z -> Z) (l1 l2 : list Z) (x m y : Z).

Lemma linked_remove :
  NoDup (l1 ++ x :: m :: y :: l2) -> linked nx pv (l1 ++ x :: m :: y :: l2) ->
  nx' x = y -> pv' y = x ->
  (forall z, z <> x -> z <> m -> nx' z = nx z) -> (forall z, z <> y -> z <> m -> pv' z = pv z) ->
  linked nx' pv' (l1 ++ x :: y :: l2).
Proof.
  intros Hnd H Hx Hy Hn Hp a b Hab. specialize (H a b). rewrite consec_triple in H.
  apply NoDup_middle in Hnd as (Hx1 & Hx2 & Hnd). apply NoDup_middle in Hnd as (Hm1 & Hm2 & Hnd).
  apply NoDup_middle in Hnd as (Hy1 & Hy2 & _).
  apply consec_pair in Hab as [Hab|[[-> ->]|Hab]]; [|done|].
  - apply consec_left in Hab as Hin. destruct Hin as [Ha Hb]. rewrite Hn, Hp by set_solver. tauto.
  - apply consec_right in Hab as Hin. destruct Hin as [Ha Hb]. rewrite Hn, Hp by set_solver. tauto.
Qed.

Lemma linked_insert :
  NoDup (l1 ++ x :: m :: y :: l2) -> linked nx pv (l1 ++ x :: y :: l2) ->
  nx' x = m -> nx' m = y -> pv' m = x -> pv' y = m ->
  (forall z, z <> x -> z <> m -> nx' z = nx z) -> (forall z, z <> y -> z <> m -> pv' z = pv z) ->
  linked nx' pv' (l1 ++ x :: m :: y :: l2).
Proof.
  intros Hnd H Hx Hm1' Hm2' Hy Hn Hp a b Hab. specialize (H a b). rewrite consec_pair in H.
  apply NoDup_middle in Hnd as (Hx1 & Hx2 & Hnd). apply NoDup_middle in Hnd as (Hm1 & Hm2 & Hnd).
  apply NoDup_middle in Hnd as (Hy1 & Hy2 & _).
  apply consec_triple in Hab as [Hab|[[-> ->]|[[-> ->]|Hab]]]; [|done..|].
  - apply consec_left in Hab as Hin. destruct Hin as [Ha Hb]. rewrite Hn, Hp by set_solver. tauto.
  - apply consec_right in Hab as Hin. destruct Hin as [Ha Hb]. rewrite Hn, Hp by set_solver. tauto.
Qed.

(** The last element, [y], replaced by [m]; or followed by it. *)
Lemma linked_last :
  linked nx pv (l1 ++ [x; y]) ->
  nx' x = m -> pv' m = x ->
  (forall z, z ∈ l1 -> nx' z = nx z) -> (forall z, z ∈ l1 ++ [x] -> pv' z = pv z) ->
  linked nx' pv' (l1 ++ [x; m]).
Proof.
  intros H Hx Hm Hn Hp a b Hab. specialize (H a b). rewrite consec_pair in H.
  apply consec_pair in Hab as [Hab|[[-> ->]|Hab]]; [|done|by apply consec_one in Hab].
  apply consec_left in Hab as Hin. destruct Hin as [Ha Hb]. rewrite Hn, Hp by done. tauto.
Qed.
End links.

Lemma linked_snoc nx pv nx' pv' l x y :
  linked nx pv (l ++ [x]) -> nx' x = y -> pv' y = x ->
  (forall z, z ∈ l -> nx' z = nx z) -> (forall z, z ∈ l ++ [x] -> pv' z = pv z) ->
  linked nx' pv' (l ++ [x; y]).
Proof.
  intros H Hx Hy Hn Hp a b Hab. apply consec_pair in Hab as [Hab|[[-> ->]|Hab]]; [|done|by apply consec_one in Hab].
  apply consec_left in Hab as Hin. destruct Hin as [Ha Hb]. rewrite Hn, Hp by done. by apply H.
Qed.

(** ** Taking out, putting in *)

Lemma consec_remove l1 x m y l2 a b :
  NoDup (l1 ++ x :: m :: y :: l2) ->
  consec (l1 ++ x :: y :: l2) a b <->
  (consec (l1 ++ x :: m :: y :: l2) a b /\ a <> x /\ a <> m) \/ (a = x /\ b = y).
Proof.
  intros Hnd. rewrite (consec_pair l1 x y l2), consec_triple.
  apply NoDup_middle in Hnd as (Hx1 & Hx2 & Hnd). apply NoDup_middle in Hnd as (Hm1 & Hm2 & Hnd).
  split; [|tauto]. intros [H|[H|H]]; [|by right|].
  - left. apply consec_left in H as Hin. destruct Hin as [Ha _]. split_and!; [by left|by intros ->|].
    by intros ->.
  - left. apply consec_right in H as Hin. destruct Hin as [Ha _]. split_and!; [tauto| |].
    + intros ->. apply Hx2. by apply elem_of_cons; right.
    + by intros ->.
Qed.

Lemma consec_insert l1 x m y l2 a b :
  NoDup (l1 ++ x :: m :: y :: l2) ->
  consec (l1 ++ x :: m :: y :: l2) a b <->
  (consec (l1 ++ x :: y :: l2) a b /\ a <> x) \/ (a = x /\ b = m) \/ (a = m /\ b = y).
Proof.
  intros Hnd. rewrite (consec_pair l1 x y l2), consec_triple.
  apply NoDup_middle in Hnd as (Hx1 & Hx2 & Hnd). apply NoDup_middle in Hnd as (Hm1 & Hm2 & Hnd).
  split; [|tauto]. intros [H|[H|[H|H]]]; [|tauto..|].
  - left. apply consec_left in H as Hin. destruct Hin as [Ha _]. split; [by left|by intros ->].
  - left. apply consec_right in H as Hin. destruct Hin as [Ha _]. split; [tauto|]. intros ->. apply Hx2. by apply elem_of_cons; right.
Qed.

(** An element between two ends. *)
Lemma between_remove (s t : Z) (l : list Z) m :
  NoDup l -> m ∈ l ->
  exists (l' l1 : list Z) x y l2, s :: l ++ [t] = l1 ++ x :: m :: y :: l2 /\ s :: l' ++ [t] = l1 ++ x :: y :: l2 /\
    NoDup l' /\ (forall z, z ∈ l' <-> z ∈ l /\ z <> m) /\ x ∈ s :: l' /\ y ∈ l' ++ [t].
Proof.
  intros Hnd (f1 & f2 & ->)%list_elem_of_split. apply NoDup_middle in Hnd as (H1 & H2 & Hnd).
  destruct (exists_last (l := s :: f1)) as (l1 & x & Hx); [done|].
  assert (exists y l2, f2 ++ [t] = y :: l2) as (y & l2 & Hy) by (destruct f2; eauto).
  exists (f1 ++ f2), l1, x, y, l2. split_and!; [| |done| | |].
  - rewrite <- !app_assoc, <- app_comm_cons, Hy, !app_comm_cons, Hx. by rewrite <- !app_assoc.
  - rewrite <- !app_assoc, Hy, !app_comm_cons, Hx. by rewrite <- !app_assoc.
  - clear - H1 H2. set_solver.
  - rewrite app_comm_cons, Hx, !elem_of_app, list_elem_of_singleton. auto.
  - rewrite <- app_assoc, Hy, elem_of_app, elem_of_cons. auto.
Qed.

Lemma between_insert (s t : Z) (l : list Z) x y m :
  consec (s :: l ++ [t]) x y ->
  exists (l' l1 l2 : list Z), s :: l ++ [t] = l1 ++ x :: y :: l2 /\ s :: l' ++ [t] = l1 ++ x :: m :: y :: l2 /\
    (forall z, z ∈ l' <-> z ∈ l \/ z = m).
Proof.
  intros (l1 & l2 & E).
  assert (exists l3, y :: l2 = l3 ++ [t]) as [l3 H3].
  { destruct (exists_last (l := y :: l2)) as (l3 & t' & H3); [done|]. exists l3.
    change (x :: y :: l2) with ([x] ++ y :: l2) in E. rewrite H3, !app_assoc, app_comm_cons in E.
    apply app_inj_tail in E as [_ ->]. done. }
  assert (exists l0, l1 ++ [x] = s :: l0) as [l0 H0].
  { destruct l1 as [|z l1]; injection E as -> _; eauto. }
  exists (l0 ++ m :: l3), l1, l2. split_and!; [done| |].
  - rewrite <- app_assoc, <- app_comm_cons, <- H3, app_comm_cons, <- H0. by rewrite <- app_assoc.
  - change (x :: y :: l2) with ([x] ++ y :: l2) in E. rewrite app_assoc, H0, H3 in E.
    injection E as E. rewrite app_assoc in E. apply app_inj_tail in E as [-> _]. set_solver.
Qed.

Lemma increasing_remove l1 x m y l2 : increasing (l1 ++ x :: m :: y :: l2) -> increasing (l1 ++ x :: y :: l2).
Proof.
  rewrite !increasing_app, !increasing_cons. intros (H1 & (([H2 H3] & _) & H4) & H5).
  split_and!; [done..| |]; intros; [apply H4|apply H5]; set_solver.
Qed.

Lemma increasing_insert l1 x m y l2 :
  increasing (l1 ++ x :: y :: l2) -> x < m < y -> increasing (l1 ++ x :: m :: y :: l2).
Proof.
  rewrite !increasing_app, !increasing_cons. intros (H1 & ((H2 & H3) & H4) & H5) Hm.
  split_and!; [done|done|done| | |].
  - intros z [->|Hz]%elem_of_cons; [lia|]. specialize (H3 z Hz). lia.
  - intros z [->|Hz]%elem_of_cons; [lia|]. by apply H4.
  - intros a b Ha [->|[->|Hb]%elem_of_cons]%elem_of_cons; [apply H5; set_solver| |apply H5; set_solver].
    specialize (H5 a x Ha ltac:(set_solver)). lia.
Qed.

Lemma increasing_snoc l x y : increasing (l ++ [x]) -> x < y -> increasing (l ++ [x; y]).
Proof.
  rewrite !increasing_app, !increasing_cons. intros (H1 & (H2 & H3) & H4) Hxy. split_and!.
  - done.
  - constructor.
  - set_solver.
  - intros z ->%list_elem_of_singleton. done.
  - intros a b Ha [->|Hb%list_elem_of_singleton]%elem_of_cons; [apply H4; set_solver|].
    specialize (H4 a x Ha ltac:(set_solver)). lia.
Qed.
