(* ===== verification/Heap.v ===== *)
(** * The heap

    hal/MemoryAllocation/umm_malloc.c with both of its search strategies: a heap of
    blocks of 8 bytes, chained in both directions through their headers by 15-bit
    indices, the free ones also chained through their bodies.  The heap is the array
    of blocks, so that a program that writes to its memory and the allocator write
    to the same cells. *)

From Stdlib Require Import ZArith Lia.
From stdpp Require Import base gmap numbers list.
From S2P Require Import Prelude.
#[local] Open Scope Z_scope.
#[local] Open Scope stm_scope.

(** ** Data *)

(** [umm_ptr header], and the body as the pointers of the free list; the body of a
    block in use is the same two half-words as data. *)
Record umm_block := mkBlock { b_next : Z; b_prev : Z; b_nfree : Z; b_pfree : Z }.

(** The macros [UMM_NBLOCK], [UMM_PBLOCK], [UMM_NFREE] and [UMM_PFREE]. *)
Inductive umm_field := NBLOCK | PBLOCK | NFREE | PFREE.
#[global] Instance umm_field_eq_dec : EqDecision umm_field.
Proof. solve_decision. Defined.

Definition get_field (f : umm_field) (b : umm_block) : Z :=
  match f with NBLOCK => b_next b | PBLOCK => b_prev b | NFREE => b_nfree b | PFREE => b_pfree b end.
Definition set_block (f : umm_field) (v : Z) (b : umm_block) : umm_block :=
  match f with
  | NBLOCK => mkBlock v (b_prev b) (b_nfree b) (b_pfree b)
  | PBLOCK => mkBlock (b_next b) v (b_nfree b) (b_pfree b)
  | NFREE => mkBlock (b_next b) (b_prev b) v (b_pfree b)
  | PFREE => mkBlock (b_next b) (b_prev b) (b_nfree b) v
  end.

Definition sizeof_umm_block : Z := 8.
Definition UMM_FREELIST_MASK : Z := 0x8000.
Definition UMM_BLOCKNO_MASK : Z := 0x7FFF.

Record UMM_HEAP_INFO := mkInfo {
  totalEntries : Z; usedEntries : Z; freeEntries : Z;
  totalBlocks : Z; usedBlocks : Z; freeBlocks : Z;
}.

(** The configuration: the size of the heap, the strategy and where the linker puts
    [umm_heap].  Block numbers have 15 bits. *)
Class UmmConfig := {
  UMM_MALLOC_CFG__HEAP_SIZE : Z;
  UMM_FIRST_FIT : bool;
  umm_heap_addr : Z;
  umm_heap_size_ok : 16 <= UMM_MALLOC_CFG__HEAP_SIZE < 0x8000 * 8;
  umm_heap_addr_ok : 0 < umm_heap_addr /\ umm_heap_addr + UMM_MALLOC_CFG__HEAP_SIZE < 2 ^ 31;
}.

Section heap.
Context `{U : UmmConfig}.

Definition UMM_NUMBLOCKS : Z := uint16 (UMM_MALLOC_CFG__HEAP_SIZE / sizeof_umm_block).

(** The static variables, and the interrupt mask. *)
Record umm := mkUmm { umm_heap : list umm_block; heapInfo : UMM_HEAP_INFO; primask : bool }.
Definition set_umm_heap (h : list umm_block) (s : umm) : umm := mkUmm h (heapInfo s) (primask s).
Definition set_heapInfo (i : UMM_HEAP_INFO) (s : umm) : umm := mkUmm (umm_heap s) i (primask s).
Definition set_primask (m : bool) (s : umm) : umm := mkUmm (umm_heap s) (heapInfo s) m.

Definition hp (A : Type) : Type := stm umm A.

(** Reading and writing the half-word [f] of block [i]. *)
Definition rd (f : umm_field) (i : Z) : hp Z :=
  h <- tget umm_heap ;; b <- tlift (aget h i) ;; tret (get_field f b).
Definition wr (f : umm_field) (i v : Z) : hp unit :=
  h <- tget umm_heap ;; b <- tlift (aget h i) ;;
  tset (set_umm_heap (aset h i (set_block f (uint16 v) b))).

(** [&UMM_DATA(c)] and [&UMM_BLOCK(c)] *)
Definition UMM_BLOCK_addr (c : Z) : Z := umm_heap_addr + sizeof_umm_block * c.
Definition UMM_DATA_addr (c : Z) : Z := UMM_BLOCK_addr c + 4.

(** [UMM_CRITICAL_ENTRY] and [UMM_CRITICAL_EXIT] *)
Definition UMM_CRITICAL_ENTRY : hp bool := fun s => Some (primask s, set_primask true s).
Definition UMM_CRITICAL_EXIT (CPU_SR : bool) : hp unit := tset (set_primask CPU_SR).

(** ** Blocks *)

Definition umm_blocks (size : Z) : Z :=
  if size <=? 4 then 1
  else
    let size := uint32 (size - (1 + 4)) in
    uint16 (2 + size / sizeof_umm_block).

Definition umm_make_new_block (c blocks freemask : Z) : hp unit :=
  x <- rd NBLOCK c ;; wr NBLOCK (c + blocks) (Z.land x UMM_BLOCKNO_MASK) ;;;
  wr PBLOCK (c + blocks) c ;;;
  x <- rd NBLOCK c ;; wr PBLOCK (Z.land x UMM_BLOCKNO_MASK) (c + blocks) ;;;
  wr NBLOCK c (Z.lor (c + blocks) freemask).

Definition umm_disconnect_from_free_list (c : Z) : hp unit :=
  n <- rd NFREE c ;; p <- rd PFREE c ;; wr NFREE p n ;;;
  p <- rd PFREE c ;; n <- rd NFREE c ;; wr PFREE n p ;;;
  x <- rd NBLOCK c ;; wr NBLOCK c (andnot x UMM_FREELIST_MASK).

Definition umm_assimilate_up (c : Z) : hp unit :=
  d <- rd NBLOCK c ;; x <- rd NBLOCK d ;;
  if truthy (Z.land x UMM_FREELIST_MASK) then
    d <- rd NBLOCK c ;; umm_disconnect_from_free_list d ;;;
    d <- rd NBLOCK c ;; x <- rd NBLOCK d ;; wr PBLOCK (Z.land x UMM_BLOCKNO_MASK) c ;;;
    d <- rd NBLOCK c ;; x <- rd NBLOCK d ;; wr NBLOCK c (Z.land x UMM_BLOCKNO_MASK)
  else tret tt.

Definition umm_assimilate_down (c freemask : Z) : hp Z :=
  x <- rd NBLOCK c ;; p <- rd PBLOCK c ;; wr NBLOCK p (Z.lor x freemask) ;;;
  p <- rd PBLOCK c ;; d <- rd NBLOCK c ;; wr PBLOCK d p ;;;
  rd PBLOCK c.

(** ** [umm_free] *)
Definition umm_free (ptr : Z) : hp unit :=
  if ptr =? 0 then tret tt
  else
    CPU_SR <- UMM_CRITICAL_ENTRY ;;
    let c := uint16 (uint32 (ptr - umm_heap_addr) / sizeof_umm_block) in
    umm_assimilate_up c ;;;
    p <- rd PBLOCK c ;; x <- rd NBLOCK p ;;
    (if truthy (Z.land x UMM_FREELIST_MASK) then
       c <- umm_assimilate_down c UMM_FREELIST_MASK ;; tret tt
     else
       n <- rd NFREE 0 ;; wr PFREE n c ;;;
       n <- rd NFREE 0 ;; wr NFREE c n ;;;
       wr PFREE c 0 ;;;
       wr NFREE 0 c ;;;
       x <- rd NBLOCK c ;; wr NBLOCK c (Z.lor x UMM_FREELIST_MASK)) ;;;
    UMM_CRITICAL_EXIT CPU_SR.

(** ** [umm_malloc] *)

(** The search through the free list: [cf], [blockSize], [bestBlock], [bestSize]. *)
Fixpoint search_free (fuel : nat) (blocks cf blockSize bestBlock bestSize : Z) : hp (Z * Z * Z * Z) :=
  n <- rd NFREE cf ;;
  if n =? 0 then tret (cf, blockSize, bestBlock, bestSize)
  else
    match fuel with
    | O => tlift None
    | S fuel' =>
        x <- rd NBLOCK cf ;;
        let blockSize := uint16 (Z.land x UMM_BLOCKNO_MASK - cf) in
        if UMM_FIRST_FIT && (blockSize >=? blocks) then tret (cf, blockSize, bestBlock, bestSize)
        else
          let better := negb UMM_FIRST_FIT && (blockSize >=? blocks) && (blockSize <? bestSize) in
          n <- rd NFREE cf ;;
          search_free fuel' blocks n blockSize
            (if better then cf else bestBlock) (if better then blockSize else bestSize)
    end.

(** [memcpy(&UMM_BLOCK(dst), &UMM_BLOCK(src), sizeof(umm_block))] *)
Definition copy_block (dst src : Z) : hp unit :=
  h <- tget umm_heap ;; b <- tlift (aget h src) ;; _ <- tlift (aget h dst) ;;
  tset (set_umm_heap (aset h dst b)).

Definition umm_malloc (size : Z) : hp Z :=
  if size =? 0 then tret 0
  else
    CPU_SR <- UMM_CRITICAL_ENTRY ;;
    let blocks := umm_blocks size in
    cf <- rd NFREE 0 ;; bestBlock <- rd NFREE 0 ;;
    r <- search_free (Z.to_nat UMM_NUMBLOCKS) blocks cf 0 bestBlock 0x7FFF ;;
    let '(cf, blockSize, bestBlock, bestSize) := r in
    let '(cf, blockSize) :=
      if negb (0x7FFF =? bestSize) then (bestBlock, bestSize) else (cf, blockSize) in
    x <- rd NBLOCK cf ;;
    if truthy (Z.land x UMM_BLOCKNO_MASK) then
      if blockSize =? blocks then
        umm_disconnect_from_free_list cf ;;;
        UMM_CRITICAL_EXIT CPU_SR ;;; tret (UMM_DATA_addr cf)
      else
        umm_make_new_block cf (uint16 (blockSize - blocks)) UMM_FREELIST_MASK ;;;
        let cf := uint16 (cf + (blockSize - blocks)) in
        UMM_CRITICAL_EXIT CPU_SR ;;; tret (UMM_DATA_addr cf)
    else if UMM_NUMBLOCKS <=? cf + blocks + 1 then
      UMM_CRITICAL_EXIT CPU_SR ;;; tret 0
    else
      cf <- (if 0 =? cf then wr NBLOCK 0 1 ;;; wr NFREE 0 1 ;;; tret 1 else tret cf) ;;
      p <- rd PFREE cf ;; wr NFREE p (cf + blocks) ;;;
      copy_block (cf + blocks) cf ;;;
      wr NBLOCK cf (cf + blocks) ;;;
      wr PBLOCK (cf + blocks) cf ;;;
      UMM_CRITICAL_EXIT CPU_SR ;;; tret (UMM_DATA_addr cf).

(** ** [umm_calloc] *)

(** The half-word and the half of it at an address; the processor is little-endian. *)
Definition half_at (a : Z) : umm_field * Z :=
  let k := (a - umm_heap_addr) / 2 in
  (nth (Z.to_nat (k mod 4)) [NBLOCK; PBLOCK; NFREE; PFREE] NBLOCK, k / 4).
Definition low_byte (a : Z) : bool := (a - umm_heap_addr) mod 2 =? 0.

Definition zero_byte (a : Z) : hp unit :=
  let '(f, i) := half_at a in
  v <- rd f i ;; wr f i (if low_byte a then v / 256 * 256 else v mod 256).

(** [memset(p, 0x00, n)] *)
Fixpoint memset0 (p : Z) (n : nat) : hp unit :=
  match n with
  | O => tret tt
  | S n' => zero_byte p ;;; memset0 (p + 1) n'
  end.

Definition umm_calloc (num item_size : Z) : hp Z :=
  ret <- umm_malloc (uint32 (item_size * num)) ;;
  (if truthy ret then memset0 ret (Z.to_nat (uint32 (item_size * num))) else tret tt) ;;;
  tret ret.

(** ** [umm_info] *)

Definition upd_info (f : UMM_HEAP_INFO -> UMM_HEAP_INFO) : hp unit :=
  tset (fun s => set_heapInfo (f (heapInfo s)) s).

(** What the loop adds for a block of [n] blocks. *)
Definition count_total (n : Z) (i : UMM_HEAP_INFO) : UMM_HEAP_INFO :=
  mkInfo (uint16 (totalEntries i + 1)) (usedEntries i) (freeEntries i)
    (uint16 (totalBlocks i + n)) (usedBlocks i) (freeBlocks i).
Definition count_free (n : Z) (i : UMM_HEAP_INFO) : UMM_HEAP_INFO :=
  mkInfo (totalEntries i) (usedEntries i) (uint16 (freeEntries i + 1))
    (totalBlocks i) (usedBlocks i) (uint16 (freeBlocks i + n)).
Definition count_used (n : Z) (i : UMM_HEAP_INFO) : UMM_HEAP_INFO :=
  mkInfo (totalEntries i) (uint16 (usedEntries i + 1)) (freeEntries i)
    (totalBlocks i) (uint16 (usedBlocks i + n)) (freeBlocks i).
(** The blocks behind the last one. *)
Definition count_rest (n : Z) (i : UMM_HEAP_INFO) : UMM_HEAP_INFO :=
  mkInfo (totalEntries i) (usedEntries i) (freeEntries i)
    (uint16 (totalBlocks i + n)) (usedBlocks i) (uint16 (freeBlocks i + n)).

(** The loop; the flag tells whether the block at [ptr] was met. *)
Fixpoint info_loop (fuel : nat) (ptr blockNo : Z) : hp (bool * Z) :=
  x <- rd NBLOCK blockNo ;;
  if truthy (Z.land x UMM_BLOCKNO_MASK) then
    match fuel with
    | O => tlift None
    | S fuel' =>
        let n := Z.land x UMM_BLOCKNO_MASK - blockNo in
        upd_info (count_total n) ;;;
        found <- (if truthy (Z.land x UMM_FREELIST_MASK) then
                    upd_info (count_free n) ;;; tret (ptr =? UMM_BLOCK_addr blockNo)
                  else upd_info (count_used n) ;;; tret false) ;;
        if found : bool then tret (true, blockNo)
        else info_loop fuel' ptr (Z.land x UMM_BLOCKNO_MASK)
    end
  else tret (false, blockNo).

Definition umm_info (ptr force : Z) : hp Z :=
  CPU_SR <- UMM_CRITICAL_ENTRY ;;
  upd_info (fun _ => mkInfo 0 0 0 0 0 0) ;;;
  x <- rd NBLOCK 0 ;;
  r <- info_loop (Z.to_nat UMM_NUMBLOCKS) ptr (Z.land x UMM_BLOCKNO_MASK) ;;
  let '(found, blockNo) := r in
  if found : bool then UMM_CRITICAL_EXIT CPU_SR ;;; tret ptr
  else
    upd_info (count_rest (UMM_NUMBLOCKS - blockNo)) ;;;
    UMM_CRITICAL_EXIT CPU_SR ;;; tret 0.

Definition OSGetUsedHeapSize : hp Z :=
  _ <- umm_info 0 0 ;; i <- tget heapInfo ;; tret (uint32 (usedBlocks i * sizeof_umm_block)).
Definition OSGetFreeHeapSize : hp Z :=
  _ <- umm_info 0 0 ;; i <- tget heapInfo ;; tret (uint32 (freeBlocks i * sizeof_umm_block)).
End heap.
