(* ===== verification/HeapSpec.v ===== *)
(** * What the heap promises

    The layout of a heap -- the starts of its blocks, the free ones in the order of
    the free list, and the unused rest -- and what the operations of Heap.v do to
    it: [umm_malloc] adds one live block that overlaps no other, [umm_free] removes
    one, both leave the data of the others alone, and free neighbours are always
    joined. *)

From Stdlib Require Import ZArith Lia Sorted.
From stdpp Require Import base gmap numbers list sets.
From S2P Require Import Prelude Chain Heap.
#[local] Open Scope Z_scope.
#[local] Open Scope stm_scope.

(** ** Block numbers with a flag *)

Definition flag (b : bool) : Z := if b then UMM_FREELIST_MASK else 0.

Lemma number_mask d b : 0 <= d < 0x8000 -> Z.land (d + flag b) UMM_BLOCKNO_MASK = d.
Proof.
  intros Hd. change UMM_BLOCKNO_MASK with (Z.ones 15). rewrite Z.land_ones by lia. change (2 ^ 15) with 0x8000.
  destruct b; cbn [flag]; unfold UMM_FREELIST_MASK; [|by rewrite Z.add_0_r, Z.mod_small].
  change 32768 with (1 * 32768) at 1. by rewrite Z_mod_plus_full, Z.mod_small.
Qed.

Lemma number_low d : 0 <= d < 0x8000 -> Z.land d UMM_FREELIST_MASK = 0.
Proof.
  intros Hd. change UMM_FREELIST_MASK with (2 ^ 15). rewrite land_pow2 by lia.
  assert (Z.testbit d 15 = false) as ->; [|done].
  destruct (Z.eq_dec d 0) as [->|]; [done|]. apply Z.bits_above_log2; [lia|]. apply Z.log2_lt_pow2; lia.
Qed.

Lemma number_or d : 0 <= d < 0x8000 -> Z.lor d UMM_FREELIST_MASK = d + UMM_FREELIST_MASK.
Proof.
  intros Hd. pose proof (number_low d Hd) as H. by rewrite Z.add_nocarry_lxor, Z.lxor_lor.
Qed.

Lemma number_flag d b : 0 <= d < 0x8000 -> truthy (Z.land (d + flag b) UMM_FREELIST_MASK) = b.
Proof.
  intros Hd. destruct b; cbn [flag]; [|by rewrite Z.add_0_r, number_low].
  rewrite <- number_or by done.
  assert (Z.land (Z.lor d UMM_FREELIST_MASK) UMM_FREELIST_MASK = UMM_FREELIST_MASK) as ->; [|done].
  apply Z.bits_inj'. intros n _. rewrite Z.land_spec, Z.lor_spec. by destruct (Z.testbit d n), (Z.testbit UMM_FREELIST_MASK n).
Qed.

Lemma number_clear d b : 0 <= d < 0x8000 -> andnot (d + flag b) UMM_FREELIST_MASK = d.
Proof.
  intros Hd. unfold andnot. rewrite <- Z.ldiff_land.
  assert (forall x, 0 <= x < 0x8000 -> Z.ldiff x UMM_FREELIST_MASK = x) as H0.
  { intros x Hx. pose proof (number_low x Hx) as H.
    rewrite <- (Z.lor_0_r (Z.ldiff _ _)), <- H. apply Z.bits_inj'. intros n Hn.
    rewrite Z.lor_spec, Z.ldiff_spec, Z.land_spec. by destruct (Z.testbit x n), (Z.testbit UMM_FREELIST_MASK n). }
  destruct b; cbn [flag]; [|by rewrite Z.add_0_r, H0].
  rewrite <- number_or by done. apply Z.bits_inj'. intros n Hn. rewrite <- (H0 d Hd) at 2.
  rewrite !Z.ldiff_spec, Z.lor_spec. by destruct (Z.testbit d n), (Z.testbit UMM_FREELIST_MASK n).
Qed.

(** ** The cells of the heap *)
Section cells.
Context `{U : UmmConfig}.
Implicit Types (s : umm) (f g : umm_field) (i j : Z).

Definition inside (s : umm) (i : Z) : Prop := 0 <= i < Z.of_nat (length (umm_heap s)).
Definition block_of (s : umm) (i : Z) : umm_block := default (mkBlock 0 0 0 0) (aget (umm_heap s) i).
Definition cell (f : umm_field) (s : umm) (i : Z) : Z := get_field f (block_of s i).
Definition store (f : umm_field) (i v : Z) (s : umm) : umm :=
  set_umm_heap (aset (umm_heap s) i (set_block f (uint16 v) (block_of s i))) s.

Lemma inside_get s i : inside s i -> aget (umm_heap s) i = Some (block_of s i).
Proof. intros H. unfold block_of. destruct (aget_is_Some (umm_heap s) i) as [b ->]; [exact H|done]. Qed.

Lemma rd_bind {B} f i (k : Z -> hp B) s : inside s i -> tbind (rd f i) k s = k (cell f s i) s.
Proof. intros H. unfold rd. by rewrite bind_assoc, bind_get, bind_assoc, (bind_lift _ _ _ _ (inside_get s i H)). Qed.
Lemma wr_bind {B} f i v (k : unit -> hp B) s : inside s i -> tbind (wr f i v) k s = k tt (store f i v s).
Proof. intros H. unfold wr. by rewrite bind_assoc, bind_get, bind_assoc, (bind_lift _ _ _ _ (inside_get s i H)). Qed.
Lemma rd_eq f i s : inside s i -> rd f i s = Some (cell f s i, s).
Proof. intros H. unfold rd. by rewrite bind_get, (bind_lift _ _ _ _ (inside_get s i H)). Qed.
Lemma wr_eq f i v s : inside s i -> wr f i v s = Some (tt, store f i v s).
Proof. intros H. unfold wr. by rewrite bind_get, (bind_lift _ _ _ _ (inside_get s i H)). Qed.

Lemma inside_store f i v s j : inside (store f i v s) j <-> inside s j.
Proof. unfold inside, store. cbn. by rewrite length_aset. Qed.

Lemma cell_store f g i v s j :
  inside s i -> cell f (store g i v s) j = if decide (f = g /\ j = i) then uint16 v else cell f s j.
Proof.
  intros H. unfold cell, block_of, store. cbn [umm_heap set_umm_heap].
  destruct (decide (j = i)) as [->|Hj].
  - rewrite (aget_aset_eq _ _ _ _ (inside_get s i H)), (inside_get s i H). cbn [default].
    case_decide as Hfg; [destruct Hfg as [-> _]; by destruct g|].
    destruct f, g; done || (exfalso; tauto).
  - rewrite aget_aset_ne by done. rewrite decide_False; [done|tauto].
Qed.

Lemma primask_store f i v s : primask (store f i v s) = primask s.
Proof. done. Qed.
End cells.

(** ** Layouts *)

(** The starts of the blocks behind block 0, in order; the free ones, in the order of
    the free list; and the block where the unused rest begins. *)
Record layout := mkLayout { lay_blocks : list Z; lay_free : list Z; lay_top : Z }.
Definition chain (L : layout) : list Z := 0 :: lay_blocks L ++ [lay_top L].
Definition free_chain (L : layout) : list Z := 0 :: lay_free L ++ [lay_top L].

(** A live block from [a] up to [b]. *)
Definition live_at (L : layout) (a b : Z) : Prop :=
  consec (chain L) a b /\ a <> 0 /\ a ∉ lay_free L.

Section wf.
Context `{U : UmmConfig}.
Implicit Types (s : umm) (L : layout).

(** The number in the header of [a], without the flag it should have. *)
Definition number (s : umm) (fs : list Z) (a : Z) : Z := cell NBLOCK s a - flag (bool_decide (a ∈ fs)).

Record heap_wf (s : umm) (L : layout) : Prop := {
  hw_len : Z.of_nat (length (umm_heap s)) = UMM_NUMBLOCKS;
  hw_inc : increasing (chain L);
  hw_first : consec (chain L) 0 1;
  hw_top : lay_top L < UMM_NUMBLOCKS;
  hw_chain : linked (number s (lay_free L)) (cell PBLOCK s) (chain L);
  hw_end : cell NBLOCK s (lay_top L) = 0;
  hw_sub x : x ∈ lay_free L -> x ∈ lay_blocks L;
  hw_nodup : NoDup (lay_free L);
  hw_list : linked (cell NFREE s) (cell PFREE s) (free_chain L);
  hw_last : cell NFREE s (lay_top L) = 0;
  hw_apart a b : consec (chain L) a b -> a ∈ lay_free L -> b ∉ lay_free L;
}.

Lemma numblocks_range : 2 <= UMM_NUMBLOCKS <= 0x7FFF.
Proof.
  unfold UMM_NUMBLOCKS, sizeof_umm_block. pose proof umm_heap_size_ok as H.
  assert (2 <= UMM_MALLOC_CFG__HEAP_SIZE / 8 < 0x8000).
  { split; [apply Z.div_le_lower_bound; lia|apply Z.div_lt_upper_bound; lia]. }
  rewrite uint16_small by lia. lia.
Qed.

Lemma block_next L a : a ∈ lay_blocks L -> exists b, consec (chain L) a b.
Proof. intros Ha. apply (consec_next (0 :: lay_blocks L)). set_solver. Qed.
Lemma block_prev L a : a ∈ lay_blocks L -> exists b, consec (chain L) b a.
Proof. intros Ha. apply consec_prev. set_solver. Qed.
Lemma blocks_chain L a : a ∈ lay_blocks L -> a ∈ chain L.
Proof. unfold chain. set_solver. Qed.
Lemma free_in_chain L a : a ∈ lay_free L -> a ∈ free_chain L.
Proof. unfold free_chain. set_solver. Qed.

Section facts.
Context {s : umm} {L : layout} (W : heap_wf s L).

Lemma hw_next a b : consec (chain L) a b -> cell NBLOCK s a = b + flag (bool_decide (a ∈ lay_free L)).
Proof using W. intros H. destruct (hw_chain _ _ W a b H) as [E _]. unfold number in E. lia. Qed.
Lemma hw_prev a b : consec (chain L) a b -> cell PBLOCK s b = a.
Proof using W. intros H. by apply (hw_chain _ _ W a b H). Qed.
Lemma hw_nfree a b : consec (free_chain L) a b -> cell NFREE s a = b.
Proof using W. intros H. by apply (hw_list _ _ W a b H). Qed.
Lemma hw_pfree a b : consec (free_chain L) a b -> cell PFREE s b = a.
Proof using W. intros H. by apply (hw_list _ _ W a b H). Qed.

Lemma chain_range x : x ∈ chain L -> 0 <= x <= lay_top L.
Proof using W.
  intros Hx. pose proof (hw_inc _ _ W) as H. unfold chain in *.
  apply increasing_cons in H as [H H0]. apply increasing_app in H as (_ & _ & H).
  assert (lay_top L ∈ lay_blocks L ++ [lay_top L]) as Ht by set_solver. specialize (H0 _ Ht) as H1.
  apply elem_of_cons in Hx as [->|Hx]; [lia|]. specialize (H0 _ Hx).
  apply elem_of_app in Hx as [Hx| ->%list_elem_of_singleton]; [|lia].
  specialize (H x (lay_top L) Hx ltac:(set_solver)). lia.
Qed.
Lemma blocks_range x : x ∈ lay_blocks L -> 0 < x < lay_top L.
Proof using W.
  intros Hx. pose proof (hw_inc _ _ W) as H. unfold chain in *.
  apply increasing_cons in H as [H H0]. apply increasing_app in H as (_ & _ & H).
  specialize (H x (lay_top L) Hx ltac:(set_solver)). specialize (H0 x ltac:(set_solver)). lia.
Qed.
Lemma free_range x : x ∈ lay_free L -> 0 < x < lay_top L.
Proof using W. intros Hx. by apply blocks_range, (hw_sub _ _ W). Qed.
Lemma free_chain_range x : x ∈ free_chain L -> 0 <= x <= lay_top L.
Proof using W.
  intros [->|[Hx| ->%list_elem_of_singleton]%elem_of_app]%elem_of_cons.
  - apply chain_range. apply elem_of_cons. by left.
  - pose proof (free_range x Hx). lia.
  - apply chain_range. unfold chain. set_solver.
Qed.
Lemma top_range : 0 < lay_top L < 0x7FFF.
Proof using W.
  pose proof (hw_top _ _ W). pose proof numblocks_range. split; [|lia].
  pose proof (hw_inc _ _ W) as Hi. apply increasing_cons in Hi as [_ Hi]. apply Hi. set_solver.
Qed.

Lemma wf_inside x : 0 <= x < UMM_NUMBLOCKS -> inside s x.
Proof using W. unfold inside. by rewrite (hw_len _ _ W). Qed.
Lemma chain_inside x : x ∈ chain L -> inside s x.
Proof using W. intros Hx%chain_range. pose proof (hw_top _ _ W). apply wf_inside. lia. Qed.
Lemma free_chain_inside x : x ∈ free_chain L -> inside s x.
Proof using W. intros Hx%free_chain_range. pose proof (hw_top _ _ W). apply wf_inside. lia. Qed.

Lemma free_chain_NoDup : NoDup (free_chain L).
Proof using W.
  pose proof top_range. constructor.
  - intros [H0%free_range|H0%list_elem_of_singleton]%elem_of_app; lia.
  - apply NoDup_app. split_and!; [apply W| |apply NoDup_singleton].
    intros x Hx%free_range ->%list_elem_of_singleton. lia.
Qed.
Lemma chain_NoDup : NoDup (chain L).
Proof using W. apply increasing_NoDup, W. Qed.

Lemma consec_chain_range a b : consec (chain L) a b -> 0 <= a < b /\ b <= lay_top L /\ b < 0x7FFF.
Proof using W.
  intros H. pose proof (increasing_consec _ _ _ (hw_inc _ _ W) H). apply consec_elem in H as [Ha Hb].
  apply chain_range in Ha, Hb. pose proof top_range. lia.
Qed.

Lemma live_range a b : live_at L a b -> 0 < a < b /\ b <= lay_top L.
Proof using W. intros (H & Ha & _). pose proof (consec_chain_range a b H). lia. Qed.

(** Nothing of the chain of blocks is inside a live block, nothing of the free list
    in it. *)
Lemma live_gap a b x : live_at L a b -> x ∈ chain L -> x <= a \/ b <= x.
Proof using W. intros (H & _) Hx. by apply (increasing_gap (chain L)); [apply W|..]. Qed.
Lemma live_free_gap a b x : live_at L a b -> x ∈ free_chain L -> x < a \/ b <= x.
Proof using W.
  intros Hl Hx. pose proof (live_range a b Hl) as Hab.
  assert (x ∈ chain L) as Hc.
  { unfold chain. apply elem_of_cons in Hx as [->|[Hx|Hx]%elem_of_app]; [set_solver|apply (hw_sub _ _ W) in Hx; set_solver|set_solver]. }
  destruct (live_gap a b x Hl Hc) as [H|]; [|by right]. destruct (decide (x = a)) as [->|]; [|lia].
  destruct Hl as (_ & Ha0 & Hf). apply elem_of_cons in Hx as [->|[Hx|Hx%list_elem_of_singleton]%elem_of_app]; [done|done|]. lia.
Qed.
End facts.

(** ** The data of a block *)

(** The body of the block and everything up to the next block. *)
Definition data_cell (a b : Z) (f : umm_field) (i : Z) : Prop :=
  a < i < b \/ (i = a /\ (f = NFREE \/ f = PFREE)).
Definition same_data (a b : Z) (s s' : umm) : Prop :=
  forall f i, data_cell a b f i -> cell f s' i = cell f s i.

Lemma same_data_refl a b s : same_data a b s s.
Proof. done. Qed.
Lemma same_data_trans a b s1 s2 s3 : same_data a b s1 s2 -> same_data a b s2 s3 -> same_data a b s1 s3.
Proof. intros H1 H2 f i Hd. by rewrite H2, H1. Qed.

(** Writing outside it, or to its header. *)
Lemma same_data_store a b s g j v :
  inside s j -> a < b -> j < a \/ b <= j \/ (j = a /\ (g = NBLOCK \/ g = PBLOCK)) -> same_data a b s (store g j v s).
Proof.
  intros Hi Hab Hj f i Hd. rewrite cell_store by done. apply decide_False.
  intros [-> ->]. unfold data_cell in Hd. destruct Hj as [|[|[-> [-> | ->]]]], Hd as [|[? [|]]]; try done; lia.
Qed.

(** One more write, to the free list or to a header. *)
Lemma same_data_free s L a b s0 s1 g j v :
  heap_wf s L -> live_at L a b -> inside s1 j -> j ∈ free_chain L ->
  same_data a b s0 s1 -> same_data a b s0 (store g j v s1).
Proof.
  intros W Hl Hi Hj H. apply (same_data_trans _ _ _ _ _ H). pose proof (live_range W a b Hl).
  destruct (live_free_gap W a b j Hl Hj); apply same_data_store; auto; lia.
Qed.
Lemma same_data_header s L a b s0 s1 g j v :
  heap_wf s L -> live_at L a b -> inside s1 j -> j ∈ chain L -> g = NBLOCK \/ g = PBLOCK ->
  same_data a b s0 s1 -> same_data a b s0 (store g j v s1).
Proof.
  intros W Hl Hi Hj Hg H. apply (same_data_trans _ _ _ _ _ H). pose proof (live_range W a b Hl).
  destruct (live_gap W a b j Hl Hj); apply same_data_store; auto; try lia. destruct (decide (j = a)); [auto|left; lia].
Qed.

(** Only the blocks of the heap changed. *)
Definition same_rest (s s' : umm) : Prop := primask s' = primask s /\ heapInfo s' = heapInfo s.
End wf.

Create HintDb heap.

(** Cells after a sequence of writes. *)
Ltac other_cell :=
  let E := fresh in
  intros [E ?]; first [discriminate E | done | lia | (clear E; congruence)].
Ltac cells :=
  rewrite ?cell_store by (rewrite ?inside_store; eauto with heap);
  repeat match goal with
    | |- context [decide (?f = ?g /\ ?i = ?j)] =>
        first
          [ rewrite (decide_False (P := f = g /\ i = j)) by other_cell
          | rewrite (decide_True (P := f = g /\ i = j)) by (split; done || lia)
          | destruct (decide (i = j));
            [rewrite (decide_True (P := f = g /\ i = j)) by (split; done)
            |rewrite (decide_False (P := f = g /\ i = j)) by tauto] ]
    end;
  rewrite ?uint16_small by (unfold UMM_FREELIST_MASK in *; lia).

Section operations.
Context `{U : UmmConfig}.
Implicit Types (s : umm) (L : layout).
#[local] Hint Resolve chain_inside free_chain_inside wf_inside : heap.

(** ** Leaving the free list *)

Lemma disconnect_eq s c d a b :
  inside s c -> inside s a -> inside s b -> a <> c ->
  cell PFREE s c = a -> cell NFREE s c = b -> 0 <= b < 0x8000 -> 0 <= d < 0x8000 -> forall fl,
  cell NBLOCK s c = d + flag fl ->
  umm_disconnect_from_free_list c s = Some (tt, store NBLOCK c d (store PFREE b a (store NFREE a b s))).
Proof.
  intros Hc Ha Hb Hne Hp Hn Hbr Hd fl Hx. unfold umm_disconnect_from_free_list.
  rewrite rd_bind, rd_bind, Hp, Hn, wr_bind by done. set (s1 := store NFREE a b s).
  assert (forall i, inside s i -> inside s1 i) as Hi1 by (intros; by apply inside_store).
  rewrite rd_bind, rd_bind by auto.
  assert (cell PFREE s1 c = a) as -> by (subst s1; by cells).
  assert (cell NFREE s1 c = b) as -> by (subst s1; by cells).
  rewrite wr_bind by auto. set (s2 := store PFREE b a s1).
  assert (inside s2 c) as Hi2 by (by apply inside_store, Hi1).
  rewrite rd_bind, wr_eq by done. assert (cell NBLOCK s2 c = d + flag fl) as -> by (subst s2 s1; by cells).
  by rewrite number_clear.
Qed.

(** The layout with [f] as its free list. *)
Definition with_free (f : list Z) (L : layout) : layout := mkLayout (lay_blocks L) f (lay_top L).

Lemma disconnect_wf s L c :
  heap_wf s L -> c ∈ lay_free L ->
  exists f s', umm_disconnect_from_free_list c s = Some (tt, s') /\ heap_wf s' (with_free f L) /\
    same_rest s s' /\ (forall x, x ∈ f <-> x ∈ lay_free L /\ x <> c) /\
    (forall a b, live_at L a b -> same_data a b s s').
Proof.
  intros W Hc. destruct (between_remove 0 (lay_top L) (lay_free L) c (hw_nodup _ _ W) Hc)
    as (f & l1 & p & n & l2 & HF & HF' & Hnf & Hin & Hpf & _).
  change (0 :: lay_free L ++ [lay_top L]) with (free_chain L) in HF.
  pose proof (free_chain_NoDup W) as Hnd. pose proof (hw_list _ _ W) as Hlist. rewrite HF in Hnd, Hlist.
  pose proof (hw_sub _ _ W c Hc) as Hcb. destruct (block_next L c Hcb) as [d Hcd].
  pose proof (consec_chain_range W c d Hcd) as Hd. pose proof (top_range W) as Ht.
  assert (n ∈ free_chain L) as Hn by (rewrite HF; set_solver).
  assert (p ∈ free_chain L) as Hp by (rewrite HF; set_solver).
  assert (p < lay_top L) as Hpt.
  { apply elem_of_cons in Hpf as [->|[Hpf _]%Hin]; [lia|]. pose proof (free_range W p Hpf). lia. }
  assert (p <> c /\ n <> c) as [Hpne Hnne].
  { apply NoDup_middle in Hnd as (_ & H1 & Hnd). apply NoDup_middle in Hnd as (_ & H2 & _). set_solver. }
  pose proof (free_chain_range W _ Hn) as Hnr. pose proof (free_chain_range W _ Hp) as Hpr.
  assert (inside s p /\ inside s n /\ inside s c) as (Hip & Hin' & Hic).
  { split_and!; [by eapply free_chain_inside..|by eapply chain_inside, blocks_chain]. }
  exists f. eexists. split.
  { apply (disconnect_eq s c d p n) with (fl := true); try done; try lia.
    - apply Hlist. apply consec_triple. tauto.
    - apply Hlist. apply consec_triple. tauto.
    - rewrite (hw_next W c d) by done. by rewrite bool_decide_true. }
  split; [split; cbn [with_free lay_blocks lay_free lay_top]; try apply W|split; [done|split; [done|]]].
  - unfold store. cbn. rewrite !length_aset. apply W.
  - apply (linked_ext _ _ _ _ _ (hw_chain _ _ W)). intros x Hx. unfold number. split; [|by cells].
    cells; [subst x; rewrite (hw_next W c d Hcd), bool_decide_false by (rewrite Hin; tauto); cbn; lia|].
    do 2 f_equal. apply bool_decide_ext. rewrite Hin. tauto.
  - cells. apply W.
  - intros x Hx. apply W. by apply Hin.
  - done.
  - unfold free_chain. cbn [with_free lay_free lay_top]. rewrite HF'.
    apply (linked_remove _ _ _ _ _ _ p c n Hnd Hlist); intros; by cells.
  - cells. exact (hw_last _ _ W).
  - intros a b Hab Ha. rewrite Hin in Ha |- *. intros [Hb _]. by destruct (hw_apart _ _ W a b Hab (proj1 Ha)).
  - intros a b Hl. apply (same_data_header s L); rewrite ?inside_store; eauto using blocks_chain.
    apply (same_data_free s L); rewrite ?inside_store; eauto.
    apply (same_data_free s L); eauto. apply same_data_refl.
Qed.
(** ** Joining two blocks *)

Lemma chain_blocks_NoDup s L : heap_wf s L -> NoDup (lay_blocks L).
Proof. intros W. pose proof (chain_NoDup W) as Hn. apply NoDup_cons in Hn as [_ Hn]. by apply NoDup_app in Hn as [? _]. Qed.

(** The block [m], which is not free, becomes part of the block [x] before it: the
    headers of [x] and of the next block [y] now lead to each other. *)
Lemma drop_block s s' L x m y :
  heap_wf s L -> consec (chain L) x m -> consec (chain L) m y -> m ∉ lay_free L ->
  (x ∈ lay_free L -> y ∉ lay_free L) -> x <> 0 ->
  length (umm_heap s') = length (umm_heap s) ->
  (forall f i, cell f s' i =
     if decide (f = NBLOCK /\ i = x) then y + flag (bool_decide (x ∈ lay_free L))
     else if decide (f = PBLOCK /\ i = y) then x else cell f s i) ->
  exists bs, let L' := mkLayout bs (lay_free L) (lay_top L) in
    heap_wf s' L' /\ forall a b,
      consec (chain L') a b <-> (consec (chain L) a b /\ a <> x /\ a <> m) \/ (a = x /\ b = y).
Proof.
  intros W Hxm Hmy Hm Hfree Hx0 Hlen Hcell.
  assert (m ∈ lay_blocks L) as Hmb.
  { pose proof (consec_chain_range W _ _ Hxm). pose proof (consec_chain_range W _ _ Hmy).
    destruct (consec_elem _ _ _ Hxm) as [_ [->|[?|?%list_elem_of_singleton]%elem_of_app]%elem_of_cons]; [lia|done|lia]. }
  destruct (between_remove 0 (lay_top L) (lay_blocks L) m (chain_blocks_NoDup s L W) Hmb)
    as (bs & l1 & x' & y' & l2 & HC & HC' & Hnd & Hin & _).
  pose proof (chain_NoDup W) as Hcn. pose proof (hw_chain _ _ W) as Hlinks. pose proof (hw_inc _ _ W) as Hinc.
  change (0 :: lay_blocks L ++ [lay_top L]) with (chain L) in HC.
  assert (x' = x) as ->.
  { apply (consec_inj _ _ _ _ Hcn) with (2 := Hxm). rewrite HC. apply consec_triple. tauto. }
  assert (y' = y) as ->.
  { apply (consec_fun _ _ _ _ Hcn) with (2 := Hmy). rewrite HC. apply consec_triple. tauto. }
  exists bs. change (0 :: bs ++ [lay_top L]) with (chain (mkLayout bs (lay_free L) (lay_top L))) in HC'.
  intros L'.
  assert (forall a b, consec (chain L') a b <-> (consec (chain L) a b /\ a <> x /\ a <> m) \/ (a = x /\ b = y)) as Hcons.
  { intros a b. unfold L'. rewrite HC', HC. apply consec_remove. by rewrite <- HC. }
  split; [|exact Hcons].
  pose proof (consec_chain_range W _ _ Hxm) as Hr1. pose proof (consec_chain_range W _ _ Hmy) as Hr2.
  split; unfold L'; cbn [lay_blocks lay_free lay_top].
  - rewrite Hlen. apply W.
  - fold L'. unfold L'. rewrite HC'. rewrite HC in Hinc. by apply increasing_remove in Hinc.
  - apply Hcons. left. split_and!; [apply W|lia|lia].
  - apply W.
  - fold L'. unfold L'. rewrite HC'. rewrite HC in Hcn, Hlinks.
    apply (linked_remove _ _ _ _ _ _ x m y Hcn Hlinks); unfold number; intros; rewrite ?Hcell; cells; done || lia.
  - rewrite Hcell. cells. apply W.
  - intros z Hz. apply Hin. split; [by apply W|]. by intros ->.
  - apply W.
  - apply (linked_ext _ _ _ _ _ (hw_list _ _ W)). intros z Hz. rewrite !Hcell. done.
  - rewrite Hcell. exact (hw_last _ _ W).
  - intros a b [(Hab & _)|[-> ->]]%Hcons; [by apply (hw_apart _ _ W)|done].
Qed.

(** ** Joining the free list *)

Lemma push_free s L c n l2 :
  heap_wf s L -> c ∈ lay_blocks L -> c ∉ lay_free L -> lay_free L ++ [lay_top L] = n :: l2 ->
  (forall p, consec (chain L) p c -> p ∉ lay_free L) -> (forall d, consec (chain L) c d -> d ∉ lay_free L) ->
  let s1 := store NFREE 0 c (store PFREE c 0 (store NFREE c n (store PFREE n c s))) in
  let s' := store NBLOCK c (Z.lor (cell NBLOCK s1 c) UMM_FREELIST_MASK) s1 in
  heap_wf s' (with_free (c :: lay_free L) L).
Proof.
  intros W Hc Hcf Hn Hprev Hnext s1 s'. destruct (block_next L c Hc) as [d Hcd].
  pose proof (consec_chain_range W c d Hcd) as Hd. pose proof (top_range W) as Ht. pose proof (blocks_range W c Hc) as Hcr.
  assert (n ∈ lay_free L ++ [lay_top L]) as Hnin by (rewrite Hn; set_solver).
  pose proof (free_chain_range W n) as Hnr. specialize (Hnr ltac:(unfold free_chain; set_solver)).
  assert (inside s n /\ inside s c /\ inside s 0) as (Hin & Hic & Hi0).
  { pose proof (hw_top _ _ W). split_and!; eapply (wf_inside W); lia. }
  assert (n <> c /\ n <> 0) as [Hnc Hn0].
  { apply elem_of_app in Hnin as [Hnf|Hnf%list_elem_of_singleton]; [|lia].
    pose proof (free_range W n Hnf). split; [by intros ->|lia]. }
  assert (cell NBLOCK s1 c = d) as Hx.
  { unfold s1. cells. rewrite (hw_next W c d Hcd), bool_decide_false by done. cbn. lia. }
  unfold s'. rewrite Hx, number_or by lia. split; cbn [with_free lay_blocks lay_free lay_top]; try apply W.
  - unfold store. cbn. rewrite !length_aset. apply W.
  - apply (linked_ext _ _ _ _ _ (hw_chain _ _ W)). intros z Hz. unfold number, s1. split; [|by cells].
    cells.
    + subst z. rewrite (bool_decide_true (c ∈ c :: lay_free L)) by set_solver.
      rewrite (hw_next W c d Hcd), !(bool_decide_false (c ∈ lay_free L)) by done. cbn. lia.
    + do 2 f_equal. apply bool_decide_ext. set_solver.
  - unfold s1. cells. apply W.
  - intros z [->|Hz]%elem_of_cons; [done|by apply W].
  - apply NoDup_cons. split; [done|apply W].
  - pose proof (free_chain_NoDup W) as Hnd. pose proof (hw_list _ _ W) as Hlist. unfold free_chain in *.
    cbn [with_free lay_free lay_top app]. rewrite Hn in Hnd, Hlist |- *.
    apply (linked_insert (cell NFREE s) (cell PFREE s) _ _ [] l2 0 c n); unfold s1; intros; try by cells.
    cbn [app]. apply NoDup_cons in Hnd as [H0 Hnd]. rewrite <- Hn in H0, Hnd |- *.
    repeat apply NoDup_cons_2; [| |done]; [rewrite elem_of_cons; intros [|]; [lia|done]|].
    intros [|H%list_elem_of_singleton]%elem_of_app; [done|lia].
  - unfold s1. cells. exact (hw_last _ _ W).
  - intros a b Hab. rewrite !elem_of_cons. intros [->|Ha] [->|Hb].
    + apply (increasing_consec (chain L)) in Hab; [lia|apply W].
    + by apply (Hnext b).
    + by apply (Hprev a).
    + by apply (hw_apart _ _ W a b).
Qed.

(** ** Freeing *)

Lemma heap_wf_ext s s' L : umm_heap s' = umm_heap s -> heap_wf s L -> heap_wf s' L.
Proof.
  intros E W. assert (forall f i, cell f s' i = cell f s i) as Hc by (intros; unfold cell, block_of; by rewrite E).
  destruct W. split; rewrite ?Hc; rewrite ?E; try done.
  - apply (linked_ext _ _ _ _ _ hw_chain0). intros. unfold number. by rewrite !Hc.
  - apply (linked_ext _ _ _ _ _ hw_list0). intros. by rewrite !Hc.
Qed.

Lemma same_data_ext a b s s1 s' : umm_heap s' = umm_heap s1 -> same_data a b s s1 -> same_data a b s s'.
Proof. intros E H f i Hd. rewrite <- (H f i Hd). unfold cell, block_of. by rewrite E. Qed.

Lemma same_rest_trans s1 s2 s3 : same_rest s1 s2 -> same_rest s2 s3 -> same_rest s1 s3.
Proof. intros [] []. split; congruence. Qed.

(** The header of the block after [c], which may be the unused rest. *)
Lemma next_header s L c d :
  heap_wf s L -> consec (chain L) c d ->
  exists e, 0 <= e < 0x8000 /\ cell NBLOCK s d = e + flag (bool_decide (d ∈ lay_free L)) /\
    (d ∈ lay_free L -> consec (chain L) d e).
Proof.
  intros W Hcd. pose proof (consec_chain_range W c d Hcd) as Hd.
  destruct (consec_elem _ _ _ Hcd) as [_ [->|[Hb|Ht%list_elem_of_singleton]%elem_of_app]%elem_of_cons]; [lia| |].
  - destruct (block_next L d Hb) as [e He]. pose proof (consec_chain_range W d e He). exists e.
    rewrite (hw_next W d e He). split_and!; [lia|lia|done|done].
  - exists 0. subst d. rewrite (hw_end _ _ W), bool_decide_false; [split_and!; [lia|lia|done|]|].
    all: intros Hf; pose proof (free_range W _ Hf); lia.
Qed.

Lemma assimilate_up_wf s L c d :
  heap_wf s L -> live_at L c d ->
  exists s' L' d', umm_assimilate_up c s = Some (tt, s') /\ heap_wf s' L' /\ same_rest s s' /\
    lay_top L' = lay_top L /\ live_at L' c d' /\ d' ∉ lay_free L' /\
    (forall a b, a <> c -> live_at L' a b <-> live_at L a b) /\
    (forall a b, live_at L a b -> a <> c -> same_data a b s s').
Proof.
  intros W Hl. pose proof Hl as (Hcd & Hc0 & Hcf). pose proof (consec_chain_range W c d Hcd) as Hd.
  destruct (consec_elem _ _ _ Hcd) as [Hcin Hdin].
  pose proof (chain_inside W _ Hcin) as Hic. pose proof (chain_inside W _ Hdin) as Hid.
  destruct (next_header s L c d W Hcd) as (e & He & Hx & Hde).
  assert (forall s L, heap_wf s L -> consec (chain L) c d -> c ∉ lay_free L -> cell NBLOCK s c = d) as Hnc.
  { intros s' L' W' H1 H2. rewrite (hw_next W' c d H1), bool_decide_false by done. cbn. lia. }
  unfold umm_assimilate_up. rewrite rd_bind, (Hnc s L), rd_bind, Hx, number_flag by done.
  case_bool_decide as Hdf; [|exists s, L, d; split_and!; try done].
  specialize (Hde Hdf). destruct (disconnect_wf s L d W Hdf) as (f & s1 & Hrun & W1 & Hs1 & Hf & Hdata).
  assert (c ∉ f /\ d ∉ f) as [Hcf1 Hdf1] by (rewrite !Hf; tauto).
  rewrite rd_bind, (Hnc s L), (bind_Some _ _ _ _ _ Hrun) by done.
  change (consec (chain (with_free f L)) c d) in Hcd. change (consec (chain (with_free f L)) d e) in Hde.
  pose proof (consec_chain_range W1 d e Hde) as Her. destruct (consec_elem _ _ _ Hde) as [_ Hein].
  pose proof (chain_inside W1 _ Hcin) as Hic1. pose proof (chain_inside W1 _ Hdin) as Hid1.
  pose proof (chain_inside W1 _ Hein) as Hie1.
  assert (cell NBLOCK s1 c = d) as E1 by (by apply (Hnc s1 (with_free f L))).
  assert (cell NBLOCK s1 d = e) as E2 by (rewrite (hw_next W1 d e Hde), bool_decide_false by done; cbn; lia).
  pose proof (number_mask e false ltac:(lia)) as Hm. cbn [flag] in Hm. rewrite Z.add_0_r in Hm.
  rewrite rd_bind, E1, rd_bind, E2, Hm, wr_bind by done. set (s2 := store PBLOCK e c s1).
  assert (inside s2 c /\ inside s2 d) as [Hic2 Hid2] by (split; by apply inside_store).
  assert (cell NBLOCK s2 c = d /\ cell NBLOCK s2 d = e) as [E3 E4] by (unfold s2; by cells).
  rewrite rd_bind, E3, rd_bind, E4, Hm, wr_eq by done.
  destruct (drop_block s1 (store NBLOCK c e s2) (with_free f L) c d e W1 Hcd Hde Hdf1) as (bs & W3 & Hcons).
  { done. } { done. }
  { unfold store. cbn. by rewrite !length_aset. }
  { intros g i. cbn [with_free lay_free]. rewrite bool_decide_false by done. unfold s2.
    rewrite !cell_store, !uint16_small by (lia || by rewrite ?inside_store). cbn. by rewrite Z.add_0_r. }
  exists (store NBLOCK c e s2), (mkLayout bs f (lay_top L)), e. split_and!; try done.
  - split_and!; [apply Hcons; by right|done|done].
  - cbn. rewrite Hf. intros [H _]. by apply (hw_apart _ _ W d e).
  - intros a b Ha. unfold live_at. rewrite Hcons. cbn [lay_free with_free]. rewrite Hf.
    change (chain (with_free f L)) with (chain L).
    split.
    + intros ([(H1 & _ & H2)|[? ?]] & H3 & H4); [|done]. split_and!; [done|done|tauto].
    + intros (H1 & H2 & H3). split_and!; [left|done|tauto]. split_and!; [done..|]. by intros ->.
  - intros a b Hla Hac. apply (same_data_header s L); [done|done|by apply inside_store|done|by left|].
    apply (same_data_header s L); [done|done|done|done|by right|]. by apply Hdata.
Qed.

(** A block that is not free and followed by one that is not free: joined to a free
    block before it, or added to the free list. *)
Definition freed (s : umm) (L : layout) (c : Z) (s' : umm) (L' : layout) : Prop :=
  heap_wf s' L' /\ same_rest s s' /\ lay_top L' = lay_top L /\
  (forall a b, live_at L' a b <-> live_at L a b /\ a <> c) /\
  (forall a b, live_at L a b -> a <> c -> same_data a b s s').

Lemma assimilate_down_wf s L c d p :
  heap_wf s L -> live_at L c d -> d ∉ lay_free L -> consec (chain L) p c -> p ∈ lay_free L ->
  exists s' L', umm_assimilate_down c UMM_FREELIST_MASK s = Some (p, s') /\ freed s L c s' L'.
Proof.
  intros W (Hcd & Hc0 & Hcf) Hdf Hpc Hpf. pose proof (free_range W p Hpf) as Hp.
  pose proof (consec_chain_range W c d Hcd) as Hd. pose proof (consec_chain_range W p c Hpc) as Hpr.
  destruct (consec_elem _ _ _ Hcd) as [Hcin Hdin]. destruct (consec_elem _ _ _ Hpc) as [Hpin _].
  pose proof (chain_inside W _ Hcin) as Hic. pose proof (chain_inside W _ Hdin) as Hid.
  pose proof (chain_inside W _ Hpin) as Hip.
  unfold umm_assimilate_down.
  rewrite rd_bind, rd_bind, (hw_prev W p c Hpc), (hw_next W c d Hcd), bool_decide_false, wr_bind by done.
  cbn [flag]. rewrite Z.add_0_r, number_or by lia. set (s1 := store NBLOCK p _ s).
  assert (inside s1 c /\ inside s1 d) as [Hic1 Hid1] by (split; by apply inside_store).
  assert (cell PBLOCK s1 c = p /\ cell NBLOCK s1 c = d) as [E1 E2].
  { unfold s1. split; cells; [by apply (hw_prev W)|]. rewrite (hw_next W c d Hcd), bool_decide_false by done. cbn. lia. }
  rewrite rd_bind, E1, rd_bind, E2, wr_bind, rd_eq by (rewrite ?inside_store; done).
  destruct (drop_block s (store PBLOCK d p s1) L p c d W Hpc Hcd Hcf) as (bs & W' & Hcons); [done|lia|..].
  { unfold store. cbn. by rewrite !length_aset. }
  { intros g i. rewrite bool_decide_true by done. unfold s1. cbn [flag].
    rewrite !cell_store, !uint16_small by first [by rewrite ?inside_store|unfold UMM_FREELIST_MASK; lia].
    destruct (decide (g = PBLOCK /\ i = d)) as [[-> ->]|]; [|done]. by rewrite decide_False by (intros [[=] _]). }
  exists (store PBLOCK d p s1), (mkLayout bs (lay_free L) (lay_top L)). split.
  { unfold s1. do 2 f_equal. cells. by apply (hw_prev W). }
  split_and!; try done.
  - intros a b. unfold live_at. rewrite Hcons. cbn [lay_free]. split.
    + intros ([(H1 & _ & H2)|[-> _]] & H3 & H4); done.
    + intros ((H1 & H2 & H3) & H4). split_and!; [left|done|done]. split_and!; [done| |done]. by intros ->.
  - intros a b Hla Hac. apply (same_data_header s L); [done|done|done|done|by right|].
    apply (same_data_header s L); [done|done|done|done|by left|]. apply same_data_refl.
Qed.

(** The number of the block of a pointer. *)
Lemma data_block c :
  0 <= c < UMM_NUMBLOCKS -> uint16 (uint32 (UMM_DATA_addr c - umm_heap_addr) / sizeof_umm_block) = c.
Proof.
  intros Hc. pose proof numblocks_range as Hn. unfold UMM_DATA_addr, UMM_BLOCK_addr, sizeof_umm_block.
  replace (umm_heap_addr + 8 * c + 4 - umm_heap_addr) with (c * 8 + 4) by lia.
  rewrite uint32_small by lia. rewrite Z.div_add_l by lia. change (4 / 8) with 0.
  rewrite Z.add_0_r. apply uint16_small. lia.
Qed.

Lemma data_not_null c : 0 <= c -> UMM_DATA_addr c <> 0.
Proof. intros Hc. pose proof (proj1 umm_heap_addr_ok). unfold UMM_DATA_addr, UMM_BLOCK_addr, sizeof_umm_block. lia. Qed.

Lemma live_block s L c d : heap_wf s L -> live_at L c d -> c ∈ lay_blocks L.
Proof.
  intros W (Hcd & Hc0 & _). pose proof (consec_chain_range W c d Hcd).
  destruct (consec_left (0 :: lay_blocks L) _ _ _ Hcd) as [[->|]%elem_of_cons _]; done.
Qed.

(** From the second test of [umm_free] on. *)
Lemma free_second s L c d :
  heap_wf s L -> live_at L c d -> d ∉ lay_free L ->
  exists s' L', freed s L c s' L' /\ forall (k : unit -> hp unit),
    (p <- rd PBLOCK c ;; x <- rd NBLOCK p ;;
     (if truthy (Z.land x UMM_FREELIST_MASK) then
        c <- umm_assimilate_down c UMM_FREELIST_MASK ;; tret tt
      else
        n <- rd NFREE 0 ;; wr PFREE n c ;;;
        n <- rd NFREE 0 ;; wr NFREE c n ;;;
        wr PFREE c 0 ;;;
        wr NFREE 0 c ;;;
        x <- rd NBLOCK c ;; wr NBLOCK c (Z.lor x UMM_FREELIST_MASK)) ;;;
     k tt) s = k tt s'.
Proof.
  intros W Hl Hdf. pose proof Hl as (Hcd & Hc0 & Hcf). pose proof (live_block s L c d W Hl) as Hcb.
  destruct (block_prev L c Hcb) as [p Hpc]. pose proof (consec_chain_range W p c Hpc) as Hpr.
  destruct (consec_elem _ _ _ Hpc) as [Hpin Hcin].
  pose proof (chain_inside W _ Hcin) as Hic. pose proof (chain_inside W _ Hpin) as Hip.
  destruct (decide (p ∈ lay_free L)) as [Hpf|Hpf].
  - destruct (assimilate_down_wf s L c d p W Hl Hdf Hpc Hpf) as (s' & L' & Hrun & Hfr).
    exists s', L'. split; [done|]. intros k.
    rewrite rd_bind, (hw_prev W p c Hpc), rd_bind, (hw_next W p c Hpc), bool_decide_true, number_flag by (done || lia).
    by rewrite bind_assoc, (bind_Some _ _ _ _ _ Hrun).
  - destruct (lay_free L ++ [lay_top L]) as [|n l2] eqn:Hn; [by destruct (lay_free L)|].
    pose proof (push_free s L c n l2 W Hcb Hcf Hn) as W'. cbv zeta in W'.
    assert (consec (free_chain L) 0 n) as H0n by (unfold free_chain; rewrite Hn; apply consec_cons; by left).
    destruct (consec_elem _ _ _ H0n) as [H0in Hnin]. pose proof (free_chain_range W _ Hnin) as Hnr. pose proof (top_range W) as Ht.
    pose proof (free_chain_inside W _ H0in) as Hi0. pose proof (free_chain_inside W _ Hnin) as Hin.
    set (s4 := store NFREE 0 c (store PFREE c 0 (store NFREE c n (store PFREE n c s)))) in *.
    exists (store NBLOCK c (Z.lor (cell NBLOCK s4 c) UMM_FREELIST_MASK) s4), (with_free (c :: lay_free L) L). split.
    { split_and!; [|done|done| |].
      - apply W'; [intros q Hq; by rewrite (consec_inj _ _ _ _ (chain_NoDup W) Hq Hpc)|].
        intros q Hq. by rewrite (consec_fun _ _ _ _ (chain_NoDup W) Hq Hcd).
      - intros a b. unfold live_at. cbn [with_free lay_free]. change (chain (with_free _ L)) with (chain L). set_solver.
      - intros a b Hla Hac. pose proof (live_range W a b Hla).
        assert (c < a \/ b <= c) as Hca by (destruct (live_gap W a b c Hla Hcin); lia).
        assert (forall g v s1, inside s1 c -> same_data a b s s1 -> same_data a b s (store g c v s1)) as Hc.
        { intros g v s1 Hi1 H1. eapply same_data_trans; [exact H1|]. apply same_data_store; [done|lia|lia]. }
        unfold s4 at 2. apply Hc; [by rewrite ?inside_store|]. apply (same_data_free s L); rewrite ?inside_store; try done.
        apply Hc; [by rewrite ?inside_store|]. apply Hc; [by rewrite ?inside_store|].
        apply (same_data_free s L); try done. }
    intros k. rewrite rd_bind, (hw_prev W p c Hpc), rd_bind, (hw_next W p c Hpc), bool_decide_false, number_flag by (done || lia).
    rewrite bind_assoc, rd_bind, (hw_nfree W 0 n H0n), bind_assoc, wr_bind by done. set (s1 := store PFREE n c s).
    assert (inside s1 0 /\ inside s1 c) as [Hi1 Hi1'] by (split; by apply inside_store).
    assert (cell NFREE s1 0 = n) as E1 by (unfold s1; cells; by apply (hw_nfree W)).
    rewrite bind_assoc, rd_bind, E1, bind_assoc, wr_bind, bind_assoc, wr_bind, bind_assoc, wr_bind by (by rewrite ?inside_store).
    change (store NFREE 0 c _) with s4. assert (inside s4 c) as Hi4 by (by unfold s4; rewrite !inside_store).
    by rewrite bind_assoc, rd_bind, wr_bind by done.
Qed.

(** ** The live blocks *)

(** The elements of a list with the distance to the next one. *)
Fixpoint distances (l : list Z) : list (Z * Z) :=
  match l with
  | a :: ((b :: _) as l') => (a, b - a) :: distances l'
  | _ => []
  end.

(** The live blocks of a layout with their sizes in blocks of 8 bytes, by their number. *)
Definition live (L : layout) : gmap Z Z :=
  list_to_map (filter (fun p => p.1 ∉ lay_free L) (distances (lay_blocks L ++ [lay_top L]))).

Lemma elem_of_distances l a n : (a, n) ∈ distances l <-> consec l a (a + n).
Proof.
  induction l as [|x [|y l] IH]; cbn [distances].
  - split; [set_solver|]. intros H. by apply consec_nil in H.
  - split; [set_solver|]. intros H. by apply consec_one in H.
  - rewrite elem_of_cons, IH, consec_cons. split; intros [H|H]; auto; left.
    + injection H as -> ->. split; [done|lia].
    + destruct H as [-> H]. f_equal. lia.
Qed.

Lemma live_at_tail s L a b :
  heap_wf s L -> live_at L a b <-> consec (lay_blocks L ++ [lay_top L]) a b /\ a ∉ lay_free L.
Proof.
  intros W. unfold live_at, chain. destruct (lay_blocks L ++ [lay_top L]) as [|y l] eqn:E; [by destruct (lay_blocks L)|].
  rewrite consec_cons. split.
  - intros ([[? _]|H] & Ha & Hf); done.
  - intros (H & Hf). split_and!; [by right| |done]. intros ->. apply consec_elem in H as [H _].
    pose proof (hw_inc _ _ W) as Hi. unfold chain in Hi. rewrite E in Hi. apply increasing_cons in Hi as [_ Hi].
    specialize (Hi 0 H). lia.
Qed.

Lemma live_lookup s L a n : heap_wf s L -> live L !! a = Some n <-> live_at L a (a + n).
Proof.
  intros W. rewrite (live_at_tail s L a (a + n) W). unfold live.
  assert (forall m, (a, m) ∈ filter (fun p => p.1 ∉ lay_free L) (distances (lay_blocks L ++ [lay_top L])) <->
    consec (lay_blocks L ++ [lay_top L]) a (a + m) /\ a ∉ lay_free L) as Hin.
  { intros m. rewrite list_elem_of_filter, elem_of_distances. cbn. tauto. }
  rewrite <- (Hin n). split; [apply elem_of_list_to_map_2|]. intros H. apply elem_of_list_to_map_1'; [|done].
  intros m Hm. apply Hin in H, Hm.
  rewrite <- (live_at_tail s) in H, Hm by done. destruct H as [H _], Hm as [Hm _].
  pose proof (consec_fun _ _ _ _ (chain_NoDup W) H Hm). lia.
Qed.

(** Live blocks lie inside the heap and do not overlap. *)
Lemma live_disjoint s L a n b m :
  heap_wf s L -> live L !! a = Some n -> live L !! b = Some m -> a <> b -> a + n <= b \/ b + m <= a.
Proof.
  intros W Ha Hb Hne. apply (live_lookup s) in Ha, Hb; [|done..].
  pose proof (live_range W _ _ Ha). pose proof (live_range W _ _ Hb).
  destruct Ha as [Ha _]. destruct (consec_elem _ _ _ (proj1 Hb)) as [Hbc _].
  destruct (increasing_gap _ _ _ b (hw_inc _ _ W) Ha Hbc); [|by left].
  destruct (consec_elem _ _ _ Ha) as [Hac _].
  destruct (increasing_gap _ _ _ a (hw_inc _ _ W) (proj1 Hb) Hac); [lia|by right].
Qed.

Lemma live_bounds s L a n : heap_wf s L -> live L !! a = Some n -> 0 < a /\ 0 < n /\ a + n <= lay_top L < UMM_NUMBLOCKS.
Proof.
  intros W Ha. apply (live_lookup s) in Ha; [|done]. pose proof (live_range W _ _ Ha). pose proof (hw_top _ _ W). lia.
Qed.

(** The data of the live blocks but [c] is untouched. *)
Definition keeps_data (L : layout) (c : Z) (s s' : umm) : Prop :=
  forall a n, live L !! a = Some n -> a <> c -> same_data a (a + n) s s'.

Lemma umm_free_lemma s L c n :
  heap_wf s L -> live L !! c = Some n ->
  exists s' L', umm_free (UMM_DATA_addr c) s = Some (tt, s') /\ heap_wf s' L' /\
    live L' = delete c (live L) /\ lay_top L' = lay_top L /\ same_rest s s' /\ keeps_data L c s s'.
Proof.
  intros W Hc. pose proof (live_bounds s L c n W Hc) as Hb. apply (live_lookup s) in Hc; [|done].
  set (s0 := set_primask true s). assert (heap_wf s0 L) as W0 by by apply (heap_wf_ext s).
  destruct (assimilate_up_wf s0 L c (c + n) W0 Hc) as (s1 & L1 & d & Hrun1 & W1 & [_ Hr1] & Ht1 & Hl1 & Hd1 & Hlive1 & Hdata1).
  destruct (free_second s1 L1 c d W1 Hl1 Hd1) as (s2 & L2 & (W2 & [_ Hr2] & Ht2 & Hlive2 & Hdata2) & Hrun2).
  assert (forall a b, live_at L2 a b <-> live_at L a b /\ a <> c) as Hlive.
  { intros a b. rewrite Hlive2. split; intros [H1 H2]; split; try done; by apply Hlive1. }
  assert (heap_wf (set_primask (primask s) s2) L2) as W3 by by apply (heap_wf_ext s2).
  exists (set_primask (primask s) s2), L2. split_and!; [|done| |congruence| |].
  - unfold umm_free. rewrite (proj2 (Z.eqb_neq _ _)) by (apply data_not_null; lia).
    change (UMM_CRITICAL_ENTRY s) with (Some (primask s, s0)).
    rewrite (bind_Some _ _ _ _ _ (eq_refl : UMM_CRITICAL_ENTRY s = Some (primask s, s0))).
    rewrite data_block by lia. rewrite (bind_Some _ _ _ _ _ Hrun1).
    by rewrite (Hrun2 (fun _ => UMM_CRITICAL_EXIT (primask s))).
  - apply map_eq. intros a. apply option_eq. intros m.
    rewrite (live_lookup _ _ _ _ W3), Hlive, lookup_delete_Some, (live_lookup s) by done. naive_solver.
  - split; [done|]. cbn. by rewrite Hr2, Hr1.
  - intros a m Ha Hne. apply (live_lookup s) in Ha; [|done]. apply (same_data_ext _ _ _ s2); [done|].
    apply (same_data_trans _ _ s s1); [by apply Hdata1|]. apply Hdata2; [by apply Hlive1|done].
Qed.
End operations.
