(* ===== verification/HeapAlloc.v ===== *)
(** * Allocating

    The search through the free list, the three ways a block is taken -- a free block
    of the right size, the end of a larger one, the unused rest -- and what
    [umm_malloc] promises. *)

From Stdlib Require Import ZArith Lia Sorted.
From stdpp Require Import base gmap numbers list sets.
From S2P Require Import Prelude Chain Heap HeapSpec.
#[local] Open Scope Z_scope.
#[local] Open Scope stm_scope.

Section alloc.
Context `{U : UmmConfig}.
Implicit Types (s : umm) (L : layout).

(** ** The search *)

(** The free block [f] has [m] blocks. *)
Definition room (L : layout) (f m : Z) : Prop := f ∈ lay_free L /\ consec (chain L) f (f + m).

Lemma room_fun s L f m m' : heap_wf s L -> room L f m -> room L f m' -> m = m'.
Proof. intros W [_ H] [_ H']. pose proof (consec_fun _ _ _ _ (chain_NoDup W) H H'). lia. Qed.

Section search.
Context (s : umm) (L : layout) (W : heap_wf s L) (blocks : Z).

(** The best block among those of [fs] looked at so far. *)
Definition best_of (fs : list Z) (bb bsz : Z) : Prop :=
  (bsz = 0x7FFF /\ forall f m, f ∈ fs -> room L f m -> m < blocks) \/
  (UMM_FIRST_FIT = false /\ room L bb bsz /\ blocks <= bsz < 0x7FFF /\
   forall f m, f ∈ fs -> room L f m -> blocks <= m -> bsz <= m).

(** The block chosen from the result of the search: the first or a smallest one
    that is large enough, or else the end of the list. *)
Definition chosen (r : Z * Z * Z * Z) : Z * Z :=
  let '(cf, blockSize, bestBlock, bestSize) := r in
  if negb (0x7FFF =? bestSize) then (bestBlock, bestSize) else (cf, blockSize).
Definition found (r : Z * Z * Z * Z) : Prop :=
  let '(cf, bs) := chosen r in
  (cf = lay_top L /\ forall f m, room L f m -> m < blocks) \/
  (room L cf bs /\ blocks <= bs /\
   (UMM_FIRST_FIT = false -> forall f m, room L f m -> blocks <= m -> bs <= m)).

Lemma room_header f m :
  room L f m -> 0 < m < 0x7FFF /\ uint16 (Z.land (cell NBLOCK s f) UMM_BLOCKNO_MASK - f) = m.
Proof using W.
  intros [Hf Hm]. pose proof (consec_chain_range W _ _ Hm) as Hr. pose proof (free_range W f Hf).
  rewrite (hw_next W _ _ Hm), number_mask by lia. split; [lia|]. rewrite uint16_small by lia. lia.
Qed.

Lemma free_has_room f : f ∈ lay_free L -> exists m, room L f m.
Proof using W.
  intros Hf. destruct (block_next L f (hw_sub _ _ W f Hf)) as [d Hd]. exists (d - f).
  split; [done|]. by replace (f + (d - f)) with d by lia.
Qed.

Lemma best_of_snoc fs cf m bb bsz :
  best_of fs bb bsz -> room L cf m -> UMM_FIRST_FIT && (m >=? blocks) = false ->
  let better := negb UMM_FIRST_FIT && (m >=? blocks) && (m <? bsz) in
  best_of (fs ++ [cf]) (if better then cf else bb) (if better then m else bsz).
Proof using W.
  intros Hbest Hm Hff better. pose proof (proj1 (room_header cf m Hm)) as Hmr.
  assert (forall f m', f ∈ fs ++ [cf] -> room L f m' -> f ∈ fs \/ (f = cf /\ m' = m)) as Hcases.
  { intros f m' [Hf|Hf%list_elem_of_singleton]%elem_of_app Hr; [by left|right]. subst f.
    split; [done|]. by eapply room_fun. }
  destruct better eqn:E; subst better.
  - apply andb_true_iff in E as [E1 E2]. apply andb_true_iff in E1 as [E0 E1]. apply negb_true_iff in E0.
    apply Z.geb_le in E1. apply Z.ltb_lt in E2. right. split_and!; [done|done|done| |].
    + destruct Hbest as [[-> _]|(_ & _ & ? & _)]; lia.
    + intros f m' Hf Hr Hle. destruct (Hcases f m' Hf Hr) as [Hin|[-> ->]]; [|lia].
      destruct Hbest as [[_ H]|(_ & _ & _ & H)]; [specialize (H f m' Hin Hr)|specialize (H f m' Hin Hr Hle)]; lia.
  - destruct Hbest as [[-> H]|(H1 & H2 & H3 & H4)].
    + left. split; [done|]. intros f m' Hf Hr. destruct (Hcases f m' Hf Hr) as [Hin|[-> ->]]; [by apply (H f)|].
      destruct UMM_FIRST_FIT; cbn in Hff, E; lia.
    + right. split_and!; [done|done|lia|lia|]. intros f m' Hf Hr Hle.
      destruct (Hcases f m' Hf Hr) as [Hin|[-> ->]]; [by apply (H4 f)|]. rewrite H1 in E. cbn in E. lia.
Qed.

Lemma search_spec : forall fuel f1 f2 cf l2 bs0 bb bsz,
  lay_free L = f1 ++ f2 -> f2 ++ [lay_top L] = cf :: l2 -> (length f2 <= fuel)%nat -> best_of f1 bb bsz ->
  exists r, search_free fuel blocks cf bs0 bb bsz s = Some (r, s) /\ found r.
Proof using W.
  induction fuel as [|fuel IH]; intros f1 f2 cf l2 bs0 bb bsz Hf Hcf Hlen Hbest.
  all: destruct f2 as [|f f2]; cbn [app length] in *; [injection Hcf as <- <-|injection Hcf as -> <-; try lia].
  all: assert (inside s (lay_top L)) as Hit by (eapply (free_chain_inside W); unfold free_chain; set_solver).
  1, 2: exists (lay_top L, bs0, bb, bsz); rewrite app_nil_r in Hf; subst f1; cbn [search_free];
    rewrite rd_bind, (hw_last _ _ W) by done; split; [done|].
  1, 2: unfold found, chosen; destruct Hbest as [[-> H]|(H1 & H2 & H3 & H4)];
    [rewrite Z.eqb_refl; left; split; [done|]; intros f m Hr; apply (H f m); [apply Hr|done]
    |rewrite (proj2 (Z.eqb_neq _ _)) by lia; right; split; [done|split; [lia|]]; intros _ f m Hr Hle; by apply (H4 f m); [apply Hr|..]].
  assert (cf ∈ lay_free L) as Hin by (rewrite Hf; set_solver).
  assert (exists n l3, f2 ++ [lay_top L] = n :: l3) as (n & l3 & Hn) by (destruct f2; eauto).
  assert (consec (free_chain L) cf n) as Hc.
  { exists (0 :: f1), l3. unfold free_chain. rewrite Hf, <- app_assoc. cbn. by rewrite Hn. }
  assert (0 < n) as Hn0.
  { assert (n ∈ f2 ++ [lay_top L]) as Hnin by (rewrite Hn; set_solver).
    apply elem_of_app in Hnin as [Hnin|Hnin%list_elem_of_singleton]; [|pose proof (top_range W); lia].
    assert (n ∈ lay_free L) as Hnf by (rewrite Hf; set_solver). by apply (free_range W). }
  assert (inside s cf) as Hi by (eapply (free_chain_inside W), free_in_chain, Hin).
  destruct (free_has_room cf Hin) as [m Hm]. destruct (room_header cf m Hm) as [Hmr Hsz].
  cbn [search_free]. rewrite rd_bind, (hw_nfree W _ _ Hc), (proj2 (Z.eqb_neq _ _)), rd_bind, Hsz by (done || lia).
  destruct (UMM_FIRST_FIT && (m >=? blocks)) eqn:Eff.
  - apply andb_true_iff in Eff as [Eff Em]. apply Z.geb_le in Em.
    exists (cf, m, bb, bsz). split; [done|]. unfold found, chosen.
    destruct Hbest as [[-> H]|(H1 & _)]; [|congruence]. rewrite Z.eqb_refl. right.
    split; [done|split; [done|]]. congruence.
  - rewrite rd_bind, (hw_nfree W _ _ Hc) by done.
    apply (IH (f1 ++ [cf]) f2 n l3); [by rewrite <- app_assoc|done|lia|]. by apply best_of_snoc.
Qed.
End search.

(** ** Taking a block *)

(** [c] with [n] blocks is live now, and nothing else changed. *)
Definition allocated (s : umm) (L : layout) (c n : Z) (s' : umm) (L' : layout) : Prop :=
  heap_wf s' L' /\ same_rest s s' /\ (forall b, ~ live_at L c b) /\
  (forall a b, live_at L' a b <-> live_at L a b \/ (a = c /\ b = c + n)) /\
  (forall a b, live_at L a b -> same_data a b s s').

Lemma take_exact s L c n :
  heap_wf s L -> room L c n ->
  exists s' L', umm_disconnect_from_free_list c s = Some (tt, s') /\ allocated s L c n s' L'.
Proof.
  intros W [Hc Hn]. destruct (disconnect_wf s L c W Hc) as (f & s' & Hrun & W' & Hr & Hf & Hdata).
  pose proof (free_range W c Hc). exists s', (with_free f L).
  split; [done|]. split_and!; [done|done|by intros b (_ & _ & ?)| |done].
  intros a b. unfold live_at. change (chain (with_free f L)) with (chain L). cbn [with_free lay_free]. rewrite Hf.
  split.
  - intros (H1 & H2 & H3). destruct (decide (a = c)) as [->|]; [right|left; tauto].
    split; [done|]. by apply (consec_fun _ _ _ _ (chain_NoDup W) H1).
  - intros [(H1 & H2 & H3)|[-> ->]]; [tauto|]. split_and!; [done|lia|tauto].
Qed.

(** The end of a free block [x], from [m] on. *)
Lemma make_new_block_eq s L x y m :
  heap_wf s L -> x ∈ lay_free L -> consec (chain L) x y -> x < m < y ->
  umm_make_new_block x (m - x) UMM_FREELIST_MASK s =
  Some (tt, store NBLOCK x (m + UMM_FREELIST_MASK) (store PBLOCK y m (store PBLOCK m x (store NBLOCK m y s)))).
Proof.
  intros W Hx Hxy Hm. pose proof (consec_chain_range W x y Hxy) as Hr. pose proof (hw_top _ _ W) as Ht.
  destruct (consec_elem _ _ _ Hxy) as [Hxin Hyin].
  pose proof (chain_inside W _ Hxin) as Hix. pose proof (chain_inside W _ Hyin) as Hiy.
  assert (inside s m) as Him by (apply (wf_inside W); lia).
  assert (cell NBLOCK s x = y + flag true) as E by (rewrite (hw_next W x y Hxy); by rewrite bool_decide_true).
  unfold umm_make_new_block. replace (x + (m - x)) with m by lia.
  rewrite rd_bind, E, number_mask, wr_bind, wr_bind by (rewrite ?inside_store; done || lia).
  set (s2 := store PBLOCK m x (store NBLOCK m y s)).
  assert (inside s2 x /\ inside s2 y) as [Hi2 Hi2'] by (unfold s2; by rewrite !inside_store).
  assert (cell NBLOCK s2 x = y + flag true) as E2 by (unfold s2; by cells).
  rewrite rd_bind, E2, number_mask, wr_bind, wr_eq, number_or by (rewrite ?inside_store; done || lia). done.
Qed.

Lemma take_end s L x y m :
  heap_wf s L -> x ∈ lay_free L -> consec (chain L) x y -> x < m < y ->
  exists s' L', umm_make_new_block x (m - x) UMM_FREELIST_MASK s = Some (tt, s') /\
    allocated s L m (y - m) s' L'.
Proof.
  intros W Hx Hxy Hm. rewrite (make_new_block_eq s L x y m W Hx Hxy Hm).
  pose proof (consec_chain_range W x y Hxy) as Hr. pose proof (hw_top _ _ W) as Ht. pose proof (free_range W x Hx) as Hxr.
  destruct (consec_elem _ _ _ Hxy) as [Hxin Hyin].
  pose proof (chain_inside W _ Hxin) as Hix. pose proof (chain_inside W _ Hyin) as Hiy.
  assert (inside s m) as Him by (apply (wf_inside W); lia).
  assert (m ∉ chain L) as Hmc by (intros H; destruct (increasing_gap _ _ _ m (hw_inc _ _ W) Hxy H); lia).
  assert (m ∉ lay_free L) as Hmf by (intros H; by apply Hmc, blocks_chain, (hw_sub _ _ W)).
  destruct (between_insert 0 (lay_top L) (lay_blocks L) x y m Hxy) as (bs & l1 & l2 & HC & HC' & Hin).
  change (0 :: lay_blocks L ++ [lay_top L]) with (chain L) in HC.
  set (L' := mkLayout bs (lay_free L) (lay_top L)). change (0 :: bs ++ [lay_top L]) with (chain L') in HC'.
  pose proof (hw_inc _ _ W) as Hinc. pose proof (hw_chain _ _ W) as Hlinks. rewrite HC in Hinc, Hlinks.
  assert (increasing (chain L')) as Hinc' by (rewrite HC'; by apply increasing_insert).
  assert (forall a b, consec (chain L') a b <-> (consec (chain L) a b /\ a <> x) \/ (a = x /\ b = m) \/ (a = m /\ b = y)) as Hcons.
  { intros a b. rewrite HC, HC'. apply consec_insert. rewrite <- HC'. by apply increasing_NoDup. }
  exists (store NBLOCK x (m + UMM_FREELIST_MASK) (store PBLOCK y m (store PBLOCK m x (store NBLOCK m y s)))), L'.
  split; [done|]. split_and!; [|done| | |].
  - split; unfold L'; cbn [lay_blocks lay_free lay_top]; fold L'; try apply W; try done.
    + unfold store. cbn. rewrite !length_aset. apply W.
    + apply Hcons. left. split; [apply W|lia].
    + rewrite HC'. apply increasing_NoDup in Hinc'. rewrite HC' in Hinc'.
      apply (linked_insert _ _ _ _ _ _ x m y Hinc' Hlinks); intros; unfold number; cells; try done.
      * rewrite bool_decide_true by done. cbn. lia.
      * rewrite bool_decide_false by done. cbn. lia.
    + cells. apply W.
    + intros z Hz. apply Hin. left. by apply W.
    + apply (linked_ext _ _ _ _ _ (hw_list _ _ W)). intros z Hz. by cells.
    + cells. exact (hw_last _ _ W).
    + intros a b [[Hab _]|[[-> ->]|[-> ->]]]%Hcons Ha; [by apply (hw_apart _ _ W a)|done|done].
  - intros b (H & _). apply consec_elem in H as [H _]. done.
  - intros a b. unfold live_at. rewrite Hcons. cbn [lay_free]. replace (m + (y - m)) with y by lia. split.
    + intros ([[H1 H2]|[[-> ->]|[-> ->]]] & H3 & H4); [by left|done|by right].
    + intros [(H1 & H2 & H3)|[-> ->]]; split_and!; try done; [|tauto|lia]. left. split; [done|]. by intros ->.
  - intros a b Hl. pose proof (live_range W a b Hl) as Hab.
    assert (m < a \/ b <= m) as Hma.
    { destruct (increasing_gap _ _ _ a (hw_inc _ _ W) Hxy (proj1 (consec_elem _ _ _ (proj1 Hl)))); [|lia].
      destruct (live_free_gap W a b x Hl (free_in_chain L x Hx)); lia. }
    apply (same_data_header s L); [done|done|by rewrite !inside_store|done|by left|].
    apply (same_data_header s L); [done|done|by rewrite !inside_store|done|by right|].
    eapply same_data_trans; apply same_data_store; rewrite ?inside_store; done || lia.
Qed.

(** ** The unused rest *)

Lemma copy_block_eq dst src s :
  inside s dst -> inside s src ->
  exists s', copy_block dst src s = Some (tt, s') /\ length (umm_heap s') = length (umm_heap s) /\
    same_rest s s' /\ forall f i, cell f s' i = if decide (i = dst) then cell f s src else cell f s i.
Proof.
  intros Hd Hs. exists (set_umm_heap (aset (umm_heap s) dst (block_of s src)) s).
  unfold copy_block. rewrite bind_get, (bind_lift _ _ _ _ (inside_get s src Hs)), (bind_lift _ _ _ _ (inside_get s dst Hd)).
  split_and!; [done|cbn; by rewrite length_aset|done|]. intros f i. unfold cell at 1, block_of at 1. cbn [umm_heap set_umm_heap].
  case_decide as Hi.
  - subst i. by rewrite (aget_aset_eq _ _ _ _ (inside_get s dst Hd)).
  - by rewrite aget_aset_ne by done.
Qed.

(** The block [t] where the rest began is live, and the rest begins at [t']. *)
Definition extended (s : umm) (t t' p : Z) (s' : umm) : Prop :=
  length (umm_heap s') = length (umm_heap s) /\ same_rest s s' /\
  forall f i, cell f s' i =
    if decide (i = t') then match f with NBLOCK => 0 | PBLOCK => t | NFREE => 0 | PFREE => p end
    else if decide (f = NBLOCK /\ i = t) then t'
    else if decide (f = NFREE /\ i = p) then t' else cell f s i.

Lemma extend_eq s L t' p (k : unit -> hp Z) :
  heap_wf s L -> consec (free_chain L) p (lay_top L) -> lay_top L < t' < UMM_NUMBLOCKS ->
  exists s', extended s (lay_top L) t' p s' /\
    (p <- rd PFREE (lay_top L) ;; wr NFREE p t' ;;;
     copy_block t' (lay_top L) ;;;
     wr NBLOCK (lay_top L) t' ;;;
     wr PBLOCK t' (lay_top L) ;;; k tt) s = k tt s'.
Proof.
  intros W Hp Ht'. pose proof (top_range W) as Ht. pose proof numblocks_range as Hnb.
  destruct (consec_elem _ _ _ Hp) as [Hpin Htin].
  pose proof (free_chain_inside W _ Hpin) as Hip. pose proof (free_chain_inside W _ Htin) as Hit.
  assert (inside s t') as Hit' by (apply (wf_inside W); lia).
  assert (0 <= p < lay_top L) as Hpt.
  { pose proof (free_chain_range W p Hpin).
    destruct (consec_left (0 :: lay_free L) _ _ _ Hp) as [[->|Hpf]%elem_of_cons _]; [lia|]. pose proof (free_range W p Hpf). lia. }
  rewrite rd_bind, (hw_pfree W _ _ Hp), wr_bind by done. set (s1 := store NFREE p t' s).
  assert (forall i, inside s i -> inside s1 i) as Hi1 by (intros; by apply inside_store).
  destruct (copy_block_eq t' (lay_top L) s1) as (s2 & Hrun & Hlen & Hr2 & Hc2); [by apply Hi1..|].
  assert (forall i, inside s i -> inside s2 i) as Hi2 by (intros i Hi; unfold inside; rewrite Hlen; by apply Hi1).
  exists (store PBLOCK t' (lay_top L) (store NBLOCK (lay_top L) t' s2)). split.
  - split; [unfold store; cbn; rewrite !length_aset; by rewrite Hlen; unfold s1, store; cbn; rewrite length_aset|].
    split; [by destruct Hr2 as [-> ->] || by destruct Hr2|]. intros f i.
    rewrite !cell_store by (rewrite ?inside_store; by apply Hi2). rewrite Hc2. unfold s1. rewrite !cell_store by done.
    rewrite !uint16_small by lia. pose proof (hw_end _ _ W) as He. pose proof (hw_last _ _ W) as Hl.
    pose proof (hw_pfree W _ _ Hp) as Hpp.
    destruct (decide (i = t')) as [->|Hi].
    + destruct f; cells; done.
    + rewrite (decide_False (P := f = PBLOCK /\ i = t')) by tauto. done.
  - rewrite (bind_Some _ _ _ _ _ Hrun), wr_bind, wr_bind by (rewrite ?inside_store; by apply Hi2). done.
Qed.

Lemma take_rest s L t' p s' :
  heap_wf s L -> consec (free_chain L) p (lay_top L) -> lay_top L < t' < UMM_NUMBLOCKS ->
  extended s (lay_top L) t' p s' ->
  exists L', allocated s L (lay_top L) (t' - lay_top L) s' L'.
Proof.
  intros W Hp Ht' (Hlen & Hrest & Hcell). pose proof (top_range W) as Ht. set (t := lay_top L) in *.
  set (L' := mkLayout (lay_blocks L ++ [t]) (lay_free L) t'). exists L'.
  assert (chain L' = (0 :: lay_blocks L) ++ [t; t']) as HC by (unfold chain, L'; cbn; by rewrite <- app_assoc).
  assert (free_chain L' = (0 :: lay_free L) ++ [t']) as HF by done.
  assert (t ∉ lay_free L) as Htf by (intros H; pose proof (free_range W t H); unfold t in *; lia).
  assert (forall a b, consec (chain L') a b <-> consec (chain L) a b \/ (a = t /\ b = t')) as Hcons.
  { intros a b. rewrite HC, consec_pair. change ((0 :: lay_blocks L) ++ [t]) with (chain L).
    split; [intros [H|[H|H]]; auto; by apply consec_one in H|tauto]. }
  assert (forall x, x ∈ chain L -> x <> t') as Hct by (intros x Hx; pose proof (chain_range W x Hx); lia).
  assert (forall x, x ∈ free_chain L -> x <> t') as Hft by (intros x Hx; pose proof (free_chain_range W x Hx); lia).
  assert (0 <= p < t) as Hpt.
  { destruct (consec_elem _ _ _ Hp) as [Hpin _]. pose proof (free_chain_range W p Hpin).
    destruct (consec_left (0 :: lay_free L) _ _ _ Hp) as [[->|Hpf]%elem_of_cons _]; [unfold t in *; lia|]. pose proof (free_range W p Hpf). unfold t. lia. }
  split_and!; [|done| | |].
  - split; unfold L'; cbn [lay_blocks lay_free lay_top]; fold L'.
    + rewrite Hlen. apply W.
    + rewrite HC. apply increasing_snoc; [apply W|lia].
    + apply Hcons. left. apply W.
    + lia.
    + rewrite HC. apply (linked_snoc _ _ _ _ (0 :: lay_blocks L) t t' (hw_chain _ _ W)).
      * unfold number. rewrite Hcell, bool_decide_false, decide_False by (done || lia). cells. cbn. lia.
      * rewrite Hcell. by rewrite decide_True.
      * intros z Hz. assert (z ∈ chain L) as Hzc by (unfold chain; set_solver).
        assert (z <> t) as Hzt.
        { apply elem_of_cons in Hz as [->|Hz]; [unfold t; lia|]. pose proof (blocks_range W z Hz). unfold t. lia. }
        unfold number. rewrite Hcell. specialize (Hct z Hzc). rewrite decide_False by done. by cells.
      * intros z Hz. specialize (Hct z Hz). rewrite Hcell, decide_False by done. by cells.
    + rewrite Hcell. by rewrite decide_True.
    + intros x Hx. apply (hw_sub _ _ W) in Hx. set_solver.
    + apply W.
    + destruct (exists_last (l := 0 :: lay_free L)) as (l1 & x & Hx); [done|]. rewrite HF, Hx, <- app_assoc. cbn [app].
      pose proof (hw_list _ _ W) as Hlist. pose proof (free_chain_NoDup W) as Hnd.
      assert (free_chain L = l1 ++ [x; t]) as HF0 by (unfold free_chain; rewrite app_comm_cons, Hx; by rewrite <- app_assoc).
      assert (x = p) as ->.
      { apply (consec_inj _ _ _ _ Hnd) with (2 := Hp). rewrite HF0. apply consec_middle. }
      rewrite HF0 in Hlist, Hft, Hnd. apply NoDup_middle in Hnd as (Hpl & _ & _).
      apply (linked_last _ _ _ _ l1 p t' t Hlist); [| |intros z Hz..]; rewrite Hcell.
      * rewrite decide_False by lia. cells. done.
      * by rewrite decide_True.
      * rewrite decide_False by (apply Hft; set_solver).
        rewrite !decide_False; [done|intros [_ ->]; done|by intros [[=] _]].
      * rewrite decide_False by (apply Hft; set_solver). by cells.
    + rewrite Hcell. by rewrite decide_True.
    + intros a b [Hab|[-> ->]]%Hcons Ha; [by apply (hw_apart _ _ W a)|done].
  - intros b (Hb & _). pose proof (consec_chain_range W _ _ Hb). unfold t in *. lia.
  - intros a b. unfold live_at. rewrite Hcons. cbn [lay_free]. split.
    + intros ([H|[-> ->]] & H3 & H4); [by left|right]. split; [done|]. unfold t. lia.
    + intros [(H1 & H2 & H3)|[-> ->]]; [tauto|]. split_and!; [right; unfold t; lia|unfold t; lia|done].
  - intros a b Hl f i Hd. pose proof (live_range W a b Hl) as Hr.
    destruct Hd as [Hi|[-> Hf]]; rewrite Hcell, decide_False by lia; rewrite !decide_False; try done.
    all: intros [-> Hip]; try (destruct Hf; done).
    all: destruct (live_free_gap W a b p Hl (proj1 (consec_elem _ _ _ Hp))); lia.
Qed.

(** ** [umm_malloc] *)

Lemma allocated_ext s s0 s1 s' L c n L' :
  allocated s0 L c n s1 L' -> umm_heap s0 = umm_heap s -> umm_heap s' = umm_heap s1 -> same_rest s s' ->
  allocated s L c n s' L'.
Proof.
  intros (H1 & _ & H3 & H4 & H5) E0 E1 Hr. split_and!; [by apply (heap_wf_ext s1)|done|done|done|].
  intros a b Hl f i Hd. specialize (H5 a b Hl f i Hd). unfold cell, block_of in *. by rewrite E1, <- E0.
Qed.

(** The number of the last element of the free list before the rest. *)
Lemma last_free L : exists p, consec (free_chain L) p (lay_top L).
Proof.
  destruct (exists_last (l := 0 :: lay_free L)) as (l & p & Hp); [done|].
  exists p, l, []. unfold free_chain. rewrite app_comm_cons, Hp. by rewrite <- app_assoc.
Qed.

Lemma free_length s L : heap_wf s L -> (length (lay_free L) <= Z.to_nat UMM_NUMBLOCKS)%nat.
Proof.
  intros W. rewrite <- (length_seqZ 0 UMM_NUMBLOCKS). apply submseteq_length, NoDup_submseteq; [apply W|].
  intros x Hx. apply elem_of_seqZ. pose proof (free_range W x Hx). pose proof (hw_top _ _ W). lia.
Qed.

(** What follows the search. *)
Definition take (blocks : Z) (CPU_SR : bool) (cf blockSize : Z) : hp Z :=
  x <- rd NBLOCK cf ;;
  if truthy (Z.land x UMM_BLOCKNO_MASK) then
    if blockSize =? blocks then
      umm_disconnect_from_free_list cf ;;;
      UMM_CRITICAL_EXIT CPU_SR ;;; tret (UMM_DATA_addr cf)
    else
      umm_make_new_block cf (uint16 (blockSize - blocks)) UMM_FREELIST_MASK ;;;
      let cf := uint16 (cf + (blockSize - blocks)) in
      UMM_CRITICAL_EXIT CPU_SR ;;; tret (UMM_DATA_addr cf)
  else if UMM_NUMBLOCKS <=? cf + blocks + 1 then
    UMM_CRITICAL_EXIT CPU_SR ;;; tret 0
  else
    cf <- (if 0 =? cf then wr NBLOCK 0 1 ;;; wr NFREE 0 1 ;;; tret 1 else tret cf) ;;
    p <- rd PFREE cf ;; wr NFREE p (cf + blocks) ;;;
    copy_block (cf + blocks) cf ;;;
    wr NBLOCK cf (cf + blocks) ;;;
    wr PBLOCK (cf + blocks) cf ;;;
    UMM_CRITICAL_EXIT CPU_SR ;;; tret (UMM_DATA_addr cf).

Lemma umm_malloc_take size s :
  size <> 0 ->
  umm_malloc size s =
  (cf <- rd NFREE 0 ;; bestBlock <- rd NFREE 0 ;;
   r <- search_free (Z.to_nat UMM_NUMBLOCKS) (umm_blocks size) cf 0 bestBlock 0x7FFF ;;
   take (umm_blocks size) (primask s) (fst (chosen r)) (snd (chosen r))) (set_primask true s).
Proof.
  intros Hs. unfold umm_malloc. rewrite (proj2 (Z.eqb_neq _ _)) by done.
  rewrite (bind_Some _ _ _ _ _ (eq_refl : UMM_CRITICAL_ENTRY s = Some (primask s, set_primask true s))).
  unfold tbind. destruct (rd NFREE 0 _) as [[cf s1]|]; [|done]. destruct (rd NFREE 0 s1) as [[bb s2]|]; [|done].
  destruct (search_free _ _ _ _ _ _ s2) as [[[[[c bs] b'] bz] s3]|]; [|done]. unfold chosen.
  by destruct (negb _).
Qed.

(** Out of memory. *)
Definition no_room (s : umm) (L : layout) (n : Z) (p : Z) (s' : umm) : Prop :=
  p = 0 /\ umm_heap s' = umm_heap s /\ same_rest s s' /\
  (forall f m, room L f m -> m < n) /\ UMM_NUMBLOCKS <= lay_top L + n + 1.

(** A block was taken: the start of the rest if no free block is large enough, else
    the end of one that is, of a smallest one with the best-fit strategy. *)
Definition got (s : umm) (L : layout) (n p : Z) (s' : umm) : Prop :=
  exists c L', p = UMM_DATA_addr c /\ allocated s L c n s' L' /\
    ((c = lay_top L /\ forall f m, room L f m -> m < n) \/
     (exists f m, room L f m /\ n <= m /\ c = f + (m - n) /\
        (UMM_FIRST_FIT = false -> forall f' m', room L f' m' -> n <= m' -> m <= m'))).

Lemma take_free s s0 L n f m :
  heap_wf s L -> s0 = set_primask true s -> 0 < n <= m -> room L f m ->
  exists s' L', take n (primask s) f m s0 = Some (UMM_DATA_addr (f + (m - n)), s') /\
    allocated s L (f + (m - n)) n s' L'.
Proof.
  intros W E Hn Hr. assert (heap_wf s0 L) as W0 by (apply (heap_wf_ext s); [by rewrite E|done]).
  pose proof (room_header s0 L W0 f m Hr) as [Hm _]. pose proof Hr as [Hf Hfm].
  pose proof (consec_chain_range W0 _ _ Hfm) as Hrange. pose proof (free_range W0 f Hf) as Hfr.
  assert (inside s0 f) as Hi by (eapply (chain_inside W0), blocks_chain, (hw_sub _ _ W0), Hf).
  unfold take. rewrite rd_bind, (hw_next W0 _ _ Hfm), number_mask by (done || lia).
  assert (truthy (f + m) = true) as -> by (unfold truthy; apply negb_true_iff, Z.eqb_neq; lia).
  assert (forall s1 L' c, allocated s0 L c n s1 L' -> allocated s L c n (set_primask (primask s) s1) L') as Hext.
  { intros s1 L' c H. apply (allocated_ext s s0 s1); [done|by rewrite E|done|].
    destruct H as (_ & [_ Hi1] & _). split; [done|]. cbn. by rewrite Hi1, E. }
  destruct (Z.eqb_spec m n) as [->|Hne].
  - destruct (take_exact s0 L f n W0 Hr) as (s1 & L' & Hrun & Ha).
    exists (set_primask (primask s) s1), L'. rewrite (bind_Some _ _ _ _ _ Hrun).
    replace (f + (n - n)) with f by lia. split; [done|by apply Hext].
  - destruct (take_end s0 L f (f + m) (f + (m - n)) W0 Hf Hfm ltac:(lia)) as (s1 & L' & Hrun & Ha).
    rewrite !uint16_small by lia. replace (f + (m - n) - f) with (m - n) in Hrun by lia.
    replace (f + m - (f + (m - n))) with n in Ha by lia.
    exists (set_primask (primask s) s1), L'. rewrite (bind_Some _ _ _ _ _ Hrun). split; [done|by apply Hext].
Qed.

Lemma take_top s s0 L n :
  heap_wf s L -> s0 = set_primask true s -> 0 < n -> (forall f m, room L f m -> m < n) -> forall bs,
  exists p s', take n (primask s) (lay_top L) bs s0 = Some (p, s') /\ (no_room s L n p s' \/ got s L n p s').
Proof.
  intros W E Hn Hroom bs. assert (heap_wf s0 L) as W0 by (apply (heap_wf_ext s); [by rewrite E|done]).
  pose proof (top_range W) as Ht. pose proof numblocks_range as Hnb.
  assert (inside s0 (lay_top L)) as Hi by (eapply (chain_inside W0); unfold chain; set_solver).
  unfold take. rewrite rd_bind, (hw_end _ _ W0) by done. change (truthy (Z.land 0 UMM_BLOCKNO_MASK)) with false. cbv iota.
  destruct (Z.leb_spec UMM_NUMBLOCKS (lay_top L + n + 1)) as [Hfull|Hfit].
  - exists 0, (set_primask (primask s) s0). split; [done|]. left. split_and!; [done|by rewrite E|split; [done|by rewrite E]|done|done].
  - rewrite (proj2 (Z.eqb_neq 0 _)), bind_ret by lia. destruct (last_free L) as [p Hp].
    destruct (extend_eq s0 L (lay_top L + n) p
      (fun _ => UMM_CRITICAL_EXIT (primask s) ;;; tret (UMM_DATA_addr (lay_top L))) W0 Hp ltac:(lia)) as (s1 & Hext & Hrun).
    destruct (take_rest s0 L (lay_top L + n) p s1 W0 Hp ltac:(lia) Hext) as [L' Ha].
    replace (lay_top L + n - lay_top L) with n in Ha by lia.
    exists (UMM_DATA_addr (lay_top L)), (set_primask (primask s) s1). split; [exact Hrun|]. right.
    exists (lay_top L), L'. split; [done|]. split; [|by left].
    apply (allocated_ext s s0 s1); [done|by rewrite E|done|]. destruct Ha as (_ & [_ Hi1] & _). split; [done|]. cbn. by rewrite Hi1, E.
Qed.

Lemma umm_malloc_started s L size :
  heap_wf s L -> size <> 0 -> 0 < umm_blocks size ->
  exists p s', umm_malloc size s = Some (p, s') /\
    (no_room s L (umm_blocks size) p s' \/ got s L (umm_blocks size) p s').
Proof.
  intros W Hs Hn. rewrite umm_malloc_take by done. set (s0 := set_primask true s).
  assert (heap_wf s0 L) as W0 by by apply (heap_wf_ext s).
  destruct (lay_free L ++ [lay_top L]) as [|cf l2] eqn:Hcf; [by destruct (lay_free L)|].
  assert (consec (free_chain L) 0 cf) as H0 by (unfold free_chain; rewrite Hcf; apply consec_cons; by left).
  pose proof (free_chain_inside W0 _ (proj1 (consec_elem _ _ _ H0))) as Hi0.
  rewrite rd_bind, rd_bind, (hw_nfree W0 _ _ H0) by done.
  destruct (search_spec s0 L W0 (umm_blocks size) (Z.to_nat UMM_NUMBLOCKS) [] (lay_free L) cf l2 0 cf 0x7FFF)
    as (r & Hrun & Hfound); [done|done|by eapply free_length|left; split; [done|set_solver]|].
  rewrite (bind_Some _ _ _ _ _ Hrun). unfold found in Hfound. destruct (chosen r) as [c bs]. cbn [fst snd].
  destruct Hfound as [[-> Hroom]|(Hr & Hle & Hbest)].
  - by apply take_top.
  - destruct (take_free s s0 L (umm_blocks size) c bs W eq_refl ltac:(lia) Hr) as (s' & L' & Htake & Ha).
    eexists _, s'. split; [exact Htake|]. right. eexists _, L'. split_and!; [done|done|]. right. by exists c, bs.
Qed.

(** ** The heap before the first allocation *)

(** The BSS is cleared at start-up. *)
Definition fresh (s : umm) : Prop :=
  Z.of_nat (length (umm_heap s)) = UMM_NUMBLOCKS /\ forall f i, cell f s i = 0.
Definition empty_layout : layout := mkLayout [] [] 1.

Lemma consec_01 a b : consec [0; 1] a b -> a = 0 /\ b = 1.
Proof. rewrite consec_cons. intros [H|H]; [done|by apply consec_one in H]. Qed.

Lemma fresh_started s : fresh s -> heap_wf (store NFREE 0 1 (store NBLOCK 0 1 s)) empty_layout.
Proof.
  intros [Hlen Hz]. pose proof numblocks_range as Hn. assert (inside s 0) as Hi by (unfold inside; lia).
  split; unfold empty_layout; cbn [lay_blocks lay_free lay_top]; rewrite ?cell_store by (by rewrite ?inside_store).
  - unfold store. cbn. by rewrite !length_aset.
  - repeat constructor.
  - by exists [], [].
  - lia.
  - intros a b [-> ->]%consec_01. unfold number. rewrite bool_decide_false by set_solver. cells. split; [done|by apply Hz].
  - by apply Hz.
  - set_solver.
  - constructor.
  - intros a b [-> ->]%consec_01. cells. split; [done|by apply Hz].
  - by apply Hz.
  - set_solver.
Qed.

Lemma empty_room f m : ~ room empty_layout f m.
Proof. intros [H _]. by apply not_elem_of_nil in H. Qed.
Lemma empty_live a b : ~ live_at empty_layout a b.
Proof. intros ([-> _]%consec_01 & H & _). done. Qed.

Lemma umm_malloc_fresh s size :
  fresh s -> size <> 0 -> 0 < umm_blocks size ->
  exists p s', umm_malloc size s = Some (p, s') /\
    (no_room s empty_layout (umm_blocks size) p s' \/ got s empty_layout (umm_blocks size) p s').
Proof.
  intros Hf Hs Hn. rewrite umm_malloc_take by done. set (s0 := set_primask true s). set (n := umm_blocks size) in *.
  assert (fresh s0) as Hf0 by exact Hf. pose proof (fresh_started s0 Hf0) as W. destruct Hf0 as [Hlen Hz].
  pose proof numblocks_range as Hnb. assert (inside s0 0) as Hi by (unfold inside; lia).
  rewrite rd_bind, rd_bind, Hz by done.
  assert (search_free (Z.to_nat UMM_NUMBLOCKS) n 0 0 0 0x7FFF s0 = Some ((0, 0, 0, 0x7FFF), s0)) as Hsearch.
  { destruct (Z.to_nat UMM_NUMBLOCKS); cbn [search_free]; by rewrite rd_bind, Hz. }
  rewrite (bind_Some _ _ _ _ _ Hsearch). change (chosen (0, 0, 0, 0x7FFF)) with (0, 0). cbn [fst snd].
  unfold take. rewrite rd_bind, Hz by done. change (truthy (Z.land 0 UMM_BLOCKNO_MASK)) with false. cbv iota.
  destruct (Z.leb_spec UMM_NUMBLOCKS (0 + n + 1)) as [Hfull|Hfit].
  - exists 0, (set_primask (primask s) s0). split; [done|]. left. split_and!; [done..| |cbn [lay_top empty_layout]; lia].
    intros f m H. by apply empty_room in H.
  - rewrite Z.eqb_refl, bind_assoc, wr_bind, bind_assoc, wr_bind, bind_ret by (by rewrite ?inside_store).
    set (s1 := store NFREE 0 1 (store NBLOCK 0 1 s0)) in *.
    destruct (extend_eq s1 empty_layout (1 + n) 0
      (fun _ => UMM_CRITICAL_EXIT (primask s) ;;; tret (UMM_DATA_addr 1)) W ltac:(by exists [], []) ltac:(cbn [lay_top empty_layout]; lia))
      as (s2 & Hext & Hrun).
    destruct (take_rest s1 empty_layout (1 + n) 0 s2 W ltac:(by exists [], []) ltac:(cbn [lay_top empty_layout]; lia) Hext)
      as (L' & W' & [_ Hr] & _ & Hlive & _).
    exists (UMM_DATA_addr 1), (set_primask (primask s) s2). split; [exact Hrun|]. right. exists 1, L'. split; [done|]. split.
    + split_and!; [by apply (heap_wf_ext s2)|split; [done|exact Hr]|by intros b H; apply empty_live in H| |].
      * intros a b. rewrite Hlive. cbn [lay_top empty_layout]. by replace (1 + (1 + n - 1)) with (1 + n) by lia.
      * intros a b H. by apply empty_live in H.
    + left. split; [done|]. intros f m H. by apply empty_room in H.
Qed.

(** ** The promise *)

(** The heap [s] has the layout [L]. *)
Definition heap_at (s : umm) (L : layout) : Prop := heap_wf s L \/ (fresh s /\ L = empty_layout).

Lemma umm_blocks_spec size :
  0 < size <= 524276 -> 0 < umm_blocks size /\ size <= 8 * umm_blocks size - 4 /\ 8 * (umm_blocks size - 1) - 4 < size.
Proof.
  intros Hs. unfold umm_blocks, sizeof_umm_block. destruct (Z.leb_spec size 4); [lia|].
  rewrite uint32_small by lia. pose proof (Z.div_mod (size - (1 + 4)) 8 ltac:(lia)) as Hd.
  pose proof (Z.mod_pos_bound (size - (1 + 4)) 8 ltac:(lia)). rewrite uint16_small by lia. lia.
Qed.

Lemma umm_malloc_lemma s L size :
  heap_at s L -> 0 < size <= 524276 ->
  exists p s', umm_malloc size s = Some (p, s') /\
    (no_room s L (umm_blocks size) p s' \/ got s L (umm_blocks size) p s').
Proof.
  intros Hat Hs. pose proof (umm_blocks_spec size Hs) as Hn.
  destruct Hat as [W|[Hf ->]]; [apply umm_malloc_started|apply umm_malloc_fresh]; done || lia.
Qed.

Lemma live_empty : live empty_layout = ∅.
Proof. done. Qed.

Lemma got_live s L n s' c L' :
  heap_at s L -> 0 < n -> allocated s L c n s' L' ->
  heap_wf s' L' /\ live L !! c = None /\ live L' = <[c := n]> (live L) /\ keeps_data L c s s'.
Proof.
  intros Hat Hn (W' & _ & Hc & Hlive & Hdata). split; [done|].
  assert (forall a m, live L !! a = Some m <-> live_at L a (a + m)) as Hl.
  { intros a m. destruct Hat as [W|[_ ->]]; [by apply (live_lookup s)|]. rewrite live_empty, lookup_empty.
    split; [done|]. intros H. by apply empty_live in H. }
  split_and!.
  - apply eq_None_not_Some. intros [m Hm%Hl]. by apply (Hc (c + m)).
  - apply map_eq. intros a. apply option_eq. intros m. rewrite (live_lookup s' L' a m W'), Hlive, lookup_insert_Some, Hl.
    split; [intros [H|[-> H]]|intros [[<- <-]|[? ?]]]; [|left; split; [done|lia]|by right|by left].
    right. split; [|done]. intros <-. by apply (Hc (c + m)).
  - intros a m Ha _. apply Hdata. by apply Hl.
Qed.
End alloc.
