(* ===== verification/HeapUse.v ===== *)
(** * Using the heap

    The promises of the heap to a program: what one call of [umm_malloc], [umm_free]
    and [umm_calloc] does, that no sequence of calls and of writes of the program to
    its own blocks ever damages the heap, and what the reports on it say. *)

From Stdlib Require Import ZArith Lia.
From stdpp Require Import base gmap numbers list sets.
From S2P Require Import Prelude Chain Heap HeapSpec HeapAlloc.
#[local] Open Scope Z_scope.
#[local] Open Scope stm_scope.

Section use.
Context `{U : UmmConfig}.
Implicit Types (s : umm) (L : layout).

Lemma live_not_fresh s L c n : heap_at s L -> live L !! c = Some n -> heap_wf s L.
Proof. intros [W|[_ ->]]; [done|]. by rewrite live_empty, lookup_empty. Qed.

(** What [umm_malloc] returns for [n] units: NULL if no free block is large enough
    and the unused rest is too small, or the data of one block that was not live, from
    the rest if no free block fits and otherwise from the end of one that does. *)
Definition refused (s : umm) (L : layout) (n p : Z) (s' : umm) : Prop :=
  p = 0 /\ umm_heap s' = umm_heap s /\ (forall f m, room L f m -> m < n) /\ UMM_NUMBLOCKS <= lay_top L + n + 1.
Definition granted (s : umm) (L : layout) (n p : Z) (s' : umm) : Prop :=
  exists c L', p = UMM_DATA_addr c /\ heap_at s' L' /\ live L !! c = None /\
    live L' = <[c := n]> (live L) /\ keeps_data L c s s' /\
    ((c = lay_top L /\ forall f m, room L f m -> m < n) \/
     (exists f m, room L f m /\ n <= m /\ c = f + (m - n) /\
        (UMM_FIRST_FIT = false -> forall f' m', room L f' m' -> n <= m' -> m <= m'))).

(** C22: [umm_malloc].  In every heap, the one before the first allocation included,
    and for every size up to 524276 bytes, [umm_malloc] returns.  Either it returns
    NULL and leaves the blocks alone, and then no free block is large enough and the
    unused rest is too small; or it returns the data of one block that was not live,
    large enough and rounded to the next block size, taken from the rest if no free
    block fits and otherwise from the end of one that does -- of a smallest one with
    the best-fit strategy; the data of every other live block is untouched. *)
Theorem umm_malloc_correct s L size :
  heap_at s L -> 0 < size <= 524276 ->
  size <= 8 * umm_blocks size - 4 < size + 8 /\
  exists p s', umm_malloc size s = Some (p, s') /\ same_rest s s' /\
    (refused s L (umm_blocks size) p s' \/ granted s L (umm_blocks size) p s').
Proof.
  intros Hat Hs. pose proof (umm_blocks_spec size Hs) as Hn. split; [lia|].
  destruct (umm_malloc_lemma s L size Hat Hs) as (p & s' & Hrun & Hr). exists p, s'. split; [done|].
  destruct Hr as [(-> & Hh & Hrest & Hroom & Hfull)|(c & L' & -> & Ha & Hwhere)]; [split; [done|]; by left|].
  split; [apply Ha|right]. destruct (got_live s L (umm_blocks size) s' c L' Hat ltac:(lia) Ha) as (W' & Hc & Hl & Hd).
  exists c, L'. split_and!; try done. by left.
Qed.

(** What [umm_free] does to the live block [c]. *)
Definition freed_block (s : umm) (L : layout) (c : Z) (s' : umm) (L' : layout) : Prop :=
  heap_at s' L' /\ live L' = delete c (live L) /\ lay_top L' = lay_top L /\ same_rest s s' /\ keeps_data L c s s' /\
  forall a b, consec (chain L') a b -> a ∈ lay_free L' -> b ∉ lay_free L'.

(** C23: [umm_free].  Freeing the data of a live block removes exactly that block; the
    data of the others is untouched, the rest begins where it did, and the block is
    joined with the free blocks around it: no two free blocks are neighbours. *)
Theorem umm_free_correct s L c n :
  heap_at s L -> live L !! c = Some n ->
  exists s' L', umm_free (UMM_DATA_addr c) s = Some (tt, s') /\ freed_block s L c s' L'.
Proof.
  intros Hat Hc. pose proof (live_not_fresh s L c n Hat Hc) as W.
  destruct (umm_free_lemma s L c n W Hc) as (s' & L' & Hrun & W' & H).
  exists s', L'. destruct H as (H1 & H2 & H3 & H4). split; [done|]. split_and!; try done; [by left|apply W'].
Qed.

(** ** A program that uses the heap *)

(** The address of a half-word. *)
Definition half_addr (f : umm_field) (i : Z) : Z :=
  UMM_BLOCK_addr i + match f with NBLOCK => 0 | PBLOCK => 2 | NFREE => 4 | PFREE => 6 end.

Lemma half_addr_data c n f i :
  UMM_DATA_addr c <= half_addr f i < UMM_DATA_addr c + (8 * n - 4) -> data_cell c (c + n) f i.
Proof.
  unfold UMM_DATA_addr, half_addr, UMM_BLOCK_addr, sizeof_umm_block, data_cell. intros H.
  destruct (decide (i = c)) as [->|]; [right; split; [done|]|left]; destruct f; auto; lia.
Qed.

(** The program asks for memory, frees a block it was given, or writes to it. *)
Inductive op := Malloc (size : Z) | Free (p : Z) | Write (p : Z).

(** The heap and the blocks the program was given, with the sizes it asked for. *)
Inductive step : op -> umm * gmap Z Z -> umm * gmap Z Z -> Prop :=
| step_malloc s g size p s' :
    0 < size <= 524276 -> umm_malloc size s = Some (p, s') ->
    step (Malloc size) (s, g) (s', if decide (p = 0) then g else <[p := size]> g)
| step_free s g p size s' :
    g !! p = Some size -> umm_free p s = Some (tt, s') ->
    step (Free p) (s, g) (s', delete p g)
| step_write s g p size s' :
    g !! p = Some size -> length (umm_heap s') = length (umm_heap s) -> primask s' = primask s ->
    (forall f i, ~ p <= half_addr f i < p + size -> cell f s' i = cell f s i) ->
    step (Write p) (s, g) (s', g).

(** Every block given is the data of a live block that is large enough. *)
Definition given (s : umm) (g : gmap Z Z) : Prop :=
  exists L, heap_at s L /\ forall p size, g !! p = Some size ->
    exists c n, p = UMM_DATA_addr c /\ live L !! c = Some n /\ 0 < size <= 8 * n - 4.

Lemma UMM_DATA_inj c d : UMM_DATA_addr c = UMM_DATA_addr d -> c = d.
Proof. unfold UMM_DATA_addr, UMM_BLOCK_addr, sizeof_umm_block. lia. Qed.

(** Writing to the data of a live block does not damage the heap. *)
Lemma heap_wf_write s s' L a b :
  heap_wf s L -> live_at L a b -> length (umm_heap s') = length (umm_heap s) ->
  (forall f i, ~ data_cell a b f i -> cell f s' i = cell f s i) -> heap_wf s' L.
Proof.
  intros W Hl Hlen Hc. pose proof (live_range W a b Hl) as Hab.
  assert (forall f x, x ∈ chain L -> f = NBLOCK \/ f = PBLOCK -> cell f s' x = cell f s x) as Hh.
  { intros f x Hx Hf. apply Hc. unfold data_cell. destruct (live_gap W a b x Hl Hx); intros [|[? Hfd]]; try lia.
    destruct Hf as [-> | ->], Hfd; discriminate. }
  assert (forall f x, x ∈ free_chain L -> cell f s' x = cell f s x) as Hf.
  { intros f x Hx. apply Hc. unfold data_cell. destruct (live_free_gap W a b x Hl Hx); intros [|[? _]]; lia. }
  assert (lay_top L ∈ chain L /\ lay_top L ∈ free_chain L) as [Ht Ht'] by (unfold chain, free_chain; set_solver).
  destruct W. split; try done.
  - by rewrite Hlen.
  - apply (linked_ext _ _ _ _ _ hw_chain). intros x Hx. unfold number. by rewrite !Hh by auto.
  - rewrite Hh by auto. done.
  - apply (linked_ext _ _ _ _ _ hw_list). intros x Hx. by rewrite !Hf by auto.
  - rewrite Hf by auto. done.
Qed.

Lemma given_malloc s g size p s' :
  given s g -> 0 < size <= 524276 -> umm_malloc size s = Some (p, s') ->
  primask s' = primask s /\ given s' (if decide (p = 0) then g else <[p := size]> g) /\
  (p <> 0 -> g !! p = None) /\
  (forall q m f i, g !! q = Some m -> q <= half_addr f i < q + m -> cell f s' i = cell f s i).
Proof.
  intros (L & Hat & Hg) Hs Hrun. pose proof (umm_blocks_spec size Hs) as Hn.
  destruct (umm_malloc_lemma s L size Hat Hs) as (p' & s2 & Hrun' & Hr). rewrite Hrun in Hrun'. injection Hrun' as <- <-.
  destruct Hr as [(-> & Hh & Hrest & _)|(c & L' & -> & Ha & _)].
  - assert (forall f i, cell f s' i = cell f s i) as Hc by (intros; unfold cell, block_of; by rewrite Hh).
    split_and!; [apply Hrest| |done|auto]. exists L. split; [|done].
    destruct Hat as [W|[[H1 H2] ->]]; [left; by apply (heap_wf_ext s)|right]. split; [|done]. split; [by rewrite Hh|].
    intros. by rewrite Hc.
  - destruct (got_live s L (umm_blocks size) s' c L' Hat (proj1 Hn) Ha) as (W' & Hnew & Hlive & Hdata).
    assert (0 < c) as Hc0 by (destruct (live_bounds s' L' c (umm_blocks size) W'); [by rewrite Hlive, lookup_insert_eq|done]).
    rewrite decide_False by (apply data_not_null; lia). split_and!; [apply Ha| | |].
    + exists L'. split; [by left|]. intros q m [[<- <-]|[Hq Hm]]%lookup_insert_Some.
      * exists c, (umm_blocks size). rewrite Hlive, lookup_insert_eq. split_and!; [done|done|lia|lia].
      * destruct (Hg q m Hm) as (d & k & -> & Hd & Hk). exists d, k. rewrite Hlive, lookup_insert_ne by (by intros ->).
        done.
    + intros _. apply eq_None_not_Some. intros [m Hm]. destruct (Hg _ m Hm) as (d & k & Heq & Hd & _).
      apply UMM_DATA_inj in Heq. subst d. congruence.
    + intros q m f i Hq Hi. destruct (Hg q m Hq) as (d & k & -> & Hd & Hk). apply (Hdata d k Hd); [by intros ->; congruence|].
      apply half_addr_data. lia.
Qed.

Lemma given_free s g p size :
  given s g -> g !! p = Some size ->
  exists s', umm_free p s = Some (tt, s') /\ primask s' = primask s /\ given s' (delete p g) /\
    (forall q m f i, g !! q = Some m -> q <> p -> q <= half_addr f i < q + m -> cell f s' i = cell f s i).
Proof.
  intros (L & Hat & Hg) Hp. destruct (Hg p size Hp) as (c & n & -> & Hc & _).
  pose proof (live_not_fresh s L c n Hat Hc) as W.
  destruct (umm_free_lemma s L c n W Hc) as (s' & L' & Hrun & W' & Hlive & _ & Hrest & Hdata).
  exists s'. split_and!; [done|apply Hrest| |].
  - exists L'. split; [by left|]. intros q m [Hq Hm]%lookup_delete_Some. destruct (Hg q m Hm) as (d & k & -> & Hd & Hk).
    exists d, k. rewrite Hlive, lookup_delete_ne by (by intros ->). done.
  - intros q m f i Hq Hne Hi. destruct (Hg q m Hq) as (d & k & -> & Hd & Hk). apply (Hdata d k Hd); [by intros ->|].
    apply half_addr_data. lia.
Qed.

Lemma step_given o s g s' g' : step o (s, g) (s', g') -> given s g -> given s' g' /\ primask s' = primask s.
Proof.
  intros H. inversion H as [? ? size p ? Hs Hrun|? ? p size ? Hp Hrun|? ? p size ? Hp Hlen Hm Hc]; subst; intros Hgiv.
  - by destruct (given_malloc s g size p s' Hgiv Hs Hrun) as (? & ? & _).
  - destruct (given_free s g p size Hgiv Hp) as (s2 & Hrun' & ? & ? & _). rewrite Hrun in Hrun'. by injection Hrun' as <-.
  - split; [|done]. destruct Hgiv as (L & Hat & Hg). destruct (Hg p size Hp) as (c & n & -> & Hl & Hn).
    pose proof (live_not_fresh s L c n Hat Hl) as W. exists L. split; [left|done].
    apply (heap_wf_write s s' L c (c + n)); [done|by apply (live_lookup s)|done|].
    intros f i Hd. apply Hc. intros Hi. apply Hd, half_addr_data. lia.
Qed.

Lemma given_block s g p size :
  given s g -> g !! p = Some size ->
  0 < size /\ umm_heap_addr < p /\ p + size <= umm_heap_addr + 8 * UMM_NUMBLOCKS.
Proof.
  intros (L & Hat & Hg) Hp. destruct (Hg p size Hp) as (c & n & -> & Hc & Hn).
  pose proof (live_bounds s L c n (live_not_fresh s L c n Hat Hc) Hc).
  unfold UMM_DATA_addr, UMM_BLOCK_addr, sizeof_umm_block. lia.
Qed.

Lemma given_apart s g p m q n :
  given s g -> g !! p = Some m -> g !! q = Some n -> p <> q -> p + m <= q \/ q + n <= p.
Proof.
  intros (L & Hat & Hg) Hp Hq Hne. destruct (Hg p m Hp) as (c & k & -> & Hc & Hk).
  destruct (Hg q n Hq) as (d & l & -> & Hd & Hl).
  pose proof (live_disjoint s L c k d l (live_not_fresh s L c k Hat Hc) Hc Hd ltac:(by intros ->)).
  unfold UMM_DATA_addr, UMM_BLOCK_addr, sizeof_umm_block. lia.
Qed.

Definition reachable (s0 : umm) : umm * gmap Z Z -> Prop :=
  rtc (fun x y => exists o, step o x y) (s0, ∅).

Lemma reachable_given s0 s g : fresh s0 -> reachable s0 (s, g) -> given s g /\ primask s = primask s0.
Proof.
  intros Hf Hr. assert (given s0 ∅ /\ primask s0 = primask s0) as H0 by (split; [exists empty_layout; split; [by right|done]|done]).
  revert H0. unfold reachable in Hr. change s0 with (s0, ∅ : gmap Z Z).1 at 1 2. change (∅ : gmap Z Z) with (s0, ∅ : gmap Z Z).2 at 3.
  change s with (s, g).1. change g with (s, g).2 at 2. generalize (primask s0). intros m.
  induction Hr as [|[s1 g1] [s2 g2] z [o Ho] Hr IH]; [done|]. intros [H1 H2]. apply IH. cbn in *.
  destruct (step_given o s1 g1 s2 g2 Ho H1) as [? E]. by rewrite E.
Qed.

(** C21: no use of the heap damages it.  From the cleared memory, after any sequence of
    allocations, frees of blocks that were given and writes to them, every further
    allocation of up to 524276 bytes (the limit of the 16-bit number of blocks) returns, every block given can be freed, the blocks given lie inside
    the heap and do not overlap, an allocation or a free changes no byte of any
    other block, and the interrupt mask is as it was. *)
Theorem heap_client_safe s0 s g :
  fresh s0 -> reachable s0 (s, g) ->
  primask s = primask s0 /\
  (forall size, 0 < size <= 524276 -> exists p s', umm_malloc size s = Some (p, s') /\ (p <> 0 -> g !! p = None)) /\
  (forall p size, g !! p = Some size ->
     umm_heap_addr < p /\ p + size <= umm_heap_addr + 8 * UMM_NUMBLOCKS /\
     exists s', umm_free p s = Some (tt, s')) /\
  (forall p m q n, g !! p = Some m -> g !! q = Some n -> p <> q -> p + m <= q \/ q + n <= p) /\
  (forall o s' g' q m f i, step o (s, g) (s', g') -> g !! q = Some m -> o <> Free q -> (forall p, o <> Write p) ->
     q <= half_addr f i < q + m -> cell f s' i = cell f s i).
Proof.
  intros Hf Hr. destruct (reachable_given s0 s g Hf Hr) as [Hg Hm]. pose proof Hg as (L & Hat & _).
  split_and!; [done| | | |].
  - intros size Hs. destruct (umm_malloc_lemma s L size Hat Hs) as (p & s' & Hrun & _). exists p, s'. split; [done|].
    by apply (given_malloc s g size p s').
  - intros p size Hp. destruct (given_block s g p size Hg Hp) as (_ & ? & ?).
    destruct (given_free s g _ size Hg Hp) as (s' & Hrun & _). split_and!; [done|done|by exists s'].
  - intros p m q n. by apply (given_apart s g).
  - intros o s' g' q m f i Ho Hq Hfr Hw Hi.
    inversion Ho as [? ? size p ? Hs Hrun|? ? p size ? Hp Hrun|? ? p size ? Hp Hlen Hmm Hc]; subst.
    + destruct (given_malloc s g size p s' Hg Hs Hrun) as (_ & _ & _ & H). by apply (H q m).
    + destruct (given_free s g p size Hg Hp) as (s2 & Hrun' & _ & _ & H). rewrite Hrun in Hrun'. injection Hrun' as <-.
      apply (H q m); [done|by intros ->|done].
    + by destruct (Hw p).
Qed.
End use.
