(* ===== verification/HeapInfo.v ===== *)
(** * Clearing and measuring the heap

    [umm_calloc] clears exactly the bytes asked for; [umm_info] counts the blocks and
    tells whether a block address is that of a free block; the used and the free bytes
    reported add up. *)

From Stdlib Require Import ZArith Lia.
From stdpp Require Import base gmap numbers list sets.
From S2P Require Import Prelude Chain Heap HeapSpec HeapAlloc HeapUse.
#[local] Open Scope Z_scope.
#[local] Open Scope stm_scope.

Section bytes.
Context `{U : UmmConfig}.
Implicit Types (s : umm) (L : layout).

(** ** Bytes *)

Definition byte_at (s : umm) (a : Z) : Z :=
  let v := cell (fst (half_at a)) s (snd (half_at a)) in
  if low_byte a then v mod 256 else v / 256 mod 256.

Lemma half_at_addr a :
  let '(f, i) := half_at a in half_addr f i = a - (if low_byte a then 0 else 1).
Proof.
  unfold half_at, half_addr, low_byte, UMM_BLOCK_addr, sizeof_umm_block.
  set (d := a - umm_heap_addr). replace a with (umm_heap_addr + d) at 1 by lia.
  pose proof (Z.div_mod d 2 ltac:(lia)) as H2. pose proof (Z.mod_pos_bound d 2 ltac:(lia)) as Hb2.
  pose proof (Z.div_mod (d / 2) 4 ltac:(lia)) as H4. pose proof (Z.mod_pos_bound (d / 2) 4 ltac:(lia)) as Hb4.
  assert (d / 2 mod 4 = 0 \/ d / 2 mod 4 = 1 \/ d / 2 mod 4 = 2 \/ d / 2 mod 4 = 3) as Hc by lia.
  destruct Hc as [E|[E|[E|E]]]; rewrite E;
    [change (Z.to_nat 0) with 0%nat|change (Z.to_nat 1) with 1%nat|change (Z.to_nat 2) with 2%nat|change (Z.to_nat 3) with 3%nat];
    cbn [nth]; destruct (Z.eqb_spec (d mod 2) 0); lia.
Qed.

Lemma half_at_inj a b : half_at a = half_at b -> low_byte a = low_byte b -> a = b.
Proof.
  intros Hh Hl. pose proof (half_at_addr a) as Ha. pose proof (half_at_addr b) as Hb.
  rewrite <- Hh, <- Hl in Hb. destruct (half_at a) as [f i]. destruct (low_byte a); lia.
Qed.

Lemma zero_byte_eq a s :
  inside s (snd (half_at a)) ->
  exists s', zero_byte a s = Some (tt, s') /\ length (umm_heap s') = length (umm_heap s) /\ same_rest s s' /\
    (forall f i, (f, i) <> half_at a -> cell f s' i = cell f s i) /\
    (forall b, byte_at s' b = if decide (b = a) then 0 else byte_at s b).
Proof.
  intros Hi. unfold zero_byte. pose proof (half_at_inj a) as Hinj. unfold byte_at.
  destruct (half_at a) as [f i] eqn:Ea. cbn [snd] in Hi. rewrite rd_bind, wr_eq by done.
  eexists. split; [done|]. split; [unfold store; cbn; by rewrite length_aset|]. split; [done|]. split.
  - intros g j Hne. rewrite cell_store by done. rewrite decide_False; [done|]. intros [-> ->]. done.
  - intros b. rewrite cell_store by done.
    assert (forall v, v mod 256 mod 256 = v mod 256) as Hmm by (intros; by rewrite Z.mod_mod by lia).
    assert (forall v, uint16 v mod 256 = v mod 256) as H1.
    { intros v. unfold uint16, uint. change (2 ^ 16) with (256 * 256). rewrite Z.rem_mul_r by lia.
      rewrite (Z.mul_comm 256), Z.mod_add by lia. by rewrite Z.mod_mod by lia. }
    assert (forall v, uint16 v / 256 mod 256 = v / 256 mod 256) as H2.
    { intros v. unfold uint16, uint. change (2 ^ 16) with (256 * 256). rewrite Z.rem_mul_r by lia.
      rewrite (Z.mul_comm 256 (_ mod _)), Z.div_add by lia. rewrite Z.div_small by (apply Z.mod_pos_bound; lia).
      by rewrite Z.add_0_l, Z.mod_mod by lia. }
    destruct (decide (fst (half_at b) = f /\ snd (half_at b) = i)) as [[<- <-]|Hne].
    + assert (half_at b = half_at a) as Hba by (rewrite Ea; by destruct (half_at b)).
      destruct (low_byte a) eqn:La, (low_byte b) eqn:Lb.
      * rewrite decide_True by (symmetry; apply Hinj; rewrite <- ?Ea; congruence).
        rewrite H1. apply Z.mod_mul. lia.
      * rewrite decide_False by (intros ->; congruence). rewrite H2. by rewrite Z.div_mul by lia.
      * rewrite decide_False by (intros ->; congruence). by rewrite H1.
      * rewrite decide_True by (symmetry; apply Hinj; rewrite <- ?Ea; congruence).
        rewrite H2. by rewrite Z.div_small by (apply Z.mod_pos_bound; lia).
    + rewrite decide_False; [done|]. intros ->. apply Hne. by rewrite Ea.
Qed.

Lemma memset0_spec n : forall p s,
  (forall a, p <= a < p + Z.of_nat n -> inside s (snd (half_at a))) ->
  exists s', memset0 p n s = Some (tt, s') /\ length (umm_heap s') = length (umm_heap s) /\ same_rest s s' /\
    (forall f i, (forall a, p <= a < p + Z.of_nat n -> (f, i) <> half_at a) -> cell f s' i = cell f s i) /\
    (forall b, byte_at s' b = if decide (p <= b < p + Z.of_nat n) then 0 else byte_at s b).
Proof.
  induction n as [|n IH]; intros p s Hin.
  - exists s. split_and!; try done. intros b. by rewrite decide_False by lia.
  - destruct (zero_byte_eq p s) as (s1 & Hrun1 & Hl1 & Hr1 & Hc1 & Hb1); [apply Hin; lia|].
    destruct (IH (p + 1) s1) as (s2 & Hrun2 & Hl2 & Hr2 & Hc2 & Hb2).
    { intros a Ha. unfold inside. rewrite Hl1. apply Hin. lia. }
    exists s2. cbn [memset0]. rewrite (bind_Some _ _ _ _ _ Hrun1). split_and!; [done|congruence|by eapply same_rest_trans| |].
    + intros f i Hne. rewrite Hc2, Hc1; [done|apply Hne; lia|intros a Ha; apply Hne; lia].
    + intros b. rewrite Hb2, Hb1. do 3 (case_decide; try lia); done.
Qed.

(** The bytes of the data of a block are in its data cells. *)
Lemma data_byte c n a :
  UMM_DATA_addr c <= a < UMM_DATA_addr c + (8 * n - 4) ->
  data_cell c (c + n) (fst (half_at a)) (snd (half_at a)).
Proof.
  intros Ha. apply half_addr_data. pose proof (half_at_addr a) as H. destruct (half_at a) as [f i]. cbn [fst snd].
  unfold low_byte in H. destruct (Z.eqb_spec ((a - umm_heap_addr) mod 2) 0) as [E|E]; [lia|].
  assert (a <> UMM_DATA_addr c).
  { intros ->. apply E. unfold UMM_DATA_addr, UMM_BLOCK_addr, sizeof_umm_block.
    replace (umm_heap_addr + 8 * c + 4 - umm_heap_addr) with ((4 * c + 2) * 2) by lia. apply Z.mod_mul. lia. }
  lia.
Qed.

Lemma data_cell_disjoint s L a n b m f i :
  heap_wf s L -> live L !! a = Some n -> live L !! b = Some m -> a <> b ->
  data_cell a (a + n) f i -> data_cell b (b + m) f i -> False.
Proof.
  intros W Ha Hb Hne. pose proof (live_disjoint s L a n b m W Ha Hb Hne).
  pose proof (live_bounds s L a n W Ha). pose proof (live_bounds s L b m W Hb). unfold data_cell. lia.
Qed.

(** Clearing the data of a live block. *)
Lemma memset0_live s L c n k :
  heap_wf s L -> live L !! c = Some n -> Z.of_nat k <= 8 * n - 4 ->
  exists s', memset0 (UMM_DATA_addr c) k s = Some (tt, s') /\ heap_wf s' L /\ same_rest s s' /\
    keeps_data L c s s' /\
    (forall a, UMM_DATA_addr c <= a < UMM_DATA_addr c + Z.of_nat k -> byte_at s' a = 0).
Proof.
  intros W Hc Hk. pose proof (live_bounds s L c n W Hc) as Hb.
  destruct (memset0_spec k (UMM_DATA_addr c) s) as (s' & Hrun & Hlen & Hrest & Hcell & Hbyte).
  { intros a Ha. apply (wf_inside W). pose proof (data_byte c n a ltac:(lia)) as Hd. unfold data_cell in Hd. lia. }
  assert (forall f i, ~ data_cell c (c + n) f i -> cell f s' i = cell f s i) as Hc'.
  { intros f i Hd. apply Hcell. intros a Ha E. apply Hd. pose proof (data_byte c n a ltac:(lia)) as Hd'. by rewrite <- E in Hd'. }
  exists s'. split_and!; [done| |done| |].
  - by apply (heap_wf_write s s' L c (c + n)); [|apply (live_lookup s)|..].
  - intros a m Ha Hne f i Hd. apply Hc'. intros Hd'. by apply (data_cell_disjoint s L a m c n f i W).
  - intros a Ha. by rewrite Hbyte, decide_True.
Qed.

(** [umm_calloc].  When the product of the arguments does not overflow it
    allocates like [umm_malloc], and every byte of the [num * item_size] bytes of
    the block returned is zero; no other live block changes. *)
Theorem umm_calloc_zeroes s L num item_size :
  heap_at s L -> 0 < item_size * num <= 524276 ->
  let n := umm_blocks (item_size * num) in
  exists p s', umm_calloc num item_size s = Some (p, s') /\ same_rest s s' /\
    ((p = 0 /\ umm_heap s' = umm_heap s) \/
     (exists c L', p = UMM_DATA_addr c /\ heap_at s' L' /\ live L !! c = None /\
        live L' = <[c := n]> (live L) /\ keeps_data L c s s' /\
        forall a, p <= a < p + item_size * num -> byte_at s' a = 0)).
Proof.
  intros Hat Hs n. pose proof (umm_blocks_spec _ Hs) as Hn. fold n in Hn.
  unfold umm_calloc. rewrite uint32_small by lia.
  destruct (umm_malloc_lemma s L _ Hat Hs) as (p & s1 & Hrun & Hr). rewrite (bind_Some _ _ _ _ _ Hrun).
  destruct Hr as [(-> & Hh & Hrest & _)|(c & L' & -> & Ha & _)].
  - exists 0, s1. split; [done|]. split; [done|]. by left.
  - destruct (got_live s L n s1 c L' Hat ltac:(lia) Ha) as (W & Hc & Hl & Hd).
    assert (live L' !! c = Some n) as Hcn by (by rewrite Hl, lookup_insert_eq).
    pose proof (live_bounds s1 L' c n W Hcn) as Hb.
    destruct (memset0_live s1 L' c n (Z.to_nat (item_size * num)) W Hcn ltac:(lia)) as (s2 & Hrun2 & W2 & Hrest2 & Hd2 & Hz).
    exists (UMM_DATA_addr c), s2.
    assert (truthy (UMM_DATA_addr c) = true) as -> by (unfold truthy; by apply negb_true_iff, Z.eqb_neq, data_not_null; lia).
    rewrite (bind_Some _ _ _ _ _ Hrun2). split; [done|]. split; [destruct Ha as (_ & Hrest & _); by eapply same_rest_trans|].
    right. exists c, L'. split_and!; [done|by left|done|done| |].
    + intros a m Hla Hne. eapply same_data_trans; [by apply Hd|]. apply Hd2; [|done]. by rewrite Hl, lookup_insert_ne.
    + intros a Ha'. apply Hz. lia.
Qed.

(** ** The report *)

(** The blocks of a layout with their sizes. *)
Definition sizes (L : layout) : list (Z * Z) := distances (lay_blocks L ++ [lay_top L]).
Fixpoint total (l : list (Z * Z)) : Z :=
  match l with [] => 0 | p :: l' => p.2 + total l' end.
(** The blocks in use. *)
Definition used_total (L : layout) : Z := total (map_to_list (live L)).
Definition free_total (L : layout) : Z := total (filter (fun p => p.1 ∈ lay_free L) (sizes L)).

(** What the loop adds up. *)
Definition tally (fs : list Z) (i : UMM_HEAP_INFO) (p : Z * Z) : UMM_HEAP_INFO :=
  let i := count_total p.2 i in
  if bool_decide (p.1 ∈ fs) then count_free p.2 i else count_used p.2 i.

Lemma info_loop_spec s L ptr (W : heap_wf s L) : forall fuel l1 l2 x i,
  lay_blocks L ++ [lay_top L] = l1 ++ x :: l2 -> (length l2 <= fuel)%nat ->
  (forall f, f ∈ lay_free L -> ptr <> UMM_BLOCK_addr f) ->
  info_loop fuel ptr x (set_heapInfo i s) =
  Some ((false, lay_top L), set_heapInfo (fold_left (tally (lay_free L)) (distances (x :: l2)) i) s).
Proof.
  intros fuel. induction fuel as [|fuel IH]; intros l1 l2 x i Hl Hf Hp.
  all: destruct l2 as [|y l2]; cbn [length] in Hf; try lia.
  1, 2: apply app_inj_tail in Hl as [_ <-]; cbn [info_loop distances fold_left];
    rewrite rd_bind by (eapply (chain_inside W); unfold chain; set_solver);
    change (cell NBLOCK (set_heapInfo i s) (lay_top L)) with (cell NBLOCK s (lay_top L));
    rewrite (hw_end _ _ W); done.
  assert (consec (chain L) x y) as Hxy by (exists (0 :: l1), l2; unfold chain; by rewrite Hl).
  pose proof (consec_chain_range W x y Hxy) as Hr. destruct (consec_elem _ _ _ Hxy) as [Hx _].
  cbn [info_loop]. rewrite rd_bind by (by eapply (chain_inside W)).
  change (cell NBLOCK (set_heapInfo i s) x) with (cell NBLOCK s x).
  rewrite (hw_next W x y Hxy), number_mask, number_flag by lia.
  assert (truthy y = true) as -> by (unfold truthy; apply negb_true_iff, Z.eqb_neq; lia).
  specialize (IH (l1 ++ [x]) l2 y). cbn [distances fold_left].
  change (upd_info ?g) with (fun t => Some (tt, set_heapInfo (g (heapInfo t)) t)).
  unfold tally at 2. cbn [fst snd]. case_bool_decide as Hfree.
  - unfold tbind at 1 2 3. cbn. rewrite (proj2 (Z.eqb_neq ptr _)) by (by apply Hp).
    apply IH; [by rewrite <- app_assoc|lia|done].
  - unfold tbind at 1 2 3. cbn. apply IH; [by rewrite <- app_assoc|lia|done].
Qed.

#[local] Instance total_Permutation : Proper ((≡ₚ) ==> (=)) total.
Proof. induction 1; cbn; lia. Qed.

Lemma distances_NoDup l : increasing l -> NoDup (distances l).*1.
Proof.
  induction l as [|x [|y l] IH]; intros H; [constructor..|].
  change (distances (x :: y :: l)) with ((x, y - x) :: distances (y :: l)). rewrite fmap_cons.
  apply increasing_cons in H as [H Hx]. constructor; [|by apply IH].
  intros ([a n] & Ha & Hin)%list_elem_of_fmap. cbn in Ha. subst a. apply elem_of_distances, consec_elem in Hin as [Hin _].
  specialize (Hx x Hin). lia.
Qed.

Lemma total_filter_split (P : Z * Z -> Prop) `{!forall p, Decision (P p)} l :
  total (filter P l) + total (filter (fun p => ~ P p) l) = total l.
Proof.
  induction l as [|p l IH]; [done|]. rewrite !filter_cons. repeat case_decide; try done; cbn in *; lia.
Qed.

Lemma total_distances x l t : total (distances (x :: l ++ [t])) = t - x.
Proof.
  revert x. induction l as [|y l IH]; intros x; [cbn; lia|].
  change (distances (x :: (y :: l) ++ [t])) with ((x, y - x) :: distances (y :: l ++ [t])).
  specialize (IH y). cbn [total snd]. lia.
Qed.

Lemma used_total_eq s L :
  heap_wf s L -> used_total L = total (filter (fun p => p.1 ∉ lay_free L) (sizes L)).
Proof.
  intros W. unfold used_total, live, sizes. rewrite map_to_list_to_map; [done|].
  pose proof (hw_inc _ _ W) as Hi. apply increasing_cons in Hi as [Hi _]. apply distances_NoDup in Hi.
  eapply sublist_NoDup; [exact Hi|]. apply fmap_sublist, sublist_filter.
Qed.

Lemma sizes_range s L a n : heap_wf s L -> (a, n) ∈ sizes L -> 0 < n.
Proof.
  intros W H. apply elem_of_distances in H. assert (consec (chain L) a (a + n)) as Hc.
  { destruct H as (l1 & l2 & E). exists (0 :: l1), l2. unfold chain. by rewrite E. }
  pose proof (consec_chain_range W _ _ Hc). lia.
Qed.

Lemma first_block s L : heap_wf s L -> exists l, lay_blocks L ++ [lay_top L] = 1 :: l.
Proof.
  intros W. pose proof (hw_first _ _ W) as H. pose proof (chain_NoDup W) as Hn. unfold chain in *.
  destruct (lay_blocks L ++ [lay_top L]) as [|x l]; [by apply consec_one in H|]. exists l.
  apply NoDup_cons in Hn as [Hn _]. apply consec_cons in H as [[_ ->]|H]; [done|].
  by apply consec_elem in H as [H _].
Qed.

Lemma totals s L :
  heap_wf s L -> used_total L + free_total L = lay_top L - 1 /\ 0 <= used_total L /\ 0 <= free_total L.
Proof.
  intros W. rewrite (used_total_eq s) by done. unfold free_total.
  assert (forall l, (forall p, p ∈ l -> 0 < p.2) -> 0 <= total l) as Hpos.
  { induction l as [|p l IH]; intros H; [done|]. cbn. pose proof (H p ltac:(set_solver)). specialize (IH ltac:(set_solver)). lia. }
  split_and!.
  - rewrite Z.add_comm. rewrite (total_filter_split (fun p => p.1 ∈ lay_free L)). unfold sizes.
    destruct (first_block s L W) as [l Hl]. rewrite Hl. destruct l as [|y l _] using rev_ind.
    + cbn. assert (lay_top L = 1) as ->; [|done]. by destruct (lay_blocks L) as [|? []]; injection Hl.
    + rewrite app_comm_cons in Hl. apply app_inj_tail in Hl as [_ <-]. apply total_distances.
  - apply Hpos. intros [a n] [_ H]%list_elem_of_filter. by eapply sizes_range.
  - apply Hpos. intros [a n] [_ H]%list_elem_of_filter. by eapply sizes_range.
Qed.

Lemma tally_spec fs l : forall i,
  (forall p, p ∈ l -> 0 < p.2) -> 0 <= usedBlocks i -> 0 <= freeBlocks i ->
  usedBlocks i + total (filter (fun p => p.1 ∉ fs) l) < 2 ^ 16 ->
  freeBlocks i + total (filter (fun p => p.1 ∈ fs) l) < 2 ^ 16 ->
  usedBlocks (fold_left (tally fs) l i) = usedBlocks i + total (filter (fun p => p.1 ∉ fs) l) /\
  freeBlocks (fold_left (tally fs) l i) = freeBlocks i + total (filter (fun p => p.1 ∈ fs) l).
Proof.
  assert (forall (P : Z * Z -> Prop) `{!forall p, Decision (P p)} l, (forall p, p ∈ l -> 0 < p.2) -> 0 <= total (filter P l)) as Hpos.
  { intros P dec l'. induction l' as [|p l' IH]; intros H; [done|]. rewrite filter_cons. pose proof (H p ltac:(by left)).
    specialize (IH (fun q Hq => H q (list_elem_of_further _ _ _ Hq))). case_decide; cbn in *; lia. }
  induction l as [|p l IH]; intros i Hp Hu Hf Hub Hfb; [cbn; lia|].
  assert (0 < p.2) as Hp0 by (apply Hp; by left).
  assert (forall q, q ∈ l -> 0 < q.2) as Hp' by (intros q Hq; apply Hp; by right).
  pose proof (Hpos (fun p => p.1 ∉ fs) _ l Hp'). pose proof (Hpos (fun p => p.1 ∈ fs) _ l Hp').
  rewrite !filter_cons in *. cbn [fold_left]. unfold tally at 2 4.
  destruct (decide (p.1 ∈ fs)) as [Hin|Hin].
  - rewrite decide_False in * by tauto. rewrite bool_decide_true by done.
    cbn [total] in *.
    assert (uint16 (freeBlocks i + p.2) = freeBlocks i + p.2) as E by (apply uint16_small; lia).
    destruct (IH (count_free p.2 (count_total p.2 i))) as [-> ->]; cbn; rewrite ?E; try done; lia.
  - rewrite decide_True in * by done. rewrite bool_decide_false by done.
    cbn [total] in *.
    assert (uint16 (usedBlocks i + p.2) = usedBlocks i + p.2) as E by (apply uint16_small; lia).
    destruct (IH (count_used p.2 (count_total p.2 i))) as [-> ->]; cbn; rewrite ?E; try done; lia.
Qed.

(** [umm_info] with a pointer that is not the address of a free block. *)
Lemma umm_info_eq s L ptr force :
  heap_wf s L -> (forall f, f ∈ lay_free L -> ptr <> UMM_BLOCK_addr f) ->
  exists i, umm_info ptr force s = Some (0, set_heapInfo i s) /\
    usedBlocks i = used_total L /\ freeBlocks i = UMM_NUMBLOCKS - 1 - used_total L.
Proof.
  intros W Hp. destruct (first_block s L W) as [l Hl]. destruct (totals s L W) as (Ht & Hu & Hf).
  pose proof numblocks_range as Hnb. pose proof (hw_top _ _ W) as Htop.
  set (s0 := set_heapInfo (mkInfo 0 0 0 0 0 0) (set_primask true s)).
  assert (heap_wf s0 L) as W0 by by apply (heap_wf_ext s).
  assert (length l <= Z.to_nat UMM_NUMBLOCKS)%nat as Hfuel.
  { rewrite <- (length_seqZ 0 UMM_NUMBLOCKS). apply submseteq_length, NoDup_submseteq.
    - pose proof (chain_NoDup W) as Hn. unfold chain in Hn. rewrite Hl in Hn.
      by apply NoDup_cons in Hn as [_ [_ Hn]%NoDup_cons].
    - intros a Ha. apply elem_of_seqZ.
      assert (a ∈ chain L) as Hc%(chain_range W) by (unfold chain; rewrite Hl; by do 2 right). lia. }
  pose proof (info_loop_spec s0 L ptr W0 _ [] l 1 (mkInfo 0 0 0 0 0 0) Hl Hfuel Hp) as Hloop.
  rewrite <- Hl in Hloop. fold (sizes L) in Hloop. set (i := fold_left _ _ _) in Hloop.
  destruct (tally_spec (lay_free L) (sizes L) (mkInfo 0 0 0 0 0 0)) as [Eu Ef]; cbn.
  1: intros [a n] H; by eapply sizes_range.
  1, 2: lia.
  1: rewrite <- (used_total_eq s) by done; lia.
  1: unfold free_total in *; lia.
  fold i in Eu, Ef. rewrite <- (used_total_eq s) in Eu by done. fold (free_total L) in Ef. cbn [usedBlocks freeBlocks] in Eu, Ef.
  exists (count_rest (UMM_NUMBLOCKS - lay_top L) i). split.
  - unfold umm_info.
    change (set_heapInfo _ (set_primask true s)) with s0.
    rewrite rd_bind by (apply (chain_inside W0); by left).
    rewrite (hw_next W0 0 1 (hw_first _ _ W0)), number_mask by lia.
    change s0 with (set_heapInfo (mkInfo 0 0 0 0 0 0) s0) at 1. rewrite (bind_Some _ _ _ _ _ Hloop).
    done.
  - cbn [usedBlocks freeBlocks count_rest]. rewrite Eu, Ef. split; [lia|]. rewrite uint16_small; lia.
Qed.
Lemma data_not_block c f : UMM_DATA_addr c <> UMM_BLOCK_addr f.
Proof. unfold UMM_DATA_addr, UMM_BLOCK_addr, sizeof_umm_block. lia. Qed.

(** The sizes reported.  The used size is eight times the blocks of the live
    blocks together, the free size what is left of the heap without its first block
    -- the free blocks and the unused rest --, and taking them changes neither the
    heap nor the interrupt mask.  Asked for a pointer that [umm_malloc] returned,
    [umm_info] answers NULL, whether its block is live or free. *)
Theorem heap_sizes_reported s L :
  heap_wf s L ->
  (exists s', OSGetUsedHeapSize s = Some (8 * used_total L, s') /\
     umm_heap s' = umm_heap s /\ primask s' = primask s) /\
  (exists s', OSGetFreeHeapSize s = Some (8 * (UMM_NUMBLOCKS - 1) - 8 * used_total L, s') /\
     umm_heap s' = umm_heap s /\ primask s' = primask s) /\
  (forall c force, exists i, umm_info (UMM_DATA_addr c) force s = Some (0, set_heapInfo i s)).
Proof.
  intros W. destruct (totals s L W) as (Ht & Hu & Hf). pose proof numblocks_range. pose proof (hw_top _ _ W).
  assert (forall f, f ∈ lay_free L -> 0 <> UMM_BLOCK_addr f) as Hz.
  { intros f Hin%(free_range W). pose proof umm_heap_addr_ok. unfold UMM_BLOCK_addr, sizeof_umm_block. lia. }
  destruct (umm_info_eq s L 0 0 W Hz) as (i & Hrun & Eu & Ef).
  split_and!.
  - exists (set_heapInfo i s). split; [|done]. unfold OSGetUsedHeapSize. rewrite (bind_Some _ _ _ _ _ Hrun).
    unfold tbind, tget, tret. cbn. rewrite Eu. unfold sizeof_umm_block. rewrite uint32_small by lia. do 2 f_equal. lia.
  - exists (set_heapInfo i s). split; [|done]. unfold OSGetFreeHeapSize. rewrite (bind_Some _ _ _ _ _ Hrun).
    unfold tbind, tget, tret. cbn. rewrite Ef. unfold sizeof_umm_block. rewrite uint32_small by lia. do 2 f_equal. lia.
  - intros c force. destruct (umm_info_eq s L (UMM_DATA_addr c) force W) as (j & Hj & _); [|by exists j].
    intros f _. apply data_not_block.
Qed.
End bytes.
