(* ===== verification/HeapExamples.v ===== *)
(** * The heap on concrete memories

    The allocator of Heap.v meets the contract that the dynamic queues rely on
    (DQueueSpec.v); the theorems about the heap evaluated on small memories; and runs
    that show what happens beyond the sizes for which they hold. *)

From Stdlib Require Import ZArith Lia.
From stdpp Require Import base gmap numbers list.
From S2P Require Import Prelude Chain Heap HeapSpec HeapAlloc HeapUse HeapInfo.
From S2P Require Import Config State Sched Event Sample Ring DQueue DQueueSpec.
#[local] Open Scope Z_scope.

(** ** The allocator of the dynamic queues *)
Section allocator.
Context `{U : UmmConfig}.

(** [BRTOS_ALLOC] is [umm_malloc], [BRTOS_DEALLOC] is [umm_free]; the blocks given
    are recorded beside the memory. *)
Definition umm_alloc (n : Z) (h : umm * gmap Z Z) : Z * (umm * gmap Z Z) :=
  match umm_malloc n h.1 with
  | Some (p, s') => (p, (s', if decide (p = 0) then h.2 else <[p := n]> h.2))
  | None => (0, h)
  end.
Definition umm_dealloc (p : Z) (h : umm * gmap Z Z) : umm * gmap Z Z :=
  match umm_free p h.1 with
  | Some (_, s') => (s', delete p h.2)
  | None => h
  end.

Definition umm_config : Config := ExampleConfig (umm * gmap Z Z) umm_alloc umm_dealloc.

#[local] Existing Instance umm_config.

#[global] Instance umm_Allocator : Allocator.
Proof.
  refine {| heap_ok := (fun h => given h.1 h.2) : @heap_t umm_config -> Prop;
            blocks := snd : @heap_t umm_config -> gmap Z Z;
            heap_end := umm_heap_addr + 8 * UMM_NUMBLOCKS |}.
  - intros [s g] p n Hg Hp. destruct (given_block s g p n Hg Hp) as (? & ? & ?). pose proof umm_heap_addr_ok. lia.
  - intros [s g] p n q m Hg Hp Hq Hne. by apply (given_apart s g).
  - intros [s g] n p h' Hg Hn Ha. cbn [fst snd] in *. unfold BRTOS_ALLOC, umm_config, ExampleConfig, umm_alloc in Ha.
    cbn [fst snd] in Ha. pose proof Hg as (L & Hat & _).
    destruct (umm_malloc_lemma s L n Hat ltac:(lia)) as (p' & s' & Hrun & _). rewrite Hrun in Ha. injection Ha as <- <-.
    destruct (given_malloc s g n p' s' Hg ltac:(lia) Hrun) as (_ & Hg' & Hnew & _). split; [done|].
    cbn [snd]. case_decide; [by left|right]. by split; [apply Hnew|].
  - intros [s g] p Hg [n Hp]. cbn [fst snd] in *. destruct (given_free s g p n Hg Hp) as (s' & Hrun & _ & Hg' & _).
    unfold BRTOS_DEALLOC, umm_config, ExampleConfig, umm_dealloc. cbn [fst snd]. by rewrite Hrun.
Defined.
End allocator.

(** ** Two configurations of 32 blocks *)

Lemma small_ok : 16 <= 256 < 0x8000 * 8.
Proof. done. Qed.
Lemma small_addr_ok : 0 < 16 /\ 16 + 256 < 2 ^ 31.
Proof. done. Qed.
Definition best_fit : UmmConfig := Build_UmmConfig 256 false 16 small_ok small_addr_ok.
Definition first_fit : UmmConfig := Build_UmmConfig 256 true 16 small_ok small_addr_ok.

Definition no_info : UMM_HEAP_INFO := mkInfo 0 0 0 0 0 0.
Definition cleared : umm := mkUmm (replicate 32 (mkBlock 0 0 0 0)) no_info false.

Lemma cell_cleared f i : cell f cleared i = 0.
Proof.
  unfold cell, block_of, cleared, aget. cbn [umm_heap]. destruct (0 <=? i); [|by destruct f].
  destruct (replicate _ _ !! _) as [b|] eqn:E; [|by destruct f]. apply lookup_replicate in E as [-> _]. by destruct f.
Qed.

(** Five allocations, of 20, 40, 4, 12 and 4 bytes. *)
Definition five `{U : UmmConfig} : hp (list Z) :=
  (a <- umm_malloc 20 ;; b <- umm_malloc 40 ;; c <- umm_malloc 4 ;; d <- umm_malloc 12 ;; e <- umm_malloc 4 ;;
   tret [a; b; c; d; e])%stm.

Example five_at : option_map fst (five (U := best_fit) cleared) = Some [28; 52; 100; 108; 124].
Proof. by vm_compute. Qed.

(** The fourth and then the second are freed: blocks 4 (of 6) and 11 (of 2) are free. *)
Definition holes : umm :=
  match (five (U := best_fit) ;;; umm_free (U := best_fit) 108 ;;; umm_free (U := best_fit) 52)%stm cleared with Some (_, s) => s | None => cleared end.
Definition holes_layout : layout := mkLayout [1; 4; 10; 11; 13] [4; 11] 14.

(** The neighbours of a concrete list, one case each. *)
Ltac neighbours H :=
  unfold chain, free_chain in H; cbn [lay_blocks lay_free lay_top holes_layout app] in H;
  rewrite ?consec_cons in H; repeat destruct H as [H|H];
  try (apply consec_one in H; contradiction); destruct H as [-> ->].

Lemma holes_wf : heap_wf (U := best_fit) holes holes_layout.
Proof.
  split; unfold holes_layout; cbn [lay_blocks lay_free lay_top].
  - by vm_compute.
  - repeat constructor.
  - by exists [], [4; 10; 11; 13; 14].
  - done.
  - intros a b H. neighbours H; split; by vm_compute.
  - by vm_compute.
  - set_solver.
  - by apply (bool_decide_eq_true_1 (NoDup [4; 11])).
  - intros a b H. neighbours H; split; by vm_compute.
  - by vm_compute.
  - intros a b H. neighbours H; rewrite !elem_of_cons, !elem_of_nil; lia.
Qed.

Lemma cleared_fresh : fresh (U := best_fit) cleared.
Proof. split; [done|apply cell_cleared]. Qed.

#[local] Existing Instance best_fit.

(** ** The theorems on them *)

(** Ten bytes are two blocks: the best fit is block 11. *)
Lemma umm_malloc_correct_witness :
  10 <= 8 * umm_blocks 10 - 4 < 10 + 8 /\
  exists p s', umm_malloc 10 holes = Some (p, s') /\ same_rest holes s' /\
    (refused holes holes_layout (umm_blocks 10) p s' \/ granted holes holes_layout (umm_blocks 10) p s').
Proof. apply (umm_malloc_correct holes holes_layout 10); [left; exact holes_wf|done]. Defined.

(** Block 10 lies between the two free ones. *)
Lemma umm_free_correct_witness :
  exists s' L', umm_free (UMM_DATA_addr 10) holes = Some (tt, s') /\ freed_block holes holes_layout 10 s' L'.
Proof. apply (umm_free_correct holes holes_layout 10 1); [left; exact holes_wf|by vm_compute]. Defined.

(** After two allocations, a write to the second and its release. *)
Definition after_two : umm :=
  match (_ <- umm_malloc 20 ;; umm_malloc 40)%stm cleared with Some (_, s) => s | None => cleared end.
Definition after_write : umm :=
  match wr PFREE 5 0xABCD after_two with Some (_, s) => s | None => after_two end.
Definition after_free : umm :=
  match umm_free 52 after_write with Some (_, s) => s | None => after_write end.

Lemma after_free_reachable : reachable cleared (after_free, {[ 28 := 20 ]}).
Proof.
  set (s1 := match umm_malloc 20 cleared with Some (_, s) => s | None => cleared end).
  eapply rtc_l; [exists (Malloc 20); apply (step_malloc cleared ∅ 20 28 s1); [done|by vm_compute]|].
  eapply rtc_l; [exists (Malloc 40); apply (step_malloc s1 _ 40 52 after_two); [done|by vm_compute]|].
  eapply rtc_l; [exists (Write 52); apply (step_write after_two _ 52 40 after_write); [done|by vm_compute|done|]|].
  - intros f i Hi. change after_write with (store PFREE 5 0xABCD after_two). rewrite cell_store by done.
    rewrite decide_False; [done|]. intros [-> ->]. by apply Hi.
  - eapply rtc_l; [exists (Free 52); apply (step_free after_write _ 52 40 after_free); [done|by vm_compute]|].
    apply rtc_refl.
Qed.

Lemma heap_client_safe_witness :
  primask after_free = false /\
  (forall size, 0 < size <= 524276 -> exists p s', umm_malloc size after_free = Some (p, s') /\
     (p <> 0 -> ({[ 28 := 20 ]} : gmap Z Z) !! p = None)) /\
  (exists s', umm_free 28 after_free = Some (tt, s')) /\
  (forall o s' g' f i, step o (after_free, {[ 28 := 20 ]}) (s', g') -> o <> Free 28 -> (forall p, o <> Write p) ->
     28 <= half_addr f i < 28 + 20 -> cell f s' i = cell f after_free i).
Proof.
  destruct (heap_client_safe cleared after_free {[ 28 := 20 ]} cleared_fresh after_free_reachable) as (H1 & H2 & H3 & _ & H5).
  split_and!; [exact H1|exact H2|by apply (H3 28 20)|]. intros o s' g' f i Ho. by apply (H5 o s' g' 28 20 f i Ho).
Defined.

Lemma umm_calloc_zeroes_witness :
  exists p s', umm_calloc 3 4 holes = Some (p, s') /\ same_rest holes s' /\
    ((p = 0 /\ umm_heap s' = umm_heap holes) \/
     (exists c L', p = UMM_DATA_addr c /\ heap_at s' L' /\ live holes_layout !! c = None /\
        live L' = <[c := 2]> (live holes_layout) /\ keeps_data holes_layout c holes s' /\
        forall a, p <= a < p + 12 -> byte_at s' a = 0)).
Proof. apply (umm_calloc_zeroes holes holes_layout 3 4); [left; exact holes_wf|done]. Defined.

(** Three blocks are live, of three, one and one units. *)
Lemma heap_sizes_reported_witness :
  (exists s', OSGetUsedHeapSize holes = Some (8 * 5, s') /\ umm_heap s' = umm_heap holes /\ primask s' = false) /\
  (exists s', OSGetFreeHeapSize holes = Some (8 * 31 - 8 * 5, s') /\ umm_heap s' = umm_heap holes /\ primask s' = false) /\
  (forall c force, exists i, umm_info (UMM_DATA_addr c) force holes = Some (0, set_heapInfo i holes)).
Proof.
  destruct (heap_sizes_reported holes holes_layout holes_wf) as (H1 & H2 & H3).
  assert (used_total holes_layout = 5) as E by by vm_compute. rewrite E in H1, H2. split_and!; [exact H1|exact H2|exact H3].
Defined.

(** ** The strategies

    The free list is block 4, of six units, before block 11, of two: with the best
    fit a request of two units takes block 11, with the first fit the end of
    block 4; the example project's configuration is the first fit. *)
Example best_fit_picks : option_map fst (umm_malloc (U := best_fit) 10 holes) = Some (UMM_DATA_addr 11).
Proof. by vm_compute. Qed.
Example first_fit_picks : option_map fst (umm_malloc (U := first_fit) 10 holes) = Some (UMM_DATA_addr 8).
Proof. by vm_compute. Qed.

(** ** Beyond the theorems *)

(** The number of blocks is kept in 16 bits: a request of 524277 bytes is granted
    and gets a block of no units, whose header refers to the block itself. *)
Example umm_malloc_size_wraps :
  umm_blocks 524277 = 0 /\
  match umm_malloc 524277 cleared with
  | Some (p, s') => p = UMM_DATA_addr 1 /\ cell NBLOCK s' 1 = 1
  | None => False
  end.
Proof. by vm_compute. Qed.

(** The product of [umm_calloc] wraps at 32 bits: a request of 2^30 + 1 elements of
    four bytes is granted, with four bytes. *)
Example umm_calloc_size_wraps :
  match umm_calloc (2 ^ 30 + 1) 4 cleared with
  | Some (p, s') => p = UMM_DATA_addr 1 /\ cell NBLOCK s' 1 = 2
  | None => False
  end.
Proof. by vm_compute. Qed.

(** A free block next to the unused rest is not joined with it: after a block of 100
    bytes was freed, the whole heap of 31 units is free, but 140 bytes, 18 units,
    are refused. *)
Example rest_not_joined :
  option_map fst ((p <- umm_malloc 100 ;; umm_free p ;;; umm_malloc 140)%stm cleared) = Some 0 /\
  option_map fst (umm_malloc 140 cleared) = Some 28 /\ umm_blocks 140 = 18.
Proof. by vm_compute. Qed.

(** [umm_info] is documented to return its argument if it is a free block; for the
    pointer of a block that was just freed it returns NULL. *)
Example umm_info_misses_freed :
  option_map fst ((p <- umm_malloc 20 ;; _ <- umm_malloc 4 ;; umm_free p ;;; umm_info p 0)%stm cleared) = Some 0 /\
  option_map fst ((p <- umm_malloc 20 ;; _ <- umm_malloc 4 ;; umm_free p ;;; umm_info (p - 4) 0)%stm cleared) = Some 24.
Proof. by vm_compute. Qed.

(** ** A dynamic queue on this heap *)

#[local] Existing Instance umm_config.
#[local] Existing Instance Event_DQueue.

Definition heap_os : OS :=
  set_HEAP_MEM (replicate 280 0)
    (set_HEAP_DQUEUE (replicate 280 (mkOS_DQUEUE 0 0 0 0 0 0 0))
       (set_HEAP_Queue (replicate 280 (mkQueue 0 0 0 None 0))
          (generic_os (C := umm_config) (cleared, ∅) [0; 5; 9] (2 ^ 0 + 2 ^ 5) 2 [] [] [] [] [] []))).

(** It is created in blocks of four, two and two units; two elements pass through it;
    deleting it frees the three blocks, and they are joined. *)
Example dynamic_queue_on_heap :
  match OSDQueueCreate 5 2 None heap_os with
  | Done (ALLOC_EVENT_OK, Some ev) s1 =>
      snd (heap s1) = {[ 28 := 24; 60 := 10; 76 := 12 ]} /\
      match OSDQueuePost (Some ev) [1; 2] s1 with
      | Done _ s2 =>
          match OSDQueuePend (Some ev) [0; 0] 0 s2 with
          | Done r s3 => r = (READ_BUFFER_OK, [1; 2]) /\
              match OSDQueueDelete (Some ev) s3 with
              | Done r' s4 => r' = (DELETE_EVENT_OK, None) /\ snd (heap s4) = ∅ /\
                  option_map fst (OSGetUsedHeapSize (fst (heap s4))) = Some 0
              | _ => False
              end
          | _ => False
          end
      | _ => False
      end
  | _ => False
  end.
Proof. by vm_compute. Qed.
