(* ===== verification/Device.v ===== *)
(** * The device layer

    brtos/device.c: the table of open devices.  A device is opened by its name, a
    C string in memory; the table keeps the pointer.  The drivers and the lists that
    configure them are not part of the repository: they are a class. *)

From Stdlib Require Import ZArith Lia.
From stdpp Require Import base numbers list.
From S2P Require Import Prelude.
#[local] Open Scope Z_scope.
#[local] Open Scope stm_scope.

(** ** Data (device.h) *)

(** Pointers are addresses, NULL is 0; a handle is the index of a control block. *)
Record OS_Device_t := mkDevice { name : Z; device_type : Z; base_address : Z; DriverData : Z }.
Record OS_Device_Control_t := mkControl { device : option Z; device_number : Z; api : Z }.
Record driver_installer_t := mkInstaller { di_type : Z; di_func : Z }.

(** The tables of device.c, the memory the strings are in, and the drivers' own
    state. *)
Record devices (D : Type) := mkDevices {
  BRTOSDevices : list OS_Device_t;
  BRTOSDevControl : list OS_Device_Control_t;
  chars : list Z;
  drivers : D;
}.
Arguments mkDevices {D}.
Arguments BRTOSDevices {D}.
Arguments BRTOSDevControl {D}.
Arguments chars {D}.
Arguments drivers {D}.

Record device_api_t (D : Type) := mkApi {
  api_write : Z -> Z -> Z -> stm (devices D) Z;
  api_read : Z -> Z -> Z -> stm (devices D) Z;
  api_set : Z -> Z -> Z -> stm (devices D) Z;
  api_get : Z -> Z -> stm (devices D) Z;
}.
Arguments mkApi {D}.
Arguments api_write {D}.
Arguments api_read {D}.
Arguments api_set {D}.
Arguments api_get {D}.

(** OSDevConfig.h and the drivers: the number of slots, the names of the types, the
    list of installers, the code at their addresses and the tables of operations. *)
Class DeviceConfig := {
  MAX_INSTALLED_DEVICES : Z;
  END_TYPE : Z;
  DRIVER_NAMES : list (list Z);
  DRIVER_LIST : list driver_installer_t;
  driver_state : Type;
  driver_func : Z -> Z -> Z -> stm (devices driver_state) unit;
  driver_api : Z -> option (device_api_t driver_state);
  slots_range : 0 <= MAX_INSTALLED_DEVICES < 2 ^ 31;
  types_named : 0 <= END_TYPE <= Z.of_nat (length DRIVER_NAMES);
}.

Section device.
Context `{C : DeviceConfig}.

Definition devs : Type := devices driver_state.
Definition dv (A : Type) : Type := stm devs A.

Definition AVAILABLE_DEVICES_TYPES : Z := Z.of_nat (length DRIVER_LIST).

Definition upd_device (i : Z) (f : OS_Device_t -> OS_Device_t) : dv unit :=
  l <- tget BRTOSDevices ;; d <- tlift (aget l i) ;;
  tset (fun s => mkDevices (aset l i (f d)) (BRTOSDevControl s) (chars s) (drivers s)).
Definition upd_control (i : Z) (f : OS_Device_Control_t -> OS_Device_Control_t) : dv unit :=
  l <- tget BRTOSDevControl ;; c <- tlift (aget l i) ;;
  tset (fun s => mkDevices (BRTOSDevices s) (aset l i (f c)) (chars s) (drivers s)).

Definition device_name (i : Z) : dv Z :=
  l <- tget BRTOSDevices ;; d <- tlift (aget l i) ;; tret (name d).

(** ** Strings *)

(** The characters up to the NUL. *)
Fixpoint c_string (l : list Z) : option (list Z) :=
  match l with
  | [] => None
  | c :: l' => if c =? 0 then Some [] else cons c <$> c_string l'
  end.
Definition string_at (m : list Z) (p : Z) : option (list Z) := c_string (drop (Z.to_nat p) m).
Definition load_string (p : Z) : dv (list Z) := m <- tget chars ;; tlift (string_at m p).

(** [strcmp(a, b) == 0] *)
Definition strcmp0 (a b : list Z) : bool := bool_decide (a = b).

(** [strncmp(a, b, n) == 0] *)
Fixpoint strncmp0 (a b : list Z) (n : Z) : bool :=
  if n =? 0 then true
  else
    match a, b with
    | [], [] => true
    | x :: a', y :: b' => (x =? y) && strncmp0 a' b' (n - 1)
    | _, _ => false
    end.

(** [strlen(a) - 1] as a [size_t] *)
Definition strlen_less_one (a : list Z) : Z := uint32 (Z.of_nat (length a) - 1).

(** ** [OSDevOpen] *)

Fixpoint search_name (n : nat) (nm : list Z) (index : Z) : dv (option Z) :=
  match n with
  | O => tret None
  | S n' =>
      p <- device_name index ;;
      same <- (if negb (p =? 0) then b <- load_string p ;; tret (strcmp0 nm b) else tret false) ;;
      if same : bool then tret (Some index) else search_name n' nm (index + 1)
  end.

(** The first free slot, or [MAX_INSTALLED_DEVICES]. *)
Fixpoint search_slot_free (n : nat) (index : Z) : dv Z :=
  match n with
  | O => tret index
  | S n' => p <- device_name index ;; if p =? 0 then tret index else search_slot_free n' (index + 1)
  end.

(** The character at which the loop over the name stops. *)
Fixpoint first_digit (nm : list Z) : Z :=
  match nm with
  | [] => 0
  | c :: nm' => if (48 <=? c) && (c <=? 57) then c else first_digit nm'
  end.

Definition GPIO : list Z := [71; 80; 73; 79].

(** The number of the device; without a digit only for a name like GPIO. *)
Definition number_loaded (dname : Z) (nm : list Z) : dv (option Z) :=
  let device_number := int8 (uint8 (first_digit nm - 48)) in
  if device_number <? 0 then
    if negb (strncmp0 nm GPIO (strlen_less_one nm)) then tret None
    else m <- tget chars ;; c <- tlift (aget m (dname + 4)) ;; tret (Some (int8 c))
  else tret (Some device_number).

Fixpoint search_type (n : nat) (nm : list Z) (idx : Z) : dv Z :=
  match n with
  | O => tret END_TYPE
  | S n' =>
      t <- tlift (aget DRIVER_NAMES idx) ;;
      if strncmp0 nm t (strlen_less_one nm) then tret idx else search_type n' nm (idx + 1)
  end.

Fixpoint install_drivers (n : nat) (type index option idx : Z) : dv unit :=
  match n with
  | O => tret tt
  | S n' =>
      d <- tlift (aget DRIVER_LIST idx) ;;
      (if (di_type d =? type) && negb (di_func d =? 0) then
         upd_device index (fun e => mkDevice (name e) (di_type d) (base_address e) (DriverData e)) ;;;
         driver_func (di_func d) index option
       else tret tt) ;;;
      install_drivers n' type index option (idx + 1)
  end.

Definition OSDevOpen (dname option : Z) : dv (Datatypes.option Z) :=
  if dname =? 0 then tret None
  else
    nm <- load_string dname ;;
    found <- search_name (Z.to_nat MAX_INSTALLED_DEVICES) nm 0 ;;
    match found with
    | Some index => tret (Some index)
    | None =>
        index <- search_slot_free (Z.to_nat MAX_INSTALLED_DEVICES) 0 ;;
        if index <? MAX_INSTALLED_DEVICES then
          number <- number_loaded dname nm ;;
          match number with
          | None => tret None
          | Some device_number =>
              type <- search_type (Z.to_nat END_TYPE) nm 0 ;;
              upd_device index (fun e => mkDevice dname (device_type e) (base_address e) option) ;;;
              upd_control index (fun c => mkControl (Some index) (int8 (uint8 device_number)) (api c)) ;;;
              install_drivers (Z.to_nat AVAILABLE_DEVICES_TYPES) type index option 0 ;;;
              tret (Some index)
          end
        else tret None
    end.

(** ** The operations *)

(** [dev->api] and the table there. *)
Definition dev_api (dev : Z) : dv (device_api_t driver_state) :=
  l <- tget BRTOSDevControl ;; c <- tlift (aget l dev) ;; tlift (driver_api (api c)).

Definition OSDevWrite (dev string bytes : Z) : dv Z := a <- dev_api dev ;; api_write a dev string bytes.
Definition OSDevRead (dev string bytes : Z) : dv Z := a <- dev_api dev ;; api_read a dev string bytes.
Definition OSDevSet (dev request value : Z) : dv Z := a <- dev_api dev ;; api_set a dev request value.
Definition OSDevGet (dev request : Z) : dv Z := a <- dev_api dev ;; api_get a dev request.
End device.
