(* ===== verification/DeviceSpec.v ===== *)
(** * The registry of devices

    The table of device.c as a registry of names, without repetition; what opening a
    device does to it, and that a device keeps its handle. *)

From Stdlib Require Import ZArith Lia.
From stdpp Require Import base numbers list relations.
From S2P Require Import Prelude Device.
#[local] Open Scope Z_scope.
#[local] Open Scope stm_scope.

(** ** Comparison of names *)

(** What [strncmp] up to the last character of [nm] tells. *)
Definition matches (nm t : list Z) : Prop :=
  match nm with [] => t = [] | _ => removelast nm `prefix_of` t end.
#[global] Instance matches_dec nm t : Decision (matches nm t).
Proof. destruct nm; cbn; apply _. Defined.

Lemma strncmp0_prefix : forall a x t,
  strncmp0 (x :: a) t (Z.of_nat (length a)) = true <-> removelast (x :: a) `prefix_of` t.
Proof.
  induction a as [|y a IH]; intros x t; [split; [intros _; apply prefix_nil|done]|].
  change (removelast (x :: y :: a)) with (x :: removelast (y :: a)).
  change (strncmp0 (x :: y :: a) t (Z.of_nat (length (y :: a)))) with
    (if Z.of_nat (length (y :: a)) =? 0 then true else
     match t with z :: t' => (x =? z) && strncmp0 (y :: a) t' (Z.of_nat (length (y :: a)) - 1) | [] => false end).
  rewrite (proj2 (Z.eqb_neq _ 0)) by (cbn; lia). destruct t as [|z t].
  - split; [done|]. by intros [k Hk].
  - replace (Z.of_nat (length (y :: a)) - 1) with (Z.of_nat (length a)) by (cbn; lia).
    rewrite andb_true_iff, Z.eqb_eq, IH. split; [intros [-> H]; by apply prefix_cons|].
    intros H. split; [by apply prefix_cons_inv_1 in H|by apply prefix_cons_inv_2 in H].
Qed.

Lemma strncmp0_spec nm t :
  Z.of_nat (length nm) < 2 ^ 32 -> strncmp0 nm t (strlen_less_one nm) = bool_decide (matches nm t).
Proof.
  intros Hl. apply eq_true_iff_eq. rewrite bool_decide_eq_true. unfold strlen_less_one.
  destruct nm as [|x a]; [by destruct t|]. cbn [length] in *.
  replace (Z.of_nat (S (length a)) - 1) with (Z.of_nat (length a)) by lia.
  rewrite uint32_small by lia. apply strncmp0_prefix.
Qed.

Definition is_digit (c : Z) : Prop := 48 <= c <= 57.
#[global] Instance is_digit_dec c : Decision (is_digit c).
Proof. apply _. Defined.

Lemma first_digit_spec nm :
  first_digit nm = match list_find is_digit nm with Some (_, c) => c | None => 0 end.
Proof.
  induction nm as [|c nm IH]; [done|]. cbn [first_digit list_find]. destruct (_ && _) eqn:E; to_prop.
  - by rewrite decide_True by done.
  - rewrite decide_False; [rewrite IH; by destruct (list_find _ nm) as [[]|]|].
    intros [H1 H2]. apply Z.leb_le in H1, H2. by rewrite H1, H2 in E.
Qed.

Section registry.
Context `{C : DeviceConfig}.
Implicit Types (s : devs) (R : list (option (list Z))).

(** ** The registry *)

(** The name in each slot. *)
Record dev_wf (s : devs) (R : list (option (list Z))) : Prop := {
  dw_devices : Z.of_nat (length (BRTOSDevices s)) = MAX_INSTALLED_DEVICES;
  dw_controls : Z.of_nat (length (BRTOSDevControl s)) = MAX_INSTALLED_DEVICES;
  dw_names : Forall2 (fun d r => match r with
                       | None => d = 0
                       | Some n => d <> 0 /\ string_at (chars s) d = Some n
                       end) (name <$> BRTOSDevices s) R;
  dw_chars : Z.of_nat (length (chars s)) < 2 ^ 32;
  dw_nodup i j n : R !! i = Some (Some n) -> R !! j = Some (Some n) -> i = j;
  dw_control i n : R !! i = Some (Some n) ->
    exists c, BRTOSDevControl s !! i = Some c /\ device c = Some (Z.of_nat i);
}.

(** The number of the device opened by the name [nm] at [p]: its first digit;
    without a digit, for a name that begins like GPIO up to its last character, the
    byte at [p + 4] -- the character behind GPIO, the NUL behind the name GPIO, and
    whatever follows a name of less than four characters; other names have none. *)
Definition number_of (m : list Z) (p : Z) (nm : list Z) : option Z :=
  match list_find is_digit nm with
  | Some (_, c) => Some (c - 48)
  | None => if decide (matches nm GPIO) then int8 <$> aget m (p + 4) else None
  end.

(** The byte that is read is in memory. *)
Definition readable (m : list Z) (p : Z) (nm : list Z) : Prop :=
  (exists c, c ∈ nm /\ is_digit c) \/ ~ matches nm GPIO \/ is_Some (aget m (p + 4)).

(** The type of a name: the first whose name it begins with, up to its last
    character. *)
Definition type_of (nm : list Z) : Z :=
  match list_find (matches nm) (take (Z.to_nat END_TYPE) DRIVER_NAMES) with
  | Some (i, _) => Z.of_nat i
  | None => END_TYPE
  end.

(** Opening a name with the number [num]: the slot of the name, or the first free
    one. *)
Definition open_spec (nm : list Z) (num : option Z) (R : list (option (list Z)))
    : option nat * list (option (list Z)) :=
  match list_find (fun r => r = Some nm) R with
  | Some (i, _) => (Some i, R)
  | None =>
      match list_find (fun r => r = None) R, num with
      | Some (i, _), Some _ => (Some i, <[i := Some nm]> R)
      | _, _ => (None, R)
      end
  end.

(** The drivers of a type are called in turn. *)
Definition drivers_of (type : Z) : list driver_installer_t :=
  filter (fun d => (di_type d =? type) && negb (di_func d =? 0) = true) DRIVER_LIST.
Fixpoint call_drivers (l : list driver_installer_t) (index option : Z) : dv unit :=
  match l with
  | [] => tret tt
  | d :: l' =>
      upd_device index (fun e => mkDevice (name e) (di_type d) (base_address e) (DriverData e)) ;;;
      driver_func (di_func d) index option ;;; call_drivers l' index option
  end.

(** The slot before the drivers are called. *)
Definition filled (dname option : Z) (i : nat) (num : Z) (s : devs) : devs :=
  mkDevices
    (alter (fun e => mkDevice dname (device_type e) (base_address e) option) i (BRTOSDevices s))
    (alter (fun c => mkControl (Some (Z.of_nat i)) (int8 (uint8 num)) (api c)) i (BRTOSDevControl s))
    (chars s) (drivers s).

(** What a driver may do when it is opened: everything with its own state and the
    table of operations in its control block. *)
Definition kept (i : nat) (s s' : devs) : Prop :=
  name <$> BRTOSDevices s' = name <$> BRTOSDevices s /\
  (fun c => (device c, device_number c)) <$> BRTOSDevControl s' =
  (fun c => (device c, device_number c)) <$> BRTOSDevControl s /\
  (forall j, j <> i -> BRTOSDevControl s' !! j = BRTOSDevControl s !! j) /\
  chars s' = chars s.
Definition drivers_open : Prop :=
  forall d i option s, d ∈ DRIVER_LIST -> di_func d <> 0 ->
    exists s', driver_func (di_func d) (Z.of_nat i) option s = Some (tt, s') /\ kept i s s'.

(** ** Strings in memory *)

Lemma c_string_lookup l nm k : c_string l = Some nm -> (k <= length nm)%nat -> l !! k = Some (nth k nm 0).
Proof.
  revert nm k. induction l as [|c l IH]; intros nm k H Hk; [done|]. cbn [c_string] in H.
  destruct (Z.eqb_spec c 0) as [->|]; [injection H as <-; cbn in Hk; by replace k with 0%nat by lia|].
  destruct (c_string l) as [nm'|]; [|done]. injection H as <-. destruct k; [done|]. cbn in *. apply IH; [done|lia].
Qed.

Lemma string_lookup m p nm k :
  0 <= p -> string_at m p = Some nm -> 0 <= k <= Z.of_nat (length nm) -> aget m (p + k) = Some (nth (Z.to_nat k) nm 0).
Proof.
  intros Hp H Hk. apply (c_string_lookup _ _ (Z.to_nat k)) in H; [|lia]. rewrite lookup_drop in H.
  unfold aget. rewrite (proj2 (Z.leb_le 0 (p + k))) by lia. by rewrite Z2Nat.inj_add by lia.
Qed.

Lemma string_length m p nm : string_at m p = Some nm -> (length nm < length m)%nat.
Proof.
  intros H. apply (c_string_lookup _ _ (length nm)) in H; [|done]. apply lookup_lt_Some in H.
  rewrite length_drop in H. lia.
Qed.

Lemma int8_range k : -128 <= int8 k < 128.
Proof. unfold int8. pose proof (Z.mod_pos_bound (k + 128) 256). lia. Qed.

Lemma number_of_range m p nm k : number_of m p nm = Some k -> -128 <= k < 128.
Proof.
  unfold number_of. destruct (list_find is_digit nm) as [[i c]|] eqn:E.
  - apply list_find_Some in E as (_ & [H1 H2] & _). intros [= <-]. lia.
  - case_decide; [|done]. destruct (aget m (p + 4)); [|done]. intros [= <-]. apply int8_range.
Qed.

Lemma number_loaded_eq s p nm :
  0 <= p -> string_at (chars s) p = Some nm -> Z.of_nat (length nm) < 2 ^ 32 -> readable (chars s) p nm ->
  number_loaded p nm s = Some (number_of (chars s) p nm, s).
Proof.
  intros Hp Hs Hl Hi. unfold number_loaded, number_of. rewrite first_digit_spec, strncmp0_spec by done.
  destruct (list_find is_digit nm) as [[i c]|] eqn:E.
  - apply list_find_Some in E as (_ & [H1 H2] & _). rewrite int8_uint8 by lia.
    by rewrite (proj2 (Z.ltb_ge _ 0)) by lia.
  - change (int8 (uint8 (0 - 48)) <? 0) with true. case_decide as Hm; [|by rewrite bool_decide_false].
    rewrite bool_decide_true by done. cbn [negb]. destruct Hi as [(c & Hc & Hd)|[Hi|[c Hc]]]; [|done|].
    + apply list_find_None in E. rewrite Forall_forall in E. by destruct (E c Hc).
    + by rewrite bind_get, (bind_lift _ _ _ _ Hc), Hc.
Qed.

(** ** The searches *)
Section searches.
Context (s : devs) (R : list (option (list Z))) (W : dev_wf s R).

Lemma slot_name k : (k < Z.to_nat MAX_INSTALLED_DEVICES)%nat ->
  exists p r, device_name (Z.of_nat k) s = Some (p, s) /\ R !! k = Some r /\
    match r with None => p = 0 | Some n => p <> 0 /\ string_at (chars s) p = Some n end.
Proof using W.
  intros Hk. pose proof (dw_devices _ _ W) as Hl.
  destruct (lookup_lt_is_Some_2 (BRTOSDevices s) k ltac:(lia)) as [d Hd].
  assert ((name <$> BRTOSDevices s) !! k = Some (name d)) as Hn by by rewrite list_lookup_fmap, Hd.
  destruct (Forall2_lookup_l _ _ _ _ _ (dw_names _ _ W) Hn) as (r & Hr & Hrel).
  exists (name d), r. split; [|done]. unfold device_name. rewrite bind_get.
  by rewrite (bind_lift (aget _ _) d) by by rewrite aget_nat.
Qed.

Lemma search_name_eq nm : forall n k, (k + n = Z.to_nat MAX_INSTALLED_DEVICES)%nat ->
  search_name n nm (Z.of_nat k) s =
  Some ((fun p => Z.of_nat (k + p.1)) <$> list_find (fun r => r = Some nm) (drop k R), s).
Proof using W.
  induction n as [|n IH]; intros k Hk; cbn [search_name].
  - pose proof (Forall2_length _ _ _ (dw_names _ _ W)) as Hl. rewrite length_fmap in Hl. pose proof (dw_devices _ _ W).
    by rewrite drop_ge by lia.
  - destruct (slot_name k ltac:(lia)) as (p & r & Hn & Hr & Hp). rewrite (bind_Some _ _ _ _ _ Hn).
    rewrite (drop_S _ _ _ Hr). cbn [list_find]. specialize (IH (S k) ltac:(lia)).
    replace (Z.of_nat (S k)) with (Z.of_nat k + 1) in IH by lia.
    destruct r as [x|].
    + destruct Hp as [Hp0 Hp]. rewrite (proj2 (Z.eqb_neq p 0)) by done. cbn [negb].
      unfold load_string. rewrite !bind_assoc, bind_get, (bind_lift _ _ _ _ Hp), bind_ret.
      unfold strcmp0. case_bool_decide as E; case_decide as E'; try (exfalso; congruence).
      * cbn. by rewrite Nat.add_0_r.
      * rewrite IH. destruct (list_find _ _) as [[j r]|]; [|done]. cbn. do 3 f_equal. lia.
    + subst p. change (0 =? 0) with true. cbn [negb]. rewrite bind_ret. rewrite decide_False by done. rewrite IH.
      destruct (list_find _ _) as [[j r]|]; [|done]. cbn. do 3 f_equal. lia.
Qed.

Lemma search_slot_eq : forall n k, (k + n = Z.to_nat MAX_INSTALLED_DEVICES)%nat ->
  search_slot_free n (Z.of_nat k) s =
  Some (match list_find (fun r => r = None) (drop k R) with Some (i, _) => Z.of_nat (k + i) | None => MAX_INSTALLED_DEVICES end, s).
Proof using W.
  pose proof slots_range as Hsr. induction n as [|n IH]; intros k Hk; cbn [search_slot_free].
  - pose proof (Forall2_length _ _ _ (dw_names _ _ W)) as Hl. rewrite length_fmap in Hl. pose proof (dw_devices _ _ W).
    rewrite drop_ge by lia. cbn. unfold tret. do 2 f_equal. lia.
  - destruct (slot_name k ltac:(lia)) as (p & r & Hn & Hr & Hp). rewrite (bind_Some _ _ _ _ _ Hn).
    rewrite (drop_S _ _ _ Hr). cbn [list_find]. specialize (IH (S k) ltac:(lia)).
    replace (Z.of_nat (S k)) with (Z.of_nat k + 1) in IH by lia.
    destruct r as [x|].
    + destruct Hp as [Hp _]. rewrite (proj2 (Z.eqb_neq p 0)) by done. rewrite decide_False by done. rewrite IH.
      destruct (list_find _ _) as [[j r]|]; [|done]. cbn. do 2 f_equal. lia.
    + subst p. change (0 =? 0) with true. rewrite decide_True by done. cbn. by rewrite Nat.add_0_r.
Qed.
End searches.

Lemma search_type_eq nm s : Z.of_nat (length nm) < 2 ^ 32 -> forall n k, (k + n = Z.to_nat END_TYPE)%nat ->
  search_type n nm (Z.of_nat k) s =
  Some (match list_find (matches nm) (drop k (take (Z.to_nat END_TYPE) DRIVER_NAMES)) with
        | Some (i, _) => Z.of_nat (k + i) | None => END_TYPE end, s).
Proof.
  intros Hnm. pose proof types_named as Ht. induction n as [|n IH]; intros k Hk; cbn [search_type].
  - rewrite drop_ge by (rewrite length_take; lia). done.
  - destruct (lookup_lt_is_Some_2 DRIVER_NAMES k ltac:(lia)) as [t Hl].
    rewrite (bind_lift (aget _ _) t) by by rewrite aget_nat.
    assert (take (Z.to_nat END_TYPE) DRIVER_NAMES !! k = Some t) as Hr by by rewrite lookup_take_lt by lia.
    rewrite (drop_S _ _ _ Hr), strncmp0_spec by done. cbn [list_find]. specialize (IH (S k) ltac:(lia)).
    replace (Z.of_nat (S k)) with (Z.of_nat k + 1) in IH by lia.
    case_bool_decide as E; [rewrite decide_True by done; cbn; by rewrite Nat.add_0_r|].
    rewrite decide_False, IH by done. destruct (list_find _ _) as [[j r]|]; [|done]. cbn. do 2 f_equal. lia.
Qed.

(** ** The drivers *)

Lemma bind_ext {A B} (p : dv A) (f g : A -> dv B) s :
  (forall a s', f a s' = g a s') -> tbind p f s = tbind p g s.
Proof. intros H. unfold tbind. destruct (p s) as [[a s']|]; [apply H|done]. Qed.

Lemma install_drivers_eq type i option : forall n k s, (k + n = length DRIVER_LIST)%nat ->
  install_drivers n type i option (Z.of_nat k) s =
  call_drivers (filter (fun d => (di_type d =? type) && negb (di_func d =? 0) = true) (drop k DRIVER_LIST)) i option s.
Proof.
  induction n as [|n IH]; intros k s Hk; cbn [install_drivers].
  - by rewrite drop_ge by lia.
  - destruct (lookup_lt_is_Some_2 DRIVER_LIST k ltac:(lia)) as [d Hd].
    rewrite (bind_lift (aget _ _) d) by by rewrite aget_nat.
    rewrite (drop_S _ _ _ Hd), filter_cons. specialize (IH (S k)).
    replace (Z.of_nat (S k)) with (Z.of_nat k + 1) in IH by lia.
    destruct (_ && _) eqn:E.
    + rewrite decide_True by done. cbn [call_drivers]. rewrite bind_assoc.
      apply bind_ext. intros _ s1. apply bind_ext. intros _ s2. apply IH. lia.
    + rewrite decide_False by done. rewrite bind_ret. apply IH. lia.
Qed.

#[global] Instance kept_refl i : Reflexive (kept i).
Proof. intros s. by split_and!. Qed.
#[global] Instance kept_trans i : Transitive (kept i).
Proof.
  intros s1 s2 s3 (N1 & C1 & O1 & M1) (N2 & C2 & O2 & M2). split_and!; try congruence.
  intros j Hj. by rewrite O2, O1.
Qed.

Lemma upd_device_eq (i : nat) f s d :
  BRTOSDevices s !! i = Some d ->
  upd_device (Z.of_nat i) f s = Some (tt, mkDevices (alter f i (BRTOSDevices s)) (BRTOSDevControl s) (chars s) (drivers s)).
Proof.
  intros Hd. unfold upd_device. rewrite bind_get, (bind_lift (aget _ _) d) by by rewrite aget_nat.
  unfold tset. do 3 f_equal. rewrite aset_nat.
  apply list_eq. intros j. destruct (decide (j = i)) as [->|Hj].
  - rewrite list_lookup_alter_eq, Hd. apply list_lookup_insert_eq. by eapply lookup_lt_Some.
  - by rewrite list_lookup_alter_ne, list_lookup_insert_ne.
Qed.
Lemma upd_control_eq (i : nat) f s c :
  BRTOSDevControl s !! i = Some c ->
  upd_control (Z.of_nat i) f s = Some (tt, mkDevices (BRTOSDevices s) (alter f i (BRTOSDevControl s)) (chars s) (drivers s)).
Proof.
  intros Hc. unfold upd_control. rewrite bind_get, (bind_lift (aget _ _) c) by by rewrite aget_nat.
  unfold tset. do 3 f_equal. rewrite aset_nat.
  apply list_eq. intros j. destruct (decide (j = i)) as [->|Hj].
  - rewrite list_lookup_alter_eq, Hc. apply list_lookup_insert_eq. by eapply lookup_lt_Some.
  - by rewrite list_lookup_alter_ne, list_lookup_insert_ne.
Qed.

Lemma fmap_alter_same {A B} (g : A -> B) (f : A -> A) (i : nat) (l : list A) : (forall x, g (f x) = g x) -> g <$> alter f i l = g <$> l.
Proof.
  intros H. apply list_eq. intros j. rewrite !list_lookup_fmap. destruct (decide (j = i)) as [->|Hj].
  - rewrite list_lookup_alter_eq. destruct (l !! i); cbn; by rewrite ?H.
  - by rewrite list_lookup_alter_ne.
Qed.

Lemma call_drivers_kept l (i : nat) option : forall s,
  drivers_open -> (forall d, d ∈ l -> d ∈ DRIVER_LIST /\ di_func d <> 0) -> (i < length (BRTOSDevices s))%nat ->
  exists s', call_drivers l (Z.of_nat i) option s = Some (tt, s') /\ kept i s s'.
Proof.
  induction l as [|d l IH]; intros s Hd Hl Hi; cbn [call_drivers]; [by exists s|].
  destruct (lookup_lt_is_Some_2 _ _ Hi) as [e He]. destruct (Hl d ltac:(by left)) as [Hin Hf].
  rewrite (bind_Some _ _ _ _ _ (upd_device_eq i _ s e He)). set (s1 := mkDevices _ _ _ _).
  assert (kept i s s1) as K1 by (split_and!; [by apply fmap_alter_same|done..]).
  destruct (Hd d i option s1 Hin Hf) as (s2 & Hrun & K2). rewrite (bind_Some _ _ _ _ _ Hrun).
  assert (kept i s s2) as K by by transitivity s1.
  destruct (IH s2 Hd) as (s3 & Hrun3 & K3).
  - intros d' Hd'. apply Hl. by right.
  - destruct K as [K _]. apply (f_equal length) in K. rewrite !length_fmap in K. lia.
  - exists s3. split; [done|]. by transitivity s2.
Qed.

Lemma drivers_of_elem type d : d ∈ drivers_of type -> d ∈ DRIVER_LIST /\ di_func d <> 0.
Proof. intros [H Hin]%list_elem_of_filter. to_prop. done. Qed.

(** ** The invariant *)

Lemma kept_wf i s s' R : kept i s s' -> dev_wf s R -> dev_wf s' R.
Proof.
  intros (Hn & Hc & _ & Hm) [H1 H2 H3 H6 H4 H5].
  pose proof (f_equal length Hn) as Ln. pose proof (f_equal length Hc) as Lc. rewrite !length_fmap in Ln. rewrite !length_fmap in Lc.
  split; [lia|lia|by rewrite Hn, Hm|by rewrite Hm|done|].
  intros j n Hj. destruct (H5 j n Hj) as (c & Hcj & Hd).
  apply (f_equal (fun l => l !! j)) in Hc. rewrite !list_lookup_fmap, Hcj in Hc. cbn in Hc.
  destruct (BRTOSDevControl s' !! j) as [c'|]; [|done]. exists c'. split; [done|]. injection Hc as E _. congruence.
Qed.

Lemma filled_wf s R (i : nat) dname option num nm :
  dev_wf s R -> R !! i = Some None -> Some nm ∉ R -> dname <> 0 -> string_at (chars s) dname = Some nm ->
  dev_wf (filled dname option i num s) (<[i := Some nm]> R).
Proof.
  intros [H1 H2 H3 H6 H4 H5] Hi Hnew Hp Hs. pose proof (lookup_lt_Some _ _ _ Hi) as HiR.
  pose proof (Forall2_length _ _ _ H3) as Hl. rewrite length_fmap in Hl.
  split; unfold filled; cbn [BRTOSDevices BRTOSDevControl chars].
  - by rewrite length_alter.
  - by rewrite length_alter.
  - assert (forall f, (forall e, name (f e) = dname) ->
      name <$> alter f i (BRTOSDevices s) = <[i := dname]> (name <$> BRTOSDevices s)) as ->.
    2: { apply Forall2_insert; [done|by split]. }
    { intros f Hf. apply list_eq. intros j. rewrite list_lookup_fmap. destruct (decide (j = i)) as [->|Hj].
      - rewrite list_lookup_alter_eq, list_lookup_insert_eq by (rewrite length_fmap; lia).
        destruct (lookup_lt_is_Some_2 (BRTOSDevices s) i ltac:(lia)) as [e ->]. cbn. by rewrite Hf.
      - by rewrite list_lookup_alter_ne, list_lookup_insert_ne, list_lookup_fmap. }
    done.
  - done.
  - assert (forall j n, <[i := Some nm]> R !! j = Some (Some n) -> (j = i /\ n = nm) \/ (j <> i /\ n <> nm /\ R !! j = Some (Some n))) as Hc.
    { intros j n. destruct (decide (j = i)) as [->|Hj].
      - rewrite list_lookup_insert_eq by done. intros [= ->]. by left.
      - rewrite list_lookup_insert_ne by done. intros Hj'. right. split_and!; [done| |done]. intros ->.
        by apply Hnew, list_elem_of_lookup_2 with j. }
    intros j k n [[-> ->]|(Hj & Hn & HR)]%Hc [[-> E]|(Hk & Hn' & HR')]%Hc; try done. by apply (H4 j k n).
  - intros j n. destruct (decide (j = i)) as [->|Hj].
    + intros _. destruct (lookup_lt_is_Some_2 (BRTOSDevControl s) i ltac:(lia)) as [c Hc].
      eexists. rewrite list_lookup_alter_eq, Hc. done.
    + rewrite list_lookup_insert_ne by done. intros HR. destruct (H5 j n HR) as (c & ? & ?). exists c.
      by rewrite list_lookup_alter_ne.
Qed.

(** ** Opening *)

Definition opened (s : devs) (R : list (option (list Z))) (nm : list Z) (dname option : Z)
    (r : Datatypes.option nat) (s' : devs) (R' : list (Datatypes.option (list Z))) : Prop :=
  dev_wf s' R' /\ chars s' = chars s /\ (R' = R -> s' = s) /\
  forall i, r = Some i -> R !! i = Some None ->
    exists num c, number_of (chars s) dname nm = Some num /\
      call_drivers (drivers_of (type_of nm)) (Z.of_nat i) option (filled dname option i num s) = Some (tt, s') /\
      BRTOSDevControl s' !! i = Some c /\ device c = Some (Z.of_nat i) /\ device_number c = num /\
      forall j, j <> i -> BRTOSDevControl s' !! j = BRTOSDevControl s !! j.

Lemma opened_same s R nm dname option r :
  dev_wf s R -> (forall i, r = Some i -> R !! i <> Some None) -> opened s R nm dname option r s R.
Proof. intros W H. split_and!; try done. intros i Hr Hi. by destruct (H i Hr). Qed.

Lemma OSDevOpen_lemma s R dname option nm :
  drivers_open -> dev_wf s R -> 0 < dname -> string_at (chars s) dname = Some nm ->
  Some nm ∈ R \/ readable (chars s) dname nm ->
  let spec := open_spec nm (number_of (chars s) dname nm) R in
  exists s', OSDevOpen dname option s = Some (Z.of_nat <$> spec.1, s') /\
    opened s R nm dname option spec.1 s' spec.2.
Proof.
  intros Hd W Hp Hs Hi spec. pose proof slots_range as Hsr. unfold spec. clear spec.
  assert (Z.of_nat (length nm) < 2 ^ 32) as Hlen.
  { pose proof (string_length _ _ _ Hs). pose proof (dw_chars _ _ W). lia. }
  unfold OSDevOpen, open_spec. rewrite (proj2 (Z.eqb_neq dname 0)) by lia.
  unfold load_string. rewrite !bind_assoc, bind_get, (bind_lift _ _ _ _ Hs).
  pose proof (search_name_eq s R W nm _ 0 eq_refl) as E1. change (Z.of_nat 0) with 0 in E1. rewrite drop_0 in E1.
  rewrite (bind_Some _ _ _ _ _ E1). destruct (list_find (fun r => r = Some nm) R) as [[i x]|] eqn:Hfind; cbn.
  { apply list_find_Some in Hfind as (Hx & -> & _). exists s. split; [done|].
    apply opened_same; [done|]. intros j [= ->]. by rewrite Hx. }
  pose proof (search_slot_eq s R W _ 0 eq_refl) as E2. change (Z.of_nat 0) with 0 in E2. rewrite drop_0 in E2.
  rewrite (bind_Some _ _ _ _ _ E2). destruct (list_find (fun r => r = None) R) as [[i x]|] eqn:Hfree.
  2: { rewrite Z.ltb_irrefl. exists s. split; [done|]. by apply opened_same. }
  apply list_find_Some in Hfree as (Hx & -> & _). cbn [Nat.add].
  pose proof (lookup_lt_Some _ _ _ Hx) as HiR. pose proof (Forall2_length _ _ _ (dw_names _ _ W)) as Hl.
  rewrite length_fmap in Hl. pose proof (dw_devices _ _ W) as Hl1. pose proof (dw_controls _ _ W) as Hl2.
  rewrite (proj2 (Z.ltb_lt _ _)) by lia.
  destruct Hi as [Hi|Hi].
  { exfalso. apply list_find_None in Hfind. rewrite Forall_forall in Hfind. by apply (Hfind _ Hi). }
  rewrite (bind_Some _ _ _ _ _ (number_loaded_eq s dname nm ltac:(lia) Hs Hlen Hi)).
  destruct (number_of (chars s) dname nm) as [num|] eqn:Hnum; [|exists s; split; [done|by apply opened_same]].
  pose proof (search_type_eq nm s Hlen _ 0 eq_refl) as E3. change (Z.of_nat 0) with 0 in E3. rewrite drop_0 in E3.
  rewrite (bind_Some _ _ _ _ _ E3). fold (type_of nm).
  destruct (lookup_lt_is_Some_2 (BRTOSDevices s) i ltac:(lia)) as [e He].
  destruct (lookup_lt_is_Some_2 (BRTOSDevControl s) i ltac:(lia)) as [c Hc].
  rewrite (bind_Some _ _ _ _ _ (upd_device_eq i _ s e He)).
  rewrite (bind_Some _ _ _ _ _ (upd_control_eq i _ (mkDevices _ _ _ _) c Hc)).
  change (mkDevices _ _ _ _) with (filled dname option i num s).
  assert (Some nm ∉ R) as Hnew.
  { intros Hin. apply list_find_None in Hfind. rewrite Forall_forall in Hfind. by apply (Hfind _ Hin). }
  pose proof (filled_wf s R i dname option num nm W Hx Hnew ltac:(lia) Hs) as Wf.
  set (s1 := filled dname option i num s) in *. destruct (call_drivers_kept (drivers_of (type_of nm)) i option s1 Hd) as (s' & Hrun & K).
  { intros d. apply drivers_of_elem. }
  { unfold s1, filled. cbn. rewrite length_alter. lia. }
  pose proof (install_drivers_eq (type_of nm) (Z.of_nat i) option (length DRIVER_LIST) 0 s1 eq_refl) as E4.
  change (Z.of_nat 0) with 0 in E4. rewrite drop_0, <- (Nat2Z.id (length DRIVER_LIST)) in E4.
  fold (drivers_of (type_of nm)) in E4. fold AVAILABLE_DEVICES_TYPES in E4. rewrite Hrun in E4.
  rewrite (bind_Some _ _ _ _ _ E4). exists s'. split; [done|]. cbn [fst snd].
  split; [by apply (kept_wf i s1)|]. destruct K as (Kn & Kc & Ko & Km). split; [done|]. split.
  { intros E. apply (f_equal (fun l => l !! i)) in E. rewrite list_lookup_insert_eq in E by done. congruence. }
  intros j [= <-] _. exists num.
  apply (f_equal (fun l => l !! i)) in Kc. rewrite !list_lookup_fmap in Kc. unfold s1, filled in Kc. cbn [BRTOSDevControl] in Kc.
  rewrite list_lookup_alter_eq, Hc in Kc. cbn in Kc. destruct (BRTOSDevControl s' !! i) as [c'|]; [|done].
  injection Kc as Ed En. exists c'. split_and!; [done|done|done|done| |].
  - rewrite En. apply int8_uint8. by eapply number_of_range.
  - intros k Hk. rewrite Ko by done. unfold s1, filled. cbn. by rewrite list_lookup_alter_ne.
Qed.

(** C36: [OSDevOpen].  Let the table be in order, let a driver that is opened return
    and change only its own state, the table of operations in its control block and
    the entry of its device but for the name; and let the name be a string in memory,
    and the byte four behind its beginning be in memory too if it has no digit and begins like
    GPIO up to its last character.  Then opening it returns: the handle of the device
    that has that name, and then nothing changes; NULL, and nothing changes, if the
    table is full, or if the name has no digit and does not begin like GPIO;
    otherwise the handle of the first free slot, which now has that name and its
    number -- the first digit, or that byte, also where it is the NUL of GPIO or lies
    behind a shorter name -- and exactly the drivers of its type have been called, in
    the order of the list, with that handle.  The table stays in order, no two slots
    have the same name, and no other control block changes. *)
Theorem OSDevOpen_refines s R dname option nm :
  drivers_open -> dev_wf s R -> 0 < dname -> string_at (chars s) dname = Some nm ->
  Some nm ∈ R \/ readable (chars s) dname nm ->
  let spec := open_spec nm (number_of (chars s) dname nm) R in
  exists s', OSDevOpen dname option s = Some (Z.of_nat <$> spec.1, s') /\
    opened s R nm dname option spec.1 s' spec.2.
Proof. apply OSDevOpen_lemma. Qed.

(** ** A program that opens devices *)

(** One more device is opened. *)
Definition open_step (s s' : devs) : Prop :=
  exists dname option nm r, 0 < dname /\ string_at (chars s) dname = Some nm /\
    readable (chars s) dname nm /\ OSDevOpen dname option s = Some (r, s').

(** Anything else the program and the drivers do: the memory changes, but for the
    names of the open devices, and so do the drivers' state, the numbers and the
    tables of operations. *)
Definition other_step (s s' : devs) : Prop :=
  name <$> BRTOSDevices s' = name <$> BRTOSDevices s /\
  device <$> BRTOSDevControl s' = device <$> BRTOSDevControl s /\
  Z.of_nat (length (chars s')) < 2 ^ 32 /\
  forall d, d ∈ name <$> BRTOSDevices s -> d <> 0 -> string_at (chars s') d = string_at (chars s) d.

Definition program_step (s s' : devs) : Prop := open_step s s' \/ other_step s s'.

Lemma other_step_wf s s' R : other_step s s' -> dev_wf s R -> dev_wf s' R.
Proof.
  intros (Hn & Hc & Hl & Hm) [H1 H2 H3 H6 H4 H5].
  pose proof (f_equal length Hn) as Ln. pose proof (f_equal length Hc) as Lc. rewrite !length_fmap in Ln. rewrite !length_fmap in Lc.
  split; [lia|lia| |done|done|].
  - rewrite Hn. apply Forall2_same_length_lookup. split; [by eapply Forall2_length|].
    intros i d r Hd Hr. pose proof (Forall2_lookup_lr _ _ _ _ _ _ H3 Hd Hr) as Hdr.
    destruct r as [n|]; [|done]. destruct Hdr as [H0 Hs]. split; [done|].
    rewrite Hm; [done| |done]. by eapply list_elem_of_lookup_2.
  - intros j n Hj. destruct (H5 j n Hj) as (c & Hcj & Hd).
    apply (f_equal (fun l => l !! j)) in Hc. rewrite !list_lookup_fmap, Hcj in Hc. cbn in Hc.
    destruct (BRTOSDevControl s' !! j) as [c'|]; [|done]. exists c'. split; [done|]. injection Hc as E. congruence.
Qed.

Lemma open_spec_mono nm num R i n : R !! i = Some (Some n) -> (open_spec nm num R).2 !! i = Some (Some n).
Proof.
  intros Hi. unfold open_spec. destruct (list_find (fun r => r = Some nm) R) as [[j r]|]; [done|].
  destruct (list_find (fun r => r = None) R) as [[j r]|] eqn:Hfree; [|done]. destruct num; [|done].
  apply list_find_Some in Hfree as (Hj & -> & _). cbn. rewrite list_lookup_insert_ne; [done|]. congruence.
Qed.

Lemma open_spec_slot nm num R i : (open_spec nm num R).1 = Some i -> (open_spec nm num R).2 !! i = Some (Some nm).
Proof.
  unfold open_spec. destruct (list_find (fun r => r = Some nm) R) as [[j r]|] eqn:Hf.
  - apply list_find_Some in Hf as (Hj & -> & _). by intros [= <-].
  - destruct (list_find (fun r => r = None) R) as [[j r]|] eqn:Hfree; [|done]. destruct num; [|done].
    apply list_find_Some in Hfree as (Hj & -> & _). intros [= <-]. cbn. apply list_lookup_insert_eq. by eapply lookup_lt_Some.
Qed.

Lemma open_spec_known nm num R i :
  (forall i j n, R !! i = Some (Some n) -> R !! j = Some (Some n) -> i = j) ->
  R !! i = Some (Some nm) -> open_spec nm num R = (Some i, R).
Proof.
  intros Hu Hi. unfold open_spec. destruct (list_find (fun r => r = Some nm) R) as [[j r]|] eqn:Hf.
  - apply list_find_Some in Hf as (Hj & -> & _). by rewrite (Hu _ _ _ Hi Hj).
  - apply list_find_None in Hf. rewrite Forall_lookup in Hf. by destruct (Hf i _ Hi).
Qed.

Lemma program_steps_keep s1 s2 R1 i nm :
  drivers_open -> rtc program_step s1 s2 -> dev_wf s1 R1 -> R1 !! i = Some (Some nm) ->
  exists R2, dev_wf s2 R2 /\ R2 !! i = Some (Some nm).
Proof.
  intros Hd Hs. revert R1. induction Hs as [s|s s' s2 [(p & o & n & r & Hp & Hn & Hin & Hrun)|Ho] _ IH]; intros R1 W Hi;
    [by exists R1| |].
  - destruct (OSDevOpen_lemma s R1 p o n Hd W Hp Hn ltac:(by right)) as (s'' & Hrun' & W' & _ & _). rewrite Hrun in Hrun'.
    injection Hrun' as _ <-. exact (IH _ W' (open_spec_mono n _ R1 i nm Hi)).
  - exact (IH _ (other_step_wf _ _ _ Ho W) Hi).
Qed.

(** C37: handles are stable.  Once a name was opened, whatever the program does
    afterwards -- opening other devices in any order, using them, changing memory --,
    as long as it leaves the strings that are the names of open devices as they are
    (the table keeps the caller's pointers) and the table's names and links alone,
    and drivers that are opened change only their own parts: opening the same name
    again, from any buffer that holds it, returns the same handle and calls no
    driver; and every other name that gets a handle gets a different one.  (A name
    opened for the first time is one whose number can be read, as in C36.) *)
Theorem device_handles_stable s R dname option nm h s1 s2 :
  drivers_open -> dev_wf s R -> 0 < dname -> string_at (chars s) dname = Some nm ->
  readable (chars s) dname nm ->
  OSDevOpen dname option s = Some (Some h, s1) -> rtc program_step s1 s2 ->
  (forall p o, 0 < p -> string_at (chars s2) p = Some nm -> OSDevOpen p o s2 = Some (Some h, s2)) /\
  (forall p o n r s3, 0 < p -> string_at (chars s2) p = Some n -> readable (chars s2) p n -> n <> nm ->
     OSDevOpen p o s2 = Some (r, s3) -> r <> Some h).
Proof.
  intros Hd W Hp Hs Hin Hrun Hsteps.
  destruct (OSDevOpen_lemma s R dname option nm Hd W Hp Hs ltac:(by right)) as (s' & Hrun' & W1 & _). rewrite Hrun in Hrun'.
  injection Hrun' as Hh <-. set (num := number_of (chars s) dname nm) in *.
  destruct (open_spec nm num R) as [r1 R1] eqn:Eo. cbn [fst snd] in *.
  destruct r1 as [i|]; [|done]. injection Hh as ->.
  pose proof (open_spec_slot nm num R i) as Hslot. rewrite Eo in Hslot. specialize (Hslot eq_refl). cbn in Hslot.
  destruct (program_steps_keep s1 s2 R1 i nm Hd Hsteps W1 Hslot) as (R2 & W2 & Hi2). split.
  - intros p o Hp2 Hs2.
    destruct (OSDevOpen_lemma s2 R2 p o nm Hd W2 Hp2 Hs2) as (s3 & Hr3 & _ & _ & Hsame & _);
      [left; by eapply list_elem_of_lookup_2|].
    rewrite (open_spec_known nm _ R2 i (dw_nodup _ _ W2) Hi2) in *. by rewrite Hr3, Hsame.
  - intros p o n r s3 Hp2 Hs2 Hin2 Hne Hr ->. set (num2 := number_of (chars s2) p n).
    destruct (OSDevOpen_lemma s2 R2 p o n Hd W2 Hp2 Hs2 ltac:(by right)) as (s4 & Hr4 & _). rewrite Hr in Hr4. injection Hr4 as E _.
    fold num2 in E.
    destruct (open_spec n num2 R2) as [r2 R3] eqn:Eo2. cbn in E. destruct r2 as [j|]; [|done]. injection E as E%Nat2Z.inj. subst j.
    pose proof (open_spec_slot n num2 R2 i) as H1. pose proof (open_spec_mono n num2 R2 i nm Hi2) as H2. rewrite Eo2 in H1, H2.
    specialize (H1 eq_refl). cbn in *. congruence.
Qed.
End registry.
