(* ===== verification/DeviceExamples.v ===== *)
(** * Devices on a small system

    Three slots, the types UART, SPI and GPIO with one driver that records its calls;
    the theorems of DeviceSpec.v on it, and the names for which the layer goes wrong. *)

From Stdlib Require Import ZArith Lia.
From stdpp Require Import base numbers list relations.
From S2P Require Import Prelude Device DeviceSpec.
#[local] Open Scope Z_scope.
#[local] Open Scope stm_scope.

(** The driver at address 1 logs the handle and its parameter and puts the table 7 in
    the control block. *)
Definition log_driver (f index option : Z) : stm (devices (list (Z * Z))) unit := fun s =>
  Some (tt, mkDevices (BRTOSDevices s)
    (alter (fun c => mkControl (device c) (device_number c) 7) (Z.to_nat index) (BRTOSDevControl s))
    (chars s) ((index, option) :: drivers s)).
Definition log_api (a : Z) : option (device_api_t (list (Z * Z))) :=
  if a =? 7 then
    Some (mkApi (fun dev p n => tret n) (fun dev p n => tret 0)
            (fun dev request v => tret v) (fun dev request => tret request))
  else None.

Lemma three_slots : 0 <= 3 < 2 ^ 31.
Proof. done. Qed.
Lemma three_types : 0 <= 3 <= 3.
Proof. done. Qed.
#[local] Instance log_config : DeviceConfig :=
  Build_DeviceConfig 3 3 [[85; 65; 82; 84]; [83; 80; 73]; [71; 80; 73; 79]]
    [mkInstaller 0 1; mkInstaller 1 0; mkInstaller 2 1] (list (Z * Z)) log_driver log_api three_slots three_types.

Lemma log_drivers_open : drivers_open.
Proof.
  intros d i option s _ _. eexists. split; [done|]. cbn. rewrite Nat2Z.id. split_and!; [done| | |done].
  - by apply fmap_alter_same.
  - intros j Hj. by apply list_lookup_alter_ne.
Qed.

(** The names UART0, UART1, GPIOA, UART10, CAN0, LED and G, eight characters apart,
    from address 8 on. *)
Definition names : list Z :=
  replicate 8 0 ++ [85; 65; 82; 84; 48; 0; 0; 0] ++ [85; 65; 82; 84; 49; 0; 0; 0] ++
  [71; 80; 73; 79; 65; 0; 0; 0] ++ [85; 65; 82; 84; 49; 48; 0; 0] ++ [67; 65; 78; 48; 0; 0; 0; 0] ++
  [76; 69; 68; 0; 0; 0; 0; 0] ++ [71; 0; 1; 2; 99; 0; 0; 0].
Definition closed : devs :=
  mkDevices (replicate 3 (mkDevice 0 0 0 0)) (replicate 3 (mkControl None 0 0)) names ([] : list (Z * Z)).

Lemma closed_wf : dev_wf closed [None; None; None].
Proof.
  split; [done|done| |done| |].
  - by repeat constructor.
  - intros i j n H. by destruct i as [|[|[|]]].
  - intros i n H. by destruct i as [|[|[|]]].
Qed.

Lemma zero_digit m p : readable m p [85; 65; 82; 84; 48].
Proof. left. exists 48. split; [set_solver|done]. Qed.

(** The first device: UART0, number 0, in slot 0. *)
Lemma OSDevOpen_refines_witness :
  exists s', OSDevOpen 8 100 closed = Some (Some 0, s') /\
    opened closed [None; None; None] [85; 65; 82; 84; 48] 8 100 (Some 0%nat) s' [Some [85; 65; 82; 84; 48]; None; None].
Proof.
  apply (OSDevOpen_refines closed [None; None; None] 8 100 [85; 65; 82; 84; 48]);
    [exact log_drivers_open|exact closed_wf|done|done|right; apply zero_digit].
Defined.

Definition state_of {A} (r : option (A * devs)) : devs := match r with Some (_, s) => s | None => closed end.
Definition one_open : devs := state_of (OSDevOpen 8 100 closed).
Definition two_open : devs := state_of (OSDevOpen 24 200 one_open).

(** Then the buffers behind the two names are used for something else. *)
Definition rewritten : devs :=
  mkDevices (BRTOSDevices two_open) (BRTOSDevControl two_open) (take 40 names ++ names) [].

Lemma device_handles_stable_witness :
  (forall p o, 0 < p -> string_at (chars rewritten) p = Some [85; 65; 82; 84; 48] ->
     OSDevOpen p o rewritten = Some (Some 0, rewritten)) /\
  (forall p o n r s3, 0 < p -> string_at (chars rewritten) p = Some n -> readable (chars rewritten) p n -> n <> [85; 65; 82; 84; 48] ->
     OSDevOpen p o rewritten = Some (r, s3) -> r <> Some 0).
Proof.
  apply (device_handles_stable closed [None; None; None] 8 100 [85; 65; 82; 84; 48] 0 one_open rewritten);
    [exact log_drivers_open|exact closed_wf|done|done|apply zero_digit|done|].
  eapply rtc_l; [left|apply rtc_once; right].
  - exists 24, 200, [71; 80; 73; 79; 65], (Some 1).
    split_and!; [done|done|right; right; by eexists|by vm_compute].
  - split_and!; [done|done|done|]. intros d Hd H0. cbn in Hd.
    repeat (apply elem_of_cons in Hd as [->|Hd]; [done|]). by apply elem_of_nil in Hd.
Defined.

(** GPIOA has the letter as its number; both drivers were called. *)
Example gpio_number :
  device_number <$> aget (BRTOSDevControl two_open) 1 = Some 65 /\ drivers two_open = [(1, 200); (0, 100)].
Proof. by vm_compute. Qed.

(** A full table and a name without a number give NULL. *)
Example no_device :
  option_map fst (OSDevOpen 48 0 two_open) = Some None /\
  option_map fst ((_ <- OSDevOpen 16 0 ;; OSDevOpen 40 0) two_open) = Some None.
Proof. by vm_compute. Qed.

(** ** What goes wrong *)

(** A name of an unknown type gets a handle, but no driver and no table of
    operations: the first write follows the NULL pointer. *)
Example unknown_type_faults :
  option_map fst (OSDevOpen 40 0 closed) = Some (Some 0) /\
  OSDevWrite 0 16 4 (state_of (OSDevOpen 40 0 closed)) = None /\
  option_map fst (OSDevWrite 0 16 4 one_open) = Some 4.
Proof. by vm_compute. Qed.

(** Numbers of two digits are such names, because all but the last character of the
    name is compared: UART10 is no UART. *)
Example two_digits :
  type_of [85; 65; 82; 84; 49; 48] = END_TYPE /\ drivers (state_of (OSDevOpen 32 0 closed)) = [].
Proof. by vm_compute. Qed.

(** For the name G the number is the character three behind its end. *)
Example reads_past_name :
  device_number <$> aget (BRTOSDevControl (state_of (OSDevOpen 56 0 closed))) 0 = Some 99.
Proof. by vm_compute. Qed.

(** The table keeps the caller's pointer: when the buffer that held UART0 is used for
    UART1, opening UART1 gives the handle of UART0, and UART0 is opened twice. *)
Definition reused : devs :=
  mkDevices (BRTOSDevices one_open) (BRTOSDevControl one_open) (<[12%nat := 49]> names ++ [85; 65; 82; 84; 48; 0])
    (drivers one_open).
Example name_not_copied :
  option_map fst (OSDevOpen 16 0 reused) = Some (Some 0) /\
  option_map fst (OSDevOpen 64 0 reused) = Some (Some 1) /\
  device_number <$> BRTOSDevControl (state_of (OSDevOpen 64 0 reused)) = [0; 0; 0].
Proof. by vm_compute. Qed.
