(* ===== verification/Touch.v ===== *)
(** * The touch screen

    modules/TouchScreen/ADS7846_STM32F4_Driver/touch_7846.c: the converter on the
    serial bus, the filter of its samples, and the position on the screen. *)

From Stdlib Require Import ZArith Lia.
From stdpp Require Import base numbers list sorting sets.
From S2P Require Import Prelude.
#[local] Open Scope Z_scope.
#[local] Open Scope stm_scope.

(** ** Data *)

(** [gdisp_orientation_t] *)
Inductive gdisp_orientation_t := portrait | landscape | portraitInv | landscapeInv.
#[global] Instance orientation_eq_dec : EqDecision gdisp_orientation_t.
Proof. solve_decision. Defined.

Definition SCREEN_WIDTH : Z := 320.
Definition SCREEN_HEIGHT : Z := 240.
Definition AXIS_X : Z := 0.
Definition AXIS_Y : Z := 1.

(** [Pen_Holder], without the calibration factors, which are floating-point numbers. *)
Record Pen_Holder := mkPen {
  pen_X0 : Z; pen_Y0 : Z; pen_X : Z; pen_Y : Z; CalibOrientation : gdisp_orientation_t;
}.

(** What happens on the bus: the chip select line and the bytes sent. *)
Inductive bus_event := Select | Deselect | Sent (b : Z).

(** [Pen_Point], the bus so far and the orientation of the display. *)
Record touch := mkTouch { Pen_Point : Pen_Holder; bus : list bus_event; orientation : gdisp_orientation_t }.

Section touch.
(** The byte the converter sends while the last byte of the history goes out, and the
    scaling of a sample to a pixel with the calibration factors, in floating point. *)
Context (reply : list bus_event -> Z) (pixel_x pixel_y : Z -> Z).

Definition tp (A : Type) : Type := stm touch A.
Definition log (e : bus_event) : tp unit :=
  tset (fun s => mkTouch (Pen_Point s) (bus s ++ [e]) (orientation s)).
Definition set_Pen (f : Pen_Holder -> Pen_Holder) : tp unit :=
  tset (fun s => mkTouch (f (Pen_Point s)) (bus s) (orientation s)).

(** The two loops that wait for a flag of the bus, [while (... == RESET);], are left
    out: the bus is assumed to take a byte and to answer. *)
Definition SPI_WriteByte (num : Z) : tp Z := log (Sent num) ;;; h <- tget bus ;; tret (uint8 (reply h)).

Definition tp_read_value (cmd : Z) : tp Z :=
  log Select ;;;
  _ <- SPI_WriteByte cmd ;;
  read <- SPI_WriteByte 0 ;;
  let ret := uint16 (Z.shiftl read 5) in
  read <- SPI_WriteByte 0 ;;
  let ret := Z.lor ret (Z.shiftr read 3) in
  log Deselect ;;;
  tret ret.

(** The loop over [j], for [i], and the loop over [i]. *)
Fixpoint filter_inner (n : nat) (i j : Z) (sampleBuf : list Z) : option (list Z) :=
  match n with
  | O => Some sampleBuf
  | S n' =>
      match aget sampleBuf i, aget sampleBuf j with
      | Some a, Some b => filter_inner n' i (j + 1) (if a >? b then aset (aset sampleBuf i b) j a else sampleBuf)
      | _, _ => None
      end
  end.
Fixpoint filter_outer (n : nat) (i : Z) (sampleBuf : list Z) : option (list Z) :=
  match n with
  | O => Some sampleBuf
  | S n' =>
      match filter_inner (Z.to_nat (7 - i)) i i sampleBuf with
      | Some sampleBuf => filter_outer n' (i + 1) sampleBuf
      | None => None
      end
  end.
Definition tp_filter (sampleBuf : list Z) : option Z :=
  match filter_outer 4 0 sampleBuf with Some sampleBuf => aget sampleBuf 3 | None => None end.

Fixpoint read_samples (n : nat) (axis : Z) : tp (list Z) :=
  match n with
  | O => tret []
  | S n' => v <- tp_read_value axis ;; l <- read_samples n' axis ;; tret (v :: l)
  end.

Definition tp_read_axis (axis : Z) : tp Z :=
  if axis >? 1 then tret 0
  else
    let axis := if axis =? AXIS_X then 0xD1 else 0x91 in
    _ <- tp_read_value axis ;;
    buffer <- read_samples 7 axis ;;
    _ <- tp_read_value (uint8 (axis - 1)) ;;
    tlift (tp_filter buffer).

(** The position of a touch for the two orientations. *)
Definition clamp : tp unit :=
  set_Pen (fun p => mkPen (if pen_X0 p >=? SCREEN_HEIGHT then SCREEN_HEIGHT - 1 else pen_X0 p) (pen_Y0 p)
                      (pen_X p) (pen_Y p) (CalibOrientation p)) ;;;
  set_Pen (fun p => mkPen (pen_X0 p) (if pen_Y0 p >=? SCREEN_WIDTH then SCREEN_WIDTH - 1 else pen_Y0 p)
                      (pen_X p) (pen_Y p) (CalibOrientation p)).
Definition turn (f : Z -> Z -> Z * Z) : tp unit :=
  set_Pen (fun p => let '(x, y) := f (pen_X0 p) (pen_Y0 p) in
                    mkPen x y (pen_X p) (pen_Y p) (CalibOrientation p)).

Definition TP_Read : tp unit :=
  x <- tp_read_axis AXIS_X ;;
  set_Pen (fun p => mkPen (pen_X0 p) (pen_Y0 p) x (pen_Y p) (CalibOrientation p)) ;;;
  y <- tp_read_axis AXIS_Y ;;
  set_Pen (fun p => mkPen (pen_X0 p) (pen_Y0 p) (pen_X p) y (CalibOrientation p)) ;;;
  set_Pen (fun p => mkPen (uint16 (pixel_x (pen_X p))) (pen_Y0 p) (pen_X p) (pen_Y p) (CalibOrientation p)) ;;;
  set_Pen (fun p => mkPen (pen_X0 p) (uint16 (pixel_y (pen_Y p))) (pen_X p) (pen_Y p) (CalibOrientation p)) ;;;
  clamp ;;;
  c <- tget (fun s => CalibOrientation (Pen_Point s)) ;;
  (if decide (c = landscape) then turn (fun x y => (y, x)) else tret tt) ;;;
  o <- tget orientation ;;
  if decide (c <> o) then
    (if decide (c = portrait /\ o = landscape) then turn (fun x y => (uint16 (SCREEN_WIDTH - 1 - y), x)) else tret tt) ;;;
    (if decide (c = landscape /\ o = portrait) then turn (fun x y => (y, uint16 (SCREEN_WIDTH - 1 - x))) else tret tt)
  else tret tt.

(** ** The filter takes the median *)

Lemma swap_if_Permutation l (i j : nat) a b :
  l !! i = Some a -> l !! j = Some b -> (if a >? b then aset (aset l (Z.of_nat i) b) (Z.of_nat j) a else l) ≡ₚ l.
Proof. intros Hi Hj. destruct (a >? b); [|done]. rewrite !aset_nat. by apply Permutation_insert_swap. Qed.

(** The loop over [j] brings a smallest element to [i]. *)
Lemma filter_inner_spec (i : nat) : forall n (j : nat) l,
  (i <= j)%nat -> (i < length l)%nat -> (j + n = length l)%nat ->
  (forall a k b, l !! i = Some a -> (i <= k < j)%nat -> l !! k = Some b -> a <= b) ->
  exists l', filter_inner n (Z.of_nat i) (Z.of_nat j) l = Some l' /\ l' ≡ₚ l /\
    (forall k, (k < i)%nat -> l' !! k = l !! k) /\
    (forall a k b, l' !! i = Some a -> (i <= k)%nat -> l' !! k = Some b -> a <= b).
Proof.
  induction n as [|n IH]; intros j l Hij Hil Hn Hmin; cbn [filter_inner].
  - exists l. split_and!; try done. intros a k b Ha Hk Hb. apply (Hmin a k b); [done| |done].
    apply lookup_lt_Some in Hb. lia.
  - destruct (lookup_lt_is_Some_2 l i Hil) as [a Ha]. destruct (lookup_lt_is_Some_2 l j ltac:(lia)) as [b Hb].
    rewrite !aget_nat, Ha, Hb. pose proof (swap_if_Permutation l i j a b Ha Hb) as Hp.
    set (l1 := if a >? b then _ else l) in *.
    assert (length l1 = length l) as Hlen by by apply Permutation_length.
    assert (exists c, l1 !! i = Some c /\ c <= a /\ c <= b /\
      forall k d, k <> i -> l1 !! k = Some d -> (k <> j /\ l !! k = Some d) \/ (k = j /\ c <= d)) as (c & Hc & Hca & Hcb & Hk).
    { unfold l1. destruct (a >? b) eqn:E; to_prop.
      - rewrite !aset_nat. exists b. assert (i <> j) as Hne by (intros ->; rewrite Hb in Ha; injection Ha; lia).
        rewrite list_lookup_insert_ne, list_lookup_insert_eq by done. split_and!; [done|lia|lia|].
        intros k d Hki Hd. destruct (decide (k = j)) as [->|Hkj].
        + rewrite list_lookup_insert_eq in Hd by (rewrite length_insert; lia). injection Hd as <-. right. lia.
        + left. by rewrite !list_lookup_insert_ne in Hd by done.
      - exists a. split_and!; [done|lia|lia|]. intros k d Hki Hd. destruct (decide (k = j)) as [->|Hkj]; [right|by left].
        rewrite Hb in Hd. injection Hd as <-. done. }
    destruct (IH (S j) l1) as (l' & Hrun & Hp' & Hlow & Hall).
    + lia.
    + lia.
    + lia.
    + intros c' k d Hc' Hkr Hd. rewrite Hc in Hc'. injection Hc' as <-. destruct (decide (k = i)) as [->|Hki].
      { rewrite Hc in Hd. injection Hd as <-. done. }
      destruct (Hk k d Hki Hd) as [[Hkj Hd']|[_ ?]]; [|done]. specialize (Hmin a k d Ha ltac:(lia) Hd'). lia.
    + exists l'. replace (Z.of_nat j + 1) with (Z.of_nat (S j)) by lia. split_and!; [done|by rewrite Hp'| |done].
      intros k Hki. rewrite Hlow by done. unfold l1. destruct (a >? b); [|done].
      by rewrite !aset_nat, !list_lookup_insert_ne by lia.
Qed.

(** After [n] rounds the first [n] elements are in place. *)
Lemma filter_outer_spec : forall n (i : nat) l, length l = 7%nat -> (i + n <= 7)%nat ->
  StronglySorted Z.le (take i l) -> (forall x y, x ∈ take i l -> y ∈ drop i l -> x <= y) ->
  exists l', filter_outer n (Z.of_nat i) l = Some l' /\ l' ≡ₚ l /\
    StronglySorted Z.le (take (i + n) l') /\ (forall x y, x ∈ take (i + n) l' -> y ∈ drop (i + n) l' -> x <= y).
Proof.
  induction n as [|n IH]; intros i l Hl Hi Hs Hle; cbn [filter_outer].
  - exists l. by rewrite Nat.add_0_r.
  - destruct (filter_inner_spec i (Z.to_nat (7 - Z.of_nat i)) i l) as (l1 & Hrun & Hp & Hlow & Hmin); [lia|lia|lia| |].
    { intros a k b _ Hk. lia. }
    rewrite Hrun. replace (Z.of_nat i + 1) with (Z.of_nat (S i)) by lia.
    assert (length l1 = 7%nat) as Hl1 by (by rewrite (Permutation_length Hp)).
    assert (take i l1 = take i l) as Htake.
    { apply list_eq. intros k. destruct (decide (k < i)%nat); [by rewrite !lookup_take_lt, Hlow by done|].
      by rewrite !lookup_take_ge by lia. }
    assert (drop i l1 ≡ₚ drop i l) as Hdrop.
    { apply (Permutation_app_inv_l (take i l)). rewrite <- Htake at 1. by rewrite !take_drop. }
    destruct (lookup_lt_is_Some_2 l1 i ltac:(lia)) as [a Ha]. rewrite (drop_S _ _ _ Ha) in Hdrop.
    assert (forall x, x ∈ take i l1 -> x <= a) as Hxa.
    { intros x Hx. apply Hle; [by rewrite <- Htake|]. rewrite <- Hdrop. by left. }
    assert (forall y, y ∈ drop (S i) l1 -> a <= y) as Hay.
    { intros y [k Hk]%list_elem_of_lookup. rewrite lookup_drop in Hk. apply (Hmin a (S i + k)%nat y Ha); [lia|done]. }
    destruct (IH (S i) l1) as (l' & Hrun' & Hp' & Hs' & Hle'); [done|lia| | |].
    + rewrite (take_S_r _ _ _ Ha). apply StronglySorted_app. split_and!; [|by rewrite Htake|by repeat constructor].
      intros x y Hx ->%list_elem_of_singleton. by apply Hxa.
    + rewrite (take_S_r _ _ _ Ha). intros x y [Hx| ->%list_elem_of_singleton]%elem_of_app Hy; [|by apply Hay].
      apply Hle; [by rewrite <- Htake|]. rewrite <- Hdrop. by right.
    + exists l'. replace (i + S n)%nat with (S i + n)%nat by lia. split_and!; [done|by rewrite Hp'|done|done].
Qed.

Lemma tp_filter_lemma sampleBuf sorted :
  length sampleBuf = 7%nat -> sorted ≡ₚ sampleBuf -> StronglySorted Z.le sorted ->
  exists r, tp_filter sampleBuf = Some r /\ sorted !! 3%nat = Some r.
Proof.
  intros Hl Hp Hs. destruct (filter_outer_spec 4 0 sampleBuf Hl) as (l & Hrun & Hpl & Hsort & Hle); [lia|constructor|set_solver|].
  cbn [Nat.add] in *. unfold tp_filter. change 0 with (Z.of_nat 0). rewrite Hrun. change 3 with (Z.of_nat 3). rewrite aget_nat.
  assert (length l = 7%nat) as Hll by by rewrite (Permutation_length Hpl).
  destruct (lookup_lt_is_Some_2 l 3 ltac:(lia)) as [r Hr]. exists r. split; [done|].
  assert (sorted = take 4 l ++ merge_sort Z.le (drop 4 l)) as ->.
  - apply (Sorted_unique Z.le); [by apply StronglySorted_Sorted| |].
    + apply StronglySorted_Sorted, StronglySorted_app. split_and!; [|done|apply StronglySorted_merge_sort; apply _].
      intros x y Hx Hy. rewrite merge_sort_Permutation in Hy. by apply Hle.
    + by rewrite merge_sort_Permutation, take_drop, Hpl.
  - rewrite lookup_app_l by (rewrite length_take; lia). by rewrite lookup_take_lt by lia.
Qed.

(** [tp_filter] of seven samples is their median: the fourth in ascending order.  The
    partial sort it does, of the first four places, returns and stays inside the
    buffer. *)
Theorem tp_filter_median sampleBuf sorted :
  length sampleBuf = 7%nat -> sorted ≡ₚ sampleBuf -> StronglySorted Z.le sorted ->
  exists r, tp_filter sampleBuf = Some r /\ sorted !! 3%nat = Some r.
Proof.
  apply tp_filter_lemma.
Qed.

(** ** The samples *)

(** A conversion on the bus, and the 13 bits read in it. *)
Definition conversion (cmd : Z) (h : list bus_event) : list bus_event :=
  h ++ [Select; Sent cmd; Sent 0; Sent 0; Deselect].
Definition converted (cmd : Z) (h : list bus_event) : Z :=
  32 * uint8 (reply (h ++ [Select; Sent cmd; Sent 0])) + uint8 (reply (h ++ [Select; Sent cmd; Sent 0; Sent 0])) / 8.
Definition with_bus (h : list bus_event) (s : touch) : touch := mkTouch (Pen_Point s) h (orientation s).

Lemma two_bytes a b : 0 <= a < 256 -> 0 <= b < 256 -> Z.lor (uint16 (Z.shiftl a 5)) (Z.shiftr b 3) = 32 * a + b / 8.
Proof.
  intros Ha Hb. rewrite Z.shiftl_mul_pow2, Z.shiftr_div_pow2 by lia. change (2 ^ 5) with 32. change (2 ^ 3) with 8.
  rewrite uint16_small by lia. assert (0 <= b / 8 < 32) as Hd by (split; [apply Z.div_pos; lia|apply Z.div_lt_upper_bound; lia]).
  pose proof (Z.add_lor_land (a * 32) (b / 8)) as E. assert (Z.land (a * 32) (b / 8) = 0); [|lia].
  apply Z.bits_inj'. intros n Hn. rewrite Z.land_spec, Z.bits_0. destruct (decide (n < 5)).
  - change 32 with (2 ^ 5). by rewrite Z.mul_pow2_bits_low by lia.
  - assert (Z.testbit (b / 8) n = false) as ->; [|by rewrite andb_false_r].
    apply Z.bits_above_log2; [lia|]. destruct (decide (b / 8 = 0)) as [->|]; [change (Z.log2 0) with 0; lia|].
    apply Z.log2_lt_pow2; [lia|]. apply Z.lt_le_trans with (2 ^ 5); [lia|]. apply Z.pow_le_mono_r; lia.
Qed.

Lemma converted_range cmd h : 0 <= converted cmd h < 2 ^ 13.
Proof.
  unfold converted. set (x := reply (h ++ [Select; Sent cmd; Sent 0])). set (y := reply (h ++ [Select; Sent cmd; Sent 0; Sent 0])).
  pose proof (uint_range 8 x) as Hx. pose proof (uint_range 8 y) as Hy. fold (uint8 x) in Hx. fold (uint8 y) in Hy.
  assert (0 <= uint8 y / 8 < 32) by (split; [apply Z.div_pos; lia|apply Z.div_lt_upper_bound; lia]). lia.
Qed.

Lemma tp_read_value_eq cmd s :
  tp_read_value cmd s = Some (converted cmd (bus s), with_bus (conversion cmd (bus s)) s).
Proof.
  unfold tp_read_value, SPI_WriteByte, log, converted, conversion, with_bus, tbind, tset, tget, tret. cbn.
  rewrite <- !app_assoc. cbn [app]. rewrite two_bytes; [done| |]; apply (uint_range 8); lia.
Qed.

(** The history after [n] conversions, and the samples read in them. *)
Fixpoint conversions (n : nat) (cmd : Z) (h : list bus_event) : list bus_event :=
  match n with O => h | S n' => conversions n' cmd (conversion cmd h) end.
Fixpoint samples (n : nat) (cmd : Z) (h : list bus_event) : list Z :=
  match n with O => [] | S n' => converted cmd h :: samples n' cmd (conversion cmd h) end.

Lemma read_samples_eq cmd : forall n s,
  read_samples n cmd s = Some (samples n cmd (bus s), with_bus (conversions n cmd (bus s)) s).
Proof.
  induction n as [|n IH]; intros s; cbn [read_samples]; [by destruct s|].
  rewrite (bind_Some _ _ _ _ _ (tp_read_value_eq cmd s)), (bind_Some _ _ _ _ _ (IH _)). done.
Qed.

Lemma length_samples cmd : forall n h, length (samples n cmd h) = n.
Proof. induction n as [|n IH]; intros h; [done|]. cbn. by rewrite IH. Qed.

(** The command of an axis, the history after reading it, and the sample taken. *)
Definition axis_cmd (axis : Z) : Z := if axis =? AXIS_X then 0xD1 else 0x91.
Definition axis_bus (axis : Z) (h : list bus_event) : list bus_event :=
  conversion (axis_cmd axis - 1) (conversions 8 (axis_cmd axis) h).
Definition axis_value (axis : Z) (h : list bus_event) : Z :=
  default 0 (merge_sort Z.le (samples 7 (axis_cmd axis) (conversion (axis_cmd axis) h)) !! 3%nat).

Lemma tp_filter_eq l : length l = 7%nat -> tp_filter l = Some (default 0 (merge_sort Z.le l !! 3%nat)).
Proof.
  intros Hl. destruct (tp_filter_lemma l (merge_sort Z.le l) Hl) as (r & Hr & E).
  - apply merge_sort_Permutation.
  - apply StronglySorted_merge_sort; apply _.
  - by rewrite E, Hr.
Qed.

Lemma tp_read_axis_eq axis s :
  axis <= 1 -> tp_read_axis axis s = Some (axis_value axis (bus s), with_bus (axis_bus axis (bus s)) s).
Proof.
  intros Ha. unfold tp_read_axis. rewrite Z.gtb_ltb, (proj2 (Z.ltb_ge _ _)) by lia. fold (axis_cmd axis).
  rewrite (bind_Some _ _ _ _ _ (tp_read_value_eq _ _)), (bind_Some _ _ _ _ _ (read_samples_eq _ _ _)).
  assert (uint8 (axis_cmd axis - 1) = axis_cmd axis - 1) as -> by (unfold axis_cmd; by destruct (axis =? AXIS_X)).
  rewrite (bind_Some _ _ _ _ _ (tp_read_value_eq _ _)). unfold tlift. cbn [bus with_bus].
  by rewrite tp_filter_eq by apply length_samples.
Qed.

Lemma axis_value_range axis h : 0 <= axis_value axis h < 2 ^ 13.
Proof.
  unfold axis_value. destruct (merge_sort _ _ !! _) as [v|] eqn:E; [|cbn; lia].
  apply list_elem_of_lookup_2 in E. rewrite merge_sort_Permutation in E. cbn [default].
  revert E. generalize (conversion (axis_cmd axis) h). generalize 7%nat. intros m. induction m as [|n IH]; intros h' E; [set_solver|].
  cbn [samples] in E. apply elem_of_cons in E as [->|E]; [apply converted_range|by apply (IH (conversion (axis_cmd axis) h'))].
Qed.

(** ** The position *)

(** A position in portrait as one of the two orientations shows it. *)
Definition shown (o : gdisp_orientation_t) (p : Z * Z) : Z * Z :=
  if decide (o = landscape) then (SCREEN_WIDTH - 1 - p.2, p.1) else p.

(** The pixel of the panel's own axes, and the portrait position there. *)
Definition panel (v_x v_y : Z) : Z * Z :=
  (Z.min (uint16 (pixel_x v_x)) (SCREEN_HEIGHT - 1), Z.min (uint16 (pixel_y v_y)) (SCREEN_WIDTH - 1)).
Definition portrait_of (c : gdisp_orientation_t) (p : Z * Z) : Z * Z :=
  if decide (c = landscape) then (p.1, SCREEN_WIDTH - 1 - p.2) else p.

Lemma clamp_min x b : (if x >=? b then b - 1 else x) = Z.min x (b - 1).
Proof. destruct (x >=? b) eqn:E; to_prop; lia. Qed.

(** C40: [TP_Read].  Whatever the converter answers, the read returns; the samples of
    both axes have 13 bits; and with the display and the calibration in portrait or
    landscape, the position is inside the screen as it is turned, and is the same
    point of the panel whatever the two orientations are: turning the display turns
    the position with it. *)
Theorem TP_Read_position s c o :
  CalibOrientation (Pen_Point s) = c -> orientation s = o -> c = portrait \/ c = landscape -> o = portrait \/ o = landscape ->
  exists s', TP_Read s = Some (tt, s') /\
    let v_x := axis_value AXIS_X (bus s) in
    let v_y := axis_value AXIS_Y (axis_bus AXIS_X (bus s)) in
    pen_X (Pen_Point s') = v_x /\ pen_Y (Pen_Point s') = v_y /\ 0 <= v_x < 2 ^ 13 /\ 0 <= v_y < 2 ^ 13 /\
    (pen_X0 (Pen_Point s'), pen_Y0 (Pen_Point s')) = shown o (portrait_of c (panel v_x v_y)) /\
    0 <= pen_X0 (Pen_Point s') < (if decide (o = landscape) then SCREEN_WIDTH else SCREEN_HEIGHT) /\
    0 <= pen_Y0 (Pen_Point s') < (if decide (o = landscape) then SCREEN_HEIGHT else SCREEN_WIDTH).
Proof.
  intros Hc Ho Hcs Hos. unfold TP_Read.
  rewrite (bind_Some _ _ _ _ _ (tp_read_axis_eq AXIS_X s ltac:(done))). unfold set_Pen at 1. rewrite bind_set.
  rewrite (bind_Some _ _ _ _ _ (tp_read_axis_eq AXIS_Y _ ltac:(done))). cbn [bus with_bus].
  set (v_x := axis_value AXIS_X (bus s)). set (v_y := axis_value AXIS_Y _).
  pose proof (uint_range 16 (pixel_x v_x)) as Hx. pose proof (uint_range 16 (pixel_y v_y)) as Hy.
  fold (uint16 (pixel_x v_x)) in Hx. fold (uint16 (pixel_y v_y)) in Hy.
  unfold set_Pen, clamp, turn, tbind, tset, tget, tret, shown, portrait_of, panel, with_bus, set_Pen.
  cbn. rewrite Ho, Hc. rewrite !clamp_min.
  set (x := Z.min _ (SCREEN_HEIGHT - 1)). set (y := Z.min _ (SCREEN_WIDTH - 1)).
  assert (0 <= x < SCREEN_HEIGHT) as Hxr by (unfold x, SCREEN_HEIGHT; lia).
  assert (0 <= y < SCREEN_WIDTH) as Hyr by (unfold y, SCREEN_WIDTH; lia).
  pose proof (axis_value_range AXIS_X (bus s)). pose proof (axis_value_range AXIS_Y (axis_bus AXIS_X (bus s))).
  unfold SCREEN_WIDTH, SCREEN_HEIGHT in *.
  destruct Hcs as [->| ->], Hos as [->| ->]; cbn; eexists; (split; [done|]); cbn;
    rewrite ?uint16_small by lia; split_and!; try done; try lia. all: repeat case_decide; done || lia || (cbn; f_equal; lia).
Qed.
End touch.
