(* ===== verification/TouchExamples.v ===== *)
(** * The touch screen on a concrete bus

    The theorems of Touch.v for a converter that answers with the length of the
    history, and what happens left of the calibrated origin. *)

From Stdlib Require Import ZArith Lia.
From stdpp Require Import base numbers list sorting sets.
From S2P Require Import Prelude Touch.
#[local] Open Scope Z_scope.

Definition seven : list Z := [5; 1; 4; 9; 2; 8; 7].

Lemma tp_filter_median_witness : exists r, tp_filter seven = Some r /\ [1; 2; 4; 5; 7; 8; 9] !! 3%nat = Some r.
Proof.
  apply (tp_filter_median seven [1; 2; 4; 5; 7; 8; 9]).
  - done.
  - apply (bool_decide_eq_true_1 ([1; 2; 4; 5; 7; 8; 9] ≡ₚ seven)). by vm_compute.
  - by repeat constructor.
Defined.

Definition counting (h : list bus_event) : Z := Z.of_nat (length h).
Definition scale (v : Z) : Z := (v - 1000) / 12.
Definition untouched (c o : gdisp_orientation_t) : touch := mkTouch (mkPen 0 0 0 0 c) [] o.

Lemma TP_Read_position_witness :
  exists s', TP_Read counting scale scale (untouched portrait landscape) = Some (tt, s') /\
    let v_x := axis_value counting AXIS_X [] in
    let v_y := axis_value counting AXIS_Y (axis_bus AXIS_X []) in
    pen_X (Pen_Point s') = v_x /\ pen_Y (Pen_Point s') = v_y /\ 0 <= v_x < 2 ^ 13 /\ 0 <= v_y < 2 ^ 13 /\
    (pen_X0 (Pen_Point s'), pen_Y0 (Pen_Point s')) = shown landscape (portrait_of portrait (panel scale scale v_x v_y)) /\
    0 <= pen_X0 (Pen_Point s') < SCREEN_WIDTH /\ 0 <= pen_Y0 (Pen_Point s') < SCREEN_HEIGHT.
Proof.
  apply (TP_Read_position counting scale scale (untouched portrait landscape) portrait landscape);
    [done|done|by left|by right].
Defined.

(** Two axes of nine conversions, of five events each, are on the bus. *)
Example bus_length :
  option_map (fun r => length (bus r.2)) (TP_Read counting scale scale (untouched portrait portrait)) = Some 90%nat.
Proof. by vm_compute. Qed.

(** The pixel is kept in an unsigned object: a touch just left of the calibrated origin
    is taken for one at the opposite edge. *)
Example left_of_origin :
  option_map (fun r => pen_X0 (Pen_Point r.2)) (TP_Read counting (fun _ => -1) scale (untouched portrait portrait)) = Some 239 /\
  option_map (fun r => pen_X0 (Pen_Point r.2)) (TP_Read counting (fun _ => 1) scale (untouched portrait portrait)) = Some 1.
Proof. by vm_compute. Qed.

(** In the two inverted orientations, which the display has, the position is not
    turned at all. *)
Example inverted_not_turned :
  option_map (fun r => (pen_X0 (Pen_Point r.2), pen_Y0 (Pen_Point r.2)))
    (TP_Read counting (fun _ => 7) (fun _ => 300) (untouched portrait landscapeInv)) = Some (7, 300).
Proof. by vm_compute. Qed.
