(* ===== verification/Gui.v ===== *)
(** * The graphical objects

    modules/GLCD/GLCD_Library/GUI_objects.c: the list of the objects that react to
    touches, buttons, sliders and check boxes, and the handling of a touch.  The calls
    of the graphics library, of the mutex around them and of the queue of callbacks
    are recorded in the order in which they are made. *)

From Stdlib Require Import ZArith Lia.
From stdpp Require Import base numbers list.
From S2P Require Import Prelude Text.
#[local] Open Scope Z_scope.
#[local] Open Scope stm_scope.

(** ** Data (GUI_objects.h) *)

Definition BUTTON_OBJECT : Z := 1.
Definition CHECKBOX_OBJECT : Z := 2.
Definition SLIDER_OBJECT : Z := 3.
Definition GRAPH_OBJECT : Z := 4.

(** Pointers are addresses and NULL is 0; the event structure is a member of its
    object and has the object's address.  A [coord_t] is a signed 16-bit integer. *)
Record ObjectEvent_t := mkEvent {
  ev_x1 : Z; ev_y1 : Z; ev_x2 : Z; ev_y2 : Z; ev_object : Z; ObjectPointer : Z; Next : Z; Previous : Z;
}.
Record Button_t := mkButton {
  b_x : Z; b_y : Z; b_dx : Z; b_dy : Z; b_radius : Z; b_bg_color : Z; b_font_color : Z; b_str : Z;
  b_event : ObjectEvent_t; b_ClickEvent : Z;
}.
Record Slider_t := mkSlider {
  s_x : Z; s_y : Z; s_dx : Z; s_dy : Z; s_x1 : Z; s_y1 : Z; s_x2 : Z; s_y2 : Z; s_radius : Z;
  s_border_color : Z; s_fg_color : Z; s_value : Z; s_lvalue : Z; s_event : ObjectEvent_t; s_ClickEvent : Z;
}.
Record Checkbox_t := mkCheckbox {
  c_x : Z; c_y : Z; c_dx : Z; c_dy : Z; c_radius : Z; c_border_color : Z; c_fg_color : Z; c_value : Z;
  c_event : ObjectEvent_t; c_ClickEvent : Z;
}.

(** An object in memory. *)
Inductive widget := WButton (b : Button_t) | WSlider (s : Slider_t) | WCheckbox (c : Checkbox_t).
Definition event_of (w : widget) : ObjectEvent_t :=
  match w with WButton b => b_event b | WSlider s => s_event s | WCheckbox c => c_event c end.
Definition set_event (f : ObjectEvent_t -> ObjectEvent_t) (w : widget) : widget :=
  match w with
  | WButton b => WButton (mkButton (b_x b) (b_y b) (b_dx b) (b_dy b) (b_radius b) (b_bg_color b) (b_font_color b)
                            (b_str b) (f (b_event b)) (b_ClickEvent b))
  | WSlider s => WSlider (mkSlider (s_x s) (s_y s) (s_dx s) (s_dy s) (s_x1 s) (s_y1 s) (s_x2 s) (s_y2 s) (s_radius s)
                            (s_border_color s) (s_fg_color s) (s_value s) (s_lvalue s) (f (s_event s)) (s_ClickEvent s))
  | WCheckbox c => WCheckbox (mkCheckbox (c_x c) (c_y c) (c_dx c) (c_dy c) (c_radius c) (c_border_color c) (c_fg_color c)
                                (c_value c) (f (c_event c)) (c_ClickEvent c))
  end.

Definition set_Next (p : Z) (e : ObjectEvent_t) : ObjectEvent_t :=
  mkEvent (ev_x1 e) (ev_y1 e) (ev_x2 e) (ev_y2 e) (ev_object e) (ObjectPointer e) p (Previous e).
Definition set_Previous (p : Z) (e : ObjectEvent_t) : ObjectEvent_t :=
  mkEvent (ev_x1 e) (ev_y1 e) (ev_x2 e) (ev_y2 e) (ev_object e) (ObjectPointer e) (Next e) p.

(** The calls made. *)
Inductive call :=
| Acquire | Release
| FillArea (x y cx cy color : Z) | FillCircle (x y radius color : Z)
| DrawLine (x0 y0 x1 y1 color : Z) | DrawString (x y str color : Z)
| Post (callback : Z) | Delay (ms : Z).

Record gui := mkGui {
  ObjectHead : Z; ObjectTail : Z; objects : list widget; GuiBackground : Z; calls : list call;
}.

Definition gp (A : Type) : Type := stm gui A.
Definition emit (c : call) : gp unit :=
  tset (fun s => mkGui (ObjectHead s) (ObjectTail s) (objects s) (GuiBackground s) (calls s ++ [c])).
Definition get_object (p : Z) : gp widget :=
  if p =? 0 then tlift None else l <- tget objects ;; tlift (aget l p).
Definition put_object (p : Z) (w : widget) : gp unit :=
  _ <- get_object p ;;
  tset (fun s => mkGui (ObjectHead s) (ObjectTail s) (aset (objects s) p w) (GuiBackground s) (calls s)).
Definition upd_event (p : Z) (f : ObjectEvent_t -> ObjectEvent_t) : gp unit :=
  w <- get_object p ;; put_object p (set_event f w).
Definition set_Head (p : Z) : gp unit :=
  tset (fun s => mkGui p (ObjectTail s) (objects s) (GuiBackground s) (calls s)).
Definition set_Tail (p : Z) : gp unit :=
  tset (fun s => mkGui (ObjectHead s) p (objects s) (GuiBackground s) (calls s)).
Definition get_event (p : Z) : gp ObjectEvent_t := w <- get_object p ;; tret (event_of w).

(** ** The list of objects *)

Definition GUI_IncludeObjectIntoEventList (object : Z) : gp unit :=
  tail <- tget ObjectTail ;;
  if negb (tail =? 0) then
    upd_event tail (set_Next object) ;;;
    tail <- tget ObjectTail ;; upd_event object (set_Previous tail) ;;;
    set_Tail object ;;;
    tail <- tget ObjectTail ;; upd_event tail (set_Next 0)
  else
    set_Tail object ;;;
    set_Head object ;;;
    upd_event object (set_Next 0) ;;;
    upd_event object (set_Previous 0).

Definition GUI_RemoveObjectIntoEventList (object : Z) : gp unit :=
  head <- tget ObjectHead ;; tail <- tget ObjectTail ;;
  if object =? head then
    if object =? tail then
      set_Tail 0 ;;; set_Head 0
    else
      e <- get_event object ;; set_Head (Next e) ;;;
      head <- tget ObjectHead ;; upd_event head (set_Previous 0)
  else if object =? tail then
    e <- get_event object ;; set_Tail (Previous e) ;;;
    tail <- tget ObjectTail ;; upd_event tail (set_Next 0)
  else
    e <- get_event object ;; upd_event (Next e) (set_Previous (Previous e)) ;;;
    e <- get_event object ;; upd_event (Previous e) (set_Next (Next e)).

Definition inside_event (x y : Z) (e : ObjectEvent_t) : bool :=
  (x >=? ev_x1 e) && (x <=? ev_x2 e) && (y >=? ev_y1 e) && (y <=? ev_y2 e).

Fixpoint verify_loop (fuel : nat) (x y object : Z) : gp Z :=
  if object =? 0 then tret 0
  else
    match fuel with
    | O => tlift None
    | S fuel' =>
        e <- get_event object ;;
        if inside_event x y e then tret object else verify_loop fuel' x y (Next e)
    end.
Definition GUI_VerifyObjects (x y : Z) : gp Z :=
  head <- tget ObjectHead ;; l <- tget objects ;; verify_loop (length l) x y head.

(** ** The objects *)
Section objects.
(** The width of a string, and the height of the characters of the font. *)
Context (string_width : Z -> Z) (font_height : Z).

(** [x / y] on [int]s *)
Definition quot (x y : Z) : gp Z := if y =? 0 then tlift None else tret (Z.quot x y).

Definition get_button (p : Z) : gp Button_t :=
  w <- get_object p ;; match w with WButton b => tret b | _ => tlift None end.
Definition get_slider (p : Z) : gp Slider_t :=
  w <- get_object p ;; match w with WSlider b => tret b | _ => tlift None end.
Definition get_checkbox (p : Z) : gp Checkbox_t :=
  w <- get_object p ;; match w with WCheckbox b => tret b | _ => tlift None end.

Definition area (x y cx cy color : Z) : gp unit := emit (FillArea (int16 x) (int16 y) (int16 cx) (int16 cy) color).
Definition circle (x y radius color : Z) : gp unit := emit (FillCircle (int16 x) (int16 y) (int16 radius) color).
Definition line (x0 y0 x1 y1 color : Z) : gp unit :=
  emit (DrawLine (int16 x0) (int16 y0) (int16 x1) (int16 y1) color).

(** The box with rounded corners all objects begin with. *)
Definition rounded_box (x y dx dy radius color : Z) : gp unit :=
  let x1 := int16 (x + radius) in
  let x2 := int16 (x + dx - radius) in
  let y1 := int16 (y + radius) in
  let y2 := int16 (y + dy - radius) in
  circle x1 y1 radius color ;;; circle x2 y1 radius color ;;;
  circle x1 y2 radius color ;;; circle x2 y2 radius color ;;;
  area x y1 radius (dy - 2 * radius) color ;;;
  area x2 y1 (radius + 1) (dy - 2 * radius) color ;;;
  area x1 y (dx - 2 * radius) (dy + 1) color.

(** *** Buttons *)

Definition Button_Init (x y width height radius bg_color font_color str p click_event : Z) : gp unit :=
  w <- get_button p ;;
  let e := b_event w in
  put_object p (WButton (mkButton x y width height radius bg_color font_color str
    (mkEvent (int16 (x + 2)) (int16 (y + 2)) (int16 (x + width - 4)) (int16 (y + height - 4))
       (ev_object e) (ObjectPointer e) (Next e) (Previous e)) (b_ClickEvent w))) ;;;
  GUI_IncludeObjectIntoEventList p ;;;
  upd_event p (fun e => mkEvent (ev_x1 e) (ev_y1 e) (ev_x2 e) (ev_y2 e) BUTTON_OBJECT p (Next e) (Previous e)) ;;;
  w <- get_button p ;;
  put_object p (WButton (mkButton (b_x w) (b_y w) (b_dx w) (b_dy w) (b_radius w) (b_bg_color w) (b_font_color w)
    (b_str w) (b_event w) click_event)).

(** [Button_Update], on the structure itself. *)
Definition button_update (x y width height radius bg_color font_color str : Z) (b : Button_t) : Button_t :=
  mkButton x y width height radius bg_color font_color str (b_event b) (b_ClickEvent b).
Definition Button_Update (x y width height radius bg_color font_color str p : Z) : gp unit :=
  b <- get_button p ;; put_object p (WButton (button_update x y width height radius bg_color font_color str b)).

(** [Button_Draw], which only reads the structure. *)
Definition button_draw (b : Button_t) : gp unit :=
  emit Acquire ;;;
  rounded_box (b_x b) (b_y b) (b_dx b) (b_dy b) (b_radius b) (b_bg_color b) ;;;
  let size_x := int16 (string_width (b_str b)) in
  let size_y := int16 font_height in
  emit (DrawString (int16 (b_x b + Z.quot (b_dx b - size_x) 2)) (int16 (b_y b + Z.quot (b_dy b - size_y) 2))
          (b_str b) (b_font_color b)) ;;;
  emit Release.
Definition Button_Draw (p : Z) : gp unit := b <- get_button p ;; button_draw b.

Definition Button_Click (p : Z) : gp unit :=
  b <- get_button p ;; bg <- tget GuiBackground ;;
  emit Acquire ;;;
  area (b_x b) (b_y b) (b_dx b) 2 bg ;;;
  area (b_x b) (b_y b) 2 (b_dy b) bg ;;;
  area (b_x b) (b_y b) (b_radius b) (b_radius b) bg ;;;
  area (b_x b) (b_y b + b_dy b - 12) (b_radius b) (b_radius b) bg ;;;
  area (b_x b) (b_y b + b_dy b - 2) (b_dx b) 4 bg ;;;
  area (b_x b + b_dx b - 2) (b_y b) 3 (b_dy b) bg ;;;
  area (b_x b + b_dx b - 12) (b_y b) (b_radius b) (b_radius b) bg ;;;
  area (b_x b + b_dx b - 12) (b_y b + b_dy b - 12) (b_radius b) (b_radius b) bg ;;;
  emit Release ;;;
  button_draw (button_update (int16 (b_x b + 2)) (int16 (b_y b + 2)) (int16 (b_dx b - 4)) (int16 (b_dy b - 4))
                 (b_radius b) (b_bg_color b) 0x7BEF (b_str b) b).

(** *** Sliders *)

Definition set_slider (value lvalue : Z) (s : Slider_t) : Slider_t :=
  mkSlider (s_x s) (s_y s) (s_dx s) (s_dy s) (s_x1 s) (s_y1 s) (s_x2 s) (s_y2 s) (s_radius s)
    (s_border_color s) (s_fg_color s) value lvalue (s_event s) (s_ClickEvent s).

Definition Slider_Init (x y width height border_color fg_color value p click_event : Z) : gp unit :=
  w <- get_slider p ;;
  let e := s_event w in
  put_object p (WSlider (mkSlider x y width height (int16 (x + 4)) (int16 (y + 4)) (int16 (width - 8)) (int16 (height - 7)) 4
    border_color fg_color value (s_lvalue w)
    (mkEvent (int16 (x + 1)) (int16 (y + 1)) (int16 (x + width - 2)) (int16 (y + height - 2))
       (ev_object e) (ObjectPointer e) (Next e) (Previous e)) (s_ClickEvent w))) ;;;
  GUI_IncludeObjectIntoEventList p ;;;
  upd_event p (fun e => mkEvent (ev_x1 e) (ev_y1 e) (ev_x2 e) (ev_y2 e) SLIDER_OBJECT p (Next e) (Previous e)) ;;;
  w <- get_slider p ;;
  put_object p (WSlider (mkSlider (s_x w) (s_y w) (s_dx w) (s_dy w) (s_x1 w) (s_y1 w) (s_x2 w) (s_y2 w) (s_radius w)
    (s_border_color w) (s_fg_color w) (s_value w) (s_lvalue w) (s_event w) click_event)).

Definition Slider_Update (value p : Z) : gp unit :=
  s <- get_slider p ;; put_object p (WSlider (set_slider value (s_lvalue s) s)).

Definition Slider_Draw (p : Z) : gp unit :=
  s <- get_slider p ;; bg <- tget GuiBackground ;;
  emit Acquire ;;;
  rounded_box (s_x s) (s_y s) (s_dx s) (s_dy s) (s_radius s) (s_border_color s) ;;;
  area (s_x s + 2) (s_y s + 2) (s_dx s - 3) (s_dy s - 3) bg ;;;
  area (s_x1 s) (s_y1 s) (Z.quot (s_x2 s * (s_value s + 1)) 100) (s_y2 s) (s_fg_color s) ;;;
  put_object p (WSlider (set_slider (s_value s) (int16 (Z.quot (s_x2 s * (s_value s + 1)) 100)) s)) ;;;
  emit Release.

Definition Slider_Click (p : Z) : gp unit :=
  emit Acquire ;;;
  s <- get_slider p ;; bg <- tget GuiBackground ;;
  let update := int16 (Z.quot (s_x2 s * s_value s) 100) in
  (if update <? s_lvalue s then
     area (update + s_x1 s) (s_y s + 2) (s_lvalue s - update + 1) (s_dy s - 3) bg
   else tret tt) ;;;
  (if update >? s_lvalue s then
     area (s_lvalue s + s_x1 s) (s_y1 s) (update - s_lvalue s + 1) (s_y2 s) (s_fg_color s)
   else tret tt) ;;;
  put_object p (WSlider (set_slider (s_value s) update s)) ;;;
  emit Release.

(** *** Check boxes *)

Definition Checkbox_Init (x y width height border_color fg_color value p click_event : Z) : gp unit :=
  w <- get_checkbox p ;;
  let e := c_event w in
  put_object p (WCheckbox (mkCheckbox x y width height 4 border_color fg_color (uint8 value)
    (mkEvent (int16 (x + 1)) (int16 (y + 1)) (int16 (x + width - 2)) (int16 (y + height - 2))
       (ev_object e) (ObjectPointer e) (Next e) (Previous e)) (c_ClickEvent w))) ;;;
  GUI_IncludeObjectIntoEventList p ;;;
  upd_event p (fun e => mkEvent (ev_x1 e) (ev_y1 e) (ev_x2 e) (ev_y2 e) CHECKBOX_OBJECT p (Next e) (Previous e)) ;;;
  w <- get_checkbox p ;;
  put_object p (WCheckbox (mkCheckbox (c_x w) (c_y w) (c_dx w) (c_dy w) (c_radius w) (c_border_color w) (c_fg_color w)
    (c_value w) (c_event w) click_event)).

Definition set_checkbox (value : Z) (c : Checkbox_t) : Checkbox_t :=
  mkCheckbox (c_x c) (c_y c) (c_dx c) (c_dy c) (c_radius c) (c_border_color c) (c_fg_color c) (uint8 value)
    (c_event c) (c_ClickEvent c).
Definition Checkbox_Update (value p : Z) : gp unit :=
  c <- get_checkbox p ;; put_object p (WCheckbox (set_checkbox value c)).

(** The lines of the mark: the end points' distances from the half and the whole of
    the width, and from the height. *)
Definition left_strokes : list (Z * Z) := [(0, 3); (-1, 3); (-2, 3); (-1, 4); (0, 4); (1, 5); (0, 5)].
Definition right_strokes : list (Z * Z) := [(-3, 5); (-3, 4); (-3, 3); (-2, 3); (-1, 3); (0, 3)].
Fixpoint strokes (l : list (Z * Z)) (draw : Z * Z -> gp unit) : gp unit :=
  match l with [] => tret tt | a :: l' => draw a ;;; strokes l' draw end.

Definition Checkbox_Click (p : Z) : gp unit :=
  emit Acquire ;;;
  c <- get_checkbox p ;;
  (if c_value c =? 1 then
     strokes left_strokes (fun d => line (c_x c + 4) (c_y c + Z.shiftr (c_dy c) 1 + 2)
       (c_x c + Z.shiftr (c_dx c) 1 + d.1) (c_y c + c_dy c - d.2) (c_fg_color c)) ;;;
     strokes right_strokes (fun d => line (c_x c + Z.shiftr (c_dx c) 1 + d.1) (c_y c + c_dy c - d.2)
       (c_x c + c_dx c - 3) (c_y c + 4) (c_fg_color c))
   else
     bg <- tget GuiBackground ;; area (c_x c + 2) (c_y c + 2) (c_dx c - 3) (c_dy c - 3) bg) ;;;
  emit Release.

Definition Checkbox_Draw (p : Z) : gp unit :=
  c <- get_checkbox p ;; bg <- tget GuiBackground ;;
  emit Acquire ;;;
  rounded_box (c_x c) (c_y c) (c_dx c) (c_dy c) (c_radius c) (c_border_color c) ;;;
  area (c_x c + 2) (c_y c + 2) (c_dx c - 3) (c_dy c - 3) bg ;;;
  emit Release ;;;
  if c_value c =? 1 then Checkbox_Click p else tret tt.

(** ** A touch

    One round of the loop of [GUI_Event_Handler]: [x] and [y] are the position read
    when the touch was signalled, [held] the positions read in the rounds of the inner
    loop while the pen stays down. *)

Fixpoint wait_up (held : list (Z * Z)) : gp unit :=
  match held with [] => tret tt | _ :: held' => emit (Delay 10) ;;; wait_up held' end.

Fixpoint drag (object p slider_size : Z) (held : list (Z * Z)) : gp unit :=
  match held with
  | [] => tret tt
  | (x, y) :: held' =>
      emit (Delay 20) ;;;
      over <- GUI_VerifyObjects x y ;;
      (if object =? over then
         s <- get_slider p ;;
         v <- quot ((x - s_x1 s) * 100) slider_size ;;
         put_object p (WSlider (set_slider v (s_lvalue s) s)) ;;;
         s <- get_slider p ;;
         (if s_value s <? 0 then put_object p (WSlider (set_slider 0 (s_lvalue s) s)) else tret tt) ;;;
         s <- get_slider p ;;
         (if s_value s >? 100 then put_object p (WSlider (set_slider 100 (s_lvalue s) s)) else tret tt) ;;;
         Slider_Click p
       else tret tt) ;;;
      drag object p slider_size held'
  end.

Definition GUI_touch (x y : Z) (held : list (Z * Z)) : gp unit :=
  object <- GUI_VerifyObjects x y ;;
  (if negb (object =? 0) then
     e <- get_event object ;;
     if ev_object e =? BUTTON_OBJECT then
       let button := ObjectPointer e in
       Button_Click button ;;;
       wait_up held ;;;
       b <- get_button button ;; emit (Post (b_ClickEvent b)) ;;;
       Button_Draw button
     else if ev_object e =? SLIDER_OBJECT then
       let slider := ObjectPointer e in
       s <- get_slider slider ;;
       drag object slider (s_x2 s) held ;;;
       s <- get_slider slider ;; emit (Post (s_ClickEvent s))
     else if ev_object e =? CHECKBOX_OBJECT then
       let checkbox := ObjectPointer e in
       c <- get_checkbox checkbox ;;
       put_object checkbox (WCheckbox (set_checkbox (if c_value c =? 1 then 0 else 1) c)) ;;;
       Checkbox_Click checkbox ;;;
       wait_up held ;;;
       c <- get_checkbox checkbox ;; emit (Post (c_ClickEvent c))
     else tret tt
   else tret tt) ;;;
  emit (Delay 3).
End objects.
