(* ===== verification/GuiSpec.v ===== *)
(** * The list of objects and the bar of a slider

    Including, removing and finding objects act on a sequence of objects; the bar of a
    slider on the screen shows its value, whatever values it went through. *)

From Stdlib Require Import ZArith Lia.
From stdpp Require Import base numbers list sets.
From S2P Require Import Prelude Text Chain Gui.
#[local] Open Scope Z_scope.
#[local] Open Scope stm_scope.

(** ** Objects in memory *)

Definition no_object : widget := WButton (mkButton 0 0 0 0 0 0 0 0 (mkEvent 0 0 0 0 0 0 0 0) 0).
Definition object_at (s : gui) (p : Z) : widget := default no_object (aget (objects s) p).
Definition ev (s : gui) (p : Z) : ObjectEvent_t := event_of (object_at s p).
Definition valid (s : gui) (p : Z) : Prop := 0 < p < Z.of_nat (length (objects s)).

Definition with_object (p : Z) (w : widget) (s : gui) : gui :=
  mkGui (ObjectHead s) (ObjectTail s) (aset (objects s) p w) (GuiBackground s) (calls s).

Lemma get_object_eq s p : valid s p -> get_object p s = Some (object_at s p, s).
Proof.
  intros [H1 H2]. unfold get_object, object_at. rewrite (proj2 (Z.eqb_neq p 0)) by lia. rewrite bind_get.
  destruct (aget_is_Some (objects s) p) as [w Hw]; [lia|]. by rewrite Hw.
Qed.
Lemma put_object_eq s p w : valid s p -> put_object p w s = Some (tt, with_object p w s).
Proof. intros H. unfold put_object. by rewrite (bind_Some _ _ _ _ _ (get_object_eq s p H)). Qed.
Lemma upd_event_eq s p f : valid s p -> upd_event p f s = Some (tt, with_object p (set_event f (object_at s p)) s).
Proof. intros H. unfold upd_event. by rewrite (bind_Some _ _ _ _ _ (get_object_eq s p H)), put_object_eq. Qed.
Lemma get_event_eq s p : valid s p -> get_event p s = Some (ev s p, s).
Proof. intros H. unfold get_event. by rewrite (bind_Some _ _ _ _ _ (get_object_eq s p H)). Qed.

Lemma valid_with s p w q : valid (with_object p w s) q <-> valid s q.
Proof. unfold valid, with_object. cbn. by rewrite length_aset. Qed.
Lemma object_at_with s p w q : valid s p -> object_at (with_object p w s) q = if decide (q = p) then w else object_at s q.
Proof.
  intros [H1 H2]. unfold object_at, with_object. cbn. case_decide as E.
  - subst q. destruct (aget_is_Some (objects s) p) as [w' Hw]; [lia|]. by rewrite (aget_aset_eq _ _ _ _ Hw).
  - by rewrite aget_aset_ne.
Qed.

Lemma event_set_event f w : event_of (set_event f w) = f (event_of w).
Proof. by destruct w. Qed.
Lemma ev_with s p f q :
  valid s p -> ev (with_object p (set_event f (object_at s p)) s) q = if decide (q = p) then f (ev s p) else ev s q.
Proof. intros H. unfold ev. rewrite object_at_with by done. case_decide; [|done]. by rewrite event_set_event. Qed.

(** An object without its links; changing links changes no more. *)
Definition body (w : widget) : widget := set_event (fun e => set_Next 0 (set_Previous 0 e)) w.
Definition same_objects (s s' : gui) : Prop :=
  length (objects s') = length (objects s) /\ (forall p, body (object_at s' p) = body (object_at s p)) /\
  GuiBackground s' = GuiBackground s /\ calls s' = calls s.
Definition relink (f : ObjectEvent_t -> ObjectEvent_t) : Prop := (exists p, f = set_Next p) \/ (exists p, f = set_Previous p).

Lemma body_relink f w : relink f -> body (set_event f w) = body w.
Proof. intros [[p ->]|[p ->]]; by destruct w as [[]|[]|[]]. Qed.
#[global] Instance same_objects_trans : Transitive same_objects.
Proof. intros s1 s2 s3 (H1 & H2 & H3 & H4) (H5 & H6 & H7 & H8). split_and!; try congruence. Qed.
Lemma same_objects_with s p f :
  valid s p -> relink f -> same_objects s (with_object p (set_event f (object_at s p)) s).
Proof.
  intros Hp Hf. split_and!; [by cbn; rewrite length_aset| |done|done]. intros q. rewrite object_at_with by done.
  case_decide as E; [subst q; by apply body_relink|done].
Qed.
Lemma same_valid s s' p : same_objects s s' -> valid s' p <-> valid s p.
Proof. intros [H _]. unfold valid. by rewrite H. Qed.

(** ** The list *)

(** The list closed by 0 at the front and -1 at the end: what comes after and before
    an element. *)
Definition closed (n : Z) : Z := if n >? 0 then n else if n =? 0 then -1 else -2.
Definition after (s : gui) (p : Z) : Z := closed (if p =? 0 then ObjectHead s else Next (ev s p)).
Definition before (s : gui) (p : Z) : Z := if p =? -1 then ObjectTail s else Previous (ev s p).

Record gui_list (s : gui) (l : list Z) : Prop := {
  gl_linked : linked (after s) (before s) (0 :: l ++ [-1]);
  gl_nodup : NoDup l;
  gl_valid p : p ∈ l -> valid s p;
}.

Section list.
Context (s : gui) (l : list Z) (W : gui_list s l).

Lemma gl_pos p : p ∈ l -> 0 < p.
Proof using W. intros H%(gl_valid _ _ W). by destruct H. Qed.

Lemma gl_chain_NoDup : NoDup (0 :: l ++ [-1]).
Proof using W.
  constructor.
  - intros [H%gl_pos|H%list_elem_of_singleton]%elem_of_app; lia.
  - apply NoDup_app. split_and!; [apply W| |apply NoDup_singleton]. intros x Hx%gl_pos ->%list_elem_of_singleton. lia.
Qed.

(** The tail pointer is the last element, or NULL. *)
Lemma gl_last : exists l1 x, 0 :: l ++ [-1] = l1 ++ [x; -1] /\ x = ObjectTail s /\ (x = 0 \/ x ∈ l) /\ 0 :: l = l1 ++ [x].
Proof using W.
  destruct (exists_last (l := 0 :: l)) as (l1 & x & E); [done|]. exists l1, x.
  assert (0 :: l ++ [-1] = l1 ++ [x; -1]) as E1 by (rewrite app_comm_cons, E, <- app_assoc; done).
  split_and!; [done| | |done].
  - destruct (gl_linked _ _ W x (-1)) as [_ H]; [rewrite E1; apply consec_middle|]. done.
  - assert (x ∈ 0 :: l) as [->|Hx]%elem_of_cons by (rewrite E; set_solver); auto.
Qed.
End list.

Lemma closed_pos n : 0 < n -> closed n = n.
Proof. intros H. unfold closed. by rewrite Z.gtb_ltb, (proj2 (Z.ltb_lt 0 n)). Qed.
Lemma closed_inv n y : closed n = y -> y = -1 \/ 0 < y -> n = if decide (y = -1) then 0 else y.
Proof. unfold closed. destruct (n >? 0) eqn:E, (n =? 0) eqn:E0; to_prop; intros <- H; case_decide; lia. Qed.
Lemma after_0 s : after s 0 = closed (ObjectHead s).
Proof. done. Qed.
Lemma after_ne s p : p <> 0 -> after s p = closed (Next (ev s p)).
Proof. intros H. unfold after. by rewrite (proj2 (Z.eqb_neq p 0)). Qed.
Lemma before_end s : before s (-1) = ObjectTail s.
Proof. done. Qed.
Lemma before_ne s p : p <> -1 -> before s p = Previous (ev s p).
Proof. intros H. unfold before. by rewrite (proj2 (Z.eqb_neq p (-1))). Qed.

(** *** Including *)

(** The assignments to pointers of one object, and what they leave. *)
Definition tailed (p : Z) (s : gui) : gui := mkGui (ObjectHead s) p (objects s) (GuiBackground s) (calls s).
Definition headed (p : Z) (s : gui) : gui := mkGui p (ObjectTail s) (objects s) (GuiBackground s) (calls s).
Definition linked_to (f : ObjectEvent_t -> ObjectEvent_t) (p : Z) (s : gui) : gui :=
  with_object p (set_event f (object_at s p)) s.

Lemma ev_linked_to s p f q : valid s p -> ev (linked_to f p s) q = if decide (q = p) then f (ev s p) else ev s q.
Proof. apply ev_with. Qed.
Lemma valid_linked_to s p f q : valid (linked_to f p s) q <-> valid s q.
Proof. apply valid_with. Qed.

Lemma gl_append s s' l p l1 t :
  gui_list s l -> 0 :: l ++ [-1] = l1 ++ [t; -1] -> valid s p -> p ∉ l -> same_objects s s' ->
  after s' t = p -> after s' p = -1 -> before s' p = t -> before s' (-1) = p ->
  (forall z, z <> t -> z <> p -> after s' z = after s z) -> (forall z, z <> -1 -> z <> p -> before s' z = before s z) ->
  gui_list s' (l ++ [p]).
Proof.
  intros W El Hp Hnew Hsame H1 H2 H3 H4 H5 H6.
  assert (0 :: l = l1 ++ [t]) as El1.
  { rewrite app_comm_cons in El. change [t; -1] with ([t] ++ [-1]) in El. rewrite app_assoc in El. by apply app_inj_tail in El as [-> _]. }
  assert (0 :: (l ++ [p]) ++ [-1] = l1 ++ [t; p; -1]) as E.
  { rewrite <- app_assoc, app_comm_cons, El1, <- app_assoc. done. }
  assert (NoDup (l ++ [p])) as Hnd.
  { apply NoDup_app. split_and!; [apply W| |apply NoDup_singleton]. by intros x Hx ->%list_elem_of_singleton. }
  assert (forall q, q ∈ l ++ [p] -> valid s q) as Hv.
  { intros q [Hq| ->%list_elem_of_singleton]%elem_of_app; [by apply (gl_valid _ _ W)|done]. }
  split; [|done|intros q Hq; apply (same_valid s); [done|by apply Hv]].
  rewrite E. apply (linked_insert (after s) (before s)); try done.
  - rewrite <- E. constructor.
    + intros [Hq%Hv|Hq%list_elem_of_singleton]%elem_of_app; [|done]. destruct Hq; lia.
    + apply NoDup_app. split_and!; [done| |apply NoDup_singleton].
      intros x Hx%Hv ->%list_elem_of_singleton. destruct Hx; lia.
  - change [t; -1] with (t :: -1 :: []) in El. rewrite <- El. apply W.
Qed.

Lemma include_lemma s l p :
  gui_list s l -> valid s p -> p ∉ l ->
  exists s', GUI_IncludeObjectIntoEventList p s = Some (tt, s') /\ gui_list s' (l ++ [p]) /\ same_objects s s'.
Proof.
  intros W Hp Hnew. destruct (gl_last s l W) as (l1 & t & El & Et & Ht & El1). assert (0 < p) as Hp0 by apply Hp.
  pose proof Hp as Hp'. unfold GUI_IncludeObjectIntoEventList. rewrite bind_get, <- Et.
  destruct (Z.eqb_spec t 0) as [Ht0|Ht0]; cbn [negb].
  - (* the list is empty *)
    rewrite Ht0 in *. set (s1 := headed p (tailed p s)). set (s2 := linked_to (set_Next 0) p s1). set (s3 := linked_to (set_Previous 0) p s2).
    assert (same_objects s s3) as Hs.
    { transitivity s2; [|apply same_objects_with; [by apply valid_linked_to|right; eauto]].
      transitivity s1; [done|]. apply same_objects_with; [done|left; eauto]. }
    assert (forall q, ev s3 q = if decide (q = p) then set_Previous 0 (set_Next 0 (ev s p)) else ev s q) as He.
    { intros q. unfold s3. rewrite ev_linked_to by by apply valid_linked_to. unfold s2. rewrite !ev_linked_to by done.
      by repeat case_decide. }
    exists s3. split; [|split; [|done]].
    + unfold set_Tail, set_Head. rewrite !bind_set.
      rewrite (bind_Some _ _ _ _ _ (upd_event_eq s1 p (set_Next 0) Hp')). by apply upd_event_eq, valid_linked_to.
    + apply (gl_append s s3 l p l1 0); try done.
      * by apply closed_pos.
      * rewrite after_ne, He, decide_True by (done || lia). done.
      * rewrite before_ne, He, decide_True by (done || lia). done.
      * intros z Hz Hzp. by rewrite !after_ne, He, decide_False by done.
      * intros z Hz Hzp. by rewrite !before_ne, He, decide_False by done.
  - destruct Ht as [|Ht]; [done|]. pose proof (gl_valid _ _ W t Ht) as Hvt. assert (t <> p) as Htp by by intros ->.
    set (s1 := linked_to (set_Next p) t s). set (s2 := linked_to (set_Previous t) p s1).
    set (s3 := tailed p s2). set (s4 := linked_to (set_Next 0) p s3).
    assert (valid s1 p) as Hv1 by by apply valid_linked_to. assert (valid s3 p) as Hv3 by by apply valid_linked_to.
    assert (same_objects s s4) as Hs.
    { transitivity s2; [|apply (same_objects_with s3); [done|left; eauto]].
      transitivity s1; apply same_objects_with; [done|left; eauto|done|right; eauto]. }
    assert (forall q, ev s4 q = if decide (q = p) then set_Next 0 (set_Previous t (ev s p))
                                else if decide (q = t) then set_Next p (ev s t) else ev s q) as He.
    { intros q. unfold s4. rewrite ev_linked_to by done. change (ev s3) with (ev s2). unfold s2. rewrite !ev_linked_to by done.
      unfold s1. rewrite !ev_linked_to by done. repeat case_decide; try done; congruence. }
    exists s4. split; [|split; [|done]].
    + rewrite (bind_Some _ _ _ _ _ (upd_event_eq s t (set_Next p) Hvt)). fold (linked_to (set_Next p) t s). fold s1.
      rewrite bind_get. change (ObjectTail s1) with (ObjectTail s). rewrite <- Et.
      rewrite (bind_Some _ _ _ _ _ (upd_event_eq s1 p (set_Previous t) Hv1)). fold (linked_to (set_Previous t) p s1). fold s2.
      unfold set_Tail. rewrite bind_set, bind_get. by apply (upd_event_eq s3 p (set_Next 0)).
    + assert (0 < t) as Htpos by by destruct Hvt. apply (gl_append s s4 l p l1 t); try done.
      * rewrite after_ne, He, decide_False, decide_True by done. by apply closed_pos.
      * rewrite after_ne, He, decide_True by (done || lia). done.
      * rewrite before_ne, He, decide_True by (done || lia). done.
      * intros z Hz Hzp. destruct (decide (z = 0)) as [->|]; [done|]. by rewrite !after_ne, He, !decide_False by done.
      * intros z Hz Hzp. rewrite !before_ne, He, decide_False by done. by case_decide as E; [subst z|].
Qed.

(** *** Removing *)

Lemma gl_drop s s' l l' l1 x m y l2 :
  gui_list s l -> 0 :: l ++ [-1] = l1 ++ x :: m :: y :: l2 -> 0 :: l' ++ [-1] = l1 ++ x :: y :: l2 ->
  NoDup l' -> (forall z, z ∈ l' -> z ∈ l) -> same_objects s s' -> after s' x = y -> before s' y = x ->
  (forall z, z <> x -> after s' z = after s z) -> (forall z, z <> y -> before s' z = before s z) ->
  gui_list s' l'.
Proof.
  intros W E E' Hnd Hsub Hsame H1 H2 H3 H4. split; [|done|].
  - rewrite E'. apply (linked_remove (after s) (before s) _ _ _ _ x m y); auto.
    + rewrite <- E. by apply (gl_chain_NoDup s).
    + rewrite <- E. apply W.
  - intros p Hp%Hsub. apply (same_valid s); [done|by apply (gl_valid _ _ W)].
Qed.

(** The pointers around an element of the list. *)
Lemma gl_around s l m l1 x y l2 :
  gui_list s l -> m ∈ l -> 0 :: l ++ [-1] = l1 ++ x :: m :: y :: l2 -> x = 0 \/ x ∈ l -> y = -1 \/ y ∈ l ->
  Previous (ev s m) = x /\ Next (ev s m) = (if decide (y = -1) then 0 else y) /\
  (ObjectHead s = m <-> x = 0) /\ (ObjectTail s = m <-> y = -1).
Proof.
  intros W Hm E Hx Hy. pose proof (gl_linked _ _ W) as Hl. pose proof (gl_pos s l W m Hm) as Hm0.
  assert (consec (0 :: l ++ [-1]) x m /\ consec (0 :: l ++ [-1]) m y) as [C1 C2].
  { rewrite E. split; apply consec_triple; tauto. }
  destruct (Hl _ _ C1) as [A1 B1]. destruct (Hl _ _ C2) as [A2 B2]. rewrite before_ne in B1 by lia.
  assert (forall q, q ∈ l -> q <> 0 /\ q <> -1) as Hq by (intros q Hq%(gl_pos s l W); lia).
  split_and!; [done| | |].
  - rewrite after_ne in A2 by lia. apply closed_inv; [done|]. destruct Hy as [Hy|Hy%(gl_pos s l W)]; auto.
  - split.
    + intros Hh. destruct (consec_next (0 :: l) (-1) 0) as [b Hb]; [by left|]. rewrite <- app_comm_cons in Hb.
      destruct (Hl _ _ Hb) as [Ha Hb']. rewrite after_0, Hh, closed_pos in Ha by lia. subst b.
      rewrite before_ne in Hb' by lia. congruence.
    + intros ->. rewrite after_0 in A1. apply closed_inv in A1; [|by right]. rewrite decide_False in A1 by lia. done.
  - split.
    + intros Ht. destruct (gl_last s l W) as (k & t & Ek & Et & _).
      assert (consec (0 :: l ++ [-1]) t (-1)) as Hc by (rewrite Ek; apply consec_middle).
      destruct (Hl _ _ Hc) as [Ha _]. rewrite <- Et in Ht. subst t. congruence.
    + intros ->. by rewrite before_end in B2.
Qed.

Lemma filter_absent (m : Z) (l : list Z) : m ∉ l -> filter (fun p => p <> m) l = l.
Proof.
  induction l as [|q l IH]; intros H; [done|]. apply not_elem_of_cons in H as [H1 H2].
  rewrite filter_cons, decide_True by done. by rewrite IH.
Qed.

Lemma remove_lemma s l m :
  gui_list s l -> m ∈ l ->
  exists s', GUI_RemoveObjectIntoEventList m s = Some (tt, s') /\ gui_list s' (filter (fun p => p <> m) l) /\ same_objects s s'.
Proof.
  intros W Hm. pose proof (gl_valid _ _ W m Hm) as Hvm. pose proof (gl_pos s l W m Hm) as Hm0.
  destruct (between_remove 0 (-1) l m (gl_nodup _ _ W) Hm) as (l' & l1 & x & y & l2 & E & E' & Hnd & Hin & Hx & Hy).
  assert (l' = filter (fun p => p <> m) l) as <-.
  { assert (m ∉ l1 ++ x :: y :: l2) as Hno.
    { rewrite <- E'. intros [?|[[_ ?]%Hin|?%list_elem_of_singleton]%elem_of_app]%elem_of_cons; done || lia. }
    assert (filter (fun p => p <> m) (0 :: l ++ [-1]) = 0 :: l' ++ [-1]) as Ef.
    { rewrite E, E'. transitivity (filter (fun p => p <> m) (l1 ++ x :: y :: l2)); [|by apply filter_absent].
      rewrite !filter_app, !filter_cons, (decide_False (P := m <> m)) by tauto. done. }
    rewrite filter_cons, decide_True, filter_app in Ef by lia.
    rewrite (filter_absent m [-1]) in Ef by (intros ?%list_elem_of_singleton; lia).
    injection Ef as Ef. by apply app_inj_tail in Ef as [-> _]. }
  assert (x = 0 \/ x ∈ l) as Hx' by (apply elem_of_cons in Hx as [->|Hx%Hin]; tauto).
  assert (y = -1 \/ y ∈ l) as Hy' by (apply elem_of_app in Hy as [Hy%Hin|Hy%list_elem_of_singleton]; tauto).
  assert (x <> m /\ y <> m) as [Hxm Hym].
  { split; intros ->; [apply elem_of_cons in Hx as [?|[_ ?]%Hin]|apply elem_of_app in Hy as [[_ ?]%Hin|?%list_elem_of_singleton]]; done || lia. }
  destruct (gl_around s l m l1 x y l2 W Hm E Hx' Hy') as (Hp & Hn & Hhead & Htail).
  assert (forall s', same_objects s s' -> after s' x = y -> before s' y = x ->
    (forall z, z <> x -> after s' z = after s z) -> (forall z, z <> y -> before s' z = before s z) -> gui_list s' l') as Hbuild.
  { intros s' Hs H1 H2 H3 H4. apply (gl_drop s s' l l' l1 x m y l2); try done. intros z Hz. by apply Hin. }
  unfold GUI_RemoveObjectIntoEventList. rewrite !bind_get.
  destruct (Z.eqb_spec m (ObjectHead s)) as [Hh|Hh].
  - symmetry in Hh. apply Hhead in Hh. rewrite Hh in *. clear x Hh. destruct (Z.eqb_spec m (ObjectTail s)) as [Ht|Ht].
    + symmetry in Ht. apply Htail in Ht. rewrite Ht in *. clear y Ht. exists (headed 0 (tailed 0 s)). split; [done|split; [|done]].
      apply Hbuild; try done.
      * intros z Hz. by rewrite !after_ne.
      * intros z Hz. by rewrite !before_ne.
    + destruct Hy' as [->|Hy']; [by destruct Ht; symmetry; apply Htail|]. pose proof (gl_valid _ _ W y Hy') as Hvy.
      assert (0 < y) as Hy0 by apply Hvy. rewrite decide_False in Hn by lia.
      set (s1 := headed y s). assert (valid s1 y) as Hv1 by done.
      rewrite (bind_Some _ _ _ _ _ (get_event_eq s m Hvm)), Hn. unfold set_Head. rewrite bind_set, bind_get.
      exists (linked_to (set_Previous 0) y s1). split; [by apply upd_event_eq|].
      assert (same_objects s (linked_to (set_Previous 0) y s1)) as Hs by (apply (same_objects_with s1); [done|right; eauto]).
      split; [|done].
      assert (forall q, ev (linked_to (set_Previous 0) y s1) q = if decide (q = y) then set_Previous 0 (ev s y) else ev s q) as He
        by (intros q; by rewrite ev_linked_to).
      apply Hbuild; [done| | | |].
      * by apply closed_pos.
      * rewrite before_ne, He, decide_True by (done || lia). done.
      * intros z Hz. rewrite !after_ne, He by done. by destruct (decide (z = y)) as [->|].
      * intros z Hz. destruct (decide (z = -1)) as [->|]; [done|]. by rewrite !before_ne, He, decide_False by done.
  - assert (x <> 0) as Hx0 by (intros ->; by apply Hh; symmetry; apply Hhead). destruct Hx' as [|Hx']; [done|].
    pose proof (gl_valid _ _ W x Hx') as Hvx. assert (0 < x) as Hxpos by apply Hvx.
    destruct (Z.eqb_spec m (ObjectTail s)) as [Ht|Ht].
    + symmetry in Ht. apply Htail in Ht. rewrite Ht in *. clear y Ht. set (s1 := tailed x s). assert (valid s1 x) as Hv1 by done.
      rewrite (bind_Some _ _ _ _ _ (get_event_eq s m Hvm)), Hp. unfold set_Tail. rewrite bind_set, bind_get.
      exists (linked_to (set_Next 0) x s1). split; [by apply upd_event_eq|].
      assert (same_objects s (linked_to (set_Next 0) x s1)) as Hs by (apply (same_objects_with s1); [done|left; eauto]).
      split; [|done].
      assert (forall q, ev (linked_to (set_Next 0) x s1) q = if decide (q = x) then set_Next 0 (ev s x) else ev s q) as He
        by (intros q; by rewrite ev_linked_to).
      apply Hbuild; [done| |done| |].
      * rewrite after_ne, He, decide_True by done. done.
      * intros z Hz. destruct (decide (z = 0)) as [->|]; [done|]. by rewrite !after_ne, He, decide_False by done.
      * intros z Hz. rewrite !before_ne, He by done. by destruct (decide (z = x)) as [->|].
    + destruct Hy' as [->|Hy']; [by destruct Ht; symmetry; apply Htail|]. pose proof (gl_valid _ _ W y Hy') as Hvy.
      assert (0 < y) as Hy0 by apply Hvy. rewrite decide_False in Hn by lia.
      set (s1 := linked_to (set_Previous x) y s).
      assert (valid s1 x) as Hv1 by by apply valid_linked_to. assert (valid s1 m) as Hvm1 by by apply valid_linked_to.
      rewrite (bind_Some _ _ _ _ _ (get_event_eq s m Hvm)), Hn, Hp.
      rewrite (bind_Some _ _ _ _ _ (upd_event_eq s y (set_Previous x) Hvy)). fold (linked_to (set_Previous x) y s). fold s1.
      rewrite (bind_Some _ _ _ _ _ (get_event_eq s1 m Hvm1)).
      assert (ev s1 m = ev s m) as -> by (unfold s1; by rewrite ev_linked_to, decide_False by done). rewrite Hn, Hp.
      exists (linked_to (set_Next y) x s1). split; [by apply upd_event_eq|].
      assert (same_objects s (linked_to (set_Next y) x s1)) as Hs.
      { transitivity s1; apply same_objects_with; [done|right; eauto|done|left; eauto]. }
      split; [|done].
      assert (forall q, ev (linked_to (set_Next y) x s1) q =
        if decide (q = x) then set_Next y (ev s1 x) else if decide (q = y) then set_Previous x (ev s y) else ev s q) as He
        by (intros q; unfold s1; by rewrite !ev_linked_to).
      apply Hbuild; [done| | | |].
      * rewrite after_ne, He, decide_True by done. by apply closed_pos.
      * rewrite before_ne, He by lia. destruct (decide (y = x)) as [->|]; [|by rewrite decide_True].
        unfold s1. by rewrite ev_linked_to, decide_True by done.
      * intros z Hz. destruct (decide (z = 0)) as [->|]; [done|]. rewrite !after_ne, He, decide_False by done.
        by destruct (decide (z = y)) as [->|].
      * intros z Hz. destruct (decide (z = -1)) as [->|]; [done|]. rewrite !before_ne, He by done.
        destruct (decide (z = x)) as [->|]; [|by rewrite decide_False].
        unfold s1. rewrite ev_linked_to by done. by rewrite decide_False by done.
Qed.

(** *** Finding *)

(** The point lies in the rectangle of the object, its edges included. *)
Definition hit (s : gui) (x y p : Z) : Prop :=
  (ev_x1 (ev s p) <= x <= ev_x2 (ev s p)) /\ (ev_y1 (ev s p) <= y <= ev_y2 (ev s p)).
#[global] Instance hit_dec s x y p : Decision (hit s x y p).
Proof. unfold hit. apply _. Defined.

Lemma inside_event_hit s x y p : inside_event x y (ev s p) = bool_decide (hit s x y p).
Proof.
  apply eq_true_iff_eq. rewrite bool_decide_eq_true. unfold inside_event, hit.
  rewrite !andb_true_iff, !Z.geb_leb, !Z.leb_le. lia.
Qed.

Lemma verify_lemma s l x y :
  gui_list s l ->
  GUI_VerifyObjects x y s = Some (match list_find (hit s x y) l with Some (_, p) => p | None => 0 end, s).
Proof.
  intros W. unfold GUI_VerifyObjects. rewrite !bind_get.
  assert (forall fuel l1 l2, l = l1 ++ l2 -> (length l2 <= fuel)%nat ->
    verify_loop fuel x y (List.hd 0 l2) s =
    Some (match list_find (hit s x y) l2 with Some (_, p) => p | None => 0 end, s)) as Hloop.
  { intros fuel. induction fuel as [|fuel IH]; intros l1 l2 E Hf; (destruct l2 as [|p l2]; [done|]); [cbn in Hf; lia|].
    assert (p ∈ l) as Hp by (rewrite E; set_solver). pose proof (gl_pos s l W p Hp) as Hp0.
    cbn [List.hd verify_loop list_find]. rewrite (proj2 (Z.eqb_neq p 0)) by lia.
    rewrite (bind_Some _ _ _ _ _ (get_event_eq s p (gl_valid _ _ W p Hp))).
    rewrite inside_event_hit. case_decide as Hh; [by rewrite bool_decide_true|]. rewrite bool_decide_false by done.
    assert (Next (ev s p) = List.hd 0 l2) as ->.
    { assert (consec (0 :: l ++ [-1]) p (List.hd (-1) l2)) as Hc.
      { rewrite E. destruct l2 as [|q l2]; cbn [List.hd].
        - exists (0 :: l1), []. cbn. by rewrite <- app_assoc.
        - exists (0 :: l1), (l2 ++ [-1]). cbn. by rewrite <- app_assoc. }
      destruct (gl_linked _ _ W _ _ Hc) as [Ha _]. rewrite after_ne in Ha by lia. destruct l2 as [|q l2]; cbn [List.hd] in *.
      - apply closed_inv in Ha; [|by left]. by rewrite decide_True in Ha.
      - assert (0 < q) by (apply (gl_pos s l W); rewrite E, elem_of_app; right; right; left). apply closed_inv in Ha; [|by right].
        by rewrite decide_False in Ha by lia. }
    rewrite (IH (l1 ++ [p]) l2); [by destruct (list_find _ l2) as [[]|]|by rewrite <- app_assoc|cbn in Hf; lia]. }
  assert (ObjectHead s = List.hd 0 l) as ->.
  { assert (consec (0 :: l ++ [-1]) 0 (List.hd (-1) l)) as Hc by (destruct l as [|q l]; [by exists [], []|by exists [], (l ++ [-1])]).
    destruct (gl_linked _ _ W _ _ Hc) as [Ha _]. rewrite after_0 in Ha. destruct l as [|q l0] eqn:El; cbn [List.hd] in *.
    - apply closed_inv in Ha; [|by left]. by rewrite decide_True in Ha.
    - assert (0 < q) by (apply (gl_pos s (q :: l0) W); by left). apply closed_inv in Ha; [|by right].
      by rewrite decide_False in Ha by lia. }
  apply (Hloop _ []); [done|].
  assert (length l <= length (seqZ 0 (Z.of_nat (length (objects s)))))%nat as Hle.
  { apply submseteq_length, NoDup_submseteq; [apply W|]. intros p [H1 H2]%(gl_valid _ _ W). apply elem_of_seqZ. lia. }
  rewrite length_seqZ in Hle. lia.
Qed.

(** C38: the list of the objects that react to touches is a sequence: an object included
    that is not in it yet comes last; one of its objects that is removed leaves the
    others in their order; and a touch at (x, y) finds the first object with
    x1 <= x <= x2 and y1 <= y <= y2, or none; the objects themselves, their links
    apart, are not changed, and nothing is drawn.  (Including an object a second time
    loses the objects behind it: included_twice.) *)
Theorem gui_list_refines s l :
  gui_list s l ->
  (forall p, valid s p -> p ∉ l ->
     exists s', GUI_IncludeObjectIntoEventList p s = Some (tt, s') /\ gui_list s' (l ++ [p]) /\ same_objects s s') /\
  (forall p, p ∈ l ->
     exists s', GUI_RemoveObjectIntoEventList p s = Some (tt, s') /\
       gui_list s' (filter (fun q => q <> p) l) /\ same_objects s s') /\
  (forall x y, GUI_VerifyObjects x y s =
     Some (match list_find (hit s x y) l with Some (_, p) => p | None => 0 end, s)).
Proof.
  intros W. split_and!; [intros p; by apply include_lemma|intros p; by apply remove_lemma|intros x y; by apply verify_lemma].
Qed.

(** ** The bar of a slider *)

(** The screen: the color of a pixel; what the other calls of the graphics library do
    to it is left open. *)
Section screen.
Context (paint_other : call -> (Z * Z -> Z) -> (Z * Z -> Z)).

Definition paint (scr : Z * Z -> Z) (c : call) : Z * Z -> Z :=
  match c with
  | FillArea x y cx cy color => fun q =>
      if (x <=? q.1) && (q.1 <? x + cx) && (y <=? q.2) && (q.2 <? y + cy) then color else scr q
  | FillCircle _ _ _ _ | DrawLine _ _ _ _ _ | DrawString _ _ _ _ => paint_other c scr
  | Acquire | Release | Post _ | Delay _ => scr
  end.
Definition painted (scr : Z * Z -> Z) (l : list call) : Z * Z -> Z := fold_left paint l scr.

(** A slider on the screen: its corner and size fit, and its bar is inside it. *)
Record slider_wf (v : Slider_t) : Prop := {
  sw_x : 0 <= s_x v; sw_y : 0 <= s_y v; sw_fit_x : s_x v + s_dx v < 2 ^ 14; sw_fit_y : s_y v + s_dy v < 2 ^ 14;
  sw_dx : 8 < s_dx v; sw_dy : 7 < s_dy v;
  sw_x1 : s_x1 v = s_x v + 4; sw_y1 : s_y1 v = s_y v + 4; sw_x2 : s_x2 v = s_dx v - 8; sw_y2 : s_y2 v = s_dy v - 7;
  sw_value : 0 <= s_value v <= 100;
}.

(** In the rows of the bar the foreground reaches from the left up to [lvalue], and
    the background from behind it to the border. *)
Definition bar_shown (v : Slider_t) (bg : Z) (scr : Z * Z -> Z) : Prop :=
  forall c r, s_y1 v <= r < s_y1 v + s_y2 v ->
    (s_x1 v <= c < s_x1 v + s_lvalue v -> scr (c, r) = s_fg_color v) /\
    (s_x1 v + s_lvalue v < c <= s_x v + s_dx v - 2 -> scr (c, r) = bg).

(** The program moves a slider through a list of values. *)
Fixpoint slide (p : Z) (values : list Z) : gp unit :=
  match values with
  | [] => tret tt
  | v :: values' => Slider_Update v p ;;; Slider_Click p ;;; slide p values'
  end.

Lemma quot_range x v : 0 <= x -> 0 <= v <= 100 -> 0 <= Z.quot (x * v) 100 <= x.
Proof.
  intros Hx Hv. rewrite Z.quot_div_nonneg by nia. split; [apply Z.div_pos; nia|].
  apply Z.div_le_upper_bound; nia.
Qed.

(** The calls made, added to those before. *)
Definition logged (l : list call) (s : gui) : gui :=
  mkGui (ObjectHead s) (ObjectTail s) (objects s) (GuiBackground s) (calls s ++ l).

Lemma logged_logged l1 l2 s : logged l2 (logged l1 s) = logged (l1 ++ l2) s.
Proof. unfold logged. cbn. by rewrite app_assoc. Qed.
Lemma logged_nil s : logged [] s = s.
Proof. unfold logged. rewrite app_nil_r. by destruct s. Qed.
Lemma emit_eq c s : emit c s = Some (tt, logged [c] s).
Proof. done. Qed.

Lemma rounded_box_eq x y dx dy radius color s :
  exists l, rounded_box x y dx dy radius color s = Some (tt, logged l s).
Proof.
  eexists. unfold rounded_box, circle, area, emit, tbind, tset. cbn. rewrite <- !app_assoc. cbn [app]. done.
Qed.

Lemma get_slider_eq s p v : valid s p -> object_at s p = WSlider v -> get_slider p s = Some (v, s).
Proof. intros Hp Hv. unfold get_slider. by rewrite (bind_Some _ _ _ _ _ (get_object_eq s p Hp)), Hv. Qed.

(** The slider [v] at [p], with what may have changed. *)
Definition slider_step (p : Z) (s : gui) (v' : Slider_t) (l : list call) (s' : gui) : Prop :=
  s' = with_object p (WSlider v') (logged l s).

Lemma in_area x y cx cy c r : ((x <=? c) && (c <? x + cx) && (y <=? r) && (r <? y + cy) = true) <-> (x <= c < x + cx /\ y <= r < y + cy).
Proof. rewrite !andb_true_iff, !Z.leb_le, !Z.ltb_lt. tauto. Qed.

(** A pixel after an area was filled. *)
Lemma paint_area scr x y cx cy color c r :
  paint scr (FillArea x y cx cy color) (c, r) =
  if decide (x <= c < x + cx /\ y <= r < y + cy) then color else scr (c, r).
Proof.
  cbn [paint fst snd]. case_decide as H.
  - by rewrite (proj2 (in_area _ _ _ _ _ _) H).
  - destruct (_ && _) eqn:E; [|done]. by apply in_area in E.
Qed.

Lemma Slider_Draw_lemma s p v scr :
  valid s p -> object_at s p = WSlider v -> slider_wf v ->
  let v' := set_slider (s_value v) (Z.quot (s_x2 v * (s_value v + 1)) 100) v in
  exists l, Slider_Draw p s = Some (tt, with_object p (WSlider v') (logged l s)) /\
    bar_shown v' (GuiBackground s) (painted scr l).
Proof.
  intros Hp Hv W v'. destruct W as [].
  assert (0 <= Z.quot (s_x2 v * (s_value v + 1)) 100 < 2 ^ 15 - 1) as Hq.
  { rewrite Z.quot_div_nonneg by nia. split; [apply Z.div_pos; nia|apply Z.div_lt_upper_bound; nia]. }
  unfold Slider_Draw. rewrite (bind_Some _ _ _ _ _ (get_slider_eq s p v Hp Hv)), bind_get.
  destruct (rounded_box_eq (s_x v) (s_y v) (s_dx v) (s_dy v) (s_radius v) (s_border_color v) (logged [Acquire] s)) as [box Hbox].
  rewrite (bind_Some _ _ _ _ _ (emit_eq _ _)), (bind_Some _ _ _ _ _ Hbox). unfold area.
  rewrite (bind_Some _ _ _ _ _ (emit_eq _ _)), (bind_Some _ _ _ _ _ (emit_eq _ _)), !logged_logged.
  rewrite !int16_small by lia. set (w := Z.quot _ 100) in *.
  rewrite (bind_Some _ _ _ _ _ (put_object_eq (logged _ s) p (WSlider _) Hp)), emit_eq.
  eexists. split; [unfold logged, with_object; cbn; by rewrite <- !app_assoc|].
  unfold painted. cbn [app fold_left]. rewrite !fold_left_app. cbn [fold_left].
  change (paint ?x Release) with x.
  intros c r. cbn [s_y1 s_y2 s_x1 s_lvalue s_x s_dx s_fg_color set_slider v']. intros Hr.
  rewrite !paint_area. split; intros Hc; repeat case_decide; done || lia.
Qed.

Lemma Slider_Click_lemma s p v scr :
  valid s p -> object_at s p = WSlider v -> slider_wf v -> 0 <= s_lvalue v < 2 ^ 15 - 1 ->
  bar_shown v (GuiBackground s) scr ->
  let v' := set_slider (s_value v) (Z.quot (s_x2 v * s_value v) 100) v in
  exists l, Slider_Click p s = Some (tt, with_object p (WSlider v') (logged l s)) /\
    bar_shown v' (GuiBackground s) (painted scr l).
Proof.
  intros Hp Hv W Hlv Hbar v'. destruct W as [].
  pose proof (quot_range (s_x2 v) (s_value v) ltac:(lia) sw_value0) as Hq.
  unfold Slider_Click. rewrite (bind_Some _ _ _ _ _ (emit_eq _ _)).
  rewrite (bind_Some _ _ _ _ _ (get_slider_eq (logged _ s) p v Hp Hv)), bind_get. cbn [GuiBackground logged].
  rewrite (int16_small (Z.quot _ 100)) by lia. set (u := Z.quot _ 100) in *. unfold area.
  destruct (Z.ltb_spec u (s_lvalue v)) as [Hlt|Hge]; [|destruct (Z.eq_dec u (s_lvalue v)) as [He|Hne]].
  - rewrite Z.gtb_ltb, (proj2 (Z.ltb_ge _ _)) by lia. rewrite (bind_Some _ _ _ _ _ (emit_eq _ _)), bind_ret, logged_logged.
    rewrite (bind_Some _ _ _ _ _ (put_object_eq (logged _ s) p (WSlider _) Hp)), emit_eq.
    eexists. split; [unfold logged, with_object; cbn; by rewrite <- !app_assoc|].
    intros c r Hr. destruct (Hbar c r Hr) as [H1 H2]. revert Hr. cbn [s_y1 s_y2 s_x1 s_lvalue s_x s_dx s_fg_color set_slider v'].
    intros Hr. unfold painted. cbn [app fold_left]. change (paint ?x Release) with x. change (paint ?x Acquire) with x.
    rewrite !int16_small by lia. rewrite paint_area. split; intros Hc; case_decide; first [done|lia|apply H1; lia|apply H2; lia].
  - rewrite Z.gtb_ltb, (proj2 (Z.ltb_ge _ _)) by lia. rewrite !bind_ret.
    rewrite (bind_Some _ _ _ _ _ (put_object_eq (logged _ s) p (WSlider _) Hp)), emit_eq.
    eexists. split; [unfold logged, with_object; cbn; by rewrite <- !app_assoc|].
    intros c r Hr. destruct (Hbar c r Hr) as [H1 H2]. revert Hr. cbn [s_y1 s_y2 s_x1 s_lvalue s_x s_dx s_fg_color set_slider v'].
    intros Hr. unfold painted. cbn [app fold_left]. change (paint ?x Release) with x. change (paint ?x Acquire) with x.
    rewrite He. done.
  - rewrite Z.gtb_ltb, (proj2 (Z.ltb_lt _ _)) by lia. rewrite bind_ret, (bind_Some _ _ _ _ _ (emit_eq _ _)), logged_logged.
    rewrite (bind_Some _ _ _ _ _ (put_object_eq (logged _ s) p (WSlider _) Hp)), emit_eq.
    eexists. split; [unfold logged, with_object; cbn; by rewrite <- !app_assoc|].
    intros c r Hr. destruct (Hbar c r Hr) as [H1 H2]. revert Hr. cbn [s_y1 s_y2 s_x1 s_lvalue s_x s_dx s_fg_color set_slider v'].
    intros Hr. unfold painted. cbn [app fold_left]. change (paint ?x Release) with x. change (paint ?x Acquire) with x.
    rewrite !int16_small by lia. rewrite paint_area. split; intros Hc; case_decide; first [done|lia|apply H1; lia|apply H2; lia].
Qed.

Lemma object_at_same s p w : valid s p -> object_at (with_object p w s) p = w.
Proof. intros H. rewrite object_at_with by done. by rewrite decide_True. Qed.

Lemma slide_lemma p : forall values s v scr,
  valid s p -> object_at s p = WSlider v -> slider_wf v -> 0 <= s_lvalue v < 2 ^ 15 - 1 ->
  bar_shown v (GuiBackground s) scr -> Forall (fun x => 0 <= x <= 100) values ->
  exists s' l, slide p values s = Some (tt, s') /\ calls s' = calls s ++ l /\
    let v' := match last values with Some x => set_slider x (Z.quot (s_x2 v * x) 100) v | None => v end in
    object_at s' p = WSlider v' /\ bar_shown v' (GuiBackground s) (painted scr l).
Proof.
  induction values as [|x values IH]; intros s v scr Hp Hv W Hlv Hbar Hall; cbn [slide].
  - exists s, []. by rewrite app_nil_r.
  - apply Forall_cons in Hall as [Hx Hall]. unfold Slider_Update. rewrite bind_assoc.
    rewrite (bind_Some _ _ _ _ _ (get_slider_eq s p v Hp Hv)), (bind_Some _ _ _ _ _ (put_object_eq s p _ Hp)).
    set (v1 := set_slider x (s_lvalue v) v). set (s1 := with_object p (WSlider v1) s).
    assert (valid s1 p) as Hp1 by by apply valid_with.
    assert (slider_wf v1) as W1 by (destruct W; by constructor).
    destruct (Slider_Click_lemma s1 p v1 scr Hp1 (object_at_same s p _ Hp) W1 Hlv Hbar) as (l & Hrun & Hbar2).
    rewrite (bind_Some _ _ _ _ _ Hrun). set (v2 := set_slider (s_value v1) _ v1) in *.
    set (s2 := with_object p (WSlider v2) (logged l s1)) in *.
    assert (valid s2 p) as Hp2 by by apply valid_with.
    pose proof (quot_range (s_x2 v) x ltac:(destruct W; lia) Hx) as Hq.
    destruct (IH s2 v2 (painted scr l) Hp2) as (s' & l' & Hrun' & Hcalls & Hrest).
    + by apply object_at_same.
    + destruct W1; by constructor.
    + cbn. destruct W. lia.
    + exact Hbar2.
    + done.
    + exists s', (l ++ l'). split; [done|]. split; [rewrite Hcalls; cbn; by rewrite app_assoc|].
      rewrite last_cons. unfold painted in *. rewrite fold_left_app. destruct (last values); done.
Qed.

(** The bar of a slider.  A slider is drawn and then taken through any list of
    values from 0 to 100, redrawing only the difference each time: in its rows the bar
    on the screen is then filled up to the length of the last value and empty behind
    it, whatever was on the screen before. *)
Theorem slider_bar_shows_value s p v values scr :
  valid s p -> object_at s p = WSlider v -> slider_wf v -> Forall (fun x => 0 <= x <= 100) values ->
  exists s' l, (Slider_Draw p ;;; slide p values) s = Some (tt, s') /\ calls s' = calls s ++ l /\
    let v' := match last values with
              | Some x => set_slider x (Z.quot (s_x2 v * x) 100) v
              | None => set_slider (s_value v) (Z.quot (s_x2 v * (s_value v + 1)) 100) v
              end in
    object_at s' p = WSlider v' /\ bar_shown v' (GuiBackground s) (painted scr l).
Proof.
  intros Hp Hv W Hall. destruct (Slider_Draw_lemma s p v scr Hp Hv W) as (l & Hrun & Hbar).
  rewrite (bind_Some _ _ _ _ _ Hrun). set (v1 := set_slider (s_value v) _ v) in *.
  set (s1 := with_object p (WSlider v1) (logged l s)) in *.
  destruct (slide_lemma p values s1 v1 (painted scr l)) as (s' & l' & Hrun' & Hcalls & Hrest).
  - by apply valid_with.
  - by apply object_at_same.
  - destruct W; by constructor.
  - destruct W. cbn. rewrite Z.quot_div_nonneg by nia. split; [apply Z.div_pos; nia|apply Z.div_lt_upper_bound; nia].
  - exact Hbar.
  - done.
  - exists s', (l ++ l'). split; [done|]. split; [rewrite Hcalls; cbn; by rewrite app_assoc|].
    unfold painted in *. rewrite fold_left_app. destruct (last values); done.
Qed.
End screen.
