(* ===== verification/GuiExamples.v ===== *)
(** * A small screen

    A button, a slider and a check box; the theorems of GuiSpec.v on them, some
    touches, and the cases that go wrong. *)

From Stdlib Require Import ZArith Lia.
From stdpp Require Import base numbers list sets.
From S2P Require Import Prelude Text Chain Gui GuiSpec.
#[local] Open Scope Z_scope.
#[local] Open Scope stm_scope.

Definition no_event : ObjectEvent_t := mkEvent 0 0 0 0 0 0 0 0.
(** Objects 1, 2 and 3, not initialised; white is the background. *)
Definition unset : gui :=
  mkGui 0 0 [no_object; no_object; WSlider (mkSlider 0 0 0 0 0 0 0 0 0 0 0 0 0 no_event 0);
             WCheckbox (mkCheckbox 0 0 0 0 0 0 0 0 no_event 0)] 0xFFFF [].
Definition state_after {A} (p : gp A) (s : gui) : gui := match p s with Some (_, s') => s' | None => unset end.

(** The button at (10, 10), the slider at (10, 60) and the check box at (10, 110). *)
Definition screen : gui :=
  state_after (Button_Init 10 10 100 40 6 1 2 77 1 901 ;;;
               Slider_Init 10 60 208 30 1 2 50 2 902 ;;;
               Checkbox_Init 10 110 20 20 1 2 0 3 903) unset.

Ltac neighbours H :=
  cbn [app] in H; rewrite ?consec_cons in H; repeat destruct H as [H|H];
  try (apply consec_one in H; contradiction); destruct H as [-> ->].

Lemma screen_list : gui_list screen [1; 2; 3].
Proof.
  split.
  - intros a b H. neighbours H; split; by vm_compute.
  - by apply (bool_decide_eq_true_1 (NoDup [1; 2; 3])).
  - intros p Hp. rewrite !elem_of_cons, elem_of_nil in Hp. split; [lia|].
    change (Z.of_nat (length (objects screen))) with 4. lia.
Qed.

(** The slider is removed; it can be included again, and then comes last. *)
Definition without_slider : gui := state_after (GUI_RemoveObjectIntoEventList 2) screen.
Lemma without_slider_list : gui_list without_slider [1; 3].
Proof.
  split.
  - intros a b H. neighbours H; split; by vm_compute.
  - by apply (bool_decide_eq_true_1 (NoDup [1; 3])).
  - intros p Hp. rewrite !elem_of_cons, elem_of_nil in Hp. split; [lia|].
    change (Z.of_nat (length (objects without_slider))) with 4. lia.
Qed.

Lemma gui_list_refines_witness :
  (exists s', GUI_IncludeObjectIntoEventList 2 without_slider = Some (tt, s') /\ gui_list s' [1; 3; 2] /\
     same_objects without_slider s') /\
  (exists s', GUI_RemoveObjectIntoEventList 1 without_slider = Some (tt, s') /\
     gui_list s' [3] /\ same_objects without_slider s') /\
  GUI_VerifyObjects 15 115 without_slider = Some (3, without_slider).
Proof.
  destruct (gui_list_refines without_slider [1; 3] without_slider_list) as (H1 & H2 & H3). split_and!.
  - apply (H1 2); [done|]. rewrite !not_elem_of_cons. split_and!; [done|done|apply not_elem_of_nil].
  - apply (H2 1). by left.
  - rewrite (H3 15 115). by vm_compute.
Defined.

Definition the_slider : Slider_t := Eval vm_compute in match object_at screen 2 with WSlider v => v | _ => mkSlider 0 0 0 0 0 0 0 0 0 0 0 0 0 no_event 0 end.

Lemma the_slider_wf : slider_wf the_slider.
Proof. split; cbn; lia. Qed.
Lemma the_slider_at : object_at screen 2 = WSlider the_slider.
Proof. by vm_compute. Qed.

(** It is drawn at 50 and taken to 80 and back to 20. *)
Lemma slider_bar_shows_value_witness :
  let other := fun (_ : call) (scr : Z * Z -> Z) => scr in
  let black := fun _ : Z * Z => 0 in
  exists s' l, (Slider_Draw 2 ;;; slide 2 [80; 20]) screen = Some (tt, s') /\ calls s' = calls screen ++ l /\
    object_at s' 2 = WSlider (set_slider 20 40 the_slider) /\
    bar_shown (set_slider 20 40 the_slider) 0xFFFF (painted other black l).
Proof.
  intros other black.
  apply (slider_bar_shows_value other screen 2 the_slider [80; 20] black);
    [done|exact the_slider_at|exact the_slider_wf|].
  by repeat constructor.
Defined.

(** ** Touches *)


Definition is_post (c : call) : bool := match c with Post _ => true | _ => false end.
Definition posted (s : gui) : list call := List.filter is_post (calls s).
Definition slider_value (s : gui) : option Z := match object_at s 2 with WSlider v => Some (s_value v) | _ => None end.
Definition checkbox_value (s : gui) : option Z := match object_at s 3 with WCheckbox c => Some (c_value c) | _ => None end.
Definition touched (x y : Z) (held : list (Z * Z)) (s : gui) : gui := state_after (GUI_touch (fun _ => 30) 14 x y held) s.

(** A touch posts the callback of the object under it, once; the check box is toggled
    and the slider follows the pen, as long as it is over it, within 0 and 100. *)
Example touches :
  posted (touched 50 20 [(50, 20)] screen) = [Post 901] /\
  posted (touched 50 70 [(114, 70); (164, 70); (300, 300)] screen) = [Post 902] /\
  slider_value (touched 50 70 [(114, 70); (164, 70); (300, 300)] screen) = Some 75 /\
  slider_value (touched 50 70 [(12, 70)] screen) = Some 0 /\
  posted (touched 15 115 [] screen) = [Post 903] /\
  checkbox_value (touched 15 115 [] screen) = Some 1 /\
  checkbox_value (touched 15 115 [] (touched 15 115 [] screen)) = Some 0 /\
  calls (touched 300 300 [] screen) = [Delay 3].
Proof. by vm_compute. Qed.

(** ** What goes wrong *)

(** Initialising an object that is in the list includes it again: the objects behind it
    are lost. *)
Example included_twice :
  option_map fst (GUI_VerifyObjects 50 70 screen) = Some 2 /\
  option_map fst (GUI_VerifyObjects 50 70 (state_after (Button_Init 10 10 100 40 6 1 2 77 1 901) screen)) = Some 0.
Proof. by vm_compute. Qed.

(** A slider of width 8 has a bar of length 0, and following the pen divides by it. *)
Example narrow_slider_faults :
  GUI_touch (fun _ => 30) 14 13 70 [(13, 70)]
    (state_after (Slider_Init 10 60 8 30 1 2 50 2 902) unset) = None.
Proof. by vm_compute. Qed.

(** Drawn anew, a slider at 100 is one percent longer than after it was moved there:
    its bar, of 200, is drawn 202 long. *)
Example drawn_too_long :
  s_x2 the_slider = 200 /\
  object_at (state_after (Slider_Update 100 2 ;;; Slider_Draw 2) screen) 2 = WSlider (set_slider 100 202 the_slider) /\
  object_at (state_after (Slider_Update 100 2 ;;; Slider_Draw 2 ;;; Slider_Click 2) screen) 2 = WSlider (set_slider 100 200 the_slider).
Proof. by vm_compute. Qed.
