(* ===== verification/Graph.v ===== *)
(** * Graphs

    modules/GLCD/GLCD_Library/GUI_objects.c: the graphs, which plot a sample of
    each of their traces at every call and sweep over their area again and again.
    The calls of the graphics library are recorded as in Gui.v. *)

From Stdlib Require Import ZArith Lia.
From stdpp Require Import base numbers list.
From S2P Require Import Prelude Text.
#[local] Open Scope Z_scope.
#[local] Open Scope stm_scope.

(** ** Data (GUI_objects.h) *)

Definition POINTS : Z := 0.
Definition LINE : Z := 1.

Record Trace_t := mkTrace {
  line_type : Z; line_thin : Z; tr_color : Z; tr_last_x : Z; tr_last_y : Z;
}.

(** Strings are pointers; the text of a number is in a local buffer. *)
Record Graph_t := mkGraph {
  g_x : Z; g_y : Z; g_dx : Z; g_dy : Z; g_x1 : Z; g_y1 : Z; g_x2 : Z; g_y2 : Z; g_last_x : Z;
  g_max_x : Z; g_max_y : Z; g_min_y : Z; g_refresh_bar : Z; g_axis : Z; g_radius : Z;
  g_border_color : Z; g_fg_color : Z; g_ntraces : Z;
  g_title_str : Z; g_axisx_str : Z; g_axisy_str : Z;
}.

Definition set_axis (v : Z) (g : Graph_t) : Graph_t :=
  mkGraph (g_x g) (g_y g) (g_dx g) (g_dy g) (g_x1 g) (g_y1 g) (g_x2 g) (g_y2 g) (g_last_x g)
    (g_max_x g) (g_max_y g) (g_min_y g) (g_refresh_bar g) v (g_radius g)
    (g_border_color g) (g_fg_color g) (g_ntraces g) (g_title_str g) (g_axisx_str g) (g_axisy_str g).
Definition set_last_x (v : Z) (g : Graph_t) : Graph_t :=
  mkGraph (g_x g) (g_y g) (g_dx g) (g_dy g) (g_x1 g) (g_y1 g) (g_x2 g) (g_y2 g) v
    (g_max_x g) (g_max_y g) (g_min_y g) (g_refresh_bar g) (g_axis g) (g_radius g)
    (g_border_color g) (g_fg_color g) (g_ntraces g) (g_title_str g) (g_axisx_str g) (g_axisy_str g).
Definition set_last (x y : Z) (t : Trace_t) : Trace_t :=
  mkTrace (line_type t) (line_thin t) (tr_color t) x y.

Inductive gtext := Pointer (p : Z) | Local (chars : list Z).
Inductive gcall :=
| GAcquire | GRelease
| GFillArea (x y cx cy color : Z) | GFillCircle (x y radius color : Z)
| GDrawLine (x0 y0 x1 y1 color : Z) | GDrawPixel (x y color : Z)
| GDrawString (x y : Z) (str : gtext) (color : Z) | GDrawStringInv (x y : Z) (str : gtext) (color : Z).

(** A graph, the array its [traces] point to, the background, and the calls made. *)
Record plot := mkPlot { graph : Graph_t; traces : list Trace_t; background : Z; gcalls : list gcall }.

Definition pl (A : Type) : Type := stm plot A.
Definition draw (c : gcall) : pl unit :=
  tset (fun s => mkPlot (graph s) (traces s) (background s) (gcalls s ++ [c])).
Definition upd_graph (f : Graph_t -> Graph_t) : pl unit :=
  tset (fun s => mkPlot (f (graph s)) (traces s) (background s) (gcalls s)).
Definition put_trace (i : Z) (t : Trace_t) : pl unit :=
  tset (fun s => mkPlot (graph s) (aset (traces s) i t) (background s) (gcalls s)).

(** An [int] expression: overflow is undefined. *)
Definition int_value (v : Z) : pl Z :=
  if (- 2 ^ 31 <=? v) && (v <? 2 ^ 31) then tret v else tlift None.
Definition int_quot (x y : Z) : pl Z :=
  if y =? 0 then tlift None else int_value (Z.quot x y).

Definition fill_area (x y cx cy color : Z) : pl unit :=
  draw (GFillArea (int16 x) (int16 y) (int16 cx) (int16 cy) color).
Definition fill_circle (x y radius color : Z) : pl unit :=
  draw (GFillCircle (int16 x) (int16 y) (int16 radius) color).
Definition draw_line (x0 y0 x1 y1 color : Z) : pl unit :=
  draw (GDrawLine (int16 x0) (int16 y0) (int16 x1) (int16 y1) color).
Definition draw_pixel (x y color : Z) : pl unit := draw (GDrawPixel (int16 x) (int16 y) color).
Definition draw_string (x y : Z) (str : gtext) (color : Z) : pl unit :=
  draw (GDrawString (int16 x) (int16 y) str color).

(** ** Adding a sample *)

(** The body of the loop over the traces, for the trace [i]; [valuex] is the
    place of the sample on the x axis, [y_position] the lowest line. *)
Definition plot_trace (valuex y_position i datum : Z) : pl unit :=
  g <- tget graph ;;
  prod <- int_value (datum * g_y2 g) ;;
  value <- int_quot prod (g_max_y g) ;;
  ts <- tget traces ;;
  t <- tlift (aget ts i) ;;
  if (value >=? g_min_y g) && (value <=? g_max_y g) then
    if line_type t =? POINTS then
      draw_pixel (g_x1 g + valuex - 1) (y_position - value) (tr_color t)
    else if line_type t =? LINE then
      (if g_axis g =? 1 then
         draw_line (g_x1 g + valuex - 1) (y_position - value) (g_x1 g + g_axis g - 1) (y_position - value) (tr_color t)
       else
         draw_line (tr_last_x t) (tr_last_y t) (g_x1 g + valuex - 1) (y_position - value) (tr_color t)) ;;;
      put_trace i (set_last (int16 (g_x1 g + valuex - 1)) (int16 (y_position - value)) t)
    else tret tt
  else tret tt.

(** [while(n--) { ... traces++; data++; }] *)
Fixpoint plot_traces (n : nat) (valuex y_position i : Z) (data : list Z) : pl unit :=
  match n with
  | O => tret tt
  | S n' =>
      match data with
      | [] => tlift None
      | datum :: data' =>
          plot_trace valuex y_position i datum ;;;
          plot_traces n' valuex y_position (i + 1) data'
      end
  end.

(** From [if (Graph_struct->axis > Graph_struct->max_x)] to the traces: the area
    behind the previous sample is cleared.  The result is [valuex] and [finish]. *)
Definition advance (valuex y_position : Z) : pl (Z * bool) :=
  g <- tget graph ;; bg <- tget background ;;
  if g_axis g >? g_max_x g then
    let valuex := if valuex >? g_x2 g + 1 then g_x2 g + 1 else valuex in
    (* Clear last update line *)
    fill_area (g_x1 g + g_last_x g) (g_y1 g) (valuex - g_last_x g) (g_y2 g) bg ;;;
    tret (valuex, true)
  else
    (* Draw update line *)
    (if g_refresh_bar g =? 1 then
       draw_line (g_x1 g + valuex) (g_y1 g) (g_x1 g + valuex) y_position (g_fg_color g)
     else tret tt) ;;;
    (* Clear last update line *)
    (if g_axis g =? 1 then fill_area (g_x1 g) (g_y1 g) valuex (g_y2 g) bg
     else fill_area (g_x1 g + g_last_x g) (g_y1 g) (valuex - g_last_x g) (g_y2 g) bg) ;;;
    upd_graph (set_last_x (int16 valuex)) ;;;
    tret (valuex, false).

(** [Graph_AddTraceData]; [data] is what the pointer points to.  A negative number
    of traces makes the loop leave every array. *)
Definition Graph_AddTraceData (data : list Z) : pl unit :=
  g <- tget graph ;;
  let y_position := g_y1 g + g_y2 g - 1 in
  draw GAcquire ;;;
  upd_graph (fun g => set_axis (int16 (g_axis g + 1)) g) ;;;
  g <- tget graph ;;
  (* Computes the graph axis x position *)
  valuex <- int_quot (g_x2 g * g_axis g) (g_max_x g) ;;
  r <- advance valuex y_position ;;
  (if g_ntraces g <? 0 then tlift None
   else plot_traces (Z.to_nat (g_ntraces g)) r.1 y_position 0 data) ;;;
  (* Return to the graph init *)
  (if r.2 then upd_graph (set_axis 0) else tret tt) ;;;
  draw GRelease.

(** ** Placing and drawing a graph *)
Section text.
(** The width of a string and the height of the characters of the font. *)
Context (string_width : gtext -> Z) (string_height : Z).

(** The characters of the local buffer from its first one on, or from its first
    that is not a space. *)
Fixpoint until_nul (l : list Z) : list Z :=
  match l with [] => [] | c :: l' => if c =? 0 then [] else c :: until_nul l' end.
Fixpoint skip_spaces (l : list Z) : list Z :=
  match l with [] => [] | c :: l' => if c =? 32 then skip_spaces l' else l end.

(** [PrintDecimal(v, text)] into [char text[8]], whose contents do not matter. *)
Definition decimal_text (v : Z) : pl (list Z) :=
  r <- tlift (PrintDecimal (int16 v) (replicate 8 0)) ;; tret (until_nul r.1).

(** The margin left of the plot and what remains of the width, from the width of
    the longest number at the y axis. *)
Definition graph_margin (size_x : Z) : Z * Z :=
  if size_x <=? 15 then (15, 30)
  else if size_x <=? 30 then (30, 45)
  else if size_x <=? 45 then (45, 60)
  else (60, 75).

(** [Graph_Init]; the members it does not assign are those of the graph before. *)
Definition Graph_Init (x y width height maximum_x minimum_y maximum_y refresh_bar border_color fg_color ntraces
    title axisx axisy : Z) : pl unit :=
  upd_graph (fun g => mkGraph x y width height (g_x1 g) (g_y1 g) (g_x2 g) (g_y2 g) (g_last_x g)
    maximum_x maximum_y minimum_y (uint8 refresh_bar) 0 4 border_color fg_color ntraces title axisx axisy) ;;;
  hi <- decimal_text maximum_y ;;
  let size_x := int16 (string_width (Local (skip_spaces hi))) in
  lo <- decimal_text minimum_y ;;
  let size_y := int16 (string_width (Local (skip_spaces lo))) in
  (* Verifies maximum text size for axis y limits *)
  let size_x := if size_y >? size_x then 0 else size_x in
  upd_graph (fun g => mkGraph (g_x g) (g_y g) (g_dx g) (g_dy g)
    (int16 (x + (graph_margin size_x).1)) (int16 (y + 15))
    (int16 (width - (graph_margin size_x).2)) (int16 (height - 30)) (g_last_x g)
    (g_max_x g) (g_max_y g) (g_min_y g) (g_refresh_bar g) (g_axis g) (g_radius g)
    (g_border_color g) (g_fg_color g) (g_ntraces g) (g_title_str g) (g_axisx_str g) (g_axisy_str g)).

(** [if (p != NULL) { size_x = gdispGetStringWidth(p, ...); ... }] *)
Definition with_text (p : Z) (k : Z -> pl unit) : pl unit :=
  if negb (p =? 0) then k (int16 (string_width (Pointer p))) else tret tt.

Definition Graph_Draw : pl unit :=
  g <- tget graph ;; bg <- tget background ;;
  draw GAcquire ;;;
  let x1 := int16 (g_x g + g_radius g) in
  let x2 := int16 (g_x g + g_dx g - g_radius g) in
  let y1 := int16 (g_y g + g_radius g) in
  let y2 := int16 (g_y g + g_dy g - g_radius g) in
  (* Draw the corners *)
  fill_circle x1 y1 (g_radius g) (g_border_color g) ;;; fill_circle x2 y1 (g_radius g) (g_border_color g) ;;;
  fill_circle x1 y2 (g_radius g) (g_border_color g) ;;; fill_circle x2 y2 (g_radius g) (g_border_color g) ;;;
  (* Draw the inner rectangles. *)
  fill_area (g_x g) y1 (g_radius g) (g_dy g - 2 * g_radius g) (g_border_color g) ;;;
  fill_area x2 y1 (g_radius g + 1) (g_dy g - 2 * g_radius g) (g_border_color g) ;;;
  fill_area x1 (g_y g) (g_dx g - 2 * g_radius g) (g_dy g + 1) (g_border_color g) ;;;
  (* Draw background border, inside border, inside graph *)
  fill_area (g_x g + 2) (g_y g + 2) (g_dx g - 3) (g_dy g - 3) bg ;;;
  fill_area (g_x1 g - 1) (g_y1 g - 1) (g_x2 g + 3) (g_y2 g + 2) (g_border_color g) ;;;
  fill_area (g_x1 g) (g_y1 g) (g_x2 g + 1) (g_y2 g) bg ;;;
  with_text (g_title_str g) (fun size_x =>
    draw_string (g_x g + Z.quot (g_dx g - size_x) 2) (g_y g + 3) (Pointer (g_title_str g)) (g_fg_color g)) ;;;
  with_text (g_axisx_str g) (fun size_x =>
    draw_string (g_x g + Z.quot (g_dx g - size_x) 2) (g_y g + g_dy g - string_height - 1)
      (Pointer (g_axisx_str g)) (g_fg_color g)) ;;;
  with_text (g_axisy_str g) (fun size_x =>
    draw (GDrawStringInv (int16 (g_x g + 3)) (int16 (g_y g + g_dy g - Z.quot (g_dy g - size_x) 2))
      (Pointer (g_axisy_str g)) (g_fg_color g))) ;;;
  (* Print axis x limits *)
  draw_string (g_x1 g - 6) (g_y g + g_dy g - string_height - 1) (Local [48]) (g_fg_color g) ;;;
  text <- decimal_text (g_max_x g) ;;
  let size_x := int16 (string_width (Local text)) in
  draw_string (g_x g + g_dx g - size_x - 3) (g_y g + g_dy g - string_height - 1) (Local text) (g_fg_color g) ;;;
  (* Print axis y limits *)
  text <- decimal_text (g_max_y g) ;;
  let size_x := int16 (string_width (Local text)) in
  draw_string (g_x1 g - size_x - 3) (g_y g + 9) (Local text) (g_fg_color g) ;;;
  text <- decimal_text (g_min_y g) ;;
  let size_x := int16 (string_width (Local text)) in
  draw_string (g_x1 g - size_x - 3) (g_y g + g_dy g - 2 * string_height - 2) (Local text) (g_fg_color g) ;;;
  draw GRelease.
End text.

(** ** Sweeping

    A graph that is given [max_x + 1] samples sweeps over its area once. *)

(** A graph that fits on the screen, with room for its samples; whatever lies
    within the limits of the y axis has a coordinate. *)
Record graph_ok (g : Graph_t) : Prop := {
  go_max_x : 0 < g_max_x g < 2 ^ 15 - 1;
  go_width : 0 <= g_x2 g;
  go_x : 0 <= g_x1 g;
  go_right : g_x1 g + g_x2 g + 1 < 2 ^ 15;
  go_height : 0 <= g_y2 g;
  go_y : 0 <= g_y1 g;
  go_bottom : g_y1 g + g_y2 g < 2 ^ 15;
  go_max_y : 0 < g_max_y g;
  go_highest : - 2 ^ 15 <= g_y1 g + g_y2 g - 1 - g_max_y g;
  go_lowest : g_y1 g + g_y2 g - 1 - g_min_y g < 2 ^ 15;
  go_traces : 0 <= g_ntraces g;
}.

(** A sample of every trace, the products of which fit in an [int]. *)
Definition samples_ok (g : Graph_t) (data : list Z) : Prop :=
  g_ntraces g <= Z.of_nat (length data) /\ Forall (fun d => - 2 ^ 31 <= d * g_y2 g < 2 ^ 31) data.

(** How far the sweep is after [a] samples, counted from the left of the plot. *)
Definition edge (g : Graph_t) (a : Z) : Z :=
  Z.min (Z.quot (g_x2 g * a) (g_max_x g)) (g_x2 g + 1).

(** *** What a sweep draws

    The calls are given as a function of the samples alone: [rows] are those of
    the sweep so far, the [k]-th of which has one datum for each trace. *)
Section spec.
Context (g : Graph_t) (bg : Z).

(** The lowest line, how far above it a datum is, and whether the code draws it
    there: the pixels are compared with the limits of the data. *)
Definition bottom : Z := g_y1 g + g_y2 g - 1.
Definition height (d : Z) : Z := Z.quot (d * g_y2 g) (g_max_y g).
Definition drawn (d : Z) : bool := bool_decide (g_min_y g <= height d <= g_max_y g).

(** Where the datum [d] of the [k]-th sample is: in the last column before the
    edge.  The places of trace [i] in [rows], the first of which is sample [k]. *)
Definition place (k d : Z) : Z * Z := (g_x1 g + edge g k - 1, bottom - height d).
Definition places (k d : Z) : list (Z * Z) := if drawn d then [place k d] else [].
Fixpoint path (i k : Z) (rows : list (list Z)) : list (Z * Z) :=
  match rows with
  | [] => []
  | row :: rows' => match aget row i with Some d => places k d | None => [] end ++ path i (k + 1) rows'
  end.

(** The mark of a trace [t] for the datum [d] of sample [k], when its places before
    were [P]: a pixel, or a line from the previous place, or from the left of the
    plot for the first sample. *)
Definition mark (t : Trace_t) (P : list (Z * Z)) (k d : Z) : list gcall :=
  let '(x, y) := place k d in
  if negb (drawn d) then []
  else if line_type t =? POINTS then [GDrawPixel x y (tr_color t)]
  else if line_type t =? LINE then
    if k =? 1 then [GDrawLine x y (g_x1 g) y (tr_color t)]
    else let '(px, py) := default (tr_last_x t, tr_last_y t) (last P) in [GDrawLine px py x y (tr_color t)]
  else [].

Definition trace_mark (ts : list Trace_t) (rows : list (list Z)) (data : list Z) (i : Z) : list gcall :=
  match aget ts i, aget data i with
  | Some t, Some d => mark t (path i 1 rows) (Z.of_nat (length rows) + 1) d
  | _, _ => []
  end.

(** The sample [data] after [rows]: unless it is the last of the sweep, the bar at
    its edge; the area between the edges before and after it is cleared, over the
    whole height of the plot; and every trace makes its mark. *)
Definition bar (k : Z) : list gcall :=
  if (k <=? g_max_x g) && (g_refresh_bar g =? 1)
  then [GDrawLine (g_x1 g + edge g k) (g_y1 g) (g_x1 g + edge g k) bottom (g_fg_color g)] else [].
Definition clear (k : Z) : gcall :=
  GFillArea (g_x1 g + edge g (k - 1)) (g_y1 g) (edge g k - edge g (k - 1)) (g_y2 g) bg.
Definition sample_calls (ts : list Trace_t) (rows : list (list Z)) (data : list Z) : list gcall :=
  let k := Z.of_nat (length rows) + 1 in
  [GAcquire] ++ bar k ++ [clear k] ++ concat (map (trace_mark ts rows data) (seqZ 0 (g_ntraces g))) ++ [GRelease].

(** The samples [ds] after [rows], when the traces were [ts] before the sweep. *)
Fixpoint sweep_calls (ts : list Trace_t) (rows ds : list (list Z)) : list gcall :=
  match ds with
  | [] => []
  | data :: ds' => sample_calls ts rows data ++ sweep_calls ts (rows ++ [data]) ds'
  end.

(** A trace that was [t] and whose places since were [P]. *)
Definition retrace (P : list (Z * Z)) (t : Trace_t) : Trace_t :=
  if line_type t =? LINE then match last P with Some (x, y) => set_last x y t | None => t end else t.
Definition tracked (ts : list Trace_t) (rows : list (list Z)) (now : list Trace_t) : Prop :=
  length now = length ts /\
  forall i t, 0 <= i < g_ntraces g -> aget ts i = Some t -> aget now i = Some (retrace (path i 1 rows) t).

(** The columns that are cleared: over the whole height of the plot, in the
    colour of the background. *)
Definition columns (c : gcall) : list Z :=
  match c with
  | GFillArea x y cx cy color => if decide (y = g_y1 g /\ cy = g_y2 g /\ color = bg) then seqZ x cx else []
  | _ => []
  end.
Definition cleared (cs : list gcall) : list Z := concat (map columns cs).

(** No other area is filled. *)
Definition only_clears (cs : list gcall) : Prop :=
  forall x y cx cy color, GFillArea x y cx cy color ∈ cs -> y = g_y1 g /\ cy = g_y2 g /\ color = bg.
End spec.

(** *** Lemmas on the sweep *)

(** The graph but for the members a sample changes. *)
Definition frame (g : Graph_t) : Graph_t := set_axis 0 (set_last_x 0 g).

(** What does not depend on those members. *)
Lemma frame_const {A} (f : Graph_t -> A) g g' :
  (forall g a x, f (set_axis a (set_last_x x g)) = f g) -> frame g' = frame g -> f g' = f g.
Proof.
  intros H E. rewrite <- (H g 0 0). change (set_axis 0 (set_last_x 0 g)) with (frame g).
  rewrite <- E. symmetry. apply H.
Qed.
Ltac by_frame f := apply (frame_const f); [by intros []|done].

Lemma graph_ok_frame g g' : frame g' = frame g -> graph_ok g -> graph_ok g'.
Proof. destruct g, g'. unfold frame. cbn. intros [= -> -> -> -> -> -> -> -> -> -> -> -> -> -> -> -> -> -> ->] []. by split. Qed.

Lemma samples_ok_frame g g' data : frame g' = frame g -> samples_ok g data -> samples_ok g' data.
Proof. intros E H. replace (samples_ok g' data) with (samples_ok g data); [done|]. symmetry. by_frame (fun g => samples_ok g data). Qed.

Lemma tracked_frame g g' ts rows now : frame g' = frame g -> tracked g ts rows now -> tracked g' ts rows now.
Proof. intros E H. replace (tracked g' ts rows now) with (tracked g ts rows now); [done|]. symmetry. by_frame (fun g => tracked g ts rows now). Qed.

Lemma sweep_calls_frame g g' bg ts rows ds : frame g' = frame g -> sweep_calls g' bg ts rows ds = sweep_calls g bg ts rows ds.
Proof. intros E. by_frame (fun g => sweep_calls g bg ts rows ds). Qed.

Lemma edge_0 g : graph_ok g -> edge g 0 = 0.
Proof. intros []. unfold edge. rewrite Z.mul_0_r, Z.quot_0_l by lia. lia. Qed.

Lemma edge_div g a : graph_ok g -> 0 <= a ->
  Z.quot (g_x2 g * a) (g_max_x g) = g_x2 g * a / g_max_x g.
Proof. intros [] Ha. apply Z.quot_div_nonneg; nia. Qed.

Lemma edge_mono g a b : graph_ok g -> 0 <= a <= b -> 0 <= edge g a <= edge g b.
Proof.
  intros Hg Hab. unfold edge. rewrite !edge_div by (done || lia). destruct Hg.
  assert (g_x2 g * a / g_max_x g <= g_x2 g * b / g_max_x g) by (apply Z.div_le_mono; nia).
  assert (0 <= g_x2 g * a / g_max_x g) by (apply Z.div_pos; nia). lia.
Qed.

Lemma edge_le g a : edge g a <= g_x2 g + 1.
Proof. unfold edge. lia. Qed.

Lemma edge_inside g a : graph_ok g -> 0 <= a <= g_max_x g -> Z.quot (g_x2 g * a) (g_max_x g) = edge g a.
Proof.
  intros Hg Ha. unfold edge. rewrite !edge_div by (done || lia). destruct Hg.
  assert (g_x2 g * a / g_max_x g <= g_x2 g * g_max_x g / g_max_x g) by (apply Z.div_le_mono; nia).
  rewrite Z.div_mul in * by lia. lia.
Qed.

Lemma edge_max g : graph_ok g -> edge g (g_max_x g) = g_x2 g.
Proof. intros Hg. rewrite <- edge_inside, edge_div by (done || destruct Hg; lia). destruct Hg. apply Z.div_mul. lia. Qed.

Lemma int_value_eq v s : - 2 ^ 31 <= v < 2 ^ 31 -> int_value v s = Some (v, s).
Proof. intros H. unfold int_value. rewrite (proj2 (Z.leb_le _ _)), (proj2 (Z.ltb_lt _ _)) by lia. done. Qed.

Lemma int_quot_eq x y s : - 2 ^ 31 <= x < 2 ^ 31 -> 0 < y -> int_quot x y s = Some (Z.quot x y, s).
Proof.
  intros Hx Hy. unfold int_quot. rewrite (proj2 (Z.eqb_neq y 0)) by lia. apply int_value_eq.
  pose proof (Z.quot_abs x y ltac:(lia)) as Habs. rewrite (Z.abs_eq y) in Habs by lia.
  rewrite Z.quot_div_nonneg in Habs by lia.
  assert (Z.abs x / y <= Z.abs x) by (apply Z.div_le_upper_bound; nia).
  destruct (Z.le_gt_cases 0 x).
  - assert (0 <= Z.quot x y) by (apply Z.quot_pos; lia). lia.
  - assert (Z.quot x y <= 0).
    { rewrite <- (Z.opp_involutive x), Z.quot_opp_l by lia. pose proof (Z.quot_pos (- x) y). lia. }
    lia.
Qed.

(** A column on the screen at the edge of a sample, and the line of a drawn datum. *)
Lemma place_small g k d : graph_ok g -> 0 <= k -> drawn g d = true ->
  int16 (place g k d).1 = (place g k d).1 /\ int16 (place g k d).2 = (place g k d).2.
Proof.
  intros Hg Hk Hd. pose proof (edge_le g k). pose proof (edge_mono g 0 k Hg ltac:(lia)).
  apply bool_decide_eq_true in Hd. destruct Hg. cbn [place fst snd]. unfold bottom.
  split; apply int16_small; lia.
Qed.

Lemma path_snoc g i rows row d : aget row i = Some d -> forall k,
  path g i k (rows ++ [row]) = path g i k rows ++ places g (k + Z.of_nat (length rows)) d.
Proof.
  intros Hd. induction rows as [|r rows IH]; intros k; cbn [path app length].
  - rewrite Hd, app_nil_r, Z.add_0_r. done.
  - rewrite IH, <- app_assoc. by replace (k + 1 + Z.of_nat (length rows)) with (k + Z.of_nat (S (length rows))) by lia.
Qed.

(** The last place of a trace is on the screen. *)
Definition on_screen (t : Trace_t) : Prop := int16 (tr_last_x t) = tr_last_x t /\ int16 (tr_last_y t) = tr_last_y t.

(** One trace: it makes its mark, and its last place is kept. *)
Lemma plot_trace_eq s i d t P k :
  graph_ok (graph s) -> g_axis (graph s) = k -> 0 < k ->
  aget (traces s) i = Some (retrace P t) -> Forall on_screen (traces s) ->
  - 2 ^ 31 <= d * g_y2 (graph s) < 2 ^ 31 ->
  exists t', plot_trace (edge (graph s) k) (bottom (graph s)) i d s =
      Some (tt, mkPlot (graph s) (aset (traces s) i t') (background s) (gcalls s ++ mark (graph s) t P k d)) /\
    t' = retrace (P ++ places (graph s) k d) t /\ on_screen t'.
Proof.
  intros Hg Hax Hk Ht HF Hd. set (g := graph s) in *.
  assert (on_screen (retrace P t)) as Hon by (exact (Forall_aget _ _ _ _ HF Ht)).
  unfold plot_trace. rewrite bind_get. unfold tbind at 1. fold g. rewrite int_value_eq by done.
  unfold tbind at 1. rewrite int_quot_eq by (done || destruct Hg; lia). rewrite bind_get. unfold tbind at 1.
  unfold tlift at 1. rewrite Ht.
  assert (line_type (retrace P t) = line_type t /\ tr_color (retrace P t) = tr_color t) as [-> ->].
  { unfold retrace. destruct (_ =? LINE); [|done]. by destruct (last P) as [[]|]. }
  fold (height g d). unfold mark, places.
  destruct (drawn g d) eqn:Ed; cycle 1.
  { assert ((height g d >=? g_min_y g) && (height g d <=? g_max_y g) = false) as ->.
    { apply bool_decide_eq_false in Ed. apply andb_false_iff. rewrite Z.geb_leb, !Z.leb_gt. lia. }
    exists (retrace P t). cbn [negb place]. rewrite !app_nil_r, aset_id by done. by destruct s. }
  pose proof (place_small g k d Hg ltac:(lia) Ed) as [Hx Hy]. cbn [place fst snd] in Hx, Hy.
  assert ((height g d >=? g_min_y g) && (height g d <=? g_max_y g) = true) as ->.
  { apply bool_decide_eq_true in Ed. rewrite Z.geb_leb. apply andb_true_iff. rewrite !Z.leb_le. lia. }
  cbn [negb place]. rewrite Hax.
  assert (retrace (P ++ [place g k d]) t =
    if line_type t =? LINE then set_last (g_x1 g + edge g k - 1) (bottom g - height g d) t else t) as Hre.
  { unfold retrace. by rewrite last_snoc. }
  destruct (line_type t =? POINTS) eqn:Ep.
  { assert ((line_type t =? LINE) = false) as El by (to_prop; unfold POINTS, LINE in *; lia).
    rewrite El in Hre. exists (retrace P t). unfold draw_pixel. rewrite Hx, Hy, aset_id by done.
    split_and!; [done| |done]. rewrite Hre. unfold retrace. by rewrite El. }
  destruct (line_type t =? LINE) eqn:El; cycle 1.
  { exists (retrace P t). rewrite app_nil_r, aset_id by done. split_and!; [by destruct s| |done].
    rewrite Hre. unfold retrace. by rewrite El. }
  assert (retrace P t = match last P with Some (x, y) => set_last x y t | None => t end) as Hrt
    by (unfold retrace; by rewrite El).
  eexists. split_and!; cycle 1.
  - symmetry. exact Hre.
  - by split.
  - unfold put_trace, draw_line. rewrite Hx, Hy. destruct Hon as [Hox Hoy]. rewrite Hox, Hoy, Hrt.
    destruct (k =? 1) eqn:E1.
    + to_prop. replace (g_x1 g + k - 1) with (g_x1 g) by lia.
      rewrite (int16_small (g_x1 g)) by (destruct Hg; lia). unfold draw, tbind, tset. cbn [graph traces background gcalls].
      destruct (last P) as [[]|]; reflexivity.
    + unfold draw, tbind, tset. cbn [graph traces background gcalls]. destruct (last P) as [[]|]; reflexivity.
Qed.

(** The traces from [i] on, when those before have made their marks. *)
Lemma plot_traces_eq n k rows ts : forall i data s,
  let g := graph s in
  graph_ok g -> g_axis g = k -> k = Z.of_nat (length rows) + 1 ->
  0 <= i -> i + Z.of_nat n = g_ntraces g -> g_ntraces g <= Z.of_nat (length ts) ->
  g_ntraces g <= Z.of_nat (length data) -> Forall (fun d => - 2 ^ 31 <= d * g_y2 g < 2 ^ 31) data ->
  Forall on_screen (traces s) -> length (traces s) = length ts ->
  (forall j t, 0 <= j < g_ntraces g -> aget ts j = Some t ->
    aget (traces s) j = Some (retrace (path g j 1 (if j <? i then rows ++ [data] else rows)) t)) ->
  exists now, plot_traces n (edge g k) (bottom g) i (drop (Z.to_nat i) data) s =
      Some (tt, mkPlot g now (background s) (gcalls s ++ concat (map (trace_mark g ts rows data) (seqZ i (Z.of_nat n))))) /\
    tracked g ts (rows ++ [data]) now /\ Forall on_screen now.
Proof.
  induction n as [|n IH]; intros i data s g Hg Hax Hk Hi Hn Hts Hdata HF Hon Hlen Htr; cbn [plot_traces].
  - exists (traces s). rewrite app_nil_r. split_and!; [by destruct s| |done]. split; [done|].
    intros j t Hj Ht. rewrite (Htr j t Hj Ht). by rewrite (proj2 (Z.ltb_lt j i)) by lia.
  - destruct (aget_is_Some data i) as [d Hd]; [lia|]. destruct (aget_is_Some ts i) as [t Ht]; [lia|].
    assert (data !! Z.to_nat i = Some d) as Hdn by (by rewrite <- aget_nat, Z2Nat.id by lia).
    rewrite (drop_S _ _ _ Hdn).
    assert (aget (traces s) i = Some (retrace (path g i 1 rows) t)) as Hti.
    { rewrite (Htr i t) by (done || lia). by rewrite Z.ltb_irrefl. }
    destruct (plot_trace_eq s i d t (path g i 1 rows) k) as (t' & Hr & Ht' & Hon');
      [done|done|lia|done|done|exact (Forall_aget _ _ _ _ HF Hd)|].
    unfold tbind. fold g in Hr, Ht'. rewrite Hr.
    replace (S (Z.to_nat i)) with (Z.to_nat (i + 1)) by lia.
    destruct (IH (i + 1) data (mkPlot g (aset (traces s) i t') (background s)
      (gcalls s ++ mark g t (path g i 1 rows) k d))) as (now & Hr2 & Htr2 & Hon2); cbn [graph traces];
      [done|done|done|lia|lia|done|done|done|by apply Forall_aset|by rewrite length_aset| |].
    { intros j u Hj Hu. destruct (decide (i = j)) as [<-|Hne].
      - rewrite (aget_aset_eq _ _ _ _ Hti), (proj2 (Z.ltb_lt i (i + 1))) by lia.
        replace u with t by congruence. by rewrite Ht', (path_snoc g i rows data d Hd), (Z.add_comm 1), <- Hk.
      - rewrite aget_aset_ne, (Htr j u Hj Hu) by done.
        destruct (j <? i) eqn:E1, (j <? i + 1) eqn:E2; to_prop; done || lia. }
    exists now. split; [|done]. cbn [graph background gcalls] in Hr2. rewrite Hr2, (seqZ_cons i) by lia.
    cbn [map concat]. unfold trace_mark at 2. rewrite Ht, Hd, <- Hk, app_assoc.
    by replace (Z.pred (Z.of_nat (S n))) with (Z.of_nat n) by lia.
Qed.

(** The state between two samples: [a] samples of the sweep were plotted. *)
Record sweeping (s : plot) (a : Z) : Prop := {
  sw_ok : graph_ok (graph s);
  sw_axis : g_axis (graph s) = a;
  sw_last : 0 < a -> g_last_x (graph s) = edge (graph s) a;
  sw_traces : g_ntraces (graph s) <= Z.of_nat (length (traces s));
  sw_points : Forall on_screen (traces s);
}.

(** [advance], between the samples [a] and [a + 1]. *)
Lemma advance_eq s a :
  sweeping s a -> 0 <= a <= g_max_x (graph s) ->
  let g := graph s in
  let s0 := mkPlot (set_axis (a + 1) g) (traces s) (background s) (gcalls s ++ [GAcquire]) in
  exists g',
    advance (Z.quot (g_x2 g * (a + 1)) (g_max_x g)) (bottom g) s0 =
      Some ((edge g (a + 1), a =? g_max_x g),
        mkPlot g' (traces s) (background s) (gcalls s0 ++ bar g (a + 1) ++ [clear g (background s) (a + 1)])) /\
    frame g' = frame g /\ g_axis g' = a + 1 /\ (a < g_max_x g -> g_last_x g' = edge g (a + 1)).
Proof.
  intros [Hg Hax Hlast Htr _] Ha g s0. fold g in Hg, Hax, Hlast, Htr, Ha.
  pose proof (edge_mono g a (a + 1) Hg ltac:(lia)) as He. pose proof (edge_le g (a + 1)) as Hemax.
  pose proof Hg as [Hm Hw Hx Hr Hh Hy Hb Hmy _ _ _].
  assert (forall x cx, x = edge g a -> cx = edge g (a + 1) - edge g a ->
    fill_area (g_x1 g + x) (g_y1 g) cx (g_y2 g) (background s) = draw (clear g (background s) (a + 1))) as Hfill.
  { intros x cx -> ->. unfold fill_area, clear. replace (a + 1 - 1) with a by lia. by rewrite !int16_small by lia. }
  unfold advance. rewrite !bind_get. cbn [graph s0 background].
  change (g_axis (set_axis (a + 1) g)) with (a + 1). change (g_max_x (set_axis (a + 1) g)) with (g_max_x g).
  change (g_x2 (set_axis (a + 1) g)) with (g_x2 g). change (g_x1 (set_axis (a + 1) g)) with (g_x1 g).
  change (g_y1 (set_axis (a + 1) g)) with (g_y1 g). change (g_y2 (set_axis (a + 1) g)) with (g_y2 g).
  change (g_last_x (set_axis (a + 1) g)) with (g_last_x g).
  change (g_refresh_bar (set_axis (a + 1) g)) with (g_refresh_bar g).
  change (g_fg_color (set_axis (a + 1) g)) with (g_fg_color g).
  unfold bar. destruct (decide (a = g_max_x g)) as [Ea|Ea].
  - rewrite (proj2 (Z.gtb_lt _ _)), (proj2 (Z.leb_gt (a + 1) _)), (proj2 (Z.eqb_eq _ _) Ea) by lia.
    assert ((if Z.quot (g_x2 g * (a + 1)) (g_max_x g) >? g_x2 g + 1 then g_x2 g + 1
             else Z.quot (g_x2 g * (a + 1)) (g_max_x g)) = edge g (a + 1)) as ->.
    { unfold edge. destruct (_ >? _) eqn:E; to_prop; lia. }
    rewrite Hfill by (rewrite Hlast by lia; lia).
    eexists. split_and!; [reflexivity|done|done|lia].
  - rewrite Z.gtb_ltb, (proj2 (Z.ltb_ge _ _)), (proj2 (Z.leb_le (a + 1) _)), (proj2 (Z.eqb_neq _ _) Ea) by lia.
    rewrite (edge_inside g (a + 1)) by (done || lia).
    assert ((if a + 1 =? 1 then fill_area (g_x1 g) (g_y1 g) (edge g (a + 1)) (g_y2 g) (background s)
       else fill_area (g_x1 g + g_last_x g) (g_y1 g) (edge g (a + 1) - g_last_x g) (g_y2 g) (background s)) =
      draw (clear g (background s) (a + 1))) as Hclear.
    { destruct (a + 1 =? 1) eqn:E1; to_prop; [|by apply Hfill; rewrite Hlast by lia].
      replace (g_x1 g) with (g_x1 g + 0) by lia. apply Hfill; replace a with 0 by lia; rewrite edge_0 by done; lia. }
    unfold pl in Hclear. rewrite Hclear. clear Hclear.
    unfold draw_line, bottom. rewrite !(int16_small (_ + _)), (int16_small (g_y1 g)), (int16_small (_ - 1)) by lia.
    eexists. split_and!.
    + rewrite !app_assoc. destruct (g_refresh_bar g =? 1); cbn; rewrite ?app_nil_r; reflexivity.
    + done.
    + done.
    + intros _. cbn. apply int16_small. lia.
Qed.

(** One sample: it makes the calls of the specification, without leaving an array,
    and after the last sample the sweep begins again. *)
Lemma Graph_AddTraceData_lemma s rows ts data :
  let a := Z.of_nat (length rows) in let g := graph s in
  sweeping s a -> a <= g_max_x g -> tracked g ts rows (traces s) -> samples_ok g data ->
  exists s', Graph_AddTraceData data s = Some (tt, s') /\
    sweeping s' (if a =? g_max_x g then 0 else a + 1) /\ frame (graph s') = frame g /\
    background s' = background s /\ tracked g ts (rows ++ [data]) (traces s') /\
    gcalls s' = gcalls s ++ sample_calls g (background s) ts rows data.
Proof.
  intros a g Hs Ha [Hlen Htk] [Hn Hd]. pose proof Hs as [Hg Hax Hlast Htr Hon]. fold g in Hg, Hax, Hlast, Htr.
  pose proof Hg as [Hm _ _ _ _ _ _ Hmy _ _ Hnt].
  set (s0 := mkPlot (set_axis (a + 1) g) (traces s) (background s) (gcalls s ++ [GAcquire])).
  destruct (advance_eq s a Hs (conj (Nat2Z.is_nonneg _) Ha)) as (g' & Hadv & Hf & Hax' & Hl'). fold g s0 in Hadv, Hf, Hax', Hl'.
  set (s1 := mkPlot g' (traces s) (background s) (gcalls s0 ++ bar g (a + 1) ++ [clear g (background s) (a + 1)])) in Hadv.
  assert (g_ntraces g' = g_ntraces g) as Fn by (by_frame g_ntraces).
  assert (edge g' (a + 1) = edge g (a + 1)) as Fe by (by_frame (fun g => edge g (a + 1))).
  assert (bottom g' = bottom g) as Fb by (by_frame bottom).
  destruct (plot_traces_eq (Z.to_nat (g_ntraces g)) (a + 1) rows ts 0 data s1) as (now & Hpt & Htr' & Hon');
    cbn [graph s1 traces]; rewrite ?Fn;
    [by apply (graph_ok_frame g)|done|done|lia|lia|lia|done| |done|done| |].
  { by apply (samples_ok_frame g g' data Hf). }
  { intros j t Hj Ht. rewrite (proj2 (Z.ltb_ge j 0)), (Htk j t) by (done || lia). do 2 f_equal. symmetry. by_frame (fun g => path g j 1 rows). }
  cbn [graph s1] in Hpt. change (Z.to_nat 0) with 0%nat in Hpt. rewrite drop_0, Fe, Fb in Hpt.
  set (g2 := if a =? g_max_x g then set_axis 0 g' else g').
  assert (frame g2 = frame g) as Hf2 by (unfold g2; destruct (a =? g_max_x g); [rewrite <- Hf; by destruct g'|done]).
  eexists (mkPlot g2 now (background s) _). split_and!; cbn [graph traces background gcalls].
  - unfold Graph_AddTraceData. rewrite bind_get. unfold draw at 1. rewrite bind_set. unfold upd_graph at 1.
    rewrite bind_set, bind_get. cbn [graph traces background gcalls].
    assert (int16 (g_axis (graph s) + 1) = a + 1) as -> by (fold g; rewrite Hax; apply int16_small; unfold a in *; lia).
    fold g s0.
    change (g_axis (set_axis (a + 1) g)) with (a + 1). change (g_x2 (set_axis (a + 1) g)) with (g_x2 g).
    change (g_max_x (set_axis (a + 1) g)) with (g_max_x g).
    unfold tbind at 1. rewrite int_quot_eq; [|destruct Hg; unfold a in *; nia|lia].
    unfold tbind at 1. fold (bottom g). rewrite Hadv. cbn [fst snd].
    change (g_ntraces (set_axis (a + 1) g)) with (g_ntraces g).
    rewrite (proj2 (Z.ltb_ge (g_ntraces g) 0)) by lia. unfold tbind at 1. rewrite Hpt.
    unfold g2. destruct (a =? g_max_x g); reflexivity.
  - assert (g_ntraces g2 = g_ntraces g) as Fn2 by (by_frame g_ntraces).
    split; cbn [graph traces].
    + by apply (graph_ok_frame g).
    + unfold g2. destruct (a =? g_max_x g); [done|by rewrite Hax'].
    + intros Hpos. transitivity (edge g (if a =? g_max_x g then 0 else a + 1)); [|symmetry; by_frame (fun g3 => edge g3 (if a =? g_max_x g then 0 else a + 1))].
      unfold g2. destruct (a =? g_max_x g) eqn:E; to_prop; [done|]. apply Hl'. lia.
    + rewrite Fn2. destruct Htr' as [-> _]. lia.
    + done.
  - done.
  - done.
  - by apply (tracked_frame g').
  - cbn. rewrite Z2Nat.id by lia. rewrite <- !app_assoc. cbn. do 5 f_equal.
    f_equal. apply map_ext. intros i. by_frame (fun g => trace_mark g ts rows data i).
Qed.

(** What a sample and a sweep clear. *)
Lemma cleared_app g bg cs1 cs2 : cleared g bg (cs1 ++ cs2) = cleared g bg cs1 ++ cleared g bg cs2.
Proof. unfold cleared. by rewrite map_app, concat_app. Qed.

Lemma marks_not_fills g ts rows data l x y cx cy color :
  GFillArea x y cx cy color ∉ concat (map (trace_mark g ts rows data) l).
Proof.
  induction l as [|i l IH]; cbn; [apply not_elem_of_nil|]. rewrite not_elem_of_app. split; [|done].
  unfold trace_mark, mark, place. repeat case_match; rewrite ?list_elem_of_singleton; try done; apply not_elem_of_nil.
Qed.

Lemma cleared_nil g bg cs : (forall x y cx cy color, GFillArea x y cx cy color ∉ cs) -> cleared g bg cs = [].
Proof.
  induction cs as [|c cs IH]; intros H; [done|].
  change (cleared g bg (c :: cs)) with (columns g bg c ++ cleared g bg cs). rewrite IH.
  - destruct c; try done. by destruct (H x y cx cy color); left.
  - intros x y cx cy color Hin. apply (H x y cx cy color). by right.
Qed.

Lemma bar_not_fill g k x y cx cy color : GFillArea x y cx cy color ∉ bar g k.
Proof. unfold bar. case_match; rewrite ?list_elem_of_singleton; [done|apply not_elem_of_nil]. Qed.

Lemma sample_cleared g bg ts rows data : let a := Z.of_nat (length rows) in
  cleared g bg (sample_calls g bg ts rows data) = seqZ (g_x1 g + edge g a) (edge g (a + 1) - edge g a).
Proof.
  intros a. unfold sample_calls. rewrite !cleared_app, (cleared_nil g bg (bar _ _)) by apply bar_not_fill.
  rewrite (cleared_nil g bg (concat _)) by apply marks_not_fills.
  cbn. rewrite decide_True, !app_nil_r by done. fold a. by replace (a + 1 - 1) with a by lia.
Qed.

Lemma sample_only_clears g bg ts rows data : only_clears g bg (sample_calls g bg ts rows data).
Proof.
  intros x y cx cy color. unfold sample_calls. rewrite !elem_of_app, !list_elem_of_singleton.
  intros [?|[?|[E|[?|?]]]]; try done; [by destruct (bar_not_fill g (Z.of_nat (length rows) + 1) x y cx cy color)|by injection E|].
  by destruct (marks_not_fills g ts rows data (seqZ 0 (g_ntraces g)) x y cx cy color).
Qed.

Lemma seqZ_join x a b c : 0 <= a <= b -> b <= c -> seqZ (x + a) (b - a) ++ seqZ (x + b) (c - b) = seqZ (x + a) (c - a).
Proof.
  intros Ha Hb. replace (c - a) with ((b - a) + (c - b)) by lia. rewrite seqZ_app by lia.
  by replace (x + a + (b - a)) with (x + b) by lia.
Qed.

Lemma sweep_cleared g bg ts ds : graph_ok g -> forall rows,
  let a := Z.of_nat (length rows) in let b := a + Z.of_nat (length ds) in
  cleared g bg (sweep_calls g bg ts rows ds) = seqZ (g_x1 g + edge g a) (edge g b - edge g a).
Proof.
  intros Hg. induction ds as [|data ds IH]; intros rows a b; subst a b; cbn [sweep_calls length].
  - rewrite Z.add_0_r, Z.sub_diag. done.
  - rewrite cleared_app, sample_cleared, IH, length_app. cbn [length].
    replace (Z.of_nat (length rows + 1)) with (Z.of_nat (length rows) + 1) by lia.
    replace (Z.of_nat (length rows) + 1 + Z.of_nat (length ds)) with (Z.of_nat (length rows) + Z.of_nat (S (length ds))) by lia.
    apply seqZ_join; apply edge_mono; done || lia.
Qed.

Lemma sweep_only_clears g bg ts ds : forall rows, only_clears g bg (sweep_calls g bg ts rows ds).
Proof.
  induction ds as [|data ds IH]; intros rows x y cx cy color; cbn [sweep_calls]; [by rewrite elem_of_nil|].
  rewrite elem_of_app. intros [H|H]; [by eapply sample_only_clears|by eapply IH].
Qed.

(** Adding the samples of [ds] one after the other. *)
Fixpoint add_all (ds : list (list Z)) : pl unit :=
  match ds with [] => tret tt | data :: ds' => Graph_AddTraceData data ;;; add_all ds' end.

Lemma add_all_eq ts ds : forall s rows,
  let g := graph s in
  sweeping s (Z.of_nat (length rows)) -> tracked g ts rows (traces s) ->
  Z.of_nat (length rows) + Z.of_nat (length ds) = g_max_x g + 1 -> (0 < length ds)%nat ->
  Forall (samples_ok g) ds ->
  exists s', add_all ds s = Some (tt, s') /\ sweeping s' 0 /\ frame (graph s') = frame g /\
    gcalls s' = gcalls s ++ sweep_calls g (background s) ts rows ds.
Proof.
  induction ds as [|data ds IH]; intros s rows g Hs Htk Hlen Hpos HF; cbn [length] in *; [lia|].
  apply Forall_cons in HF as [H1 HF].
  destruct (Graph_AddTraceData_lemma s rows ts data Hs) as (s1 & Hr & Hs1 & Hf & Hbg & Htk1 & Hc); [fold g; lia|done|done|].
  fold g in Hs1, Hf, Htk1, Hc. cbn [add_all sweep_calls]. unfold tbind. rewrite Hr. destruct ds as [|data2 ds].
  - exists s1. cbn [length] in Hlen. replace (Z.of_nat (length rows)) with (g_max_x g) in Hs1 by lia.
    rewrite Z.eqb_refl in Hs1. rewrite app_nil_r. by split_and!.
  - cbn [length] in *. rewrite (proj2 (Z.eqb_neq _ _)) in Hs1 by lia.
    assert (g_max_x (graph s1) = g_max_x g) as F1 by (by_frame g_max_x).
    destruct (IH s1 (rows ++ [data])) as (s2 & Hr2 & Hs2 & Hf2 & Hc2); rewrite ?length_app; cbn [length].
    + by replace (Z.of_nat (length rows + 1)) with (Z.of_nat (length rows) + 1) by lia.
    + by apply (tracked_frame g).
    + rewrite F1. lia.
    + lia.
    + eapply Forall_impl; [exact HF|]. intros d Hd. by apply (samples_ok_frame g).
    + exists s2. rewrite Hr2. split_and!; [done|done|congruence|].
      by rewrite Hc2, Hc, Hbg, <- app_assoc, (sweep_calls_frame g (graph s1)).
Qed.

(** C39: A sweep.  Take a graph at the start of a sweep that fits on the screen
    ([graph_ok]: the coordinates of the plot and of the limits of its y axis fit in
    16 bits, [max_x] is below 32767 and [max_y] positive), whose traces exist and have
    their last places on the screen, and [max_x + 1] samples of every trace, of any
    values whose products with the height fit in an [int].  The samples are added without leaving an array, with exactly
    the calls of [sweep_calls], and then the next sweep begins: each sample but the
    last draws the bar at its edge, where the graph has one; then it clears the area
    between the previous edge and its own, in the colour of the background and over
    the whole height of the plot; and then every trace makes its mark in the column
    before the edge, at the height [datum * y2 / max_y] above the lowest line -- a
    pixel, or a line from the trace's previous place (from the left of the plot in
    the first sample), nothing for other types of traces -- unless that height in
    pixels is outside the limits [min_y] and [max_y] of the data, when the trace is
    left out.  Nothing else is filled; together the samples clear every column of the
    plot exactly once, from left to right, and at most one column to its right; and
    the place of a sample is in no column that the rest of the sweep clears. *)
Theorem graph_sweep s ds :
  let g := graph s in let bg := background s in
  sweeping s 0 -> Z.of_nat (length ds) = g_max_x g + 1 -> Forall (samples_ok g) ds ->
  let cs := sweep_calls g bg (traces s) [] ds in
  exists s' w, add_all ds s = Some (tt, s') /\ sweeping s' 0 /\ gcalls s' = gcalls s ++ cs /\
    only_clears g bg cs /\ cleared g bg cs = seqZ (g_x1 g) w /\ g_x2 g <= w <= g_x2 g + 1 /\
    (forall before after d column, ds = before ++ after ->
      column ∈ cleared g bg (sweep_calls g bg (traces s) before after) ->
      (place g (Z.of_nat (length before)) d).1 < column).
Proof.
  intros g bg Hs Hlen HF cs. pose proof (sw_ok _ _ Hs) as Hg. fold g in Hg. pose proof (go_max_x _ Hg).
  destruct (add_all_eq (traces s) ds s [] Hs) as (s' & Hr & Hs' & _ & Hc); [|cbn; fold g; lia|lia|done|].
  { split; [done|]. intros i t _ Ht. rewrite Ht. unfold retrace. cbn. by destruct (_ =? LINE). }
  exists s', (edge g (g_max_x g + 1)). split_and!; try done.
  - apply sweep_only_clears.
  - unfold cs. rewrite sweep_cleared, Hlen by done. cbn [length]. rewrite Z.add_0_l, edge_0 by done.
    by rewrite Z.add_0_r, Z.sub_0_r.
  - rewrite <- (edge_max _ Hg) at 1. apply edge_mono; [done|lia].
  - apply edge_le.
  - intros before after d column -> Hin. rewrite sweep_cleared in Hin by done.
    apply elem_of_seqZ in Hin. cbn. lia.
Qed.

(** ** Examples

    A plot of 200 by 100 pixels at (30, 15), for 100 samples of one trace. *)
Definition sample_graph (max_y : Z) : plot :=
  mkPlot (mkGraph 0 0 245 130 30 15 200 100 0 100 max_y 0 0 0 4 1 2 1 0 0 0) [mkTrace POINTS 1 7 0 0] 9 [].

Lemma graph_sweep_witness :
  let s := sample_graph 100 in let ds := replicate 101 [60] in
  let cs := sweep_calls (graph s) 9 (traces s) [] ds in
  exists s' w, add_all ds s = Some (tt, s') /\ sweeping s' 0 /\ gcalls s' = cs /\
    only_clears (graph s) 9 cs /\ cleared (graph s) 9 cs = seqZ 30 w /\ 200 <= w <= 201 /\
    (forall before after d column, ds = before ++ after ->
      column ∈ cleared (graph s) 9 (sweep_calls (graph s) 9 (traces s) before after) ->
      (place (graph s) (Z.of_nat (length before)) d).1 < column).
Proof.
  apply (graph_sweep (sample_graph 100) (replicate 101 [60])); [|done|].
  - split; [by split|done|done|done|by repeat constructor].
  - apply Forall_replicate. split; [done|]. by constructor.
Defined.

(** A line through three samples; the first is drawn from the left of the plot. *)
Example line_calls :
  let g := mkGraph 0 0 245 130 30 15 200 100 0 100 100 0 1 0 4 1 2 1 0 0 0 in
  sweep_calls g 9 [mkTrace LINE 1 7 0 0] [] [[60]; [120]; [50]] =
  [GAcquire; GDrawLine 32 15 32 114 2; GFillArea 30 15 2 100 9; GDrawLine 31 54 30 54 7; GRelease;
   GAcquire; GDrawLine 34 15 34 114 2; GFillArea 32 15 2 100 9; GRelease;
   GAcquire; GDrawLine 36 15 36 114 2; GFillArea 34 15 2 100 9; GDrawLine 31 54 35 64 7; GRelease].
Proof. by vm_compute. Qed.

(** When the first sample of a sweep is left out, the second is joined to the last
    place of the sweep before, at the other end of the plot. *)
Example line_across :
  let g := mkGraph 0 0 245 130 30 15 200 100 0 100 100 0 0 0 4 1 2 1 0 0 0 in
  sweep_calls g 9 [mkTrace LINE 1 7 230 44] [] [[120]; [50]] =
  [GAcquire; GFillArea 30 15 2 100 9; GRelease;
   GAcquire; GFillArea 32 15 2 100 9; GDrawLine 230 44 33 64 7; GRelease].
Proof. by vm_compute. Qed.

(** The pixels drawn by a sample. *)
Definition pixels (max_y datum : Z) : option (list gcall) :=
  match Graph_AddTraceData [datum] (sample_graph max_y) with
  | Some (_, s) => Some (List.filter (fun c => match c with GDrawPixel _ _ _ => true | _ => false end) (gcalls s))
  | None => None
  end.

(** The place on the screen is compared with the limits of the data: with data from
    0 to 10 only what lies in the lowest tenth is plotted, and with data from 0 to
    1000 a sample four times too large is plotted above the plot, off the screen. *)
Example graph_sample_missing : pixels 10 5 = Some [].
Proof. by vm_compute. Qed.
Example graph_sample_outside : pixels 1000 4000 = Some [GDrawPixel 31 (-286) 7].
Proof. by vm_compute. Qed.

(** The margin for the numbers at the y axis: when the lower limit is the longer
    text, no room is left for either. *)
Definition margin_of (minimum_y maximum_y : Z) : option Z :=
  match Graph_Init (fun t => match t with Local l => 8 * Z.of_nat (length l) | Pointer _ => 0 end)
          0 0 245 130 100 minimum_y maximum_y 0 1 2 1 0 0 0 (sample_graph 100) with
  | Some (_, s) => Some (g_x1 (graph s) - g_x (graph s))
  | None => None
  end.
Example graph_margins : margin_of 0 1000 = Some 45 /\ margin_of (-1000) 10 = Some 15.
Proof. by vm_compute. Qed.
